(* ===== verification/_CoqProject ===== *)
-Q . S2P
Prelude.v
Wire.v
UsbStream.v
Adapter.v
Recovery.v
BootEvent.v
RcpHost.v
RcpFw.v
FwPath.v
CmdQueue.v
SdioHost.v
SdioFw.v
SdioRx.v
SdioTx.v
SdioSend.v
SdioLink.v
NetPath.v
NetLink.v
PrioQueue.v
SpiHost.v
SpiData.v
SpiFw.v
SpiBoot.v
SpiLink.v
UsbHost.v
UsbRx.v
UsbTx.v
RawTp.v
RawTpRun.v
MgmtTx.v
FwCmd.v
FwHandlers.v
FwCmdSafe.v
FwCmdState.v
HostCmd.v
CmdLink.v
