(* ===== verification/Prelude.v ===== *)
(** * ESP-Hosted-Linux: a verification development

    [src/host] is a Linux kernel driver that uses an ESP chip as a network card
    over USB, SDIO or SPI; [src/esp/esp_driver] is the firmware on the chip.  This
    library models the core of both and the wire between them, and proves what
    makes it correct.  This file is the prelude: record update, integers of a
    width, byte strings as [list Z], an error monad with Hoare rules, and the list
    and arithmetic lemmas the other files share.

    ** The parts

    - [Wire]: [host/include/adapter.h], [esp_host_wire_bounds.h].  The 12-byte
      payload header, the bounds predicate every receiver applies, the checksum
      with its unrolled loop, padding.  Round trip of the header, the checksum
      equal to the byte sum, and that a sent frame is accepted.
    - [UsbStream]: [host/usb/esp_usb.c] (receive) and
      [main/usb/esp_usb_device.c] (both pipes).  Frames from the device arrive
      exactly, however the bulk transfers cut the stream; a malformed stream is
      never dropped silently; the writer's loop ends having sent everything.
    - [Adapter]: [struct esp_adapter], its flag word and the transports' table of
      recovery operations ([struct esp_if_ops]).
    - [Recovery]: the recovery state machine of [host/main.c]: the scheduling
      functions, the delayed worker, bounded restarts, the reconstruction
      brackets.  A step relation interleaves them; its invariants say that resets
      are bounded, that a request that arrives late is never lost, and that the
      back-off is a ladder.  One theorem shows a live resynchronisation that no
      timer watches.
    - [BootEvent]: [process_event_esp_bootup] and its classifiers
      ([host/main.c]), and the firmware's builder.  Acceptance implies the checks,
      every failure re-arms recovery, what the firmware builds is accepted, and
      the metadata is independent of the state before.
    - [RcpHost], [RcpFw]: the two ends of the 802.15.4 byte pipe
      ([host/esp_rcp.c]; [main/esp_rcp.c] with the send queues of [app_main.c]).
      Session life cycle, stale file handles, exact streams in both directions,
      conservation of the transmit slots.
    - [FwPath]: [process_rx_pkt] of [main/app_main.c] (the walk over a host
      aggregate, its dispatch and its fail-closed checks), Wi-Fi retries, radio
      services, interrupts of the host.
    - [CmdQueue]: the request/response channel of [host/esp_cmd.c]: node pool,
      pending queue, worker, matching, time-outs, decoders, teardown, as a
      transition system.  A caller that succeeds has its own response; a command
      that timed out is quarantined.
    - [SdioHost]: the control half of [host/sdio/esp_sdio.c] over an abstract MMC
      core ([mmc]), down to the operation table [sdio_ops], which is proved to
      meet the interface [Recovery] relies on.
    - [SdioRx], [SdioTx]: its data path: interrupt, [PACKET_LEN], the walk over a
      received aggregate; the transmit thread with its credits, which never
      overruns the slave's buffers.
    - [SdioFw]: the slave side ([main/sdio_slave_api.c]) and the low-priority
      sender of [app_main.c].
    - [SdioSend]: what the transmit thread puts on the bus while others send.
    - [SdioLink]: both ends together.  A device-to-host aggregate arrives whole
      and in order; and the host's reset handshake against the firmware's worker.
    - [PrioQueue], [SpiHost], [SpiData]: [host/spi/esp_spi.c] over an abstract
      controller and GPIOs ([spi_bus]): the gate, the reset budget, the operation
      table [spi_ops] (which meets the interface of [Recovery]); queues, the
      checks of a received buffer and the transaction worker.
    - [SpiFw]: [main/spi_slave_api.c]: slots and receive buffers, arming of a
      transaction, the post-processing task, both checks, the boot event.
    - [SpiBoot]: the bootstrap exchange and the reset worker.  A reboot counts as
      acknowledged only on a fresh, checksummed reply; a reset ends with the gate
      closed or with the boot event queued.  One theorem shows that the firmware's
      boot event is never recognised there.
    - [SpiLink]: both ends of SPI together, as a step relation of the host's
      worker and threads and the firmware's tasks.  Both streams are exact, the
      link never stalls while the task's turns are not interrupted, and a write
      inside a turn can be left behind.
    - [UsbHost]: the rest of [host/usb/esp_usb.c] over an abstract host controller
      ([usb_hc]), down to the operation table [usb_ops], which meets the interface
      of [Recovery].
    - [UsbRx]: its receive URBs and its binding.  No slot is lost silently, a
      recovery arms all of them or none, a failed [probe] leaves nothing behind.
    - [UsbTx]: its transmit path as a step relation of writers, worker, completions,
      flushes and resets.  The counters are exact, frames leave in order, a flush is
      a boundary for its interface, and the queue drains.
    - [NetPath]: [host/main.c] above the transports - the checks and the dispatch
      of received frames, [esp_hard_start_xmit] - and the HCI device of
      [host/esp_bt.c].  Only EAPOL passes a closed port; a corrupt frame reaches
      nobody; an HCI buffer has one owner.
    - [MgmtTx]: management frames of the access point ([main/cmd.c]): the tracked
      transaction with its timer, and the deferred response of an older host.  The
      command, Wi-Fi and timer tasks interleave; every frame is settled once, its
      copy freed once.  One theorem shows a timer that outlives its transaction.
    - [FwCmd], [FwHandlers]: the rest of the command task of [main/cmd.c] as a
      monad over its file-scope variables ([fcmd]) and the calls into the SDK
      ([sdk]): Wi-Fi stop and start with their event fence, the monitor interface of
      [app_main.c], every handler, the table and [esp_cmd_dispatch].
    - [FwCmdSafe]: a handler never reads past its payload, and a command has exactly
      one response.  [FwCmdState]: a stop leaves nothing running, a mode change is
      committed, rolled back, or restarts the chip.
    - [RawTp]: the raw throughput test's pattern and receive counters
      ([host/esp_stats.c], [main/stats.c]).  Both generators write the same bytes; the
      64-bit window's counters are those of the set of numbers received.
    - [RawTpRun]: its runs: the firmware's producer task against the command task,
      the host's control.  One producer at most, stops that end, a clean link measured
      as clean; and a run that starts while the producer holds an old number.
    - [HostCmd]: the other half of [host/esp_cmd.c]: what every [cmd_*] function checks
      and sends, and [esp_start_ota] of [host/main.c].  What waits in the queue is the
      payload header and the bytes the firmware's handler reads.
    - [CmdLink]: a request, the firmware's dispatcher and handler, and the host's
      matching of the response, as one exchange without losses.  Every request fits
      its handler; a key that was reported installed reached the SDK as cfg80211 gave
      it; an update that was reported successful wrote exactly the file.
    - [NetLink]: the path of a packet from end to end: from the firmware's queue to
      the host's network stack, and from the host's queues into the firmware.

    ** How the code is translated

    A critical section (a spin lock, a mutex held from beginning to end) is one
    function on an explicit state.  Where the code sleeps or drops its locks the
    function is either cut in two ([worker], [esp_rcp_open_begin]/[_end],
    [wait_and_decode_end]) and a step relation interleaves the pieces, or takes
    what the other threads do there as an argument ([wake], [others]).  Theorems
    quantify over these, with what they need of them as hypotheses.  Return codes
    are the C code's integers.  Integers of a width are [Z], with [u8], [u16],
    [u32] written where the code truncates.

    Code that is not in the repository is a parameter: the MMC core and the card
    ([mmc]), the SPI controller ([spi_bus]), the USB host controller ([usb_hc]), the ESP-IDF slave drivers (environment
    records of return codes), the
    Wi-Fi library, the clock, allocation, copies to user space.  The laws assumed
    of it are classes ([RxCard], [TxCard], [IfOpsLaws] and the like), each with
    an instance that a witness runs.

    ** Bounds and fuel

    A loop over data is recursive on the data, or on a fuel that is the data's
    length, with a lemma that this is enough ([parse_loop], [low_prio_loop_fuel],
    [has_stateful_from]).  A poll until a deadline has a fuel of the deadline's
    ticks, each turn letting one pass.  The loop of the recovery requests turns at
    most [RECOVER_REQUESTS] times, since each turn consumes a request bit.  The
    USB worker's loop turns once more than [ESP_USB_TX_URBS], each turn but the last
    submitting an URB.  A management request takes at most [MGMT_TURNS] turns
    between its critical sections.  The receive window has 64 bits ([SLIDE_FUEL]) and
    the catch-up after a gap at most [CATCH_UP_FUEL] turns.  The SDIO transmit thread may wait for credits for ever: [None] says that it still
    waits after the given turns, and its theorem is one of safety.

    ** What is not modelled

    The event handlers of [host/esp_cmd.c] and its bookkeeping of cfg80211 objects,
    [esp_cfg80211.c] and the Wi-Fi callbacks of the firmware's [cmd.c] (EAPOL,
    supplicant and access-point hooks, connect and disconnect events) are glue to
    the kernel's and the chip's Wi-Fi stacks, which are not in the repository.  Of
    the statistics only what counts is modelled, not the tasks that print.  Probe and
    removal of the SDIO and SPI devices, and the DMA descriptors of the slave
    drivers, belong to the bus frameworks.  SPI transactions have the full length the
    host asks for.  The half-duplex SPI transport is not modelled: it repeats the
    structure of the SPI one with its own register protocol. *)
From stdpp Require Export prelude list gmap.
From Stdlib Require Export ZArith Lia.

#[global] Open Scope Z_scope.

(** ** Functional record update

    [s <| f := v |>] is the C assignment [s->f = v] on a copied record.  A
    record type opts in by giving its eta-expansion as an [Eta] instance; the
    setter of a field is then found by abstracting that field's projection. *)
Class Eta (R : Type) := eta_expand : R -> R.
Class Setter {R T : Type} (proj : R -> T) := update : (T -> T) -> R -> R.
Arguments update {R T} proj {_} _ _ /.

Ltac derive_setter :=
  match goal with
  | |- @Setter ?R _ ?proj =>
      let inst := constr:(_ : Eta R) in
      let body := eval cbv delta [eta_expand] in inst in
      let body := eval red in body in
      let abs := eval pattern proj in body in
      match abs with
      | ?f _ =>
          let s := constr:(fun g => f (fun r => g (proj r))) in
          let s := eval cbv beta in s in
          exact s
      end
  end.
#[export] Hint Extern 1 (Setter _) => derive_setter : typeclass_instances.

Declare Scope record_scope.
Delimit Scope record_scope with rec.
Notation "s <| f := v |>" := (update f (fun _ => v) s)
  (at level 12, left associativity, f at next level,
   format "s  <| f  :=  v |>") : record_scope.
#[global] Open Scope record_scope.

(** ** Machine integers: unsigned [w]-bit values are [Z], wrapped explicitly. *)
Definition wrap (w z : Z) : Z := z mod 2 ^ w.
Abbreviation u8 := (wrap 8).
Abbreviation u16 := (wrap 16).
Abbreviation u32 := (wrap 32).
Abbreviation u64 := (wrap 64).

Definition in_width (w z : Z) : Prop := 0 <= z < 2 ^ w.

Lemma wrap_range w z : 0 <= w -> in_width w (wrap w z).
Proof. intros. apply Z.mod_pos_bound. lia. Qed.

Lemma wrap_id w z : in_width w z -> wrap w z = z.
Proof. intros. by apply Z.mod_small. Qed.

Lemma wrap_wrap w z : wrap w (wrap w z) = wrap w z.
Proof. apply Zmod_mod. Qed.

Lemma wrap_add_l w a b : wrap w (wrap w a + b) = wrap w (a + b).
Proof. apply Zplus_mod_idemp_l. Qed.

#[global] Arguments wrap : simpl never.

(** ** Lists measured in [Z], as C sizes are. *)
Section zlists.
Context {A : Type}.
Implicit Types (l : list A) (n : Z).

Definition zlen l : Z := Z.of_nat (length l).
Definition ztake n l : list A := take (Z.to_nat n) l.
Definition zdrop n l : list A := drop (Z.to_nat n) l.

Lemma zlen_nonneg l : 0 <= zlen l.
Proof. unfold zlen. lia. Qed.

Lemma zlen_nil : zlen ([] : list A) = 0.
Proof. done. Qed.

Lemma zlen_cons x l : zlen (x :: l) = 1 + zlen l.
Proof. unfold zlen. simpl length. lia. Qed.

Lemma zlen_app l1 l2 : zlen (l1 ++ l2) = zlen l1 + zlen l2.
Proof. unfold zlen. rewrite length_app. lia. Qed.

Lemma zlen_ztake n l : zlen (ztake n l) = Z.min (Z.max 0 n) (zlen l).
Proof. unfold zlen, ztake. rewrite length_take. lia. Qed.

Lemma zlen_zdrop n l : zlen (zdrop n l) = zlen l - Z.min (Z.max 0 n) (zlen l).
Proof. unfold zlen, zdrop. rewrite length_drop. lia. Qed.

Lemma ztake_zdrop n l : ztake n l ++ zdrop n l = l.
Proof. apply take_drop. Qed.

Lemma ztake_ge n l : zlen l <= n -> ztake n l = l.
Proof. intros. apply take_ge. unfold zlen in *. lia. Qed.

Lemma zdrop_ge n l : zlen l <= n -> zdrop n l = [].
Proof. intros. apply drop_ge. unfold zlen in *. lia. Qed.

Lemma zdrop_le0 n l : n <= 0 -> zdrop n l = l.
Proof. intros. unfold zdrop. by replace (Z.to_nat n) with 0%nat by lia. Qed.

Lemma ztake_app_exact n l1 l2 : zlen l1 = n -> ztake n (l1 ++ l2) = l1.
Proof. intros <-. unfold ztake, zlen. rewrite Nat2Z.id. apply take_app_length. Qed.

Lemma zdrop_app_exact n l1 l2 : zlen l1 = n -> zdrop n (l1 ++ l2) = l2.
Proof. intros <-. unfold zdrop, zlen. rewrite Nat2Z.id. apply drop_app_length. Qed.

Lemma ztake_app_le n l1 l2 : n <= zlen l1 -> ztake n (l1 ++ l2) = ztake n l1.
Proof. intros. unfold ztake, zlen in *. apply take_app_le. lia. Qed.

Lemma zdrop_app_le n l1 l2 : n <= zlen l1 -> zdrop n (l1 ++ l2) = zdrop n l1 ++ l2.
Proof. intros. unfold zdrop, zlen in *. apply drop_app_le. lia. Qed.

Lemma zlen_0_nil l : zlen l = 0 -> l = [].
Proof. destruct l; [done | rewrite zlen_cons; pose proof (zlen_nonneg l); lia]. Qed.

Lemma zdrop_zdrop m n l : 0 <= m -> 0 <= n -> zdrop m (zdrop n l) = zdrop (n + m) l.
Proof. intros. unfold zdrop. rewrite drop_drop. f_equal. lia. Qed.

Lemma ztake_ztake_le m n l : m <= n -> ztake m (ztake n l) = ztake m l.
Proof. intros. unfold ztake. rewrite take_take. f_equal. lia. Qed.

Lemma ztake_add m n l : 0 <= m -> 0 <= n -> ztake (m + n) l = ztake m l ++ ztake n (zdrop m l).
Proof.
  intros. unfold ztake, zdrop. rewrite Z2Nat.inj_add by lia.
  rewrite <- (take_drop (Z.to_nat m) l) at 1.
  destruct (decide (Z.to_nat m <= length l)%nat).
  - rewrite take_app_add' by (rewrite length_take; lia). done.
  - rewrite !(drop_ge l), take_nil, !app_nil_r by lia. rewrite !take_ge; [done|lia|].
    rewrite length_take. lia.
Qed.

Lemma Forall_ztake (P : A -> Prop) n l : Forall P l -> Forall P (ztake n l).
Proof. apply Forall_take. Qed.

Lemma Forall_zdrop (P : A -> Prop) n l : Forall P l -> Forall P (zdrop n l).
Proof. apply Forall_drop. Qed.
End zlists.

#[global] Arguments zlen {A} l : simpl never.
#[global] Arguments ztake {A} n l : simpl never.
#[global] Arguments zdrop {A} n l : simpl never.

Create HintDb zlist.
Create Rewrite HintDb zlist.
#[export] Hint Rewrite @zlen_nil @zlen_cons @zlen_app @zlen_ztake @zlen_zdrop : zlist.
#[export] Hint Resolve Forall_ztake Forall_zdrop : zlist.

(** Normalise list lengths and finish by linear arithmetic. *)
Ltac zlen_nonneg_all :=
  repeat match goal with
  | |- context [zlen ?l] =>
      lazymatch goal with
      | _ : 0 <= zlen l |- _ => fail
      | _ => pose proof (zlen_nonneg l)
      end
  | _ : context [zlen ?l] |- _ =>
      lazymatch goal with
      | _ : 0 <= zlen l |- _ => fail
      | _ => pose proof (zlen_nonneg l)
      end
  end.
Ltac zlia := autorewrite with zlist in *; zlen_nonneg_all; lia.

(** ** Bytes and little-endian integers *)
Definition is_byte (b : Z) : Prop := 0 <= b < 256.
Definition bytes_ok (l : list Z) : Prop := Forall is_byte l.

(** Indexing a byte buffer; every use in the model is guarded by a length. *)
Definition byte_at (i : Z) (l : list Z) : Z := nth (Z.to_nat i) l 0.

Fixpoint le_val (l : list Z) : Z :=
  match l with
  | [] => 0
  | b :: l' => b + 256 * le_val l'
  end.

Fixpoint le_bytes (n : nat) (z : Z) : list Z :=
  match n with
  | O => []
  | S n' => z mod 256 :: le_bytes n' (z / 256)
  end.

(** [le_at n i l]: the [n]-byte little-endian integer at offset [i]. *)
Definition le_at (n : nat) (i : Z) (l : list Z) : Z :=
  le_val (ztake (Z.of_nat n) (zdrop i l)).

Lemma length_le_bytes n z : length (le_bytes n z) = n.
Proof. revert z. induction n as [|n IH]; intros z; simpl; [done|]. by rewrite IH. Qed.

Lemma zlen_le_bytes n z : zlen (le_bytes n z) = Z.of_nat n.
Proof. unfold zlen. by rewrite length_le_bytes. Qed.

Lemma le_bytes_ok n z : bytes_ok (le_bytes n z).
Proof.
  revert z. induction n as [|n IH]; intros z; simpl; constructor; [|apply IH].
  unfold is_byte. pose proof (Z.mod_pos_bound z 256). lia.
Qed.

Lemma pow2_8S n : 2 ^ (8 * Z.of_nat (S n)) = 256 * 2 ^ (8 * Z.of_nat n).
Proof.
  replace (8 * Z.of_nat (S n)) with (8 + 8 * Z.of_nat n) by lia.
  rewrite Z.pow_add_r by lia. done.
Qed.

Lemma le_val_le_bytes n z : le_val (le_bytes n z) = wrap (8 * Z.of_nat n) z.
Proof.
  unfold wrap. revert z. induction n as [|n IH]; intros z.
  - simpl. by rewrite Z.mod_1_r.
  - simpl le_bytes. simpl le_val. rewrite IH, pow2_8S.
    rewrite (Z.rem_mul_r z 256 (2 ^ (8 * Z.of_nat n))); [done|lia|].
    apply Z.pow_pos_nonneg; lia.
Qed.

Lemma le_val_range l : bytes_ok l -> in_width (8 * zlen l) (le_val l).
Proof.
  unfold in_width, bytes_ok. induction 1 as [|b l Hb Hl IH]; simpl.
  - unfold zlen. simpl. lia.
  - unfold is_byte in Hb. unfold zlen in *. simpl length. rewrite pow2_8S. lia.
Qed.

Lemma le_bytes_le_val l : bytes_ok l -> le_bytes (length l) (le_val l) = l.
Proof.
  unfold bytes_ok. induction 1 as [|b l Hb Hl IH]; simpl; [done|].
  unfold is_byte in Hb.
  rewrite (Z.mul_comm 256), Z_mod_plus_full, Z.div_add, Z.mod_small, Z.div_small by lia.
  by rewrite Z.add_0_l, IH.
Qed.

#[export] Hint Rewrite zlen_le_bytes : zlist.
#[export] Hint Resolve le_bytes_ok : zlist.

(** ** Bit operations *)

(** Masks that do not straddle bit [k] act on the two halves separately. *)
Lemma land_split k a b m n :
  0 <= k -> in_width k a -> in_width k m ->
  Z.land (a + b * 2 ^ k) (m + n * 2 ^ k) = Z.land a m + Z.land b n * 2 ^ k.
Proof.
  unfold in_width. intros Hk Ha Hm.
  assert (Hlow : forall u i, 0 <= u < 2 ^ k -> k <= i -> Z.testbit u i = false).
  { intros u i Hu Hi. rewrite <- (Z.mod_small u (2 ^ k)) by lia.
    by apply Z.mod_pow2_bits_high. }
  assert (Hadd : forall u v, 0 <= u < 2 ^ k -> u + v * 2 ^ k = Z.lor u (Z.shiftl v k)).
  { intros u v Hu. rewrite <- Z.shiftl_mul_pow2 by lia.
    apply Z.add_nocarry_lor.
    apply Z.bits_inj'. intros i Hi. rewrite Z.land_spec, Z.bits_0.
    rewrite Z.shiftl_spec by lia.
    destruct (decide (i < k)).
    - rewrite (Z.testbit_neg_r v) by lia. apply andb_false_r.
    - rewrite Hlow by lia. done. }
  assert (Hland : 0 <= Z.land a m < 2 ^ k).
  { split; [apply Z.land_nonneg; lia|].
    destruct (decide (Z.land a m = 0)) as [->|]; [apply Z.pow_pos_nonneg; lia|].
    assert (0 <= Z.land a m) by (apply Z.land_nonneg; lia).
    apply Z.log2_lt_pow2; [lia|].
    pose proof (Z.log2_land a m ltac:(lia) ltac:(lia)).
    destruct (decide (a = 0)) as [->|]; [by rewrite Z.land_0_l in *|].
    pose proof (proj1 (Z.log2_lt_pow2 a k ltac:(lia)) ltac:(lia)). lia. }
  rewrite !Hadd by lia.
  apply Z.bits_inj'. intros i Hi.
  repeat (rewrite ?Z.land_spec, ?Z.lor_spec, ?Z.shiftl_spec by lia).
  destruct (decide (i < k)).
  - rewrite !(Z.testbit_neg_r _ (i - k)) by lia. by rewrite !orb_false_r.
  - rewrite !(Hlow a), !(Hlow m) by lia. done.
Qed.

(** [test_bit]/[set_bit]/[clear_bit] on an [unsigned long] flag word. *)
Definition test_bit (n w : Z) : bool := Z.testbit w n.
Definition set_bit (n w : Z) : Z := Z.setbit w n.
Definition clear_bit (n w : Z) : Z := Z.clearbit w n.

Lemma test_set_bit m n w : 0 <= n -> test_bit m (set_bit n w) = (n =? m) || test_bit m w.
Proof. intros. unfold test_bit, set_bit. by rewrite Z.setbit_eqb. Qed.

Lemma test_clear_bit m n w : test_bit m (clear_bit n w) = test_bit m w && negb (n =? m).
Proof. unfold test_bit, clear_bit. by rewrite Z.clearbit_eqb. Qed.

#[global] Arguments le_at : simpl never.
#[global] Arguments byte_at : simpl never.
#[global] Arguments test_bit : simpl never.
#[global] Arguments set_bit : simpl never.
#[global] Arguments clear_bit : simpl never.

(** ** Small shared tactics *)

(** Split every boolean conjunction and comparison in the context. *)
Ltac bool_hyps :=
  repeat match goal with
  | H : _ && _ = true |- _ => apply andb_true_iff in H as [? ?]
  | H : _ || _ = false |- _ => apply orb_false_iff in H as [? ?]
  | H : negb _ = true |- _ => apply negb_true_iff in H
  | H : negb _ = false |- _ => apply negb_false_iff in H
  | H : (_ <? _) = true |- _ => apply Z.ltb_lt in H
  | H : (_ <? _) = false |- _ => apply Z.ltb_ge in H
  | H : (_ <=? _) = true |- _ => apply Z.leb_le in H
  | H : (_ <=? _) = false |- _ => apply Z.leb_gt in H
  | H : (_ =? _) = true |- _ => apply Z.eqb_eq in H
  | H : (_ =? _) = false |- _ => apply Z.eqb_neq in H
  end.

(** Linear arithmetic with division and remainder by constants. *)
Ltac divlia := Z.to_euclidean_division_equations; lia.

(** Case split on the innermost [if]/[match] scrutinee of the goal. *)
Ltac split_ifs :=
  repeat match goal with
  | |- context [if ?b then _ else _] => destruct b eqn:?
  end.

(** ** State with errors

    A computation over a state [S] that may stop with an error [E]; the state
    reached so far survives the error, as it does when C code jumps to a
    [fail:] label. *)
Definition M (S E A : Type) : Type := S -> (E + A) * S.

Section state_error.
Context {S E : Type}.
Definition mret {A} (x : A) : M S E A := fun s => (inr x, s).
Definition mfail {A} (e : E) : M S E A := fun s => (inl e, s).
Definition mbind {A B} (m : M S E A) (f : A -> M S E B) : M S E B := fun s =>
  match m s with
  | (inr x, s') => f x s'
  | (inl e, s') => (inl e, s')
  end.
Definition mget : M S E S := fun s => (inr s, s).
Definition mput (s : S) : M S E unit := fun _ => (inr tt, s).
Definition mmodify (f : S -> S) : M S E unit := fun s => (inr tt, f s).
(** [if (!b) { ret = e; goto fail; }] *)
Definition mcheck (b : bool) (e : E) : M S E unit := if b then mret tt else mfail e.
End state_error.

Declare Scope monad_scope.
Delimit Scope monad_scope with monad.
Notation "'let*' x := m 'in' k" := (mbind m (fun x => k))
  (at level 10, x name, m at level 100, k at level 200) : monad_scope.
Notation "m ;;; k" := (mbind m (fun _ => k)) (at level 100, right associativity) : monad_scope.

(** Partial-correctness triples with a postcondition for each way out. *)
Section hoare.
Context {S E : Type}.
Definition hoare {A} (P : S -> Prop) (m : M S E A) (Q : A -> S -> Prop) (X : E -> S -> Prop) : Prop :=
  forall s, P s -> match m s with (inr x, s') => Q x s' | (inl e, s') => X e s' end.

Lemma hoare_ret {A} (P : S -> Prop) (x : A) (Q : A -> S -> Prop) X :
  (forall s, P s -> Q x s) -> hoare P (mret x) Q X.
Proof. intros H s Hs. apply H, Hs. Qed.

Lemma hoare_fail {A} (P : S -> Prop) e (Q : A -> S -> Prop) (X : E -> S -> Prop) :
  (forall s, P s -> X e s) -> hoare P (mfail e) Q X.
Proof. intros H s Hs. apply H, Hs. Qed.

Lemma hoare_bind {A B} P (m : M S E A) (R : A -> S -> Prop) (f : A -> M S E B) Q X :
  hoare P m R X -> (forall x, hoare (R x) (f x) Q X) -> hoare P (mbind m f) Q X.
Proof.
  intros Hm Hf s Hs. unfold mbind. specialize (Hm s Hs). destruct (m s) as [[e|x] s'].
  - exact Hm.
  - by apply Hf.
Qed.

Lemma hoare_get P (Q : S -> S -> Prop) X : (forall s, P s -> Q s s) -> hoare P mget Q X.
Proof. intros H s Hs. by apply H. Qed.

Lemma hoare_modify P f (Q : unit -> S -> Prop) X :
  (forall s, P s -> Q tt (f s)) -> hoare P (mmodify f) Q X.
Proof. intros H s Hs. by apply H. Qed.

Lemma hoare_check P b e (Q : unit -> S -> Prop) (X : E -> S -> Prop) :
  (forall s, P s -> b = true -> Q tt s) -> (forall s, P s -> b = false -> X e s) ->
  hoare P (mcheck b e) Q X.
Proof. intros H1 H2 s Hs. unfold mcheck. destruct b; cbn; auto. Qed.

Lemma hoare_consequence {A} P P' (m : M S E A) Q Q' X X' :
  hoare P' m Q' X' -> (forall s, P s -> P' s) -> (forall x s, Q' x s -> Q x s) ->
  (forall e s, X' e s -> X e s) -> hoare P m Q X.
Proof.
  intros H HP HQ HX s Hs. specialize (H s (HP s Hs)). destruct (m s) as [[e|x] s']; auto.
Qed.

Lemma hoare_if {A} P (b : bool) (m1 m2 : M S E A) Q X :
  (b = true -> hoare P m1 Q X) -> (b = false -> hoare P m2 Q X) ->
  hoare P (if b then m1 else m2) Q X.
Proof. destruct b; auto. Qed.
End hoare.

Create HintDb hoare.
#[export] Hint Resolve hoare_ret hoare_fail : hoare.

(** Inverting successful runs. *)
Section inversion.
Context {S E : Type}.

Lemma mcheck_ok {A} b (e : E) (k : M S E A) s x s' :
  mbind (mcheck b e) (fun _ => k) s = (inr x, s') <-> b = true /\ k s = (inr x, s').
Proof.
  unfold mbind, mcheck. destruct b; cbn; (split; [intros H|intros [H1 H2]]); try done.
Qed.

Lemma mcheck_last b (e : E) (s : S) x s' : mcheck b e s = (inr x, s') <-> b = true /\ s' = s.
Proof.
  unfold mcheck, mret, mfail.
  destruct b, x; (split; [intros H|intros [H1 H2]]); simplify_eq; done.
Qed.

Lemma mmodify_ok {A} f (k : M S E A) s : mbind (mmodify f) (fun _ => k) s = k (f s).
Proof. done. Qed.

Lemma mbind_ok {A B} (m : M S E A) (k : A -> M S E B) s y s' :
  mbind m k s = (inr y, s') <-> exists x s1, m s = (inr x, s1) /\ k x s1 = (inr y, s').
Proof.
  unfold mbind. destruct (m s) as [[e|x] s1]; split.
  - done.
  - intros (x & s2 & H & _). done.
  - intros H. by exists x, s1.
  - intros (x' & s2 & H & Hk). by simplify_eq.
Qed.
End inversion.
