(* ===== verification/Wire.v ===== *)
(** * Wire: the hosted frame format shared by host and firmware

    Models [host/include/adapter.h] (the identical copy is in the firmware's
    [main/include/adapter.h]) and [host/include/esp_host_wire_bounds.h]: the
    packed 12-byte payload header, its enumerations, the bounds predicate that
    every receiver applies, and the software checksum with its word-at-a-time
    inner loop. *)
From S2P Require Import Prelude.

(** ** Enumerations; the coercion gives each constructor its wire code. *)
Inductive ESP_INTERFACE_TYPE :=
  | ESP_STA_IF | ESP_AP_IF | ESP_HCI_IF | ESP_INTERNAL_IF | ESP_TEST_IF
  | ESP_RCP_IF | ESP_MONITOR_IF | ESP_MAX_IF.

Definition if_code (t : ESP_INTERFACE_TYPE) : Z :=
  match t with
  | ESP_STA_IF => 0 | ESP_AP_IF => 1 | ESP_HCI_IF => 2 | ESP_INTERNAL_IF => 3
  | ESP_TEST_IF => 4 | ESP_RCP_IF => 5 | ESP_MONITOR_IF => 6 | ESP_MAX_IF => 7
  end.
Coercion if_code : ESP_INTERFACE_TYPE >-> Z.

Inductive ESP_PACKET_TYPE :=
  | PACKET_TYPE_DATA | PACKET_TYPE_COMMAND_REQUEST | PACKET_TYPE_COMMAND_RESPONSE
  | PACKET_TYPE_EVENT | PACKET_TYPE_EAPOL | PACKET_TYPE_RCP_SESSION
  | PACKET_TYPE_MONITOR.

Definition pkt_code (t : ESP_PACKET_TYPE) : Z :=
  match t with
  | PACKET_TYPE_DATA => 0 | PACKET_TYPE_COMMAND_REQUEST => 1
  | PACKET_TYPE_COMMAND_RESPONSE => 2 | PACKET_TYPE_EVENT => 3
  | PACKET_TYPE_EAPOL => 4 | PACKET_TYPE_RCP_SESSION => 5 | PACKET_TYPE_MONITOR => 6
  end.
Coercion pkt_code : ESP_PACKET_TYPE >-> Z.

Inductive ESP_CAPABILITIES :=
  | ESP_WLAN_SDIO_SUPPORT | ESP_BT_UART_SUPPORT | ESP_BT_SDIO_SUPPORT
  | ESP_BLE_ONLY_SUPPORT | ESP_BR_EDR_ONLY_SUPPORT | ESP_WLAN_SPI_SUPPORT
  | ESP_BT_SPI_SUPPORT | ESP_CHECKSUM_ENABLED | ESP_WLAN_GCMP_SUPPORT
  | ESP_WLAN_USB_SUPPORT | ESP_BT_USB_SUPPORT | ESP_WLAN_MONITOR_SUPPORT.

Definition cap_bit (c : ESP_CAPABILITIES) : Z :=
  match c with
  | ESP_WLAN_SDIO_SUPPORT => 0 | ESP_BT_UART_SUPPORT => 1 | ESP_BT_SDIO_SUPPORT => 2
  | ESP_BLE_ONLY_SUPPORT => 3 | ESP_BR_EDR_ONLY_SUPPORT => 4
  | ESP_WLAN_SPI_SUPPORT => 5 | ESP_BT_SPI_SUPPORT => 6 | ESP_CHECKSUM_ENABLED => 7
  | ESP_WLAN_GCMP_SUPPORT => 8 | ESP_WLAN_USB_SUPPORT => 9 | ESP_BT_USB_SUPPORT => 10
  | ESP_WLAN_MONITOR_SUPPORT => 11
  end.

(** [capabilities & CAP], as the truth value the code branches on. *)
Definition has_cap (caps : Z) (c : ESP_CAPABILITIES) : bool := test_bit (cap_bit c) caps.

Inductive ESP_EXT_CAPABILITIES :=
  | ESP_EXT_CAP_RCP | ESP_EXT_CAP_RADIO_SERVICE_CTRL | ESP_EXT_CAP_RCP_AVAILABLE.

Definition ext_cap_bit (c : ESP_EXT_CAPABILITIES) : Z :=
  match c with
  | ESP_EXT_CAP_RCP => 6 | ESP_EXT_CAP_RADIO_SERVICE_CTRL => 14
  | ESP_EXT_CAP_RCP_AVAILABLE => 15
  end.

Definition has_ext_cap (caps : Z) (c : ESP_EXT_CAPABILITIES) : bool :=
  test_bit (ext_cap_bit c) caps.

(** [ext_capabilities & ESP_EXT_CAP_RCP_ANY] *)
Definition has_rcp_any (caps : Z) : bool :=
  has_ext_cap caps ESP_EXT_CAP_RCP || has_ext_cap caps ESP_EXT_CAP_RCP_AVAILABLE.

(** ** The payload header *)
Record esp_payload_header := mk_header {
  if_type : Z;      (* 4 bits, low nibble of byte 0 *)
  if_num : Z;       (* 4 bits, high nibble of byte 0 *)
  flags : Z;
  packet_type : Z;
  reserved1 : Z;
  len : Z;          (* le16 *)
  offset : Z;       (* le16 *)
  checksum : Z;     (* le16 *)
  reserved2 : Z;
  hci_pkt_type : Z  (* the trailing one-byte union *)
}.

#[export] Instance eta_header : Eta esp_payload_header := fun h =>
  mk_header (if_type h) (if_num h) (flags h) (packet_type h) (reserved1 h)
    (len h) (offset h) (checksum h) (reserved2 h) (hci_pkt_type h).

Definition sizeof_header : Z := 12.

Definition zero_header : esp_payload_header := mk_header 0 0 0 0 0 0 0 0 0 0.

Definition header_wf (h : esp_payload_header) : Prop :=
  in_width 4 (if_type h) /\ in_width 4 (if_num h) /\ is_byte (flags h) /\
  is_byte (packet_type h) /\ is_byte (reserved1 h) /\ in_width 16 (len h) /\
  in_width 16 (offset h) /\ in_width 16 (checksum h) /\ is_byte (reserved2 h) /\
  is_byte (hci_pkt_type h).

Definition encode_header (h : esp_payload_header) : list Z :=
  [if_type h + 16 * if_num h; flags h; packet_type h; reserved1 h]
  ++ le_bytes 2 (len h) ++ le_bytes 2 (offset h) ++ le_bytes 2 (checksum h)
  ++ [reserved2 h; hci_pkt_type h].

(** Reading the header through a cast pointer; callers have checked that at
    least [sizeof_header] bytes are present. *)
Definition decode_header (buf : list Z) : esp_payload_header :=
  mk_header (byte_at 0 buf mod 16) (byte_at 0 buf / 16) (byte_at 1 buf)
    (byte_at 2 buf) (byte_at 3 buf) (le_at 2 4 buf) (le_at 2 6 buf)
    (le_at 2 8 buf) (byte_at 10 buf) (byte_at 11 buf).

Lemma zlen_encode_header h : zlen (encode_header h) = sizeof_header.
Proof. done. Qed.
#[export] Hint Rewrite zlen_encode_header : zlist.

Lemma encode_header_ok h : header_wf h -> bytes_ok (encode_header h).
Proof.
  intros (? & ? & ? & ? & ? & ? & ? & ? & ? & ?). unfold encode_header, bytes_ok.
  repeat (apply Forall_app; split); try apply le_bytes_ok;
    repeat constructor; unfold is_byte, in_width in *; lia.
Qed.

Lemma le_at_le_bytes n v pre rest i :
  zlen pre = i -> le_at n i (pre ++ le_bytes n v ++ rest) = wrap (8 * Z.of_nat n) v.
Proof.
  intros Hi. unfold le_at. rewrite zdrop_app_exact by done.
  rewrite ztake_app_exact by apply zlen_le_bytes. apply le_val_le_bytes.
Qed.

Lemma decode_encode_header h rest :
  header_wf h -> decode_header (encode_header h ++ rest) = h.
Proof.
  intros (? & ? & ? & ? & ? & Hl & Ho & Hc & ? & ?).
  unfold decode_header, encode_header. rewrite <- !app_assoc.
  destruct h as [t n f p r1 l o c r2 k]; simpl in *.
  unfold byte_at; simpl. f_equal.
  - rewrite (Z.mul_comm 16), Z_mod_plus_full. apply Z.mod_small. unfold in_width in *. lia.
  - rewrite (Z.mul_comm 16), Z.div_add by lia. unfold in_width in *.
    rewrite Z.div_small by lia. lia.
  - etransitivity; [apply (le_at_le_bytes 2 l [t + 16 * n; f; p; r1]); done|].
    by apply wrap_id.
  - etransitivity;
      [apply (le_at_le_bytes 2 o ([t + 16 * n; f; p; r1] ++ le_bytes 2 l)); done|].
    by apply wrap_id.
  - etransitivity;
      [apply (le_at_le_bytes 2 c
         ([t + 16 * n; f; p; r1] ++ le_bytes 2 l ++ le_bytes 2 o)); done|].
    by apply wrap_id.
Qed.

(** The header only depends on the first [sizeof_header] bytes. *)
Lemma byte_at_app i l1 l2 : 0 <= i < zlen l1 -> byte_at i (l1 ++ l2) = byte_at i l1.
Proof. intros. unfold byte_at, zlen in *. apply app_nth1. lia. Qed.

Lemma le_at_app n i l1 l2 :
  0 <= i -> i + Z.of_nat n <= zlen l1 -> le_at n i (l1 ++ l2) = le_at n i l1.
Proof.
  intros. unfold le_at. rewrite zdrop_app_le by lia. f_equal.
  apply ztake_app_le. zlia.
Qed.

Lemma decode_header_app l1 l2 :
  sizeof_header <= zlen l1 -> decode_header (l1 ++ l2) = decode_header l1.
Proof.
  unfold sizeof_header. intros. unfold decode_header.
  rewrite !byte_at_app, !le_at_app by lia. done.
Qed.

Lemma byte_at_ok i l : bytes_ok l -> is_byte (byte_at i l).
Proof.
  intros Hok. unfold byte_at. destruct (decide (Z.to_nat i < length l)%nat).
  - apply (Forall_nth is_byte 0); [done|lia].
  - rewrite nth_overflow by lia. unfold is_byte. lia.
Qed.

Lemma le_at_nonneg n i l : bytes_ok l -> 0 <= le_at n i l.
Proof. intros. unfold le_at. apply le_val_range. by apply Forall_ztake, Forall_zdrop. Qed.

(** ** Bounds *)
Definition ESP_MAX_ALIGN_PADDING : Z := 4.
Definition ESP_MAX_OFFSET_SIZE : Z := sizeof_header + ESP_MAX_ALIGN_PADDING.

Definition ESP_OFFSET_VALID (off : Z) : bool :=
  (sizeof_header <=? off) && (off <=? ESP_MAX_OFFSET_SIZE).

(** Result 0 is [None]; result 1 with [*frame_len] is [Some frame_len]. *)
Definition esp_host_wire_span_valid (payload_len off available : Z) : option Z :=
  if (payload_len =? 0) || negb (ESP_OFFSET_VALID off) then None
  else if (available <? off) || (available - off <? payload_len) then None
  else Some (off + payload_len).

(** List arithmetic with the frame constants unfolded. *)
Ltac wire_lia := unfold sizeof_header, ESP_MAX_OFFSET_SIZE, ESP_MAX_ALIGN_PADDING in *; zlia.

Lemma span_valid_inv payload_len off available fl :
  0 <= payload_len ->
  esp_host_wire_span_valid payload_len off available = Some fl ->
  fl = off + payload_len /\ sizeof_header < fl <= available /\ 0 < payload_len /\
  sizeof_header <= off <= ESP_MAX_OFFSET_SIZE.
Proof.
  unfold esp_host_wire_span_valid, ESP_OFFSET_VALID. intros Hp.
  split_ifs; [done..|]. intros [= <-]. bool_hyps. lia.
Qed.

(** ** The software checksum

    [compute_checksum] walks a byte-wise prefix up to a 4-byte boundary, then
    blocks of at most 64 words whose bytes are accumulated in two 16-bit lanes
    of one [uint32_t], then a byte-wise tail.  [addr] is the buffer's address
    and [be] the byte order of the CPU that loads the words. *)
Definition load_word (be : bool) (b0 b1 b2 b3 : Z) : Z :=
  if be then le_val [b3; b2; b1; b0] else le_val [b0; b1; b2; b3].

Fixpoint cs_prefix (addr : Z) (buf : list Z) (sum : Z) : Z * list Z :=
  match buf with
  | [] => (sum, [])
  | b :: buf' =>
      if Z.land addr 3 =? 0 then (sum, buf)
      else cs_prefix (addr + 1) buf' (u32 (sum + b))
  end.

Definition lane_mask : Z := 0x00ff00ff.

Fixpoint cs_words (be : bool) (words : nat) (buf : list Z) (pairs : Z) : Z * list Z :=
  match words, buf with
  | S w, b0 :: b1 :: b2 :: b3 :: buf' =>
      let word := load_word be b0 b1 b2 b3 in
      cs_words be w buf'
        (u32 (pairs + (Z.land word lane_mask + Z.land (Z.shiftr word 8) lane_mask)))
  | _, _ => (pairs, buf)
  end.

Fixpoint cs_blocks (be : bool) (fuel : nat) (buf : list Z) (sum : Z) : Z * list Z :=
  match fuel with
  | O => (sum, buf)
  | S fuel' =>
      if 4 <=? zlen buf then
        let words := Z.min (zlen buf / 4) 64 in
        let '(pairs, buf') := cs_words be (Z.to_nat words) buf 0 in
        cs_blocks be fuel' buf'
          (u32 (sum + (Z.land pairs 0xffff + Z.shiftr pairs 16)))
      else (sum, buf)
  end.

Definition cs_tail (buf : list Z) (sum : Z) : Z :=
  foldl (fun s b => u32 (s + b)) sum buf.

Definition compute_checksum (be : bool) (addr : Z) (buf : list Z) (n : Z) : Z :=
  let '(sum1, rest1) := cs_prefix addr (ztake (u16 n) buf) 0 in
  let '(sum2, rest2) := cs_blocks be (length rest1) rest1 sum1 in
  u16 (cs_tail rest2 sum2).

(** The reference: the sum of the bytes. *)
Definition byte_sum (l : list Z) : Z := foldr Z.add 0 l.

Lemma byte_sum_app l1 l2 : byte_sum (l1 ++ l2) = byte_sum l1 + byte_sum l2.
Proof.
  unfold byte_sum. induction l1 as [|b l1 IH]; cbn [foldr app]; [done|]. rewrite IH. lia.
Qed.

(** Equality of partial sums as far as the final [uint16_t] can tell. *)
Definition same16 (a b : Z) : Prop := u16 a = u16 b.

Lemma same16_u32 a : same16 (u32 a) a.
Proof.
  unfold same16, wrap. change (2 ^ 32) with (2 ^ 16 * 2 ^ 16).
  rewrite Z.rem_mul_r by lia. rewrite (Z.mul_comm (2 ^ 16)), Z_mod_plus_full.
  apply Zmod_mod.
Qed.

#[export] Instance same16_equiv : Equivalence same16.
Proof. unfold same16. constructor; congruence. Qed.

#[export] Instance same16_add : Proper (same16 ==> same16 ==> same16) Z.add.
Proof. unfold same16, wrap. intros a b H c d H'. by rewrite Zplus_mod, H, H', <- Zplus_mod. Qed.

Lemma cs_prefix_spec addr buf sum s r :
  cs_prefix addr buf sum = (s, r) ->
  exists pre, buf = pre ++ r /\ same16 s (sum + byte_sum pre).
Proof.
  revert addr sum. induction buf as [|b buf IH]; cbn [cs_prefix]; intros addr sum.
  - intros [= <- <-]. exists []. split; [done|]. by rewrite Z.add_0_r.
  - destruct (Z.land addr 3 =? 0).
    + intros [= <- <-]. exists []. split; [done|]. by rewrite Z.add_0_r.
    + intros (pre & -> & Hs)%IH. exists (b :: pre). split; [done|].
      rewrite Hs, same16_u32. cbn. by rewrite Z.add_assoc.
Qed.

(** The two lanes of a word hold the sums of its even and of its odd bytes. *)
Lemma lanes_of_word be b0 b1 b2 b3 :
  is_byte b0 -> is_byte b1 -> is_byte b2 -> is_byte b3 ->
  let word := load_word be b0 b1 b2 b3 in
  exists lo hi, Z.land word lane_mask + Z.land (Z.shiftr word 8) lane_mask = lo + hi * 65536 /\
    0 <= lo <= 510 /\ 0 <= hi <= 510 /\ lo + hi = b0 + b1 + b2 + b3.
Proof.
  assert (Hw : forall a0 a1 a2 a3, is_byte a0 -> is_byte a1 -> is_byte a2 -> is_byte a3 ->
    let w := le_val [a0; a1; a2; a3] in
    Z.land w lane_mask = a0 + a2 * 65536 /\
    Z.land (Z.shiftr w 8) lane_mask = a1 + a3 * 65536).
  { intros a0 a1 a2 a3 H0 H1 H2 H3 w. unfold is_byte in *.
    assert (Hb : forall a, 0 <= a < 256 -> Z.land a 255 = a).
    { intros a Ha. change 255 with (Z.ones 8). rewrite Z.land_ones by lia.
      by apply Z.mod_small. }
    assert (Hm : lane_mask = 255 + (0 + (255 + 0 * 2 ^ 8) * 2 ^ 8) * 2 ^ 8) by done.
    split.
    - replace w with (a0 + (a1 + (a2 + a3 * 2 ^ 8) * 2 ^ 8) * 2 ^ 8)
        by (subst w; cbn; lia).
      rewrite Hm, !land_split, !Hb, !Z.land_0_r by (unfold in_width; lia). lia.
    - rewrite Z.shiftr_div_pow2 by lia.
      replace (w / 2 ^ 8) with (a1 + (a2 + (a3 + 0 * 2 ^ 8) * 2 ^ 8) * 2 ^ 8).
      + rewrite Hm, !land_split, !Hb, !Z.land_0_r by (unfold in_width; lia). lia.
      + subst w. cbn [le_val]. apply (Z.div_unique _ _ _ a0); lia. }
  intros H0 H1 H2 H3 word. subst word. unfold load_word, is_byte in *.
  destruct be.
  - destruct (Hw b3 b2 b1 b0) as [-> ->]; [done..|]. exists (b3 + b2), (b1 + b0). lia.
  - destruct (Hw b0 b1 b2 b3) as [-> ->]; [done..|]. exists (b0 + b1), (b2 + b3). lia.
Qed.

(** No carry leaves a lane in a block of at most 64 words. *)
Lemma cs_words_spec be words buf lo hi p r :
  bytes_ok buf -> 4 * Z.of_nat words <= zlen buf -> 0 <= lo -> 0 <= hi ->
  lo + 510 * Z.of_nat words < 65536 -> hi + 510 * Z.of_nat words < 65536 ->
  cs_words be words buf (lo + hi * 65536) = (p, r) ->
  exists pre lo' hi', buf = pre ++ r /\ zlen pre = 4 * Z.of_nat words /\
    p = lo' + hi' * 65536 /\ 0 <= lo' < 65536 /\ 0 <= hi' < 65536 /\
    lo' + hi' = lo + hi + byte_sum pre.
Proof.
  revert buf lo hi. induction words as [|w IH]; intros buf lo hi Hok Hlen Hlo Hhi Hl Hh.
  - cbn. intros [= <- <-]. exists [], lo, hi. cbn. repeat split; lia.
  - destruct buf as [|b0 [|b1 [|b2 [|b3 buf]]]]; try zlia.
    do 4 (apply Forall_cons_1 in Hok; destruct Hok as [? Hok]). cbn [cs_words].
    destruct (lanes_of_word be b0 b1 b2 b3) as (l' & h' & -> & ? & ? & Hsum); [done..|].
    rewrite wrap_id by (unfold in_width; lia).
    replace (lo + hi * 65536 + (l' + h' * 65536))
      with ((lo + l') + (hi + h') * 65536) by lia.
    intros Hrec. apply IH in Hrec
      as (pre & lo' & hi' & -> & Hpre & -> & ? & ? & Hs); [|done|zlia|lia..].
    exists (b0 :: b1 :: b2 :: b3 :: pre), lo', hi'.
    repeat split; try done; try lia; [zlia|]. cbn. fold (byte_sum pre). lia.
Qed.

Lemma cs_blocks_spec be fuel buf sum s r :
  bytes_ok buf -> zlen buf <= Z.of_nat fuel ->
  cs_blocks be fuel buf sum = (s, r) ->
  exists pre, buf = pre ++ r /\ zlen r < 4 /\ same16 s (sum + byte_sum pre).
Proof.
  revert buf sum. induction fuel as [|f IH]; intros buf sum Hok Hf; cbn [cs_blocks].
  { intros [= <- <-]. exists []. rewrite (zlen_0_nil buf) by zlia.
    split_and!; [done|done|by rewrite Z.add_0_r]. }
  destruct (4 <=? zlen buf) eqn:H4; bool_hyps.
  2: { intros [= <- <-]. exists []. split_and!; [done|done|by rewrite Z.add_0_r]. }
  set (words := Z.min (zlen buf / 4) 64).
  assert (1 <= words <= 64 /\ 4 * words <= zlen buf).
  { unfold words. divlia. }
  destruct (cs_words be (Z.to_nat words) buf 0) as [p r'] eqn:Hw. intros Hrec.
  apply (cs_words_spec be _ _ 0 0) in Hw
    as (pre & lo & hi & -> & Hpre & -> & ? & ? & Hs); [|done|lia..].
  apply Forall_app in Hok as [_ Hok].
  apply IH in Hrec as (pre2 & -> & ? & Hs2); [|done|zlia].
  exists (pre ++ pre2). rewrite <- app_assoc. split_and!; [done|done|].
  rewrite Hs2, same16_u32, byte_sum_app.
  change 0xffff with (Z.ones 16). rewrite Z.land_ones, Z.shiftr_div_pow2 by lia.
  change (2 ^ 16) with 65536. rewrite Z_mod_plus_full, Z.mod_small by lia.
  rewrite Z.div_add, Z.div_small by lia. rewrite Z.add_0_l, Hs.
  by rewrite !Z.add_0_l, Z.add_assoc.
Qed.

Lemma cs_tail_spec buf sum : same16 (cs_tail buf sum) (sum + byte_sum buf).
Proof.
  unfold cs_tail. revert sum. induction buf as [|b buf IH]; intros sum; cbn.
  - by rewrite Z.add_0_r.
  - rewrite IH, same16_u32. fold (byte_sum buf). by rewrite Z.add_assoc.
Qed.

(** What follows the checked bytes does not matter. *)
Lemma compute_checksum_app be addr buf rest n :
  0 <= n <= zlen buf -> n < 2 ^ 16 -> compute_checksum be addr (buf ++ rest) n = compute_checksum be addr buf n.
Proof. intros Hn Hlt. unfold compute_checksum. rewrite wrap_id by (unfold in_width; lia). by rewrite ztake_app_le by lia. Qed.

Lemma compute_checksum_spec be addr buf n :
  bytes_ok buf -> compute_checksum be addr buf n = u16 (byte_sum (ztake (u16 n) buf)).
Proof.
  intros Hok. unfold compute_checksum.
  destruct (cs_prefix addr (ztake (u16 n) buf) 0) as [s1 r1] eqn:H1.
  destruct (cs_blocks be (length r1) r1 s1) as [s2 r2] eqn:H2.
  assert (Hok' : bytes_ok (ztake (u16 n) buf)) by by apply Forall_ztake.
  apply cs_prefix_spec in H1 as (p1 & E1 & S1). rewrite E1 in Hok' |- *.
  apply Forall_app in Hok' as [_ Hok1].
  apply cs_blocks_spec in H2 as (p2 & -> & _ & S2); [|done|unfold zlen; lia].
  change (same16 (cs_tail r2 s2) (byte_sum (p1 ++ p2 ++ r2))).
  rewrite cs_tail_spec, S2, S1, !byte_sum_app. by rewrite Z.add_0_l, !Z.add_assoc.
Qed.

(** ** Padding of a frame to a word: [(n + 3) & ~3] *)
Definition align4 (n : Z) : Z := Z.land (n + 3) (Z.lnot 3).

Lemma align4_spec n : 0 <= n -> n <= align4 n < n + 4 /\ align4 n mod 4 = 0.
Proof.
  intros Hn. unfold align4. change (Z.lnot 3) with (Z.lnot (Z.ones 2)).
  rewrite <- Z.ldiff_land, Z.ldiff_ones_r, Z.shiftl_mul_pow2, Z.shiftr_div_pow2 by lia.
  change (2 ^ 2) with 4. split; [divlia|]. by rewrite Z.mod_mul.
Qed.

Lemma align4_id n : 0 <= n -> n mod 4 = 0 -> align4 n = n.
Proof. intros Hn Hm. pose proof (align4_spec n Hn) as [? ?]. divlia. Qed.

(** ** Building and checking a frame

    The padding arithmetic and the header/checksum sequence repeated by
    [process_tx_packet], [esp_rcp_send_chunk] and [esp_rcp_send_session_start]. *)
Definition SKB_DATA_ADDR_ALIGNMENT : Z := 4.

Definition hosted_pad_len (n : Z) : Z :=
  let total_len := u16 (n + sizeof_header) in
  u8 (sizeof_header + (SKB_DATA_ADDR_ALIGNMENT - total_len mod SKB_DATA_ADDR_ALIGNMENT)
                        mod SKB_DATA_ADDR_ALIGNMENT).

(** [h] carries the interface and packet type; [be]/[addr] as for the checksum. *)
Definition hosted_frame (be : bool) (addr caps : Z) (h : esp_payload_header)
    (payload : list Z) : list Z :=
  let pad_len := hosted_pad_len (zlen payload) in
  let h := h <| len := u16 (zlen payload) |> <| offset := u16 pad_len |> <| checksum := 0 |> in
  let tail := replicate (Z.to_nat (pad_len - sizeof_header)) 0 ++ payload in
  let frame := encode_header h ++ tail in
  if has_cap caps ESP_CHECKSUM_ENABLED then
    encode_header (h <| checksum := compute_checksum be addr frame (zlen payload + pad_len) |>)
      ++ tail
  else frame.

(** [payload_header->checksum = 0] in place. *)
Definition zero_checksum (buf : list Z) : list Z := ztake 8 buf ++ [0; 0] ++ zdrop 10 buf.

(** The comparison made by [process_rx_packet] and the firmware's [process_rx_pkt]. *)
Definition rx_checksum_ok (be : bool) (addr : Z) (buf : list Z) : bool :=
  let h := decode_header buf in
  compute_checksum be addr (zero_checksum buf) (len h + offset h) =? checksum h.

Lemma hosted_pad_len_range n :
  0 <= n -> sizeof_header <= hosted_pad_len n <= sizeof_header + 3.
Proof.
  intros. unfold hosted_pad_len, SKB_DATA_ADDR_ALIGNMENT, sizeof_header, wrap.
  change (2 ^ 8) with 256. change (2 ^ 16) with 65536. divlia.
Qed.

Lemma hosted_pad_len_aligned n : 0 <= n -> (n + hosted_pad_len n) mod 4 = 0.
Proof.
  intros. unfold hosted_pad_len, SKB_DATA_ADDR_ALIGNMENT, sizeof_header, wrap.
  change (2 ^ 8) with 256. change (2 ^ 16) with 65536. divlia.
Qed.

Lemma zero_checksum_encode h rest :
  zero_checksum (encode_header h ++ rest) = encode_header (h <| checksum := 0 |>) ++ rest.
Proof. done. Qed.

Lemma u16_range z : in_width 16 (u16 z).
Proof. apply wrap_range. lia. Qed.
Lemma compute_checksum_range be addr buf n : in_width 16 (compute_checksum be addr buf n).
Proof. unfold compute_checksum. repeat case_match. apply u16_range. Qed.
#[export] Hint Resolve u16_range compute_checksum_range : zlist.

Lemma header_wf_set h n o c :
  header_wf h -> in_width 16 n -> in_width 16 o -> in_width 16 c ->
  header_wf (h <| len := n |> <| offset := o |> <| checksum := c |>).
Proof. unfold header_wf. cbn. tauto. Qed.

(** The shape of every frame the transmit side builds, with or without checksum. *)
Lemma hosted_frame_shape be addr caps h payload :
  exists c, in_width 16 c /\
    hosted_frame be addr caps h payload =
      encode_header (h <| len := u16 (zlen payload) |>
                       <| offset := u16 (hosted_pad_len (zlen payload)) |>
                       <| checksum := c |>)
      ++ replicate (Z.to_nat (hosted_pad_len (zlen payload) - sizeof_header)) 0 ++ payload.
Proof.
  unfold hosted_frame. case_match.
  - eexists. split; [|done]. apply compute_checksum_range.
  - exists 0. split; [|done]. done.
Qed.

Lemma zlen_replicate {A} n (x : A) : zlen (replicate n x) = Z.of_nat n.
Proof. unfold zlen. by rewrite length_replicate. Qed.
#[export] Hint Rewrite @zlen_replicate : zlist.

(** A built frame passes the bounds check in any buffer that holds it, and the
    bytes found behind [offset] are the payload. *)
Lemma hosted_frame_received be addr caps h payload rest :
  header_wf h -> 0 < zlen payload < 2 ^ 16 ->
  let frame := hosted_frame be addr caps h payload in
  let h' := decode_header (frame ++ rest) in
  if_type h' = if_type h /\ if_num h' = if_num h /\ packet_type h' = packet_type h /\
  flags h' = flags h /\ len h' = zlen payload /\
  offset h' = hosted_pad_len (zlen payload) /\
  esp_host_wire_span_valid (len h') (offset h') (zlen (frame ++ rest)) = Some (zlen frame) /\
  ztake (len h') (zdrop (offset h') (frame ++ rest)) = payload.
Proof.
  intros Hwf Hlen frame h'. subst h' frame.
  destruct (hosted_frame_shape be addr caps h payload) as (c & Hc & ->).
  pose proof (hosted_pad_len_range (zlen payload) ltac:(lia)) as Hpad.
  unfold sizeof_header in *. set (pad := hosted_pad_len (zlen payload)) in *.
  rewrite <- !app_assoc, decode_encode_header
    by (apply header_wf_set; auto with zlist).
  cbn [if_type if_num packet_type flags len offset update].
  rewrite !wrap_id by (unfold in_width; lia).
  split_and!; try done.
  - unfold esp_host_wire_span_valid, ESP_OFFSET_VALID, ESP_MAX_OFFSET_SIZE,
      ESP_MAX_ALIGN_PADDING, sizeof_header.
    autorewrite with zlist. unfold sizeof_header.
    pose proof (zlen_nonneg rest).
    rewrite (proj2 (Z.eqb_neq _ _)), (proj2 (Z.leb_le _ _)), (proj2 (Z.leb_le _ _)) by lia.
    cbn. rewrite !(proj2 (Z.ltb_ge _ _)) by lia. cbn. f_equal. lia.
  - rewrite app_assoc, zdrop_app_exact by (autorewrite with zlist; unfold sizeof_header; lia).
    by apply ztake_app_exact.
Qed.

(** The checksum every sender computes over its frame, with the field still zero,
    is the one every receiver expects. *)
Lemma checksummed_ok be addr be' addr' h tail n :
  header_wf h -> checksum h = 0 -> bytes_ok tail -> len h + offset h = n ->
  rx_checksum_ok be' addr'
    (encode_header (h <| checksum := compute_checksum be addr (encode_header h ++ tail) n |>) ++ tail) = true.
Proof.
  intros Hwf H0 Htail Hn. unfold rx_checksum_ok.
  set (c := compute_checksum be addr (encode_header h ++ tail) n).
  assert (Hc : in_width 16 c) by apply compute_checksum_range.
  rewrite zero_checksum_encode, decode_encode_header by (unfold header_wf in *; cbn; tauto).
  assert (E : h <| checksum := c |> <| checksum := 0 |> = h) by (destruct h; cbn in *; by subst).
  rewrite E. cbn [len offset checksum update]. change (len (h <| checksum := c |>)) with (len h).
  change (offset (h <| checksum := c |>)) with (offset h). change (checksum (h <| checksum := c |>)) with c. rewrite Hn.
  assert (Hframe : bytes_ok (encode_header h ++ tail)).
  { apply Forall_app. split; [by apply encode_header_ok|done]. }
  unfold c. rewrite !compute_checksum_spec by exact Hframe. apply Z.eqb_refl.
Qed.

Lemma hosted_frame_checksum_ok be addr be' addr' caps h payload :
  header_wf h -> bytes_ok payload -> 0 < zlen payload < 2 ^ 16 ->
  has_cap caps ESP_CHECKSUM_ENABLED = true ->
  rx_checksum_ok be' addr' (hosted_frame be addr caps h payload) = true.
Proof.
  intros Hwf Hok Hlen Hcap. unfold hosted_frame. rewrite Hcap.
  pose proof (hosted_pad_len_range (zlen payload) ltac:(lia)) as Hpad. unfold sizeof_header in Hpad.
  apply (checksummed_ok be addr be' addr' (h <| len := u16 (zlen payload) |>
    <| offset := u16 (hosted_pad_len (zlen payload)) |> <| checksum := 0 |>)).
  - apply header_wf_set; auto with zlist; done.
  - done.
  - apply Forall_app. split; [|done]. apply Forall_replicate. unfold is_byte. lia.
  - cbn. rewrite !wrap_id by (unfold in_width; lia). lia.
Qed.

(** Sixteen bits are read as sixteen bits. *)
Lemma decoded_len_range l : bytes_ok l -> in_width 16 (len (decode_header l)).
Proof.
  intros Hb. unfold decode_header. cbn [len]. unfold le_at.
  assert (Hr : bytes_ok (ztake (Z.of_nat 2) (zdrop 4 l))) by (by apply Forall_ztake, Forall_zdrop).
  apply le_val_range in Hr. unfold in_width in *. autorewrite with zlist in Hr.
  destruct Hr as [Hr1 Hr2]. split; [done|]. eapply Z.lt_le_trans; [exact Hr2|].
  apply Z.pow_le_mono_r; zlen_nonneg_all; lia.
Qed.

(** ** Properties of the wire format *)

Lemma byte_split b : (b mod 16) + 16 * (b / 16) = b.
Proof. rewrite Z.add_comm. symmetry. apply Z.div_mod. lia. Qed.

Lemma le_bytes_at n i l :
  bytes_ok l -> 0 <= i -> i + Z.of_nat n <= zlen l ->
  le_bytes n (le_at n i l) = ztake (Z.of_nat n) (zdrop i l).
Proof.
  intros Hok Hi Hl. unfold le_at.
  assert (length (ztake (Z.of_nat n) (zdrop i l)) = n) as E.
  { pose proof (zlen_ztake (Z.of_nat n) (zdrop i l)) as H. revert H.
    rewrite zlen_zdrop. unfold zlen in *. lia. }
  rewrite <- E at 1. apply le_bytes_le_val. by apply Forall_ztake, Forall_zdrop.
Qed.

Lemma encode_decode_header buf :
  bytes_ok buf -> sizeof_header <= zlen buf ->
  encode_header (decode_header buf) = ztake sizeof_header buf.
Proof.
  unfold sizeof_header. intros Hok Hl. unfold encode_header, decode_header.
  cbn [if_type if_num flags packet_type reserved1 len offset checksum reserved2 hci_pkt_type].
  rewrite !le_bytes_at, byte_split by (done || lia).
  do 12 (destruct buf as [|? buf]; [unfold zlen in Hl; cbn in Hl; lia|]). done.
Qed.

(** The packed 12-byte header survives the wire: decoding what the sender
    encoded gives back every field whatever follows it, and re-encoding a
    header read from received bytes reproduces those bytes. *)
Lemma header_roundtrip h rest buf :
  header_wf h -> bytes_ok buf -> sizeof_header <= zlen buf ->
  decode_header (encode_header h ++ rest) = h /\
  encode_header (decode_header buf) = ztake sizeof_header buf.
Proof. intros. split; [by apply decode_encode_header|by apply encode_decode_header]. Qed.

Definition sample_header : esp_payload_header :=
  zero_header <| if_type := ESP_AP_IF |> <| if_num := 1 |> <| len := 300 |> <| offset := 12 |>.

Lemma sample_header_wf : header_wf sample_header.
Proof. vm_compute. intuition congruence. Qed.

Lemma header_roundtrip_witness :
  decode_header (encode_header sample_header ++ [7]) = sample_header /\
  encode_header (decode_header (replicate 13 5)) = ztake sizeof_header (replicate 13 5).
Proof.
  apply (header_roundtrip sample_header [7] (replicate 13 5)).
  - apply sample_header_wf.
  - repeat constructor; unfold is_byte; lia.
  - vm_compute. congruence.
Defined.

(** the word-at-a-time checksum equals the sum of the first [n] bytes
    modulo 2^16, for every alignment of the buffer and for both byte orders of
    the CPU: the 64-word blocks never carry out of a 16-bit lane. *)
Theorem checksum_is_byte_sum be addr buf n :
  bytes_ok buf -> in_width 16 n ->
  compute_checksum be addr buf n = byte_sum (ztake n buf) mod 2 ^ 16.
Proof. intros. rewrite compute_checksum_spec, (wrap_id 16 n) by done. done. Qed.

Lemma checksum_is_byte_sum_witness :
  compute_checksum true 3 (replicate 300 255) 290
  = byte_sum (ztake 290 (replicate 300 255)) mod 2 ^ 16.
Proof.
  apply (checksum_is_byte_sum true 3 (replicate 300 255) 290).
  - apply Forall_replicate. unfold is_byte. lia.
  - unfold in_width. lia.
Defined.

(** A frame built by any transmit path for a payload of 1..65535 bytes is
    4-byte aligned as a whole, passes the receiver's span check in any buffer
    holding it, yields exactly the payload behind its offset, keeps interface,
    flags and packet type, and - when checksums are negotiated - passes the
    receiver's verification on a peer of either byte order. *)
Lemma hosted_frame_accepted be addr be' addr' caps h payload rest :
  header_wf h -> bytes_ok payload -> 0 < zlen payload < 2 ^ 16 ->
  let frame := hosted_frame be addr caps h payload in
  let h' := decode_header (frame ++ rest) in
  zlen frame mod 4 = 0 /\
  if_type h' = if_type h /\ if_num h' = if_num h /\
  packet_type h' = packet_type h /\ flags h' = flags h /\
  esp_host_wire_span_valid (len h') (offset h') (zlen (frame ++ rest)) = Some (zlen frame) /\
  ztake (len h') (zdrop (offset h') (frame ++ rest)) = payload /\
  (has_cap caps ESP_CHECKSUM_ENABLED = true -> rx_checksum_ok be' addr' frame = true).
Proof.
  intros Hwf Hok Hl frame h'.
  destruct (hosted_frame_received be addr caps h payload rest Hwf Hl)
    as (? & ? & ? & ? & ? & ? & ? & ?).
  split_and!; try done; [|by intros; apply hosted_frame_checksum_ok].
  subst frame. destruct (hosted_frame_shape be addr caps h payload) as (c & _ & ->).
  pose proof (hosted_pad_len_range (zlen payload) ltac:(lia)).
  autorewrite with zlist. unfold sizeof_header in *.
  rewrite Z2Nat.id by lia.
  replace (12 + (_ + _)) with (zlen payload + hosted_pad_len (zlen payload)) by lia.
  apply hosted_pad_len_aligned. lia.
Qed.

Lemma hosted_frame_accepted_witness :
  let frame := hosted_frame false 0 (2 ^ 7) sample_header [1; 2; 3; 250; 255] in
  zlen frame = 20 /\ rx_checksum_ok true 2 frame = true.
Proof.
  assert (H : 0 < zlen [1; 2; 3; 250; 255] < 2 ^ 16) by (vm_compute; intuition congruence).
  assert (Hb : bytes_ok [1; 2; 3; 250; 255]) by (repeat constructor; unfold is_byte; lia).
  destruct (hosted_frame_accepted false 0 true 2 (2 ^ 7) sample_header [1; 2; 3; 250; 255] []
    sample_header_wf Hb H) as (_ & _ & _ & _ & _ & _ & _ & Hc).
  split; [reflexivity|]. apply Hc. reflexivity.
Defined.
