(* ===== verification/UsbStream.v ===== *)
(** * UsbStream: the USB byte-stream deframers and the device-side framer

    The Linux receive path of [host/usb/esp_usb.c]
    ([esp_usb_parse_stream_locked], [esp_usb_ingest_stream]) and the firmware
    side of the same pipes in [main/usb/esp_usb_device.c] ([usb_write_all],
    [usb_parse_stream], [usb_ingest]). *)
From S2P Require Import Prelude Wire.

Definition ESP_USB_MAX_XFER : Z := 16 * 1024.

(** ** Host receive path *)
Module Host.

(** The receive half of [struct esp_usb_context].  [rx_stream] is the live
    prefix of the accumulator, so [rx_stream_len] is its length.  [allocs]
    lists the outcomes of the coming [alloc_skb] calls (success once
    exhausted). *)
Record usb_rx := mk_rx {
  bulk_in_mps : Z;
  rx_stream_cap : Z;
  rx_stream : list Z;
  rx_pad_expected : bool;
  rx_queue : list (list Z);
  allocs : list bool
}.

#[export] Instance eta_usb_rx : Eta usb_rx := fun s =>
  mk_rx (bulk_in_mps s) (rx_stream_cap s) (rx_stream s) (rx_pad_expected s)
    (rx_queue s) (allocs s).

Definition rx_stream_len (s : usb_rx) : Z := zlen (rx_stream s).

Definition esp_usb_valid_header (hdr : esp_payload_header) : option Z :=
  if ESP_MAX_IF <=? if_type hdr then None
  else esp_host_wire_span_valid (len hdr) (offset hdr) ESP_USB_MAX_XFER.

Definition esp_usb_queue_frame_locked (s : usb_rx) (data : list Z) : usb_rx * bool :=
  match allocs s with
  | false :: rest => (s <| allocs := rest |>, false)
  | allocs' => (s <| allocs := drop 1 allocs' |> <| rx_queue := rx_queue s ++ [data] |>, true)
  end.

(** The pad-byte preamble of each loop iteration. *)
Definition skip_pad (s : usb_rx) : usb_rx :=
  match rx_pad_expected s, rx_stream s with
  | true, b :: rest =>
      s <| rx_stream := if b =? 0 then rest else b :: rest |> <| rx_pad_expected := false |>
  | _, _ => s
  end.

(** One iteration after the preamble: [None] is [break]; otherwise the new
    state with the iteration's contributions to [queued] and [*stream_loss]. *)
Definition parse_frame (s : usb_rx) : option (usb_rx * bool * bool) :=
  if rx_stream_len s <? sizeof_header then None
  else
    match esp_usb_valid_header (decode_header (rx_stream s)) with
    | None => Some (s <| rx_stream := zdrop 1 (rx_stream s) |>, false, true)
    | Some frame_len =>
        if rx_stream_len s <? frame_len then None
        else
          let '(s1, ok) := esp_usb_queue_frame_locked s (ztake frame_len (rx_stream s)) in
          Some (s1 <| rx_pad_expected :=
                        negb (bulk_in_mps s =? 0) && (frame_len <? ESP_USB_MAX_XFER)
                          && (frame_len mod bulk_in_mps s =? 0) |>
                   <| rx_stream := zdrop frame_len (rx_stream s) |>, ok, negb ok)
    end.

(** [for (;;)]; every continuing iteration consumes at least one byte, so
    the buffer length plus one bounds the number of iterations. *)
Fixpoint parse_loop (fuel : nat) (s : usb_rx) (queued loss : bool) : usb_rx * bool * bool :=
  match fuel with
  | O => (s, queued, loss)
  | S fuel' =>
      let s := skip_pad s in
      match parse_frame s with
      | None => (s, queued, loss)
      | Some (s', q, l) => parse_loop fuel' s' (queued || q) (loss || l)
      end
  end.

Definition esp_usb_parse_stream_locked (s : usb_rx) (loss : bool) : usb_rx * bool * bool :=
  parse_loop (S (length (rx_stream s))) s false loss.

(** The [while (len)] loop of [esp_usb_ingest_stream]; each pass copies at
    least one byte because the accumulator is emptied when it is full. *)
Fixpoint ingest_loop (fuel : nat) (s : usb_rx) (data : list Z) (queued loss : bool)
    : usb_rx * bool * bool :=
  match fuel, data with
  | S fuel', _ :: _ =>
      let '(s, loss) :=
        if rx_stream_len s =? rx_stream_cap s then (s <| rx_stream := [] |>, true)
        else (s, loss) in
      let copy := Z.min (zlen data) (rx_stream_cap s - rx_stream_len s) in
      let s := s <| rx_stream := rx_stream s ++ ztake copy data |> in
      let '(s, q, loss) := esp_usb_parse_stream_locked s loss in
      ingest_loop fuel' s (zdrop copy data) (queued || q) loss
  | _, _ => (s, queued, loss)
  end.

(** Result: the new state, whether frames were queued (the RX worker is
    kicked) and whether framing loss was seen (stateful failure scheduled). *)
Definition esp_usb_ingest_stream (s : usb_rx) (data : list Z) : usb_rx * bool * bool :=
  ingest_loop (length data) s data false false.

Definition esp_usb_reset_rx_stream (s : usb_rx) : usb_rx :=
  s <| rx_stream := [] |> <| rx_pad_expected := false |>.

(** ** The deframer as a big-step relation

    [Run s s' q l]: the parser loop started in [s] breaks in [s'] having
    contributed [q] to [queued] and [l] to [*stream_loss]. *)
Inductive Run : usb_rx -> usb_rx -> bool -> bool -> Prop :=
  | Run_break s : parse_frame (skip_pad s) = None -> Run s (skip_pad s) false false
  | Run_continue s s1 s2 q l q' l' :
      parse_frame (skip_pad s) = Some (s1, q, l) ->
      Run s1 s2 q' l' -> Run s s2 (q || q') (l || l').

(** Appending received bytes. *)
Definition feed (s : usb_rx) (d : list Z) : usb_rx := s <| rx_stream := rx_stream s ++ d |>.

(** A state the parser loop can be left in. *)
Definition settled (s : usb_rx) : Prop :=
  parse_frame s = None /\ (rx_pad_expected s = true -> rx_stream s = []).

(** Everything the parser never writes. *)
Definition same_config (s s' : usb_rx) : Prop :=
  bulk_in_mps s' = bulk_in_mps s /\ rx_stream_cap s' = rx_stream_cap s.

#[export] Instance same_config_preorder : PreOrder same_config.
Proof. split; [by intros s|]. intros s1 s2 s3 [] []. split; congruence. Qed.

Lemma esp_usb_valid_header_inv buf fl :
  bytes_ok buf -> esp_usb_valid_header (decode_header buf) = Some fl ->
  sizeof_header < fl <= ESP_USB_MAX_XFER.
Proof.
  unfold esp_usb_valid_header. intros Hok. case_match; [done|]. intros Hv.
  apply span_valid_inv in Hv as (_ & ? & _); [done|]. by apply le_at_nonneg.
Qed.

Lemma queue_frame_rx_stream s d s1 ok :
  esp_usb_queue_frame_locked s d = (s1, ok) ->
  rx_stream s1 = rx_stream s /\ same_config s s1.
Proof. unfold esp_usb_queue_frame_locked. by repeat case_match; intros [= <- <-]. Qed.

Lemma queue_frame_feed s d e s1 ok :
  esp_usb_queue_frame_locked s d = (s1, ok) ->
  esp_usb_queue_frame_locked (feed s e) d = (feed s1 e, ok).
Proof. unfold esp_usb_queue_frame_locked. cbn. by repeat case_match; intros [= <- <-]. Qed.

Lemma parse_frame_shrinks s s1 q l :
  bytes_ok (rx_stream s) -> parse_frame s = Some (s1, q, l) ->
  zlen (rx_stream s1) < zlen (rx_stream s) /\ bytes_ok (rx_stream s1) /\ same_config s s1.
Proof.
  unfold parse_frame, rx_stream_len. intros Hok. case_match eqn:H1; [done|]. bool_hyps.
  unfold sizeof_header in *. case_match eqn:H2.
  - apply esp_usb_valid_header_inv in H2; [|done]. unfold sizeof_header in *.
    case_match; [done|]. case_match eqn:Hq. intros [= <- <- <-].
    apply queue_frame_rx_stream in Hq as [_ Hc]. bool_hyps. cbn.
    split_and!; [zlia|by apply Forall_zdrop|by destruct Hc].
  - intros [= <- <- <-]. cbn. split_and!; [zlia|by apply Forall_zdrop|done].
Qed.

Lemma skip_pad_shrinks s :
  bytes_ok (rx_stream s) ->
  zlen (rx_stream (skip_pad s)) <= zlen (rx_stream s) /\
  bytes_ok (rx_stream (skip_pad s)) /\ same_config s (skip_pad s).
Proof.
  destruct s as [m c st p rq al]. unfold skip_pad. cbn. intros Hok.
  destruct p, st as [|b st]; cbn; try (by split_and!; [lia|..]).
  destruct (b =? 0); split_and!; try done; zlia || by apply Forall_cons_1 in Hok as [_ ?].
Qed.

Lemma parse_frame_feed s s1 q l d :
  bytes_ok (rx_stream s) -> parse_frame s = Some (s1, q, l) ->
  parse_frame (feed s d) = Some (feed s1 d, q, l).
Proof.
  unfold parse_frame at 1, rx_stream_len. intros Hok Hp. pose proof (zlen_nonneg d).
  destruct (zlen (rx_stream s) <? sizeof_header) eqn:H1; [done|]. bool_hyps.
  unfold parse_frame, rx_stream_len. cbn [rx_stream feed update].
  rewrite (proj2 (Z.ltb_ge (zlen (rx_stream s ++ d)) _)), decode_header_app by wire_lia.
  destruct (esp_usb_valid_header _) as [fl|] eqn:H2.
  - pose proof (esp_usb_valid_header_inv _ _ Hok H2) as Hfl. unfold sizeof_header in Hfl.
    destruct (zlen (rx_stream s) <? fl) eqn:H3; [done|]. bool_hyps.
    rewrite (proj2 (Z.ltb_ge (zlen (rx_stream s ++ d)) _)), ztake_app_le, zdrop_app_le
      by wire_lia.
    destruct (esp_usb_queue_frame_locked s _) as [s2 ok] eqn:Hq. simplify_eq.
    by rewrite (queue_frame_feed _ _ d _ _ Hq).
  - simplify_eq. by rewrite zdrop_app_le by wire_lia.
Qed.

Lemma skip_pad_feed s d :
  rx_stream s <> [] \/ rx_pad_expected s = false ->
  skip_pad (feed s d) = feed (skip_pad s) d /\ skip_pad (skip_pad s) = skip_pad s /\
  skip_pad (feed (skip_pad s) d) = feed (skip_pad s) d.
Proof.
  destruct s as [m c st p rq al]. unfold skip_pad, feed. cbn.
  destruct p, st as [|b st]; cbn; intros H; try done.
  - by destruct H.
  - by destruct (b =? 0).
Qed.


(** The loop computes [Run], whatever sufficient fuel it is given. *)
Lemma parse_loop_Run fuel s q0 l0 :
  bytes_ok (rx_stream s) -> zlen (rx_stream s) < Z.of_nat fuel ->
  exists s' q l, parse_loop fuel s q0 l0 = (s', q0 || q, l0 || l) /\ Run s s' q l.
Proof.
  revert s q0 l0. induction fuel as [|f IH]; intros s q0 l0 Hok Hf; [zlia|].
  cbn [parse_loop]. destruct (parse_frame (skip_pad s)) as [[[s1 q] l]|] eqn:Hp.
  - destruct (skip_pad_shrinks s Hok) as (? & Hok1 & _).
    destruct (parse_frame_shrinks _ _ _ _ Hok1 Hp) as (? & ? & _).
    destruct (IH s1 (q0 || q) (l0 || l)) as (s' & q' & l' & -> & HR); [done|lia|].
    exists s', (q || q'), (l || l'). rewrite !orb_assoc. split; [done|].
    by eapply Run_continue.
  - exists (skip_pad s), false, false. rewrite !orb_false_r.
    split; [done|by constructor].
Qed.

Lemma Run_det s s1 s2 q1 q2 l1 l2 :
  Run s s1 q1 l1 -> Run s s2 q2 l2 -> s1 = s2 /\ q1 = q2 /\ l1 = l2.
Proof.
  intros HR. revert s2 q2 l2. induction HR as [s Hb|s s1 s1' q l q' l' Hp HR IH];
    intros s2 q2 l2 HR2; inversion HR2; subst; try congruence; [done|].
  simplify_eq. match goal with H : Run _ s2 _ _ |- _ => apply IH in H as (-> & -> & ->) end.
  done.
Qed.

Lemma Run_config s s' q l :
  bytes_ok (rx_stream s) -> Run s s' q l ->
  bytes_ok (rx_stream s') /\ same_config s s' /\ settled s'.
Proof.
  intros Hok HR. induction HR as [s Hb|s s1 s2 q l q' l' Hp HR IH].
  - destruct (skip_pad_shrinks s Hok) as (_ & ? & ?). split_and!; [done..|].
    split; [done|]. revert Hb. destruct s as [m c st p rq al]. unfold skip_pad. cbn.
    by destruct p, st.
  - destruct (skip_pad_shrinks s Hok) as (_ & Hok1 & Hc1).
    destruct (parse_frame_shrinks _ _ _ _ Hok1 Hp) as (_ & Hok2 & Hc2).
    destruct (IH Hok2) as (? & Hc3 & ?). split_and!; [done| |done].
    by rewrite Hc1, Hc2.
Qed.

Lemma settled_skip_pad s : settled s -> skip_pad s = s.
Proof.
  intros [_ Hp]. unfold skip_pad. destruct (rx_pad_expected s); [|done].
  by rewrite Hp.
Qed.

Lemma settled_Run s : settled s -> Run s s false false.
Proof.
  intros Hs. rewrite <- (settled_skip_pad s Hs) at 2. constructor.
  rewrite settled_skip_pad by done. apply Hs.
Qed.

(** A settled accumulator holds less than one maximal frame. *)
Lemma settled_bound s :
  bytes_ok (rx_stream s) -> settled s -> zlen (rx_stream s) < ESP_USB_MAX_XFER.
Proof.
  unfold settled, parse_frame, rx_stream_len. intros Hok [Hp _].
  destruct (zlen (rx_stream s) <? sizeof_header) eqn:H1; bool_hyps;
    [unfold ESP_USB_MAX_XFER; wire_lia|].
  destruct (esp_usb_valid_header _) as [fl|] eqn:H2; [|done].
  apply esp_usb_valid_header_inv in H2; [|done].
  destruct (zlen (rx_stream s) <? fl) eqn:H3; bool_hyps; [lia|by case_match].
Qed.

(** Parsing what has arrived, then parsing again when more arrives, is
    parsing everything at once. *)
Lemma Run_feed s s1 s2 q1 l1 q2 l2 d :
  bytes_ok (rx_stream s) -> Run s s1 q1 l1 -> Run (feed s1 d) s2 q2 l2 ->
  Run (feed s d) s2 (q1 || q2) (l1 || l2).
Proof.
  intros Hok HR. revert s2 q2 l2.
  induction HR as [s Hb|s s1 s1' q l q' l' Hp HR IH]; intros s2 q2 l2 HR2.
  - destruct (decide (rx_stream s <> [] \/ rx_pad_expected s = false)) as [Hc|Hc].
    + destruct (skip_pad_feed s d Hc) as (E1 & E2 & E3).
      inversion HR2; subst; rewrite E3 in *; cbn [orb].
      * rewrite <- E1. constructor. by rewrite E1.
      * eapply Run_continue; [by rewrite E1|done].
    + assert (skip_pad s = s) as <-; [|done]. unfold skip_pad.
      destruct (rx_pad_expected s), (rx_stream s); try done; destruct Hc; auto.
  - assert (Hc : rx_stream s <> [] \/ rx_pad_expected s = false).
    { left. intros E. revert Hp. unfold parse_frame, rx_stream_len, skip_pad.
      rewrite E. by destruct (rx_pad_expected s); rewrite ?E. }
    destruct (skip_pad_shrinks s Hok) as (_ & Hok1 & _).
    destruct (parse_frame_shrinks _ _ _ _ Hok1 Hp) as (_ & Hok2 & _).
    destruct (skip_pad_feed s d Hc) as (E1 & _ & _).
    rewrite <- !orb_assoc. eapply Run_continue; [|by apply IH].
    rewrite E1. by apply parse_frame_feed.
Qed.

Lemma feed_nil s : feed s [] = s.
Proof. destruct s. unfold feed. cbn. by rewrite app_nil_r. Qed.

Lemma feed_feed s d e : feed (feed s d) e = feed s (d ++ e).
Proof. unfold feed. cbn. by rewrite app_assoc. Qed.

Lemma feed_ok s d : bytes_ok (rx_stream s) -> bytes_ok d -> bytes_ok (rx_stream (feed s d)).
Proof. intros. by apply Forall_app. Qed.

(** The receive context as probe allocates it. *)
Definition rx_wf (s : usb_rx) : Prop :=
  rx_stream_cap s = 2 * ESP_USB_MAX_XFER /\ bytes_ok (rx_stream s) /\ settled s.

Lemma rx_wf_Run s s' d q l :
  rx_wf s -> bytes_ok d -> Run (feed s d) s' q l -> rx_wf s'.
Proof.
  intros (Hc & Hok & _) Hd HR.
  destruct (Run_config _ _ _ _ (feed_ok s d Hok Hd) HR) as (? & [_ E] & ?).
  split; [|done]. by rewrite E.
Qed.

(** Splitting a delivery over several copies into the accumulator changes
    nothing, because a settled accumulator never fills up. *)
Lemma ingest_loop_Run fuel s data q0 l0 :
  rx_wf s -> bytes_ok data -> (length data <= fuel)%nat ->
  exists s' q l, ingest_loop fuel s data q0 l0 = (s', q0 || q, l0 || l) /\
    Run (feed s data) s' q l.
Proof.
  revert s data q0 l0. induction fuel as [|f IH]; intros s data q0 l0 Hwf Hok Hf.
  all: destruct data as [|b data];
    [exists s, false, false; rewrite !orb_false_r, feed_nil;
     split; [done|apply settled_Run, Hwf]|cbn in Hf; try lia].
  assert (Hwf' := Hwf). destruct Hwf as (Hc & Hoks & Hs). cbn [ingest_loop].
  pose proof (settled_bound s Hoks Hs) as Hb. unfold rx_stream_len in *.
  rewrite (proj2 (Z.eqb_neq _ _)) by (unfold ESP_USB_MAX_XFER in *; lia).
  set (data' := b :: data) in *.
  set (copy := Z.min (zlen data') (rx_stream_cap s - zlen (rx_stream s))).
  assert (1 <= copy <= zlen data') as Hcopy.
  { subst copy data'. unfold ESP_USB_MAX_XFER in *. zlia. }
  change (s <| rx_stream := rx_stream s ++ ztake copy data' |>) with (feed s (ztake copy data')).
  assert (Hok1 := feed_ok s _ Hoks (Forall_ztake _ copy _ Hok)).
  destruct (parse_loop_Run (S (length (rx_stream (feed s (ztake copy data')))))
    (feed s (ztake copy data')) false l0) as (s1 & q1 & l1 & E1 & HR1); [done| |].
  { unfold zlen. lia. }
  unfold esp_usb_parse_stream_locked. rewrite E1.
  destruct (IH s1 (zdrop copy data') (q0 || q1) (l0 || l1)) as (s2 & q2 & l2 & E2 & HR2).
  { apply (rx_wf_Run s s1 (ztake copy data') q1 l1); [done|by apply Forall_ztake|done]. }
  { by apply Forall_zdrop. }
  { pose proof (zlen_zdrop copy data'). subst data'. unfold zlen in *. cbn in *. lia. }
  exists s2, (q1 || q2), (l1 || l2). cbn [orb]. rewrite E2, !orb_assoc. split; [done|].
  eapply Run_feed in HR2; [|done|done]. by rewrite feed_feed, ztake_zdrop in HR2.
Qed.

Lemma ingest_Run s data :
  rx_wf s -> bytes_ok data ->
  exists s' q l, esp_usb_ingest_stream s data = (s', q, l) /\
    Run (feed s data) s' q l /\ rx_wf s'.
Proof.
  intros Hwf Hok. destruct (ingest_loop_Run (length data) s data false false)
    as (s' & q & l & E & HR); [done|done|lia|].
  exists s', q, l. split_and!; [done..|]. by eapply rx_wf_Run.
Qed.

(** Consecutive completions of receive URBs. *)
Definition ingest_all (s : usb_rx) (chunks : list (list Z)) : usb_rx * bool * bool :=
  foldl (fun '(s, q, l) c =>
           let '(s', q', l') := esp_usb_ingest_stream s c in (s', q || q', l || l'))
        (s, false, false) chunks.

Lemma ingest_all_Run s chunks :
  rx_wf s -> Forall bytes_ok chunks ->
  exists s' q l, ingest_all s chunks = (s', q, l) /\ Run (feed s (concat chunks)) s' q l
    /\ rx_wf s'.
Proof.
  intros Hwf Hok. unfold ingest_all.
  induction chunks as [|c chunks IH] using rev_ind.
  { exists s, false, false. cbn. rewrite feed_nil.
    split_and!; [done|apply settled_Run, Hwf|done]. }
  apply Forall_app in Hok as [Hok [Hc _]%Forall_cons_1].
  destruct (IH Hok) as (s1 & q1 & l1 & E1 & HR1 & Hwf1). rewrite foldl_app, E1. cbn.
  destruct (ingest_Run s1 c Hwf1 Hc) as (s2 & q2 & l2 & -> & HR2 & Hwf2).
  exists s2, (q1 || q2), (l1 || l2). split_and!; [done| |done].
  rewrite concat_app. cbn. rewrite app_nil_r, <- feed_feed.
  eapply Run_feed; [|done|done]. apply feed_ok; [apply Hwf|].
  clear -Hok. induction Hok; [by constructor|]. by apply Forall_app.
Qed.

(** ** Delivery of well-formed frames *)

(** The bytes the device puts on the bulk-IN pipe for one frame. *)
Definition usb_wire (mps : Z) (frame : list Z) : list Z :=
  frame ++ (if (zlen frame mod mps =? 0) && (zlen frame <? ESP_USB_MAX_XFER) then [0] else []).

Definition frame_ok (frame : list Z) : Prop :=
  bytes_ok frame /\ esp_usb_valid_header (decode_header frame) = Some (zlen frame).

Lemma frame_ok_len f : frame_ok f -> sizeof_header < zlen f <= ESP_USB_MAX_XFER.
Proof. intros [? ?]. by eapply esp_usb_valid_header_inv. Qed.

Lemma Run_skip_pad s s1 s' q l :
  skip_pad s = skip_pad s1 -> Run s1 s' q l -> Run s s' q l.
Proof.
  intros E HR. inversion HR; subst.
  - rewrite <- E. constructor. by rewrite E.
  - eapply Run_continue; [by rewrite E|done].
Qed.

Lemma Run_wire_frames s fs :
  0 < bulk_in_mps s -> allocs s = [] -> rx_pad_expected s = false ->
  Forall frame_ok fs -> rx_stream s = concat (usb_wire (bulk_in_mps s) <$> fs) ->
  Run s (s <| rx_stream := [] |> <| rx_queue := rx_queue s ++ fs |>)
    (negb (bool_decide (fs = []))) false.
Proof.
  destruct s as [mps cap st p rq al]. cbn. intros Hmps -> ->.
  revert st rq. induction fs as [|f fs IH]; cbn; intros st rq Hfs ->.
  { rewrite app_nil_r. by apply Run_break. }
  apply Forall_cons_1 in Hfs as [[Hok Hv] Hfs]. unfold usb_wire at 1.
  pose proof (frame_ok_len f (conj Hok Hv)) as Hlen. rewrite <- app_assoc.
  set (pad := (zlen f mod mps =? 0) && (zlen f <? ESP_USB_MAX_XFER)).
  set (rest := concat (usb_wire mps <$> fs)).
  pose proof (zlen_nonneg ((if pad then [0] else []) ++ rest)).
  eapply (Run_continue _ (mk_rx mps cap ((if pad then [0] else []) ++ rest) pad
    (rq ++ [f]) []) _ true false).
  - unfold skip_pad, parse_frame, rx_stream_len. cbn.
    rewrite (proj2 (Z.ltb_ge _ _)), decode_header_app, Hv by wire_lia.
    rewrite (proj2 (Z.ltb_ge _ _)) by zlia.
    rewrite ztake_app_exact, zdrop_app_exact by done. cbn.
    rewrite (proj2 (Z.eqb_neq mps 0)) by lia. subst pad. cbn. by rewrite andb_comm.
  - apply (Run_skip_pad _ (mk_rx mps cap rest false (rq ++ [f]) [])).
    { unfold skip_pad. cbn. by destruct pad. }
    pose proof (IH rest (rq ++ [f]) Hfs eq_refl) as HR. by rewrite <- app_assoc in HR.
Qed.

End Host.

(** ** Firmware side of the same pipes *)
Module Device.

Definition ESP_USB_RX_STREAM_CAP : Z := ESP_USB_MAX_XFER * 2.
Definition ESP_USB_RX_QUEUE_DEPTH : Z := 32.

Inductive esp_err := ESP_OK | ESP_FAIL | ESP_ERR_INVALID_ARG | ESP_ERR_INVALID_STATE
  | ESP_ERR_TIMEOUT | ESP_ERR_NO_MEM.

#[export] Instance esp_err_eq_dec : EqDecision esp_err.
Proof. solve_decision. Defined.

Definition usb_header_valid (hdr : esp_payload_header) : option Z :=
  if ESP_MAX_IF <=? if_type hdr then None
  else if (len hdr =? 0) || negb (ESP_OFFSET_VALID (offset hdr)) then None
  else
    let frame_len := offset hdr + len hdr in
    if frame_len <=? ESP_USB_MAX_XFER then Some frame_len else None.

(** The RX half of [s_usb].  [mallocs] lists the coming allocation outcomes;
    [rcp_armed] is [esp_hosted_rcp_fail_closed_required ()]; [fatal] counts
    the calls of [esp_hosted_rcp_fatal_restart]. *)
Record s_usb := mk_usb {
  rx_stream : list Z;
  rx_queue : list (list Z);
  mallocs : list bool;
  rcp_armed : bool;
  fatal : nat
}.

#[export] Instance eta_s_usb : Eta s_usb := fun s =>
  mk_usb (rx_stream s) (rx_queue s) (mallocs s) (rcp_armed s) (fatal s).

Definition usb_stateful_rcp_loss (s : s_usb) : s_usb * bool :=
  if rcp_armed s then (s <| fatal := S (fatal s) |>, true) else (s, false).

Definition usb_queue_frame (s : s_usb) (frame : list Z) : s_usb * bool :=
  match mallocs s with
  | false :: rest => (s <| mallocs := rest |>, false)
  | ms =>
      let s := s <| mallocs := drop 1 ms |> in
      if zlen (rx_queue s) <? ESP_USB_RX_QUEUE_DEPTH
      then (s <| rx_queue := rx_queue s ++ [frame] |>, true)
      else (s, false)
  end.

(** The [while] loop over complete headers; each continuing iteration
    consumes at least one byte. *)
Fixpoint parse_loop (fuel : nat) (s : s_usb) : s_usb * esp_err :=
  match fuel with
  | O => (s, ESP_OK)
  | S fuel' =>
      if zlen (rx_stream s) <? sizeof_header then (s, ESP_OK)
      else
        let hdr := decode_header (rx_stream s) in
        match usb_header_valid hdr with
        | None =>
            let '(s, lost) := usb_stateful_rcp_loss s in
            if lost then (s <| rx_stream := [] |>, ESP_FAIL)
            else parse_loop fuel' (s <| rx_stream := zdrop 1 (rx_stream s) |>)
        | Some frame_len =>
            if zlen (rx_stream s) <? frame_len then (s, ESP_OK)
            else
              let frame := ztake frame_len (rx_stream s) in
              let '(s, queued) := usb_queue_frame s frame in
              let '(s, lost) :=
                if negb queued && (if_type hdr =? ESP_RCP_IF)
                then usb_stateful_rcp_loss s else (s, false) in
              if lost then (s <| rx_stream := [] |>, ESP_FAIL)
              else parse_loop fuel' (s <| rx_stream := zdrop frame_len (rx_stream s) |>)
        end
  end.

Definition usb_parse_stream (s : s_usb) : s_usb * esp_err :=
  parse_loop (S (length (rx_stream s))) s.

Fixpoint ingest_loop (fuel : nat) (s : s_usb) (data : list Z) : s_usb * esp_err :=
  match fuel, data with
  | S fuel', _ :: _ =>
      let '(s, lost) :=
        if zlen (rx_stream s) =? ESP_USB_RX_STREAM_CAP then
          let '(s, lost) := usb_stateful_rcp_loss s in (s <| rx_stream := [] |>, lost)
        else (s, false) in
      if lost then (s, ESP_FAIL)
      else
        let copy := Z.min (zlen data) (ESP_USB_RX_STREAM_CAP - zlen (rx_stream s)) in
        let s := s <| rx_stream := rx_stream s ++ ztake copy data |> in
        let '(s, ret) := usb_parse_stream s in
        if decide (ret = ESP_OK) then ingest_loop fuel' s (zdrop copy data)
        else (s, ESP_FAIL)
  | _, _ => (s, ESP_OK)
  end.

Definition usb_ingest (s : s_usb) (data : list Z) : s_usb * esp_err :=
  ingest_loop (length data) s data.

(** *** Transmit: [esp_usb_write] and [usb_write_all]

    TinyUSB is outside the repository: each pass of the write loop consults
    one [tud] record with what [tud_vendor_n_mounted],
    [tud_vendor_n_write_available] and [tud_vendor_n_write] answer and
    whether the deadline has passed by then. *)
Record tud := mk_tud { mounted : bool; available : Z; accepts : Z; expired : bool }.

(** TinyUSB never takes more than it is offered. *)
Definition tud_ok (t : tud) : Prop := 0 <= available t /\ 0 <= accepts t.

(** The send loop; the result carries the bytes put on the pipe. [None]: the
    supplied answers ran out while the loop was still waiting. *)
Fixpoint write_loop (env : list tud) (data sent : list Z) : option (esp_err * list Z * list tud) :=
  match data with
  | [] => Some (ESP_OK, sent, env)
  | _ :: _ =>
      match env with
      | [] => None
      | t :: env' =>
          if negb (mounted t) then Some (ESP_ERR_INVALID_STATE, sent, env')
          else if available t =? 0 then
            if expired t then Some (ESP_ERR_TIMEOUT, sent, env')
            else write_loop env' data sent
          else
            let chunk := Z.min (zlen data) (available t) in
            let written := Z.min chunk (accepts t) in
            if written =? 0 then
              if expired t then Some (ESP_ERR_TIMEOUT, sent, env')
              else write_loop env' data sent
            else write_loop env' (zdrop written data) (sent ++ ztake written data)
      end
  end.

(** Waiting for room for the pad byte, then writing it. *)
Fixpoint write_pad (env : list tud) (sent : list Z) : option (esp_err * list Z * list tud) :=
  match env with
  | [] => None
  | t :: env' =>
      if available t =? 0 then
        if expired t then Some (ESP_ERR_TIMEOUT, sent, env') else write_pad env' sent
      else if accepts t =? 0 then Some (ESP_FAIL, sent, env')
      else Some (ESP_OK, sent ++ [0], env')
  end.

Definition usb_write_all (ep_mps : Z) (env : list tud) (data : list Z)
    : option (esp_err * list Z * list tud) :=
  if zlen data =? 0 then Some (ESP_ERR_INVALID_ARG, [], env)
  else
    match write_loop env data [] with
    | Some (ESP_OK, sent, env') =>
        if (zlen data mod ep_mps =? 0) && (zlen data <? ESP_USB_MAX_XFER)
        then write_pad env' sent
        else Some (ESP_OK, sent, env')
    | r => r
    end.

(** The frame [esp_usb_write] assembles for a TX buffer (raw-throughput test
    frames aside): offset 12, no checksum. *)
Definition usb_tx_frame (ift ifn flag pkt : Z) (payload : list Z) : list Z :=
  encode_header (zero_header <| if_type := ift |> <| if_num := ifn |> <| flags := flag |>
                   <| packet_type := pkt |> <| len := u16 (zlen payload) |>
                   <| offset := sizeof_header |>) ++ payload.

(** [int32_t] result: the payload length, or an error code. *)
Inductive write_ret := Written (n : Z) | Failed (e : esp_err).

Definition esp_usb_write (ep_mps : Z) (env : list tud) (alloc_ok : bool)
    (ift ifn flag pkt : Z) (payload : list Z) : option (write_ret * list Z * list tud) :=
  if zlen payload =? 0 then Some (Failed ESP_FAIL, [], env)
  else if ESP_USB_MAX_XFER <? sizeof_header + zlen payload then Some (Failed ESP_FAIL, [], env)
  else if negb alloc_ok then Some (Failed ESP_ERR_NO_MEM, [], env)
  else
    match usb_write_all ep_mps env (usb_tx_frame ift ifn flag pkt payload) with
    | Some (ESP_OK, sent, env') => Some (Written (zlen payload), sent, env')
    | Some (_, sent, env') => Some (Failed ESP_FAIL, sent, env')
    | None => None
    end.

(** *** The receive side *)

(** Both ends accept exactly the same headers. *)
Lemma usb_header_valid_host hdr :
  0 <= len hdr -> usb_header_valid hdr = Host.esp_usb_valid_header hdr.
Proof.
  unfold usb_header_valid, Host.esp_usb_valid_header, esp_host_wire_span_valid.
  intros Hl. destruct (ESP_MAX_IF <=? if_type hdr); [done|].
  destruct ((len hdr =? 0) || negb (ESP_OFFSET_VALID (offset hdr))) eqn:E; [done|].
  apply orb_false_iff in E as [_ Ho]. apply negb_false_iff in Ho.
  unfold ESP_OFFSET_VALID in Ho. bool_hyps.
  unfold ESP_USB_MAX_XFER. revert H. unfold ESP_MAX_OFFSET_SIZE, sizeof_header,
    ESP_MAX_ALIGN_PADDING. intros.
  destruct (_ <=? _) eqn:E1, (_ || _) eqn:E2; try done; bool_hyps.
  - apply orb_true_iff in E2 as [?|?]; bool_hyps; lia.
  - lia.
Qed.

Lemma usb_header_valid_buf buf :
  bytes_ok buf ->
  usb_header_valid (decode_header buf) = Host.esp_usb_valid_header (decode_header buf).
Proof. intros. apply usb_header_valid_host. by apply le_at_nonneg. Qed.

Definition rcp_frame (frame : list Z) : bool := if_type (decode_header frame) =? ESP_RCP_IF.

Definition rcp_frames (fs : list (list Z)) : list (list Z) := List.filter rcp_frame fs.

(** What a pass of the parser consumed while fail-closed handling was armed:
    whole valid frames, the RCP ones among them queued in order. *)
Definition consumed (s s' : s_usb) (data : list Z) : Prop :=
  exists fs, rx_stream s ++ data = concat fs ++ rx_stream s' /\
    Forall Host.frame_ok fs /\
    rcp_frames (rx_queue s') = rcp_frames (rx_queue s ++ fs).

Lemma usb_queue_frame_spec s f s' ok :
  usb_queue_frame s f = (s', ok) ->
  rx_stream s' = rx_stream s /\ rcp_armed s' = rcp_armed s /\ fatal s' = fatal s /\
  rx_queue s' = rx_queue s ++ (if ok then [f] else []).
Proof.
  unfold usb_queue_frame. intros Hq.
  repeat case_match; simplify_eq/=; by rewrite ?app_nil_r.
Qed.

Lemma rcp_frames_app fs gs : rcp_frames (fs ++ gs) = rcp_frames fs ++ rcp_frames gs.
Proof. apply List.filter_app. Qed.

Lemma consumed_nil s : consumed s s [].
Proof. exists ([] : list (list Z)). rewrite !app_nil_r. by split_and!. Qed.

Lemma consumed_frame (s s1 s' : s_usb) (f rest : list Z) (ok : bool) data :
  rx_stream s = f ++ rest -> Host.frame_ok f -> rx_stream s1 = rest ->
  rx_queue s1 = rx_queue s ++ (if ok then [f] else []) ->
  (ok = false -> rcp_frame f = false) ->
  consumed s1 s' data -> consumed s s' data.
Proof.
  intros Es Hf E1 Eq Hok (fs & E & Hfs & Hq). exists (f :: fs). split_and!.
  - rewrite Es, <- app_assoc, <- E1, E. cbn. by rewrite app_assoc.
  - by constructor.
  - rewrite Hq, Eq, !rcp_frames_app. cbn. destruct ok; cbn; [by rewrite <- app_assoc; case_match|].
    by rewrite Hok, app_nil_r.
Qed.

Lemma consumed_feed (s s1 s2 : s_usb) d e :
  consumed (s <| rx_stream := rx_stream s ++ d |>) s1 [] ->
  consumed s1 s2 e -> consumed s s2 (d ++ e).
Proof.
  intros (fs & E & Hfs & Hq) (gs & E' & Hgs & Hq'). cbn in *. rewrite app_nil_r in E.
  exists (fs ++ gs). split_and!.
  - by rewrite app_assoc, E, <- app_assoc, E', concat_app, <- app_assoc.
  - by apply Forall_app.
  - by rewrite Hq', rcp_frames_app, Hq, app_assoc, !rcp_frames_app, <- !app_assoc.
Qed.

(** The complete frame at the head of the accumulator. *)
Lemma head_frame_ok st fl :
  bytes_ok st -> usb_header_valid (decode_header st) = Some fl -> fl <= zlen st ->
  Host.frame_ok (ztake fl st) /\ st = ztake fl st ++ zdrop fl st /\ sizeof_header < fl.
Proof.
  intros Hok Hv Hl. rewrite usb_header_valid_buf in Hv by done.
  pose proof (Host.esp_usb_valid_header_inv _ _ Hok Hv) as Hr. unfold sizeof_header in Hr.
  split_and!; [|by rewrite ztake_zdrop|unfold sizeof_header; lia]. split; [by apply Forall_ztake|].
  rewrite <- (decode_header_app _ (zdrop fl st)), ztake_zdrop by wire_lia.
  rewrite Hv. f_equal. zlia.
Qed.

(** While armed, the parser either consumes whole frames or fails closed. *)
Definition armed_outcome (s : s_usb) (data : list Z) (r : s_usb * esp_err) : Prop :=
  rcp_armed r.1 = true /\ bytes_ok (rx_stream r.1) /\
  ((r.2 = ESP_OK /\ fatal r.1 = fatal s /\ consumed s r.1 data) \/
   (r.2 = ESP_FAIL /\ fatal r.1 = S (fatal s) /\ rx_stream r.1 = [])).

Lemma parse_loop_armed fuel s :
  bytes_ok (rx_stream s) -> rcp_armed s = true -> armed_outcome s [] (parse_loop fuel s).
Proof.
  unfold armed_outcome. revert s. induction fuel as [|f IH]; intros s Hok Ha; cbn [parse_loop].
  { split_and!; auto using consumed_nil. }
  destruct (zlen (rx_stream s) <? sizeof_header) eqn:H1.
  { split_and!; auto using consumed_nil. }
  destruct (usb_header_valid _) as [fl|] eqn:Hv.
  2: { unfold usb_stateful_rcp_loss. rewrite Ha. cbn. split_and!; [done|by constructor|auto]. }
  destruct (zlen (rx_stream s) <? fl) eqn:H2.
  { split_and!; auto using consumed_nil. }
  bool_hyps. destruct (head_frame_ok _ _ Hok Hv H2) as (Hf & Est & Hfl).
  destruct (usb_queue_frame s _) as [s1 ok] eqn:Hq.
  apply usb_queue_frame_spec in Hq as (Es & Ea & Ef & Eq). rewrite Ha in Ea.
  assert (Hdrop : if negb ok && (if_type (decode_header (rx_stream s)) =? ESP_RCP_IF)
                  then True else ok = false -> rcp_frame (ztake fl (rx_stream s)) = false).
  { destruct ok; [done|]. cbn. case_match eqn:Hr; [done|]. intros _. unfold rcp_frame.
    rewrite <- (decode_header_app _ (zdrop fl (rx_stream s))), ztake_zdrop; [done|].
    wire_lia. }
  destruct (negb ok && _) eqn:Hlost.
  - unfold usb_stateful_rcp_loss. rewrite Ea. cbn. rewrite Ef. split_and!; [done|by constructor|auto].
  - rewrite Es. set (s2 := s1 <| rx_stream := zdrop fl (rx_stream s) |>).
    assert (fatal s2 = fatal s) as Ef2 by done.
    destruct (IH s2) as (? & ? & Hr); [by apply Forall_zdrop|done|].
    rewrite Ef2 in Hr. split_and!; [done..|].
    destruct Hr as [(? & ? & Hc)|Hr]; [left|right; exact Hr]. split_and!; [done..|].
    by apply (consumed_frame s s2 _ (ztake fl (rx_stream s)) (zdrop fl (rx_stream s)) ok).
Qed.

Lemma ingest_loop_armed fuel s data :
  bytes_ok (rx_stream s) -> bytes_ok data -> rcp_armed s = true ->
  (length data <= fuel)%nat -> zlen (rx_stream s) <= ESP_USB_RX_STREAM_CAP ->
  armed_outcome s data (ingest_loop fuel s data).
Proof.
  unfold armed_outcome. revert s data.
  induction fuel as [|f IH]; intros s data Hok Hd Ha Hf Hcap; destruct data as [|b data];
    cbn [ingest_loop]; try (cbn in Hf; lia).
  1, 2: split_and!; auto using consumed_nil.
  destruct (zlen (rx_stream s) =? ESP_USB_RX_STREAM_CAP) eqn:Hfull.
  { unfold usb_stateful_rcp_loss. rewrite Ha. cbn. split_and!; [done|by constructor|auto]. }
  bool_hyps. set (data' := b :: data) in *.
  set (copy := Z.min (zlen data') (ESP_USB_RX_STREAM_CAP - zlen (rx_stream s))).
  assert (1 <= copy <= zlen data') as Hcopy by (subst copy data'; zlia).
  set (sf := s <| rx_stream := rx_stream s ++ ztake copy data' |>).
  assert (Hoks : bytes_ok (rx_stream sf)) by (apply Forall_app_2; [done|by apply Forall_ztake]).
  unfold usb_parse_stream.
  destruct (parse_loop_armed (S (length (rx_stream sf))) sf Hoks Ha) as (Ha1 & Hok1 & H1).
  destruct (parse_loop _ sf) as [s1 r1]. cbn [fst snd] in *.
  destruct H1 as [(-> & Ef & Hc)|(-> & ? & ?)].
  2: { rewrite decide_False by done. cbn. split_and!; auto. }
  rewrite decide_True by done.
  destruct (IH s1 (zdrop copy data')) as (? & ? & H2); [done|by apply Forall_zdrop|done| | |].
  { pose proof (zlen_zdrop copy data'). subst data'. unfold zlen in *. cbn in *. lia. }
  { destruct Hc as (fs & E & _). cbn in E. rewrite app_nil_r in E.
    apply (f_equal zlen) in E. autorewrite with zlist in E. zlen_nonneg_all. lia. }
  change (fatal sf) with (fatal s) in Ef.
  split_and!; [done..|]. rewrite Ef in H2. destruct H2 as [(? & ? & Hc2)|H2]; [left|by right].
  split_and!; [done..|]. pose proof (consumed_feed s s1 _ _ _ Hc Hc2) as Hcc.
  by rewrite ztake_zdrop in Hcc.
Qed.

(** Whole frames already in the accumulator are all queued when there is room. *)
Lemma parse_loop_frames fuel s fs :
  Forall Host.frame_ok fs -> rx_stream s = concat fs -> mallocs s = [] ->
  zlen (rx_queue s) + zlen fs <= ESP_USB_RX_QUEUE_DEPTH ->
  (length fs < fuel)%nat ->
  parse_loop fuel s = (s <| rx_stream := [] |> <| rx_queue := rx_queue s ++ fs |>, ESP_OK).
Proof.
  revert s fuel. induction fs as [|f fs IH]; intros [st rq ms ar ft] fuel Hfs; cbn;
    intros -> ->; intros Hroom Hfuel; destruct fuel as [|fuel]; try lia; cbn [parse_loop].
  { by rewrite app_nil_r. }
  apply Forall_cons_1 in Hfs as [Hf Hfs]. pose proof (Host.frame_ok_len f Hf) as Hlen.
  destruct Hf as [Hok Hv]. pose proof (zlen_nonneg (concat fs)). cbn [rx_stream].
  rewrite (proj2 (Z.ltb_ge _ _)), decode_header_app by wire_lia.
  rewrite usb_header_valid_buf, Hv, (proj2 (Z.ltb_ge _ _)) by (done || zlia).
  rewrite ztake_app_exact by done. unfold usb_queue_frame. cbn [mallocs].
  rewrite zlen_cons in Hroom. pose proof (zlen_nonneg fs). cbn.
  rewrite (proj2 (Z.ltb_lt _ _)) by lia. cbn. rewrite zdrop_app_exact by done.
  rewrite IH; [cbn; by rewrite <- app_assoc|done|done|done|cbn; zlia|cbn in Hfuel; lia].
Qed.

(** *** The transmit side *)
Lemma write_loop_spec env data sent r sent' env' :
  Forall tud_ok env -> write_loop env data sent = Some (r, sent', env') ->
  Forall tud_ok env' /\
  exists pre post, data = pre ++ post /\ sent' = sent ++ pre /\ (r = ESP_OK -> post = []).
Proof.
  intros Hok. revert data sent. induction env as [|t env IH]; intros data sent.
  { destruct data; [|done]. intros [= <- <- <-]. split; [done|].
    exists [], []. rewrite !app_nil_r. by split_and!. }
  apply Forall_cons_1 in Hok as [[Hav Hac] Hok].
  destruct data as [|b data]; cbn [write_loop].
  { intros [= <- <- <-]. split; [by constructor|]. exists [], []. rewrite !app_nil_r. by split_and!. }
  set (data' := b :: data).
  assert (Hstop : forall e, e <> ESP_OK ->
    Some (e, sent, env) = Some (r, sent', env') -> Forall tud_ok env' /\
    exists pre post, data' = pre ++ post /\ sent' = sent ++ pre /\ (r = ESP_OK -> post = [])).
  { intros e He [= <- <- <-]. split; [done|]. exists [], data'. by rewrite ?app_nil_r. }
  set (w := Z.min (Z.min (zlen data') (available t)) (accepts t)).
  destruct (mounted t); cbn [negb]; [|by apply Hstop].
  destruct (available t =? 0); [destruct (expired t); [by apply Hstop|by apply IH]|].
  destruct (w =? 0); [destruct (expired t); [by apply Hstop|by apply IH]|].
  intros (Henv & pre & post & E & -> & Hr)%IH; [|done].
  split; [done|]. exists (ztake w data' ++ pre), post.
  by rewrite <- !app_assoc, <- E, ztake_zdrop.
Qed.

Lemma write_pad_spec env sent r sent' env' :
  write_pad env sent = Some (r, sent', env') -> r = ESP_OK -> sent' = sent ++ [0].
Proof.
  revert sent. induction env as [|t env IH]; intros sent; cbn; [done|].
  repeat case_match; intros Hp Hr; simplify_eq; eauto.
Qed.

Lemma usb_write_all_wire mps env data sent env' :
  Forall tud_ok env -> usb_write_all mps env data = Some (ESP_OK, sent, env') ->
  data <> [] /\ sent = Host.usb_wire mps data.
Proof.
  unfold usb_write_all, Host.usb_wire. intros Hok.
  destruct (zlen data =? 0) eqn:Hz; [done|]. bool_hyps.
  assert (data <> []) by (intros ->; done).
  destruct (write_loop env data []) as [[[r s] e]|] eqn:Hw; [|done].
  apply write_loop_spec in Hw as (_ & pre & post & -> & -> & Hr); [|done].
  destruct r; try done. rewrite Hr, app_nil_r in * by done. case_match.
  - intros Hp. apply write_pad_spec in Hp; [|done]. done.
  - intros [= <- <-]. by rewrite app_nil_r.
Qed.

(** Once the deadline has passed every pass writes or gives up. *)
Lemma write_loop_terminates env data sent :
  Forall (fun t => tud_ok t /\ expired t = true) env -> zlen data <= zlen env ->
  is_Some (write_loop env data sent).
Proof.
  revert data sent. induction env as [|t env IH]; intros data sent Hok Hlen.
  { rewrite (zlen_0_nil data) by zlia. done. }
  apply Forall_cons_1 in Hok as [[[Hav Hac] Hex] Hok].
  destruct data as [|b data]; cbn [write_loop]; [done|]. rewrite Hex.
  repeat (case_match; [done|]). bool_hyps. apply IH; [done|]. zlia.
Qed.

Lemma usb_write_all_terminates mps env data :
  Forall (fun t => tud_ok t /\ expired t = true) env -> zlen data < zlen env ->
  is_Some (usb_write_all mps env data).
Proof.
  intros Hok Hlen. unfold usb_write_all. case_match; [done|].
  assert (Hw : forall env0 d s0, Forall (fun t => tud_ok t /\ expired t = true) env0 ->
    zlen d < zlen env0 -> exists r s1 env1, write_loop env0 d s0 = Some (r, s1, env1) /\
      (r = ESP_OK -> env1 <> []) /\ Forall (fun t => expired t = true) env1).
  { clear. induction env0 as [|t env0 IH]; intros d s0 Hok Hlen; [zlia|].
    destruct d as [|b d]; cbn [write_loop].
    { eexists _, _, _. split_and!; [done|done|]. eapply Forall_impl; [done|]. by intros ? []. }
    apply Forall_cons_1 in Hok as [[[Hav Hac] Hex] Hok]. rewrite Hex.
    assert (Forall (fun t => expired t = true) env0).
    { eapply Forall_impl; [done|]. by intros ? []. }
    repeat (case_match; [by eexists _, _, _|]). bool_hyps. apply IH; [done|zlia]. }
  destruct (Hw env data [] Hok Hlen) as (r & s1 & env1 & -> & Hne & Hex).
  destruct r; try done. case_match; [|done].
  destruct env1 as [|t env1]; [by destruct Hne|]. apply Forall_cons_1 in Hex as [Hex _].
  cbn. rewrite Hex. by repeat case_match.
Qed.

Lemma usb_tx_frame_ok ift ifn flag pkt payload :
  0 <= ift < ESP_MAX_IF -> in_width 4 ifn -> is_byte flag -> is_byte pkt -> bytes_ok payload ->
  0 < zlen payload -> sizeof_header + zlen payload <= ESP_USB_MAX_XFER ->
  Host.frame_ok (usb_tx_frame ift ifn flag pkt payload).
Proof.
  intros Hi Hn Hf Hp Hok Hl Hm. unfold usb_tx_frame, sizeof_header, ESP_USB_MAX_XFER in *.
  rewrite wrap_id by (unfold in_width; lia).
  assert (header_wf (zero_header <| if_type := ift |> <| if_num := ifn |> <| flags := flag |>
     <| packet_type := pkt |> <| len := zlen payload |> <| offset := 12 |>)) as Hwf.
  { unfold header_wf, in_width, is_byte in *. cbn. cbn in Hi. lia. }
  split.
  - apply Forall_app. split; [by apply encode_header_ok|done].
  - rewrite decode_encode_header by done. unfold Host.esp_usb_valid_header. cbn -[Z.leb zlen].
    rewrite (proj2 (Z.leb_gt _ _)) by (cbn in Hi |- *; lia).
    unfold esp_host_wire_span_valid. rewrite (proj2 (Z.eqb_neq _ _)) by lia.
    cbn -[Z.ltb zlen]. rewrite !(proj2 (Z.ltb_ge _ _)) by (unfold ESP_USB_MAX_XFER; lia).
    f_equal. autorewrite with zlist. unfold sizeof_header. lia.
Qed.

Lemma esp_usb_write_wire mps env al ift ifn flag pkt payload n sent env' :
  Forall tud_ok env ->
  esp_usb_write mps env al ift ifn flag pkt payload = Some (Written n, sent, env') ->
  n = zlen payload /\ 0 < zlen payload /\ sizeof_header + zlen payload <= ESP_USB_MAX_XFER /\
  sent = Host.usb_wire mps (usb_tx_frame ift ifn flag pkt payload).
Proof.
  unfold esp_usb_write. intros Hok. repeat (case_match; [done|]). bool_hyps.
  destruct (usb_write_all mps env _) as [[[[] s] e]|] eqn:Hw; try done. intros [= <- <- <-].
  apply usb_write_all_wire in Hw as [_ ->]; [|done]. zlen_nonneg_all.
  split_and!; [done|lia|lia|done].
Qed.

End Device.

(** ** Properties of the two stream ends *)
Module Link.

(** The deframed reading of a byte sequence: each frame may be preceded by one
    pad byte of value 0. *)
Definition padded (gs : list (list Z * list Z)) : list Z := concat ((fun g => g.1 ++ g.2) <$> gs).

Definition pad_ok (p : list Z) : Prop := p = [] \/ p = [0].

(** Every byte of [data] is a byte of a queued frame, a pad, or still pending. *)
Definition accounted (s s' : Host.usb_rx) : Prop :=
  exists gs p, Host.rx_stream s = padded gs ++ p ++ Host.rx_stream s' /\
    Forall (fun g => pad_ok g.1 /\ Host.frame_ok g.2) gs /\ pad_ok p /\
    Host.rx_queue s' = Host.rx_queue s ++ (snd <$> gs).

Lemma skip_pad_accounted s :
  exists p, pad_ok p /\ Host.rx_stream s = p ++ Host.rx_stream (Host.skip_pad s) /\
    Host.rx_queue (Host.skip_pad s) = Host.rx_queue s.
Proof.
  destruct s as [m c st p rq al]. unfold Host.skip_pad. cbn.
  destruct p, st as [|b st]; cbn; try (exists []; by unfold pad_ok; auto).
  destruct (b =? 0) eqn:E; bool_hyps; subst; [exists [0]|exists []]; unfold pad_ok; auto.
Qed.

Lemma parse_frame_accounted s s1 q :
  bytes_ok (Host.rx_stream s) -> Host.parse_frame s = Some (s1, q, false) ->
  exists f, Host.frame_ok f /\ Host.rx_stream s = f ++ Host.rx_stream s1 /\
    Host.rx_queue s1 = Host.rx_queue s ++ [f] /\ q = true.
Proof.
  unfold Host.parse_frame, Host.rx_stream_len. intros Hok.
  destruct (_ <? sizeof_header) eqn:H1; [done|]. bool_hyps.
  destruct (Host.esp_usb_valid_header _) as [fl|] eqn:Hv; [|done].
  destruct (_ <? fl) eqn:H2; [done|]. bool_hyps.
  destruct (Host.esp_usb_queue_frame_locked s _) as [s2 ok] eqn:Hq. intros [= <- <- Hl].
  apply negb_false_iff in Hl as ->.
  rewrite <- Device.usb_header_valid_buf in Hv by done.
  destruct (Device.head_frame_ok _ _ Hok Hv H2) as (Hf & Est & _).
  exists (ztake fl (Host.rx_stream s)). split_and!; [done|done| |done].
  revert Hq. unfold Host.esp_usb_queue_frame_locked. by repeat case_match; intros; simplify_eq/=.
Qed.

Lemma Run_accounted s s' q l :
  bytes_ok (Host.rx_stream s) -> Host.Run s s' q l -> l = false ->
  accounted s s' /\ (q = false -> Host.rx_queue s' = Host.rx_queue s).
Proof.
  intros Hok HR. induction HR as [s Hb|s s1 s2 q l q' l' Hp HR IH]; intros Hl.
  - destruct (skip_pad_accounted s) as (p & Hpad & E & Eq). split; [|done].
    exists [], p. cbn. by rewrite app_nil_r.
  - apply orb_false_iff in Hl as [-> ->].
    destruct (Host.skip_pad_shrinks s Hok) as (_ & Hok1 & _).
    destruct (Host.parse_frame_shrinks _ _ _ _ Hok1 Hp) as (_ & Hok2 & _).
    destruct (IH Hok2 eq_refl) as [(gs & p' & E & Hgs & Hp' & Eq) _].
    destruct (skip_pad_accounted s) as (p & Hpad & Es & Eqs).
    apply parse_frame_accounted in Hp as (f & Hf & Ef & Eqf & ->); [|done].
    split; [|done]. exists ((p, f) :: gs), p'. unfold padded in *. cbn. split_and!.
    + by rewrite Es, Ef, E, <- !app_assoc.
    + by constructor.
    + done.
    + by rewrite Eq, Eqf, Eqs, <- app_assoc.
Qed.

(** C2: the host deframer is insensitive to how the USB stack cuts the byte
    stream: two sequences of receive completions carrying the same bytes leave
    the same state, queue the same frames and report the same loss, and the
    16 KiB accumulator discipline (a settled buffer always has room) is kept. *)
Theorem ingest_chunking_irrelevant s chunks chunks' :
  Host.rx_wf s -> Forall bytes_ok chunks -> Forall bytes_ok chunks' ->
  concat chunks = concat chunks' ->
  Host.ingest_all s chunks = Host.ingest_all s chunks' /\
  Host.rx_wf (Host.ingest_all s chunks).1.1 /\
  zlen (Host.rx_stream (Host.ingest_all s chunks).1.1) < ESP_USB_MAX_XFER.
Proof.
  intros Hwf H1 H2 E.
  destruct (Host.ingest_all_Run s chunks Hwf H1) as (s1 & q1 & l1 & E1 & R1 & Hwf1).
  destruct (Host.ingest_all_Run s chunks' Hwf H2) as (s2 & q2 & l2 & E2 & R2 & _).
  rewrite E in R1. destruct (Host.Run_det _ _ _ _ _ _ _ R1 R2) as (-> & -> & ->).
  rewrite E1, E2. split_and!; [done..|]. by apply Host.settled_bound; apply Hwf1.
Qed.

(** The receive context after probe, for a device of packet size [mps]. *)
Definition fresh_rx (mps : Z) : Host.usb_rx :=
  Host.mk_rx mps (2 * ESP_USB_MAX_XFER) [] false [] [].

Lemma fresh_rx_wf mps : Host.rx_wf (fresh_rx mps).
Proof. by split_and!; [|constructor|..]. Qed.

Definition demo_frame : list Z := encode_header sample_header ++ replicate 300 9.

Lemma demo_bytes l : forallb (fun b => (0 <=? b) && (b <? 256)) l = true -> bytes_ok l.
Proof.
  unfold bytes_ok. induction l as [|b l IH]; cbn; intros; bool_hyps; constructor; auto.
  done.
Qed.

Lemma bytes_ok_concat_inv chunks : bytes_ok (concat chunks) -> Forall bytes_ok chunks.
Proof.
  induction chunks as [|c chunks IH]; cbn; intros H; constructor; apply Forall_app in H as [??]; auto.
Qed.

Lemma ingest_chunking_irrelevant_witness :
  Host.ingest_all (fresh_rx 64) [ztake 5 demo_frame; zdrop 5 demo_frame ++ [1]]
  = Host.ingest_all (fresh_rx 64) [demo_frame; [1]].
Proof.
  apply (ingest_chunking_irrelevant (fresh_rx 64)
    [ztake 5 demo_frame; zdrop 5 demo_frame ++ [1]] [demo_frame; [1]] (fresh_rx_wf 64)).
  - apply bytes_ok_concat_inv, demo_bytes. reflexivity.
  - apply bytes_ok_concat_inv, demo_bytes. reflexivity.
  - reflexivity.
Defined.

(** C3: the host never loses bytes silently: when an ingest reports no framing
    loss, the accumulated bytes are exactly a sequence of valid frames - all of
    them queued, in order - separated by at most one zero pad byte each, plus
    the incomplete rest that stays in the accumulator. *)
Theorem ingest_no_silent_loss s data s' q :
  Host.rx_wf s -> bytes_ok data -> Host.esp_usb_ingest_stream s data = (s', q, false) ->
  exists gs p, Host.rx_stream s ++ data = padded gs ++ p ++ Host.rx_stream s' /\
    Forall (fun g => pad_ok g.1 /\ Host.frame_ok g.2) gs /\ pad_ok p /\
    Host.rx_queue s' = Host.rx_queue s ++ (snd <$> gs) /\
    (q = false -> gs = []).
Proof.
  intros Hwf Hd E. destruct (Host.ingest_Run s data Hwf Hd) as (s1 & q1 & l1 & E1 & R & _).
  rewrite E1 in E. simplify_eq. apply Run_accounted in R as [(gs & p & ? & ? & ? & Eq) Hq];
    [|apply Host.feed_ok; [apply Hwf|done]|done].
  exists gs, p. split_and!; try done. intros Hf. apply Hq in Hf. rewrite Eq in Hf. cbn in Hf.
  rewrite <- (app_nil_r (Host.rx_queue s)) in Hf at 2. apply app_inv_head in Hf.
  by destruct gs.
Qed.

Lemma ingest_no_silent_loss_witness :
  exists gs p, demo_frame ++ [3] = padded gs ++ p ++ [3] /\
    [demo_frame] = (snd <$> gs).
Proof.
  destruct (ingest_no_silent_loss (fresh_rx 64) (demo_frame ++ [3])
    (Host.mk_rx 64 (2 * ESP_USB_MAX_XFER) [3] false [demo_frame] []) true
    (fresh_rx_wf 64)) as (gs & p & E & _ & _ & Eq & _).
  - apply demo_bytes; reflexivity.
  - vm_compute; reflexivity.
  - exists gs, p. exact (conj E Eq).
Defined.

(** A transmit request of the firmware. *)
Record tx_request := mk_tx_request {
  tx_if_type : Z; tx_if_num : Z; tx_flag : Z; tx_pkt_type : Z; tx_payload : list Z
}.

Definition tx_request_ok (b : tx_request) : Prop :=
  0 <= tx_if_type b < ESP_MAX_IF /\ in_width 4 (tx_if_num b) /\ is_byte (tx_flag b) /\
  is_byte (tx_pkt_type b) /\ bytes_ok (tx_payload b).

Definition tx_request_frame (b : tx_request) : list Z :=
  Device.usb_tx_frame (tx_if_type b) (tx_if_num b) (tx_flag b) (tx_pkt_type b) (tx_payload b).

(** The firmware wrote every request successfully; the index is what reached
    the pipe. *)
Inductive device_sent (mps : Z) : list tx_request -> list Z -> Prop :=
  | sent_nil : device_sent mps [] []
  | sent_cons b bs env al n sent env' out :
      Forall Device.tud_ok env ->
      Device.esp_usb_write mps env al (tx_if_type b) (tx_if_num b) (tx_flag b) (tx_pkt_type b)
        (tx_payload b) = Some (Device.Written n, sent, env') ->
      device_sent mps bs out -> device_sent mps (b :: bs) (sent ++ out).

Lemma device_sent_wire mps bs out :
  device_sent mps bs out -> Forall tx_request_ok bs ->
  out = concat (Host.usb_wire mps <$> (tx_request_frame <$> bs)) /\
  Forall Host.frame_ok (tx_request_frame <$> bs).
Proof.
  induction 1 as [|b bs env al n sent env' out Henv Hw _ IH]; intros Hok; [done|].
  apply Forall_cons_1 in Hok as [(? & ? & ? & ? & ?) Hok]. destruct (IH Hok) as [-> Hfs].
  apply Device.esp_usb_write_wire in Hw as (_ & ? & ? & ->); [|done].
  split; [done|]. cbn. constructor; [|done]. by apply Device.usb_tx_frame_ok.
Qed.

Lemma concat_bytes_ok mps fs :
  Forall Host.frame_ok fs -> bytes_ok (concat (Host.usb_wire mps <$> fs)).
Proof.
  induction 1 as [|f fs [Hf _] _ IH]; cbn; [constructor|]. apply Forall_app_2; [|done].
  apply Forall_app_2; [done|]. case_match; repeat constructor; unfold is_byte; lia.
Qed.

(** C1: end-to-end delivery over the bulk-IN pipe: whatever the firmware
    transmits successfully, with its short-packet padding and however TinyUSB
    splits the writes and the host controller the reads, reaches the host's RX
    queue as exactly the transmitted frames in order, with no framing loss and
    nothing left over. *)
Theorem device_to_host_delivery mps bs out chunks :
  0 < mps -> Forall tx_request_ok bs -> device_sent mps bs out -> concat chunks = out ->
  Host.ingest_all (fresh_rx mps) chunks =
    (let st := Host.ingest_all (fresh_rx mps) chunks in st.1.1, negb (bool_decide (bs = [])), false) /\
  Host.rx_queue (Host.ingest_all (fresh_rx mps) chunks).1.1 = tx_request_frame <$> bs /\
  Host.rx_stream (Host.ingest_all (fresh_rx mps) chunks).1.1 = [].
Proof.
  intros Hmps Hok Hsent Hc. apply device_sent_wire in Hsent as [-> Hfs]; [|done].
  assert (Hchunks : Forall bytes_ok chunks).
  { apply bytes_ok_concat_inv. rewrite Hc. by apply concat_bytes_ok. }
  destruct (Host.ingest_all_Run (fresh_rx mps) chunks (fresh_rx_wf mps) Hchunks)
    as (s & q & l & -> & R & _).
  pose proof (Host.Run_wire_frames (Host.feed (fresh_rx mps) (concat chunks))
    (tx_request_frame <$> bs) Hmps eq_refl eq_refl Hfs Hc) as R2.
  destruct (Host.Run_det _ _ _ _ _ _ _ R R2) as (-> & -> & ->). cbn.
  split_and!; [|done..]. f_equal. f_equal. f_equal. by destruct bs.
Qed.

Definition demo_request : tx_request := mk_tx_request ESP_STA_IF 0 0 PACKET_TYPE_DATA (replicate 52 7).

Lemma demo_request_sent :
  device_sent 64 [demo_request; demo_request]
    (Host.usb_wire 64 (tx_request_frame demo_request) ++
     (Host.usb_wire 64 (tx_request_frame demo_request) ++ [])).
Proof.
  set (t := Device.mk_tud true 40 100 false).
  assert (Forall Device.tud_ok [t; t; t]) by (repeat constructor; cbn; lia).
  do 2 (eapply (sent_cons 64 demo_request _ [t; t; t] true); [done|vm_compute; reflexivity|]).
  constructor.
Qed.

Lemma device_to_host_delivery_witness :
  let wire := Host.usb_wire 64 (tx_request_frame demo_request) in
  Host.rx_queue (Host.ingest_all (fresh_rx 64) [wire; wire]).1.1
  = [tx_request_frame demo_request; tx_request_frame demo_request].
Proof.
  assert (Hr : Forall tx_request_ok [demo_request; demo_request]).
  { repeat constructor; try apply demo_bytes; vm_compute; congruence. }
  exact (proj1 (proj2 (device_to_host_delivery 64 [demo_request; demo_request] _
    [Host.usb_wire 64 (tx_request_frame demo_request);
     Host.usb_wire 64 (tx_request_frame demo_request)]
    ltac:(lia) Hr demo_request_sent eq_refl))).
Defined.

(** while a stateful RCP stream is open the firmware's OUT-stream parser is
    fail-closed: ingesting a chunk either consumes nothing but whole valid
    frames and queues every RCP frame among them in order, or it empties the
    accumulator, requests exactly one fatal restart and reports failure. *)
Theorem firmware_ingest_fail_closed s data s' r :
  bytes_ok (Device.rx_stream s) -> bytes_ok data -> Device.rcp_armed s = true ->
  zlen (Device.rx_stream s) <= Device.ESP_USB_RX_STREAM_CAP ->
  Device.usb_ingest s data = (s', r) ->
  (r = Device.ESP_OK /\ Device.fatal s' = Device.fatal s /\
   exists fs, Device.rx_stream s ++ data = concat fs ++ Device.rx_stream s' /\
     Forall Host.frame_ok fs /\
     Device.rcp_frames (Device.rx_queue s') = Device.rcp_frames (Device.rx_queue s ++ fs)) \/
  (r = Device.ESP_FAIL /\ Device.fatal s' = S (Device.fatal s) /\ Device.rx_stream s' = []).
Proof.
  intros Hs Hd Ha Hc E.
  destruct (Device.ingest_loop_armed (length data) s data Hs Hd Ha ltac:(lia) Hc) as (_ & _ & H).
  unfold Device.usb_ingest in E. by rewrite E in H.
Qed.

Definition armed_usb : Device.s_usb := Device.mk_usb [] [] [] true 0.

Lemma firmware_ingest_fail_closed_witness :
  let r := Device.usb_ingest armed_usb (demo_frame ++ replicate 12 255) in
  r.2 = Device.ESP_FAIL /\ Device.fatal r.1 = 1%nat.
Proof.
  intros r.
  assert (H := firmware_ingest_fail_closed armed_usb (demo_frame ++ replicate 12 255) r.1 r.2
    ltac:(constructor) ltac:(apply demo_bytes; reflexivity) eq_refl
    ltac:(vm_compute; congruence) ltac:(apply surjective_pairing)).
  assert (E : r.2 = Device.ESP_FAIL) by (vm_compute; reflexivity).
  destruct H as [(H & _)|(_ & H & _)]; [congruence|]. split; [exact E|exact H].
Defined.

(** the firmware's bulk-IN writer: against any TinyUSB behaviour a success
    puts exactly the frame - followed by one zero byte when its length is a
    multiple of the packet size, so the host sees a short packet - on the pipe;
    once the 1 s deadline has passed the loop needs at most one more pass per
    remaining byte before it returns. *)
Theorem usb_write_all_exact mps env data :
  Forall Device.tud_ok env ->
  (forall sent env', Device.usb_write_all mps env data = Some (Device.ESP_OK, sent, env') ->
     data <> [] /\ sent = Host.usb_wire mps data) /\
  (Forall (fun t => Device.expired t = true) env -> zlen data < zlen env ->
   is_Some (Device.usb_write_all mps env data)).
Proof.
  intros Hok. split; [by intros; eapply Device.usb_write_all_wire|].
  intros Hex Hlen. apply Device.usb_write_all_terminates; [|done].
  apply Forall_and. done.
Qed.

Lemma usb_write_all_exact_witness :
  Device.usb_write_all 4 [Device.mk_tud true 3 9 true; Device.mk_tud true 0 9 false;
    Device.mk_tud true 8 9 false; Device.mk_tud true 1 1 true] [1; 2; 3; 4]
  = Some (Device.ESP_OK, Host.usb_wire 4 [1; 2; 3; 4], []).
Proof.
  pose (env := [Device.mk_tud true 3 9 true; Device.mk_tud true 0 9 false;
    Device.mk_tud true 8 9 false; Device.mk_tud true 1 1 true]).
  assert (Hok : Forall Device.tud_ok env) by (repeat constructor; cbn; lia).
  assert (E : Device.usb_write_all 4 env [1; 2; 3; 4] = Some (Device.ESP_OK, [1; 2; 3; 4; 0], []))
    by (vm_compute; reflexivity).
  destruct (proj1 (usb_write_all_exact 4 env [1; 2; 3; 4] Hok) _ _ E) as [_ <-].
  exact E.
Defined.

End Link.
