(* ===== verification/Adapter.v ===== *)
(** * Adapter: the shared driver context

    [struct esp_adapter] of [host/include/esp.h] as far as the modelled
    components read or write it, its flag word ([enum adapter_flags_e]), and
    the transport operation table [struct esp_if_ops] of [host/include/esp_if.h].
    The laws the common code relies on are stated with it, in Recovery. *)
From S2P Require Import Prelude Wire.

Inductive adapter_flags_e :=
  | ESP_CLEANUP_IN_PROGRESS | ESP_CMD_INIT_DONE | ESP_DRIVER_ACTIVE | ESP_INIT_DONE
  | ESP_OTA_IN_PROGRESS | ESP_DRIVER_UNLOADING | ESP_ALLOW_DEINIT | ESP_ALLOW_RECONSTRUCT
  | ESP_FW_RECOVERY_PENDING | ESP_FW_RESET_EXPECTED | ESP_TRANSPORT_REMOVING
  | ESP_SKIP_FW_DEINIT | ESP_FW_RESTART_NEEDED | ESP_FW_RECOVERY_EXHAUSTED
  | ESP_FW_RADIO_INIT_PENDING.

Definition flag_bit (f : adapter_flags_e) : Z :=
  match f with
  | ESP_CLEANUP_IN_PROGRESS => 0 | ESP_CMD_INIT_DONE => 1 | ESP_DRIVER_ACTIVE => 2
  | ESP_INIT_DONE => 3 | ESP_OTA_IN_PROGRESS => 4 | ESP_DRIVER_UNLOADING => 5
  | ESP_ALLOW_DEINIT => 6 | ESP_ALLOW_RECONSTRUCT => 7 | ESP_FW_RECOVERY_PENDING => 8
  | ESP_FW_RESET_EXPECTED => 9 | ESP_TRANSPORT_REMOVING => 10 | ESP_SKIP_FW_DEINIT => 11
  | ESP_FW_RESTART_NEEDED => 12 | ESP_FW_RECOVERY_EXHAUSTED => 13
  | ESP_FW_RADIO_INIT_PENDING => 14
  end.

#[export] Instance adapter_flags_eq_dec : EqDecision adapter_flags_e.
Proof. solve_decision. Defined.

(** [enum context_state]; the code compares its values. *)
Inductive context_state := ESP_CONTEXT_DISABLED | ESP_CONTEXT_RX_READY | ESP_CONTEXT_READY.

#[export] Instance context_state_eq_dec : EqDecision context_state.
Proof. solve_decision. Defined.

Definition context_code (c : context_state) : Z :=
  match c with
  | ESP_CONTEXT_DISABLED => 0 | ESP_CONTEXT_RX_READY => 1 | ESP_CONTEXT_READY => 2
  end.

(** The largest aggregate any transport sends. *)
Definition ESP_TX_AGGR_SIZE_MAX : Z := 15872.

Definition ESP_IF_TYPE_SDIO : Z := 1.
Definition ESP_IF_TYPE_SPI : Z := 2.
Definition ESP_IF_TYPE_USB : Z := 3.

(** Errno values, as the negative numbers the code returns. *)
Definition ENOENT : Z := 2.
Definition EINTR : Z := 4.
Definition EIO : Z := 5.
Definition EAGAIN : Z := 11.
Definition ENOMEM : Z := 12.
Definition EFAULT : Z := 14.
Definition EBUSY : Z := 16.
Definition ENODEV : Z := 19.
Definition EINVAL : Z := 22.
Definition EPIPE : Z := 32.
Definition EPERM : Z := 1.
Definition EPROTO : Z := 71.
Definition EOVERFLOW : Z := 75.
Definition EMSGSIZE : Z := 90.
Definition EOPNOTSUPP : Z := 95.
Definition ESHUTDOWN : Z := 108.
Definition ETIMEDOUT : Z := 110.
Definition EHOSTUNREACH : Z := 113.
Definition ENODATA : Z := 61.
Definition ERESTARTSYS : Z := 512.

Record esp_adapter := mk_adapter {
  base_mac : list Z;
  base_mac_count : Z;
  base_mac_present : bool;
  if_transport : Z;                 (* [adapter->if_type] *)
  state : context_state;
  capabilities : Z;
  ext_capabilities : Z;
  rcp_session_nonce : Z;
  radio_service_active : Z;
  radio_service_flags : Z;
  if_context : bool;                (* non-NULL *)
  fw_recovery_backoff_ms : Z;
  fw_recovery_gen : Z;              (* atomic_t *)
  fw_reconstruct_gen : Z;
  fw_boot_reset_attempts : Z;
  fw_boot_deadline : Z;
  fw_boot_commit_epoch : Z;         (* atomic_t *)
  state_flags : Z;
  chipset : Z;
  tx_aggr_size : Z
}.

#[export] Instance eta_adapter : Eta esp_adapter := fun a =>
  mk_adapter (base_mac a) (base_mac_count a) (base_mac_present a) (if_transport a) (state a)
    (capabilities a) (ext_capabilities a) (rcp_session_nonce a) (radio_service_active a)
    (radio_service_flags a) (if_context a) (fw_recovery_backoff_ms a) (fw_recovery_gen a)
    (fw_reconstruct_gen a) (fw_boot_reset_attempts a) (fw_boot_deadline a)
    (fw_boot_commit_epoch a) (state_flags a) (chipset a) (tx_aggr_size a).

(** The zero-initialised static adapter. *)
Definition zero_adapter : esp_adapter :=
  mk_adapter [] 0 false 0 ESP_CONTEXT_DISABLED 0 0 0 0 0 false 0 0 0 0 0 0 0 0 0.

(** [test_bit(f, &adapter->state_flags)] and its siblings. *)
Definition flag (f : adapter_flags_e) (a : esp_adapter) : bool :=
  test_bit (flag_bit f) (state_flags a).
Definition set_flag (f : adapter_flags_e) (a : esp_adapter) : esp_adapter :=
  a <| state_flags := set_bit (flag_bit f) (state_flags a) |>.
Definition clear_flag (f : adapter_flags_e) (a : esp_adapter) : esp_adapter :=
  a <| state_flags := clear_bit (flag_bit f) (state_flags a) |>.

Lemma flag_bit_eqb f g : (flag_bit f =? flag_bit g) = bool_decide (f = g).
Proof. by destruct f, g. Qed.

Lemma flag_bit_nonneg f : 0 <= flag_bit f.
Proof. by destruct f. Qed.

Lemma flag_set_flag f g a : flag g (set_flag f a) = bool_decide (f = g) || flag g a.
Proof.
  unfold flag, set_flag. cbn. rewrite test_set_bit by apply flag_bit_nonneg.
  by rewrite flag_bit_eqb.
Qed.

Lemma flag_clear_flag f g a : flag g (clear_flag f a) = flag g a && negb (bool_decide (f = g)).
Proof. unfold flag, clear_flag. cbn. by rewrite test_clear_bit, flag_bit_eqb. Qed.

(** Flag lookups through updates of other fields and of other flags. *)
Create HintDb adapter.
Create Rewrite HintDb adapter.
#[export] Hint Rewrite flag_set_flag flag_clear_flag : adapter.

#[global] Arguments flag : simpl never.

(** Projections of [set_flag]/[clear_flag] other than the flag word. *)
Section flag_frame.
Context (f : adapter_flags_e) (a : esp_adapter).
Lemma set_flag_frame :
  set_flag f a = a <| state_flags := state_flags (set_flag f a) |>.
Proof. by destruct a. Qed.
Lemma clear_flag_frame :
  clear_flag f a = a <| state_flags := state_flags (clear_flag f a) |>.
Proof. by destruct a. Qed.
End flag_frame.

(** A flag read only depends on the flag word. *)
Lemma flag_eq f a b : state_flags a = state_flags b -> flag f a = flag f b.
Proof. unfold flag. by intros ->. Qed.

(** ** The driver as the recovery code sees it

    The adapter, the transport's private context, the clock, the expiry of
    [fw_recovery_work] when it is pending, and the point reached by a worker that
    has called [recover_transport] (its sampled generation and the result).
    [resets] counts calls of the transport's reset entry points; no code reads it. *)
Record sys (T : Type) := mk_sys {
  ad : esp_adapter;
  tr : T;
  jiffies : Z;
  timer : option Z;
  worker : option (Z * Z);
  resets : Z
}.
Arguments mk_sys {T}.
Arguments ad {T}.
Arguments tr {T}.
Arguments jiffies {T}.
Arguments timer {T}.
Arguments worker {T}.
Arguments resets {T}.

#[export] Instance eta_sys {T} : Eta (sys T) := fun s =>
  mk_sys (ad s) (tr s) (jiffies s) (timer s) (worker s) (resets s).

Definition on_ad {T} (f : esp_adapter -> esp_adapter) (s : sys T) : sys T := s <| ad := f (ad s) |>.
Definition on_tr {T} (f : T -> T) (s : sys T) : sys T := s <| tr := f (tr s) |>.

(** ** The transport operation table

    An absent (NULL) operation is [None].  Operations act on the whole driver,
    since a transport may call back into the recovery code (SDIO schedules a
    recovery from [reset_target]); those that return [void] return only the
    state. *)
Record esp_if_ops (T : Type) := mk_if_ops {
  reset_target : option (sys T -> Z * sys T);
  recover_transport : option (sys T -> Z * sys T);
  note_fw_reset : option (sys T -> sys T);
  resume_after_live_recovery : option (sys T -> sys T);
  commit_fw_recovery : option (sys T -> sys T);
  (* the per-transport [generate_slave_intr], linked rather than tabled *)
  generate_slave_intr : Z -> sys T -> Z * sys T
}.
Arguments mk_if_ops {T}.
Arguments reset_target {T}.
Arguments recover_transport {T}.
Arguments note_fw_reset {T}.
Arguments resume_after_live_recovery {T}.
Arguments commit_fw_recovery {T}.
Arguments generate_slave_intr {T}.

(** The part of the adapter owned by the common recovery code: a transport
    operation may move the context state and the reset bookkeeping bits
    [ESP_FW_RESET_EXPECTED] and [ESP_FW_RESTART_NEEDED], nothing else of it. *)
Definition transport_owned (f : adapter_flags_e) : bool :=
  bool_decide (f = ESP_FW_RESET_EXPECTED) || bool_decide (f = ESP_FW_RESTART_NEEDED).

Record recovery_frame (a a' : esp_adapter) : Prop := mk_frame {
  frame_attempts : fw_boot_reset_attempts a' = fw_boot_reset_attempts a;
  frame_deadline : fw_boot_deadline a' = fw_boot_deadline a;
  frame_backoff : fw_recovery_backoff_ms a' = fw_recovery_backoff_ms a;
  frame_gen : fw_recovery_gen a' = fw_recovery_gen a;
  frame_rgen : fw_reconstruct_gen a' = fw_reconstruct_gen a;
  frame_epoch : fw_boot_commit_epoch a' = fw_boot_commit_epoch a;
  frame_flags f : transport_owned f = false -> flag f a' = flag f a
}.

#[export] Instance recovery_frame_preorder : PreOrder recovery_frame.
Proof.
  split; [by constructor|].
  intros a b c [] []. constructor; try congruence. intros. rewrite frame_flags1; auto.
Qed.
