(* ===== verification/Recovery.v ===== *)
(** * Recovery: the firmware-recovery state machine of [host/main.c]

    [esp_schedule_recovery], [esp_request_firmware_restart], the delayed worker
    [esp_fw_recovery_work] and the reconstruction brackets
    ([esp_begin_reconstruction] ... [esp_finish_reconstruction]) over the shared
    adapter, the transport's operation table and the delayed-work timer.

    Each critical section under [fw_recovery_lock] is one function.  The worker
    is split where it releases every lock to call the transport, so that other
    handlers can run before it looks at the result ([worker]); the step relation
    of the second half interleaves all of them. *)
From S2P Require Import Prelude Wire Adapter.

Definition ESP_FW_RECOVERY_QUIET_MS : Z := 500.
Definition ESP_FW_RECOVERY_WATCHDOG_MS : Z := 3000.
Definition ESP_FW_BOOT_ACK_TIMEOUT_MS : Z := 9000.
Definition ESP_FW_BOOT_MAX_ATTEMPTS : Z := 3.
Definition ESP_FW_RECOVERY_BACKOFF_MAX_MS : Z := 5000.
Definition ESP_CLOSE_DATA_PATH_BIT : Z := 2.   (* BIT(ESP_CLOSE_DATA_PATH) *)

(** Calling a [void] transport operation, when the pointer is set. *)
Definition call_void {T} (op : option (sys T -> sys T)) (s : sys T) : sys T :=
  match op with Some f => f s | None => s end.

(** [time_after_eq(a, b)]: the signed difference is not negative. *)
Definition time_after_eq (a b : Z) : bool := u64 (a - b) <? 2 ^ 63.

(** A sleep of [e] ticks ends past the deadline, or brings it nearer by [e]. *)
Lemma ticks_progress e deadline j :
  0 <= e < 2 ^ 63 ->
  time_after_eq (u64 (j + e)) deadline = true \/ u64 (deadline - u64 (j + e)) <= u64 (deadline - j) - e.
Proof.
  intros He. unfold time_after_eq, wrap in *.
  pose proof (Z.div_mod (deadline - j) (2 ^ 64) ltac:(lia)) as Hdj.
  pose proof (Z.mod_pos_bound (deadline - j) (2 ^ 64) ltac:(lia)) as Hr.
  set (r := (deadline - j) mod 2 ^ 64) in *. set (q := (deadline - j) / 2 ^ 64) in *.
  destruct (Z.le_gt_cases r e) as [Hle|Hgt]; [left; apply Z.ltb_lt|right].
  - rewrite Zminus_mod_idemp_l. replace (j + e - deadline) with (e - r + (- q) * 2 ^ 64) by lia.
    rewrite Z.mod_add, Z.mod_small by lia. lia.
  - rewrite Zminus_mod_idemp_r. replace (deadline - (j + e)) with (r - e + q * 2 ^ 64) by lia.
    rewrite Z.mod_add, Z.mod_small by lia. lia.
Qed.

Definition unloading_or_removing (a : esp_adapter) : bool :=
  flag ESP_DRIVER_UNLOADING a || flag ESP_TRANSPORT_REMOVING a.

(** The receive side is stopped: by a removal, or an unload that does not
    deinitialise through it. *)
Definition rx_stopped (a : esp_adapter) : bool :=
  flag ESP_TRANSPORT_REMOVING a || (flag ESP_DRIVER_UNLOADING a && negb (flag ESP_ALLOW_DEINIT a)).

Section Handlers.
Context {T : Type} (ops : esp_if_ops T).
(** [msecs_to_jiffies] depends on the kernel's configured tick rate. *)
Context (msecs_to_jiffies : Z -> Z).
Implicit Types s : sys T.

(** [mod_delayed_work] / [schedule_delayed_work] on [fw_recovery_work]. *)
Definition mod_delayed_work (delay_ms : Z) s : sys T :=
  s <| timer := Some (u64 (jiffies s + msecs_to_jiffies delay_ms)) |>.
Definition schedule_delayed_work (delay_ms : Z) s : sys T :=
  match timer s with Some _ => s | None => mod_delayed_work delay_ms s end.

Definition esp_recovery_drop_tx_unlocked (a : esp_adapter) : esp_adapter :=
  if context_code ESP_CONTEXT_RX_READY <? context_code (state a)
  then a <| state := ESP_CONTEXT_RX_READY |> else a.

Definition esp_schedule_recovery (delay_ms : Z) (restart_timer fw_reset : bool) s : sys T :=
  if unloading_or_removing (ad s) then s
  else
    let s := if fw_reset
             then call_void (note_fw_reset ops) (on_ad (set_flag ESP_FW_RESET_EXPECTED) s)
             else s in
    let s := on_ad (set_flag ESP_FW_RECOVERY_PENDING) s in
    let s := on_ad (fun a => a <| fw_recovery_gen := u32 (fw_recovery_gen a + 1) |>) s in
    let s := if flag ESP_ALLOW_RECONSTRUCT (ad s) then s
             else on_ad esp_recovery_drop_tx_unlocked s in
    let delay_ms := if delay_ms =? 0 then ESP_FW_RECOVERY_QUIET_MS else delay_ms in
    if restart_timer then mod_delayed_work delay_ms s else schedule_delayed_work delay_ms s.

Definition esp_schedule_transport_recovery s : sys T :=
  esp_schedule_recovery ESP_FW_RECOVERY_QUIET_MS false false s.
Definition esp_schedule_fw_reset_recovery s : sys T :=
  esp_schedule_recovery ESP_FW_RECOVERY_QUIET_MS false true s.

Definition esp_reset_boot_recovery_for_binding (preserve_active_reset : bool) s : sys T :=
  let a := ad s in
  let active_reset := negb (fw_boot_deadline a =? 0) && flag ESP_FW_RESET_EXPECTED a
                      && negb (flag ESP_FW_RECOVERY_EXHAUSTED a) in
  if negb preserve_active_reset || negb active_reset then
    on_ad (fun a =>
      let a := a <| fw_boot_reset_attempts := 0 |> <| fw_boot_deadline := 0 |>
                 <| fw_recovery_backoff_ms := ESP_FW_RECOVERY_QUIET_MS |> in
      let a := clear_flag ESP_FW_RECOVERY_EXHAUSTED a in
      let a := clear_flag ESP_FW_RECOVERY_PENDING a in
      let a := clear_flag ESP_FW_RESET_EXPECTED a in
      let a := clear_flag ESP_FW_RESTART_NEEDED a in
      let a := clear_flag ESP_ALLOW_RECONSTRUCT a in
      clear_flag ESP_CLEANUP_IN_PROGRESS a) s
  else s.

(** The unlocked tail: dispatch to the transport that owns the reset. *)
Definition dispatch_reset s : sys T :=
  if (if_transport (ad s) =? ESP_IF_TYPE_SPI) || (if_transport (ad s) =? ESP_IF_TYPE_SDIO) then
    match reset_target ops with
    | None => s
    | Some f => let s' := (f s).2 in s' <| resets := resets s' + 1 |>
    end
  else if if_context (ad s) then
    let '(ret, s') := generate_slave_intr ops ESP_CLOSE_DATA_PATH_BIT s in
    let s' := s' <| resets := resets s' + 1 |> in
    if ret =? 0 then on_ad (clear_flag ESP_FW_RESTART_NEEDED) s' else s'
  else s.

Definition esp_request_firmware_restart s : sys T :=
  let a := ad s in
  if negb (fw_boot_deadline a =? 0) then s
  else if flag ESP_FW_RECOVERY_EXHAUSTED a || (ESP_FW_BOOT_MAX_ATTEMPTS <=? fw_boot_reset_attempts a)
  then on_ad (fun a => set_flag ESP_FW_RECOVERY_EXHAUSTED a <| fw_boot_deadline := 0 |>) s
  else
    let s := on_ad (fun a =>
      set_flag ESP_FW_RESTART_NEEDED
        (a <| fw_boot_reset_attempts := u32 (fw_boot_reset_attempts a + 1) |>
           <| fw_boot_deadline := u64 (jiffies s + msecs_to_jiffies ESP_FW_BOOT_ACK_TIMEOUT_MS) |>)) s
    in dispatch_reset s.

Definition esp_bootup_request_retry s : sys T :=
  if unloading_or_removing (ad s) then s
  else
    let s := on_ad (clear_flag ESP_CLEANUP_IN_PROGRESS) s in
    let s := esp_schedule_recovery ESP_FW_RECOVERY_WATCHDOG_MS true true s in
    esp_request_firmware_restart s.

(** [esp_fw_recovery_work] up to and including its call of
    [recover_transport]; [worker] is set when it gets there. *)
Definition fw_recovery_work_begin s : sys T :=
  let a := ad s in
  if unloading_or_removing a || flag ESP_FW_RECOVERY_EXHAUSTED a then s
  else
    let skip := flag ESP_INIT_DONE a && negb (flag ESP_FW_RECOVERY_PENDING a)
                && negb (flag ESP_FW_RESET_EXPECTED a) in
    if negb skip && negb (fw_boot_deadline a =? 0) && time_after_eq (jiffies s) (fw_boot_deadline a)
    then esp_bootup_request_retry (on_ad (fun a => a <| fw_boot_deadline := 0 |>) s)
    else if negb skip && flag ESP_CLEANUP_IN_PROGRESS a
    then mod_delayed_work ESP_FW_RECOVERY_WATCHDOG_MS s
    else if negb skip && flag ESP_ALLOW_RECONSTRUCT a
    then mod_delayed_work ESP_FW_RECOVERY_WATCHDOG_MS s
    else if skip then s
    else
      let fw_reset := flag ESP_FW_RESET_EXPECTED a in
      let gen := fw_recovery_gen a in
      if negb (flag ESP_INIT_DONE a) && negb (flag ESP_FW_RECOVERY_PENDING a) && negb fw_reset
      then esp_bootup_request_retry s
      else
        match recover_transport ops with
        | None => s
        | Some f => let '(ret, s') := f s in s' <| worker := Some (gen, ret) |>
        end.

(** The back-off ladder after a failed recovery: the delay used and the new
    [fw_recovery_backoff_ms]. *)
Definition recovery_backoff (backoff : Z) : Z * Z :=
  let backoff := if backoff =? 0 then ESP_FW_RECOVERY_QUIET_MS else backoff in
  let delay := backoff in
  let backoff :=
    if backoff <? ESP_FW_RECOVERY_BACKOFF_MAX_MS then
      let b := u32 (backoff * 2) in
      if ESP_FW_RECOVERY_BACKOFF_MAX_MS <? b then ESP_FW_RECOVERY_BACKOFF_MAX_MS else b
    else backoff in
  (delay, backoff).

(** The rest of the worker, given the sampled generation and the result. *)
Definition fw_recovery_work_end (gen ret : Z) s : sys T :=
  let s := s <| worker := None |> in
  if ret <? 0 then
    let '(delay, backoff) := recovery_backoff (fw_recovery_backoff_ms (ad s)) in
    mod_delayed_work delay (on_ad (fun a => a <| fw_recovery_backoff_ms := backoff |>) s)
  else
    let s := on_ad (fun a => a <| fw_recovery_backoff_ms := ESP_FW_RECOVERY_QUIET_MS |>) s in
    if 0 <? ret then
      if negb (fw_recovery_gen (ad s) =? gen) then s
      else if flag ESP_FW_RESET_EXPECTED (ad s) then mod_delayed_work ESP_FW_RECOVERY_QUIET_MS s
      else
        call_void (resume_after_live_recovery ops) (on_ad (clear_flag ESP_FW_RECOVERY_PENDING) s)
    else if negb (unloading_or_removing (ad s)) &&
            (flag ESP_FW_RESET_EXPECTED (ad s) || negb (flag ESP_INIT_DONE (ad s)))
    then mod_delayed_work ESP_FW_RECOVERY_WATCHDOG_MS s
    else s.

(** The worker run without interference. *)
Definition esp_fw_recovery_work s : sys T :=
  let s' := fw_recovery_work_begin s in
  match worker s' with
  | Some (gen, ret) => fw_recovery_work_end gen ret s'
  | None => s'
  end.

(** ** Reconstruction brackets *)
Definition esp_begin_reconstruction s : sys T :=
  on_ad (fun a => set_flag ESP_ALLOW_RECONSTRUCT a <| fw_reconstruct_gen := fw_recovery_gen a |>) s.

Definition esp_clear_reconstruct_flag s : sys T := on_ad (clear_flag ESP_ALLOW_RECONSTRUCT) s.

(** [cancel_delayed_work_sync] drops the timer; it waits for a running worker,
    so the step relation only runs this when there is none. *)
Definition esp_commit_reconstruction s : sys T :=
  let s := on_ad (set_flag ESP_INIT_DONE) s in
  let s := s <| timer := None |> in
  let s := on_ad (clear_flag ESP_ALLOW_RECONSTRUCT) s in
  if negb (fw_recovery_gen (ad s) =? fw_reconstruct_gen (ad s)) then
    mod_delayed_work ESP_FW_RECOVERY_QUIET_MS (on_ad (fun a => a <| state := ESP_CONTEXT_RX_READY |>) s)
  else
    on_ad (fun a =>
      let a := clear_flag ESP_FW_RECOVERY_PENDING a in
      let a := clear_flag ESP_FW_RESET_EXPECTED a in
      let a := clear_flag ESP_FW_RESTART_NEEDED a in
      a <| state := ESP_CONTEXT_READY |>) s.

Definition reconstruction_success (a : esp_adapter) : bool :=
  flag ESP_INIT_DONE a && negb (flag ESP_FW_RECOVERY_PENDING a)
  && negb (flag ESP_FW_RESET_EXPECTED a).

Definition esp_finish_reconstruction s : sys T :=
  if reconstruction_success (ad s) then
    let s := on_ad (fun a =>
      let a := a <| fw_boot_reset_attempts := 0 |> <| fw_boot_deadline := 0 |> in
      let a := clear_flag ESP_FW_RECOVERY_EXHAUSTED a in
      a <| fw_boot_commit_epoch := u32 (fw_boot_commit_epoch a + 1) |>) s in
    call_void (commit_fw_recovery ops) s
  else s.

End Handlers.

(** ** What an operation may do to the recovery state *)
Section Effects.
Context {T : Type}.
Implicit Types s : sys T.

Notation gen s := (fw_recovery_gen (ad s)).
Notation attempts s := (fw_boot_reset_attempts (ad s)).
Notation pending s := (flag ESP_FW_RECOVERY_PENDING (ad s)).

(** [s'] differs from [s] in the transport, the clock, the context state and the
    transport's two reset flags at most. *)
Record same_core (s s' : sys T) : Prop := mk_same_core {
  core_frame : recovery_frame (ad s) (ad s');
  core_timer : timer s' = timer s;
  core_worker : worker s' = worker s;
  core_resets : resets s' = resets s
}.

#[export] Instance same_core_preorder : PreOrder same_core.
Proof.
  split; [by constructor|]. intros a b c [] []. constructor; try congruence. by etrans.
Qed.

(** At most [k] recovery requests were made, and nothing else: a request raises
    the generation by one, sets the pending flag and may arm the timer. *)
Record asks (k : Z) (s s' : sys T) : Prop := mk_asks {
  ask_bound : 0 <= k;
  ask_attempts : attempts s' = attempts s;
  ask_deadline : fw_boot_deadline (ad s') = fw_boot_deadline (ad s);
  ask_backoff : fw_recovery_backoff_ms (ad s') = fw_recovery_backoff_ms (ad s);
  ask_rgen : fw_reconstruct_gen (ad s') = fw_reconstruct_gen (ad s);
  ask_gen : 0 <= gen s -> gen s + k < 2 ^ 32 -> gen s <= gen s' <= gen s + k;
  ask_requested : gen s' <> gen s -> pending s' = true;
  ask_pending : pending s = true -> pending s' = true;
  ask_flags f : transport_owned f = false -> f <> ESP_FW_RECOVERY_PENDING ->
    flag f (ad s') = flag f (ad s);
  ask_timer : timer s <> None -> timer s' <> None;
  ask_worker : worker s' = worker s;
  ask_resets : resets s' = resets s
}.

Lemma asks_core s s' : same_core s s' -> asks 0 s s'.
Proof.
  intros [[] Et Ew Er]. constructor; auto; try congruence; try lia.
  by rewrite frame_flags.
Qed.

Lemma asks_mono j k s s' : j <= k -> asks j s s' -> asks k s s'.
Proof. intros Hk []. constructor; auto; lia. Qed.

Lemma asks_trans j k s1 s2 s3 : asks j s1 s2 -> asks k s2 s3 -> asks (j + k) s1 s3.
Proof.
  intros [] []. constructor; try congruence; auto; try lia.
  - intros Hne. destruct (decide (gen s2 = gen s1)) as [E|E]; [|by auto].
    apply ask_requested1. congruence.
  - intros f Ho Hp. rewrite ask_flags1; auto.
Qed.

Lemma asks_core_l k s1 s2 s3 : same_core s1 s2 -> asks k s2 s3 -> asks k s1 s3.
Proof. intros H1 H2. apply (asks_trans 0 k _ s2); [by apply asks_core|done]. Qed.

Lemma asks_core_r k s1 s2 s3 : asks k s1 s2 -> same_core s2 s3 -> asks k s1 s3.
Proof. intros H1 H2. rewrite <- (Z.add_0_r k). eapply asks_trans; [done|by apply asks_core]. Qed.

(** How the reset budget is spent: every reset costs an attempt, and an exhausted
    recovery stays exhausted without a reset. *)
Definition spends (s s' : sys T) : Prop :=
  attempts s <= attempts s' /\
  0 <= resets s' - resets s <= attempts s' - attempts s /\
  (flag ESP_FW_RECOVERY_EXHAUSTED (ad s) = true ->
   flag ESP_FW_RECOVERY_EXHAUSTED (ad s') = true /\ resets s' = resets s).

#[export] Instance spends_preorder : PreOrder spends.
Proof.
  split; [intros s; unfold spends; split_and!; auto; lia|]. intros s1 s2 s3 (?&?&H1) (?&?&H2).
  unfold spends. split_and!; try lia. intros Hx. destruct (H1 Hx) as [Hx' ?].
  destruct (H2 Hx'). split; [done|lia].
Qed.

Lemma spends_eq s s' :
  attempts s' = attempts s -> resets s' = resets s ->
  flag ESP_FW_RECOVERY_EXHAUSTED (ad s') = flag ESP_FW_RECOVERY_EXHAUSTED (ad s) -> spends s s'.
Proof. intros E1 E2 E3. unfold spends. rewrite E1, E2, E3. split_and!; auto; lia. Qed.

(** The attempt counter is in range, and a deadline is armed by an attempt only. *)
Definition budget_ok s : Prop :=
  0 <= attempts s <= ESP_FW_BOOT_MAX_ATTEMPTS /\ (fw_boot_deadline (ad s) <> 0 -> 0 < attempts s).

(** At most [k] requests, and the reset budget spent lawfully. *)
Record moved (k : Z) (s s' : sys T) : Prop := mk_moved {
  mv_bound : 0 <= k;
  mv_budget : budget_ok s -> budget_ok s';
  mv_spends : 0 <= attempts s -> spends s s';
  mv_backoff : fw_recovery_backoff_ms (ad s') = fw_recovery_backoff_ms (ad s);
  mv_rgen : fw_reconstruct_gen (ad s') = fw_reconstruct_gen (ad s);
  mv_gen : 0 <= gen s -> gen s + k < 2 ^ 32 -> gen s <= gen s' <= gen s + k;
  mv_requested : gen s' <> gen s -> pending s' = true;
  mv_pending : pending s = true -> pending s' = true;
  mv_flags f : transport_owned f = false -> f <> ESP_FW_RECOVERY_PENDING ->
    f <> ESP_FW_RECOVERY_EXHAUSTED -> f <> ESP_CLEANUP_IN_PROGRESS ->
    flag f (ad s') = flag f (ad s);
  mv_timer : timer s <> None -> timer s' <> None;
  mv_worker : worker s' = worker s
}.

Lemma moved_asks k s s' : asks k s s' -> moved k s s'.
Proof.
  intros []. constructor; auto; unfold budget_ok.
  - by rewrite ask_attempts0, ask_deadline0.
  - intros _. by apply spends_eq; [..|apply ask_flags0].
Qed.

Lemma moved_mono j k s s' : j <= k -> moved j s s' -> moved k s s'.
Proof. intros Hk []. constructor; auto; lia. Qed.

Lemma moved_trans j k s1 s2 s3 : moved j s1 s2 -> moved k s2 s3 -> moved (j + k) s1 s3.
Proof.
  intros [] []. constructor; try congruence; auto; try lia.
  - intros Ha. pose proof (mv_spends0 Ha) as Hs. etrans; [exact Hs|]. apply mv_spends1.
    destruct Hs. lia.
  - intros Hne. destruct (decide (gen s2 = gen s1)) as [E|E]; [|by auto].
    apply mv_requested1. congruence.
  - intros f Ho Hp Hx Hc. rewrite mv_flags1; auto.
Qed.

Lemma moved_refl s : moved 0 s s.
Proof. by apply moved_asks, asks_core. Qed.

Lemma set_owned_frame f a : transport_owned f = true -> recovery_frame a (set_flag f a).
Proof.
  intros Hf. constructor; try (by rewrite set_flag_frame). intros g Hg. rewrite flag_set_flag.
  rewrite bool_decide_false; [done|]. by intros ->; rewrite Hf in Hg.
Qed.

Lemma clear_owned_frame f a : transport_owned f = true -> recovery_frame a (clear_flag f a).
Proof.
  intros Hf. constructor; try (by rewrite clear_flag_frame). intros g Hg. rewrite flag_clear_flag.
  rewrite bool_decide_false, andb_true_r; [done|]. by intros ->; rewrite Hf in Hg.
Qed.

Lemma on_ad_core f s : recovery_frame (ad s) (f (ad s)) -> same_core s (on_ad f s).
Proof. by constructor. Qed.

Lemma on_tr_core f s : same_core s (on_tr f s).
Proof. by constructor. Qed.

Lemma call_void_core op s :
  (forall f, op = Some f -> same_core s (f s)) -> same_core s (call_void op s).
Proof. unfold call_void. destruct op as [f|]; auto. done. Qed.
End Effects.

(** *** Running the calls of a transport operation *)
Section CoreCalls.
Context {T : Type}.
Implicit Types s : sys T.

Lemma on_ad_state_core x s : same_core s (on_ad (fun a => a <| state := x |>) s).
Proof. by apply on_ad_core. Qed.

Lemma set_owned_core f s : transport_owned f = true -> same_core s (on_ad (set_flag f) s).
Proof. intros Hf. by apply on_ad_core, set_owned_frame. Qed.

Lemma clear_owned_core f s : transport_owned f = true -> same_core s (on_ad (clear_flag f) s).
Proof. intros Hf. by apply on_ad_core, clear_owned_frame. Qed.

Lemma moved_core k s s' : 0 <= k -> same_core s s' -> moved k s s'.
Proof. intros Hk Hc. apply (moved_mono 0); [done|]. by apply moved_asks, asks_core. Qed.

Lemma moved_core_l k s1 s2 s3 : same_core s1 s2 -> moved k s2 s3 -> moved k s1 s3.
Proof. intros H1 H2. rewrite <- (Z.add_0_l k). eapply moved_trans; [by apply moved_core|done]. Qed.
End CoreCalls.

Create HintDb recovery_core.
#[export] Hint Resolve on_ad_state_core set_owned_core clear_owned_core on_tr_core : recovery_core.
#[export] Hint Extern 1 (transport_owned _ = true) => reflexivity : recovery_core.

(** [run_calls] runs the program of a goal [R (prog s0).2] call by call, taking
    the fact about each call from [recovery_core]; [core_back] chains these. *)
Ltac core_back :=
  repeat match goal with
  | |- same_core ?s ?s => reflexivity
  | Hc : same_core _ ?y |- same_core _ ?y => etrans; [|exact Hc]; clear Hc
  | |- same_core _ (on_tr _ ?x) => transitivity x; [|apply on_tr_core]
  | |- same_core _ (if ?b then _ else _) => destruct b
  | |- same_core _ (_ ?x) => transitivity x; [|solve [auto with recovery_core]]
  | |- same_core _ (_ ?x).2 => transitivity x; [|solve [auto with recovery_core]]
  end.
Ltac core_split f k :=
  lazymatch f with
  | (_, _) => k f
  | if ?b then _ else _ => destruct b
  | match ?g with pair _ _ => _ end => core_split g k
  | _ => k f
  end.
Ltac core_call f :=
  lazymatch f with
  | (_, _) => idtac
  | ?g ?s =>
      let Hc := fresh "Hc" in
      try (assert (Hc : same_core s f.2) by auto with recovery_core);
      destruct f as [? ?]; cbn [snd] in *
  | _ => destruct f as [? ?]; cbn [snd] in *
  end.
Ltac run_calls :=
  repeat (cbv beta iota zeta;
    lazymatch goal with
    | |- _ (_, _).2 => cbn [snd]
    | |- _ (if ?b then _ else _).2 => destruct b
    | |- _ (match ?f with pair _ _ => _ end).2 => core_split f core_call
    end).
Ltac core_run := run_calls; core_back.

(** ** The interface: what a transport promises to the recovery code

    [reset_target] may itself file one recovery request; [recover_transport] at
    most four, and it may ask for a restart; the others leave the recovery state
    alone. *)
Definition RECOVER_REQUESTS : Z := 4.

Class NoteLaw {T} (ops : esp_if_ops T) : Prop :=
  note_fw_reset_core f s : note_fw_reset ops = Some f -> same_core s (f s).

Class ResetLaws {T} (ops : esp_if_ops T) : Prop := {
  reset_note :: NoteLaw ops;
  reset_target_asks f s : reset_target ops = Some f -> asks 1 s (f s).2;
  generate_slave_intr_core d s : same_core s (generate_slave_intr ops d s).2
}.

Class IfOpsLaws {T} (ops : esp_if_ops T) : Prop := {
  if_ops_reset :: ResetLaws ops;
  recover_transport_moved f s : recover_transport ops = Some f -> moved RECOVER_REQUESTS s (f s).2;
  resume_core f s : resume_after_live_recovery ops = Some f -> same_core s (f s);
  commit_core f s : commit_fw_recovery ops = Some f -> same_core s (f s)
}.

(** ** Frame lemmas *)
Section Frames.
Context {T : Type} {ops : esp_if_ops T} {Hnote : NoteLaw ops} (m2j : Z -> Z).
Implicit Types s : sys T.

(** Scheduling: the request is remembered and the timer is armed. *)
Record scheduled (s s' : sys T) : Prop := mk_scheduled {
  sch_attempts : fw_boot_reset_attempts (ad s') = fw_boot_reset_attempts (ad s);
  sch_deadline : fw_boot_deadline (ad s') = fw_boot_deadline (ad s);
  sch_backoff : fw_recovery_backoff_ms (ad s') = fw_recovery_backoff_ms (ad s);
  sch_gen : fw_recovery_gen (ad s') = u32 (fw_recovery_gen (ad s) + 1);
  sch_rgen : fw_reconstruct_gen (ad s') = fw_reconstruct_gen (ad s);
  sch_flags f : transport_owned f = false ->
    flag f (ad s') = bool_decide (f = ESP_FW_RECOVERY_PENDING) || flag f (ad s);
  sch_timer : timer s' <> None;
  sch_worker : worker s' = worker s;
  sch_resets : resets s' = resets s
}.

Lemma schedule_recovery_spec d rt fr s :
  unloading_or_removing (ad s) = false -> scheduled s (esp_schedule_recovery ops m2j d rt fr s).
Proof.
  intros Hu. unfold esp_schedule_recovery. rewrite Hu.
  set (s1 := if fr then _ else s).
  assert (same_core s s1) as [[?????? Hff] ? ? ?].
  { subst s1. destruct fr; [|done]. etrans; [apply (on_ad_core (set_flag ESP_FW_RESET_EXPECTED))|].
    - by apply set_owned_frame.
    - apply call_void_core. intros. by apply note_fw_reset_core. }
  clearbody s1.
  set (s2 := on_ad _ (on_ad (set_flag ESP_FW_RECOVERY_PENDING) s1)).
  set (s3 := if flag ESP_ALLOW_RECONSTRUCT (ad s2) then s2 else _).
  assert (fw_boot_reset_attempts (ad s3) = fw_boot_reset_attempts (ad s) /\
    fw_boot_deadline (ad s3) = fw_boot_deadline (ad s) /\
    fw_recovery_backoff_ms (ad s3) = fw_recovery_backoff_ms (ad s) /\
    fw_recovery_gen (ad s3) = u32 (fw_recovery_gen (ad s) + 1) /\
    fw_reconstruct_gen (ad s3) = fw_reconstruct_gen (ad s) /\
    (forall f, transport_owned f = false ->
       flag f (ad s3) = bool_decide (f = ESP_FW_RECOVERY_PENDING) || flag f (ad s)) /\
    worker s3 = worker s /\ resets s3 = resets s) as (?&?&?&?&?&?&?&?).
  { assert (Hf : forall f, transport_owned f = false ->
      flag f (ad s2) = bool_decide (f = ESP_FW_RECOVERY_PENDING) || flag f (ad s)).
    { intros f Hf. rewrite <- Hff by done. subst s2.
      rewrite (flag_eq f _ (set_flag ESP_FW_RECOVERY_PENDING (ad s1))) by done.
      rewrite flag_set_flag. f_equal. apply bool_decide_ext. naive_solver. }
    assert (Hs : state_flags (ad s3) = state_flags (ad s2)).
    { subst s3. destruct (flag _ _); [done|]. cbn. unfold esp_recovery_drop_tx_unlocked.
      by case_match. }
    split_and!; try (intros f Hfo; rewrite <- Hf by done; by apply flag_eq).
    all: subst s3 s2; destruct (flag _ _); cbn; unfold esp_recovery_drop_tx_unlocked;
      try case_match; cbn; congruence. }
  clearbody s3. clear s2.
  unfold schedule_delayed_work, mod_delayed_work.
  destruct rt, (timer s3) eqn:?; constructor; cbn; congruence || done.
Qed.

Lemma schedule_recovery_unloading d rt fr s :
  unloading_or_removing (ad s) = true -> esp_schedule_recovery ops m2j d rt fr s = s.
Proof. unfold esp_schedule_recovery. by intros ->. Qed.

Lemma scheduled_asks s s' : scheduled s s' -> asks 1 s s'.
Proof.
  intros []. constructor; auto; try lia.
  - intros ? ?. rewrite sch_gen0, wrap_id by (unfold in_width; lia). lia.
  - intros f Ho Hp. by rewrite sch_flags0, bool_decide_false by congruence.
Qed.

Lemma schedule_recovery_asks d rt fr s : asks 1 s (esp_schedule_recovery ops m2j d rt fr s).
Proof.
  destruct (unloading_or_removing (ad s)) eqn:Hu.
  - rewrite schedule_recovery_unloading by done. by apply (asks_mono 0), asks_core.
  - by apply scheduled_asks, schedule_recovery_spec.
Qed.
End Frames.

Section Restart.
Context {T : Type} {ops : esp_if_ops T} {Hops : ResetLaws ops} (m2j : Z -> Z).
Implicit Types s : sys T.

(** The dispatched reset spends nothing of the budget itself. *)
Lemma dispatch_reset_frame s :
  asks 1 s (dispatch_reset ops s <| resets := resets s |>) /\
  resets s <= resets (dispatch_reset ops s) <= resets s + 1.
Proof.
  assert (Hid : asks 1 s (s <| resets := resets s |>)) by by apply (asks_mono 0), asks_core.
  unfold dispatch_reset. split_ifs.
  - destruct (reset_target ops) as [f|] eqn:E; [|split; [done|lia]].
    destruct (reset_target_asks f s E). cbn. split; [by constructor|lia].
  - pose proof (generate_slave_intr_core ESP_CLOSE_DATA_PATH_BIT s) as [Hfr ? ? Er].
    destruct (generate_slave_intr _ _ s) as [r s1]. cbn in *.
    split_ifs; cbn; (split; [|lia]); apply (asks_mono 0), asks_core; [lia| |lia|];
      constructor; cbn; try done.
    etrans; [done|]. by apply clear_owned_frame.
  - split; [done|lia].
Qed.

(** A restart request with an attempt taken out of the budget, before the reset
    is dispatched. *)
Definition attempt s : sys T :=
  on_ad (fun a => set_flag ESP_FW_RESTART_NEEDED
    (a <| fw_boot_reset_attempts := u32 (fw_boot_reset_attempts a + 1) |>
       <| fw_boot_deadline := u64 (jiffies s + m2j ESP_FW_BOOT_ACK_TIMEOUT_MS) |>)) s.

Definition exhaust s : sys T :=
  on_ad (fun a => set_flag ESP_FW_RECOVERY_EXHAUSTED a <| fw_boot_deadline := 0 |>) s.

Lemma restart_cases s :
  let s' := esp_request_firmware_restart ops m2j s in
  (fw_boot_deadline (ad s) <> 0 /\ s' = s) \/
  (fw_boot_deadline (ad s) = 0 /\
   (flag ESP_FW_RECOVERY_EXHAUSTED (ad s) = true \/
    ESP_FW_BOOT_MAX_ATTEMPTS <= fw_boot_reset_attempts (ad s)) /\ s' = exhaust s) \/
  (fw_boot_deadline (ad s) = 0 /\ flag ESP_FW_RECOVERY_EXHAUSTED (ad s) = false /\
   fw_boot_reset_attempts (ad s) < ESP_FW_BOOT_MAX_ATTEMPTS /\
   asks 1 (attempt s) (s' <| resets := resets s |>) /\ resets s <= resets s' <= resets s + 1).
Proof.
  cbn zeta. unfold esp_request_firmware_restart.
  destruct (negb _) eqn:Hd; bool_hyps; [by left|]. right.
  destruct (_ || _) eqn:Hx; [left|right].
  - split_and!; [done| |done]. apply orb_true_iff in Hx as [Hx|Hx]; bool_hyps; auto.
  - apply orb_false_iff in Hx as [Hx Hm]. bool_hyps. split_and!; try done.
    1: apply (dispatch_reset_frame (attempt s)).
    all: apply (dispatch_reset_frame (attempt s)).
Qed.

Lemma attempt_flags f s :
  transport_owned f = false -> flag f (ad (attempt s)) = flag f (ad s).
Proof.
  intros Hf. cbn. rewrite flag_set_flag, bool_decide_false; [done|]. by intros <-.
Qed.

Lemma exhaust_flags f s :
  flag f (ad (exhaust s)) = bool_decide (f = ESP_FW_RECOVERY_EXHAUSTED) || flag f (ad s).
Proof.
  rewrite (flag_eq _ _ (set_flag ESP_FW_RECOVERY_EXHAUSTED (ad s))) by done.
  rewrite flag_set_flag. f_equal. apply bool_decide_ext. naive_solver.
Qed.

Lemma attempt_counts s :
  0 <= fw_boot_reset_attempts (ad s) < ESP_FW_BOOT_MAX_ATTEMPTS ->
  fw_boot_reset_attempts (ad (attempt s)) = fw_boot_reset_attempts (ad s) + 1.
Proof.
  unfold ESP_FW_BOOT_MAX_ATTEMPTS. intros Ha. cbn. apply wrap_id. unfold in_width. lia.
Qed.

Lemma moved_restart s : moved 1 s (esp_request_firmware_restart ops m2j s).
Proof.
  destruct (restart_cases s) as [[_ ->]|[(Hd & Hx & ->)|(Hd & Hx & Hm & Hk & Hr)]].
  - apply (moved_mono 0); [lia|apply moved_refl].
  - assert (Hf : forall f, f <> ESP_FW_RECOVERY_EXHAUSTED -> flag f (ad (exhaust s)) = flag f (ad s)).
    { intros f Hf. by rewrite exhaust_flags, bool_decide_false. }
    constructor; auto; cbn; try lia.
    + unfold budget_ok. cbn. intros [? _]. split; [done|lia].
    + intros _. unfold spends. rewrite exhaust_flags. cbn. split_and!; auto; lia.
    + rewrite Hf by done. auto.
  - pose proof (fun Ha => attempt_counts s (conj Ha Hm)) as Ec.
    destruct Hk as [_ Ea Ed Eb Er Eg Hq Hp Hf Ht Ew _]. constructor; auto; try lia.
    + intros [[Ha _] _]. rewrite (Ec Ha) in Ea.
      unfold budget_ok, ESP_FW_BOOT_MAX_ATTEMPTS in *. cbn in *. lia.
    + intros Ha. rewrite (Ec Ha) in Ea. unfold spends. cbn in *. rewrite Hx. split_and!; [lia|lia|lia|done].
    + intros Hps. apply Hp. by rewrite attempt_flags.
    + intros f ? ? ? ?. etrans; [by apply Hf|]. by apply attempt_flags.
Qed.

(** A restart request keeps every flag but the reset bookkeeping and the request. *)
Lemma restart_keeps f s :
  transport_owned f = false -> f <> ESP_FW_RECOVERY_EXHAUSTED -> f <> ESP_FW_RECOVERY_PENDING ->
  flag f (ad (esp_request_firmware_restart ops m2j s)) = flag f (ad s).
Proof.
  intros Ho Hx Hp. destruct (restart_cases s) as [[_ ->]|[(_ & _ & ->)|(_ & _ & _ & Hk & _)]]; [done| |].
  - by rewrite exhaust_flags, bool_decide_false.
  - etrans; [by apply (ask_flags _ _ _ Hk)|by apply attempt_flags].
Qed.

(** ... and it drops no request already filed. *)
Lemma restart_request s :
  let s' := esp_request_firmware_restart ops m2j s in
  (flag ESP_FW_RECOVERY_PENDING (ad s) = true -> flag ESP_FW_RECOVERY_PENDING (ad s') = true) /\
  (timer s <> None -> timer s' <> None).
Proof.
  cbn zeta.
  destruct (restart_cases s) as [[_ ->]|[(_ & _ & ->)|(_ & _ & _ & [_ _ _ _ _ _ _ Hp _ Ht _ _] & _)]].
  - done.
  - split; [by rewrite exhaust_flags; intros ->|done].
  - split; [|exact Ht]. intros Hs. apply Hp. by rewrite attempt_flags.
Qed.

Lemma moved_retry s : moved 2 s (esp_bootup_request_retry ops m2j s).
Proof.
  unfold esp_bootup_request_retry.
  case_match; [apply (moved_mono 0); [lia|apply moved_refl]|].
  set (s0 := on_ad _ s). set (s1 := esp_schedule_recovery _ _ _ _ _ _).
  assert (H0 : moved 0 s s0).
  { assert (Hf : forall f, f <> ESP_CLEANUP_IN_PROGRESS -> flag f (ad s0) = flag f (ad s)).
    { intros f Hf. subst s0. cbn. rewrite flag_clear_flag, bool_decide_false by congruence.
      by rewrite andb_true_r. }
    constructor; auto; try (cbn; lia).
    - intros _. apply spends_eq; [done|done|by apply Hf].
    - by rewrite Hf. }
  assert (H1 : moved 1 s s1).
  { apply (moved_trans 0 1 _ s0); [done|]. apply moved_asks, schedule_recovery_asks. }
  apply (moved_trans 1 1 _ s1); [done|]. apply moved_restart.
Qed.
End Restart.

(** ** The recovery system as a transition system *)
Section System.
Context {T : Type} (ops : esp_if_ops T) {Hops : IfOpsLaws ops} (m2j : Z -> Z).
Implicit Types s : sys T.

(** Flags only the recovery code itself moves. *)
Definition recovery_private (f : adapter_flags_e) : bool :=
  bool_decide (f = ESP_FW_RECOVERY_PENDING) || bool_decide (f = ESP_ALLOW_RECONSTRUCT)
  || bool_decide (f = ESP_FW_RECOVERY_EXHAUSTED).

(** What the rest of the driver may do to the adapter between two steps. *)
Record env_frame (a a' : esp_adapter) : Prop := mk_env_frame {
  env_attempts : fw_boot_reset_attempts a' = fw_boot_reset_attempts a;
  env_deadline : fw_boot_deadline a' = fw_boot_deadline a;
  env_backoff : fw_recovery_backoff_ms a' = fw_recovery_backoff_ms a;
  env_gen : fw_recovery_gen a' = fw_recovery_gen a;
  env_rgen : fw_reconstruct_gen a' = fw_reconstruct_gen a;
  env_flags f : recovery_private f = true -> flag f a' = flag f a
}.

Inductive event :=
  | Ev_schedule (delay_ms : Z) (restart_timer fw_reset : bool)
  | Ev_binding (preserve : bool)
  | Ev_restart
  | Ev_retry
  | Ev_timer                 (* fw_recovery_work starts *)
  | Ev_worker                (* ... and continues after recover_transport *)
  | Ev_begin | Ev_clear | Ev_commit | Ev_finish
  | Ev_env.                  (* clock, transport and the rest of the driver *)

Inductive step : sys T -> event -> sys T -> Prop :=
  | step_schedule s d rt fr :
      step s (Ev_schedule d rt fr) (esp_schedule_recovery ops m2j d rt fr s)
  | step_binding s p : step s (Ev_binding p) (esp_reset_boot_recovery_for_binding p s)
  | step_restart s : step s Ev_restart (esp_request_firmware_restart ops m2j s)
  | step_retry s : step s Ev_retry (esp_bootup_request_retry ops m2j s)
  | step_timer s e :
      timer s = Some e -> worker s = None ->
      step s Ev_timer (fw_recovery_work_begin ops m2j (s <| timer := None |>))
  | step_worker s gen ret :
      worker s = Some (gen, ret) -> step s Ev_worker (fw_recovery_work_end ops m2j gen ret s)
  | step_begin s : step s Ev_begin (esp_begin_reconstruction s)
  | step_clear s : step s Ev_clear (esp_clear_reconstruct_flag s)
  | step_commit s : worker s = None -> step s Ev_commit (esp_commit_reconstruction m2j s)
  | step_finish s : step s Ev_finish (esp_finish_reconstruction ops s)
  | step_env s a t j :
      env_frame (ad s) a ->
      step s Ev_env (s <| ad := a |> <| tr := t |> <| jiffies := j |>).

Inductive run : sys T -> list event -> sys T -> Prop :=
  | run_nil s : run s [] s
  | run_cons s e s' es s'' : step s e s' -> run s' es s'' -> run s (e :: es) s''.

(** The driver as loaded: nothing requested, nothing armed. *)
Definition initial (s : sys T) : Prop :=
  fw_boot_reset_attempts (ad s) = 0 /\ fw_boot_deadline (ad s) = 0 /\
  fw_recovery_backoff_ms (ad s) = 0 /\ fw_recovery_gen (ad s) = 0 /\
  fw_reconstruct_gen (ad s) = 0 /\ worker s = None /\
  forall f, recovery_private f = true -> flag f (ad s) = false.

Definition backoff_ok (b : Z) : Prop :=
  b = 0 \/ ESP_FW_RECOVERY_QUIET_MS <= b <= ESP_FW_RECOVERY_BACKOFF_MAX_MS.

(** [n] bounds the number of requests so far; the theorems stop short of the
    2^32 requests after which the generation counter repeats. *)
Record Inv (n : Z) (s : sys T) : Prop := mk_Inv {
  inv_budget : budget_ok s;
  inv_backoff : backoff_ok (fw_recovery_backoff_ms (ad s));
  inv_gen : 0 <= fw_reconstruct_gen (ad s) <= fw_recovery_gen (ad s) /\
            fw_recovery_gen (ad s) <= n;
  inv_worker g r : worker s = Some (g, r) ->
    0 <= g <= fw_recovery_gen (ad s) /\
    (flag ESP_ALLOW_RECONSTRUCT (ad s) = true -> g <= fw_reconstruct_gen (ad s));
  inv_recon :
    flag ESP_ALLOW_RECONSTRUCT (ad s) = true ->
    fw_recovery_gen (ad s) <> fw_reconstruct_gen (ad s) ->
    flag ESP_FW_RECOVERY_PENDING (ad s) = true
}.

Lemma initial_Inv s : initial s -> Inv 0 s.
Proof.
  intros (Ea & Ed & Eb & Eg & Er & Ew & Ef). constructor.
  - unfold budget_ok. rewrite Ea, Ed. unfold ESP_FW_BOOT_MAX_ATTEMPTS. lia.
  - by left.
  - lia.
  - by rewrite Ew.
  - by rewrite Ef.
Qed.

Lemma Inv_attempts n s : Inv n s -> 0 <= fw_boot_reset_attempts (ad s) <= ESP_FW_BOOT_MAX_ATTEMPTS.
Proof. by intros [[? _] _ _ _ _]. Qed.

Lemma Inv_mono n m s : Inv n s -> n <= m -> Inv m s.
Proof. intros [] ?. constructor; try done. lia. Qed.

(** Requests and restarts keep the invariant, up to the count of requests. *)
Lemma Inv_moved n k s s' : n + k < 2 ^ 32 -> moved k s s' -> Inv n s -> Inv (n + k) s'.
Proof.
  intros Hn [Hk Hbud _ Eb Er Eg Hq Hp Hf _ Ew] [Ha Hb Hg Hw Hr].
  assert (Hgen : fw_recovery_gen (ad s) <= fw_recovery_gen (ad s') <= fw_recovery_gen (ad s) + k)
    by (apply Eg; lia).
  assert (Hal := Hf ESP_ALLOW_RECONSTRUCT eq_refl ltac:(done) ltac:(done) ltac:(done)).
  constructor; rewrite ?Eb, ?Er, ?Ew, ?Hal; auto; try lia.
  - intros g r E. destruct (Hw g r E). split; [lia|done].
  - intros Hon Hne. destruct (decide (fw_recovery_gen (ad s') = fw_recovery_gen (ad s))) as [E|]; [|auto].
    apply Hp, Hr; congruence.
Qed.

Lemma Inv_core n s s' : same_core s s' -> Inv n s -> Inv n s'.
Proof.
  intros Hc HI. destruct Hc as [[Ea Ed Eb Eg Er _ Hf] Et Ew _]. destruct HI as [Ha Hb Hg Hw Hr].
  unfold budget_ok in *. constructor; unfold budget_ok; rewrite ?Ea, ?Ed, ?Eb, ?Eg, ?Er, ?Ew, ?Hf; done.
Qed.

Lemma Inv_schedule n d rt fr s :
  n + 1 < 2 ^ 32 -> Inv n s -> Inv (n + 1) (esp_schedule_recovery ops m2j d rt fr s).
Proof. intros. apply Inv_moved with s; auto. by apply moved_asks, schedule_recovery_asks. Qed.

(** Steps that leave the generations, the worker and the two flags alone. *)
Lemma Inv_budget n s s' :
  Inv n s -> budget_ok s' -> backoff_ok (fw_recovery_backoff_ms (ad s')) ->
  fw_recovery_gen (ad s') = fw_recovery_gen (ad s) ->
  fw_reconstruct_gen (ad s') = fw_reconstruct_gen (ad s) ->
  worker s' = worker s \/ worker s' = None ->
  flag ESP_ALLOW_RECONSTRUCT (ad s') = flag ESP_ALLOW_RECONSTRUCT (ad s) ->
  flag ESP_FW_RECOVERY_PENDING (ad s') = flag ESP_FW_RECOVERY_PENDING (ad s) -> Inv n s'.
Proof.
  intros [_ _ Hg Hw Hr] Ha Hb Eg Er Ew Eal Ep.
  constructor; rewrite ?Eg, ?Er, ?Eal, ?Ep; try done. intros g r E.
  destruct Ew as [Ew|Ew]; rewrite Ew in E; [|done]. by apply Hw with r.
Qed.

Lemma Inv_restart n s :
  n + 1 < 2 ^ 32 -> Inv n s -> Inv (n + 1) (esp_request_firmware_restart ops m2j s).
Proof.
  intros Hn HI. apply Inv_moved with s; auto. by apply moved_restart.
Qed.

Lemma Inv_clear_allow n s : Inv n s -> Inv n (on_ad (clear_flag ESP_ALLOW_RECONSTRUCT) s).
Proof.
  intros [Ha Hb Hg Hw Hr]. constructor; cbn; try done.
  - intros g r E. destruct (Hw g r E). split; [done|]. by rewrite flag_clear_flag, andb_false_r.
  - by rewrite flag_clear_flag, andb_false_r.
Qed.

Lemma Inv_retry n s :
  n + 2 < 2 ^ 32 -> Inv n s -> Inv (n + 2) (esp_bootup_request_retry ops m2j s).
Proof.
  intros Hn HI. apply Inv_moved with s; auto. by apply moved_retry.
Qed.

Lemma Inv_timer n s t : Inv n s -> Inv n (s <| timer := t |>).
Proof. by intros []. Qed.

Lemma Inv_no_worker n s s' :
  Inv n s -> worker s' = None -> ad s' = ad s -> Inv n s'.
Proof.
  intros [Ha Hb Hg Hw Hr] Ew Ea. unfold budget_ok in *.
  constructor; unfold budget_ok; rewrite ?Ea; try done. by rewrite Ew.
Qed.

Lemma Inv_deadline0 n s : Inv n s -> Inv n (on_ad (fun a => a <| fw_boot_deadline := 0 |>) s).
Proof.
  intros HI. apply (Inv_budget n s); auto; [|by destruct HI].
  destruct (Inv_attempts n s HI). by split.
Qed.

(** The worker either moves the state or hands it to the transport. *)
Lemma work_begin_cases s :
  let s' := fw_recovery_work_begin ops m2j s in
  s' = s \/ (exists d, s' = mod_delayed_work m2j d s) \/
  (exists d, s' = esp_bootup_request_retry ops m2j
                    (on_ad (fun a => a <| fw_boot_deadline := d |>) s) /\
             (d = 0 \/ d = fw_boot_deadline (ad s))) \/
  (exists f, recover_transport ops = Some f /\ flag ESP_ALLOW_RECONSTRUCT (ad s) = false /\
     s' = (f s).2 <| worker := Some (fw_recovery_gen (ad s), (f s).1) |>).
Proof.
  cbn zeta. unfold fw_recovery_work_begin. cbn zeta.
  destruct (_ || _); [by left|].
  destruct (_ && time_after_eq _ _); [by right; right; left; exists 0; auto|].
  destruct (_ && flag ESP_CLEANUP_IN_PROGRESS _); [by right; left; eexists|].
  destruct (negb _ && flag ESP_ALLOW_RECONSTRUCT _) eqn:Hal; [by right; left; eexists|].
  destruct (flag ESP_INIT_DONE _ && _ && _) eqn:Hskip; [by left|].
  destruct (negb (flag ESP_INIT_DONE _) && _ && _).
  { right; right; left. exists (fw_boot_deadline (ad s)). split; [|by right].
    f_equal. by destruct s as [[]]. }
  destruct (recover_transport ops) as [f|] eqn:Hf; [|by left].
  do 3 right. exists f. split_and!; [done|exact Hal|]. by destruct (f s).
Qed.

Lemma Inv_work_begin n s :
  n + RECOVER_REQUESTS < 2 ^ 32 -> worker s = None -> Inv n s ->
  Inv (n + RECOVER_REQUESTS) (fw_recovery_work_begin ops m2j s).
Proof.
  intros Hn Ew HI. assert (HI' : Inv (n + RECOVER_REQUESTS) s).
  { apply (Inv_mono n); [done|unfold RECOVER_REQUESTS; lia]. }
  unfold RECOVER_REQUESTS in Hn.
  destruct (work_begin_cases s) as [->|[[d ->]|[(d & -> & Hd)|(f & Hf & Hal & ->)]]].
  - done.
  - by apply Inv_timer.
  - apply (Inv_mono (n + 2)); [|unfold RECOVER_REQUESTS; lia]. apply Inv_retry; [lia|].
    destruct Hd as [-> | ->]; [by apply Inv_deadline0|]. destruct s as [[] ?]; exact HI.
  - pose proof (recover_transport_moved f s Hf) as Hm.
    pose proof (Inv_moved n _ s _ Hn Hm HI) as [Ha Hb Hg Hw Hr].
    constructor; try done. cbn. intros g r [= <- <-].
    destruct HI as [_ _ Hg0 _ _]. pose proof (mv_gen _ _ _ Hm ltac:(lia)) as Hgen.
    unfold RECOVER_REQUESTS in Hgen. split; [lia|].
    by rewrite (mv_flags _ _ _ Hm), Hal.
Qed.

Lemma recovery_backoff_ok b :
  backoff_ok b -> backoff_ok (recovery_backoff b).2 /\
  (recovery_backoff b).1 = (if b =? 0 then ESP_FW_RECOVERY_QUIET_MS else b) /\
  (recovery_backoff b).2 = Z.min ESP_FW_RECOVERY_BACKOFF_MAX_MS (2 * (recovery_backoff b).1).
Proof.
  unfold recovery_backoff, backoff_ok, ESP_FW_RECOVERY_QUIET_MS, ESP_FW_RECOVERY_BACKOFF_MAX_MS.
  intros Hb. set (c := if b =? 0 then 500 else b).
  assert (500 <= c <= 5000) by (subst c; case_match; bool_hyps; lia). clearbody c. cbn.
  case_match; bool_hyps; [rewrite wrap_id by (unfold in_width; lia); case_match; bool_hyps|];
    split_and!; try lia; try done.
Qed.

Lemma Inv_work_end n gen ret s :
  worker s = Some (gen, ret) -> Inv n s -> Inv n (fw_recovery_work_end ops m2j gen ret s).
Proof.
  intros Ew HI. unfold fw_recovery_work_end.
  assert (HI0 : Inv n (s <| worker := None |>)) by by eapply Inv_no_worker.
  destruct HI as [Ha Hb Hg Hw Hr]. destruct (Hw _ _ Ew) as (Hgen & Hal). clear Hw.
  assert (Hset : forall b t, backoff_ok b -> Inv n (s <| worker := None |>
    <| ad := ad s <| fw_recovery_backoff_ms := b |> |> <| timer := t |>)) by by constructor.
  split_ifs.
  - destruct (recovery_backoff _) as [d b] eqn:E. apply Hset.
    pose proof (recovery_backoff_ok _ Hb) as [H _]. cbn in E. by rewrite E in H.
  - apply Hset. right. done.
  - apply Hset. right. done.
  - bool_hyps. cbn in *.
    set (s1 := on_ad (clear_flag ESP_FW_RECOVERY_PENDING) _).
    assert (HI1 : Inv n s1); [|].
    { constructor; subst s1; cbn; try done; [right; done|].
      rewrite !flag_clear_flag. intros ?. bool_hyps. intros Hne.
      specialize (Hal ltac:(done)). lia. }
    eapply Inv_core; [|exact HI1]. apply call_void_core. intros. by apply resume_core.
  - apply Hset. right. done.
  - apply Hset. right. done.
Qed.

Lemma Inv_binding n p s : Inv n s -> Inv n (esp_reset_boot_recovery_for_binding p s).
Proof.
  unfold esp_reset_boot_recovery_for_binding. case_match; [|done]. intros [Ha Hb Hg Hw Hr].
  constructor; cbn; rewrite ?flag_clear_flag; cbn; rewrite ?andb_false_r; try done.
  - by right.
  - intros g r E. destruct (Hw g r E). done.
Qed.

(** The flag word a commit leaves behind. *)
Lemma commit_flags f s :
  flag f (ad (esp_commit_reconstruction m2j s)) =
    (bool_decide (f = ESP_INIT_DONE) || flag f (ad s)) &&
    negb (bool_decide (f = ESP_ALLOW_RECONSTRUCT)) &&
    ((negb (fw_recovery_gen (ad s) =? fw_reconstruct_gen (ad s))) ||
     negb (bool_decide (f = ESP_FW_RECOVERY_PENDING) || bool_decide (f = ESP_FW_RESET_EXPECTED)
           || bool_decide (f = ESP_FW_RESTART_NEEDED))).
Proof.
  unfold esp_commit_reconstruction.
  set (a1 := clear_flag ESP_ALLOW_RECONSTRUCT (set_flag ESP_INIT_DONE (ad s))).
  change (fw_recovery_gen (ad _)) with (fw_recovery_gen (ad s)).
  change (fw_reconstruct_gen (ad _)) with (fw_reconstruct_gen (ad s)).
  destruct (negb _); cbn [orb].
  - rewrite (flag_eq f _ a1) by done. subst a1. rewrite flag_clear_flag, flag_set_flag.
    by destruct f, (flag _ (ad s)).
  - rewrite (flag_eq f _ (clear_flag ESP_FW_RESTART_NEEDED (clear_flag ESP_FW_RESET_EXPECTED
      (clear_flag ESP_FW_RECOVERY_PENDING a1)))) by done.
    subst a1. rewrite !flag_clear_flag, flag_set_flag. by destruct f, (flag _ (ad s)).
Qed.

Lemma commit_fields s :
  let s' := esp_commit_reconstruction m2j s in
  let keep := fw_recovery_gen (ad s) =? fw_reconstruct_gen (ad s) in
  fw_boot_reset_attempts (ad s') = fw_boot_reset_attempts (ad s) /\
  fw_boot_deadline (ad s') = fw_boot_deadline (ad s) /\
  fw_recovery_backoff_ms (ad s') = fw_recovery_backoff_ms (ad s) /\
  fw_recovery_gen (ad s') = fw_recovery_gen (ad s) /\
  fw_reconstruct_gen (ad s') = fw_reconstruct_gen (ad s) /\
  worker s' = worker s /\ resets s' = resets s /\
  state (ad s') = (if keep then ESP_CONTEXT_READY else ESP_CONTEXT_RX_READY) /\
  (timer s' = None <-> keep = true).
Proof.
  unfold esp_commit_reconstruction. cbn -[Z.eqb].
  destruct (fw_recovery_gen (ad s) =? fw_reconstruct_gen (ad s)); cbn; split_and!; naive_solver.
Qed.

Lemma Inv_commit n s : worker s = None -> Inv n s -> Inv n (esp_commit_reconstruction m2j s).
Proof.
  intros Ew [Ha Hb Hg Hw Hr]. unfold budget_ok in Ha.
  destruct (commit_fields s) as (Ea & Ed & Eb & Eg & Er & Ew' & _).
  constructor; unfold budget_ok; rewrite ?Ea, ?Ed, ?Eb, ?Eg, ?Er, ?Ew', ?Ew; try done.
  rewrite commit_flags. cbn. by rewrite andb_false_r.
Qed.

Lemma Inv_finish n s : Inv n s -> Inv n (esp_finish_reconstruction ops s).
Proof.
  intros HI. unfold esp_finish_reconstruction. case_match; [|done].
  set (s1 := on_ad _ s).
  assert (Inv n s1) as HI1.
  { apply (Inv_budget n s); subst s1; cbn; auto; [by split; [unfold ESP_FW_BOOT_MAX_ATTEMPTS; cbn; lia|]|by destruct HI|..].
    all: etrans; [apply (flag_eq _ _ (clear_flag ESP_FW_RECOVERY_EXHAUSTED (ad s))); done|].
    all: by rewrite flag_clear_flag, andb_true_r. }
  eapply Inv_core; [|exact HI1]. apply call_void_core. intros. by apply commit_core.
Qed.

Lemma Inv_step n s e s' :
  n + RECOVER_REQUESTS < 2 ^ 32 -> step s e s' -> Inv n s -> Inv (n + RECOVER_REQUESTS) s'.
Proof.
  intros Hn Hstep HI. assert (Hm : forall k s, k <= 4 -> Inv (n + k) s -> Inv (n + RECOVER_REQUESTS) s).
  { intros. eapply Inv_mono; [done|unfold RECOVER_REQUESTS; lia]. }
  assert (H0 : forall s, Inv n s -> Inv (n + RECOVER_REQUESTS) s).
  { intros. apply (Hm 0); [lia|by rewrite Z.add_0_r]. }
  unfold RECOVER_REQUESTS in Hn.
  destruct Hstep as [s d rt fr|s p|s|s|s e Et Ew|s gen ret Ew|s|s|s Ew|s|s a t j He].
  - apply (Hm 1); [lia|]. apply Inv_schedule; [lia|done].
  - by apply H0, Inv_binding.
  - apply (Hm 1); [lia|]. apply Inv_restart; [lia|done].
  - apply (Hm 2); [lia|]. apply Inv_retry; [lia|done].
  - apply Inv_work_begin; [done|done|]. by apply Inv_timer.
  - by apply H0, Inv_work_end.
  - apply H0. destruct HI as [Ha Hb Hg Hw Hr]. constructor; cbn; try done; try lia.
    intros g r E. destruct (Hw g r E). split; [done|lia].
  - by apply H0, Inv_clear_allow.
  - by apply H0, Inv_commit.
  - by apply H0, Inv_finish.
  - apply H0. destruct He. apply (Inv_budget n s); cbn; auto.
    + destruct HI as [[]]. unfold budget_ok. cbn. by rewrite env_attempts0, env_deadline0.
    + rewrite env_backoff0. by destruct HI.
Qed.

(** Requests filed in [es] at most. *)
Definition requests (es : list event) : Z := RECOVER_REQUESTS * zlen es.

Lemma requests_cons e es : requests (e :: es) = RECOVER_REQUESTS + requests es.
Proof. unfold requests. rewrite zlen_cons. lia. Qed.

Lemma requests_nonneg es : 0 <= requests es.
Proof. unfold requests, RECOVER_REQUESTS. zlen_nonneg_all. lia. Qed.

Lemma Inv_run n s es s' :
  n + requests es < 2 ^ 32 -> run s es s' -> Inv n s -> Inv (n + requests es) s'.
Proof.
  intros Hn Hrun. revert n Hn. induction Hrun as [s|s e s1 es s2 Hs Hr IH]; intros n Hn HI.
  { by replace (n + requests []) with n by (unfold requests; change (zlen []) with 0; lia). }
  rewrite requests_cons in *. pose proof (requests_nonneg es). rewrite Z.add_assoc. apply IH; [lia|].
  eapply Inv_step; [|done|done]. lia.
Qed.

(** ** The reset budget *)

Definition refills (e : event) : bool :=
  match e with Ev_binding _ | Ev_finish => true | _ => false end.

Lemma spends_work_begin s :
  0 <= fw_boot_reset_attempts (ad s) -> spends s (fw_recovery_work_begin ops m2j s).
Proof.
  intros Ha. destruct (work_begin_cases s) as [->|[[d ->]|[(d & -> & Hd)|(f & Hf & Hal & ->)]]].
  - done.
  - by apply spends_eq.
  - set (s0 := on_ad _ s). trans s0; [by apply spends_eq|]. by apply (moved_retry m2j s0).
  - exact (mv_spends _ _ _ (recover_transport_moved f s Hf) Ha).
Qed.

Lemma spends_work_end gen ret s : spends s (fw_recovery_work_end ops m2j gen ret s).
Proof.
  unfold fw_recovery_work_end. split_ifs; try (by apply spends_eq).
  - set (s1 := on_ad (clear_flag ESP_FW_RECOVERY_PENDING) _).
    trans s1.
    + apply spends_eq; [done|done|].
      rewrite (flag_eq _ _ (clear_flag ESP_FW_RECOVERY_PENDING (ad s))), flag_clear_flag by done.
      by rewrite andb_true_r.
    + assert (Hc : same_core s1 (call_void (resume_after_live_recovery ops) s1)).
      { apply call_void_core. intros. by apply resume_core. }
      destruct Hc as [[Ea _ _ _ _ _ Hf] _ _ Er]. by apply spends_eq; auto.
Qed.

Lemma spends_step s e s' :
  0 <= fw_boot_reset_attempts (ad s) -> refills e = false -> step s e s' -> spends s s'.
Proof.
  intros Ha Hr Hs. destruct Hs; try done.
  - by apply (mv_spends 1); [apply moved_asks, schedule_recovery_asks|].
  - by apply (mv_spends 1); [apply moved_restart|].
  - by apply (mv_spends 2); [apply moved_retry|].
  - etrans; [|by apply spends_work_begin]. by apply spends_eq.
  - apply spends_work_end.
  - apply spends_eq; [done|done|].
    by rewrite (flag_eq _ _ (set_flag ESP_ALLOW_RECONSTRUCT (ad s))), flag_set_flag.
  - apply spends_eq; [done|done|]. cbn. by rewrite flag_clear_flag, andb_true_r.
  - destruct (commit_fields s) as (Ea & _ & _ & _ & _ & _ & Er & _).
    apply spends_eq; [done|done|]. rewrite commit_flags. cbn. by rewrite orb_true_r, !andb_true_r.
  - match goal with H : env_frame _ _ |- _ => destruct H end. by apply spends_eq; cbn; auto.
Qed.

Lemma spends_run s es s' :
  0 <= fw_boot_reset_attempts (ad s) -> Forall (fun e => refills e = false) es ->
  run s es s' -> spends s s'.
Proof.
  intros Ha Hes Hrun. induction Hrun as [s|s e s1 es s2 Hs _ IH]; [done|].
  apply Forall_cons_1 in Hes as [He Hes]. pose proof (spends_step _ _ _ Ha He Hs) as H1.
  etrans; [exact H1|]. apply IH; [|done]. destruct H1. lia.
Qed.
End System.

(** ** Requests and the generation counter *)
Section Generations.
Context {T : Type} (ops : esp_if_ops T) {Hops : IfOpsLaws ops} (m2j : Z -> Z).
Implicit Types s : sys T.

Notation step := (step ops m2j).
Notation run := (run ops m2j).

(** Events that neither open nor close a reconstruction bracket. *)
Definition inside_bracket (e : event) : bool :=
  match e with Ev_binding _ | Ev_begin | Ev_clear | Ev_commit => false | _ => true end.

(** How a handler moves generation and bracket. *)
Record gen_step (s s' : sys T) : Prop := mk_gen_step {
  gs_gen : 0 <= fw_recovery_gen (ad s) -> fw_recovery_gen (ad s) + RECOVER_REQUESTS < 2 ^ 32 ->
    fw_recovery_gen (ad s) <= fw_recovery_gen (ad s');
  gs_rgen : fw_reconstruct_gen (ad s') = fw_reconstruct_gen (ad s);
  gs_allow : flag ESP_ALLOW_RECONSTRUCT (ad s') = flag ESP_ALLOW_RECONSTRUCT (ad s)
}.

Lemma gen_step_moved k s s' : k <= RECOVER_REQUESTS -> moved k s s' -> gen_step s s'.
Proof.
  intros Hk []. constructor; [|done|by apply mv_flags0].
  unfold RECOVER_REQUESTS in *. intros ? ?. apply mv_gen0; lia.
Qed.

Lemma gen_step_eq s s' :
  fw_recovery_gen (ad s') = fw_recovery_gen (ad s) ->
  fw_reconstruct_gen (ad s') = fw_reconstruct_gen (ad s) ->
  flag ESP_ALLOW_RECONSTRUCT (ad s') = flag ESP_ALLOW_RECONSTRUCT (ad s) -> gen_step s s'.
Proof. constructor; auto; lia. Qed.

Lemma gen_step_core s s0 s' :
  fw_recovery_gen (ad s0) = fw_recovery_gen (ad s) ->
  fw_reconstruct_gen (ad s0) = fw_reconstruct_gen (ad s) ->
  flag ESP_ALLOW_RECONSTRUCT (ad s0) = flag ESP_ALLOW_RECONSTRUCT (ad s) ->
  same_core s0 s' -> gen_step s s'.
Proof. intros ? ? ? [[] _ _ _]. apply gen_step_eq; try congruence. by rewrite frame_flags. Qed.

Lemma gen_step_work_begin s :
  0 <= fw_boot_reset_attempts (ad s) -> gen_step s (fw_recovery_work_begin ops m2j s).
Proof.
  intros Ha. destruct (work_begin_cases ops m2j s) as [->|[[d ->]|[(d & -> & Hd)|(f & Hf & Hal & ->)]]].
  1-2: by apply gen_step_eq.
  - set (s0 := on_ad _ s). by destruct (gen_step_moved 2 s0 _ ltac:(done) (moved_retry m2j s0)).
  - by destruct (gen_step_moved _ s _ ltac:(done) (recover_transport_moved f s Hf)).
Qed.

Lemma gen_step_work_end gen ret s : gen_step s (fw_recovery_work_end ops m2j gen ret s).
Proof.
  unfold fw_recovery_work_end. split_ifs; try (by apply gen_step_eq).
  eapply gen_step_core; [..|apply call_void_core; intros; by apply resume_core]; [done|done|].
  rewrite (flag_eq _ _ (clear_flag ESP_FW_RECOVERY_PENDING (ad s))), flag_clear_flag by done.
  by rewrite andb_true_r.
Qed.

Lemma gen_step_step s e s' :
  0 <= fw_boot_reset_attempts (ad s) -> inside_bracket e = true -> step s e s' -> gen_step s s'.
Proof.
  intros Ha He Hs.
  destruct Hs as [s d rt fr|s p|s|s|s e Et Ew|s gen ret Ew|s|s|s Ew|s|s a t j Hfr]; try done.
  - by apply (gen_step_moved 1), moved_asks, schedule_recovery_asks.
  - by apply (gen_step_moved 1), moved_restart.
  - by apply (gen_step_moved 2), moved_retry.
  - set (s0 := s <| timer := None |>). destruct (gen_step_work_begin s0 Ha) as [Hg Hr Hf]. by constructor.
  - apply gen_step_work_end.
  - unfold esp_finish_reconstruction. case_match; [|by apply gen_step_eq].
    eapply gen_step_core; [..|apply call_void_core; intros; by apply commit_core]; [done|done|].
    rewrite (flag_eq _ _ (clear_flag ESP_FW_RECOVERY_EXHAUSTED (ad s))) by done.
    by rewrite flag_clear_flag, andb_true_r.
  - destruct Hfr. apply gen_step_eq; cbn; auto.
Qed.

(** Inside a bracket and below the wrap-around the generation only grows. *)
Lemma gen_run n s es s' :
  n + requests es < 2 ^ 32 -> Inv n s -> Forall (fun e => inside_bracket e = true) es -> run s es s' ->
  fw_recovery_gen (ad s) <= fw_recovery_gen (ad s') /\
  fw_reconstruct_gen (ad s') = fw_reconstruct_gen (ad s) /\
  flag ESP_ALLOW_RECONSTRUCT (ad s') = flag ESP_ALLOW_RECONSTRUCT (ad s).
Proof.
  intros Hn HI Hes Hrun. revert n Hn HI.
  induction Hrun as [s|s e s1 es s2 Hs Hr IH]; intros n Hn HI; [done|].
  apply Forall_cons_1 in Hes as [He Hes]. rewrite requests_cons in Hn. pose proof (requests_nonneg es).
  destruct (gen_step_step _ _ _ (proj1 (Inv_attempts _ _ HI)) He Hs) as [Hg Er Ea].
  assert (HI1 : Inv (n + RECOVER_REQUESTS) s1).
  { apply (Inv_step ops m2j n s e s1); [lia|exact Hs|exact HI]. }
  destruct (IH Hes (n + RECOVER_REQUESTS) ltac:(lia) HI1) as (? & Er2 & Ea2).
  rewrite Er2, Ea2. split_and!; [|done|done].
  destruct HI as [_ _ Hg0 _ _]. pose proof (Hg ltac:(lia) ltac:(lia)). lia.
Qed.

(** A pending request survives everything but its three legitimate ends, and
    keeps the timer armed while a worker is out. *)
Definition keeps_request (e : event) : bool :=
  match e with Ev_binding _ | Ev_commit | Ev_worker => false | _ => true end.

(** [s'] still holds the request of [s]. *)
Definition request_kept (s s' : sys T) : Prop :=
  (flag ESP_FW_RECOVERY_PENDING (ad s) = true -> flag ESP_FW_RECOVERY_PENDING (ad s') = true) /\
  (timer s <> None -> timer s' <> None) /\ worker s' = worker s.

Lemma moved_request_kept k s s' : moved k s s' -> request_kept s s'.
Proof. by intros []. Qed.

Lemma request_kept_eq s s' :
  flag ESP_FW_RECOVERY_PENDING (ad s') = flag ESP_FW_RECOVERY_PENDING (ad s) ->
  timer s' = timer s -> worker s' = worker s -> request_kept s s'.
Proof. unfold request_kept. by intros -> -> ->. Qed.

Lemma pending_step s e s' :
  0 <= fw_boot_reset_attempts (ad s) -> keeps_request e = true -> step s e s' -> worker s <> None ->
  request_kept s s'.
Proof.
  intros Ha He Hs Hw.
  destruct Hs as [s d rt fr|s p|s|s|s e Et Ew|s gen ret Ew|s|s|s Ew|s|s a t j Hfr]; try done.
  - eapply moved_request_kept, moved_asks, schedule_recovery_asks.
  - by eapply moved_request_kept, moved_restart.
  - by eapply moved_request_kept, moved_retry.
  - apply request_kept_eq; [|done|done].
    rewrite (flag_eq _ _ (set_flag ESP_ALLOW_RECONSTRUCT (ad s))) by done. by rewrite flag_set_flag.
  - apply request_kept_eq; [|done|done]. cbn. by rewrite flag_clear_flag, andb_true_r.
  - unfold esp_finish_reconstruction. case_match; [|done].
    set (s1 := on_ad _ s).
    assert (Hc : same_core s1 (call_void (commit_fw_recovery ops) s1)).
    { apply call_void_core. intros. by apply commit_core. }
    destruct Hc as [[_ _ _ _ _ _ Hf] Et Ew _]. apply request_kept_eq; [|done|done].
    rewrite Hf by done.
    rewrite (flag_eq _ _ (clear_flag ESP_FW_RECOVERY_EXHAUSTED (ad s))) by done.
    by rewrite flag_clear_flag, andb_true_r.
  - destruct Hfr. apply request_kept_eq; [|done|done]. by apply env_flags0.
Qed.

Lemma pending_run n s es s' :
  n + requests es < 2 ^ 32 -> Inv n s ->
  Forall (fun e => keeps_request e = true) es -> run s es s' -> worker s <> None ->
  flag ESP_FW_RECOVERY_PENDING (ad s) = true -> timer s <> None ->
  flag ESP_FW_RECOVERY_PENDING (ad s') = true /\ timer s' <> None.
Proof.
  intros Hn HI Hes Hrun. revert n Hn HI.
  induction Hrun as [s|s e s1 es s2 Hs _ IH]; [auto|]. intros n Hn HI Hw Hp Ht.
  apply Forall_cons_1 in Hes as [He Hes]. rewrite requests_cons in Hn. pose proof (requests_nonneg es).
  destruct (pending_step _ _ _ (proj1 (Inv_attempts _ _ HI)) He Hs Hw) as (H1 & H2 & Ew).
  apply (IH Hes (n + RECOVER_REQUESTS)); [lia| |congruence|auto|auto].
  apply (Inv_step ops m2j n s e s1); [lia|done|done].
Qed.
End Generations.

(** ** Properties *)
Section Properties.
Context {T : Type} (ops : esp_if_ops T) {Hops : IfOpsLaws ops} (m2j : Z -> Z).
Implicit Types s : sys T.

(** C4: the automatic-reboot budget. From driver load on, whatever the order in
    which error storms, boot retries, watchdog expiries and the transport act,
    the attempt counter never exceeds 3; between two refills (a new binding or
    a finished reconstruction) the transport's reset entry point is called at
    most as often as attempts were left; and once recovery is exhausted it
    stays exhausted without a single further reset. *)
Theorem recovery_reset_budget s0 es1 s es s' :
  initial s0 -> run ops m2j s0 es1 s -> run ops m2j s es s' ->
  requests es1 + requests es < 2 ^ 32 -> Forall (fun e => refills e = false) es ->
  fw_boot_reset_attempts (ad s') <= ESP_FW_BOOT_MAX_ATTEMPTS /\
  0 <= resets s' - resets s <= ESP_FW_BOOT_MAX_ATTEMPTS - fw_boot_reset_attempts (ad s) /\
  (flag ESP_FW_RECOVERY_EXHAUSTED (ad s) = true ->
   flag ESP_FW_RECOVERY_EXHAUSTED (ad s') = true /\ resets s' = resets s).
Proof.
  intros Hi H1 H2 Hn Hes. pose proof (requests_nonneg es). pose proof (requests_nonneg es1).
  assert (HI1 : Inv (0 + requests es1) s).
  { apply (Inv_run ops m2j 0 s0); [lia|done|]. by apply initial_Inv. }
  assert (HI2 : Inv (0 + requests es1 + requests es) s').
  { apply (Inv_run ops m2j _ s); [lia|done|done]. }
  pose proof (Inv_attempts _ _ HI1) as [Ha _]. pose proof (Inv_attempts _ _ HI2).
  pose proof (spends_run ops m2j s es s' Ha Hes H2) as (? & ? & ?).
  pose proof (Inv_attempts _ _ HI1).
  split_and!; try done; lia.
Qed.

(** C5: no recovery request is lost to a reconstruction. If, between
    [esp_begin_reconstruction] and the commit, any interleaving of handlers
    contains an accepted request (the generation moved), the commit does not
    publish READY: it leaves the adapter clamped at RX_READY with recovery
    still pending and the worker re-armed, and the reset budget is not
    refilled. *)
Theorem commit_keeps_late_request s0 es1 s es s' :
  initial s0 -> run ops m2j s0 es1 s -> requests es1 + requests es + RECOVER_REQUESTS < 2 ^ 32 ->
  run ops m2j (esp_begin_reconstruction s) es s' ->
  Forall (fun e => inside_bracket e = true) es -> worker s' = None ->
  fw_recovery_gen (ad s') <> fw_recovery_gen (ad s) ->
  let s'' := esp_commit_reconstruction m2j s' in
  flag ESP_FW_RECOVERY_PENDING (ad s'') = true /\ state (ad s'') = ESP_CONTEXT_RX_READY /\
  timer s'' <> None /\ esp_finish_reconstruction ops s'' = s''.
Proof.
  intros Hi H1 Hn H2 Hes Hw Hg. pose proof (requests_nonneg es). pose proof (requests_nonneg es1).
  set (n := 0 + requests es1 + RECOVER_REQUESTS).
  assert (HI1 : Inv (0 + requests es1) s).
  { apply (Inv_run ops m2j 0 s0); [unfold RECOVER_REQUESTS in Hn; lia|done|]. by apply initial_Inv. }
  assert (HI2 : Inv n (esp_begin_reconstruction s)).
  { apply (Inv_step ops m2j _ s Ev_begin); [lia|constructor|done]. }
  destruct (gen_run ops m2j n _ es s' ltac:(lia) HI2 Hes H2) as (Hge & Er & Ea).
  assert (HI3 : Inv (n + requests es) s').
  { apply (Inv_run ops m2j _ (esp_begin_reconstruction s)); [lia|done|done]. }
  change (fw_reconstruct_gen (ad (esp_begin_reconstruction s))) with (fw_recovery_gen (ad s)) in Er.
  assert (Hal : flag ESP_ALLOW_RECONSTRUCT (ad s') = true).
  { rewrite Ea. rewrite (flag_eq _ _ (set_flag ESP_ALLOW_RECONSTRUCT (ad s))) by done.
    by rewrite flag_set_flag. }
  pose proof (inv_recon _ _ HI3 Hal ltac:(congruence)) as Hp.
  assert (Hneq : (fw_recovery_gen (ad s') =? fw_reconstruct_gen (ad s')) = false).
  { apply Z.eqb_neq. congruence. }
  destruct (commit_fields m2j s') as (_ & _ & _ & _ & _ & _ & _ & Hst & Ht).
  assert (Hp' : flag ESP_FW_RECOVERY_PENDING (ad (esp_commit_reconstruction m2j s')) = true).
  { rewrite commit_flags, Hp, Hneq. done. }
  rewrite Hneq in Hst. cbn zeta. split_and!; [done|done|by rewrite Ht, Hneq|].
  unfold esp_finish_reconstruction, reconstruction_success. rewrite Hp'.
  by rewrite andb_false_r.
Qed.

(** No recovery request is lost to a running worker. While the worker is
    inside the transport's [recover_transport] a new request may arrive at any
    point; even if the transport then reports the old session restored, the
    request stays pending and the worker is armed again. *)
Theorem worker_keeps_late_request s0 es1 s d rt fr es s' gen ret :
  initial s0 -> run ops m2j s0 es1 s -> requests es1 + requests es + 1 < 2 ^ 32 ->
  worker s = Some (gen, ret) -> unloading_or_removing (ad s) = false ->
  run ops m2j (esp_schedule_recovery ops m2j d rt fr s) es s' ->
  Forall (fun e => keeps_request e = true /\ inside_bracket e = true) es ->
  let s'' := fw_recovery_work_end ops m2j gen ret s' in
  flag ESP_FW_RECOVERY_PENDING (ad s'') = true /\ timer s'' <> None.
Proof.
  intros Hi H1 Hn Hw Hu H2 Hes. pose proof (requests_nonneg es). pose proof (requests_nonneg es1).
  assert (HI1 : Inv (0 + requests es1) s).
  { apply (Inv_run ops m2j 0 s0); [lia|done|]. by apply initial_Inv. }
  assert (HI2 := Inv_schedule ops m2j (0 + requests es1) d rt fr s ltac:(lia) HI1).
  destruct (schedule_recovery_spec m2j d rt fr s Hu) as [_ _ _ Eg _ Hf Ht Ew _].
  apply Forall_and in Hes as [Hes1 Hes2].
  destruct (gen_run ops m2j (0 + requests es1 + 1) _ es s' ltac:(lia) HI2 Hes2 H2) as (Hge & _ & _).
  destruct (pending_run ops m2j (0 + requests es1 + 1) _ es s' ltac:(lia) HI2 Hes1 H2) as (Hp & Ht');
    [by rewrite Ew, Hw|by rewrite Hf|done|].
  assert (Hgen : fw_recovery_gen (ad s') <> gen).
  { destruct (inv_worker _ _ HI1 _ _ Hw) as (? & _). pose proof (inv_gen _ _ HI1).
    rewrite wrap_id in Eg by (unfold in_width; lia). lia. }
  cbn zeta. unfold fw_recovery_work_end. split_ifs; try done; bool_hyps.
  by destruct Hgen.
Qed.

(** The watchdog of an armed reset attempt. When the worker runs after the
    boot deadline has passed (and the driver is neither unloading nor already
    exhausted) it never merely waits: with budget left it starts exactly one
    new attempt with a fresh deadline, otherwise it declares recovery
    exhausted; either way the request is pending again and the timer is
    armed. *)
Theorem boot_deadline_bounded_retry n s :
  Inv n s -> n + 1 < 2 ^ 32 ->
  unloading_or_removing (ad s) = false -> flag ESP_FW_RECOVERY_EXHAUSTED (ad s) = false ->
  flag ESP_FW_RECOVERY_PENDING (ad s) = true ->
  fw_boot_deadline (ad s) <> 0 -> time_after_eq (jiffies s) (fw_boot_deadline (ad s)) = true ->
  let s' := fw_recovery_work_begin ops m2j s in
  flag ESP_FW_RECOVERY_PENDING (ad s') = true /\ timer s' <> None /\ worker s' = worker s /\
  (fw_boot_reset_attempts (ad s) < ESP_FW_BOOT_MAX_ATTEMPTS ->
     fw_boot_reset_attempts (ad s') = fw_boot_reset_attempts (ad s) + 1 /\
     (exists j, fw_boot_deadline (ad s') = u64 (j + m2j ESP_FW_BOOT_ACK_TIMEOUT_MS))) /\
  (fw_boot_reset_attempts (ad s) = ESP_FW_BOOT_MAX_ATTEMPTS ->
     flag ESP_FW_RECOVERY_EXHAUSTED (ad s') = true /\ fw_boot_deadline (ad s') = 0 /\
     resets s' = resets s).
Proof.
  intros HI Hn Hu Hx Hp Hd Ht. cbn zeta. unfold fw_recovery_work_begin. cbn zeta.
  rewrite Hu, Hx, Hp. cbn [orb negb andb]. rewrite andb_false_r. cbn [negb andb].
  rewrite (proj2 (Z.eqb_neq _ _) Hd), Ht. cbn [negb andb].
  unfold esp_bootup_request_retry.
  change (unloading_or_removing (ad (on_ad _ s))) with (unloading_or_removing (ad s)).
  rewrite Hu.
  set (s1 := on_ad (clear_flag ESP_CLEANUP_IN_PROGRESS) _).
  assert (Hu1 : unloading_or_removing (ad s1) = false).
  { unfold unloading_or_removing in *. subst s1. cbn. by rewrite !flag_clear_flag, !andb_true_r. }
  destruct (schedule_recovery_spec m2j ESP_FW_RECOVERY_WATCHDOG_MS true true s1 Hu1)
    as [Ea Ed _ _ _ Hf Htm Ew Er].
  change (fw_boot_deadline (ad s1)) with 0 in Ed.
  change (fw_boot_reset_attempts (ad s1)) with (fw_boot_reset_attempts (ad s)) in Ea.
  set (s2 := esp_schedule_recovery _ _ _ _ _ s1) in *. clearbody s2.
  pose proof (Inv_attempts _ _ HI) as Ha. unfold ESP_FW_BOOT_MAX_ATTEMPTS in *.
  assert (Hx2 : flag ESP_FW_RECOVERY_EXHAUSTED (ad s2) = false).
  { rewrite Hf by done. subst s1. cbn. rewrite flag_clear_flag. by rewrite andb_true_r. }
  assert (Ha2 : 0 <= fw_boot_reset_attempts (ad s2)) by lia.
  destruct (moved_restart m2j s2) as [_ _ _ _ _ _ _ Hp' _ Ht' Ew'].
  split_and!; [apply Hp'; by rewrite Hf|by apply Ht'|by rewrite Ew', Ew|..]; intros Hat;
    destruct (restart_cases m2j s2) as [[Hne _]|[(_ & Hor & ->)|(_ & _ & Hm & Hk & _)]];
    try (by destruct Hne); try (exfalso; unfold ESP_FW_BOOT_MAX_ATTEMPTS in *; lia);
    try (exfalso; destruct Hor; [congruence|unfold ESP_FW_BOOT_MAX_ATTEMPTS in *; lia]).
  - pose proof (ask_attempts _ _ _ Hk) as E1. pose proof (ask_deadline _ _ _ Hk) as E2.
    rewrite attempt_counts in E1 by (unfold ESP_FW_BOOT_MAX_ATTEMPTS; lia). cbn in E1, E2.
    rewrite E1, E2. split; [lia|by eexists].
  - split_and!; [by rewrite exhaust_flags|done|exact Er].
Qed.
End Properties.

(** Consecutive failed runs of the worker. *)
Fixpoint fail_again {T} (ops : esp_if_ops T) (m2j : Z -> Z) (rets : list Z) (s : sys T) : sys T :=
  match rets with
  | [] => s
  | r :: rets' =>
      fail_again ops m2j rets' (fw_recovery_work_end ops m2j (fw_recovery_gen (ad s)) r s)
  end.

(** The delay in ms of the [k]-th consecutive retry. *)
Definition backoff_ms (k : Z) : Z :=
  Z.min ESP_FW_RECOVERY_BACKOFF_MAX_MS (ESP_FW_RECOVERY_QUIET_MS * 2 ^ k).

Lemma backoff_ms_step k :
  0 <= k -> recovery_backoff (backoff_ms k) = (backoff_ms k, backoff_ms (k + 1)).
Proof.
  intros Hk. assert (1 <= 2 ^ k) by (apply (Z.pow_le_mono_r 2 0 k); lia).
  destruct (recovery_backoff_ok (backoff_ms k)) as (_ & E1 & E2).
  { right. unfold backoff_ms, ESP_FW_RECOVERY_BACKOFF_MAX_MS, ESP_FW_RECOVERY_QUIET_MS. lia. }
  destruct (recovery_backoff (backoff_ms k)) as [d b]. cbn in E1, E2. subst b.
  rewrite (proj2 (Z.eqb_neq _ _)) in E1; subst d.
  - f_equal. unfold backoff_ms, ESP_FW_RECOVERY_BACKOFF_MAX_MS, ESP_FW_RECOVERY_QUIET_MS.
    rewrite Z.pow_add_r by lia. change (2 ^ 1) with 2. lia.
  - unfold backoff_ms, ESP_FW_RECOVERY_BACKOFF_MAX_MS, ESP_FW_RECOVERY_QUIET_MS. lia.
Qed.

Lemma fail_once {T} (ops : esp_if_ops T) m2j gen r (s : sys T) k :
  r < 0 -> 0 <= k ->
  fw_recovery_backoff_ms (ad s) = backoff_ms k \/ (k = 0 /\ fw_recovery_backoff_ms (ad s) = 0) ->
  let s' := fw_recovery_work_end ops m2j gen r s in
  fw_recovery_backoff_ms (ad s') = backoff_ms (k + 1) /\
  timer s' = Some (u64 (jiffies s + m2j (backoff_ms k))) /\ jiffies s' = jiffies s.
Proof.
  intros Hr Hk Hb. cbn zeta. unfold fw_recovery_work_end.
  rewrite (proj2 (Z.ltb_lt _ _)) by done. cbn [ad update].
  assert (E : recovery_backoff (fw_recovery_backoff_ms (ad s)) = (backoff_ms k, backoff_ms (k + 1))).
  { destruct Hb as [->|[-> ->]]; [by apply backoff_ms_step|done]. }
  by rewrite E.
Qed.

(** exponential back-off. After a success (or load) the k-th consecutive
    failure of the transport's recovery re-arms the worker after
    min(5000, 500 * 2^(k-1)) ms, for every k; the delay never exceeds 5 s and
    the counter never overflows. *)
Theorem recovery_backoff_ladder {T} (ops : esp_if_ops T) m2j s rets r :
  Forall (fun r => r < 0) (rets ++ [r]) ->
  fw_recovery_backoff_ms (ad s) = 0 \/ fw_recovery_backoff_ms (ad s) = ESP_FW_RECOVERY_QUIET_MS ->
  timer (fail_again ops m2j (rets ++ [r]) s) =
    Some (u64 (jiffies s + m2j (Z.min 5000 (500 * 2 ^ zlen rets)))).
Proof.
  intros Hr Hb.
  assert (H : forall k s, 0 <= k ->
    fw_recovery_backoff_ms (ad s) = backoff_ms k \/ (k = 0 /\ fw_recovery_backoff_ms (ad s) = 0) ->
    timer (fail_again ops m2j (rets ++ [r]) s) =
      Some (u64 (jiffies s + m2j (backoff_ms (k + zlen rets))))).
  { clear Hb s. induction rets as [|r0 rets IH]; intros k s Hk Hb; cbn;
      apply Forall_cons_1 in Hr as [Hr0 Hr].
    - rewrite zlen_nil, Z.add_0_r.
      destruct (fail_once ops m2j (fw_recovery_gen (ad s)) r s k Hr0 Hk Hb) as (_ & Et & _).
      exact Et.
    - destruct (fail_once ops m2j (fw_recovery_gen (ad s)) r0 s k) as (E & _ & Ej); [done|done|done|].
      rewrite (IH Hr (k + 1)) by (lia || by left). rewrite Ej, zlen_cons. do 5 f_equal. lia. }
  rewrite (H 0); [done|lia|]. destruct Hb as [Hb|Hb]; [by right|left; by rewrite Hb].
Qed.

(** ** Concrete runs *)

(** A transport that accepts every reset and reports the session restored with
    result [r]. *)
Definition demo_ops (r : Z) : esp_if_ops unit :=
  mk_if_ops (Some (fun s => (0, s))) (Some (fun s => (r, s))) None None None (fun _ s => (0, s)).

#[export] Instance demo_ops_laws r : IfOpsLaws (demo_ops r).
Proof.
  split; [split|..]; cbn; try (intros; simplify_eq; done).
  - intros f s [= <-]. by apply (asks_mono 0), asks_core.
  - intros f s [= <-]. apply (moved_mono 0); [done|apply moved_refl].
Qed.

Definition demo_m2j (ms : Z) : Z := ms.   (* HZ = 1000 *)

Definition demo_sys : sys unit :=
  mk_sys (zero_adapter <| if_transport := ESP_IF_TYPE_SDIO |>) tt 1000 None None 0.

Lemma demo_initial : initial demo_sys.
Proof. unfold initial. split_and!; try done. intros f _. by destruct f. Qed.

Notation demo_run r := (run (demo_ops r) demo_m2j).

(** Three resets, each expired by the watchdog, then exhaustion. *)
Definition demo_expire (s : sys unit) : sys unit := s <| jiffies := jiffies s + 10000 |>.

(** An interpreter for the step relation, with the environment letting 10 s
    pass. *)
Definition exec_step (r : Z) (s : sys unit) (e : event) : option (sys unit) :=
  let ops := demo_ops r in
  match e with
  | Ev_schedule d rt fr => Some (esp_schedule_recovery ops demo_m2j d rt fr s)
  | Ev_binding p => Some (esp_reset_boot_recovery_for_binding p s)
  | Ev_restart => Some (esp_request_firmware_restart ops demo_m2j s)
  | Ev_retry => Some (esp_bootup_request_retry ops demo_m2j s)
  | Ev_timer =>
      match timer s, worker s with
      | Some _, None => Some (fw_recovery_work_begin ops demo_m2j (s <| timer := None |>))
      | _, _ => None
      end
  | Ev_worker =>
      match worker s with
      | Some (gen, ret) => Some (fw_recovery_work_end ops demo_m2j gen ret s)
      | None => None
      end
  | Ev_begin => Some (esp_begin_reconstruction s)
  | Ev_clear => Some (esp_clear_reconstruct_flag s)
  | Ev_commit =>
      match worker s with None => Some (esp_commit_reconstruction demo_m2j s) | _ => None end
  | Ev_finish => Some (esp_finish_reconstruction ops s)
  | Ev_env => Some (demo_expire s)
  end.

Fixpoint exec (r : Z) (s : sys unit) (es : list event) : option (sys unit) :=
  match es with
  | [] => Some s
  | e :: es' => match exec_step r s e with Some s' => exec r s' es' | None => None end
  end.

Lemma exec_run r s es s' : exec r s es = Some s' -> demo_run r s es s'.
Proof.
  revert s. induction es as [|e es IH]; cbn [exec]; intros s H; [simplify_eq; constructor|].
  destruct (exec_step r s e) as [s1|] eqn:E; [|done]. apply (run_cons _ _ _ _ s1); [|by apply IH].
  destruct s as [a t j [x|] [[g r0]|] n], e; cbn in E; simplify_eq; try done;
    try (by constructor); try (by apply (step_timer _ _ (mk_sys a t j (Some x) None n) x)).
  all: by apply (step_env _ _ (mk_sys a t j _ _ n) a t (j + 10000)).
Qed.

Definition demo_exhausted_events : list event :=
  [Ev_retry; Ev_env; Ev_timer; Ev_env; Ev_timer; Ev_env; Ev_timer].
Definition demo_exhausted : sys unit :=
  Eval vm_compute in default demo_sys (exec 1 demo_sys demo_exhausted_events).

Lemma demo_exhausting_run : demo_run 1 demo_sys demo_exhausted_events demo_exhausted.
Proof. apply exec_run. vm_compute. reflexivity. Qed.

Lemma recovery_reset_budget_witness :
  resets demo_exhausted = 3 /\ flag ESP_FW_RECOVERY_EXHAUSTED (ad demo_exhausted) = true /\
  fw_boot_reset_attempts (ad demo_exhausted) <= ESP_FW_BOOT_MAX_ATTEMPTS.
Proof.
  destruct (recovery_reset_budget (demo_ops 1) demo_m2j demo_sys [] demo_sys _ demo_exhausted
    demo_initial (run_nil _ _ _) demo_exhausting_run) as (H & _ & _).
  - vm_compute. reflexivity.
  - repeat constructor.
  - split; [reflexivity|]. split; [reflexivity|exact H].
Defined.

Definition demo_late : sys unit :=
  Eval vm_compute in
    default demo_sys (exec 1 (esp_begin_reconstruction demo_sys) [Ev_schedule 0 false true]).

Lemma commit_keeps_late_request_witness :
  let s := esp_commit_reconstruction demo_m2j demo_late in
  flag ESP_FW_RECOVERY_PENDING (ad s) = true /\ state (ad s) = ESP_CONTEXT_RX_READY.
Proof.
  destruct (commit_keeps_late_request (demo_ops 1) demo_m2j demo_sys [] demo_sys
    [Ev_schedule 0 false true] demo_late demo_initial (run_nil _ _ _)) as (H1 & H2 & _).
  - vm_compute. reflexivity.
  - apply exec_run. vm_compute. reflexivity.
  - repeat constructor.
  - reflexivity.
  - vm_compute. congruence.
  - exact (conj H1 H2).
Defined.

(** A worker that is inside [recover_transport] of a live session. *)
Definition demo_live : sys unit :=
  demo_sys <| ad := set_flag ESP_INIT_DONE (ad demo_sys) |>.
Definition demo_busy_events : list event :=
  [Ev_schedule ESP_FW_RECOVERY_QUIET_MS false false; Ev_timer].
Definition demo_busy : sys unit :=
  Eval vm_compute in default demo_sys (exec 1 demo_live demo_busy_events).

Lemma demo_live_initial : initial demo_live.
Proof. unfold initial. split_and!; try done. intros f Hf. by destruct f. Qed.

Lemma worker_keeps_late_request_witness :
  let s := fw_recovery_work_end (demo_ops 1) demo_m2j 1 1
             (esp_schedule_recovery (demo_ops 1) demo_m2j 0 false false demo_busy) in
  flag ESP_FW_RECOVERY_PENDING (ad s) = true /\ timer s <> None.
Proof.
  apply (worker_keeps_late_request (demo_ops 1) demo_m2j demo_live
    demo_busy_events demo_busy 0 false false []
    (esp_schedule_recovery (demo_ops 1) demo_m2j 0 false false demo_busy) 1 1).
  - apply demo_live_initial.
  - apply exec_run. vm_compute. reflexivity.
  - vm_compute. reflexivity.
  - reflexivity.
  - reflexivity.
  - apply run_nil.
  - constructor.
Defined.

Definition demo_waiting : sys unit :=
  Eval vm_compute in default demo_sys (exec 1 demo_sys [Ev_retry; Ev_env]).

Lemma demo_waiting_Inv : Inv 8 demo_waiting.
Proof.
  apply (Inv_run (demo_ops 1) demo_m2j 0 demo_sys [Ev_retry; Ev_env]); [done| |].
  - apply exec_run. vm_compute. reflexivity.
  - apply initial_Inv, demo_initial.
Qed.

Lemma boot_deadline_bounded_retry_witness :
  fw_boot_reset_attempts (ad (fw_recovery_work_begin (demo_ops 1) demo_m2j demo_waiting)) = 2.
Proof.
  assert (Hd : fw_boot_deadline (ad demo_waiting) <> 0) by (vm_compute; congruence).
  exact (proj1 (proj1 (proj2 (proj2 (proj2 (boot_deadline_bounded_retry (demo_ops 1) demo_m2j 8
    demo_waiting demo_waiting_Inv eq_refl eq_refl eq_refl eq_refl Hd eq_refl)))) eq_refl)).
Defined.

Lemma recovery_backoff_ladder_witness :
  timer (fail_again (demo_ops (-5)) demo_m2j [-5; -5; -5; -5] demo_sys) = Some 5000.
Proof.
  exact (recovery_backoff_ladder (demo_ops (-5)) demo_m2j demo_sys [-5; -5; -5] (-5)
    ltac:(repeat constructor; lia) (or_introl eq_refl)).
Defined.

(** ** Two corner cases the model exhibits *)

(** a live resync is not watched. When the worker runs for a live session
    (initialised, recovery pending, no reset expected) and the transport answers
    0 - OPEN issued, waiting for a boot event - it ends with recovery still
    pending and no timer armed, so a lost boot event is never retried. *)
Theorem live_resync_unwatched {T} (ops : esp_if_ops T) {L : IfOpsLaws ops} m2j (s : sys T) f :
  recover_transport ops = Some f -> (f s).1 = 0 -> timer (f s).2 = None ->
  flag ESP_FW_RESET_EXPECTED (ad (f s).2) = false ->
  unloading_or_removing (ad s) = false -> fw_boot_deadline (ad s) = 0 ->
  (forall g, g = ESP_INIT_DONE \/ g = ESP_FW_RECOVERY_PENDING -> flag g (ad s) = true) ->
  (forall g, g = ESP_FW_RECOVERY_EXHAUSTED \/ g = ESP_CLEANUP_IN_PROGRESS \/
             g = ESP_ALLOW_RECONSTRUCT \/ g = ESP_FW_RESET_EXPECTED -> flag g (ad s) = false) ->
  let s' := esp_fw_recovery_work ops m2j s in
  flag ESP_FW_RECOVERY_PENDING (ad s') = true /\ timer s' = None /\ worker s' = None.
Proof.
  intros Hf Hret Ht Hexp Hu Hd Hset Hclr s'.
  pose proof (recover_transport_moved f s Hf) as [_ _ _ _ _ _ _ Hpend Hfl _ _].
  assert (Hb : fw_recovery_work_begin ops m2j s =
    (f s).2 <| worker := Some (fw_recovery_gen (ad s), 0) |>).
  { unfold fw_recovery_work_begin. rewrite Hu, Hd, (Hset ESP_INIT_DONE),
      (Hset ESP_FW_RECOVERY_PENDING), (Hclr ESP_FW_RECOVERY_EXHAUSTED), (Hclr ESP_CLEANUP_IN_PROGRESS),
      (Hclr ESP_ALLOW_RECONSTRUCT), (Hclr ESP_FW_RESET_EXPECTED), Hf by auto. cbn.
    revert Hret. by destruct (f s) as [r s1]; cbn; intros ->. }
  subst s'. unfold esp_fw_recovery_work. rewrite Hb. clear Hb Hret.
  set (s1 := (f s).2) in *. clearbody s1. cbn -[flag fw_recovery_work_end].
  unfold fw_recovery_work_end. cbn -[flag].
  match goal with |- context [flag ESP_FW_RESET_EXPECTED ?a] => set (a1 := a) end.
  assert (Ha : forall g, flag g a1 = flag g (ad s1)) by (intros; by apply flag_eq).
  rewrite !Ha, Hexp, (Hfl ESP_INIT_DONE), (Hset ESP_INIT_DONE) by auto. cbn -[flag].
  rewrite andb_false_r. cbn -[flag]. fold a1.
  rewrite Ha, Hpend by auto. done.
Qed.

Definition demo_resync : sys unit :=
  demo_live <| ad := set_flag ESP_FW_RECOVERY_PENDING (ad demo_live) |>.

Lemma live_resync_unwatched_witness :
  timer (esp_fw_recovery_work (demo_ops 0) demo_m2j demo_resync) = None.
Proof.
  destruct (live_resync_unwatched (demo_ops 0) demo_m2j demo_resync (fun s => (0, s)))
    as (_ & H & _).
  1-6: reflexivity.
  - intros g [-> | ->]; reflexivity.
  - intros g [-> | [-> | [-> | ->]]]; reflexivity.
  - exact H.
Defined.

(** A deadline that falls exactly on jiffies 0 reads as "not armed", so a
    duplicate request is not coalesced into the running attempt. *)
Lemma deadline_wraps_to_unarmed :
  let s := demo_sys <| jiffies := 2 ^ 64 - 9000 |> in
  let s1 := esp_request_firmware_restart (demo_ops 1) demo_m2j s in
  let s2 := esp_request_firmware_restart (demo_ops 1) demo_m2j s1 in
  fw_boot_deadline (ad s1) = 0 /\ resets s1 = 1 /\ resets s2 = 2.
Proof. by vm_compute. Qed.
