(* ===== verification/BootEvent.v ===== *)
(** * BootEvent: the firmware boot-up TLV event

    The host parser [process_event_esp_bootup] of [host/main.c] - its TLV loop,
    its acceptance checks and the reconstruction that follows - with the
    classifiers that look at the same bytes earlier
    ([esp_bootup_event_structurally_valid], [esp_bootup_event_legacy_rcp_active],
    [esp_internal_checksum_required]), and the firmware's builders
    ([send_bootup_event_to_host] of the USB and SDIO backends). *)
From stdpp Require Import strings pretty.
From S2P Require Import Prelude Wire Adapter Recovery.

Open Scope monad_scope.

(** ** The event format *)
Inductive ESP_BOOTUP_TAG_TYPE :=
  | ESP_BOOTUP_CAPABILITY | ESP_BOOTUP_FW_DATA | ESP_BOOTUP_SPI_CLK_MHZ
  | ESP_BOOTUP_FIRMWARE_CHIP_ID | ESP_BOOTUP_TEST_RAW_TP | ESP_BOOTUP_RX_BUF_SIZE
  | ESP_BOOTUP_EXT_CAPABILITY | ESP_BOOTUP_RCP_SESSION_NONCE | ESP_BOOTUP_BASE_MAC_INFO.

Definition tag_code (t : ESP_BOOTUP_TAG_TYPE) : Z :=
  match t with
  | ESP_BOOTUP_CAPABILITY => 0 | ESP_BOOTUP_FW_DATA => 1 | ESP_BOOTUP_SPI_CLK_MHZ => 2
  | ESP_BOOTUP_FIRMWARE_CHIP_ID => 3 | ESP_BOOTUP_TEST_RAW_TP => 4
  | ESP_BOOTUP_RX_BUF_SIZE => 5 | ESP_BOOTUP_EXT_CAPABILITY => 6
  | ESP_BOOTUP_RCP_SESSION_NONCE => 7 | ESP_BOOTUP_BASE_MAC_INFO => 8
  end.
Coercion tag_code : ESP_BOOTUP_TAG_TYPE >-> Z.

Definition tag_of (z : Z) : option ESP_BOOTUP_TAG_TYPE :=
  find (fun t => z =? tag_code t)
    [ESP_BOOTUP_CAPABILITY; ESP_BOOTUP_FW_DATA; ESP_BOOTUP_SPI_CLK_MHZ;
     ESP_BOOTUP_FIRMWARE_CHIP_ID; ESP_BOOTUP_TEST_RAW_TP; ESP_BOOTUP_RX_BUF_SIZE;
     ESP_BOOTUP_EXT_CAPABILITY; ESP_BOOTUP_RCP_SESSION_NONCE; ESP_BOOTUP_BASE_MAC_INFO].

Definition MAC_ADDR_LEN : Z := 6.
Definition ESP_USB_TX_AGGR_SIZE_MAX : Z := 16384.
Definition ESP_TX_AGGR_SIZE_ALIGN : Z := 512.
Definition ESP_FIRMWARE_CHIP_UNRECOGNIZED : Z := 255.
Definition ESP_FIRMWARE_CHIP_ESP32S31 : Z := 32.
Definition ESP_INTERNAL_BOOTUP_EVENT : Z := 1.

(** [struct esp_internal_bootup_event]: event_code, status, le16 len, then the
    TLV byte count, three pad bytes and the TLVs. *)
Definition offsetof_boot_data : Z := 8.
Definition evt_event_code (buf : list Z) : Z := byte_at 0 buf.
Definition evt_status (buf : list Z) : Z := byte_at 1 buf.
Definition evt_len (buf : list Z) : Z := byte_at 4 buf.
Definition evt_data (buf : list Z) : list Z := zdrop offsetof_boot_data buf.

(** ** Firmware version *)
Definition sizeof_fw_data : Z := 12.

Definition PROJECT_NAME : list Z := [78; 71].
Definition RELEASE_VERSION : string := "NG-1.0.6.0.23".
Definition ESP_VERSION_BUFFER_SIZE : nat := 50.

(** ["%.*s"]: at most the given characters, up to a NUL. *)
Fixpoint c_string (l : list Z) : string :=
  match l with
  | [] => EmptyString
  | b :: l' => if b =? 0 then EmptyString else String (Ascii.ascii_of_nat (Z.to_nat b)) (c_string l')
  end.

(** [struct fw_data]: project_name[3], five version bytes, le32 reset reason. *)
Definition fw_version_string (fw : list Z) : string :=
  let num i := pretty (byte_at i fw) in
  String.substring 0 (ESP_VERSION_BUFFER_SIZE - 1)
    (c_string (ztake 3 fw) +:+ "-" +:+ num 3 +:+ "." +:+ num 4 +:+ "." +:+ num 5
       +:+ "." +:+ num 6 +:+ "." +:+ num 7).

Definition check_esp_version (fw : list Z) : Z :=
  if bool_decide (fw_version_string fw = RELEASE_VERSION) then 0 else -1.

Definition process_fw_data (fw : list Z) (tag_len : Z) : Z :=
  if negb (tag_len =? sizeof_fw_data) then -1 else check_esp_version fw.

(** [is_valid_ether_addr]: neither multicast nor all-zero. *)
Definition is_valid_ether_addr (mac : list Z) : bool :=
  negb (Z.odd (byte_at 0 mac)) && negb (forallb (Z.eqb 0) (ztake 6 mac)).

(** ** The TLV loop *)
Record boot_state := mk_boot {
  b_ad : esp_adapter;
  seen_capability : bool;
  seen_chipset : bool;
  seen_fw_data : bool;
  seen_rx_buf_size : bool;
  seen_spi_clk : bool;
  seen_ext_capability : bool;
  seen_rcp_nonce : bool
}.

#[export] Instance eta_boot_state : Eta boot_state := fun b =>
  mk_boot (b_ad b) (seen_capability b) (seen_chipset b) (seen_fw_data b) (seen_rx_buf_size b)
    (seen_spi_clk b) (seen_ext_capability b) (seen_rcp_nonce b).

Definition boot_start (a : esp_adapter) : boot_state :=
  mk_boot a false false false false false false false.

Definition boot := M boot_state Z.
Definition on_b_ad (f : esp_adapter -> esp_adapter) : boot unit :=
  mmodify (fun b => b <| b_ad := f (b_ad b) |>).

(** The two entry points each transport links in: [esp_validate_chipset] and
    [esp_adjust_spi_clock]. *)
Record chip_ops := mk_chip_ops {
  esp_validate_chipset : Z -> esp_adapter -> Z * esp_adapter;
  esp_adjust_spi_clock : Z -> esp_adapter -> Z * esp_adapter
}.

(** Calling one of them: a negative result leaves through [fail] after the
    switch, otherwise [*seen] is set on success. *)
Definition call_chip (f : esp_adapter -> Z * esp_adapter) (mark : boot_state -> boot_state) : boot unit :=
  let* b := mget in
  let '(ret, a) := f (b_ad b) in
  mput (b <| b_ad := a |>) ;;;
  (if ret =? 0 then mmodify mark else mret tt) ;;;
  mcheck (0 <=? ret) ret.

Definition rx_buf_size_invalid (if_type size : Z) : bool :=
  (size =? 0)
  || (if if_type =? ESP_IF_TYPE_USB then ESP_USB_TX_AGGR_SIZE_MAX <? size
      else ESP_TX_AGGR_SIZE_MAX <? size)
  || (negb (if_type =? ESP_IF_TYPE_SPI) && negb (size mod ESP_TX_AGGR_SIZE_ALIGN =? 0)).

(** One pass of the [switch]; [val] are the [tag_len] value bytes. *)
Definition boot_tlv (ops : chip_ops) (tag : Z) (val : list Z) : boot unit :=
  let tag_len := zlen val in
  let* b := mget in
  match tag_of tag with
  | Some ESP_BOOTUP_CAPABILITY =>
      mcheck (negb (seen_capability b)) (- EPROTO) ;;;
      mcheck ((tag_len =? 1) || (tag_len =? 2) || (tag_len =? 4)) (- EINVAL) ;;;
      on_b_ad (fun a => a <| capabilities := le_val val |>) ;;;
      mmodify (fun b => b <| seen_capability := true |>)
  | Some ESP_BOOTUP_EXT_CAPABILITY =>
      mcheck (negb (seen_ext_capability b || negb (tag_len =? 4))) (- EPROTO) ;;;
      on_b_ad (fun a => a <| ext_capabilities := le_val val |>) ;;;
      mmodify (fun b => b <| seen_ext_capability := true |>)
  | Some ESP_BOOTUP_BASE_MAC_INFO =>
      mcheck (negb (base_mac_present (b_ad b) || negb (tag_len =? MAC_ADDR_LEN + 1)
                    || negb (is_valid_ether_addr val)
                    || (negb (byte_at MAC_ADDR_LEN val =? 1) && negb (byte_at MAC_ADDR_LEN val =? 2)
                        && negb (byte_at MAC_ADDR_LEN val =? 4)))) (- EPROTO) ;;;
      on_b_ad (fun a => a <| base_mac := ztake MAC_ADDR_LEN val |>
                          <| base_mac_count := byte_at MAC_ADDR_LEN val |>
                          <| base_mac_present := true |>)
  | Some ESP_BOOTUP_RCP_SESSION_NONCE =>
      mcheck (negb (seen_rcp_nonce b || negb (tag_len =? 8))) (- EPROTO) ;;;
      on_b_ad (fun a => a <| rcp_session_nonce := le_val val |>) ;;;
      mmodify (fun b => b <| seen_rcp_nonce := true |>)
  | Some ESP_BOOTUP_RX_BUF_SIZE =>
      mcheck (negb (seen_rx_buf_size b)) (- EPROTO) ;;;
      mcheck (tag_len =? 4) (- EINVAL) ;;;
      on_b_ad (fun a => a <| tx_aggr_size := le_val val |>) ;;;
      mcheck (negb (rx_buf_size_invalid (if_transport (b_ad b)) (le_val val))) (- EINVAL) ;;;
      mmodify (fun b => b <| seen_rx_buf_size := true |>)
  | Some ESP_BOOTUP_FIRMWARE_CHIP_ID =>
      mcheck (negb (seen_chipset b)) (- EPROTO) ;;;
      mcheck (tag_len =? 1) (- EINVAL) ;;;
      call_chip (esp_validate_chipset ops (byte_at 0 val)) (fun b => b <| seen_chipset := true |>)
  | Some ESP_BOOTUP_FW_DATA =>
      mcheck (negb (seen_fw_data b)) (- EPROTO) ;;;
      mcheck (tag_len =? sizeof_fw_data) (- EINVAL) ;;;
      let ret := process_fw_data val tag_len in
      (if ret =? 0 then mmodify (fun b => b <| seen_fw_data := true |>) else mret tt) ;;;
      mcheck (0 <=? ret) ret
  | Some ESP_BOOTUP_SPI_CLK_MHZ =>
      mcheck (negb (seen_spi_clk b)) (- EPROTO) ;;;
      mcheck (negb (negb (tag_len =? 1) || (byte_at 0 val =? 0))) (- EINVAL) ;;;
      call_chip (esp_adjust_spi_clock ops (byte_at 0 val)) (fun b => b <| seen_spi_clk := true |>)
  | Some ESP_BOOTUP_TEST_RAW_TP | None => mret tt
  end.

#[global] Arguments boot_tlv : simpl never.

(** [while (len_left > 0)]; every pass consumes at least two bytes. *)
Fixpoint boot_tlvs (ops : chip_ops) (fuel : nat) (data : list Z) : boot unit :=
  match fuel, data with
  | S fuel', tag :: rest =>
      match rest with
      | [] => mfail (- EINVAL)
      | tag_len :: body =>
          mcheck (tag_len <=? zlen body) (- EINVAL) ;;;
          boot_tlv ops tag (ztake tag_len body) ;;;
          boot_tlvs ops fuel' (zdrop tag_len body)
      end
  | _, _ => mret tt
  end.

Definition parse_boot_tlvs (ops : chip_ops) (data : list Z) : boot unit :=
  boot_tlvs ops (length data) data.

(** The acceptance checks after the loop. *)
Definition boot_accept (ops : chip_ops) : boot unit :=
  let* b := mget in
  mcheck (seen_capability b && seen_chipset b && seen_fw_data b) (- EPROTO) ;;;
  let a := b_ad b in
  (if if_transport a =? ESP_IF_TYPE_SPI then
     mcheck (has_cap (capabilities a) ESP_WLAN_SPI_SUPPORT) (- EPROTO)
   else if if_transport a =? ESP_IF_TYPE_SDIO then
     mcheck (has_cap (capabilities a) ESP_WLAN_SDIO_SUPPORT) (- EPROTO)
   else if if_transport a =? ESP_IF_TYPE_USB then
     mcheck (has_cap (capabilities a) ESP_WLAN_USB_SUPPORT) (- EPROTO)
   else mfail (- EINVAL)) ;;;
  mcheck (negb (chipset a =? ESP_FIRMWARE_CHIP_UNRECOGNIZED)) (- EPROTO) ;;;
  (if (if_transport a =? ESP_IF_TYPE_SPI) && negb (seen_spi_clk b) then
     let '(ret, a') := esp_adjust_spi_clock ops 0 a in
     mput (b <| b_ad := a' |>) ;;; mcheck (ret =? 0) ret
   else mret tt) ;;;
  let* b := mget in
  let ext := ext_capabilities (b_ad b) in
  let nonce := rcp_session_nonce (b_ad b) in
  mcheck (negb (seen_rcp_nonce b && negb (has_ext_cap ext ESP_EXT_CAP_RCP))) (- EPROTO) ;;;
  mcheck (negb (has_ext_cap ext ESP_EXT_CAP_RCP
                && negb (has_ext_cap ext ESP_EXT_CAP_RADIO_SERVICE_CTRL)
                && (negb (seen_rcp_nonce b) || (nonce =? 0)))) (- EPROTO) ;;;
  mcheck (negb (has_ext_cap ext ESP_EXT_CAP_RADIO_SERVICE_CTRL
                && seen_rcp_nonce b && (nonce =? 0))) (- EPROTO).

(** ** Reconstruction

    The rest of the driver that the boot handler calls, as operations on the
    recovery system; a NULL transport pointer is [None]. *)
Record card_ops (T : Type) := mk_card_ops {
  chip : chip_ops;
  quiesce_for_fw_reset : option (sys T -> Z * sys T);
  reinit_after_fw_reset : option (sys T -> Z * sys T);
  esp_remove_card : bool -> sys T -> Z * sys T;
  wiphy_stale : sys T -> bool;         (* registered iftypes no longer match *)
  esp_remove_wiphy : sys T -> Z * sys T;
  esp_add_card : sys T -> Z * sys T;
  esp_start_ota : option (sys T -> Z * sys T);   (* [Some] when an ota_file is set *)
  esp_init_raw_tp : option (sys T -> Z * sys T);  (* [Some] when raw_tp_mode is set *)
  esp_publish_network_ifaces : sys T -> Z * sys T;
  esp_cfg80211_restore_monitor : sys T -> Z * sys T;
  esp_raw_tp_start : option (sys T -> Z * sys T);
  schedule_radio_work : sys T -> sys T;
  esp_init_rcp : sys T -> Z * sys T;
  init_bt : sys T -> Z * sys T;
  esp_deinit_bt : sys T -> sys T;
  purge_events : sys T -> sys T        (* events_skb_q, test_raw_tp_cleanup *)
}.
Arguments chip {T}.
Arguments quiesce_for_fw_reset {T}.
Arguments reinit_after_fw_reset {T}.
Arguments esp_remove_card {T}.
Arguments wiphy_stale {T}.
Arguments esp_remove_wiphy {T}.
Arguments esp_add_card {T}.
Arguments esp_start_ota {T}.
Arguments esp_init_raw_tp {T}.
Arguments esp_publish_network_ifaces {T}.
Arguments esp_cfg80211_restore_monitor {T}.
Arguments esp_raw_tp_start {T}.
Arguments schedule_radio_work {T}.
Arguments esp_init_rcp {T}.
Arguments init_bt {T}.
Arguments esp_deinit_bt {T}.
Arguments purge_events {T}.

(** How the handler leaves: by [return] (the value is final), or through one of
    its two labels with the pending error. *)
Inductive exit := Return (ret : Z) | Fail (ret : Z) | Fail_after_commit (ret : Z).

Section Bootup.
Context {T : Type} (ops : esp_if_ops T) (cards : card_ops T) (m2j : Z -> Z).

Definition bm := M (sys T) exit.

(** [ret = f(adapter); if (ret) goto label;] *)
Definition call (f : sys T -> Z * sys T) (label : Z -> exit) : bm unit :=
  fun s => let '(ret, s') := f s in if ret =? 0 then (inr tt, s') else (inl (label ret), s').
Definition call_opt (f : option (sys T -> Z * sys T)) (label : Z -> exit) : bm unit :=
  match f with Some f => call f label | None => mret tt end.
Definition adapter_do (f : esp_adapter -> esp_adapter) : bm unit := mmodify (on_ad f).
Definition check_alive : bm unit :=
  let* s := mget in mcheck (negb (unloading_or_removing (ad s))) (Return (- ESHUTDOWN)).

(** Running the parser on the adapter. *)
Definition run_boot (b0 : esp_adapter -> boot_state) (m : boot unit) : bm boot_state := fun s =>
  match m (b0 (ad s)) with
  | (inr _, b) => (inr b, s <| ad := b_ad b |>)
  | (inl ret, b) => (inl (Fail ret), s <| ad := b_ad b |>)
  end.

(** Nothing of the previous incarnation's metadata survives. *)
Definition reset_boot_metadata (a : esp_adapter) : esp_adapter :=
  let a := clear_flag ESP_INIT_DONE a in
  let a := clear_flag ESP_FW_RESTART_NEEDED a in
  let a := clear_flag ESP_FW_RADIO_INIT_PENDING a in
  a <| capabilities := 0 |> <| ext_capabilities := 0 |> <| rcp_session_nonce := 0 |>
    <| base_mac := replicate 6 0 |> <| base_mac_count := 0 |> <| base_mac_present := false |>
    <| radio_service_active := 0 |> <| radio_service_flags := 0 |>
    <| chipset := ESP_FIRMWARE_CHIP_UNRECOGNIZED |> <| tx_aggr_size := 0 |>.

Definition is_reinitializing (a : esp_adapter) : bool :=
  flag ESP_INIT_DONE a || flag ESP_FW_RECOVERY_PENDING a || flag ESP_FW_RESET_EXPECTED a.

Definition boot_prologue : bm bool :=
  check_alive ;;;
  mmodify (fun s => s <| timer := None |>) ;;;
  let* s := mget in
  let reinitializing := is_reinitializing (ad s) in
  (if reinitializing then adapter_do (set_flag ESP_FW_RECOVERY_PENDING) else mret tt) ;;;
  adapter_do reset_boot_metadata ;;;
  (if reinitializing then
     adapter_do (set_flag ESP_CLEANUP_IN_PROGRESS) ;;;
     mmodify (purge_events cards) ;;;
     call_opt (quiesce_for_fw_reset cards) Fail ;;;
     call (esp_remove_card cards false) Fail ;;;
     check_alive
   else mret tt) ;;;
  mret reinitializing.

(** From the accepted event up to the commit. *)
Definition boot_reconstruct (reinitializing : bool) : bm unit :=
  (if reinitializing then call_opt (reinit_after_fw_reset cards) Fail else mret tt) ;;;
  mmodify esp_begin_reconstruction ;;;
  adapter_do (fun a => a <| state := ESP_CONTEXT_READY |>) ;;;
  let* s := mget in
  (if wiphy_stale cards s then call (esp_remove_wiphy cards) Fail else mret tt) ;;;
  call (esp_add_card cards) Fail ;;;
  match esp_start_ota cards with
  | None => mret tt
  | Some ota => fun s =>
      let '(ret, s) := ota s in
      if negb (ret =? 0) then
        if flag ESP_FW_RESET_EXPECTED (ad s) then (inl (Fail ret), s) else (inr tt, s)
      else
        (inl (Return 0),
         esp_schedule_recovery ops m2j 2000 true true (esp_clear_reconstruct_flag s))
  end ;;;
  call_opt (esp_init_raw_tp cards) Fail ;;;
  mmodify (esp_commit_reconstruction m2j).

(** Publication after the commit. *)
Definition boot_publish : bm unit :=
  call (esp_publish_network_ifaces cards) Fail_after_commit ;;;
  call (esp_cfg80211_restore_monitor cards) Fail_after_commit ;;;
  call_opt (esp_raw_tp_start cards) Fail_after_commit ;;;
  let* s := mget in
  if has_ext_cap (ext_capabilities (ad s)) ESP_EXT_CAP_RADIO_SERVICE_CTRL then
    adapter_do (set_flag ESP_FW_RADIO_INIT_PENDING) ;;;
    mmodify (schedule_radio_work cards)
  else
    (if has_ext_cap (ext_capabilities (ad s)) ESP_EXT_CAP_RCP
     then call (esp_init_rcp cards) Fail_after_commit else mret tt) ;;;
    call (init_bt cards) Fail_after_commit ;;;
    mmodify (esp_finish_reconstruction ops).

Definition boot_body (data : list Z) : bm unit :=
  let* reinitializing := boot_prologue in
  let* b := run_boot boot_start (parse_boot_tlvs (chip cards) data) in
  check_alive ;;;
  let* _ := run_boot (fun a => b <| b_ad := a |>) (boot_accept (chip cards)) in
  boot_reconstruct reinitializing ;;;
  boot_publish.

(** The two labels. *)
Definition boot_fail (ret : Z) (s : sys T) : Z * sys T :=
  (if ret <? 0 then ret else -1,
   esp_bootup_request_retry ops m2j (esp_clear_reconstruct_flag s)).

Definition boot_fail_after_commit (ret : Z) (s : sys T) : Z * sys T :=
  let s := on_ad (set_flag ESP_CLEANUP_IN_PROGRESS) s in
  let s := on_ad (clear_flag ESP_INIT_DONE) s in
  let s := esp_deinit_bt cards s in
  boot_fail ret (esp_remove_card cards true s).2.

Definition process_event_esp_bootup (data : list Z) (s : sys T) : Z * sys T :=
  match boot_body data s with
  | (inr _, s') => (0, s')
  | (inl (Return ret), s') => (ret, s')
  | (inl (Fail ret), s') => boot_fail ret s'
  | (inl (Fail_after_commit ret), s') => boot_fail_after_commit ret s'
  end.

(** ** Classifiers over the raw event *)
Definition esp_bootup_event_structurally_valid (buf : list Z) : bool :=
  if zlen buf <? offsetof_boot_data then false
  else if negb (evt_status buf =? 0) then false
  else negb (zlen buf - offsetof_boot_data <? evt_len buf).

Definition process_esp_bootup_event (buf : list Z) (s : sys T) : sys T :=
  if negb (esp_bootup_event_structurally_valid buf) then
    esp_request_firmware_restart ops m2j (esp_schedule_fw_reset_recovery ops m2j s)
  else (process_event_esp_bootup (ztake (evt_len buf) (evt_data buf)) s).2.

Definition process_internal_event (buf : list Z) (s : sys T) : Z * sys T :=
  if zlen buf <? 4 then (- EMSGSIZE, s)
  else if byte_at 0 buf =? ESP_INTERNAL_BOOTUP_EVENT then (0, process_esp_bootup_event buf s)
  else (0, s).
End Bootup.

Fixpoint legacy_scan (fuel : nat) (data : list Z) (ext_caps : Z) (seen_ext : bool) : bool :=
  let verdict := seen_ext && has_ext_cap ext_caps ESP_EXT_CAP_RCP
                 && negb (has_ext_cap ext_caps ESP_EXT_CAP_RADIO_SERVICE_CTRL) in
  match fuel, data with
  | S fuel', tag :: tag_len :: body =>
      if zlen body <? tag_len then false
      else if (tag =? ESP_BOOTUP_EXT_CAPABILITY) && (tag_len =? 4) then
        if seen_ext then false
        else legacy_scan fuel' (zdrop tag_len body) (le_val (ztake 4 body)) true
      else legacy_scan fuel' (zdrop tag_len body) ext_caps seen_ext
  | _, _ => verdict
  end.

Definition esp_bootup_event_legacy_rcp_active (buf : list Z) : bool :=
  if negb (esp_bootup_event_structurally_valid buf) then false
  else
    let data := ztake (evt_len buf) (evt_data buf) in
    legacy_scan (length data) data 0 false.

(** [None]: the scan ended without a one-byte capability TLV. *)
Fixpoint checksum_scan (fuel : nat) (data : list Z) (wire_checksum : Z) : option bool :=
  match fuel, data with
  | S fuel', tag :: tag_len :: body =>
      if zlen body <? tag_len then None
      else if (tag =? ESP_BOOTUP_CAPABILITY) && (tag_len =? 1) then
        Some (has_cap (byte_at 0 body) ESP_CHECKSUM_ENABLED || negb (wire_checksum =? 0))
      else checksum_scan fuel' (zdrop tag_len body) wire_checksum
  | _, _ => None
  end.

(** [frame] is the whole frame; [n] and [off] its length and offset fields. *)
Definition esp_internal_checksum_required (frame : list Z) (n off wire_checksum : Z) : bool :=
  let dflt := negb (wire_checksum =? 0) in
  let evt := zdrop off frame in
  if n <? offsetof_boot_data then dflt
  else if negb (evt_event_code evt =? ESP_INTERNAL_BOOTUP_EVENT) then dflt
  else if n - offsetof_boot_data <? evt_len evt then dflt
  else
    let data := ztake (evt_len evt) (evt_data evt) in
    default dflt (checksum_scan (length data) data wire_checksum).

(** ** The firmware's builders *)
Definition tlv (tag : Z) (val : list Z) : list Z := tag :: zlen val :: val.

Definition esp_hosted_add_boot_mac_tlv (mac : option (list Z)) (count : Z) : list Z :=
  match mac with
  | Some mac =>
      if Z.odd (byte_at 0 mac) || (negb (count =? 1) && negb (count =? 2) && negb (count =? 4))
      then [] else tlv ESP_BOOTUP_BASE_MAC_INFO (ztake MAC_ADDR_LEN mac ++ [count])
  | None => []
  end.

(** [struct fw_data] as the firmware fills it. *)
Definition fw_data_bytes (reset_reason : Z) : list Z :=
  PROJECT_NAME ++ [0; 1; 0; 6; 0; 23] ++ le_bytes 4 reset_reason.

Record fw_boot := mk_fw_boot {
  chip_id : Z;
  spi_clk : option Z;            (* only the SPI backend sends it *)
  cap : Z;
  ext_cap : Z;
  boot_mac : option (list Z);    (* [esp_read_mac] *)
  mac_count : Z;
  rx_buf_sz : Z;
  reset_reason : Z
}.

Definition boot_tlv_bytes (f : fw_boot) : list Z :=
  tlv ESP_BOOTUP_FIRMWARE_CHIP_ID [chip_id f]
  ++ match spi_clk f with Some c => tlv ESP_BOOTUP_SPI_CLK_MHZ [c] | None => [] end
  ++ tlv ESP_BOOTUP_CAPABILITY (le_bytes 4 (cap f))
  ++ (if ext_cap f =? 0 then [] else tlv ESP_BOOTUP_EXT_CAPABILITY (le_bytes 4 (ext_cap f)))
  ++ esp_hosted_add_boot_mac_tlv (boot_mac f) (mac_count f)
  ++ tlv ESP_BOOTUP_RX_BUF_SIZE (le_bytes 4 (rx_buf_sz f))
  ++ tlv ESP_BOOTUP_FW_DATA (fw_data_bytes (reset_reason f)).

(** The event that [send_bootup_event_to_host] queues. *)
Definition boot_event_bytes (f : fw_boot) : list Z :=
  let data := boot_tlv_bytes f in
  [ESP_INTERNAL_BOOTUP_EVENT; 0] ++ le_bytes 2 (u16 (u16 (zlen data) + 1)) ++ [u8 (zlen data); 0; 0; 0]
  ++ data.

(** ** Parsing a sequence of TLVs *)
Section Parsing.
Context (ops : chip_ops).

Lemma boot_tlvs_cons f tag n body :
  boot_tlvs ops (S f) (tag :: n :: body) =
    (mcheck (n <=? zlen body) (- EINVAL) ;;; boot_tlv ops tag (ztake n body) ;;;
     boot_tlvs ops f (zdrop n body)).
Proof. done. Qed.

Lemma boot_tlvs_fuel fuel fuel' data b :
  (length data <= fuel)%nat -> (length data <= fuel')%nat ->
  boot_tlvs ops fuel data b = boot_tlvs ops fuel' data b.
Proof.
  revert fuel' data b. induction fuel as [|f IH]; intros [|f'] [|tag [|n body]] b H1 H2;
    cbn in H1, H2; try lia; try done.
  cbn. unfold mbind. destruct (mcheck _ _ b) as [[e|[]] b1]; [done|].
  destruct (boot_tlv ops tag _ b1) as [[e|[]] b2]; [done|].
  apply IH; unfold zdrop; rewrite length_drop; lia.
Qed.

Lemma parse_boot_tlvs_nil b : parse_boot_tlvs ops [] b = (inr tt, b).
Proof. done. Qed.

(** One TLV in front. *)
Lemma parse_boot_tlvs_tlv tag val rest b :
  parse_boot_tlvs ops (tlv tag val ++ rest) b
  = (boot_tlv ops tag val ;;; parse_boot_tlvs ops rest) b.
Proof.
  unfold parse_boot_tlvs, tlv. cbn [app length]. rewrite boot_tlvs_cons.
  unfold mbind at 1, mcheck. rewrite (proj2 (Z.leb_le _ _)) by zlia. unfold mret at 1.
  rewrite ztake_app_exact, zdrop_app_exact by done. unfold mbind.
  destruct (boot_tlv ops tag val b) as [[e|[]] b1]; [done|].
  apply boot_tlvs_fuel; cbn; rewrite ?length_app; lia.
Qed.

(** What the loop consumed is a sequence of TLVs; nothing was skipped. *)
Lemma parse_boot_tlvs_inv fuel data b b' :
  bytes_ok data -> boot_tlvs ops fuel data b = (inr tt, b') -> (length data <= fuel)%nat ->
  exists tlvs, data = concat ((fun t => tlv t.1 t.2) <$> tlvs).
Proof.
  revert data b. induction fuel as [|f IH]; intros data b Hok; cbn.
  { intros _ Hl. exists []. by destruct data; [|cbn in Hl; lia]. }
  destruct data as [|tag [|n body]]; [intros; by exists []|intros [=]|].
  intros H Hl. cbn in Hl.
  apply Forall_cons_1 in Hok as [_ [Hn Hok]%Forall_cons_1]. unfold is_byte in Hn.
  unfold mbind, mcheck in H. destruct (n <=? zlen body) eqn:Hle; [|done]. cbn in H. bool_hyps.
  destruct (boot_tlv ops tag _ b) as [[e|[]] b1]; [done|].
  apply IH in H as [tlvs E]; [|by apply Forall_zdrop|unfold zdrop; rewrite length_drop; lia].
  exists ((tag, ztake n body) :: tlvs). cbn. rewrite <- E. unfold tlv. cbn.
  rewrite ztake_zdrop. do 2 f_equal. zlia.
Qed.

(** Invariants of the loop are invariants of one pass. *)
Lemma boot_tlvs_hoare (P : boot_state -> Prop) (X : Z -> boot_state -> Prop) fuel data :
  (forall b e, P b -> e < 0 -> X e b) ->
  (forall tag val, hoare P (boot_tlv ops tag val) (fun _ => P) X) ->
  hoare P (boot_tlvs ops fuel data) (fun _ => P) X.
Proof.
  intros HX Hstep. revert data. induction fuel as [|f IH]; intros data; cbn.
  { by apply hoare_ret. }
  destruct data as [|tag [|n body]]; [by apply hoare_ret| |].
  - apply hoare_fail. intros. by apply HX.
  - apply (hoare_bind _ _ (fun _ => P)); [apply hoare_check; auto|]. { intros. by apply HX. }
    intros _. apply (hoare_bind _ _ (fun _ => P)); [apply Hstep|]. auto.
Qed.
End Parsing.

(** What the transports' chip hooks may do. *)
Class ChipLaws (ops : chip_ops) : Prop := {
  chip_validate_frame c a :
    exists ch, (esp_validate_chipset ops c a).2 = a <| chipset := ch |>;
  chip_validate_ok c a :
    (esp_validate_chipset ops c a).1 = 0 ->
    chipset (esp_validate_chipset ops c a).2 = c /\ c <> ESP_FIRMWARE_CHIP_UNRECOGNIZED;
  chip_spi_frame c a : (esp_adjust_spi_clock ops c a).2 = a
}.

(** The USB transport's hooks ([host/usb/esp_usb.c]). *)
Definition usb_chip_ops : chip_ops := mk_chip_ops
  (fun c a => if negb (c =? ESP_FIRMWARE_CHIP_ESP32S31)
              then (- ENODEV, a <| chipset := ESP_FIRMWARE_CHIP_UNRECOGNIZED |>)
              else (0, a <| chipset := c |>))
  (fun _ a => (0, a)).

#[export] Instance usb_chip_laws : ChipLaws usb_chip_ops.
Proof.
  constructor; cbn; [| |done].
  - intros c a. case_match; by eexists.
  - intros c a. destruct (c =? ESP_FIRMWARE_CHIP_ESP32S31) eqn:E; cbn; [|done].
    bool_hyps. by subst.
Qed.

(** ** What an accepted event guarantees *)

(** Facts that hold from the first TLV on. *)
Record boot_inv (b : boot_state) : Prop := mk_boot_inv {
  bi_chip : seen_chipset b = true -> chipset (b_ad b) <> ESP_FIRMWARE_CHIP_UNRECOGNIZED;
  bi_mac : base_mac_present (b_ad b) = true ->
    is_valid_ether_addr (base_mac (b_ad b)) = true /\ zlen (base_mac (b_ad b)) = MAC_ADDR_LEN /\
    (base_mac_count (b_ad b) = 1 \/ base_mac_count (b_ad b) = 2 \/ base_mac_count (b_ad b) = 4);
  bi_rx : seen_rx_buf_size b = true ->
    rx_buf_size_invalid (if_transport (b_ad b)) (tx_aggr_size (b_ad b)) = false
}.

Lemma is_valid_ether_addr_take v :
  6 <= zlen v -> is_valid_ether_addr (ztake 6 v) = is_valid_ether_addr v.
Proof.
  intros Hl. unfold is_valid_ether_addr. rewrite (ztake_ge 6 (ztake 6 v)) by zlia. f_equal.
  rewrite <- (ztake_zdrop 6 v) at 2. by rewrite byte_at_app by zlia.
Qed.

(** The declarative reading of one accepted TLV. *)
Inductive tlv_effect (ops : chip_ops) (val : list Z)
    : option ESP_BOOTUP_TAG_TYPE -> boot_state -> boot_state -> Prop :=
  | eff_capability b :
      seen_capability b = false -> zlen val = 1 \/ zlen val = 2 \/ zlen val = 4 ->
      tlv_effect ops val (Some ESP_BOOTUP_CAPABILITY) b
        (b <| b_ad := b_ad b <| capabilities := le_val val |> |> <| seen_capability := true |>)
  | eff_ext b :
      seen_ext_capability b = false -> zlen val = 4 ->
      tlv_effect ops val (Some ESP_BOOTUP_EXT_CAPABILITY) b
        (b <| b_ad := b_ad b <| ext_capabilities := le_val val |> |> <| seen_ext_capability := true |>)
  | eff_mac b :
      base_mac_present (b_ad b) = false -> zlen val = 7 -> is_valid_ether_addr val = true ->
      byte_at 6 val = 1 \/ byte_at 6 val = 2 \/ byte_at 6 val = 4 ->
      tlv_effect ops val (Some ESP_BOOTUP_BASE_MAC_INFO) b
        (b <| b_ad := b_ad b <| base_mac := ztake 6 val |> <| base_mac_count := byte_at 6 val |>
                             <| base_mac_present := true |> |>)
  | eff_nonce b :
      seen_rcp_nonce b = false -> zlen val = 8 ->
      tlv_effect ops val (Some ESP_BOOTUP_RCP_SESSION_NONCE) b
        (b <| b_ad := b_ad b <| rcp_session_nonce := le_val val |> |> <| seen_rcp_nonce := true |>)
  | eff_rx b :
      seen_rx_buf_size b = false -> zlen val = 4 ->
      rx_buf_size_invalid (if_transport (b_ad b)) (le_val val) = false ->
      tlv_effect ops val (Some ESP_BOOTUP_RX_BUF_SIZE) b
        (b <| b_ad := b_ad b <| tx_aggr_size := le_val val |> |> <| seen_rx_buf_size := true |>)
  | eff_chip b ret a :
      seen_chipset b = false -> zlen val = 1 -> 0 <= ret ->
      esp_validate_chipset ops (byte_at 0 val) (b_ad b) = (ret, a) ->
      tlv_effect ops val (Some ESP_BOOTUP_FIRMWARE_CHIP_ID) b
        (b <| b_ad := a |> <| seen_chipset := seen_chipset b || (ret =? 0) |>)
  | eff_fw b :
      seen_fw_data b = false -> zlen val = 12 -> fw_version_string val = RELEASE_VERSION ->
      tlv_effect ops val (Some ESP_BOOTUP_FW_DATA) b (b <| seen_fw_data := true |>)
  | eff_spi b ret a :
      seen_spi_clk b = false -> zlen val = 1 -> byte_at 0 val <> 0 -> 0 <= ret ->
      esp_adjust_spi_clock ops (byte_at 0 val) (b_ad b) = (ret, a) ->
      tlv_effect ops val (Some ESP_BOOTUP_SPI_CLK_MHZ) b
        (b <| b_ad := a |> <| seen_spi_clk := seen_spi_clk b || (ret =? 0) |>)
  | eff_raw_tp b : tlv_effect ops val (Some ESP_BOOTUP_TEST_RAW_TP) b b
  | eff_unknown b : tlv_effect ops val None b b.

Lemma call_chip_ok f mark b b' :
  call_chip f mark b = (inr tt, b') <->
  exists ret a, f (b_ad b) = (ret, a) /\ 0 <= ret /\
    b' = (if ret =? 0 then mark (b <| b_ad := a |>) else b <| b_ad := a |>).
Proof.
  unfold call_chip. unfold mbind at 1, mget at 1. destruct (f (b_ad b)) as [ret a].
  unfold mcheck, mput, mbind, mmodify, mfail, mret.
  split.
  - intros H. exists ret, a. destruct (ret =? 0), (0 <=? ret) eqn:E; simplify_eq/=; bool_hyps; auto.
  - intros (ret' & a' & [= <- <-] & Hr & ->). rewrite (proj2 (Z.leb_le _ _)) by done.
    by destruct (ret =? 0).
Qed.

Lemma negb_orb_true b c : negb (b || c) = true <-> b = false /\ c = false.
Proof. destruct b, c; split; intros H; try done; by destruct H. Qed.

(** The executable TLV step implements the declarative reading. *)
Lemma boot_tlv_spec ops tag val b b' :
  boot_tlv ops tag val b = (inr tt, b') <-> tlv_effect ops val (tag_of tag) b b'.
Proof.
  unfold boot_tlv. unfold mbind at 1, mget at 1. unfold on_b_ad.
  destruct (tag_of tag) as [[]|].
  - rewrite !mcheck_ok, !mmodify_ok. unfold mmodify. split.
    + intros (H1 & H2 & [= <-]). bool_hyps. apply eff_capability; [done|].
      apply orb_true_iff in H2 as [H2|?]; [apply orb_true_iff in H2 as [?|?]|]; bool_hyps; auto.
    + inversion 1; subst. split_and!; [by apply negb_true_iff| |done].
      rewrite !orb_true_iff, !Z.eqb_eq. tauto.
  - rewrite !mcheck_ok. unfold process_fw_data, check_esp_version. split.
    + intros (H1 & H2 & H). bool_hyps. revert H. unfold mbind. rewrite H2. cbn [negb Z.eqb].
      unfold sizeof_fw_data. change (negb (12 =? 12)) with false. cbn iota.
      case_bool_decide; cbn; [|done]. intros [= <-]. by apply eff_fw.
    + inversion 1; subst. split_and!; [by apply negb_true_iff|by apply Z.eqb_eq|].
      unfold mbind. rewrite H1. change (negb (12 =? sizeof_fw_data)) with false. cbn iota.
      by rewrite bool_decide_true.
  - rewrite !mcheck_ok, call_chip_ok, negb_orb_true. split.
    + intros (H1 & [H2 H3] & ret & a & E & Hr & ->). bool_hyps.
      replace (if ret =? 0 then _ else _) with
        (b <| b_ad := a |> <| seen_spi_clk := seen_spi_clk b || (ret =? 0) |>).
      { by apply (eff_spi ops val b ret a). }
      rewrite H1. destruct b, (ret =? 0); cbn in *; by subst.
    + inversion 1; subst. split_and!; [by apply negb_true_iff|by apply negb_false_iff, Z.eqb_eq|
        by apply Z.eqb_neq|]. exists ret, a. split_and!; [done..|].
      destruct b, (ret =? 0); cbn in *; by subst.
  - rewrite !mcheck_ok, call_chip_ok. split.
    + intros (H1 & H2 & ret & a & E & Hr & ->). bool_hyps.
      replace (if ret =? 0 then _ else _) with
        (b <| b_ad := a |> <| seen_chipset := seen_chipset b || (ret =? 0) |>).
      { by apply (eff_chip ops val b ret a). }
      rewrite H1. destruct b, (ret =? 0); cbn in *; by subst.
    + inversion 1; subst. split_and!; [by apply negb_true_iff|by apply Z.eqb_eq|].
      exists ret, a. split_and!; [done..|]. destruct b, (ret =? 0); cbn in *; by subst.
  - unfold mret. split; [intros H; simplify_eq; constructor|inversion 1; by subst].
  - rewrite !mcheck_ok, mmodify_ok, mcheck_ok. unfold mmodify. split.
    + intros (H1 & H2 & H3 & [= <-]). bool_hyps. by apply eff_rx.
    + inversion 1; subst. split_and!; [by apply negb_true_iff|by apply Z.eqb_eq| |done].
      by apply negb_true_iff.
  - rewrite !mcheck_ok, !mmodify_ok, negb_orb_true, negb_false_iff. unfold mmodify. split.
    + intros ([H1 H2] & [= <-]). bool_hyps. by apply eff_ext.
    + inversion 1; subst. split_and!; [done|by apply Z.eqb_eq|done].
  - rewrite !mcheck_ok, !mmodify_ok, negb_orb_true, negb_false_iff. unfold mmodify. split.
    + intros ([H1 H2] & [= <-]). bool_hyps. by apply eff_nonce.
    + inversion 1; subst. split_and!; [done|by apply Z.eqb_eq|done].
  - rewrite !mcheck_ok, negb_orb_true, !orb_false_iff. unfold mmodify. split.
    + intros ([[[H1 H2] H3] H4] & [= <-]). rewrite negb_false_iff in H2. rewrite negb_false_iff in H3.
      bool_hyps. apply eff_mac; [done|unfold MAC_ADDR_LEN in *; lia|done|].
      unfold MAC_ADDR_LEN in H4. revert H4. rewrite !andb_false_iff, !negb_false_iff, !Z.eqb_eq. tauto.
    + inversion 1; subst. unfold MAC_ADDR_LEN. split_and!; [done| | | |done].
      * by apply negb_false_iff, Z.eqb_eq.
      * by apply negb_false_iff.
      * rewrite !andb_false_iff, !negb_false_iff, !Z.eqb_eq. tauto.
  - unfold mret. split; [intros H; simplify_eq; constructor|inversion 1; by subst].
Qed.

Section Accepted.
Context (ops : chip_ops) {L : ChipLaws ops}.

(** Induction over an accepted event. *)
Lemma boot_tlvs_preserve (P : boot_state -> Prop) fuel data b b' :
  (forall t val b b', tlv_effect ops val t b b' -> P b -> P b') ->
  boot_tlvs ops fuel data b = (inr tt, b') -> P b -> P b'.
Proof.
  intros Hstep. revert data b. induction fuel as [|f IH]; intros data b.
  { by intros [= <-]. }
  destruct data as [|tag [|n body]]; [by intros [= <-]|intros [=]|].
  rewrite boot_tlvs_cons, mcheck_ok, mbind_ok. intros (_ & [] & b1 & H1 & H2) Hb.
  apply boot_tlv_spec in H1. eauto.
Qed.

Lemma boot_inv_effect t val b b' : tlv_effect ops val t b b' -> boot_inv b -> boot_inv b'.
Proof.
  intros He [Hc Hm Hr]. destruct He as [| |b Hp Hl Hv Hn| | |b ret a Hs Hl Hret E| |b ret a Hs Hl Hz Hret E| |];
    try (constructor; cbn; auto; done).
  - constructor; cbn; auto. intros _. rewrite is_valid_ether_addr_take by lia.
    split_and!; [done|unfold MAC_ADDR_LEN; zlia|done].
  - pose proof (chip_validate_frame (byte_at 0 val) (b_ad b)) as [ch Ea].
    pose proof (chip_validate_ok (byte_at 0 val) (b_ad b)) as Hok.
    rewrite E in Ea, Hok. cbn in Ea, Hok. subst a. constructor; cbn; auto.
    rewrite Hs. cbn. intros ->%Z.eqb_eq. destruct (Hok eq_refl) as [E1 E2]. cbn in E1. congruence.
  - pose proof (chip_spi_frame (byte_at 0 val) (b_ad b)) as Ea. rewrite E in Ea. cbn in Ea. subst a.
    by constructor.
Qed.

(** [if_type], the flags and everything else that is not boot metadata stay. *)
Definition boot_frame (a a' : esp_adapter) : Prop :=
  if_transport a' = if_transport a /\ state_flags a' = state_flags a /\ state a' = state a.

Lemma boot_frame_effect a t val b b' :
  tlv_effect ops val t b b' -> boot_frame a (b_ad b) -> boot_frame a (b_ad b').
Proof.
  unfold boot_frame. destruct 1 as [| | | | |b ret a' Hs Hl Hret E| |b ret a' Hs Hl Hz Hret E| |];
    try done.
  - pose proof (chip_validate_frame (byte_at 0 val) (b_ad b)) as [ch Ea].
    rewrite E in Ea. cbn in Ea. by subst.
  - pose proof (chip_spi_frame (byte_at 0 val) (b_ad b)) as Ea. rewrite E in Ea. cbn in Ea. by subst.
Qed.

(** The capability bit each transport insists on. *)
Definition transport_cap (a : esp_adapter) : bool :=
  if if_transport a =? ESP_IF_TYPE_SPI then has_cap (capabilities a) ESP_WLAN_SPI_SUPPORT
  else if if_transport a =? ESP_IF_TYPE_SDIO then has_cap (capabilities a) ESP_WLAN_SDIO_SUPPORT
  else if if_transport a =? ESP_IF_TYPE_USB then has_cap (capabilities a) ESP_WLAN_USB_SUPPORT
  else false.

(** The session-nonce contract of the capability combinations. *)
Definition nonce_ok (seen : bool) (ext nonce : Z) : Prop :=
  (seen = true -> has_ext_cap ext ESP_EXT_CAP_RCP = true) /\
  (has_ext_cap ext ESP_EXT_CAP_RCP = true ->
     has_ext_cap ext ESP_EXT_CAP_RADIO_SERVICE_CTRL = false -> seen = true /\ nonce <> 0) /\
  (has_ext_cap ext ESP_EXT_CAP_RADIO_SERVICE_CTRL = true -> seen = true -> nonce <> 0).

Lemma nonce_checks seen ext nonce :
  negb (seen && negb (has_ext_cap ext ESP_EXT_CAP_RCP)) = true /\
  negb (has_ext_cap ext ESP_EXT_CAP_RCP && negb (has_ext_cap ext ESP_EXT_CAP_RADIO_SERVICE_CTRL)
        && (negb seen || (nonce =? 0))) = true /\
  negb (has_ext_cap ext ESP_EXT_CAP_RADIO_SERVICE_CTRL && seen && (nonce =? 0)) = true
  <-> nonce_ok seen ext nonce.
Proof.
  unfold nonce_ok. destruct seen, (has_ext_cap ext ESP_EXT_CAP_RCP),
    (has_ext_cap ext ESP_EXT_CAP_RADIO_SERVICE_CTRL), (nonce =? 0) eqn:E; cbn; bool_hyps;
    intuition congruence.
Qed.

Lemma boot_accept_ok b b' :
  boot_accept ops b = (inr tt, b') <->
  (seen_capability b && seen_chipset b && seen_fw_data b = true /\
   transport_cap (b_ad b) = true /\ chipset (b_ad b) <> ESP_FIRMWARE_CHIP_UNRECOGNIZED /\
   (if_transport (b_ad b) = ESP_IF_TYPE_SPI -> seen_spi_clk b = false ->
      (esp_adjust_spi_clock ops 0 (b_ad b)).1 = 0) /\
   nonce_ok (seen_rcp_nonce b) (ext_capabilities (b_ad b)) (rcp_session_nonce (b_ad b)) /\
   b' = b).
Proof.
  unfold boot_accept. unfold mbind at 1, mget at 1. rewrite mcheck_ok, mbind_ok.
  assert (Hcap : forall x b1,
    (if if_transport (b_ad b) =? ESP_IF_TYPE_SPI
     then mcheck (has_cap (capabilities (b_ad b)) ESP_WLAN_SPI_SUPPORT) (- EPROTO)
     else if if_transport (b_ad b) =? ESP_IF_TYPE_SDIO
     then mcheck (has_cap (capabilities (b_ad b)) ESP_WLAN_SDIO_SUPPORT) (- EPROTO)
     else if if_transport (b_ad b) =? ESP_IF_TYPE_USB
     then mcheck (has_cap (capabilities (b_ad b)) ESP_WLAN_USB_SUPPORT) (- EPROTO)
     else mfail (- EINVAL)) b = (inr x, b1) <-> transport_cap (b_ad b) = true /\ b1 = b).
  { intros x b1. unfold transport_cap. repeat case_match; rewrite ?mcheck_last; try done.
    split; [intros [=]|by intros []]. }
  assert (Hspi : forall x b1,
    (if (if_transport (b_ad b) =? ESP_IF_TYPE_SPI) && negb (seen_spi_clk b)
     then let '(ret, a') := esp_adjust_spi_clock ops 0 (b_ad b) in
          mput (b <| b_ad := a' |>) ;;; mcheck (ret =? 0) ret
     else mret tt) b = (inr x, b1) <->
    (if_transport (b_ad b) = ESP_IF_TYPE_SPI -> seen_spi_clk b = false ->
      (esp_adjust_spi_clock ops 0 (b_ad b)).1 = 0) /\ b1 = b).
  { intros x b1. pose proof (chip_spi_frame 0 (b_ad b)) as Ea.
    destruct (if_transport (b_ad b) =? ESP_IF_TYPE_SPI) eqn:E1; cbn [andb]; bool_hyps.
    2: { unfold mret. split; [intros H; simplify_eq; split; [intros Hx; by destruct E1|done]|intros [_ ->]; by destruct x]. }
    destruct (seen_spi_clk b) eqn:E2; cbn [negb].
    { unfold mret. split; [intros H; simplify_eq; done|intros [_ ->]; by destruct x]. }
    destruct (esp_adjust_spi_clock ops 0 (b_ad b)) as [ret a']. cbn [fst snd] in Ea |- *. subst a'.
    cbn iota beta. unfold mbind at 1, mput at 1. rewrite mcheck_last, Z.eqb_eq.
    replace (b <| b_ad := b_ad b |>) with b by (by destruct b). split; intros [? ?]; auto. }
  split.
  - intros (H1 & x & b1 & [H2 ->]%Hcap & H3). rewrite mcheck_ok, mbind_ok in H3.
    destruct H3 as (H3 & x' & b1 & [H4 ->]%Hspi & H5).
    unfold mbind at 1, mget at 1 in H5. rewrite !mcheck_ok, mcheck_last in H5.
    destruct H5 as (H5 & H6 & H7 & ->). apply negb_true_iff, Z.eqb_neq in H3.
    repeat (split; [done|]). split; [|done]. by apply nonce_checks.
  - intros (H1 & H2 & H3 & H4 & H5 & ->). split; [done|]. exists tt, b. split; [by apply Hcap|].
    rewrite mcheck_ok, mbind_ok. split; [by apply negb_true_iff, Z.eqb_neq|].
    exists tt, b. split; [by apply Hspi|].
    unfold mbind at 1, mget at 1. rewrite !mcheck_ok, mcheck_last.
    apply nonce_checks in H5 as (? & ? & ?). done.
Qed.
End Accepted.

(** ** Agreement of the early classifier with the parser *)
Lemma legacy_scan_spec ops fuel data b b' :
  boot_tlvs ops fuel data b = (inr tt, b') -> (length data <= fuel)%nat -> ChipLaws ops ->
  legacy_scan fuel data (ext_capabilities (b_ad b)) (seen_ext_capability b) =
    seen_ext_capability b' && has_ext_cap (ext_capabilities (b_ad b')) ESP_EXT_CAP_RCP
    && negb (has_ext_cap (ext_capabilities (b_ad b')) ESP_EXT_CAP_RADIO_SERVICE_CTRL).
Proof.
  intros H Hl L. revert data b H Hl. induction fuel as [|f IH]; intros data b.
  { intros [= <-] _. by destruct data as [|? [|? ?]]. }
  destruct data as [|tag [|n body]]; [by intros [= <-]|intros [=]|].
  rewrite boot_tlvs_cons, mcheck_ok, mbind_ok. intros (Hn & [] & b1 & H1 & H2) Hl.
  apply boot_tlv_spec in H1. bool_hyps. cbn [legacy_scan]. rewrite (proj2 (Z.ltb_ge _ _)) by done.
  apply IH in H2; [|cbn in Hl; unfold zdrop; rewrite length_drop; lia].
  assert (Htag : tag_of tag = Some ESP_BOOTUP_EXT_CAPABILITY <-> tag = ESP_BOOTUP_EXT_CAPABILITY).
  { unfold tag_of. cbn. repeat case_match; bool_hyps; split; congruence. }
  destruct (tag =? ESP_BOOTUP_EXT_CAPABILITY) eqn:Et; bool_hyps.
  - rewrite (proj2 Htag Et) in H1. inversion H1; subst b1; subst.
    assert (n = 4) as -> by (match goal with H : zlen _ = 4 |- _ => revert H end; zlia).
    match goal with H : seen_ext_capability b = false |- _ => rewrite H end. exact H2.
  - cbn [andb].
    assert (ext_capabilities (b_ad b1) = ext_capabilities (b_ad b) /\
            seen_ext_capability b1 = seen_ext_capability b) as [E1 E2].
    { destruct H1 as [| | | | |b ret a Hs Hv Hret E| |b ret a Hs Hv Hz Hret E| |]; try done.
      - by destruct Et, Htag; auto.
      - pose proof (chip_validate_frame (byte_at 0 (ztake n body)) (b_ad b)) as [ch Ea].
        rewrite E in Ea. cbn in Ea. by subst.
      - pose proof (chip_spi_frame (byte_at 0 (ztake n body)) (b_ad b)) as Ea.
        rewrite E in Ea. cbn in Ea. by subst. }
    by rewrite E1, E2 in H2.
Qed.

(** ** No inheritance between incarnations *)

(** Boot metadata, with the transport that selects the checks. *)
Definition metadata (a : esp_adapter) :=
  (if_transport a, capabilities a, ext_capabilities a, rcp_session_nonce a,
   (base_mac a, base_mac_count a, base_mac_present a), chipset a, tx_aggr_size a).

Definition same_boot (b b' : boot_state) : Prop :=
  metadata (b_ad b) = metadata (b_ad b') /\
  seen_capability b = seen_capability b' /\ seen_chipset b = seen_chipset b' /\
  seen_fw_data b = seen_fw_data b' /\ seen_rx_buf_size b = seen_rx_buf_size b' /\
  seen_spi_clk b = seen_spi_clk b' /\ seen_ext_capability b = seen_ext_capability b' /\
  seen_rcp_nonce b = seen_rcp_nonce b'.

(** The hooks decide from their argument, not from the adapter's history. *)
Definition hooks_stateless (ops : chip_ops) : Prop :=
  forall c a a', (esp_validate_chipset ops c a).1 = (esp_validate_chipset ops c a').1 /\
    chipset (esp_validate_chipset ops c a).2 = chipset (esp_validate_chipset ops c a').2 /\
    (esp_adjust_spi_clock ops c a).1 = (esp_adjust_spi_clock ops c a').1.

Lemma same_boot_effect ops {L : ChipLaws ops} t val b b1 b' :
  hooks_stateless ops -> tlv_effect ops val t b b' -> same_boot b b1 ->
  exists b1', tlv_effect ops val t b1 b1' /\ same_boot b' b1'.
Proof.
  intros Hst He Hs. unfold same_boot, metadata in Hs.
  destruct Hs as (Hm & H1 & H2 & H3 & H4 & H5 & H6 & H7).
  injection Hm as M1 M2 M3 M4 M5 M6 M7 M8 M9.
  destruct He as [| | | |b Hx Hl Hi|b ret a Hx Hl Hret E| |b ret a Hx Hl Hz Hret E| |].
  all: try (eexists; split; [constructor; congruence|];
    unfold same_boot, metadata; cbn; repeat split; congruence).
  - pose proof (chip_validate_frame (byte_at 0 val) (b_ad b)) as [ch Ea].
    pose proof (chip_validate_frame (byte_at 0 val) (b_ad b1)) as [ch' Ea'].
    destruct (Hst (byte_at 0 val) (b_ad b) (b_ad b1)) as (Er & Ec & _).
    destruct (esp_validate_chipset ops (byte_at 0 val) (b_ad b1)) as [ret' a'] eqn:E'.
    rewrite E in Ea, Er, Ec. cbn in *. subst.
    eexists. split; [eapply (eff_chip ops val b1 ret'); [congruence|done|done|exact E']|].
    cbn in Ec. unfold same_boot, metadata. cbn. repeat split; congruence.
  - pose proof (chip_spi_frame (byte_at 0 val) (b_ad b)) as Ea.
    pose proof (chip_spi_frame (byte_at 0 val) (b_ad b1)) as Ea'.
    destruct (Hst (byte_at 0 val) (b_ad b) (b_ad b1)) as (_ & _ & Er).
    destruct (esp_adjust_spi_clock ops (byte_at 0 val) (b_ad b1)) as [ret' a'] eqn:E'.
    rewrite E in Ea, Er. cbn in *. subst.
    eexists. split; [eapply (eff_spi ops val b1 ret'); [congruence|done|done|done|exact E']|].
    unfold same_boot, metadata. cbn. repeat split; congruence.
Qed.

Lemma same_boot_tlvs ops {L : ChipLaws ops} fuel data b b1 b' :
  hooks_stateless ops -> boot_tlvs ops fuel data b = (inr tt, b') -> same_boot b b1 ->
  exists b1', boot_tlvs ops fuel data b1 = (inr tt, b1') /\ same_boot b' b1'.
Proof.
  intros Hst. revert data b b1. induction fuel as [|f IH]; intros data b b1.
  { intros [= <-] Hs. by exists b1. }
  destruct data as [|tag [|n body]]; [intros [= <-] Hs; by exists b1|intros [=]|].
  rewrite boot_tlvs_cons, mcheck_ok, mbind_ok. intros (Hn & [] & b2 & H1 & H2) Hs.
  apply boot_tlv_spec in H1.
  destruct (same_boot_effect ops _ _ _ _ _ Hst H1 Hs) as (b2' & H1' & Hs').
  destruct (IH _ _ _ H2 Hs') as (b1' & H2' & Hs'').
  exists b1'. split; [|done]. rewrite mcheck_ok, mbind_ok.
  split; [done|]. exists tt, b2'. split; [by apply boot_tlv_spec|done].
Qed.

#[local] Instance same_boot_sym : Symmetric same_boot.
Proof. intros b b' (?&?&?&?&?&?&?&?). unfold same_boot. auto 10. Qed.

(** ** The firmware's event *)
Lemma tag_of_code t : tag_of (tag_code t) = Some t.
Proof. by destruct t. Qed.

(** Performing one known effect in front of the rest of the event. *)
Lemma parse_effect ops t val rest b b1 r :
  tlv_effect ops val (Some t) b b1 -> parse_boot_tlvs ops rest b1 = r ->
  parse_boot_tlvs ops (tlv (tag_code t) val ++ rest) b = r.
Proof.
  intros He Hr. rewrite parse_boot_tlvs_tlv. rewrite <- tag_of_code in He.
  apply boot_tlv_spec in He. unfold mbind. by rewrite He.
Qed.

(** What the USB firmware passes to its builder. *)
Definition fw_boot_ok (f : fw_boot) : Prop :=
  chip_id f = ESP_FIRMWARE_CHIP_ESP32S31 /\ spi_clk f = None /\
  in_width 32 (cap f) /\ has_cap (cap f) ESP_WLAN_USB_SUPPORT = true /\
  in_width 32 (ext_cap f) /\
  (has_ext_cap (ext_cap f) ESP_EXT_CAP_RCP = true ->
   has_ext_cap (ext_cap f) ESP_EXT_CAP_RADIO_SERVICE_CTRL = true) /\
  (forall mac, boot_mac f = Some mac -> zlen mac = 6 /\ forallb (Z.eqb 0) mac = false) /\
  rx_buf_sz f = 16384.

(** The adapter metadata the event stands for. *)
Definition mac_sent (f : fw_boot) : bool :=
  match boot_mac f with
  | Some mac => negb (Z.odd (byte_at 0 mac))
      && ((mac_count f =? 1) || (mac_count f =? 2) || (mac_count f =? 4))
  | None => false
  end.

Definition booted (f : fw_boot) (a : esp_adapter) : esp_adapter :=
  let a := a <| chipset := ESP_FIRMWARE_CHIP_ESP32S31 |> <| capabilities := cap f |>
             <| ext_capabilities := ext_cap f |> <| tx_aggr_size := 16384 |> in
  match boot_mac f with
  | Some mac => if mac_sent f then
      a <| base_mac := mac |> <| base_mac_count := mac_count f |> <| base_mac_present := true |>
    else a
  | None => a
  end.

Lemma booted_frame f a :
  if_transport (booted f a) = if_transport a /\ tx_aggr_size (booted f a) = 16384.
Proof.
  unfold booted, mac_sent. destruct (boot_mac f) as [m|]; cbv beta iota; [|done].
  by destruct (negb (Z.odd (byte_at 0 m)) && _).
Qed.

Lemma le_val_4 v : in_width 32 v -> le_val (le_bytes 4 v) = v.
Proof. intros. rewrite le_val_le_bytes. by apply wrap_id. Qed.

Lemma parse_mac ops mac n rest b r :
  (forall m, mac = Some m -> zlen m = 6 /\ forallb (Z.eqb 0) m = false) ->
  base_mac_present (b_ad b) = false ->
  parse_boot_tlvs ops rest
    (match mac with
     | Some m => if negb (Z.odd (byte_at 0 m)) && ((n =? 1) || (n =? 2) || (n =? 4)) then
         b <| b_ad := b_ad b <| base_mac := m |> <| base_mac_count := n |> <| base_mac_present := true |> |>
       else b
     | None => b
     end) = r ->
  parse_boot_tlvs ops (esp_hosted_add_boot_mac_tlv mac n ++ rest) b = r.
Proof.
  intros Hm Hb Hr. unfold esp_hosted_add_boot_mac_tlv. destruct mac as [m|]; [|exact Hr].
  destruct (Hm m eq_refl) as [Hl Hz].
  destruct (Z.odd (byte_at 0 m)) eqn:Ho; [exact Hr|]. cbn [orb negb andb] in *.
  rewrite <- !negb_orb. destruct ((n =? 1) || (n =? 2) || (n =? 4)) eqn:En; cbn [negb].
  - assert (Hn : byte_at 6 (m ++ [n]) = n).
    { unfold byte_at. rewrite app_nth2 by (unfold zlen in Hl; lia).
      by replace (Z.to_nat 6 - length m)%nat with 0%nat by (unfold zlen in Hl; lia). }
    assert (Ht : ztake 6 (m ++ [n]) = m) by by apply ztake_app_exact.
    rewrite (ztake_ge MAC_ADDR_LEN m) by (unfold MAC_ADDR_LEN; lia).
    eapply (parse_effect ops ESP_BOOTUP_BASE_MAC_INFO); [|exact Hr].
    match goal with |- tlv_effect _ _ _ _ ?b1 =>
      replace b1 with (b <| b_ad := b_ad b <| base_mac := ztake 6 (m ++ [n]) |>
        <| base_mac_count := byte_at 6 (m ++ [n]) |> <| base_mac_present := true |> |>)
        by (by rewrite Hn, Ht) end.
    apply eff_mac; [done|zlia| |].
    + rewrite <- is_valid_ether_addr_take by zlia. rewrite Ht. unfold is_valid_ether_addr.
      rewrite Ho, ztake_ge, Hz by lia. done.
    + rewrite Hn. apply orb_true_iff in En as [En|?]; [apply orb_true_iff in En as [?|?]|];
        bool_hyps; auto.
  - exact Hr.
Qed.

Lemma zlen_tlv tag val : zlen (tlv tag val) = 2 + zlen val.
Proof. unfold tlv. zlia. Qed.

(** The TLVs fit the event's length byte. *)
Lemma boot_tlv_bytes_len f : 0 <= zlen (boot_tlv_bytes f) < 256.
Proof.
  unfold boot_tlv_bytes.
  assert (zlen (if ext_cap f =? 0 then [] else
    tlv ESP_BOOTUP_EXT_CAPABILITY (le_bytes 4 (ext_cap f))) <= 6).
  { destruct (ext_cap f =? 0); rewrite ?zlen_tlv; zlia. }
  assert (zlen match spi_clk f with Some c => tlv ESP_BOOTUP_SPI_CLK_MHZ [c] | None => [] end <= 3).
  { destruct (spi_clk f); rewrite ?zlen_tlv; zlia. }
  assert (zlen (esp_hosted_add_boot_mac_tlv (boot_mac f) (mac_count f)) <= 9).
  { unfold esp_hosted_add_boot_mac_tlv. destruct (boot_mac f) as [m|]; [|zlia].
    unfold MAC_ADDR_LEN. destruct (Z.odd _ || _); rewrite ?zlen_tlv; zlia. }
  rewrite !zlen_app, !zlen_tlv, !zlen_le_bytes.
  change (zlen (fw_data_bytes (reset_reason f))) with 12. change (zlen [chip_id f]) with 1. zlia.
Qed.

Lemma fw_data_version r : fw_version_string (fw_data_bytes r) = RELEASE_VERSION.
Proof. by vm_compute. Qed.

(** The parser on the firmware's TLVs. *)
Lemma parse_boot_tlv_bytes f a :
  fw_boot_ok f -> if_transport a = ESP_IF_TYPE_USB ->
  parse_boot_tlvs usb_chip_ops (boot_tlv_bytes f) (boot_start (reset_boot_metadata a)) =
    (inr tt, mk_boot (booted f (reset_boot_metadata a)) true true true true false
       (negb (ext_cap f =? 0)) false).
Proof.
  intros (Ec & Es & Hcap & Husb & Hext & _ & Hmac & Erx) Hif. unfold boot_tlv_bytes. rewrite Ec, Es.
  eapply (parse_effect _ ESP_BOOTUP_FIRMWARE_CHIP_ID).
  { eapply (eff_chip _ _ _ 0); [done|done|done|]. reflexivity. }
  rewrite app_nil_l. eapply (parse_effect _ ESP_BOOTUP_CAPABILITY).
  { apply eff_capability; [done|]. auto. }
  rewrite le_val_4 by done.
  match goal with |- parse_boot_tlvs _ _ ?b0 = _ => set (b1 := b0) end.
  assert (Hx : forall rest r,
    parse_boot_tlvs usb_chip_ops rest
      (b1 <| b_ad := b_ad b1 <| ext_capabilities := ext_cap f |> |>
          <| seen_ext_capability := negb (ext_cap f =? 0) |>) = r ->
    parse_boot_tlvs usb_chip_ops
      ((if ext_cap f =? 0 then [] else tlv ESP_BOOTUP_EXT_CAPABILITY (le_bytes 4 (ext_cap f))) ++ rest)
      b1 = r).
  { intros rest r Hr. destruct (ext_cap f =? 0) eqn:E0; bool_hyps.
    - rewrite E0 in Hr. exact Hr.
    - eapply (parse_effect _ ESP_BOOTUP_EXT_CAPABILITY); [by apply eff_ext|].
      rewrite le_val_4 by done. exact Hr. }
  apply Hx. apply parse_mac; [done|done|].
  match goal with |- parse_boot_tlvs _ _ ?b0 = _ => set (b2 := b0) end.
  assert (E2 : b2 = mk_boot (booted f (reset_boot_metadata a) <| tx_aggr_size := 0 |>) true true false
    false false (negb (ext_cap f =? 0)) false).
  { subst b2 b1. unfold booted, mac_sent. destruct (boot_mac f) as [m|]; [|done].
    cbv beta iota. by destruct (negb (Z.odd (byte_at 0 m)) && _). }
  rewrite E2. clear b2 E2. rewrite Erx.
  destruct (booted_frame f (reset_boot_metadata a)) as [Eif Etx].
  eapply (parse_effect _ ESP_BOOTUP_RX_BUF_SIZE).
  { apply eff_rx; [done|done|]. cbn [b_ad].
    change (if_transport (booted f (reset_boot_metadata a) <| tx_aggr_size := 0 |>))
      with (if_transport (booted f (reset_boot_metadata a))). rewrite Eif.
    change (if_transport (reset_boot_metadata a)) with (if_transport a). by rewrite Hif. }
  rewrite le_val_4 by done.
  rewrite <- (app_nil_r (tlv ESP_BOOTUP_FW_DATA _)).
  eapply (parse_effect _ ESP_BOOTUP_FW_DATA).
  { apply eff_fw; [done|done|apply fw_data_version]. }
  rewrite parse_boot_tlvs_nil. f_equal. cbn -[booted]. f_equal.
  destruct (booted f (reset_boot_metadata a)). cbn in Etx |- *. by rewrite Etx.
Qed.

(** ** The handler *)
Section Handler.
Context {T : Type} (ops : esp_if_ops T) {Hops : IfOpsLaws ops} (cards : card_ops T) (m2j : Z -> Z).
Implicit Types s : sys T.

(** What the rest of the driver leaves alone while the boot handler calls it. *)
Record card_frame s s' : Prop := mk_card_frame {
  cf_meta : metadata (ad s') = metadata (ad s);
  cf_init : flag ESP_INIT_DONE (ad s') = flag ESP_INIT_DONE (ad s)
}.

Class CardLaws : Prop := {
  card_chip :: ChipLaws (chip cards);
  card_quiesce f s : quiesce_for_fw_reset cards = Some f -> card_frame s (f s).2;
  card_reinit f s : reinit_after_fw_reset cards = Some f -> card_frame s (f s).2;
  card_remove b s : card_frame s (esp_remove_card cards b s).2;
  card_wiphy s : card_frame s (esp_remove_wiphy cards s).2;
  card_add s : card_frame s (esp_add_card cards s).2;
  card_ota f s : esp_start_ota cards = Some f -> card_frame s (f s).2;
  card_raw f s : esp_init_raw_tp cards = Some f -> card_frame s (f s).2;
  card_purge s : card_frame s (purge_events cards s);
  card_bt s : card_frame s (esp_deinit_bt cards s)
}.
Context {HC : CardLaws}.

Local Notation bm := (bm (T:=T)).

(** Not initialised, with clean metadata. *)
Definition fresh s : Prop :=
  flag ESP_INIT_DONE (ad s) = false /\ base_mac_present (ad s) = false.
Definition not_init s : Prop := flag ESP_INIT_DONE (ad s) = false.

Lemma fresh_card s s' : card_frame s s' -> fresh s -> fresh s'.
Proof.
  intros [Hm Hi] [H1 H2]. split; [by rewrite Hi|]. unfold metadata in Hm. congruence.
Qed.
Lemma not_init_card s s' : card_frame s s' -> not_init s -> not_init s'.
Proof. unfold not_init. intros [_ Hi] H. by rewrite Hi. Qed.

Definition accepted (data : list Z) (b : boot_state) : Prop :=
  exists a, base_mac_present a = false /\
    parse_boot_tlvs (chip cards) data (boot_start a) = (inr tt, b) /\
    boot_accept (chip cards) b = (inr tt, b).

(** The exits: an early [return] means the driver is going away, or an OTA was
    started on an accepted image; [fail] is reached uninitialised. *)
Definition exit_ok (data : list Z) (e : exit) s : Prop :=
  match e with
  | Return r => (r = - ESHUTDOWN /\ unloading_or_removing (ad s) = true) \/
                (r = 0 /\ exists b, accepted data b)
  | Fail _ => not_init s
  | Fail_after_commit _ => True
  end.

Lemma hoare_call (P : sys T -> Prop) f label data :
  (forall s, P s -> P (f s).2) -> (forall r s, P s -> exit_ok data (label r) s) ->
  hoare P (call f label) (fun _ => P) (exit_ok data).
Proof.
  intros Hf Hl s Hs. unfold call. specialize (Hf s Hs). destruct (f s) as [ret s'].
  destruct (ret =? 0); auto.
Qed.

Lemma hoare_call_opt (P : sys T -> Prop) f label data :
  (forall g s, f = Some g -> P s -> P (g s).2) -> (forall r s, P s -> exit_ok data (label r) s) ->
  hoare P (call_opt f label) (fun _ => P) (exit_ok data).
Proof.
  intros Hf Hl. unfold call_opt. destruct f; [|by apply hoare_ret].
  apply hoare_call; [|done]. intros. by apply Hf.
Qed.

Lemma hoare_alive (P : sys T -> Prop) data :
  hoare P check_alive (fun _ => P) (exit_ok data).
Proof.
  intros s Hs. unfold check_alive, mbind, mget, mcheck. cbn.
  destruct (unloading_or_removing (ad s)) eqn:E; cbn; [by left|done].
Qed.

Lemma reset_boot_metadata_fresh a :
  flag ESP_INIT_DONE (reset_boot_metadata a) = false /\
  base_mac_present (reset_boot_metadata a) = false.
Proof.
  split; [|done]. unfold reset_boot_metadata.
  rewrite (flag_eq _ _ (clear_flag ESP_FW_RADIO_INIT_PENDING (clear_flag ESP_FW_RESTART_NEEDED
    (clear_flag ESP_INIT_DONE a)))) by done.
  rewrite !flag_clear_flag. cbn. by rewrite !andb_false_r.
Qed.

Lemma boot_prologue_spec data :
  hoare (fun _ => True) (boot_prologue cards) (fun _ => fresh) (exit_ok data).
Proof.
  unfold boot_prologue. eapply hoare_bind; [apply hoare_alive|intros []].
  eapply hoare_bind; [by apply (hoare_modify _ _ (fun _ _ => True))|intros []].
  eapply hoare_bind; [by apply (hoare_get _ (fun _ _ => True))|intros s0].
  eapply hoare_bind.
  { apply hoare_if; intros _; [by apply (hoare_modify _ _ (fun _ _ => True))|by apply hoare_ret]. }
  intros []. eapply hoare_bind.
  { apply (hoare_modify _ _ (fun _ => fresh)). intros s _. apply reset_boot_metadata_fresh. }
  intros []. apply (hoare_bind _ _ (fun _ => fresh)); [|intros []; by apply hoare_ret].
  apply hoare_if; intros _; [|by apply hoare_ret].
  eapply hoare_bind.
  { apply (hoare_modify _ _ (fun _ => fresh)). intros s [H1 H2]. split; [|exact H2].
    cbn. by rewrite flag_set_flag, H1. }
  intros []. eapply hoare_bind.
  { apply (hoare_modify _ _ (fun _ => fresh)). intros s. apply fresh_card, card_purge. }
  intros []. apply (hoare_bind _ _ (fun _ => fresh)).
  { apply hoare_call_opt; [|by intros r s []].
    intros g s Hg. apply fresh_card. by apply card_quiesce. }
  intros []. apply (hoare_bind _ _ (fun _ => fresh)); [|intros []; apply hoare_alive].
  apply hoare_call; [|by intros r s []]. intros s. apply fresh_card, card_remove.
Qed.

(** Failing passes keep the frame as well. *)
Lemma boot_tlv_frame a tag val b :
  boot_frame a (b_ad b) -> boot_frame a (b_ad (boot_tlv (chip cards) tag val b).2).
Proof.
  intros Hf.
  destruct (boot_tlv (chip cards) tag val b) as [[e|[]] b'] eqn:E.
  2: { apply boot_tlv_spec in E. exact (boot_frame_effect (chip cards) a _ _ _ _ E Hf). }
  revert E Hf. unfold boot_tlv. unfold mbind at 1, mget at 1. unfold on_b_ad, mbind, mcheck, mmodify.
  destruct b as [ad0 c ch fw rx spi ex no]. cbn [b_ad seen_capability seen_chipset seen_fw_data
    seen_rx_buf_size seen_spi_clk seen_ext_capability seen_rcp_nonce].
  destruct (tag_of tag) as [[]|]; unfold mret, mfail.
  - split_ifs; intros; simplify_eq/=; done.
  - unfold process_fw_data, check_esp_version. split_ifs; intros; simplify_eq/=; done.
  - destruct (negb spi); [|by intros; simplify_eq/=].
    destruct (negb (negb (zlen val =? 1) || (byte_at 0 val =? 0))); [|by intros; simplify_eq/=].
    unfold call_chip, mbind, mget, mput. cbn.
    pose proof (chip_spi_frame (ops:=chip cards) (byte_at 0 val) ad0) as Ea.
    destruct (esp_adjust_spi_clock _ _ _) as [ret a1]. cbn in Ea. subst a1.
    unfold mmodify, mcheck, mret, mfail. destruct (ret =? 0), (0 <=? ret); intros; simplify_eq/=; done.
  - destruct (negb ch), (zlen val =? 1); try (intros; simplify_eq/=; done).
    unfold call_chip, mbind, mget, mput. cbn.
    pose proof (chip_validate_frame (ops:=chip cards) (byte_at 0 val) ad0) as [c0 Ea].
    destruct (esp_validate_chipset _ _ _) as [ret a1]. cbn in Ea. subst a1.
    unfold mmodify, mcheck, mret, mfail. destruct (ret =? 0), (0 <=? ret); intros; simplify_eq/=; done.
  - intros; simplify_eq/=; done.
  - split_ifs; intros; simplify_eq/=; done.
  - split_ifs; intros; simplify_eq/=; done.
  - split_ifs; intros; simplify_eq/=; done.
  - split_ifs; intros; simplify_eq/=; done.
  - intros; simplify_eq/=; done.
Qed.

Lemma boot_tlvs_frame a fuel data b :
  boot_frame a (b_ad b) -> boot_frame a (b_ad (boot_tlvs (chip cards) fuel data b).2).
Proof.
  revert data b. induction fuel as [|f IH]; intros data b Hf; [done|].
  destruct data as [|tag [|n body]]; [done|done|]. rewrite boot_tlvs_cons.
  unfold mbind, mcheck. destruct (n <=? zlen body); [|done]. unfold mret.
  pose proof (boot_tlv_frame a tag (ztake n body) b Hf) as H1.
  destruct (boot_tlv _ _ _ b) as [[e|[]] b1]; [done|]. by apply IH.
Qed.

Lemma boot_accept_frame b r :
  boot_accept (chip cards) b = r -> b_ad r.2 = b_ad b.
Proof.
  intros <-. unfold boot_accept. unfold mbind at 1, mget at 1.
  unfold mbind at 1, mcheck at 1. destruct (_ && _ && _); [|done]. unfold mret at 1.
  unfold mbind at 1.
  match goal with |- b_ad (match ?m with _ => _ end).2 = _ =>
    assert (Hm : m.2 = b) by (unfold mcheck, mret, mfail; repeat case_match; done);
    destruct m as [[e|[]] b1]; cbn in Hm; subst b1; [done|] end.
  unfold mbind at 1, mcheck at 1. destruct (negb _); [|done]. unfold mret at 1.
  unfold mbind at 1.
  assert (Hspi : forall m,
    (m = if (if_transport (b_ad b) =? ESP_IF_TYPE_SPI) && negb (seen_spi_clk b)
     then let '(ret, a') := esp_adjust_spi_clock (chip cards) 0 (b_ad b) in
          mput (b <| b_ad := a' |>) ;;; mcheck (ret =? 0) ret
     else mret tt) -> b_ad (m b).2 = b_ad b).
  { intros m ->. destruct (_ && _); [|done].
    pose proof (chip_spi_frame (ops:=chip cards) 0 (b_ad b)) as Ea.
    destruct (esp_adjust_spi_clock _ _ _) as [ret a1]. cbn in Ea. subst a1.
    unfold mbind, mput, mcheck. by destruct (ret =? 0). }
  specialize (Hspi _ eq_refl).
  match goal with |- b_ad (match ?m with _ => _ end).2 = _ =>
    destruct m as [[e|[]] b1]; cbn in Hspi; [done|] end.
  unfold mbind, mget, mcheck, mret, mfail. repeat case_match; simplify_eq/=; done.
Qed.

Lemma boot_reconstruct_spec data r :
  (exists b, accepted data b) ->
  hoare not_init (boot_reconstruct ops cards m2j r) (fun _ _ => True) (exit_ok data).
Proof.
  intros Hacc. unfold boot_reconstruct.
  assert (HF : forall r s, not_init s -> exit_ok data (Fail r) s) by done.
  apply (hoare_bind _ _ (fun _ => not_init)).
  { apply hoare_if; intros _; [|by apply hoare_ret].
    apply hoare_call_opt; [|done]. intros g s Hg. apply not_init_card. by apply card_reinit. }
  intros []. apply (hoare_bind _ _ (fun _ => not_init)).
  { apply hoare_modify. unfold not_init. intros s H.
    rewrite (flag_eq _ _ (set_flag ESP_ALLOW_RECONSTRUCT (ad s))) by done.
    by rewrite flag_set_flag, H. }
  intros []. apply (hoare_bind _ _ (fun _ => not_init)); [by apply hoare_modify|].
  intros []. apply (hoare_bind _ _ (fun _ => not_init)); [by apply hoare_get|].
  intros s0. apply (hoare_bind _ _ (fun _ => not_init)).
  { apply hoare_if; intros _; [|by apply hoare_ret].
    apply hoare_call; [|done]. intros s. apply not_init_card, card_wiphy. }
  intros []. apply (hoare_bind _ _ (fun _ => not_init)).
  { apply hoare_call; [|done]. intros s. apply not_init_card, card_add. }
  intros []. apply (hoare_bind _ _ (fun _ => not_init)).
  { destruct (esp_start_ota cards) as [ota|] eqn:Eo; [|by apply hoare_ret].
    intros s Hs. pose proof (not_init_card _ _ (card_ota ota s Eo) Hs) as Hs'.
    destruct (ota s) as [ret s']. destruct (negb (ret =? 0)).
    - by destruct (flag ESP_FW_RESET_EXPECTED (ad s')).
    - by right. }
  intros []. apply (hoare_bind _ _ (fun _ => not_init)).
  { apply hoare_call_opt; [|done]. intros g s Hg. apply not_init_card. by apply card_raw. }
  intros _. by apply hoare_modify.
Qed.

Lemma boot_publish_spec data :
  hoare (fun _ => True) (boot_publish ops cards) (fun _ _ => True) (exit_ok data).
Proof.
  assert (HF : forall f, hoare (fun _ => True) (call f Fail_after_commit)
    (fun _ _ => True) (exit_ok data)) by (intros; by apply hoare_call).
  unfold boot_publish.
  eapply hoare_bind; [apply HF|intros []]. eapply hoare_bind; [apply HF|intros []].
  eapply hoare_bind; [by apply (hoare_call_opt (fun _ => True))|intros []].
  eapply hoare_bind; [by apply (hoare_get _ (fun _ _ => True))|intros s0].
  apply hoare_if; intros _.
  - eapply hoare_bind; [by apply (hoare_modify _ _ (fun _ _ => True))|intros []].
    by apply hoare_modify.
  - eapply hoare_bind.
    { apply hoare_if; intros _; [apply HF|by apply hoare_ret]. }
    intros []. eapply hoare_bind; [apply HF|intros []]. by apply hoare_modify.
Qed.

Lemma boot_body_spec data :
  hoare (fun _ => True) (boot_body ops cards m2j data)
    (fun _ _ => exists b, accepted data b) (exit_ok data).
Proof.
  unfold boot_body. eapply hoare_bind; [apply boot_prologue_spec|intros r].
  apply (hoare_bind _ _ (fun b s => not_init s /\ b_ad b = ad s /\
    exists a, base_mac_present a = false /\
      parse_boot_tlvs (chip cards) data (boot_start a) = (inr tt, b))).
  { intros s [Hi Hb]. unfold run_boot, parse_boot_tlvs.
    pose proof (boot_tlvs_frame (ad s) (length data) data (boot_start (ad s)) ltac:(done))
      as (_ & Hfl & _).
    destruct (boot_tlvs _ _ _ _) as [[e|[]] b] eqn:Eb; cbn in Hfl |- *.
    - unfold not_init. cbn. by rewrite (flag_eq _ _ (ad s)).
    - unfold not_init. cbn. rewrite (flag_eq _ _ (ad s)) by done. split_and!; [done|done|]. by eexists. }
  intros b. eapply hoare_bind; [apply hoare_alive|intros []].
  apply (hoare_bind _ _ (fun _ s => not_init s /\ exists b, accepted data b)).
  { intros s (Hi & Eb & a & Ha & Hp). unfold run_boot.
    assert (E : b <| b_ad := ad s |> = b) by (destruct b; cbn in *; by subst). rewrite E.
    pose proof (boot_accept_frame b _ eq_refl) as Hfr.
    destruct (boot_accept (chip cards) b) as [[e|[]] b'] eqn:Eacc; cbn in Hfr |- *.
    - unfold not_init. cbn. rewrite (flag_eq _ _ (ad s)); [done|congruence].
    - unfold not_init. cbn. rewrite (flag_eq _ _ (ad s)) by congruence. split; [done|].
      pose proof (proj1 (boot_accept_ok (chip cards) b b') Eacc) as (_ & _ & _ & _ & _ & ->).
      exists b, a. done. }
  intros _ s [Hi Hacc]. revert s Hi.
  change (hoare not_init (boot_reconstruct ops cards m2j r ;;; boot_publish ops cards)
    (fun _ _ => exists b, accepted data b) (exit_ok data)).
  eapply hoare_bind; [by apply boot_reconstruct_spec|intros []].
  eapply hoare_consequence; [apply boot_publish_spec|done|done|done].
Qed.
End Handler.

(** ** Properties *)
Section Properties.
Context {T : Type} (ops : esp_if_ops T) {Hops : IfOpsLaws ops} (cards : card_ops T)
  {HC : CardLaws cards} (m2j : Z -> Z).
Implicit Types s : sys T.


(** A failed boot never leaves the driver idle. If the handler returns
    an error and the driver is not being torn down, the adapter is not
    initialised, the reconstruction bracket is closed, a recovery request is
    pending and its timer is armed. *)
Theorem boot_failure_rearms data s ret s' :
  process_event_esp_bootup ops cards m2j data s = (ret, s') -> ret <> 0 ->
  unloading_or_removing (ad s') = true \/
  (flag ESP_INIT_DONE (ad s') = false /\ flag ESP_ALLOW_RECONSTRUCT (ad s') = false /\
   flag ESP_FW_RECOVERY_PENDING (ad s') = true /\ timer s' <> None).
Proof.
  intros H Hret. pose proof (boot_body_spec ops cards m2j data s I) as Hspec.
  unfold process_event_esp_bootup in H.
  assert (Hfail : forall r s1, not_init s1 -> boot_fail ops m2j r s1 = (ret, s') ->
    unloading_or_removing (ad s') = true \/
    (flag ESP_INIT_DONE (ad s') = false /\ flag ESP_ALLOW_RECONSTRUCT (ad s') = false /\
     flag ESP_FW_RECOVERY_PENDING (ad s') = true /\ timer s' <> None)).
  { intros r s1 Hi [= _ <-]. set (s2 := esp_clear_reconstruct_flag s1).
    unfold esp_bootup_request_retry.
    destruct (unloading_or_removing (ad s2)) eqn:Hu; [by left|]. right.
    set (s3 := on_ad (clear_flag ESP_CLEANUP_IN_PROGRESS) s2).
    assert (Hu3 : unloading_or_removing (ad s3) = false).
    { unfold unloading_or_removing in *.
      change (ad s3) with (clear_flag ESP_CLEANUP_IN_PROGRESS (ad s2)).
      by rewrite !flag_clear_flag, !andb_true_r. }
    destruct (schedule_recovery_spec (ops:=ops) m2j ESP_FW_RECOVERY_WATCHDOG_MS true true s3 Hu3)
      as [_ _ _ _ _ Hf Ht _ _].
    set (s4 := esp_schedule_recovery _ _ _ _ _ s3) in *. clearbody s4.
    destruct (restart_request (ops:=ops) m2j s4) as (Ep & Et).
    rewrite Ep by (by rewrite (Hf ESP_FW_RECOVERY_PENDING eq_refl)).
    rewrite !(restart_keeps m2j), !Hf by done. subst s3 s2. cbn. rewrite !flag_clear_flag, Hi.
    split_and!; try done; [by rewrite andb_false_r|by apply Et]. }
  destruct (boot_body ops cards m2j data s) as [[[r|r|r]|[]] s1].
  - left. injection H as -> ->. by destruct Hspec as [[_ ?]|[-> _]].
  - by apply (Hfail r s1).
  - eapply Hfail; [|exact H]. unfold not_init.
    destruct (card_remove cards true (esp_deinit_bt cards (on_ad (clear_flag ESP_INIT_DONE)
      (on_ad (set_flag ESP_CLEANUP_IN_PROGRESS) s1)))) as [_ ->].
    destruct (card_bt cards (on_ad (clear_flag ESP_INIT_DONE)
      (on_ad (set_flag ESP_CLEANUP_IN_PROGRESS) s1))) as [_ ->].
    cbn. rewrite flag_clear_flag. by rewrite andb_false_r.
  - by simplify_eq.
Qed.
End Properties.

(** nothing is inherited from the previous firmware incarnation. Two
    adapters on the same transport, whatever metadata their last boots left,
    are brought to the same metadata by the same event, and one accepts it
    exactly when the other does. *)
Theorem boot_metadata_independent ops {L : ChipLaws ops} a a' data b :
  hooks_stateless ops -> if_transport a = if_transport a' ->
  parse_boot_tlvs ops data (boot_start (reset_boot_metadata a)) = (inr tt, b) ->
  exists b', parse_boot_tlvs ops data (boot_start (reset_boot_metadata a')) = (inr tt, b') /\
    metadata (b_ad b) = metadata (b_ad b') /\
    (boot_accept ops b = (inr tt, b) <-> boot_accept ops b' = (inr tt, b')).
Proof.
  intros Hst Hif Hp.
  destruct (same_boot_tlvs ops (length data) data _ (boot_start (reset_boot_metadata a')) _ Hst Hp)
    as (b' & Hp' & Hs).
  { unfold same_boot, metadata. cbn. by rewrite Hif. }
  exists b'. split; [exact Hp'|]. split; [apply Hs|]. rewrite !(boot_accept_ok ops).
  destruct Hs as (Hm & H1 & H2 & H3 & _ & H5 & _ & H7). unfold metadata in Hm.
  injection Hm as M1 M2 M3 M4 M5 M6 M7 M8 M9. unfold transport_cap.
  rewrite M1, M2, M3, M4, M8, H1, H2, H3, H5, H7.
  destruct (Hst 0 (b_ad b) (b_ad b')) as (_ & _ & ->). tauto.
Qed.

(** C18: the boot event the USB firmware builds is accepted by the host and
    delivers exactly the firmware's configuration: chipset, capabilities,
    extended capabilities, base MAC and count, and the 16 KiB aggregate size;
    the event is also structurally valid and fits its length byte. *)
Theorem firmware_boot_event_accepted f a :
  fw_boot_ok f -> if_transport a = ESP_IF_TYPE_USB ->
  let evt := boot_event_bytes f in
  esp_bootup_event_structurally_valid evt = true /\
  exists b, parse_boot_tlvs usb_chip_ops (ztake (evt_len evt) (evt_data evt))
              (boot_start (reset_boot_metadata a)) = (inr tt, b) /\
    boot_accept usb_chip_ops b = (inr tt, b) /\
    b_ad b = booted f (reset_boot_metadata a).
Proof.
  intros Hf Hif evt.
  pose proof (boot_tlv_bytes_len f) as Hlen.
  assert (El : evt_len evt = zlen (boot_tlv_bytes f)) by (apply wrap_id; unfold in_width; lia).
  assert (Ed : evt_data evt = boot_tlv_bytes f) by done.
  split.
  - unfold esp_bootup_event_structurally_valid, offsetof_boot_data. rewrite El.
    assert (Ez : zlen evt = 8 + zlen (boot_tlv_bytes f)).
    { subst evt. unfold boot_event_bytes. zlia. }
    rewrite Ez. rewrite !(proj2 (Z.ltb_ge _ _)) by lia. done.
  - rewrite El, Ed, ztake_ge by lia. eexists. split; [by apply parse_boot_tlv_bytes|].
    split; [|done]. destruct Hf as (_ & _ & _ & Husb & _ & Hn & _). apply boot_accept_ok; [apply _|].
    destruct (booted_frame f (reset_boot_metadata a)) as [Eif _].
    assert (Efields : capabilities (booted f (reset_boot_metadata a)) = cap f /\
      ext_capabilities (booted f (reset_boot_metadata a)) = ext_cap f /\
      chipset (booted f (reset_boot_metadata a)) = ESP_FIRMWARE_CHIP_ESP32S31).
    { unfold booted. destruct (boot_mac f); [by destruct (mac_sent f)|done]. }
    destruct Efields as (E1 & E2 & E3). cbn -[booted].
    change (if_transport (reset_boot_metadata a)) with (if_transport a) in Eif.
    unfold transport_cap. rewrite Eif, Hif, E1, E2, E3.
    split_and!; try done. unfold nonce_ok.
    destruct (has_ext_cap (ext_cap f) ESP_EXT_CAP_RCP) eqn:Er,
      (has_ext_cap (ext_cap f) ESP_EXT_CAP_RADIO_SERVICE_CTRL) eqn:Ec; intuition congruence.
Qed.

(** the receive path's early classifier agrees with the parser: for an event
    whose TLVs parse, [esp_bootup_event_legacy_rcp_active] answers exactly
    whether the parsed extended capabilities announce an RCP that is active at
    boot (RCP without runtime radio control). *)
Theorem legacy_rcp_agrees ops {L : ChipLaws ops} buf a b :
  esp_bootup_event_structurally_valid buf = true -> ext_capabilities a = 0 ->
  parse_boot_tlvs ops (ztake (evt_len buf) (evt_data buf)) (boot_start a) = (inr tt, b) ->
  esp_bootup_event_legacy_rcp_active buf =
    has_ext_cap (ext_capabilities (b_ad b)) ESP_EXT_CAP_RCP
    && negb (has_ext_cap (ext_capabilities (b_ad b)) ESP_EXT_CAP_RADIO_SERVICE_CTRL).
Proof.
  intros Hv He Hp. unfold esp_bootup_event_legacy_rcp_active. rewrite Hv. cbn [negb].
  pose proof (legacy_scan_spec ops _ _ _ _ Hp ltac:(lia) L) as Hs. cbn [b_ad boot_start seen_ext_capability] in Hs.
  rewrite He in Hs. rewrite Hs. destruct (seen_ext_capability b) eqn:Eb; [done|].
  assert (Hz : seen_ext_capability b = false -> ext_capabilities (b_ad b) = 0).
  { apply (boot_tlvs_preserve ops (fun b => seen_ext_capability b = false ->
      ext_capabilities (b_ad b) = 0) _ _ _ _) with (2 := Hp); [|done].
    intros t val b1 b2 He' Hx. destruct He' as [| | | | |b0 ret a' Hs' Hv' Hret E| |b0 ret a' Hs' Hv' Hz Hret E| |];
      cbn in *; try done.
    - pose proof (chip_validate_frame (byte_at 0 val) (b_ad b0)) as [ch Ea].
      rewrite E in Ea. cbn in Ea. by subst.
    - pose proof (chip_spi_frame (byte_at 0 val) (b_ad b0)) as Ea. rewrite E in Ea. cbn in Ea. by subst. }
  by rewrite (Hz Eb).
Qed.

(** ** The checksum classifier and four-byte capability TLVs *)
Lemma checksum_scan_none tlvs fuel w :
  Forall (fun t : ESP_BOOTUP_TAG_TYPE * list Z => t.1 = ESP_BOOTUP_CAPABILITY -> zlen t.2 <> 1) tlvs ->
  checksum_scan fuel (concat ((fun t => tlv (tag_code t.1) t.2) <$> tlvs)) w = None.
Proof.
  intros H. revert fuel. induction H as [|[t v] tlvs Ht _ IH]; intros fuel; [by destruct fuel|].
  destruct fuel as [|fuel]; [done|]. cbn [fmap list_fmap concat tlv app fst snd checksum_scan] in *.
  rewrite (proj2 (Z.ltb_ge _ _)) by zlia. rewrite zdrop_app_exact by done. rewrite IH.
  destruct t; try done. cbn. by rewrite (proj2 (Z.eqb_neq _ _) (Ht eq_refl)).
Qed.

(** The firmware sends its capability word in four bytes. *)
Lemma boot_tlv_bytes_tlvs f : exists tlvs : list (ESP_BOOTUP_TAG_TYPE * list Z),
  boot_tlv_bytes f = concat ((fun t => tlv (tag_code t.1) t.2) <$> tlvs) /\
  Forall (fun t => t.1 = ESP_BOOTUP_CAPABILITY -> zlen t.2 <> 1) tlvs.
Proof.
  exists ([(ESP_BOOTUP_FIRMWARE_CHIP_ID, [chip_id f])]
    ++ match spi_clk f with Some c => [(ESP_BOOTUP_SPI_CLK_MHZ, [c])] | None => [] end
    ++ [(ESP_BOOTUP_CAPABILITY, le_bytes 4 (cap f))]
    ++ (if ext_cap f =? 0 then [] else [(ESP_BOOTUP_EXT_CAPABILITY, le_bytes 4 (ext_cap f))])
    ++ match boot_mac f with
       | Some m => if Z.odd (byte_at 0 m) || (negb (mac_count f =? 1) && negb (mac_count f =? 2)
                        && negb (mac_count f =? 4)) then []
                   else [(ESP_BOOTUP_BASE_MAC_INFO, ztake MAC_ADDR_LEN m ++ [mac_count f])]
       | None => []
       end
    ++ [(ESP_BOOTUP_RX_BUF_SIZE, le_bytes 4 (rx_buf_sz f))]
    ++ [(ESP_BOOTUP_FW_DATA, fw_data_bytes (reset_reason f))]).
  unfold boot_tlv_bytes, esp_hosted_add_boot_mac_tlv.
  rewrite !fmap_app, !concat_app, !Forall_app.
  assert (Hne : forall t v, tag_code t <> ESP_BOOTUP_CAPABILITY ->
    Forall (fun t : ESP_BOOTUP_TAG_TYPE * list Z => t.1 = ESP_BOOTUP_CAPABILITY -> zlen t.2 <> 1) [(t, v)]).
  { intros t v Ht. constructor; [|done]. by intros [= ->]. }
  split.
  - repeat f_equal; cbn [concat fmap list_fmap fst snd tag_code]; rewrite ?app_nil_r; try done.
    + destruct (spi_clk f); cbn; by rewrite ?app_nil_r.
    + destruct (ext_cap f =? 0); cbn; by rewrite ?app_nil_r.
    + destruct (boot_mac f) as [m|]; [|done]. destruct (Z.odd _ || _); cbn; by rewrite ?app_nil_r.
  - split_and!; [by apply Hne| |by constructor| | |by apply Hne|by apply Hne].
    + destruct (spi_clk f); [by apply Hne|done].
    + destruct (ext_cap f =? 0); [done|by apply Hne].
    + destruct (boot_mac f) as [m|]; [|done]. destruct (Z.odd _ || _); [done|by apply Hne].
Qed.

(** the classifier that decides whether the boot event itself must carry a
    valid checksum never sees the capability word the firmware sends: for every
    configuration, checksums advertised or not, a boot event whose checksum
    field reads zero is passed unverified. *)
Theorem boot_checksum_never_required f hdr :
  esp_internal_checksum_required (hdr ++ boot_event_bytes f)
    (zlen (boot_event_bytes f)) (zlen hdr) 0 = false.
Proof.
  unfold esp_internal_checksum_required. rewrite zdrop_app_exact by done.
  pose proof (boot_tlv_bytes_len f) as Hlen.
  assert (El : evt_len (boot_event_bytes f) = zlen (boot_tlv_bytes f))
    by (apply wrap_id; unfold in_width; lia).
  assert (Ed : evt_data (boot_event_bytes f) = boot_tlv_bytes f) by done.
  rewrite El, Ed, ztake_ge by lia.
  assert (Hn : checksum_scan (length (boot_tlv_bytes f)) (boot_tlv_bytes f) 0 = None).
  { destruct (boot_tlv_bytes_tlvs f) as (tlvs & Et & Hall). rewrite Et at 2.
    by apply checksum_scan_none. }
  rewrite Hn. cbn [default]. split_ifs; done.
Qed.

(** ** Concrete runs *)
Definition demo_fw : fw_boot :=
  mk_fw_boot ESP_FIRMWARE_CHIP_ESP32S31 None
    (set_bit (cap_bit ESP_WLAN_USB_SUPPORT) (set_bit (cap_bit ESP_CHECKSUM_ENABLED) 0))
    (set_bit (ext_cap_bit ESP_EXT_CAP_RCP) (set_bit (ext_cap_bit ESP_EXT_CAP_RADIO_SERVICE_CTRL) 0))
    (Some [36; 111; 40; 1; 2; 3]) 4 16384 1.

Definition demo_adapter : esp_adapter := zero_adapter <| if_transport := ESP_IF_TYPE_USB |>.
Definition demo_boot_sys : sys unit := mk_sys demo_adapter tt 1000 None None 0.

Definition demo_cards : card_ops unit :=
  let ok := fun s : sys unit => (0, s) in
  mk_card_ops unit usb_chip_ops (Some ok) (Some ok) (fun _ => ok) (fun _ => false) ok ok None None
    ok ok None id ok ok id id.

#[export] Instance demo_cards_laws : CardLaws demo_cards.
Proof. constructor; try apply _; cbn; intros; simplify_eq; by constructor. Qed.

Lemma demo_fw_ok : fw_boot_ok demo_fw.
Proof. unfold fw_boot_ok, in_width. cbn. split_and!; try done; try lia. intros ? [= <-]. done. Qed.

Lemma demo_hooks_stateless : hooks_stateless usb_chip_ops.
Proof. intros c a a'. cbn. by case_match. Qed.


Lemma boot_failure_rearms_witness :
  timer (process_event_esp_bootup (demo_ops 0) demo_cards demo_m2j [] demo_boot_sys).2 <> None.
Proof.
  destruct (boot_failure_rearms (demo_ops 0) demo_cards demo_m2j [] demo_boot_sys (- EPROTO)
    (process_event_esp_bootup (demo_ops 0) demo_cards demo_m2j [] demo_boot_sys).2)
    as [H|(_ & _ & _ & H)].
  - vm_compute. reflexivity.
  - done.
  - vm_compute in H. done.
  - exact H.
Defined.

(** The same event after an incarnation with other metadata. *)
Definition demo_stale_adapter : esp_adapter :=
  demo_adapter <| capabilities := 255 |> <| rcp_session_nonce := 7 |> <| chipset := 9 |>
    <| base_mac_present := true |>.

Lemma boot_metadata_independent_witness : exists b',
  parse_boot_tlvs usb_chip_ops (boot_tlv_bytes demo_fw)
    (boot_start (reset_boot_metadata demo_stale_adapter)) = (inr tt, b').
Proof.
  destruct (boot_metadata_independent usb_chip_ops demo_adapter demo_stale_adapter
    (boot_tlv_bytes demo_fw) (parse_boot_tlvs usb_chip_ops (boot_tlv_bytes demo_fw)
      (boot_start (reset_boot_metadata demo_adapter))).2) as (b' & H & _).
  - apply demo_hooks_stateless.
  - reflexivity.
  - vm_compute. reflexivity.
  - by exists b'.
Defined.

Lemma firmware_boot_event_accepted_witness :
  esp_bootup_event_structurally_valid (boot_event_bytes demo_fw) = true.
Proof.
  destruct (firmware_boot_event_accepted demo_fw demo_adapter demo_fw_ok eq_refl) as [H _].
  exact H.
Defined.

Lemma legacy_rcp_agrees_witness :
  esp_bootup_event_legacy_rcp_active (boot_event_bytes demo_fw) = false.
Proof.
  rewrite (legacy_rcp_agrees usb_chip_ops (boot_event_bytes demo_fw)
    (reset_boot_metadata demo_adapter)
    (parse_boot_tlvs usb_chip_ops (boot_tlv_bytes demo_fw)
      (boot_start (reset_boot_metadata demo_adapter))).2).
  - vm_compute. reflexivity.
  - reflexivity.
  - reflexivity.
  - vm_compute. reflexivity.
Defined.
