(* ===== verification/RcpHost.v ===== *)
(** * RcpHost: the host's IEEE 802.15.4 RCP byte pipe

    The character device of [host/esp_rcp.c]: its session life cycle (boot
    event, registration, open, nonce confirmation, close, teardown), the two
    receive queues, the bounded TX slots and the chunking writer, with the
    common packet output [esp_send_packet] of [host/main.c].

    One lock region of the C code is one function here.  A function that
    sleeps with the locks released takes what the rest of the driver does
    meanwhile as an argument ([wake]), and [esp_rcp_open] is split at its wait
    for the confirmation. *)
From S2P Require Import Prelude Wire Adapter Recovery.

Definition ESP_RCP_RX_QUEUE_LIMIT : nat := 64.
Definition ESP_RCP_TX_INFLIGHT_LIMIT : Z := 64.
Definition ESP_RCP_HOSTED_CHUNK_MAX : Z := 1400.
Definition ESP_RCP_SESSION_VERSION : Z := 1.

(** ** Session markers *)

(** [struct esp_rcp_session_marker]: version, three reserved bytes, le64 nonce. *)
Definition sizeof_session_marker : Z := 12.
Definition marker_bytes (version nonce : Z) : list Z := [version; 0; 0; 0] ++ le_bytes 8 nonce.
Definition marker_version (data : list Z) : Z := byte_at 0 data.
Definition marker_nonce (data : list Z) : Z := le_at 8 4 data.

(** The header both senders fill in; [total_len] is a [size_t] here. *)
Definition rcp_pad_len (n : Z) : Z :=
  u8 (sizeof_header + (SKB_DATA_ADDR_ALIGNMENT - (n + sizeof_header) mod SKB_DATA_ADDR_ALIGNMENT)
                        mod SKB_DATA_ADDR_ALIGNMENT).

Definition rcp_header (packet_type : ESP_PACKET_TYPE) (n pad : Z) : esp_payload_header :=
  mk_header (if_code ESP_RCP_IF) 0 0 (pkt_code packet_type) 0 (u16 n) (u16 pad) 0 0 0.

(** [be] and [addr] are the host's byte order and the buffer's address, which
    the checksum routine depends on only internally. *)
Definition rcp_skb (be : bool) (addr caps : Z) (packet_type : ESP_PACKET_TYPE) (payload : list Z)
    : list Z :=
  let pad := rcp_pad_len (zlen payload) in
  let h := rcp_header packet_type (zlen payload) pad in
  let tail := replicate (Z.to_nat (pad - sizeof_header)) 0 ++ payload in
  let skb := encode_header h ++ tail in
  if has_cap caps ESP_CHECKSUM_ENABLED then
    encode_header (h <| checksum := compute_checksum be addr skb (zlen payload + pad) |>) ++ tail
  else skb.

(** ** State

    The file-scope variables.  The driver has a single adapter ([main.c]), so an
    adapter pointer is either NULL ([false]) or it. *)
Record rcp := mk_rcp {
  rcp_rx_q : list (list Z);
  rcp_early_q : list (list Z);
  rcp_queue_initialized : bool;
  rcp_boot_pending : bool;
  rcp_early_overflow : bool;
  rcp_boot_adapter : bool;
  rcp_registered : bool;
  rcp_opened : bool;
  rcp_ever_opened : bool;
  rcp_opening_first : bool;
  rcp_generation : Z;            (* u32 *)
  rcp_adapter : bool;
  rcp_session_acked_nonce : Z;   (* u64 *)
  rcp_session_active : bool;
  rcp_tx_inflight : Z            (* atomic_t *)
}.

#[export] Instance eta_rcp : Eta rcp := fun r =>
  mk_rcp (rcp_rx_q r) (rcp_early_q r) (rcp_queue_initialized r) (rcp_boot_pending r)
    (rcp_early_overflow r) (rcp_boot_adapter r) (rcp_registered r) (rcp_opened r)
    (rcp_ever_opened r) (rcp_opening_first r) (rcp_generation r) (rcp_adapter r)
    (rcp_session_acked_nonce r) (rcp_session_active r) (rcp_tx_inflight r).

Definition rcp_zero : rcp :=
  mk_rcp [] [] false false false false false false false false 0 false 0 false 0.

(** The recovery system beside the pipe; [published] logs the DATA payloads the
    transport accepted, no code reads it. *)
Record world (T : Type) := mk_world {
  sy : sys T;
  rc : rcp;
  published : list (list Z)
}.
Arguments mk_world {T}.
Arguments sy {T}.
Arguments rc {T}.
Arguments published {T}.

#[export] Instance eta_world {T} : Eta (world T) := fun w => mk_world (sy w) (rc w) (published w).

Definition on_rc {T} (f : rcp -> rcp) (w : world T) : world T := w <| rc := f (rc w) |>.
Definition on_sy {T} (f : sys T -> sys T) (w : world T) : world T := w <| sy := f (sy w) |>.

(** The packet operations of [struct esp_if_ops].  [write] is told whether the
    buffer carries the RCP destructor; [write] and [flush_rcp_traffic] also
    return how many such buffers they freed. *)
Record pkt_ops (T : Type) := mk_pkt_ops {
  alloc_skb : Z -> esp_adapter -> T -> bool;
  write : option (list Z -> bool -> esp_adapter -> T -> Z * (esp_adapter * T) * Z);
  flush_rcp_traffic : option (esp_adapter -> T -> (esp_adapter * T) * Z);
  misc_register : T -> Z
}.
Arguments mk_pkt_ops {T}.
Arguments alloc_skb {T}.
Arguments write {T}.
Arguments flush_rcp_traffic {T}.
Arguments misc_register {T}.

(** How a sleeper resumes: by a signal, or woken after the driver moved on. *)
Inductive wake (T : Type) := Interrupted | Woken (f : world T -> world T).
Arguments Interrupted {T}.
Arguments Woken {T}.

(** What other threads do while a writer that has written [done] bytes holds no
    lock: its wake-ups, and their steps before it re-checks the session, while
    it copies from user space, and until it takes [rcp_lock] to publish. *)
Record others (T : Type) := mk_others {
  wakes : Z -> list (wake T);
  between : Z -> world T -> world T;
  copying : Z -> world T -> world T;
  locking : Z -> world T -> world T
}.
Arguments mk_others {T}.
Arguments wakes {T}.
Arguments between {T}.
Arguments copying {T}.
Arguments locking {T}.

(** What a file descriptor holds: its context's generation, if it has one. *)
Definition file_ctx := option Z.

Section Rcp.
Context {T : Type} (ops : esp_if_ops T) (pk : pkt_ops T) (m2j : Z -> Z) (be : bool) (addr : Z).
Implicit Types w : world T.

Definition esp_rcp_init_queues_locked (r : rcp) : rcp :=
  if rcp_queue_initialized r then r
  else r <| rcp_rx_q := [] |> <| rcp_early_q := [] |> <| rcp_queue_initialized := true |>.

(** [adapter] is NULL or the adapter. *)
Definition esp_rcp_session_ready (adapter : bool) (a : esp_adapter) : bool :=
  adapter && has_rcp_any (ext_capabilities a)
  && flag ESP_INIT_DONE a && negb (flag ESP_ALLOW_RECONSTRUCT a)
  && negb (flag ESP_CLEANUP_IN_PROGRESS a) && negb (flag ESP_FW_RECOVERY_PENDING a)
  && negb (flag ESP_FW_RESET_EXPECTED a) && negb (flag ESP_TRANSPORT_REMOVING a)
  && negb (flag ESP_DRIVER_UNLOADING a)
  && (context_code ESP_CONTEXT_READY <=? context_code (state a)).

(** [esp_rcp_file_is_current] and its lockless twin. *)
Definition esp_rcp_file_is_current (file : file_ctx) (r : rcp) : bool :=
  match file with
  | Some generation => rcp_registered r && rcp_opened r && (generation =? rcp_generation r)
                       && rcp_session_active r
  | None => false
  end.

Definition esp_rcp_adapter_snapshot (file : file_ctx) (r : rcp) : bool :=
  esp_rcp_file_is_current file r && rcp_adapter r.

(** [None] when the session is not current, else the frame dequeued, if any. *)
Definition esp_rcp_dequeue_current (file : file_ctx) w : option (option (list Z) * world T) :=
  if esp_rcp_file_is_current file (rc w) then
    match rcp_rx_q (rc w) with
    | [] => Some (None, w)
    | skb :: q => Some (Some skb, on_rc (fun r => r <| rcp_rx_q := q |>) w)
    end
  else None.

Definition esp_rcp_requeue_current (file : file_ctx) (skb : list Z) w : world T :=
  if esp_rcp_file_is_current file (rc w)
  then on_rc (fun r => r <| rcp_rx_q := skb :: rcp_rx_q r |>) w
  else w.

(** ** Packet output *)
Definition esp_rcp_release_tx_slots (n : Z) w : world T :=
  on_rc (fun r => r <| rcp_tx_inflight := rcp_tx_inflight r - n |>) w.

(** [dev_kfree_skb_any]: the destructor gives the slot back. *)
Definition dev_kfree_skb_any (counted : bool) w : world T :=
  if counted then esp_rcp_release_tx_slots 1 w else w.

(** [main.c]. *)
Definition esp_send_packet (skb : list Z) (counted : bool) w : Z * world T :=
  let a := ad (sy w) in
  match write pk with
  | None => (- EINVAL, dev_kfree_skb_any counted w)
  | Some f =>
      if flag ESP_TRANSPORT_REMOVING a
         || (flag ESP_CLEANUP_IN_PROGRESS a && negb (flag ESP_ALLOW_DEINIT a)
             && negb (flag ESP_ALLOW_RECONSTRUCT a))
      then (- ESHUTDOWN, dev_kfree_skb_any counted w)
      else
        let '(ret, (a', t'), freed) := f skb counted a (tr (sy w)) in
        (ret, esp_rcp_release_tx_slots freed (on_sy (fun s => s <| ad := a' |> <| tr := t' |>) w))
  end.

Definition flush_rcp w : world T :=
  match flush_rcp_traffic pk with
  | Some f =>
      let '(a, t, freed) := f (ad (sy w)) (tr (sy w)) in
      esp_rcp_release_tx_slots freed (on_sy (fun s => s <| ad := a |> <| tr := t |>) w)
  | None => w
  end.

(** The recovery every stateful loss ends in. *)
Definition rcp_reset_session w : world T :=
  on_sy (fun s => esp_request_firmware_restart ops m2j (esp_schedule_fw_reset_recovery ops m2j s)) w.

Definition esp_rcp_send_session_start w : Z * world T :=
  let a := ad (sy w) in
  if rcp_session_nonce a =? 0 then (- EINVAL, w)
  else if negb (alloc_skb pk (sizeof_session_marker + rcp_pad_len sizeof_session_marker) a (tr (sy w)))
  then (- ENOMEM, w)
  else esp_send_packet
         (rcp_skb be addr (capabilities a) PACKET_TYPE_RCP_SESSION
            (marker_bytes ESP_RCP_SESSION_VERSION (rcp_session_nonce a))) false w.

(** ** File operations *)

(** Why a sleeping call stopped waiting, or [None] while it still sleeps. *)
Fixpoint esp_rcp_reserve_tx_slot (file : file_ctx) (nonblock : bool) (wakeups : list (wake T)) w
    : option (Z * world T) :=
  if negb (esp_rcp_file_is_current file (rc w)) then Some (- ENODEV, w)
  else if rcp_tx_inflight (rc w) <? ESP_RCP_TX_INFLIGHT_LIMIT
  then Some (0, on_rc (fun r => r <| rcp_tx_inflight := rcp_tx_inflight r + 1 |>) w)
  else if nonblock then Some (- EAGAIN, w)
  else match wakeups with
       | [] => None
       | Interrupted :: _ => Some (- ERESTARTSYS, w)
       | Woken f :: wakes' => esp_rcp_reserve_tx_slot file nonblock wakes' (f w)
       end.

(** [esp_rcp_open] up to its wait: the result, and the context if it goes on. *)
Definition esp_rcp_open_begin w : Z * file_ctx * world T :=
  let r := rc w in
  if negb (rcp_registered r) || negb (rcp_session_active r)
     || negb (esp_rcp_session_ready (rcp_adapter r) (ad (sy w)))
  then (- ENODEV, None, w)
  else if rcp_opened r then (- EBUSY, None, w)
  else
    let first := negb (rcp_ever_opened r) in
    let w := on_rc (fun r =>
      r <| rcp_rx_q := [] |> <| rcp_opening_first := first |>
        <| rcp_early_q := if first then rcp_early_q r else [] |>
        <| rcp_opened := true |> <| rcp_session_acked_nonce := 0 |>) w in
    let '(ret, w) := esp_rcp_send_session_start w in
    if ret =? 0 then (0, Some (rcp_generation r), w)
    else (ret, None, on_rc (fun r => r <| rcp_opened := false |> <| rcp_opening_first := false |>) w).

(** The rest; [ack_wait] tells whether the wait ended before its timeout. *)
Definition esp_rcp_open_end (generation : Z) (ack_wait : bool) w : Z * file_ctx * world T :=
  let r := rc w in
  let bound := rcp_registered r && rcp_opened r && (generation =? rcp_generation r) && rcp_adapter r in
  if negb ack_wait || negb bound
     || negb (rcp_session_acked_nonce r =? rcp_session_nonce (ad (sy w)))
  then
    let w := if bound then
      on_rc (fun r => r <| rcp_opened := false |> <| rcp_opening_first := false |>
                        <| rcp_rx_q := [] |> <| rcp_early_q := [] |>) w
    else w in
    (- ETIMEDOUT, None, rcp_reset_session (flush_rcp w))
  else (0, Some generation, w).

Definition esp_rcp_release (file : file_ctx) w : world T :=
  let r := rc w in
  let session_current :=
    match file with
    | Some generation => rcp_registered r && rcp_opened r && (generation =? rcp_generation r)
    | None => false
    end in
  if session_current then
    let w := on_rc (fun r =>
      r <| rcp_opened := false |> <| rcp_opening_first := false |> <| rcp_session_acked_nonce := 0 |>
        <| rcp_rx_q := [] |> <| rcp_early_q := [] |>) w in
    if rcp_adapter r then
      let w := flush_rcp w in
      if unloading_or_removing (ad (sy w)) then w else rcp_reset_session w
    else w
  else w.

(** The wait loop of [esp_rcp_read]: an error or the frame dequeued. *)
Fixpoint rcp_read_wait (file : file_ctx) (nonblock : bool) (wakeups : list (wake T)) w
    : option ((Z + list Z) * world T) :=
  match esp_rcp_dequeue_current file w with
  | None => Some (inl (- ENODEV), w)
  | Some (Some skb, w) => Some (inr skb, w)
  | Some (None, w) =>
      if nonblock then Some (inl (- EAGAIN), w)
      else match wakeups with
           | [] => None
           | Interrupted :: _ => Some (inl (- ERESTARTSYS), w)
           | Woken f :: wakes' => rcp_read_wait file nonblock wakes' (f w)
           end
  end.

(** [writable] bytes of the user buffer can be stored to; the result and the
    bytes stored. *)
Definition esp_rcp_read (file : file_ctx) (nonblock : bool) (count writable : Z)
    (wakeups : list (wake T)) w : option (Z * list Z * world T) :=
  if count =? 0 then Some (0, [], w)
  else match rcp_read_wait file nonblock wakeups w with
       | None => None
       | Some (inl e, w) => Some (e, [], w)
       | Some (inr skb, w) =>
           let n := Z.min count (zlen skb) in
           if writable <? n then Some (- EFAULT, [], esp_rcp_requeue_current file skb w)
           else
             let rest := zdrop n skb in
             let w := if zlen rest =? 0 then w else esp_rcp_requeue_current file rest w in
             Some (n, ztake n skb, w)
       end.

(** [copy_from_user] of [len] bytes at [off]; it fails past the mapped bytes. *)
Definition copy_from_user (buf : list Z) (off len : Z) : option (list Z) :=
  if off + len <=? zlen buf then Some (ztake len (zdrop off buf)) else None.

Definition esp_rcp_send_chunk (file : file_ctx) (nonblock : bool) (oth : others T)
    (buf : list Z) (off len : Z) w : option (Z * world T) :=
  match esp_rcp_reserve_tx_slot file nonblock (wakes oth off) w with
  | None => None
  | Some (ret, w) =>
      if negb (ret =? 0) then Some (ret, w)
      else if negb (alloc_skb pk (len + rcp_pad_len len) (ad (sy w)) (tr (sy w)))
      then Some (- ENOMEM, esp_rcp_release_tx_slots 1 w)
      else match copy_from_user buf off len with
           | None => Some (- EFAULT, dev_kfree_skb_any true w)
           | Some payload =>
               let w := copying oth off w in
               let skb := rcp_skb be addr (capabilities (ad (sy w))) PACKET_TYPE_DATA payload in
               let w := locking oth off w in
               if negb (esp_rcp_file_is_current file (rc w) && rcp_adapter (rc w)
                        && esp_rcp_session_ready true (ad (sy w)))
               then Some (- ENODEV, dev_kfree_skb_any true w)
               else
                 let '(ret, w) := esp_send_packet skb true w in
                 Some (ret, if ret =? 0 then w <| published := published w ++ [payload] |> else w)
           end
  end.

(** The write loop; [fuel] passes suffice for [fuel] bytes. *)
Fixpoint rcp_write_loop (fuel : nat) (file : file_ctx) (nonblock : bool) (oth : others T)
    (buf : list Z) (count done : Z) w : option (Z * world T) :=
  if done <? count then
    match fuel with
    | O => None
    | S fuel' =>
        let chunk := Z.min (count - done) ESP_RCP_HOSTED_CHUNK_MAX in
        let w := between oth done w in
        if negb (esp_rcp_file_is_current file (rc w))
           || negb (esp_rcp_session_ready true (ad (sy w)))
        then Some (- ENODEV, w)
        else match esp_rcp_send_chunk file nonblock oth buf done chunk w with
             | None => None
             | Some (ret, w) =>
                 if negb (ret =? 0) then Some (if negb (done =? 0) then done else ret, w)
                 else rcp_write_loop fuel' file nonblock oth buf count (done + chunk) w
             end
    end
  else Some (done, w).

Definition esp_rcp_write (file : file_ctx) (nonblock : bool) (oth : others T)
    (buf : list Z) (count : Z) w : option (Z * world T) :=
  if count =? 0 then Some (0, w)
  else if negb (esp_rcp_session_ready (esp_rcp_adapter_snapshot file (rc w)) (ad (sy w)))
  then Some (- ENODEV, w)
  else rcp_write_loop (Z.to_nat count) file nonblock oth buf count 0 w.

(** Error/hang-up, readable, writable. *)
Definition esp_rcp_poll (file : file_ctx) w : bool * bool * bool :=
  if negb (esp_rcp_file_is_current file (rc w)) then (true, false, false)
  else (false, negb (bool_decide (rcp_rx_q (rc w) = [])),
        rcp_tx_inflight (rc w) <? ESP_RCP_TX_INFLIGHT_LIMIT).

(** ** Life cycle *)
Definition esp_rcp_note_boot_event (active_on_boot : bool) w : world T :=
  let w := on_rc esp_rcp_init_queues_locked w in
  let w := on_rc (fun r =>
    r <| rcp_early_q := [] |> <| rcp_boot_adapter := active_on_boot |>
      <| rcp_boot_pending := active_on_boot |> <| rcp_early_overflow := false |>
      <| rcp_ever_opened := false |> <| rcp_opening_first := false |>
      <| rcp_session_acked_nonce := 0 |>) w in
  if rcp_registered (rc w) && rcp_adapter (rc w) && rcp_session_active (rc w) then
    flush_rcp (on_rc (fun r => r <| rcp_session_active := false |> <| rcp_opened := false |>
                                 <| rcp_rx_q := [] |>) w)
  else w.

Definition esp_rcp_session_ack (data : list Z) w : world T :=
  let nonce := marker_nonce data in
  let r := rc w in
  if negb (zlen data =? sizeof_session_marker) then w
  else if negb (marker_version data =? ESP_RCP_SESSION_VERSION) then w
  else if rcp_registered r && rcp_opened r && rcp_adapter r && rcp_session_active r
          && negb (nonce =? 0) && (nonce =? rcp_session_nonce (ad (sy w)))
          && negb (rcp_session_acked_nonce r =? nonce)
  then on_rc (fun r =>
    (if rcp_opening_first r
     then r <| rcp_rx_q := rcp_rx_q r ++ rcp_early_q r |> <| rcp_early_q := [] |>
     else r <| rcp_rx_q := [] |> <| rcp_early_q := [] |>)
      <| rcp_session_acked_nonce := nonce |> <| rcp_ever_opened := true |>
      <| rcp_opening_first := false |>) w
  else w.

Definition esp_rcp_fail_closed_required (r : rcp) : bool :=
  (rcp_boot_pending r && rcp_boot_adapter r)
  || (rcp_registered r && rcp_adapter r && rcp_session_active r).

(** Dropping the early bytes with their boot. *)
Definition rcp_forget_boot (r : rcp) : rcp :=
  r <| rcp_early_q := [] |> <| rcp_boot_pending := false |> <| rcp_early_overflow := false |>
    <| rcp_boot_adapter := false |>.

Definition esp_init_rcp w : Z * world T :=
  let a := ad (sy w) in
  let w := on_rc esp_rcp_init_queues_locked w in
  if negb (has_rcp_any (ext_capabilities a)) then (0, on_rc rcp_forget_boot w)
  else if rcp_session_nonce a =? 0 then (- EPROTO, on_rc rcp_forget_boot w)
  else if rcp_registered (rc w) then ((if rcp_adapter (rc w) then 0 else - EBUSY), w)
  else
    let w := on_rc (fun r =>
      let g := u32 (rcp_generation r + 1) in
      r <| rcp_adapter := true |> <| rcp_opened := false |> <| rcp_ever_opened := false |>
        <| rcp_opening_first := false |>
        <| rcp_generation := if g =? 0 then u32 (g + 1) else g |>
        <| rcp_rx_q := [] |>) w in
    if rcp_boot_pending (rc w) && rcp_boot_adapter (rc w) && rcp_early_overflow (rc w) then
      (- EOVERFLOW, on_rc (fun r => rcp_forget_boot r <| rcp_adapter := false |>) w)
    else
      let w := on_rc (fun r => r <| rcp_boot_pending := false |> <| rcp_early_overflow := false |>
                                 <| rcp_boot_adapter := false |>) w in
      let ret := misc_register pk (tr (sy w)) in
      if negb (ret =? 0) then (ret, on_rc (fun r => r <| rcp_adapter := false |>) w)
      else (0, on_rc (fun r => r <| rcp_registered := true |> <| rcp_session_active := true |>) w).

(** [adapter] is NULL when the module unloads without one. *)
Definition esp_deinit_rcp (adapter : bool) w : world T :=
  let a := ad (sy w) in
  let w := on_rc esp_rcp_init_queues_locked w in
  let final_teardown := negb adapter || unloading_or_removing a in
  let unregister := rcp_registered (rc w)
                    && (negb adapter || negb (rcp_adapter (rc w)) || rcp_adapter (rc w)) in
  if negb unregister then (if final_teardown then on_rc rcp_forget_boot w else w)
  else
    let w := on_rc (fun r =>
      r <| rcp_session_active := false |> <| rcp_opened := false |> <| rcp_ever_opened := false |>
        <| rcp_opening_first := false |> <| rcp_session_acked_nonce := 0 |>
        <| rcp_adapter := false |> <| rcp_rx_q := [] |>) w in
    let w := if final_teardown then on_rc rcp_forget_boot w else w in
    on_rc (fun r => r <| rcp_registered := false |>) w.

(** ** Receive *)
Definition rcp_queue_full (q : list (list Z)) : bool := (ESP_RCP_RX_QUEUE_LIMIT <=? length q)%nat.

Definition esp_rcp_rx (skb : list Z) w : world T :=
  let w := on_rc esp_rcp_init_queues_locked w in
  let r := rc w in
  if rcp_boot_pending r && rcp_boot_adapter r then
    if rcp_queue_full (rcp_early_q r)
    then on_rc (fun r => r <| rcp_early_overflow := true |> <| rcp_early_q := [] |>) w
    else on_rc (fun r => r <| rcp_early_q := rcp_early_q r ++ [skb] |>) w
  else if negb (rcp_registered r) || negb (rcp_adapter r) || negb (rcp_session_active r)
          || negb (esp_rcp_session_ready true (ad (sy w)))
  then w
  else if negb (rcp_opened r) then w
  else if negb (rcp_session_acked_nonce r =? rcp_session_nonce (ad (sy w))) then
    if negb (rcp_opening_first r) then w
    else if rcp_queue_full (rcp_early_q r)
    then rcp_reset_session (on_rc (fun r => r <| rcp_early_q := [] |>) w)
    else on_rc (fun r => r <| rcp_early_q := rcp_early_q r ++ [skb] |>) w
  else if rcp_queue_full (rcp_rx_q r)
  then rcp_reset_session (on_rc (fun r => r <| rcp_rx_q := [] |>) w)
  else on_rc (fun r => r <| rcp_rx_q := rcp_rx_q r ++ [skb] |>) w.
End Rcp.

(** ** The session invariant *)

(** What the transport and the slot counter may change of the pipe. *)
Definition same_session (r r' : rcp) : Prop := exists n, r' = r <| rcp_tx_inflight := n |>.

#[export] Instance same_session_preorder : PreOrder same_session.
Proof.
  split.
  - intros r. exists (rcp_tx_inflight r). by destruct r.
  - intros r1 r2 r3 [n ->] [m ->]. by exists m.
Qed.

Record RInv (r : rcp) : Prop := mk_RInv {
  ri_opened : rcp_opened r = true -> rcp_session_active r = true;
  ri_active : rcp_session_active r = true -> rcp_registered r = true /\ rcp_adapter r = true;
  ri_pending : rcp_boot_pending r = true -> rcp_session_active r = false;
  ri_closed : rcp_opened r = false -> rcp_rx_q r = [];
  ri_first : rcp_opening_first r = true -> rcp_opened r = true /\ rcp_session_acked_nonce r = 0;
  ri_reopen : rcp_opened r = true -> rcp_opening_first r = false -> rcp_early_q r = [];
  ri_early : (length (rcp_early_q r) <= ESP_RCP_RX_QUEUE_LIMIT)%nat;
  ri_rx : (length (rcp_rx_q r) <= 2 * ESP_RCP_RX_QUEUE_LIMIT)%nat;
  ri_rx_first : rcp_opening_first r = true -> (length (rcp_rx_q r) <= ESP_RCP_RX_QUEUE_LIMIT)%nat;
  ri_gen : 0 <= rcp_generation r < 2 ^ 32;
  ri_gen_registered : rcp_registered r = true -> rcp_generation r <> 0;
  ri_uninit : rcp_queue_initialized r = false -> rcp_rx_q r = [] /\ rcp_early_q r = []
}.

Lemma RInv_same r r' : same_session r r' -> RInv r -> RInv r'.
Proof. intros [n ->] []. by constructor. Qed.

Lemma RInv_zero : RInv rcp_zero.
Proof. constructor; cbn; try done; lia. Qed.

(** Initialising the queues changes no queue. *)
Lemma init_queues_spec r :
  RInv r -> exists b, esp_rcp_init_queues_locked r = r <| rcp_queue_initialized := b |>.
Proof.
  intros H. unfold esp_rcp_init_queues_locked. destruct (rcp_queue_initialized r) eqn:E.
  - exists true. rewrite <- E. by destruct r.
  - exists true. destruct (ri_uninit _ H E) as [E1 E2]. destruct r; cbn in *. by subst.
Qed.

Lemma init_queues_RInv r : RInv r -> RInv (esp_rcp_init_queues_locked r).
Proof.
  intros H. unfold esp_rcp_init_queues_locked. destruct (rcp_queue_initialized r) eqn:E; [done|].
  destruct (ri_uninit _ H E) as [E1 E2]. destruct H. constructor; cbn; try done; lia.
Qed.

Lemma current_spec file r :
  esp_rcp_file_is_current file r = true <->
  file = Some (rcp_generation r) /\ rcp_registered r = true /\ rcp_opened r = true /\
  rcp_session_active r = true.
Proof.
  unfold esp_rcp_file_is_current. destruct file as [g|]; [|by split; [|intros [? _]]].
  rewrite !andb_true_iff, Z.eqb_eq. split.
  - by intros [[[? ?] ->] ?].
  - by intros ([= ->] & ? & ? & ?).
Qed.

Lemma inactive_unless_registered r :
  RInv r -> rcp_registered r && rcp_adapter r && rcp_session_active r = false ->
  rcp_session_active r = false.
Proof.
  intros H E. destruct (rcp_session_active r) eqn:Ea; [|done].
  destruct (ri_active _ H Ea) as [E1 E2]. by rewrite E1, E2 in E.
Qed.

Lemma init_queues_on_RInv {T} (w : world T) :
  RInv (rc w) -> RInv (rc (on_rc esp_rcp_init_queues_locked w)).
Proof. apply init_queues_RInv. Qed.

Section Invariant.
Context {T : Type} (ops : esp_if_ops T) (pk : pkt_ops T) (m2j : Z -> Z) (be : bool) (addr : Z).
Implicit Types w : world T.

Lemma esp_send_packet_same skb c w : same_session (rc w) (rc (esp_send_packet pk skb c w).2).
Proof.
  unfold esp_send_packet, dev_kfree_skb_any.
  repeat (case_match; cbn); simplify_eq; solve [reflexivity | by eexists].
Qed.

Lemma flush_rcp_same w : same_session (rc w) (rc (flush_rcp pk w)).
Proof. unfold flush_rcp. repeat (case_match; cbn); simplify_eq; solve [reflexivity | by eexists]. Qed.

Lemma session_start_same w : same_session (rc w) (rc (esp_rcp_send_session_start pk be addr w).2).
Proof. unfold esp_rcp_send_session_start. split_ifs; cbn; try reflexivity. apply esp_send_packet_same. Qed.

Ltac rinv H := destruct H; constructor; cbn; try done; try lia; try (intros; congruence).

Lemma open_begin_RInv w : RInv (rc w) -> RInv (rc (esp_rcp_open_begin pk be addr w).2).
Proof.
  intros H. unfold esp_rcp_open_begin.
  destruct (rcp_registered (rc w)) eqn:Er; cbn; [|done].
  destruct (rcp_session_active (rc w)) eqn:Ea; cbn; [|done].
  destruct (esp_rcp_session_ready _ _); cbn; [|done].
  destruct (rcp_opened (rc w)) eqn:Eo; [done|].
  match goal with |- context [esp_rcp_send_session_start pk be addr ?x] => set (w1 := x) end.
  assert (H1 : RInv (rc w1)).
  { subst w1. pose proof (ri_pending _ H) as Hp. rinv H.
    - by intros _ ->%negb_false_iff.
    - destruct (negb _); [done|cbn; lia].
    - intros [_ ->]%ri_uninit0. by destruct (negb _). }
  pose proof (session_start_same w1) as [n Hn].
  destruct (esp_rcp_send_session_start pk be addr w1) as [ret w2]. change (rc w2 = rc w1 <| rcp_tx_inflight := n |>) in Hn.
  assert (H2 : RInv (rc w2)) by (rewrite Hn; by apply (RInv_same (rc w1)); [exists n|]).
  assert (Erx : rcp_rx_q (rc w2) = []) by (by rewrite Hn).
  destruct (ret =? 0); cbn; [done|]. rinv H2.
Qed.

Lemma open_end_RInv g b w : RInv (rc w) -> RInv (rc (esp_rcp_open_end ops pk m2j g b w).2).
Proof.
  intros H. unfold esp_rcp_open_end. destruct (negb b || _ || _); cbn; [|done].
  eapply RInv_same; [apply flush_rcp_same|].
  destruct (_ && rcp_adapter (rc w)); [|done]. cbn. rinv H.
Qed.

Lemma release_RInv file w : RInv (rc w) -> RInv (rc (esp_rcp_release ops pk m2j file w)).
Proof.
  intros H. unfold esp_rcp_release.
  match goal with |- context [on_rc ?f w] => assert (H1 : RInv (rc (on_rc f w))) by (cbn; rinv H);
    set (w1 := on_rc f w) in * end.
  destruct (match file with Some _ => _ | None => _ end); [|done].
  destruct (rcp_adapter (rc w)); [|done].
  pose proof (RInv_same _ _ (flush_rcp_same w1) H1). by destruct (unloading_or_removing _).
Qed.

Lemma note_boot_RInv b w : RInv (rc w) -> RInv (rc (esp_rcp_note_boot_event pk b w)).
Proof.
  intros H. unfold esp_rcp_note_boot_event. pose proof (init_queues_on_RInv w H) as Hi. revert Hi.
  generalize (on_rc esp_rcp_init_queues_locked w) as w1. intros w1 Hi.
  match goal with |- context [on_rc ?f w1] => set (w2 := on_rc f w1) end.
  destruct (rcp_registered (rc w2) && rcp_adapter (rc w2) && rcp_session_active (rc w2)) eqn:E.
  - eapply RInv_same; [apply flush_rcp_same|]. subst w2. cbn. rinv Hi.
  - assert (Ea : rcp_session_active (rc w1) = false) by (by apply inactive_unless_registered).
    subst w2. cbn. rinv Hi. intros Hq. by destruct (ri_uninit0 Hq).
Qed.

Lemma session_ack_RInv data w : RInv (rc w) -> RInv (rc (esp_rcp_session_ack data w)).
Proof.
  intros H. unfold esp_rcp_session_ack.
  destruct (negb _); [done|]. destruct (negb _); [done|]. destruct (_ && negb (_ =? _)) eqn:E; [|done].
  bool_hyps. pose proof (ri_rx_first _ H) as Hr. pose proof (ri_early _ H) as He.
  destruct (rcp_opening_first (rc w)) eqn:Ef; cbn; rewrite Ef; cbn.
  - specialize (Hr eq_refl). rinv H; try (rewrite length_app; unfold ESP_RCP_RX_QUEUE_LIMIT in *; lia).
    intros Hq. destruct (ri_uninit0 Hq) as [-> ->]. done.
  - rinv H.
Qed.

(** Generation zero is never assigned. *)
Lemma next_generation_range g :
  let g1 := u32 (g + 1) in let g2 := if g1 =? 0 then u32 (g1 + 1) else g1 in
  0 <= g2 < 2 ^ 32 /\ g2 <> 0.
Proof.
  cbv zeta. destruct (u32 (g + 1) =? 0) eqn:E; bool_hyps; [rewrite E; done|].
  split; [|done]. apply (wrap_range 32). lia.
Qed.

Lemma forget_boot_RInv r : RInv r -> RInv (rcp_forget_boot r).
Proof. intros H. rinv H. intros Hq. by destruct (ri_uninit0 Hq). Qed.

Lemma init_RInv w : RInv (rc w) -> RInv (rc (esp_init_rcp pk w).2).
Proof.
  intros H. unfold esp_init_rcp.
  pose proof (init_queues_on_RInv w H) as Hi. revert Hi.
  generalize (on_rc esp_rcp_init_queues_locked w) as w1. intros w1 Hi.
  destruct (negb (has_rcp_any _)); [by apply forget_boot_RInv|].
  destruct (_ =? 0); [by apply forget_boot_RInv|].
  destruct (rcp_registered (rc w1)) eqn:Er; [done|].
  match goal with |- context [on_rc ?f w1] => set (w2 := on_rc f w1) end.
  assert (Ea : rcp_session_active (rc w1) = false).
  { destruct (rcp_session_active (rc w1)) eqn:Ea; [|done]. by destruct (ri_active _ Hi Ea); congruence. }
  assert (H2 : RInv (rc w2) /\ rcp_opened (rc w2) = false /\ rcp_session_active (rc w2) = false /\
    rcp_generation (rc w2) <> 0 /\ rcp_adapter (rc w2) = true).
  { destruct (next_generation_range (rcp_generation (rc w1))) as [Hg1 Hg2].
    split; [|done]. subst w2. cbn. rinv Hi. intros Hq. by destruct (ri_uninit0 Hq). }
  destruct H2 as (H2 & Ho & Ha & Hg & Had). clearbody w2.
  assert (Hforget : forall r, RInv r -> rcp_session_active r = false -> RInv (r <| rcp_adapter := false |>)).
  { intros r Hr E. rinv Hr. }
  destruct (_ && rcp_early_overflow (rc w2)).
  { apply Hforget; [by apply forget_boot_RInv|done]. }
  match goal with |- context [misc_register pk ?x] => destruct (misc_register pk x =? 0) end; cbn.
  - rinv H2.
  - rinv H2.
Qed.

Lemma unregister_RInv r :
  RInv r -> rcp_session_active r = false -> RInv (r <| rcp_registered := false |>).
Proof. intros H Ha. rinv H. Qed.

Lemma deinit_RInv b w : RInv (rc w) -> RInv (rc (esp_deinit_rcp b w)).
Proof.
  intros H. unfold esp_deinit_rcp. pose proof (init_queues_on_RInv w H) as Hi. revert Hi.
  generalize (on_rc esp_rcp_init_queues_locked w) as w1. intros w1 Hi.
  destruct (negb (rcp_registered (rc w1) && _)) eqn:E.
  { destruct (negb b || unloading_or_removing _); [by apply forget_boot_RInv|done]. }
  match goal with |- context [on_rc ?f w1] => set (w2 := on_rc f w1) end.
  assert (H2 : RInv (rc w2)) by (subst w2; cbn; rinv Hi; intros Hq; by destruct (ri_uninit0 Hq)).
  assert (Ha : rcp_session_active (rc w2) = false) by done. clearbody w2.
  destruct (negb b || unloading_or_removing _).
  - apply unregister_RInv; [by apply forget_boot_RInv|exact Ha].
  - by apply unregister_RInv.
Qed.

Lemma rx_RInv skb w : RInv (rc w) -> RInv (rc (esp_rcp_rx ops m2j skb w)).
Proof.
  intros H. unfold esp_rcp_rx. pose proof (init_queues_on_RInv w H) as Hi.
  assert (Hq : rcp_queue_initialized (rc (on_rc esp_rcp_init_queues_locked w)) = true).
  { cbn. unfold esp_rcp_init_queues_locked. by destruct (rcp_queue_initialized (rc w)) eqn:E. }
  revert Hi Hq. generalize (on_rc esp_rcp_init_queues_locked w) as w1. intros w1 Hi Hq.
  unfold rcp_queue_full.
  assert (Hlen : forall q : list (list Z), (ESP_RCP_RX_QUEUE_LIMIT <=? length q)%nat = false ->
    (length (q ++ [skb]) <= ESP_RCP_RX_QUEUE_LIMIT)%nat).
  { intros q Hl%Nat.leb_gt. rewrite length_app. cbn [length]. lia. }
  destruct (rcp_boot_pending (rc w1) && _) eqn:Eb.
  { bool_hyps. destruct (_ <=? _)%nat eqn:E; cbn; [rinv Hi|].
    apply Hlen in E. pose proof (ri_pending _ Hi H0) as Ha. rinv Hi.
    intros Ho. specialize (ri_opened0 Ho). congruence. }
  destruct (_ || _); [done|]. destruct (rcp_opened (rc w1)) eqn:Eo; [|done]. cbn [negb].
  destruct (negb (_ =? _)).
  - destruct (rcp_opening_first (rc w1)) eqn:Ef; [|done]. cbn [negb].
    destruct (_ <=? _)%nat eqn:E; cbn; [rinv Hi|apply Hlen in E; rinv Hi].
  - destruct (_ <=? _)%nat eqn:E; cbn; [rinv Hi|apply Hlen in E; rinv Hi].
    unfold ESP_RCP_RX_QUEUE_LIMIT in *. lia.
Qed.

Lemma read_RInv file nb count writable w res out w' :
  RInv (rc w) -> esp_rcp_read file nb count writable [] w = Some (res, out, w') -> RInv (rc w').
Proof.
  intros H. unfold esp_rcp_read. destruct (count =? 0); [by intros [= _ _ <-]|].
  cbn [rcp_read_wait]. unfold esp_rcp_dequeue_current.
  destruct (esp_rcp_file_is_current file (rc w)) eqn:Ec; [|by intros [= _ _ <-]].
  destruct (rcp_rx_q (rc w)) as [|skb q] eqn:Eq; [by destruct nb; intros; simplify_eq|].
  destruct (proj1 (current_spec _ _) Ec) as (_ & _ & Ho & _).
  set (w1 := on_rc _ w).
  assert (H1 : RInv (rc w1)).
  { subst w1. cbn. rinv H; rewrite Eq in *; cbn in *; try (intros; lia).
    - intros Hf. specialize (ri_rx_first0 Hf). lia.
    - intros Hu. by destruct (ri_uninit0 Hu). }
  assert (Hre : forall skb', RInv (rc (esp_rcp_requeue_current file skb' w1))).
  { intros skb'. unfold esp_rcp_requeue_current.
    destruct (esp_rcp_file_is_current file (rc w1)); [|done].
    subst w1. cbn in *. rinv H; rewrite Eq in *; cbn in *; auto; try (intros; congruence).
    intros Hu. by destruct (ri_uninit0 Hu). }
  destruct (writable <? _); [by intros [= _ _ <-]|]. intros [= _ _ <-]. by destruct (_ =? 0).
Qed.
End Invariant.

(** ** Interleavings

    One event per lock region.  The second component is the opener that sleeps
    for its confirmation holding [rcp_lifecycle_lock], by its generation; the
    operations that take that lock wait for it.  [E_env] covers everything that
    leaves the session alone: the adapter, the transport, the slot counter, and
    with them each lock region of a writer. *)
Inductive rcp_event :=
  | E_open_begin
  | E_open_end (ack_wait : bool)
  | E_release (file : file_ctx)
  | E_read (file : file_ctx) (count writable : Z)
  | E_ack (data : list Z)
  | E_rx (skb : list Z)
  | E_boot (active_on_boot : bool)
  | E_init
  | E_deinit (adapter : bool)
  | E_env.

Section Runs.
Context {T : Type} (ops : esp_if_ops T) (pk : pkt_ops T) (m2j : Z -> Z) (be : bool) (addr : Z).
Implicit Types w : world T.

Inductive rcp_step : world T * option Z -> rcp_event -> world T * option Z -> Prop :=
  | st_open_begin w ret file w' :
      esp_rcp_open_begin pk be addr w = (ret, file, w') ->
      rcp_step (w, None) E_open_begin (w', file)
  | st_open_end w g b ret file w' :
      esp_rcp_open_end ops pk m2j g b w = (ret, file, w') ->
      rcp_step (w, Some g) (E_open_end b) (w', None)
  | st_release w file :
      rcp_step (w, None) (E_release file) (esp_rcp_release ops pk m2j file w, None)
  | st_read w o file count writable res out w' :
      esp_rcp_read file true count writable [] w = Some (res, out, w') ->
      rcp_step (w, o) (E_read file count writable) (w', o)
  | st_ack w o data : rcp_step (w, o) (E_ack data) (esp_rcp_session_ack data w, o)
  | st_rx w o skb : rcp_step (w, o) (E_rx skb) (esp_rcp_rx ops m2j skb w, o)
  | st_boot w b : rcp_step (w, None) (E_boot b) (esp_rcp_note_boot_event pk b w, None)
  | st_init w ret w' :
      esp_init_rcp pk w = (ret, w') -> rcp_step (w, None) E_init (w', None)
  | st_deinit w b : rcp_step (w, None) (E_deinit b) (esp_deinit_rcp b w, None)
  | st_env w o w' : same_session (rc w) (rc w') -> rcp_step (w, o) E_env (w', o).

Inductive rcp_run : world T * option Z -> list rcp_event -> world T * option Z -> Prop :=
  | rrun_nil c : rcp_run c [] c
  | rrun_cons c e c1 es c2 : rcp_step c e c1 -> rcp_run c1 es c2 -> rcp_run c (e :: es) c2.

Lemma rcp_step_RInv c e c' : rcp_step c e c' -> RInv (rc c.1) -> RInv (rc c'.1).
Proof.
  destruct 1 as [w ret file w' E|w g b ret file w' E|w file|w o file count writable res out w' E
    |w o data|w o skb|w b|w ret w' E|w b|w o w' E]; cbn; intros H.
  - pose proof (open_begin_RInv pk be addr w H) as H1. by rewrite E in H1.
  - pose proof (open_end_RInv ops pk m2j g b w H) as H1. by rewrite E in H1.
  - by apply release_RInv.
  - by eapply read_RInv.
  - by apply session_ack_RInv.
  - by apply rx_RInv.
  - by apply note_boot_RInv.
  - pose proof (init_RInv pk w H) as H1. by rewrite E in H1.
  - by apply deinit_RInv.
  - by eapply RInv_same.
Qed.

(** *** Generations *)

(** Nothing but a registration starts a session, and it uses a new generation. *)
Definition keeps_generation (r r' : rcp) : Prop :=
  rcp_generation r' = rcp_generation r /\
  (rcp_session_active r' = true -> rcp_session_active r = true).

#[export] Instance keeps_generation_preorder : PreOrder keeps_generation.
Proof. split; unfold keeps_generation; [by split|]. intros r1 r2 r3 [-> H1] [-> H2]. tauto. Qed.

Lemma same_keeps r r' : same_session r r' -> keeps_generation r r'.
Proof. by intros [n ->]. Qed.

Lemma init_queues_keeps r : keeps_generation r (esp_rcp_init_queues_locked r).
Proof. unfold esp_rcp_init_queues_locked. by destruct (rcp_queue_initialized r). Qed.

Lemma keeps_on_rc w w1 (f : rcp -> rcp) :
  keeps_generation (rc w) (rc w1) -> (forall r, keeps_generation r (f r)) ->
  keeps_generation (rc w) (rc (on_rc f w1)).
Proof. intros H Hf. etrans; [exact H|apply Hf]. Qed.

Definition registers (e : rcp_event) : bool := match e with E_init => true | _ => false end.

Lemma read_keeps file nb count writable w res out w' :
  esp_rcp_read file nb count writable [] w = Some (res, out, w') ->
  keeps_generation (rc w) (rc w').
Proof.
  unfold esp_rcp_read. destruct (count =? 0); [by intros [= _ _ <-]|].
  cbn [rcp_read_wait]. unfold esp_rcp_dequeue_current, esp_rcp_requeue_current.
  destruct (esp_rcp_file_is_current file (rc w)); [|by intros [= _ _ <-]].
  destruct (rcp_rx_q (rc w)) as [|skb q]; [by destruct nb; intros; simplify_eq|].
  destruct (writable <? _); intros [= _ _ <-]; by repeat (case_match; cbn).
Qed.

Lemma step_keeps c e c' :
  rcp_step c e c' -> registers e = false -> keeps_generation (rc c.1) (rc c'.1).
Proof.
  destruct 1 as [w ret file w' E|w g b ret file w' E|w file|w o file count writable res out w' E
    |w o data|w o skb|w b|w ret w' E|w b|w o w' E]; cbn; intros He; try done.
  - revert E. unfold esp_rcp_open_begin.
    destruct (_ || _); [by intros [= _ _ <-]|]. destruct (rcp_opened (rc w)); [by intros [= _ _ <-]|].
    match goal with |- context [esp_rcp_send_session_start pk be addr ?x] =>
      pose proof (same_keeps _ _ (session_start_same pk be addr x)) as Hk;
      destruct (esp_rcp_send_session_start pk be addr x) as [r1 w1] end.
    destruct (r1 =? 0); intros [= _ _ <-]; exact Hk.
  - revert E. unfold esp_rcp_open_end.
    destruct (negb b || _ || _); intros [= _ _ <-]; [|done]. cbn.
    etrans; [|apply same_keeps, flush_rcp_same]. by destruct (_ && rcp_adapter (rc w)).
  - unfold esp_rcp_release. destruct (match file with Some _ => _ | None => _ end); [|done].
    destruct (rcp_adapter (rc w)); [|done].
    match goal with |- context [flush_rcp pk ?x] =>
      pose proof (same_keeps _ _ (flush_rcp_same pk x)) as Hk end.
    by destruct (unloading_or_removing _).
  - by eapply read_keeps.
  - unfold esp_rcp_session_ack. repeat (case_match; cbn); done.
  - unfold esp_rcp_rx. pose proof (init_queues_keeps (rc w)) as Hi.
    repeat (case_match; [try done|]); done.
  - unfold esp_rcp_note_boot_event. pose proof (init_queues_keeps (rc w)) as Hi.
    destruct (_ && _); [|done]. etrans; [|apply same_keeps, flush_rcp_same].
    split; [apply Hi|done].
  - unfold esp_deinit_rcp. pose proof (init_queues_keeps (rc w)) as [Hi1 Hi2].
    destruct (negb _); [by destruct (negb b || unloading_or_removing _)|].
    destruct (negb b || unloading_or_removing _); (split; [apply Hi1|done]).
  - by apply same_keeps.
Qed.

Lemma init_generation w :
  RInv (rc w) -> rcp_generation (rc w) + 1 < 2 ^ 32 ->
  let r' := rc (esp_init_rcp pk w).2 in
  keeps_generation (rc w) r' \/ rcp_generation r' = rcp_generation (rc w) + 1.
Proof.
  intros H Hg. unfold esp_init_rcp. pose proof (init_queues_keeps (rc w)) as Hk.
  assert (Hu : u32 (rcp_generation (rc w) + 1) = rcp_generation (rc w) + 1).
  { apply wrap_id. unfold in_width. pose proof (ri_gen _ H). lia. }
  pose proof (ri_gen _ H) as Hge.
  assert (Ei : rcp_generation (rc (on_rc esp_rcp_init_queues_locked w)) = rcp_generation (rc w))
    by apply Hk.
  destruct (negb (has_rcp_any _)); [by left|]. destruct (_ =? 0); [by left|].
  destruct (rcp_registered _); [by left|]. right.
  assert (Hnz : forall z, z = rcp_generation (rc w) ->
    (if u32 (z + 1) =? 0 then u32 (u32 (z + 1) + 1) else u32 (z + 1)) = rcp_generation (rc w) + 1).
  { intros z ->. rewrite Hu. by rewrite (proj2 (Z.eqb_neq _ _)) by lia. }
  destruct (_ && _); [by apply Hnz|]. destruct (negb _); by apply Hnz.
Qed.

(** A session whose file can no longer become current. *)
Definition dead (g : Z) (r : rcp) : Prop :=
  g < rcp_generation r \/ (g = rcp_generation r /\ rcp_session_active r = false).

Definition registrations (es : list rcp_event) : Z := zlen (filter (fun e => registers e = true) es).

Lemma dead_run c es c' g :
  rcp_run c es c' -> RInv (rc c.1) -> rcp_generation (rc c.1) + registrations es < 2 ^ 32 ->
  dead g (rc c.1) -> dead g (rc c'.1).
Proof.
  induction 1 as [c|c e c1 es c2 Hs Hr IH]; [done|]. intros Hi Hb Hd.
  pose proof (rcp_step_RInv _ _ _ Hs Hi) as Hi1. pose proof (zlen_nonneg (filter (fun e => registers e = true) es)).
  unfold registrations in *. rewrite filter_cons in Hb.
  destruct (registers e) eqn:Ee.
  - rewrite decide_True in Hb by done. rewrite zlen_cons in Hb.
    destruct e; try done. inversion Hs as [| | | | | | |w ret w' E Ew| |]; subst c c1. cbn in *.
    pose proof (init_generation w Hi ltac:(lia)) as Hg. rewrite E in Hg. cbn in Hg.
    apply IH; [done| |]; destruct Hg as [[Eg Ha]|Eg]; rewrite ?Eg; try lia.
    + destruct Hd as [?|[? Hn]]; [left; lia|right]. split; [lia|].
      destruct (rcp_session_active (rc w')); [|done]. rewrite Ha in Hn; done.
    + left. destruct Hd as [?|[? _]]; lia.
  - rewrite decide_False in Hb by congruence.
    destruct (step_keeps _ _ _ Hs Ee) as [Eg Ha]. apply IH; [done|by rewrite Eg|].
    unfold dead. rewrite Eg. destruct Hd as [?|[? Hn]]; [by left|right]. split; [done|].
    destruct (rcp_session_active (rc c1.1)); [|done]. by rewrite Ha in Hn.
Qed.

Lemma dead_not_current g r : dead g r -> esp_rcp_file_is_current (Some g) r = false.
Proof.
  intros Hd. destruct (esp_rcp_file_is_current (Some g) r) eqn:E; [|done].
  apply current_spec in E as ([= ->] & _ & _ & Ha). destruct Hd as [?|[_ Hn]]; [lia|congruence].
Qed.

Lemma boundary_dead g b w :
  RInv (rc w) -> g <= rcp_generation (rc w) -> dead g (rc (esp_rcp_note_boot_event pk b w)).
Proof.
  intros H Hg. unfold esp_rcp_note_boot_event. pose proof (init_queues_on_RInv w H) as Hi.
  pose proof (init_queues_keeps (rc w)) as [Eg _].
  change (rcp_generation (rc (on_rc esp_rcp_init_queues_locked w)) = rcp_generation (rc w)) in Eg.
  revert Hi Eg. generalize (on_rc esp_rcp_init_queues_locked w) as w1. intros w1 Hi Eg.
  rewrite <- Eg in Hg. clear Eg.
  match goal with |- context [on_rc ?f w1] => set (w2 := on_rc f w1) end.
  assert (Hd : forall r, rcp_generation r = rcp_generation (rc w1) -> rcp_session_active r = false ->
    dead g r).
  { intros r E1 E2. unfold dead. rewrite E1.
    destruct (Z.lt_total g (rcp_generation (rc w1))) as [|[|]]; [by left|by right|lia]. }
  destruct (rcp_registered (rc w2) && rcp_adapter (rc w2) && rcp_session_active (rc w2)) eqn:E.
  - match goal with |- context [flush_rcp pk ?x] => destruct (flush_rcp_same pk x) as [n ->] end.
    by apply Hd.
  - apply Hd; [done|]. by apply (inactive_unless_registered (rc w1)).
Qed.

Lemma deinit_dead g b w :
  RInv (rc w) -> g <= rcp_generation (rc w) -> dead g (rc (esp_deinit_rcp b w)).
Proof.
  intros H Hg. pose proof (deinit_RInv b w H) as Hd.
  destruct (step_keeps _ _ _ (st_deinit w b) eq_refl) as [Eg Ha]. cbn in Eg, Ha.
  unfold dead. rewrite Eg.
  destruct (Z.lt_total g (rcp_generation (rc w))) as [|[|]]; [by left|right|lia]. split; [done|].
  destruct (rcp_session_active (rc (esp_deinit_rcp b w))) eqn:E; [|done]. exfalso.
  destruct (ri_active _ Hd E) as [E1 _]. revert E1 E. clear.
  unfold esp_deinit_rcp. generalize (on_rc esp_rcp_init_queues_locked w) as w1. intros w1.
  destruct (rcp_registered (rc w1)) eqn:Er; cbn.
  - destruct b; cbn; [|done]. destruct (rcp_adapter (rc w1)); cbn; by destruct (unloading_or_removing _).
  - destruct (negb b || unloading_or_removing _); cbn; by rewrite Er.
Qed.

(** A file descriptor never outlives its firmware incarnation. After a boot
    event or a teardown, whatever follows - reconstruction, new registrations,
    other openers, receive traffic, in any order - a file opened before it is
    never current again: reading and writing through it fail with [-ENODEV] and
    change nothing (as long as the 32-bit generation has not wrapped). *)
Theorem rcp_stale_file_dead w0 w es w' o g :
  RInv (rc w0) -> g <= rcp_generation (rc w0) ->
  (exists b, w = esp_rcp_note_boot_event pk b w0 \/ w = esp_deinit_rcp b w0) ->
  rcp_run (w, None) es (w', o) -> rcp_generation (rc w) + registrations es < 2 ^ 32 ->
  esp_rcp_file_is_current (Some g) (rc w') = false /\
  (forall nb n wr wakeups, n <> 0 ->
     esp_rcp_read (Some g) nb n wr wakeups w' = Some (- ENODEV, [], w')) /\
  (forall nb oth buf n, n <> 0 ->
     esp_rcp_write pk be addr (Some g) nb oth buf n w' = Some (- ENODEV, w')).
Proof.
  intros H Hg Hw Hr Hb.
  assert (Hd : dead g (rc w) /\ RInv (rc w)).
  { destruct Hw as [b [-> | ->]].
    - split; [by apply boundary_dead|by apply note_boot_RInv].
    - split; [by apply deinit_dead|by apply deinit_RInv]. }
  destruct Hd as [Hd Hi].
  pose proof (dead_not_current _ _ (dead_run _ _ _ g Hr Hi Hb Hd)) as Hc.
  change (esp_rcp_file_is_current (Some g) (rc w') = false) in Hc.
  split; [done|]. split; intros ? ? ? ? Hn; apply Z.eqb_neq in Hn.
  - unfold esp_rcp_read. rewrite Hn.
    destruct wakeups; cbn [rcp_read_wait]; unfold esp_rcp_dequeue_current; by rewrite Hc.
  - unfold esp_rcp_write, esp_rcp_adapter_snapshot. by rewrite Hn, Hc.
Qed.
End Runs.

(** ** One session's byte stream *)

(** What the pipe relies on: packet output leaves the session nonce alone. *)
Class PktLaws {T} (pk : pkt_ops T) : Prop := {
  write_nonce f skb c a t :
    write pk = Some f -> rcp_session_nonce (f skb c a t).1.2.1 = rcp_session_nonce a
}.

Section Session.
Context {T : Type} (ops : esp_if_ops T) (pk : pkt_ops T) {Hpk : PktLaws pk} (m2j : Z -> Z)
  (be : bool) (addr : Z).
Implicit Types w : world T.

Definition nonce w : Z := rcp_session_nonce (ad (sy w)).
Definition confirmed w : bool := rcp_session_acked_nonce (rc w) =? nonce w.

(** The unread bytes: confirmed ones, then those held back. *)
Definition rcp_pipe (r : rcp) : list Z := concat (rcp_rx_q r) ++ concat (rcp_early_q r).

(** Bytes the firmware sent that belong to the session: before the
    confirmation, only the first opener of an incarnation may keep them. *)
Definition belongs w (skb : list Z) : list Z :=
  if confirmed w || rcp_opening_first (rc w) then skb else [].

(** The steps of a session during which the RCP stays usable and no receive
    queue overflows, with the session bytes received and the bytes read. *)
Inductive session_step : world T -> list Z -> list Z -> world T -> Prop :=
  | ss_rx w skb :
      esp_rcp_session_ready true (ad (sy w)) = true ->
      rcp_queue_full (if confirmed w then rcp_rx_q (rc w) else rcp_early_q (rc w)) = false ->
      session_step w (belongs w skb) [] (esp_rcp_rx ops m2j skb w)
  | ss_ack w data : session_step w [] [] (esp_rcp_session_ack data w)
  | ss_read w file nb count writable res out w' :
      esp_rcp_read file nb count writable [] w = Some (res, out, w') ->
      session_step w [] out w'
  | ss_env w w' :
      same_session (rc w) (rc w') -> nonce w' = nonce w -> session_step w [] [] w'.

Inductive session_run : world T -> list Z -> list Z -> world T -> Prop :=
  | sr_nil w : session_run w [] [] w
  | sr_cons w ins outs w1 ins' outs' w' :
      session_step w ins outs w1 -> session_run w1 ins' outs' w' ->
      session_run w (ins ++ ins') (outs ++ outs') w'.

Record PInv (g : Z) w : Prop := mk_PInv {
  pi_gen : rcp_generation (rc w) = g;
  pi_open : rcp_registered (rc w) = true /\ rcp_adapter (rc w) = true /\
            rcp_session_active (rc w) = true /\ rcp_opened (rc w) = true;
  pi_pending : rcp_boot_pending (rc w) = false;
  pi_init : rcp_queue_initialized (rc w) = true;
  pi_nonce : nonce w <> 0;
  pi_unconfirmed : confirmed w = false -> rcp_rx_q (rc w) = [];
  pi_reopen : rcp_opening_first (rc w) = false -> rcp_early_q (rc w) = [];
  pi_first : rcp_opening_first (rc w) = true -> confirmed w = false
}.

Lemma PInv_same g w w' :
  same_session (rc w) (rc w') -> nonce w' = nonce w -> PInv g w ->
  PInv g w' /\ rcp_pipe (rc w') = rcp_pipe (rc w).
Proof.
  intros [n E] En []. split; [|by rewrite E]. unfold confirmed in *.
  constructor; unfold confirmed; rewrite ?En, ?E; done.
Qed.

Lemma pipe_rx g w skb :
  PInv g w -> esp_rcp_session_ready true (ad (sy w)) = true ->
  rcp_queue_full (if confirmed w then rcp_rx_q (rc w) else rcp_early_q (rc w)) = false ->
  let w' := esp_rcp_rx ops m2j skb w in
  PInv g w' /\ rcp_pipe (rc w') = rcp_pipe (rc w) ++ belongs w skb.
Proof.
  intros [Hge (Hr & Ha & Hs & Ho) Hp Hi Hn Hu Hre Hf] Hrdy Hq. unfold esp_rcp_rx.
  replace (on_rc esp_rcp_init_queues_locked w) with w.
  2: { unfold on_rc, esp_rcp_init_queues_locked. rewrite Hi. by destruct w. }
  rewrite Hp, Hr, Ha, Hs, Ho, Hrdy. cbn [andb orb negb]. fold (nonce w). fold (confirmed w).
  unfold belongs, rcp_pipe. destruct (confirmed w) eqn:Ec; cbn [negb orb].
  - rewrite Hq. destruct (rcp_opening_first (rc w)) eqn:Ef; [by specialize (Hf eq_refl)|].
    split; [constructor; try done; unfold confirmed, nonce in *; cbn; auto; try (intros; congruence)|].
    cbn. rewrite (Hre eq_refl), concat_app. cbn. by rewrite !app_nil_r.
  - destruct (rcp_opening_first (rc w)) eqn:Ef; cbn [negb].
    + rewrite Hq. split; [constructor; try done; unfold confirmed, nonce in *; cbn; auto; try (intros; congruence)|].
      cbn. rewrite (Hu eq_refl), concat_app. cbn. by rewrite !app_nil_r.
    + split; [constructor; try done; intros; (by apply Hu || by apply Hre || congruence)|]. by rewrite app_nil_r.
Qed.

Lemma pipe_ack g w data :
  PInv g w -> let w' := esp_rcp_session_ack data w in
  PInv g w' /\ rcp_pipe (rc w') = rcp_pipe (rc w).
Proof.
  intros H. unfold esp_rcp_session_ack.
  destruct (negb _); [done|]. destruct (negb _); [done|]. destruct (_ && negb (_ =? _)) eqn:E; [|done].
  bool_hyps. destruct H as [Hge Hop Hp Hi Hn Hu Hre Hf].
  assert (Ec : confirmed w = false) by (apply Z.eqb_neq; unfold nonce; congruence).
  specialize (Hu Ec). unfold rcp_pipe. destruct (rcp_opening_first (rc w)) eqn:Ef.
  - split.
    + constructor; unfold confirmed, nonce in *; cbn; rewrite ?Ef; cbn; try done.
      intros Hc. apply Z.eqb_neq in Hc. congruence.
    + cbn. rewrite Ef. cbn. by rewrite Hu, app_nil_r.
  - split.
    + by constructor; unfold confirmed, nonce in *; cbn; rewrite ?Ef.
    + cbn. rewrite Ef. cbn. by rewrite Hu, (Hre eq_refl).
Qed.

Lemma pipe_read g file nb count writable w res out w' :
  PInv g w -> esp_rcp_read file nb count writable [] w = Some (res, out, w') ->
  PInv g w' /\ out ++ rcp_pipe (rc w') = rcp_pipe (rc w).
Proof.
  intros H. unfold esp_rcp_read. destruct (count =? 0); [by intros [= _ <- <-]|].
  cbn [rcp_read_wait]. unfold esp_rcp_dequeue_current, esp_rcp_requeue_current.
  destruct (esp_rcp_file_is_current file (rc w)) eqn:Ec; [|by intros [= _ <- <-]].
  destruct (rcp_rx_q (rc w)) as [|skb q] eqn:Eq; [by destruct nb; intros; simplify_eq|].
  assert (Hc : esp_rcp_file_is_current file (rc (on_rc (fun r => r <| rcp_rx_q := q |>) w)) = true)
    by exact Ec.
  assert (Hcf : confirmed w = true).
  { destruct (confirmed w) eqn:E; [done|]. rewrite (pi_unconfirmed _ _ H E) in Eq. done. }
  assert (Hinv : forall q', PInv g (w <| rc := rc w <| rcp_rx_q := q' |> |>)).
  { intros q'. destruct H as [Hge Hop Hp Hi Hn Hu Hre Hf].
    constructor; unfold confirmed, nonce in *; cbn; try done. by rewrite Hcf. }
  rewrite !Hc. unfold rcp_pipe. rewrite Eq. cbn [concat].
  destruct (writable <? _).
  { intros [= _ <- <-]. split; [apply Hinv|done]. }
  intros [= _ <- <-]. destruct (zlen _ =? 0) eqn:E; bool_hyps; cbn.
  - split; [apply Hinv|]. apply zlen_0_nil in E.
    pose proof (ztake_zdrop (count `min` zlen skb) skb) as Es. rewrite E, app_nil_r in Es.
    rewrite Es. by rewrite app_assoc.
  - split; [apply (Hinv (_ :: q))|]. rewrite !app_assoc, ztake_zdrop. done.
Qed.

Lemma session_run_pipe (g : Z) w ins outs w' :
  session_run w ins outs w' -> PInv g w ->
  PInv g w' /\ outs ++ rcp_pipe (rc w') = rcp_pipe (rc w) ++ ins.
Proof.
  induction 1 as [w|w ins outs w1 ins' outs' w' Hs Hr IH]; intros H.
  { split; [done|]. by rewrite app_nil_r. }
  assert (H1 : PInv g w1 /\ outs ++ rcp_pipe (rc w1) = rcp_pipe (rc w) ++ ins).
  { destruct Hs as [w skb Hrdy Hq|w data|w file nb count writable res out w1 E|w w1 E En].
    - by apply pipe_rx.
    - rewrite app_nil_r. by apply pipe_ack.
    - rewrite app_nil_r. by eapply pipe_read.
    - rewrite app_nil_r. by apply PInv_same. }
  destruct H1 as [H1 E1]. destruct (IH H1) as [H2 E2]. split; [done|].
  rewrite <- app_assoc, E2, app_assoc, E1. by rewrite app_assoc.
Qed.

(** A successful open starts with the bytes of the boot, or with none. *)
Lemma open_begin_PInv w g w' :
  RInv (rc w) -> esp_rcp_open_begin pk be addr w = (0, Some g, w') ->
  rcp_queue_initialized (rc w) = true ->
  PInv g w' /\
  rcp_pipe (rc w') = if rcp_ever_opened (rc w) then [] else concat (rcp_early_q (rc w)).
Proof.
  intros H E Hq. revert E. unfold esp_rcp_open_begin.
  destruct (rcp_registered (rc w)) eqn:Er; [|by intros [=]].
  destruct (rcp_session_active (rc w)) eqn:Ea; [|by intros [=]]. cbn [negb orb].
  destruct (esp_rcp_session_ready _ _); [|by intros [=]]. cbn [negb].
  destruct (rcp_opened (rc w)) eqn:Eo; [by intros [=]|].
  match goal with |- context [esp_rcp_send_session_start pk be addr ?x] => set (w1 := x) end.
  assert (Hst : (esp_rcp_send_session_start pk be addr w1).1 = 0 ->
    nonce w1 <> 0 /\ nonce (esp_rcp_send_session_start pk be addr w1).2 = nonce w1).
  { unfold esp_rcp_send_session_start. fold (nonce w1). destruct (nonce w1 =? 0) eqn:En; [done|].
    bool_hyps. destruct (negb (alloc_skb pk _ _ _)); [done|]. intros _. split; [done|].
    unfold esp_send_packet. destruct (write pk) as [f|] eqn:Ew; [|done].
    destruct (_ || _); [done|]. match goal with |- context [f ?a ?b ?c ?d] =>
      pose proof (write_nonce f a b c d Ew) as Hw; destruct (f a b c d) as [[r [a' t']] n] end.
    exact Hw. }
  destruct (session_start_same pk be addr w1) as [n Hn].
  destruct (esp_rcp_send_session_start pk be addr w1) as [ret w2]. cbn [fst snd] in *.
  destruct (ret =? 0) eqn:E0; [|intros [= ->]; done]. apply Z.eqb_eq in E0.
  destruct (Hst E0) as [Hnz Hn2]. intros [= <- <-].
  assert (Hun : confirmed w2 = false).
  { unfold confirmed. apply Z.eqb_neq. rewrite Hn, Hn2. intros E. by apply Hnz. }
  split.
  - constructor; try (by rewrite Hn); try congruence; rewrite Hn; cbn.
    + split_and!; [done| |done|done]. by apply (ri_active _ H).
    + destruct (rcp_boot_pending (rc w)) eqn:Ep; [|done]. by rewrite (ri_pending _ H Ep) in Ea.
    + by intros ->.
  - rewrite Hn. unfold rcp_pipe. cbn. by destruct (rcp_ever_opened (rc w)).
Qed.

End Session.

(** ** Opening *)
Section Opening.
Context {T : Type} (ops : esp_if_ops T) {L : IfOpsLaws ops} (pk : pkt_ops T) (m2j : Z -> Z)
  (be : bool) (addr : Z).
Implicit Types w : world T.

(** The opener that sleeps for its confirmation owns the open session. *)
Definition OInv (c : world T * option Z) : Prop :=
  match c.2 with
  | Some g => rcp_registered (rc c.1) = true /\ rcp_opened (rc c.1) = true /\
              rcp_adapter (rc c.1) = true /\ rcp_generation (rc c.1) = g
  | None => True
  end.

(** The receive side and the readers never touch the registration. *)
Definition keeps_open (r r' : rcp) : Prop :=
  rcp_registered r' = rcp_registered r /\ rcp_opened r' = rcp_opened r /\
  rcp_adapter r' = rcp_adapter r /\ rcp_generation r' = rcp_generation r.

Lemma keeps_open_rx skb w : keeps_open (rc w) (rc (esp_rcp_rx ops m2j skb w)).
Proof.
  unfold esp_rcp_rx.
  assert (H : keeps_open (rc w) (rc (on_rc esp_rcp_init_queues_locked w))).
  { cbn. unfold esp_rcp_init_queues_locked. by destruct (rcp_queue_initialized (rc w)). }
  revert H. generalize (on_rc esp_rcp_init_queues_locked w) as w1. intros w1 H.
  repeat (case_match; [try done|]); done.
Qed.

Lemma keeps_open_ack data w : keeps_open (rc w) (rc (esp_rcp_session_ack data w)).
Proof. unfold esp_rcp_session_ack. repeat (case_match; cbn); done. Qed.

Lemma keeps_open_read file nb count writable w res out w' :
  esp_rcp_read file nb count writable [] w = Some (res, out, w') -> keeps_open (rc w) (rc w').
Proof.
  unfold esp_rcp_read. destruct (count =? 0); [by intros [= _ _ <-]|].
  cbn [rcp_read_wait]. unfold esp_rcp_dequeue_current, esp_rcp_requeue_current.
  destruct (esp_rcp_file_is_current file (rc w)); [|by intros [= _ _ <-]].
  destruct (rcp_rx_q (rc w)) as [|skb q]; [by destruct nb; intros; simplify_eq|].
  destruct (writable <? _); intros [= _ _ <-]; by repeat (case_match; cbn).
Qed.

Lemma open_begin_OInv w ret file w' :
  RInv (rc w) -> esp_rcp_open_begin pk be addr w = (ret, file, w') -> OInv (w', file).
Proof.
  intros H. unfold esp_rcp_open_begin.
  destruct (rcp_registered (rc w)) eqn:Er; [|by intros [= <- <- <-]].
  destruct (rcp_session_active (rc w)) eqn:Ea; [|by intros [= <- <- <-]]. cbn [negb orb].
  destruct (esp_rcp_session_ready _ _); [|by intros [= <- <- <-]]. cbn [negb].
  destruct (rcp_opened (rc w)); [by intros [= <- <- <-]|].
  match goal with |- context [esp_rcp_send_session_start pk be addr ?x] =>
    destruct (session_start_same pk be addr x) as [n Hn];
    destruct (esp_rcp_send_session_start pk be addr x) as [r1 w1] end.
  cbn [snd] in Hn. destruct (r1 =? 0); intros [= <- <- <-]; [|done].
  unfold OInv. cbn [fst snd]. rewrite Hn. destruct (ri_active _ H Ea). done.
Qed.

Lemma step_OInv c e c' :
  rcp_step ops pk m2j be addr c e c' -> RInv (rc c.1) -> OInv c -> OInv c'.
Proof.
  assert (Hk : forall w w' o, keeps_open (rc w) (rc w') -> OInv (w, o) -> OInv (w', o)).
  { intros w w' [g|]; [|done]. unfold OInv. cbn. intros (-> & -> & -> & ->). done. }
  destruct 1 as [w ret file w' E|w g b ret file w' E|w file|w o file count writable res out w' E
    |w o data|w o skb|w b|w ret w' E|w b|w o w' E]; cbn [fst snd]; intros H Ho; try done.
  - by eapply open_begin_OInv.
  - eapply Hk; [by eapply keeps_open_read|done].
  - eapply Hk; [apply keeps_open_ack|done].
  - eapply Hk; [apply keeps_open_rx|done].
  - eapply Hk; [|done]. by destruct E as [n ->].
Qed.

Lemma rcp_run_inv c es c' :
  rcp_run ops pk m2j be addr c es c' -> RInv (rc c.1) -> OInv c -> RInv (rc c'.1) /\ OInv c'.
Proof.
  induction 1 as [c|c e c1 es c2 Hs Hr IH]; [done|]. intros Hi Ho.
  apply IH; [by eapply rcp_step_RInv|by eapply step_OInv].
Qed.

(** Every stateful loss leaves a recovery request behind. *)
Lemma reset_session_pending w :
  unloading_or_removing (ad (sy (rcp_reset_session ops m2j w))) = true \/
  flag ESP_FW_RECOVERY_PENDING (ad (sy (rcp_reset_session ops m2j w))) = true.
Proof.
  change (sy (rcp_reset_session ops m2j w)) with
    (esp_request_firmware_restart ops m2j (esp_schedule_fw_reset_recovery ops m2j (sy w))).
  destruct (unloading_or_removing (ad (sy w))) eqn:Hu.
  - left. unfold unloading_or_removing. rewrite !(restart_keeps m2j) by done.
    unfold esp_schedule_fw_reset_recovery, esp_schedule_recovery. by rewrite Hu.
  - right. apply restart_request. unfold esp_schedule_fw_reset_recovery.
    by rewrite (sch_flags _ _ (schedule_recovery_spec (ops:=ops) m2j _ _ _ _ Hu)).
Qed.

(** opening the pipe succeeds only with the firmware's confirmation. In every
    reachable state, whatever happened while the opener slept, [open] returns
    0 exactly with its own session open, current and confirmed for the present
    nonce; otherwise it returns [-ETIMEDOUT], leaves the pipe closed with both
    queues empty, and a firmware recovery is pending unless the driver is going
    away. *)
Theorem rcp_open_outcome w0 es w g b ret file w' :
  RInv (rc w0) -> rcp_run ops pk m2j be addr (w0, None) es (w, Some g) ->
  esp_rcp_open_end ops pk m2j g b w = (ret, file, w') ->
  (ret = 0 /\ file = Some g /\ w' = w /\ esp_rcp_file_is_current file (rc w) = true /\
   rcp_session_acked_nonce (rc w) = rcp_session_nonce (ad (sy w))) \/
  (ret = - ETIMEDOUT /\ file = None /\ rcp_opened (rc w') = false /\
   rcp_rx_q (rc w') = [] /\ rcp_early_q (rc w') = [] /\
   (unloading_or_removing (ad (sy w')) = true \/
    flag ESP_FW_RECOVERY_PENDING (ad (sy w')) = true)).
Proof.
  intros H Hr. pose proof (rcp_run_inv _ _ _ Hr H I) as [Hi Ho]. cbn in Ho.
  destruct Ho as (E1 & E2 & E3 & E4). pose proof (ri_opened _ Hi E2) as E5. cbn in E5.
  unfold esp_rcp_open_end. rewrite E1, E2, E3, E4, Z.eqb_refl. cbn [andb negb].
  destruct (negb b || false || negb (rcp_session_acked_nonce (rc w) =? _)) eqn:Eb.
  - intros [= <- <- <-]. right. split; [done|]. split; [done|].
    match goal with |- context [flush_rcp pk ?x] => set (w1 := x) end.
    destruct (flush_rcp_same pk w1) as [n Hn]. change (rc (rcp_reset_session ops m2j (flush_rcp pk w1))) with (rc (flush_rcp pk w1)).
    rewrite Hn.
    do 3 (split; [done|]). apply (reset_session_pending (flush_rcp pk w1)).
  - intros [= <- <- <-]. left. bool_hyps. split_and!; try done. apply current_spec. split_and!; congruence.
Qed.
End Opening.

(** ** Writing *)

(** [held] counts the RCP buffers the transport owns: it takes over a buffer
    given to [write] or frees it at once. *)
Class SlotLaws {T} (pk : pkt_ops T) (held : T -> Z) : Prop := {
  write_held f skb (c : bool) a t :
    write pk = Some f ->
    held (f skb c a t).1.2.2 + (f skb c a t).2 = held t + (if c then 1 else 0)
}.

Section Writing.
Context {T : Type} (pk : pkt_ops T) (held : T -> Z) {Hsl : SlotLaws pk held} (be : bool) (addr : Z).
Implicit Types w : world T.

(** Slots in use that the transport does not account for. *)
Definition loose_slots w : Z := rcp_tx_inflight (rc w) - held (tr (sy w)).

(** [rcp_write_lock] keeps every other writer out: the other threads publish no
    DATA, and they account for the slots they free. *)
Definition quiet w w' : Prop := published w' = published w /\ loose_slots w' = loose_slots w.

Definition others_ok (oth : others T) : Prop :=
  forall i w, quiet w (between oth i w) /\ quiet w (copying oth i w) /\ quiet w (locking oth i w) /\
    forall f, Woken f ∈ wakes oth i -> quiet w (f w).

#[local] Instance quiet_preorder : PreOrder quiet.
Proof. split; unfold quiet; [done|]. intros w1 w2 w3 [-> ->] [-> ->]. done. Qed.

Lemma reserve_spec file nb wakeups w ret w' :
  (forall f w1, Woken f ∈ wakeups -> quiet w1 (f w1)) ->
  esp_rcp_reserve_tx_slot file nb wakeups w = Some (ret, w') ->
  published w' = published w /\
  loose_slots w' = loose_slots w + (if ret =? 0 then 1 else 0) /\
  (ret = 0 -> rcp_tx_inflight (rc w') <= ESP_RCP_TX_INFLIGHT_LIMIT).
Proof.
  assert (Herr : forall e w1, e <> 0 -> published w1 = published w1 /\
    loose_slots w1 = loose_slots w1 + (if e =? 0 then 1 else 0) /\
    (e = 0 -> rcp_tx_inflight (rc w1) <= ESP_RCP_TX_INFLIGHT_LIMIT)).
  { intros e w1 He. rewrite (proj2 (Z.eqb_neq _ _) He). split_and!; [done|lia|done]. }
  revert w. induction wakeups as [|k wakeups IH]; intros w Hk; cbn [esp_rcp_reserve_tx_slot];
    (destruct (negb _); [by intros [= <- <-]; apply Herr|]);
    (destruct (rcp_tx_inflight (rc w) <? ESP_RCP_TX_INFLIGHT_LIMIT) eqn:El;
      [intros [= <- <-]; bool_hyps; unfold loose_slots; cbn; split_and!; [done|lia|lia]|]);
    (destruct nb; [by intros [= <- <-]; apply Herr|]); [done|].
  destruct k as [|f]; [by intros [= <- <-]; apply Herr|].
  intros E. destruct (Hk f w) as [H1 H2]; [by left|].
  rewrite <- H1, <- H2. apply IH; [|done]. intros g w1 Hg. apply Hk. by right.
Qed.

Lemma send_packet_slots skb c w :
  let w' := (esp_send_packet pk skb c w).2 in
  published w' = published w /\ loose_slots w' = loose_slots w - (if c then 1 else 0).
Proof.
  unfold esp_send_packet, dev_kfree_skb_any, esp_rcp_release_tx_slots, loose_slots.
  destruct (write pk) as [f|] eqn:Ew; [|destruct c; cbn; split; [done|lia|done|lia]].
  destruct (_ || _); [destruct c; cbn; split; [done|lia|done|lia]|].
  pose proof (write_held f skb c (ad (sy w)) (tr (sy w)) Ew) as Hh.
  destruct (f skb c (ad (sy w)) (tr (sy w))) as [[ret [a' t']] n]. cbn in *. split; [done|].
  destruct c; lia.
Qed.

(** One chunk: published whole or not at all, and its slot is handed over or
    given back. *)
Lemma send_chunk_spec file nb oth buf off n w ret w' :
  others_ok oth -> 0 <= off ->
  esp_rcp_send_chunk pk be addr file nb oth buf off n w = Some (ret, w') ->
  loose_slots w' = loose_slots w /\
  (if ret =? 0 then published w' = published w ++ [ztake n (zdrop off buf)] /\ off + n <= zlen buf
   else published w' = published w).
Proof.
  intros Ho Hoff. unfold esp_rcp_send_chunk.
  destruct (esp_rcp_reserve_tx_slot file nb (wakes oth off) w) as [[r w1]|] eqn:Er; [|done].
  apply reserve_spec in Er as (P1 & S1 & _); [|intros f w2; by apply (Ho off w2)].
  destruct (r =? 0) eqn:E0; cbn [negb].
  2: { intros [= <- <-]. rewrite E0. split; [lia|done]. }
  destruct (negb (alloc_skb pk _ _ _)).
  { intros [= <- <-]. unfold loose_slots in *. cbn. split; [lia|done]. }
  unfold copy_from_user. destruct (off + n <=? zlen buf) eqn:El.
  2: { intros [= <- <-]. unfold loose_slots in *. cbn. split; [lia|done]. }
  destruct (Ho off w1) as (_ & [P2 S2] & _). set (w2 := copying oth off w1) in *.
  destruct (Ho off w2) as (_ & _ & [P3 S3] & _). set (w3 := locking oth off w2) in *.
  set (skb := rcp_skb _ _ _ _ _). clearbody skb w2 w3.
  destruct (negb _).
  { intros [= <- <-]. unfold loose_slots in *. cbn. split; [lia|congruence]. }
  destruct (send_packet_slots skb true w3) as [P4 S4].
  destruct (esp_send_packet pk skb true w3) as [r4 w4]. cbn [snd] in *.
  intros [= <- <-]. bool_hyps. destruct (r4 =? 0) eqn:E4.
  - unfold loose_slots in *. cbn. split; [lia|]. split; [congruence|lia].
  - split; [lia|congruence].
Qed.

Lemma rcp_write_loop_spec fuel file nb oth buf count done_ w res w' :
  others_ok oth -> 0 <= done_ <= count ->
  rcp_write_loop pk be addr fuel file nb oth buf count done_ w = Some (res, w') ->
  loose_slots w' = loose_slots w /\
  exists chunks d, published w' = published w ++ chunks /\
    Forall (fun c => 0 < zlen c <= ESP_RCP_HOSTED_CHUNK_MAX) chunks /\
    concat chunks = ztake d (zdrop done_ buf) /\ 0 <= d /\ (d = 0 \/ done_ + d <= zlen buf) /\
    done_ + d <= count /\
    (res = done_ + d \/ res = - ENODEV \/ done_ + d = 0).
Proof.
  intros Ho. revert done_ w. induction fuel as [|fuel IH]; intros dn w Hd; cbn [rcp_write_loop];
    (destruct (dn <? count) eqn:El; [|intros [= <- <-]; split; [done|];
      exists [], 0; rewrite app_nil_r; split_and!; try done; lia]); [done|].
  bool_hyps. set (n := Z.min (count - dn) ESP_RCP_HOSTED_CHUNK_MAX).
  destruct (Ho dn w) as ([P1 S1] & _). set (w1 := between oth dn w) in *. clearbody w1.
  destruct (_ || _).
  { intros [= <- <-]. split; [done|]. exists [], 0. rewrite app_nil_r. split_and!; try done; auto; lia. }
  destruct (esp_rcp_send_chunk _ _ _ _ _ _ _ _ _ w1) as [[r w2]|] eqn:Ec; [|done].
  apply send_chunk_spec in Ec as [S2 P2]; [|done|lia].
  destruct (r =? 0) eqn:E0; cbn [negb].
  2: { intros [= <- <-]. split; [lia|]. exists [], 0. rewrite app_nil_r, P2, P1.
       split_and!; try done; try lia. destruct (negb (dn =? 0)) eqn:Ed; bool_hyps; lia. }
  destruct P2 as [P2 Hb]. assert (Hn : 0 < n <= ESP_RCP_HOSTED_CHUNK_MAX).
  { unfold n, ESP_RCP_HOSTED_CHUNK_MAX. lia. }
  intros E. apply IH in E as (S3 & chunks & d & P3 & Hf & Hc & H0 & Hz & Hle & Hres); [|lia].
  split; [lia|]. exists (ztake n (zdrop dn buf) :: chunks), (n + d).
  rewrite P3, P2, P1, <- app_assoc. split; [done|]. split; [constructor; [zlia|done]|].
  cbn [concat]. rewrite Hc. split_and!; [|lia|lia|lia|].
  - rewrite (ztake_add n d) by lia. by rewrite zdrop_zdrop by lia.
  - replace (dn + (n + d)) with (dn + n + d) by lia. exact Hres.
Qed.

(** A non-blocking write never sleeps, and [count] passes are enough. *)
Lemma write_loop_returns fuel file oth buf count done_ w :
  count - done_ <= Z.of_nat fuel ->
  rcp_write_loop pk be addr fuel file true oth buf count done_ w <> None.
Proof.
  revert done_ w. induction fuel as [|fuel IH]; intros dn w Hf; cbn [rcp_write_loop];
    destruct (dn <? count) eqn:El; bool_hyps; try done; [lia|].
  destruct (_ || _); [done|]. unfold esp_rcp_send_chunk.
  assert (Hr : forall wk w1, exists r, esp_rcp_reserve_tx_slot file true wk w1 = Some r).
  { intros wk w1. destruct wk; cbn [esp_rcp_reserve_tx_slot]; repeat (case_match; [by eexists|]); by eexists. }
  destruct (Hr (wakes oth dn) (between oth dn w)) as [[r w1] ->].
  destruct (negb (r =? 0)) eqn:E0; [by rewrite E0|].
  destruct (negb (alloc_skb pk _ _ _)); [done|].
  destruct (copy_from_user _ _ _); [|done]. destruct (negb (_ && _ && _)); [done|].
  destruct (esp_send_packet pk _ _ _) as [r2 w2]. destruct (negb (r2 =? 0)) eqn:E2; [done|].
  apply IH. unfold ESP_RCP_HOSTED_CHUNK_MAX in *. lia.
Qed.

(** writing publishes a prefix. Whatever other threads do meanwhile, a write
    hands the transport consecutive frames of 1 to 1400 bytes whose payloads are
    exactly the first [d] bytes of the buffer; it returns [d], or an error with
    nothing published, or [-ENODEV] because the session ended. It never leaks or
    double-frees a TX slot, on any path, and when non-blocking it always
    returns. *)
Theorem rcp_write_publishes_prefix file nb oth buf count w :
  others_ok oth -> 0 <= count ->
  (nb = true -> esp_rcp_write pk be addr file nb oth buf count w <> None) /\
  forall res w', esp_rcp_write pk be addr file nb oth buf count w = Some (res, w') ->
    loose_slots w' = loose_slots w /\
    exists chunks d, published w' = published w ++ chunks /\
      Forall (fun c => 0 < zlen c <= ESP_RCP_HOSTED_CHUNK_MAX) chunks /\
      concat chunks = ztake d buf /\ 0 <= d <= count /\ (d = 0 \/ d <= zlen buf) /\
      (res = d \/ res = - ENODEV \/ d = 0).
Proof.
  intros Ho Hc. unfold esp_rcp_write. split.
  - intros ->. destruct (count =? 0); [done|]. destruct (negb _); [done|].
    apply write_loop_returns. lia.
  - intros res w'. destruct (count =? 0) eqn:E0; bool_hyps.
    { intros [= <- <-]. split; [done|]. exists [], 0. rewrite app_nil_r. split_and!; try done; auto; lia. }
    destruct (negb _).
    { intros [= <- <-]. split; [done|]. exists [], 0. rewrite app_nil_r. split_and!; try done; auto; lia. }
    intros E. apply rcp_write_loop_spec in E as (Hs & chunks & d & Hp & Hf & Hcc & H0 & Hz & Hle & Hres);
      [|done|lia].
    split; [done|]. exists chunks, d. rewrite zdrop_le0 in Hcc by lia. cbn [Z.add] in *.
    split_and!; try done.
Qed.
End Writing.

(** ** Concrete runs *)

(** A transport that accepts and frees every buffer at once. *)
Definition demo_pk : pkt_ops unit :=
  mk_pkt_ops (fun _ _ _ => true)
    (Some (fun _ c a t => (0, (a, t), if c : bool then 1 else 0))) (Some (fun a t => ((a, t), 0)))
    (fun _ => 0).

#[export] Instance demo_pk_laws : PktLaws demo_pk.
Proof. constructor. intros f skb c a t [= <-]. done. Qed.
#[export] Instance demo_slot_laws : SlotLaws demo_pk (fun _ => 0).
Proof. constructor. intros f skb c a t [= <-]. by destruct c. Qed.

Definition demo_ready : sys unit :=
  demo_sys <| ad := set_flag ESP_INIT_DONE (ad demo_sys) <| state := ESP_CONTEXT_READY |>
    <| ext_capabilities := set_bit (ext_cap_bit ESP_EXT_CAP_RCP) 0 |> <| rcp_session_nonce := 7 |> |>.

(** Booted, registered, opened, confirmed, with one frame received. *)
Definition demo_booted : world unit := esp_rcp_note_boot_event demo_pk false (mk_world demo_ready rcp_zero []).
Definition demo_registered : world unit := Eval vm_compute in (esp_init_rcp demo_pk demo_booted).2.
Definition demo_opening : world unit :=
  Eval vm_compute in (esp_rcp_open_begin demo_pk false 0 demo_registered).2.
Definition demo_confirmed : world unit :=
  Eval vm_compute in esp_rcp_session_ack (marker_bytes ESP_RCP_SESSION_VERSION 7) demo_opening.
Definition demo_received : world unit :=
  Eval vm_compute in esp_rcp_rx (demo_ops 1) demo_m2j [1; 2; 3] demo_confirmed.
Definition demo_read : world unit :=
  Eval vm_compute in
    default demo_received (snd <$> esp_rcp_read (Some 1) true 2 2 [] demo_received).

Lemma demo_booted_RInv : RInv (rc demo_booted).
Proof. apply note_boot_RInv, RInv_zero. Qed.

Lemma demo_registered_RInv : RInv (rc demo_registered).
Proof. change demo_registered with (esp_init_rcp demo_pk demo_booted).2. apply init_RInv, demo_booted_RInv. Qed.


Lemma demo_opening_run :
  rcp_run (demo_ops 1) demo_pk demo_m2j false 0 (demo_registered, None)
    [E_open_begin; E_ack (marker_bytes ESP_RCP_SESSION_VERSION 7)] (demo_confirmed, Some 1).
Proof.
  eapply rrun_cons; [eapply st_open_begin; vm_compute; reflexivity|].
  eapply rrun_cons; [apply st_ack|]. apply rrun_nil.
Qed.

Lemma rcp_open_outcome_witness :
  rcp_session_acked_nonce (rc demo_confirmed) = rcp_session_nonce (ad (sy demo_confirmed)).
Proof.
  destruct (rcp_open_outcome (demo_ops 1) demo_pk demo_m2j false 0 demo_registered _ demo_confirmed 1
    true 0 (Some 1) demo_confirmed demo_registered_RInv demo_opening_run) as [H|H].
  - vm_compute. reflexivity.
  - apply H.
  - destruct H as [H _]. discriminate H.
Defined.

(** The same file after the next boot event and registration. *)
Definition demo_rebooted : world unit :=
  Eval vm_compute in esp_rcp_note_boot_event demo_pk false demo_received.
Definition demo_torn : world unit := Eval vm_compute in esp_deinit_rcp true demo_rebooted.
Definition demo_again : world unit := Eval vm_compute in (esp_init_rcp demo_pk demo_torn).2.

Lemma demo_received_RInv : RInv (rc demo_received).
Proof.
  change demo_received with (esp_rcp_rx (demo_ops 1) demo_m2j [1; 2; 3] demo_confirmed). apply rx_RInv.
  change demo_confirmed with (esp_rcp_session_ack (marker_bytes ESP_RCP_SESSION_VERSION 7) demo_opening).
  apply session_ack_RInv.
  change demo_opening with (esp_rcp_open_begin demo_pk false 0 demo_registered).2.
  apply open_begin_RInv, demo_registered_RInv.
Qed.

Lemma rcp_stale_file_dead_witness :
  esp_rcp_file_is_current (Some 1) (rc demo_again) = false.
Proof.
  destruct (rcp_stale_file_dead (demo_ops 1) demo_pk demo_m2j false 0 demo_received demo_rebooted
    [E_deinit true; E_init] demo_again None 1 demo_received_RInv) as [H _].
  - vm_compute. discriminate.
  - exists false. left. vm_compute. reflexivity.
  - eapply rrun_cons; [apply st_deinit|]. eapply rrun_cons; [|apply rrun_nil].
    apply (st_init _ _ _ _ _ _ 0). vm_compute. reflexivity.
  - vm_compute. reflexivity.
  - exact H.
Defined.

(** Other threads that leave the pipe alone. *)
Definition demo_others : others unit :=
  mk_others (fun _ => []) (fun _ w => w) (fun _ w => w) (fun _ w => w).

Definition demo_write : option (Z * world unit) :=
  Eval vm_compute in esp_rcp_write demo_pk false 0 (Some 1) true demo_others [1; 2; 3] 3 demo_confirmed.

Lemma rcp_write_publishes_prefix_witness :
  exists w', esp_rcp_write demo_pk false 0 (Some 1) true demo_others [1; 2; 3] 3 demo_confirmed = Some (3, w')
    /\ loose_slots (fun _ => 0) w' = 0.
Proof.
  destruct (rcp_write_publishes_prefix demo_pk (fun _ => 0) false 0 (Some 1) true demo_others [1; 2; 3] 3
    demo_confirmed) as [_ H].
  - intros i w. split_and!; try done. intros f Hf. by apply elem_of_nil in Hf.
  - lia.
  - exists (snd (default (0, demo_confirmed) demo_write)). split; [vm_compute; reflexivity|].
    destruct (H 3 (snd (default (0, demo_confirmed) demo_write))) as [Hs _]; [vm_compute; reflexivity|].
    rewrite Hs. reflexivity.
Defined.

(** A session that ends between two chunks: the first 1400 bytes went out, and
    the writer is told [-ENODEV]. *)
Example rcp_write_hides_progress :
  let oth := mk_others (fun _ => []) (fun i w => if i =? 0 then w else esp_deinit_rcp true w)
               (fun _ w => w) (fun _ w => w) in
  match esp_rcp_write demo_pk false 0 (Some 1) true oth (replicate 1401 5) 1401 demo_confirmed with
  | Some (ret, w') => ret = - ENODEV /\ zlen (concat (published w')) = 1400
  | None => False
  end.
Proof. vm_compute. split; reflexivity. Qed.
