(* ===== verification/RcpFw.v ===== *)
(** * RcpFw: the firmware's RCP byte bridge

    [esp/esp_driver/network_adapter/main/esp_rcp.c]: the queue of host bytes the
    radio stack reads, the pool of eight TX slots, the gate that holds start-up
    bytes back until the host has proved its session, and the session start;
    with the pieces of [app_main.c] it stands on - the three send queues and the
    fatal restart that every lost byte ends in. *)
From stdpp Require Import sorting.
From S2P Require Import Prelude Wire Adapter Recovery RcpHost.

(** What leaves the receive side of the bridge alone. *)
Create HintDb rcp_fw.

(** ** ESP-IDF results *)
Definition ESP_OK : Z := 0.
Definition ESP_FAIL : Z := -1.
Definition ESP_ERR_NO_MEM : Z := 257.
Definition ESP_ERR_INVALID_ARG : Z := 258.
Definition ESP_ERR_INVALID_STATE : Z := 259.
Definition ESP_ERR_NOT_SUPPORTED : Z := 262.
Definition ESP_ERR_TIMEOUT : Z := 263.

Definition ESP_HOSTED_RCP_TX_POOL_SIZE : Z := 8.
Definition ESP_HOSTED_RCP_CHUNK_MAX : Z := 1400.
Definition PRIO_Q_HIGH : Z := 0.
Definition PRIO_Q_MID : Z := 1.
Definition PRIO_Q_LOW : Z := 2.
Definition MAX_PRIORITY_QUEUES : Z := 3.

(** ** State *)

(** [interface_buffer_handle_t]; [bh_slot] is the RCP slot that
    [priv_buffer_handle] names when [free_buf_handle] is
    [esp_hosted_rcp_release_tx_slot]. *)
Record buf_handle := mk_bh {
  bh_if_type : Z;
  bh_if_num : Z;
  bh_flag : Z;
  bh_pkt_type : Z;
  bh_payload : list Z;
  bh_raw_tp_run_id : Z;
  bh_slot : option Z
}.

(** The file-scope variables; a queue that has not been created is [None].  The
    pool is created whole, so a slot is its index. *)
Record rcp_fw := mk_rcp_fw {
  s_rx_queue : option (list (list Z));
  s_current_rx : option (list Z * Z);
  s_tx_free_queue : option (list Z);
  s_preboot_tx_queue : option (list buf_handle);
  s_tx_gate_lock : bool;
  s_tx_pool : bool;
  s_bridge_enabled : bool;
  s_host_ready : bool;
  s_host_session_ready : bool;
  s_session_nonce : Z;
  s_rx_notify : bool
}.

#[export] Instance eta_rcp_fw : Eta rcp_fw := fun r =>
  mk_rcp_fw (s_rx_queue r) (s_current_rx r) (s_tx_free_queue r) (s_preboot_tx_queue r)
    (s_tx_gate_lock r) (s_tx_pool r) (s_bridge_enabled r) (s_host_ready r)
    (s_host_session_ready r) (s_session_nonce r) (s_rx_notify r).

Inductive INTERFACE_STATE := DEINIT | INIT | ACTIVE | DEACTIVE.
#[export] Instance INTERFACE_STATE_eq_dec : EqDecision INTERFACE_STATE.
Proof. solve_decision. Defined.

(** The firmware: the bridge, the send queues, the data path, the fatal worker,
    and a log of what was queued on [PRIO_Q_MID] that no code reads. *)
Record fw := mk_fw {
  rcp_of : rcp_fw;
  to_host_high : list buf_handle;
  to_host_mid : list buf_handle;
  to_host_low : list buf_handle;
  datapath : bool;
  if_handle : option INTERFACE_STATE;
  s_rcp_fatal_task : bool;
  s_rcp_fatal_pending : bool;
  queued_mid : list buf_handle
}.

#[export] Instance eta_fw : Eta fw := fun f =>
  mk_fw (rcp_of f) (to_host_high f) (to_host_mid f) (to_host_low f) (datapath f) (if_handle f)
    (s_rcp_fatal_task f) (s_rcp_fatal_pending f) (queued_mid f).

Definition rcp_fw_zero : rcp_fw :=
  mk_rcp_fw None None None None false false false false false 0 false.
Definition fw_zero : fw := mk_fw rcp_fw_zero [] [] [] false None false false [].

Definition on_rcp (g : rcp_fw -> rcp_fw) (f : fw) : fw := f <| rcp_of := g (rcp_of f) |>.

(** ** [app_main.c]: fatal restart and send queues *)
Definition esp_hosted_rcp_fatal_worker_init (created : bool) (f : fw) : Z * fw :=
  if s_rcp_fatal_task f then (ESP_OK, f)
  else if created then (ESP_OK, f <| s_rcp_fatal_task := true |>) else (ESP_ERR_NO_MEM, f).

(** Schedules the worker once and closes the data path. *)
Definition esp_hosted_rcp_fatal_restart (f : fw) : fw :=
  if s_rcp_fatal_task f && negb (s_rcp_fatal_pending f) then
    f <| s_rcp_fatal_pending := true |> <| datapath := false |>
      <| if_handle := (fun _ => DEACTIVE) <$> if_handle f |>
  else f.

Section Queues.
(** [TO_HOST_QUEUE_SIZE] depends on the transport that is built. *)
Context (to_host_queue_size : Z).

(** [xQueueSend] after its wait: what the consumer did meanwhile is a previous
    step. [pdTRUE] is [true]. *)
Definition xQueueSend {A} (cap : Z) (x : A) (q : list A) : option (list A) :=
  if zlen q <? cap then Some (q ++ [x]) else None.

Definition send_to_host_timeout (prio : Z) (b : buf_handle) (f : fw) : bool * fw :=
  if prio =? PRIO_Q_HIGH then
    match xQueueSend to_host_queue_size b (to_host_high f) with
    | Some q => (true, f <| to_host_high := q |>)
    | None => (false, f)
    end
  else if prio =? PRIO_Q_MID then
    match xQueueSend to_host_queue_size b (to_host_mid f) with
    | Some q => (true, f <| to_host_mid := q |> <| queued_mid := queued_mid f ++ [b] |>)
    | None => (false, f)
    end
  else if prio =? PRIO_Q_LOW then
    match xQueueSend to_host_queue_size b (to_host_low f) with
    | Some q => (true, f <| to_host_low := q |>)
    | None => (false, f)
    end
  else (false, f).

(** ** TX slots *)
Definition esp_hosted_rcp_release_tx_slot (slot : Z) (r : rcp_fw) : rcp_fw :=
  match s_tx_free_queue r with
  | Some q =>
      match xQueueSend ESP_HOSTED_RCP_TX_POOL_SIZE slot q with
      | Some q' => r <| s_tx_free_queue := Some q' |>
      | None => r
      end
  | None => r
  end.

(** [free_buf_handle(priv_buffer_handle)], when both are set. *)
Definition free_buf_handle (b : buf_handle) (f : fw) : fw :=
  match bh_slot b with
  | Some slot => on_rcp (esp_hosted_rcp_release_tx_slot slot) f
  | None => f
  end.

(** ** Life cycle *)

(** What the allocator grants during [esp_hosted_rcp_init], and the first
    non-zero nonce of the random generator. *)
Record rcp_alloc := mk_rcp_alloc {
  al_rx_queue : bool;
  al_free_queue : bool;
  al_preboot_queue : bool;
  al_gate : bool;
  al_pool : bool
}.

Definition pool_slots : list Z := [0; 1; 2; 3; 4; 5; 6; 7].

(** Queueing the slots of the new pool, up to the first failure. *)
Fixpoint fill_free (slots q : list Z) : bool * list Z :=
  match slots with
  | [] => (true, q)
  | slot :: slots' =>
      match xQueueSend ESP_HOSTED_RCP_TX_POOL_SIZE slot q with
      | Some q' => fill_free slots' q'
      | None => (false, q)
      end
  end.

(** Creating a resource unless it exists. *)
Definition create {A} (granted : bool) (empty : A) (have : option A) : option (option A) :=
  match have with
  | Some x => Some (Some x)
  | None => if granted then Some (Some empty) else None
  end.

Definition esp_hosted_rcp_init (al : rcp_alloc) (nonce : Z) (r : rcp_fw) : Z * rcp_fw :=
  match create (al_rx_queue al) [] (s_rx_queue r) with
  | None => (ESP_ERR_NO_MEM, r)
  | Some q =>
  let r := r <| s_rx_queue := q |> in
  match create (al_free_queue al) [] (s_tx_free_queue r) with
  | None => (ESP_ERR_NO_MEM, r)
  | Some q =>
  let r := r <| s_tx_free_queue := q |> in
  match create (al_preboot_queue al) [] (s_preboot_tx_queue r) with
  | None => (ESP_ERR_NO_MEM, r)
  | Some q =>
  let r := r <| s_preboot_tx_queue := q |> in
  if negb (s_tx_gate_lock r || al_gate al) then (ESP_ERR_NO_MEM, r)
  else
  let r := r <| s_tx_gate_lock := true |> in
  if negb (s_tx_pool r || al_pool al) then (ESP_ERR_NO_MEM, r)
  else
  let '(filled, r) :=
    if s_tx_pool r then (true, r)
    else
      let '(filled, q) := fill_free pool_slots (default [] (s_tx_free_queue r)) in
      (filled, r <| s_tx_pool := true |> <| s_tx_free_queue := Some q |>) in
  if negb filled then (ESP_FAIL, r)
  else
  (ESP_OK, r <| s_session_nonce := nonce |> <| s_host_ready := false |>
             <| s_host_session_ready := false |> <| s_bridge_enabled := true |>)
  end end end.

Definition esp_hosted_rcp_deinit (f : fw) : fw :=
  let pending := default [] (s_preboot_tx_queue (rcp_of f)) in
  let f := on_rcp (fun r =>
    r <| s_bridge_enabled := false |> <| s_host_ready := false |>
      <| s_host_session_ready := false |> <| s_session_nonce := 0 |>
      <| s_preboot_tx_queue := (fun _ => []) <$> s_preboot_tx_queue r |>) f in
  let f := fold_left (fun f b => free_buf_handle b f) pending f in
  on_rcp (fun r => r <| s_current_rx := None |>
                     <| s_rx_queue := (fun _ => []) <$> s_rx_queue r |>
                     <| s_rx_notify := false |>) f.

(** ** Host to RCP *)
Definition esp_hosted_rcp_rx_from_host (rx_queue_size : Z) (malloc_ok : bool) (data : list Z)
    (r : rcp_fw) : Z * rcp_fw :=
  if zlen data =? 0 then (ESP_ERR_INVALID_ARG, r)
  else match s_rx_queue r with
       | Some q =>
           if negb (s_bridge_enabled r) || negb (s_host_session_ready r) then (ESP_OK, r)
           else if negb malloc_ok then (ESP_ERR_NO_MEM, r)
           else match xQueueSend rx_queue_size data q with
                | Some q' => (ESP_OK, r <| s_rx_queue := Some q' |>)
                | None => (ESP_ERR_NO_MEM, r)
                end
       | None => (ESP_OK, r)
       end.

Definition esp_hosted_rcp_fail_closed_required (r : rcp_fw) : bool :=
  s_bridge_enabled r && s_host_session_ready r.

(** The copy loop; each pass consumes a chunk or fills the buffer. *)
Fixpoint rcp_read_loop (fuel : nat) (buf_size : Z) (copied : list Z) (r : rcp_fw) : list Z * rcp_fw :=
  match fuel with
  | O => (copied, r)
  | S fuel' =>
      if zlen copied <? buf_size then
        let r :=
          match s_current_rx r, s_rx_queue r with
          | None, Some (c :: q) => r <| s_current_rx := Some (c, 0) |> <| s_rx_queue := Some q |>
          | _, _ => r
          end in
        match s_current_rx r with
        | None => (copied, r)
        | Some (data, off) =>
            let available := zlen data - off in
            let n := if buf_size - zlen copied <? available then buf_size - zlen copied else available in
            let copied := copied ++ ztake n (zdrop off data) in
            let off := off + n in
            rcp_read_loop fuel' buf_size copied
              (r <| s_current_rx := if off =? zlen data then None else Some (data, off) |>)
        end
      else (copied, r)
  end.

Definition esp_hosted_rcp_read (buf_size : Z) (r : rcp_fw) : list Z * rcp_fw :=
  match s_rx_queue r with
  | None => ([], r)
  | Some _ => if buf_size =? 0 then ([], r) else rcp_read_loop (S (Z.to_nat buf_size)) buf_size [] r
  end.

(** ** RCP to host *)

(** What other tasks do while a sender waits: for a free slot, for the gate
    ([gate] tells whether it is obtained in time) and for queue space. *)
Record tx_waits := mk_tx_waits {
  slot_wait : fw -> fw;
  gate : bool;
  queue_wait : fw -> fw
}.

(** One chunk. *)
Definition rcp_send_chunk (wt : tx_waits) (packet_type : ESP_PACKET_TYPE) (chunk : list Z) (f : fw)
    : Z * fw :=
  let f := slot_wait wt f in
  match s_tx_free_queue (rcp_of f) with
  | Some (slot :: free) =>
      let f := on_rcp (fun r => r <| s_tx_free_queue := Some free |>) f in
      let b := mk_bh (if_code ESP_RCP_IF) 0 0 (pkt_code packet_type) chunk 0 (Some slot) in
      if negb (gate wt) then
        (ESP_ERR_TIMEOUT, esp_hosted_rcp_fatal_restart (free_buf_handle b f))
      else
        let ready := s_host_ready (rcp_of f) in
        let f := queue_wait wt f in
        if ready then
          let '(sent, f) := send_to_host_timeout PRIO_Q_MID b f in
          if sent then (ESP_OK, f)
          else (ESP_ERR_TIMEOUT, esp_hosted_rcp_fatal_restart (free_buf_handle b f))
        else
          match xQueueSend ESP_HOSTED_RCP_TX_POOL_SIZE b (default [] (s_preboot_tx_queue (rcp_of f))) with
          | Some q => (ESP_OK, on_rcp (fun r => r <| s_preboot_tx_queue := Some q |>) f)
          | None => (ESP_ERR_TIMEOUT, esp_hosted_rcp_fatal_restart (free_buf_handle b f))
          end
  | _ => (ESP_ERR_TIMEOUT, esp_hosted_rcp_fatal_restart f)
  end.

Fixpoint rcp_send_loop (fuel : nat) (wt : Z -> tx_waits) (data : list Z) (done : Z)
    (packet_type : ESP_PACKET_TYPE) (f : fw) : Z * fw :=
  match fuel with
  | O => (ESP_OK, f)
  | S fuel' =>
      if done <? zlen data then
        let chunk_len := zlen data - done in
        let chunk_len := if ESP_HOSTED_RCP_CHUNK_MAX <? chunk_len then ESP_HOSTED_RCP_CHUNK_MAX
                         else chunk_len in
        let '(ret, f) := rcp_send_chunk (wt done) packet_type (ztake chunk_len (zdrop done data)) f in
        if negb (ret =? ESP_OK) then (ret, f)
        else rcp_send_loop fuel' wt data (done + chunk_len) packet_type f
      else (ESP_OK, f)
  end.

Definition esp_hosted_rcp_send_packet_to_host (wt : Z -> tx_waits) (data : list Z)
    (packet_type : ESP_PACKET_TYPE) (f : fw) : Z * fw :=
  let r := rcp_of f in
  if negb (s_bridge_enabled r) || bool_decide (s_tx_free_queue r = None) || negb (s_tx_pool r)
  then (ESP_ERR_INVALID_STATE, f)
  else rcp_send_loop (length data) wt data 0 packet_type f.

Definition esp_hosted_rcp_send_to_host (wt : Z -> tx_waits) (data : list Z) (f : fw) : Z * fw :=
  esp_hosted_rcp_send_packet_to_host wt data PACKET_TYPE_DATA f.

(** The drain loop of [esp_hosted_rcp_host_ready], under the gate; the waits for
    queue space are indexed by the number of items left. *)
Fixpoint rcp_release_preboot (queue_waits : Z -> fw -> fw) (pending : list buf_handle) (f : fw)
    : Z * fw :=
  match pending with
  | [] => (ESP_OK, on_rcp (fun r => r <| s_host_ready := true |>) f)
  | b :: rest =>
      let f := on_rcp (fun r => r <| s_preboot_tx_queue := Some rest |>) f in
      let f := queue_waits (zlen rest) f in
      let '(sent, f) := send_to_host_timeout PRIO_Q_MID b f in
      if sent then rcp_release_preboot queue_waits rest f
      else (ESP_ERR_TIMEOUT, esp_hosted_rcp_fatal_restart (free_buf_handle b f))
  end.

Definition esp_hosted_rcp_host_ready (gate : bool) (queue_waits : Z -> fw -> fw) (f : fw) : Z * fw :=
  let r := rcp_of f in
  match s_preboot_tx_queue r with
  | None => (ESP_ERR_INVALID_STATE, f)
  | Some pending =>
      if negb (s_bridge_enabled r) || negb (s_tx_gate_lock r) then (ESP_ERR_INVALID_STATE, f)
      else if negb gate then (ESP_ERR_TIMEOUT, f)
      else rcp_release_preboot queue_waits pending f
  end.

(** [gates]: whether the two gate acquisitions before the confirmation succeed. *)
Definition esp_hosted_rcp_session_start_from_host (gates : bool * bool) (queue_waits : Z -> fw -> fw)
    (wt : Z -> tx_waits) (version nonce : Z) (f : fw) : Z * fw :=
  let r := rcp_of f in
  if negb (version =? ESP_RCP_SESSION_VERSION) || (nonce =? 0) || negb (nonce =? s_session_nonce r)
  then (ESP_OK, f)
  else if negb (s_bridge_enabled r) || negb (s_tx_gate_lock r) then (ESP_OK, f)
  else if negb (fst gates) then (ESP_ERR_TIMEOUT, f)
  else
    let f := on_rcp (fun r => r <| s_host_session_ready := true |>) f in
    let '(ret, f) := esp_hosted_rcp_host_ready (snd gates) queue_waits f in
    if negb (ret =? ESP_OK) then (ret, f)
    else esp_hosted_rcp_send_packet_to_host wt (marker_bytes ESP_RCP_SESSION_VERSION nonce)
           PACKET_TYPE_RCP_SESSION f.
End Queues.

(** ** [send_task]: packets leave *)

(** What the transport does with a packet: [Some ret] is the result of the
    back end's [write], [None] a packet that never reaches it (closed data path,
    no back end, or a raw-throughput run that has ended). The packet's owner
    gets its buffer back on every path. *)
Definition process_tx_pkt (has_write : bool) (raw_tp_active : Z -> bool) (write : buf_handle -> Z)
    (b : buf_handle) (f : fw) : option Z * fw :=
  let raw_tp_frame := bh_if_type b =? if_code ESP_TEST_IF in
  if negb (datapath f) then (None, free_buf_handle b f)
  else if negb has_write then (None, free_buf_handle b f)
  else if raw_tp_frame && negb (raw_tp_active (bh_raw_tp_run_id b)) then (None, free_buf_handle b f)
  else
    let ret := write b in
    let f := if (ret <=? 0) && negb raw_tp_frame && (bh_if_type b =? if_code ESP_RCP_IF)
             then esp_hosted_rcp_fatal_restart f else f in
    (Some ret, free_buf_handle b f).

(** One packet of [PRIO_Q_MID]. *)
Definition send_mid_pkt (has_write : bool) (raw_tp_active : Z -> bool) (write : buf_handle -> Z) (f : fw) : fw :=
  match to_host_mid f with
  | b :: q => snd (process_tx_pkt has_write raw_tp_active write b (f <| to_host_mid := q |>))
  | [] => f
  end.

(** ** The host-to-RCP stream *)
Definition rcp_in_pipe (r : rcp_fw) : list Z :=
  match s_current_rx r with Some (data, off) => zdrop off data | None => [] end
  ++ concat (default [] (s_rx_queue r)).

(** Queued chunks are not empty, and neither is what is left of the current one. *)
Record rx_ok (r : rcp_fw) : Prop := mk_rx_ok {
  rx_chunks : Forall (fun c => c <> []) (default [] (s_rx_queue r));
  rx_current data off : s_current_rx r = Some (data, off) -> 0 <= off < zlen data
}.

Lemma read_loop_spec fuel n copied r :
  rx_ok r -> s_rx_queue r <> None -> zlen copied <= n -> n - zlen copied < Z.of_nat fuel ->
  let '(out, r') := rcp_read_loop fuel n copied r in
  rx_ok r' /\ out ++ rcp_in_pipe r' = copied ++ rcp_in_pipe r /\
  zlen out = Z.min n (zlen copied + zlen (rcp_in_pipe r)).
Proof.
  revert copied r. induction fuel as [|fuel IH]; intros copied r Hr Hq Hn Hf.
  { zlen_nonneg_all. lia. }
  cbn [rcp_read_loop]. destruct (zlen copied <? n) eqn:El; bool_hyps.
  2: { split_and!; [done|done|]. zlen_nonneg_all. lia. }
  set (r1 := match s_current_rx r, s_rx_queue r with None, Some (c :: q) => _ | _, _ => r end).
  assert (H1 : rx_ok r1 /\ rcp_in_pipe r1 = rcp_in_pipe r /\ s_rx_queue r1 <> None /\
    (s_current_rx r1 = None -> rcp_in_pipe r1 = [])).
  { subst r1. destruct Hr as [Hc Hcur]. destruct (s_current_rx r) as [[data off]|] eqn:Ec.
    - split; [constructor; [done|by rewrite Ec]|]. split_and!; try done. by rewrite Ec.
    - destruct (s_rx_queue r) as [[|c q]|] eqn:Eq; [| |done].
      + split; [constructor; rewrite ?Eq, ?Ec; done|]. split_and!; try done; [by rewrite Eq|].
        intros _. unfold rcp_in_pipe. by rewrite Ec, Eq.
      + inversion Hc; subst. split; [constructor; cbn; [done|intros ? ? [= <- <-]]|].
        { destruct c; [done|]. rewrite zlen_cons. zlen_nonneg_all. lia. }
        split; [unfold rcp_in_pipe; cbn; by rewrite Ec, Eq, zdrop_le0|]. done. }
  clearbody r1. destruct H1 as (H1 & Ep & Hq1 & Hnone). rewrite <- Ep. clear Ep Hr Hq r.
  destruct (s_current_rx r1) as [[data off]|] eqn:Ec.
  2: { split_and!; [done|done|]. rewrite Hnone by done. rewrite zlen_nil. zlen_nonneg_all. lia. }
  pose proof (rx_current _ H1 _ _ Ec) as Hoff.
  set (k := if n - zlen copied <? zlen data - off then n - zlen copied else zlen data - off).
  assert (Hk : 0 < k <= n - zlen copied /\ k <= zlen data - off).
  { subst k. destruct (_ <? _) eqn:E; bool_hyps; lia. }
  set (r2 := r1 <| s_current_rx := _ |>).
  assert (Hp : ztake k (zdrop off data) ++ rcp_in_pipe r2 = rcp_in_pipe r1).
  { unfold rcp_in_pipe. rewrite Ec. subst r2. cbn. rewrite app_assoc. f_equal.
    destruct (off + k =? zlen data) eqn:E; bool_hyps.
    - rewrite app_nil_r. apply ztake_ge. zlia.
    - rewrite <- (zdrop_zdrop k off) by lia. apply ztake_zdrop. }
  assert (H2 : rx_ok r2).
  { destruct H1 as [Hc _]. constructor; [done|]. subst r2. cbn.
    destruct (off + k =? zlen data) eqn:E; bool_hyps; [done|]. intros d o [= <- <-]. lia. }
  assert (Hq2 : s_rx_queue r2 <> None) by done.
  clearbody k r2. specialize (IH (copied ++ ztake k (zdrop off data)) r2 H2).
  rewrite !zlen_app, zlen_ztake, zlen_zdrop in IH.
  assert (Hl : zlen (rcp_in_pipe r1) = k + zlen (rcp_in_pipe r2)).
  { rewrite <- Hp, zlen_app, zlen_ztake, zlen_zdrop. zlen_nonneg_all. lia. }
  zlen_nonneg_all. specialize (IH Hq2 ltac:(lia) ltac:(lia)).
  destruct (rcp_read_loop _ _ _ _) as [out r']. destruct IH as (Hi & Ho & Hz).
  split; [done|]. split; [by rewrite Ho, <- app_assoc, Hp|]. rewrite Hz. lia.
Qed.

(** Reading returns the next bytes of the stream, as many as fit. *)
Lemma rcp_read_spec n r :
  rx_ok r -> 0 <= n -> s_rx_queue r <> None ->
  let '(out, r') := esp_hosted_rcp_read n r in
  rx_ok r' /\ out ++ rcp_in_pipe r' = rcp_in_pipe r /\ zlen out = Z.min n (zlen (rcp_in_pipe r)).
Proof.
  intros Hr Hn Hq. unfold esp_hosted_rcp_read. destruct (s_rx_queue r) as [q|] eqn:Eq; [|done].
  destruct (n =? 0) eqn:E0; bool_hyps.
  { split_and!; [done|done|]. subst. rewrite zlen_nil. zlen_nonneg_all. lia. }
  pose proof (read_loop_spec (S (Z.to_nat n)) n [] r Hr) as H. rewrite zlen_nil in H.
  apply H; [congruence|lia|lia].
Qed.

(** Accepting a frame appends it whole, or not at all. *)
Lemma rx_from_host_spec cap ok data r :
  rx_ok r ->
  let '(ret, r') := esp_hosted_rcp_rx_from_host cap ok data r in
  rx_ok r' /\
  rcp_in_pipe r' = rcp_in_pipe r ++
    (if (ret =? ESP_OK) && esp_hosted_rcp_fail_closed_required r && bool_decide (s_rx_queue r <> None)
     then data else []).
Proof.
  intros Hr. unfold esp_hosted_rcp_rx_from_host, esp_hosted_rcp_fail_closed_required.
  destruct (zlen data =? 0) eqn:E0; [cbn; by rewrite app_nil_r|]. bool_hyps.
  destruct (s_rx_queue r) as [q|] eqn:Eq.
  2: { rewrite bool_decide_false by tauto. rewrite andb_false_r. cbn. by rewrite app_nil_r. }
  rewrite bool_decide_true by done. destruct (s_bridge_enabled r); [|cbn; by rewrite app_nil_r].
  destruct (s_host_session_ready r); [|cbn; by rewrite app_nil_r]. cbn [negb orb].
  destruct ok; [|cbn; by rewrite app_nil_r]. cbn [negb]. unfold xQueueSend.
  destruct (zlen q <? cap); [|cbn; by rewrite app_nil_r]. cbn.
  destruct Hr as [Hc Hcur]. rewrite Eq in Hc. cbn in Hc. split.
  - constructor; [|done]. cbn. apply Forall_app. split; [done|]. constructor; [|done]. by intros ->.
  - unfold rcp_in_pipe. cbn. rewrite Eq. cbn. rewrite concat_app, <- app_assoc. cbn. by rewrite app_nil_r.
Qed.

Lemma rx_from_host_keeps cap ok data r :
  let r' := snd (esp_hosted_rcp_rx_from_host cap ok data r) in
  esp_hosted_rcp_fail_closed_required r' = esp_hosted_rcp_fail_closed_required r /\
  (s_rx_queue r <> None -> s_rx_queue r' <> None).
Proof.
  unfold esp_hosted_rcp_rx_from_host.
  destruct (_ =? 0); [|destruct (s_rx_queue r) eqn:E; [destruct (_ || _); [|destruct (negb ok);
    [|destruct (xQueueSend _ _ _)]]|]]; cbn; by rewrite ?E.
Qed.

(** ** The RCP-to-host stream *)

(** What [PRIO_Q_MID] has been given, then what waits for the host. *)
Definition rcp_out (f : fw) : list buf_handle :=
  queued_mid f ++ default [] (s_preboot_tx_queue (rcp_of f)).

(** Slots: free, waiting for the host, queued to the transport. *)
Definition slots_of (q : list buf_handle) : list Z := omap bh_slot q.
Definition all_slots (f : fw) : list Z :=
  default [] (s_tx_free_queue (rcp_of f)) ++ slots_of (default [] (s_preboot_tx_queue (rcp_of f)))
  ++ slots_of (to_host_mid f).

(** Once the pool exists every slot is in exactly one place, before that there
    is none; start-up bytes wait only while the host is not ready. *)
Record tx_inv (f : fw) : Prop := mk_tx_inv {
  tx_slots : s_tx_pool (rcp_of f) = true ->
    all_slots f ≡ₚ pool_slots /\ s_tx_free_queue (rcp_of f) <> None;
  tx_no_pool : s_tx_pool (rcp_of f) = false -> all_slots f = [];
  tx_gate : s_host_ready (rcp_of f) = true -> default [] (s_preboot_tx_queue (rcp_of f)) = []
}.

(** What other tasks may do while a sender waits: the transport consumes
    queued packets and gives their slots back. *)
Record transport_step (f f' : fw) : Prop := mk_transport_step {
  ts_out : rcp_out f' = rcp_out f;
  ts_slots : all_slots f' ≡ₚ all_slots f;
  ts_rest : exists free, rcp_of f' = rcp_of f <| s_tx_free_queue := free |> /\
    (free = None <-> s_tx_free_queue (rcp_of f) = None)
}.

#[export] Instance transport_step_preorder : PreOrder transport_step.
Proof.
  split.
  - intros f. constructor; [done|done|]. exists (s_tx_free_queue (rcp_of f)).
    split; [by destruct (rcp_of f)|done].
  - intros f1 f2 f3 [O1 S1 (q1 & R1 & N1)] [O2 S2 (q2 & R2 & N2)].
    constructor; [congruence|by etrans|]. exists q2. rewrite R2, R1. split; [done|].
    rewrite N2, R1. exact N1.
Qed.

(** There is a free queue, with room for every slot that is out. *)
Definition room (f : fw) : Prop :=
  s_tx_free_queue (rcp_of f) <> None /\ zlen (all_slots f) <= ESP_HOSTED_RCP_TX_POOL_SIZE.

Definition waits_ok (wt : tx_waits) : Prop :=
  forall f, room f -> transport_step f (slot_wait wt f) /\ transport_step f (queue_wait wt f).

Lemma tx_inv_room f : tx_inv f -> s_tx_pool (rcp_of f) = true -> room f.
Proof.
  intros Hi Hp. destruct (tx_slots _ Hi Hp) as [Ha Hn]. split; [done|].
  apply Permutation_length in Ha. unfold zlen. rewrite Ha. done.
Qed.

Lemma transport_step_inv f f' : transport_step f f' -> tx_inv f -> tx_inv f'.
Proof.
  intros [Ho Hs (q & Hr & Hq)] [H1 H2 H3]. constructor; rewrite Hr; cbn.
  - intros Hp. destruct (H1 Hp) as [Ha Hn]. split; [by rewrite Hs|]. tauto.
  - intros Hp. apply Permutation_nil. by rewrite <- (H2 Hp), Hs.
  - exact H3.
Qed.

Lemma slots_of_app q1 q2 : slots_of (q1 ++ q2) = slots_of q1 ++ slots_of q2.
Proof. apply omap_app. Qed.

(** A slot in hand is given back. *)
Lemma release_spec f q slot :
  s_tx_free_queue (rcp_of f) = Some q -> slot :: all_slots f ≡ₚ pool_slots ->
  let f' := on_rcp (esp_hosted_rcp_release_tx_slot slot) f in
  rcp_of f' = rcp_of f <| s_tx_free_queue := Some (q ++ [slot]) |> /\ all_slots f' ≡ₚ pool_slots.
Proof.
  intros Hq Hp f'.
  assert (Hl : zlen q < ESP_HOSTED_RCP_TX_POOL_SIZE).
  { apply Permutation_length in Hp. unfold all_slots in Hp. rewrite Hq in Hp. cbn in Hp.
    rewrite length_app in Hp. unfold zlen, ESP_HOSTED_RCP_TX_POOL_SIZE. lia. }
  assert (E : rcp_of f' = rcp_of f <| s_tx_free_queue := Some (q ++ [slot]) |>).
  { change (rcp_of f') with (esp_hosted_rcp_release_tx_slot slot (rcp_of f)).
    unfold esp_hosted_rcp_release_tx_slot, xQueueSend. rewrite Hq.
    by rewrite (proj2 (Z.ltb_lt _ _) Hl). }
  split; [exact E|]. unfold all_slots in *. rewrite E. rewrite Hq in Hp.
  set (tl := slots_of (default [] (s_preboot_tx_queue (rcp_of f))) ++ slots_of (to_host_mid f)) in *.
  change (slot :: q ++ tl ≡ₚ pool_slots) in Hp. change ((q ++ [slot]) ++ tl ≡ₚ pool_slots).
  rewrite <- Hp, <- app_assoc. cbn [app]. by rewrite <- Permutation_middle.
Qed.

(** What the sender puts on the wire or holds back. *)
Definition rcp_stream (f : fw) : list (Z * list Z) := (fun b => (bh_pkt_type b, bh_payload b)) <$> rcp_out f.

(** Losing a byte of the stream schedules the fatal restart. *)
Definition fatal_scheduled (f : fw) : Prop := s_rcp_fatal_task f = true -> s_rcp_fatal_pending f = true.

Lemma fatal_restart_spec f :
  let f' := esp_hosted_rcp_fatal_restart f in
  fatal_scheduled f' /\ rcp_of f' = rcp_of f /\ to_host_mid f' = to_host_mid f /\
  queued_mid f' = queued_mid f.
Proof.
  cbn. unfold esp_hosted_rcp_fatal_restart, fatal_scheduled.
  destruct (s_rcp_fatal_task f) eqn:E1, (s_rcp_fatal_pending f) eqn:E2; cbn; rewrite ?E1, ?E2; done.
Qed.

(** Giving a slot back and failing keeps the invariant and the stream. *)
Lemma fail_spec f b slot :
  bh_slot b = Some slot -> s_tx_pool (rcp_of f) = true -> s_tx_free_queue (rcp_of f) <> None ->
  slot :: all_slots f ≡ₚ pool_slots ->
  (s_host_ready (rcp_of f) = true -> default [] (s_preboot_tx_queue (rcp_of f)) = []) ->
  let f' := esp_hosted_rcp_fatal_restart (free_buf_handle b f) in
  tx_inv f' /\ rcp_out f' = rcp_out f /\ fatal_scheduled f' /\
  exists q, rcp_of f' = rcp_of f <| s_tx_free_queue := Some q |>.
Proof.
  intros Hb Hp Hn Hperm Hg. unfold free_buf_handle. rewrite Hb.
  destruct (s_tx_free_queue (rcp_of f)) as [q|] eqn:Eq; [|done].
  destruct (release_spec f q slot Eq Hperm) as [Er Ea].
  set (f1 := on_rcp _ f) in *.
  destruct (fatal_restart_spec f1) as (Hf & E1 & E2 & E3). set (f2 := esp_hosted_rcp_fatal_restart f1) in *.
  cbv zeta. clearbody f2. assert (Em : to_host_mid f1 = to_host_mid f) by done.
  assert (Eqm : queued_mid f1 = queued_mid f) by done. clearbody f1.
  split; [|split; [|split; [done|by exists (q ++ [slot]); congruence]]].
  - constructor; rewrite E1, Er; cbn; [|congruence|done]. intros _. split; [|done].
    unfold all_slots in *. by rewrite E1, E2.
  - unfold rcp_out. rewrite E1, E3, Er, Eqm. done.
Qed.

(** The state a sender holding a slot is in. *)
Record holding (slot : Z) (f : fw) : Prop := mk_holding {
  h_slot : slot :: all_slots f ≡ₚ pool_slots;
  h_free : s_tx_free_queue (rcp_of f) <> None;
  h_pool : s_tx_pool (rcp_of f) = true;
  h_gate : s_host_ready (rcp_of f) = true -> default [] (s_preboot_tx_queue (rcp_of f)) = []
}.

Lemma holding_room slot f : holding slot f -> room f.
Proof.
  intros [H1 H2 _ _]. split; [done|]. apply Permutation_length in H1. cbn in H1.
  unfold zlen, ESP_HOSTED_RCP_TX_POOL_SIZE. lia.
Qed.

Lemma transport_step_holding slot f f' : transport_step f f' -> holding slot f -> holding slot f'.
Proof.
  intros [Ho Hs (q & Hr & Hq)] [H1 H2 H3 H4]. constructor; rewrite ?Hr; cbn; try done.
  - by rewrite Hs.
  - tauto.
Qed.

Lemma transport_step_ready f f' :
  transport_step f f' -> s_host_ready (rcp_of f') = s_host_ready (rcp_of f).
Proof. intros [_ _ (q & -> & _)]. done. Qed.

(** Handing the buffer to the transport's queue. *)
Lemma send_mid_spec cap b slot f :
  bh_slot b = Some slot -> holding slot f -> s_host_ready (rcp_of f) = true \/
    default [] (s_preboot_tx_queue (rcp_of f)) = [] ->
  let '(sent, f') := send_to_host_timeout cap PRIO_Q_MID b f in
  if sent then tx_inv f' /\ rcp_out f' = rcp_out f ++ [b] /\ rcp_of f' = rcp_of f
  else f' = f.
Proof.
  intros Hb [H1 H2 H3 H4] Hr. unfold send_to_host_timeout, xQueueSend. cbn.
  destruct (zlen (to_host_mid f) <? cap); cbn; [|done].
  assert (Hpre : default [] (s_preboot_tx_queue (rcp_of f)) = []) by (destruct Hr; auto).
  split; [|split; [|done]].
  - constructor; cbn; [|congruence|done]. intros _. split; [|done].
    unfold all_slots in *. cbn. rewrite slots_of_app. cbn. rewrite Hb, <- H1, !app_assoc.
    by rewrite <- Permutation_cons_append.
  - unfold rcp_out. cbn. rewrite Hpre. by rewrite !app_nil_r.
Qed.

Lemma fw_send_chunk_spec cap wt pkt chunk f :
  tx_inv f -> s_tx_pool (rcp_of f) = true -> waits_ok wt ->
  let '(ret, f') := rcp_send_chunk cap wt pkt chunk f in
  tx_inv f' /\ s_tx_pool (rcp_of f') = true /\
  s_host_ready (rcp_of f') = s_host_ready (rcp_of f) /\
  s_host_session_ready (rcp_of f') = s_host_session_ready (rcp_of f) /\
  if ret =? ESP_OK then rcp_stream f' = rcp_stream f ++ [(pkt_code pkt, chunk)]
  else rcp_stream f' = rcp_stream f /\ fatal_scheduled f'.
Proof.
  intros Hi Hp Hw. unfold rcp_send_chunk. destruct (Hw f (tx_inv_room f Hi Hp)) as [Hs1 _].
  pose proof (transport_step_inv _ _ Hs1 Hi) as Hi1.
  assert (Hout1 : rcp_out (slot_wait wt f) = rcp_out f) by apply Hs1.
  destruct (ts_rest _ _ Hs1) as (q1 & Er1 & _). set (f1 := slot_wait wt f) in *. clearbody f1.
  assert (Hp1 : s_tx_pool (rcp_of f1) = true) by by rewrite Er1.
  assert (Hready : s_host_ready (rcp_of f1) = s_host_ready (rcp_of f)) by by rewrite Er1.
  assert (Hsess : s_host_session_ready (rcp_of f1) = s_host_session_ready (rcp_of f)) by by rewrite Er1.
  rewrite <- Hready, <- Hsess. unfold rcp_stream. rewrite <- Hout1.
  clear Er1 Hready Hsess Hout1 Hs1 Hi Hp f.
  destruct (tx_slots _ Hi1 Hp1) as [Hperm Hfree].
  assert (Hempty : forall f', fatal_scheduled f' -> rcp_of f' = rcp_of f1 -> to_host_mid f' = to_host_mid f1 ->
    queued_mid f' = queued_mid f1 -> tx_inv f' /\ rcp_out f' = rcp_out f1).
  { intros f' _ E1 E2 E3. split; [|unfold rcp_out; by rewrite E1, E3].
    destruct Hi1 as [I1 I2 I3]. unfold all_slots in *. constructor; unfold all_slots; rewrite E1, ?E2; done. }
  destruct (s_tx_free_queue (rcp_of f1)) as [[|slot free]|] eqn:Eq; [| |done].
  { destruct (fatal_restart_spec f1) as (Hf & E1 & E2 & E3).
    destruct (Hempty _ Hf E1 E2 E3) as [Hi2 Ho2]. split; [done|]. rewrite E1, Ho2. done. }
  set (f2 := on_rcp (fun r => r <| s_tx_free_queue := Some free |>) f1).
  set (b := mk_bh _ _ _ _ _ _ _).
  assert (Hh : holding slot f2).
  { constructor; [|done|done|exact (tx_gate _ Hi1)]. rewrite <- Hperm. unfold all_slots. by rewrite Eq. }
  assert (Ho2 : rcp_out f2 = rcp_out f1) by done.
  assert (Hfail : forall f3, holding slot f3 -> rcp_out f3 = rcp_out f1 ->
    s_host_ready (rcp_of f3) = s_host_ready (rcp_of f1) ->
    s_host_session_ready (rcp_of f3) = s_host_session_ready (rcp_of f1) ->
    let f' := esp_hosted_rcp_fatal_restart (free_buf_handle b f3) in
    tx_inv f' /\ s_tx_pool (rcp_of f') = true /\
    s_host_ready (rcp_of f') = s_host_ready (rcp_of f1) /\
    s_host_session_ready (rcp_of f') = s_host_session_ready (rcp_of f1) /\
    (fun b => (bh_pkt_type b, bh_payload b)) <$> rcp_out f' =
      (fun b => (bh_pkt_type b, bh_payload b)) <$> rcp_out f1 /\ fatal_scheduled f').
  { intros f3 [K1 K2 K3 K4] Ho Hr Hs. destruct (fail_spec f3 b slot) as (F1 & F2 & F3 & q & F4); try done.
    cbv zeta. rewrite F4, F2, Ho. done. }
  destruct (gate wt); cbn [negb]; [|by apply Hfail].
  destruct (Hw f2 (holding_room _ _ Hh)) as [_ Hs2]. pose proof (transport_step_holding _ _ _ Hs2 Hh) as Hh3.
  assert (Ho3 : rcp_out (queue_wait wt f2) = rcp_out f1) by (rewrite (ts_out _ _ Hs2); done).
  destruct (ts_rest _ _ Hs2) as (q3 & Er3 & _).
  assert (Hr3 : s_host_ready (rcp_of (queue_wait wt f2)) = s_host_ready (rcp_of f1)) by by rewrite Er3.
  assert (Hse3 : s_host_session_ready (rcp_of (queue_wait wt f2)) = s_host_session_ready (rcp_of f1))
    by by rewrite Er3.
  change (s_host_ready (rcp_of f2)) with (s_host_ready (rcp_of f1)).
  set (f3 := queue_wait wt f2) in *. clearbody f3.
  destruct (s_host_ready (rcp_of f1)) eqn:Erdy.
  - pose proof (send_mid_spec cap b slot f3 eq_refl Hh3 (or_introl Hr3)) as Hsend.
    destruct (send_to_host_timeout cap PRIO_Q_MID b f3) as [[] f4].
    + destruct Hsend as (S1 & S2 & S3). rewrite S3. cbn [ESP_OK Z.eqb]. rewrite S2, Ho3, fmap_app.
      split_and!; try done. apply Hh3.
    + subst f4. by apply Hfail.
  - unfold xQueueSend. destruct (_ <? _).
    + cbn [Z.eqb ESP_OK]. split_and!; try done; [|apply Hh3|].
      * destruct Hh3 as [K1 K2 K3 K4]. constructor; cbn; [|congruence|congruence]. intros _. split; [|done].
        unfold all_slots in *. cbn. rewrite slots_of_app. cbn. rewrite <- K1.
        rewrite <- !app_assoc. cbn. rewrite !(app_assoc (default [] (s_tx_free_queue _))).
        by rewrite <- Permutation_middle.
      * unfold rcp_out. cbn. rewrite app_assoc, fmap_app. fold (rcp_out f3). by rewrite Ho3.
    + by apply Hfail.
Qed.

(** What a sender promises: chunks are appended in order, all of the data on
    success; a failure schedules the fatal restart. *)
Record sent (pkt : ESP_PACKET_TYPE) (data : list Z) (f : fw) (ret : Z) (f' : fw) : Prop := mk_sent {
  sent_inv : tx_inv f';
  sent_pool : s_tx_pool (rcp_of f') = true;
  sent_ready : s_host_ready (rcp_of f') = s_host_ready (rcp_of f) /\
    s_host_session_ready (rcp_of f') = s_host_session_ready (rcp_of f);
  sent_chunks : exists chunks, rcp_stream f' = rcp_stream f ++ (pair (pkt_code pkt) <$> chunks) /\
    Forall (fun c => 0 < zlen c <= ESP_HOSTED_RCP_CHUNK_MAX) chunks /\
    concat chunks `prefix_of` data /\ (ret = ESP_OK -> concat chunks = data);
  sent_fatal : ret <> ESP_OK -> fatal_scheduled f'
}.

Lemma rcp_send_loop_spec cap wt data pkt fuel done f :
  zlen data - done <= Z.of_nat fuel -> 0 <= done <= zlen data -> tx_inv f ->
  s_tx_pool (rcp_of f) = true -> (forall d, waits_ok (wt d)) ->
  let '(ret, f') := rcp_send_loop cap fuel wt data done pkt f in
  sent pkt (zdrop done data) f ret f'.
Proof.
  revert done f. induction fuel as [|fuel IH]; intros done f Hf Hd Hi Hp Hw; cbn [rcp_send_loop].
  { rewrite zdrop_ge by lia. constructor; try done. exists []. by rewrite app_nil_r. }
  destruct (done <? zlen data) eqn:El; bool_hyps.
  2: { rewrite zdrop_ge by lia. constructor; try done. exists []. by rewrite app_nil_r. }
  set (k := if ESP_HOSTED_RCP_CHUNK_MAX <? zlen data - done then ESP_HOSTED_RCP_CHUNK_MAX else zlen data - done).
  assert (Hk : 0 < k <= ESP_HOSTED_RCP_CHUNK_MAX /\ k <= zlen data - done).
  { subst k. unfold ESP_HOSTED_RCP_CHUNK_MAX. destruct (_ <? _) eqn:E; bool_hyps; lia. }
  clearbody k.
  pose proof (fw_send_chunk_spec cap (wt done) pkt (ztake k (zdrop done data)) f Hi Hp (Hw done)) as Hc.
  destruct (rcp_send_chunk _ _ _ _ _) as [ret f1]. destruct Hc as (C1 & C2 & C3 & C4 & C5).
  destruct (ret =? ESP_OK) eqn:Er; cbn [negb]; bool_hyps.
  2: { destruct C5 as [C5 C6]. constructor; try done. exists []. cbn. rewrite app_nil_r.
       split_and!; [done|done|by exists (zdrop done data)|done]. }
  specialize (IH (done + k) f1 ltac:(lia) ltac:(lia) C1 C2 Hw).
  destruct (rcp_send_loop _ _ _ _ _ _ _) as [ret' f2].
  destruct IH as [I1 I2 [I3 I3'] (cs & I4 & I5 & I6 & I7) I8].
  constructor; try done; [split; congruence|].
  exists (ztake k (zdrop done data) :: cs). rewrite I4, C5. cbn. split_and!.
  - by rewrite <- app_assoc.
  - constructor; [|done]. rewrite zlen_ztake, zlen_zdrop. lia.
  - rewrite <- (ztake_zdrop k (zdrop done data)) at 2. rewrite zdrop_zdrop by lia.
    by apply prefix_app.
  - intros E. rewrite (I7 E), <- zdrop_zdrop by lia. apply ztake_zdrop.
Qed.

Lemma rcp_send_packet_spec cap wt data pkt f :
  tx_inv f -> (forall d, waits_ok (wt d)) ->
  let '(ret, f') := esp_hosted_rcp_send_packet_to_host cap wt data pkt f in
  ret = ESP_ERR_INVALID_STATE /\ f' = f \/ sent pkt data f ret f'.
Proof.
  intros Hi Hw. unfold esp_hosted_rcp_send_packet_to_host.
  destruct (_ || _) eqn:Eg; [by left|]. bool_hyps.
  pose proof (rcp_send_loop_spec cap wt data pkt (length data) 0 f) as Hl.
  rewrite zdrop_le0 in Hl by lia. zlen_nonneg_all.
  specialize (Hl ltac:(unfold zlen; lia) ltac:(lia) Hi ltac:(done) Hw).
  destruct (rcp_send_loop _ _ _ _ _ _ _). by right.
Qed.

(** ** Releasing what waited for the host *)
Definition queue_waits_ok (qw : Z -> fw -> fw) : Prop := forall n f, room f -> transport_step f (qw n f).

(** What was held back moves to the transport in order; a failure drops one
    buffer of the stream, gives its slot back and schedules the restart. *)
Lemma rcp_release_spec cap qw pending f :
  tx_inv f -> s_tx_pool (rcp_of f) = true -> queue_waits_ok qw ->
  s_preboot_tx_queue (rcp_of f) = Some pending ->
  (s_host_ready (rcp_of f) = true -> pending = []) ->
  let '(ret, f') := rcp_release_preboot cap qw pending f in
  tx_inv f' /\ s_tx_pool (rcp_of f') = true /\
  s_host_session_ready (rcp_of f') = s_host_session_ready (rcp_of f) /\
  if ret =? ESP_OK then
    rcp_stream f' = rcp_stream f /\ s_host_ready (rcp_of f') = true /\
    s_preboot_tx_queue (rcp_of f') = Some []
  else fatal_scheduled f'.
Proof.
  revert f. induction pending as [|b rest IH]; intros f Hi Hp Hw Hq Hg; cbn [rcp_release_preboot].
  { cbn. split_and!; try done. destruct Hi as [I1 I2 I3]. constructor; [exact I1|exact I2|].
    intros _. cbn. by rewrite Hq. }
  assert (Hnr : s_host_ready (rcp_of f) = false) by (destruct (s_host_ready (rcp_of f)); [by discriminate Hg|done]).
  set (f1 := on_rcp _ f). 
  assert (Hroom : room f1).
  { destruct (tx_inv_room f Hi Hp) as [Hr1 Hr2]. split; [done|]. unfold all_slots in *. subst f1. cbn.
    rewrite Hq in Hr2. unfold slots_of in *. unfold zlen in *. cbn in *. rewrite !length_app in *.
    destruct (bh_slot b); cbn in Hr2; lia. }
  pose proof (Hw (zlen rest) f1 Hroom) as Hs. clear Hroom.
  assert (Hperm : option_list (bh_slot b) ++ all_slots (qw (zlen rest) f1) ≡ₚ pool_slots).
  { rewrite (ts_slots _ _ Hs). rewrite <- (proj1 (tx_slots _ Hi Hp)). unfold all_slots. rewrite Hq.
    subst f1. cbn. destruct (bh_slot b); cbn; [|done]. by rewrite <- Permutation_middle. }
  destruct (ts_rest _ _ Hs) as (q2 & Er2 & Hq2).
  assert (Hmid : queued_mid (qw (zlen rest) f1) = queued_mid f).
  { pose proof (ts_out _ _ Hs) as Ho. unfold rcp_out in Ho. rewrite Er2 in Ho.
    by apply app_inv_tail in Ho. }
  assert (Hfree : s_tx_free_queue (rcp_of (qw (zlen rest) f1)) <> None).
  { rewrite Er2. cbn. rewrite Hq2. apply (tx_slots _ Hi Hp). }
  set (f2 := qw (zlen rest) f1) in *. clearbody f2.
  assert (Hp2 : s_tx_pool (rcp_of f2) = true) by by rewrite Er2.
  assert (Hrdy2 : s_host_ready (rcp_of f2) = false) by by rewrite Er2.
  assert (Hpre2 : s_preboot_tx_queue (rcp_of f2) = Some rest) by by rewrite Er2.
  assert (Hses2 : s_host_session_ready (rcp_of f2) = s_host_session_ready (rcp_of f)) by by rewrite Er2.
  clear Er2 Hs Hq2. unfold send_to_host_timeout, xQueueSend. change (PRIO_Q_MID =? PRIO_Q_HIGH) with false.
  change (PRIO_Q_MID =? PRIO_Q_MID) with true. cbv iota.
  destruct (zlen (to_host_mid f2) <? cap); cbv beta iota.
  - set (f3 := f2 <| to_host_mid := _ |> <| queued_mid := _ |>).
    assert (Hi3 : tx_inv f3).
    { constructor; [|unfold f3; cbn; congruence|unfold f3; cbn; congruence].
      intros _. split; [|done]. rewrite <- Hperm. unfold all_slots, f3. cbn. rewrite slots_of_app.
      cbn. rewrite !app_assoc. destruct (bh_slot b); cbn; [|by rewrite app_nil_r].
      by rewrite <- Permutation_cons_append. }
    assert (Ho3 : rcp_stream f3 = rcp_stream f).
    { unfold rcp_stream, rcp_out, f3. cbn. rewrite Hmid, Hpre2, Hq. cbn. by rewrite <- app_assoc. }
    specialize (IH f3 Hi3 Hp2 Hw Hpre2 ltac:(intros; unfold f3 in *; cbn in *; congruence)).
    destruct (rcp_release_preboot _ _ _ _) as [ret f4]. destruct IH as (I1 & I2 & I3 & I4).
    split_and!; [done|done| |rewrite <- Ho3; exact I4]. rewrite I3. exact Hses2.
  - cbn [ESP_ERR_TIMEOUT ESP_OK Z.eqb].
    destruct (bh_slot b) as [slot|] eqn:Eb.
    + destruct (fail_spec f2 b slot) as (F1 & F2 & F3 & q & F4); try done; [congruence|].
      rewrite F4. split_and!; done.
    + unfold free_buf_handle. rewrite Eb. destruct (fatal_restart_spec f2) as (F1 & F2 & F3 & F4).
      rewrite F2. split_and!; try done. constructor; rewrite F2; [|congruence|congruence].
      intros _. split; [|done]. unfold all_slots in *. by rewrite F2, F3.
Qed.

Lemma rcp_host_ready_spec cap gate qw f :
  tx_inv f -> queue_waits_ok qw ->
  let '(ret, f') := esp_hosted_rcp_host_ready cap gate qw f in
  s_tx_pool (rcp_of f) = true ->
  tx_inv f' /\ s_tx_pool (rcp_of f') = true /\
  s_host_session_ready (rcp_of f') = s_host_session_ready (rcp_of f) /\
  if ret =? ESP_OK then
    rcp_stream f' = rcp_stream f /\ s_host_ready (rcp_of f') = true /\
    s_preboot_tx_queue (rcp_of f') = Some []
  else f' = f \/ fatal_scheduled f'.
Proof.
  intros Hi Hw.
  assert (keep : forall ret (P : Prop), (ret =? ESP_OK) = false -> s_tx_pool (rcp_of f) = true ->
    tx_inv f /\ s_tx_pool (rcp_of f) = true /\
    s_host_session_ready (rcp_of f) = s_host_session_ready (rcp_of f) /\
    (if ret =? ESP_OK then P else f = f \/ fatal_scheduled f)).
  { intros ret P -> Hp. auto. }
  unfold esp_hosted_rcp_host_ready.
  destruct (s_preboot_tx_queue (rcp_of f)) as [pending|] eqn:Eq.
  2: { by apply keep. }
  destruct (_ || _).
  { by apply keep. }
  destruct gate; cbn [negb].
  2: { by apply keep. }
  assert (Hg : s_host_ready (rcp_of f) = true -> pending = []).
  { intros Hr. pose proof (tx_gate _ Hi Hr) as Hn. by rewrite Eq in Hn. }
  destruct (s_tx_pool (rcp_of f)) eqn:Ep.
  - pose proof (rcp_release_spec cap qw pending f Hi Ep Hw Eq Hg) as H'.
    destruct (rcp_release_preboot _ _ _ _) as [ret f']. intros _.
    destruct H' as (R1 & R2 & R3 & R4). split_and!; try done. destruct (ret =? ESP_OK); auto.
  - by destruct (rcp_release_preboot _ _ _ _).
Qed.

(** ** The session handshake *)
Lemma rcp_session_start_spec cap gates qw wt version nonce f :
  tx_inv f -> s_tx_pool (rcp_of f) = true -> queue_waits_ok qw -> (forall d, waits_ok (wt d)) ->
  let '(ret, f') := esp_hosted_rcp_session_start_from_host cap gates qw wt version nonce f in
  tx_inv f' /\ s_tx_pool (rcp_of f') = true.
Proof.
  intros Hi Hp Hq Hw. unfold esp_hosted_rcp_session_start_from_host.
  destruct (_ || _ || _); [done|]. destruct (_ || _); [done|]. destruct (fst gates); [|done]. cbn [negb].
  set (f1 := on_rcp _ f). assert (Hi1 : tx_inv f1) by (destruct Hi; by constructor).
  pose proof (rcp_host_ready_spec cap (snd gates) qw f1 Hi1 Hq) as H1.
  destruct (esp_hosted_rcp_host_ready _ _ _ _) as [ret f2]. destruct (H1 Hp) as (A1 & A2 & _).
  destruct (ret =? ESP_OK); cbn [negb]; [|done].
  pose proof (rcp_send_packet_spec cap wt (marker_bytes ESP_RCP_SESSION_VERSION nonce)
    PACKET_TYPE_RCP_SESSION f2 A1 Hw) as H2.
  destruct (esp_hosted_rcp_send_packet_to_host _ _ _ _ _) as [ret2 f3].
  destruct H2 as [[_ ->]|[B1 B2 _ _ _]]; done.
Qed.

(** ** Life cycle *)
Lemma fill_free_pool : fill_free pool_slots [] = (true, pool_slots).
Proof. reflexivity. Qed.

(** Creating a missing queue changes no content. *)
Lemma create_spec {A} granted (have q : option (list A)) :
  create granted [] have = Some q -> default [] q = default [] have /\ q <> None.
Proof. unfold create. destruct have; [|destruct granted]; naive_solver. Qed.

(** Two states of the bridge that agree on the TX slots. *)
Record same_tx (r r' : rcp_fw) : Prop := mk_same_tx {
  st_free : default [] (s_tx_free_queue r') = default [] (s_tx_free_queue r);
  st_created : s_tx_free_queue r <> None -> s_tx_free_queue r' <> None;
  st_preboot : default [] (s_preboot_tx_queue r') = default [] (s_preboot_tx_queue r);
  st_pool : s_tx_pool r' = s_tx_pool r;
  st_ready : s_host_ready r' = true -> s_host_ready r = true;
  st_bridge : s_bridge_enabled r' = s_bridge_enabled r
}.

#[export] Instance same_tx_preorder : PreOrder same_tx.
Proof.
  split; [by intros r; constructor|]. intros r1 r2 r3 [] []. constructor; first [congruence|auto].
Qed.

Lemma same_tx_inv f r' : same_tx (rcp_of f) r' -> tx_inv f -> tx_inv (on_rcp (fun _ => r') f).
Proof.
  intros [S1 S2 S3 S4 S5 _] [I1 I2 I3].
  assert (Ha : all_slots (on_rcp (fun _ => r') f) = all_slots f) by (unfold all_slots; cbn; by rewrite S1, S3).
  constructor; rewrite ?Ha; cbn; rewrite ?S3, ?S4; auto.
  intros Hp. destruct (I1 Hp). split; auto.
Qed.

Lemma rcp_init_inv al nonce f :
  tx_inv f -> let '(ret, r') := esp_hosted_rcp_init al nonce (rcp_of f) in
  tx_inv (on_rcp (fun _ => r') f) /\
  (if ret =? ESP_OK then s_tx_pool r' = true else same_tx (rcp_of f) r').
Proof.
  intros Hi. unfold esp_hosted_rcp_init.
  assert (keep : forall r' ret, same_tx (rcp_of f) r' -> (ret =? ESP_OK) = false ->
    tx_inv (on_rcp (fun _ => r') f) /\
    (if ret =? ESP_OK then s_tx_pool r' = true else same_tx (rcp_of f) r')).
  { intros r' ret Hs ->. split; [by apply same_tx_inv|done]. }
  destruct (create _ [] (s_rx_queue _)) as [q1|] eqn:E1; [|by apply keep].
  set (r1 := rcp_of f <| s_rx_queue := q1 |>). assert (S1 : same_tx (rcp_of f) r1) by done.
  clearbody r1. cbv zeta.
  destruct (create _ [] (s_tx_free_queue _)) as [q2|] eqn:E2; [|by apply keep].
  apply create_spec in E2 as [E2 N2].
  set (r2 := r1 <| s_tx_free_queue := q2 |>).
  assert (S2 : same_tx (rcp_of f) r2) by (etrans; [exact S1|by constructor]).
  change (s_tx_free_queue r2) with q2 in *. assert (F2 : s_tx_free_queue r2 <> None) by done. clearbody r2.
  destruct (create _ [] (s_preboot_tx_queue _)) as [q3|] eqn:E3; [|by apply keep].
  apply create_spec in E3 as [E3 N3].
  set (r3 := r2 <| s_preboot_tx_queue := q3 |>).
  assert (S3 : same_tx (rcp_of f) r3) by (etrans; [exact S2|by constructor]).
  assert (F3 : s_tx_free_queue r3 <> None) by done. clearbody r3.
  destruct (negb _); [by apply keep|].
  set (r4 := r3 <| s_tx_gate_lock := true |>). assert (S4 : same_tx (rcp_of f) r4) by (etrans; [exact S3|done]).
  assert (F4 : s_tx_free_queue r4 <> None) by done. clearbody r4.
  destruct (negb (_ || _)); [by apply keep|].
  destruct (s_tx_pool r4) eqn:Ep.
  - cbn [negb]. split; [|done]. destruct (same_tx_inv f r4 S4 Hi) as [J1 J2 _].
    constructor; [exact J1|exact J2|done].
  - assert (E0 : default [] (s_tx_free_queue r4) = [] /\ slots_of (default [] (s_preboot_tx_queue r4)) = []
      /\ slots_of (to_host_mid f) = []).
    { destruct S4 as [T1 T2 T3 T4 T5 _]. rewrite T1, T3. rewrite Ep in T4.
      pose proof (tx_no_pool _ Hi (eq_sym T4)) as Hn.
      apply app_eq_nil in Hn as [? [? ?]%app_eq_nil]. done. }
    destruct E0 as (Z1 & Z2 & Z3). rewrite Z1, fill_free_pool. cbn [negb]. split; [|done].
    constructor; cbn; [|done|done]. intros _. split; [|done]. unfold all_slots, slots_of in *. cbn. rewrite Z2, Z3.
    by rewrite app_nil_r.
Qed.

(** Giving the waiting buffers back one after the other. *)
Lemma free_all_spec pending f :
  s_tx_free_queue (rcp_of f) <> None -> slots_of pending ++ all_slots f ≡ₚ pool_slots ->
  let f' := fold_left (fun f b => free_buf_handle b f) pending f in
  all_slots f' ≡ₚ pool_slots /\ exists q, f' = on_rcp (fun r => r <| s_tx_free_queue := Some q |>) f.
Proof.
  revert f. induction pending as [|b pending IH]; intros f Hq Hp; cbn [fold_left].
  - split; [done|]. destruct (s_tx_free_queue (rcp_of f)) as [q|] eqn:E; [|done]. exists q.
    unfold on_rcp. destruct f as [r]. destruct r. cbn in *. by subst.
  - cbn in Hp. unfold free_buf_handle at 2 4. destruct (bh_slot b) as [slot|]; [|by apply IH].
    destruct (s_tx_free_queue (rcp_of f)) as [q|] eqn:E; [|done].
    set (f1 := on_rcp _ f).
    assert (Hl : zlen q < ESP_HOSTED_RCP_TX_POOL_SIZE).
    { apply Permutation_length in Hp. unfold all_slots in Hp. rewrite E in Hp. cbn in Hp.
      rewrite !length_app in Hp. unfold zlen, ESP_HOSTED_RCP_TX_POOL_SIZE. lia. }
    assert (E1 : f1 = on_rcp (fun r => r <| s_tx_free_queue := Some (q ++ [slot]) |>) f).
    { unfold f1, on_rcp, esp_hosted_rcp_release_tx_slot, xQueueSend. rewrite E.
      by rewrite (proj2 (Z.ltb_lt _ _) Hl). }
    clearbody f1. subst f1.
    edestruct (IH (on_rcp (fun r => r <| s_tx_free_queue := Some (q ++ [slot]) |>) f)) as [A1 (q' & A2)];
      [done| |split; [exact A1|exists q'; exact A2]].
    rewrite <- Hp. unfold all_slots. cbn. rewrite E. cbn. rewrite <- !app_assoc. cbn.
    rewrite <- !Permutation_middle. done.
Qed.

Lemma free_none_spec pending f :
  slots_of pending = [] -> fold_left (fun f b => free_buf_handle b f) pending f = f.
Proof.
  revert f. induction pending as [|b pending IH]; intros f Hp; [done|]. cbn in *.
  unfold free_buf_handle at 2. destruct (bh_slot b); [done|]. by apply IH.
Qed.

Lemma rcp_deinit_inv f : tx_inv f -> tx_inv (esp_hosted_rcp_deinit f).
Proof.
  intros Hi. unfold esp_hosted_rcp_deinit. cbv zeta. set (pending := default [] _).
  set (f1 := on_rcp _ f).
  assert (Hperm : slots_of pending ++ all_slots f1 ≡ₚ all_slots f).
  { unfold all_slots, f1. subst pending. cbn. destruct (s_preboot_tx_queue (rcp_of f)); cbn; [|done].
    rewrite !app_assoc. by apply Permutation_app_tail, Permutation_app_comm. }
  assert (Hpre : default [] (s_preboot_tx_queue (rcp_of f1)) = []).
  { unfold f1. cbn. by destruct (s_preboot_tx_queue (rcp_of f)). }
  assert (Hpool : s_tx_pool (rcp_of f1) = s_tx_pool (rcp_of f)) by done.
  assert (Hfree : s_tx_free_queue (rcp_of f1) = s_tx_free_queue (rcp_of f)) by done.
  clearbody pending f1. destruct (s_tx_pool (rcp_of f)) eqn:Ep.
  - destruct (tx_slots _ Hi Ep) as [Ha Hn].
    destruct (free_all_spec pending f1) as [B1 (q & B2)]; [by rewrite Hfree|by rewrite Hperm|].
    set (f2 := fold_left _ _ _) in *. clearbody f2. subst f2.
    constructor; cbn; [|congruence|done]. intros _. split; [exact B1|done].
  - pose proof (tx_no_pool _ Hi Ep) as Hn. rewrite Hn in Hperm.
    apply Permutation_sym, Permutation_nil, app_eq_nil in Hperm as [P1 P2].
    rewrite free_none_spec by done. constructor; cbn; [congruence|done|done].
Qed.

(** ** The transmit side does not touch the receive side *)
Record same_rx (f f' : fw) : Prop := mk_same_rx {
  sr_queue : s_rx_queue (rcp_of f') = s_rx_queue (rcp_of f);
  sr_current : s_current_rx (rcp_of f') = s_current_rx (rcp_of f);
  sr_bridge : s_bridge_enabled (rcp_of f') = s_bridge_enabled (rcp_of f);
  sr_session : s_host_session_ready (rcp_of f) = true -> s_host_session_ready (rcp_of f') = true
}.

#[export] Instance same_rx_preorder : PreOrder same_rx.
Proof.
  split; [by intros f; constructor|]. intros f1 f2 f3 [] []. constructor; first [congruence|auto].
Qed.

Definition waits_rx (wt : tx_waits) : Prop :=
  forall f, same_rx f (slot_wait wt f) /\ same_rx f (queue_wait wt f).

Lemma fatal_restart_same_rx f : same_rx f (esp_hosted_rcp_fatal_restart f).
Proof. destruct (fatal_restart_spec f) as (_ & E & _). constructor; by rewrite ?E. Qed.

Lemma free_buf_handle_same_rx b f : same_rx f (free_buf_handle b f).
Proof.
  unfold free_buf_handle, on_rcp, esp_hosted_rcp_release_tx_slot. destruct (bh_slot b); [|done].
  destruct (s_tx_free_queue (rcp_of f)); [|by constructor].
  destruct (xQueueSend _ _ _); by constructor.
Qed.

Lemma send_to_host_same_rx cap prio b f : same_rx f (snd (send_to_host_timeout cap prio b f)).
Proof.
  unfold send_to_host_timeout. destruct (prio =? PRIO_Q_HIGH); [by destruct (xQueueSend _ _ _)|].
  destruct (prio =? PRIO_Q_MID); [by destruct (xQueueSend _ _ _)|].
  destruct (prio =? PRIO_Q_LOW); [by destruct (xQueueSend _ _ _)|done].
Qed.

(** Giving the slot back and failing. *)
Lemma fail_same_rx b f : same_rx f (esp_hosted_rcp_fatal_restart (free_buf_handle b f)).
Proof. etrans; [|apply fatal_restart_same_rx]. apply free_buf_handle_same_rx. Qed.

#[export] Hint Resolve fail_same_rx fatal_restart_same_rx free_buf_handle_same_rx send_to_host_same_rx : rcp_fw.

Lemma rcp_send_chunk_same_rx cap wt pkt chunk f :
  waits_rx wt -> same_rx f (snd (rcp_send_chunk cap wt pkt chunk f)).
Proof.
  intros Hw. unfold rcp_send_chunk. destruct (Hw f) as [Hs _]. etrans; [exact Hs|].
  generalize (slot_wait wt f) as f1. clear Hs f. intros f1.
  destruct (s_tx_free_queue (rcp_of f1)) as [[|slot free]|]; [auto with rcp_fw| |auto with rcp_fw].
  set (b := mk_bh _ _ _ _ _ _ _). set (f2 := on_rcp _ f1). transitivity f2; [by constructor|].
  clearbody f2. destruct (negb _).
  { apply fail_same_rx. }
  destruct (Hw f2) as [_ Hs]. set (r := s_host_ready (rcp_of f2)). clearbody r.
  etrans; [exact Hs|]. generalize (queue_wait wt f2) as f3. intros f3. destruct r.
  - pose proof (send_to_host_same_rx cap PRIO_Q_MID b f3) as H.
    destruct (send_to_host_timeout _ _ _ _) as [[] f4]; [exact H|].
    etrans; [exact H|]. apply fail_same_rx.
  - destruct (xQueueSend _ _ _); [by constructor|]. apply fail_same_rx.
Qed.

Lemma rcp_send_packet_same_rx cap wt data pkt f :
  (forall d, waits_rx (wt d)) -> same_rx f (snd (esp_hosted_rcp_send_packet_to_host cap wt data pkt f)).
Proof.
  intros Hw. unfold esp_hosted_rcp_send_packet_to_host. destruct (_ || _); [done|].
  generalize 0 as pos, (length data) as fuel. intros pos fuel. revert pos f.
  induction fuel as [|fuel IH]; intros pos f; [easy|]. cbn [rcp_send_loop].
  destruct (_ <? _); [|easy]. set (k := if _ <? _ then _ else _). clearbody k.
  pose proof (rcp_send_chunk_same_rx cap (wt pos) pkt (ztake k (zdrop pos data)) f (Hw pos)) as H.
  destruct (rcp_send_chunk _ _ _ _ _) as [ret f1]. cbn in H. destruct (negb _); [exact H|].
  etrans; [exact H|]. apply IH.
Qed.

Lemma rcp_host_ready_same_rx cap gate qw f :
  (forall d f, same_rx f (qw d f)) -> same_rx f (snd (esp_hosted_rcp_host_ready cap gate qw f)).
Proof.
  intros Hw. unfold esp_hosted_rcp_host_ready. destruct (s_preboot_tx_queue (rcp_of f)) as [l|]; [|done].
  destruct (_ || _); [done|]. destruct (negb gate); [done|]. revert f.
  induction l as [|b l IH]; intros f; cbn [rcp_release_preboot]; [by constructor|].
  set (f1 := on_rcp _ f). transitivity f1; [by constructor|]. clearbody f1.
  etrans; [apply (Hw (zlen l))|]. generalize (qw (zlen l) f1) as f2. intros f2.
  pose proof (send_to_host_same_rx cap PRIO_Q_MID b f2) as H.
  destruct (send_to_host_timeout _ _ _ _) as [[] f3]; (etrans; [exact H|]); [apply IH|].
  apply fail_same_rx.
Qed.

Lemma rcp_session_start_same_rx cap gates qw wt version nonce f :
  (forall d f, same_rx f (qw d f)) -> (forall d, waits_rx (wt d)) ->
  same_rx f (snd (esp_hosted_rcp_session_start_from_host cap gates qw wt version nonce f)).
Proof.
  intros Hq Hw. unfold esp_hosted_rcp_session_start_from_host.
  destruct (_ || _ || _); [done|]. destruct (_ || _); [done|]. destruct (negb _); [done|].
  set (f1 := on_rcp _ f). transitivity f1; [by constructor|]. clearbody f1.
  pose proof (rcp_host_ready_same_rx cap (snd gates) qw f1 Hq) as H.
  destruct (esp_hosted_rcp_host_ready _ _ _ _) as [ret f2]. cbn in H. destruct (negb _); [exact H|].
  etrans; [exact H|]. by apply rcp_send_packet_same_rx.
Qed.

Lemma same_rx_pipe f f' : same_rx f f' -> rcp_in_pipe (rcp_of f') = rcp_in_pipe (rcp_of f).
Proof. intros [E1 E2 _ _]. unfold rcp_in_pipe. by rewrite E1, E2. Qed.

Lemma same_rx_ok f f' : same_rx f f' -> rx_ok (rcp_of f) -> rx_ok (rcp_of f').
Proof. intros [E1 E2 _ _] [H1 H2]. constructor; rewrite ?E1; [done|]. rewrite E2. exact H2. Qed.

(** ** Reachable states *)

(** The transport consumes a packet of the middle queue and gives its slot back. *)
Lemma send_mid_pkt_step hw act wr f :
  room f \/ all_slots f = [] -> transport_step f (send_mid_pkt hw act wr f).
Proof.
  intros Hrm. unfold send_mid_pkt. destruct (to_host_mid f) as [|b q] eqn:Em; [done|].
  set (f1 := f <| to_host_mid := q |>).
  assert (H : forall f2, rcp_of f2 = rcp_of f -> to_host_mid f2 = q -> queued_mid f2 = queued_mid f ->
    transport_step f (free_buf_handle b f2)).
  { intros f2 E1 E2 E3. unfold free_buf_handle. destruct (bh_slot b) as [slot|] eqn:Eb.
    - destruct Hrm as [[Hq Hl]|Hnil].
      2: { exfalso. unfold all_slots in Hnil. rewrite Em in Hnil.
           apply app_eq_nil in Hnil as [_ [_ Hn]%app_eq_nil]. cbn in Hn. by rewrite Eb in Hn. }
      destruct (s_tx_free_queue (rcp_of f)) as [free|] eqn:Ef; [|done].
      assert (Hr : rcp_of (on_rcp (esp_hosted_rcp_release_tx_slot slot) f2) =
        rcp_of f <| s_tx_free_queue := Some (free ++ [slot]) |>).
      { cbn. unfold esp_hosted_rcp_release_tx_slot, xQueueSend. rewrite E1, Ef.
        unfold all_slots in Hl. rewrite Ef, Em in Hl. cbn in Hl. rewrite Eb in Hl.
        unfold zlen in *. rewrite !length_app in Hl. cbn in Hl.
        assert (Hlt : Z.of_nat (length free) < ESP_HOSTED_RCP_TX_POOL_SIZE) by lia.
        by rewrite (proj2 (Z.ltb_lt _ _) Hlt). }
      constructor.
      + unfold rcp_out. rewrite Hr. cbn. by rewrite E3.
      + unfold all_slots. rewrite Hr, Ef, Em. cbn. rewrite E2, Eb, <- app_assoc. cbn.
        by rewrite <- !Permutation_middle.
      + exists (Some (free ++ [slot])). split; [exact Hr|]. by rewrite Ef.
    - constructor.
      + unfold rcp_out. by rewrite E1, E3.
      + unfold all_slots. rewrite E1, E2, Em. cbn. by rewrite Eb.
      + exists (s_tx_free_queue (rcp_of f)). rewrite E1. split; [|done]. by destruct (rcp_of f). }
  unfold process_tx_pkt. destruct (negb _); [by apply H|]. destruct (negb _); [by apply H|].
  destruct (_ && _); [by apply H|]. cbn [snd].
  destruct (_ && _); [|by apply H].
  destruct (fatal_restart_spec f1) as (_ & E1 & E2 & E3). apply H; [exact E1|exact E2|exact E3].
Qed.

Lemma transport_step_room f f' : transport_step f f' -> room f -> room f'.
Proof.
  intros [_ Hs (q & Hr & Hq)] [H1 H2]. split.
  - rewrite Hr. cbn. tauto.
  - apply Permutation_length in Hs. unfold zlen in *. by rewrite Hs.
Qed.

(** How the transport behaves while a sender waits: a number of packets. *)
Section Reachable.
Context (to_host_queue_size : Z) (has_write : bool) (raw_tp_active : Z -> bool) (write : buf_handle -> Z).

Definition consume (n : nat) : fw -> fw := Nat.iter n (send_mid_pkt has_write raw_tp_active write).
Definition waits (gate : Z -> bool) (n m : Z -> nat) (d : Z) : tx_waits :=
  mk_tx_waits (consume (n d)) (gate d) (consume (m d)).

Lemma consume_step n f : room f -> transport_step f (consume n f).
Proof.
  intros Hr. induction n as [|n IH]; [done|]. cbn. etrans; [exact IH|].
  apply send_mid_pkt_step. left. by apply (transport_step_room f).
Qed.

Lemma waits_waits_ok gate n m d : waits_ok (waits gate n m d).
Proof. intros f Hr. split; by apply consume_step. Qed.

(** What the radio stack, the command task, the receive task and the send task do. *)
Inductive rcp_step : fw -> fw -> Prop :=
  | step_init al nonce f :
      rcp_step f (on_rcp (fun _ => snd (esp_hosted_rcp_init al nonce (rcp_of f))) f)
  | step_deinit f : rcp_step f (esp_hosted_rcp_deinit f)
  | step_fatal_init created f : rcp_step f (snd (esp_hosted_rcp_fatal_worker_init created f))
  | step_read n f : 0 <= n -> rcp_step f (on_rcp (fun r => snd (esp_hosted_rcp_read n r)) f)
  | step_rx cap ok data f :
      rcp_step f (on_rcp (fun r => snd (esp_hosted_rcp_rx_from_host cap ok data r)) f)
  | step_send gate n m data f :
      rcp_step f (snd (esp_hosted_rcp_send_to_host to_host_queue_size (waits gate n m) data f))
  | step_host_ready g m f :
      rcp_step f (snd (esp_hosted_rcp_host_ready to_host_queue_size g (fun d => consume (m d)) f))
  | step_session gates m gate n k version nonce f :
      rcp_step f (snd (esp_hosted_rcp_session_start_from_host to_host_queue_size gates
        (fun d => consume (m d)) (waits gate n k) version nonce f))
  | step_send_task f : rcp_step f (send_mid_pkt has_write raw_tp_active write f).

(** Invariant of every reachable state. *)
Record fw_inv (f : fw) : Prop := mk_fw_inv {
  fw_tx : tx_inv f;
  fw_pool : s_bridge_enabled (rcp_of f) = true -> s_tx_pool (rcp_of f) = true
}.

Lemma same_tx_fw_inv f r' :
  same_tx (rcp_of f) r' -> fw_inv f -> fw_inv (on_rcp (fun _ => r') f).
Proof.
  intros Hs [I1 I2]. constructor; [by apply same_tx_inv|]. cbn.
  by rewrite (st_bridge _ _ Hs), (st_pool _ _ Hs).
Qed.

Lemma read_loop_same_tx fuel n copied r :
  same_tx r (snd (rcp_read_loop fuel n copied r)).
Proof.
  revert copied r. induction fuel as [|fuel IH]; intros copied r; [done|]. cbn [rcp_read_loop].
  destruct (zlen copied <? n); [|done]. set (r1 := match s_current_rx r with None => _ | _ => _ end).
  assert (H0 : same_tx r r1).
  { subst r1. destruct (s_current_rx r); [done|]. by destruct (s_rx_queue r) as [[|c q]|]. }
  clearbody r1. destruct (s_current_rx r1) as [[data off]|]; [|done].
  match goal with |- context [rcp_read_loop fuel n ?c ?r2] => pose proof (IH c r2) as H2 end.
  etrans; [exact H0|]. etrans; [|exact H2]. by constructor.
Qed.

Lemma free_buf_handle_bridge b f :
  s_bridge_enabled (rcp_of (free_buf_handle b f)) = s_bridge_enabled (rcp_of f).
Proof.
  unfold free_buf_handle, on_rcp, esp_hosted_rcp_release_tx_slot. destruct (bh_slot b); [|done]. cbn.
  destruct (s_tx_free_queue (rcp_of f)); [|done]. by destruct (xQueueSend _ _ _).
Qed.

Lemma deinit_bridge f : s_bridge_enabled (rcp_of (esp_hosted_rcp_deinit f)) = false.
Proof.
  unfold esp_hosted_rcp_deinit. cbn. set (f1 := on_rcp _ f).
  assert (H : s_bridge_enabled (rcp_of f1) = false) by done. revert H. clearbody f1.
  generalize (default [] (s_preboot_tx_queue (rcp_of f))) as l. intros l. revert f1.
  induction l as [|b l IH]; intros f1 H; [done|]. cbn. apply IH. by rewrite free_buf_handle_bridge.
Qed.

Lemma rcp_step_inv f f' : rcp_step f f' -> fw_inv f -> fw_inv f'.
Proof.
  intros Hs Hf. pose proof Hf as [Hi Hb].
  destruct Hs as [al nonce f|f|created f|n f Hn|cap ok data f|gate n m data f|g m f
                 |gates m gate n k version nonce f|f].
  - pose proof (rcp_init_inv al nonce f Hi) as H. destruct (esp_hosted_rcp_init _ _ _) as [ret r'].
    destruct H as [H1 H2]. constructor; [done|]. cbn. destruct (ret =? ESP_OK); [done|].
    by rewrite (st_bridge _ _ H2), (st_pool _ _ H2).
  - constructor; [by apply rcp_deinit_inv|]. by rewrite deinit_bridge.
  - unfold esp_hosted_rcp_fatal_worker_init. destruct (s_rcp_fatal_task f); [done|].
    destruct created; [|done]. constructor; [by destruct Hi|exact Hb].
  - change (on_rcp _ f) with (on_rcp (fun _ => snd (esp_hosted_rcp_read n (rcp_of f))) f).
    apply same_tx_fw_inv; [|done]. unfold esp_hosted_rcp_read.
    destruct (s_rx_queue (rcp_of f)); [|done]. destruct (n =? 0); [done|]. apply read_loop_same_tx.
  - change (on_rcp _ f) with (on_rcp (fun _ => snd (esp_hosted_rcp_rx_from_host cap ok data (rcp_of f))) f).
    apply same_tx_fw_inv; [|done]. unfold esp_hosted_rcp_rx_from_host.
    destruct (_ =? 0); [done|]. destruct (s_rx_queue (rcp_of f)); [|done]. destruct (_ || _); [done|].
    destruct (negb ok); [done|]. by destruct (xQueueSend _ _ _).
  - unfold esp_hosted_rcp_send_to_host.
    pose proof (rcp_send_packet_spec to_host_queue_size (waits gate n m) data PACKET_TYPE_DATA f Hi
      (waits_waits_ok gate n m)) as H.
    destruct (esp_hosted_rcp_send_packet_to_host _ _ _ _ _) as [ret f']. cbn.
    destruct H as [[_ ->]|[S1 S2 _ _ _]]; by constructor.
  - destruct (s_tx_pool (rcp_of f)) eqn:Ep.
    + pose proof (rcp_host_ready_spec to_host_queue_size g (fun d => consume (m d)) f Hi) as H.
      destruct (esp_hosted_rcp_host_ready _ _ _ _) as [ret f'].
      destruct H as (H1 & H2 & _); [intros d f0 Hr; by apply consume_step|done|]. by constructor.
    + unfold esp_hosted_rcp_host_ready. destruct (s_preboot_tx_queue (rcp_of f)); [|done].
      destruct (s_bridge_enabled (rcp_of f)); [by discriminate Hb|done].
  - destruct (s_tx_pool (rcp_of f)) eqn:Ep.
    + pose proof (rcp_session_start_spec to_host_queue_size gates (fun d => consume (m d))
        (waits gate n k) version nonce f Hi Ep) as H.
      destruct (esp_hosted_rcp_session_start_from_host _ _ _ _ _ _ _) as [ret f'].
      destruct H as [H1 H2]; [intros d f0 Hr; by apply consume_step|apply waits_waits_ok|].
      by constructor.
    + unfold esp_hosted_rcp_session_start_from_host. destruct (_ || _ || _); [done|].
      destruct (s_bridge_enabled (rcp_of f)); [by discriminate Hb|done].
  - assert (Hr : transport_step f (send_mid_pkt has_write raw_tp_active write f)).
    { apply send_mid_pkt_step. destruct (s_tx_pool (rcp_of f)) eqn:Ep.
      - left. by apply tx_inv_room.
      - right. by apply (tx_no_pool _ Hi). }
    constructor; [by apply (transport_step_inv f)|]. by destruct (ts_rest _ _ Hr) as (q & -> & _).
Qed.

Lemma fw_zero_inv : fw_inv fw_zero.
Proof. constructor; [constructor|]; done. Qed.

Lemma rcp_reachable_inv f : rtc rcp_step fw_zero f -> fw_inv f.
Proof.
  intros H. pose proof fw_zero_inv as Hz. revert Hz.
  induction H as [f|f1 f2 f3 H12 _ IH]; [done|]. intros Hf. apply IH. by apply (rcp_step_inv f1).
Qed.

(** ** Properties *)

(** C21: Conservation of TX slots: however initialisation (partial failures
    included), tear-down, sends, the host's session start and the send task are
    ordered, once the pool exists its eight slots are each in exactly one place -
    free, in a start-up buffer, or in a packet queued to the transport - so none
    leaks and none is given out twice; and once the host is ready no start-up
    byte is left behind. *)
Theorem fw_tx_slots_conserved f :
  rtc rcp_step fw_zero f ->
  (s_tx_pool (rcp_of f) = true -> all_slots f ≡ₚ pool_slots /\ NoDup (all_slots f)) /\
  (s_tx_pool (rcp_of f) = false -> all_slots f = []) /\
  (s_bridge_enabled (rcp_of f) = true -> s_tx_pool (rcp_of f) = true) /\
  (s_host_ready (rcp_of f) = true -> default [] (s_preboot_tx_queue (rcp_of f)) = []).
Proof.
  intros [[I1 I2 I3] I4]%rcp_reachable_inv. split_and!; auto.
  intros Hp. destruct (I1 Hp) as [Hs _]. split; [done|]. rewrite Hs. by apply (bool_decide_unpack _).
Qed.

(** C22: Firmware-to-host byte stream: a send in any reachable state either is
    refused whole, or appends to what the host will receive, behind everything
    sent before and in order, chunks of at most 1400 bytes that make up a prefix
    of the data - all of it when the send reports success; and whenever it stops
    early the fatal restart is scheduled, so the stream is never silently short. *)
Theorem fw_tx_stream_exact f gate n m data :
  rtc rcp_step fw_zero f ->
  let '(ret, f') := esp_hosted_rcp_send_to_host to_host_queue_size (waits gate n m) data f in
  (ret = ESP_ERR_INVALID_STATE /\ f' = f) \/
  exists chunks,
    rcp_stream f' = rcp_stream f ++ (pair (pkt_code PACKET_TYPE_DATA) <$> chunks) /\
    Forall (fun c => 0 < zlen c <= ESP_HOSTED_RCP_CHUNK_MAX) chunks /\
    concat chunks `prefix_of` data /\
    (ret = ESP_OK -> concat chunks = data) /\
    (ret <> ESP_OK -> fatal_scheduled f').
Proof.
  intros [Hi _]%rcp_reachable_inv. unfold esp_hosted_rcp_send_to_host.
  pose proof (rcp_send_packet_spec to_host_queue_size (waits gate n m) data PACKET_TYPE_DATA f Hi
    (waits_waits_ok gate n m)) as H.
  destruct (esp_hosted_rcp_send_packet_to_host _ _ _ _ _) as [ret f'].
  destruct H as [H|[S1 S2 S3 (cs & C1 & C2 & C3 & C4) S5]]; [by left|right].
  exists cs. done.
Qed.

(** Session start: a marker that does not carry this incarnation's nonce
    changes nothing. With the right nonce, success means that the session is
    open, that every byte held back since start-up has been queued to the
    transport, and that the confirmation carrying the nonce follows it in the
    stream. *)
Theorem fw_session_confirmed f gates m gate n k version nonce :
  rtc rcp_step fw_zero f ->
  let '(ret, f') := esp_hosted_rcp_session_start_from_host to_host_queue_size gates
    (fun d => consume (m d)) (waits gate n k) version nonce f in
  ((version =? ESP_RCP_SESSION_VERSION) && negb (nonce =? 0) &&
     (nonce =? s_session_nonce (rcp_of f)) = false -> ret = ESP_OK /\ f' = f) /\
  ((version =? ESP_RCP_SESSION_VERSION) && negb (nonce =? 0) &&
     (nonce =? s_session_nonce (rcp_of f)) = true ->
   s_bridge_enabled (rcp_of f) = true -> s_tx_gate_lock (rcp_of f) = true -> ret = ESP_OK ->
   s_host_session_ready (rcp_of f') = true /\ s_host_ready (rcp_of f') = true /\
   default [] (s_preboot_tx_queue (rcp_of f')) = [] /\
   exists chunks,
     rcp_stream f' = rcp_stream f ++ (pair (pkt_code PACKET_TYPE_RCP_SESSION) <$> chunks) /\
     concat chunks = marker_bytes ESP_RCP_SESSION_VERSION nonce).
Proof.
  intros [Hi Hb]%rcp_reachable_inv. unfold esp_hosted_rcp_session_start_from_host.
  destruct (version =? ESP_RCP_SESSION_VERSION), (nonce =? 0), (nonce =? s_session_nonce (rcp_of f));
    cbn [negb andb orb]; try done.
  destruct (s_bridge_enabled (rcp_of f)) eqn:Eb; [|done].
  destruct (s_tx_gate_lock (rcp_of f)) eqn:El; [|done]. specialize (Hb eq_refl).
  cbn [negb orb]. destruct (fst gates); [|done]. cbn [negb]. set (f1 := on_rcp _ f).
  assert (Hi1 : tx_inv f1) by (destruct Hi; by constructor).
  pose proof (rcp_host_ready_spec to_host_queue_size (snd gates) (fun d => consume (m d)) f1 Hi1) as H1.
  destruct (esp_hosted_rcp_host_ready _ _ _ _) as [ret f2].
  destruct H1 as (A1 & A2 & A3 & A4); [intros d f0 Hr; by apply consume_step|done|].
  destruct (ret =? ESP_OK) eqn:Er; cbn [negb]; bool_hyps; [|split; [done|congruence]].
  destruct A4 as (A4 & A5 & A6).
  pose proof (rcp_send_packet_spec to_host_queue_size (waits gate n k)
    (marker_bytes ESP_RCP_SESSION_VERSION nonce) PACKET_TYPE_RCP_SESSION f2 A1 (waits_waits_ok gate n k)) as H2.
  destruct (esp_hosted_rcp_send_packet_to_host _ _ _ _ _) as [ret2 f3]. split; [done|]. intros _ _ _ Hret.
  destruct H2 as [[Hx _]|[B1 B2 [B3 B3'] (cs & C1 & C2 & C3 & C4) _]]; [by rewrite Hret in Hx|].
  rewrite B3', B3, A3, A5. split_and!; [done|done| |].
  - apply (tx_gate _ B1). by rewrite B3.
  - exists cs. rewrite C1, A4. split; [done|by apply C4].
Qed.
End Reachable.

(** ** A run: initialise, send start-up bytes, receive the session marker *)
Definition demo_write (b : buf_handle) : Z := zlen (bh_payload b).
Definition demo_active (_ : Z) : bool := true.
Definition demo_yes (_ : Z) : bool := true.
Definition demo_none (_ : Z) : nat := 0.
Definition demo_one (_ : Z) : nat := 1.
Abbreviation demo_step := (rcp_step 20 true demo_active demo_write).
Abbreviation demo_waits := (waits true demo_active demo_write demo_yes demo_none demo_one).
Definition demo_alloc : rcp_alloc := mk_rcp_alloc true true true true true.
Definition demo_fw_up : fw :=
  let f := fw_zero <| s_rcp_fatal_task := true |> in
  on_rcp (fun _ => snd (esp_hosted_rcp_init demo_alloc 77 (rcp_of f))) f.
Definition demo_fw_sent : fw :=
  snd (esp_hosted_rcp_send_to_host 20 demo_waits [1; 2; 3] demo_fw_up).
Definition demo_fw_open : Z * fw :=
  esp_hosted_rcp_session_start_from_host 20 (true, true)
    (fun d => consume true demo_active demo_write (demo_none d)) demo_waits ESP_RCP_SESSION_VERSION 77 demo_fw_sent.

Lemma demo_up_reachable : rtc demo_step fw_zero demo_fw_up.
Proof.
  eapply rtc_l; [exact (step_fatal_init _ _ _ _ true fw_zero)|].
  eapply rtc_l; [apply (step_init _ _ _ _ demo_alloc 77)|]. apply rtc_refl.
Qed.

Lemma demo_sent_reachable : rtc demo_step fw_zero demo_fw_sent.
Proof.
  eapply rtc_r; [exact demo_up_reachable|].
  apply (step_send 20 true demo_active demo_write demo_yes demo_none demo_one).
Qed.

Lemma demo_open_reachable : rtc demo_step fw_zero (snd demo_fw_open).
Proof.
  eapply rtc_r; [exact demo_sent_reachable|].
  apply (step_session 20 true demo_active demo_write (true, true) demo_none demo_yes
    demo_none demo_one).
Qed.

Lemma fw_tx_slots_conserved_witness :
  all_slots (snd demo_fw_open) ≡ₚ pool_slots /\ NoDup (all_slots (snd demo_fw_open)).
Proof. apply (fw_tx_slots_conserved _ _ _ _ _ demo_open_reachable). reflexivity. Defined.

Lemma fw_tx_stream_exact_witness :
  let '(ret, f') := esp_hosted_rcp_send_to_host 20 demo_waits [4; 5] (snd demo_fw_open) in
  (ret = ESP_ERR_INVALID_STATE /\ f' = snd demo_fw_open) \/
  exists chunks,
    rcp_stream f' = rcp_stream (snd demo_fw_open) ++ (pair (pkt_code PACKET_TYPE_DATA) <$> chunks) /\
    Forall (fun c => 0 < zlen c <= ESP_HOSTED_RCP_CHUNK_MAX) chunks /\
    concat chunks `prefix_of` [4; 5] /\
    (ret = ESP_OK -> concat chunks = [4; 5]) /\ (ret <> ESP_OK -> fatal_scheduled f').
Proof.
  exact (fw_tx_stream_exact 20 true demo_active demo_write (snd demo_fw_open) demo_yes
    demo_none demo_one [4; 5] demo_open_reachable).
Defined.

Lemma demo_fw_open_ok :
  esp_hosted_rcp_session_start_from_host 20 (true, true) (fun d => consume true demo_active demo_write (demo_none d))
    demo_waits ESP_RCP_SESSION_VERSION 77 demo_fw_sent = (ESP_OK, snd demo_fw_open).
Proof. vm_compute. reflexivity. Qed.

Lemma fw_session_confirmed_witness :
  fst demo_fw_open = ESP_OK /\
  exists chunks, rcp_stream (snd demo_fw_open) =
    rcp_stream demo_fw_sent ++ (pair (pkt_code PACKET_TYPE_RCP_SESSION) <$> chunks) /\
    concat chunks = marker_bytes ESP_RCP_SESSION_VERSION 77.
Proof.
  pose proof (fw_session_confirmed 20 true demo_active demo_write demo_fw_sent (true, true)
    demo_none demo_yes demo_none demo_one ESP_RCP_SESSION_VERSION 77 demo_sent_reachable) as H.
  rewrite demo_fw_open_ok in H.
  destruct H as [_ H]. split; [vm_compute; reflexivity|]. apply H; vm_compute; reflexivity.
Defined.

(** The start-up bytes go out before the confirmation. *)
Example demo_fw_stream : rcp_stream (snd demo_fw_open) =
  [(pkt_code PACKET_TYPE_DATA, [1; 2; 3]);
   (pkt_code PACKET_TYPE_RCP_SESSION, marker_bytes ESP_RCP_SESSION_VERSION 77)].
Proof. reflexivity. Qed.
