(* ===== verification/FwPath.v ===== *)
(** * FwPath: the firmware's data path

    [esp/esp_driver/network_adapter/main/app_main.c]: what the firmware does
    with an H2E transfer ([process_rx_pkt]: the walk over the frames of an
    aggregate, the checks that fail closed while an RCP session is open, and the
    dispatch to RCP, commands, Wi-Fi, HCI and raw-throughput test), the retries
    of Wi-Fi transmission, the selection of radio services, the host's
    interrupts, and the Wi-Fi receive callbacks. *)
From S2P Require Import Prelude Wire Adapter Recovery RcpHost RcpFw.

Definition WIFI_TX_RETRY_COUNT : Z := 20.
Definition WIFI_IF_STA : Z := 0.
Definition WIFI_IF_AP : Z := 1.

Definition ESP_RADIO_SERVICE_NONE : Z := 0.
Definition ESP_RADIO_SERVICE_BT : Z := 1.
Definition ESP_RADIO_SERVICE_IEEE802154 : Z := 2.
Definition ESP_RADIO_SERVICE_MASK : Z := 3.
Definition ESP_RADIO_SERVICE_F_RESTART_REQUIRED : Z := 1.

Definition ESP_OPEN_DATA_PATH : Z := 0.
Definition ESP_CLOSE_DATA_PATH : Z := 1.
Definition ESP_RESET : Z := 2.
Definition ESP_POWER_SAVE_ON : Z := 3.
Definition ESP_POWER_SAVE_OFF : Z := 4.

(** ** State *)

(** The file-scope flags of [app_main.c] around the bridge and the queues, with
    logs of what leaves towards Wi-Fi, Bluetooth and the test counter;
    [wifi_calls] counts the calls into the Wi-Fi library. *)
Record fw_app := mk_app {
  fw_of : fw;
  station_connected : bool;
  association_ongoing : bool;
  station_authorized : bool;
  softap_started : bool;
  ota_ongoing : bool;
  power_save_on : bool;
  host_asleep : bool;
  s_radio_service : Z;
  s_radio_service_command_seen : bool;
  wifi_calls : nat;
  wifi_tx : list (Z * list Z);
  hci_rx : list (list Z);
  raw_tp_rx : list (esp_payload_header * Z);
  restarting : bool
}.

#[export] Instance eta_app : Eta fw_app := fun a =>
  mk_app (fw_of a) (station_connected a) (association_ongoing a) (station_authorized a)
    (softap_started a) (ota_ongoing a) (power_save_on a) (host_asleep a) (s_radio_service a)
    (s_radio_service_command_seen a) (wifi_calls a) (wifi_tx a) (hci_rx a) (raw_tp_rx a) (restarting a).

Definition app_zero : fw_app :=
  mk_app fw_zero false false false false false false false ESP_RADIO_SERVICE_NONE false 0 [] [] [] false.

Definition on_fw (g : fw -> fw) (a : fw_app) : fw_app := a <| fw_of := g (fw_of a) |>.

(** ** The host's interrupts *)

(** [esp_restart] does not return; [wakeup_sem], when it was created, is taken
    while the host sleeps. [None]: the null [if_handle] is dereferenced. *)
Definition event_handler (have_sem : bool) (val : Z) (a : fw_app) : option fw_app :=
  let active := (fun h : INTERFACE_STATE => ACTIVE) in
  if val =? ESP_OPEN_DATA_PATH then
    match if_handle (fw_of a) with
    | Some _ => Some (on_fw (fun f => f <| if_handle := Some ACTIVE |> <| datapath := true |>) a)
    | None => Some a
    end
  else if val =? ESP_CLOSE_DATA_PATH then
    Some (on_fw (fun f => f <| datapath := false |> <| if_handle := (fun _ => DEACTIVE) <$> if_handle f |>) a
            <| restarting := true |>)
  else if val =? ESP_POWER_SAVE_ON then
    let a := if have_sem then a <| host_asleep := true |> else a in
    match if_handle (fw_of a) with
    | Some _ => Some (on_fw (fun f => f <| if_handle := Some ACTIVE |>) (a <| power_save_on := true |>))
    | None => None
    end
  else if val =? ESP_POWER_SAVE_OFF then
    match if_handle (fw_of a) with
    | Some _ => Some (let a := on_fw (fun f => f <| if_handle := Some ACTIVE |>) a <| power_save_on := false |> in
                      if have_sem then a <| host_asleep := false |> else a)
    | None => None
    end
  else Some a.

(** ** Wi-Fi transmission *)
Section Path.

(** Code outside the repository: the result of the [n]th call of
    [esp_wifi_internal_tx], and of [initialise_bluetooth]'s controller. *)
Context (esp_wifi_internal_tx : nat -> Z -> list Z -> Z).

(** [do { ... } while (++retry < WIFI_TX_RETRY_COUNT)]; every call is counted. *)
Fixpoint wifi_tx_loop (fuel : nat) (retry wifi_if : Z) (payload : list Z) (a : fw_app) : Z * fw_app :=
  let ret := esp_wifi_internal_tx (wifi_calls a) wifi_if payload in
  let a := a <| wifi_calls := S (wifi_calls a) |> in
  if negb (ret =? ESP_ERR_NO_MEM) then (ret, a)
  else
    match fuel with
    | O => (ret, a)
    | S fuel' => if u16 (retry + 1) <? WIFI_TX_RETRY_COUNT
                 then wifi_tx_loop fuel' (u16 (retry + 1)) wifi_if payload a else (ret, a)
    end.

Definition wifi_tx_with_retry (wifi_if : Z) (payload : list Z) (a : fw_app) : Z * fw_app :=
  let '(ret, a) := wifi_tx_loop (Z.to_nat WIFI_TX_RETRY_COUNT) 0 wifi_if payload a in
  (ret, if ret =? 0 then a <| wifi_tx := wifi_tx a ++ [(wifi_if, payload)] |> else a).

(** ** One H2E transfer *)

(** The build: [CONFIG_ESP_SDIO_CHECKSUM], [CONFIG_ESP_HOSTED_RCP], HCI over the
    hosted transport, [RX_BUF_SIZE], and the size of the RCP queue. *)
Record fw_build := mk_fw_build {
  cfg_checksum : bool;
  cfg_rcp : bool;
  cfg_hci : bool;
  rx_buf_size : Z;
  rcp_rx_queue_size : Z;
  to_host_queue_size : Z
}.
Context (cfg : fw_build).

(** What the rest of the system does during a transfer: allocation of RCP
    chunks, the gate and the waits of a session start, by the position of the
    frame; [esp_cmd_dispatch]; the outcome of [initialise_bluetooth]. *)
Record rx_env := mk_rx_env {
  chunk_alloc : Z -> bool;
  session_gates : bool * bool;
  session_queue_waits : Z -> fw -> fw;
  session_waits : Z -> tx_waits;
  esp_cmd_dispatch : Z -> list Z -> fw_app -> fw_app;
  bt_init : Z
}.
Context (env : rx_env).

(** The frame ends here after an error of the transfer itself: fatal for an
    open RCP session. *)
Definition esp_rcp_fail_corrupt_h2e (a : fw_app) : bool * fw_app :=
  if cfg_rcp cfg && esp_hosted_rcp_fail_closed_required (rcp_of (fw_of a))
  then (true, on_fw esp_hosted_rcp_fatal_restart a) else (false, a).

Definition fw_rcp_frame (pos : Z) (h : esp_payload_header) (payload : list Z) (a : fw_app) : bool * fw_app :=
  if packet_type h =? pkt_code PACKET_TYPE_RCP_SESSION then
    if zlen payload =? sizeof_session_marker then
      let '(session_ret, f) :=
        esp_hosted_rcp_session_start_from_host (to_host_queue_size cfg) (session_gates env)
          (session_queue_waits env) (session_waits env) (marker_version payload) (marker_nonce payload)
          (fw_of a) in
      let a := a <| fw_of := f |> in
      if negb (session_ret =? ESP_OK) then (false, on_fw esp_hosted_rcp_fatal_restart a) else (true, a)
    else (true, a)
  else if negb (packet_type h =? pkt_code PACKET_TYPE_DATA) then
    (false, on_fw esp_hosted_rcp_fatal_restart a)
  else
    let '(ret, r) := esp_hosted_rcp_rx_from_host (rcp_rx_queue_size cfg) (chunk_alloc env pos) payload
                       (rcp_of (fw_of a)) in
    let a := on_fw (on_rcp (fun _ => r)) a in
    if negb (ret =? ESP_OK) then (false, on_fw esp_hosted_rcp_fatal_restart a) else (true, a).

(** DATA and EAPOL. *)
Definition fw_data_frame (h : esp_payload_header) (payload : list Z) (a : fw_app) : fw_app :=
  if if_type h =? if_code ESP_STA_IF then
    if (station_connected a || association_ongoing a)
       && (station_authorized a || (packet_type h =? pkt_code PACKET_TYPE_EAPOL))
    then snd (wifi_tx_with_retry WIFI_IF_STA payload a) else a
  else if (if_type h =? if_code ESP_AP_IF) && softap_started a then
    snd (wifi_tx_with_retry WIFI_IF_AP payload a)
  else if cfg_hci cfg && (if_type h =? if_code ESP_HCI_IF) then
    let a :=
      if negb (test_bit 0 (s_radio_service a)) && negb (s_radio_service_command_seen a) then
        if bt_init env =? ESP_OK
        then a <| s_radio_service := Z.lor (s_radio_service a) ESP_RADIO_SERVICE_BT |> else a
      else a in
    if test_bit 0 (s_radio_service a) then a <| hci_rx := hci_rx a ++ [payload] |> else a
  else if if_type h =? if_code ESP_TEST_IF then
    a <| raw_tp_rx := raw_tp_rx a ++ [(h, zlen payload)] |>
  else a.

(** One checked frame; [false]: the rest of the transfer is abandoned. *)
Definition fw_rx_frame (pos : Z) (h : esp_payload_header) (payload : list Z) (a : fw_app) : bool * fw_app :=
  if cfg_rcp cfg && (if_type h =? if_code ESP_RCP_IF) then fw_rcp_frame pos h payload a
  else if packet_type h =? pkt_code PACKET_TYPE_COMMAND_REQUEST then
    (true, esp_cmd_dispatch env (if_type h) payload a)
  else if (packet_type h =? pkt_code PACKET_TYPE_DATA) || (packet_type h =? pkt_code PACKET_TYPE_EAPOL) then
    (true, fw_data_frame h payload a)
  else (true, a).

(** The checks on the frame at [pos]: the end-of-aggregate marker, a corrupt
    frame, or the length of the frame. *)
Inductive h2e_check := H2eEnd | H2eCorrupt | H2eFrame (frame_len : Z).

(** [frame] is the rest of the transfer, from [pos] on. *)
Definition h2e_check_frame (pos : Z) (frame : list Z) : h2e_check :=
  let h := decode_header frame in
  if len h =? 0 then
    if (0 <? pos) && bool_decide (ztake sizeof_header frame = replicate 12 0) then H2eEnd else H2eCorrupt
  else if negb (ESP_OFFSET_VALID (offset h)) then H2eCorrupt
  else
    let frame_len := u32 (len h + offset h) in
    if (rx_buf_size cfg <? frame_len) || (pos + zlen frame <? pos + frame_len) then H2eCorrupt
    else if cfg_checksum cfg && negb (rx_checksum_ok false pos frame) then H2eCorrupt
    else H2eFrame frame_len.

(** The walk; every frame advances by at least four bytes. *)
Fixpoint process_rx_loop (fuel : nat) (pos : Z) (buf : list Z) (a : fw_app) : fw_app :=
  match fuel with
  | O => a
  | S fuel' =>
      if pos + sizeof_header <=? zlen buf then
        let frame := zdrop pos buf in
        match h2e_check_frame pos frame with
        | H2eEnd => a
        | H2eCorrupt => snd (esp_rcp_fail_corrupt_h2e a)
        | H2eFrame frame_len =>
            let h := decode_header frame in
            let payload := ztake (len h) (zdrop (offset h) frame) in
            let '(continue, a) := fw_rx_frame pos h payload a in
            if continue then process_rx_loop fuel' (u32 (pos + align4 frame_len)) buf a else a
        end
      else a
  end.

Definition process_rx_pkt (buf : list Z) (a : fw_app) : fw_app :=
  process_rx_loop (length buf) 0 buf a.

(** ** Radio services *)

(** How the RCP back end is built, and what the controller, the allocator, the
    random generator and the OpenThread task do when it is started. *)
Inductive rcp_backend := RcpOpenThread | RcpLoopback | RcpNoBackend.

Record radio_env := mk_radio_env {
  re_backend : rcp_backend;
  re_bt_init : Z;
  re_worker_created : bool;
  re_alloc : rcp_alloc;
  re_nonce : Z;
  re_openthread : Z
}.

(** The active services and the RCP nonce reported to the host. *)
Definition esp_radio_service_snapshot (a : fw_app) : Z * Z :=
  (s_radio_service a,
   if cfg_rcp cfg && test_bit 1 (s_radio_service a) then s_session_nonce (rcp_of (fw_of a)) else 0).

(** Starting Bluetooth. *)
Definition radio_add_bt (e : radio_env) (a : fw_app) : Z * fw_app :=
  if cfg_hci cfg then
    if re_bt_init e =? ESP_OK
    then (ESP_OK, a <| s_radio_service := Z.lor (s_radio_service a) ESP_RADIO_SERVICE_BT |>)
    else (re_bt_init e, a)
  else (ESP_ERR_NOT_SUPPORTED, a).

(** Starting the RCP. *)
Definition radio_add_rcp (e : radio_env) (a : fw_app) : Z * fw_app :=
  if negb (cfg_rcp cfg) then (ESP_ERR_NOT_SUPPORTED, a)
  else
    let '(ret, f) := esp_hosted_rcp_fatal_worker_init (re_worker_created e) (fw_of a) in
    let a := a <| fw_of := f |> in
    if negb (ret =? ESP_OK) then (ret, a)
    else
      let '(ret, r) := esp_hosted_rcp_init (re_alloc e) (re_nonce e) (rcp_of (fw_of a)) in
      let a := on_fw (on_rcp (fun _ => r)) a in
      if negb (ret =? ESP_OK) then (ret, a)
      else
        let start :=
          match re_backend e with
          | RcpOpenThread => re_openthread e
          | RcpLoopback => ESP_OK
          | RcpNoBackend => ESP_ERR_NOT_SUPPORTED
          end in
        if negb (start =? ESP_OK) then (start, on_fw esp_hosted_rcp_deinit a)
        else (ESP_OK, a <| s_radio_service := Z.lor (s_radio_service a) ESP_RADIO_SERVICE_IEEE802154 |>).

(** Result, flags reported to the host, state; [rollback_bt] takes back a
    Bluetooth start of the same command. *)
Definition esp_radio_service_apply (e : radio_env) (requested : Z) (a : fw_app) : Z * Z * fw_app :=
  if negb (Z.land requested (Z.lnot ESP_RADIO_SERVICE_MASK) =? 0) then (ESP_ERR_INVALID_ARG, 0, a)
  else
    let a := a <| s_radio_service_command_seen := true |> in
    if requested =? s_radio_service a then (ESP_OK, 0, a)
    else if negb (Z.land (s_radio_service a) (Z.lnot requested) =? 0) then
      (ESP_OK, ESP_RADIO_SERVICE_F_RESTART_REQUIRED, a)
    else
      let add_mask := Z.land requested (Z.lnot (s_radio_service a)) in
      let bt := test_bit 0 add_mask in
      let '(ret, a) := if bt then radio_add_bt e a else (ESP_OK, a) in
      if negb (ret =? ESP_OK) then (ret, 0, a)
      else
        let '(ret, a) := if test_bit 1 add_mask then radio_add_rcp e a else (ESP_OK, a) in
        if negb (ret =? ESP_OK) && bt
        then (ret, 0, a <| s_radio_service := Z.land (s_radio_service a) (Z.lnot ESP_RADIO_SERVICE_BT) |>)
        else (ret, 0, a).

(** ** The walk, separated from what is done with the frames *)

(** The frames of a transfer with their positions, and whether the walk ends
    without an error. *)
Fixpoint h2e_split (fuel : nat) (pos : Z) (buf : list Z)
    : list (Z * (esp_payload_header * list Z)) * bool :=
  match fuel with
  | O => ([], true)
  | S fuel' =>
      if pos + sizeof_header <=? zlen buf then
        let frame := zdrop pos buf in
        match h2e_check_frame pos frame with
        | H2eEnd => ([], true)
        | H2eCorrupt => ([], false)
        | H2eFrame frame_len =>
            let h := decode_header frame in
            let '(fs, ok) := h2e_split fuel' (u32 (pos + align4 frame_len)) buf in
            ((pos, (h, ztake (len h) (zdrop (offset h) frame))) :: fs, ok)
        end
      else ([], true)
  end.

Definition h2e_frames (buf : list Z) := h2e_split (length buf) 0 buf.

Fixpoint deliver (fs : list (Z * (esp_payload_header * list Z))) (a : fw_app) : bool * fw_app :=
  match fs with
  | [] => (true, a)
  | (pos, (h, payload)) :: fs' =>
      let '(continue, a) := fw_rx_frame pos h payload a in
      if continue then deliver fs' a else (false, a)
  end.

Lemma process_rx_split fuel pos buf a :
  process_rx_loop fuel pos buf a =
  let '(fs, ok) := h2e_split fuel pos buf in
  let '(continued, a') := deliver fs a in
  if continued && negb ok then snd (esp_rcp_fail_corrupt_h2e a') else a'.
Proof.
  revert pos a. induction fuel as [|fuel IH]; intros pos a; [done|].
  cbn [process_rx_loop h2e_split]. destruct (_ <=? _); [|done].
  destruct (h2e_check_frame _ _) as [| |fl]; [done|done|]. cbv zeta.
  destruct (h2e_split fuel _ buf) as [fs ok] eqn:E. cbn [deliver].
  destruct (fw_rx_frame _ _ _ _) as [[] a1]; [|done]. by rewrite IH, E.
Qed.

(** ** Aggregates the host builds *)

(** A frame as the host queues it: header template and payload. *)
Definition tx_frame := (esp_payload_header * list Z)%type.
Definition wire (be : bool) (addr caps : Z) (x : tx_frame) : list Z := hosted_frame be addr caps (fst x) (snd x).

Definition tx_frame_ok (x : tx_frame) : Prop :=
  header_wf (fst x) /\ bytes_ok (snd x) /\ 0 < zlen (snd x) /\
  zlen (snd x) + ESP_MAX_OFFSET_SIZE <= Z.min (rx_buf_size cfg) (2 ^ 16 - 1).

(** The frame as the firmware sees it at [pos]. *)
Fixpoint seen (be : bool) (addr caps pos : Z) (xs : list tx_frame) : list (Z * (esp_payload_header * list Z)) :=
  match xs with
  | [] => []
  | x :: xs' => let f := wire be addr caps x in
                (pos, (decode_header f, snd x)) :: seen be addr caps (pos + zlen f) xs'
  end.

Lemma wire_len be addr caps x :
  tx_frame_ok x ->
  zlen (wire be addr caps x) = zlen (snd x) + hosted_pad_len (zlen (snd x)) /\
  zlen (wire be addr caps x) mod 4 = 0 /\ sizeof_header < zlen (wire be addr caps x) <= rx_buf_size cfg.
Proof.
  intros (Hw & Hb & Hl & Hm). unfold wire.
  destruct (hosted_frame_shape be addr caps (fst x) (snd x)) as (c & _ & ->).
  pose proof (hosted_pad_len_range (zlen (snd x)) ltac:(lia)) as Hp.
  pose proof (hosted_pad_len_aligned (zlen (snd x)) ltac:(lia)) as Ha.
  autorewrite with zlist. unfold ESP_MAX_OFFSET_SIZE, ESP_MAX_ALIGN_PADDING, sizeof_header in *.
  rewrite Z2Nat.id by lia.
  replace (12 + (_ + _)) with (zlen (snd x) + hosted_pad_len (zlen (snd x))) by lia.
  split_and!; [done|done|lia|lia].
Qed.

Lemma zero_checksum_app l1 l2 : 10 <= zlen l1 -> zero_checksum (l1 ++ l2) = zero_checksum l1 ++ l2.
Proof.
  intros H. unfold zero_checksum. rewrite ztake_app_le, zdrop_app_le by lia. by rewrite <- !app_assoc.
Qed.

Lemma zlen_zero_checksum l : 10 <= zlen l -> zlen (zero_checksum l) = zlen l.
Proof. intros H. unfold zero_checksum. autorewrite with zlist. lia. Qed.

Lemma compute_checksum_prefix be addr l1 l2 :
  zlen l1 < 2 ^ 16 ->
  compute_checksum be addr (l1 ++ l2) (zlen l1) = compute_checksum be addr l1 (zlen l1).
Proof.
  intros H. unfold compute_checksum. pose proof (zlen_nonneg l1).
  rewrite wrap_id by (unfold in_width; lia). by rewrite ztake_app_le by lia.
Qed.

(** A frame built by the host passes every check wherever it stands. *)
Lemma wire_checked be addr caps x pos rest :
  tx_frame_ok x -> (cfg_checksum cfg = true -> has_cap caps ESP_CHECKSUM_ENABLED = true) ->
  h2e_check_frame pos (wire be addr caps x ++ rest) = H2eFrame (zlen (wire be addr caps x)) /\
  let h := decode_header (wire be addr caps x ++ rest) in
  h = decode_header (wire be addr caps x) /\
  ztake (len h) (zdrop (offset h) (wire be addr caps x ++ rest)) = snd x.
Proof.
  intros Hx Hc. pose proof (wire_len be addr caps x Hx) as (Hlen & _ & Hlen1 & Hlen2).
  destruct Hx as (Hw & Hb & Hl & Hm).
  unfold ESP_MAX_OFFSET_SIZE, ESP_MAX_ALIGN_PADDING, sizeof_header in *.
  assert (Hl16 : 0 < zlen (snd x) < 2 ^ 16) by lia.
  pose proof (hosted_frame_received be addr caps (fst x) (snd x) rest Hw Hl16)
    as (_ & _ & _ & _ & El & Eo & _ & Ep).
  fold (wire be addr caps x) in *.
  assert (Ed : decode_header (wire be addr caps x ++ rest) = decode_header (wire be addr caps x))
    by (apply decode_header_app; unfold sizeof_header; lia).
  cbv zeta. rewrite Ed in El, Eo, Ep |- *. split_and!; [|done|done].
  unfold h2e_check_frame. rewrite Ed, El, Eo.
  pose proof (hosted_pad_len_range (zlen (snd x)) ltac:(lia)) as Hp.
  unfold ESP_OFFSET_VALID, ESP_MAX_OFFSET_SIZE, ESP_MAX_ALIGN_PADDING, sizeof_header in *.
  rewrite (proj2 (Z.eqb_neq _ _)) by lia.
  rewrite !(proj2 (Z.leb_le _ _)) by lia. cbn [negb andb].
  rewrite <- Hlen. rewrite wrap_id by (unfold in_width; lia).
  pose proof (zlen_nonneg rest).
  rewrite !(proj2 (Z.ltb_ge _ _)) by zlia. cbn [orb].
  destruct (cfg_checksum cfg) eqn:Ec; cbn [andb]; [|done].
  unfold rx_checksum_ok. rewrite Ed.
  pose proof (hosted_frame_checksum_ok be addr false pos caps (fst x) (snd x) Hw Hb Hl16 (Hc eq_refl)) as Hck.
  unfold rx_checksum_ok in Hck. fold (wire be addr caps x) in Hck.
  rewrite El, Eo, <- Hlen in *. unfold ESP_MAX_OFFSET_SIZE in *.
  rewrite zero_checksum_app by lia.
  rewrite <- (zlen_zero_checksum (wire be addr caps x)) by lia.
  rewrite compute_checksum_prefix by (rewrite zlen_zero_checksum; lia).
  rewrite zlen_zero_checksum by lia. by rewrite Hck.
Qed.

(** The padding behind the last frame ends the walk. *)
Lemma pad_ends pos n : 0 < pos -> sizeof_header <= Z.of_nat n -> h2e_check_frame pos (replicate n 0) = H2eEnd.
Proof.
  intros Hp Hn. unfold sizeof_header in Hn. replace n with (12 + (n - 12))%nat by lia.
  rewrite replicate_add. unfold h2e_check_frame. rewrite decode_header_app by done.
  rewrite ztake_app_exact by done.
  change (len (decode_header (replicate 12 0)) =? 0) with true. cbv iota.
  rewrite (proj2 (Z.ltb_lt _ _) Hp). by rewrite bool_decide_true by done.
Qed.

Lemma split_aggregate be addr caps n xs pre fuel :
  let buf := pre ++ concat (wire be addr caps <$> xs) ++ replicate n 0 in
  Forall tx_frame_ok xs -> (cfg_checksum cfg = true -> has_cap caps ESP_CHECKSUM_ENABLED = true) ->
  (xs = [] -> 0 < zlen pre \/ n = O) -> zlen buf < 2 ^ 16 -> zlen buf - zlen pre <= Z.of_nat fuel ->
  h2e_split fuel (zlen pre) buf = (seen be addr caps (zlen pre) xs, true).
Proof.
  intros buf. subst buf. intros Hok Hc. revert pre fuel.
  induction Hok as [|x xs Hx Hok IH]; intros pre fuel Hne Hl Hf; cbn [fmap list_fmap concat app seen] in *.
  - destruct fuel as [|fuel]; [done|]. cbn [h2e_split]. destruct (_ <=? _) eqn:E; [|done]. bool_hyps.
    rewrite zdrop_app_exact by done. rewrite zlen_app, zlen_replicate in E.
    unfold sizeof_header in *. destruct Hne as [Hne| ->]; [done| |lia].
    by rewrite pad_ends by (done || unfold sizeof_header; lia).
  - fold (fmap (M := list) (wire be addr caps)) in *.
    destruct (wire_len be addr caps x Hx) as (Hwl & Hw4 & Hw1 & Hw2).
    set (w := wire be addr caps x) in *. rewrite <- !app_assoc in *.
    set (rest := concat (wire be addr caps <$> xs) ++ replicate n 0) in *.
    rewrite !zlen_app in Hl, Hf. pose proof (zlen_nonneg rest). pose proof (zlen_nonneg pre).
    unfold sizeof_header in *. destruct fuel as [|fuel]; [lia|]. cbn [h2e_split].
    rewrite (proj2 (Z.leb_le _ _)) by (rewrite !zlen_app; unfold sizeof_header; lia).
    rewrite zdrop_app_exact by done.
    destruct (wire_checked be addr caps x (zlen pre) rest Hx Hc) as (E1 & E2 & E3). fold w in E1, E2, E3.
    cbv zeta in E3 |- *. rewrite E1, E3, E2.
    rewrite align4_id by lia. rewrite wrap_id by (unfold in_width; lia).
    specialize (IH (pre ++ w) fuel). rewrite <- app_assoc, zlen_app in IH. fold rest in IH.
    rewrite IH; [done|left; lia|rewrite !zlen_app; lia|rewrite !zlen_app; lia].
Qed.

(** Every walk ends on its own: the fuel is never exhausted. *)
Lemma h2e_split_fuel fuel fuel' pos buf :
  zlen buf < 2 ^ 16 -> 0 <= pos -> zlen buf - pos <= Z.of_nat fuel -> zlen buf - pos <= Z.of_nat fuel' ->
  bytes_ok buf -> h2e_split fuel pos buf = h2e_split fuel' pos buf.
Proof.
  intros Hl Hp Hf Hf' Hb. revert pos fuel' Hp Hf Hf'. induction fuel as [|fuel IH]; intros pos fuel' Hp Hf Hf'.
  - destruct fuel'; [done|]. cbn. unfold sizeof_header. by rewrite (proj2 (Z.leb_gt _ _)) by lia.
  - destruct fuel' as [|fuel'].
    + cbn. unfold sizeof_header. by rewrite (proj2 (Z.leb_gt _ _)) by lia.
    + cbn [h2e_split]. destruct (_ <=? _) eqn:El; [|done]. bool_hyps.
      destruct (h2e_check_frame pos (zdrop pos buf)) as [| |fl] eqn:E; [done|done|].
      assert (Hfl : 12 <= fl < 2 ^ 17 + 1 /\ pos + fl <= zlen buf).
      { revert E. unfold h2e_check_frame. destruct (len _ =? 0); [by destruct (_ && _)|].
        destruct (ESP_OFFSET_VALID _) eqn:Eo; [|done]. cbn [negb].
        destruct (_ || _) eqn:Eb; [done|]. bool_hyps. destruct (_ && _); [done|]. intros E.
        assert (fl = u32 (len (decode_header (zdrop pos buf)) + offset (decode_header (zdrop pos buf)))) as ->
          by congruence. clear E.
        unfold ESP_OFFSET_VALID, ESP_MAX_OFFSET_SIZE, ESP_MAX_ALIGN_PADDING, sizeof_header in *. bool_hyps.
        pose proof (decoded_len_range (zdrop pos buf) ltac:(by apply Forall_zdrop)) as Hlen.
        unfold in_width in *. unfold wrap in *. rewrite Z.mod_small in * by lia.
        rewrite zlen_zdrop in *. lia. }
      destruct (align4_spec fl ltac:(lia)) as [Ha _]. rewrite wrap_id by (unfold in_width; lia).
      by rewrite (IH _ fuel') by lia.
Qed.

(** ** RCP bytes through a transfer *)

(** Commands, and what runs during a session start, leave the receive side of
    the bridge alone. *)
Record env_keeps_rx : Prop := mk_env_keeps_rx {
  ek_cmd if_type payload a : same_rx (fw_of a) (fw_of (esp_cmd_dispatch env if_type payload a));
  ek_queue d f : same_rx f (session_queue_waits env d f);
  ek_waits d : waits_rx (session_waits env d)
}.

Definition is_rcp_data (h : esp_payload_header) : bool :=
  (if_type h =? if_code ESP_RCP_IF) && (packet_type h =? pkt_code PACKET_TYPE_DATA).

Definition rcp_payloads (fs : list (Z * (esp_payload_header * list Z))) : list Z :=
  concat ((fun x => if is_rcp_data (fst (snd x)) then snd (snd x) else []) <$> fs).

(** The bridge is receiving: an open session with its queue. *)
Record receiving (f : fw) : Prop := mk_receiving {
  rv_ok : rx_ok (rcp_of f);
  rv_queue : s_rx_queue (rcp_of f) <> None;
  rv_open : esp_hosted_rcp_fail_closed_required (rcp_of f) = true
}.

Lemma same_rx_receiving f f' : same_rx f f' -> receiving f -> receiving f'.
Proof.
  intros Hs [H1 H2 H3]. constructor; [by apply (same_rx_ok f)|by rewrite (sr_queue _ _ Hs)|].
  unfold esp_hosted_rcp_fail_closed_required in *. bool_hyps. rewrite (sr_bridge _ _ Hs).
  apply andb_true_iff. split; [done|]. by apply (sr_session _ _ Hs).
Qed.

Lemma wifi_tx_fw wifi_if payload a : fw_of (snd (wifi_tx_with_retry wifi_if payload a)) = fw_of a.
Proof.
  assert (H : forall fuel retry a, fw_of (snd (wifi_tx_loop fuel retry wifi_if payload a)) = fw_of a).
  { intros fuel. induction fuel as [|fuel IH]; intros retry b; cbn [wifi_tx_loop]; destruct (negb _); try done.
    destruct (_ <? _); [|done]. by rewrite IH. }
  unfold wifi_tx_with_retry. specialize (H (Z.to_nat WIFI_TX_RETRY_COUNT) 0 a).
  destruct (wifi_tx_loop _ _ _ _ _) as [ret b]. cbn in *. by destruct (ret =? 0).
Qed.

Lemma data_frame_fw h payload a : fw_of (fw_data_frame h payload a) = fw_of a.
Proof.
  unfold fw_data_frame. destruct (if_type h =? if_code ESP_STA_IF).
  { destruct (_ && _); [apply wifi_tx_fw|done]. }
  destruct (_ && softap_started a); [apply wifi_tx_fw|].
  destruct (cfg_hci cfg && _); [|by destruct (_ =? _)]. cbv zeta.
  destruct (negb _ && negb _); [destruct (_ =? ESP_OK)|]; match goal with |- context [if ?b then _ else _] => by destruct b end.
Qed.

(** One frame: its RCP bytes enter the pipe, or the restart is scheduled. *)
Lemma rx_frame_spec pos h payload a :
  cfg_rcp cfg = true -> env_keeps_rx -> receiving (fw_of a) ->
  let '(continue, a') := fw_rx_frame pos h payload a in
  receiving (fw_of a') /\
  if continue
  then rcp_in_pipe (rcp_of (fw_of a')) =
         rcp_in_pipe (rcp_of (fw_of a)) ++ (if is_rcp_data h then payload else [])
  else fatal_scheduled (fw_of a').
Proof.
  intros Hr [E1 E2 E3] Hv. unfold fw_rx_frame, is_rcp_data. rewrite Hr. cbn [andb].
  assert (fatal : forall f, receiving f -> receiving (esp_hosted_rcp_fatal_restart f) /\
    fatal_scheduled (esp_hosted_rcp_fatal_restart f)).
  { intros f Hf. split; [|apply fatal_restart_spec]. eapply same_rx_receiving; [apply fatal_restart_same_rx|done]. }
  assert (keep : forall f, same_rx (fw_of a) f ->
    receiving f /\ rcp_in_pipe (rcp_of f) = rcp_in_pipe (rcp_of (fw_of a)) ++ []).
  { intros f Hf. split; [by apply (same_rx_receiving (fw_of a))|]. rewrite app_nil_r. by apply same_rx_pipe. }
  destruct (if_type h =? if_code ESP_RCP_IF); cbn [andb].
  2: { destruct (packet_type h =? pkt_code PACKET_TYPE_COMMAND_REQUEST); [by apply keep|].
       destruct (_ || _); apply keep; [by rewrite data_frame_fw|done]. }
  unfold fw_rcp_frame. destruct (packet_type h =? pkt_code PACKET_TYPE_RCP_SESSION) eqn:Et.
  - bool_hyps. rewrite Et. cbn [pkt_code Z.eqb].
    destruct (zlen payload =? sizeof_session_marker); [|by apply keep].
    pose proof (rcp_session_start_same_rx (to_host_queue_size cfg) (session_gates env)
      (session_queue_waits env) (session_waits env) (marker_version payload) (marker_nonce payload)
      (fw_of a) E2 E3) as Hs.
    destruct (esp_hosted_rcp_session_start_from_host _ _ _ _ _ _ _) as [ret f]. cbn in Hs.
    destruct (negb _); [|by apply keep]. cbn. apply fatal. by apply (same_rx_receiving (fw_of a)).
  - destruct (packet_type h =? pkt_code PACKET_TYPE_DATA); cbn [negb]; [|by apply fatal].
    destruct Hv as [V1 V2 V3].
    pose proof (rx_from_host_spec (rcp_rx_queue_size cfg) (chunk_alloc env pos) payload (rcp_of (fw_of a)) V1) as Hs.
    pose proof (rx_from_host_keeps (rcp_rx_queue_size cfg) (chunk_alloc env pos) payload (rcp_of (fw_of a))) as Hk.
    destruct (esp_hosted_rcp_rx_from_host _ _ _ _) as [ret r]. destruct Hs as [Hs1 Hs2], Hk as [Hk1 Hk2].
    rewrite V3 in Hs2, Hk1. rewrite (bool_decide_true _ V2), !andb_true_r in Hs2.
    assert (Hrv : receiving (fw_of (on_fw (on_rcp (fun _ => r)) a))) by (constructor; cbn; auto).
    destruct (ret =? ESP_OK); cbn [negb]; [done|]. by apply fatal.
Qed.

Lemma deliver_rcp fs a :
  cfg_rcp cfg = true -> env_keeps_rx -> receiving (fw_of a) ->
  let '(continued, a') := deliver fs a in
  receiving (fw_of a') /\
  if continued then rcp_in_pipe (rcp_of (fw_of a')) = rcp_in_pipe (rcp_of (fw_of a)) ++ rcp_payloads fs
  else fatal_scheduled (fw_of a').
Proof.
  intros Hr He. revert a. induction fs as [|[pos [h payload]] fs IH]; intros a Hv.
  { cbn. by rewrite app_nil_r. }
  cbn [deliver]. pose proof (rx_frame_spec pos h payload a Hr He Hv) as H.
  destruct (fw_rx_frame _ _ _ _) as [[] a1]; destruct H as [H1 H2]; [|done].
  specialize (IH a1 H1). destruct (deliver fs a1) as [[] a2]; [|done].
  destruct IH as [I1 I2]. split; [done|]. rewrite I2, H2. unfold rcp_payloads. cbn. by rewrite app_assoc.
Qed.

(** C19: Host-to-RCP bytes through one transfer, whatever it contains: while a
    session is open, either the fatal restart is scheduled, or the transfer was
    walked to its end without an error and exactly the payloads of its RCP data
    frames, in order, were appended to what the radio stack will read. No RCP
    byte is lost, duplicated or reordered silently. *)
Theorem h2e_rcp_stream_exact buf a :
  cfg_rcp cfg = true -> env_keeps_rx -> receiving (fw_of a) ->
  let a' := process_rx_pkt buf a in
  receiving (fw_of a') /\
  (fatal_scheduled (fw_of a') \/
   snd (h2e_frames buf) = true /\
   rcp_in_pipe (rcp_of (fw_of a')) =
     rcp_in_pipe (rcp_of (fw_of a)) ++ rcp_payloads (fst (h2e_frames buf))).
Proof.
  intros Hr He Hv. unfold process_rx_pkt. cbv zeta. rewrite process_rx_split.
  unfold h2e_frames. destruct (h2e_split _ _ _) as [fs ok]. cbn [fst snd].
  pose proof (deliver_rcp fs a Hr He Hv) as H. destruct (deliver fs a) as [[] a'].
  2: { destruct H. auto. }
  destruct H as [H1 H2]. destruct ok; cbn [negb andb]; [auto|].
  unfold esp_rcp_fail_corrupt_h2e. rewrite Hr, (rv_open _ H1). cbn. split.
  - eapply same_rx_receiving; [apply fatal_restart_same_rx|done].
  - left. apply fatal_restart_spec.
Qed.

(** An aggregate the host builds is taken apart exactly: for any frames of 1 to
    65519 bytes that fit the receive buffer, packed one behind the other and
    padded with zeros to the transfer size, the firmware delivers each payload
    once and in order (with the checksum verified when that is built in), until a
    frame whose delivery is fatal. *)
Lemma process_aggregate be addr caps xs n a :
  let buf := concat (wire be addr caps <$> xs) ++ replicate n 0 in
  Forall tx_frame_ok xs -> (cfg_checksum cfg = true -> has_cap caps ESP_CHECKSUM_ENABLED = true) ->
  xs <> [] -> zlen buf < 2 ^ 16 -> process_rx_pkt buf a = snd (deliver (seen be addr caps 0 xs) a).
Proof.
  intros buf Hok Hc Hne Hl.
  pose proof (split_aggregate be addr caps n xs [] (length buf) Hok Hc) as H. cbn [app] in H. fold buf in H.
  assert (E : h2e_split (length buf) 0 buf = (seen be addr caps 0 xs, true)).
  { apply H; [by intros ->|done|unfold zlen; cbn; lia]. }
  unfold process_rx_pkt. rewrite process_rx_split, E. destruct (deliver _ _) as [[] a']; done.
Qed.

(** ** Wi-Fi retries *)

(** A Wi-Fi transmission is tried at least once and at most twenty times: all
    calls but the last found the driver out of memory, the result is that of the
    last call, and it reports out of memory only when all twenty were used. *)
Lemma wifi_tx_retry_bounded wifi_if payload a :
  let '(ret, a') := wifi_tx_with_retry wifi_if payload a in
  exists n, (n < 20)%nat /\ wifi_calls a' = (wifi_calls a + S n)%nat /\
    ret = esp_wifi_internal_tx (wifi_calls a + n)%nat wifi_if payload /\
    (forall k, (k < n)%nat -> esp_wifi_internal_tx (wifi_calls a + k)%nat wifi_if payload = ESP_ERR_NO_MEM) /\
    (ret = ESP_ERR_NO_MEM -> n = 19%nat) /\
    wifi_tx a' = wifi_tx a ++ (if ret =? 0 then [(wifi_if, payload)] else []).
Proof.
  assert (H : forall fuel retry b, (0 <= retry)%Z -> Z.of_nat fuel = WIFI_TX_RETRY_COUNT - retry -> (0 < fuel)%nat ->
    let '(ret, b') := wifi_tx_loop fuel retry wifi_if payload b in
    exists n, (n < fuel)%nat /\ wifi_calls b' = (wifi_calls b + S n)%nat /\
      ret = esp_wifi_internal_tx (wifi_calls b + n)%nat wifi_if payload /\
      (forall k, (k < n)%nat -> esp_wifi_internal_tx (wifi_calls b + k)%nat wifi_if payload = ESP_ERR_NO_MEM) /\
      (ret = ESP_ERR_NO_MEM -> n = pred fuel) /\ wifi_tx b' = wifi_tx b).
  { unfold WIFI_TX_RETRY_COUNT. intros fuel. induction fuel as [|fuel IH]; intros retry b Hr Hf Hpos; [lia|].
    cbn [wifi_tx_loop]. set (ret := esp_wifi_internal_tx (wifi_calls b) wifi_if payload).
    destruct (ret =? ESP_ERR_NO_MEM) eqn:Er; cbn [negb]; bool_hyps.
    2: { exists O. rewrite Nat.add_0_r. split_and!; try done; try lia. cbn. lia. }
    rewrite wrap_id by (unfold in_width; lia). unfold WIFI_TX_RETRY_COUNT.
    destruct (retry + 1 <? 20) eqn:El; bool_hyps.
    2: { exists O. rewrite Nat.add_0_r. assert (fuel = O) as -> by lia. split_and!; try done; try lia. cbn. lia. }
    specialize (IH (retry + 1) (b <| wifi_calls := S (wifi_calls b) |>) ltac:(lia) ltac:(lia) ltac:(lia)).
    destruct (wifi_tx_loop _ _ _ _ _) as [ret' b']. destruct IH as (n & I1 & I2 & I3 & I4 & I5 & I6).
    cbn in I2, I3, I4, I6. exists (S n). split_and!; [lia|rewrite I2; lia|by rewrite Nat.add_succ_r| |lia|done].
    intros [|k] Hk; [by rewrite Nat.add_0_r|]. rewrite Nat.add_succ_r. apply I4. lia. }
  unfold wifi_tx_with_retry. specialize (H (Z.to_nat WIFI_TX_RETRY_COUNT) 0 a ltac:(lia) eq_refl ltac:(vm_compute; lia)).
  destruct (wifi_tx_loop _ _ _ _ _) as [ret b]. destruct H as (n & H1 & H2 & H3 & H4 & H5 & H6).
  exists n. destruct (ret =? 0); cbn; rewrite ?app_nil_r, ?H6; split_and!; try done; apply H5.
Qed.

(** ** Radio service selection *)
Lemma rcp_init_bridge al nonce r :
  let '(ret, r') := esp_hosted_rcp_init al nonce r in
  s_bridge_enabled r' = if ret =? ESP_OK then true else s_bridge_enabled r.
Proof.
  unfold esp_hosted_rcp_init. destruct (create _ [] (s_rx_queue _)); [|done].
  destruct (create _ [] (s_tx_free_queue _)); [|done].
  destruct (create _ [] (s_preboot_tx_queue _)); [|done].
  destruct (negb _); [done|]. destruct (negb (_ || _)); [done|].
  destruct (s_tx_pool _); [done|]. destruct (fill_free _ _) as [[] q]; done.
Qed.

(** The bridge runs exactly while the service is on, and the mask is in range. *)
Record radio_inv (a : fw_app) : Prop := mk_radio_inv {
  ri_range : 0 <= s_radio_service a < 4;
  ri_bridge : s_bridge_enabled (rcp_of (fw_of a)) = test_bit 1 (s_radio_service a)
}.

Lemma radio_add_bt_spec e a :
  let '(ret, a') := radio_add_bt e a in
  fw_of a' = fw_of a /\
  s_radio_service a' = if ret =? ESP_OK then Z.lor (s_radio_service a) ESP_RADIO_SERVICE_BT else s_radio_service a.
Proof.
  unfold radio_add_bt. destruct (cfg_hci cfg); [|done]. by destruct (re_bt_init e =? ESP_OK) eqn:E; rewrite ?E.
Qed.

Lemma radio_add_rcp_spec e a :
  s_bridge_enabled (rcp_of (fw_of a)) = false ->
  let '(ret, a') := radio_add_rcp e a in
  s_bridge_enabled (rcp_of (fw_of a')) = (ret =? ESP_OK) /\
  s_radio_service a' = if ret =? ESP_OK then Z.lor (s_radio_service a) ESP_RADIO_SERVICE_IEEE802154
                       else s_radio_service a.
Proof.
  intros Hb. unfold radio_add_rcp. destruct (negb _); [done|].
  assert (Hw : let '(ret, f) := esp_hosted_rcp_fatal_worker_init (re_worker_created e) (fw_of a) in
    rcp_of f = rcp_of (fw_of a)).
  { unfold esp_hosted_rcp_fatal_worker_init. destruct (s_rcp_fatal_task _); [done|].
    by destruct (re_worker_created e). }
  destruct (esp_hosted_rcp_fatal_worker_init _ _) as [ret f]. destruct (ret =? ESP_OK) eqn:E; cbn [negb].
  2: { rewrite E. cbn. by rewrite Hw. }
  clear E ret.
  pose proof (rcp_init_bridge (re_alloc e) (re_nonce e) (rcp_of (fw_of a))) as Hi.
  change (fw_of (a <| fw_of := f |>)) with f. rewrite Hw.
  destruct (esp_hosted_rcp_init _ _ _) as [ret r]. destruct (ret =? ESP_OK) eqn:E; cbn [negb].
  2: { rewrite E. cbn. by rewrite Hi. }
  clear E ret. set (start := match re_backend e with RcpOpenThread => _ | _ => _ end).
  destruct (start =? ESP_OK) eqn:E; cbn [negb]; [done|]. rewrite E. split; [apply deinit_bridge|done].
Qed.

Lemma mask_of z : 0 <= z < 256 -> Z.land z (Z.lnot ESP_RADIO_SERVICE_MASK) = 0 -> 0 <= z < 4.
Proof.
  intros Hz H. change (Z.lnot ESP_RADIO_SERVICE_MASK) with (Z.lnot (Z.ones 2)) in H.
  rewrite <- Z.ldiff_land, Z.ldiff_ones_r, Z.shiftl_mul_pow2, Z.shiftr_div_pow2 in H by lia.
  change (2 ^ 2) with 4 in H. divlia.
Qed.

(** Adding the missing bits of a mask one by one gives the mask. *)
Lemma mask_add m q :
  0 <= m < 4 -> 0 <= q < 4 -> Z.land m (Z.lnot q) = 0 ->
  let add := Z.land q (Z.lnot m) in
  let m1 := if test_bit 0 add then Z.lor m ESP_RADIO_SERVICE_BT else m in
  (if test_bit 1 add then Z.lor m1 ESP_RADIO_SERVICE_IEEE802154 else m1) = q /\
  test_bit 1 m1 = test_bit 1 m /\
  (test_bit 1 add = true -> test_bit 1 m = false /\ test_bit 1 q = true) /\
  (test_bit 1 add = false -> test_bit 1 m = test_bit 1 q) /\
  (test_bit 0 add = true -> Z.land m1 (Z.lnot ESP_RADIO_SERVICE_BT) = m).
Proof.
  intros Hm Hq. assert (Em : m = 0 \/ m = 1 \/ m = 2 \/ m = 3) by lia.
  assert (Eq : q = 0 \/ q = 1 \/ q = 2 \/ q = 3) by lia. clear Hm Hq.
  destruct Em as [-> | [-> | [-> | ->]]]; destruct Eq as [-> | [-> | [-> | ->]]]; intros H;
    try (exfalso; revert H; vm_compute; discriminate); vm_compute; intuition discriminate.
Qed.

End Path.

(** ** A transfer of two RCP frames and padding into an open session *)
Definition demo_build : fw_build := mk_fw_build true true false 1600 20 20.
Definition demo_env : rx_env :=
  mk_rx_env (fun _ => true) (true, true) (fun _ f => f) (fun _ => mk_tx_waits (fun f => f) true (fun f => f))
    (fun _ _ a => a) ESP_OK.
Definition demo_tx (n : nat) (_ : Z) (_ : list Z) : Z := if Nat.ltb n 3 then ESP_ERR_NO_MEM else 0.
Definition demo_app : fw_app := app_zero <| fw_of := snd demo_fw_open |>.
Definition demo_rcp_header : esp_payload_header := zero_header <| if_type := if_code ESP_RCP_IF |>.
Definition demo_frames : list tx_frame := [(demo_rcp_header, [9; 8; 7]); (demo_rcp_header, [6])].
Definition demo_buf : list Z := concat (wire false 0 128 <$> demo_frames) ++ replicate 20 0.

Lemma demo_env_keeps : env_keeps_rx demo_env.
Proof. constructor; [done|done|]. by intros d f. Qed.

Lemma demo_receiving : receiving (fw_of demo_app).
Proof.
  constructor; [|vm_compute; discriminate|vm_compute; reflexivity].
  constructor; [vm_compute; constructor|]. intros d o. vm_compute. discriminate.
Qed.

Lemma h2e_rcp_stream_exact_witness :
  let a' := process_rx_pkt demo_tx demo_build demo_env demo_buf demo_app in
  receiving (fw_of a') /\
  (fatal_scheduled (fw_of a') \/
   snd (h2e_frames demo_build demo_buf) = true /\
   rcp_in_pipe (rcp_of (fw_of a')) =
     rcp_in_pipe (rcp_of (fw_of demo_app)) ++ rcp_payloads (fst (h2e_frames demo_build demo_buf))).
Proof. exact (h2e_rcp_stream_exact demo_tx demo_build demo_env demo_buf demo_app eq_refl demo_env_keeps demo_receiving). Defined.

Example demo_transfer :
  let a' := process_rx_pkt demo_tx demo_build demo_env demo_buf demo_app in
  rcp_in_pipe (rcp_of (fw_of a')) = [9; 8; 7; 6] /\ s_rcp_fatal_pending (fw_of a') = false.
Proof. vm_compute. done. Qed.

Lemma demo_frames_ok : Forall (tx_frame_ok demo_build) demo_frames.
Proof.
  repeat constructor; try (vm_compute; intuition congruence); unfold is_byte; try lia.
Qed.

Definition demo_build_bt : fw_build := mk_fw_build true true true 1600 20 20.
Definition demo_radio : radio_env := mk_radio_env RcpOpenThread ESP_OK true demo_alloc 77 ESP_ERR_NO_MEM.

