(* ===== verification/CmdQueue.v ===== *)
(** * CmdQueue: the host's command queue

    The request/response channel of [host/esp_cmd.c]: the pool of command nodes,
    the pending queue and the worker that submits one command at a time, the
    matching of responses, the caller's wait with its timeout, the decoders, and
    setup and teardown.

    Nodes are named by their index in the pool, as the C code names them by
    address, so a pointer held twice (the current command, a queue link) is
    one node here.  A function holding [cmd_lock] from beginning to end is one
    definition; the wait of a caller is split where it sleeps or drops the lock
    ([esp_cmd_wait_event_guard], [wait_and_decode_end]), and the step relation
    interleaves the callers, the worker and the receive path. *)
From S2P Require Import Prelude Wire Adapter Recovery.

Definition ESP_NUM_OF_CMD_NODES : nat := 20.
Definition ESP_SIZE_OF_CMD_NODE : Z := 2048.
Definition CMD_MAX : Z := 39.
Definition HOSTED_MGMT_TX_ASYNC_STATUS_V1 : Z := 0xA5.
Definition EALREADY : Z := 114.
Definition MAC_ADDR_LEN : Z := 6.

Inductive COMMAND_CODE :=
  | CMD_INIT_INTERFACE | CMD_SET_MAC | CMD_GET_MAC | CMD_SCAN_REQUEST | CMD_STA_CONNECT
  | CMD_DISCONNECT | CMD_DEINIT_INTERFACE | CMD_ADD_KEY | CMD_DEL_KEY | CMD_SET_DEFAULT_KEY
  | CMD_STA_AUTH | CMD_STA_ASSOC | CMD_SET_IP_ADDR | CMD_SET_MCAST_MAC_ADDR | CMD_GET_TXPOWER
  | CMD_SET_TXPOWER | CMD_GET_REG_DOMAIN | CMD_SET_REG_DOMAIN | CMD_RAW_TP_ESP_TO_HOST
  | CMD_RAW_TP_HOST_TO_ESP | CMD_SET_WOW_CONFIG | CMD_SET_MODE | CMD_SET_IE | CMD_AP_CONFIG
  | CMD_MGMT_TX | CMD_AP_STATION | CMD_STA_RSSI | CMD_SET_TIME | CMD_START_OTA_UPDATE
  | CMD_START_OTA_WRITE | CMD_START_OTA_END | CMD_STA_SET_AUTHORIZED | CMD_SET_RADIO_SERVICE
  | CMD_GET_RADIO_SERVICE | CMD_HOST_REBOOT | CMD_MONITOR_CONFIG | CMD_RAW_TP_BIDIRECTIONAL.

Definition cmd_num (c : COMMAND_CODE) : Z :=
  match c with
  | CMD_INIT_INTERFACE => 1 | CMD_SET_MAC => 2 | CMD_GET_MAC => 3 | CMD_SCAN_REQUEST => 4
  | CMD_STA_CONNECT => 5 | CMD_DISCONNECT => 6 | CMD_DEINIT_INTERFACE => 7 | CMD_ADD_KEY => 8
  | CMD_DEL_KEY => 9 | CMD_SET_DEFAULT_KEY => 10 | CMD_STA_AUTH => 11 | CMD_STA_ASSOC => 12
  | CMD_SET_IP_ADDR => 13 | CMD_SET_MCAST_MAC_ADDR => 14 | CMD_GET_TXPOWER => 15
  | CMD_SET_TXPOWER => 16 | CMD_GET_REG_DOMAIN => 17 | CMD_SET_REG_DOMAIN => 18
  | CMD_RAW_TP_ESP_TO_HOST => 19 | CMD_RAW_TP_HOST_TO_ESP => 20 | CMD_SET_WOW_CONFIG => 21
  | CMD_SET_MODE => 22 | CMD_SET_IE => 23 | CMD_AP_CONFIG => 24 | CMD_MGMT_TX => 25
  | CMD_AP_STATION => 26 | CMD_STA_RSSI => 27 | CMD_SET_TIME => 28 | CMD_START_OTA_UPDATE => 29
  | CMD_START_OTA_WRITE => 30 | CMD_START_OTA_END => 31 | CMD_STA_SET_AUTHORIZED => 32
  | CMD_SET_RADIO_SERVICE => 33 | CMD_GET_RADIO_SERVICE => 34 | CMD_HOST_REBOOT => 35
  | CMD_MONITOR_CONFIG => 37 | CMD_RAW_TP_BIDIRECTIONAL => 38
  end.

(** A [switch] or disjunction over command codes. *)
Definition code_in (l : list COMMAND_CODE) (c : Z) : bool := existsb (fun x => cmd_num x =? c) l.

Inductive COMMAND_RESPONSE_TYPE :=
  | CMD_RESPONSE_PENDING | CMD_RESPONSE_FAIL | CMD_RESPONSE_SUCCESS | CMD_RESPONSE_BUSY
  | CMD_RESPONSE_UNSUPPORTED | CMD_RESPONSE_INVALID.

Definition resp_num (r : COMMAND_RESPONSE_TYPE) : Z :=
  match r with
  | CMD_RESPONSE_PENDING => 0 | CMD_RESPONSE_FAIL => 1 | CMD_RESPONSE_SUCCESS => 2
  | CMD_RESPONSE_BUSY => 3 | CMD_RESPONSE_UNSUPPORTED => 4 | CMD_RESPONSE_INVALID => 5
  end.

(** ** Wire structures

    [struct command_header], packed: code, status, le16 length, le16 sequence
    number, two reserved bytes. *)
Definition sizeof_command_header : Z := 8.
Definition sizeof_set_get_val : Z := 12.
Definition sizeof_radio_service : Z := 20.
Definition sizeof_mgmt_tx : Z := 28.
Definition hdr_code (b : list Z) : Z := byte_at 0 b.
Definition hdr_status (b : list Z) : Z := byte_at 1 b.
Definition hdr_len (b : list Z) : Z := le_at 2 2 b.
Definition hdr_seq (b : list Z) : Z := le_at 2 4 b.
Definition hdr_reserved1 (b : list Z) : Z := byte_at 6 b.

(** [esp_wire_le32_to_cpu] on the word stored at [off], in place, and the native
    load that reads it back. *)
Definition cpu32_at (be : bool) (off : Z) (b : list Z) : list Z :=
  if be then ztake off b ++ rev (ztake 4 (zdrop off b)) ++ zdrop (off + 4) b else b.
Definition native32 (be : bool) (off : Z) (b : list Z) : Z :=
  let w := ztake 4 (zdrop off b) in le_val (if be then rev w else w).

(** ** State *)
Record command_node := mk_node {
  cmd_code : Z;
  cmd_seq : Z;
  cmd_skb : option (list Z);
  resp_skb : option (list Z);
  in_pending_queue : bool;
  in_use : bool;
  completed : bool;
  result : Z;
  queued_at : Z;
  sent_at : Z;
  cookie : Z;
  mgmt_frame : option (list Z);
  mgmt_frame_len : Z;
  mgmt_dont_wait_for_ack : bool
}.

#[export] Instance eta_node : Eta command_node := fun n =>
  mk_node (cmd_code n) (cmd_seq n) (cmd_skb n) (resp_skb n) (in_pending_queue n) (in_use n)
    (completed n) (result n) (queued_at n) (sent_at n) (cookie n) (mgmt_frame n) (mgmt_frame_len n)
    (mgmt_dont_wait_for_ack n).

(** [kcalloc]ed. *)
Definition node_zero : command_node := mk_node 0 0 None None false false false 0 0 0 0 None 0 false.

(** The queue's part of [struct esp_adapter]; an unallocated pool is empty. *)
Record cmdq := mk_cmdq {
  cmd_pool : list command_node;
  cmd_free_queue : list nat;
  cmd_pending_queue : list nat;
  cur_cmd : option nat;
  cmd_nodes_in_use : Z;
  cmd_resp : Z;
  cmd_resp_seq : Z;
  next_cmd_seq : Z;
  cmd_wq : bool;
  cmd_work_queued : bool          (* cmd_work is on the workqueue *)
}.

#[export] Instance eta_cmdq : Eta cmdq := fun q =>
  mk_cmdq (cmd_pool q) (cmd_free_queue q) (cmd_pending_queue q) (cur_cmd q) (cmd_nodes_in_use q)
    (cmd_resp q) (cmd_resp_seq q) (next_cmd_seq q) (cmd_wq q) (cmd_work_queued q).

Definition cmdq_zero : cmdq := mk_cmdq [] [] [] None 0 0 0 0 false false.

(** What the decoders write in [struct esp_wifi_device]; [mgmt_tx_status] logs the
    statuses given to cfg80211. *)
Record wifi_priv := mk_priv {
  mac_address : list Z;
  rssi : Z;
  tx_pwr : Z;
  local_disconnect_req : bool;
  waiting_for_scan_done : bool;
  scan_in_progress : bool;
  scan_request : bool;
  mgmt_tx_status : list (bool * option (list Z) * Z)
}.

#[export] Instance eta_priv : Eta wifi_priv := fun p =>
  mk_priv (mac_address p) (rssi p) (tx_pwr p) (local_disconnect_req p) (waiting_for_scan_done p)
    (scan_in_progress p) (scan_request p) (mgmt_tx_status p).

Record cmdw (T : Type) := mk_cmdw { cq : cmdq; cs : sys T; pv : wifi_priv }.
Arguments mk_cmdw {T}.
Arguments cq {T}.
Arguments cs {T}.
Arguments pv {T}.
#[export] Instance eta_cmdw {T} : Eta (cmdw T) := fun w => mk_cmdw (cq w) (cs w) (pv w).

Definition on_cq {T} (f : cmdq -> cmdq) (w : cmdw T) : cmdw T := w <| cq := f (cq w) |>.
Definition on_cs {T} (f : sys T -> sys T) (w : cmdw T) : cmdw T := w <| cs := f (cs w) |>.

Definition node (i : nat) (q : cmdq) : command_node := default node_zero (cmd_pool q !! i).
Definition on_node (i : nat) (f : command_node -> command_node) (q : cmdq) : cmdq :=
  q <| cmd_pool := alter f i (cmd_pool q) |>.

(** Completing a command wakes [wait_for_cmd_resp]. *)
Definition complete (r : Z) (n : command_node) : command_node := n <| result := r |> <| completed := true |>.

Definition queue_cmd_work (q : cmdq) : cmdq :=
  if cmd_wq q then q <| cmd_work_queued := true |> else q.

(** [list_del_init] and the flag that goes with it. *)
Definition unlink_pending (i : nat) (q : cmdq) : cmdq :=
  on_node i (fun n => n <| in_pending_queue := false |>)
    (q <| cmd_pending_queue := filter (fun j => j <> i) (cmd_pending_queue q) |>).

(** ** The pool *)

Definition esp_cmd_is_admitted (a : esp_adapter) (code : Z) : bool :=
  if flag ESP_DRIVER_UNLOADING a then
    (code =? cmd_num CMD_DEINIT_INTERFACE) && flag ESP_ALLOW_DEINIT a
  else if flag ESP_ALLOW_RECONSTRUCT a then
    code_in [CMD_INIT_INTERFACE; CMD_GET_MAC; CMD_DEINIT_INTERFACE; CMD_START_OTA_UPDATE;
             CMD_START_OTA_WRITE; CMD_START_OTA_END; CMD_RAW_TP_ESP_TO_HOST;
             CMD_RAW_TP_HOST_TO_ESP; CMD_RAW_TP_BIDIRECTIONAL] code
  else if flag ESP_CLEANUP_IN_PROGRESS a then
    (code =? cmd_num CMD_DEINIT_INTERFACE) && flag ESP_ALLOW_DEINIT a
  else true.

Definition reset_cmd_node (i : nat) (q : cmdq) : cmdq :=
  let q := if in_pending_queue (node i q) then unlink_pending i q else q in
  on_node i (fun n =>
    n <| cmd_code := 0 |> <| cmd_seq := 0 |> <| completed := false |> <| result := 0 |>
      <| queued_at := 0 |> <| sent_at := 0 |> <| cookie := 0 |>
      <| mgmt_dont_wait_for_ack := false |> <| mgmt_frame_len := 0 |>
      <| mgmt_frame := None |> <| cmd_skb := None |> <| resp_skb := None |>) q.

Definition recycle_cmd_node (i : nat) (q : cmdq) : cmdq :=
  let was_in_use := in_use (node i q) in
  let q := on_node i (fun n => n <| in_use := false |>) (reset_cmd_node i q) in
  let q := q <| cmd_free_queue := cmd_free_queue q ++ [i] |> in
  if was_in_use then q <| cmd_nodes_in_use := cmd_nodes_in_use q - 1 |> else q.

(** The pointer returned: an error code, NULL, or a node. *)
Inductive node_ptr := NodeErr (e : Z) | NodeNull | NodePtr (i : nat).

(** [alloc] is the transport's allocation of the command buffer: its tailroom. *)
Definition get_free_cmd_node (alloc : option Z) (code : Z) (a : esp_adapter) (q : cmdq) : node_ptr * cmdq :=
  if negb (flag ESP_CMD_INIT_DONE a) then (NodeErr (- EBUSY), q)
  else if negb (esp_cmd_is_admitted a code) then (NodeErr (- EBUSY), q)
  else match cmd_free_queue q with
  | [] => (NodeErr (- ENOMEM), q)
  | i :: rest =>
      let q := on_node i (fun n => n <| in_pending_queue := false |> <| in_use := true |>)
                 (q <| cmd_free_queue := rest |>) in
      let q := q <| cmd_nodes_in_use := cmd_nodes_in_use q + 1 |> in
      match alloc with
      | None => (NodeNull, recycle_cmd_node i q)
      | Some _ => (NodePtr i, on_node i (fun n => n <| cmd_skb := Some [] |>) q)
      end
  end.

(** [++next_cmd_seq], skipping 0. *)
Definition next_seq (s : Z) : Z := let s := u16 (s + 1) in if s =? 0 then u16 (s + 1) else s.

(** The zeroed request with its payload and command headers filled in. *)
Definition command_request (if_type code seq len : Z) : list Z :=
  let payload := replicate (Z.to_nat (len - sizeof_header)) 0 in
  let cmd := [code; 0; 0; 0] ++ le_bytes 2 seq ++ [0; 0] in
  encode_header (mk_header if_type 0 0 (pkt_code PACKET_TYPE_COMMAND_REQUEST) 0
    (u16 (len - sizeof_header)) sizeof_header 0 0 0) ++ ztake (zlen payload) (cmd ++ zdrop 8 payload).

Definition prepare_command_request_for_if (if_type code len : Z) (alloc : option Z)
    (a : esp_adapter) (q : cmdq) : node_ptr * cmdq :=
  if (code =? 0) || (CMD_MAX <=? code) then (NodeErr (- EINVAL), q)
  else if negb (flag ESP_CMD_INIT_DONE a) then (NodeErr (- EBUSY), q)
  else if negb (esp_cmd_is_admitted a code) then (NodeErr (- EBUSY), q)
  else if flag ESP_OTA_IN_PROGRESS a
          && negb (code_in [CMD_START_OTA_UPDATE; CMD_START_OTA_WRITE; CMD_START_OTA_END] code)
  then (NodeErr (- EBUSY), q)
  else
    match get_free_cmd_node alloc code a q with
    | (NodePtr i, q) =>
        let seq := next_seq (next_cmd_seq q) in
        let q := on_node i (fun n => n <| cmd_code := code |> <| cmd_seq := seq |>
                                       <| completed := false |> <| result := 0 |>)
                   (q <| next_cmd_seq := seq |>) in
        let total := u64 (len + sizeof_header) in
        if total <? len then (NodeErr (- EOVERFLOW), recycle_cmd_node i q)
        else if (ESP_SIZE_OF_CMD_NODE <? total) || (default 0 alloc <? total)
        then (NodeErr (- EINVAL), recycle_cmd_node i q)
        else (NodePtr i, on_node i (fun n => n <| cmd_skb := Some (command_request if_type code seq total) |>) q)
    | (NodeNull, q) => (NodeErr (- ENOMEM), q)
    | (e, q) => (e, q)
    end.

Definition queue_cmd_node (i : nat) (high_prio : bool) (jiffies : Z) (a : esp_adapter) (q : cmdq) : Z * cmdq :=
  if negb (esp_cmd_is_admitted a (cmd_code (node i q)))
  then (- ESHUTDOWN, on_node i (complete (- ESHUTDOWN)) q)
  else
    let q := on_node i (fun n => n <| queued_at := jiffies |>) q in
    let q := q <| cmd_pending_queue :=
      if high_prio then i :: cmd_pending_queue q else cmd_pending_queue q ++ [i] |> in
    (0, queue_cmd_work (on_node i (fun n => n <| in_pending_queue := true |>) q)).

(** ** The worker and the receive path *)

(** [payload_header->checksum] of a queued request. *)
Definition set_checksum (c : Z) (b : list Z) : list Z := ztake 8 b ++ le_bytes 2 c ++ zdrop 10 b.

Definition cmd_work_gate (a : esp_adapter) : bool :=
  flag ESP_CMD_INIT_DONE a && negb (flag ESP_TRANSPORT_REMOVING a)
  && negb (flag ESP_DRIVER_UNLOADING a && negb (flag ESP_ALLOW_DEINIT a))
  && negb (flag ESP_CLEANUP_IN_PROGRESS a && negb (flag ESP_ALLOW_DEINIT a)
           && negb (flag ESP_ALLOW_RECONSTRUCT a)).

(** [be] and [addr]: the host's byte order and the buffer's address, which the
    checksum routine depends on only internally; [send] is [esp_send_packet]. *)
Definition esp_cmd_work {T} (be : bool) (addr : Z) (send : list Z -> sys T -> Z * sys T)
    (w : cmdw T) : cmdw T :=
  let w := on_cq (fun q => q <| cmd_work_queued := false |>) w in
  let a := ad (cs w) in let q := cq w in
  if negb (flag ESP_DRIVER_ACTIVE a) then w
  else if negb (cmd_work_gate a) then w
  else match cur_cmd q, cmd_pending_queue q with
  | None, i :: _ =>
      let q := unlink_pending i q in
      if negb (esp_cmd_is_admitted a (cmd_code (node i q))) then w <| cq := on_node i (complete (- ESHUTDOWN)) q |>
      else match cmd_skb (node i q) with
      | None => w <| cq := on_node i (complete (- EINVAL)) q |>
      | Some skb =>
          if cmd_code (node i q) =? 0 then w <| cq := on_node i (complete (- EINVAL)) q |>
          else
            let q := q <| cur_cmd := Some i |> <| cmd_resp := 0 |> <| cmd_resp_seq := 0 |> in
            let h := decode_header skb in
            let skb := if has_cap (capabilities a) ESP_CHECKSUM_ENABLED
                       then set_checksum (compute_checksum be addr skb (len h + offset h)) skb else skb in
            let q := on_node i (fun n => n <| sent_at := jiffies (cs w) |> <| cmd_skb := None |>) q in
            let '(ret, s) := send skb (cs w) in
            let q := if negb (ret =? 0) then on_node i (complete ret) q else q in
            w <| cq := q |> <| cs := s |>
      end
  | _, _ => w
  end.

(** The TX-power value and the management frame's length, converted in place. *)
Definition normalise_resp (be : bool) (skb : list Z) : list Z :=
  let code := hdr_code skb in
  let skb := if code_in [CMD_GET_TXPOWER; CMD_SET_TXPOWER] code
                && (sizeof_set_get_val <=? zlen skb) && (4 <=? hdr_len skb)
             then cpu32_at be 8 skb else skb in
  if (code =? cmd_num CMD_MGMT_TX) && (sizeof_mgmt_tx <=? zlen skb) then cpu32_at be 24 skb else skb.

(** [skb] starts at the command header. *)
Definition process_cmd_resp (be : bool) (skb : list Z) (a : esp_adapter) (q : cmdq) : Z * cmdq :=
  if negb (flag ESP_CMD_INIT_DONE a) then (-1, q)
  else if zlen skb <? sizeof_command_header then (- EINVAL, q)
  else if zlen skb - sizeof_command_header <? hdr_len skb then (- EMSGSIZE, q)
  else
    let skb := normalise_resp be skb in
    let code := hdr_code skb in
    match cur_cmd q with
    | None => (-1, q)
    | Some i =>
        let n := node i q in
        if negb (code =? cmd_code n) || negb (hdr_seq skb =? cmd_seq n) then (- EPROTO, q)
        else if completed n || bool_decide (is_Some (resp_skb n)) then (- EALREADY, q)
        else
          let async := (code =? cmd_num CMD_MGMT_TX) && (hdr_status skb =? resp_num CMD_RESPONSE_SUCCESS)
                       && (hdr_reserved1 skb =? HOSTED_MGMT_TX_ASYNC_STATUS_V1) in
          let q := on_node i (fun n =>
            let n := if async then n <| mgmt_dont_wait_for_ack := true |> else n in
            complete 0 (n <| resp_skb := Some skb |>)) q in
          (0, q <| cmd_resp := code |> <| cmd_resp_seq := hdr_seq skb |>)
    end.

Definition esp_cmd_transport_failed (code seq error : Z) (q : cmdq) : cmdq :=
  match cur_cmd q with
  | None => q
  | Some i =>
      let n := node i q in
      if negb (cmd_code n =? code) || negb (cmd_seq n =? seq) then q
      else if completed n || bool_decide (is_Some (resp_skb n)) then q
      else on_node i (complete (if error =? 0 then - EIO else error)) q
  end.

(** ** Waiting for the response *)

Definition esp_cmd_timeout_is_commit_ambiguous (code : Z) : bool :=
  code_in [CMD_INIT_INTERFACE; CMD_DEINIT_INTERFACE; CMD_SET_MAC; CMD_SCAN_REQUEST; CMD_STA_CONNECT;
    CMD_DISCONNECT; CMD_ADD_KEY; CMD_DEL_KEY; CMD_SET_DEFAULT_KEY; CMD_STA_AUTH; CMD_STA_ASSOC;
    CMD_STA_SET_AUTHORIZED; CMD_SET_IP_ADDR; CMD_SET_MCAST_MAC_ADDR; CMD_SET_TXPOWER;
    CMD_SET_REG_DOMAIN; CMD_RAW_TP_ESP_TO_HOST; CMD_RAW_TP_HOST_TO_ESP; CMD_RAW_TP_BIDIRECTIONAL;
    CMD_SET_WOW_CONFIG; CMD_SET_MODE; CMD_SET_IE; CMD_AP_CONFIG; CMD_MGMT_TX; CMD_AP_STATION;
    CMD_SET_TIME; CMD_START_OTA_UPDATE; CMD_START_OTA_WRITE; CMD_START_OTA_END;
    CMD_SET_RADIO_SERVICE; CMD_MONITOR_CONFIG] code.

Definition esp_cmd_timeout_needs_restart (code : Z) : bool := esp_cmd_timeout_is_commit_ambiguous code.

(** The conditions both timeout paths share. *)
Definition restart_unwanted (a : esp_adapter) : bool :=
  flag ESP_DRIVER_UNLOADING a || flag ESP_TRANSPORT_REMOVING a || flag ESP_ALLOW_RECONSTRUCT a
  || flag ESP_FW_RESET_EXPECTED a.

Section Waiting.
Context {T : Type} (ops : esp_if_ops T) (msecs_to_jiffies : Z -> Z) (be : bool).

Definition restart_firmware (s : sys T) : sys T :=
  esp_request_firmware_restart ops msecs_to_jiffies (esp_schedule_fw_reset_recovery ops msecs_to_jiffies s).

(** The caller wakes up: its command is completed, or the timeout has passed. *)
Definition esp_cmd_wait_event_guard (i : nat) (w : cmdw T) : Z * cmdw T :=
  let n := node i (cq w) in
  if completed n then (1, w)
  else
    let w := if in_pending_queue n
             then on_cq (fun q => on_node i (complete (- ETIMEDOUT)) (unlink_pending i q)) w else w in
    if negb (sent_at n =? 0) && esp_cmd_timeout_is_commit_ambiguous (cmd_code n)
       && negb (restart_unwanted (ad (cs w)))
    then (0, on_cs restart_firmware w) else (0, w).

(** *** Decoders *)
Definition common_status (r : list Z) : Z := if hdr_status r =? resp_num CMD_RESPONSE_SUCCESS then 0 else -1.

Definition decode_common_resp (n : command_node) : Z :=
  match resp_skb n with
  | Some r => if zlen r <? sizeof_command_header then -1 else common_status r
  | None => -1
  end.

Definition decode_monitor_resp (n : command_node) : Z :=
  match resp_skb n with
  | Some r =>
      if zlen r <? sizeof_command_header then - EIO
      else if hdr_status r =? resp_num CMD_RESPONSE_SUCCESS then 0
      else if hdr_status r =? resp_num CMD_RESPONSE_BUSY then - EBUSY
      else if hdr_status r =? resp_num CMD_RESPONSE_INVALID then - EINVAL
      else if hdr_status r =? resp_num CMD_RESPONSE_UNSUPPORTED then - EOPNOTSUPP
      else - EIO
  | None => - EIO
  end.

Definition decode_mac_addr (n : command_node) (p : wifi_priv) : Z * wifi_priv :=
  match resp_skb n with
  | Some r =>
      if (zlen r <? sizeof_command_header + MAC_ADDR_LEN) || (hdr_len r <? MAC_ADDR_LEN) then (- EINVAL, p)
      else if negb (hdr_status r =? resp_num CMD_RESPONSE_SUCCESS) then (-1, p)
      else (0, p <| mac_address := ztake MAC_ADDR_LEN (zdrop sizeof_command_header r) |>)
  | None => (- EINVAL, p)
  end.

(** [int8_t]. *)
Definition sign8 (b : Z) : Z := if b <? 128 then b else b - 256.

Definition decode_rssi (n : command_node) (p : wifi_priv) : Z * wifi_priv :=
  match resp_skb n with
  | Some r =>
      if (zlen r <? sizeof_command_header + 1) || (hdr_len r <? 1) then (- EINVAL, p)
      else (common_status r, p <| rssi := sign8 (byte_at sizeof_command_header r) |>)
  | None => (- EINVAL, p)
  end.

Definition decode_tx_power (n : command_node) (p : wifi_priv) : Z * wifi_priv :=
  match resp_skb n with
  | Some r =>
      if (zlen r <? sizeof_set_get_val) || (hdr_len r <? 4) then (- EINVAL, p)
      else (common_status r, p <| tx_pwr := u8 (native32 be 8 r) |>)
  | None => (- EINVAL, p)
  end.

Definition decode_disconnect_resp (n : command_node) (p : wifi_priv) : Z * wifi_priv :=
  match resp_skb n with
  | Some r =>
      if zlen r <? sizeof_command_header then (-1, p)
      else
        let ret := if hdr_status r =? resp_num CMD_RESPONSE_UNSUPPORTED then - EOPNOTSUPP
                   else common_status r in
        (ret, p <| local_disconnect_req := (ret =? 0) |>)
  | None => (-1, p)
  end.

Definition decode_radio_service (n : command_node) (a : esp_adapter) : Z * esp_adapter :=
  match resp_skb n with
  | Some r =>
      if zlen r <? sizeof_radio_service then (- EINVAL, a)
      else if hdr_status r =? resp_num CMD_RESPONSE_UNSUPPORTED then (- EOPNOTSUPP, a)
      else if hdr_status r =? resp_num CMD_RESPONSE_INVALID then (- EINVAL, a)
      else if negb (hdr_status r =? resp_num CMD_RESPONSE_SUCCESS) then (- EIO, a)
      else (0, a <| radio_service_active := byte_at 9 r |> <| radio_service_flags := byte_at 10 r |>
                 <| rcp_session_nonce := le_at 8 12 r |>)
  | None => (- EINVAL, a)
  end.

Definition handle_mgmt_tx_done (n : command_node) (p : wifi_priv) : Z * wifi_priv :=
  match resp_skb n with
  | Some r =>
      if zlen r <? sizeof_mgmt_tx then (- EINVAL, p)
      else if hdr_status r =? resp_num CMD_RESPONSE_BUSY then (- EBUSY, p)
      else if (hdr_status r =? resp_num CMD_RESPONSE_INVALID)
              || (hdr_status r =? resp_num CMD_RESPONSE_UNSUPPORTED) then (- EINVAL, p)
      else if mgmt_dont_wait_for_ack n then (0, p)
      else
        let frame := match mgmt_frame n with
                     | Some f => if mgmt_frame_len n =? 0 then None else Some (ztake (mgmt_frame_len n) f)
                     | None => None
                     end in
        let flen := native32 be 24 r in
        let frame := if negb (flen =? 0) && (flen <=? zlen r - sizeof_mgmt_tx)
                     then Some (ztake flen (zdrop sizeof_mgmt_tx r)) else frame in
        let ack := hdr_status r =? resp_num CMD_RESPONSE_SUCCESS in
        (0, p <| mgmt_tx_status := mgmt_tx_status p ++ [(ack, frame, cookie n)] |>)
  | None => (- EINVAL, p)
  end.

(** The [switch] of [wait_and_decode_cmd_resp]; every decoder but those of scan
    and unknown commands runs only when [ret] is 0. *)
Definition decode_resp (n : command_node) (ret : Z) (w : cmdw T) : Z * cmdw T :=
  let c := cmd_code n in
  let on_pv (d : Z * wifi_priv) := (d.1, w <| pv := d.2 |>) in
  if c =? cmd_num CMD_SCAN_REQUEST then
    let ret := if ret =? 0 then decode_common_resp n else ret in
    if ret =? 0 then (ret, w)
    else (ret, w <| pv := pv w <| waiting_for_scan_done := false |> <| scan_in_progress := false |>
                            <| scan_request := false |> |>)
  else if code_in [CMD_INIT_INTERFACE; CMD_DEINIT_INTERFACE; CMD_STA_AUTH; CMD_STA_ASSOC;
      CMD_STA_SET_AUTHORIZED; CMD_STA_CONNECT; CMD_ADD_KEY; CMD_DEL_KEY; CMD_SET_MODE; CMD_SET_IE;
      CMD_AP_CONFIG; CMD_AP_STATION; CMD_SET_DEFAULT_KEY; CMD_SET_IP_ADDR; CMD_SET_MCAST_MAC_ADDR;
      CMD_GET_REG_DOMAIN; CMD_SET_REG_DOMAIN; CMD_RAW_TP_ESP_TO_HOST; CMD_RAW_TP_HOST_TO_ESP;
      CMD_RAW_TP_BIDIRECTIONAL; CMD_SET_WOW_CONFIG; CMD_SET_TIME; CMD_START_OTA_UPDATE;
      CMD_START_OTA_WRITE; CMD_START_OTA_END] c then
    (if ret =? 0 then decode_common_resp n else ret, w)
  else if c =? cmd_num CMD_MONITOR_CONFIG then (if ret =? 0 then decode_monitor_resp n else ret, w)
  else if code_in [CMD_SET_RADIO_SERVICE; CMD_GET_RADIO_SERVICE] c then
    if ret =? 0 then
      let '(ret, a) := decode_radio_service n (ad (cs w)) in (ret, on_cs (on_ad (fun _ => a)) w)
    else (ret, w)
  else if code_in [CMD_GET_MAC; CMD_SET_MAC] c then
    if ret =? 0 then on_pv (decode_mac_addr n (pv w)) else (ret, w)
  else if c =? cmd_num CMD_DISCONNECT then
    if ret =? 0 then on_pv (decode_disconnect_resp n (pv w)) else (ret, w)
  else if code_in [CMD_GET_TXPOWER; CMD_SET_TXPOWER] c then
    if ret =? 0 then on_pv (decode_tx_power n (pv w)) else (ret, w)
  else if c =? cmd_num CMD_STA_RSSI then
    if ret =? 0 then on_pv (decode_rssi n (pv w)) else (ret, w)
  else if c =? cmd_num CMD_MGMT_TX then
    if ret =? 0 then on_pv (handle_mgmt_tx_done n (pv w)) else (ret, w)
  else (- EINVAL, w).

(** The locked part after the wait: [ret] becomes the command's outcome. *)
Definition settle_cmd (i : nat) (ret : Z) (q : cmdq) : Z * cmdq :=
  let n := node i q in
  let ret := if (ret <=? 0) && completed n then 1 else ret in
  let q := if bool_decide (cur_cmd q = Some i)
           then q <| cur_cmd := None |> <| cmd_resp := 0 |> <| cmd_resp_seq := 0 |> else q in
  let q := if (ret <=? 0) && in_pending_queue n then unlink_pending i q else q in
  if ret =? 0 then (- ETIMEDOUT, on_node i (complete (- ETIMEDOUT)) q)
  else if 0 <? ret then (result n, q)
  else (ret, q).

(** [wait_and_decode_cmd_resp] from the guard's return on. *)
Definition wait_and_decode_end (i : nat) (ret : Z) (w : cmdw T) : Z * cmdw T :=
  let '(ret, q) := settle_cmd i ret (cq w) in
  let w := w <| cq := q |> in
  let n := node i q in
  let w := if (ret =? - ETIMEDOUT) && negb (sent_at n =? 0) && esp_cmd_timeout_needs_restart (cmd_code n)
              && negb (restart_unwanted (ad (cs w)) || flag ESP_OTA_IN_PROGRESS (ad (cs w)))
           then on_cs restart_firmware w else w in
  let ret := if negb (flag ESP_DRIVER_ACTIVE (ad (cs w))) && (ret =? 0) then - ESHUTDOWN else ret in
  let '(ret, w) := decode_resp n ret w in
  let w := on_cq (recycle_cmd_node i) w in
  (ret, if flag ESP_CMD_INIT_DONE (ad (cs w)) then on_cq queue_cmd_work w else w).

(** The caller undisturbed. *)
Definition wait_and_decode_cmd_resp (i : nat) (w : cmdw T) : Z * cmdw T :=
  let '(ret, w) := esp_cmd_wait_event_guard i w in wait_and_decode_end i ret w.

End Waiting.

(** ** Set-up and teardown *)

Definition abort_node (n : command_node) : command_node :=
  complete (- ESHUTDOWN) (n <| in_pending_queue := false |>).

Definition esp_cmd_abort_waiters (a : esp_adapter) (q : cmdq) : cmdq :=
  if negb (flag ESP_CMD_INIT_DONE a) && negb (cmd_wq q) then q
  else
    let q := match cur_cmd q with
             | Some i => if completed (node i q) then q else on_node i (complete (- ESHUTDOWN)) q
             | None => q
             end in
    foldl (fun q i => on_node i abort_node q) (q <| cmd_pending_queue := [] |>) (cmd_pending_queue q).

(** [esp_commands_teardown] up to its wait, and after it: nodes still in use keep the
    pool allocated. [None]: there was nothing to tear down. *)
Definition esp_commands_teardown_begin (a : esp_adapter) (q : cmdq) : option (esp_adapter * cmdq) :=
  if negb (flag ESP_CMD_INIT_DONE a) then None
  else
    let a := clear_flag ESP_CMD_INIT_DONE a in
    let q := esp_cmd_abort_waiters a q in
    Some (a, q <| cmd_work_queued := false |> <| cmd_wq := false |>).

Definition free_esp_cmd_pool (q : cmdq) : cmdq := q <| cmd_pool := [] |>.

Definition esp_commands_teardown_end (q : cmdq) : Z * cmdq :=
  if cmd_nodes_in_use q =? 0 then (0, free_esp_cmd_pool q) else (- EBUSY, q).

Definition alloc_esp_cmd_pool (alloc_ok : bool) (q : cmdq) : Z * cmdq :=
  if negb alloc_ok then (- ENOMEM, q)
  else
    (0, foldl (fun q i => recycle_cmd_node i q)
          (q <| cmd_pool := replicate ESP_NUM_OF_CMD_NODES node_zero |>) (seq 0 ESP_NUM_OF_CMD_NODES)).

(** [wq_ok], [alloc_ok]: whether the workqueue and the pool could be created. *)
Definition esp_commands_setup (wq_ok alloc_ok : bool) (a : esp_adapter) (q : cmdq) : Z * (esp_adapter * cmdq) :=
  if negb (bool_decide (cmd_pool q = [])) && negb (cmd_nodes_in_use q =? 0) then (- EBUSY, (a, q))
  else
    let q := if bool_decide (cmd_pool q = []) then q else free_esp_cmd_pool q in
    let q := q <| cmd_nodes_in_use := 0 |> <| cmd_pending_queue := [] |> <| cmd_free_queue := [] |>
               <| cur_cmd := None |> <| cmd_resp := 0 |> <| cmd_resp_seq := 0 |> <| next_cmd_seq := 0 |> in
    if negb wq_ok then (1, (a, q <| cmd_wq := false |>))
    else
      let '(ret, q) := alloc_esp_cmd_pool alloc_ok (q <| cmd_wq := true |> <| cmd_work_queued := false |>) in
      if negb (ret =? 0) then (ret, (a, q <| cmd_work_queued := false |> <| cmd_wq := false |>))
      else (0, (set_flag ESP_CMD_INIT_DONE a, q)).

(** ** The queue as a transition system *)

(** Where the caller that owns a node is: it has prepared the request, queued it,
    or come back from the wait with the guard's result. *)
Inductive phase := Prepared | Queued | Woken (ret : Z).

Record cfg (T : Type) := mk_cfg { cw : cmdw T; ph : gmap nat phase }.
Arguments mk_cfg {T}.
Arguments cw {T}.
Arguments ph {T}.

Section Queue.
Context {T : Type} (ops : esp_if_ops T) {Hops : ResetLaws ops} (m2j : Z -> Z) (be : bool) (addr : Z).
(** [esp_send_packet] hands the buffer to the transport. *)
Context (send : list Z -> sys T -> Z * sys T).
Hypothesis send_keeps : forall skb s,
  flag ESP_CMD_INIT_DONE (ad (send skb s).2) = flag ESP_CMD_INIT_DONE (ad s).
Implicit Types (w : cmdw T) (c : cfg T) (q : cmdq) (n : command_node).

Notation adp w := (ad (cs w)).

Inductive cstep : cfg T -> cfg T -> Prop :=
  | cs_prepare w p it code ln al i q :
      prepare_command_request_for_if it code ln al (adp w) (cq w) = (NodePtr i, q) ->
      cstep (mk_cfg w p) (mk_cfg (w <| cq := q |>) (<[i := Prepared]> p))
  | cs_prepare_fails w p it code ln al r q :
      prepare_command_request_for_if it code ln al (adp w) (cq w) = (r, q) ->
      (forall i, r <> NodePtr i) -> cstep (mk_cfg w p) (mk_cfg (w <| cq := q |>) p)
  (* the caller writes the request's fields *)
  | cs_fill w p i skb ck fr fl dw :
      p !! i = Some Prepared ->
      cstep (mk_cfg w p) (mk_cfg (on_cq (on_node i (fun n => n <| cmd_skb := Some skb |> <| cookie := ck |>
        <| mgmt_frame := fr |> <| mgmt_frame_len := fl |> <| mgmt_dont_wait_for_ack := dw |>)) w) p)
  | cs_abandon w p i :
      p !! i = Some Prepared ->
      cstep (mk_cfg w p) (mk_cfg (on_cq (recycle_cmd_node i) w) (delete i p))
  | cs_queue w p i hi r q :
      p !! i = Some Prepared -> queue_cmd_node i hi (jiffies (cs w)) (adp w) (cq w) = (r, q) ->
      cstep (mk_cfg w p) (mk_cfg (w <| cq := q |>) (<[i := Queued]> p))
  | cs_work w p : cstep (mk_cfg w p) (mk_cfg (esp_cmd_work be addr send w) p)
  | cs_resp w p skb r q :
      process_cmd_resp be skb (adp w) (cq w) = (r, q) -> cstep (mk_cfg w p) (mk_cfg (w <| cq := q |>) p)
  | cs_transport_failed w p code seq e :
      cstep (mk_cfg w p) (mk_cfg (on_cq (esp_cmd_transport_failed code seq e) w) p)
  | cs_wake w p i r w' :
      p !! i = Some Queued -> esp_cmd_wait_event_guard ops m2j i w = (r, w') ->
      cstep (mk_cfg w p) (mk_cfg w' (<[i := Woken r]> p))
  | cs_end w p i r r' w' :
      p !! i = Some (Woken r) -> wait_and_decode_end ops m2j be i r w = (r', w') ->
      cstep (mk_cfg w p) (mk_cfg w' (delete i p))
  | cs_abort w p : cstep (mk_cfg w p) (mk_cfg (on_cq (esp_cmd_abort_waiters (adp w)) w) p)
  | cs_teardown w p a q :
      esp_commands_teardown_begin (adp w) (cq w) = Some (a, q) ->
      cstep (mk_cfg w p) (mk_cfg (on_cs (on_ad (fun _ => a)) (w <| cq := q |>)) p)
  | cs_teardown_end w p r q :
      flag ESP_CMD_INIT_DONE (adp w) = false -> esp_commands_teardown_end (cq w) = (r, q) ->
      cstep (mk_cfg w p) (mk_cfg (w <| cq := q |>) p)
  | cs_setup w p wq_ok al_ok r a q :
      flag ESP_CMD_INIT_DONE (adp w) = false -> esp_commands_setup wq_ok al_ok (adp w) (cq w) = (r, (a, q)) ->
      cstep (mk_cfg w p) (mk_cfg (on_cs (on_ad (fun _ => a)) (w <| cq := q |>)) p)
  (* the rest of the driver *)
  | cs_env w p s v :
      flag ESP_CMD_INIT_DONE (ad s) = flag ESP_CMD_INIT_DONE (adp w) ->
      cstep (mk_cfg w p) (mk_cfg (w <| cs := s |> <| pv := v |>) p).

Inductive creach : cfg T -> Prop :=
  | creach_load w :
      cq w = cmdq_zero -> flag ESP_CMD_INIT_DONE (adp w) = false -> creach (mk_cfg w ∅)
  | creach_step c c' : creach c -> cstep c c' -> creach c'.

(** What holds of a node, by the phase of its owner. *)
Definition phase_ok (cur : option nat) (i : nat) n (o : option phase) : Prop :=
  match o with
  | None => in_pending_queue n = false /\ completed n = false /\ resp_skb n = None
  | Some Prepared => in_pending_queue n = false /\ completed n = false /\ resp_skb n = None /\ cur <> Some i
  | Some Queued =>
      (in_pending_queue n = true -> cur <> Some i /\ completed n = false) /\
      (in_pending_queue n = true \/ cur = Some i \/ completed n = true)
  | Some (Woken r) => in_pending_queue n = false /\ 0 <= r /\ (0 < r -> completed n = true)
  end.

(** A stored response answers the node's own request, and success means that
    there is one. *)
Definition answer_ok n : Prop :=
  (forall r, resp_skb n = Some r ->
     completed n = true /\ hdr_code r = cmd_code n /\ hdr_seq r = cmd_seq n) /\
  (completed n = true -> result n = 0 -> is_Some (resp_skb n)).

Record qinv (ready : bool) q (p : gmap nat phase) : Prop := mk_qinv {
  qi_ready : ready = true -> cmd_pool q <> [];
  qi_free : cmd_pool q <> [] -> NoDup (cmd_free_queue q) /\
    forall i, i ∈ cmd_free_queue q <-> is_Some (cmd_pool q !! i) /\ p !! i = None;
  qi_pending : NoDup (cmd_pending_queue q) /\
    forall i, i ∈ cmd_pending_queue q <-> exists n, cmd_pool q !! i = Some n /\ in_pending_queue n = true;
  qi_in_use i n : cmd_pool q !! i = Some n -> in_use n = bool_decide (is_Some (p !! i));
  qi_owned i : is_Some (p !! i) -> is_Some (cmd_pool q !! i);
  qi_count : cmd_nodes_in_use q = Z.of_nat (size p);
  qi_cur i : cur_cmd q = Some i -> is_Some (p !! i);
  qi_node i n : cmd_pool q !! i = Some n -> phase_ok (cur_cmd q) i n (p !! i) /\ answer_ok n
}.

Definition CInv c : Prop := qinv (flag ESP_CMD_INIT_DONE (adp (cw c))) (cq (cw c)) (ph c).

Lemma pool_on_node i f q j :
  cmd_pool (on_node i f q) !! j = if decide (j = i) then f <$> cmd_pool q !! j else cmd_pool q !! j.
Proof. cbn. rewrite list_lookup_alter. by repeat case_decide; subst. Qed.

Lemma node_lookup i q n : cmd_pool q !! i = Some n -> node i q = n.
Proof. unfold node. by intros ->. Qed.

(** One node changes, with its queue links and its owner's phase. *)
Lemma qinv_update b b' q q' p p' i n f :
  qinv b q p -> cmd_pool q !! i = Some n -> cmd_pool q' = alter f i (cmd_pool q) ->
  (forall j, j <> i -> cur_cmd q' = Some j <-> cur_cmd q = Some j) ->
  (cur_cmd q' = Some i -> is_Some (p' !! i)) ->
  NoDup (cmd_free_queue q') -> (forall j, j <> i -> j ∈ cmd_free_queue q' <-> j ∈ cmd_free_queue q) ->
  (i ∈ cmd_free_queue q' <-> p' !! i = None) ->
  NoDup (cmd_pending_queue q') ->
  (forall j, j <> i -> j ∈ cmd_pending_queue q' <-> j ∈ cmd_pending_queue q) ->
  (i ∈ cmd_pending_queue q' <-> in_pending_queue (f n) = true) ->
  (forall j, j <> i -> p' !! j = p !! j) -> cmd_nodes_in_use q' = Z.of_nat (size p') ->
  in_use (f n) = bool_decide (is_Some (p' !! i)) ->
  phase_ok (cur_cmd q') i (f n) (p' !! i) -> answer_ok (f n) -> qinv b' q' p'.
Proof.
  intros [Hr Hf Hp Hu Ho Hc Hcu Hn] Hi Epool Hcur Hcuri Hnf Hfj Hfi Hnp Hpj Hpi Hph Hcnt Huse Hok Hans.
  assert (Hl : forall j, cmd_pool q' !! j = if decide (j = i) then Some (f n) else cmd_pool q !! j).
  { intros j. rewrite Epool, list_lookup_alter.
    repeat case_decide; subst; rewrite ?Hi; done. }
  assert (Hne : cmd_pool q <> []) by (intros E; by rewrite E in Hi).
  destruct (Hf Hne) as [Hf1 Hf2].
  assert (Hns : forall j, j <> i -> (cur_cmd q' <> Some j <-> cur_cmd q <> Some j)).
  { intros j Hj. by rewrite (Hcur j Hj). }
  constructor; auto.
  - intros _ E. specialize (Hl i). rewrite E, decide_True in Hl by done. done.
  - intros _. split; [done|]. intros j. rewrite Hl. case_decide as Hj; [subst j|].
    + rewrite Hfi. naive_solver.
    + rewrite Hfj, Hph, Hf2 by done. done.
  - split; [done|]. intros j. rewrite Hl. case_decide as Hj; [subst j|].
    + rewrite Hpi. naive_solver.
    + rewrite Hpj by done. apply Hp.
  - intros j m. rewrite Hl. case_decide as Hj; [intros [= <-]; by subst|]. rewrite Hph by done. auto.
  - intros j. rewrite Hl. case_decide as Hj; [by eauto|]. rewrite Hph by done. auto.
  - intros j Ej. destruct (decide (j = i)) as [->|Hj]; [auto|]. rewrite Hph by done.
    apply Hcu. by apply Hcur.
  - intros j m. rewrite Hl. case_decide as Hj; [intros [= <-]; by subst j|]. intros Hm.
    destruct (Hn j m Hm) as [Hk Ha]. rewrite Hph by done. split; [|done].
    revert Hk. unfold phase_ok. destruct (p !! j) as [[| |]|]; rewrite ?(Hns j Hj), ?(Hcur j Hj); auto.
Qed.

(** The fields the invariant does not read. *)
Lemma qinv_same b q q' p :
  qinv b q p -> cmd_pool q' = cmd_pool q -> cmd_free_queue q' = cmd_free_queue q ->
  cmd_pending_queue q' = cmd_pending_queue q -> cur_cmd q' = cur_cmd q ->
  cmd_nodes_in_use q' = cmd_nodes_in_use q -> qinv b q' p.
Proof. intros [] E1 E2 E3 E4 E5. constructor; rewrite ?E1, ?E2, ?E3, ?E4, ?E5; auto. Qed.

Lemma size_insert_some (p : gmap nat phase) i x : is_Some (p !! i) -> size (<[i := x]> p) = size p.
Proof.
  intros [y Hy]. rewrite <- (insert_delete_id p i y Hy), insert_insert_eq.
  rewrite !map_size_insert_None by apply lookup_delete_eq. done.
Qed.

Lemma qinv_pool b q p i : qinv b q p -> is_Some (p !! i) ->
  exists n, cmd_pool q !! i = Some n /\ node i q = n /\ i ∉ cmd_free_queue q.
Proof.
  intros [] Hp. destruct (qi_owned0 i Hp) as [n Hn]. exists n. split_and!; [done|by apply node_lookup|].
  destruct qi_free0 as [_ Hf]; [by intros E; rewrite E in Hn|]. rewrite Hf. intros [_ E].
  rewrite E in Hp. by destruct Hp.
Qed.

Lemma qinv_on_node b q p i n f x :
  qinv b q p -> cmd_pool q !! i = Some n -> is_Some (p !! i) ->
  in_use (f n) = in_use n -> in_pending_queue (f n) = in_pending_queue n ->
  phase_ok (cur_cmd q) i (f n) (Some x) -> answer_ok (f n) -> qinv b (on_node i f q) (<[i := x]> p).
Proof.
  intros HI Hi Hp Eu Ep Hok Ha. pose proof HI as [Hr Hf [Hp1 Hp2] Hu Ho Hc Hcu Hn].
  destruct Hf as [Hf1 Hf2]; [by intros E; rewrite E in Hi|].
  assert (Hx : is_Some (<[i := x]> p !! i)) by (rewrite lookup_insert_eq; by eexists).
  apply (qinv_update b b q _ p _ i n f); auto; cbn.
  - rewrite Hf2, lookup_insert_eq. destruct Hp as [y Hy]. split; [intros [_ E]; congruence|done].
  - rewrite Hp2, Ep, Hi. naive_solver.
  - intros j Hj. by rewrite lookup_insert_ne.
  - by rewrite size_insert_some.
  - rewrite Eu, (Hu _ _ Hi). by rewrite !bool_decide_true.
  - by rewrite lookup_insert_eq.
Qed.

(** The owner's phase stays. *)
Lemma qinv_touch b q p i n f :
  qinv b q p -> cmd_pool q !! i = Some n -> is_Some (p !! i) ->
  in_use (f n) = in_use n -> in_pending_queue (f n) = in_pending_queue n ->
  phase_ok (cur_cmd q) i (f n) (p !! i) -> answer_ok (f n) -> qinv b (on_node i f q) p.
Proof.
  intros HI Hi [x Hx] Eu Ep Hok Ha. rewrite <- (insert_id p i x Hx).
  apply (qinv_on_node _ _ _ _ n); [done|done|by eexists|done|done|by rewrite <- Hx|done].
Qed.

(** A pending node leaves the queue and is completed with an error, or moves on
    as the current command. *)
Lemma qinv_unlink b q p i n f cur' x :
  qinv b q p -> cmd_pool q !! i = Some n -> is_Some (p !! i) ->
  (forall j, j <> i -> cur' = Some j <-> cur_cmd q = Some j) ->
  in_use (f n) = in_use n -> in_pending_queue (f n) = false ->
  phase_ok cur' i (f n) (Some x) -> answer_ok (f n) ->
  qinv b (on_node i f (q <| cmd_pending_queue := filter (fun j => j <> i) (cmd_pending_queue q) |>
                         <| cur_cmd := cur' |>)) (<[i := x]> p).
Proof.
  intros HI Hi Hp Hcur Eu Ep Hok Ha. pose proof HI as [Hr Hf [Hp1 Hp2] Hu Ho Hc Hcu Hn].
  destruct Hf as [Hf1 Hf2]; [by intros E; rewrite E in Hi|].
  assert (Hx : is_Some (<[i := x]> p !! i)) by (rewrite lookup_insert_eq; by eexists).
  apply (qinv_update b b q _ p _ i n f); auto; cbn.
  - rewrite Hf2, lookup_insert_eq. destruct Hp as [y Hy]. split; [intros [_ E]; congruence|done].
  - by apply NoDup_filter.
  - intros j Hj. rewrite list_elem_of_filter. naive_solver.
  - rewrite list_elem_of_filter, Ep. naive_solver.
  - intros j Hj. by rewrite lookup_insert_ne.
  - by rewrite size_insert_some.
  - rewrite Eu, (Hu _ _ Hi). by rewrite !bool_decide_true.
  - by rewrite lookup_insert_eq.
Qed.

Lemma cmd_pool_on_node i f q : cmd_pool (on_node i f q) = alter f i (cmd_pool q).
Proof. done. Qed.

(** Recycling returns a node to the pool, blank. *)
Lemma recycle_shape i q n :
  cmd_pool q !! i = Some n ->
  let q' := recycle_cmd_node i q in
  cmd_pool q' = alter (fun _ => node_zero) i (cmd_pool q) /\
  cmd_free_queue q' = cmd_free_queue q ++ [i] /\
  cmd_pending_queue q' =
    (if in_pending_queue n then filter (fun j => j <> i) (cmd_pending_queue q) else cmd_pending_queue q) /\
  cur_cmd q' = cur_cmd q /\
  cmd_nodes_in_use q' = (if in_use n then cmd_nodes_in_use q - 1 else cmd_nodes_in_use q).
Proof.
  intros Hi. cbn zeta. unfold recycle_cmd_node, reset_cmd_node. rewrite (node_lookup _ _ _ Hi).
  assert (Hp : forall f, (forall m, m = n -> f m = node_zero) ->
    alter f i (cmd_pool q) = alter (fun _ => node_zero) i (cmd_pool q)).
  { intros f Hf. apply list_alter_ext; [|done]. intros m Hm. apply Hf. congruence. }
  destruct (in_use n), (in_pending_queue n) eqn:E; cbn; (split; [|done]).
  all: rewrite !list_alter_alter_eq; apply Hp; intros m ->; by destruct n; cbn in *; subst.
Qed.

Lemma qinv_recycle b q p i :
  qinv b q p -> is_Some (p !! i) -> cur_cmd q <> Some i -> qinv b (recycle_cmd_node i q) (delete i p).
Proof.
  intros HI Hp Hcu. destruct (qinv_pool _ _ _ _ HI Hp) as (n & Hi & _ & Hfree).
  destruct (recycle_shape i q n Hi) as (E1 & E2 & E3 & E4 & E5).
  pose proof HI as [Hr Hf [Hp1 Hp2] Hu Ho Hc Hcur Hn].
  destruct Hf as [Hf1 Hf2]; [by intros E; rewrite E in Hi|].
  apply (qinv_update b b q _ p _ i n (fun _ => node_zero)); auto.
  - by rewrite E4.
  - intros E. by rewrite E4 in E.
  - rewrite E2. apply NoDup_app. split_and!; [done| |apply NoDup_singleton].
    intros x Hx ->%list_elem_of_singleton. done.
  - intros j Hj. rewrite E2, elem_of_app, list_elem_of_singleton. naive_solver.
  - rewrite E2, elem_of_app, list_elem_of_singleton, lookup_delete_eq. naive_solver.
  - rewrite E3. destruct (in_pending_queue n) eqn:Ep; [by apply NoDup_filter|done].
  - intros j Hj. rewrite E3. destruct (in_pending_queue n) eqn:Ep; [rewrite list_elem_of_filter|]; naive_solver.
  - rewrite E3. cbn. destruct (in_pending_queue n) eqn:Ep; [rewrite list_elem_of_filter; naive_solver|].
    rewrite Hp2. split; [|done]. intros (m & Hm & ?). congruence.
  - intros j Hj. by rewrite lookup_delete_ne.
  - rewrite E5, (Hu _ _ Hi), bool_decide_true, Hc, map_size_delete_Some by done.
    enough (size p <> 0)%nat by lia. intros E. apply map_size_empty_inv in E. subst p. by destruct Hp.
  - by rewrite lookup_delete_eq.
  - by rewrite lookup_delete_eq.
  - split; cbn; [done|]. done.
Qed.

Lemma qinv_free_head b q p i rest :
  qinv b q p -> cmd_pool q <> [] -> cmd_free_queue q = i :: rest ->
  p !! i = None /\ cur_cmd q <> Some i /\ exists n, cmd_pool q !! i = Some n /\
  forall f, in_use (f n) = true -> in_pending_queue (f n) = false -> completed (f n) = false ->
    resp_skb (f n) = None ->
    qinv b (on_node i f (q <| cmd_free_queue := rest |>)
              <| cmd_nodes_in_use := cmd_nodes_in_use q + 1 |>) (<[i := Prepared]> p).
Proof.
  intros HI Hne Ef. pose proof HI as [Hr Hf [Hp1 Hp2] Hu Ho Hc Hcur Hn].
  destruct (Hf Hne) as [Hf1 Hf2]. rewrite Ef in Hf1, Hf2. apply NoDup_cons in Hf1 as [Hf0 Hf1].
  destruct (proj1 (Hf2 i) (list_elem_of_here i rest)) as [[n Hi] Hpi].
  assert (Hcu : cur_cmd q <> Some i).
  { intros E. destruct (Hcur i E). congruence. }
  split_and!; [done|done|]. exists n. split; [done|]. intros f Fu Fp Fc Fr.
  apply (qinv_update b b q _ p _ i n f); auto; cbn.
  - intros E. done.
  - intros j Hj. rewrite Ef, elem_of_cons. naive_solver.
  - rewrite lookup_insert_eq. naive_solver.
  - rewrite Hp2, Fp. split; [|done]. intros (m & Hm & Em). replace m with n in * by congruence.
    destruct (Hn i n Hi) as [Hk _]. rewrite Hpi in Hk. destruct Hk as [Hk _]. congruence.
  - intros j Hj. by rewrite lookup_insert_ne.
  - rewrite map_size_insert_None by done. lia.
  - rewrite Fu, lookup_insert_eq. done.
  - by rewrite lookup_insert_eq.
  - split; [intros r; congruence|congruence].
Qed.

Lemma get_free_inv q p al code a r q' :
  qinv (flag ESP_CMD_INIT_DONE a) q p -> get_free_cmd_node al code a q = (r, q') ->
  match r with
  | NodePtr i => p !! i = None /\ cur_cmd q' <> Some i /\ qinv (flag ESP_CMD_INIT_DONE a) q' (<[i := Prepared]> p)
  | _ => qinv (flag ESP_CMD_INIT_DONE a) q' p
  end.
Proof.
  intros HI. unfold get_free_cmd_node. set (b := flag ESP_CMD_INIT_DONE a) in *.
  destruct b eqn:Eb; cbn [negb]; [|by intros [= <- <-]].
  destruct (negb _); [by intros [= <- <-]|].
  destruct (cmd_free_queue q) as [|i rest] eqn:Ef; [by intros [= <- <-]|].
  destruct (qinv_free_head _ _ _ i rest HI (qi_ready _ _ _ HI eq_refl) Ef)
    as (Hpi & Hcu & n & Hi & Hk).
  destruct (proj2 (qi_node _ _ _ HI i n Hi)) as [Hans _].
  pose proof (proj1 (qi_node _ _ _ HI i n Hi)) as Hok. rewrite Hpi in Hok. destruct Hok as (Hip & Hco & Hre).
  destruct al as [room|]; intros [= <- <-].
  - split_and!; [done|done|].
    eapply qinv_same; [apply (Hk (fun n => n <| in_pending_queue := false |> <| in_use := true |>
      <| cmd_skb := Some [] |>)); done|..]; try done. cbn. by rewrite list_alter_alter_eq.
  - rewrite <- (delete_insert_id p i Prepared Hpi).
    apply qinv_recycle; [by apply Hk|by rewrite lookup_insert_eq; eexists|done].
Qed.

Lemma prepare_inv q p it code ln al a r q' :
  qinv (flag ESP_CMD_INIT_DONE a) q p -> prepare_command_request_for_if it code ln al a q = (r, q') ->
  match r with
  | NodePtr i => qinv (flag ESP_CMD_INIT_DONE a) q' (<[i := Prepared]> p)
  | _ => qinv (flag ESP_CMD_INIT_DONE a) q' p
  end.
Proof.
  intros HI. unfold prepare_command_request_for_if.
  repeat (case_match; [by intros [= <- <-]|]).
  destruct (get_free_cmd_node al code a q) as [g q1] eqn:E. pose proof (get_free_inv _ _ _ _ _ _ _ HI E) as Hg.
  destruct g as [e| |i]; [by intros [= <- <-]..|]. destruct Hg as (Hpi & Hcu & Hg).
  destruct (qinv_pool _ _ _ i Hg) as (n & Hi & En & _); [by rewrite lookup_insert_eq; eexists|].
  destruct (qi_node _ _ _ Hg i n Hi) as [Hok Hans]. rewrite lookup_insert_eq in Hok.
  destruct Hok as (Hip & Hco & Hre & _).
  set (q2 := on_node i _ _).
  assert (KH2 : forall f, (forall m, completed (f m) = completed m /\ resp_skb (f m) = resp_skb m /\
      in_use (f m) = in_use m /\ in_pending_queue (f m) = in_pending_queue m) ->
    qinv (flag ESP_CMD_INIT_DONE a) (on_node i f q2) (<[i := Prepared]> p)).
  { intros f Hf. destruct (Hf (n <| cmd_code := code |> <| cmd_seq := next_seq (next_cmd_seq q1) |>
      <| completed := false |> <| result := 0 |>)) as (F1 & F2 & F3 & F4).
    eapply qinv_same; [apply (qinv_touch _ q1 _ i n (fun m => f (m <| cmd_code := code |>
      <| cmd_seq := next_seq (next_cmd_seq q1) |> <| completed := false |> <| result := 0 |>)))|..]; try done.
    - by rewrite lookup_insert_eq; eexists.
    - rewrite lookup_insert_eq. unfold phase_ok. cbv beta. by rewrite F1, F2, F4.
    - unfold answer_ok. cbv beta. rewrite F1, F2. cbn. by rewrite Hre.
    - cbn. by rewrite list_alter_alter_eq. }
  assert (KH3 : qinv (flag ESP_CMD_INIT_DONE a) q2 (<[i := Prepared]> p)).
  { eapply qinv_same; [apply (KH2 id); done|..]; try done. symmetry. by apply list_alter_id. }
  assert (KH4 : qinv (flag ESP_CMD_INIT_DONE a) (recycle_cmd_node i q2) p).
  { rewrite <- (delete_insert_id p i Prepared Hpi).
    apply qinv_recycle; [done|by rewrite lookup_insert_eq; eexists|done]. }
  repeat case_match; intros [= <- <-]; auto.
Qed.

Lemma queue_inv b q p i hi j a r q' :
  qinv b q p -> p !! i = Some Prepared -> queue_cmd_node i hi j a q = (r, q') -> r <= 0 /\
  qinv b q' (<[i := Queued]> p).
Proof.
  intros HI Hpi. assert (Hsi : is_Some (p !! i)) by by eexists.
  destruct (qinv_pool _ _ _ _ HI Hsi) as (n & Hi & En & Hfree).
  destruct (qi_node _ _ _ HI i n Hi) as [Hok Hans]. rewrite Hpi in Hok. destruct Hok as (Hip & Hco & Hre & Hcu).
  unfold queue_cmd_node. rewrite En. destruct (negb _); intros [= <- <-].
  - split; [done|]. apply (qinv_on_node _ _ _ _ n); try done; cbn.
    + rewrite Hip. auto.
    + split; cbn; [congruence|done].
  - split; [done|]. pose proof HI as [Hr Hf [Hp1 Hp2] Hu Ho Hc Hcur Hn].
    destruct Hf as [Hf1 Hf2]; [by intros E; rewrite E in Hi|].
    assert (Hnp : i ∉ cmd_pending_queue q).
    { rewrite Hp2. intros (m & Hm & Em). congruence. }
    set (q1 := on_node i (fun n => n <| queued_at := j |>) q).
    set (q2 := on_node i (fun n => n <| in_pending_queue := true |>)
      (q1 <| cmd_pending_queue := if hi then i :: cmd_pending_queue q else cmd_pending_queue q ++ [i] |>)).
    assert (H2 : qinv b q2 (<[i := Queued]> p)).
    { apply (qinv_update b b q _ p _ i n (fun n => n <| queued_at := j |> <| in_pending_queue := true |>));
        auto; cbn.
      - subst q2. cbn. by rewrite list_alter_alter_eq.
      - by intros.
      - rewrite Hf2, lookup_insert_eq. naive_solver.
      - destruct hi; [by constructor|]. apply NoDup_app. split_and!; [done| |apply NoDup_singleton].
        intros x Hx ->%list_elem_of_singleton. done.
      - intros k Hk. destruct hi; rewrite ?elem_of_cons, ?elem_of_app, ?list_elem_of_singleton; naive_solver.
      - destruct hi; rewrite ?elem_of_cons, ?elem_of_app, ?list_elem_of_singleton; naive_solver.
      - intros k Hk. by rewrite lookup_insert_ne.
      - by rewrite size_insert_some.
      - rewrite (Hu _ _ Hi), lookup_insert_eq. by rewrite !bool_decide_true.
      - rewrite lookup_insert_eq. cbn. auto. }
    change (qinv b (queue_cmd_work q2) (<[i := Queued]> p)). unfold queue_cmd_work.
    destruct (cmd_wq q2); [|done]. by eapply qinv_same.
Qed.

Lemma pending_queued b q p i n :
  qinv b q p -> cmd_pool q !! i = Some n -> in_pending_queue n = true ->
  p !! i = Some Queued /\ cur_cmd q <> Some i /\ completed n = false /\ resp_skb n = None.
Proof.
  intros HI Hi Hpe. destruct (qi_node _ _ _ HI i n Hi) as [Hok [Hr _]].
  destruct (p !! i) as [[| |r]|] eqn:E; cbn in Hok; try (exfalso; naive_solver congruence).
  destruct Hok as [Hok _]. destruct (Hok Hpe) as [? Hc]. split_and!; try done.
  destruct (resp_skb n) as [r|]; [|done]. destruct (Hr r eq_refl). congruence.
Qed.

Lemma unlink_complete b q p i n e x :
  qinv b q p -> cmd_pool q !! i = Some n -> in_pending_queue n = true -> e <> 0 ->
  x = Queued \/ x = Woken 0 ->
  qinv b (on_node i (complete e) (unlink_pending i q)) (<[i := x]> p).
Proof.
  intros HI Hi Hpe He Hx. destruct (pending_queued _ _ _ _ _ HI Hi Hpe) as (Hq & Hcu & Hc & Hr).
  eapply qinv_same; [apply (qinv_unlink b q p i n
    (fun n => complete e (n <| in_pending_queue := false |>)) (cur_cmd q) x); try done|..]; try done.
  - destruct Hx as [->| ->]; cbn; [|done]. split; [done|]. by right; right.
  - split; cbn; [congruence|done].
  - cbn. by rewrite list_alter_alter_eq.
Qed.

Lemma pending_head b q p i rest :
  qinv b q p -> cmd_pending_queue q = i :: rest ->
  exists n, cmd_pool q !! i = Some n /\ in_pending_queue n = true /\ node i q = n.
Proof.
  intros HI E. destruct (proj2 (qi_pending _ _ _ HI) i) as [H _]. destruct H as (n & Hi & Hn).
  { rewrite E. apply list_elem_of_here. }
  exists n. split_and!; [done|done|by apply node_lookup].
Qed.

(** The pool's fields of a node that unlinking leaves alone. *)
Lemma node_unlink i q n : cmd_pool q !! i = Some n -> node i (unlink_pending i q) = n <| in_pending_queue := false |>.
Proof. intros Hi. apply node_lookup. unfold unlink_pending. rewrite pool_on_node, decide_True by done. cbn. by rewrite Hi. Qed.

Lemma work_inv w p :
  qinv (flag ESP_CMD_INIT_DONE (adp w)) (cq w) p ->
  qinv (flag ESP_CMD_INIT_DONE (adp (esp_cmd_work be addr send w))) (cq (esp_cmd_work be addr send w)) p.
Proof.
  intros HI0. unfold esp_cmd_work. set (w1 := on_cq _ w).
  assert (HI : qinv (flag ESP_CMD_INIT_DONE (adp w1)) (cq w1) p) by by eapply qinv_same.
  clearbody w1. clear HI0. set (b := flag ESP_CMD_INIT_DONE (adp w1)) in *.
  destruct (negb _); [done|]. destruct (negb _); [done|].
  destruct (cur_cmd (cq w1)) eqn:Ecur; [done|].
  destruct (cmd_pending_queue (cq w1)) as [|i rest] eqn:Epe; [done|].
  destruct (pending_head _ _ _ _ _ HI Epe) as (n & Hi & Hn & En).
  destruct (pending_queued _ _ _ _ _ HI Hi Hn) as (Hq & Hcu & Hc & Hr).
  assert (Hfail : forall e, e <> 0 ->
    qinv b (on_node i (complete e) (unlink_pending i (cq w1))) p).
  { intros e He. rewrite <- (insert_id p i Queued Hq). by eapply unlink_complete; eauto. }
  rewrite (node_unlink _ _ _ Hi).
  destruct (negb (esp_cmd_is_admitted _ _)); [by apply Hfail|].
  change (cmd_skb (n <| in_pending_queue := false |>)) with (cmd_skb n).
  change (cmd_code (n <| in_pending_queue := false |>)) with (cmd_code n).
  destruct (cmd_skb n) as [skb|] eqn:Eskb; [|by apply Hfail].
  destruct (_ =? 0); [by apply Hfail|].
  match goal with |- context [send ?x ?s] => pose proof (send_keeps x s) as Hsend; destruct (send x s) as [ret s'] end.
  cbn [snd] in Hsend. cbv beta iota zeta.
  match goal with |- qinv _ (cq (update cs _ (update cq (fun _ => ?Q) _))) _ =>
    change (qinv (flag ESP_CMD_INIT_DONE (ad s')) Q p) end.
  rewrite Hsend. fold b. rewrite <- (insert_id p i Queued Hq). clear Hsend.
  assert (Hgo : forall g, (forall m, in_use (g m) = in_use m /\ in_pending_queue (g m) = in_pending_queue m) ->
    (forall m, completed m = false -> resp_skb m = None -> answer_ok (g m)) ->
    qinv b (on_node i (fun m => g (m <| in_pending_queue := false |> <| sent_at := jiffies (cs w1) |>
      <| cmd_skb := None |>)) (cq w1 <| cmd_pending_queue := filter (fun j => j <> i) (cmd_pending_queue (cq w1)) |>
      <| cur_cmd := Some i |>)) (<[i := Queued]> p)).
  { intros g Hg1 Hg2. apply (qinv_unlink b (cq w1) p i n); try done.
    - intros j Hj. rewrite Ecur. split; congruence.
    - by rewrite (proj1 (Hg1 _)).
    - by rewrite (proj2 (Hg1 _)).
    - split; [by rewrite (proj2 (Hg1 _))|by right; left].
    - by apply Hg2. }
  destruct (negb (ret =? 0)) eqn:E; bool_hyps.
  - eapply qinv_same; [apply (Hgo (complete ret)); [done|]|..]; try done.
    + intros m Hm1 Hm2. split; cbn; congruence.
    + cbn. by rewrite !list_alter_alter_eq.
  - eapply qinv_same; [apply (Hgo id); [done|]|..]; try done.
    + intros m Hm1 Hm2. split; cbn; congruence.
    + cbn. by rewrite !list_alter_alter_eq.
Qed.

Lemma complete_touch b q p i n f :
  qinv b q p -> cmd_pool q !! i = Some n -> cur_cmd q = Some i -> completed n = false ->
  in_use (f n) = in_use n -> in_pending_queue (f n) = in_pending_queue n -> answer_ok (f n) ->
  qinv b (on_node i f q) p.
Proof.
  intros HI Hi Hcu Hc Eu Ep Ha. apply (qinv_touch _ _ _ _ n); try done; [by eapply qi_cur|].
  destruct (qi_node _ _ _ HI i n Hi) as [Hok _]. destruct (p !! i) as [[| |r]|] eqn:E; cbn in *; rewrite ?Ep.
  - naive_solver.
  - rewrite Hcu in *. split; [naive_solver|auto].
  - destruct Hok as (? & ? & Hr). split_and!; [done|done|]. intros Hpos. specialize (Hr Hpos). congruence.
  - destruct (qi_cur _ _ _ HI i Hcu). congruence.
Qed.

(** A response or a failure only ever reaches the current, uncompleted command. *)
Lemma resp_inv b q p skb a r q' :
  qinv b q p -> process_cmd_resp be skb a q = (r, q') -> qinv b q' p.
Proof.
  intros HI. unfold process_cmd_resp. do 3 (case_match; [by intros [= <- <-]|]). cbv zeta.
  generalize (normalise_resp be skb). intros m.
  destruct (cur_cmd q) as [i|] eqn:Ecur; [|by intros [= <- <-]].
  destruct (qinv_pool _ _ _ i HI (qi_cur _ _ _ HI i Ecur)) as (n & Hi & -> & _).
  destruct (_ || _) eqn:Em; [by intros [= <- <-]|]. apply orb_false_iff in Em as [E1 E2]. bool_hyps.
  destruct (completed n) eqn:Ec; cbn [orb]; [by intros [= <- <-]|].
  destruct (bool_decide _); intros [= <- <-]; [done|].
  eapply qinv_same; [eapply (complete_touch _ q p i n); try done|..]; try done.
  - by destruct (_ && _).
  - by destruct (_ && _).
  - split; [|by eexists]. cbn. intros r [= <-]. by destruct (_ && _).
Qed.

Lemma transport_failed_inv b q p code sq e : qinv b q p -> qinv b (esp_cmd_transport_failed code sq e q) p.
Proof.
  intros HI. unfold esp_cmd_transport_failed. destruct (cur_cmd q) as [i|] eqn:Ecur; [|done].
  destruct (qinv_pool _ _ _ i HI (qi_cur _ _ _ HI i Ecur)) as (n & Hi & -> & _).
  destruct (_ || _); [done|]. destruct (completed n) eqn:Ec; [done|]. cbn [orb].
  destruct (bool_decide _) eqn:Er; [done|]. apply bool_decide_eq_false in Er.
  apply (complete_touch _ q p i n); try done. split; cbn.
  - intros r Hr. destruct Er. by eexists.
  - intros _. destruct (e =? 0) eqn:E; bool_hyps; done.
Qed.

Lemma restart_firmware_flag f s :
  transport_owned f = false -> f <> ESP_FW_RECOVERY_EXHAUSTED -> f <> ESP_FW_RECOVERY_PENDING ->
  flag f (ad (restart_firmware ops m2j s)) = flag f (ad s).
Proof.
  intros Ho Hx Hp. unfold restart_firmware. rewrite restart_keeps by done.
  by apply (ask_flags _ _ _ (schedule_recovery_asks m2j ESP_FW_RECOVERY_QUIET_MS false true s)).
Qed.

Lemma guard_inv w p i r w' :
  qinv (flag ESP_CMD_INIT_DONE (adp w)) (cq w) p -> p !! i = Some Queued ->
  esp_cmd_wait_event_guard ops m2j i w = (r, w') ->
  0 <= r /\ qinv (flag ESP_CMD_INIT_DONE (adp w')) (cq w') (<[i := Woken r]> p).
Proof.
  intros HI Hp. destruct (qinv_pool _ _ _ i HI) as (n & Hi & En & _); [by eexists|].
  destruct (qi_node _ _ _ HI i n Hi) as [Hok Hans]. rewrite Hp in Hok. destruct Hok as [Hok1 Hok2].
  unfold esp_cmd_wait_event_guard. rewrite En.
  destruct (completed n) eqn:Ec.
  { intros [= <- <-]. split; [done|].
    assert (Hnp : in_pending_queue n = false).
    { destruct (in_pending_queue n) eqn:E; [|done]. by destruct (Hok1 eq_refl). }
    eapply qinv_same; [apply (qinv_on_node _ _ _ _ n id (Woken 1) HI Hi); try done; by eexists|..]; try done.
    cbn. symmetry. by apply list_alter_id. }
  assert (Hgo : forall w1, flag ESP_CMD_INIT_DONE (adp w1) = flag ESP_CMD_INIT_DONE (adp w) ->
      qinv (flag ESP_CMD_INIT_DONE (adp w)) (cq w1) (<[i := Woken 0]> p) ->
      forall b : bool, qinv (flag ESP_CMD_INIT_DONE (adp (if b then on_cs (restart_firmware ops m2j) w1 else w1)))
        (cq (if b then on_cs (restart_firmware ops m2j) w1 else w1)) (<[i := Woken 0]> p)).
  { intros w1 E H1 [|]; [|by rewrite E].
    change (adp (on_cs _ w1)) with (ad (restart_firmware ops m2j (cs w1))).
    rewrite restart_firmware_flag by done. by rewrite E. }
  set (w1 := if in_pending_queue n then _ else w).
  assert (H1 : qinv (flag ESP_CMD_INIT_DONE (adp w)) (cq w1) (<[i := Woken 0]> p)).
  { subst w1. destruct (in_pending_queue n) eqn:Epe.
    - apply (unlink_complete _ _ _ _ n); try done. by right.
    - eapply qinv_same; [apply (qinv_on_node _ _ _ _ n id (Woken 0) HI Hi); try done; by eexists|..]; try done.
      cbn. symmetry. by apply list_alter_id. }
  assert (E1 : flag ESP_CMD_INIT_DONE (adp w1) = flag ESP_CMD_INIT_DONE (adp w)).
  { subst w1. by case_match. }
  clearbody w1. specialize (Hgo w1 E1 H1). intros H. split.
  - destruct (_ && _) in H; by simplify_eq.
  - destruct (_ && _) in H; simplify_eq; [apply (Hgo true)|apply (Hgo false)].
Qed.

Lemma settle_spec b q p i r r' q' :
  qinv b q p -> p !! i = Some (Woken r) -> settle_cmd i r q = (r', q') ->
  qinv b q' p /\ cur_cmd q' <> Some i /\ cmd_code (node i q') = cmd_code (node i q) /\
  cmd_seq (node i q') = cmd_seq (node i q) /\ resp_skb (node i q') = resp_skb (node i q) /\
  sent_at (node i q') = sent_at (node i q) /\
  (r' = 0 -> is_Some (resp_skb (node i q))).
Proof.
  intros HI Hp. destruct (qinv_pool _ _ _ i HI) as (n & Hi & En & Hfree); [by eexists|].
  destruct (qi_node _ _ _ HI i n Hi) as [Hok [Ha1 Ha2]]. rewrite Hp in Hok. destruct Hok as (Hip & Hr0 & Hr1).
  unfold settle_cmd. rewrite En, Hip. rewrite andb_false_r.
  set (q1 := if bool_decide (cur_cmd q = Some i) then _ else q).
  assert (H1 : qinv b q1 p /\ cur_cmd q1 <> Some i /\ cmd_pool q1 = cmd_pool q).
  { subst q1. case_bool_decide as Hc; [|done]. split_and!; [|done|done].
    pose proof HI as [Hr Hf [Hp1 Hp2] Hu Ho Hcn Hcur Hn].
    destruct Hf as [Hf1 Hf2]; [by intros E; rewrite E in Hi|].
    apply (qinv_update b b q _ p _ i n id); auto; cbn.
    - symmetry. by apply list_alter_id.
    - intros j Hj. rewrite Hc. split; congruence.
    - rewrite Hf2, Hp. naive_solver.
    - rewrite Hp2, Hip. split; [|done]. intros (m & Hm & ?). congruence.
    - by rewrite Hp.
    - done. }
  destruct H1 as (H1 & Hc1 & Epool). clearbody q1.
  assert (En1 : node i q1 = n) by (unfold node; rewrite Epool, Hi; done).
  set (r1 := if (r <=? 0) && completed n then 1 else r).
  assert (Hr1' : (0 < r1 /\ completed n = true) \/ (r1 = 0 /\ completed n = false)).
  { subst r1. destruct (completed n), (r <=? 0) eqn:E; cbn; bool_hyps; try (left; split; [lia|done]);
      try (right; split; [lia|done]). }
  destruct Hr1' as [[Hpos Hc]|[-> Hc]].
  - rewrite (proj2 (Z.eqb_neq _ _)), (proj2 (Z.ltb_lt _ _)) by lia. intros [= <- <-].
    rewrite En1. split_and!; try done. intros E. auto.
  - cbn. intros [= <- <-].
    assert (Enn : node i (on_node i (complete (- ETIMEDOUT)) q1) = complete (- ETIMEDOUT) n).
    { apply node_lookup. by rewrite pool_on_node, decide_True, Epool, Hi. }
    rewrite Enn. split_and!; try done.
    apply (qinv_touch _ q1 _ i n); try done; [by rewrite Epool|by rewrite Hp|].
    split; cbn; [|done]. intros x Hx. by destruct (Ha1 x Hx).
Qed.

Lemma decode_radio_spec n a r a' :
  decode_radio_service n a = (r, a') -> state_flags a' = state_flags a /\ (r = 0 -> is_Some (resp_skb n)).
Proof.
  unfold decode_radio_service. destruct (resp_skb n); repeat case_match; intros [= <- <-]; done || by split.
Qed.

Lemma decode_resp_cq n r w r' w' :
  decode_resp be n r w = (r', w') ->
  cq w' = cq w /\ state_flags (adp w') = state_flags (adp w) /\ (r' = 0 -> r = 0 /\ is_Some (resp_skb n)).
Proof.
  unfold decode_resp. destruct (decode_radio_service n (adp w)) as [rr ra] eqn:E.
  destruct (decode_radio_spec _ _ _ _ E) as [E1 E2].
  unfold decode_common_resp, decode_monitor_resp, decode_mac_addr,
    decode_disconnect_resp, decode_tx_power, decode_rssi, handle_mgmt_tx_done.
  destruct (resp_skb n) as [m|]; repeat case_match; intros [= <- <-]; bool_hyps; cbn; split_and!; try done;
    intros; try (split; [done|by eexists]); try lia; try (split; [done|by apply E2]).
Qed.

Lemma end_inv w p i r r' w' :
  qinv (flag ESP_CMD_INIT_DONE (adp w)) (cq w) p -> p !! i = Some (Woken r) ->
  wait_and_decode_end ops m2j be i r w = (r', w') ->
  qinv (flag ESP_CMD_INIT_DONE (adp w')) (cq w') (delete i p) /\
  (r' = 0 -> is_Some (resp_skb (node i (cq w)))).
Proof.
  intros HI Hp. unfold wait_and_decode_end.
  destruct (settle_cmd i r (cq w)) as [r1 q1] eqn:Es.
  destruct (settle_spec _ _ _ _ _ _ _ HI Hp Es) as (H1 & Hc1 & Ecode & Eseq & Eresp & Esent & Hsome).
  set (n := node i q1) in *.
  set (w1 := if (_ && _) : bool then _ else w <| cq := q1 |>).
  assert (Hw1 : cq w1 = q1 /\ flag ESP_CMD_INIT_DONE (adp w1) = flag ESP_CMD_INIT_DONE (adp w)).
  { subst w1. destruct (_ && _); [|done]. split; [done|].
    change (adp (on_cs _ (w <| cq := q1 |>))) with (ad (restart_firmware ops m2j (cs w))).
    by rewrite restart_firmware_flag. }
  destruct Hw1 as [Eq1 Ef1]. clearbody w1.
  destruct (decode_resp be n _ w1) as [r2 w2] eqn:Ed.
  destruct (decode_resp_cq _ _ _ _ _ Ed) as (Eq2 & Ef2 & Hr2).
  intros [= <- <-]. split.
  - assert (H2 : qinv (flag ESP_CMD_INIT_DONE (adp w)) (recycle_cmd_node i (cq w2)) (delete i p)).
    { rewrite Eq2, Eq1. apply qinv_recycle; [done|by eexists|done]. }
    assert (Ef : flag ESP_CMD_INIT_DONE (adp w2) = flag ESP_CMD_INIT_DONE (adp w)).
    { rewrite <- Ef1. by apply flag_eq. }
    change (adp (on_cq (recycle_cmd_node i) w2)) with (adp w2).
    destruct (flag ESP_CMD_INIT_DONE (adp w2)) eqn:Efl; cbn; rewrite ?Efl; rewrite <- Ef in H2;
      [|exact H2]. unfold queue_cmd_work. destruct (cmd_wq _); [|exact H2]. by eapply qinv_same.
  - intros E. apply Hr2 in E as [_ E]. by rewrite Eresp in E.
Qed.

Lemma filter_ne (i : nat) (l : list nat) : i ∉ l -> filter (fun j => j <> i) l = l.
Proof.
  induction l as [|j l IH]; [done|]. rewrite not_elem_of_cons. intros [Hj Hl].
  rewrite filter_cons_True by done. by rewrite IH.
Qed.

Lemma abort_pending b q p l :
  qinv b q p -> cmd_pending_queue q = l ->
  qinv b (foldl (fun q i => on_node i abort_node q) (q <| cmd_pending_queue := [] |>) l) p.
Proof.
  revert q. induction l as [|i l IH]; intros q HI El; cbn [foldl].
  { by eapply qinv_same. }
  destruct (pending_head _ _ _ _ _ HI El) as (n & Hi & Hn & _).
  destruct (pending_queued _ _ _ _ _ HI Hi Hn) as (Hq & _).
  pose proof (proj1 (qi_pending _ _ _ HI)) as Hnd. rewrite El in Hnd. apply NoDup_cons in Hnd as [Hil _].
  set (q1 := on_node i (complete (- ESHUTDOWN)) (unlink_pending i q)).
  assert (H1 : qinv b q1 p).
  { rewrite <- (insert_id p i Queued Hq). apply (unlink_complete _ _ _ _ n); auto. }
  assert (E1 : cmd_pending_queue q1 = l).
  { cbn. rewrite El, filter_cons_False by (intros H; by apply H).
    by apply filter_ne. }
  replace (on_node i abort_node (q <| cmd_pending_queue := [] |>)) with (q1 <| cmd_pending_queue := [] |>); [by apply IH|].
  unfold q1, on_node, unlink_pending. destruct q; cbn. by rewrite list_alter_alter_eq.
Qed.

Lemma abort_inv b q p a : qinv b q p -> qinv b (esp_cmd_abort_waiters a q) p.
Proof.
  intros HI. unfold esp_cmd_abort_waiters. destruct (_ && _); [done|]. cbv zeta.
  set (q1 := match cur_cmd q with Some i => _ | None => q end).
  assert (H1 : qinv b q1 p).
  { subst q1. destruct (cur_cmd q) as [i|] eqn:Ecur; [|done].
    destruct (qinv_pool _ _ _ i HI (qi_cur _ _ _ HI i Ecur)) as (n & Hi & -> & _).
    destruct (completed n) eqn:Ec; [done|]. apply (complete_touch _ q p i n); try done.
    split; [|done]. intros r Hr. destruct (qi_node _ _ _ HI i n Hi) as [_ [Ha _]]. destruct (Ha r Hr). congruence. }
  by apply abort_pending.
Qed.

Lemma qinv_unready b q p : qinv b q p -> qinv false q p.
Proof. by intros []; constructor. Qed.

Lemma qinv_idle b q p : qinv b q p -> cmd_pool q = [] \/ cmd_nodes_in_use q = 0 -> p = ∅.
Proof.
  intros HI [E|E].
  - apply map_empty. intros i. apply eq_None_not_Some. intros H. destruct (qi_owned _ _ _ HI i H) as [n Hn].
    by rewrite E in Hn.
  - rewrite (qi_count _ _ _ HI) in E. apply map_size_empty_inv. lia.
Qed.

(** An unallocated pool. *)
Lemma qinv_no_pool q :
  cmd_pool q = [] -> cmd_pending_queue q = [] -> cur_cmd q = None -> cmd_nodes_in_use q = 0 -> qinv false q ∅.
Proof.
  intros E1 E2 E3 E4. constructor; rewrite ?E1, ?E2, ?E3, ?E4; try done.
  - split; [constructor|]. intros i. split; [by intros ?%elem_of_nil|by intros (n & ? & _)].
  - by intros i [x Hx].
Qed.

Lemma teardown_end_inv q p r q' :
  qinv false q p -> esp_commands_teardown_end q = (r, q') -> qinv false q' p.
Proof.
  intros HI. unfold esp_commands_teardown_end. destruct (_ =? 0) eqn:E; intros [= <- <-]; [|done]. bool_hyps.
  pose proof (qinv_idle _ _ _ HI (or_intror E)) as ->. apply qinv_no_pool; try done; cbn.
  - destruct (cmd_pending_queue q) as [|i l] eqn:El; [done|].
    destruct (pending_head _ _ _ _ _ HI El) as (n & Hi & Hn & _).
    destruct (pending_queued _ _ _ _ _ HI Hi Hn). done.
  - destruct (cur_cmd q) eqn:Ec; [|done]. by destruct (qi_cur _ _ _ HI _ Ec).
Qed.

Lemma qinv_fresh k :
  (k <> 0)%nat -> qinv true (mk_cmdq (replicate k node_zero) (seq 0 k) [] None 0 0 0 0 true false) ∅.
Proof.
  intros Hk. constructor; cbn -[seq replicate].
  - intros _. by destruct k.
  - intros _. split; [apply NoDup_seq|]. intros i.
    rewrite elem_of_seq, lookup_empty, lookup_lt_is_Some, length_replicate. split; [intros H; split; [lia|done]|intros []; lia].
  - split; [constructor|]. intros i. split; [by intros ?%elem_of_nil|].
    intros (n & [-> _]%lookup_replicate & ?). done.
  - intros i n [-> _]%lookup_replicate. done.
  - by intros i [x Hx].
  - done.
  - done.
  - intros i n [-> _]%lookup_replicate. rewrite lookup_empty. split; [done|]. split; cbn; done.
Qed.

Lemma setup_inv q p wq_ok al_ok a r a' q' :
  qinv false q p -> flag ESP_CMD_INIT_DONE a = false ->
  esp_commands_setup wq_ok al_ok a q = (r, (a', q')) -> qinv (flag ESP_CMD_INIT_DONE a') q' p.
Proof.
  intros HI Ha. unfold esp_commands_setup. destruct (_ && _) eqn:Ei.
  { intros [= <- <- <-]. by rewrite Ha. }
  assert (p = ∅) as ->.
  { apply (qinv_idle _ _ _ HI). apply andb_false_iff in Ei as [Ei|Ei]; bool_hyps; [left|by right].
    by apply bool_decide_eq_true in Ei. }
  destruct wq_ok; [|intros [= <- <- <-]; rewrite Ha; apply qinv_no_pool; try done; cbn; by case_bool_decide].
  destruct al_ok; [|intros [= <- <- <-]; rewrite Ha; apply qinv_no_pool; try done; cbn; by case_bool_decide].
  set (q0 := _ <| cmd_wq := true |> <| cmd_work_queued := false |>).
  assert (E : alloc_esp_cmd_pool true q0 = (0, mk_cmdq (replicate ESP_NUM_OF_CMD_NODES node_zero)
    (seq 0 ESP_NUM_OF_CMD_NODES) [] None 0 0 0 0 true false)) by (vm_compute; reflexivity).
  rewrite E. cbn [negb Z.eqb]. intros [= <- <- <-].
  rewrite flag_set_flag, bool_decide_true by done. by apply (qinv_fresh ESP_NUM_OF_CMD_NODES).
Qed.

Lemma fill_inv b q p i skb ck fr fl dw :
  qinv b q p -> p !! i = Some Prepared ->
  qinv b (on_node i (fun n => n <| cmd_skb := Some skb |> <| cookie := ck |> <| mgmt_frame := fr |>
    <| mgmt_frame_len := fl |> <| mgmt_dont_wait_for_ack := dw |>) q) p.
Proof.
  intros HI Hp. destruct (qinv_pool _ _ _ i HI) as (n & Hi & _); [by eexists|].
  destruct (qi_node _ _ _ HI i n Hi) as [Hok Hans]. by apply (qinv_touch _ q p i n).
Qed.

Lemma cstep_inv c c' : CInv c -> cstep c c' -> CInv c'.
Proof.
  intros HI Hs. unfold CInv in *. destruct Hs; cbn [cw ph] in *.
  - apply (prepare_inv _ _ _ _ _ _ _ _ _ HI H).
  - pose proof (prepare_inv _ _ _ _ _ _ _ _ _ HI H) as Hi. destruct r; try exact Hi. by destruct (H0 i).
  - by apply fill_inv.
  - apply qinv_recycle; [done|by eexists|]. destruct (qinv_pool _ _ _ i HI) as (n & Hi & _); [by eexists|].
    destruct (qi_node _ _ _ HI i n Hi) as [Hok _]. rewrite H in Hok. by destruct Hok as (_ & _ & _ & ?).
  - by destruct (queue_inv _ _ _ _ _ _ _ _ _ HI H H0) as [_ Hq].
  - by apply work_inv.
  - exact (resp_inv _ _ _ _ _ _ _ HI H).
  - by apply transport_failed_inv.
  - by destruct (guard_inv _ _ _ _ _ HI H H0) as [_ Hq].
  - by destruct (end_inv _ _ _ _ _ _ HI H H0) as [Hq _].
  - by apply abort_inv.
  - unfold esp_commands_teardown_begin in H. destruct (negb _); [done|]. injection H as <- <-. cbn.
    rewrite flag_clear_flag, bool_decide_true, andb_false_r by done.
    eapply qinv_same; [eapply qinv_unready, abort_inv, HI|..]; done.
  - rewrite H in *. cbn. rewrite H. by eapply teardown_end_inv.
  - rewrite H in HI. by eapply setup_inv.
  - cbn. by rewrite H.
Qed.

Lemma creach_inv c : creach c -> CInv c.
Proof.
  induction 1 as [w E1 E2|c c' Hc IH Hs]; [|by eapply cstep_inv].
  unfold CInv. cbn [cw ph]. rewrite E1, E2. by apply qinv_no_pool.
Qed.

(** *** The time-out path *)

Lemma restart_firmware_requests s :
  unloading_or_removing (ad s) = false ->
  flag ESP_FW_RECOVERY_PENDING (ad (restart_firmware ops m2j s)) = true /\ timer (restart_firmware ops m2j s) <> None.
Proof.
  intros Hu. unfold restart_firmware, esp_schedule_fw_reset_recovery.
  pose proof (schedule_recovery_spec m2j ESP_FW_RECOVERY_QUIET_MS false true s Hu) as Hs.
  destruct (restart_request m2j (esp_schedule_recovery ops m2j ESP_FW_RECOVERY_QUIET_MS false true s)) as [Hp Ht].
  split; [apply Hp|apply Ht, (sch_timer _ _ Hs)]. by rewrite (sch_flags _ _ Hs).
Qed.

Lemma restart_firmware_again s :
  flag ESP_FW_RECOVERY_PENDING (ad s) = true -> timer s <> None ->
  flag ESP_FW_RECOVERY_PENDING (ad (restart_firmware ops m2j s)) = true /\ timer (restart_firmware ops m2j s) <> None.
Proof.
  intros Hs Ht. destruct (unloading_or_removing (ad s)) eqn:Hu; [|by apply restart_firmware_requests].
  unfold restart_firmware, esp_schedule_fw_reset_recovery, esp_schedule_recovery. rewrite Hu.
  destruct (restart_request m2j s) as [Hp Hk]. auto.
Qed.

Lemma unwanted_or_removing a : restart_unwanted a = false -> unloading_or_removing a = false.
Proof. unfold restart_unwanted, unloading_or_removing. by do 2 (destruct (flag _ a)). Qed.

(** An uncompleted command's caller leaves with [- ETIMEDOUT]. *)
Lemma timeout_settles i q n :
  cmd_pool q !! i = Some n -> completed n = false ->
  let q1 := if in_pending_queue n then on_node i (complete (- ETIMEDOUT)) (unlink_pending i q) else q in
  (settle_cmd i 0 q1).1 = - ETIMEDOUT /\ is_Some (cmd_pool (settle_cmd i 0 q1).2 !! i) /\
  cmd_code (node i (settle_cmd i 0 q1).2) = cmd_code n /\ sent_at (node i (settle_cmd i 0 q1).2) = sent_at n.
Proof.
  intros Hi Hc. cbn zeta. set (q1 := if in_pending_queue n then _ else q).
  assert (exists m, cmd_pool q1 !! i = Some m /\ node i q1 = m /\ cmd_code m = cmd_code n /\ sent_at m = sent_at n /\
    in_pending_queue m = false /\ (completed m = true -> result m = - ETIMEDOUT)) as (m & Hm & En & E1 & E2 & E3 & E4).
  { subst q1. destruct (in_pending_queue n) eqn:Ep.
    - exists (complete (- ETIMEDOUT) (n <| in_pending_queue := false |>)).
      assert (Hl : cmd_pool (on_node i (complete (- ETIMEDOUT)) (unlink_pending i q)) !! i =
        Some (complete (- ETIMEDOUT) (n <| in_pending_queue := false |>))).
      { rewrite pool_on_node, decide_True by done. unfold unlink_pending. rewrite pool_on_node, decide_True by done.
        cbn. by rewrite Hi. }
      split_and!; try done. by apply node_lookup.
    - exists n. split_and!; try done; [by apply node_lookup|congruence]. }
  clearbody q1. unfold settle_cmd. rewrite En, E3, andb_false_r.
  set (q2 := if bool_decide (cur_cmd q1 = Some i) then _ else q1).
  assert (E5 : cmd_pool q2 = cmd_pool q1) by (subst q2; by case_bool_decide).
  assert (E6 : node i q2 = m) by (unfold node; by rewrite E5, Hm). clearbody q2.
  destruct (completed m) eqn:Ecm; cbn.
  - rewrite E5, E6. split_and!; auto.
  - assert (Hl : cmd_pool (on_node i (complete (- ETIMEDOUT)) q2) !! i = Some (complete (- ETIMEDOUT) m)).
    { rewrite pool_on_node, decide_True by done. by rewrite E5, Hm. }
    rewrite (node_lookup _ _ _ Hl). split_and!; try done.
Qed.

(** The decoders do not look at a response when the command already failed. *)
Lemma decode_resp_failed n r w : r <> 0 -> (decode_resp be n r w).1 <> 0 /\ cs (decode_resp be n r w).2 = cs w /\
  cq (decode_resp be n r w).2 = cq w.
Proof.
  intros Hr. unfold decode_resp. destruct (r =? 0) eqn:E; bool_hyps; [done|].
  repeat case_match; done.
Qed.

(** C25: The pool never loses or shares a node.  In every reachable state of the
    command queue - callers, worker, receive path, abort, teardown and set-up
    interleaved in any order - a node is on the free list exactly when no caller
    owns it, once; [cmd_nodes_in_use] counts the owners; free and owned nodes add
    up to the pool; the pending queue holds each waiting command once, and none of
    them is the current or a completed command; and a caller that waits is on the
    pending queue, is the current command, or is already completed, so it is never
    forgotten. *)
Theorem cmd_nodes_wellformed c :
  creach c -> let q := cq (cw c) in
  cmd_nodes_in_use q = Z.of_nat (size (ph c)) /\
  (cmd_pool q <> [] -> NoDup (cmd_free_queue q) /\
     (forall i, i ∈ cmd_free_queue q <-> (i < length (cmd_pool q))%nat /\ ph c !! i = None) /\
     (length (cmd_free_queue q) + size (ph c) = length (cmd_pool q))%nat) /\
  NoDup (cmd_pending_queue q) /\
  (forall i, i ∈ cmd_pending_queue q ->
     ph c !! i = Some Queued /\ cur_cmd q <> Some i /\ completed (node i q) = false) /\
  (forall i, ph c !! i = Some Queued ->
     i ∈ cmd_pending_queue q \/ cur_cmd q = Some i \/ completed (node i q) = true).
Proof.
  intros Hc%creach_inv. cbn zeta. unfold CInv in Hc. destruct c as [w p]. cbn [cw ph] in *.
  pose proof Hc as [Hr Hf [Hp1 Hp2] Hu Ho Hcn Hcur Hn]. split_and!; [done| |done| |].
  - intros Hne. destruct (Hf Hne) as [Hf1 Hf2].
    assert (Hff : forall i, i ∈ cmd_free_queue (cq w) <-> (i < length (cmd_pool (cq w)))%nat /\ p !! i = None).
    { intros i. by rewrite Hf2, lookup_lt_is_Some. }
    split_and!; [done|done|].
    assert (HP : cmd_free_queue (cq w) ++ elements (dom p) ≡ₚ seq 0 (length (cmd_pool (cq w)))).
    { apply NoDup_Permutation; [|apply NoDup_seq|].
      - apply NoDup_app. split_and!; [done| |apply NoDup_elements]. intros i [_ E]%Hff.
        rewrite elem_of_elements, elem_of_dom, E. by intros [x Hx].
      - intros i. rewrite elem_of_app, Hff, elem_of_elements, elem_of_dom, elem_of_seq.
        split; [intros [[? _]|H%Ho%lookup_lt_is_Some]; lia|]. intros [_ H].
        destruct (p !! i); [right; by eexists|by left]. }
    apply Permutation_length in HP. rewrite length_app, length_seq in HP. rewrite <- HP.
    by rewrite <- size_dom.
  - intros i (n & Hi & Hin)%Hp2. rewrite (node_lookup _ _ _ Hi).
    by destruct (pending_queued _ _ _ _ _ Hc Hi Hin) as (? & ? & ? & _).
  - intros i Hi. destruct (qinv_pool _ _ _ i Hc) as (n & Hl & -> & _); [by eexists|].
    destruct (Hn i n Hl) as [Hok _]. rewrite Hi in Hok. destruct Hok as [_ [Hk|Hk]]; [left|by right].
    apply Hp2. by exists n.
Qed.

(** C24: A command that succeeds was answered.  Whenever, in any interleaving, a
    caller leaves the wait with 0, its node holds a response whose code and sequence
    number are those of its own request: a late response to an earlier user of the
    node, a duplicate, or a response overtaken by a time-out or a teardown never
    turns into a success. *)
Theorem cmd_success_has_own_response w p i r w' :
  creach (mk_cfg w p) -> p !! i = Some (Woken r) -> wait_and_decode_end ops m2j be i r w = (0, w') ->
  exists m, resp_skb (node i (cq w)) = Some m /\ hdr_code m = cmd_code (node i (cq w)) /\
    hdr_seq m = cmd_seq (node i (cq w)).
Proof.
  intros Hc%creach_inv Hp He. unfold CInv in Hc. cbn [cw ph] in Hc.
  destruct (end_inv _ _ _ _ _ _ Hc Hp He) as [_ [m Hm]]; [done|]. exists m. split; [done|].
  destruct (qinv_pool _ _ _ i Hc) as (n & Hi & En & _); [by eexists|]. rewrite En in *.
  by destruct (qi_node _ _ _ Hc i n Hi) as [_ [(_ & ? & ?)%(fun H => H m Hm) _]].
Qed.


End Queue.

(** ** A concrete run: [CMD_GET_MAC] from load to success *)

Definition demo_cmd_send (skb : list Z) (s : sys unit) : Z * sys unit := (0, s).
Definition demo_priv : wifi_priv := mk_priv [] 0 0 false false false false [].
Definition demo_w0 : cmdw unit :=
  mk_cmdw cmdq_zero (demo_sys <| ad := set_flag ESP_DRIVER_ACTIVE (ad demo_sys) |>) demo_priv.
Definition demo_setup : Z * (esp_adapter * cmdq) := esp_commands_setup true true (ad (cs demo_w0)) (cq demo_w0).
Definition demo_w1 : cmdw unit := on_cs (on_ad (fun _ => demo_setup.2.1)) (demo_w0 <| cq := demo_setup.2.2 |>).
Definition demo_w2 : cmdw unit := demo_w1 <| cq :=
  (prepare_command_request_for_if 0 (cmd_num CMD_GET_MAC) 8 (Some 2048) (ad (cs demo_w1)) (cq demo_w1)).2 |>.
Definition demo_w3 : cmdw unit := demo_w2 <| cq := (queue_cmd_node 0 false 1000 (ad (cs demo_w2)) (cq demo_w2)).2 |>.
Definition demo_w4 : cmdw unit := esp_cmd_work false 0 demo_cmd_send demo_w3.
Definition demo_mac_resp : list Z := [3; 2; 6; 0; 1; 0; 0; 0; 0x24; 0x6f; 0x28; 1; 2; 3].
Definition demo_w5 : cmdw unit :=
  demo_w4 <| cq := (process_cmd_resp false demo_mac_resp (ad (cs demo_w4)) (cq demo_w4)).2 |>.

Notation demo_creach := (creach (demo_ops 1) demo_m2j false 0 demo_cmd_send).
Notation demo_end i r w := (wait_and_decode_end (demo_ops 1) demo_m2j false i r w).

Lemma demo_queued : demo_creach (mk_cfg demo_w3 (<[0%nat := Queued]> (<[0%nat := Prepared]> ∅))).
Proof.
  apply (creach_step _ _ _ _ _ (mk_cfg demo_w2 (<[0%nat := Prepared]> ∅))).
  - apply (creach_step _ _ _ _ _ (mk_cfg demo_w1 ∅)).
    + apply (creach_step _ _ _ _ _ (mk_cfg demo_w0 ∅)); [by apply creach_load|].
      refine (cs_setup _ _ _ _ _ demo_w0 ∅ true true demo_setup.1 _ _ _ _); by vm_compute.
    + unfold demo_w2. refine (cs_prepare _ _ _ _ _ demo_w1 ∅ 0 (cmd_num CMD_GET_MAC) 8 (Some 2048) 0 _ _). by vm_compute.
  - unfold demo_w3. refine (cs_queue _ _ _ _ _ demo_w2 _ 0 false 0 _ _ _); by vm_compute.
Qed.

Lemma demo_answered :
  demo_creach (mk_cfg demo_w5 (<[0%nat := Woken 1]> (<[0%nat := Queued]> (<[0%nat := Prepared]> ∅)))).
Proof.
  apply (creach_step _ _ _ _ _ (mk_cfg demo_w5 (<[0%nat := Queued]> (<[0%nat := Prepared]> ∅)))).
  - apply (creach_step _ _ _ _ _ (mk_cfg demo_w4 (<[0%nat := Queued]> (<[0%nat := Prepared]> ∅)))).
    + apply (creach_step _ _ _ _ _ _ _ demo_queued). unfold demo_w4. apply cs_work.
    + unfold demo_w5. refine (cs_resp _ _ _ _ _ demo_w4 _ demo_mac_resp 0 _ _). by vm_compute.
  - refine (cs_wake _ _ _ _ _ demo_w5 _ 0 1 demo_w5 _ _); by vm_compute.
Qed.

Lemma cmd_nodes_wellformed_witness :
  cmd_nodes_in_use (cq demo_w3) = 1 /\ length (cmd_free_queue (cq demo_w3)) = 19%nat /\
  (0%nat ∈ cmd_pending_queue (cq demo_w3) \/ cur_cmd (cq demo_w3) = Some 0%nat \/
   completed (node 0 (cq demo_w3)) = true).
Proof.
  destruct (cmd_nodes_wellformed (demo_ops 1) demo_m2j false 0 demo_cmd_send (fun _ _ => eq_refl) _ demo_queued)
    as (H1 & H2 & _ & _ & H5).
  split; [exact H1|]. split; [by vm_compute|]. apply H5. by vm_compute.
Defined.

Lemma cmd_success_has_own_response_witness :
  exists m, resp_skb (node 0 (cq demo_w5)) = Some m /\ hdr_code m = cmd_num CMD_GET_MAC.
Proof.
  destruct (cmd_success_has_own_response (demo_ops 1) demo_m2j false 0 demo_cmd_send (fun _ _ => eq_refl)
    demo_w5 _ 0 1 (demo_end 0%nat 1 demo_w5).2 demo_answered) as (m & H1 & H2 & _).
  - by rewrite lookup_insert_eq.
  - by vm_compute.
  - exists m. split; [exact H1|]. rewrite H2. by vm_compute.
Defined.

(** The same run with [CMD_SET_MAC] and no answer. *)
Definition demo_lost : cmdw unit :=
  let w := demo_w1 <| cq :=
    (prepare_command_request_for_if 0 (cmd_num CMD_SET_MAC) 16 (Some 2048) (ad (cs demo_w1)) (cq demo_w1)).2 |> in
  esp_cmd_work false 0 demo_cmd_send (w <| cq := (queue_cmd_node 0 false 1000 (ad (cs w)) (cq w)).2 |>).


(** An OTA command's time-out restarts the firmware from the guard, although the
    second test of the same function leaves an update in progress alone. *)
Definition demo_ota : cmdw unit :=
  let w := demo_w1 <| cs := (cs demo_w1) <| ad := set_flag ESP_OTA_IN_PROGRESS (ad (cs demo_w1)) |> |> in
  let w := w <| cq := (prepare_command_request_for_if 0 (cmd_num CMD_START_OTA_WRITE) 16 (Some 2048)
                         (ad (cs w)) (cq w)).2 |> in
  esp_cmd_work false 0 demo_cmd_send (w <| cq := (queue_cmd_node 0 false 1000 (ad (cs w)) (cq w)).2 |>).

Lemma ota_timeout_restarts :
  flag ESP_OTA_IN_PROGRESS (ad (cs demo_ota)) = true /\
  resets (cs (wait_and_decode_cmd_resp (demo_ops 1) demo_m2j false 0 demo_ota).2) = 1.
Proof. by vm_compute. Qed.

(** A failed disconnect response clears the local-request flag. *)
Lemma failed_disconnect_clears_request :
  local_disconnect_req (decode_disconnect_resp
    (node_zero <| resp_skb := Some [6; 1; 0; 0; 1; 0; 0; 0] |>) (demo_priv <| local_disconnect_req := true |>)).2 = false.
Proof. by vm_compute. Qed.
