(* ===== verification/SdioHost.v ===== *)
(** * SdioHost: the host's SDIO transport, its recovery

    The control half of [host/sdio/esp_sdio.c] and the register accessors of
    [host/sdio/esp_sdio_api.c]: the reset budget and the claim of a reset request,
    [quiesce]/[reinit]/[commit]/[note_fw_reset], the generation-acknowledged
    handshake, re-enabling the function, the full-chip reset, [recover_transport]
    and the traffic flush, down to the operation table [sdio_ops] the recovery code
    calls.  The data path is [SdioRx] and [SdioTx].

    The MMC core and the card are the parameter [mmc]: one function per kernel
    entry point, acting on an abstract card state.  Each function of the driver is
    one definition on [sys (sdio H)]; a spin-lock region or the handshake mutex
    needs no model inside one, and regions that other threads can separate are
    separate definitions. *)
From S2P Require Import Prelude Wire Adapter Recovery CmdQueue.

Definition ENOSYS : Z := 38.
Definition MAX_PRIORITY_QUEUES : nat := 3.
Definition ESP_BLOCK_SIZE : Z := 512.
Definition ESP_RX_BYTE_MAX : Z := 0x100000.
Definition ESP_SLAVE_LEN_MASK : Z := 0xFFFFF.
Definition ESP_HOST_RX_AGGR_SIZE : Z := 15872.
Definition ESP_TX_BUFFER_MASK : Z := 0xFFF.
Definition ESP_TX_BUFFER_MAX : Z := 0x1000.
Definition ESP_MAX_BUF_CNT : Z := 10.
Definition ESP_ADDRESS_MASK : Z := 0x3FF.
Definition ESP_SLAVE_SLCHOST_BASE : Z := 0x3FF55000.
Definition ESP_SLAVE_SCRATCH_REG_7 : Z := ESP_SLAVE_SLCHOST_BASE + 0x8C.
Definition ESP_SLAVE_PACKET_LEN_REG : Z := ESP_SLAVE_SLCHOST_BASE + 0x60.
Definition ESP_SLAVE_TOKEN_RDATA : Z := ESP_SLAVE_SLCHOST_BASE + 0x44.
Definition ESP_SDIO_RESET_GEN_REG : Z := ESP_SLAVE_SLCHOST_BASE + 0x6C.
Definition ESP_SDIO_RESET_DONE_REG : Z := ESP_SLAVE_SLCHOST_BASE + 0x6D.
Definition ESP_SDIO_PROBE_IO_RETRIES : nat := 3.
Definition ESP_SDIO_REBOOT_SETTLE_MS : Z := 250.
Definition ESP_SDIO_REBOOT_READY_RETRY_MS : Z := 50.
Definition ESP_SDIO_REBOOT_ENABLE_ATTEMPT_MS : Z := 500.
Definition ESP_SDIO_REBOOT_READY_TIMEOUT_MS : Z := 3000.
(** [BIT()] of [enum ESP_HOST_INTERRUPT]. *)
Definition OPEN_DATA_PATH_BIT : Z := 1.
Definition RESET_BIT : Z := 4.
Definition ESP_SDIO_STATEFUL_HCI : Z := 1.
Definition ESP_SDIO_STATEFUL_RCP : Z := 2.

(** ** The MMC core and the card

    Reads give the return code and the value; [late] is how many clock ticks a
    sleep or a bus operation took beyond those asked for; [kmalloc_ok] is the
    allocator's answer. *)
Record mmc (H : Type) := mk_mmc {
  sdio_readl : Z -> H -> (Z * Z) * H;
  sdio_readb : Z -> H -> (Z * Z) * H;
  sdio_writeb : Z -> Z -> H -> Z * H;
  sdio_writel : Z -> Z -> H -> Z * H;       (* value, address *)
  sdio_memcpy_fromio : Z -> Z -> H -> (Z * list Z) * H;
  sdio_memcpy_toio : Z -> list Z -> H -> Z * H;
  sdio_enable_func : Z -> H -> Z * H;       (* with [enable_timeout] *)
  sdio_disable_func : H -> H;
  sdio_set_block_size : Z -> H -> Z * H;
  sdio_claim_irq : H -> Z * H;
  sdio_release_irq : H -> H;
  mmc_hw_reset : H -> Z * H;
  pwrseq : bool;                            (* host->pwrseq *)
  full_chip_reset_prop : bool;              (* the device-tree property *)
  enable_timeout : Z;                       (* func->enable_timeout *)
  late : H -> nat * H;
  kmalloc_ok : H -> bool * H
}.
Arguments mk_mmc {H}.
Arguments sdio_readl {H}.
Arguments sdio_readb {H}.
Arguments sdio_writeb {H}.
Arguments sdio_writel {H}.
Arguments sdio_memcpy_fromio {H}.
Arguments sdio_memcpy_toio {H}.
Arguments sdio_enable_func {H}.
Arguments sdio_disable_func {H}.
Arguments sdio_set_block_size {H}.
Arguments sdio_claim_irq {H}.
Arguments sdio_release_irq {H}.
Arguments mmc_hw_reset {H}.
Arguments pwrseq {H}.
Arguments full_chip_reset_prop {H}.
Arguments enable_timeout {H}.
Arguments late {H}.
Arguments kmalloc_ok {H}.

(** ** State: [struct esp_sdio_context] and the file's statics *)

(** A queued skb: its bytes, and whether [cb->priv] names a network device. *)
Record tx_pkt := mk_pkt { pkt_data : list Z; pkt_priv : bool }.

Record sdio (H : Type) := mk_sdio {
  hw : H;
  func : bool;                       (* non-NULL *)
  irq_claimed : bool;
  rx_bounce_buf : bool;
  tx_q : list (list tx_pkt);         (* by priority *)
  queue_items : list Z;
  tx_pending : Z;
  rx_q : list (list Z);
  rx_byte_count : Z;
  tx_buffer_count : Z;
  tx_epoch : Z;
  rx_pending : bool;
  rx_len_retry_count : Z;
  rx_len_retry : bool;               (* rx_len_retry_work is armed *)
  if_rx_work : bool;                 (* adapter->if_rx_work is queued *)
  sdio_buf_available : Z;
  tx_thread : bool;
  host_sleep : bool;
  need_counter_rebase : bool;
  need_slave_reset : bool;
  hard_reset_requested : bool;
  soft_reset_requested : bool;
  reset_request_epoch : Z;
  soft_reset_attempts : Z;
  soft_reset_budget_epoch : Z;
  hard_reset_deadline : Z;
  hard_reset_unavailable : bool;
  sdio_reset_gen : Z;
  stateful_write_ambiguous : bool;
  tx_aggr_stateful_mask : Z;
  cmds : cmdq                        (* the adapter's command queue *)
}.
Arguments mk_sdio {H}.
Arguments hw {H}.
Arguments func {H}.
Arguments irq_claimed {H}.
Arguments rx_bounce_buf {H}.
Arguments tx_q {H}.
Arguments queue_items {H}.
Arguments tx_pending {H}.
Arguments rx_q {H}.
Arguments rx_byte_count {H}.
Arguments tx_buffer_count {H}.
Arguments tx_epoch {H}.
Arguments rx_pending {H}.
Arguments rx_len_retry_count {H}.
Arguments rx_len_retry {H}.
Arguments if_rx_work {H}.
Arguments sdio_buf_available {H}.
Arguments tx_thread {H}.
Arguments host_sleep {H}.
Arguments need_counter_rebase {H}.
Arguments need_slave_reset {H}.
Arguments hard_reset_requested {H}.
Arguments soft_reset_requested {H}.
Arguments reset_request_epoch {H}.
Arguments soft_reset_attempts {H}.
Arguments soft_reset_budget_epoch {H}.
Arguments hard_reset_deadline {H}.
Arguments hard_reset_unavailable {H}.
Arguments sdio_reset_gen {H}.
Arguments stateful_write_ambiguous {H}.
Arguments tx_aggr_stateful_mask {H}.
Arguments cmds {H}.

#[export] Instance eta_sdio {H} : Eta (sdio H) := fun d =>
  mk_sdio (hw d) (func d) (irq_claimed d) (rx_bounce_buf d) (tx_q d) (queue_items d) (tx_pending d)
    (rx_q d) (rx_byte_count d) (tx_buffer_count d) (tx_epoch d) (rx_pending d) (rx_len_retry_count d)
    (rx_len_retry d) (if_rx_work d) (sdio_buf_available d) (tx_thread d) (host_sleep d)
    (need_counter_rebase d) (need_slave_reset d) (hard_reset_requested d) (soft_reset_requested d)
    (reset_request_epoch d) (soft_reset_attempts d) (soft_reset_budget_epoch d) (hard_reset_deadline d)
    (hard_reset_unavailable d) (sdio_reset_gen d) (stateful_write_ambiguous d) (tx_aggr_stateful_mask d)
    (cmds d).

Section Sdio.
Context {H : Type} (M : mmc H) (m2j j2m : Z -> Z).
Implicit Types (s : sys (sdio H)) (d : sdio H).

Notation st := (sys (sdio H)).

(** A kernel call on the card. *)
Definition on_hw {A} (f : H -> A * H) s : A * st :=
  let '(x, h) := f (hw (tr s)) in (x, on_tr (fun d => d <| hw := h |>) s).
Definition on_hw_ (f : H -> H) s : st := on_tr (fun d => d <| hw := f (hw d) |>) s.

(** The clock moves on by [n] ticks and what the card makes of them. *)
Definition pass_time (n : Z) s : st :=
  let '(k, s) := on_hw (late M) s in s <| jiffies := u64 (jiffies s + n + Z.of_nat k) |>.

(** [msleep] sleeps for at least the time asked for: [schedule_timeout] of one
    tick more. *)
Definition msleep (ms : Z) s : st := pass_time (m2j ms + 1) s.

(** *** [esp_sdio_api.c] *)
Definition esp_sdio_reg_addr (reg : Z) : Z := Z.land reg ESP_ADDRESS_MASK.

Definition esp_read_byte (reg : Z) s : (Z * Z) * st :=
  if negb (func (tr s)) then ((-1, 0), s) else on_hw (sdio_readb M reg) s.
Definition esp_write_byte (reg v : Z) s : Z * st :=
  if negb (func (tr s)) then (-1, s) else on_hw (sdio_writeb M reg v) s.

(** Reads and writes of one byte go through [esp_read_byte], [esp_write_byte]. *)
Definition esp_read_reg8 (reg : Z) s : (Z * Z) * st := esp_read_byte (Z.land reg ESP_ADDRESS_MASK) s.
Definition esp_write_reg8 (reg v : Z) s : Z * st := esp_write_byte (Z.land reg ESP_ADDRESS_MASK) v s.

Definition esp_read_block (reg size : Z) s : (Z * list Z) * st :=
  if size <=? 1 then let '((r, b), s) := esp_read_byte reg s in ((r, [b]), s)
  else if negb (func (tr s)) then ((-1, []), s) else on_hw (sdio_memcpy_fromio M reg size) s.
Definition esp_write_block (reg : Z) (data : list Z) s : Z * st :=
  if zlen data <=? 1 then esp_write_byte reg (byte_at 0 data) s
  else if negb (func (tr s)) then (-1, s) else on_hw (sdio_memcpy_toio M reg data) s.

Definition esp_sdio_read_u32 (reg : Z) s : (Z * Z) * st :=
  if negb (func (tr s)) then ((- EINVAL, 0), s) else on_hw (sdio_readl M (esp_sdio_reg_addr reg)) s.

Definition generate_slave_intr_sdio (data : Z) s : Z * st :=
  if negb (func (tr s)) then (- EINVAL, s)
  else
    let '(ok, s) := on_hw (kmalloc_ok M) s in
    if negb ok then (- ENOMEM, s) else esp_write_reg8 ESP_SLAVE_SCRATCH_REG_7 data s.

(** *** The soft-reset budget

    Regions under [sdio_reset_budget_lock]. *)
Definition esp_sdio_reset_budget_sync_locked (a : esp_adapter) d : sdio H :=
  if soft_reset_budget_epoch d =? fw_boot_commit_epoch a then d
  else d <| soft_reset_budget_epoch := fw_boot_commit_epoch a |> <| soft_reset_attempts := 0 |>.

Definition esp_sdio_soft_reset_budget_take (a : esp_adapter) d : bool * sdio H :=
  let d := esp_sdio_reset_budget_sync_locked a d in
  if soft_reset_attempts d <? ESP_FW_BOOT_MAX_ATTEMPTS
  then (true, d <| soft_reset_attempts := soft_reset_attempts d + 1 |>) else (false, d).

Definition esp_sdio_soft_reset_budget_drop d : sdio H :=
  d <| soft_reset_budget_epoch := 0 |> <| soft_reset_attempts := 0 |>.

Definition esp_sdio_commit_reset_budget_locked (a : esp_adapter) d : sdio H :=
  let d := esp_sdio_reset_budget_sync_locked a d in
  if reset_request_epoch d =? fw_boot_commit_epoch a then d
  else d <| hard_reset_requested := false |> <| soft_reset_requested := false |>.

Definition esp_sdio_soft_reset_budget_arm (a : esp_adapter) d : bool * sdio H :=
  let d := esp_sdio_reset_budget_sync_locked a d in
  if soft_reset_attempts d <? ESP_FW_BOOT_MAX_ATTEMPTS
  then (true, d <| reset_request_epoch := fw_boot_commit_epoch a |> <| soft_reset_requested := true |>)
  else (false, d).

Inductive esp_sdio_reset_claim :=
  ESP_SDIO_RESET_NONE | ESP_SDIO_RESET_STALE | ESP_SDIO_RESET_HARD | ESP_SDIO_RESET_SOFT.

Definition drop_reset_requests d : sdio H :=
  d <| hard_reset_requested := false |> <| soft_reset_requested := false |>.

(** Under [fw_recovery_lock] and the budget lock. *)
Definition esp_sdio_claim_reset_locked s : esp_sdio_reset_claim * st :=
  let a := ad s in let d := tr s in
  let hard := hard_reset_requested d in
  if negb hard && negb (soft_reset_requested d) then (ESP_SDIO_RESET_NONE, s)
  else if negb (reset_request_epoch d =? fw_boot_commit_epoch a) || reconstruction_success a
  then (ESP_SDIO_RESET_STALE, on_tr drop_reset_requests s)
  else
    let s := on_ad (fun a =>
      set_flag ESP_FW_RESET_EXPECTED (set_flag ESP_FW_RECOVERY_PENDING a)
        <| fw_recovery_gen := u32 (fw_recovery_gen a + 1) |>) s in
    (if hard then ESP_SDIO_RESET_HARD else ESP_SDIO_RESET_SOFT, on_tr drop_reset_requests s).

(** *** Queues *)

(** [sdio_get_cmd_info]. *)
Definition sdio_get_cmd_info (b : list Z) : option (Z * Z) :=
  if zlen b <? sizeof_header then None
  else
    let h := decode_header b in
    if negb (packet_type h =? pkt_code PACKET_TYPE_COMMAND_REQUEST) then None
    else if zlen b <? offset h + sizeof_command_header then None
    else let c := zdrop (offset h) b in Some (hdr_code c, hdr_seq c).

(** [if (atomic_read(&tx_pending)) atomic_dec(&tx_pending)]. *)
Definition tx_pending_dec d : sdio H :=
  if tx_pending d =? 0 then d else d <| tx_pending := tx_pending d - 1 |>.

Definition fail_cmd (code seq error : Z) d : sdio H :=
  d <| cmds := esp_cmd_transport_failed code seq error (cmds d) |>.

Definition purge_skb d (p : tx_pkt) : sdio H :=
  let d := match sdio_get_cmd_info (pkt_data p) with
           | Some (code, seq) => fail_cmd code seq (- EIO) d
           | None => d
           end in
  tx_pending_dec d.

Definition sdio_purge_tx_queues d : sdio H :=
  let d := foldl purge_skb d (concat (tx_q d)) in
  d <| tx_q := replicate MAX_PRIORITY_QUEUES [] |> <| queue_items := replicate MAX_PRIORITY_QUEUES 0 |>.

Definition purge_rx d : sdio H := d <| rx_q := [] |>.

Definition esp_sdio_quiesce_for_fw_reset s : Z * st :=
  if negb (if_context (ad s)) then (- EINVAL, s)
  else
    let s := on_tr (fun d => d <| host_sleep := false |>) s in
    let s := on_ad (fun a => a <| state := ESP_CONTEXT_DISABLED |>) s in
    let s := on_tr (fun d => purge_rx (sdio_purge_tx_queues (d <| tx_thread := false |>))) s in
    (0, on_tr (fun d => d <| tx_pending := 0 |> <| sdio_buf_available := 0 |> <| rx_len_retry := false |>
                          <| if_rx_work := false |>) s).

Definition esp_sdio_baseline_tx_credits s : Z * st :=
  let '((ret, raw), s) := esp_sdio_read_u32 ESP_SLAVE_TOKEN_RDATA s in
  if negb (ret =? 0) then (ret, s)
  else
    let raw := Z.land (Z.shiftr raw 16) ESP_TX_BUFFER_MASK in
    (0, on_tr (fun d =>
      d <| tx_buffer_count := if ESP_MAX_BUF_CNT <=? raw then raw - ESP_MAX_BUF_CNT else 0 |>
        <| sdio_buf_available := 0 |>) s).

Definition get_firmware_data s : Z * st :=
  if negb (func (tr s)) then (- ENODEV, s)
  else
    let s := on_tr (fun d => d <| tx_epoch := u32 (tx_epoch d + 1) |> <| need_counter_rebase := false |>
                               <| need_slave_reset := false |>) s in
    let '((ret, val), s) := esp_sdio_read_u32 ESP_SLAVE_PACKET_LEN_REG s in
    if negb (ret =? 0) then (ret, s)
    else esp_sdio_baseline_tx_credits
           (on_tr (fun d => d <| rx_byte_count := Z.land val ESP_SLAVE_LEN_MASK |>) s).

(** [kthread_ok]: the result of [kthread_run], 0 or an error. *)
Definition esp_sdio_reinit_after_fw_reset (kthread_ret : Z) s : Z * st :=
  if negb (if_context (ad s)) then (- EINVAL, s)
  else
    let '(ret, s) := get_firmware_data s in
    if negb (ret =? 0) then (ret, s)
    else if kthread_ret <? 0 then (kthread_ret, on_tr (fun d => d <| tx_thread := false |>) s)
    else (0, on_tr (fun d => d <| tx_thread := true |>) s).

Definition esp_sdio_commit_fw_recovery s : st := on_tr (esp_sdio_commit_reset_budget_locked (ad s)) s.

Definition esp_sdio_note_fw_reset s : st := on_tr (fun d => d <| need_counter_rebase := true |>) s.

(** ** Requests to the recovery code

    The recovery code calls back into this transport; the table is built in
    layers, each using the entries below it. *)
Definition note_ops : esp_if_ops (sdio H) :=
  mk_if_ops None None (Some esp_sdio_note_fw_reset) None None generate_slave_intr_sdio.

Definition schedule_fw_reset s : st := esp_schedule_fw_reset_recovery note_ops m2j s.

Definition has_full_chip_reset (d : sdio H) : bool := func d && pwrseq M && full_chip_reset_prop M.

Definition esp_sdio_reset_target s : Z * st :=
  if negb (if_context (ad s) && func (tr s)) then (- ENODEV, s)
  else if unloading_or_removing (ad s) then (- ESHUTDOWN, s)
  else
    let s := on_tr (esp_sdio_reset_budget_sync_locked (ad s)) s in
    let d := tr s in
    let epoch := fw_boot_commit_epoch (ad s) in
    if negb (hard_reset_unavailable d) && has_full_chip_reset d
    then (0, schedule_fw_reset (on_tr (fun d => d <| reset_request_epoch := epoch |>
                                                  <| hard_reset_requested := true |>) s))
    else if ESP_FW_BOOT_MAX_ATTEMPTS <=? soft_reset_attempts d then (- EHOSTUNREACH, s)
    else (0, schedule_fw_reset (on_tr (fun d => d <| reset_request_epoch := epoch |>
                                                  <| soft_reset_requested := true |>) s)).

Definition reset_ops : esp_if_ops (sdio H) :=
  mk_if_ops (Some esp_sdio_reset_target) None (Some esp_sdio_note_fw_reset) None None generate_slave_intr_sdio.

Definition request_restart s : st := esp_request_firmware_restart reset_ops m2j s.
Definition restart_fw s : st := request_restart (schedule_fw_reset s).

Definition esp_sdio_schedule_transport_guard s : st :=
  if stateful_write_ambiguous (tr s)
  then restart_fw (on_tr (fun d => d <| stateful_write_ambiguous := false |>) s)
  else esp_schedule_transport_recovery note_ops m2j s.

Definition esp_sdio_schedule_fw_guard s : st :=
  schedule_fw_reset (on_tr (fun d => d <| stateful_write_ambiguous := false |>) s).

Definition esp_sdio_request_transport_recovery s : st :=
  if unloading_or_removing (ad s) then s else esp_sdio_schedule_transport_guard s.

Definition esp_sdio_request_fw_reset_recovery s : st :=
  if unloading_or_removing (ad s) then s
  else esp_sdio_schedule_fw_guard (on_tr (fun d => d <| need_counter_rebase := true |>) s).

Definition esp_sdio_request_slave_reset s : st :=
  if unloading_or_removing (ad s) then s
  else esp_sdio_schedule_transport_guard (on_tr (fun d => d <| need_slave_reset := true |>) s).

(** ** The generation-acknowledged handshake and re-enabling *)

Definition esp_sdio_epoch_barrier s : st :=
  if negb (func (tr s)) then s else on_tr (fun d => d <| tx_epoch := u32 (tx_epoch d + 1) |>) s.

(** The polling loop; [fuel] bounds the number of polls and is never reached
    before the deadline ([wait_done_fuel]). *)
Fixpoint wait_done_loop (fuel : nat) (deadline gen : Z) s : Z * st :=
  let '((ret, done), s) := esp_read_reg8 ESP_SDIO_RESET_DONE_REG s in
  if (ret =? 0) && (done =? gen) then (0, s)
  else
    let s := msleep 5 s in
    match fuel with
    | S fuel => if time_after_eq (jiffies s) deadline then (- ETIMEDOUT, s) else wait_done_loop fuel deadline gen s
    | O => (- ETIMEDOUT, s)
    end.

Definition ticks (ms : Z) : nat := Z.to_nat (m2j ms).

Definition esp_sdio_wait_slave_reset_done (gen : Z) s : Z * st :=
  wait_done_loop (ticks 500) (u64 (jiffies s + m2j 500)) gen s.

(** [++sdio_reset_gen], a [u8] that skips 0. *)
Definition next_reset_gen (g : Z) : Z := let g := u8 (g + 1) in if g =? 0 then u8 (g + 1) else g.

Definition esp_sdio_handshake_slave_reset (irq_bit : Z) s : Z * st :=
  let gen := next_reset_gen (sdio_reset_gen (tr s)) in
  let s := on_tr (fun d => d <| sdio_reset_gen := gen |>) s in
  let '(ret, s) := esp_write_reg8 ESP_SDIO_RESET_DONE_REG 0 s in
  if negb (ret =? 0) then (ret, s) else
  let '(ret, s) := esp_write_reg8 ESP_SDIO_RESET_GEN_REG gen s in
  if negb (ret =? 0) then (ret, s) else
  let '(ret, s) := generate_slave_intr_sdio irq_bit s in
  if negb (ret =? 0) then (ret, s) else
  esp_sdio_wait_slave_reset_done gen s.

Definition esp_sdio_reenable_func_timeout (enable_timeout_ms : Z) s : Z * st :=
  if negb (func (tr s)) then (- ENODEV, s)
  else if unloading_or_removing (ad s) then (- ESHUTDOWN, s)
  else
    let timeout := if negb (enable_timeout_ms =? 0) then enable_timeout_ms
                   else if enable_timeout M <? 5000 then 5000 else enable_timeout M in
    let '(ret, s) := on_hw (sdio_enable_func M timeout) s in
    let s := pass_time 0 s in
    let '(ret, s) := if ret =? 0 then on_hw (sdio_set_block_size M ESP_BLOCK_SIZE) s else (ret, s) in
    if negb (ret =? 0) then (ret, s)
    else
      let s := if irq_claimed (tr s)
               then on_tr (fun d => d <| irq_claimed := false |>) (on_hw_ (sdio_release_irq M) s) else s in
      let '(ret, s) := on_hw (sdio_claim_irq M) s in
      (ret, if ret =? 0 then on_tr (fun d => d <| irq_claimed := true |>) s else s).

Definition esp_sdio_reenable_func s : Z * st := esp_sdio_reenable_func_timeout 0 s.

(** Each round takes at least one tick, except the last ones before the deadline,
    which re-enable once more without sleeping. *)
Fixpoint wait_reenable_loop (fuel : nat) (deadline ret : Z) s : Z * st :=
  let expired := (if ret =? 0 then - ETIMEDOUT else ret, s) in
  match fuel with
  | O => expired
  | S fuel =>
      if time_after_eq (jiffies s) deadline then expired
      else
        let remaining := j2m (u64 (deadline - jiffies s)) in
        let attempt := Z.min (if remaining =? 0 then 1 else remaining) ESP_SDIO_REBOOT_ENABLE_ATTEMPT_MS in
        let '(ret, s) := esp_sdio_reenable_func_timeout attempt s in
        if ret =? 0 then (0, s)
        else if (ret =? - ESHUTDOWN) || (ret =? - ENODEV) then (ret, s)
        else if time_after_eq (jiffies s) deadline then (ret, s)
        else
          let sleep := Z.min (j2m (u64 (deadline - jiffies s))) ESP_SDIO_REBOOT_READY_RETRY_MS in
          wait_reenable_loop fuel deadline ret (if sleep =? 0 then s else msleep sleep s)
  end.

Definition esp_sdio_wait_reenable_after_reboot s : Z * st :=
  let deadline := u64 (jiffies s + m2j ESP_SDIO_REBOOT_READY_TIMEOUT_MS) in
  wait_reenable_loop (S (ticks ESP_SDIO_REBOOT_READY_TIMEOUT_MS)) deadline (- ETIMEDOUT)
    (msleep ESP_SDIO_REBOOT_SETTLE_MS s).

Definition esp_sdio_rebase_incarnation s : Z * st :=
  get_firmware_data (on_tr (fun d => purge_rx (sdio_purge_tx_queues d) <| sdio_buf_available := 0 |>) s).

(** Queues [if_rx_work]. *)
Definition esp_process_new_packet_intr s : st :=
  if rx_stopped (ad s) then s else on_tr (fun d => d <| if_rx_work := true |>) s.

Definition esp_sdio_open_and_poll s : Z * st :=
  let '(ret, s) := generate_slave_intr_sdio OPEN_DATA_PATH_BIT s in
  if negb (ret =? 0) then (ret, s) else (0, esp_process_new_packet_intr (msleep 20 s)).

Definition esp_sdio_mmc_hw_reset s : Z * st :=
  if negb (func (tr s)) then (- ENODEV, s)
  else if negb (pwrseq M) then (- EOPNOTSUPP, s)
  else on_hw (mmc_hw_reset M) s.

(** Counters of a new firmware incarnation start at zero. *)
Definition zero_cursors d : sdio H :=
  d <| rx_byte_count := 0 |> <| tx_buffer_count := 0 |> <| rx_pending := false |> <| rx_len_retry_count := 0 |>.

(** The claim of the physical reset for the current boot deadline: whether an
    attempt is under way, and whether this call issues the reset. *)
Definition claim_hard_reset (full_chip : bool) (a : esp_adapter) d : bool * (bool * sdio H) :=
  let active := negb (fw_boot_deadline a =? 0) in
  if active && full_chip && negb (hard_reset_deadline d =? fw_boot_deadline a)
  then (active, (true, d <| hard_reset_deadline := fw_boot_deadline a |>))
  else (active, (false, d)).

Definition reset_unsupported (ret : Z) : bool := (ret =? - EOPNOTSUPP) || (ret =? - ENOSYS).

Definition esp_sdio_hard_reset_and_reopen s : Z * st :=
  if negb (func (tr s)) then (- ENODEV, s)
  else if unloading_or_removing (ad s) then (- ESHUTDOWN, s)
  else
    let full := negb (hard_reset_unavailable (tr s)) && has_full_chip_reset (tr s) in
    let '(active, (issue, d)) := claim_hard_reset full (ad s) (tr s) in
    let s := on_tr (fun _ => d) s in
    if negb active then (- EAGAIN, restart_fw s)
    else
      let s := on_ad (set_flag ESP_FW_RESET_EXPECTED) s in
      let s := on_tr (fun d => purge_rx (sdio_purge_tx_queues
                 (d <| need_counter_rebase := true |> <| need_slave_reset := false |>))
                 <| sdio_buf_available := 0 |>) s in
      let '(ret, s) := if negb full then (- EOPNOTSUPP, s)
                       else if negb issue then (0, s)
                       else esp_sdio_mmc_hw_reset s in
      if 0 <? ret then (- EAGAIN, on_ad (clear_flag ESP_FW_RESTART_NEEDED) s)
      else if ret <? 0 then
        let s := on_ad (set_flag ESP_FW_RESTART_NEEDED) s in
        let s := if reset_unsupported ret then on_tr (fun d => d <| hard_reset_unavailable := true |>) s else s in
        if negb (fw_boot_deadline (ad s) =? 0) then
          let '(ok, d) := esp_sdio_soft_reset_budget_arm (ad s) (tr s) in
          (if ok then - EAGAIN else - EHOSTUNREACH, on_tr (fun _ => d) s)
        else (ret, request_restart s)
      else
        let s := on_ad (clear_flag ESP_FW_RESTART_NEEDED) s in
        let s := on_tr zero_cursors s in
        let '(ret, s) := esp_sdio_reenable_func s in
        if negb (ret =? 0) then (ret, s) else esp_sdio_open_and_poll s.

(** ** [recover_transport] *)

Definition esp_sdio_rx_len_delta (raw_len rx_byte_count : Z) : Z :=
  if rx_byte_count <=? raw_len then u32 (raw_len + ESP_RX_BYTE_MAX - rx_byte_count) mod ESP_RX_BYTE_MAX
  else u32 (ESP_RX_BYTE_MAX - rx_byte_count + raw_len).

Definition set_reset_expected s : st := on_ad (set_flag ESP_FW_RESET_EXPECTED) s.

(** A live session is resumed without reconstruction. *)
Definition resume_live s : Z * st :=
  let s := on_tr (fun d => d <| sdio_buf_available := 0 |>) s in
  (1, esp_process_new_packet_intr (on_ad (fun a => a <| state := ESP_CONTEXT_READY |>) s)).

(** The claimed software reset: an acknowledged CLOSE. *)
Definition recover_soft s : Z * st :=
  let '(ret, s) := esp_sdio_reenable_func s in
  if negb (ret =? 0) then (ret, s) else
  let '(ok, d) := esp_sdio_soft_reset_budget_take (ad s) (tr s) in
  let s := on_tr (fun _ => d) s in
  if negb ok then (- EHOSTUNREACH, s) else
  let '(ret, s) := esp_sdio_handshake_slave_reset ESP_CLOSE_DATA_PATH_BIT s in
  if negb (ret =? 0) then (ret, s) else
  let s := set_reset_expected (on_ad (clear_flag ESP_FW_RESTART_NEEDED) s) in
  let s := on_tr (fun d => zero_cursors (purge_rx (sdio_purge_tx_queues d))
                             <| sdio_buf_available := 0 |> <| need_counter_rebase := true |>) s in
  let '(ret, s) := esp_sdio_wait_reenable_after_reboot s in
  if negb (ret =? 0) then (ret, s) else esp_sdio_open_and_poll s.

(** The commit-ambiguous data phase: an acknowledged ESP_RESET of the slave's
    FIFO, without a firmware restart. *)
Definition recover_slave_reset s : Z * st :=
  let '(ret, s) := esp_sdio_handshake_slave_reset RESET_BIT s in
  if negb (ret =? 0) then esp_sdio_hard_reset_and_reopen s else
  let '(ret, s) := esp_sdio_rebase_incarnation s in
  if negb (ret =? 0)
  then esp_sdio_hard_reset_and_reopen (on_tr (fun d => d <| need_slave_reset := true |>) s)
  else if flag ESP_INIT_DONE (ad s) then resume_live s
  else esp_sdio_open_and_poll s.

(** Resynchronise with a firmware that kept running. *)
Definition recover_resync s : Z * st :=
  let '((ret, raw_len), s) := esp_sdio_read_u32 ESP_SLAVE_PACKET_LEN_REG s in
  if negb (ret =? 0) then esp_sdio_hard_reset_and_reopen s else
  let delta := esp_sdio_rx_len_delta (Z.land raw_len ESP_SLAVE_LEN_MASK) (rx_byte_count (tr s)) in
  if ESP_HOST_RX_AGGR_SIZE <? delta then esp_sdio_open_and_poll (set_reset_expected s)
  else if flag ESP_INIT_DONE (ad s) then
    let '(ret, s) := generate_slave_intr_sdio OPEN_DATA_PATH_BIT s in
    if negb (ret =? 0) then esp_sdio_hard_reset_and_reopen s else resume_live s
  else esp_sdio_open_and_poll s.

Definition recover_rebase (fw_reset : bool) s : Z * st :=
  if need_counter_rebase (tr s) then
    let s := on_tr (fun d => d <| need_counter_rebase := false |>) s in
    let '(ret, s) := if fw_reset then (0, s) else esp_sdio_rebase_incarnation s in
    if negb (ret =? 0)
    then esp_sdio_hard_reset_and_reopen (on_tr (fun d => d <| need_counter_rebase := true |>) s)
    else esp_sdio_open_and_poll (set_reset_expected s)
  else if fw_reset then esp_sdio_open_and_poll s
  else recover_resync s.

(** No reset was claimed. *)
Definition recover_plain s : Z * st :=
  let '(ret, s) := esp_sdio_reenable_func s in
  if negb (ret =? 0) then
    let s := if flag ESP_FW_RESET_EXPECTED (ad s)
             then on_tr (fun d => d <| need_counter_rebase := true |>) s else s in
    esp_sdio_hard_reset_and_reopen s
  else
    let fw_reset := flag ESP_FW_RESET_EXPECTED (ad s) in
    if flag ESP_FW_RESTART_NEEDED (ad s) then
      let '(ok, d) := esp_sdio_soft_reset_budget_arm (ad s) (tr s) in
      (if ok then - EAGAIN else - EHOSTUNREACH, on_tr (fun _ => d) s)
    else if fw_reset then recover_rebase fw_reset (on_tr (fun d => d <| need_slave_reset := false |>) s)
    else if need_slave_reset (tr s)
    then recover_slave_reset (on_tr (fun d => d <| need_slave_reset := false |>) s)
    else recover_rebase fw_reset s.

(** [esp_sdio_recover_transport], under the handshake mutex. *)
Definition esp_sdio_recover_transport s : Z * st :=
  if negb (if_context (ad s)) then (- EINVAL, s)
  else if unloading_or_removing (ad s) then (- ESHUTDOWN, s)
  else if negb (func (tr s)) then (- ENODEV, s)
  else
    let s := on_tr (fun d => d <| host_sleep := false |> <| rx_len_retry := false |>) s in
    let '(claim, s) := esp_sdio_claim_reset_locked s in
    let stale := match claim with ESP_SDIO_RESET_STALE => true | _ => false end in
    if stale && reconstruction_success (ad s) then (1, s)
    else
      let s := on_ad (fun a => a <| state := ESP_CONTEXT_RX_READY |>) s in
      let s := esp_sdio_epoch_barrier s in
      if stale && reconstruction_success (ad s) then (1, on_ad (fun a => a <| state := ESP_CONTEXT_READY |>) s)
      else match claim with
      | ESP_SDIO_RESET_HARD => esp_sdio_hard_reset_and_reopen s
      | ESP_SDIO_RESET_SOFT => recover_soft s
      | _ => recover_plain s
      end.

Definition sdio_ops : esp_if_ops (sdio H) :=
  mk_if_ops (Some esp_sdio_reset_target) (Some esp_sdio_recover_transport) (Some esp_sdio_note_fw_reset)
    None (Some esp_sdio_commit_fw_recovery) generate_slave_intr_sdio.

(** ** Flushing one interface's traffic *)

Definition is_if (t : Z) (b : list Z) : bool := (sizeof_header <=? zlen b) && (if_type (decode_header b) =? t).

(** One priority queue: its interface's packets leave with their counters. *)
Definition flush_q (t : Z) d (prio : nat) : sdio H :=
  let q := default [] (tx_q d !! prio) in
  let gone := filter (fun p => is_if t (pkt_data p) = true) q in
  let d := foldl (fun d _ => tx_pending_dec d) d gone in
  d <| tx_q := <[prio := filter (fun p => is_if t (pkt_data p) = false) q]> (tx_q d) |>
    <| queue_items := alter (fun n => n - zlen gone) prio (queue_items d) |>.

Definition stateful_bit (t : Z) : Z :=
  if t =? ESP_HCI_IF then ESP_SDIO_STATEFUL_HCI else if t =? ESP_RCP_IF then ESP_SDIO_STATEFUL_RCP else 0.

(** [others]: what the rest of the driver does while this function sleeps, at
    most 100 ms, for the TX thread to let go of the interface. *)
Definition esp_sdio_flush_if_traffic (others : st -> st) (t : Z) s : st :=
  if negb (if_context (ad s)) then s
  else
    let s := on_tr (fun d => foldl (flush_q t) d (seq 0 MAX_PRIORITY_QUEUES)) s in
    let held s := negb (Z.land (tx_aggr_stateful_mask (tr s)) (stateful_bit t) =? 0) in
    let s := if negb (stateful_bit t =? 0) && held s then
               let s := others s in if held s then restart_fw s else s
             else s in
    on_tr (fun d => d <| rx_q := filter (fun b => is_if t b = false) (rx_q d) |>) s.

Definition esp_sdio_flush_bt_traffic (others : st -> st) s : st := esp_sdio_flush_if_traffic others ESP_HCI_IF s.
Definition esp_sdio_flush_rcp_traffic (others : st -> st) s : st := esp_sdio_flush_if_traffic others ESP_RCP_IF s.

(** ** Binding *)

(** The retries of [init_context]'s first token read. *)
Fixpoint baseline_retry (attempts : nat) s : Z * st :=
  match attempts with
  | O => (- EIO, s)
  | S n =>
      let '(ret, s) := esp_sdio_baseline_tx_credits s in
      if (ret =? 0) || bool_decide (n = 0%nat) then (ret, s) else baseline_retry n (msleep 20 s)
  end.

Definition init_context s : Z * st :=
  let s := on_tr (fun d => d <| sdio_buf_available := 0 |> <| rx_byte_count := 0 |>) s in
  let '(ret, s) := baseline_retry ESP_SDIO_PROBE_IO_RETRIES s in
  let s := if ret =? 0 then s else on_tr (fun d => d <| need_counter_rebase := true |>) s in
  let s := on_tr (fun d => d <| tx_q := replicate MAX_PRIORITY_QUEUES [] |>
             <| queue_items := replicate MAX_PRIORITY_QUEUES 0 |> <| rx_q := [] |>) s in
  (0, on_ad (fun a => a <| if_transport := ESP_IF_TYPE_SDIO |>) s).

(** ** The recovery state these functions leave alone *)

Lemma on_hw_core {A} (f : H -> A * H) s : same_core s (on_hw f s).2.
Proof. unfold on_hw. destruct (f (hw (tr s))). apply on_tr_core. Qed.

Lemma on_hw__core f s : same_core s (on_hw_ f s).
Proof. apply on_tr_core. Qed.

Lemma pass_time_core n s : same_core s (pass_time n s).
Proof.
  unfold pass_time. pose proof (on_hw_core (late M) s) as Hc. destruct (on_hw _ s) as [k s1]. cbn in Hc.
  etrans; [exact Hc|]. by constructor.
Qed.

Lemma msleep_core ms s : same_core s (msleep ms s).
Proof. apply pass_time_core. Qed.
End Sdio.

#[export] Hint Resolve on_hw_core on_hw__core pass_time_core msleep_core : recovery_core.

Section Laws.
Context {H : Type} (M : mmc H) (m2j j2m : Z -> Z).
Implicit Types (s : sys (sdio H)) (d : sdio H).

Lemma write_byte_core r v s : same_core s (esp_write_byte M r v s).2.
Proof. unfold esp_write_byte. core_run. Qed.

Lemma write_reg8_core r v s : same_core s (esp_write_reg8 M r v s).2.
Proof. apply write_byte_core. Qed.

Lemma read_reg8_core r s : same_core s (esp_read_reg8 M r s).2.
Proof. unfold esp_read_reg8, esp_read_byte. core_run. Qed.

Lemma read_u32_core r s : same_core s (esp_sdio_read_u32 M r s).2.
Proof. unfold esp_sdio_read_u32. core_run. Qed.

#[local] Hint Resolve write_reg8_core read_reg8_core read_u32_core : recovery_core.

Lemma slave_intr_core x s : same_core s (generate_slave_intr_sdio M x s).2.
Proof. unfold generate_slave_intr_sdio. core_run. Qed.

Lemma baseline_core s : same_core s (esp_sdio_baseline_tx_credits M s).2.
Proof. unfold esp_sdio_baseline_tx_credits. core_run. Qed.
#[local] Hint Resolve slave_intr_core baseline_core : recovery_core.

Lemma get_firmware_core s : same_core s (get_firmware_data M s).2.
Proof. unfold get_firmware_data. core_run. Qed.

Lemma wait_done_core fuel deadline gen s : same_core s (wait_done_loop M m2j fuel deadline gen s).2.
Proof.
  revert s. induction fuel as [|fuel IH]; intros s; cbn [wait_done_loop]; core_run.
  all: try (etrans; [|apply IH]); core_back.
Qed.
#[local] Hint Resolve get_firmware_core wait_done_core : recovery_core.

Lemma handshake_core x s : same_core s (esp_sdio_handshake_slave_reset M m2j x s).2.
Proof. unfold esp_sdio_handshake_slave_reset, esp_sdio_wait_slave_reset_done. core_run. Qed.

Lemma reenable_core x s : same_core s (esp_sdio_reenable_func_timeout M x s).2.
Proof. unfold esp_sdio_reenable_func_timeout. core_run. Qed.
#[local] Hint Resolve handshake_core reenable_core : recovery_core.

Lemma wait_reenable_core fuel deadline r s : same_core s (wait_reenable_loop M m2j j2m fuel deadline r s).2.
Proof.
  revert r s. induction fuel as [|fuel IH]; intros r s; cbn [wait_reenable_loop]; core_run.
  all: try (etrans; [|apply IH]); core_back.
Qed.

Lemma open_and_poll_core s : same_core s (esp_sdio_open_and_poll M m2j s).2.
Proof. unfold esp_sdio_open_and_poll, esp_process_new_packet_intr. core_run. Qed.

Lemma rebase_core s : same_core s (esp_sdio_rebase_incarnation M s).2.
Proof. unfold esp_sdio_rebase_incarnation. core_run. Qed.

Lemma mmc_hw_reset_core s : same_core s (esp_sdio_mmc_hw_reset M s).2.
Proof. unfold esp_sdio_mmc_hw_reset. core_run. Qed.
#[local] Hint Resolve wait_reenable_core open_and_poll_core rebase_core mmc_hw_reset_core : recovery_core.

#[local] Instance note_laws : NoteLaw (note_ops M).
Proof. intros f s [= <-]. apply on_tr_core. Qed.

Lemma reset_target_sdio s : asks 1 s (esp_sdio_reset_target M m2j s).2.
Proof.
  assert (Ht : forall s', same_core s s' -> asks 1 s (schedule_fw_reset M m2j s')).
  { intros s' Hs. eapply asks_core_l; [exact Hs|]. apply schedule_recovery_asks. }
  assert (Hc : forall s', same_core s s' -> asks 1 s s').
  { intros s' Hs. by apply (asks_mono 0), asks_core. }
  unfold esp_sdio_reset_target. run_calls; first [apply Ht; core_back|apply Hc; core_back].
Qed.

#[local] Instance reset_laws : ResetLaws (reset_ops M m2j).
Proof.
  split.
  - intros f s [= <-]. apply on_tr_core.
  - intros f s [= <-]. apply reset_target_sdio.
  - intros x s. apply slave_intr_core.
Qed.

Lemma restart_fw_moved s : moved 2 s (restart_fw M m2j s).
Proof.
  unfold restart_fw, request_restart. apply (moved_trans 1 1 _ (schedule_fw_reset M m2j s)).
  - apply moved_asks, schedule_recovery_asks.
  - apply moved_restart.
Qed.

Lemma hard_reset_moved s : moved 2 s (esp_sdio_hard_reset_and_reopen M m2j s).2.
Proof.
  assert (Hc : forall s', same_core s s' -> moved 2 s s') by (intros; by apply moved_core).
  assert (Hf : forall s', same_core s s' -> moved 2 s (restart_fw M m2j s')).
  { intros. eapply moved_core_l; [done|apply restart_fw_moved]. }
  assert (Hr : forall s', same_core s s' -> moved 2 s (request_restart M m2j s')).
  { intros. eapply moved_core_l; [done|]. apply (moved_mono 1); [done|]. apply moved_restart. }
  unfold esp_sdio_hard_reset_and_reopen, esp_sdio_reenable_func.
  run_calls; first [apply Hf; core_back|apply Hr; core_back|apply Hc; core_back].
Qed.

(** Calls that end in the hard reset or leave the recovery state alone. *)
Ltac moved_run :=
  let Hc := fresh in let Hh := fresh in
  match goal with
  | |- moved 2 ?s _ =>
      assert (Hc : forall s', same_core s s' -> moved 2 s s') by (intros; by apply moved_core);
      assert (Hh : forall s', same_core s s' -> moved 2 s (esp_sdio_hard_reset_and_reopen M m2j s').2)
        by (intros; eapply moved_core_l; [done|apply hard_reset_moved])
  end;
  run_calls; first [solve [apply Hh; core_back]|solve [apply Hc; core_back]|idtac].

Lemma resume_live_core s : same_core s (resume_live s).2.
Proof. unfold resume_live, esp_process_new_packet_intr. core_run. Qed.
#[local] Hint Resolve resume_live_core : recovery_core.

Lemma set_reset_expected_core s : same_core s (set_reset_expected s).
Proof. unfold set_reset_expected. core_back. Qed.
#[local] Hint Resolve set_reset_expected_core : recovery_core.

Lemma recover_soft_core s : same_core s (recover_soft M m2j j2m s).2.
Proof. unfold recover_soft, esp_sdio_reenable_func, esp_sdio_wait_reenable_after_reboot. core_run. Qed.

Lemma recover_slave_reset_moved s : moved 2 s (recover_slave_reset M m2j s).2.
Proof. unfold recover_slave_reset. moved_run. Qed.

Lemma recover_resync_moved s : moved 2 s (recover_resync M m2j s).2.
Proof. unfold recover_resync. moved_run. Qed.

Lemma recover_rebase_moved b s : moved 2 s (recover_rebase M m2j b s).2.
Proof.
  unfold recover_rebase. moved_run. all: apply recover_resync_moved.
Qed.

Lemma recover_plain_moved s : moved 2 s (recover_plain M m2j s).2.
Proof.
  unfold recover_plain, esp_sdio_reenable_func. moved_run.
  all: eapply moved_core_l; [|apply recover_rebase_moved || apply recover_slave_reset_moved]; core_back.
Qed.

(** A won claim is a recovery request of its own. *)
Lemma claim_asks s : asks 1 s (esp_sdio_claim_reset_locked s).2.
Proof.
  unfold esp_sdio_claim_reset_locked. cbv zeta.
  case_match; [by apply (asks_mono 0), asks_core|].
  case_match; [by apply (asks_mono 0), asks_core, on_tr_core|]. cbn [snd].
  assert (Hf : forall f, transport_owned f = false ->
    flag f (set_flag ESP_FW_RESET_EXPECTED (set_flag ESP_FW_RECOVERY_PENDING (ad s))) =
    bool_decide (f = ESP_FW_RECOVERY_PENDING) || flag f (ad s)).
  { intros f Hf. rewrite !flag_set_flag, (bool_decide_false (ESP_FW_RESET_EXPECTED = f)) by (by intros <-).
    cbn. f_equal. apply bool_decide_ext. naive_solver. }
  constructor; try done.
  - intros Hg Hk. change (fw_recovery_gen (ad s) <= u32 (fw_recovery_gen (ad s) + 1) <= fw_recovery_gen (ad s) + 1).
    rewrite wrap_id by (unfold in_width; lia). lia.
  - intros _. by apply Hf.
  - intros _. by apply Hf.
  - intros f Ho Hp. etrans; [by apply Hf|]. by rewrite bool_decide_false.
Qed.

Lemma epoch_barrier_core s : same_core s (esp_sdio_epoch_barrier s).
Proof. unfold esp_sdio_epoch_barrier. core_back. Qed.
#[local] Hint Resolve epoch_barrier_core recover_soft_core : recovery_core.

Lemma recover_sdio_moved s : moved 3 s (esp_sdio_recover_transport M m2j j2m s).2.
Proof.
  unfold esp_sdio_recover_transport.
  do 3 (case_match; [by apply moved_core|]). cbv zeta. set (s0 := on_tr _ s).
  pose proof (claim_asks s0) as Hk. destruct (esp_sdio_claim_reset_locked s0) as [c s1]. cbn [snd] in Hk.
  assert (Hm1 : moved 1 s s1) by (eapply moved_core_l; [apply on_tr_core|by apply moved_asks]).
  apply (moved_trans 1 2 _ s1); [done|]. clearbody s0.
  assert (Hm2 : forall s', same_core s1 s' -> moved 2 s1 s') by (intros; by apply moved_core).
  set (s2 := esp_sdio_epoch_barrier _). assert (Hs2 : same_core s1 s2) by (subst s2; core_back).
  clearbody s2.
  destruct c; cbn [andb]; [|destruct (reconstruction_success _); [by apply Hm2|]; case_match|..].
  1, 3: by eapply moved_core_l, recover_plain_moved.
  - apply Hm2. cbn [snd]. core_back.
  - by eapply moved_core_l, hard_reset_moved.
  - apply Hm2. core_back.
Qed.

(** C6: The SDIO transport keeps the recovery code's contract.  Its operation
    table satisfies the interface the recovery theorems are proved against:
    whatever the card and the MMC core do, [reset_target] files at most one
    recovery request, [recover_transport] - through the claim of a reset, the
    handshakes, the full-chip reset and its fall-backs - files a bounded number of
    requests and spends the reset budget only through the counted restart, and the
    other operations leave the recovery state alone. *)
Theorem sdio_implements_interface : IfOpsLaws (sdio_ops M m2j j2m).
Proof.
  split; [split|..].
  - intros f s [= <-]. apply on_tr_core.
  - intros f s [= <-]. apply reset_target_sdio.
  - intros x s. apply slave_intr_core.
  - intros f s [= <-]. apply (moved_mono 3); [done|]. apply recover_sdio_moved.
  - done.
  - intros f s [= <-]. apply on_tr_core.
Qed.

(** ** Reset requests under interleaving

    The statics of the reset budget are touched only in the lock regions below;
    other threads run between them.  The commit of a new incarnation raises
    [fw_boot_commit_epoch] before its callback reaches the transport. *)

Definition same_intent d d' : Prop :=
  hard_reset_requested d' = hard_reset_requested d /\ soft_reset_requested d' = soft_reset_requested d /\
  reset_request_epoch d' = reset_request_epoch d /\ soft_reset_attempts d' = soft_reset_attempts d /\
  soft_reset_budget_epoch d' = soft_reset_budget_epoch d /\ hard_reset_deadline d' = hard_reset_deadline d.

Inductive ievent :=
  | IE_target (ret : Z) | IE_arm (ok : bool) | IE_take (ok : bool) | IE_claim (c : esp_sdio_reset_claim)
  | IE_hard (full : bool) (deadline : option Z) | IE_epoch | IE_commit | IE_remove | IE_env.

(** [esp_remove] forgets the requests with the budget. *)
Definition remove_intent d : sdio H :=
  esp_sdio_soft_reset_budget_drop (drop_reset_requests d <| reset_request_epoch := 0 |>).

Notation epoch s := (fw_boot_commit_epoch (ad s)).

Inductive istep : sys (sdio H) -> ievent -> sys (sdio H) -> Prop :=
  | is_target s r s' : esp_sdio_reset_target M m2j s = (r, s') -> istep s (IE_target r) s'
  | is_arm s ok d : esp_sdio_soft_reset_budget_arm (ad s) (tr s) = (ok, d) ->
      istep s (IE_arm ok) (on_tr (fun _ => d) s)
  | is_take s ok d : esp_sdio_soft_reset_budget_take (ad s) (tr s) = (ok, d) ->
      istep s (IE_take ok) (on_tr (fun _ => d) s)
  | is_claim s c s' : esp_sdio_claim_reset_locked s = (c, s') -> istep s (IE_claim c) s'
  | is_hard s full active issue d : claim_hard_reset full (ad s) (tr s) = (active, (issue, d)) ->
      istep s (IE_hard full (if issue then Some (fw_boot_deadline (ad s)) else None)) (on_tr (fun _ => d) s)
  | is_epoch s a : fw_boot_commit_epoch a = u32 (epoch s + 1) -> istep s IE_epoch (s <| ad := a |>)
  | is_commit s : istep s IE_commit (esp_sdio_commit_fw_recovery s)
  | is_remove s : istep s IE_remove (on_tr remove_intent s)
  | is_env s s' : epoch s' = epoch s -> same_intent (tr s) (tr s') -> istep s IE_env s'.

(** Traces, latest event first. *)
Inductive irun (s0 : sys (sdio H)) : list ievent -> sys (sdio H) -> Prop :=
  | irun_nil : irun s0 [] s0
  | irun_step es s e s' : irun s0 es s -> istep s e s' -> irun s0 (e :: es) s'.

(** Software resets granted to the current incarnation of this binding. *)
Fixpoint granted (es : list ievent) : Z :=
  match es with
  | [] => 0
  | IE_epoch :: _ => 0
  | IE_remove :: _ => 0
  | IE_take true :: es => 1 + granted es
  | _ :: es => granted es
  end.

(** A reset was requested since the current incarnation was committed. *)
Fixpoint requested_now (es : list ievent) : bool :=
  match es with
  | [] => false
  | IE_epoch :: _ => false
  | IE_target r :: es => (r =? 0) || requested_now es
  | IE_arm ok :: es => ok || requested_now es
  | _ :: es => requested_now es
  end.

Fixpoint epochs (es : list ievent) : Z :=
  match es with [] => 0 | IE_epoch :: es => 1 + epochs es | _ :: es => epochs es end.

(** The boot deadlines for which the card was power-cycled, latest first. *)
Fixpoint power_cycles (es : list ievent) : list Z :=
  match es with
  | [] => []
  | IE_hard _ (Some t) :: es => t :: power_cycles es
  | _ :: es => power_cycles es
  end.

Fixpoint consecutive_differ (l : list Z) : Prop :=
  match l with
  | x :: ((y :: _) as r) => x <> y /\ consecutive_differ r
  | _ => True
  end.

Definition bound_state s : Prop :=
  epoch s = 0 /\ hard_reset_requested (tr s) = false /\ soft_reset_requested (tr s) = false /\
  reset_request_epoch (tr s) = 0 /\ soft_reset_attempts (tr s) = 0 /\ soft_reset_budget_epoch (tr s) = 0 /\
  hard_reset_deadline (tr s) = 0.

Record iinv (es : list ievent) s : Prop := mk_iinv {
  ii_epoch : epoch s = epochs es;
  ii_epochs : 0 <= epochs es;
  ii_req : reset_request_epoch (tr s) <= epoch s;
  ii_armed : reset_request_epoch (tr s) = epoch s ->
    hard_reset_requested (tr s) || soft_reset_requested (tr s) = true -> requested_now es = true;
  ii_budget : soft_reset_budget_epoch (tr s) <= epoch s;
  ii_attempts : 0 <= soft_reset_attempts (tr s) <= ESP_FW_BOOT_MAX_ATTEMPTS;
  ii_granted : 0 <= granted es /\
    (if soft_reset_budget_epoch (tr s) =? epoch s then granted es <= soft_reset_attempts (tr s)
     else granted es = 0);
  ii_cycles : consecutive_differ (power_cycles es) /\ Forall (fun t => t <> 0) (power_cycles es) /\
    default 0 (head (power_cycles es)) = hard_reset_deadline (tr s)
}.

Lemma iinv_init s : bound_state s -> iinv [] s.
Proof.
  intros (E1 & E2 & E3 & E4 & E5 & E6 & E7). constructor; cbn; rewrite ?E1, ?E2, ?E3, ?E4, ?E5, ?E6, ?E7;
    unfold ESP_FW_BOOT_MAX_ATTEMPTS; try done; lia.
Qed.

(** Synchronising the budget with the current incarnation. *)
Lemma sync_spec a d :
  let d' := esp_sdio_reset_budget_sync_locked a d in
  soft_reset_budget_epoch d' = fw_boot_commit_epoch a /\
  soft_reset_attempts d' =
    (if soft_reset_budget_epoch d =? fw_boot_commit_epoch a then soft_reset_attempts d else 0) /\
  hard_reset_requested d' = hard_reset_requested d /\ soft_reset_requested d' = soft_reset_requested d /\
  reset_request_epoch d' = reset_request_epoch d /\ hard_reset_deadline d' = hard_reset_deadline d.
Proof.
  cbn zeta. unfold esp_sdio_reset_budget_sync_locked. destruct (_ =? _) eqn:E; bool_hyps; done.
Qed.

Lemma iinv_sync es s : iinv es s -> iinv es (on_tr (esp_sdio_reset_budget_sync_locked (ad s)) s).
Proof.
  intros [E1 E2 Hr Ha Hb Ht [Hg1 Hg2] Hc].
  destruct (sync_spec (ad s) (tr s)) as (F1 & F2 & F3 & F4 & F5 & F6).
  constructor; cbn [ad tr on_tr update]; rewrite ?F1, ?F2, ?F3, ?F4, ?F5, ?F6; try done.
  - case_match; [done|]. unfold ESP_FW_BOOT_MAX_ATTEMPTS. lia.
  - rewrite Z.eqb_refl. split; [done|]. case_match; lia.
Qed.

(** A step that changes nothing of the budget but the requests. *)
Lemma iinv_same e es s s' :
  iinv es s -> epoch s' = epoch s -> soft_reset_budget_epoch (tr s') = soft_reset_budget_epoch (tr s) ->
  soft_reset_attempts (tr s') = soft_reset_attempts (tr s) ->
  hard_reset_deadline (tr s') = hard_reset_deadline (tr s) ->
  epochs (e :: es) = epochs es -> granted (e :: es) = granted es -> power_cycles (e :: es) = power_cycles es ->
  reset_request_epoch (tr s') <= epoch s ->
  (reset_request_epoch (tr s') = epoch s ->
   hard_reset_requested (tr s') || soft_reset_requested (tr s') = true -> requested_now (e :: es) = true) ->
  iinv (e :: es) s'.
Proof.
  intros [E1 E2 Hr Ha Hb Ht Hg Hc] F1 F2 F3 F4 F5 F6 F7 F8 F9.
  constructor; rewrite ?F1, ?F2, ?F3, ?F4, ?F5, ?F6, ?F7; auto.
Qed.

Lemma schedule_intent s :
  epoch (schedule_fw_reset M m2j s) = epoch s /\ same_intent (tr s) (tr (schedule_fw_reset M m2j s)).
Proof.
  unfold schedule_fw_reset, esp_schedule_fw_reset_recovery, esp_schedule_recovery, same_intent.
  destruct (unloading_or_removing _); [done|]. cbn [note_ops note_fw_reset call_void].
  set (s1 := on_ad _ (on_ad _ _)).
  assert (H1 : epoch s1 = epoch s /\ same_intent (tr s) (tr s1)) by by unfold same_intent.
  clearbody s1. destruct H1 as [<- Hi]. unfold schedule_delayed_work, mod_delayed_work, esp_recovery_drop_tx_unlocked.
  destruct (flag _ _), (timer _); cbn; repeat case_match; done.
Qed.

Lemma istep_target es s r s' : iinv es s -> esp_sdio_reset_target M m2j s = (r, s') -> iinv (IE_target r :: es) s'.
Proof.
  intros HI. unfold esp_sdio_reset_target.
  assert (Hid : forall s1 e, iinv es s1 -> e <> 0 -> iinv (IE_target e :: es) s1).
  { intros s1 e HI1 He. apply (iinv_same _ es s1); try done; [apply (ii_req _ _ HI1)|].
    cbn. rewrite (proj2 (Z.eqb_neq e 0)) by done. apply (ii_armed _ _ HI1). }
  case_match; [intros [= <- <-]; by apply Hid|]. case_match; [intros [= <- <-]; by apply Hid|]. cbv zeta.
  pose proof (iinv_sync _ _ HI) as HI1. set (s1 := on_tr (esp_sdio_reset_budget_sync_locked (ad s)) s) in *.
  change (epoch s) with (epoch s1). clearbody s1.
  assert (Hgo : forall s2, epoch s2 = epoch s1 -> soft_reset_budget_epoch (tr s2) = soft_reset_budget_epoch (tr s1) ->
    soft_reset_attempts (tr s2) = soft_reset_attempts (tr s1) ->
    hard_reset_deadline (tr s2) = hard_reset_deadline (tr s1) -> reset_request_epoch (tr s2) = epoch s1 ->
    iinv (IE_target 0 :: es) (schedule_fw_reset M m2j s2)).
  { intros s2 F1 F2 F3 F4 F5. destruct (schedule_intent s2) as (G1 & G2 & G3 & G4 & G5 & G6 & G7).
    apply (iinv_same _ es s1); try done; try congruence. rewrite G4, F5. lia. }
  case_match; [intros [= <- <-]; by apply Hgo|]. case_match; [intros [= <- <-]; by apply Hid|].
  intros [= <- <-]. by apply Hgo.
Qed.

Lemma istep_inv es s e s' : epochs (e :: es) < 2 ^ 32 -> iinv es s -> istep s e s' -> iinv (e :: es) s'.
Proof.
  intros Hn HI Hs. destruct Hs as [s r s' E|s ok d E|s ok d E|s c s' E|s full active issue d E|s a E|s|s|s s' E Hi].
  - by eapply istep_target.
  - unfold esp_sdio_soft_reset_budget_arm in E. pose proof (iinv_sync _ _ HI) as HI1.
    set (s1 := on_tr (esp_sdio_reset_budget_sync_locked (ad s)) s) in *.
    change (esp_sdio_reset_budget_sync_locked (ad s) (tr s)) with (tr s1) in E.
    destruct (_ <? _) in E; injection E as <- <-; (eapply iinv_same; [exact HI1|..]); try done.
    + apply (ii_req _ _ HI1).
    + apply (ii_armed _ _ HI1).
  - unfold esp_sdio_soft_reset_budget_take in E. pose proof (iinv_sync _ _ HI) as HI1.
    destruct (sync_spec (ad s) (tr s)) as (F1 & _).
    set (s1 := on_tr (esp_sdio_reset_budget_sync_locked (ad s)) s) in *.
    change (esp_sdio_reset_budget_sync_locked (ad s) (tr s)) with (tr s1) in *.
    destruct (_ <? _) eqn:Elt in E; injection E as <- <-; bool_hyps.
    + destruct HI1 as [E1 E2 Hr Ha Hb Ht [Hg1 Hg2] Hc]. rewrite F1, Z.eqb_refl in Hg2.
      constructor; try done; cbn; change (esp_sdio_reset_budget_sync_locked (ad s) (tr s)) with (tr s1);
        rewrite ?F1, ?Z.eqb_refl; lia.
    + eapply iinv_same; [exact HI1|..]; try done; [apply (ii_req _ _ HI1)|apply (ii_armed _ _ HI1)].
  - unfold esp_sdio_claim_reset_locked in E. cbv zeta in E.
    repeat case_match; injection E as <- <-; (eapply iinv_same; [exact HI|..]); try done;
      first [apply (ii_req _ _ HI)|apply (ii_armed _ _ HI)].
  - unfold claim_hard_reset in E. destruct HI as [E1 E2 Hr Ha Hb Ht Hg (Hc1 & Hc2 & Hc3)].
    destruct (_ && _) eqn:Ec in E; injection E as <- <- <-; bool_hyps; constructor; try done.
    split_and!; [|constructor; [done|exact Hc2]|done]. cbn. destruct (power_cycles es) as [|y l] eqn:El; [done|].
    split; [|done]. cbn in Hc3. congruence.
  - destruct HI as [E1 E2 Hr Ha Hb Ht Hg Hc]. cbn in Hn.
    assert (Ea : fw_boot_commit_epoch a = epoch s + 1) by (rewrite E; apply wrap_id; unfold in_width; lia).
    constructor; cbn; rewrite ?Ea; try done; try lia.
    rewrite (proj2 (Z.eqb_neq _ _)) by lia. done.
  - unfold esp_sdio_commit_fw_recovery, esp_sdio_commit_reset_budget_locked. pose proof (iinv_sync _ _ HI) as HI1.
    set (s1 := on_tr (esp_sdio_reset_budget_sync_locked (ad s)) s) in *.
    set (s2 := on_tr (fun d => _) s).
    assert (Hs2 : s2 = on_tr (fun d => if reset_request_epoch d =? epoch s then d else
      d <| hard_reset_requested := false |> <| soft_reset_requested := false |>) s1) by done.
    rewrite Hs2. clear Hs2 s2. change (epoch s) with (epoch s1). clearbody s1.
    destruct (reset_request_epoch (tr s1) =? epoch s1) eqn:Er;
      (eapply iinv_same; [exact HI1|..]); try done; unfold on_tr; cbn; rewrite Er; try done;
      first [apply (ii_req _ _ HI1)|apply (ii_armed _ _ HI1)].
  - destruct HI as [E1 E2 Hr Ha Hb Ht Hg Hc]. constructor; cbn; try done; try lia.
    split; [done|]. by destruct (epoch s).
  - destruct Hi as (G1 & G2 & G3 & G4 & G5 & G6).
    eapply iinv_same; [exact HI|..]; try done; rewrite ?G1, ?G2, ?G3; [apply (ii_req _ _ HI)|apply (ii_armed _ _ HI)].
Qed.

Lemma irun_inv s0 es s : bound_state s0 -> irun s0 es s -> epochs es < 2 ^ 32 -> iinv es s.
Proof.
  intros H0. induction 1 as [|es s e s' Hr IH Hs]; intros Hn; [by apply iinv_init|].
  apply (istep_inv _ s); [done| |done]. apply IH. destruct e; cbn in Hn; lia.
Qed.

(** Reset requests are bounded and belong to one firmware incarnation.  In any
    interleaving of the reset regions - requests, the recovery worker's claim,
    grants, power cycles, commits of a new incarnation with their late callback, and
    removal - an incarnation is granted at most [ESP_FW_BOOT_MAX_ATTEMPTS] software
    resets; the card is power-cycled at most once while a boot deadline is armed,
    and never without one; and a claim that wins was requested in the running
    incarnation, finds it unhealthy, consumes every request, and quarantines it: a
    reconstruction begun before the claim can no longer commit. *)
Theorem sdio_resets_bounded ops s0 es s :
  bound_state s0 -> irun s0 es s -> epochs es < 2 ^ 32 ->
  granted es <= ESP_FW_BOOT_MAX_ATTEMPTS /\
  consecutive_differ (power_cycles es) /\ Forall (fun t => t <> 0) (power_cycles es) /\
  (forall c s', esp_sdio_claim_reset_locked s = (c, s') -> c = ESP_SDIO_RESET_HARD \/ c = ESP_SDIO_RESET_SOFT ->
     requested_now es = true /\ reconstruction_success (ad s) = false /\
     hard_reset_requested (tr s') = false /\ soft_reset_requested (tr s') = false /\
     (fw_reconstruct_gen (ad s) <> u32 (fw_recovery_gen (ad s) + 1) ->
      epoch (esp_finish_reconstruction ops (esp_commit_reconstruction m2j s')) = epoch s)).
Proof.
  intros H0 Hr Hn. pose proof (irun_inv _ _ _ H0 Hr Hn) as [E1 E2 Hq Ha Hb Ht [Hg1 Hg2] (Hc1 & Hc2 & Hc3)].
  split_and!; [|done|done|]. { case_match; lia. }
  intros c s'. unfold esp_sdio_claim_reset_locked. cbv zeta.
  destruct (negb _ && negb _) eqn:Eno; [intros [= <- <-]; naive_solver|].
  destruct (negb (_ =? _) || _) eqn:Est; [intros [= <- <-]; naive_solver|]. intros E _.
  injection E as _ <-.
  apply orb_false_iff in Est as [Eep Ehe]. bool_hyps. split_and!; try done.
  { apply Ha; [done|]. by destruct (hard_reset_requested _), (soft_reset_requested _). }
  intros Hgen. set (a := ad s) in *.
  set (a1 := set_flag ESP_FW_RESET_EXPECTED (set_flag ESP_FW_RECOVERY_PENDING a)
    <| fw_recovery_gen := u32 (fw_recovery_gen a + 1) |>).
  assert (Hp : flag ESP_FW_RECOVERY_PENDING a1 = true).
  { rewrite (flag_eq _ a1 (set_flag ESP_FW_RESET_EXPECTED (set_flag ESP_FW_RECOVERY_PENDING a))) by done.
    by rewrite !flag_set_flag. }
  unfold esp_commit_reconstruction. cbn [ad on_ad on_tr update]. 
  set (s2 := if negb _ then _ else _).
  assert (flag ESP_FW_RECOVERY_PENDING (ad s2) = true /\ epoch s2 = epoch s) as [Hp2 Ee].
  { subst s2. match goal with |- context [negb (?x =? ?y)] =>
      change x with (u32 (fw_recovery_gen a + 1)); change y with (fw_reconstruct_gen a) end.
    rewrite (proj2 (Z.eqb_neq _ _)) by congruence. cbn [negb]. split; [|done].
    change (flag ESP_FW_RECOVERY_PENDING (clear_flag ESP_ALLOW_RECONSTRUCT (set_flag ESP_INIT_DONE a1)) = true).
    by rewrite flag_clear_flag, flag_set_flag, Hp. }
  unfold esp_finish_reconstruction, reconstruction_success. by rewrite Hp2, andb_false_r.
Qed.

(** ** The waits end by their deadline

    With sleeps that end within 2^62 ticks, the fuel of the two polling loops is
    never what ends them. *)
Section Waits.
Context (late_ok : forall h, Z.of_nat (late M h).1 < 2 ^ 62).

(** Ticks left until [deadline]. *)
Definition left (deadline : Z) s : Z := u64 (deadline - jiffies s).

Lemma sleep_progress n deadline s :
  0 <= n < 2 ^ 62 -> in_width 64 (jiffies s) -> in_width 64 deadline -> left deadline s <= 2 ^ 62 ->
  let s' := pass_time M n s in
  in_width 64 (jiffies s') /\
  (time_after_eq (jiffies s') deadline = true \/ left deadline s' <= left deadline s - n).
Proof.
  intros Hn Hj Hd Hl. cbn zeta. unfold pass_time, on_hw. pose proof (late_ok (hw (tr s))) as Hk.
  destruct (late M (hw (tr s))) as [k h]. cbn [fst] in Hk.
  change (jiffies (update jiffies (fun _ => ?x) _)) with x. cbn [jiffies on_tr update].
  split; [by apply wrap_range|]. unfold left. cbn. rewrite <- Z.add_assoc.
  destruct (ticks_progress (n + Z.of_nat k) deadline (jiffies s)) as [|Hp]; [lia|by left|right; lia].
Qed.

Lemma read_reg8_jiffies r s : jiffies (esp_read_reg8 M r s).2 = jiffies s.
Proof.
  unfold esp_read_reg8, esp_read_byte, on_hw. case_match; [done|]. by destruct (sdio_readb M _ _).
Qed.

(** More fuel changes nothing. *)
Lemma wait_done_fuel fuel extra deadline gen s :
  0 <= m2j 5 < 2 ^ 61 -> in_width 64 (jiffies s) -> in_width 64 deadline -> left deadline s <= 2 ^ 62 ->
  left deadline s <= Z.of_nat fuel ->
  wait_done_loop M m2j (fuel + extra) deadline gen s = wait_done_loop M m2j fuel deadline gen s.
Proof.
  intros Hm. revert s. induction fuel as [|fuel IH]; intros s Hj Hd Hl Hf; [destruct extra as [|extra]; [done|]|].
  all: cbn [wait_done_loop Nat.add]; pose proof (read_reg8_jiffies ESP_SDIO_RESET_DONE_REG s) as Ej;
    destruct (esp_read_reg8 M ESP_SDIO_RESET_DONE_REG s) as [[ret done] s1]; cbn [snd] in Ej.
  all: assert (Hl1 : left deadline s1 = left deadline s) by (unfold left; by rewrite Ej).
  all: destruct (sleep_progress (m2j 5 + 1) deadline s1) as [Hj2 Hp]; [lia|by rewrite Ej|done|lia|];
    fold (msleep M m2j 5 s1) in *; destruct (_ && _); [done|].
  - destruct Hp as [->|Hp]; [done|].
    pose proof (wrap_range 64 (deadline - jiffies (msleep M m2j 5 s1)) ltac:(lia)) as [? _].
    unfold left in *. lia.
  - destruct (time_after_eq _ _) eqn:Et; [done|].
    destruct Hp as [Hp|Hp]; [congruence|]. apply IH; auto; lia.
Qed.
Lemma on_hw_jiffies {A} (f : H -> A * H) s : jiffies (on_hw f s).2 = jiffies s.
Proof. unfold on_hw. by destruct (f (hw (tr s))). Qed.

Lemma left_zero deadline s : left deadline s = 0 -> in_width 64 (jiffies s) -> in_width 64 deadline ->
  time_after_eq (jiffies s) deadline = true.
Proof.
  unfold left, in_width. intros H0 Hj Hd. apply Z.ltb_lt. unfold wrap in *.
  assert (deadline = jiffies s) as -> by (Z.to_euclidean_division_equations; nia).
  by rewrite Z.sub_diag.
Qed.

Lemma reenable_jiffies x s :
  jiffies (esp_sdio_reenable_func_timeout M x s).2 = jiffies s \/
  exists s1, jiffies s1 = jiffies s /\
    jiffies (esp_sdio_reenable_func_timeout M x s).2 = jiffies (pass_time M 0 s1).
Proof.
  unfold esp_sdio_reenable_func_timeout. do 2 (case_match; [by left|]). cbv zeta.
  set (t := if negb (x =? 0) then _ else _).
  pose proof (on_hw_jiffies (sdio_enable_func M t) s) as E1. destruct (on_hw _ s) as [r1 s1]. cbn [snd] in E1.
  right. exists s1. split; [done|]. set (s2 := pass_time M 0 s1). clearbody s2.
  set (r2 := if r1 =? 0 then _ else _). assert (E2 : jiffies r2.2 = jiffies s2)
    by (subst r2; destruct (r1 =? 0); [apply on_hw_jiffies|done]).
  destruct r2 as [r3 s3]. cbn [snd] in E2. case_match; [done|].
  set (s4 := if irq_claimed _ then _ else _). assert (E4 : jiffies s4 = jiffies s3) by (subst s4; by case_match).
  pose proof (on_hw_jiffies (sdio_claim_irq M) s4) as E5. destruct (on_hw _ s4) as [r5 s5]. cbn [snd] in *.
  case_match; [change (jiffies s5 = jiffies s2)|]; congruence.
Qed.

Lemma wait_reenable_fuel fuel extra deadline ret s :
  (forall n, 0 <= n -> 0 <= m2j n < 2 ^ 61) -> (forall n, 0 < n -> 0 < j2m n) ->
  in_width 64 (jiffies s) -> in_width 64 deadline ->
  time_after_eq (jiffies s) deadline = true \/ (left deadline s <= Z.of_nat fuel /\ left deadline s <= 2 ^ 62) ->
  wait_reenable_loop M m2j j2m (fuel + extra) deadline ret s = wait_reenable_loop M m2j j2m fuel deadline ret s.
Proof.
  intros Hm Hj. revert ret s. induction fuel as [|fuel IH]; intros ret s Hw Hd Hf.
  { destruct extra; [done|]. cbn [wait_reenable_loop Nat.add]. destruct Hf as [->|[Hf _]]; [done|].
    rewrite left_zero; [done| |done|done].
    pose proof (wrap_range 64 (deadline - jiffies s) ltac:(lia)) as [? _]. unfold left in *. lia. }
  cbn [wait_reenable_loop Nat.add]. destruct (time_after_eq (jiffies s) deadline) eqn:Et; [done|].
  destruct Hf as [Hf|[Hf Hl]]; [done|]. cbv zeta. set (x := Z.min _ _).
  pose proof (reenable_jiffies x s) as Hre. destruct (esp_sdio_reenable_func_timeout M x s) as [r1 s1].
  cbn [snd] in Hre. case_match; [done|]. case_match; [done|].
  assert (Hs1 : in_width 64 (jiffies s1) /\
    (time_after_eq (jiffies s1) deadline = true \/ left deadline s1 <= left deadline s)).
  { destruct Hre as [E|(s0 & E0 & E)]; [split; [by rewrite E|right; unfold left; rewrite E; lia]|].
    rewrite E. destruct (sleep_progress 0 deadline s0) as [Hj2 Hp]; unfold left in *; rewrite ?E0; auto; [lia|].
    split; [done|]. rewrite E0 in Hp. destruct Hp; [by left|right]. rewrite E. lia. }
  destruct Hs1 as [Hw1 Hs1]. destruct (time_after_eq (jiffies s1) deadline) eqn:Et1; [done|].
  destruct Hs1 as [|Hs1]; [done|]. fold (left deadline s1).
  assert (Hpos : 0 < left deadline s1).
  { pose proof (wrap_range 64 (deadline - jiffies s1) ltac:(lia)) as [? _].
    destruct (decide (left deadline s1 = 0)) as [E|]; [|unfold left in *; lia].
    rewrite left_zero in Et1; done. }
  set (sl := Z.min _ _). pose proof (Hj _ Hpos). assert (0 < sl) by (unfold sl, ESP_SDIO_REBOOT_READY_RETRY_MS; lia).
  rewrite (proj2 (Z.eqb_neq sl 0)) by lia. pose proof (Hm sl ltac:(lia)).
  destruct (sleep_progress (m2j sl + 1) deadline s1) as [Hj2 Hp]; [lia|done|done|lia|].
  fold (msleep M m2j sl s1) in *. apply IH; auto. destruct Hp; [by left|right; lia].
Qed.
End Waits.
End Laws.

(** ** A concrete card *)

(** A card that acknowledges everything: registers are bytes by address. *)
Definition demo_mmc : mmc (gmap Z Z) :=
  mk_mmc (fun r h => ((0, default 0 (h !! r)), h)) (fun r h => ((0, default 0 (h !! r)), h))
    (fun r v h => (0, <[r := v]> h)) (fun v r h => (0, <[r := v]> h)) (fun _ n h => ((0, replicate (Z.to_nat n) 0), h)) (fun _ _ h => (0, h))
    (fun _ h => (0, h)) id (fun _ h => (0, h)) (fun h => (0, h)) id (fun h => (0, h)) false false 0
    (fun h => (0%nat, h)) (fun h => (true, h)).

Definition demo_sdio : sdio (gmap Z Z) :=
  mk_sdio ∅ true true true [[]; []; []] [0; 0; 0] 0 [] 0 0 0 false 0 false false 0 true false
    false false false false 0 0 0 0 false 0 false 0 cmdq_zero.

(** Bound, not yet booted, one reset requested. *)
Definition demo_card : sys (sdio (gmap Z Z)) :=
  mk_sys (zero_adapter <| if_transport := ESP_IF_TYPE_SDIO |> <| if_context := true |>) demo_sdio 1000 None None 0.
Definition demo_asked : sys (sdio (gmap Z Z)) := (esp_sdio_reset_target demo_mmc (fun n => n) demo_card).2.

Lemma demo_card_bound : bound_state demo_card.
Proof. done. Qed.

Lemma sdio_resets_bounded_witness :
  granted [IE_target 0] <= 3 /\
  (esp_sdio_claim_reset_locked demo_asked).1 = ESP_SDIO_RESET_SOFT /\
  soft_reset_requested (tr (esp_sdio_claim_reset_locked demo_asked).2) = false.
Proof.
  assert (Hr : irun demo_mmc (fun n => n) demo_card [IE_target 0] demo_asked).
  { refine (irun_step _ _ _ _ _ _ _ (irun_nil _ _ _) _). apply is_target. by vm_compute. }
  destruct (sdio_resets_bounded demo_mmc (fun n => n) (sdio_ops demo_mmc (fun n => n) (fun n => n)) demo_card
    [IE_target 0] demo_asked demo_card_bound Hr ltac:(done)) as (Hg & _ & _ & Hc).
  assert (E : (esp_sdio_claim_reset_locked demo_asked).1 = ESP_SDIO_RESET_SOFT) by by vm_compute.
  split; [exact Hg|]. split; [exact E|]. destruct (esp_sdio_claim_reset_locked demo_asked) as [c s'] eqn:Es.
  destruct (Hc c s' eq_refl (or_intror E)) as (_ & _ & _ & Hs & _). exact Hs.
Defined.
