(* ===== verification/SdioFw.v ===== *)
(** * SdioFw: the firmware's end of the SDIO link

    The control worker of [sdio_slave_api.c] - admission of transmitters, the
    quiescing reset, the host's control bits with the generation handshake -, its
    two write paths, and the low-priority transmit path of [app_main.c], which
    packs frames into aggregates ([process_low_prio_tx_packets]).

    The ESP-IDF slave driver is a parameter: the results of its calls.  What
    other tasks do while a call waits enters where the call returns: the count of
    transmitters during a reset, the queue's new entries, [wake_host]. *)
From S2P Require Import Prelude Wire RcpFw FwPath.

(** ** State *)
Record sdio_fw := mk_sdio_fw {
  fa : fw_app;
  scratch0 : Z;                       (* written by the host: the generation *)
  scratch1 : Z;                       (* RESET_DONE *)
  s_sdio_host_events : Z;
  s_sdio_ctrl_stop : bool;
  s_sdio_tx_blocked : bool;
  s_sdio_tx_inflight : Z;
  s_sdio_tx_wait_idle : bool;
  link_up : bool;                     (* between sdio_slave_start and _stop *)
  low_prio_deferred : option buf_handle;
  raw_tp_tx_seq : Z;
  raw_tp_tx_failed_frames : Z;
  e2h_sent : list (list Z)            (* log: buffers the slave driver took *)
}.

#[export] Instance eta_sdio_fw : Eta sdio_fw := fun f =>
  mk_sdio_fw (fa f) (scratch0 f) (scratch1 f) (s_sdio_host_events f) (s_sdio_ctrl_stop f) (s_sdio_tx_blocked f)
    (s_sdio_tx_inflight f) (s_sdio_tx_wait_idle f) (link_up f) (low_prio_deferred f) (raw_tp_tx_seq f)
    (raw_tp_tx_failed_frames f) (e2h_sent f).

Definition sdio_fw_zero : sdio_fw := mk_sdio_fw app_zero 0 0 0 false false 0 false true None 0 0 [].

(** [esp_restart] does not return. *)
Definition esp_restart (f : sdio_fw) : sdio_fw := f <| fa := fa f <| restarting := true |> |>.

(** ** Admission of transmitters *)
Definition sdio_tx_try_admit (f : sdio_fw) : bool * sdio_fw :=
  if negb (s_sdio_tx_blocked f) && negb (s_sdio_ctrl_stop f)
  then (true, f <| s_sdio_tx_inflight := s_sdio_tx_inflight f + 1 |>) else (false, f).

(** The result: whether the idle semaphore is given. *)
Definition sdio_tx_release (f : sdio_fw) : bool * sdio_fw :=
  let f := if 0 <? s_sdio_tx_inflight f then f <| s_sdio_tx_inflight := s_sdio_tx_inflight f - 1 |> else f in
  ((s_sdio_tx_inflight f =? 0) && s_sdio_tx_wait_idle f, f).

(** *** What surrounds a transmission

    The build, the raw-throughput run, the magic-packet filters, and what the
    slave driver, the allocator and the semaphores answer for a buffer. *)
Record wow_filter := mk_wow {
  magic_pkt : bool;
  mac_list : list (list Z);
  ip_address : list Z;
  dev_mac : list Z
}.

Record tx_env := mk_tx_env {
  aggr_size : Z;                        (* SDIO_TX_AGGR_SIZE *)
  sdio_checksum : bool;                 (* CONFIG_ESP_SDIO_CHECKSUM *)
  raw_tp_run : Z -> bool;               (* debug_raw_tp_is_run_active *)
  wow : wow_filter;
  wake_host : sdio_fw -> sdio_fw;
  small_tx_dma_buf : bool;
  payload_addr : buf_handle -> Z;
  dma_capable : buf_handle -> bool;
  dma_malloc : buf_handle -> bool;
  serial_taken : bool;
  slave_transmit : list Z -> Z;
  send_queue : list Z -> Z;
  send_finished : list Z -> Z * bool    (* result, and whether the cookie is ours *)
}.

Section Transmit.
Context (e : tx_env).

Definition sent (buf : list Z) (f : sdio_fw) : sdio_fw := f <| e2h_sent := e2h_sent f ++ [buf] |>.

Definition sdio_transmit_admitted (buf : list Z) (f : sdio_fw) : Z * sdio_fw :=
  if negb (serial_taken e) then (ESP_ERR_INVALID_STATE, f)
  else
    let '(ok, f) := sdio_tx_try_admit f in
    if negb ok then (ESP_ERR_INVALID_STATE, f)
    else
      let ret := slave_transmit e buf in
      let f := if ret =? ESP_OK then sent buf f else f in
      (ret, (sdio_tx_release f).2).

(** The second result: the driver still owns the buffer. *)
Definition sdio_transmit_admitted_timeout (buf : list Z) (f : sdio_fw) : Z * bool * sdio_fw :=
  if negb (serial_taken e) then (ESP_ERR_TIMEOUT, false, f)
  else
    let '(ok, f) := sdio_tx_try_admit f in
    if negb ok then (ESP_ERR_INVALID_STATE, false, f)
    else
      let ret := send_queue e buf in
      if negb (ret =? ESP_OK) then (ret, false, (sdio_tx_release f).2)
      else
        let '(ret, ours) := send_finished e buf in
        if (ret =? ESP_OK) && ours then (ESP_OK, false, (sdio_tx_release (sent buf f)).2)
        else (if ret =? ESP_OK then ESP_ERR_INVALID_STATE else ret, true, (sdio_tx_release f).2).

(** *** Frames *)
Definition debug_raw_tp_set_seq (seq : Z) (h : esp_payload_header) : esp_payload_header :=
  mk_header (if_type h) (if_num h) (u8 seq) (packet_type h) (u8 (Z.shiftr seq 8)) (len h) (offset h) (checksum h)
    (u8 (Z.shiftr seq 16)) (u8 (Z.shiftr seq 24)).

(** The header both write paths fill in, field by field; the bit fields hold four
    bits. *)
Definition e2h_header (b : buf_handle) (wire_offset seq : Z) : esp_payload_header :=
  let h := mk_header (wrap 4 (bh_if_type b)) (wrap 4 (bh_if_num b)) 0 (u8 (bh_pkt_type b)) 0
             (u16 (zlen (bh_payload b))) (u16 wire_offset) 0 (u8 (bh_flag b)) 0 in
  if if_type h =? if_code ESP_TEST_IF then debug_raw_tp_set_seq seq h else h.

Lemma e2h_header_wf b off seq : in_width 16 off -> header_wf (e2h_header b off seq).
Proof.
  intros Ho. assert (W : forall w z, 0 <= w -> in_width w (wrap w z)) by (intros; by apply wrap_range).
  assert (W8 : forall z, is_byte (u8 z)) by (intros z; apply (wrap_range 8 z); lia).
  unfold e2h_header. destruct (_ =? _); unfold header_wf, debug_raw_tp_set_seq; cbn;
    repeat split; try apply W8; try apply W; try done; lia.
Qed.

(** The fields that raw-throughput numbering leaves alone. *)
Lemma e2h_header_fields b off seq :
  let h := e2h_header b off seq in
  if_type h = wrap 4 (bh_if_type b) /\ if_num h = wrap 4 (bh_if_num b) /\ packet_type h = u8 (bh_pkt_type b) /\
  len h = u16 (zlen (bh_payload b)) /\ offset h = u16 off /\ checksum h = 0.
Proof. unfold e2h_header. by destruct (_ =? _). Qed.

(** The buffer starts on a word, so the checksum has no unaligned prefix. *)
Definition e2h_frame (b : buf_handle) (wire_offset seq : Z) : list Z :=
  let h := e2h_header b wire_offset seq in
  let tail := replicate (Z.to_nat (wire_offset - sizeof_header)) 0 ++ bh_payload b in
  let frame := encode_header h ++ tail in
  if sdio_checksum e
  then encode_header (h <| checksum := compute_checksum false 0 frame (zlen frame) |>) ++ tail
  else frame.

(** *** [sdio_write]: one packet *)
Definition SDIO_SMALL_TX_BOUNCE_SIZE : Z := 2048.
Definition SDIO_DMA_ALIGNMENT_BYTES : Z := 4.
Definition ESP_HOSTED_RCP_TX_HEADROOM : Z := ESP_MAX_OFFSET_SIZE.

Definition IS_WIFI_DATA_PACKET (b : buf_handle) : bool :=
  (bh_pkt_type b =? pkt_code PACKET_TYPE_DATA)
  && ((bh_if_type b =? if_code ESP_STA_IF) || (bh_if_type b =? if_code ESP_AP_IF)).

Definition can_write (f : sdio_fw) : bool :=
  bool_decide (if_handle (fw_of (fa f)) = Some ACTIVE) && negb (power_save_on (fa f)).

(** Where the frame is built, as its offset: in the headroom of a Wi-Fi buffer,
    in the bounce buffer, or in an allocated copy; [None] has no buffer. *)
Definition sdio_write_offset (b : buf_handle) : option Z :=
  let align_padding := (SDIO_DMA_ALIGNMENT_BYTES - payload_addr e b mod SDIO_DMA_ALIGNMENT_BYTES)
                         mod SDIO_DMA_ALIGNMENT_BYTES in
  let sendbuf := payload_addr e b - sizeof_header - align_padding in
  if IS_WIFI_DATA_PACKET b && dma_capable e b && (Z.land sendbuf 3 =? 0)
  then Some (sizeof_header + align_padding)
  else if (small_tx_dma_buf e && (zlen (bh_payload b) + sizeof_header <=? SDIO_SMALL_TX_BOUNCE_SIZE))
          || dma_malloc e b
  then Some sizeof_header else None.

Definition sdio_write (b : buf_handle) (f : sdio_fw) : Z * sdio_fw :=
  let n := zlen (bh_payload b) in
  if negb (can_write f) then (ESP_FAIL, f)
  else if n =? 0 then (ESP_FAIL, f)
  else if bh_if_type b =? if_code ESP_RCP_IF then
    if negb (small_tx_dma_buf e) || (ESP_HOSTED_RCP_CHUNK_MAX <? n)
       || (SDIO_SMALL_TX_BOUNCE_SIZE <? ESP_HOSTED_RCP_TX_HEADROOM + n)
    then (ESP_ERR_INVALID_ARG, f)
    else
      let '(ret, _, f) :=
        sdio_transmit_admitted_timeout (e2h_frame b ESP_HOSTED_RCP_TX_HEADROOM (raw_tp_tx_seq f)) f in
      (if ret =? ESP_OK then n else ret, f)
  else
    match sdio_write_offset b with
    | None => (ESP_ERR_NO_MEM, f)
    | Some off =>
        let '(ret, f) := sdio_transmit_admitted (e2h_frame b off (raw_tp_tx_seq f)) f in
        (if ret =? ESP_OK then n else ret, f)
    end.

(** [process_tx_pkt] with this back end. *)
Definition debug_raw_tp_tx_complete (frame_count : Z) (f : sdio_fw) : sdio_fw :=
  f <| raw_tp_tx_seq := u32 (raw_tp_tx_seq f + frame_count) |>.
Definition debug_raw_tp_tx_failed (frame_count : Z) (f : sdio_fw) : sdio_fw :=
  f <| raw_tp_tx_failed_frames := u32 (raw_tp_tx_failed_frames f + frame_count) |>.

Definition on_app (g : fw_app -> fw_app) (f : sdio_fw) : sdio_fw := f <| fa := g (fa f) |>.
Definition with_fw (g : fw) (f : sdio_fw) : sdio_fw := on_app (on_fw (fun _ => g)) f.

Definition sdio_process_tx_pkt (b : buf_handle) (f : sdio_fw) : sdio_fw :=
  let '(written, f') := sdio_write b f in
  match process_tx_pkt true (raw_tp_run e) (fun _ => written) b (fw_of (fa f)) with
  | (None, g) => with_fw g f
  | (Some ret, g) =>
      let f := with_fw g f' in
      if bh_if_type b =? if_code ESP_TEST_IF then
        if ret =? zlen (bh_payload b) then debug_raw_tp_tx_complete 1 f else debug_raw_tp_tx_failed 1 f
      else f
  end.

(** *** Magic packets *)
Definition address_lookup (mac : list Z) : bool := existsb (fun m => bool_decide (m = mac)) (mac_list (wow e)).

Definition is_wakeup_needed (b : buf_handle) : bool :=
  let p := bh_payload b in
  if negb (0 <? zlen p) then false
  else if (42 <=? zlen p) && (byte_at 12 p =? 8) && (byte_at 13 p =? 6) then
    bool_decide (ztake 4 (zdrop 38 p) = ip_address (wow e))
  else if test_bit 0 (byte_at 0 p) then address_lookup (ztake 6 p)
  else bool_decide (dev_mac (wow e) = ztake 6 p).

(** *** Aggregates *)
Definition SDIO_TX_LATENCY_BYPASS_SIZE : Z := 256.

Definition sdio_write_aggr (buf : list Z) (f : sdio_fw) : Z * sdio_fw :=
  if zlen buf =? 0 then (ESP_FAIL, f)
  else if negb (can_write f) then (ESP_FAIL, f)
  else
    let '(ret, f) := sdio_transmit_admitted buf f in
    (if ret =? ESP_OK then zlen buf else ret, f).

Definition free_tx_buf_handle (b : buf_handle) (f : sdio_fw) : sdio_fw :=
  on_app (on_fw (free_buf_handle b)) f.

Definition to_host_low_of (f : sdio_fw) : list buf_handle := to_host_low (fw_of (fa f)).
Definition set_low (q : list buf_handle) (f : sdio_fw) : sdio_fw :=
  on_app (on_fw (fun g => g <| to_host_low := q |>)) f.

(** The next packet: the deferred one, or the head of the queue. *)
Definition low_prio_next (f : sdio_fw) : option (buf_handle * sdio_fw) :=
  match low_prio_deferred f, to_host_low_of f with
  | Some b, _ => Some (b, f <| low_prio_deferred := None |>)
  | None, b :: q => Some (b, set_low q f)
  | None, [] => None
  end.

(** A packet the loop discards: empty, larger than an aggregate, or of a
    raw-throughput run that is over. *)
Definition low_prio_dropped (b : buf_handle) : bool :=
  (zlen (bh_payload b) =? 0) || (aggr_size e <? zlen (bh_payload b) + sizeof_header)
  || ((bh_if_type b =? if_code ESP_TEST_IF) && negb (raw_tp_run e (bh_raw_tp_run_id b))).

Definition low_prio_bypass (b : buf_handle) : bool :=
  zlen (bh_payload b) <=? SDIO_TX_LATENCY_BYPASS_SIZE.

(** The frame with its padding to a word. *)
Definition low_prio_frame (b : buf_handle) (seq : Z) : list Z :=
  let frame := e2h_frame b sizeof_header seq in
  frame ++ replicate (Z.to_nat (align4 (zlen frame) - zlen frame)) 0.

Definition wake_for (b : buf_handle) (f : sdio_fw) : buf_handle * sdio_fw :=
  if power_save_on (fa f) && magic_pkt (wow e) && is_wakeup_needed b
  then (mk_bh (bh_if_type b) (bh_if_num b) 255 (bh_pkt_type b) (bh_payload b) (bh_raw_tp_run_id b) (bh_slot b),
        wake_host e f)
  else (b, f).

(** The packing loop; [arrivals] are the packets queued before each turn.
    The result: the aggregate, its raw-throughput frames, the state. *)
Fixpoint low_prio_loop (fuel : nat) (arrivals : list (list buf_handle)) (aggr : list Z) (raw : Z) (f : sdio_fw)
    : list Z * Z * sdio_fw :=
  match fuel with
  | O => (aggr, raw, f)
  | S fuel =>
      let f := set_low (to_host_low_of f ++ default [] (head arrivals)) f in
      match low_prio_next f with
      | None => (aggr, raw, f)
      | Some (b, f) =>
          if low_prio_dropped b then low_prio_loop fuel (tail arrivals) aggr raw (free_tx_buf_handle b f)
          else
            let aligned_len := align4 (zlen (bh_payload b) + sizeof_header) in
            if negb (zlen aggr =? 0) && (low_prio_bypass b || (aggr_size e <? zlen aggr + aligned_len))
            then (aggr, raw, f <| low_prio_deferred := Some b |>)
            else
              let '(b, f) := wake_for b f in
              let aggr := aggr ++ low_prio_frame b (u32 (raw_tp_tx_seq f + raw)) in
              let raw := if wrap 4 (bh_if_type b) =? if_code ESP_TEST_IF then raw + 1 else raw in
              let f := free_tx_buf_handle b f in
              if low_prio_bypass b then (aggr, raw, f) else low_prio_loop fuel (tail arrivals) aggr raw f
      end
  end.

(** [queued] packets, each handed to [process_tx_pkt]. *)
Fixpoint low_prio_each (queued : nat) (f : sdio_fw) : sdio_fw :=
  match queued, to_host_low_of f with
  | S queued, b :: q => low_prio_each queued (sdio_process_tx_pkt b (set_low q f))
  | _, _ => f
  end.

Definition low_prio_one (f : sdio_fw) : sdio_fw :=
  match low_prio_next f with Some (b, f) => sdio_process_tx_pkt b f | None => f end.

Definition low_prio_send (aggr : list Z) (raw : Z) (f : sdio_fw) : sdio_fw :=
  if zlen aggr =? 0 then f
  else
    let '(ret, f) := sdio_write_aggr aggr f in
    if raw =? 0 then f
    else if ret =? zlen aggr then debug_raw_tp_tx_complete raw f else debug_raw_tp_tx_failed raw f.

(** The packets that wait, in order; each turn of the loop takes one. *)
Definition low_prio_pending (f : sdio_fw) : list buf_handle :=
  option_list (low_prio_deferred f) ++ to_host_low_of f.
Definition low_prio_items (arrivals : list (list buf_handle)) (f : sdio_fw) : nat :=
  length (low_prio_pending f) + length (concat arrivals).

Definition process_low_prio_tx_packets (arrivals : list (list buf_handle)) (queued : nat) (aggr_buf : bool)
    (f : sdio_fw) : sdio_fw :=
  if (queued =? 0)%nat && negb (bool_decide (is_Some (low_prio_deferred f))) then f
  else if negb (datapath (fw_of (fa f))) then
    let f := match low_prio_deferred f with
             | Some b => sdio_process_tx_pkt b (f <| low_prio_deferred := None |>)
             | None => f
             end in
    low_prio_each queued f
  else if negb aggr_buf then low_prio_one f
  else
    let '(aggr, raw, f) := low_prio_loop (S (low_prio_items arrivals f)) arrivals [] 0 f in
    low_prio_send aggr raw f.

End Transmit.

(** ** The quiescing reset

    What the slave driver and the semaphores answer, by the number of the call
    within one reset; [inflight_after] is what the transmitters, unwinding, have
    made of their count by then. *)
Record ctrl_env := mk_ctrl_env {
  slave_reset : nat -> Z;
  idle_taken : nat -> bool;
  inflight_after : nat -> Z;
  tokens_dropped : bool;
  slave_start : Z;
  write_reg : Z;
  have_sem : bool
}.

Definition reset_fail (ret : Z) (f : sdio_fw) : Z * sdio_fw := (ret, f <| s_sdio_tx_wait_idle := false |>).

(** The passes that wait for transmitters: [inr] goes on, [inl] is an error. *)
Fixpoint drain_passes (e : ctrl_env) (passes n : nat) (f : sdio_fw) : (Z + unit) * sdio_fw :=
  match passes with
  | O => (inr tt, f <| s_sdio_tx_inflight := inflight_after e n |>)
  | S passes =>
      let f := f <| s_sdio_tx_inflight := inflight_after e n |> in
      let f := f <| s_sdio_tx_wait_idle := 0 <? s_sdio_tx_inflight f |> in
      if s_sdio_tx_inflight f =? 0 then (inr tt, f)
      else if idle_taken e n then drain_passes e passes (S n) f
      else
        let f := f <| link_up := false |> in
        if negb (slave_reset e (S n) =? ESP_OK) then (inl (slave_reset e (S n)), f)
        else drain_passes e passes (S n) f
  end.

Definition sdio_reset_hw_internal (e : ctrl_env) (restart_link : bool) (f : sdio_fw) : Z * sdio_fw :=
  let gen := scratch0 f in
  let f := f <| s_sdio_tx_blocked := true |> <| link_up := false |> in
  if negb (slave_reset e 0 =? ESP_OK) then reset_fail (slave_reset e 0) f
  else
    match drain_passes e 4 0 f with
    | (inl ret, f) => reset_fail ret f
    | (inr _, f) =>
        let f := f <| s_sdio_tx_wait_idle := false |> in
        if negb (s_sdio_tx_inflight f =? 0) then reset_fail ESP_ERR_TIMEOUT f
        else if negb restart_link then (ESP_OK, f)
        else if negb (slave_start e =? ESP_OK) then reset_fail (slave_start e) f
        else
          let f := f <| link_up := true |> in
          if negb (write_reg e =? ESP_OK) then reset_fail (write_reg e) f
          else
            let f := f <| scratch1 := gen |> <| s_sdio_tx_blocked := false |> in
            (ESP_OK, if tokens_dropped e
                     then esp_restart (f <| s_sdio_tx_blocked := true |> <| link_up := false |>) else f)
    end.

(** ** The host's control bits *)
Definition has_bit (b bits : Z) : bool := test_bit b bits.

(** The application's handler; [None] is a task that never returns. *)
Definition on_event (e : ctrl_env) (val : Z) (f : sdio_fw) : option sdio_fw :=
  (fun a => f <| fa := a |>) <$> event_handler (have_sem e) val (fa f).

Definition power_event (e : ctrl_env) (val : Z) (f : sdio_fw) : option sdio_fw :=
  (fun f => (sdio_reset_hw_internal e true f).2) <$> on_event e val f.

(** A step that runs only while the firmware is not restarting. *)
Definition unless_restarting (k : sdio_fw -> option sdio_fw) (f : sdio_fw) : option sdio_fw :=
  if restarting (fa f) then Some f else k f.

Definition when_bit (b bits : Z) (k : sdio_fw -> option sdio_fw) (f : sdio_fw) : option sdio_fw :=
  if has_bit b bits then unless_restarting k f else Some f.

Definition close_event (e : ctrl_env) (f : sdio_fw) : option sdio_fw :=
  on_event e ESP_CLOSE_DATA_PATH
    (if write_reg e =? ESP_OK then f <| scratch1 := scratch0 f |> else f).

Definition reset_event (e : ctrl_env) (f : sdio_fw) : option sdio_fw :=
  Some (esp_restart (sdio_reset_hw_internal e false f).2).

Definition sdio_process_host_bits (e : ctrl_env) (bits : Z) (f : sdio_fw) : option sdio_fw :=
  f ← when_bit ESP_CLOSE_DATA_PATH bits (close_event e) f;
  f ← when_bit ESP_RESET bits (reset_event e) f;
  f ← when_bit ESP_POWER_SAVE_ON bits (power_event e ESP_POWER_SAVE_ON) f;
  f ← when_bit ESP_POWER_SAVE_OFF bits (power_event e ESP_POWER_SAVE_OFF) f;
  when_bit ESP_OPEN_DATA_PATH bits (on_event e ESP_OPEN_DATA_PATH) f.

(** The slave driver's interrupt, and the worker it wakes. *)
Definition event_cb (val : Z) (f : sdio_fw) : sdio_fw :=
  if 32 <=? val then f else f <| s_sdio_host_events := set_bit val (s_sdio_host_events f) |>.

Definition sdio_ctrl_worker (e : ctrl_env) (f : sdio_fw) : option sdio_fw :=
  if s_sdio_ctrl_stop f || (s_sdio_host_events f =? 0) || restarting (fa f) then Some f
  else sdio_process_host_bits e (s_sdio_host_events f) (f <| s_sdio_host_events := 0 |>).

(** ** The ESP_RESET handshake

    [ESP_RESET] never publishes its generation. *)
Lemma drain_keeps e passes n f : scratch1 (drain_passes e passes n f).2 = scratch1 f.
Proof.
  revert n f. induction passes as [|passes IH]; intros n f; cbn [drain_passes]; [done|]. cbv zeta.
  repeat case_match; try done; by rewrite IH.
Qed.

Lemma quiesce_keeps_done e f : scratch1 (sdio_reset_hw_internal e false f).2 = scratch1 f.
Proof.
  unfold sdio_reset_hw_internal. cbv zeta. case_match; [done|].
  pose proof (drain_keeps e 4 0 (f <| s_sdio_tx_blocked := true |> <| link_up := false |>)) as Hk.
  destruct (drain_passes _ _ _ _) as [[r|u] f1]; cbn in Hk |- *; [done|]. by case_match.
Qed.

(** ** What an aggregate holds *)
Section Aggregates.
Context (e : tx_env).

(** [wake_host] waits; it takes no packet from the queue. *)
Definition wake_keeps : Prop :=
  forall f, low_prio_deferred (wake_host e f) = low_prio_deferred f /\
            to_host_low_of (wake_host e f) = to_host_low_of f /\
            e2h_sent (wake_host e f) = e2h_sent f.

(** The same packet, except for the wake-up mark. *)
Definition same_packet (b b' : buf_handle) : Prop :=
  bh_if_type b' = bh_if_type b /\ bh_if_num b' = bh_if_num b /\ bh_pkt_type b' = bh_pkt_type b /\
  bh_payload b' = bh_payload b /\ (bh_flag b' = bh_flag b \/ bh_flag b' = 255).

Definition frames_of (xs : list (buf_handle * Z)) : list (list Z) :=
  (fun x => low_prio_frame e x.1 x.2) <$> xs.

(** [seen] is what left the queue for good, [xs] what went into the aggregate. *)
Definition packed (seen : list buf_handle) (xs : list (buf_handle * Z)) : Prop :=
  Forall2 same_packet (filter (fun b => low_prio_dropped e b = false) seen) (fst <$> xs).

Lemma same_packet_refl b : same_packet b b.
Proof. unfold same_packet. tauto. Qed.

Lemma zlen_e2h_frame b off seq : sizeof_header <= off -> zlen (e2h_frame e b off seq) = zlen (bh_payload b) + off.
Proof.
  intros. unfold e2h_frame, sizeof_header in *.
  case_match; autorewrite with zlist; unfold sizeof_header; lia.
Qed.

Lemma zlen_low_prio_frame b seq :
  zlen (low_prio_frame e b seq) = align4 (zlen (bh_payload b) + sizeof_header).
Proof.
  unfold low_prio_frame. zlen_nonneg_all. rewrite zlen_app, zlen_replicate, zlen_e2h_frame by done.
  pose proof (align4_spec (zlen (bh_payload b) + sizeof_header)) as Ha.
  pose proof (zlen_nonneg (bh_payload b)). unfold sizeof_header in *. lia.
Qed.

Lemma wake_for_spec b f :
  wake_keeps ->
  let '(b', f') := wake_for e b f in
  same_packet b b' /\ low_prio_deferred f' = low_prio_deferred f /\ to_host_low_of f' = to_host_low_of f /\
  e2h_sent f' = e2h_sent f.
Proof.
  intros Hw. unfold wake_for. destruct (_ && _ && _); [|split; [apply same_packet_refl|done]].
  destruct (Hw f) as (? & ? & ?). split; [unfold same_packet; cbn; tauto|done].
Qed.

Lemma free_low b f :
  low_prio_pending (free_tx_buf_handle b f) = low_prio_pending f /\
  e2h_sent (free_tx_buf_handle b f) = e2h_sent f.
Proof.
  unfold low_prio_pending, free_tx_buf_handle, to_host_low_of, on_app, on_fw, free_buf_handle.
  by destruct (bh_slot b).
Qed.

Lemma low_prio_next_spec f :
  match low_prio_next f with
  | Some (b, f') => low_prio_pending f = b :: low_prio_pending f' /\ low_prio_deferred f' = None /\
                    e2h_sent f' = e2h_sent f
  | None => low_prio_pending f = []
  end.
Proof.
  unfold low_prio_next, low_prio_pending, set_low, to_host_low_of, on_app, on_fw.
  destruct (low_prio_deferred f) as [b|] eqn:Ed; [done|].
  destruct (to_host_low (fw_of (fa f))) as [|b q] eqn:Eq; cbn; [done|]. by rewrite Ed.
Qed.

(** Some turns of the loop: [seen] left the queue in order, [xs] went in, and
    only the packets of [arrived] joined meanwhile. *)
Definition low_prio_run (arrivals : list (list buf_handle)) (aggr : list Z) (f : sdio_fw)
    (aggr' : list Z) (f' : sdio_fw) : Prop :=
  exists seen xs arrived later,
    aggr' = aggr ++ concat (frames_of xs) /\ packed seen xs /\
    concat arrivals = arrived ++ later /\
    low_prio_pending f ++ arrived = seen ++ low_prio_pending f' /\
    e2h_sent f' = e2h_sent f /\ (zlen aggr <= aggr_size e -> zlen aggr' <= aggr_size e).

Lemma run_stop arrivals aggr f f' :
  low_prio_pending f' = low_prio_pending f -> e2h_sent f' = e2h_sent f -> low_prio_run arrivals aggr f aggr f'.
Proof.
  intros Hp Hs. exists [], [], [], (concat arrivals). cbn. rewrite !app_nil_r.
  split_and!; try done. apply Forall2_nil_2.
Qed.

Lemma set_low_pending q f :
  low_prio_pending (set_low (to_host_low_of f ++ q) f) = low_prio_pending f ++ q /\
  e2h_sent (set_low (to_host_low_of f ++ q) f) = e2h_sent f.
Proof. unfold low_prio_pending, set_low, to_host_low_of, on_app, on_fw. cbn. by rewrite app_assoc. Qed.

(** One more packet [b], of which [xs1] goes in. *)
Lemma run_turn arrivals aggr f f1 f2 b xs1 aggr1 aggr' f' :
  low_prio_pending f ++ default [] (head arrivals) = b :: low_prio_pending f1 ->
  low_prio_pending f2 = low_prio_pending f1 -> e2h_sent f2 = e2h_sent f ->
  aggr1 = aggr ++ concat (frames_of xs1) -> packed [b] xs1 ->
  (zlen aggr <= aggr_size e -> zlen aggr1 <= aggr_size e) ->
  low_prio_run (tail arrivals) aggr1 f2 aggr' f' -> low_prio_run arrivals aggr f aggr' f'.
Proof.
  intros Hp Hp2 Hs Ha Hk Hz (seen & xs & arrived & later & E1 & E2 & E3 & E4 & E5 & E6).
  exists (b :: seen), (xs1 ++ xs), (default [] (head arrivals) ++ arrived), later. split_and!.
  - rewrite E1, Ha. unfold frames_of. by rewrite fmap_app, concat_app, app_assoc.
  - unfold packed in *. rewrite fmap_app. change (b :: seen) with ([b] ++ seen). rewrite filter_app.
    by apply Forall2_app.
  - rewrite <- app_assoc, <- E3. by destruct arrivals.
  - rewrite app_assoc, Hp. cbn. f_equal. by rewrite <- Hp2.
  - by rewrite E5.
  - auto.
Qed.

Lemma packed_one b b' seq :
  low_prio_dropped e b = false -> same_packet b b' -> packed [b] [(b', seq)].
Proof. intros Hd Hs. unfold packed. rewrite filter_cons_True, filter_nil by done. cbn. constructor; [done|apply Forall2_nil_2]. Qed.

Lemma packed_none b : low_prio_dropped e b = true -> packed [b] [].
Proof. intros Hd. unfold packed. rewrite filter_cons_False, filter_nil by (rewrite Hd; done). apply Forall2_nil_2. Qed.

Lemma low_prio_loop_run fuel arrivals aggr raw f :
  wake_keeps -> aggr_size e mod 4 = 0 ->
  let '(aggr', _, f') := low_prio_loop e fuel arrivals aggr raw f in low_prio_run arrivals aggr f aggr' f'.
Proof.
  intros Hw H4. revert arrivals aggr raw f. induction fuel as [|fuel IH]; intros arrivals aggr raw f.
  { by apply run_stop. }
  cbn [low_prio_loop].
  destruct (set_low_pending (default [] (head arrivals)) f) as [Hq Hqs].
  set (f0 := set_low _ f) in *.
  pose proof (low_prio_next_spec f0) as Hn. destruct (low_prio_next f0) as [[b f1]|].
  2: { assert (default [] (head arrivals) = []) as Hd by (rewrite Hn in Hq; by destruct (low_prio_pending f)).
       apply run_stop; [|done]. by rewrite Hq, Hd, app_nil_r. }
  destruct Hn as (Hn & Hnd & Hns). rewrite Hq in Hn. rewrite Hqs in Hns.
  destruct (free_low b f1) as [Hf1 Hf2].
  destruct (low_prio_dropped e b) eqn:Ed.
  { specialize (IH (tail arrivals) aggr raw (free_tx_buf_handle b f1)).
    destruct (low_prio_loop _ _ _ _ _ _) as [[aggr' raw'] f'].
    apply (run_turn arrivals aggr f f1 (free_tx_buf_handle b f1) b [] aggr); try done.
    - by rewrite app_nil_r.
    - by apply packed_none. }
  cbv zeta. destruct (_ && _) eqn:Edef.
  { exists [], [], (default [] (head arrivals)), (concat (tail arrivals)). cbn. rewrite app_nil_r.
    split_and!; try done; [apply Forall2_nil_2|by destruct arrivals|].
    rewrite Hn. unfold low_prio_pending. cbn. by rewrite Hnd. }
  pose proof (wake_for_spec b f1 Hw) as Hk. destruct (wake_for e b f1) as [b' f2].
  destruct Hk as (Hsame & Hk1 & Hk2 & Hk3).
  destruct (free_low b' f2) as [Hg1 Hg2].
  cbv zeta. set (seq := u32 (raw_tp_tx_seq f2 + raw)).
  set (aggr1 := aggr ++ low_prio_frame e b' seq).
  set (raw1 := if wrap 4 (bh_if_type b') =? if_code ESP_TEST_IF then raw + 1 else raw).
  assert (Hz : zlen aggr <= aggr_size e -> zlen aggr1 <= aggr_size e).
  { intros Hz. subst aggr1. rewrite zlen_app, zlen_low_prio_frame.
    destruct Hsame as (_ & _ & _ & Hp & _). rewrite Hp.
    unfold low_prio_dropped in Ed. bool_hyps. apply andb_false_iff in Edef.
    pose proof (zlen_nonneg (bh_payload b)). pose proof (zlen_nonneg aggr). unfold sizeof_header in *.
    pose proof (align4_spec (zlen (bh_payload b) + 12) ltac:(lia)) as [Ha1 Ha2].
    destruct Edef as [Ez|Ez]; bool_hyps; [|lia]. rewrite Ez. divlia. }
  assert (Hrun : forall aggr' f',
    low_prio_run (tail arrivals) aggr1 (free_tx_buf_handle b' f2) aggr' f' -> low_prio_run arrivals aggr f aggr' f').
  { intros aggr' f'. apply (run_turn arrivals aggr f f1 (free_tx_buf_handle b' f2) b [(b', seq)]).
    - done.
    - rewrite Hg1. unfold low_prio_pending. by rewrite Hk1, Hk2.
    - by rewrite Hg2, Hk3.
    - cbn. by rewrite app_nil_r.
    - by apply packed_one.
    - done. }
  destruct (low_prio_bypass b'); [apply Hrun; by apply run_stop|].
  specialize (IH (tail arrivals) aggr1 raw1 (free_tx_buf_handle b' f2)).
  destruct (low_prio_loop _ _ _ _ _ _) as [[aggr' raw'] f']. by apply Hrun.
Qed.

(** The loop ends on its own: the fuel is never exhausted. *)
Lemma low_prio_loop_fuel fuel k arrivals aggr raw f :
  wake_keeps -> (low_prio_items arrivals f < fuel)%nat ->
  low_prio_loop e (fuel + k) arrivals aggr raw f = low_prio_loop e fuel arrivals aggr raw f.
Proof.
  intros Hw. revert arrivals aggr raw f. induction fuel as [|fuel IH]; intros arrivals aggr raw f Hf; [lia|].
  cbn [low_prio_loop Nat.add].
  destruct (set_low_pending (default [] (head arrivals)) f) as [Hq _]. set (f0 := set_low _ f) in *.
  pose proof (low_prio_next_spec f0) as Hn. destruct (low_prio_next f0) as [[b f1]|]; [|done].
  destruct Hn as (Hn & _). rewrite Hq in Hn. apply (f_equal length) in Hn.
  assert (Hi : forall f2, low_prio_pending f2 = low_prio_pending f1 -> (low_prio_items (tail arrivals) f2 < fuel)%nat).
  { intros f2 E. unfold low_prio_items in *. rewrite E. rewrite length_app in Hn. cbn in Hn.
    destruct arrivals as [|l arrivals]; cbn in *; rewrite ?length_app in Hf; lia. }
  destruct (low_prio_dropped e b); [apply IH, Hi, free_low|].
  cbv zeta. destruct (_ && _); [done|].
  pose proof (wake_for_spec b f1 Hw) as Hk. destruct (wake_for e b f1) as [b' f2].
  destruct Hk as (_ & Hk1 & Hk2 & _). destruct (free_low b' f2) as [Hg _]. cbv zeta.
  destruct (low_prio_bypass b'); [done|]. apply IH, Hi. rewrite Hg.
  unfold low_prio_pending. by rewrite Hk1, Hk2.
Qed.

(** One call with an open data path and an aggregate buffer. *)
Lemma process_low_prio_run arrivals queued f :
  wake_keeps -> aggr_size e mod 4 = 0 -> datapath (fw_of (fa f)) = true -> 0 <= aggr_size e ->
  let f' := process_low_prio_tx_packets e arrivals queued true f in
  exists seen xs arrived later,
    packed seen xs /\ concat arrivals = arrived ++ later /\
    low_prio_pending f ++ arrived = seen ++ low_prio_pending f' /\
    zlen (concat (frames_of xs)) <= aggr_size e /\
    (e2h_sent f' = e2h_sent f \/
     xs <> [] /\ e2h_sent f' = e2h_sent f ++ [concat (frames_of xs)]).
Proof.
  intros Hw H4 Hd Hz f'. subst f'. unfold process_low_prio_tx_packets. rewrite Hd. cbn [negb].
  destruct (_ && _).
  { exists [], [], [], (concat arrivals). cbn. rewrite app_nil_r.
    split_and!; try done; [apply Forall2_nil_2|by left]. }
  pose proof (low_prio_loop_run (S (low_prio_items arrivals f)) arrivals [] 0 f Hw H4) as Hr.
  destruct (low_prio_loop _ _ _ _ _ _) as [[aggr raw] f1].
  destruct Hr as (seen & xs & arrived & later & E1 & E2 & E3 & E4 & E5 & E6). cbn in E1, E6.
  assert (Hp : low_prio_pending (low_prio_send e aggr raw f1) = low_prio_pending f1 /\
    (e2h_sent (low_prio_send e aggr raw f1) = e2h_sent f1 \/
     aggr <> [] /\ e2h_sent (low_prio_send e aggr raw f1) = e2h_sent f1 ++ [aggr])).
  { clear. unfold low_prio_send. destruct (zlen aggr =? 0) eqn:Ez; [by split; [|left]|]. bool_hyps.
    assert (Ha : aggr <> []) by (by intros ->).
    unfold sdio_write_aggr. rewrite (proj2 (Z.eqb_neq _ _)) by done.
    destruct (negb (can_write f1)); [by repeat case_match; (split; [|left])|].
    unfold sdio_transmit_admitted, sdio_tx_try_admit, sdio_tx_release.
    repeat case_match; simplify_eq; try (by split; [|left]); by (split; [|right]). }
  destruct Hp as [Hp Hs]. exists seen, xs, arrived, later. rewrite Hp, <- E1.
  split_and!; [done|done|done|apply E6; by rewrite zlen_nil|].
  rewrite E5 in Hs. destruct Hs as [Hs|[Ha Hs]]; [by left|right]. split; [|done].
  intros ->. by rewrite E1 in Ha.
Qed.
End Aggregates.

(** ** A lost RCP packet *)

(** a failure to hand an RCP packet to the SDIO driver goes unnoticed.  The
    caller restarts the firmware only on a result that is not positive, and every
    ESP-IDF error code that [sdio_write] passes on - a timeout, a full queue, a
    blocked link - is positive: the bytes are not sent, the packet's slot goes
    back to the pool, the data path stays open and no fatal restart is scheduled,
    so the Spinel stream continues with a hole in it.  Only a closed interface,
    reported as [ESP_FAIL], is noticed. *)
Theorem sdio_rcp_failure_unnoticed e b f :
  bh_if_type b = if_code ESP_RCP_IF -> datapath (fw_of (fa f)) = true ->
  let f' := sdio_process_tx_pkt e b f in
  (can_write f = false ->
   fw_of (fa f') = free_buf_handle b (esp_hosted_rcp_fatal_restart (fw_of (fa f)))) /\
  (forall ret owns f1,
   can_write f = true -> small_tx_dma_buf e = true -> 0 < zlen (bh_payload b) <= ESP_HOSTED_RCP_CHUNK_MAX ->
   sdio_transmit_admitted_timeout e (e2h_frame e b ESP_HOSTED_RCP_TX_HEADROOM (raw_tp_tx_seq f)) f = (ret, owns, f1) ->
   0 < ret ->
   e2h_sent f' = e2h_sent f /\ fw_of (fa f') = free_buf_handle b (fw_of (fa f)) /\
   datapath (fw_of (fa f')) = true /\ s_rcp_fatal_pending (fw_of (fa f')) = s_rcp_fatal_pending (fw_of (fa f))).
Proof.
  intros Ht Hd f'. subst f'. unfold sdio_process_tx_pkt, process_tx_pkt, sdio_write. rewrite Ht, Hd.
  cbn [negb andb if_code Z.eqb Pos.eqb]. split.
  - intros Hc. rewrite Hc. reflexivity.
  - intros ret owns f1 Hc Hs Hl Et Hret. rewrite Hc, Hs. cbn [negb orb].
    unfold ESP_HOSTED_RCP_CHUNK_MAX in *. rewrite (proj2 (Z.eqb_neq _ _)), !(proj2 (Z.ltb_ge _ _))
      by (change ESP_HOSTED_RCP_TX_HEADROOM with 16; unfold SDIO_SMALL_TX_BOUNCE_SIZE; lia).
    cbn [orb]. rewrite Et. unfold ESP_OK. rewrite (proj2 (Z.eqb_neq ret 0)), (proj2 (Z.leb_gt ret 0)) by lia.
    cbn [negb andb].
    assert (Hf : forall g, datapath (free_buf_handle b g) = datapath g /\
      s_rcp_fatal_pending (free_buf_handle b g) = s_rcp_fatal_pending g)
      by (intros g; unfold free_buf_handle; by destruct (bh_slot b)).
    destruct (Hf (fw_of (fa f))) as [F1 F2]. split; [|split; [reflexivity|split; [by rewrite <- Hd|exact F2]]].
    change (e2h_sent f1 = e2h_sent f). revert Et. unfold sdio_transmit_admitted_timeout, sdio_tx_try_admit, sdio_tx_release.
    repeat case_match; intros Et; simplify_eq; bool_hyps; try done; unfold ESP_OK in *; lia.
Qed.

(** The host has stopped reading: the driver's completion times out. *)
Definition stalled_env : tx_env :=
  mk_tx_env 15872 true (fun _ => false) (mk_wow false [] [] []) id true (fun _ => 0) (fun _ => true) (fun _ => true)
    true (fun _ => ESP_OK) (fun _ => ESP_OK) (fun _ => (ESP_ERR_TIMEOUT, true)).
Definition stalled_fw : sdio_fw :=
  sdio_fw_zero <| fa := app_zero <| fw_of := fw_zero <| datapath := true |> <| if_handle := Some ACTIVE |>
                                                 <| s_rcp_fatal_task := true |> |> |>.
Definition stalled_pkt : buf_handle := mk_bh ESP_RCP_IF 0 0 PACKET_TYPE_DATA [126; 129; 2] 0 (Some 0).

Lemma sdio_rcp_failure_unnoticed_witness :
  let f' := sdio_process_tx_pkt stalled_env stalled_pkt stalled_fw in
  e2h_sent f' = [] /\ datapath (fw_of (fa f')) = true /\ s_rcp_fatal_pending (fw_of (fa f')) = false.
Proof.
  destruct (sdio_rcp_failure_unnoticed stalled_env stalled_pkt stalled_fw eq_refl eq_refl) as [_ Hp].
  assert (Hx : forall x : Z * bool * sdio_fw, x = (x.1.1, x.1.2, x.2)) by (intros [[] ]; reflexivity).
  destruct (Hp _ _ _ eq_refl eq_refl ltac:(vm_compute; split; congruence) (Hx _) ltac:(vm_compute; reflexivity))
    as (H1 & _ & H2 & H3).
  split; [exact H1|]. split; [exact H2|exact H3].
Defined.
