(* ===== verification/SdioRx.v ===== *)
(** * SdioRx: the receive path of the host's SDIO transport

    Of [host/sdio/esp_sdio.c]: the interrupt handler, the delayed re-sampling of
    [PACKET_LEN], and [read_packet] with the walk over an aggregate. *)
From S2P Require Import Prelude Wire Adapter Recovery RcpHost CmdQueue SdioHost.

Definition ESP_SDIO_PKT_LEN_ZERO_RETRIES : nat := 20.
Definition ESP_SDIO_PKT_LEN_DELAYED_RETRIES : Z := 32.
Definition ESP_RX_BUFFER_SIZE : Z := 15872.
Definition ESP_SLAVE_CMD53_END_ADDR : Z := 0x1F800.
Definition ESP_SLAVE_INT_ST_REG : Z := ESP_SLAVE_SLCHOST_BASE + 0x58.
Definition ESP_SLAVE_INT_CLR_REG : Z := ESP_SLAVE_SLCHOST_BASE + 0xD4.
Definition RX_NEW_PACKET_BIT : Z := 23.

Section Data.
Context {H : Type} (M : mmc H) (m2j : Z -> Z).
Implicit Types (s : sys (sdio H)) (d : sdio H).

Notation st := (sys (sdio H)).

(** ** Notifications *)
Definition rx_below_ready (a : esp_adapter) : bool :=
  context_code (state a) <? context_code ESP_CONTEXT_RX_READY.

Definition esp_handle_isr s : st :=
  if host_sleep (tr s) || rx_stopped (ad s) || rx_below_ready (ad s) then s
  else
    let '((ret, int_status), s) := on_hw (sdio_readl M (esp_sdio_reg_addr ESP_SLAVE_INT_ST_REG)) s in
    if negb (ret =? 0) then esp_sdio_request_transport_recovery M m2j s
    else
      let s := if test_bit RX_NEW_PACKET_BIT int_status then on_tr (fun d => d <| rx_pending := true |>) s else s in
      let '(_, s) := on_hw (sdio_writel M int_status (esp_sdio_reg_addr ESP_SLAVE_INT_CLR_REG)) s in
      esp_process_new_packet_intr s.

(** The delayed work, when it runs. *)
Definition esp_sdio_rx_len_retry_work s : st :=
  let s := on_tr (fun d => d <| rx_len_retry := false |>) s in
  if rx_stopped (ad s) || rx_below_ready (ad s) then s else esp_process_new_packet_intr s.

(** ** [PACKET_LEN] *)

(** The sampling loop; [retries] are left.  The result: the last return code and
    the distance to the host's counter. *)
Fixpoint pkt_len_loop (retries : nat) (notified : bool) (delta : Z) s : (Z * Z) * st :=
  let '((ret, raw_len), s) := esp_sdio_read_u32 M ESP_SLAVE_PACKET_LEN_REG s in
  let delta := if ret =? 0
               then esp_sdio_rx_len_delta (Z.land raw_len ESP_SLAVE_LEN_MASK) (rx_byte_count (tr s)) else delta in
  if (ret =? 0) && (delta <=? ESP_HOST_RX_AGGR_SIZE) && (negb (delta =? 0) || negb notified) then ((ret, delta), s)
  else
    match retries with
    | O => ((ret, delta), s)
    | S retries => if negb notified && (ret =? 0) && (delta =? 0) then ((ret, delta), s)
                   else pkt_len_loop retries notified delta (pass_time M 0 s)
    end.

(** A notification whose length has not been published yet. *)
Definition rx_len_rearm s : st :=
  if rx_stopped (ad s) then on_tr (fun d => d <| rx_len_retry_count := 0 |>) s
  else if rx_len_retry_count (tr s) <? ESP_SDIO_PKT_LEN_DELAYED_RETRIES then
    on_tr (fun d => d <| rx_len_retry_count := rx_len_retry_count d + 1 |> <| rx_pending := true |>
                      <| rx_len_retry := true |>) s
  else esp_sdio_request_transport_recovery M m2j (on_tr (fun d => d <| rx_len_retry_count := 0 |>) s).

Definition esp_get_len_from_slave s : (Z * Z) * st :=
  let notified := rx_pending (tr s) in
  let s := on_tr (fun d => d <| rx_pending := false |>) s in
  let '((ret, delta), s) := pkt_len_loop ESP_SDIO_PKT_LEN_ZERO_RETRIES notified 0 s in
  if negb (ret =? 0) then ((ret, 0), esp_sdio_request_transport_recovery M m2j s)
  else if ESP_HOST_RX_AGGR_SIZE <? delta then ((- EOVERFLOW, 0), esp_sdio_request_fw_reset_recovery M m2j s)
  else
    ((0, delta),
     if notified && (delta =? 0) then rx_len_rearm s
     else if negb (delta =? 0) then on_tr (fun d => d <| rx_len_retry_count := 0 |>) s else s).

(** ** [read_packet] *)
Section Rx.

(** The host's RCP bridge, and [esp_if_alloc_skb] by the number of the call
    within one [read_packet]. *)
Context (r : rcp) (alloc : nat -> bool).

Definition esp_sdio_fail_rcp_rx s : st := if esp_rcp_fail_closed_required r then restart_fw M m2j s else s.

(** The [CMD53] reads: whole blocks first, then what is left; [fuel] bounds
    their number ([read_loop_fuel]). *)
Fixpoint read_loop (fuel : nat) (payload_left data_left : Z) (pos : list Z) s : (Z * list Z) * st :=
  let num_blocks := payload_left / ESP_BLOCK_SIZE in
  let len_to_read := if negb (num_blocks =? 0) then num_blocks * ESP_BLOCK_SIZE else payload_left in
  let read_len := if negb (num_blocks =? 0) then len_to_read else align4 len_to_read in
  let '((ret, bytes), s) := esp_read_block M (ESP_SLAVE_CMD53_END_ADDR - len_to_read) read_len s in
  if negb (ret =? 0) then ((ret, pos), s)
  else
    let s := on_tr (fun d => d <| rx_byte_count := (rx_byte_count d + len_to_read) mod ESP_RX_BYTE_MAX |>) s in
    let data_left := data_left - read_len in
    match fuel with
    | S fuel => if 0 <? data_left then read_loop fuel (payload_left - len_to_read) data_left (pos ++ bytes) s
                else ((0, pos ++ bytes), s)
    | O => ((0, pos ++ bytes), s)
    end.

(** The walk over an aggregate of [n] bytes; every frame becomes an skb of its
    own on [rx_q]. *)
Fixpoint aggr_loop (fuel : nat) (calls : nat) (pos n : Z) (data : list Z) s : st :=
  match fuel with
  | O => s
  | S fuel =>
      if pos + sizeof_header <=? n then
        let frame := zdrop pos data in
        let h := decode_header frame in
        if (len h =? 0) && bool_decide (ztake sizeof_header frame = replicate 12 0) then s
        else if len h =? 0 then esp_sdio_fail_rcp_rx s
        else if (ESP_RX_BUFFER_SIZE <? len h) || negb (ESP_OFFSET_VALID (offset h)) then esp_sdio_fail_rcp_rx s
        else
          let frame_len := u16 (len h + offset h) in
          if n <? pos + frame_len then esp_sdio_fail_rcp_rx s
          else if negb (alloc calls) then esp_sdio_fail_rcp_rx s
          else aggr_loop fuel (S calls) (u16 (pos + u16 (align4 frame_len))) n data
                 (on_tr (fun d => d <| rx_q := rx_q d ++ [ztake frame_len frame] |>) s)
      else s
  end.

Definition skb_dequeue_rx s : option (list Z) * st :=
  match rx_q (tr s) with
  | p :: q => (Some p, on_tr (fun d => d <| rx_q := q |>) s)
  | [] => (None, s)
  end.

(** The frames of one aggregate [data]. *)
Definition read_frames (data : list Z) s : option (list Z) * st :=
  let n := zlen data in
  let h := decode_header data in
  if n <? sizeof_header then (None, restart_fw M m2j s)
  else if len h =? 0 then (None, esp_sdio_fail_rcp_rx s)
  else if (ESP_RX_BUFFER_SIZE <? len h) || negb (ESP_OFFSET_VALID (offset h)) then (None, esp_sdio_fail_rcp_rx s)
  else
    let frame_len := u16 (len h + offset h) in
    match esp_host_wire_span_valid (len h) (offset h) n with
    | None => (None, esp_sdio_fail_rcp_rx s)
    | Some _ =>
        if n <=? u16 (align4 frame_len) then (Some (ztake frame_len data), s)
        else skb_dequeue_rx (aggr_loop (length data) 1 0 n data s)
    end.

Definition read_packet s : option (list Z) * st :=
  if negb (if_context (ad s)) then (None, s)
  else
    match skb_dequeue_rx s with
    | (Some p, s) => (Some p, s)
    | (None, s) =>
        if negb (func (tr s)) then (None, s)
        else
          let '((ret, len_from_slave), s) := esp_get_len_from_slave s in
          if negb (ret =? 0) || (len_from_slave =? 0) then (None, s)
          else
            let padded_len := align4 len_from_slave in
            if negb (rx_bounce_buf (tr s)) then (None, s)
            else if ESP_HOST_RX_AGGR_SIZE <? padded_len then (None, restart_fw M m2j s)
            else if negb (alloc 0) then
              (None, on_tr (fun d => d <| rx_pending := true |> <| rx_len_retry := true |>) s)
            else
              let '((ret, bytes), s) := read_loop 1 len_from_slave padded_len [] s in
              if negb (ret =? 0) then (None, restart_fw M m2j s)
              else read_frames (ztake len_from_slave bytes) s
    end.
End Rx.

(** ** What a card with a published aggregate gives *)

(** [publishes h total data]: [PACKET_LEN] counts [total] bytes since the last
    reset and [data] are those the host has not read.  A read of [n] of them
    addresses the FIFO [n] bytes before its end and may ask for padding. *)
Class RxCard (publishes : H -> Z -> list Z -> Prop) : Prop := {
  rc_len h total data : publishes h total data ->
    exists raw h', sdio_readl M (esp_sdio_reg_addr ESP_SLAVE_PACKET_LEN_REG) h = ((0, raw), h') /\
      Z.land raw ESP_SLAVE_LEN_MASK = total mod ESP_RX_BYTE_MAX /\ publishes h' total data;
  rc_read h total data n size : publishes h total data -> 0 < n <= zlen data -> n <= size ->
    exists pad h', sdio_memcpy_fromio M (ESP_SLAVE_CMD53_END_ADDR - n) size h = ((0, ztake n data ++ pad), h') /\
      zlen (ztake n data ++ pad) = size /\ publishes h' total (zdrop n data)
}.

Context {publishes : H -> Z -> list Z -> Prop} `{!RxCard publishes}.

(** The host's counter is where its unread bytes begin. *)
Definition synced (total : Z) (data : list Z) s : Prop :=
  func (tr s) = true /\ publishes (hw (tr s)) total data /\
  rx_byte_count (tr s) = (total - zlen data) mod ESP_RX_BYTE_MAX.

Lemma rx_len_delta_spec total n :
  0 <= n < ESP_RX_BYTE_MAX ->
  esp_sdio_rx_len_delta (total mod ESP_RX_BYTE_MAX) ((total - n) mod ESP_RX_BYTE_MAX) = n.
Proof.
  unfold esp_sdio_rx_len_delta, ESP_RX_BYTE_MAX, wrap. intros Hn.
  change (2 ^ 32) with 4294967296. case_match; bool_hyps; divlia.
Qed.

(** A published length is taken at the first sample. *)
Lemma pkt_len_loop_now retries notified delta0 total data s :
  synced total data s -> 0 < zlen data <= ESP_HOST_RX_AGGR_SIZE ->
  exists h', pkt_len_loop retries notified delta0 s = ((0, zlen data), on_tr (fun d => d <| hw := h' |>) s) /\
    publishes h' total data.
Proof.
  intros (Hf & Hp & Hc) Hl. destruct (rc_len _ _ _ Hp) as (raw & h' & Er & Hr & Hp').
  exists h'. split; [|done].
  destruct retries; cbn [pkt_len_loop]; unfold esp_sdio_read_u32, on_hw; rewrite Hf, Er; cbv beta iota zeta.
  all: cbn [negb Z.eqb]; rewrite Hr; change (rx_byte_count (tr (on_tr _ s))) with (rx_byte_count (tr s)); rewrite Hc.
  all: rewrite rx_len_delta_spec by (unfold ESP_HOST_RX_AGGR_SIZE, ESP_RX_BYTE_MAX in *; lia).
  all: by rewrite (proj2 (Z.leb_le _ _)), (proj2 (Z.eqb_neq _ _)) by lia.
Qed.

Lemma get_len_spec total data s :
  synced total data s -> 0 < zlen data <= ESP_HOST_RX_AGGR_SIZE ->
  exists s', esp_get_len_from_slave s = ((0, zlen data), s') /\ synced total data s' /\
    ad s' = ad s /\ rx_q (tr s') = rx_q (tr s) /\ rx_bounce_buf (tr s') = rx_bounce_buf (tr s).
Proof.
  intros Hs Hl. unfold esp_get_len_from_slave. cbv zeta.
  assert (Hs0 : synced total data (on_tr (fun d => d <| rx_pending := false |>) s))
    by (destruct Hs as (? & ? & ?); by split_and!).
  destruct (pkt_len_loop_now ESP_SDIO_PKT_LEN_ZERO_RETRIES (rx_pending (tr s)) 0 total data _ Hs0 Hl)
    as (h' & -> & Hp).
  cbn [negb Z.eqb]. rewrite (proj2 (Z.ltb_ge _ _)) by lia. rewrite (proj2 (Z.eqb_neq _ _)) by lia.
  rewrite andb_false_r. cbn [negb]. eexists. split; [done|].
  destruct Hs as (Hf & _ & Hc). done.
Qed.

(** One [CMD53] read takes [n] bytes and moves the counter past them. *)
Definition count_rx (n : Z) d : sdio H := d <| rx_byte_count := (rx_byte_count d + n) mod ESP_RX_BYTE_MAX |>.

Lemma read_block_spec total data n size s :
  synced total data s -> 0 < n <= zlen data -> n <= size -> 1 < size ->
  exists pad s', esp_read_block M (ESP_SLAVE_CMD53_END_ADDR - n) size s = ((0, ztake n data ++ pad), s') /\
    zlen (ztake n data ++ pad) = size /\ synced total (zdrop n data) (on_tr (count_rx n) s') /\
    ad s' = ad s /\ rx_q (tr s') = rx_q (tr s).
Proof.
  intros (Hf & Hp & Hc) Hn Hs H1. destruct (rc_read _ _ _ n size Hp Hn Hs) as (pad & h' & E & Hz & Hp').
  exists pad, (on_tr (fun d => d <| hw := h' |>) s). unfold esp_read_block, on_hw.
  rewrite (proj2 (Z.leb_gt _ _)), Hf, E by lia. split; [done|]. split; [done|]. split; [|done].
  split; [done|]. split; [done|]. change (rx_byte_count (tr (on_tr _ _))) with ((rx_byte_count (tr s) + n) mod ESP_RX_BYTE_MAX).
  rewrite Hc, zlen_zdrop. unfold ESP_RX_BYTE_MAX. divlia.
Qed.

(** Less than a block is one read. *)
Lemma read_last fuel total data pos s :
  synced total data s -> 0 < zlen data < ESP_BLOCK_SIZE ->
  exists pad s', read_loop fuel (zlen data) (align4 (zlen data)) pos s = ((0, pos ++ data ++ pad), s') /\
    synced total [] s' /\ ad s' = ad s /\ rx_q (tr s') = rx_q (tr s).
Proof.
  intros Hs Hl. destruct (align4_spec (zlen data) ltac:(lia)) as [Ha Ha4].
  assert (1 < align4 (zlen data)) by divlia.
  destruct (read_block_spec total data (zlen data) (align4 (zlen data)) s Hs) as (pad & s' & E & Hz & Hs' & Ea & Eq);
    [lia..|].
  rewrite ztake_ge in E, Hz by lia. rewrite zdrop_ge in Hs' by lia.
  exists pad, (on_tr (count_rx (zlen data)) s'). split; [|done].
  destruct fuel; cbn [read_loop]; unfold ESP_BLOCK_SIZE in *; rewrite Z.div_small by lia; cbn [Z.eqb negb].
  all: rewrite E; cbv beta iota zeta; cbn [Z.eqb negb].
  { done. }
  by rewrite (proj2 (Z.ltb_ge _ _)) by lia.
Qed.

(** The loop takes everything published, in one read of whole blocks and one of
    the rest: two turns are enough. *)
Lemma rx_read_loop_spec fuel total data s :
  synced total data s -> 0 < zlen data ->
  exists pad s', read_loop (S fuel) (zlen data) (align4 (zlen data)) [] s = ((0, data ++ pad), s') /\
    synced total [] s' /\ ad s' = ad s /\ rx_q (tr s') = rx_q (tr s).
Proof.
  intros Hs Hl. destruct (Z.lt_ge_cases (zlen data) ESP_BLOCK_SIZE) as [Hb|Hb]; [by apply read_last|].
  unfold ESP_BLOCK_SIZE in *. set (n := zlen data / 512 * 512).
  assert (Hn : (512 <= n <= zlen data /\ zlen data < n + 512) /\ n mod 4 = 0) by (unfold n; divlia).
  destruct (align4_spec (zlen data) ltac:(lia)) as [Ha Ha4].
  destruct (read_block_spec total data n n s Hs) as (pad & s' & E & Hz & Hs' & Ea & Eq); [lia..|].
  rewrite zlen_app, zlen_ztake in Hz. assert (pad = []) as -> by (apply zlen_0_nil; lia). rewrite app_nil_r in E.
  assert (Hrest : align4 (zlen data) - n = align4 (zlen (zdrop n data))).
  { rewrite zlen_zdrop. replace (Z.min (Z.max 0 n) (zlen data)) with n by lia.
    destruct (align4_spec (zlen data - n) ltac:(lia)) as [Hb1 Hb2]. divlia. }
  cbn [read_loop]. unfold ESP_BLOCK_SIZE. fold n. rewrite (proj2 (Z.eqb_neq _ _)) by (unfold n; divlia).
  cbn [negb]. rewrite E. cbv beta iota zeta. cbn [Z.eqb negb]. fold (count_rx n).
  rewrite Hrest. destruct (Z.eq_dec n (zlen data)) as [Eall|Hmore].
  - rewrite ztake_ge by lia. rewrite zdrop_ge in * by lia. change (align4 (zlen [])) with 0.
    cbn [Z.ltb Z.compare]. exists [], (on_tr (count_rx n) s'). by rewrite app_nil_r.
  - assert (Hz2 : zlen (zdrop n data) = zlen data - n) by (rewrite zlen_zdrop; lia).
    destruct (align4_spec (zlen (zdrop n data)) ltac:(lia)) as [Hc1 Hc2].
    rewrite (proj2 (Z.ltb_lt _ _)) by lia.
    replace (zlen data - n) with (zlen (zdrop n data)) by lia.
    destruct (read_last fuel total (zdrop n data) ([] ++ ztake n data) _ Hs') as (pad & s2 & E2 & Hs2 & Ea2 & Eq2);
      [unfold ESP_BLOCK_SIZE; lia|].
    exists pad, s2. rewrite E2. split; [|by rewrite Ea2, Eq2]. cbn [app]. by rewrite app_assoc, ztake_zdrop.
Qed.
(** ** Frames *)

(** What the walk accepts, and how it stands in an aggregate. *)
Definition rx_frame_ok (f : list Z) : Prop :=
  let h := decode_header f in
  0 < len h <= ESP_RX_BUFFER_SIZE /\ ESP_OFFSET_VALID (offset h) = true /\ zlen f = len h + offset h.
Definition padded (f : list Z) : list Z := f ++ replicate (Z.to_nat (align4 (zlen f) - zlen f)) 0.

Definition put_rx (q : list (list Z)) s : st := on_tr (fun d => d <| rx_q := q |>) s.

Lemma put_rx_id s : put_rx (rx_q (tr s) ++ []) s = s.
Proof. rewrite app_nil_r. by destruct s as [? []]. Qed.

Lemma zlen_padded f : zlen (padded f) = align4 (zlen f).
Proof.
  unfold padded. pose proof (zlen_nonneg f). destruct (align4_spec (zlen f)) as [? _]; [done|].
  autorewrite with zlist. lia.
Qed.

Lemma zlen_padded_all fs : zlen (concat (padded <$> fs)) mod 4 = 0.
Proof.
  induction fs as [|f fs IH]; [done|]. rewrite fmap_cons. cbn [concat]. rewrite zlen_app, zlen_padded.
  destruct (align4_spec (zlen f)) as [_ Ha]; [apply zlen_nonneg|]. divlia.
Qed.

(** A frame's header is read wherever the frame stands. *)
Lemma rx_frame_at f rest :
  rx_frame_ok f -> zlen (padded f) <= ESP_HOST_RX_AGGR_SIZE ->
  let h := decode_header (padded f ++ rest) in
  h = decode_header f /\ sizeof_header < zlen f <= ESP_HOST_RX_AGGR_SIZE /\
  u16 (len h + offset h) = zlen f /\ u16 (align4 (zlen f)) = zlen (padded f) /\
  ztake (zlen f) (padded f ++ rest) = f.
Proof.
  intros (Hl & Ho & Hz) Hp h. rewrite zlen_padded in *.
  destruct (align4_spec (zlen f) ltac:(apply zlen_nonneg)) as [Ha _].
  unfold ESP_OFFSET_VALID, sizeof_header, ESP_HOST_RX_AGGR_SIZE in *. bool_hyps.
  assert (E : h = decode_header f).
  { subst h. unfold padded. rewrite <- app_assoc. apply decode_header_app. unfold sizeof_header. lia. }
  rewrite E. split; [done|]. rewrite <- Hz. rewrite !wrap_id by (unfold in_width; lia).
  split_and!; [lia|lia|done|done|]. unfold padded. rewrite <- app_assoc. by apply ztake_app_exact.
Qed.

Context (r : rcp) (alloc : nat -> bool) (alloc_ok : forall n, alloc n = true).

Lemma aggr_loop_spec fs pre fuel calls s :
  let data := pre ++ concat (padded <$> fs) in
  Forall rx_frame_ok fs -> zlen data <= ESP_HOST_RX_AGGR_SIZE -> zlen data - zlen pre <= Z.of_nat fuel ->
  aggr_loop r alloc fuel calls (zlen pre) (zlen data) data s = put_rx (rx_q (tr s) ++ fs) s.
Proof.
  intros data Hok. subst data. revert pre fuel calls s.
  induction Hok as [|f fs Hf Hok IH]; intros pre fuel calls s Hz Hfuel; cbn [fmap list_fmap concat] in *.
  - rewrite put_rx_id, app_nil_r. destruct fuel; cbn [aggr_loop]; [done|].
    unfold sizeof_header. by rewrite (proj2 (Z.leb_gt _ _)) by lia.
  - fold (fmap (M := list) padded) in *. set (rest := concat (padded <$> fs)) in *.
    pose proof (zlen_nonneg pre). pose proof (zlen_nonneg rest). rewrite !zlen_app in Hz, Hfuel.
    destruct (rx_frame_at f rest Hf ltac:(lia)) as (Eh & Hl & Hu & Ha & Ht). cbv zeta in Hu, Ht.
    destruct Hf as (Hf1 & Hf2 & Hf3). rewrite zlen_padded in *.
    destruct (align4_spec (zlen f) ltac:(apply zlen_nonneg)) as [Hal _].
    unfold ESP_HOST_RX_AGGR_SIZE, sizeof_header in *.
    destruct fuel as [|fuel]; [lia|]. cbn [aggr_loop].
    rewrite (proj2 (Z.leb_le _ _)) by (rewrite !zlen_app, zlen_padded; unfold sizeof_header; lia).
    rewrite zdrop_app_exact by done. cbv zeta. rewrite Hu, Ht, Ha, Eh.
    rewrite (proj2 (Z.eqb_neq _ _)) by lia. cbn [andb].
    rewrite (proj2 (Z.ltb_ge _ _)), Hf2 by lia. cbn [negb orb].
    rewrite (proj2 (Z.ltb_ge _ _)) by (rewrite !zlen_app, zlen_padded; lia). rewrite alloc_ok. cbn [negb].
    rewrite wrap_id by (unfold in_width; lia). specialize (IH (pre ++ padded f) fuel (S calls)).
    fold rest in IH. replace (zlen pre + align4 (zlen f)) with (zlen (pre ++ padded f))
      by (rewrite zlen_app, zlen_padded; lia).
    rewrite (app_assoc pre), IH.
    + change (put_rx (rx_q (tr s) ++ f :: fs) s) with (put_rx (rx_q (tr s) ++ [f] ++ fs) s).
      rewrite (app_assoc _ [f]). done.
    + rewrite !zlen_app, zlen_padded. lia.
    + rewrite !zlen_app, zlen_padded. lia.
Qed.

Lemma read_frames_spec f fs s :
  let data := concat (padded <$> f :: fs) in
  Forall rx_frame_ok (f :: fs) -> zlen data <= ESP_HOST_RX_AGGR_SIZE -> rx_q (tr s) = [] ->
  read_frames r alloc data s = (Some f, put_rx fs s).
Proof.
  intros data Hok Hz Hq. subst data. pose proof Hok as Hok'. inversion_clear Hok' as [|? ? Hf Hfs].
  cbn [fmap list_fmap concat] in *. fold (fmap (M := list) padded) in *.
  set (rest := concat (padded <$> fs)) in *. pose proof (zlen_nonneg rest). rewrite zlen_app in Hz.
  destruct (rx_frame_at f rest Hf ltac:(lia)) as (Eh & Hl & Hu & Ha & Ht). cbv zeta in Hu, Ht.
  destruct Hf as (Hf1 & Hf2 & Hf3). unfold read_frames. cbv zeta. rewrite Hu, Ha, Eh.
  assert (Hd : zlen (padded f ++ rest) = align4 (zlen f) + zlen rest) by (rewrite zlen_app, zlen_padded; lia).
  destruct (align4_spec (zlen f) ltac:(apply zlen_nonneg)) as [Hal _].
  rewrite (proj2 (Z.ltb_ge _ _)) by (unfold sizeof_header in *; lia).
  rewrite (proj2 (Z.eqb_neq _ _)) by lia. rewrite (proj2 (Z.ltb_ge _ _)), Hf2 by lia. cbn [negb orb].
  assert (Hspan : esp_host_wire_span_valid (len (decode_header f)) (offset (decode_header f)) (zlen (padded f ++ rest))
    = Some (zlen f)).
  { unfold esp_host_wire_span_valid. rewrite Hf2. cbn [negb]. unfold ESP_OFFSET_VALID in Hf2. bool_hyps.
    repeat case_match; bool_hyps; try lia; try done; try (f_equal; lia). }
  rewrite Hspan, zlen_padded. destruct (_ <=? _) eqn:El; bool_hyps.
  - assert (Hr0 : zlen rest = 0) by lia. rewrite Ht. f_equal. 
    assert (fs = []) as ->.
    { destruct fs as [|g fs]; [done|]. exfalso. inversion_clear Hfs as [|? ? (Hg1 & Hg2 & Hg3) _].
      unfold rest in Hr0. cbn [fmap list_fmap concat] in Hr0. rewrite zlen_app, zlen_padded in Hr0.
      destruct (align4_spec (zlen g) ltac:(apply zlen_nonneg)) as [Hag _].
      pose proof (zlen_nonneg (concat (fmap (M := list) padded fs))).
      unfold ESP_OFFSET_VALID, sizeof_header in Hg2. bool_hyps. unfold fmap in *. lia. }
    rewrite <- (put_rx_id s) at 1. by rewrite Hq.
  - pose proof (aggr_loop_spec (f :: fs) [] (length (padded f ++ rest)) 1 s) as Hg. cbn [app] in Hg.
    cbn [fmap list_fmap concat] in Hg. fold (fmap (M := list) padded) in Hg. fold rest in Hg.
    rewrite zlen_nil, Z.sub_0_r in Hg. rewrite Hg; [|done|by rewrite zlen_app|apply Z.le_refl].
    rewrite Hq. done.
Qed.

(** A published aggregate is delivered whole, in order, and the counters agree
    again. *)
Lemma read_packet_spec total f fs s :
  let data := concat (padded <$> f :: fs) in
  if_context (ad s) = true -> rx_q (tr s) = [] -> rx_bounce_buf (tr s) = true ->
  Forall rx_frame_ok (f :: fs) -> zlen data <= ESP_HOST_RX_AGGR_SIZE -> synced total data s ->
  exists s', read_packet r alloc s = (Some f, s') /\ rx_q (tr s') = fs /\ synced total [] s' /\ ad s' = ad s.
Proof.
  intros data Hi Hq Hb Hok Hz Hs. pose proof Hok as Hok'. inversion_clear Hok' as [|? ? (Hf1 & Hf2 & Hf3) _].
  assert (Hpos : 0 < zlen data).
  { unfold data. cbn [fmap list_fmap concat]. rewrite zlen_app, zlen_padded.
    destruct (align4_spec (zlen f) ltac:(apply zlen_nonneg)) as [Ha _].
    fold (fmap (M := list) padded). pose proof (zlen_nonneg (concat (padded <$> fs))).
    unfold ESP_OFFSET_VALID, sizeof_header in Hf2. bool_hyps. lia. }
  assert (H4 : align4 (zlen data) = zlen data) by (apply align4_id; [lia|apply zlen_padded_all]).
  unfold read_packet. rewrite Hi. cbn [negb]. unfold skb_dequeue_rx at 1. rewrite Hq. cbv iota.
  pose proof Hs as (Hfunc & _). rewrite Hfunc. cbn [negb].
  destruct (get_len_spec total data s Hs ltac:(lia)) as (s1 & -> & Hs1 & Ea1 & Eq1 & Eb1). cbv beta iota zeta.
  change (0 =? 0) with true. cbn [negb orb]. rewrite (proj2 (Z.eqb_neq _ _)), Eb1, Hb by lia. cbn [negb].
  rewrite H4, (proj2 (Z.ltb_ge _ _)), alloc_ok by lia. cbn [negb].
  destruct (rx_read_loop_spec 0 total data s1 Hs1 Hpos) as (pad & s2 & E2 & Hs2 & Ea2 & Eq2). rewrite H4 in E2.
  rewrite E2. cbv beta iota zeta. cbn [Z.eqb negb]. rewrite ztake_app_exact by done.
  pose proof (read_frames_spec f fs s2 Hok Hz ltac:(congruence)) as E3. fold data in E3. rewrite E3.
  exists (put_rx fs s2). split; [done|]. split; [done|]. split; [exact Hs2|]. cbn. congruence.
Qed.
End Data.
