(* ===== verification/SdioTx.v ===== *)
(** * SdioTx: the transmit path of the host's SDIO transport

    Of [host/sdio/esp_sdio.c]: [write_packet], and one round of the transmit
    thread [tx_process] - collecting an aggregate by priority, waiting for the
    slave's receive buffers, and the checks around the one [CMD53] write.

    The thread is cut where it holds no lock: [others n] is what the other
    threads do before its [n]th step.  Raw-throughput frames ([TEST_RAW_TP]) and
    the pausing of network queues are left out. *)
From S2P Require Import Prelude Wire Adapter Recovery CmdQueue SdioHost SdioRx.

Definition TX_MAX_PENDING_COUNT : Z := 1000.
Definition MAX_WRITE_RETRIES : nat := 2000.
Definition ESP_HOST_TX_AGGR_SIZE : Z := 15872.
Definition ESP_HOST_TX_LATENCY_BYPASS_SIZE : Z := 256.
Definition PRIO_Q_HIGH : nat := 0.
Definition PRIO_Q_MID : nat := 1.
Definition PRIO_Q_LOW : nat := 2.

(** ** The aggregate being built

    [a_cmd] is the command it carries; [a_mask] the stateful interfaces in it. *)
Record tx_aggr := mk_aggr {
  a_buf : list Z;
  a_frames : Z;
  a_cmd : option (Z * Z);
  a_mask : Z;
  a_epoch : Z
}.

#[export] Instance eta_aggr : Eta tx_aggr := fun a =>
  mk_aggr (a_buf a) (a_frames a) (a_cmd a) (a_mask a) (a_epoch a).

Section Tx.
Context {H : Type} (M : mmc H) (m2j : Z -> Z).
Implicit Types (s : sys (sdio H)) (d : sdio H).

Notation st := (sys (sdio H)).

Definition below_ready (a : esp_adapter) : bool := context_code (state a) <? context_code ESP_CONTEXT_READY.

(** ** [write_packet] *)
Definition tx_refused (a : esp_adapter) : bool :=
  below_ready a || flag ESP_TRANSPORT_REMOVING a
  || (flag ESP_CLEANUP_IN_PROGRESS a && negb (flag ESP_ALLOW_DEINIT a) && negb (flag ESP_ALLOW_RECONSTRUCT a)).

Definition tx_prio_of (t : Z) : nat :=
  if t =? if_code ESP_INTERNAL_IF then PRIO_Q_HIGH
  else if (t =? if_code ESP_HCI_IF) || (t =? if_code ESP_RCP_IF) then PRIO_Q_MID else PRIO_Q_LOW.

Definition tx_queue (prio : nat) d : list tx_pkt := default [] (tx_q d !! prio).
Definition tx_items (prio : nat) d : Z := default 0 (queue_items d !! prio).

Definition enqueue (p : tx_pkt) (prio : nat) d : sdio H :=
  d <| tx_pending := tx_pending d + 1 |> <| tx_q := <[prio := tx_queue prio d ++ [p]]> (tx_q d) |>
    <| queue_items := alter (fun n => n + 1) prio (queue_items d) |>.

(** [others]: what runs before the queue's lock is taken. *)
Definition write_packet (others : st -> st) (p : tx_pkt) s : Z * st :=
  let h := decode_header (pkt_data p) in
  if negb (if_context (ad s)) || (zlen (pkt_data p) =? 0) then (- EINVAL, s)
  else if tx_refused (ad s) then (- ENODEV, s)
  else if ESP_RX_BUFFER_SIZE - sizeof_header <? zlen (pkt_data p) then (- EPERM, s)
  else if ((if_type h =? if_code ESP_STA_IF) || (if_type h =? if_code ESP_AP_IF)) && pkt_priv p
          && (TX_MAX_PENDING_COUNT <=? tx_pending (tr s)) then (- EBUSY, s)
  else
    let s := others s in
    if tx_refused (ad s) then (- ESHUTDOWN, s) else (0, on_tr (enqueue p (tx_prio_of (if_type h))) s).

(** ** Collecting an aggregate *)
Definition sdio_cmd_is_current (c : Z * Z) (q : cmdq) : bool :=
  match cur_cmd q with
  | Some i => let n := node i q in (cmd_code n =? c.1) && (cmd_seq n =? c.2) && negb (completed n)
  | None => false
  end.

Definition cmd_stale (a : tx_aggr) d : bool :=
  match a_cmd a with Some c => negb (sdio_cmd_is_current c (cmds d)) | None => false end.

Definition next_prio d : option nat :=
  if 0 <? tx_items PRIO_Q_HIGH d then Some PRIO_Q_HIGH
  else if 0 <? tx_items PRIO_Q_MID d then Some PRIO_Q_MID
  else if 0 <? tx_items PRIO_Q_LOW d then Some PRIO_Q_LOW else None.

(** The head of a queue leaves with its counters. *)
Definition dequeue (prio : nat) (q : list tx_pkt) d : sdio H :=
  tx_pending_dec (d <| tx_q := <[prio := q]> (tx_q d) |>
                    <| queue_items := alter (fun n => n - 1) prio (queue_items d) |>).

Definition pkt_frame_len (p : tx_pkt) : Z :=
  let h := decode_header (pkt_data p) in u32 (offset h + len h).

Definition pkt_invalid (p : tx_pkt) : bool :=
  let h := decode_header (pkt_data p) in
  negb (ESP_OFFSET_VALID (offset h)) || (len h =? 0) || (zlen (pkt_data p) <? pkt_frame_len p).

(** A packet that travels alone. *)
Definition flush_after_pkt (prio : nat) (p : tx_pkt) : bool :=
  let h := decode_header (pkt_data p) in
  bool_decide (is_Some (sdio_get_cmd_info (pkt_data p))) || (if_type h =? if_code ESP_RCP_IF)
  || ((prio =? PRIO_Q_LOW)%nat && (len h <=? ESP_HOST_TX_LATENCY_BYPASS_SIZE)).

Definition mask_with (p : tx_pkt) (mask : Z) : Z := Z.lor mask (stateful_bit (if_type (decode_header (pkt_data p)))).

Definition tx_frame_bytes (p : tx_pkt) : list Z :=
  let frame := ztake (pkt_frame_len p) (pkt_data p) in
  frame ++ replicate (Z.to_nat (align4 (pkt_frame_len p) - pkt_frame_len p)) 0.

Definition add_frame (p : tx_pkt) (a : tx_aggr) : tx_aggr :=
  a <| a_buf := a_buf a ++ tx_frame_bytes p |> <| a_frames := a_frames a + 1 |>.

(** One turn of the inner loop: [None] ends it, else whether it goes on. *)
Definition collect_turn (size : Z) (a : tx_aggr) s : option (bool * tx_aggr) * st :=
  match next_prio (tr s) with
  | None => (None, s)
  | Some prio =>
      match tx_queue prio (tr s) with
      | [] => (Some (true, a), on_tr (fun d => d <| queue_items := <[prio := 0]> (queue_items d) |>) s)
      | p :: q =>
          if pkt_invalid p then (Some (true, a), on_tr (dequeue prio q) s)
          else
            let len_to_send := align4 (pkt_frame_len p) in
            let flush := flush_after_pkt prio p in
            if (flush && negb (zlen (a_buf a) =? 0)) || (size <? zlen (a_buf a) + len_to_send) then (None, s)
            else
              let a := a <| a_mask := mask_with p (a_mask a) |> in
              let s := if a_mask a =? 0 then s else on_tr (fun d => d <| tx_aggr_stateful_mask := a_mask a |>) s in
              let s := on_tr (dequeue prio q) s in
              match sdio_get_cmd_info (pkt_data p) with
              | Some c => if sdio_cmd_is_current c (cmds (tr s))
                          then (Some (negb flush, add_frame p (a <| a_cmd := Some c |>)), s) else (Some (true, a), s)
              | None => (Some (negb flush, add_frame p a), s)
              end
      end
  end.

Context (others : nat -> st -> st).

(** [n] is the number of the thread's next step; [None] is a loop that still
    turns after [fuel] turns. *)
Fixpoint collect (fuel n : nat) (size : Z) (a : tx_aggr) s : option (tx_aggr * nat * st) :=
  match fuel with
  | O => None
  | S fuel =>
      if zlen (a_buf a) <? size then
        match collect_turn size a (others n s) with
        | (None, s) => Some (a, S n, s)
        | (Some (true, a), s) => collect fuel (S n) size a s
        | (Some (false, a), s) => Some (a, S n, s)
        end
      else Some (a, n, s)
  end.

(** ** Credits *)
Definition esp_slave_get_tx_buffer_num s : (Z * Z) * st :=
  if negb (func (tr s)) then ((- ENODEV, 0), s)
  else
    let '((ret, raw), s) := esp_sdio_read_u32 M ESP_SLAVE_TOKEN_RDATA s in
    if negb (ret =? 0) then ((ret, 0), s)
    else
      let raw := Z.land (Z.shiftr raw 16) ESP_TX_BUFFER_MASK in
      let raw := u32 (raw + ESP_TX_BUFFER_MAX - tx_buffer_count (tr s)) mod ESP_TX_BUFFER_MAX in
      ((0, Z.min raw ESP_MAX_BUF_CNT), s).

(** The polls of the token register: an error, or whether a retry was left. *)
Fixpoint token_polls (retry : nat) (buf_needed : Z) s : Z * bool * st :=
  match retry with
  | O => (0, false, s)
  | S retry =>
      let '((ret, n), s) := esp_slave_get_tx_buffer_num s in
      if negb (ret =? 0) then (ret, true, s)
      else
        let s := on_tr (fun d => d <| sdio_buf_available := n |>) s in
        if n <? buf_needed then token_polls retry buf_needed (pass_time M 0 s) else (0, true, s)
  end.

Definition take_credit (buf_needed : Z) d : sdio H :=
  if buf_needed <=? sdio_buf_available d
  then d <| sdio_buf_available := sdio_buf_available d - buf_needed |> else d.

(** 1: available and reserved; 0: not available; negative: an error. *)
Definition is_sdio_write_buffer_available (buf_needed : Z) s : Z * st :=
  let '(ret, left, s) := if sdio_buf_available (tr s) <? buf_needed
                         then token_polls MAX_WRITE_RETRIES buf_needed s else (0, true, s) in
  if negb (ret =? 0) then (ret, s)
  else (if left then 1 else 0, on_tr (take_credit buf_needed) s).

(** [kthread_should_stop] and the states in which a waiting thread gives up. *)
Definition should_stop s : bool := negb (tx_thread (tr s)).
Definition tx_down s : bool := below_ready (ad s) || flag ESP_TRANSPORT_REMOVING (ad s).

(** How the wait for credits ends; [None] of the loop is a thread that still
    waits after [fuel] turns. [ret] is the round's return code so far. *)
Inductive credit_end := CreditStale | CreditDone.

Fixpoint credit_loop (fuel n : nat) (a : tx_aggr) (buf_needed ret : Z) s : option (credit_end * Z * nat * st) :=
  match fuel with
  | O => None
  | S fuel =>
      let s := others n s in
      if cmd_stale a (tr s) then Some (CreditStale, ret, S n, s)
      else if should_stop s || host_sleep (tr s) || tx_down s then Some (CreditDone, ret, S n, s)
      else
        let '(ret, s) := is_sdio_write_buffer_available buf_needed s in
        if 0 <? ret then Some (CreditDone, ret, S n, s)
        else if ret <? 0 then Some (CreditDone, ret, S n, esp_sdio_request_transport_recovery M m2j s)
        else
          let s := pass_time M 0 s in
          if should_stop s then Some (CreditDone, ret, S n, s) else credit_loop fuel (S n) a buf_needed ret s
  end.

(** ** The write *)

(** Whether the bytes hold, or may hold, a frame of a stateful interface. *)
Fixpoint has_stateful_from (fuel : nat) (pos : Z) (data : list Z) : bool :=
  match fuel with
  | O => false
  | S fuel =>
      if pos + sizeof_header <=? zlen data then
        let h := decode_header (zdrop pos data) in
        if len h =? 0 then false
        else if negb (ESP_OFFSET_VALID (offset h)) then true
        else
          let frame_len := offset h + len h in
          if zlen data - pos <? frame_len then true
          else if (if_type h =? if_code ESP_HCI_IF) || (if_type h =? if_code ESP_RCP_IF) then true
          else has_stateful_from fuel (pos + align4 frame_len) data
      else false
  end.
Definition esp_sdio_aggr_has_stateful (data : list Z) : bool := has_stateful_from (length data) 0 data.

Definition esp_sdio_write_block_guard (reg : Z) (data : list Z) s : Z * st :=
  let stateful := esp_sdio_aggr_has_stateful data in
  let '(ret, s) := esp_write_block M reg data s in
  (ret, if negb (ret =? 0) && stateful then on_tr (fun d => d <| stateful_write_ambiguous := true |>) s else s).

Definition drop_mask s : st := on_tr (fun d => d <| tx_aggr_stateful_mask := 0 |>) s.
Definition fail_current (c : option (Z * Z)) (error : Z) s : st :=
  match c with
  | Some c => if sdio_cmd_is_current c (cmds (tr s)) then on_tr (fail_cmd c.1 c.2 error) s else s
  | None => s
  end.

Definition sdio_fail_abandoned_cmd (c : option (Z * Z)) (error mask : Z) s : st :=
  let s := fail_current c error s in
  if mask =? 0 then s
  else
    let s := restart_fw M m2j s in
    if if_context (ad s) then drop_mask s else s.

(** The aggregate is given up, with the credits it had reserved. *)
Definition abandon (c : option (Z * Z)) (error mask : Z) s : st :=
  on_tr (fun d => d <| sdio_buf_available := 0 |>) (sdio_fail_abandoned_cmd c error mask s).

(** Padded to whole blocks. *)
Definition tx_bytes (a : tx_aggr) : list Z :=
  let n := zlen (a_buf a) in
  a_buf a ++ replicate (Z.to_nat ((ESP_BLOCK_SIZE - n mod ESP_BLOCK_SIZE) mod ESP_BLOCK_SIZE)) 0.

Definition tx_write_failed (a : tx_aggr) (ret : Z) s : st :=
  let s := if a_mask a =? 0 then s else drop_mask (restart_fw M m2j s) in
  match a_cmd a with
  | Some (code, seq) =>
      let s := esp_sdio_request_fw_reset_recovery M m2j s in
      request_restart M m2j (on_tr (fail_cmd code seq ret) s)
  | None => esp_sdio_request_slave_reset M m2j s
  end.

(** The host is claimed: one write, which counts the buffers it fills. *)
Definition tx_write (a : tx_aggr) (buf_needed : Z) s : Z * st :=
  let data := tx_bytes a in
  let '(ret, s) := esp_sdio_write_block_guard (ESP_SLAVE_CMD53_END_ADDR - zlen data) data s in
  if ret =? 0 then
    let s := on_tr (fun d => d <| tx_buffer_count := (tx_buffer_count d + buf_needed) mod ESP_TX_BUFFER_MAX |>) s in
    (ret, if a_mask a =? 0 then s else drop_mask s)
  else (ret, tx_write_failed a ret s).

Definition epoch_moved (a : tx_aggr) s : bool := negb (tx_epoch (tr s) =? a_epoch a).

(** From the credits to the write; each line is a check of the thread with what
    the others did before it. *)
Definition tx_commit (n : nat) (a : tx_aggr) (buf_needed ret : Z) s : Z * st :=
  let s := others n s in
  if cmd_stale a (tr s) then (ret, abandon None (- EIO) (a_mask a) s)
  else
    let s := others (n + 1)%nat s in
    if should_stop s || tx_down s || epoch_moved a s then
      (ret, abandon (a_cmd a) (if should_stop s then - ESHUTDOWN else - EIO) (a_mask a) s)
    else if negb (func (tr s)) then (ret, abandon (a_cmd a) (- ENODEV) (a_mask a) s)
    else
      let s := others (n + 2)%nat s in
      if should_stop s || host_sleep (tr s) || tx_down s || epoch_moved a s
      then (ret, abandon (a_cmd a) (- EAGAIN) (a_mask a) s)
      else tx_write a buf_needed s.

(** ** One round of the thread

    [ret] is what the previous round left in the variable; [fuel] bounds the
    turns of both loops. *)
Definition tx_size (a : esp_adapter) : Z :=
  if (tx_aggr_size a =? 0) || (ESP_TX_AGGR_SIZE_MAX <? tx_aggr_size a) then ESP_HOST_TX_AGGR_SIZE else tx_aggr_size a.

Definition tx_send (fuel n : nat) (size : Z) (a : tx_aggr) (ret : Z) s : option (Z * st) :=
  let buf_needed := (zlen (a_buf a) + size - 1) / size in
  '(how, ret, n, s) ← credit_loop fuel n a buf_needed ret s;
  let s := others n s in
  Some (if should_stop s then (ret, sdio_fail_abandoned_cmd (a_cmd a) (- ESHUTDOWN) (a_mask a) s)
        else match how with
        | CreditStale => (ret, abandon None (- ETIMEDOUT) (a_mask a) s)
        | CreditDone =>
            if tx_down s || (ret <? 0)
            then (ret, abandon (a_cmd a) (if ret <? 0 then ret else - EIO) (a_mask a) s)
            else tx_commit (n + 1) a buf_needed ret s
        end).

Definition tx_round (fuel : nat) (ret : Z) s : option (Z * st) :=
  if should_stop s then Some (ret, s)
  else if below_ready (ad s) then Some (ret, msleep M m2j 10 s)
  else if host_sleep (tr s) then Some (ret, msleep M m2j 100 s)
  else
    let size := tx_size (ad s) in
    '(a, n, s) ← collect fuel 0 size (mk_aggr [] 0 None 0 (tx_epoch (tr s))) s;
    if zlen (a_buf a) =? 0 then Some (ret, s) else tx_send fuel n size a ret s.

(** ** Credits and the slave's buffers

    [tok] counts the receive buffers the slave has offered since its last reset,
    [recv] those that writes have filled.  A write fills one more; one that fails
    may or may not have. *)
Class TxCard (tok recv : H -> Z) : Prop := {
  tc_read r h : let '((ret, raw), h') := sdio_readl M r h in
    tok h <= tok h' /\ recv h' = recv h /\ ret <= 0 /\
    (r = esp_sdio_reg_addr ESP_SLAVE_TOKEN_RDATA -> ret = 0 ->
     Z.land (Z.shiftr raw 16) ESP_TX_BUFFER_MASK = tok h' mod ESP_TX_BUFFER_MAX);
  tc_write r data h : let '(ret, h') := sdio_memcpy_toio M r data h in
    tok h <= tok h' /\ recv h <= recv h' <= recv h + 1 /\ ret <= 0 /\ (ret = 0 -> recv h' = recv h + 1);
  tc_writeb r v h : tok h <= tok (sdio_writeb M r v h).2 /\ recv (sdio_writeb M r v h).2 = recv h;
  tc_malloc h : tok h <= tok (kmalloc_ok M h).2 /\ recv (kmalloc_ok M h).2 = recv h;
  tc_late h : tok h <= tok (late M h).2 /\ recv (late M h).2 = recv h;
  tc_bound h : tok h - recv h < ESP_TX_BUFFER_MAX
}.

Context {tok recv : H -> Z} `{!TxCard tok recv}.

(** The host knows of [k] credits reserved and [sdio_buf_available] more. *)
Record cinv (k : Z) s : Prop := mk_cinv {
  ci_count : tx_buffer_count (tr s) = recv (hw (tr s)) mod ESP_TX_BUFFER_MAX;
  ci_avail : 0 <= sdio_buf_available (tr s);
  ci_room : recv (hw (tr s)) + sdio_buf_available (tr s) + k <= tok (hw (tr s))
}.

(** Steps that move no buffer and no credit; the slave may offer more. *)
Record tx_kept s s' : Prop := mk_kept {
  tk_count : tx_buffer_count (tr s') = tx_buffer_count (tr s);
  tk_avail : sdio_buf_available (tr s') = sdio_buf_available (tr s);
  tk_recv : recv (hw (tr s')) = recv (hw (tr s));
  tk_tok : tok (hw (tr s)) <= tok (hw (tr s'))
}.

#[global] Instance tx_kept_preorder : PreOrder tx_kept.
Proof.
  split; [intros s; constructor; done || lia|]. intros s1 s2 s3 [] []. constructor; congruence || lia.
Qed.

Lemma cinv_kept k s s' : tx_kept s s' -> cinv k s -> cinv k s'.
Proof. intros [E1 E2 E3 E4] [C1 C2 C3]. constructor; rewrite ?E1, ?E2, ?E3; done || lia. Qed.

(** What a step leaves alone besides. *)
Definition same_tx s s' : Prop :=
  ad s' = ad s /\ tx_epoch (tr s') = tx_epoch (tr s) /\ host_sleep (tr s') = host_sleep (tr s) /\
  tx_thread (tr s') = tx_thread (tr s).

Lemma same_tx_trans s1 s2 s3 : same_tx s1 s2 -> same_tx s2 s3 -> same_tx s1 s3.
Proof. unfold same_tx. intuition congruence. Qed.

Lemma pass_time_kept n s : tx_kept s (pass_time M n s) /\ same_tx s (pass_time M n s).
Proof.
  unfold pass_time, on_hw. destruct (tc_late (hw (tr s))) as [L1 L2].
  destruct (late M (hw (tr s))) as [j h']. cbn [snd] in *. split; [|done]. by constructor.
Qed.

Lemma schedule_kept n b1 b2 s : tx_kept s (esp_schedule_recovery (note_ops M) m2j n b1 b2 s).
Proof.
  unfold esp_schedule_recovery, schedule_delayed_work. cbv zeta.
  repeat case_match; constructor; done || apply Z.le_refl.
Qed.

Lemma slave_intr_kept x s : tx_kept s (generate_slave_intr_sdio M x s).2.
Proof.
  unfold generate_slave_intr_sdio, on_hw. destruct (negb _); [done|].
  destruct (tc_malloc (hw (tr s))) as [A1 A2]. destruct (kmalloc_ok M (hw (tr s))) as [[] h]; cbn [snd] in *.
  2: { by constructor. }
  cbn [negb]. unfold esp_write_reg8, esp_write_byte, on_hw.
  change (hw (tr (on_tr _ s))) with h. destruct (negb _); [by constructor|].
  pose proof (tc_writeb (Z.land ESP_SLAVE_SCRATCH_REG_7 ESP_ADDRESS_MASK) x h) as [B1 B2].
  destruct (sdio_writeb M _ _ h) as [ret h']. cbn [snd] in *. constructor; cbn; congruence || lia.
Qed.

Definition keeps_credit (f : sdio H -> sdio H) : Prop :=
  forall d, tx_buffer_count (f d) = tx_buffer_count d /\ sdio_buf_available (f d) = sdio_buf_available d /\
            hw (f d) = hw d.

Lemma on_tr_kept f s : keeps_credit f -> tx_kept s (on_tr f s).
Proof. intros Hf. destruct (Hf (tr s)) as (E1 & E2 & E3). constructor; cbn; rewrite ?E3; done || lia. Qed.

Lemma on_ad_kept f s : tx_kept s (on_ad f s).
Proof. constructor; done || apply Z.le_refl. Qed.

Lemma sync_keeps a : keeps_credit (esp_sdio_reset_budget_sync_locked a).
Proof. intros d. unfold esp_sdio_reset_budget_sync_locked. by destruct (_ =? _). Qed.

Lemma reset_target_kept s : tx_kept s (esp_sdio_reset_target M m2j s).2.
Proof.
  unfold esp_sdio_reset_target. destruct (negb _); [done|]. destruct (unloading_or_removing _); [done|].
  cbv zeta. set (s1 := on_tr _ s). assert (K1 : tx_kept s s1) by apply on_tr_kept, sync_keeps.
  destruct (_ && _); [|destruct (_ <=? _); [done|]]; cbn [snd].
  all: etrans; [exact K1|]; etrans; [|apply schedule_kept]; by apply on_tr_kept.
Qed.

Lemma request_restart_kept s : tx_kept s (request_restart M m2j s).
Proof.
  unfold request_restart, esp_request_firmware_restart, dispatch_reset. cbv zeta.
  destruct (negb (_ =? 0)); [done|]. destruct (_ || _); [by apply on_ad_kept|].
  set (s1 := on_ad _ s). transitivity s1; [by apply on_ad_kept|]. clearbody s1.
  destruct (_ || _); cbn [reset_target reset_ops generate_slave_intr].
  - pose proof (reset_target_kept s1) as Hk. destruct (esp_sdio_reset_target M m2j s1) as [ret s2]. cbn [snd] in *.
    etrans; [exact Hk|]. constructor; done || apply Z.le_refl.
  - destruct (if_context _); [|done]. pose proof (slave_intr_kept ESP_CLOSE_DATA_PATH_BIT s1) as Hk.
    destruct (generate_slave_intr_sdio M _ s1) as [ret s2]. cbn [snd] in Hk. etrans; [exact Hk|].
    destruct (ret =? 0); constructor; done || apply Z.le_refl.
Qed.

Lemma restart_fw_kept s : tx_kept s (restart_fw M m2j s).
Proof. etrans; [apply schedule_kept|apply request_restart_kept]. Qed.

Lemma requests_kept s :
  tx_kept s (esp_sdio_request_transport_recovery M m2j s) /\
  tx_kept s (esp_sdio_request_fw_reset_recovery M m2j s) /\ tx_kept s (esp_sdio_request_slave_reset M m2j s).
Proof.
  assert (G : forall s, tx_kept s (esp_sdio_schedule_transport_guard M m2j s)).
  { intros x. unfold esp_sdio_schedule_transport_guard. destruct (stateful_write_ambiguous _).
    - etrans; [|apply restart_fw_kept]. by apply on_tr_kept.
    - apply schedule_kept. }
  unfold esp_sdio_request_transport_recovery, esp_sdio_request_fw_reset_recovery, esp_sdio_request_slave_reset.
  destruct (unloading_or_removing _); [done|]. split; [apply G|]. split.
  - etrans; [|apply schedule_kept]. transitivity (on_tr (fun d => d <| need_counter_rebase := true |>) s);
      by apply on_tr_kept.
  - etrans; [|apply G]. by apply on_tr_kept.
Qed.

Lemma get_tx_buffer_num_spec k s :
  0 <= k -> cinv k s ->
  let '((ret, n), s') := esp_slave_get_tx_buffer_num s in
  tx_kept s s' /\ same_tx s s' /\ ret <= 0 /\
  (ret = 0 -> 0 <= n /\ recv (hw (tr s')) + n <= tok (hw (tr s'))).
Proof.
  intros Hk [H1 H2 H3]. unfold esp_slave_get_tx_buffer_num. destruct (func (tr s)) eqn:Ef; cbn [negb].
  2: { by split. }
  unfold esp_sdio_read_u32, on_hw. rewrite Ef. cbn [negb].
  pose proof (tc_read (esp_sdio_reg_addr ESP_SLAVE_TOKEN_RDATA) (hw (tr s))) as Hr.
  destruct (sdio_readl M _ _) as [[ret raw] h']. destruct Hr as (R1 & R2 & R0 & R3).
  assert (Hc : tx_kept s (on_tr (fun d => d <| hw := h' |>) s)) by by constructor.
  destruct (ret =? 0) eqn:E0; cbn [negb]; bool_hyps; [|by split; [|split; [|split; [|intros ->]]]].
  split; [done|]. split; [done|]. split; [done|]. intros _. rewrite (R3 eq_refl E0).
  change (tx_buffer_count (tr (on_tr _ s))) with (tx_buffer_count (tr s)). rewrite H1.
  change (hw (tr (on_tr _ s))) with h'.
  pose proof (tc_bound h') as Hb. rewrite R2 in *. unfold ESP_TX_BUFFER_MAX, ESP_MAX_BUF_CNT, wrap in *.
  change (2 ^ 32) with 4294967296. divlia.
Qed.

Lemma token_polls_spec retry need s :
  cinv 0 s ->
  let '(ret, left, s') := token_polls retry need s in
  cinv 0 s' /\ same_tx s s' /\ ret <= 0 /\ (ret = 0 -> left = true -> need <= sdio_buf_available (tr s')).
Proof.
  revert s. induction retry as [|retry IH]; intros s Hc; cbn [token_polls]; [done|].
  pose proof (get_tx_buffer_num_spec 0 s ltac:(lia) Hc) as Hn.
  destruct (esp_slave_get_tx_buffer_num s) as [[ret n] s1]. destruct Hn as (N1 & N2 & N3 & N4).
  pose proof (cinv_kept 0 s s1 N1 Hc) as Hc1.
  destruct (ret =? 0) eqn:E0; cbn [negb]; bool_hyps; [|by split; [|split; [|split; [|intros ->]]]].
  destruct (N4 E0) as [M1 M2].
  set (s2 := on_tr _ s1).
  assert (Hc2 : cinv 0 s2) by (destruct Hc1; constructor; cbn; done || lia).
  assert (S2 : same_tx s s2) by exact N2.
  destruct (n <? need) eqn:En; bool_hyps; [|by split].
  destruct (pass_time_kept 0 s2) as [P1 P2]. specialize (IH (pass_time M 0 s2) (cinv_kept _ _ _ P1 Hc2)).
  destruct (token_polls _ _ _) as [[ret' left] s3]. destruct IH as (I1 & I2 & I3 & I4).
  split; [done|]. split; [|done]. eapply same_tx_trans; [exact S2|]. by eapply same_tx_trans.
Qed.

(** A positive answer reserves the credits. *)
Lemma write_buffer_available_spec need s :
  0 <= need -> cinv 0 s ->
  let '(ret, s') := is_sdio_write_buffer_available need s in
  cinv 0 s' /\ same_tx s s' /\ (0 < ret -> cinv need s').
Proof.
  intros Hneed Hc. unfold is_sdio_write_buffer_available.
  assert (Hp : let '(ret, left, s') := (if sdio_buf_available (tr s) <? need
                                        then token_polls MAX_WRITE_RETRIES need s else (0, true, s)) in
    cinv 0 s' /\ same_tx s s' /\ ret <= 0 /\ (ret = 0 -> left = true -> need <= sdio_buf_available (tr s'))).
  { destruct (_ <? need) eqn:En; bool_hyps; [|by split]. by apply token_polls_spec. }
  destruct (if sdio_buf_available (tr s) <? need then token_polls MAX_WRITE_RETRIES need s else (0, true, s))
    as [[ret left] s1]. destruct Hp as (P1 & P2 & P3 & P4).
  destruct (ret =? 0) eqn:E0; cbn [negb]; bool_hyps; [|by split; [|split; [|lia]]].
  set (s2 := on_tr (take_credit need) s1).
  assert (T : same_tx s s2 /\ cinv 0 s2 /\ (need <= sdio_buf_available (tr s1) -> cinv need s2)).
  { unfold s2, take_credit, same_tx, on_tr. destruct P1 as [C1 C2 C3].
    destruct (need <=? _) eqn:El; bool_hyps; (split; [exact P2|]); (split; [|intros ?]); constructor; cbn; done || lia. }
  destruct T as (T1 & T2 & T3). split; [done|]. split; [done|]. intros Hret. apply T3.
  apply P4; [done|]. by destruct left.
Qed.

(** ** What the other threads may do during a round that began at epoch [E]

    They never suspend the host in it; a stopped thread stays stopped; the
    adapter leaves the states that stop transmission only with a new epoch, and a
    past epoch does not come back; within the epoch they leave credits alone. *)
Record others_ok (E : Z) : Prop := mk_others_ok {
  oo_awake n s : host_sleep (tr s) = false -> host_sleep (tr (others n s)) = false;
  oo_epoch n s : tx_epoch (tr s) <> E -> tx_epoch (tr (others n s)) <> E;
  oo_stop n s : should_stop s = true -> should_stop (others n s) = true;
  oo_down n s : tx_down s = true -> tx_epoch (tr (others n s)) = E -> tx_down (others n s) = true;
  oo_credit k n s : 0 <= k -> cinv k s -> tx_epoch (tr (others n s)) = E -> cinv k (others n s);
  oo_moved n s : cinv 0 s -> cinv 0 (others n s)
}.

(** In the round: awake, consistent, and [k] credits reserved in the epoch. *)
Record rinv (E k : Z) s : Prop := mk_rinv {
  ri_awake : host_sleep (tr s) = false;
  ri_base : cinv 0 s;
  ri_credit : tx_epoch (tr s) = E -> cinv k s
}.
Definition doomed (E : Z) s : Prop := should_stop s = true \/ tx_down s = true \/ tx_epoch (tr s) <> E.

Context {E : Z} (OK : others_ok E).

Lemma rinv_others k n s : 0 <= k -> rinv E k s -> rinv E k (others n s).
Proof.
  intros Hk [R1 R2 R3]. destruct OK as [O1 O2 O3 O4 O5 O6]. constructor; [by apply O1|by apply O6|].
  intros He. apply O5; [done| |done]. apply R3. destruct (Z.eq_dec (tx_epoch (tr s)) E) as [|Hne]; [done|].
  by destruct (O2 n s Hne).
Qed.

Lemma doomed_others n s : doomed E s -> doomed E (others n s).
Proof.
  destruct OK as [O1 O2 O3 O4 O5 O6]. intros [D|[D|D]]; [left; by apply O3| |right; right; by apply O2].
  destruct (Z.eq_dec (tx_epoch (tr (others n s))) E) as [He|Hne]; [|by right; right].
  right. left. by apply O4.
Qed.

Lemma rinv_same k s s' : cinv 0 s' -> same_tx s s' -> (cinv k s -> cinv k s') -> rinv E k s -> rinv E k s'.
Proof.
  intros Hb (_ & S2 & S3 & _) Hc [R1 R2 R3]. constructor; [by rewrite S3|done|].
  intros He. apply Hc, R3. by rewrite <- S2.
Qed.

Lemma cinv_weaken k s : 0 <= k -> cinv k s -> cinv 0 s.
Proof. intros Hk [C1 C2 C3]. constructor; done || lia. Qed.

Lemma credit_loop_spec fuel n a need ret s how ret' n' s' :
  0 <= need -> rinv E 0 s -> credit_loop fuel n a need ret s = Some (how, ret', n', s') ->
  cinv 0 s' /\ (how = CreditStale \/ ret' < 0 \/ rinv E 0 s' /\ doomed E s' \/ rinv E need s').
Proof.
  intros Hneed. revert n ret s. induction fuel as [|fuel IH]; intros n ret s Hr; cbn [credit_loop]; [done|].
  cbv zeta. pose proof (rinv_others 0 n s ltac:(lia) Hr) as Hr1. set (s1 := others n s) in *.
  destruct (cmd_stale a (tr s1)). { intros [= <- <- <- <-]. split; [apply Hr1|by left]. }
  rewrite (ri_awake _ _ _ Hr1), orb_false_r.
  destruct (should_stop s1 || tx_down s1) eqn:Ed.
  { intros [= <- <- <- <-]. split; [apply Hr1|]. right. right. left. split; [done|].
    unfold doomed. apply orb_true_iff in Ed. tauto. }
  pose proof (write_buffer_available_spec need s1 Hneed (ri_base _ _ _ Hr1)) as Hw.
  destruct (is_sdio_write_buffer_available need s1) as [ret1 s2]. destruct Hw as (W1 & W2 & W3).
  destruct (0 <? ret1) eqn:Ep; bool_hyps.
  { intros [= <- <- <- <-]. split; [done|]. right. right. right. destruct W2 as (_ & Ee & Eh & _).
    constructor; [rewrite Eh; apply Hr1|done|intros _; by apply W3]. }
  destruct (ret1 <? 0) eqn:En; bool_hyps.
  { intros [= <- <- <- <-]. split; [|by right; left]. eapply cinv_kept; [apply requests_kept|done]. }
  destruct (pass_time_kept 0 s2) as [P1 P2].
  assert (Hr2 : rinv E 0 (pass_time M 0 s2)).
  { assert (rinv E 0 s2) by (eapply rinv_same; eauto).
    eapply rinv_same; [|exact P2| |done]; [by eapply cinv_kept|]. by eapply cinv_kept. }
  destruct (should_stop (pass_time M 0 s2)) eqn:Es.
  { intros [= <- <- <- <-]. split; [apply Hr2|]. right. right. left. split; [done|by left]. }
  by apply IH.
Qed.

Lemma fail_current_kept c error s : tx_kept s (fail_current c error s).
Proof. unfold fail_current. destruct c; [|done]. destruct (sdio_cmd_is_current _ _); [by apply on_tr_kept|done]. Qed.

Lemma fail_abandoned_kept c error mask s : tx_kept s (sdio_fail_abandoned_cmd c error mask s).
Proof.
  unfold sdio_fail_abandoned_cmd. cbv zeta. pose proof (fail_current_kept c error s) as Hf.
  destruct (mask =? 0); [done|]. etrans; [exact Hf|]. etrans; [apply restart_fw_kept|].
  destruct (if_context _); [by apply on_tr_kept|done].
Qed.

Lemma abandon_cinv c error mask s : cinv 0 s -> cinv 0 (abandon c error mask s).
Proof.
  intros Hc. destruct (cinv_kept 0 _ _ (fail_abandoned_kept c error mask s) Hc) as [C1 C2 C3].
  constructor; cbn; done || lia.
Qed.

(** No write ever finds the slave's buffers full. *)
Definition room s : Prop := recv (hw (tr s)) <= tok (hw (tr s)).

Lemma cinv_room k s : 0 <= k -> cinv k s -> room s.
Proof. intros Hk [C1 C2 C3]. unfold room. lia. Qed.

Lemma room_kept s s' : tx_kept s s' -> room s -> room s'.
Proof. intros [K1 K2 K3 K4]. unfold room. lia. Qed.

Lemma zlen_tx_bytes a : 0 < zlen (a_buf a) -> 1 < zlen (tx_bytes a).
Proof. intros Hl. unfold tx_bytes. rewrite zlen_app, zlen_replicate. unfold ESP_BLOCK_SIZE. divlia. Qed.

Lemma drop_mask_kept s : tx_kept s (drop_mask s).
Proof. by apply on_tr_kept. Qed.

Lemma tx_write_failed_kept a ret s : tx_kept s (tx_write_failed a ret s).
Proof.
  unfold tx_write_failed. cbv zeta.
  assert (K : tx_kept s (if a_mask a =? 0 then s else drop_mask (restart_fw M m2j s))).
  { destruct (_ =? 0); [done|]. etrans; [apply restart_fw_kept|apply drop_mask_kept]. }
  etrans; [exact K|]. destruct (a_cmd a) as [[code seq]|]; [|apply requests_kept].
  etrans; [exact (proj1 (proj2 (requests_kept _)))|]. etrans; [|apply request_restart_kept]. by apply on_tr_kept.
Qed.

Lemma tx_write_spec a s :
  0 < zlen (a_buf a) -> cinv 1 s ->
  let '(ret, s') := tx_write a 1 s in room s' /\ (0 <= ret -> cinv 0 s').
Proof.
  intros Hl Hc. pose proof (zlen_tx_bytes a Hl) as Hb. unfold tx_write. cbv zeta.
  assert (Hw : let '(ret, s1) := esp_sdio_write_block_guard (ESP_SLAVE_CMD53_END_ADDR - zlen (tx_bytes a)) (tx_bytes a) s in
    tx_buffer_count (tr s1) = tx_buffer_count (tr s) /\ 0 <= sdio_buf_available (tr s1) /\
    recv (hw (tr s1)) + sdio_buf_available (tr s1) <= tok (hw (tr s1)) /\
    ret <= 0 /\ (ret = 0 -> recv (hw (tr s1)) = recv (hw (tr s)) + 1)).
  { destruct Hc as [C1 C2 C3]. unfold esp_sdio_write_block_guard, esp_write_block. cbv zeta.
    rewrite (proj2 (Z.leb_gt _ _)) by lia.
    destruct (negb (func (tr s))); [destruct (_ && _); cbn; split_and!; done || lia|].
    unfold on_hw. pose proof (tc_write (ESP_SLAVE_CMD53_END_ADDR - zlen (tx_bytes a)) (tx_bytes a) (hw (tr s))) as Hw.
    destruct (sdio_memcpy_toio M _ _ _) as [ret h']. destruct Hw as (W1 & W2 & W3 & W4).
    destruct (_ && _); cbn; split_and!; done || lia. }
  destruct (esp_sdio_write_block_guard _ _ s) as [ret s1]. destruct Hw as (W1 & W2 & W3 & W0 & W4).
  destruct (ret =? 0) eqn:E0; bool_hyps.
  - set (s2 := on_tr _ s1).
    assert (Hc2 : cinv 0 s2).
    { destruct Hc as [C1 C2 C3]. constructor; cbn; [|done|lia].
      rewrite W1, C1, (W4 E0). unfold ESP_TX_BUFFER_MAX. apply Zplus_mod_idemp_l. }
    assert (Hc3 : cinv 0 (if a_mask a =? 0 then s2 else drop_mask s2)).
    { destruct (_ =? 0); [done|]. eapply cinv_kept; [apply drop_mask_kept|done]. }
    split; [by apply (cinv_room 0)|done].
  - split; [|lia]. eapply room_kept; [apply tx_write_failed_kept|]. unfold room. lia.
Qed.

(** A round that is doomed writes nothing; else it has reserved its credit. *)
Lemma tx_commit_spec n a ret s :
  0 < zlen (a_buf a) -> a_epoch a = E -> 0 <= ret -> rinv E 0 s -> doomed E s \/ rinv E 1 s ->
  let '(ret', s') := tx_commit n a 1 ret s in room s' /\ (0 <= ret' -> cinv 0 s').
Proof.
  intros Hl He Hret Hr Hd.
  assert (Hstep : forall n s, rinv E 0 s -> doomed E s \/ rinv E 1 s ->
    rinv E 0 (others n s) /\ (doomed E (others n s) \/ rinv E 1 (others n s))).
  { intros m x Hx [Hx'|Hx']; (split; [by apply rinv_others|]); [left; by apply doomed_others|].
    right. by apply rinv_others. }
  assert (Hab : forall c error s, rinv E 0 s ->
    room (abandon c error (a_mask a) s) /\ (0 <= ret -> cinv 0 (abandon c error (a_mask a) s))).
  { intros c error x Hx. pose proof (abandon_cinv c error (a_mask a) x (ri_base _ _ _ Hx)).
    split; [by apply (cinv_room 0)|done]. }
  unfold tx_commit. cbv zeta.
  destruct (Hstep n s Hr Hd) as [Hr1 Hd1]. set (s1 := others n s) in *.
  destruct (cmd_stale a (tr s1)); [by apply Hab|].
  destruct (Hstep (n + 1)%nat s1 Hr1 Hd1) as [Hr2 Hd2]. set (s2 := others (n + 1) s1) in *.
  destruct (_ || epoch_moved a s2); [by apply Hab|].
  destruct (negb (func (tr s2))); [by apply Hab|].
  destruct (Hstep (n + 2)%nat s2 Hr2 Hd2) as [Hr3 Hd3]. set (s3 := others (n + 2) s2) in *.
  destruct (_ || epoch_moved a s3) eqn:Ed; [by apply Hab|].
  unfold epoch_moved in Ed. bool_hyps. rewrite He in *.
  apply tx_write_spec; [done|]. destruct Hd3 as [[D|[D|D]]|D]; [congruence|congruence|done|]. by apply D.
Qed.

(** ** Collecting *)
Lemma pkt_valid_len p : pkt_invalid p = false -> zlen (tx_frame_bytes p) = align4 (pkt_frame_len p) /\ 0 <= pkt_frame_len p.
Proof.
  intros Hv. unfold pkt_invalid in Hv. bool_hyps.
  assert (Hn : 0 <= pkt_frame_len p) by (unfold pkt_frame_len; apply wrap_range; lia).
  split; [|done]. unfold tx_frame_bytes. destruct (align4_spec (pkt_frame_len p) Hn) as [Ha _].
  rewrite zlen_app, zlen_ztake, zlen_replicate. lia.
Qed.

Lemma dequeue_kept prio q s : tx_kept s (on_tr (dequeue prio q) s) /\ same_tx s (on_tr (dequeue prio q) s).
Proof.
  split; [apply on_tr_kept; intros d|]; unfold same_tx, on_tr, dequeue, tx_pending_dec; cbn; by destruct (_ =? 0).
Qed.

Lemma same_tx_refl s : same_tx s s.
Proof. done. Qed.

(** A turn moves packets only, and keeps the aggregate within its size. *)
Lemma collect_turn_spec size a s :
  let '(r, s') := collect_turn size a s in
  tx_kept s s' /\ same_tx s s' /\
  match r with
  | Some (_, a') => a_epoch a' = a_epoch a /\ (zlen (a_buf a) <= size -> zlen (a_buf a') <= size)
  | None => True
  end.
Proof.
  unfold collect_turn. destruct (next_prio (tr s)) as [prio|]; [|done].
  destruct (tx_queue prio (tr s)) as [|p q]; [split; [by apply on_tr_kept|done]|].
  destruct (pkt_invalid p) eqn:Ev. { destruct (dequeue_kept prio q s). done. }
  cbv zeta. destruct (_ || (size <? _)) eqn:Ez; [done|]. apply orb_false_iff in Ez as [_ Ez]. bool_hyps.
  set (a1 := a <| a_mask := _ |>). set (s1 := if _ =? 0 then s else _).
  assert (K1 : tx_kept s s1 /\ same_tx s s1) by (unfold s1; destruct (_ =? 0); [done|split; [by apply on_tr_kept|done]]).
  destruct K1 as [K1 K2]. destruct (dequeue_kept prio q s1) as [D1 D2].
  pose proof (same_tx_trans _ _ _ K2 D2) as S2. assert (T2 : tx_kept s (on_tr (dequeue prio q) s1)) by (by etrans).
  set (s2 := on_tr (dequeue prio q) s1) in *.
  assert (Hz : zlen (a_buf a) <= size -> zlen (a_buf a ++ tx_frame_bytes p) <= size).
  { intros _. rewrite zlen_app. destruct (pkt_valid_len p Ev) as [-> _]. lia. }
  destruct (sdio_get_cmd_info (pkt_data p)) as [c|]; [destruct (sdio_cmd_is_current c _)|]; done.
Qed.

Lemma collect_spec fuel n size a s a' n' s' :
  rinv E 0 s -> zlen (a_buf a) <= size -> collect fuel n size a s = Some (a', n', s') ->
  rinv E 0 s' /\ zlen (a_buf a') <= size /\ a_epoch a' = a_epoch a.
Proof.
  revert n a s. induction fuel as [|fuel IH]; intros n a s Hr Hz; cbn [collect]; [done|].
  destruct (_ <? size); [|by intros [= <- <- <-]].
  pose proof (rinv_others 0 n s ltac:(lia) Hr) as Hr1.
  pose proof (collect_turn_spec size a (others n s)) as Ht. destruct (collect_turn _ _ _) as [r s1].
  destruct Ht as (T1 & T2 & T3).
  assert (Hr2 : rinv E 0 s1).
  { eapply rinv_same; [|exact T2| |exact Hr1]; [eapply cinv_kept; [exact T1|apply Hr1]|by apply cinv_kept]. }
  destruct r as [[[] a1]|]; [| |by intros [= <- <- <-]]; destruct T3 as [E1 E2].
  - intros Hc. destruct (IH _ _ _ Hr2 (E2 Hz) Hc) as (I1 & I2 & I3). by rewrite I3.
  - intros [= <- <- <-]. auto.
Qed.

Lemma tx_send_spec fuel n size a ret s ret' s' :
  0 < zlen (a_buf a) <= size -> a_epoch a = E -> rinv E 0 s ->
  tx_send fuel n size a ret s = Some (ret', s') -> room s' /\ (0 <= ret' -> cinv 0 s').
Proof.
  intros Hz He Hr. unfold tx_send.
  replace ((zlen (a_buf a) + size - 1) / size) with 1
    by (apply (Z.div_unique _ _ _ (zlen (a_buf a) - 1)); lia).
  destruct (credit_loop fuel n a 1 ret s) as [[[[how ret1] n1] s1]|] eqn:Ec; [|done].
  destruct (credit_loop_spec fuel n a 1 ret s how ret1 n1 s1 ltac:(lia) Hr Ec) as [Hb Hend].
  cbn [base.mbind option_bind]. cbv zeta. set (s2 := others n1 s1).
  assert (Hb2 : cinv 0 s2) by (destruct OK as [_ _ _ _ _ O6]; by apply O6).
  assert (Hab : forall c error, room (abandon c error (a_mask a) s2) /\
    (0 <= ret1 -> cinv 0 (abandon c error (a_mask a) s2))).
  { intros c error. pose proof (abandon_cinv c error (a_mask a) s2 Hb2). split; [by apply (cinv_room 0)|done]. }
  destruct (should_stop s2) eqn:Es.
  { intros [= <- <-].
    pose proof (cinv_kept 0 _ _ (fail_abandoned_kept (a_cmd a) (- ESHUTDOWN) (a_mask a) s2) Hb2) as Hc.
    split; [by apply (cinv_room 0)|done]. }
  destruct how; [intros [= <- <-]; apply Hab|].
  destruct (tx_down s2 || (ret1 <? 0)) eqn:Ed; [intros [= <- <-]; apply Hab|]. bool_hyps. intros Hcm.
  assert (Hd : rinv E 0 s2 /\ (doomed E s2 \/ rinv E 1 s2)).
  { destruct Hend as [Hend|[Hend|[[K1 K2]|K1]]]; [done|lia| |].
    - split; [by apply rinv_others|]. left. by apply doomed_others.
    - split; [apply rinv_others; [lia|]|right; by apply rinv_others].
      destruct K1 as [R1 R2 R3]. by constructor. }
  destruct Hd as [Hr2 Hd]. pose proof (tx_commit_spec (n1 + 1) a ret1 s2 ltac:(lia) He ltac:(lia) Hr2 Hd) as Hs.
  destruct (tx_commit _ _ _ _ _) as [r x]. by injection Hcm as <- <-.
Qed.
End Tx.

(** ** Others that satisfy it

    Whatever only queues packets, as [write_packet] does. *)
Lemma quiet_others_ok {H : Type} (others : nat -> sys (sdio H) -> sys (sdio H)) (tok recv : H -> Z) E :
  (forall n s, tx_kept (tok := tok) (recv := recv) s (others n s) /\ same_tx s (others n s)) ->
  others_ok others (tok := tok) (recv := recv) E.
Proof.
  intros Hq. constructor; intros *; match goal with |- context [others ?n ?s] =>
    destruct (Hq n s) as [Hk (Sa & Se & Sh & St)] end.
  - by rewrite Sh.
  - by rewrite Se.
  - unfold should_stop. by rewrite St.
  - unfold tx_down. by rewrite Sa.
  - intros _ Hc _. by eapply cinv_kept.
  - by apply cinv_kept.
Qed.

Lemma write_packet_quiet {H : Type} (tok recv : H -> Z) p (s : sys (sdio H)) :
  tx_kept (tok := tok) (recv := recv) s (write_packet id p s).2 /\ same_tx s (write_packet id p s).2.
Proof.
  unfold write_packet, id. cbv zeta.
  repeat match goal with |- context [if ?b then _ else _] => destruct b; [by split|] end.
  split; [by apply on_tr_kept|done].
Qed.


(** A card with four receive buffers that frees each as soon as it is filled. *)
Definition demo_tx_mmc : mmc Z :=
  mk_mmc (fun _ h => ((0, Z.shiftl ((h + 4) mod ESP_TX_BUFFER_MAX) 16), h)) (fun _ h => ((0, 0), h))
    (fun _ _ h => (0, h)) (fun _ _ h => (0, h)) (fun _ n h => ((0, replicate (Z.to_nat n) 0), h))
    (fun _ _ h => (0, h + 1)) (fun _ h => (0, h)) id (fun _ h => (0, h)) (fun h => (0, h)) id (fun h => (0, h))
    false false 0 (fun h => (0%nat, h)) (fun h => (true, h)).

Lemma demo_tx_card : TxCard demo_tx_mmc (fun h => h + 4) (fun h => h).
Proof.
  constructor; intros; cbn [sdio_readl sdio_memcpy_toio sdio_writeb kmalloc_ok late demo_tx_mmc snd];
    unfold ESP_TX_BUFFER_MAX, ESP_TX_BUFFER_MASK; try lia.
  split; [lia|]. split; [done|]. split; [done|]. intros _ _.
  rewrite Z.shiftr_shiftl_l, Z.shiftl_0_r by lia. change 0xFFF with (Z.ones 12).
  rewrite Z.land_ones by lia. change (2 ^ 12) with 0x1000. apply Zmod_mod.
Qed.

Definition demo_tx_sdio : sdio Z :=
  mk_sdio 0 true true true [[]; []; []] [0; 0; 0] 0 [] 0 0 0 false 0 false false 0 true false
    false false false false 0 0 0 0 false 0 false 0 cmdq_zero.
Definition demo_tx : sys (sdio Z) :=
  mk_sys (zero_adapter <| if_transport := ESP_IF_TYPE_SDIO |> <| if_context := true |> <| state := ESP_CONTEXT_READY |>)
    demo_tx_sdio 1000 None None 0.

(** A data frame is queued before the thread's first step. *)
Definition demo_pkt : tx_pkt := mk_pkt (hosted_frame false 0 0 sample_header [1; 2; 3; 4; 5]) false.
Definition demo_others (n : nat) (s : sys (sdio Z)) : sys (sdio Z) :=
  if (n =? 0)%nat then (write_packet id demo_pkt s).2 else s.
Definition demo_tx_sent : sys (sdio Z) :=
  default demo_tx (snd <$> tx_round demo_tx_mmc (fun n => n) demo_others 10 0 demo_tx).

