(* ===== verification/SdioSend.v ===== *)
(** * SdioSend: what the transmit thread sends

    [SdioTx] shows that a round of the thread stays within the slave's buffers;
    here is what the round puts on the bus.  The other threads send packets
    through [write_packet] at every point where the thread holds no lock; each
    queue is served in order, what is collected is written as one transfer, and
    with enough fuel the round ends. *)
From S2P Require Import Prelude Wire Adapter Recovery CmdQueue SdioHost SdioRx SdioTx.

Section Send.
Context {H : Type} (M : mmc H) (m2j : Z -> Z).
Implicit Types (s : sys (sdio H)) (d : sdio H).

Notation st := (sys (sdio H)).

(** ** Senders *)

(** [arr n]: the packets the other threads send before the thread's [n]th step. *)
Context (arr : nat -> list tx_pkt).
Definition senders (n : nat) s : st := foldl (fun s p => (write_packet id p s).2) s (arr n).

Definition prio_of (p : tx_pkt) : nat := tx_prio_of (if_type (decode_header (pkt_data p))).
Notation at_prio k := (fun p => prio_of p = k).

(** The counters agree with the queues, and every packet is in its own. *)
Definition queue_of (k : nat) (qs : list (list tx_pkt)) : list tx_pkt := default [] (qs !! k).
Record queues_ok (qs : list (list tx_pkt)) (items : list Z) : Prop := mk_qok {
  qok_len : length qs = 3%nat;
  qok_items : items = zlen <$> qs;
  qok_prio k : Forall (at_prio k) (queue_of k qs)
}.
Definition qok d : Prop := queues_ok (tx_q d) (queue_items d).

(** What neither the senders nor the collection touch. *)
Record frozen s s' : Prop := mk_frozen {
  fz_ad : ad s' = ad s;
  fz_hw : hw (tr s') = hw (tr s);
  fz_func : func (tr s') = func (tr s);
  fz_cmds : cmds (tr s') = cmds (tr s);
  fz_thread : tx_thread (tr s') = tx_thread (tr s);
  fz_sleep : host_sleep (tr s') = host_sleep (tr s);
  fz_epoch : tx_epoch (tr s') = tx_epoch (tr s);
  fz_avail : sdio_buf_available (tr s') = sdio_buf_available (tr s)
}.
#[global] Instance frozen_preorder : PreOrder frozen.
Proof. split; [done|]. intros s1 s2 s3 [] []. constructor; congruence. Qed.

Lemma prio_lt p : (prio_of p < 3)%nat.
Proof. unfold prio_of, tx_prio_of, PRIO_Q_HIGH, PRIO_Q_MID, PRIO_Q_LOW. repeat case_match; lia. Qed.

Lemma queue_of_insert k j q qs :
  (j < length qs)%nat -> queue_of k (<[j := q]> qs) = if decide (j = k) then q else queue_of k qs.
Proof.
  intros Hj. unfold queue_of. destruct (decide (j = k)) as [->|Hn].
  - by rewrite list_lookup_insert_eq by lia.
  - by rewrite list_lookup_insert_ne.
Qed.

Lemma queue_of_some k qs : (k < length qs)%nat -> qs !! k = Some (queue_of k qs).
Proof. intros Hk. unfold queue_of. by destruct (lookup_lt_is_Some_2 qs k Hk) as [q ->]. Qed.

(** One queue and its counter change together. *)
Lemma queues_ok_set qs items j q g :
  queues_ok qs items -> (j < 3)%nat -> Forall (at_prio j) q -> zlen q = g (zlen (queue_of j qs)) ->
  queues_ok (<[j := q]> qs) (alter g j items).
Proof.
  intros [E1 E2 E3] Hj Hq Hz. constructor.
  - by rewrite length_insert.
  - subst items. rewrite list_fmap_insert. apply list_eq. intros i. destruct (decide (i = j)) as [->|Hn].
    + rewrite list_lookup_alter_eq, list_lookup_insert_eq by (rewrite length_fmap; lia).
      rewrite list_lookup_fmap, queue_of_some by lia. cbn. by rewrite Hz.
    + by rewrite list_lookup_alter_ne, list_lookup_insert_ne by done.
  - intros k. rewrite queue_of_insert by lia. destruct (decide (j = k)) as [->|]; [done|apply E3].
Qed.

Lemma filter_one k p : filter (at_prio k) [p] = if decide (prio_of p = k) then [p] else [].
Proof. rewrite filter_cons, filter_nil. done. Qed.

Lemma enqueue_queues p d :
  qok d -> qok (enqueue p (prio_of p) d) /\
  forall k, tx_queue k (enqueue p (prio_of p) d) = tx_queue k d ++ filter (at_prio k) [p].
Proof.
  intros Hd. pose proof (prio_lt p) as Hp. pose proof Hd as [E1 E2 E3]. split.
  - apply (queues_ok_set _ _ _ _ (fun n => n + 1)); [done|done| |].
    + apply Forall_app. split; [apply E3|]. by constructor.
    + by rewrite zlen_app.
  - intros k. rewrite filter_one. change (tx_queue k (enqueue p (prio_of p) d)) with
      (queue_of k (<[prio_of p := queue_of (prio_of p) (tx_q d) ++ [p]]> (tx_q d))).
    rewrite queue_of_insert by lia. destruct (decide (prio_of p = k)) as [->|]; [done|]. by rewrite app_nil_r.
Qed.

Lemma dequeue_queues k p q d :
  qok d -> (k < 3)%nat -> tx_queue k d = p :: q ->
  qok (dequeue k q d) /\ prio_of p = k /\
  forall j, tx_queue j d = filter (at_prio j) [p] ++ tx_queue j (dequeue k q d).
Proof.
  intros Hd Hk Hq. pose proof Hd as [E1 E2 E3]. pose proof (E3 k) as Hf.
  change (queue_of k (tx_q d)) with (tx_queue k d) in Hf. rewrite Hq in Hf. inversion_clear Hf as [|? ? Hp Hf'].
  assert (Et : tx_q (dequeue k q d) = <[k := q]> (tx_q d) /\ queue_items (dequeue k q d) = alter (fun n => n - 1) k (queue_items d)).
  { unfold dequeue, tx_pending_dec. by destruct (_ =? 0). }
  destruct Et as [Et1 Et2]. split; [|split; [done|]].
  - unfold qok. rewrite Et1, Et2. apply (queues_ok_set _ _ _ _ (fun n => n - 1)); [done|done|done|].
    change (queue_of k (tx_q d)) with (tx_queue k d). rewrite Hq, zlen_cons. lia.
  - intros j. rewrite filter_one. change (tx_queue j (dequeue k q d)) with (queue_of j (tx_q (dequeue k q d))).
    rewrite Et1, queue_of_insert by lia. destruct (decide (prio_of p = j)) as [<-|Hn].
    + by rewrite Hp, decide_True.
    + by rewrite decide_False by congruence.
Qed.

(** The senders' packets go to the ends of their queues; some are refused. *)
Lemma write_packet_sends p s :
  qok (tr s) -> let s' := (write_packet id p s).2 in
  frozen s s' /\ qok (tr s') /\ exists ps, sublist ps [p] /\
  forall k, tx_queue k (tr s') = tx_queue k (tr s) ++ filter (at_prio k) ps.
Proof.
  intros Hd s'. subst s'. unfold write_packet, id. cbv zeta.
  assert (Hno : frozen s s /\ qok (tr s) /\ exists ps, sublist ps [p] /\
    forall k, tx_queue k (tr s) = tx_queue k (tr s) ++ filter (at_prio k) ps).
  { split; [reflexivity|]. split; [done|]. exists []. split; [apply sublist_nil_l|]. intros k. by rewrite app_nil_r. }
  repeat match goal with |- context [if ?b then _ else _] => destruct b; [exact Hno|] end.
  destruct (enqueue_queues p (tr s) Hd) as [E1 E2]. split; [by constructor|]. split; [exact E1|].
  exists [p]. split; [done|exact E2].
Qed.

Lemma senders_send n s :
  qok (tr s) -> frozen s (senders n s) /\ qok (tr (senders n s)) /\ exists ps, sublist ps (arr n) /\
  forall k, tx_queue k (tr (senders n s)) = tx_queue k (tr s) ++ filter (at_prio k) ps.
Proof.
  unfold senders. generalize (arr n) as l. intros l. revert s. induction l as [|p l IH]; intros s Hd; cbn [foldl].
  { split; [reflexivity|]. split; [done|]. exists []. split; [done|]. intros k. by rewrite app_nil_r. }
  destruct (write_packet_sends p s Hd) as (F1 & Q1 & ps & S1 & E1).
  destruct (IH _ Q1) as (F2 & Q2 & ps' & S2 & E2). split; [by etrans|]. split; [done|].
  exists (ps ++ ps'). split; [by apply (sublist_app _ [p])|].
  intros k. by rewrite E2, E1, filter_app, app_assoc.
Qed.

(** ** Collection *)

(** What happens to a packet at the head of its queue: [cur] is the command the
    firmware is working on. *)
Definition taken (q : cmdq) (p : tx_pkt) : bool :=
  negb (pkt_invalid p)
  && match sdio_get_cmd_info (pkt_data p) with Some c => sdio_cmd_is_current c q | None => true end.
Notation is_taken q := (fun p => taken q p = true).
Definition frames_of_pkts (q : cmdq) (ps : list tx_pkt) : list Z :=
  concat (tx_frame_bytes <$> filter (is_taken q) ps).

Lemma next_prio_spec d :
  qok d ->
  match next_prio d with
  | Some k => (k < 3)%nat /\ exists p q, tx_queue k d = p :: q
  | None => forall k, tx_queue k d = []
  end.
Proof.
  intros [E1 E2 E3].
  assert (Hi : forall k, (k < 3)%nat -> tx_items k d = zlen (tx_queue k d)).
  { intros k Hk. unfold tx_items, tx_queue. rewrite E2, list_lookup_fmap, queue_of_some by lia. done. }
  assert (Hp : forall k, (k < 3)%nat -> 0 < tx_items k d -> (k < 3)%nat /\ exists p q, tx_queue k d = p :: q).
  { intros k Hk H0. split; [done|]. rewrite Hi in H0 by done. destruct (tx_queue k d); [done|eauto]. }
  unfold next_prio, PRIO_Q_HIGH, PRIO_Q_MID, PRIO_Q_LOW.
  destruct (0 <? tx_items 0 d) eqn:B0; bool_hyps; [by apply Hp; [lia|]|].
  destruct (0 <? tx_items 1 d) eqn:B1; bool_hyps; [by apply Hp; [lia|]|].
  destruct (0 <? tx_items 2 d) eqn:B2; bool_hyps; [by apply Hp; [lia|]|].
  intros k. destruct (decide (k < 3)%nat) as [Hk|Hk].
  - apply zlen_0_nil. pose proof (zlen_nonneg (tx_queue k d)).
    destruct k as [|[|[|?]]]; [..|lia]; rewrite Hi in B0, B1, B2 by lia; lia.
  - unfold tx_queue. by rewrite lookup_ge_None_2 by lia.
Qed.

Lemma dequeue_frozen k q s : frozen s (on_tr (dequeue k q) s).
Proof.
  unfold dequeue, tx_pending_dec. constructor; cbn;
    match goal with |- context [if ?b then _ else _] => by destruct b | _ => done end.
Qed.
Lemma mask_frozen m s : frozen s (on_tr (fun d => d <| tx_aggr_stateful_mask := m |>) s).
Proof. by constructor. Qed.

(** The head of the queue served: it stays when the aggregate ends before it,
    else it leaves, into the aggregate or dropped. *)
Lemma collect_turn_takes size a s :
  qok (tr s) ->
  let '(r, s') := collect_turn size a s in
  frozen s s' /\ qok (tr s') /\
  match r with
  | None => s' = s /\ ((forall k, tx_queue k (tr s) = []) \/ zlen (a_buf a) <> 0 \/
                exists k p q, tx_queue k (tr s) = p :: q /\ size < align4 (pkt_frame_len p))
  | Some (more, a') =>
      exists p, (forall k, tx_queue k (tr s) = filter (at_prio k) [p] ++ tx_queue k (tr s')) /\
        a_epoch a' = a_epoch a /\
        if taken (cmds (tr s)) p
        then a_buf a' = a_buf a ++ tx_frame_bytes p /\ zlen (a_buf a) + align4 (pkt_frame_len p) <= size /\
             (cmd_stale a (tr s) = false -> cmd_stale a' (tr s) = false)
        else a_buf a' = a_buf a /\ more = true /\ a_cmd a' = a_cmd a
  end.
Proof.
  intros Hd. unfold collect_turn. pose proof (next_prio_spec (tr s) Hd) as Hn.
  destruct (next_prio (tr s)) as [k|]; [|split; [reflexivity|by auto]].
  destruct Hn as (Hk & p & q & Eq). rewrite Eq. destruct (dequeue_queues k p q (tr s) Hd Hk Eq) as (D1 & D2 & D3).
  unfold taken. destruct (pkt_invalid p) eqn:Ei; cbn [negb andb].
  { split; [apply dequeue_frozen|]. split; [done|]. exists p. rewrite Ei. split; [exact D3|done]. }
  cbv zeta. destruct (flush_after_pkt k p && negb (zlen (a_buf a) =? 0) || _) eqn:Ef.
  { split; [reflexivity|]. split; [done|]. split; [done|]. right. apply orb_true_iff in Ef as [Ef|Ef]; bool_hyps; [by left|].
    destruct (Z.eq_dec (zlen (a_buf a)) 0) as [Hz|Hz]; [|by left]. right. exists k, p, q. split; [done|]. lia. }
  apply orb_false_iff in Ef as [_ Ef]. apply Z.ltb_ge in Ef.
  set (a1 := a <| a_mask := mask_with p (a_mask a) |>).
  set (s1 := if a_mask a1 =? 0 then s else _).
  assert (F1 : frozen s s1) by (unfold s1; destruct (_ =? 0); [reflexivity|apply mask_frozen]).
  assert (Q1 : dequeue k q (tr s1) = dequeue k q (tr s) \/
    dequeue k q (tr s1) = dequeue k q (tr s) <| tx_aggr_stateful_mask := a_mask a1 |>).
  { unfold s1. destruct (_ =? 0); [by left|right]. unfold dequeue, tx_pending_dec, on_tr. cbn. by destruct (_ =? 0). }
  assert (Q2 : qok (dequeue k q (tr s1)) /\ forall j, tx_queue j (dequeue k q (tr s1)) = tx_queue j (dequeue k q (tr s))).
  { destruct Q1 as [-> | ->]; done. }
  destruct Q2 as [Q2 Q3].
  assert (F2 : frozen s (on_tr (dequeue k q) s1)) by (etrans; [exact F1|apply dequeue_frozen]).
  assert (Hc : cmds (tr (on_tr (dequeue k q) s1)) = cmds (tr s)) by apply F2.
  rewrite Hc. destruct (sdio_get_cmd_info (pkt_data p)) as [c|] eqn:Eci.
  - destruct (sdio_cmd_is_current c (cmds (tr s))) eqn:Ec; (split; [exact F2|]); (split; [exact Q2|]); exists p;
      rewrite Ei, Eci, Ec; cbn [negb andb]; (split; [intros j; rewrite D3; f_equal; symmetry; apply Q3|]); split; try done.
    split; [done|]. split; [done|]. intros _. unfold cmd_stale. cbn. by rewrite Ec.
  - split; [exact F2|]. split; [exact Q2|]. exists p. rewrite Ei, Eci. cbn [negb andb].
    split; [intros j; rewrite D3; f_equal; symmetry; apply Q3|]. split; [done|]. by split.
Qed.

Lemma tx_frame_bytes_len p : pkt_invalid p = false -> zlen (tx_frame_bytes p) = align4 (pkt_frame_len p).
Proof.
  intros Hv. unfold pkt_invalid in Hv. cbv zeta in Hv. bool_hyps. unfold tx_frame_bytes.
  assert (Hf : 0 <= pkt_frame_len p) by (unfold pkt_frame_len; apply (wrap_range 32); lia).
  destruct (align4_spec (pkt_frame_len p) Hf) as [Ha _].
  rewrite zlen_app, zlen_ztake, zlen_replicate. lia.
Qed.

Lemma frames_of_app q ps1 ps2 : frames_of_pkts q (ps1 ++ ps2) = frames_of_pkts q ps1 ++ frames_of_pkts q ps2.
Proof. unfold frames_of_pkts. by rewrite filter_app, fmap_app, concat_app. Qed.
Lemma frames_of_one q p : frames_of_pkts q [p] = if taken q p then tx_frame_bytes p else [].
Proof.
  unfold frames_of_pkts. rewrite filter_cons, filter_nil. destruct (taken q p); [|done].
  rewrite decide_True by done. cbn. by rewrite app_nil_r.
Qed.

(** A collection, from the [n]th step on: [seen] left the queues in order and
    [ps] joined them. *)
Record collected (n m : nat) (size : Z) (a : tx_aggr) s (seen ps : list tx_pkt) (a' : tx_aggr) s' : Prop := mk_collected {
  co_frozen : frozen s s';
  co_qok : qok (tr s');
  co_arrived : sublist ps (concat (arr <$> seq n m));
  co_fifo k : tx_queue k (tr s) ++ filter (at_prio k) ps = filter (at_prio k) seen ++ tx_queue k (tr s');
  co_buf : a_buf a' = a_buf a ++ frames_of_pkts (cmds (tr s)) seen;
  co_epoch : a_epoch a' = a_epoch a;
  co_size : zlen (a_buf a) <= size -> zlen (a_buf a') <= size;
  co_current : cmd_stale a (tr s) = false -> cmd_stale a' (tr s) = false;
  co_empty : 0 < size -> zlen (a_buf a') = 0 -> (forall k, tx_queue k (tr s') = []) \/
             exists k p q, tx_queue k (tr s') = p :: q /\ size < align4 (pkt_frame_len p)
}.

Lemma taken_step n m size a s ps1 s1 p a1 s2 :
  frozen s s1 -> sublist ps1 (arr n) -> (forall k, tx_queue k (tr s1) = tx_queue k (tr s) ++ filter (at_prio k) ps1) ->
  frozen s1 s2 -> (forall k, tx_queue k (tr s1) = filter (at_prio k) [p] ++ tx_queue k (tr s2)) ->
  a_epoch a1 = a_epoch a -> a_buf a1 = a_buf a ++ frames_of_pkts (cmds (tr s)) [p] ->
  (zlen (a_buf a) <= size -> zlen (a_buf a1) <= size) ->
  (cmd_stale a (tr s) = false -> cmd_stale a1 (tr s) = false) ->
  forall seen ps a' s', collected (S n) m size a1 s2 seen ps a' s' ->
  collected n (S m) size a s (p :: seen) (ps1 ++ ps) a' s'.
Proof.
  intros F1 S1 Q1 F2 Q2 E1 E2 E3 E4 seen ps a' s' [C1 C2 C3 C4 C5 C6 C7 C8 C9].
  assert (Hc : cmds (tr s2) = cmds (tr s)) by (destruct F1, F2; congruence).
  assert (Hstale : forall x, cmd_stale x (tr s2) = cmd_stale x (tr s)) by (intros x; unfold cmd_stale; by rewrite Hc).
  constructor; try done.
  - etrans; [exact F1|]. by etrans.
  - cbn [seq fmap list_fmap concat]. by apply sublist_app.
  - intros k. rewrite filter_app, app_assoc, <- Q1, Q2, <- app_assoc, C4.
    rewrite app_assoc, <- filter_app. done.
  - rewrite C5, E2, Hc, <- app_assoc. f_equal. change (p :: seen) with ([p] ++ seen). by rewrite frames_of_app.
  - by rewrite C6.
  - auto.
  - rewrite !Hstale in C8. auto.
Qed.

Definition all_bytes s : Prop := forall k, Forall (fun p => bytes_ok (pkt_data p)) (tx_queue k (tr s)).

Lemma frame_len_pos p : bytes_ok (pkt_data p) -> pkt_invalid p = false -> 0 < pkt_frame_len p.
Proof.
  intros Hb Hv. apply decoded_len_range in Hb. unfold pkt_invalid, ESP_OFFSET_VALID, sizeof_header in Hv.
  cbv zeta in Hv. unfold pkt_frame_len. cbv zeta. bool_hyps. unfold ESP_MAX_OFFSET_SIZE, ESP_MAX_ALIGN_PADDING, sizeof_header in *.
  rewrite wrap_id by (unfold in_width in *; lia). unfold in_width in *. lia.
Qed.

Lemma collect_runs fuel n size a s a' n' s' :
  (forall n, Forall (fun p => bytes_ok (pkt_data p)) (arr n)) -> all_bytes s ->
  qok (tr s) -> collect senders fuel n size a s = Some (a', n', s') ->
  exists seen ps, collected n fuel size a s seen ps a' s'.
Proof.
  intros Hab. revert n a s. induction fuel as [|fuel IH]; intros n a s Hqb Hd; cbn [collect]; [done|].
  destruct (zlen (a_buf a) <? size) eqn:Ez; bool_hyps.
  2: { intros [= <- _ <-]. exists [], []. constructor; try done.
       - apply sublist_nil_l.
       - intros k. by rewrite app_nil_r.
       - unfold frames_of_pkts. cbn. by rewrite app_nil_r.
       - intros. lia. }
  destruct (senders_send n s Hd) as (F1 & Q1 & ps1 & S1 & E1).
  assert (B1 : all_bytes (senders n s)).
  { intros k. rewrite E1. apply Forall_app. split; [apply Hqb|]. apply Forall_forall. intros p Hp.
    apply list_elem_of_filter in Hp as [_ Hp]. specialize (Hab n). rewrite Forall_forall in Hab. apply Hab.
    eapply elem_of_submseteq; [exact Hp|by apply sublist_submseteq]. }
  pose proof (collect_turn_takes size a (senders n s) Q1) as Ht.
  destruct (collect_turn size a (senders n s)) as [[[more a1]|] s1].
  - destruct Ht as (F2 & Q2 & p & E2 & Ee & Et).
    assert (Hc : cmds (tr (senders n s)) = cmds (tr s)) by apply F1.
    assert (Hcs : forall x, cmd_stale x (tr (senders n s)) = cmd_stale x (tr s)) by (intros x; unfold cmd_stale; by rewrite Hc).
    rewrite Hc, !Hcs in Et.
    assert (B2 : all_bytes s1) by (intros k; specialize (B1 k); rewrite E2 in B1; by apply Forall_app in B1 as [_ ?]).
    assert (Bp : bytes_ok (pkt_data p)).
    { specialize (B1 (prio_of p)). rewrite E2, filter_one, decide_True in B1 by done. by inversion B1. }
    assert (Hstep : forall seen ps, collected (S n) fuel size a1 s1 seen ps a' s' ->
      collected n (S fuel) size a s (p :: seen) (ps1 ++ ps) a' s').
    { intros seen ps. apply (taken_step n fuel size a s ps1 (senders n s) p a1 s1 F1 S1 E1 F2 E2 Ee); rewrite ?frames_of_one.
      - destruct (taken _ p); [by destruct Et as [-> _]|]. destruct Et as [-> _]. by rewrite app_nil_r.
      - destruct (taken _ p) eqn:Etk; [|by destruct Et as [-> _]]. destruct Et as (-> & Hz & _). intros _.
        unfold taken in Etk. bool_hyps. rewrite zlen_app, tx_frame_bytes_len by done. lia.
      - destruct (taken _ p); [by destruct Et as (_ & _ & ?)|]. destruct Et as (_ & _ & Ea). unfold cmd_stale. by rewrite Ea. }
    destruct more.
    + intros Hrun. destruct (IH _ _ _ B2 Q2 Hrun) as (seen & ps & Hs). eauto.
    + intros [= <- _ <-]. destruct (taken (cmds (tr s)) p) eqn:Etk; [|by destruct Et as (_ & ? & _)].
      exists [p], (ps1 ++ []). apply Hstep. constructor; try done.
      * apply sublist_nil_l.
      * intros k. by rewrite app_nil_r.
      * unfold frames_of_pkts. cbn. by rewrite app_nil_r.
      * intros _ H0. exfalso. destruct Et as (Et & _). unfold taken in Etk. bool_hyps.
        rewrite Et, zlen_app, tx_frame_bytes_len in H0 by done. pose proof (zlen_nonneg (a_buf a)).
        pose proof (frame_len_pos p Bp ltac:(done)). destruct (align4_spec (pkt_frame_len p)); lia.
  - destruct Ht as (_ & Q2 & -> & Hstop). intros [= <- _ <-]. exists [], ps1. constructor; try done.
    + cbn [seq fmap list_fmap concat]. rewrite <- (app_nil_r ps1). apply sublist_app; [done|apply sublist_nil_l].
    + intros k. cbn. by rewrite E1.
    + unfold frames_of_pkts. cbn. by rewrite app_nil_r.
    + intros _ H0. destruct Hstop as [?|[?|?]]; [by left|done|by right].
Qed.

(** *** It ends *)
Definition queued s : nat := length (tx_queue 0 (tr s)) + length (tx_queue 1 (tr s)) + length (tx_queue 2 (tr s)).

Lemma filter_prios (l : list tx_pkt) :
  length l = (length (filter (at_prio 0%nat) l) + length (filter (at_prio 1%nat) l) + length (filter (at_prio 2%nat) l))%nat.
Proof.
  induction l as [|p l IH]; [done|]. rewrite !filter_cons. cbn [length]. pose proof (prio_lt p).
  destruct (prio_of p) as [|[|[|?]]] eqn:E; repeat case_decide; cbn [length]; lia.
Qed.

Lemma collect_ends fuel n size a s :
  qok (tr s) -> (queued s + length (concat (arr <$> seq n fuel)) < fuel)%nat ->
  exists r, collect senders fuel n size a s = Some r.
Proof.
  revert n a s. induction fuel as [|fuel IH]; intros n a s Hd Hf; [lia|]. cbn [collect].
  destruct (zlen (a_buf a) <? size); [|eauto].
  destruct (senders_send n s Hd) as (_ & Q1 & ps1 & S1 & E1).
  pose proof (collect_turn_takes size a (senders n s) Q1) as Ht.
  destruct (collect_turn size a (senders n s)) as [[[[] a1]|] s1]; [|eauto..].
  destruct Ht as (_ & Q2 & p & E2 & _). apply IH; [done|].
  cbn [seq fmap list_fmap concat] in Hf. rewrite length_app in Hf. apply sublist_length in S1.
  assert (H1 : (queued (senders n s) <= queued s + length (arr n))%nat).
  { unfold queued. rewrite !E1, !length_app. pose proof (filter_prios ps1). lia. }
  assert (H2 : queued (senders n s) = S (queued s1)).
  { unfold queued. rewrite !E2, !length_app. pose proof (filter_prios [p]) as Hp. cbn [length] in Hp. lia. }
  unfold fmap in *. lia.
Qed.

(** ** A round that sends *)

(** The thread runs on a bound, awake host. *)
Record live (E : Z) (q : cmdq) (h : H) s : Prop := mk_live {
  lv_thread : tx_thread (tr s) = true;
  lv_awake : host_sleep (tr s) = false;
  lv_ready : below_ready (ad s) = false;
  lv_bound : flag ESP_TRANSPORT_REMOVING (ad s) = false;
  lv_func : func (tr s) = true;
  lv_epoch : tx_epoch (tr s) = E;
  lv_cmds : cmds (tr s) = q;
  lv_hw : hw (tr s) = h
}.

Lemma live_frozen E q h s s' : frozen s s' -> live E q h s -> live E q h s'.
Proof. intros [] []. constructor; congruence. Qed.

Lemma live_goes E q h s : live E q h s -> (should_stop s || host_sleep (tr s) || tx_down s) = false.
Proof. intros []. unfold should_stop, tx_down. by rewrite lv_thread0, lv_awake0, lv_ready0, lv_bound0. Qed.

(** Steps of the senders, in a row. *)
Definition went (ps : list tx_pkt) s s' : Prop :=
  frozen s s' /\ qok (tr s') /\ Forall (fun p => exists n, p ∈ arr n) ps /\
  forall k, tx_queue k (tr s') = tx_queue k (tr s) ++ filter (at_prio k) ps.

Lemma senders_went n s : qok (tr s) -> exists ps, went ps s (senders n s).
Proof.
  intros Hd. destruct (senders_send n s Hd) as (F & Q & ps & S & E). exists ps. split_and!; try done.
  apply Forall_forall. intros p Hp. exists n. eapply elem_of_submseteq; [exact Hp|by apply sublist_submseteq].
Qed.

Lemma went_trans ps1 ps2 s1 s2 s3 : went ps1 s1 s2 -> went ps2 s2 s3 -> went (ps1 ++ ps2) s1 s3.
Proof.
  intros (F1 & Q1 & A1 & E1) (F2 & Q2 & A2 & E2). split; [by etrans|]. split; [done|].
  split; [by apply Forall_app|]. intros k. by rewrite E2, E1, filter_app, app_assoc.
Qed.

(** The write itself: the bytes of the aggregate go to the card, once. *)
Definition tx_reg (a : tx_aggr) : Z := ESP_SLAVE_CMD53_END_ADDR - zlen (tx_bytes a).

Lemma tx_write_sends E q h a n s :
  live E q h s -> 1 < zlen (tx_bytes a) -> (sdio_memcpy_toio M (tx_reg a) (tx_bytes a) h).1 = 0 ->
  let '(ret, s') := tx_write M m2j a n s in
  ret = 0 /\ hw (tr s') = (sdio_memcpy_toio M (tx_reg a) (tx_bytes a) h).2 /\
  forall k, tx_queue k (tr s') = tx_queue k (tr s).
Proof.
  intros Hs Hl Hw. unfold tx_write, esp_sdio_write_block_guard, esp_write_block. fold (tx_reg a).
  rewrite (proj2 (Z.leb_gt _ _) Hl), (lv_func _ _ _ _ Hs). cbn [negb]. unfold on_hw. rewrite (lv_hw _ _ _ _ Hs).
  destruct (sdio_memcpy_toio M (tx_reg a) (tx_bytes a) h) as [ret h']. cbn [fst snd] in *. subst ret.
  cbn [Z.eqb negb andb]. destruct (a_mask a =? 0); done.
Qed.

(** With a credit in hand the thread does not wait, and what it collected is
    written. *)
Lemma tx_send_sends fuel n size a ret q h s :
  live (a_epoch a) q h s -> qok (tr s) -> 1 <= sdio_buf_available (tr s) -> cmd_stale a (tr s) = false ->
  0 < zlen (a_buf a) <= size -> 1 < zlen (tx_bytes a) ->
  (sdio_memcpy_toio M (tx_reg a) (tx_bytes a) h).1 = 0 ->
  exists s' ps, tx_send M m2j senders (S fuel) n size a ret s = Some (0, s') /\
    hw (tr s') = (sdio_memcpy_toio M (tx_reg a) (tx_bytes a) h).2 /\
    Forall (fun p => exists n, p ∈ arr n) ps /\
    forall k, tx_queue k (tr s') = tx_queue k (tr s) ++ filter (at_prio k) ps.
Proof.
  intros Hl Hd Hc Hst Hz Hb Hw. unfold tx_send. assert (Hq : (zlen (a_buf a) + size - 1) / size = 1).
  { symmetry. apply (Z.div_unique _ _ _ (zlen (a_buf a) - 1)); lia. }
  rewrite Hq. cbn [credit_loop].
  destruct (senders_went n s Hd) as (ps1 & W1). set (s1 := senders n s) in *.
  assert (Hstale : forall x s', cmds (tr s') = cmds (tr s) -> cmd_stale x (tr s') = cmd_stale x (tr s))
    by (intros x s' E; unfold cmd_stale; by rewrite E).
  destruct W1 as (F1 & Q1 & A1 & E1). pose proof (live_frozen _ _ _ _ _ F1 Hl) as L1.
  rewrite (Hstale a s1 (fz_cmds _ _ F1)), Hst, (live_goes _ _ _ _ L1).
  unfold is_sdio_write_buffer_available. rewrite (fz_avail _ _ F1), (proj2 (Z.ltb_ge _ _)) by lia.
  cbn [Z.eqb negb Z.ltb Z.compare base.mbind option_bind]. set (s2 := on_tr (take_credit 1) s1).
  assert (L2 : live (a_epoch a) q h s2 /\ qok (tr s2) /\ forall k, tx_queue k (tr s2) = tx_queue k (tr s1)).
  { unfold s2, take_credit, on_tr. destruct L1. destruct (1 <=? _); by split_and!. }
  destruct L2 as (L2 & Q2 & E2). assert (W : exists ps, went ps s2 (senders (S n) s2)) by by apply senders_went.
  destruct W as (ps3 & W3). set (s3 := senders (S n) s2) in *.
  pose proof W3 as (F3 & Q3 & _). pose proof (live_frozen _ _ _ _ _ F3 L2) as L3.
  assert (Hg3 : should_stop s3 = false /\ tx_down s3 = false).
  { pose proof (live_goes _ _ _ _ L3) as Hg. apply orb_false_iff in Hg as [Hg ?]. by apply orb_false_iff in Hg as [? ?]. }
  destruct Hg3 as [-> ->]. cbn [orb Z.ltb Z.compare]. unfold tx_commit. replace (S n + 1)%nat with (S (S n)) by lia.
  destruct (senders_went (S (S n)) s3 Q3) as (ps4 & W4). set (s4 := senders (S (S n)) s3) in *.
  pose proof W4 as (F4 & Q4 & _). pose proof (live_frozen _ _ _ _ _ F4 L3) as L4.
  rewrite (Hstale a s4) by (rewrite (lv_cmds _ _ _ _ L4); symmetry; apply Hl). rewrite Hst.
  destruct (senders_went (S (S n) + 1) s4 Q4) as (ps5 & W5). set (s5 := senders (S (S n) + 1) s4) in *.
  pose proof W5 as (F5 & Q5 & _). pose proof (live_frozen _ _ _ _ _ F5 L4) as L5.
  destruct (senders_went (S (S n) + 2) s5 Q5) as (ps6 & W6). set (s6 := senders (S (S n) + 2) s5) in *.
  pose proof W6 as (F6 & Q6 & _). pose proof (live_frozen _ _ _ _ _ F6 L5) as L6.
  pose proof (live_goes _ _ _ _ L5) as G5. apply orb_false_iff in G5 as [G5 G5d]. apply orb_false_iff in G5 as [G5 _].
  unfold epoch_moved. rewrite G5, G5d, (lv_epoch _ _ _ _ L5), Z.eqb_refl, (lv_func _ _ _ _ L5). cbn [orb negb].
  rewrite (live_goes _ _ _ _ L6), (lv_epoch _ _ _ _ L6), Z.eqb_refl. cbn [orb negb].
  pose proof (tx_write_sends _ _ _ a 1 s6 L6 Hb Hw) as Hsend.
  destruct (tx_write M m2j a 1 s6) as [r s']. destruct Hsend as (-> & Hh & Eq).
  pose proof (went_trans _ _ _ _ _ W3 (went_trans _ _ _ _ _ W4 (went_trans _ _ _ _ _ W5 W6))) as (_ & _ & A & E).
  exists s', (ps1 ++ ps3 ++ ps4 ++ ps5 ++ ps6). split; [done|]. split; [done|].
  split; [apply Forall_app; by split|]. intros k. by rewrite Eq, E, E2, E1, (filter_app _ ps1), <- app_assoc.
Qed.

Lemma tx_bytes_spec a :
  exists n, tx_bytes a = a_buf a ++ replicate n 0 /\ (Z.of_nat n < ESP_BLOCK_SIZE) /\ zlen (tx_bytes a) mod ESP_BLOCK_SIZE = 0.
Proof.
  eexists. split; [reflexivity|]. unfold tx_bytes. rewrite zlen_app, zlen_replicate. unfold ESP_BLOCK_SIZE.
  pose proof (zlen_nonneg (a_buf a)). split; divlia.
Qed.

Lemma tx_size_pos a : 0 <= tx_aggr_size a -> 0 < tx_size a <= ESP_TX_AGGR_SIZE_MAX.
Proof.
  intros Ha. unfold tx_size, ESP_TX_AGGR_SIZE_MAX, ESP_HOST_TX_AGGR_SIZE. destruct (_ || _) eqn:Eb; [lia|]. bool_hyps. lia.
Qed.

(** One round, from queues to bus: nothing when nothing is sendable, else one
    transfer of the collected frames, padded to whole blocks. *)
Lemma tx_round_sends fuel ret s :
  (forall n, Forall (fun p => bytes_ok (pkt_data p)) (arr n)) -> all_bytes s -> qok (tr s) ->
  live (tx_epoch (tr s)) (cmds (tr s)) (hw (tr s)) s -> 1 <= sdio_buf_available (tr s) -> 0 <= tx_aggr_size (ad s) ->
  (queued s + length (concat (arr <$> seq 0 (S fuel))) < S fuel)%nat ->
  (forall r data h, (sdio_memcpy_toio M r data h).1 = 0) ->
  exists ret' s' seen ps, tx_round M m2j senders (S fuel) ret s = Some (ret', s') /\
    Forall (fun p => exists n, p ∈ arr n) ps /\
    (forall k, tx_queue k (tr s) ++ filter (at_prio k) ps = filter (at_prio k) seen ++ tx_queue k (tr s')) /\
    let buf := frames_of_pkts (cmds (tr s)) seen in
    zlen buf <= tx_size (ad s) /\
    (buf = [] /\ hw (tr s') = hw (tr s) /\
       ((forall k, tx_queue k (tr s') = []) \/
        exists k p q, tx_queue k (tr s') = p :: q /\ tx_size (ad s) < align4 (pkt_frame_len p)) \/
     buf <> [] /\ exists n, let data := buf ++ replicate n 0 in Z.of_nat n < ESP_BLOCK_SIZE /\
       hw (tr s') = (sdio_memcpy_toio M (ESP_SLAVE_CMD53_END_ADDR - zlen data) data (hw (tr s))).2).
Proof.
  intros Hab Hqb Hd Hl Hc Ha Hf Hw. unfold tx_round. pose proof Hl as [L1 L2 L3 L4 L5 L6 L7 L8].
  unfold should_stop. rewrite L1, L3, L2. cbn [negb]. cbv zeta. set (size := tx_size (ad s)).
  pose proof (tx_size_pos (ad s) Ha) as Hsz. fold size in Hsz.
  set (a0 := mk_aggr [] 0 None 0 (tx_epoch (tr s))).
  destruct (collect_ends (S fuel) 0 size a0 s Hd Hf) as ([[a n] s1] & Ec). rewrite Ec.
  destruct (collect_runs (S fuel) 0 size a0 s a n s1 Hab Hqb Hd Ec) as (seen & ps1 & C).
  destruct C as [C1 C2 C3 C4 C5 C6 C7 C8 C9]. change (a_buf a0 ++ ?x) with x in C5.
  specialize (C7 ltac:(cbn [a_buf a0]; rewrite zlen_nil; lia)).
  assert (A1 : Forall (fun p => exists n, p ∈ arr n) ps1).
  { apply Forall_forall. intros p Hp. assert (Hp' : p ∈ concat (arr <$> seq 0 (S fuel)))
      by (eapply elem_of_submseteq; [exact Hp|by apply sublist_submseteq]).
    apply list_elem_of_In, in_concat in Hp' as (l & Hl' & Hp'). apply list_elem_of_In, list_elem_of_fmap in Hl' as (m & -> & _).
    exists m. by apply list_elem_of_In. }
  cbn [base.mbind option_bind]. destruct (zlen (a_buf a) =? 0) eqn:Ez; bool_hyps.
  { exists ret, s1, seen, ps1. split; [done|]. split; [done|]. split; [done|]. cbv zeta. rewrite <- C5. split; [done|]. left.
    split; [by apply zlen_0_nil|]. split; [apply C1|]. apply C9; [lia|done]. }
  pose proof (zlen_nonneg (a_buf a)). destruct (tx_bytes_spec a) as (m & Em & Hm & Hmod).
  assert (Hb : 1 < zlen (tx_bytes a)).
  { rewrite Em, zlen_app, zlen_replicate in *. unfold ESP_BLOCK_SIZE in *. divlia. }
  assert (La : live (a_epoch a) (cmds (tr s)) (hw (tr s)) s1) by (rewrite C6; by apply (live_frozen _ _ _ s)).
  destruct (tx_send_sends fuel n size a ret (cmds (tr s)) (hw (tr s)) s1 La C2) as (s' & ps2 & E & Hh & A2 & Eq2).
  - by rewrite (fz_avail _ _ C1).
  - unfold cmd_stale in *. rewrite (fz_cmds _ _ C1). by apply C8.
  - lia.
  - done.
  - apply Hw.
  - rewrite E. exists 0, s', seen, (ps1 ++ ps2). split; [done|]. split; [by apply Forall_app|].
    split; [intros k; by rewrite Eq2, filter_app, app_assoc, C4, <- app_assoc|]. cbv zeta. rewrite <- C5. split; [done|]. right.
    split; [intros Hn; rewrite Hn in *; done|]. exists m. split; [done|]. rewrite <- Em. exact Hh.
Qed.
End Send.
