(* ===== verification/SdioLink.v ===== *)
(** * SdioLink: the two ends of the SDIO link together

    The firmware's aggregates ([SdioFw]) as the host's [read_packet] receives
    them ([SdioRx]), and the host's reset handshake ([SdioHost]) with the
    firmware's control worker on the other side of the registers. *)
From S2P Require Import Prelude Wire Adapter Recovery RcpHost RcpFw FwPath CmdQueue SdioHost SdioRx SdioFw.

(** ** From the firmware's queue to the host's *)

(** A received frame carries a queued packet: it is sound, its checksum is right
    where the build puts one in, and it has the packet's fields and payload. *)
Definition carries (e : tx_env) (b : buf_handle) (frame : list Z) : Prop :=
  let h := decode_header frame in
  rx_frame_ok frame /\
  (bytes_ok (bh_payload b) -> sdio_checksum e = true -> forall be addr, rx_checksum_ok be addr frame = true) /\
  if_type h = wrap 4 (bh_if_type b) /\ if_num h = wrap 4 (bh_if_num b) /\
  packet_type h = u8 (bh_pkt_type b) /\ ztake (len h) (zdrop (offset h) frame) = bh_payload b.

Section E2h.
Context (e : tx_env).

(** A frame the aggregator builds is one the host accepts. *)
Lemma e2h_frame_received b b' seq :
  same_packet b b' -> 0 < zlen (bh_payload b) <= ESP_RX_BUFFER_SIZE - sizeof_header ->
  let frame := e2h_frame e b' sizeof_header seq in
  rx_frame_ok frame /\ carries e b frame.
Proof.
  intros (S1 & S2 & S3 & S4 & _) Hl frame. unfold ESP_RX_BUFFER_SIZE, sizeof_header in Hl.
  destruct (e2h_header_fields b' sizeof_header seq) as (F1 & F2 & F3 & F4 & F5 & _). cbv zeta in *.
  pose proof (e2h_header_wf b' sizeof_header seq ltac:(done)) as Hwf.
  assert (Hf : exists c, in_width 16 c /\
    frame = encode_header (e2h_header b' sizeof_header seq <| checksum := c |>) ++ bh_payload b').
  { unfold frame, e2h_frame. change (replicate _ _ ++ bh_payload b') with (bh_payload b'). cbv zeta.
    set (h := e2h_header b' sizeof_header seq). set (n := zlen (encode_header h ++ bh_payload b')).
    destruct (sdio_checksum e).
    - exists (compute_checksum false 0 (encode_header h ++ bh_payload b') n). split; [|reflexivity].
      apply compute_checksum_range.
    - exists 0. split; [done|]. assert (h <| checksum := 0 |> = h) as -> by
        (unfold h, e2h_header; destruct (_ =? _); reflexivity). reflexivity. }
  destruct Hf as (c & Hc & Ef). set (h := e2h_header b' sizeof_header seq) in *.
  assert (Ed : decode_header frame = h <| checksum := c |>).
  { rewrite Ef. apply decode_encode_header. unfold header_wf in *. cbn. tauto. }
  rewrite S4 in *. rewrite wrap_id in F4 by (unfold in_width; lia).
  assert (Hck : bytes_ok (bh_payload b) -> sdio_checksum e = true -> forall be addr, rx_checksum_ok be addr frame = true).
  { intros Hb He be addr. unfold frame, e2h_frame. rewrite He. fold h. apply checksummed_ok.
    - exact Hwf.
    - unfold h, e2h_header. by destruct (_ =? _).
    - change (bytes_ok (bh_payload b')). by rewrite S4.
    - rewrite F4, F5, zlen_app. change (replicate _ _ ++ bh_payload b') with (bh_payload b').
      rewrite S4, zlen_encode_header. change (u16 sizeof_header) with sizeof_header. lia. }
  assert (Hrx : rx_frame_ok frame).
  { unfold rx_frame_ok. rewrite Ed. change (len (h <| checksum := c |>)) with (len h).
    change (offset (h <| checksum := c |>)) with (offset h). rewrite F4, F5.
    split; [unfold ESP_RX_BUFFER_SIZE; lia|]. split; [done|]. rewrite Ef, zlen_app.
    change (zlen (encode_header _)) with 12. change (u16 sizeof_header) with 12. lia. }
  split; [done|]. split; [done|]. split; [done|]. rewrite Ed.
  change (len (h <| checksum := c |>)) with (len h). change (offset (h <| checksum := c |>)) with (offset h).
  rewrite F4, F5. split; [by rewrite <- S1|]. split; [by rewrite <- S2|]. split; [by rewrite <- S3|].
  rewrite Ef. change (u16 sizeof_header) with 12. rewrite zdrop_app_exact by done. by rewrite ztake_ge.
Qed.

(** The kept packets of a run, as frames. *)
Lemma packed_carried seen xs :
  aggr_size e <= ESP_HOST_RX_AGGR_SIZE -> packed e seen xs ->
  let frames := (fun x => e2h_frame e x.1 sizeof_header x.2) <$> xs in
  frames_of e xs = padded <$> frames /\ Forall rx_frame_ok frames /\
  Forall2 (carries e) (filter (fun b => low_prio_dropped e b = false) seen) frames.
Proof.
  intros Hz Hp. cbv zeta. split; [unfold frames_of; by rewrite <- list_fmap_compose|]. unfold packed in Hp.
  assert (Hd : Forall (fun b => 0 < zlen (bh_payload b) <= ESP_RX_BUFFER_SIZE - sizeof_header)
    (filter (fun b => low_prio_dropped e b = false) seen)).
  { apply Forall_forall. intros b Hb. apply list_elem_of_filter in Hb as [Hb _].
    unfold low_prio_dropped in Hb. bool_hyps. pose proof (zlen_nonneg (bh_payload b)).
    unfold ESP_HOST_RX_AGGR_SIZE, ESP_RX_BUFFER_SIZE, sizeof_header in *. lia. }
  revert Hp Hd. generalize (filter (fun b => low_prio_dropped e b = false) seen) as kept. intros kept.
  revert kept. induction xs as [|[b' seq] xs IH]; intros kept Hp Hd; inversion Hp as [|b ? kept' ? Hb Hp']; subst;
    [split; constructor|].
  inversion_clear Hd as [|? ? Hb1 Hd']. destruct (IH kept' Hp' Hd') as [I1 I2].
  destruct (e2h_frame_received b b' seq Hb Hb1) as [F1 F2]. rewrite fmap_cons. by split; constructor.
Qed.
End E2h.

(** One call of the firmware's low-priority sender takes packets off its
    queue in order, and whatever it hands to the SDIO driver as one aggregate
    arrives whole: a host whose counter is in step with the slave's reads exactly
    the packets that were not discarded, in that order, each frame carrying its
    packet's interface, type and payload, and is in step again afterwards. *)
Lemma e2h_aggregate_delivered e arrivals queued f :
  wake_keeps e -> aggr_size e mod 4 = 0 -> 0 <= aggr_size e <= ESP_HOST_RX_AGGR_SIZE ->
  datapath (fw_of (fa f)) = true ->
  let f' := process_low_prio_tx_packets e arrivals queued true f in
  exists seen arrived later,
    concat arrivals = arrived ++ later /\
    low_prio_pending f ++ arrived = seen ++ low_prio_pending f' /\
    (e2h_sent f' = e2h_sent f \/
     exists buf frames, e2h_sent f' = e2h_sent f ++ [buf] /\ frames <> [] /\
       Forall2 (carries e) (filter (fun b => low_prio_dropped e b = false) seen) frames /\
       forall (H : Type) (M : mmc H) m2j publishes r alloc total (s : sys (sdio H)),
         RxCard M publishes -> (forall n, alloc n = true) -> if_context (ad s) = true -> rx_q (tr s) = [] ->
         rx_bounce_buf (tr s) = true -> synced (publishes := publishes) total buf s ->
         exists s', read_packet M m2j r alloc s = (head frames, s') /\ rx_q (tr s') = tail frames /\
           synced (publishes := publishes) total [] s').
Proof.
  intros Hw H4 Hz Hd f'.
  destruct (process_low_prio_run e arrivals queued f Hw H4 Hd ltac:(lia)) as
    (seen & xs & arrived & later & P1 & P2 & P3 & P4 & P5). fold f' in P3, P5.
  exists seen, arrived, later. split; [done|]. split; [done|]. destruct P5 as [P5|[Hxs P5]]; [by left|right].
  destruct (packed_carried e seen xs ltac:(lia) P1) as (C1 & C2 & C3). cbv zeta in *.
  set (frames := (fun x => e2h_frame e x.1 sizeof_header x.2) <$> xs) in *.
  assert (Hne : frames <> []) by (unfold frames; by destruct xs).
  exists (concat (frames_of e xs)), frames. split; [done|]. split; [done|]. split; [done|].
  intros H M m2j publishes r alloc total s HM Hal Hi Hq Hb Hs.
  destruct frames as [|fr frs]; [done|]. rewrite C1 in Hs, P4.
  destruct (read_packet_spec M m2j r alloc Hal total fr frs s Hi Hq Hb C2 ltac:(lia) Hs) as (s' & E1 & E2 & E3 & _).
  by exists s'.
Qed.

(** *** A concrete link *)

(** The card is the slave's counter and what the host has not read of it. *)
Definition demo_fifo : mmc (Z * list Z) :=
  mk_mmc (fun _ h => ((0, fst h mod ESP_RX_BYTE_MAX), h)) (fun _ h => ((0, 0), h))
    (fun _ _ h => (0, h)) (fun _ _ h => (0, h))
    (fun r n h => let k := ESP_SLAVE_CMD53_END_ADDR - r in
       ((0, ztake k (snd h) ++ replicate (Z.to_nat (n - k)) 0), (fst h, zdrop k (snd h))))
    (fun _ _ h => (0, h)) (fun _ h => (0, h)) id (fun _ h => (0, h)) (fun h => (0, h)) id (fun h => (0, h))
    false false 0 (fun h => (0%nat, h)) (fun h => (true, h)).

Lemma demo_fifo_card : RxCard demo_fifo (fun h total data => h = (total, data)).
Proof.
  constructor.
  - intros h total data ->. exists (total mod ESP_RX_BYTE_MAX), (total, data). split; [done|]. split; [|done].
    change ESP_SLAVE_LEN_MASK with (Z.ones 20). rewrite Z.land_ones by lia. change (2 ^ 20) with ESP_RX_BYTE_MAX.
    apply Zmod_mod.
  - intros h total data n size -> Hn Hs. cbn [sdio_memcpy_fromio demo_fifo fst snd].
    replace (ESP_SLAVE_CMD53_END_ADDR - (ESP_SLAVE_CMD53_END_ADDR - n)) with n by lia.
    exists (replicate (Z.to_nat (size - n)) 0), (total, zdrop n data). split; [done|]. split; [|done].
    rewrite zlen_app, zlen_ztake, zlen_replicate. lia.
Qed.

Definition demo_env : tx_env :=
  mk_tx_env 15872 true (fun _ => false) (mk_wow false [] [] []) id true (fun _ => 0) (fun _ => true) (fun _ => true)
    true (fun _ => ESP_OK) (fun _ => ESP_OK) (fun _ => (ESP_OK, true)).

(** Two large packets, an empty one between them. *)
Definition demo_bh (payload : list Z) : buf_handle :=
  mk_bh ESP_STA_IF 0 0 PACKET_TYPE_DATA payload 0 None.
Definition demo_low : list buf_handle := [demo_bh (replicate 301 7); demo_bh []; demo_bh (replicate 400 9)].
Definition demo_fw : sdio_fw :=
  sdio_fw_zero <| fa := app_zero <| fw_of := fw_zero <| datapath := true |> <| if_handle := Some ACTIVE |>
                                                 <| to_host_low := demo_low |> |> |>.
Definition demo_fw_sent : sdio_fw := process_low_prio_tx_packets demo_env [] 3 true demo_fw.
Definition demo_aggr : list Z := default [] (head (e2h_sent demo_fw_sent)).

Definition demo_host : sys (sdio (Z * list Z)) :=
  mk_sys (zero_adapter <| if_transport := ESP_IF_TYPE_SDIO |> <| if_context := true |>)
    (mk_sdio (zlen demo_aggr, demo_aggr) true true true [[]; []; []] [0; 0; 0] 0 [] 0 0 0 true 0 false false 0 true
       false false false false false 0 0 0 0 false 0 false 0 cmdq_zero) 1000 None None 0.

Lemma e2h_aggregate_delivered_witness :
  exists f1 f2 s', read_packet demo_fifo (fun n => n) rcp_zero (fun _ => true) demo_host = (Some f1, s') /\
    rx_q (tr s') = [f2] /\ ztake 301 (zdrop 12 f1) = replicate 301 7 /\
    carries demo_env (demo_bh (replicate 400 9)) f2 /\ rx_byte_count (tr s') = zlen demo_aggr.
Proof.
  destruct (e2h_aggregate_delivered demo_env [] 3 demo_fw ltac:(done) ltac:(done) ltac:(by vm_compute) ltac:(done))
    as (seen & arrived & later & E1 & E2 & E3).
  destruct E3 as [E3|(buf & frames & E3 & Hne & E4 & E5)]; [exfalso; revert E3; clear; vm_compute; discriminate|].
  assert (Eb : buf = demo_aggr).
  { unfold demo_aggr, demo_fw_sent. rewrite E3. reflexivity. }
  assert (Hsync : synced (publishes := fun h total data => h = (total, data)) (zlen demo_aggr) demo_aggr demo_host).
  { split; [done|]. split; [done|]. clear. vm_compute. reflexivity. }
  rewrite Eb in E5.
  destruct (E5 _ demo_fifo (fun n => n) _ rcp_zero (fun _ => true) (zlen demo_aggr) demo_host demo_fifo_card
    ltac:(done) ltac:(done) ltac:(done) ltac:(done) Hsync) as (s' & R1 & R2 & R3).
  assert (Es : seen = demo_low).
  { symmetry in E1. apply app_eq_nil in E1 as [-> _].
    assert (Hp : low_prio_pending (process_low_prio_tx_packets demo_env [] 3 true demo_fw) = [])
      by (clear; vm_compute; reflexivity).
    rewrite Hp, !app_nil_r in E2. rewrite <- E2. vm_compute. reflexivity. }
  rewrite Es in E4.
  assert (Ek : filter (fun b => low_prio_dropped demo_env b = false) demo_low
    = [demo_bh (replicate 301 7); demo_bh (replicate 400 9)]) by (clear; vm_compute; reflexivity).
  rewrite Ek in E4. inversion E4 as [|? f1 ? fs C1 E4']; subst. inversion E4' as [|? f2 ? fs' C2 E4'']; subst.
  inversion E4''; subst. exists f1, f2, s'. cbn [head tail] in R1, R2. split; [exact R1|]. split; [exact R2|].
  assert (R1' : (read_packet demo_fifo (fun n => n) rcp_zero (fun _ => true) demo_host).1 = Some f1) 
    by (rewrite R1; reflexivity).
  split; [|split; [exact C2|]].
  - vm_compute in R1'. injection R1' as <-. reflexivity.
  - destruct R3 as (_ & _ & Hc). rewrite Hc. clear. vm_compute. reflexivity.
Defined.

(** ** The reset handshake, across the link

    The card of [SdioHost] is the firmware: the two scratch registers and the
    interrupt register reach it, and its control worker may run - [runs] decides -
    at every access and while the host sleeps. *)
Lemma next_reset_gen_nonzero g : next_reset_gen g <> 0.
Proof.
  unfold next_reset_gen. cbv zeta. destruct (u8 (g + 1) =? 0) eqn:E; bool_hyps; [|done].
  unfold wrap in *. change (2 ^ 8) with 256 in *. divlia.
Qed.

Section Handshake.
Context (ce : ctrl_env) (runs : sdio_fw -> bool) (m2j : Z -> Z).

Definition fw_step (h : sdio_fw) : sdio_fw := if runs h then default h (sdio_ctrl_worker ce h) else h.

(** The interrupt register: one [event_cb] per bit. *)
Definition raise_bits (v : Z) (h : sdio_fw) : sdio_fw :=
  foldl (fun h k => if test_bit k v then event_cb k h else h) h [0; 1; 2; 3; 4; 5; 6; 7].

Definition gen_reg : Z := Z.land ESP_SDIO_RESET_GEN_REG ESP_ADDRESS_MASK.
Definition done_reg : Z := Z.land ESP_SDIO_RESET_DONE_REG ESP_ADDRESS_MASK.
Definition intr_reg : Z := Z.land ESP_SLAVE_SCRATCH_REG_7 ESP_ADDRESS_MASK.

Definition fw_write (reg v : Z) (h : sdio_fw) : sdio_fw :=
  if reg =? gen_reg then h <| scratch0 := v |>
  else if reg =? done_reg then h <| scratch1 := v |>
  else if reg =? intr_reg then raise_bits v h else h.
Definition fw_read (reg : Z) (h : sdio_fw) : Z :=
  if reg =? gen_reg then scratch0 h else if reg =? done_reg then scratch1 h else 0.

Definition fw_card : mmc sdio_fw :=
  mk_mmc (fun _ h => ((0, 0), fw_step h)) (fun r h => let h := fw_step h in ((0, fw_read r h), h))
    (fun r v h => (0, fw_step (fw_write r v h))) (fun _ _ h => (0, fw_step h))
    (fun _ n h => ((0, replicate (Z.to_nat n) 0), fw_step h)) (fun _ _ h => (0, fw_step h))
    (fun _ h => (0, h)) id (fun _ h => (0, h)) (fun h => (0, h)) id (fun h => (0, h)) false false 0
    (fun h => (0%nat, fw_step h)) (fun h => (true, h)).

Implicit Types s : sys (sdio sdio_fw).

(** Nothing is acknowledged, and only an [ESP_RESET] may be pending. *)
Definition unacked (h : sdio_fw) : Prop :=
  scratch1 h = 0 /\ (s_sdio_host_events h = 0 \/ s_sdio_host_events h = RESET_BIT).

Lemma quiesce_keeps_events b f : s_sdio_host_events (sdio_reset_hw_internal ce b f).2 = s_sdio_host_events f.
Proof.
  assert (Hd : forall passes n f, s_sdio_host_events (drain_passes ce passes n f).2 = s_sdio_host_events f).
  { intros passes. induction passes as [|p IH]; intros n g; cbn [drain_passes]; [done|]. cbv zeta.
    repeat case_match; try done; by rewrite IH. }
  unfold sdio_reset_hw_internal. cbv zeta. case_match; [done|].
  pose proof (Hd 4%nat 0%nat (f <| s_sdio_tx_blocked := true |> <| link_up := false |>)) as Hk.
  destruct (drain_passes _ _ _ _) as [[r|u] f1]; cbn [snd] in Hk |- *; [done|]. by repeat case_match.
Qed.

Lemma fw_step_unacked h : unacked h -> unacked (fw_step h).
Proof.
  intros [H1 H2]. unfold fw_step, sdio_ctrl_worker. destruct (runs h); [|done].
  destruct (_ || restarting (fa h)) eqn:Eb; cbn [default]; [done|]. apply orb_false_iff in Eb as [Eb Er].
  apply orb_false_iff in Eb as [_ Ez]. bool_hyps. destruct H2 as [H2|H2]; [done|]. rewrite H2.
  set (h0 := h <| s_sdio_host_events := 0 |>).
  assert (Ep : sdio_process_host_bits ce RESET_BIT h0 = reset_event ce h0).
  { unfold sdio_process_host_bits, when_bit, unless_restarting, has_bit.
    change (test_bit ESP_CLOSE_DATA_PATH RESET_BIT) with false. change (test_bit ESP_RESET RESET_BIT) with true.
    change (test_bit ESP_POWER_SAVE_ON RESET_BIT) with false. change (test_bit ESP_POWER_SAVE_OFF RESET_BIT) with false.
    change (test_bit ESP_OPEN_DATA_PATH RESET_BIT) with false. cbn [base.mbind option_bind].
    change (restarting (fa h0)) with (restarting (fa h)). by rewrite Er. }
  rewrite Ep. unfold reset_event. cbn [default from_option id]. unfold esp_restart.
  split; [change (scratch1 (sdio_reset_hw_internal ce false h0).2 = 0); by rewrite quiesce_keeps_done|].
  left. change (s_sdio_host_events (sdio_reset_hw_internal ce false h0).2 = 0). by rewrite quiesce_keeps_events.
Qed.

Lemma pass_time_unacked n s : unacked (hw (tr s)) -> unacked (hw (tr (pass_time fw_card n s))).
Proof. apply fw_step_unacked. Qed.

(** The accesses of the host's driver, on this card. *)
Lemma fw_write_reg8 reg v s :
  func (tr s) = true ->
  esp_write_reg8 fw_card reg v s =
  (0, on_tr (fun d => d <| hw := fw_step (fw_write (Z.land reg ESP_ADDRESS_MASK) v (hw d)) |>) s).
Proof. intros Hf. unfold esp_write_reg8, esp_write_byte. rewrite Hf. reflexivity. Qed.

Lemma fw_read_reg8 reg s :
  esp_read_reg8 fw_card reg s =
  if func (tr s)
  then ((0, fw_read (Z.land reg ESP_ADDRESS_MASK) (fw_step (hw (tr s)))), on_tr (fun d => d <| hw := fw_step (hw d) |>) s)
  else ((-1, 0), s).
Proof. unfold esp_read_reg8, esp_read_byte. destruct (func (tr s)); reflexivity. Qed.

(** The host polls in vain. *)
Lemma wait_done_unacked fuel deadline gen s :
  gen <> 0 -> unacked (hw (tr s)) ->
  let '(ret, s') := wait_done_loop fw_card m2j fuel deadline gen s in
  ret = - ETIMEDOUT /\ unacked (hw (tr s')).
Proof.
  intros Hg. revert s. induction fuel as [|fuel IH]; intros s Hs; cbn [wait_done_loop]; rewrite fw_read_reg8.
  all: destruct (func (tr s)); cbv beta iota zeta;
    [change (fw_read (Z.land ESP_SDIO_RESET_DONE_REG ESP_ADDRESS_MASK) (fw_step (hw (tr s))))
       with (scratch1 (fw_step (hw (tr s))));
     pose proof (fw_step_unacked _ Hs) as Hs1; rewrite (proj1 Hs1), (proj2 (Z.eqb_neq 0 gen)) by done; cbn [Z.eqb andb]
    |cbn [Z.eqb andb]].
  - by split; [|apply fw_step_unacked].
  - by split; [|apply fw_step_unacked].
  - assert (Hs2 : unacked (hw (tr (msleep fw_card m2j 5 (on_tr (fun d => d <| hw := fw_step (hw d) |>) s)))))
      by (by apply pass_time_unacked).
    destruct (time_after_eq _ _); [by split|]. by apply IH.
  - assert (Hs2 : unacked (hw (tr (msleep fw_card m2j 5 s)))) by (by apply pass_time_unacked).
    destruct (time_after_eq _ _); [by split|]. by apply IH.
Qed.

Lemma fw_slave_intr x s :
  func (tr s) = true ->
  exists s1, generate_slave_intr_sdio fw_card x s = (0, s1) /\ func (tr s1) = true /\
    hw (tr s1) = fw_step (raise_bits x (hw (tr s))).
Proof.
  intros Hf. unfold generate_slave_intr_sdio. rewrite Hf. cbn [negb].
  change (on_hw (kmalloc_ok fw_card) s) with (true, on_tr (fun d => d <| hw := hw (tr s) |>) s).
  cbv beta iota zeta. cbn [negb]. rewrite fw_write_reg8 by exact Hf. by eexists.
Qed.

(** The firmware after the writes of the handshake. *)
Definition handshake_asked (irq_bit gen : Z) (h : sdio_fw) : sdio_fw :=
  fw_step (raise_bits irq_bit (fw_step (fw_step (h <| scratch1 := 0 |>) <| scratch0 := gen |>))).

Lemma handshake_writes irq_bit s :
  func (tr s) = true ->
  let gen := next_reset_gen (sdio_reset_gen (tr s)) in
  exists s1, esp_sdio_handshake_slave_reset fw_card m2j irq_bit s = esp_sdio_wait_slave_reset_done fw_card m2j gen s1 /\
    func (tr s1) = true /\ hw (tr s1) = handshake_asked irq_bit gen (hw (tr s)).
Proof.
  intros Hf gen. unfold esp_sdio_handshake_slave_reset. cbv zeta. fold gen.
  rewrite fw_write_reg8 by done. cbv beta iota zeta. cbn [Z.eqb negb].
  rewrite fw_write_reg8 by done. cbv beta iota zeta. cbn [Z.eqb negb].
  set (s0 := on_tr _ (on_tr _ _)). destruct (fw_slave_intr irq_bit s0 Hf) as (s1 & -> & Hf1 & Hh1).
  exists s1. split; [done|]. split; [done|]. rewrite Hh1. done.
Qed.
Lemma raise_reset h : unacked h -> unacked (raise_bits RESET_BIT h).
Proof.
  intros [H1 H2]. change (raise_bits RESET_BIT h) with (event_cb 2 h). split; [done|]. right.
  change (set_bit 2 (s_sdio_host_events h) = RESET_BIT). by destruct H2 as [-> | ->].
Qed.

Lemma handshake_asked_reset gen h : s_sdio_host_events h = 0 -> unacked (handshake_asked RESET_BIT gen h).
Proof.
  intros H0. unfold handshake_asked. apply fw_step_unacked, raise_reset, fw_step_unacked.
  assert (Hu : unacked (fw_step (h <| scratch1 := 0 |>))) by (apply fw_step_unacked; split; [done|by left]).
  exact Hu.
Qed.

(** The worker, when it runs, does nothing without a request, nor once the
    firmware restarts. *)
Lemma fw_step_idle h : s_sdio_host_events h = 0 \/ restarting (fa h) = true -> fw_step h = h.
Proof.
  intros Hi. unfold fw_step, sdio_ctrl_worker. destruct (runs h); [|done].
  destruct Hi as [Hi|Hi]; rewrite Hi; cbn [Z.eqb]; by rewrite ?orb_true_r.
Qed.

(** A [CLOSE_DATA_PATH] is acknowledged as soon as the worker has run. *)
Lemma handshake_asked_close gen h :
  (forall h, runs h = true) -> write_reg ce = ESP_OK -> s_sdio_ctrl_stop h = false ->
  restarting (fa h) = false -> s_sdio_host_events h = 0 ->
  let h' := handshake_asked ESP_CLOSE_DATA_PATH_BIT gen h in scratch1 h' = gen /\ restarting (fa h') = true.
Proof.
  intros Hruns Hw Hstop Hre H0 h'. unfold h', handshake_asked.
  rewrite (fw_step_idle (h <| scratch1 := 0 |>)) by by left.
  rewrite (fw_step_idle (h <| scratch1 := 0 |> <| scratch0 := gen |>)) by by left.
  set (h1 := h <| scratch1 := 0 |> <| scratch0 := gen |>).
  change (raise_bits ESP_CLOSE_DATA_PATH_BIT h1) with (event_cb 1 h1).
  set (h2 := event_cb 1 h1). assert (Ee : s_sdio_host_events h2 = 2).
  { change (set_bit 1 (s_sdio_host_events h) = 2). by rewrite H0. }
  unfold fw_step, sdio_ctrl_worker. rewrite Hruns, Ee. change (s_sdio_ctrl_stop h2) with (s_sdio_ctrl_stop h).
  change (restarting (fa h2)) with (restarting (fa h)). rewrite Hstop, Hre. cbn [Z.eqb orb].
  unfold sdio_process_host_bits, when_bit, has_bit.
  change (test_bit ESP_CLOSE_DATA_PATH 2) with true. change (test_bit ESP_RESET 2) with false.
  change (test_bit ESP_POWER_SAVE_ON 2) with false. change (test_bit ESP_POWER_SAVE_OFF 2) with false.
  change (test_bit ESP_OPEN_DATA_PATH 2) with false.
  unfold unless_restarting. change (restarting (fa (h2 <| s_sdio_host_events := 0 |>))) with (restarting (fa h)).
  rewrite Hre. unfold close_event. rewrite Hw. done.
Qed.
End Handshake.

(** C39: the [ESP_RESET] handshake is never acknowledged.  Against the
    firmware's own control worker, however it is scheduled, a host that asks for
    a reset of the slave's FIFO polls until the deadline and gets [-ETIMEDOUT]
    (the firmware quiesces, restarts, and never publishes the generation), so the
    branch of the recovery that would resume after an acknowledged reset is never
    taken: every such recovery becomes a full hard reset.  A [CLOSE_DATA_PATH]
    asked for in the same way is acknowledged. *)
Theorem esp_reset_never_acked ce runs m2j (s : sys (sdio sdio_fw)) :
  func (tr s) = true -> s_sdio_host_events (hw (tr s)) = 0 ->
  let M := fw_card ce runs in
  (exists s', esp_sdio_handshake_slave_reset M m2j RESET_BIT s = (- ETIMEDOUT, s') /\
     recover_slave_reset M m2j s = esp_sdio_hard_reset_and_reopen M m2j s') /\
  ((forall h, runs h = true) -> write_reg ce = ESP_OK ->
   s_sdio_ctrl_stop (hw (tr s)) = false -> restarting (fa (hw (tr s))) = false ->
   (esp_sdio_handshake_slave_reset M m2j ESP_CLOSE_DATA_PATH_BIT s).1 = 0).
Proof.
  intros Hf H0 M. split.
  - destruct (handshake_writes ce runs m2j RESET_BIT s Hf) as (s1 & E & Hf1 & Hh1). cbv zeta in E, Hh1.
    pose proof (handshake_asked_reset ce runs (next_reset_gen (sdio_reset_gen (tr s))) _ H0) as Hu. rewrite <- Hh1 in Hu.
    pose proof (wait_done_unacked ce runs m2j (ticks m2j 500) (u64 (jiffies s1 + m2j 500)) _ s1
      (next_reset_gen_nonzero (sdio_reset_gen (tr s))) Hu) as Hw.
    unfold esp_sdio_wait_slave_reset_done in E. fold M in E, Hw.
    destruct (wait_done_loop _ _ _ _ _ _) as [ret s']. destruct Hw as [-> _]. exists s'. split; [done|].
    unfold recover_slave_reset. by rewrite E.
  - intros Hruns Hw Hstop Hre.
    destruct (handshake_writes ce runs m2j ESP_CLOSE_DATA_PATH_BIT s Hf) as (s1 & E & Hf1 & Hh1). cbv zeta in E, Hh1.
    set (gen := next_reset_gen (sdio_reset_gen (tr s))) in *.
    destruct (handshake_asked_close ce runs gen _ Hruns Hw Hstop Hre H0) as [Hd Hr]. rewrite <- Hh1 in Hd, Hr.
    fold M in E. rewrite E. unfold esp_sdio_wait_slave_reset_done.
    destruct (ticks m2j 500) as [|n]; cbn [wait_done_loop]; unfold M at 1; rewrite fw_read_reg8, Hf1;
      cbv beta iota zeta; rewrite (fw_step_idle ce runs (hw (tr s1))) by (by right);
      change (fw_read _ (hw (tr s1))) with (scratch1 (hw (tr s1)));
      change (0 =? 0) with true; rewrite Hd, Z.eqb_refl; reflexivity.
Qed.

(** A firmware whose driver answers, and a host bound to it. *)
Definition demo_ctrl : ctrl_env :=
  mk_ctrl_env (fun _ => ESP_OK) (fun _ => true) (fun _ => 0) false ESP_OK ESP_OK true.
Definition demo_linked : sys (sdio sdio_fw) :=
  mk_sys (zero_adapter <| if_transport := ESP_IF_TYPE_SDIO |> <| if_context := true |>)
    (mk_sdio demo_fw true true true [[]; []; []] [0; 0; 0] 0 [] 0 0 0 false 0 false false 0 true
       false false true false false 0 0 0 0 false 0 false 0 cmdq_zero) 1000 None None 0.

Lemma esp_reset_never_acked_witness :
  (esp_sdio_handshake_slave_reset (fw_card demo_ctrl (fun _ => true)) (fun n => n) RESET_BIT demo_linked).1
    = - ETIMEDOUT /\
  (esp_sdio_handshake_slave_reset (fw_card demo_ctrl (fun _ => true)) (fun n => n) ESP_CLOSE_DATA_PATH_BIT demo_linked).1
    = 0.
Proof.
  destruct (esp_reset_never_acked demo_ctrl (fun _ => true) (fun n => n) demo_linked eq_refl eq_refl) as [(s' & E & _) Hc].
  rewrite E. split; [reflexivity|]. apply Hc; reflexivity.
Defined.
