(* ===== verification/NetPath.v ===== *)
(** * NetPath: the host's network and Bluetooth interfaces

    The two directions of [host/main.c] above the transport: [process_rx_packet],
    which checks a received frame and hands it to its consumer, and
    [esp_hard_start_xmit]/[process_tx_packet], which frame what the network stack
    sends; the events worker; and the HCI device of [host/esp_bt.c].

    The kernel above is the log [upcalls]; the RCP pipe, the command queue and the
    recovery machine are the components modelled elsewhere.  Raw-throughput frames
    are dropped as they are outside such a test. *)
From S2P Require Import Prelude Wire Adapter Recovery BootEvent RcpHost CmdQueue.

(** ** State *)
Definition ETH_HLEN : Z := 14.
Definition ETH_FRAME_LEN : Z := 1514.
Definition ETH_P_PAE : Z := 0x888E.
Definition HCI_COMMAND_PKT : Z := 1.
Definition HCI_ACLDATA_PKT : Z := 2.
Definition HCI_SCODATA_PKT : Z := 3.
Definition HCI_EVENT_PKT : Z := 4.
Definition EEXIST : Z := 17.

(** [struct esp_wifi_device] with its [net_device]: [n_up] and [n_init] are
    [ESP_NETWORK_UP] and [ESP_INTERFACE_INITIALIZED]. *)
Record netif := mk_netif {
  n_if_type : Z;
  n_if_num : Z;
  n_ndev : bool;
  n_registered : bool;
  n_up : bool;
  n_init : bool;
  port_open : bool;
  stop_data : bool;
  queue_stopped : bool;
  tx_packets : Z;
  tx_bytes : Z;
  tx_errors : Z;
  tx_dropped : Z;
  rx_packets : Z;
  rx_bytes : Z
}.
#[export] Instance eta_netif : Eta netif := fun n =>
  mk_netif (n_if_type n) (n_if_num n) (n_ndev n) (n_registered n) (n_up n) (n_init n) (port_open n) (stop_data n)
    (queue_stopped n) (tx_packets n) (tx_bytes n) (tx_errors n) (tx_dropped n) (rx_packets n) (rx_bytes n).

(** [hdev->stat]. *)
Record hci_stat := mk_hci {
  err_rx : Z; evt_rx : Z; acl_rx : Z; sco_rx : Z; byte_rx : Z;
  err_tx : Z; cmd_tx : Z; acl_tx : Z; sco_tx : Z; byte_tx : Z
}.
#[export] Instance eta_hci : Eta hci_stat := fun x =>
  mk_hci (err_rx x) (evt_rx x) (acl_rx x) (sco_rx x) (byte_rx x)
    (err_tx x) (cmd_tx x) (acl_tx x) (sco_tx x) (byte_tx x).

(** What is handed to [netif_rx], [process_cmd_event],
    [esp_cfg80211_monitor_rx] and [hci_recv_frame]. *)
Inductive upcall :=
  | ToStack (if_num : Z) (skb : list Z)
  | ToEvent (if_num : Z) (skb : list Z)
  | ToMonitor (skb : list Z)
  | ToHci (pkt_type : Z) (payload : list Z).

(** The adapter's pointers ([priv[0]], [hcidev]) and its event queue beside the
    recovery system, the RCP pipe and the command queue. [ESP_MAX_INTERFACE] is
    one. *)
Record host (T : Type) := mk_host {
  wd : world T;
  cmdqueue : cmdq;
  netdev : option netif;
  hcidev : option hci_stat;
  events_skb_q : list (list Z);
  asleep : bool;                 (* [host_sleep] *)
  upcalls : list upcall
}.
Arguments mk_host {T}.
Arguments wd {T}.
Arguments cmdqueue {T}.
Arguments netdev {T}.
Arguments hcidev {T}.
Arguments events_skb_q {T}.
Arguments asleep {T}.
Arguments upcalls {T}.
#[export] Instance eta_host {T} : Eta (host T) := fun h =>
  mk_host (wd h) (cmdqueue h) (netdev h) (hcidev h) (events_skb_q h) (asleep h) (upcalls h).

Definition on_wd {T} (f : world T -> world T) (h : host T) : host T := h <| wd := f (wd h) |>.
Definition on_netdev {T} (f : netif -> netif) (h : host T) : host T := h <| netdev := f <$> netdev h |>.
Definition on_hci {T} (f : hci_stat -> hci_stat) (h : host T) : host T := h <| hcidev := f <$> hcidev h |>.
Definition up {T} (u : upcall) (h : host T) : host T := h <| upcalls := upcalls h ++ [u] |>.
Definition adapter_of {T} (h : host T) : esp_adapter := ad (sy (wd h)).

Section Net.
Context {T : Type} (ops : esp_if_ops T) (pk : pkt_ops T) (m2j : Z -> Z) (be : bool) (addr : Z).
(** [if_ops->rx_during_live_recovery] of the transport. *)
Context (rx_during_live_recovery : bool).
Implicit Types h : host T.

(** ** Receive *)
Definition esp_rx_session_ready (a : esp_adapter) : bool :=
  if context_code ESP_CONTEXT_READY <=? context_code (state a) then true
  else if negb (context_code (state a) =? context_code ESP_CONTEXT_RX_READY) then false
  else rx_during_live_recovery && flag ESP_INIT_DONE a && flag ESP_FW_RECOVERY_PENDING a
       && negb (flag ESP_FW_RESET_EXPECTED a) && negb (flag ESP_CLEANUP_IN_PROGRESS a)
       && negb (flag ESP_DRIVER_UNLOADING a) && negb (flag ESP_TRANSPORT_REMOVING a).

Definition esp_fail_rcp_rx_if_required h : host T :=
  if esp_rcp_fail_closed_required (rc (wd h)) then on_wd (rcp_reset_session ops m2j) h else h.

Definition get_priv_from_payload_header (hd : esp_payload_header) h : option netif :=
  match netdev h with
  | Some p => if n_if_num p =? if_num hd then Some p else None
  | None => None
  end.

(** The frame's bounds, and its checksum where one is required. *)
Definition rx_bounds_ok (skb : list Z) : bool :=
  let hd := decode_header skb in
  negb (zlen skb <? sizeof_header)
  && negb (negb (ESP_OFFSET_VALID (offset hd)) || (zlen skb <? offset hd) || (zlen skb - offset hd <? len hd)).

Definition validate_checksum (skb : list Z) h : bool :=
  let hd := decode_header skb in
  if if_type hd =? if_code ESP_INTERNAL_IF
  then esp_internal_checksum_required skb (len hd) (offset hd) (checksum hd)
  else has_cap (capabilities (adapter_of h)) ESP_CHECKSUM_ENABLED.

(** Interfaces that stay open while a session is being rebuilt. *)
Definition side_channel (hd : esp_payload_header) : bool :=
  (if_type hd =? if_code ESP_INTERNAL_IF) || (if_type hd =? if_code ESP_RCP_IF).

Definition rx_quarantined (a : esp_adapter) : bool :=
  negb (esp_rx_session_ready a)
  || (flag ESP_CLEANUP_IN_PROGRESS a && negb (flag ESP_ALLOW_RECONSTRUCT a)).

Definition skb_trim (n : Z) (skb : list Z) : list Z := if n <? zlen skb then ztake n skb else skb.

Definition net_running (p : netif) : bool := n_ndev p && n_up p && n_registered p.

(** [eth_type_trans] pulls the Ethernet header, if there is one, before the
    bytes are counted. *)
Definition eth_payload_len (skb : list Z) : Z := if zlen skb <? ETH_HLEN then zlen skb else zlen skb - ETH_HLEN.

Definition on_cmdqueue (f : cmdq -> cmdq) h : host T := h <| cmdqueue := f (cmdqueue h) |>.
Definition cmd_resp (skb : list Z) h : host T :=
  on_cmdqueue (fun q => (process_cmd_resp be skb (adapter_of h) q).2) h.

Definition rx_wifi (hd : esp_payload_header) (skb : list Z) h : host T :=
  match get_priv_from_payload_header hd h with
  | None => h
  | Some p =>
      if packet_type hd =? pkt_code PACKET_TYPE_EAPOL then
        if net_running p then up (ToStack (n_if_num p) skb) h else h
      else if packet_type hd =? pkt_code PACKET_TYPE_DATA then
        if net_running p then
          up (ToStack (n_if_num p) skb)
            (on_netdev (fun n => n <| rx_bytes := rx_bytes n + eth_payload_len skb |>
                                   <| rx_packets := rx_packets n + 1 |>) h)
        else h
      else if packet_type hd =? pkt_code PACKET_TYPE_COMMAND_RESPONSE then cmd_resp skb h
      else if packet_type hd =? pkt_code PACKET_TYPE_EVENT then up (ToEvent (n_if_num p) skb) h
      else h
  end.

Definition rx_rcp (hd : esp_payload_header) (skb : list Z) h : host T :=
  if packet_type hd =? pkt_code PACKET_TYPE_RCP_SESSION then
    on_wd (esp_rcp_session_ack (skb_trim (len hd) skb)) h
  else if negb (packet_type hd =? pkt_code PACKET_TYPE_DATA) || (len hd =? 0) then
    on_wd (rcp_reset_session ops m2j) h
  else on_wd (esp_rcp_rx ops m2j (skb_trim (len hd) skb)) h.

Definition rx_monitor (hd : esp_payload_header) (skb : list Z) h : host T :=
  let skb := skb_trim (len hd) skb in
  if packet_type hd =? pkt_code PACKET_TYPE_COMMAND_RESPONSE then cmd_resp skb h
  else if packet_type hd =? pkt_code PACKET_TYPE_MONITOR then up (ToMonitor skb) h
  else h.

Definition esp_hci_update_rx_counter (pkt_type n : Z) (x : hci_stat) : hci_stat :=
  let x := if pkt_type =? HCI_EVENT_PKT then x <| evt_rx := evt_rx x + 1 |>
           else if pkt_type =? HCI_ACLDATA_PKT then x <| acl_rx := acl_rx x + 1 |>
           else if pkt_type =? HCI_SCODATA_PKT then x <| sco_rx := sco_rx x + 1 |> else x in
  x <| byte_rx := byte_rx x + n |>.

(** [hci_recv_frame]: whether the HCI core takes a frame.  Emptiness is tested
    before the buffer is trimmed to the header's length. *)
Definition rx_hci (hci_recv_frame : Z -> list Z -> bool) (hd : esp_payload_header) (skb : list Z) h : host T :=
  let a := adapter_of h in
  if negb (bool_decide (is_Some (hcidev h))) || flag ESP_DRIVER_UNLOADING a || flag ESP_TRANSPORT_REMOVING a
     || negb (flag ESP_INIT_DONE a) || flag ESP_CLEANUP_IN_PROGRESS a then h
  else if zlen skb =? 0 then h
  else
    let pkt_type := byte_at 0 skb in
    let skb := skb_trim (len hd) skb in
    let payload := zdrop 1 skb in
    up (ToHci pkt_type payload)
      (on_hci (if hci_recv_frame pkt_type payload then esp_hci_update_rx_counter pkt_type (u16 (zlen skb - 1))
               else fun x => x <| err_rx := err_rx x + 1 |>) h).

(** The boot event of a new incarnation ends the RCP session at once, before it
    waits for its worker. *)
Definition rx_note_boot (skb : list Z) h : host T :=
  if negb (zlen skb <? 4) && (byte_at 0 skb =? ESP_INTERNAL_BOOTUP_EVENT)
     && esp_bootup_event_structurally_valid skb then
    let legacy := esp_bootup_event_legacy_rcp_active skb in
    if esp_rcp_fail_closed_required (rc (wd h)) || legacy then on_wd (esp_rcp_note_boot_event pk legacy) h else h
  else h.

(** The event waits for its worker, which exists as long as the transport. *)
Definition rx_internal (skb : list Z) h : host T :=
  let h := rx_note_boot skb h in
  let a := adapter_of h in
  if flag ESP_DRIVER_UNLOADING a || flag ESP_TRANSPORT_REMOVING a then h
  else h <| events_skb_q := events_skb_q h ++ [skb] |>.

Definition rx_deliver (hci_recv_frame : Z -> list Z -> bool) (hd : esp_payload_header) (skb : list Z) h : host T :=
  if (if_type hd =? if_code ESP_STA_IF) || (if_type hd =? if_code ESP_AP_IF) then rx_wifi hd skb h
  else if if_type hd =? if_code ESP_RCP_IF then rx_rcp hd skb h
  else if if_type hd =? if_code ESP_MONITOR_IF then rx_monitor hd skb h
  else if if_type hd =? if_code ESP_HCI_IF then rx_hci hci_recv_frame hd skb h
  else if if_type hd =? if_code ESP_INTERNAL_IF then rx_internal skb h
  else h.

Definition process_rx_packet (hci_recv_frame : Z -> list Z -> bool) (skb : list Z) h : host T :=
  let hd := decode_header skb in
  if negb (rx_bounds_ok skb) then esp_fail_rcp_rx_if_required h
  else if validate_checksum skb h && negb (rx_checksum_ok be addr skb) then esp_fail_rcp_rx_if_required h
  else if negb (side_channel hd) && rx_quarantined (adapter_of h) then h
  else rx_deliver hci_recv_frame hd (zdrop (offset hd) skb) h.

(** [read]: the transport's [read]; [None] is a loop that still turns after
    [fuel] turns. *)
Fixpoint esp_get_packets (fuel : nat) (hci_recv_frame : Z -> list Z -> bool)
    (read : world T -> option (list Z) * world T) h : option (host T) :=
  match fuel with
  | O => None
  | S fuel =>
      match read (wd h) with
      | (None, w) => Some (h <| wd := w |>)
      | (Some skb, w) =>
          esp_get_packets fuel hci_recv_frame read (process_rx_packet hci_recv_frame skb (h <| wd := w |>))
      end
  end.

(** The events worker; events queued while it runs are seen by its next run. *)
Definition esp_event (cards : card_ops T) (skb : list Z) h : host T :=
  let a := adapter_of h in
  if negb (flag ESP_DRIVER_UNLOADING a) && negb (flag ESP_TRANSPORT_REMOVING a)
  then on_wd (on_sy (fun s => (process_internal_event ops cards m2j skb s).2)) h else h.
Fixpoint esp_events_loop (cards : card_ops T) (q : list (list Z)) h : host T :=
  match q with
  | skb :: q => esp_events_loop cards q (esp_event cards skb (h <| events_skb_q := q |>))
  | [] => h
  end.
Definition esp_events_work (cards : card_ops T) h : host T := esp_events_loop cards (events_skb_q h) h.

(** ** Transmit *)

(** A socket buffer from the stack: its [protocol], whether its headroom and
    alignment allow the header to be pushed in place, and the bytes. *)
Record tx_skb := mk_tx_skb {
  skb_protocol : Z;
  skb_headroom : Z;
  skb_aligned : bool;
  skb_linearize_ok : bool;
  skb_data : list Z
}.

Inductive netdev_tx := NETDEV_TX_OK | NETDEV_TX_BUSY.

Definition is_eapol (x : tx_skb) : bool := skb_protocol x =? ETH_P_PAE.

(** Whether the bytes must move to a new buffer of the transport's. *)
Definition realloc_skb (pad_len : Z) (x : tx_skb) : bool := (skb_headroom x <? pad_len) || negb (skb_aligned x).

Definition process_tx_header (p : netif) (x : tx_skb) : esp_payload_header :=
  zero_header <| if_type := wrap 4 (n_if_type p) |> <| if_num := wrap 4 (n_if_num p) |>
              <| packet_type := pkt_code (if is_eapol x then PACKET_TYPE_EAPOL else PACKET_TYPE_DATA) |>.

Definition tx_error h : host T := on_netdev (fun n => n <| tx_errors := tx_errors n + 1 |>) h.
Definition tx_drop h : host T := on_netdev (fun n => n <| tx_dropped := tx_dropped n + 1 |>) h.

(** What the interface sends once the frame is built; the port's state is read
    here. *)
Definition tx_publish (x : tx_skb) (frame : list Z) h : host T :=
  match netdev h with
  | None => h
  | Some p =>
      if negb (stop_data p) && (port_open p || is_eapol x) then
        let '(ret, w) := esp_send_packet pk frame false (wd h) in
        let h := h <| wd := w |> in
        if negb (ret =? 0) then tx_error h
        else on_netdev (fun n => n <| tx_packets := tx_packets n + 1 |>
                                   <| tx_bytes := tx_bytes n + u16 (zlen (skb_data x)) |>) h
      else tx_drop h
  end.

(** [others]: what the rest of the driver does before the port is looked at
    again. *)
Definition process_tx_packet (others : host T -> host T) (x : tx_skb) h : netdev_tx * host T :=
  match netdev h with
  | None => (NETDEV_TX_OK, h)
  | Some p =>
      if queue_stopped p || asleep h then (NETDEV_TX_BUSY, h)
      else
        let pad_len := hosted_pad_len (u16 (zlen (skb_data x))) in
        let frame := hosted_frame be addr (capabilities (adapter_of h)) (process_tx_header p x) (skb_data x) in
        if realloc_skb pad_len x && negb (skb_linearize_ok x) then (NETDEV_TX_OK, tx_error h)
        else if realloc_skb pad_len x
                && negb (alloc_skb pk (zlen (skb_data x) + pad_len) (adapter_of h) (tr (sy (wd h))))
        then (NETDEV_TX_OK, tx_error h)
        else (NETDEV_TX_OK, tx_publish x frame (others h))
  end.

Definition esp_hard_start_xmit (others : host T -> host T) (x : tx_skb) h : netdev_tx * host T :=
  match netdev h with
  | None => (NETDEV_TX_OK, h)
  | Some p =>
      if negb (port_open p) && negb (is_eapol x) then (NETDEV_TX_OK, tx_drop h)
      else if (zlen (skb_data x) =? 0) || (ETH_FRAME_LEN <? zlen (skb_data x)) then (NETDEV_TX_OK, tx_drop h)
      else process_tx_packet others x h
  end.

Definition esp_port_open h : host T := on_netdev (fun n => n <| port_open := true |> <| stop_data := false |>) h.
Definition esp_port_close h : host T := on_netdev (fun n => n <| port_open := false |>) h.
Definition esp_tx_pause h : host T :=
  on_netdev (fun n => if n_ndev n then n <| queue_stopped := true |> else n) h.
Definition esp_tx_resume h : host T :=
  on_netdev (fun n => if n_ndev n then n <| queue_stopped := false |> else n) h.

(** [cmd_init_interface]: the answer to that command. *)
Definition esp_open (cmd_init_interface : Z) h : Z * host T :=
  match netdev h with
  | None => (- EINVAL, h)
  | Some p =>
      if n_init p then (0, h)
      else if negb (cmd_init_interface =? 0) then (- EINVAL, h)
      else (0, on_netdev (fun n => n <| n_init := true |>) h)
  end.

(** [cmd_deinit_interface]: its answer, with what the driver does meanwhile.  The
    end of a scan or association reported to cfg80211 first is left out. *)
Definition esp_stop (cmd_deinit_interface : host T -> Z * host T) h : Z * host T :=
  match netdev h with
  | None => (0, h)
  | Some p =>
      let h := on_netdev (fun n => n <| stop_data := true |>) (esp_port_close h) in
      if n_init p then
        let a := adapter_of h in
        let '(ret, h) := if negb (flag ESP_SKIP_FW_DEINIT a) && negb (flag ESP_TRANSPORT_REMOVING a)
                            && negb (flag ESP_DRIVER_UNLOADING a)
                         then cmd_deinit_interface h else (0, h) in
        if negb (ret =? 0) then (0, h) else (0, on_netdev (fun n => n <| n_init := false |>) h)
      else (0, h)
  end.

(** ** Bluetooth *)
Definition esp_bt_session_ready (a : esp_adapter) : bool :=
  flag ESP_INIT_DONE a && negb (flag ESP_ALLOW_RECONSTRUCT a) && negb (flag ESP_CLEANUP_IN_PROGRESS a)
  && negb (flag ESP_FW_RECOVERY_PENDING a) && negb (flag ESP_FW_RESET_EXPECTED a)
  && negb (flag ESP_TRANSPORT_REMOVING a) && negb (flag ESP_DRIVER_UNLOADING a)
  && (context_code ESP_CONTEXT_READY <=? context_code (state a)).

Definition esp_bt_open h : Z := if esp_bt_session_ready (adapter_of h) then 0 else - EBUSY.

Definition esp_hci_update_tx_counter (pkt_type n : Z) (x : hci_stat) : hci_stat :=
  let x := if pkt_type =? HCI_COMMAND_PKT then x <| cmd_tx := cmd_tx x + 1 |>
           else if pkt_type =? HCI_ACLDATA_PKT then x <| acl_tx := acl_tx x + 1 |>
           else if pkt_type =? HCI_SCODATA_PKT then x <| sco_tx := sco_tx x + 1 |> else x in
  x <| byte_tx := byte_tx x + n |>.

(** The packet type stands in the header's last byte and in the byte before the
    payload, which are the same one without padding. *)
Definition bt_pad_len (n : Z) : Z :=
  u8 (sizeof_header + (SKB_DATA_ADDR_ALIGNMENT - (n + sizeof_header) mod SKB_DATA_ADDR_ALIGNMENT)
                        mod SKB_DATA_ADDR_ALIGNMENT).
Definition bt_header (pkt_type n pad : Z) : esp_payload_header :=
  mk_header (if_code ESP_HCI_IF) 0 0 0 0 (u16 n) (u16 pad) 0 0 pkt_type.
Definition bt_tail (pkt_type pad : Z) (payload : list Z) : list Z :=
  (if pad =? sizeof_header then []
   else replicate (Z.to_nat (pad - sizeof_header - 1)) 0 ++ [pkt_type]) ++ payload.
Definition bt_frame (caps pkt_type : Z) (payload : list Z) : list Z :=
  let pad := bt_pad_len (zlen payload) in
  let hd := bt_header pkt_type (zlen payload) pad in
  let tail := bt_tail pkt_type pad payload in
  let frame := encode_header hd ++ tail in
  if has_cap caps ESP_CHECKSUM_ENABLED
  then encode_header (hd <| checksum := compute_checksum be addr frame (zlen payload + pad) |>) ++ tail
  else frame.

(** The result, and whether the buffer the HCI core passed was consumed. *)
Definition esp_bt_send_frame (pkt_type : Z) (x : tx_skb) h : Z * bool * host T :=
  let a := adapter_of h in
  let pad_len := bt_pad_len (zlen (skb_data x)) in
  if negb (esp_bt_session_ready a) then (- EBUSY, false, h)
  else if realloc_skb pad_len x && negb (skb_linearize_ok x) then
    (- EINVAL, false, on_hci (fun s => s <| err_tx := err_tx s + 1 |>) h)
  else if realloc_skb pad_len x && negb (alloc_skb pk (zlen (skb_data x) + pad_len) a (tr (sy (wd h)))) then
    (- ENOMEM, false, on_hci (fun s => s <| err_tx := err_tx s + 1 |>) h)
  else
    let frame := bt_frame (capabilities a) pkt_type (skb_data x) in
    let '(ret, w) := esp_send_packet pk frame false (wd h) in
    let h := h <| wd := w |> in
    if negb (ret =? 0) then
      (0, true, on_wd (rcp_reset_session ops m2j) (on_hci (fun s => s <| err_tx := err_tx s + 1 |>) h))
    else (0, true, on_hci (esp_hci_update_tx_counter pkt_type (zlen frame)) h).

(** The bus decides whether there is a transport type for the device;
    [hci_alloc_dev] and [hci_register_dev] are the kernel's answers. *)
Definition hci_bus_known (a : esp_adapter) : bool :=
  (if_transport a =? ESP_IF_TYPE_SDIO) || (if_transport a =? ESP_IF_TYPE_SPI) || (if_transport a =? ESP_IF_TYPE_USB).

Definition esp_init_bt (hci_alloc_dev : bool) (hci_register_dev : Z) h : Z * host T :=
  if bool_decide (is_Some (hcidev h)) then (- EEXIST, h)
  else if negb hci_alloc_dev then (- ENOMEM, h)
  else if negb (hci_bus_known (adapter_of h)) then (- EINVAL, h)
  else if hci_register_dev <? 0 then (hci_register_dev, h)
  else (0, h <| hcidev := Some (mk_hci 0 0 0 0 0 0 0 0 0 0) |>).

Definition esp_deinit_bt h : host T := h <| hcidev := None |>.
End Net.

(** ** What reaches the transport *)
Section Xmit.
Context {T : Type} (ops : esp_if_ops T) (pk : pkt_ops T) (m2j : Z -> Z) (be : bool) (addr : Z).
Implicit Types h : host T.

(** How many buffers an interface has accounted for. *)
Definition accounted (p : netif) : Z := tx_packets p + tx_errors p + tx_dropped p.

(** The rest of the driver may open and close the port, stop the queue and move
    the transport, but does not send for this interface. *)
Definition others_keep (others : host T -> host T) : Prop :=
  forall h p, netdev h = Some p -> exists p', netdev (others h) = Some p' /\ accounted p' = accounted p.

Lemma on_netdev_some f h p : netdev h = Some p -> netdev (on_netdev f h) = Some (f p).
Proof. intros E. cbn. by rewrite E. Qed.

Definition built_frame (x : tx_skb) h (p : netif) : list Z :=
  hosted_frame be addr (capabilities (adapter_of h)) (process_tx_header p x) (skb_data x).

Lemma tx_drop_counts h p :
  netdev h = Some p -> exists p', netdev (tx_drop h) = Some p' /\ accounted p' = accounted p + 1.
Proof. intros E. eexists. split; [by apply on_netdev_some|]. unfold accounted. cbn. lia. Qed.
Lemma tx_error_counts h p :
  netdev h = Some p -> exists p', netdev (tx_error h) = Some p' /\ accounted p' = accounted p + 1.
Proof. intros E. eexists. split; [by apply on_netdev_some|]. unfold accounted. cbn. lia. Qed.

(** The last step counts the buffer once, and sends only through an open port. *)
Lemma tx_publish_spec x frame h p :
  netdev h = Some p ->
  exists p', netdev (tx_publish pk x frame h) = Some p' /\ accounted p' = accounted p + 1 /\
    (wd (tx_publish pk x frame h) = wd h \/
     stop_data p = false /\ (port_open p = true \/ is_eapol x = true) /\
     wd (tx_publish pk x frame h) = (esp_send_packet pk frame false (wd h)).2).
Proof.
  intros E. unfold tx_publish. rewrite E. destruct (negb (stop_data p) && _) eqn:Hg.
  - apply andb_true_iff in Hg as [Hs0 Hp0]. apply negb_true_iff in Hs0. apply orb_true_iff in Hp0.
    destruct (esp_send_packet pk frame false (wd h)) as [ret w]. cbv zeta.
    assert (E' : netdev (h <| wd := w |>) = Some p) by done.
    set (h1 := h <| wd := w |>) in *.
    assert (Hs : forall f, accounted (f p) = accounted p + 1 ->
      exists p', netdev (on_netdev f h1) = Some p' /\ accounted p' = accounted p + 1)
      by (intros f Hf; exists (f p); split; [by apply on_netdev_some|done]).
    assert (Hr : wd h1 = w /\ forall f, wd (on_netdev f h1) = w) by done.
    destruct (ret =? 0); cbn [negb]; unfold tx_error; edestruct Hs as (p' & E1 & E2).
    2, 4: exists p'; split; [exact E1|]; split; [exact E2|]; right; by auto.
    all: unfold accounted; cbn; lia.
  - destruct (tx_drop_counts h p E) as (p' & E1 & E2). exists p'. split; [done|]. split; [done|by left].
Qed.

(** C23: the port gates what leaves.  However the rest of the driver moves while a
    packet of the network stack is framed, what the transport is given is the
    frame of that packet, of 1 to 1514 bytes, and only while the interface is
    not stopped and either its port is open or the packet is EAPOL; a buffer the
    stack gave up (OK) is counted exactly once, as sent, failed or dropped, and
    one it keeps (BUSY) leaves everything as it was. *)
Theorem xmit_gated_and_accounted others x h p r h' :
  netdev h = Some p -> others_keep others ->
  esp_hard_start_xmit pk be addr others x h = (r, h') ->
  (r = NETDEV_TX_BUSY -> h' = h) /\
  (r = NETDEV_TX_OK -> exists p', netdev h' = Some p' /\ accounted p' = accounted p + 1) /\
  (wd h' = wd h \/ wd h' = wd (others h) \/
   exists q, netdev (others h) = Some q /\ stop_data q = false /\ (port_open q = true \/ is_eapol x = true) /\
     0 < zlen (skb_data x) <= ETH_FRAME_LEN /\
     wd h' = (esp_send_packet pk (built_frame x h p) false (wd (others h))).2).
Proof.
  intros E Ho. unfold esp_hard_start_xmit, process_tx_packet. rewrite E.
  destruct (negb (port_open p) && _).
  { intros [= <- <-]. split; [done|]. split; [intros _; by apply tx_drop_counts|by left]. }
  destruct ((_ =? 0) || _) eqn:Hl.
  { intros [= <- <-]. split; [done|]. split; [intros _; by apply tx_drop_counts|by left]. }
  destruct (queue_stopped p || asleep h).
  { intros [= <- <-]. split; [done|]. split; [done|by left]. }
  destruct (realloc_skb _ _ && negb (skb_linearize_ok x)).
  { intros [= <- <-]. split; [done|]. split; [intros _; by apply tx_error_counts|by left]. }
  destruct (realloc_skb _ _ && negb (alloc_skb _ _ _ _)).
  { intros [= <- <-]. split; [done|]. split; [intros _; by apply tx_error_counts|by left]. }
  intros [= <- <-]. destruct (Ho h p E) as (q & Eq & Ha). fold (built_frame x h p).
  destruct (tx_publish_spec x (built_frame x h p) (others h) q Eq) as (p' & Ep & Hc & Hw).
  split; [done|]. split; [intros _; exists p'; split; [done|lia]|].
  destruct Hw as [Hw|(Hs & Hp & Hw)]; [by right; left|]. right. right. exists q. bool_hyps.
  pose proof (zlen_nonneg (skb_data x)). split_and!; done || lia.
Qed.

(** ** HCI *)

(** the ownership of an HCI buffer.  The HCI core frees a buffer when the
    driver reports an error, so an error is reported exactly when the driver has
    not consumed it, and then nothing went to the transport; a buffer that was
    consumed is reported as sent even if the transport lost it, and then a
    recovery of the firmware is pending, unless the driver is going away: no
    HCI command or credit is lost silently. *)
Theorem bt_send_ownership `{!IfOpsLaws ops} pkt_type x h :
  let '(ret, consumed, h') := esp_bt_send_frame ops pk m2j be addr pkt_type x h in
  (ret = 0 <-> consumed = true) /\
  (consumed = false -> wd h' = wd h) /\
  (consumed = true ->
   esp_bt_session_ready (adapter_of h) = true /\
   let frame := bt_frame be addr (capabilities (adapter_of h)) pkt_type (skb_data x) in
   ((esp_send_packet pk frame false (wd h)).1 = 0 /\ wd h' = (esp_send_packet pk frame false (wd h)).2) \/
   unloading_or_removing (adapter_of h') = true \/ flag ESP_FW_RECOVERY_PENDING (adapter_of h') = true).
Proof.
  unfold esp_bt_send_frame. cbv zeta. destruct (esp_bt_session_ready (adapter_of h)); cbn [negb].
  2: { split; [by split|]. split; done. }
  destruct (realloc_skb _ _ && negb (skb_linearize_ok x)); [split; [by split|split; done]|].
  destruct (realloc_skb _ _ && negb (alloc_skb _ _ _ _)); [split; [by split|split; done]|].
  destruct (esp_send_packet pk _ false (wd h)) as [ret w] eqn:Es. destruct (ret =? 0) eqn:Er; cbn [negb]; bool_hyps.
  - split; [by split|]. split; [done|]. intros _. split; [done|]. by left.
  - split; [by split|]. split; [done|]. intros _. split; [done|]. right. apply (reset_session_pending ops m2j w).
Qed.
End Xmit.

(** ** What reaches the consumers *)
Section Receive.
Context {T : Type} (ops : esp_if_ops T) (pk : pkt_ops T) (m2j : Z -> Z) (be : bool) (addr : Z) (live : bool).
Context (hci : Z -> list Z -> bool).
Implicit Types h : host T.

Notation rx := (process_rx_packet ops pk m2j be addr live hci).

(** Everything above the transport except the recovery system and the pipe. *)
Definition same_consumers h h' : Prop :=
  cmdqueue h' = cmdqueue h /\ netdev h' = netdev h /\ hcidev h' = hcidev h /\
  events_skb_q h' = events_skb_q h /\ asleep h' = asleep h /\ upcalls h' = upcalls h.

Lemma same_consumers_refl h : same_consumers h h.
Proof. done. Qed.
Lemma same_consumers_wd f h : same_consumers h (on_wd f h).
Proof. done. Qed.

Lemma fail_rcp_rx_spec h :
  same_consumers h (esp_fail_rcp_rx_if_required ops m2j h) /\
  wd (esp_fail_rcp_rx_if_required ops m2j h) =
    if esp_rcp_fail_closed_required (rc (wd h)) then rcp_reset_session ops m2j (wd h) else wd h.
Proof. unfold esp_fail_rcp_rx_if_required. by destruct (esp_rcp_fail_closed_required _). Qed.

(** A frame whose bounds are wrong, or whose checksum is. *)
Definition rx_corrupt (skb : list Z) h : bool :=
  negb (rx_bounds_ok skb) || (validate_checksum skb h && negb (rx_checksum_ok be addr skb)).

(** what the receive path lets through.  A corrupt frame reaches no consumer,
    and while an RCP session would miss its bytes it leaves a pending recovery
    (unless the driver is going away), otherwise it changes nothing; a sound
    frame of an ordinary interface changes nothing at all while the session is
    being rebuilt; and neither does any frame for an interface the host does not
    know. *)
Theorem rx_guards `{!IfOpsLaws ops} skb h :
  let hd := decode_header skb in
  (rx_corrupt skb h = true ->
   same_consumers h (rx skb h) /\
   if esp_rcp_fail_closed_required (rc (wd h))
   then unloading_or_removing (adapter_of (rx skb h)) = true \/
        flag ESP_FW_RECOVERY_PENDING (adapter_of (rx skb h)) = true
   else rx skb h = h) /\
  (rx_corrupt skb h = false -> side_channel hd = false -> rx_quarantined live (adapter_of h) = true -> rx skb h = h) /\
  (rx_corrupt skb h = false -> if_code ESP_MONITOR_IF < if_type hd -> rx skb h = h).
Proof.
  intros hd. unfold rx_corrupt, process_rx_packet. fold hd.
  destruct (rx_bounds_ok skb); cbn [negb orb].
  2: { split; [|done]. intros _. destruct (fail_rcp_rx_spec h) as [S W]. split; [exact S|]. unfold adapter_of.
       rewrite W. unfold esp_fail_rcp_rx_if_required.
       destruct (esp_rcp_fail_closed_required _); [apply (reset_session_pending ops m2j)|done]. }
  destruct (validate_checksum skb h && _).
  { split; [|done]. intros _. destruct (fail_rcp_rx_spec h) as [S W]. split; [exact S|]. unfold adapter_of.
    rewrite W. unfold esp_fail_rcp_rx_if_required.
    destruct (esp_rcp_fail_closed_required _); [apply (reset_session_pending ops m2j)|done]. }
  split; [done|]. split; [by intros _ -> ->|]. intros _ Hi. destruct (negb _ && _); [done|].
  unfold rx_deliver. repeat rewrite (proj2 (Z.eqb_neq _ _)) by (cbn in *; lia). done.
Qed.

(** A data frame for the running interface reaches the network stack with its
    payload, and is counted unless it is EAPOL. *)
Definition counted (eapol : bool) (skb : list Z) (p : netif) : netif :=
  if eapol then p else p <| rx_bytes := rx_bytes p + eth_payload_len skb |> <| rx_packets := rx_packets p + 1 |>.

Lemma rx_data_delivered skb h p :
  let hd := decode_header skb in
  rx_corrupt skb h = false -> rx_quarantined live (adapter_of h) = false ->
  if_type hd = if_code ESP_STA_IF \/ if_type hd = if_code ESP_AP_IF ->
  packet_type hd = pkt_code PACKET_TYPE_DATA \/ packet_type hd = pkt_code PACKET_TYPE_EAPOL ->
  netdev h = Some p -> net_running p = true -> n_if_num p = if_num hd ->
  rx skb h = up (ToStack (n_if_num p) (zdrop (offset hd) skb))
               (on_netdev (counted (packet_type hd =? pkt_code PACKET_TYPE_EAPOL) (zdrop (offset hd) skb)) h).
Proof.
  intros hd Hc Hq Hi Ht Hp Hr Hn. unfold rx_corrupt in Hc. apply orb_false_iff in Hc as [Hb Hc].
  unfold process_rx_packet. fold hd. rewrite Hb, Hc, Hq, andb_false_r. unfold rx_deliver.
  assert (Hw : (if_type hd =? if_code ESP_STA_IF) || (if_type hd =? if_code ESP_AP_IF) = true)
    by (destruct Hi as [-> | ->]; reflexivity).
  rewrite Hw. unfold rx_wifi, get_priv_from_payload_header. rewrite Hp, (proj2 (Z.eqb_eq _ _) Hn), Hr.
  destruct Ht as [-> | ->]; cbn [Z.eqb pkt_code Pos.eqb]; unfold up, on_netdev, counted; cbn;
    destruct h; cbn in *; by subst.
Qed.
End Receive.

(** ** Concrete runs *)

(** A transport that logs what it is given, and an open port. *)
Definition demo_logging : pkt_ops (list (list Z)) :=
  mk_pkt_ops (fun _ _ _ => true) (Some (fun skb _ a t => (0, (a, t ++ [skb]), 0))) None (fun _ => 0).
Definition demo_if : netif := mk_netif 0 0 true true true true true false false 0 0 0 0 0 0.
Definition demo_port : host (list (list Z)) :=
  mk_host (mk_world (mk_sys zero_adapter [] 0 None None 0) rcp_zero []) cmdq_zero (Some demo_if) None [] false [].
Definition demo_data_skb : tx_skb := mk_tx_skb 0x0800 32 true true (replicate 60 1).
Definition demo_eapol_skb : tx_skb := mk_tx_skb ETH_P_PAE 32 true true (replicate 60 1).

(** The port closes under a data packet, which is dropped, and under an EAPOL
    packet, which is sent. *)
Lemma xmit_gated_and_accounted_witness :
  (exists h' p', esp_hard_start_xmit demo_logging false 0 esp_port_close demo_data_skb demo_port = (NETDEV_TX_OK, h') /\
     netdev h' = Some p' /\ accounted p' = 1 /\ tr (sy (wd h')) = []) /\
  (exists h' p', esp_hard_start_xmit demo_logging false 0 esp_port_close demo_eapol_skb demo_port = (NETDEV_TX_OK, h') /\
     netdev h' = Some p' /\ accounted p' = 1 /\ length (tr (sy (wd h'))) = 1%nat).
Proof.
  assert (Ho : @others_keep (list (list Z)) esp_port_close).
  { intros h p E. eexists. split; [by apply on_netdev_some|done]. }
  split.
  all: match goal with |- context [esp_hard_start_xmit _ _ _ _ ?x _] =>
    destruct (esp_hard_start_xmit demo_logging false 0 esp_port_close x demo_port) as [r h'] eqn:E;
    destruct (xmit_gated_and_accounted demo_logging false 0 esp_port_close x demo_port demo_if r h' eq_refl Ho E)
      as (_ & Hok & _); vm_compute in E; injection E as <- <-; destruct (Hok eq_refl) as (p' & Ep & Hp) end.
  all: eexists; exists p'; split; [reflexivity|]; split; [exact Ep|]; split; [exact Hp|reflexivity].
Defined.

(** A transport that fails: the buffer is gone, the core hears of no error, and
    the firmware will be restarted. *)
Definition demo_failing : pkt_ops unit :=
  mk_pkt_ops (fun _ _ _ => true) (Some (fun _ _ a t => (- EIO, (a, t), 0))) None (fun _ => 0).
Definition demo_bt_host : host unit :=
  mk_host (mk_world demo_ready rcp_zero []) cmdq_zero None (Some (mk_hci 0 0 0 0 0 0 0 0 0 0)) [] false [].

Lemma bt_send_ownership_witness :
  exists h', esp_bt_send_frame (demo_ops 1) demo_failing demo_m2j false 0 HCI_COMMAND_PKT demo_data_skb demo_bt_host
      = (0, true, h') /\ flag ESP_FW_RECOVERY_PENDING (adapter_of h') = true.
Proof.
  pose proof (bt_send_ownership (demo_ops 1) demo_failing demo_m2j false 0 HCI_COMMAND_PKT demo_data_skb demo_bt_host) as Hb.
  destruct (esp_bt_send_frame _ _ _ _ _ _ _ _) as [[ret consumed] h'] eqn:E.
  destruct Hb as (_ & _ & Hb). assert (Hc : ret = 0 /\ consumed = true /\ unloading_or_removing (adapter_of h') = false).
  { assert (Ev : (let '(r, c, h) := esp_bt_send_frame (demo_ops 1) demo_failing demo_m2j false 0 HCI_COMMAND_PKT
      demo_data_skb demo_bt_host in r = 0 /\ c = true /\ unloading_or_removing (adapter_of h) = false))
      by (clear; vm_compute; auto). by rewrite E in Ev. }
  destruct Hc as (-> & -> & Hu). exists h'. split; [reflexivity|].
  destruct (Hb eq_refl) as (_ & [[Hf _]|[Hf|Hf]]); [|congruence|exact Hf].
  exfalso. revert Hf. clear. vm_compute. discriminate.
Defined.

(** A runt frame while an RCP session is confirmed. *)
Definition demo_rcp_host : host unit := mk_host demo_confirmed cmdq_zero None None [] false [].

Lemma rx_guards_witness :
  flag ESP_FW_RECOVERY_PENDING (adapter_of
    (process_rx_packet (demo_ops 1) demo_pk demo_m2j false 0 false (fun _ _ => true) [1; 2; 3] demo_rcp_host)) = true.
Proof.
  destruct (rx_guards (demo_ops 1) demo_pk demo_m2j false 0 false (fun _ _ => true) [1; 2; 3] demo_rcp_host) as [Hg _].
  destruct (Hg eq_refl) as [_ Hr].
  assert (Hf : esp_rcp_fail_closed_required (rc (wd demo_rcp_host)) = true) by reflexivity. rewrite Hf in Hr.
  destruct Hr as [Hr|Hr]; [|exact Hr]. exfalso. revert Hr. clear. vm_compute. discriminate.
Defined.
