(* ===== verification/NetLink.v ===== *)
(** * NetLink: from one network stack to the other

    The components along the path of a Wi-Fi packet put together: the firmware's
    queue, its aggregate, the SDIO link, the host's receive loop and its
    dispatch; and back, from the interface of the host through its transmit
    thread to the firmware's Wi-Fi driver. *)
From S2P Require Import Prelude Wire Adapter Recovery RcpHost RcpFw FwPath CmdQueue.
From S2P Require Import SdioHost SdioRx SdioTx SdioSend SdioFw SdioLink NetPath.

(** ** Device to host *)
Section Rx.
Context {H : Type} (M : mmc H) (m2j : Z -> Z) (alloc : nat -> bool).
Context {publishes : H -> Z -> list Z -> Prop} `{!RxCard M publishes}.
Context (ops : esp_if_ops (sdio H)) (pk : pkt_ops (sdio H)) (be : bool) (addr : Z) (live : bool).
Context (hci : Z -> list Z -> bool) (e : tx_env).
Implicit Types h : host (sdio H).

(** The transport's [read] of the operation table. *)
Definition sdio_read (w : world (sdio H)) : option (list Z) * world (sdio H) :=
  let '(p, s) := read_packet M m2j (rc w) alloc (sy w) in (p, w <| sy := s |>).

Notation get_packets fuel h := (esp_get_packets ops pk m2j be addr live fuel hci sdio_read h).
Notation rx := (process_rx_packet ops pk m2j be addr live hci).

(** A packet of the Wi-Fi driver for the host's interface [p]. *)
Definition for_netdev (p : netif) (b : buf_handle) : Prop :=
  (bh_if_type b = if_code ESP_STA_IF \/ bh_if_type b = if_code ESP_AP_IF) /\
  bh_if_num b = n_if_num p /\ 0 <= bh_if_num b < 16 /\
  (bh_pkt_type b = pkt_code PACKET_TYPE_DATA \/ bh_pkt_type b = pkt_code PACKET_TYPE_EAPOL) /\
  bytes_ok (bh_payload b).

(** The host the firmware booted: its interface runs, its session is up, and it
    verifies checksums only if the firmware computes them. *)
Record host_ready (p : netif) h : Prop := mk_ready {
  hr_netdev : netdev h = Some p;
  hr_running : net_running p = true;
  hr_context : if_context (adapter_of h) = true;
  hr_session : rx_quarantined live (adapter_of h) = false;
  hr_checksum : has_cap (capabilities (adapter_of h)) ESP_CHECKSUM_ENABLED = true -> sdio_checksum e = true
}.

Lemma carried_delivered b frame h p :
  host_ready p h -> for_netdev p b -> carries e b frame ->
  exists p', host_ready p' (rx frame h) /\ n_if_num p' = n_if_num p /\ wd (rx frame h) = wd h /\
    upcalls (rx frame h) = upcalls h ++ [ToStack (n_if_num p) (bh_payload b)].
Proof.
  intros [R1 R2 R3 R4 R5] (Ht & Hn & Hn16 & Hp & Hb) ((Hl & Ho & Hz) & Hck & C1 & C2 & C3 & C4).
  rewrite wrap_id in C2 by (unfold in_width; cbn; lia).
  assert (Ei : if_type (decode_header frame) = bh_if_type b)
    by (rewrite C1; destruct Ht as [-> | ->]; reflexivity).
  assert (Ep : packet_type (decode_header frame) = bh_pkt_type b)
    by (rewrite C3; destruct Hp as [-> | ->]; reflexivity).
  assert (Hpay : zdrop (offset (decode_header frame)) frame = bh_payload b).
  { rewrite <- C4. symmetry. apply ztake_ge. rewrite zlen_zdrop. unfold ESP_OFFSET_VALID, sizeof_header in Ho. bool_hyps. lia. }
  assert (Hc : rx_corrupt be addr frame h = false).
  { unfold rx_corrupt, rx_bounds_ok. cbv zeta. rewrite Ho. unfold ESP_OFFSET_VALID, sizeof_header in *. bool_hyps.
    rewrite !(proj2 (Z.ltb_ge _ _)) by lia. cbn [negb orb andb]. unfold validate_checksum. rewrite Ei.
    replace (bh_if_type b =? if_code ESP_INTERNAL_IF) with false by (by destruct Ht as [-> | ->]).
    destruct (has_cap _ _) eqn:Ec; [|done]. by rewrite Hck by auto. }
  rewrite (rx_data_delivered ops pk m2j be addr live hci frame h p Hc R4
    ltac:(by rewrite Ei) ltac:(by rewrite Ep) R1 R2 ltac:(by rewrite C2)). rewrite Hpay.
  exists (counted (packet_type (decode_header frame) =? pkt_code PACKET_TYPE_EAPOL) (bh_payload b) p).
  unfold counted. destruct (_ =? _); (split; [constructor; try done; cbn; by rewrite R1|done]).
Qed.

(** Frames the transport holds are delivered in order, one turn each. *)
Definition stack_upcalls (p : netif) (bs : list buf_handle) : list upcall :=
  (fun b => ToStack (n_if_num p) (bh_payload b)) <$> bs.

Lemma drain_rx_q bs fs h p :
  host_ready p h -> Forall (for_netdev p) bs -> Forall2 (carries e) bs fs -> rx_q (tr (sy (wd h))) = fs ->
  exists h', (forall fuel, get_packets (length bs + fuel)%nat h = get_packets fuel h') /\
    wd h' = wd h <| sy := put_rx [] (sy (wd h)) |> /\ upcalls h' = upcalls h ++ stack_upcalls p bs.
Proof.
  intros Hr Hb Hf. revert h p Hr Hb. induction Hf as [|b f bs fs Hc Hf IH]; intros h p Hr Hb Hq.
  - exists h. split; [done|]. unfold stack_upcalls. rewrite app_nil_r. split; [|done].
    unfold put_rx, on_tr. rewrite <- Hq. by destruct h as [[[? []] ? ?] ? ? ? ? ? ?].
  - inversion_clear Hb as [|? ? Hb1 Hb2].
    set (h1 := h <| wd := wd h <| sy := put_rx fs (sy (wd h)) |> |>).
    assert (Hr1 : host_ready p h1) by (destruct Hr; by constructor).
    destruct (carried_delivered b f h1 p Hr1 Hb1 Hc) as (p' & Hr2 & Hn & Hw & Hu).
    assert (Hb2' : Forall (for_netdev p') bs) by (unfold for_netdev in *; by rewrite Hn).
    destruct (IH (rx f h1) p' Hr2 Hb2' ltac:(by rewrite Hw)) as (h' & E & Ew & Eu).
    exists h'. split; [|split].
    + intros fuel. cbn [length Nat.add esp_get_packets]. unfold sdio_read at 1, read_packet.
      pose proof (hr_context _ _ Hr) as Hi. unfold adapter_of in Hi. rewrite Hi. cbn [negb].
      unfold skb_dequeue_rx. rewrite Hq. exact (E fuel).
    + rewrite Ew, Hw. done.
    + rewrite Eu, Hu. unfold stack_upcalls. rewrite Hn, <- app_assoc. done.
Qed.

(** A published aggregate is read and delivered. *)
Lemma aggregate_delivered (alloc_ok : forall n, alloc n = true) total bs fs h p :
  let data := concat (padded <$> fs) in
  host_ready p h -> Forall (for_netdev p) bs -> Forall2 (carries e) bs fs -> fs <> [] ->
  rx_q (tr (sy (wd h))) = [] -> rx_bounce_buf (tr (sy (wd h))) = true -> Forall rx_frame_ok fs ->
  zlen data <= ESP_HOST_RX_AGGR_SIZE -> synced (publishes := publishes) total data (sy (wd h)) ->
  exists h', (forall fuel, get_packets (length bs + fuel)%nat h = get_packets fuel h') /\
    upcalls h' = upcalls h ++ stack_upcalls p bs /\
    synced (publishes := publishes) total [] (sy (wd h')) /\ rx_q (tr (sy (wd h'))) = [].
Proof.
  intros data Hr Hb Hcs Hne Hq Hbb Hok Hz Hs. destruct Hcs as [|b fr bs frs Hc Hcs]; [done|].
  inversion_clear Hb as [|? ? Hb1 Hb2].
  destruct (read_packet_spec M m2j (rc (wd h)) alloc alloc_ok total fr frs (sy (wd h)) (hr_context _ _ Hr) Hq Hbb Hok
    Hz Hs) as (s' & E1 & E2 & E3 & E4).
  set (h1 := h <| wd := wd h <| sy := s' |> |>).
  assert (Hr1 : host_ready p h1).
  { assert (Ha : adapter_of h1 = adapter_of h) by exact E4. destruct Hr. constructor; rewrite ?Ha; done. }
  destruct (carried_delivered b fr h1 p Hr1 Hb1 Hc) as (p' & Hr2 & Hn & Hwd & Hu).
  assert (Hb2' : Forall (for_netdev p') bs) by (unfold for_netdev in *; by rewrite Hn).
  destruct (drain_rx_q bs frs (rx fr h1) p' Hr2 Hb2' Hcs ltac:(rewrite Hwd; exact E2)) as (h' & F1 & F2 & F3).
  exists h'. split; [|split; [|rewrite F2, Hwd; split; [exact E3|done]]].
  - intros fuel. cbn [length Nat.add esp_get_packets]. unfold sdio_read at 1. rewrite E1. exact (F1 fuel).
  - rewrite F3, Hu. unfold stack_upcalls. rewrite Hn, <- app_assoc. done.
Qed.
End Rx.


(** ** Host to device *)
Section Tx.
Context {H : Type} (M : mmc H) (m2j : Z -> Z) (arr : nat -> list tx_pkt).
Context (wifi : nat -> Z -> list Z -> Z) (cfg : fw_build) (env : rx_env) (be : bool) (addr caps : Z).

(** A queued packet is the frame [x], as every sender of the host builds it. *)
Definition is_frame (p : tx_pkt) (x : tx_frame) : Prop := tx_frame_ok cfg x /\ pkt_data p = wire be addr caps x.

(** It is a command only if the firmware is still to answer it. *)
Definition not_stale (q : cmdq) (p : tx_pkt) : Prop :=
  match sdio_get_cmd_info (pkt_data p) with Some c => sdio_cmd_is_current c q = true | None => True end.

Lemma zlen_wire_u16 x : tx_frame_ok cfg x -> zlen (wire be addr caps x) <= ESP_MAX_OFFSET_SIZE + zlen (snd x) < 2 ^ 16.
Proof.
  intros Hx. pose proof (wire_len cfg be addr caps x Hx) as (El & _). pose proof Hx as (_ & _ & Hl & Hm).
  pose proof (hosted_pad_len_range (zlen (snd x)) ltac:(lia)).
  unfold ESP_MAX_OFFSET_SIZE, ESP_MAX_ALIGN_PADDING, sizeof_header in *. lia.
Qed.

Lemma wire_bytes_ok x : tx_frame_ok cfg x -> bytes_ok (wire be addr caps x).
Proof.
  intros (Hw & Hb & _). unfold wire. destruct (hosted_frame_shape be addr caps (fst x) (snd x)) as (c & Hc & ->).
  apply Forall_app. split.
  - apply encode_header_ok. apply header_wf_set; auto with zlist.
  - apply Forall_app. split; [|done]. apply Forall_replicate. unfold is_byte. lia.
Qed.

Lemma is_frame_spec p x :
  is_frame p x ->
  pkt_invalid p = false /\ pkt_frame_len p = zlen (wire be addr caps x) /\ tx_frame_bytes p = wire be addr caps x /\
  align4 (pkt_frame_len p) = zlen (wire be addr caps x) /\ bytes_ok (pkt_data p).
Proof.
  intros [Hx Ep]. pose proof (wire_bytes_ok x Hx) as Hbytes. pose proof (zlen_wire_u16 x Hx) as [_ H16].
  pose proof Hx as (Hw & Hb & Hl & Hm). destruct (wire_len cfg be addr caps x Hx) as (El & E4 & _).
  pose proof (hosted_pad_len_range (zlen (snd x)) ltac:(lia)) as Hp.
  pose proof (hosted_frame_received be addr caps (fst x) (snd x) [] Hw) as Hr.
  unfold ESP_MAX_OFFSET_SIZE, ESP_MAX_ALIGN_PADDING, sizeof_header in *. specialize (Hr ltac:(lia)).
  rewrite app_nil_r in Hr. cbv zeta in Hr. fold (wire be addr caps x) in Hr. rewrite <- Ep in *.
  destruct Hr as (_ & _ & _ & _ & E1 & E2 & _ & _).
  assert (Ef : pkt_frame_len p = zlen (pkt_data p)).
  { unfold pkt_frame_len. cbv zeta. rewrite E1, E2, wrap_id by (unfold in_width; lia). lia. }
  assert (Ha : align4 (pkt_frame_len p) = pkt_frame_len p) by (apply align4_id; rewrite Ef; [lia|done]).
  split; [|split; [done|split; [|split; [by rewrite Ha|done]]]].
  - unfold pkt_invalid, ESP_OFFSET_VALID, ESP_MAX_OFFSET_SIZE, ESP_MAX_ALIGN_PADDING, sizeof_header. cbv zeta.
    rewrite Ef, E1, E2. rewrite !(proj2 (Z.leb_le _ _)), (proj2 (Z.eqb_neq _ _)), Z.ltb_irrefl by lia. done.
  - unfold tx_frame_bytes. rewrite Ha, Z.sub_diag. cbn. by rewrite app_nil_r, Ef, ztake_ge.
Qed.

(** What such packets come to in the aggregate. *)
Lemma frames_of_wire q seen :
  Forall (fun p => not_stale q p /\ exists x, is_frame p x) seen ->
  exists xs, frames_of_pkts q seen = concat (wire be addr caps <$> xs) /\ Forall (tx_frame_ok cfg) xs /\
    pkt_data <$> seen = wire be addr caps <$> xs.
Proof.
  induction 1 as [|p seen [Hs [x Hx]] _ IH]; [by exists []|]. destruct IH as (xs & E1 & E2 & E3).
  exists (x :: xs). change (p :: seen) with ([p] ++ seen). rewrite frames_of_app, frames_of_one, E1.
  destruct (is_frame_spec p x Hx) as (F1 & F2 & F3 & _). destruct Hx as [Hx Ep].
  assert (Ht : taken q p = true).
  { unfold taken. rewrite F1. unfold not_stale in Hs. by destruct (sdio_get_cmd_info _). }
  rewrite Ht, F3. split; [done|]. split; [by constructor|]. rewrite fmap_app, E3. cbn. by rewrite Ep.
Qed.
End Tx.

(** C8: from the host's transmit queues into the firmware.  While other threads go
    on sending, one round of the transmit thread on a running host that knows of a
    free receive buffer ends; if anything is queued it writes one transfer with
    frames of the queues, each queue's from its head and in its order; and the
    firmware takes that transfer apart into exactly those frames - verifying their
    checksums if it is built to - and delivers each once, in that order, until a
    frame whose delivery is fatal.  Nothing is lost: what is not in the transfer
    is still queued. *)
Theorem h2e_end_to_end {H : Type} (M : mmc H) m2j arr wifi cfg env be addr caps fuel ret (s : sys (sdio H)) :
  let good p := not_stale (cmds (tr s)) p /\ exists x, is_frame cfg be addr caps p x in
  (forall n, Forall good (arr n)) -> (forall k, Forall good (tx_queue k (tr s))) -> qok (tr s) ->
  live (tx_epoch (tr s)) (cmds (tr s)) (hw (tr s)) s -> 1 <= sdio_buf_available (tr s) -> 0 <= tx_aggr_size (ad s) ->
  rx_buf_size cfg <= tx_size (ad s) -> (cfg_checksum cfg = true -> has_cap caps ESP_CHECKSUM_ENABLED = true) ->
  (queued s + length (concat (arr <$> seq 0 (S fuel))) < S fuel)%nat ->
  (forall r data h, (sdio_memcpy_toio M r data h).1 = 0) ->
  exists ret' s' seen ps xs, tx_round M m2j (senders arr) (S fuel) ret s = Some (ret', s') /\
    Forall (fun p => exists n, p ∈ arr n) ps /\
    (forall k, tx_queue k (tr s) ++ filter (fun p => prio_of p = k) ps =
               filter (fun p => prio_of p = k) seen ++ tx_queue k (tr s')) /\
    pkt_data <$> seen = wire be addr caps <$> xs /\
    ((seen = [] /\ hw (tr s') = hw (tr s) /\ forall k, tx_queue k (tr s') = []) \/
     exists n, let data := concat (wire be addr caps <$> xs) ++ replicate n 0 in
       hw (tr s') = (sdio_memcpy_toio M (ESP_SLAVE_CMD53_END_ADDR - zlen data) data (hw (tr s))).2 /\
       forall a, process_rx_pkt wifi cfg env data a = (deliver wifi cfg env (FwPath.seen be addr caps 0 xs) a).2).
Proof.
  intros good Ha Hq Hd Hl Hc Hz Hsz Hck Hf Hw.
  assert (Hgb : forall p, good p -> bytes_ok (pkt_data p)) by (intros p (_ & x & Hx); by destruct (is_frame_spec cfg be addr caps p x Hx) as (_ & _ & _ & _ & ?)).
  destruct (tx_round_sends M m2j arr fuel ret s) as (ret' & s' & seen & ps & E & A & Q & Hbz & Hsent);
    try eassumption.
  { intros n. eapply Forall_impl; [apply Ha|exact Hgb]. }
  { intros k. eapply Forall_impl; [apply Hq|exact Hgb]. }
  exists ret', s', seen, ps. cbv zeta in *.
  assert (Hall : forall k, Forall good (filter (fun p => prio_of p = k) seen ++ tx_queue k (tr s'))).
  { intros k. rewrite <- Q. apply Forall_app. split; [apply Hq|]. apply Forall_forall. intros p Hp.
    apply list_elem_of_filter in Hp as [_ Hp]. rewrite Forall_forall in A. destruct (A p Hp) as (n & Hn).
    specialize (Ha n). rewrite Forall_forall in Ha. by apply Ha. }
  assert (Hseen : Forall good seen).
  { apply Forall_forall. intros p Hp. specialize (Hall (prio_of p)). apply Forall_app in Hall as [Hall _].
    rewrite Forall_forall in Hall. apply Hall. by apply list_elem_of_filter. }
  destruct (frames_of_wire cfg be addr caps _ _ Hseen) as (xs & X1 & X2 & X3). exists xs.
  split; [done|]. split; [done|]. split; [done|]. split; [done|]. rewrite X1 in *.
  destruct Hsent as [(Hnil & Hh & Hstop)|(Hne & n & Hn & Hh)]; [left|right].
  - destruct xs as [|x xs]; [|exfalso].
    2: { inversion_clear X2 as [|? ? Hx _]. destruct (wire_len cfg be addr caps x Hx) as (_ & _ & Hl1 & _).
         apply (f_equal zlen) in Hnil. cbn [fmap list_fmap concat] in Hnil. rewrite zlen_app, zlen_nil in Hnil.
         pose proof (zlen_nonneg (concat (fmap (M := list) (wire be addr caps) xs))). unfold sizeof_header, fmap in *. lia. }
    split; [by destruct seen|]. split; [done|]. destruct Hstop as [Hstop|(k & p & q & Eq & Hbig)]; [done|exfalso].
    specialize (Hall k). apply Forall_app in Hall as [_ Hall]. rewrite Eq in Hall. inversion_clear Hall as [|? ? (_ & x & Hx) _].
    destruct (is_frame_spec cfg be addr caps p x Hx) as (_ & _ & _ & Hal & _). destruct Hx as [Hx _].
    destruct (wire_len cfg be addr caps x Hx) as (_ & _ & Hl1 & Hl2). lia.
  - exists n. split; [done|]. intros a. pose proof (tx_size_pos (ad s) Hz) as Hts. unfold ESP_TX_AGGR_SIZE_MAX, ESP_BLOCK_SIZE in *.
    apply (process_aggregate wifi cfg env); [done|done| |rewrite zlen_app, zlen_replicate; lia].
    intros ->. by apply Hne.
Qed.

(** *** Concrete runs *)
Definition demo_netif : netif := mk_netif 0 0 true true true true true false false 0 0 0 0 0 0.
Definition demo_net : host (sdio (Z * list Z)) :=
  mk_host (mk_world (on_ad (fun a => a <| state := ESP_CONTEXT_READY |>) demo_host) rcp_zero []) cmdq_zero
    (Some demo_netif) None [] false [].
Definition demo_ops {H : Type} : esp_if_ops (sdio H) := mk_if_ops None None None None None (fun _ s => (0, s)).
Definition demo_pkt_ops {H : Type} : pkt_ops (sdio H) := mk_pkt_ops (fun _ _ _ => true) None None (fun _ => 0).

Lemma demo_low_for_netdev : Forall (for_netdev demo_netif) (low_prio_pending demo_fw ++ concat []).
Proof.
  change (low_prio_pending demo_fw ++ concat []) with demo_low.
  unfold demo_low. repeat constructor; cbn; try lia; apply Forall_replicate; unfold is_byte; lia.
Qed.

Lemma demo_net_ready : host_ready false demo_env demo_netif demo_net.
Proof. constructor; reflexivity || discriminate. Qed.


(** A card that logs what is written to it; one data frame is queued, another
    arrives while the thread collects. *)
Definition demo_log : mmc (list (list Z)) :=
  mk_mmc (fun _ h => ((0, 0), h)) (fun _ h => ((0, 0), h)) (fun _ _ h => (0, h)) (fun _ _ h => (0, h))
    (fun _ n h => ((0, []), h)) (fun _ data h => (0, h ++ [data])) (fun _ h => (0, h)) id (fun _ h => (0, h))
    (fun h => (0, h)) id (fun h => (0, h)) false false 0 (fun h => (0%nat, h)) (fun h => (true, h)).

Definition demo_frame (b : Z) : tx_frame := (zero_header, replicate 300 b).
Definition demo_queued (b : Z) : tx_pkt := mk_pkt (wire false 0 128 (demo_frame b)) true.
Definition demo_arr (n : nat) : list tx_pkt := if (n =? 1)%nat then [demo_queued 6] else [].
Definition demo_send : sys (sdio (list (list Z))) :=
  mk_sys (zero_adapter <| if_transport := ESP_IF_TYPE_SDIO |> <| if_context := true |> <| state := ESP_CONTEXT_READY |>)
    (mk_sdio [] true true true [[]; []; [demo_queued 5]] [0; 0; 1] 1 [] 0 0 0 false 0 false false 3 true false
       false false false false 0 0 0 0 false 0 false 0 cmdq_zero) 1000 None None 0.
Definition demo_station : fw_app :=
  app_zero <| station_connected := true |> <| station_authorized := true |>.

Lemma demo_queued_frame b : 0 <= b < 256 -> is_frame demo_build false 0 128 (demo_queued b) (demo_frame b).
Proof.
  intros Hb. split; [|done]. split; [done|]. split; [by apply Forall_replicate|]. by vm_compute.
Qed.

Definition demo_round : option (Z * sys (sdio (list (list Z)))) := tx_round demo_log (fun n => n) (senders demo_arr) 5 0 demo_send.
Definition demo_data : list Z := default [] (demo_round ≫= fun r => head (hw (tr r.2))).

Lemma h2e_end_to_end_witness :
  (exists a, process_rx_pkt (fun _ _ _ => 0) demo_build FwPath.demo_env demo_data demo_station = a /\
     wifi_tx a = [(WIFI_IF_STA, replicate 300 5); (WIFI_IF_STA, replicate 300 6)]) /\
  exists ret s', demo_round = Some (ret, s') /\ hw (tr s') = [demo_data].
Proof.
  assert (Hg : forall b, 0 <= b < 256 -> not_stale (cmds (tr demo_send)) (demo_queued b) /\
    exists x, is_frame demo_build false 0 128 (demo_queued b) x).
  { intros b Hb. split; [|exists (demo_frame b); by apply demo_queued_frame].
    unfold not_stale. assert (sdio_get_cmd_info (pkt_data (demo_queued b)) = None) as ->; [|done].
    unfold sdio_get_cmd_info. destruct (is_frame_spec demo_build false 0 128 _ _ (demo_queued_frame b Hb)) as (_ & _ & _ & _ & _).
    pose proof (hosted_frame_received false 0 128 zero_header (replicate 300 b) [] ltac:(done) ltac:(done)) as (_ & _ & Hp & _).
    rewrite app_nil_r in Hp. unfold demo_queued, wire, demo_frame. cbn [pkt_data fst snd]. rewrite Hp.
    by destruct (_ <? _). }
  destruct (h2e_end_to_end demo_log (fun n => n) demo_arr (fun _ _ _ => 0) demo_build FwPath.demo_env false 0 128 4 0 demo_send)
    as (ret' & s' & seen & ps & xs & E & _ & Q & X & Hs).
  { intros n. unfold demo_arr. destruct (n =? 1)%nat; [|done]. constructor; [by apply Hg|done]. }
  { intros [|[|[|k]]]; [by constructor..| |by constructor]. constructor; [by apply Hg|by constructor]. }
  { constructor; [done|by vm_compute|]. intros [|[|[|k]]]; [by constructor..| |by constructor].
    constructor; [by vm_compute|by constructor]. }
  { constructor; vm_compute; reflexivity. } { by vm_compute. } { by vm_compute. } { by vm_compute. } { intros _; reflexivity. }
  { vm_compute. lia. } { intros; reflexivity. }
  assert (E' : demo_round = Some (ret', s')) by (unfold demo_round; exact E). clear E Q X.
  assert (El : hw (tr s') = [demo_data]).
  { assert (Hd : option_map (fun r => hw (tr r.2)) demo_round = Some [demo_data]) by (clear; vm_compute; reflexivity).
    rewrite E' in Hd. by injection Hd. }
  destruct Hs as [(_ & Hh & _)|(n & Hh & Hp)]; [exfalso; rewrite El in Hh; discriminate Hh|].
  split; [|by exists ret', s']. rewrite El in Hh. cbn [sdio_memcpy_toio demo_log snd] in Hh. injection Hh as Hd.
  rewrite Hd. eexists. split; [apply Hp|].
  rewrite <- Hp, <- Hd. clear. vm_compute. reflexivity.
Defined.
