(* ===== verification/PrioQueue.v ===== *)
(** * PrioQueue: three queues by priority

    Every transport queues frames in [MAX_PRIORITY_QUEUES] queues and serves them
    strictly by priority, first come first served inside one.  The SPI transport
    uses the same three-way choice at both ends ([esp_spi_work], [read_packet];
    [get_next_tx_buffer], [esp_spi_read]). *)
From S2P Require Import Prelude Wire.

Inductive prio := PRIO_Q_HIGH | PRIO_Q_MID | PRIO_Q_LOW.
#[export] Instance prio_eq_dec : EqDecision prio.
Proof. solve_decision. Defined.

Definition prio_rank (p : prio) : Z :=
  match p with PRIO_Q_HIGH => 0 | PRIO_Q_MID => 1 | PRIO_Q_LOW => 2 end.

(** The queue of an interface type. *)
Definition if_prio (t : Z) : prio :=
  if t =? if_code ESP_INTERNAL_IF then PRIO_Q_HIGH
  else if (t =? if_code ESP_HCI_IF) || (t =? if_code ESP_RCP_IF) then PRIO_Q_MID else PRIO_Q_LOW.

Record prioq (A : Type) := mk_prioq { q_high : list A; q_mid : list A; q_low : list A }.
Arguments mk_prioq {A}.
Arguments q_high {A}.
Arguments q_mid {A}.
Arguments q_low {A}.

Section PrioQueue.
Context {A : Type}.
Implicit Types (q : prioq A) (p : prio) (x : A).

Definition q_empty : prioq A := mk_prioq [] [] [].
Definition q_at p q : list A :=
  match p with PRIO_Q_HIGH => q_high q | PRIO_Q_MID => q_mid q | PRIO_Q_LOW => q_low q end.
Definition q_push p x q : prioq A :=
  match p with
  | PRIO_Q_HIGH => mk_prioq (q_high q ++ [x]) (q_mid q) (q_low q)
  | PRIO_Q_MID => mk_prioq (q_high q) (q_mid q ++ [x]) (q_low q)
  | PRIO_Q_LOW => mk_prioq (q_high q) (q_mid q) (q_low q ++ [x])
  end.

(** The highest non-empty queue loses its first element. *)
Definition q_pop q : option (A * prioq A) :=
  match q_high q, q_mid q, q_low q with
  | x :: l, _, _ => Some (x, mk_prioq l (q_mid q) (q_low q))
  | [], x :: l, _ => Some (x, mk_prioq [] l (q_low q))
  | [], [], x :: l => Some (x, mk_prioq [] [] l)
  | [], [], [] => None
  end.

Definition q_all q : list A := q_high q ++ q_mid q ++ q_low q.
Definition q_filter (f : A -> bool) q : prioq A :=
  mk_prioq (List.filter f (q_high q)) (List.filter f (q_mid q)) (List.filter f (q_low q)).
Definition q_is_empty q : bool := match q_pop q with None => true | Some _ => false end.

Lemma q_at_push p p' x q : q_at p (q_push p' x q) = q_at p q ++ (if decide (p = p') then [x] else []).
Proof. by destruct p, p'; cbn; rewrite ?app_nil_r. Qed.

Lemma q_at_empty p : q_at p q_empty = [].
Proof. by destruct p. Qed.

(** Popping takes the head of one queue, all queues above it being empty. *)
Lemma q_pop_some q x q' :
  q_pop q = Some (x, q') ->
  exists p, q_at p q = x :: q_at p q' /\ (forall p', p' <> p -> q_at p' q' = q_at p' q) /\
    (forall p', prio_rank p' < prio_rank p -> q_at p' q = []).
Proof.
  destruct q as [[|h hs] [|m ms] [|l ls]]; cbn; intros [= <- <-].
  4-7: exists PRIO_Q_HIGH.
  2-3: exists PRIO_Q_MID.
  1: exists PRIO_Q_LOW.
  all: split; [done|]; split; [intros []; done|intros []; done || (cbn; lia)].
Qed.

Lemma q_pop_none q : q_pop q = None <-> q = q_empty.
Proof. by destruct q as [[|h hs] [|m ms] [|l ls]]; cbn. Qed.

Lemma q_is_empty_iff q : q_is_empty q = true <-> q = q_empty.
Proof. unfold q_is_empty. rewrite <- q_pop_none. by destruct (q_pop q). Qed.

Lemma q_pop_all q x q' : q_pop q = Some (x, q') -> q_all q = x :: q_all q'.
Proof. by destruct q as [[|h hs] [|m ms] [|l ls]]; cbn; intros [= <- <-]. Qed.

Lemma q_push_all p x q : Permutation (q_all (q_push p x q)) (x :: q_all q).
Proof. destruct q as [h m l], p; unfold q_all; cbn; solve_Permutation. Qed.

Lemma q_push_length p x q : zlen (q_all (q_push p x q)) = zlen (q_all q) + 1.
Proof. unfold zlen. rewrite q_push_all. cbn [length]. lia. Qed.

Lemma q_pop_length q x q' : q_pop q = Some (x, q') -> zlen (q_all q) = zlen (q_all q') + 1.
Proof. intros ->%q_pop_all. rewrite zlen_cons. lia. Qed.

Lemma q_all_filter f q : q_all (q_filter f q) = List.filter f (q_all q).
Proof. unfold q_all. cbn. by rewrite !List.filter_app. Qed.

Lemma q_at_filter f p q : q_at p (q_filter f q) = List.filter f (q_at p q).
Proof. by destruct p. Qed.

Lemma filter_sublist (f : A -> bool) (l : list A) : sublist (List.filter f l) l.
Proof. induction l as [|x l IH]; cbn; [constructor|]. destruct (f x); by constructor. Qed.

Lemma q_forall (P : A -> Prop) q : Forall P (q_all q) <-> forall p, Forall P (q_at p q).
Proof.
  unfold q_all. rewrite !Forall_app. split; [by intros (?&?&?) []|].
  intros Hq. split_and!; [apply (Hq PRIO_Q_HIGH)|apply (Hq PRIO_Q_MID)|apply (Hq PRIO_Q_LOW)].
Qed.

End PrioQueue.
