(* ===== verification/SpiHost.v ===== *)
(** * SpiHost: the host's SPI transport, its control side

    [host/spi/esp_spi.c]: the driver's state, the data path's gate and its kick,
    the reboot budget of an incarnation with the boot-rescue token,
    [quiesce]/[reinit]/[commit], the traffic flush, the reset line, the request of
    a reset and [recover_transport], down to the operation table [spi_ops].  The
    transactions are in [SpiData], the bootstrap exchange in [SpiBoot].

    The controller, the two GPIO inputs, the reset line, the allocator and the
    clock are the parameter [spi_bus].  The two workers run on one ordered
    workqueue, so neither runs while the other does; a queued work item is a
    flag. *)
From S2P Require Import Prelude Wire Adapter Recovery CmdQueue PrioQueue.

Definition SPI_BUF_SIZE : Z := 1600.
Definition NUMBER_1M : Z := 1000000.
Definition SPI_INITIAL_CLK_MHZ : Z := 10.
Definition SPI_BOOTSTRAP_CLK_MHZ : Z := 1.
Definition SPI_MAX_CLK_MHZ : Z := 40.
Definition SPI_REBOOT_ACK_TIMEOUT_MS : Z := 2000.
Definition TX_MAX_PENDING_COUNT : Z := 100.
Definition TX_RESUME_THRESHOLD : Z := TX_MAX_PENDING_COUNT / 5.

(** ** The SPI controller and the GPIOs

    A GPIO read is [gpiod_get_value_cansleep], negative for an error; a transfer
    takes the clock and the MOSI bytes and gives the result and the MISO bytes;
    [bus_late] is how many ticks a sleep took beyond those asked for. *)
Record spi_bus (H : Type) := mk_spi_bus {
  get_handshake : H -> Z * H;
  get_data_ready : H -> Z * H;
  spi_sync_transfer : Z -> list Z -> H -> (Z * list Z) * H;
  reset_direction_output : H -> Z * H;
  reset_set_value : bool -> H -> H;
  bus_late : H -> nat * H;
  bus_alloc : H -> bool * H
}.
Arguments mk_spi_bus {H}.
Arguments get_handshake {H}.
Arguments get_data_ready {H}.
Arguments spi_sync_transfer {H}.
Arguments reset_direction_output {H}.
Arguments reset_set_value {H}.
Arguments bus_late {H}.
Arguments bus_alloc {H}.

(** ** State: [struct esp_spi_context] and the file's statics *)

(** A queued skb: its bytes, and whether [cb->priv] names the network device. *)
Record tx_skb := mk_skb { skb_data : list Z; cb_priv : bool }.

Record spi (H : Type) := mk_spi {
  bus : H;
  spi_adapter : bool;              (* [spi_context.adapter] is the adapter *)
  esp_spi_dev : bool;
  handshake_gpio : bool;
  data_ready_gpio : bool;
  reset_gpio : bool;
  reset_gpio_driven : bool;
  tx_q : prioq tx_skb;
  rx_q : prioq (list Z);
  tx_pending : Z;
  data_path : bool;
  spi_workqueue : bool;
  spi_work : bool;                 (* queued *)
  reset_work : bool;               (* queued *)
  if_rx_work : bool;               (* [adapter->if_rx_work] is queued *)
  spi_resetting : bool;            (* ESP_SPI_RESETTING *)
  spi_max_hz : Z;
  requested_clk_mhz : Z;
  spi_clk_mhz : Z;
  max_speed_hz : Z;                (* [esp_spi_dev->max_speed_hz] *)
  spi_soft_reboot_attempts : Z;
  spi_reboot_budget_epoch : Z;
  spi_boot_rescue_pending : bool;
  spi_reboot_cmd_seq : Z;          (* atomic_t *)
  queue_paused : bool;             (* the device's queue is stopped *)
  cmds : cmdq
}.
Arguments mk_spi {H}.
Arguments bus {H}.
Arguments spi_adapter {H}.
Arguments esp_spi_dev {H}.
Arguments handshake_gpio {H}.
Arguments data_ready_gpio {H}.
Arguments reset_gpio {H}.
Arguments reset_gpio_driven {H}.
Arguments tx_q {H}.
Arguments rx_q {H}.
Arguments tx_pending {H}.
Arguments data_path {H}.
Arguments spi_workqueue {H}.
Arguments spi_work {H}.
Arguments reset_work {H}.
Arguments if_rx_work {H}.
Arguments spi_resetting {H}.
Arguments spi_max_hz {H}.
Arguments requested_clk_mhz {H}.
Arguments spi_clk_mhz {H}.
Arguments max_speed_hz {H}.
Arguments spi_soft_reboot_attempts {H}.
Arguments spi_reboot_budget_epoch {H}.
Arguments spi_boot_rescue_pending {H}.
Arguments spi_reboot_cmd_seq {H}.
Arguments queue_paused {H}.
Arguments cmds {H}.

#[export] Instance eta_spi {H} : Eta (spi H) := fun d =>
  mk_spi (bus d) (spi_adapter d) (esp_spi_dev d) (handshake_gpio d) (data_ready_gpio d) (reset_gpio d)
    (reset_gpio_driven d) (tx_q d) (rx_q d) (tx_pending d) (data_path d) (spi_workqueue d) (spi_work d)
    (reset_work d) (if_rx_work d) (spi_resetting d) (spi_max_hz d) (requested_clk_mhz d) (spi_clk_mhz d)
    (max_speed_hz d) (spi_soft_reboot_attempts d) (spi_reboot_budget_epoch d) (spi_boot_rescue_pending d)
    (spi_reboot_cmd_seq d) (queue_paused d) (cmds d).

Section Spi.
Context {H : Type} (B : spi_bus H) (m2j : Z -> Z).
Implicit Types (s : sys (spi H)) (d : spi H) (a : esp_adapter).

Notation st := (sys (spi H)).

Definition on_bus {A} (f : H -> A * H) s : A * st :=
  let '(x, h) := f (bus (tr s)) in (x, on_tr (fun d => d <| bus := h |>) s).
Definition on_bus_ (f : H -> H) s : st := on_tr (fun d => d <| bus := f (bus d) |>) s.

(** A sleep lasts at least [n] ticks. *)
Definition pass_time (n : Z) s : st :=
  let '(k, s) := on_bus (bus_late B) s in s <| jiffies := u64 (jiffies s + n + Z.of_nat k) |>.
Definition msleep (ms : Z) s : st := pass_time (m2j ms + 1) s.

(** The result and the level. *)
Definition esp_spi_gpio_asserted (gpio : bool) (read : H -> Z * H) s : (Z * bool) * st :=
  if negb gpio then ((- EINVAL, false), s)
  else
    let '(value, s) := on_bus read s in
    if value <? 0 then ((value, false), s) else ((0, negb (value =? 0)), s).

Definition read_handshake s : (Z * bool) * st :=
  esp_spi_gpio_asserted (handshake_gpio (tr s)) (get_handshake B) s.
Definition read_data_ready s : (Z * bool) * st :=
  esp_spi_gpio_asserted (data_ready_gpio (tr s)) (get_data_ready B) s.

(** ** The data path's gate *)
Definition spi_accepting_work s : bool :=
  let a := ad s in let d := tr s in
  data_path d && spi_adapter d && negb (spi_resetting d) && negb (flag ESP_TRANSPORT_REMOVING a)
  && (negb (flag ESP_CLEANUP_IN_PROGRESS a) || flag ESP_ALLOW_RECONSTRUCT a).

(** Also the two interrupt handlers, and the kicks of [write_packet]. *)
Definition esp_spi_kick s : st :=
  if spi_accepting_work s && spi_workqueue (tr s) then on_tr (fun d => d <| spi_work := true |>) s else s.

Definition esp_process_new_packet_intr s : st :=
  if rx_stopped (ad s) then s else on_tr (fun d => d <| if_rx_work := true |>) s.

(** The table without [reset_target]: SPI has no [note_fw_reset], and its
    [generate_slave_intr] does nothing. *)
Definition generate_slave_intr_spi (data : Z) s : Z * st := (0, s).
Definition note_ops : esp_if_ops (spi H) := mk_if_ops None None None None None generate_slave_intr_spi.

Definition schedule_fw_reset s : st := esp_schedule_fw_reset_recovery note_ops m2j s.

Definition esp_spi_pause_for_transport_recovery s : st :=
  esp_schedule_transport_recovery note_ops m2j (on_tr (fun d => d <| data_path := false |>) s).

Definition has_tx d : bool := negb (q_is_empty (tx_q d)).

Definition above_rx_ready a : bool := context_code ESP_CONTEXT_READY <=? context_code (state a).

Definition esp_spi_requeue_if_pending s : st :=
  if negb (spi_accepting_work s) || negb (spi_workqueue (tr s)) then s
  else
    let '((ret, handshake), s) := read_handshake s in
    if negb (ret =? 0) then esp_spi_pause_for_transport_recovery s else
    let '((ret, data_ready), s) := read_data_ready s in
    if negb (ret =? 0) then esp_spi_pause_for_transport_recovery s else
    if negb handshake then s
    else
      let tx := above_rx_ready (ad s) && has_tx (tr s) in
      if data_ready || tx then on_tr (fun d => d <| spi_work := true |>) s else s.

(** [atomic_set(&tx_pending, 0); msleep(200); data_path = OPEN_DATAPATH]. *)
Definition open_data_path s : st :=
  let s := on_tr (fun d => d <| tx_pending := 0 |>) s in
  let s := msleep 200 s in
  esp_spi_kick (on_tr (fun d => d <| data_path := true |>) s).

(** ** Queues *)
Definition tx_pending_dec d : spi H :=
  if 0 <? tx_pending d then d <| tx_pending := tx_pending d - 1 |> else d.

Definition spi_get_cmd_info (b : list Z) : option (Z * Z) :=
  if zlen b <? sizeof_header then None
  else
    let h := decode_header b in
    if negb (packet_type h =? pkt_code PACKET_TYPE_COMMAND_REQUEST) then None
    else if zlen b <? offset h + sizeof_command_header then None
    else let c := zdrop (offset h) b in Some (hdr_code c, hdr_seq c).

Definition spi_is_stateful_packet (b : list Z) : bool :=
  negb (zlen b <? sizeof_header)
  && ((if_type (decode_header b) =? if_code ESP_HCI_IF) || (if_type (decode_header b) =? if_code ESP_RCP_IF)).

Definition fail_cmd (cmd : option (Z * Z)) (error : Z) d : spi H :=
  match cmd with
  | Some (code, seq) => d <| cmds := esp_cmd_transport_failed code seq error (cmds d) |>
  | None => d
  end.

Definition purge_skb d (x : tx_skb) : spi H :=
  tx_pending_dec (if spi_adapter d then fail_cmd (spi_get_cmd_info (skb_data x)) (- EIO) d else d).

Definition esp_spi_purge_queues d : spi H :=
  foldl purge_skb d (q_all (tx_q d)) <| tx_q := q_empty |> <| rx_q := q_empty |> <| tx_pending := 0 |>.

(** One interface's frames leave the queues.  [cancel_work_sync] of [spi_work]
    comes between the two directions. *)
Definition is_if (t : Z) (b : list Z) : bool := negb (zlen b <? sizeof_header) && (if_type (decode_header b) =? t).

Definition flush_tx (t : Z) d : spi H :=
  let gone := List.filter (fun x => is_if t (skb_data x)) (q_all (tx_q d)) in
  foldl (fun d _ => tx_pending_dec d) d gone <| tx_q := q_filter (fun x => negb (is_if t (skb_data x))) (tx_q d) |>.
Definition flush_rx (t : Z) d : spi H := d <| rx_q := q_filter (fun b => negb (is_if t b)) (rx_q d) |>.

Definition cancel_spi_work d : spi H := if spi_workqueue d then d <| spi_work := false |> else d.

Definition esp_spi_flush_if_traffic (t : Z) s : st :=
  let s := on_tr (fun d => flush_rx t (cancel_spi_work (flush_tx t d))) s in
  if spi_accepting_work s then
    let '((ret, data_ready), s) := read_data_ready s in
    if negb (ret =? 0) then esp_spi_pause_for_transport_recovery s
    else if data_ready || has_tx (tr s) then esp_spi_kick s else s
  else s.

Definition esp_spi_flush_bt_traffic s : st := esp_spi_flush_if_traffic ESP_HCI_IF s.
Definition esp_spi_flush_rcp_traffic s : st := esp_spi_flush_if_traffic ESP_RCP_IF s.

(** ** The reboot budget of an incarnation

    Regions under [spi_reboot_budget_lock]. *)
Definition esp_spi_reboot_budget_sync_locked a d : spi H :=
  if spi_reboot_budget_epoch d =? fw_boot_commit_epoch a then d
  else d <| spi_reboot_budget_epoch := fw_boot_commit_epoch a |> <| spi_soft_reboot_attempts := 0 |>.

Definition esp_spi_commit_fw_recovery s : st :=
  on_tr (fun d => esp_spi_reboot_budget_sync_locked (ad s) d <| spi_boot_rescue_pending := false |>) s.

Definition esp_spi_claim_boot_rescue d : bool * spi H :=
  (spi_boot_rescue_pending d, d <| spi_boot_rescue_pending := false |>).
Definition esp_spi_arm_boot_rescue d : spi H := d <| spi_boot_rescue_pending := true |>.
Definition esp_spi_retire_boot_rescue d : spi H := d <| spi_boot_rescue_pending := false |>.

Definition esp_spi_reset_binding_budget a d : spi H :=
  d <| spi_reboot_budget_epoch := if spi_adapter d then fw_boot_commit_epoch a else 0 |>
    <| spi_soft_reboot_attempts := 0 |> <| spi_boot_rescue_pending := false |>.

(** The claim of a reset: a result to return at once, or whether it is a software
    reboot and the epoch it is charged to. *)
Definition claim_spi_reset a d : (Z + bool * Z) * spi H :=
  let d := esp_spi_reboot_budget_sync_locked a d in
  if spi_resetting d then (inl 0, d)
  else
    let software := negb (reset_gpio d) in
    if software && (ESP_FW_BOOT_MAX_ATTEMPTS <=? spi_soft_reboot_attempts d) then (inl (- EHOSTUNREACH), d)
    else
      let d := d <| spi_resetting := true |> in
      (inr (software, spi_reboot_budget_epoch d),
       if software then d <| spi_soft_reboot_attempts := spi_soft_reboot_attempts d + 1 |> else d).

(** Nothing was queued: the attempt is given back, to its own epoch only. *)
Definition rollback_spi_reset (software : bool) (epoch : Z) d : spi H :=
  let d := d <| spi_resetting := false |> in
  if software && (spi_reboot_budget_epoch d =? epoch) && (0 <? spi_soft_reboot_attempts d)
  then d <| spi_soft_reboot_attempts := spi_soft_reboot_attempts d - 1 |> else d.

Definition esp_spi_reset_target s : Z * st :=
  if negb (spi_adapter (tr s)) then (- EINVAL, s)
  else if unloading_or_removing (ad s) then (- ESHUTDOWN, s)
  else if negb (spi_workqueue (tr s)) then (- ENODEV, s)
  else
    let '(claim, d) := claim_spi_reset (ad s) (tr s) in
    let s := on_tr (fun _ => d) s in
    match claim with
    | inl ret => (ret, s)
    | inr (software, epoch) =>
        let s := on_tr (fun d => d <| data_path := false |>) s in
        let s := if context_code ESP_CONTEXT_RX_READY <? context_code (state (ad s))
                 then on_ad (fun a => a <| state := ESP_CONTEXT_RX_READY |>) s else s in
        if reset_work (tr s) then (- EBUSY, on_tr (rollback_spi_reset software epoch) s)
        else (0, on_tr (fun d => d <| reset_work := true |>) s)
    end.

Definition reset_ops : esp_if_ops (spi H) :=
  mk_if_ops (Some esp_spi_reset_target) None None None None generate_slave_intr_spi.
Definition request_restart s : st := esp_request_firmware_restart reset_ops m2j s.
Definition restart_fw s : st := request_restart (schedule_fw_reset s).

(** ** Operations of the table *)
Definition esp_spi_quiesce_for_fw_reset s : Z * st :=
  if negb (spi_adapter (tr s)) then (- EINVAL, s)
  else if spi_resetting (tr s) then (- EAGAIN, s)
  else
    let s := on_tr (fun d => d <| data_path := false |>) s in
    let s := on_ad (fun a => a <| state := ESP_CONTEXT_DISABLED |>) s in
    (0, on_tr (fun d => esp_spi_purge_queues (cancel_spi_work d) <| if_rx_work := false |>) s).

Definition set_ready s : st := on_ad (fun a => a <| state := ESP_CONTEXT_READY |>) s.

Definition esp_spi_reinit_after_fw_reset s : Z * st :=
  if negb (spi_adapter (tr s)) then (- EINVAL, s) else (0, set_ready (open_data_path s)).

(** Poll what the firmware may already have published. *)
Definition open_and_poll s : st := esp_process_new_packet_intr (esp_spi_kick (open_data_path s)).

Definition esp_spi_recover_transport s : Z * st :=
  if negb (spi_adapter (tr s)) then (- EINVAL, s)
  else if unloading_or_removing (ad s) then (- ESHUTDOWN, s)
  else if spi_resetting (tr s) then (- EAGAIN, s)
  else if flag ESP_FW_RESTART_NEEDED (ad s) then
    let '(ret, s) := esp_spi_reset_target s in
    if negb (ret =? 0) then (ret, s) else (- EAGAIN, s)
  else
    let s := on_ad (fun a => a <| state := ESP_CONTEXT_RX_READY |>) s in
    let s := on_tr cancel_spi_work s in
    if flag ESP_FW_RESET_EXPECTED (ad s) then (0, open_and_poll (on_tr esp_spi_purge_queues s))
    else if flag ESP_INIT_DONE (ad s) then
      let s := set_ready (on_tr (fun d => d <| data_path := true |>) s) in
      (1, esp_process_new_packet_intr (esp_spi_kick s))
    else (0, open_and_poll s).

Definition spi_ops : esp_if_ops (spi H) :=
  mk_if_ops (Some esp_spi_reset_target) (Some esp_spi_recover_transport) None None
    (Some esp_spi_commit_fw_recovery) generate_slave_intr_spi.

(** ** Clock and reset line *)
Definition esp_spi_restore_startup_clock d : spi H :=
  let d := d <| spi_clk_mhz := SPI_BOOTSTRAP_CLK_MHZ |> in
  let max_mhz := spi_max_hz d / NUMBER_1M in
  let d := if negb (max_mhz =? 0) && (max_mhz <? spi_clk_mhz d)
           then d <| spi_clk_mhz := u8 (Z.min max_mhz 255) |> else d in
  if esp_spi_dev d then d <| max_speed_hz := u32 (spi_clk_mhz d * NUMBER_1M) |> else d.

Definition adjust_spi_clock (clk : Z) d : spi H :=
  if (clk =? 0) || negb (esp_spi_dev d) then d
  else
    let max_mhz := spi_max_hz d / NUMBER_1M in
    let clk := if negb (max_mhz =? 0) && (max_mhz <? clk) then u8 (Z.min max_mhz 255) else clk in
    if clk =? spi_clk_mhz d then d
    else d <| spi_clk_mhz := clk |> <| max_speed_hz := u32 (clk * NUMBER_1M) |>.

Definition esp_adjust_spi_clock (clk : Z) d : Z * spi H :=
  if negb (spi_adapter d) then (- EINVAL, d)
  else
    let clk := if clk =? 0 then
                 if negb (requested_clk_mhz d =? 0) then requested_clk_mhz d else SPI_INITIAL_CLK_MHZ
               else clk in
    (0, adjust_spi_clock clk d).

(** [usleep_range(200, 500)] is less than a tick. *)
Definition esp_spi_hw_reset s : Z * st :=
  if negb (spi_adapter (tr s)) then (- EINVAL, s)
  else if unloading_or_removing (ad s) then (- ESHUTDOWN, s)
  else if negb (reset_gpio (tr s)) then (- ENODEV, s)
  else
    let '(ret, s) := on_bus (reset_direction_output B) s in
    if negb (ret =? 0) then (ret, s)
    else
      let s := on_tr (fun d => d <| reset_gpio_driven := true |>) s in
      let s := on_bus_ (reset_set_value B true) s in
      let s := pass_time 0 s in
      let s := on_bus_ (reset_set_value B false) s in
      let s := msleep 500 s in
      (0, on_tr esp_spi_restore_startup_clock s).

(** [esp_init_interface_layer] clears [spi_context], not the file's statics, and
    [spi_init] sets up the queues and registers the driver: [registered] is the
    result of [spi_register_driver]. *)
Definition spi_init (wq_ok : bool) (registered : Z) d : Z * spi H :=
  if negb wq_ok then (- ENOMEM, d)
  else
    let d := d <| spi_workqueue := true |> <| spi_work := false |> <| reset_work := false |>
               <| spi_soft_reboot_attempts := 0 |> <| tx_q := q_empty |> <| rx_q := q_empty |> in
    if negb (registered =? 0) then (registered, d <| spi_workqueue := false |>) else (0, d).

Definition clear_context d : spi H :=
  mk_spi (bus d) false false false false false false q_empty q_empty (tx_pending d) (data_path d) false false false
    (if_rx_work d) false 0 0 0 (max_speed_hz d) (spi_soft_reboot_attempts d) (spi_reboot_budget_epoch d)
    (spi_boot_rescue_pending d) (spi_reboot_cmd_seq d) (queue_paused d) (cmds d).

Definition esp_init_interface_layer (speed : Z) (wq_ok : bool) (registered : Z) s : Z * st :=
  let speed := Z.min speed SPI_MAX_CLK_MHZ in
  let s := on_ad (fun a => a <| if_context := true |> <| if_transport := ESP_IF_TYPE_SPI |>) s in
  let d := clear_context (tr s) <| spi_adapter := true |> <| requested_clk_mhz := speed |>
             <| spi_clk_mhz := if speed =? 0 then SPI_INITIAL_CLK_MHZ else speed |> in
  let '(ret, d) := spi_init wq_ok registered d in
  (ret, on_tr (fun _ => d) s).

(** [spi_unregister_driver] removes a bound device first. *)
Definition spi_exit d : spi H :=
  let d := d <| data_path := false |> in
  let d := if spi_workqueue d
           then esp_spi_purge_queues (d <| reset_work := false |> <| spi_work := false |>) <| spi_workqueue := false |>
           else d in
  clear_context d.

(** ** The recovery state these functions leave alone *)
Lemma on_bus_core {A} (f : H -> A * H) s : same_core s (on_bus f s).2.
Proof. unfold on_bus. destruct (f (bus (tr s))). apply on_tr_core. Qed.

Lemma spi_pass_time_core n s : same_core s (pass_time n s).
Proof.
  unfold pass_time. pose proof (on_bus_core (bus_late B) s) as Hc. destruct (on_bus _ s) as [k s1]. cbn in Hc.
  etrans; [exact Hc|]. by constructor.
Qed.
Lemma spi_msleep_core ms s : same_core s (msleep ms s).
Proof. apply spi_pass_time_core. Qed.
#[local] Hint Resolve on_bus_core spi_pass_time_core spi_msleep_core : recovery_core.

Lemma kick_core s : same_core s (esp_spi_kick s).
Proof. unfold esp_spi_kick. core_back. Qed.
Lemma intr_core s : same_core s (esp_process_new_packet_intr s).
Proof. unfold esp_process_new_packet_intr. core_back. Qed.
#[local] Hint Resolve kick_core intr_core : recovery_core.

Lemma open_data_path_core s : same_core s (open_data_path s).
Proof. unfold open_data_path. core_back. Qed.
#[local] Hint Resolve open_data_path_core : recovery_core.

Lemma spi_open_and_poll_core s : same_core s (open_and_poll s).
Proof. unfold open_and_poll. core_back. Qed.

Lemma set_ready_core s : same_core s (set_ready s).
Proof. apply on_ad_state_core. Qed.

Lemma reset_target_core s : same_core s (esp_spi_reset_target s).2.
Proof.
  unfold esp_spi_reset_target. do 3 (case_match; [done|]). destruct (claim_spi_reset _ _) as [[ret|[sw ep]] d]; cbn [snd]; core_run.
Qed.
#[local] Hint Resolve spi_open_and_poll_core set_ready_core reset_target_core : recovery_core.

Lemma recover_transport_core s : same_core s (esp_spi_recover_transport s).2.
Proof. unfold esp_spi_recover_transport. core_run. Qed.

#[export] Instance spi_note_law : NoteLaw note_ops.
Proof. by intros f s. Qed.

#[export] Instance spi_reset_laws : ResetLaws reset_ops.
Proof.
  split.
  - by intros f s.
  - intros f s [= <-]. apply (asks_mono 0); [done|]. apply asks_core, reset_target_core.
  - done.
Qed.

Lemma sync_frame a d :
  let d1 := esp_spi_reboot_budget_sync_locked a d in
  spi_reboot_budget_epoch d1 = fw_boot_commit_epoch a /\
  spi_soft_reboot_attempts d1 =
    (if spi_reboot_budget_epoch d =? fw_boot_commit_epoch a then spi_soft_reboot_attempts d else 0) /\
  spi_resetting d1 = spi_resetting d /\ reset_gpio d1 = reset_gpio d /\ reset_work d1 = reset_work d.
Proof. unfold esp_spi_reboot_budget_sync_locked. case_match; bool_hyps; done. Qed.

(** Asking for a reset, by cases: refused at the door, already under way, out of
    budget, or claimed. *)
Lemma reset_target_cases s :
  let d1 := esp_spi_reboot_budget_sync_locked (ad s) (tr s) in
  let '(ret, s') := esp_spi_reset_target s in
  (s' = s /\ ret < 0 /\ ret <> - EHOSTUNREACH) \/
  (spi_resetting (tr s) = true /\ s' = on_tr (fun _ => d1) s /\ ret = 0) \/
  (spi_resetting (tr s) = false /\ reset_gpio (tr s) = false /\
   ESP_FW_BOOT_MAX_ATTEMPTS <= spi_soft_reboot_attempts d1 /\ s' = on_tr (fun _ => d1) s /\
   ret = - EHOSTUNREACH) \/
  (spi_resetting (tr s) = false /\
   (reset_gpio (tr s) = false -> spi_soft_reboot_attempts d1 < ESP_FW_BOOT_MAX_ATTEMPTS) /\
   if reset_work (tr s) then ret = - EBUSY
   else ret = 0 /\ reset_work (tr s') = true /\ spi_resetting (tr s') = true /\ data_path (tr s') = false /\
     reset_gpio (tr s') = reset_gpio (tr s) /\ fw_boot_commit_epoch (ad s') = fw_boot_commit_epoch (ad s) /\
     spi_reboot_budget_epoch (tr s') = fw_boot_commit_epoch (ad s) /\
     spi_soft_reboot_attempts (tr s') =
       spi_soft_reboot_attempts d1 + (if reset_gpio (tr s) then 0 else 1)).
Proof.
  cbn zeta. unfold esp_spi_reset_target, claim_spi_reset.
  pose proof (sync_frame (ad s) (tr s)) as Hf. cbv zeta in Hf. destruct Hf as (E1 & E2 & E3 & E4 & E5).
  set (d1 := esp_spi_reboot_budget_sync_locked (ad s) (tr s)) in *. clearbody d1.
  destruct (negb (spi_adapter _)); [by left|]. destruct (unloading_or_removing _); [by left|].
  destruct (negb (spi_workqueue _)); [by left|]. rewrite E3, E4.
  destruct (spi_resetting (tr s)); [by right; left|].
  destruct (reset_gpio (tr s)) eqn:Eg; cbn [negb andb].
  2: destruct (ESP_FW_BOOT_MAX_ATTEMPTS <=? spi_soft_reboot_attempts d1) eqn:Em; bool_hyps; [by right; right; left|].
  all: cbv zeta; set (s1 := if context_code ESP_CONTEXT_RX_READY <? _ then _ else _).
  all: assert (Hs1 : fw_boot_commit_epoch (ad s1) = fw_boot_commit_epoch (ad s) /\ data_path (tr s1) = false /\
    reset_work (tr s1) = reset_work (tr s) /\ spi_resetting (tr s1) = true /\ reset_gpio (tr s1) = reset_gpio (tr s) /\
    spi_reboot_budget_epoch (tr s1) = fw_boot_commit_epoch (ad s) /\
    spi_soft_reboot_attempts (tr s1) = spi_soft_reboot_attempts d1 + (if reset_gpio (tr s) then 0 else 1))
    by (subst s1; rewrite Eg; destruct (_ <? _); cbn; rewrite ?Z.add_0_r; split_and!; congruence).
  all: clearbody s1; destruct Hs1 as (F1 & F2 & F3 & F4 & F5 & F6 & F7); rewrite Eg in F5, F7; rewrite F3.
  all: destruct (reset_work (tr s)); cbn; right; right; right; (split; [done|]; split; [done|]); try done.
  all: cbn; split_and!; congruence.
Qed.
(** ** Software reboots under interleaving

    The budget's statics are touched only under their lock; between these regions
    the reset worker, the commit of a new incarnation and its late callback, and a
    new binding run in any order.  A request that was queued carries whether it
    was a software reboot. *)
Notation epoch s := (fw_boot_commit_epoch (ad s)).

Inductive sevent :=
  | SE_target (ret : Z) (queued software : bool) | SE_start | SE_done | SE_epoch | SE_commit | SE_bind | SE_env.

Definition newly_queued s s' : bool := reset_work (tr s') && negb (reset_work (tr s)).

Inductive sstep : st -> sevent -> st -> Prop :=
  | ss_target s ret s' : esp_spi_reset_target s = (ret, s') ->
      sstep s (SE_target ret (newly_queued s s') (negb (reset_gpio (tr s)))) s'
  | ss_start s : reset_work (tr s) = true -> sstep s SE_start (on_tr (fun d => d <| reset_work := false |>) s)
  | ss_done s : reset_work (tr s) = false -> spi_resetting (tr s) = true ->
      sstep s SE_done (on_tr (fun d => d <| spi_resetting := false |>) s)
  | ss_epoch s s' : tr s' = tr s -> epoch s' = u32 (epoch s + 1) -> sstep s SE_epoch s'
  | ss_commit s : sstep s SE_commit (esp_spi_commit_fw_recovery s)
  | ss_bind s : spi_adapter (tr s) = true ->
      sstep s SE_bind (on_tr (fun d => esp_spi_arm_boot_rescue (esp_spi_reset_binding_budget (ad s) d)) s)
  | ss_env s s' : epoch s' = epoch s -> spi_reboot_budget_epoch (tr s') = spi_reboot_budget_epoch (tr s) ->
      spi_soft_reboot_attempts (tr s') = spi_soft_reboot_attempts (tr s) ->
      spi_resetting (tr s') = spi_resetting (tr s) -> reset_work (tr s') = reset_work (tr s) ->
      sstep s SE_env s'.

(** Events are listed newest first. *)
Inductive srun (s0 : st) : list sevent -> st -> Prop :=
  | srun_nil : srun s0 [] s0
  | srun_step es s e s' : srun s0 es s -> sstep s e s' -> srun s0 (e :: es) s'.

(** Software reboots queued for the running incarnation. *)
Fixpoint reboots (es : list sevent) : Z :=
  match es with
  | [] | SE_epoch :: _ | SE_bind :: _ => 0
  | SE_target _ true true :: es => 1 + reboots es
  | _ :: es => reboots es
  end.

(** Resets queued and not yet done. *)
Fixpoint in_flight (es : list sevent) : Z :=
  match es with
  | [] => 0
  | SE_target _ true _ :: es => in_flight es + 1
  | SE_done :: es => in_flight es - 1
  | _ :: es => in_flight es
  end.

Fixpoint epochs (es : list sevent) : Z :=
  match es with [] => 0 | SE_epoch :: es => 1 + epochs es | _ :: es => epochs es end.

Definition bound s : Prop :=
  0 <= epoch s /\ spi_reboot_budget_epoch (tr s) = epoch s /\ spi_soft_reboot_attempts (tr s) = 0 /\
  spi_resetting (tr s) = false /\ reset_work (tr s) = false.

Record sinv (s0 : st) (es : list sevent) s : Prop := mk_sinv {
  sv_epoch : epoch s = epoch s0 + epochs es;
  sv_budget : 0 <= spi_reboot_budget_epoch (tr s) <= epoch s;
  sv_count : if spi_reboot_budget_epoch (tr s) =? epoch s then spi_soft_reboot_attempts (tr s) = reboots es
             else reboots es = 0;
  sv_bound : 0 <= reboots es <= ESP_FW_BOOT_MAX_ATTEMPTS;
  sv_work : reset_work (tr s) = true -> spi_resetting (tr s) = true;
  sv_flight : in_flight es = Z.b2z (spi_resetting (tr s))
}.

Lemma sinv_same s0 es s s' :
  sinv s0 es s -> epoch s' = epoch s ->
  spi_reboot_budget_epoch (tr s') = spi_reboot_budget_epoch (tr s) ->
  spi_soft_reboot_attempts (tr s') = spi_soft_reboot_attempts (tr s) ->
  spi_resetting (tr s') = spi_resetting (tr s) -> reset_work (tr s') = reset_work (tr s) -> sinv s0 es s'.
Proof. intros [] E1 E2 E3 E4 E5. constructor; rewrite ?E1, ?E2, ?E3, ?E4, ?E5; done. Qed.

Lemma sinv_sync s0 es s :
  sinv s0 es s -> sinv s0 es (on_tr (fun _ => esp_spi_reboot_budget_sync_locked (ad s) (tr s)) s).
Proof.
  intros []. pose proof (sync_frame (ad s) (tr s)) as Hf. cbv zeta in Hf. destruct Hf as (F1 & F2 & F3 & F4 & F5).
  constructor; cbn; rewrite ?F1, ?F2, ?F3, ?F4, ?F5, ?Z.eqb_refl; try done; [lia|]. case_match; [done|lia].
Qed.

Lemma sync_count s0 es s :
  sinv s0 es s -> spi_soft_reboot_attempts (esp_spi_reboot_budget_sync_locked (ad s) (tr s)) = reboots es.
Proof.
  intros []. pose proof (sync_frame (ad s) (tr s)) as Hf. cbv zeta in Hf. destruct Hf as (_ & -> & _).
  case_match; congruence.
Qed.

Lemma sinv_target s0 es s ret s' :
  sinv s0 es s -> esp_spi_reset_target s = (ret, s') ->
  sinv s0 (SE_target ret (newly_queued s s') (negb (reset_gpio (tr s))) :: es) s'.
Proof.
  intros Hi E. pose proof (reset_target_cases s) as Hc. rewrite E in Hc. cbv zeta in Hc.
  pose proof (sync_count _ _ _ Hi) as Hn. pose proof (sinv_sync _ _ _ Hi) as Hs.
  pose proof (sync_frame (ad s) (tr s)) as Hf. cbv zeta in Hf. destruct Hf as (F1 & F2 & F3 & F4 & F5).
  assert (Hid : forall sx, newly_queued s sx = false -> sinv s0 es sx ->
    sinv s0 (SE_target ret (newly_queued s sx) (negb (reset_gpio (tr s))) :: es) sx).
  { intros sx -> []. constructor; done. }
  destruct Hc as [(-> & _)|[(_ & -> & _)|[(_ & _ & _ & -> & _)|(Er & Hlt & Hc)]]].
  - apply Hid; [|done]. unfold newly_queued. by destruct (reset_work (tr s)).
  - apply Hid; [|done]. unfold newly_queued. cbn. rewrite F5. by destruct (reset_work (tr s)).
  - apply Hid; [|done]. unfold newly_queued. cbn. rewrite F5. by destruct (reset_work (tr s)).
  - destruct Hi as [E1 Hb Hcnt Hbd Hw Hfl]. destruct (reset_work (tr s)) eqn:Ew; [by rewrite Hw in Er|].
    destruct Hc as (_ & G1 & G2 & _ & G3 & G4 & G5 & G6). unfold newly_queued. rewrite G1, Ew. cbn [andb negb].
    rewrite Hn in G6, Hlt. rewrite Er in Hfl. cbn in Hfl.
    constructor; rewrite ?G4, ?G5, ?Z.eqb_refl, ?G2; cbn [epochs in_flight Z.b2z]; try done; try lia.
    + destruct (reset_gpio (tr s)); cbn [reboots negb]; lia.
    + destruct (reset_gpio (tr s)); cbn [reboots negb]; [done|]. specialize (Hlt eq_refl). lia.
Qed.

Lemma sinv_run s0 es s : bound s0 -> srun s0 es s -> epoch s0 + epochs es < 2 ^ 32 -> sinv s0 es s.
Proof.
  intros (B0 & B1 & B2 & B3 & B4). induction 1 as [|es s e s' Hr IH Hs]; intros Hn.
  { constructor; cbn; rewrite ?B1, ?B2, ?B3, ?B4, ?Z.eqb_refl; unfold ESP_FW_BOOT_MAX_ATTEMPTS; try done; lia. }
  assert (Hi : sinv s0 es s) by (apply IH; destruct e; cbn in Hn; lia). clear IH.
  destruct Hs as [s ret s' E|s Hw|s Hw Hd|s s' Et Ee|s|s Ha|s s' E1 E2 E3 E4 E5].
  - by apply sinv_target.
  - destruct Hi. constructor; try done. 
  - destruct Hi as [? ? ? ? ? Hf]. constructor; try done; cbn.
    + by rewrite Hw.
    + rewrite Hf, Hd. done.
  - destruct Hi. cbn in Hn. rewrite wrap_id in Ee by (unfold in_width; lia).
    constructor; rewrite ?Et, ?Ee; cbn; try done; try lia.
    rewrite (proj2 (Z.eqb_neq _ _)) by lia. done.
  - apply sinv_sync in Hi. destruct Hi. constructor; done.
  - destruct Hi. constructor; cbn; rewrite ?Ha; cbn; rewrite ?Z.eqb_refl; unfold ESP_FW_BOOT_MAX_ATTEMPTS; try done; try lia.
  - eapply sinv_same in Hi; [|done..]. destruct Hi. constructor; done.
Qed.

(** Software reboots of an SPI target are counted per firmware incarnation.  In
    any interleaving of reset requests, the reset worker, commits of a new
    incarnation with their late callback and new bindings, at most
    [ESP_FW_BOOT_MAX_ATTEMPTS] software reboots are queued for one incarnation, and
    at most one reset is in flight; a request is refused as exhausted only when
    this incarnation has used its budget - a count inherited from an earlier one
    never refuses, and a late callback never refunds -; and a request that returns
    success finds or leaves a reset in flight behind the closed gate. *)
Theorem spi_reboots_counted_per_incarnation s0 es s ret s' :
  bound s0 -> srun s0 es s -> epoch s0 + epochs es < 2 ^ 32 -> esp_spi_reset_target s = (ret, s') ->
  reboots es <= ESP_FW_BOOT_MAX_ATTEMPTS /\ in_flight es = Z.b2z (spi_resetting (tr s)) /\
  (ret = - EHOSTUNREACH -> reboots es = ESP_FW_BOOT_MAX_ATTEMPTS /\ reset_gpio (tr s) = false) /\
  (ret = 0 -> spi_resetting (tr s') = true /\ spi_accepting_work s' = false /\
     (newly_queued s s' = true -> reset_gpio (tr s) = false -> reboots es < ESP_FW_BOOT_MAX_ATTEMPTS)).
Proof.
  intros H0 Hr Hn E. pose proof (sinv_run _ _ _ H0 Hr Hn) as Hi. pose proof (sync_count _ _ _ Hi) as Hk.
  pose proof (reset_target_cases s) as Hc. rewrite E in Hc. cbv zeta in Hc.
  pose proof (sync_frame (ad s) (tr s)) as Hf. cbv zeta in Hf. destruct Hf as (F1 & F2 & F3 & F4 & F5).
  destruct Hi as [? ? ? [Hlo Hhi] Hw Hfl]. rewrite Hk in Hc. split; [done|]. split; [done|].
  assert (Hacc : spi_resetting (tr s') = true -> spi_accepting_work s' = false).
  { unfold spi_accepting_work. intros ->. by rewrite andb_false_r. }
  destruct Hc as [(-> & Hneg & Hne)|[(Hrs & -> & ->)|[(_ & Hg & Hm & -> & ->)|(Er & Hlt & Hc)]]].
  - split; [done|]. lia.
  - split; [done|]. intros _. cbn in Hacc. rewrite F3 in Hacc. specialize (Hacc Hrs).
    split; [cbn; by rewrite F3|]. split; [done|]. unfold newly_queued. cbn. rewrite F5. by destruct (reset_work _).
  - split; [|done]. intros _. split; [lia|done].
  - destruct (reset_work (tr s)) eqn:Ew; [by rewrite Hw in Er|]. destruct Hc as (-> & G1 & G2 & _).
    split; [done|]. intros _. split; [done|]. split; [auto|]. intros _. exact Hlt.
Qed.

End Spi.

(** A bound adapter without a reset GPIO. *)
Definition demo_spi {H : Type} (h : H) : spi H :=
  mk_spi h true true true true false false q_empty q_empty 0 true true false false false false 26000000 26 26 26000000
    0 0 false 0 false cmdq_zero.
Definition demo_spi_sys {H : Type} (h : H) : sys (spi H) := mk_sys zero_adapter (demo_spi h) 1000 None None 0.

Lemma spi_reboots_counted_per_incarnation_witness :
  let s := (esp_spi_reset_target (demo_spi_sys tt)).2 in
  reboots [SE_target 0 true true] <= ESP_FW_BOOT_MAX_ATTEMPTS /\ (esp_spi_reset_target s).1 = 0 /\
  spi_resetting (tr (esp_spi_reset_target s).2) = true.
Proof.
  intros s.
  assert (Hrun : srun (demo_spi_sys tt) [SE_target 0 true true] s)
    by exact (srun_step _ _ _ _ _ (srun_nil _) (ss_target (demo_spi_sys tt) 0 s eq_refl)).
  destruct (spi_reboots_counted_per_incarnation (demo_spi_sys tt) [SE_target 0 true true] s 0 (esp_spi_reset_target s).2)
    as (H1 & _ & _ & H2); [split_and!; done|exact Hrun|done|done|].
  split; [exact H1|]. split; [done|]. by apply H2.
Defined.
