(* ===== verification/SpiData.v ===== *)
(** * SpiData: the host's SPI transactions

    Of [host/spi/esp_spi.c]: [write_packet] with its gate and its flow control,
    [read_packet], the checks of a received buffer ([process_rx_buf]), and one run
    of the transaction worker [esp_spi_work].

    What other threads do between the parts of a function that do not hold a lock
    is an argument: [others] of [write_packet], and of the worker [before] the
    transfer and [during] it. *)
From S2P Require Import Prelude Wire Adapter Recovery BootEvent RcpHost CmdQueue PrioQueue SpiHost.

Definition tx_data_if (t : Z) : bool := (t =? if_code ESP_STA_IF) || (t =? if_code ESP_AP_IF).

Section SpiData.
Context {H : Type} (B : spi_bus H) (m2j : Z -> Z).
Implicit Types (s : sys (spi H)) (d : spi H) (a : esp_adapter) (x : tx_skb).

Notation st := (sys (spi H)).

(** ** Sending *)
Definition tx_gate_closed s : bool :=
  let a := ad s in
  negb (data_path (tr s)) || negb (above_rx_ready a) || flag ESP_TRANSPORT_REMOVING a
  || (flag ESP_CLEANUP_IN_PROGRESS a && negb (flag ESP_ALLOW_DEINIT a) && negb (flag ESP_ALLOW_RECONSTRUCT a)).

Definition tx_if x : Z := if_type (decode_header (skb_data x)).

(** Every error frees the skb; the result 0 leaves it on its queue. *)
Definition write_packet (others : st -> st) x s : Z * st :=
  if negb (if_context (ad s)) || (zlen (skb_data x) =? 0) then (- EINVAL, s)
  else if SPI_BUF_SIZE - sizeof_header <? zlen (skb_data x) then (- EPERM, s)
  else if tx_gate_closed s then (- EPERM, s)
  else if tx_data_if (tx_if x) && cb_priv x && (TX_MAX_PENDING_COUNT <=? tx_pending (tr s))
  then (- EBUSY, esp_spi_kick (on_tr (fun d => d <| queue_paused := true |>) s))
  else
    let s := others s in
    if tx_gate_closed s then (- ESHUTDOWN, s)
    else
      (0, esp_spi_kick (on_tr (fun d =>
            d <| tx_pending := tx_pending d + 1 |> <| tx_q := q_push (if_prio (tx_if x)) x (tx_q d) |>) s)).

(** ** Receiving *)
Definition read_packet s : option (list Z) * st :=
  if negb (data_path (tr s)) || negb (if_context (ad s)) || negb (esp_spi_dev (tr s)) then (None, s)
  else
    match q_pop (rx_q (tr s)) with
    | Some (b, q) => (Some b, on_tr (fun d => d <| rx_q := q |>) s)
    | None => (None, s)
    end.

(** The host's RCP bridge decides whether a broken stream must end the session. *)
Context (r : rcp).

Definition esp_spi_fail_rcp_rx s : st := if esp_rcp_fail_closed_required r then restart_fw m2j s else s.

Definition spi_is_dummy_rx (b : list Z) : bool :=
  let h := decode_header b in
  (if_type h =? 15) && (if_num h =? 15) && (flags h =? 0) && (packet_type h =? 0) && (reserved1 h =? 0)
  && (len h =? 0) && (offset h =? 0) && (checksum h =? 0) && (reserved2 h =? 0) && (hci_pkt_type h =? 0).

Definition spi_is_unadvertised_idle_rx (b : list Z) (rx_pending : bool) : bool :=
  if rx_pending || negb (zlen b =? SPI_BUF_SIZE) then false else forallb (Z.eqb 0) b.

Definition is_boot_event (b : list Z) : bool :=
  let h := decode_header b in
  (if_type h =? if_code ESP_INTERNAL_IF) && (packet_type h =? pkt_code PACKET_TYPE_EVENT)
  && (4 <=? len h) && (evt_event_code (zdrop (offset h) b) =? ESP_INTERNAL_BOOTUP_EVENT).

(** [EINVAL]: the frame is malformed; [ENODATA]: there is none; [EPERM]: the gate
    has closed. *)
Definition process_rx_buf (b : list Z) (rx_pending : bool) s : Z * st :=
  let h := decode_header b in
  if spi_is_dummy_rx b || spi_is_unadvertised_idle_rx b rx_pending then (- ENODATA, s)
  else if ESP_MAX_IF <=? if_type h then (- EINVAL, esp_spi_fail_rcp_rx s)
  else if len h =? 0 then (- EINVAL, esp_spi_fail_rcp_rx s)
  else if (SPI_BUF_SIZE <? len h) || negb (bool_decide (is_Some (esp_host_wire_span_valid (len h) (offset h) (zlen b))))
  then (- EINVAL, esp_spi_fail_rcp_rx s)
  else
    let s := if is_boot_event b then on_tr esp_spi_retire_boot_rescue s else s in
    let b := ztake (u16 (len h + offset h)) b in
    if negb (data_path (tr s)) then (- EPERM, s)
    else (0, esp_process_new_packet_intr (on_tr (fun d => d <| rx_q := q_push (if_prio (if_type h)) b (rx_q d) |>) s)).

(** ** One transaction *)
Definition spi_notify_tx_lost (cmd : option (Z * Z)) (stateful : bool) (err : Z) (recover : bool) s : st :=
  if negb (spi_adapter (tr s)) then s
  else if recover || stateful then
    request_restart m2j (on_tr (fail_cmd cmd err) (schedule_fw_reset m2j s))
  else on_tr (fail_cmd cmd err) s.

(** The next skb in priority order, with the flow control of its device. *)
Definition spi_next_tx s : option tx_skb * st :=
  if data_path (tr s) && above_rx_ready (ad s) then
    match q_pop (tx_q (tr s)) with
    | None => (None, s)
    | Some (x, q) =>
        let s := on_tr (fun d => tx_pending_dec (d <| tx_q := q |>)) s in
        (Some x,
         if tx_data_if (tx_if x) && cb_priv x && (tx_pending (tr s) <? TX_RESUME_THRESHOLD)
         then on_tr (fun d => d <| queue_paused := false |>) s else s)
    end
  else (None, s).

(** The MOSI buffer: the frame, padded with zeroes to the fixed size. *)
Definition tx_buf (src : option tx_skb) : list Z :=
  let b := match src with Some x => ztake SPI_BUF_SIZE (skb_data x) | None => [] end in
  b ++ replicate (Z.to_nat (SPI_BUF_SIZE - zlen b)) 0.

Definition src_cmd (src : option tx_skb) : option (Z * Z) := src ≫= fun x => spi_get_cmd_info (skb_data x).
Definition src_stateful (src : option tx_skb) : bool :=
  match src with Some x => spi_is_stateful_packet (skb_data x) | None => false end.

(** The transfer and what follows, when the gate is still open. *)
Definition spi_transfer (during : st -> st) (src : option tx_skb) (rx_pending : bool) (speed_hz : Z) s : st :=
  let '((ret, rx), s) := on_bus (spi_sync_transfer B speed_hz (tx_buf src)) s in
  let s := during s in
  if negb (ret =? 0) then spi_notify_tx_lost (src_cmd src) (src_stateful src) ret true s
  else esp_spi_requeue_if_pending B m2j (process_rx_buf rx rx_pending s).2.

(** [esp_spi_work]; starting it takes it off the workqueue. *)
Definition esp_spi_work (before during : st -> st) s : st :=
  let s := on_tr (fun d => d <| spi_work := false |>) s in
  if negb (spi_accepting_work s) then s else
  let '((ret, trans_ready), s) := read_handshake B s in
  if negb (ret =? 0) then esp_spi_pause_for_transport_recovery m2j s else
  let '((ret, rx_pending), s) := read_data_ready B s in
  if negb (ret =? 0) then esp_spi_pause_for_transport_recovery m2j s else
  if negb trans_ready then s else
  if negb rx_pending && negb (data_path (tr s) && above_rx_ready (ad s) && has_tx (tr s)) then s else
  let '(rx_skb, s) := on_bus (bus_alloc B) s in
  if negb rx_skb then esp_spi_pause_for_transport_recovery m2j s else
  let '(tx_skb, s) := on_bus (bus_alloc B) s in
  if negb tx_skb then esp_spi_pause_for_transport_recovery m2j s else
  let '(src, s) := spi_next_tx s in
  if negb rx_pending && negb (bool_decide (is_Some src)) then s else
  let speed_hz := spi_clk_mhz (tr s) * NUMBER_1M in
  let s := before s in
  if negb (spi_accepting_work s)
  then spi_notify_tx_lost (src_cmd src) (src_stateful src) (- ESHUTDOWN) false s
  else spi_transfer during src rx_pending speed_hz s.

(** ** Unbinding: [esp_deinit_module], with [esp_remove_card] as an argument *)
Definition esp_deinit_module (remove_card : st -> st) s : st :=
  on_tr (fun d => d <| tx_q := q_empty |>)
    (remove_card (on_tr (fun d => d <| tx_q := q_empty |> <| tx_pending := 0 |>) s)).
End SpiData.
