(* ===== verification/SpiFw.v ===== *)
(** * SpiFw: the firmware's end of the SPI link

    [main/spi_slave_api.c]: the transmit and receive queues, the three transaction
    slots with their buffers, [queue_next_transaction], one turn of the
    post-processing task, the checks of a received buffer, [esp_spi_write],
    [esp_spi_read] and the boot event.

    The ESP-IDF slave driver serves queued transactions in order; its results, the
    allocator and the build are the environment [spi_env].  A full receive buffer
    is 1600 bytes.  [esp_restart] does not return: what follows it is not run. *)
From S2P Require Import Prelude Wire BootEvent RcpFw FwPath CmdQueue SdioFw PrioQueue.

Definition RX_BUF_SIZE : Z := 1600.
Definition SPI_SLOT_NUM : nat := 3.
Definition SPI_DMA_ALIGNMENT_BYTES : Z := 4.
Definition ESP_BOOTUP_EVENT_BUF_SIZE : Z := 256.
Definition ESP_ERR_INVALID_SIZE : Z := 260.

(** ** State *)

(** Where a receive buffer came from. *)
Inductive rx_src := RxPool | RxEmergency.
#[export] Instance rx_src_eq_dec : EqDecision rx_src.
Proof. solve_decision. Defined.

Record spi_slot := mk_slot {
  in_use : bool;
  dma_tx : list Z;
  reboot_ack : bool;
  slot_rx : rx_src
}.
#[export] Instance eta_slot : Eta spi_slot := fun x => mk_slot (in_use x) (dma_tx x) (reboot_ack x) (slot_rx x).
Definition idle_slot : spi_slot := mk_slot false [] false RxPool.

(** A queued transmit buffer is a [buf_handle] whose payload is the whole frame;
    a queued receive buffer keeps its frame.  [armed] lists the slots handed to
    the slave driver. *)
Record spi_fw := mk_spi_fw {
  sa : fw_app;
  spi_tx_queue : prioq buf_handle;
  spi_rx_queue : prioq (list Z * rx_src);
  s_slots : list spi_slot;
  armed : list nat;
  rx_pool : Z;
  emergency_in_use : bool;
  data_ready : bool
}.
#[export] Instance eta_spi_fw : Eta spi_fw := fun f =>
  mk_spi_fw (sa f) (spi_tx_queue f) (spi_rx_queue f) (s_slots f) (armed f) (rx_pool f) (emergency_in_use f)
    (data_ready f).

(** The build and the surroundings. *)
Record spi_env := mk_spi_env {
  spi_checksum : bool;                 (* CONFIG_ESP_SPI_CHECKSUM *)
  rx_q_size : Z;                       (* SPI_RX_QUEUE_SIZE *)
  rcp_build : bool;                    (* CONFIG_ESP_HOSTED_RCP *)
  tp_active : Z -> bool;               (* debug_raw_tp_is_run_active *)
  raw_tp_seq : buf_handle -> Z;
  payload_at : buf_handle -> Z;        (* address of the payload *)
  frame_malloc : buf_handle -> bool;
  rx_malloc : bool;                    (* a receive buffer from the heap *)
  queue_trans : Z                      (* spi_slave_queue_trans *)
}.

Section SpiFw.
Context (e : spi_env).
Implicit Types f : spi_fw.

Definition SPI_RX_POOL_SIZE : Z := Z.of_nat SPI_SLOT_NUM + rx_q_size e + 2.

(** [esp_spi_init]. *)
Definition spi_fw_init (a : fw_app) : spi_fw :=
  mk_spi_fw a q_empty q_empty (replicate SPI_SLOT_NUM idle_slot) [] SPI_RX_POOL_SIZE false false.

Definition on_sa (g : fw_app -> fw_app) f : spi_fw := f <| sa := g (sa f) |>.
Definition spi_restart f : spi_fw := on_sa (fun a => a <| restarting := true |>) f.

(** The handshake line is high while a transaction is set up. *)
Definition handshake f : bool := negb (restarting (sa f)) && bool_decide (armed f <> []).

(** ** Receive buffers *)
Definition recycle_spi_rx_buf (src : rx_src) f : spi_fw :=
  match src with
  | RxEmergency => f <| emergency_in_use := false |>
  | RxPool => if rx_pool f <? SPI_RX_POOL_SIZE then f <| rx_pool := rx_pool f + 1 |> else f
  end.

Definition acquire_rx_buf f : option (rx_src * spi_fw) :=
  if 0 <? rx_pool f then Some (RxPool, f <| rx_pool := rx_pool f - 1 |>)
  else if negb (emergency_in_use f) then Some (RxEmergency, f <| emergency_in_use := true |>)
  else if rx_malloc e then Some (RxPool, f) else None.

(** ** Transmit queue *)
Definition free_spi_buf (b : buf_handle) f : spi_fw := on_sa (on_fw (free_buf_handle b)) f.

(** Buffers of a finished throughput run are discarded. *)
Fixpoint get_next_tx_buffer (fuel : nat) f : option buf_handle * spi_fw :=
  match fuel with
  | O => (None, f)
  | S fuel =>
      match q_pop (spi_tx_queue f) with
      | None => (None, f)
      | Some (b, q) =>
          let f := f <| spi_tx_queue := q |> in
          if (bh_if_type b =? if_code ESP_TEST_IF) && negb (tp_active e (bh_raw_tp_run_id b))
          then get_next_tx_buffer fuel (free_spi_buf b f)
          else (Some b, f)
      end
  end.

Definition tx_queued f : nat := length (q_all (spi_tx_queue f)).

Definition is_reboot_ack (b : buf_handle) : bool :=
  let buf := bh_payload b in
  let h := decode_header buf in
  let cmd := zdrop (offset h) buf in
  (bh_if_type b =? if_code ESP_INTERNAL_IF) && (sizeof_header + sizeof_command_header <=? zlen buf)
  && (if_type h =? if_code ESP_INTERNAL_IF) && (packet_type h =? pkt_code PACKET_TYPE_COMMAND_RESPONSE)
  && ESP_OFFSET_VALID (offset h) && (offset h <=? zlen buf) && (sizeof_command_header <=? zlen buf - offset h)
  && (hdr_code cmd =? cmd_num CMD_HOST_REBOOT) && (hdr_status cmd =? resp_num CMD_RESPONSE_SUCCESS).

Definition pad_to (n : Z) (l : list Z) : list Z := l ++ replicate (Z.to_nat (n - zlen l)) 0.

(** [if_type] and [if_num] 0xF, the rest zero. *)
Definition dummy_tx : list Z := 255 :: replicate (Z.to_nat (RX_BUF_SIZE - 1)) 0.

(** ** [queue_next_transaction]

    [others]: what other tasks do between the test that nothing waits and the
    write that lowers [data_ready]. *)
Definition queue_next_transaction (others : spi_fw -> spi_fw) f : spi_fw :=
  match list_find (fun x => in_use x = false) (s_slots f) with
  | None => spi_restart f
  | Some (i, _) =>
      match acquire_rx_buf f with
      | None => spi_restart f
      | Some (src, f) =>
          let '(next, f) := get_next_tx_buffer (tx_queued f) f in
          let slot :=
            match next with
            | Some b => mk_slot true (pad_to RX_BUF_SIZE (bh_payload b)) (is_reboot_ack b) src
            | None => mk_slot true dummy_tx false src
            end in
          let f :=
            match next with
            | Some b => free_spi_buf b f <| data_ready := true |>
            | None => if q_is_empty (spi_tx_queue f) then others f <| data_ready := false |> else f
            end in
          let f := f <| s_slots := <[i := slot]> (s_slots f) |> in
          if negb (queue_trans e =? ESP_OK) then spi_restart f else f <| armed := armed f ++ [i] |>
      end
  end.

(** ** Receiving *)
Definition spi_is_host_idle_transaction (buf : list Z) : bool := forallb (Z.eqb 0) (ztake RX_BUF_SIZE buf).

Definition spi_fail_rcp_rx f : spi_fw :=
  if rcp_build e && esp_hosted_rcp_fail_closed_required (rcp_of (fw_of (sa f)))
  then on_sa (on_fw esp_hosted_rcp_fatal_restart) f else f.

(** [room]: an RCP frame finds a place in its queue before the time-out; other
    frames wait for one.  The checksum field is cleared to verify it. *)
Definition process_spi_rx (room : bool) (buf : list Z) (src : rx_src) f : Z * spi_fw :=
  let h := decode_header buf in
  if if_code ESP_MAX_IF <=? if_type h then (-1, spi_fail_rcp_rx f)
  else if len h =? 0 then (-1, if spi_is_host_idle_transaction buf then f else spi_fail_rcp_rx f)
  else if (RX_BUF_SIZE <? len h) || negb (ESP_OFFSET_VALID (offset h)) || (RX_BUF_SIZE <? offset h)
          || (RX_BUF_SIZE - offset h <? len h) then (-1, spi_fail_rcp_rx f)
  else if spi_checksum e && negb (rx_checksum_ok false 0 buf) then (-1, spi_fail_rcp_rx f)
  else if (if_type h =? if_code ESP_RCP_IF) && negb room then (-1, spi_fail_rcp_rx f)
  else
    let frame := ztake (u16 (len h + offset h)) (if spi_checksum e then zero_checksum buf else buf) in
    (0, f <| spi_rx_queue := q_push (if_prio (if_type h)) (frame, src) (spi_rx_queue f) |>).

(** ** One turn of the post-processing task

    The head transaction has ended with [ret]; [mosi] is what the host sent. *)
Definition release_slot (i : nat) f : spi_fw :=
  f <| s_slots := alter (fun x => x <| reboot_ack := false |> <| in_use := false |>) i (s_slots f) |>.

Definition spi_transaction_post_process (others : spi_fw -> spi_fw) (room : bool) (ret : Z) (mosi : list Z) f : spi_fw :=
  match armed f with
  | [] => f
  | i :: rest =>
      match s_slots f !! i with
      | None => f
      | Some slot =>
          let f := f <| armed := rest |> in
          let reboot_after_ack := reboot_ack slot in
          let f := if negb (ret =? ESP_OK) || negb reboot_after_ack then queue_next_transaction others f else f in
          if restarting (sa f) then f
          else if negb (ret =? ESP_OK) then release_slot i (recycle_spi_rx_buf (slot_rx slot) f)
          else if reboot_after_ack then spi_restart (release_slot i (recycle_spi_rx_buf (slot_rx slot) f))
          else
            let '(rx, f) := process_spi_rx room mosi (slot_rx slot) f in
            release_slot i (if rx =? 0 then f else recycle_spi_rx_buf (slot_rx slot) f)
      end
  end.

(** [esp_spi_read]; [None] still waits.  [esp_spi_read_done] recycles the buffer
    when its consumer is done with it. *)
Definition esp_spi_read f : option (list Z * rx_src) * spi_fw :=
  match q_pop (spi_rx_queue f) with
  | Some (x, q) => (Some x, f <| spi_rx_queue := q |>)
  | None => (None, f)
  end.
Definition esp_spi_read_done (src : rx_src) f : spi_fw := recycle_spi_rx_buf src f.

(** ** Sending *)

(** The frame: header, zeroes up to the offset, payload.  The reply to
    [CMD_HOST_REBOOT] is always checksummed. *)
Definition is_reboot_reply (b : buf_handle) : bool :=
  (wrap 4 (bh_if_type b) =? if_code ESP_INTERNAL_IF) && (u8 (bh_pkt_type b) =? pkt_code PACKET_TYPE_COMMAND_RESPONSE)
  && (sizeof_command_header <=? zlen (bh_payload b)) && (hdr_code (bh_payload b) =? cmd_num CMD_HOST_REBOOT).

Definition spi_frame (b : buf_handle) (wire_offset seq : Z) : list Z :=
  let h := e2h_header b wire_offset seq in
  let tail := replicate (Z.to_nat (wire_offset - sizeof_header)) 0 ++ bh_payload b in
  let frame := encode_header h ++ tail in
  if spi_checksum e || is_reboot_reply b
  then encode_header (h <| checksum := compute_checksum false 0 frame (zlen frame) |>) ++ tail
  else frame.

(** Where the frame starts: the RCP pool's headroom, a Wi-Fi buffer's headroom, or
    a copy; the error when there is no such place. *)
Definition spi_write_offset (b : buf_handle) : Z + Z :=
  if bh_if_type b =? if_code ESP_RCP_IF then
    if ESP_HOSTED_RCP_CHUNK_MAX <? zlen (bh_payload b) then inl ESP_ERR_INVALID_ARG
    else if negb (Z.land (payload_at e b - ESP_HOSTED_RCP_TX_HEADROOM) 3 =? 0) then inl ESP_ERR_INVALID_ARG
    else inr ESP_HOSTED_RCP_TX_HEADROOM
  else if IS_WIFI_DATA_PACKET b then
    inr (sizeof_header + (SPI_DMA_ALIGNMENT_BYTES - payload_at e b mod SPI_DMA_ALIGNMENT_BYTES) mod SPI_DMA_ALIGNMENT_BYTES)
  else if frame_malloc e b then inr sizeof_header else inl ESP_ERR_NO_MEM.

(** The wait for a place in the queue: bounded for RCP frames ([room]), which then
    go back to their pool. *)
Definition esp_spi_write (room : bool) (b : buf_handle) f : Z * spi_fw :=
  let n := zlen (bh_payload b) in
  if n =? 0 then (ESP_FAIL, f)
  else if RX_BUF_SIZE <? align4 (n + sizeof_header) then (ESP_FAIL, f)
  else
    match spi_write_offset b with
    | inl err => (err, f)
    | inr off =>
        let frame := spi_frame b off (raw_tp_seq e b) in
        let q := mk_bh (bh_if_type b) (bh_if_num b) 0 0 frame (bh_raw_tp_run_id b) (bh_slot b) in
        if (bh_if_type b =? if_code ESP_RCP_IF) && negb room then (ESP_ERR_TIMEOUT, free_spi_buf q f)
        else
          (n, f <| spi_tx_queue := q_push (if_prio (if_type (e2h_header b off (raw_tp_seq e b)))) q (spi_tx_queue f) |>
                <| data_ready := true |>)
    end.

(** [send_bootup_event_to_host]: the header's packet type and flags stay zero. *)
Definition boot_header (n : Z) : esp_payload_header :=
  zero_header <| if_type := if_code ESP_INTERNAL_IF |> <| offset := sizeof_header |> <| len := n |>.

Definition spi_boot_frame (fb : fw_boot) : list Z :=
  let evt := boot_event_bytes fb in
  let h := boot_header (u16 (zlen evt)) in
  let frame := encode_header h ++ evt in
  if spi_checksum e then encode_header (h <| checksum := compute_checksum false 0 frame (zlen frame) |>) ++ evt
  else frame.

Definition send_bootup_event_to_host (others : spi_fw -> spi_fw) (calloc_ok : bool) (fb : fw_boot) f : Z * spi_fw :=
  if negb calloc_ok then (ESP_ERR_NO_MEM, f)
  else if ESP_BOOTUP_EVENT_BUF_SIZE <? zlen (spi_boot_frame fb) then (ESP_ERR_INVALID_SIZE, f)
  else
    let b := mk_bh 0 0 0 0 (spi_boot_frame fb) 0 None in
    let f := f <| spi_tx_queue := q_push PrioQueue.PRIO_Q_HIGH b (spi_tx_queue f) |> <| data_ready := true |> in
    (ESP_OK, queue_next_transaction others f).
End SpiFw.

(** ** Frames *)

(** A frame that fills exactly what its header says, within one transaction. *)
Record link_frame (fr : list Z) : Prop := mk_link_frame {
  lk_len : 0 < len (decode_header fr);
  lk_off : ESP_OFFSET_VALID (offset (decode_header fr)) = true;
  lk_total : zlen fr = len (decode_header fr) + offset (decode_header fr);
  lk_max : zlen fr <= RX_BUF_SIZE;
  lk_if : if_type (decode_header fr) < if_code ESP_MAX_IF
}.

Definition frame_prio (fr : list Z) : prio := if_prio (if_type (decode_header fr)).

Lemma link_frame_min fr : link_frame fr -> sizeof_header < zlen fr.
Proof. intros []. unfold ESP_OFFSET_VALID in *. bool_hyps. lia. Qed.

Lemma link_frame_pad fr rest : link_frame fr -> decode_header (fr ++ rest) = decode_header fr.
Proof. intros Hf. apply decode_header_app. pose proof (link_frame_min _ Hf). lia. Qed.

Section Frames.
Context (e : spi_env).

(** The frame [esp_spi_write] queues for a packet. *)
Definition frame_of (b : buf_handle) : list Z :=
  match spi_write_offset e b with inr off => spi_frame e b off (raw_tp_seq e b) | inl _ => [] end.

(** Packets that fit one transaction wherever their frame starts. *)
Definition e2h_ok (b : buf_handle) : Prop :=
  0 <= bh_if_type b < if_code ESP_MAX_IF /\ bytes_ok (bh_payload b) /\ 0 < zlen (bh_payload b) /\
  zlen (bh_payload b) + ESP_MAX_OFFSET_SIZE <= RX_BUF_SIZE.

(** What the frame of a packet carries. *)
Definition spi_carries (b : buf_handle) (fr : list Z) : Prop :=
  let h := decode_header fr in
  link_frame fr /\ if_type h = bh_if_type b /\ if_num h = wrap 4 (bh_if_num b) /\ packet_type h = u8 (bh_pkt_type b) /\
  ztake (len h) (zdrop (offset h) fr) = bh_payload b /\
  (spi_checksum e = true -> forall be addr, rx_checksum_ok be addr fr = true).

Lemma spi_frame_carries b off :
  e2h_ok b -> sizeof_header <= off <= ESP_MAX_OFFSET_SIZE -> spi_carries b (spi_frame e b off (raw_tp_seq e b)).
Proof.
  intros (Hi & Hb & Hl & Hm) Ho. set (seq := raw_tp_seq e b).
  unfold ESP_MAX_OFFSET_SIZE, ESP_MAX_ALIGN_PADDING, sizeof_header, RX_BUF_SIZE in *.
  destruct (e2h_header_fields b off seq) as (F1 & F2 & F3 & F4 & F5 & F6).
  pose proof (e2h_header_wf b off seq ltac:(unfold in_width; lia)) as Hwf.
  rewrite wrap_id in F4, F5 by (unfold in_width; lia).
  rewrite wrap_id in F1 by (unfold in_width; cbn in Hi; lia).
  set (h := e2h_header b off seq) in *.
  set (tail := replicate (Z.to_nat (off - 12)) 0 ++ bh_payload b).
  assert (Ht : bytes_ok tail) by (apply Forall_app; split; [by apply Forall_replicate|done]).
  assert (Htl : zlen tail = off - 12 + zlen (bh_payload b))
    by (unfold tail; rewrite zlen_app, zlen_replicate; lia).
  assert (Hs : exists c, in_width 16 c /\ spi_frame e b off seq = encode_header (h <| checksum := c |>) ++ tail /\
    (spi_checksum e = true -> forall be addr, rx_checksum_ok be addr (spi_frame e b off seq) = true)).
  { unfold spi_frame. fold h. cbv zeta. change (off - sizeof_header) with (off - 12). fold tail.
    set (n := zlen (encode_header h ++ tail)).
    assert (En : len h + offset h = n) by (unfold n; rewrite zlen_app, zlen_encode_header; unfold sizeof_header; lia).
    destruct (spi_checksum e || is_reboot_reply b) eqn:Ec.
    - eexists. split; [apply compute_checksum_range|]. split; [done|]. intros _ be addr. by apply checksummed_ok.
    - exists 0. split; [done|]. apply orb_false_iff in Ec as [-> _]. split; [|done].
      assert (h <| checksum := 0 |> = h) as -> by (destruct h; cbn in *; by subst). done. }
  destruct Hs as (c & Hc & Es & Hck). rewrite Es in *. clear Es.
  assert (Ed : decode_header (encode_header (h <| checksum := c |>) ++ tail) = h <| checksum := c |>)
    by (apply decode_encode_header; unfold header_wf in *; cbn; tauto).
  unfold spi_carries. rewrite Ed.
  change (len (h <| checksum := c |>)) with (len h). change (offset (h <| checksum := c |>)) with (offset h).
  split_and!; try done.
  - constructor; rewrite ?Ed.
    + change (0 < len h). lia.
    + change (ESP_OFFSET_VALID (offset h) = true). rewrite F5.
      unfold ESP_OFFSET_VALID, ESP_MAX_OFFSET_SIZE, ESP_MAX_ALIGN_PADDING, sizeof_header.
      by rewrite !(proj2 (Z.leb_le _ _)) by lia.
    + rewrite zlen_app, zlen_encode_header. change (12 + zlen tail = len h + offset h). lia.
    + rewrite zlen_app, zlen_encode_header. unfold RX_BUF_SIZE, sizeof_header. lia.
    + change (if_type h < 7). cbn in Hi. lia.
  - rewrite F5, F4. replace off with (12 + (off - 12)) at 1 by lia. unfold tail.
    rewrite app_assoc, zdrop_app_exact, ztake_ge; [done|lia|].
    rewrite zlen_app, zlen_encode_header, zlen_replicate. unfold sizeof_header. lia.
Qed.

(** *** The boot event's frame *)
Lemma spi_boot_frame_spec fb :
  zlen (spi_boot_frame e fb) <= ESP_BOOTUP_EVENT_BUF_SIZE ->
  exists c, in_width 16 c /\ let h := boot_header (zlen (boot_event_bytes fb)) <| checksum := c |> in
    spi_boot_frame e fb = encode_header h ++ boot_event_bytes fb /\ header_wf h /\
    zlen (spi_boot_frame e fb) = sizeof_header + zlen (boot_event_bytes fb).
Proof.
  intros Hl. unfold spi_boot_frame in *. set (evt := boot_event_bytes fb) in *. cbv zeta in *.
  clearbody evt. pose proof (zlen_nonneg evt).
  assert (He : zlen evt <= ESP_BOOTUP_EVENT_BUF_SIZE).
  { destruct (spi_checksum e); rewrite zlen_app, zlen_encode_header in Hl; unfold sizeof_header in Hl; lia. }
  unfold ESP_BOOTUP_EVENT_BUF_SIZE in *.
  rewrite wrap_id in * by (unfold in_width; lia).
  assert (Hw : forall c, in_width 16 c -> header_wf (boot_header (zlen evt) <| checksum := c |>)).
  { intros c Hc. unfold header_wf, boot_header, is_byte, in_width, sizeof_header in *. cbn. lia. }
  destruct (spi_checksum e).
  - eexists. split; [apply compute_checksum_range|]. split; [done|]. split; [apply Hw, compute_checksum_range|].
    by rewrite zlen_app, zlen_encode_header.
  - exists 0. split; [done|]. split; [done|]. split; [by apply Hw|]. by rewrite zlen_app, zlen_encode_header.
Qed.

Lemma boot_event_len fb : 8 <= zlen (boot_event_bytes fb).
Proof. unfold boot_event_bytes. rewrite !zlen_app, zlen_le_bytes. pose proof (zlen_nonneg (boot_tlv_bytes fb)). cbn [zlen]. unfold zlen. cbn. lia. Qed.

(** The boot event is a whole frame of the highest priority. *)
Lemma boot_link_frame fb :
  zlen (spi_boot_frame e fb) <= ESP_BOOTUP_EVENT_BUF_SIZE ->
  link_frame (spi_boot_frame e fb) /\ frame_prio (spi_boot_frame e fb) = PrioQueue.PRIO_Q_HIGH.
Proof.
  intros Hl. pose proof (boot_event_len fb) as Hmin. destruct (spi_boot_frame_spec fb Hl) as (c & Hc & Ef & Hwf & Hlen).
  unfold ESP_BOOTUP_EVENT_BUF_SIZE, sizeof_header in *.
  assert (Ed : decode_header (spi_boot_frame e fb) = boot_header (zlen (boot_event_bytes fb)) <| checksum := c |>)
    by (rewrite Ef; by apply decode_encode_header).
  unfold frame_prio. rewrite Ed. split; [|done]. constructor; rewrite ?Ed, ?Hlen.
  - change (0 < zlen (boot_event_bytes fb)). lia.
  - done.
  - change (12 + zlen (boot_event_bytes fb) = zlen (boot_event_bytes fb) + 12). lia.
  - unfold RX_BUF_SIZE. lia.
  - done.
Qed.
End Frames.
