(* ===== verification/SpiBoot.v ===== *)
(** * SpiBoot: resetting an SPI target

    The bootstrap exchange of [host/spi/esp_spi.c]: the checks of a boot event and
    of a reboot acknowledgement ([esp_spi_bootstrap_frame_valid]), the polling of
    the firmware at the startup clock ([esp_spi_bootstrap_check_boot]), and the
    reset worker ([esp_spi_reset_work]).

    [compute_checksum] is that of an aligned buffer; the checksum depends on neither
    the alignment nor the byte order. *)
From S2P Require Import Prelude Wire Adapter Recovery BootEvent RcpHost CmdQueue PrioQueue SpiHost SpiData.
From S2P Require Import RcpFw FwPath SdioFw SpiFw.

(** ** A boot event or an acknowledgement *)

(** The flags of the TLV loop. *)
Record boot_seen := mk_seen {
  s_cap : bool;
  s_chip : bool;
  s_fw : bool;
  s_clk : bool;
  needs_sum : bool
}.
#[export] Instance eta_seen : Eta boot_seen := fun b => mk_seen (s_cap b) (s_chip b) (s_fw b) (s_clk b) (needs_sum b).

Definition bootstrap_tlv (tag : Z) (val : list Z) (b : boot_seen) : option boot_seen :=
  let n := zlen val in
  match tag_of tag with
  | Some ESP_BOOTUP_CAPABILITY =>
      if s_cap b || negb ((n =? 1) || (n =? 2) || (n =? 4)) then None
      else if negb (has_cap (le_val val) ESP_WLAN_SPI_SUPPORT) then None
      else Some (b <| needs_sum := needs_sum b || has_cap (le_val val) ESP_CHECKSUM_ENABLED |> <| s_cap := true |>)
  | Some ESP_BOOTUP_FIRMWARE_CHIP_ID =>
      if s_chip b || negb (n =? 1) || (byte_at 0 val =? ESP_FIRMWARE_CHIP_UNRECOGNIZED) then None
      else Some (b <| s_chip := true |>)
  | Some ESP_BOOTUP_FW_DATA => if s_fw b || negb (n =? sizeof_fw_data) then None else Some (b <| s_fw := true |>)
  | Some ESP_BOOTUP_SPI_CLK_MHZ =>
      if s_clk b || negb (n =? 1) || (byte_at 0 val =? 0) then None else Some (b <| s_clk := true |>)
  | Some ESP_BOOTUP_EXT_CAPABILITY | Some ESP_BOOTUP_RX_BUF_SIZE => if n =? 4 then Some b else None
  | Some ESP_BOOTUP_RCP_SESSION_NONCE => if n =? 8 then Some b else None
  | _ => Some b
  end.

Fixpoint bootstrap_tlvs (fuel : nat) (data : list Z) (b : boot_seen) : option boot_seen :=
  match fuel, data with
  | _, [] => Some b
  | S fuel, tag :: n :: body =>
      if zlen body <? n then None
      else bootstrap_tlv tag (ztake n body) b ≫= bootstrap_tlvs fuel (zdrop n body)
  | _, _ => None
  end.

(** The payload's length. *)
Definition esp_spi_bootstrap_frame_valid (frame : list Z) (boot : bool) : option Z :=
  let h := decode_header frame in
  let body := zdrop (offset h) frame in
  if negb (if_type h =? if_code ESP_INTERNAL_IF) || negb (ESP_OFFSET_VALID (offset h))
     || (SPI_BUF_SIZE <? offset h) || (len h =? 0) || (SPI_BUF_SIZE - offset h <? len h) then None
  else
    let seen0 := mk_seen false false false false (negb boot || negb (checksum h =? 0)) in
    let seen :=
      if boot then
        if negb (packet_type h =? pkt_code PACKET_TYPE_EVENT) || (len h <? offsetof_boot_data) then None
        else if negb (evt_event_code body =? ESP_INTERNAL_BOOTUP_EVENT) || negb (evt_status body =? 0)
                || (len h - offsetof_boot_data <? evt_len body) then None
        else
          let data := ztake (evt_len body) (evt_data body) in
          bootstrap_tlvs (length data) data seen0 ≫= fun b => if s_cap b && s_chip b && s_fw b then Some b else None
      else if negb (packet_type h =? pkt_code PACKET_TYPE_COMMAND_RESPONSE) || (len h <? sizeof_command_header) then None
      else Some seen0 in
    seen ≫= fun b => if needs_sum b && negb (rx_checksum_ok false 0 frame) then None else Some (len h).

(** The exact reply to our request. *)
Definition hdr_reserved2 (b : list Z) : Z := byte_at 7 b.
Definition is_fresh_ack (seq : Z) (rx : list Z) : bool :=
  let h := decode_header rx in
  let cmd := zdrop (offset h) rx in
  (if_type h =? if_code ESP_INTERNAL_IF) && (packet_type h =? pkt_code PACKET_TYPE_COMMAND_RESPONSE)
  && bool_decide (esp_spi_bootstrap_frame_valid rx false = Some sizeof_command_header)
  && (hdr_len cmd =? 0) && (hdr_reserved1 cmd =? 0) && (hdr_reserved2 cmd =? 0)
  && (hdr_code cmd =? cmd_num CMD_HOST_REBOOT) && (hdr_seq cmd =? seq).
Definition ack_status (rx : list Z) : Z :=
  if hdr_status (zdrop (offset (decode_header rx)) rx) =? resp_num CMD_RESPONSE_SUCCESS then 0 else - EIO.

Definition is_pending_boot (rx : list Z) : bool :=
  let h := decode_header rx in
  (if_type h =? if_code ESP_INTERNAL_IF) && (packet_type h =? pkt_code PACKET_TYPE_EVENT)
  && bool_decide (is_Some (esp_spi_bootstrap_frame_valid rx true)).

Definition pad_frame (b : list Z) : list Z := b ++ replicate (Z.to_nat (SPI_BUF_SIZE - zlen b)) 0.

(** [CMD_HOST_REBOOT], checksummed. *)
Definition reboot_header : esp_payload_header :=
  zero_header <| if_type := if_code ESP_INTERNAL_IF |> <| packet_type := pkt_code PACKET_TYPE_COMMAND_REQUEST |>
    <| offset := sizeof_header |> <| len := sizeof_command_header |>.
Definition reboot_cmd (seq : Z) : list Z := [cmd_num CMD_HOST_REBOOT; 0; 0; 0] ++ le_bytes 2 seq ++ [0; 0].
Definition reboot_request (seq : Z) : list Z :=
  let frame := encode_header reboot_header ++ reboot_cmd seq in
  pad_frame (encode_header (reboot_header <| checksum := compute_checksum false 0 frame (zlen frame) |>) ++ reboot_cmd seq).
Definition no_frame : list Z := pad_frame [].

Definition time_before (a b : Z) : bool := negb (time_after_eq a b).

Section SpiBoot.
Context {H : Type} (B : spi_bus H) (m2j : Z -> Z).
Implicit Types (s : sys (spi H)) (d : spi H) (a : esp_adapter).

Notation st := (sys (spi H)).

(** ** [esp_spi_bootstrap_check_boot]

    [sent] and [n] are the loop's; the result comes with the boot frame it found.
    Each turn sleeps at least a tick, so the deadline bounds the fuel. *)
Definition bootstrap_tx (allow sent data_ready : bool) (n seq : Z) : list Z * bool * Z :=
  if allow && negb sent then
    if negb data_ready then (reboot_request seq, true, n)
    else if 8 <=? n then (reboot_request seq, true, n + 1) else (no_frame, sent, n + 1)
  else (no_frame, sent, n).

Fixpoint check_boot_loop (fuel : nat) (allow : bool) (deadline seq : Z) (sent : bool) (n : Z) s
  : (Z * option (list Z)) * st :=
  let timeout := ((if allow then - ETIMEDOUT else - ENODATA, None), s) in
  match fuel with
  | O => timeout
  | S fuel =>
      if negb (time_before (jiffies s) deadline) then timeout
      else
        let '((ret, ready), s) := read_handshake B s in
        if negb (ret =? 0) then ((ret, None), s) else
        let '((ret, data_ready), s) := read_data_ready B s in
        if negb (ret =? 0) then ((ret, None), s) else
        if negb ready then check_boot_loop fuel allow deadline seq sent n (msleep B m2j 10 s) else
        let '(tx, sent, n) := bootstrap_tx allow sent data_ready n seq in
        let '((ret, rx), s) := on_bus (spi_sync_transfer B (SPI_BOOTSTRAP_CLK_MHZ * NUMBER_1M) tx) s in
        if negb (ret =? 0) then ((ret, None), s) else
        if negb sent && is_pending_boot rx then
          let '(ok, s) := on_bus (bus_alloc B) s in
          if ok then ((1, Some rx), s) else ((- ENOMEM, None), s)
        else if sent && is_fresh_ack seq rx then ((ack_status rx, None), s)
        else check_boot_loop fuel allow deadline seq sent n (msleep B m2j 5 s)
  end.

(** Zero is no sequence number. *)
Definition next_reboot_seq d : Z * spi H :=
  let c := u32 (spi_reboot_cmd_seq d + 1) in
  let c := if u16 c =? 0 then u32 (c + 1) else c in
  (u16 c, d <| spi_reboot_cmd_seq := c |>).

Definition boot_timeout (allow : bool) : Z := if allow then SPI_REBOOT_ACK_TIMEOUT_MS else 400.
Definition boot_fuel (allow : bool) : nat := S (Z.to_nat (m2j (boot_timeout allow))).

Definition esp_spi_bootstrap_check_boot (allow : bool) s : (Z * option (list Z)) * st :=
  if negb (spi_adapter (tr s)) || negb (esp_spi_dev (tr s)) then ((- ENODEV, None), s)
  else
    let '(seq, d) := if allow then next_reboot_seq (tr s) else (0, tr s) in
    let s := on_tr (fun _ => d) s in
    let '(tx, s) := on_bus (bus_alloc B) s in
    let '(rx, s) := on_bus (bus_alloc B) s in
    if negb tx || negb rx then ((- ENOMEM, None), s)
    else
      let s := on_tr (fun d => d <| spi_clk_mhz := SPI_BOOTSTRAP_CLK_MHZ |>
                                 <| max_speed_hz := SPI_BOOTSTRAP_CLK_MHZ * NUMBER_1M |>) s in
      check_boot_loop (boot_fuel allow) allow (u64 (jiffies s + m2j (boot_timeout allow))) seq false 0 s.

(** ** [esp_spi_reset_work]; starting it takes it off the workqueue *)
Context (r : rcp).

Definition reset_or_rescue s : (Z * option (list Z)) * st :=
  if reset_gpio (tr s) then
    let '(rescue, d) := esp_spi_claim_boot_rescue (tr s) in
    let s := on_tr (fun _ => d) s in
    let '((ret, pending), s) := if rescue then esp_spi_bootstrap_check_boot false s else ((- ENODATA, None), s) in
    if ret =? 1 then ((ret, pending), s)
    else let '(ret, s) := esp_spi_hw_reset B m2j s in ((ret, pending), s)
  else esp_spi_bootstrap_check_boot true s.

Definition mark_restart_needed s : st := on_ad (set_flag ESP_FW_RESTART_NEEDED) s.

Definition note_reset_result (ret : Z) s : st :=
  if ret <? 0 then if negb (ret =? - ESHUTDOWN) && spi_adapter (tr s) then mark_restart_needed s else s
  else if spi_adapter (tr s) then on_ad (clear_flag ESP_FW_RESTART_NEEDED) s else s.

Definition finish_reset (ret : Z) (pending : option (list Z)) s : st :=
  match (if ret =? 1 then pending else None) with
  | Some b =>
      let '(rx, s) := process_rx_buf m2j r b true (on_tr (fun d => d <| data_path := true |>) s) in
      if negb (rx =? 0) then mark_restart_needed s else s
  | None => if (ret =? 0) && negb (reset_gpio (tr s)) then on_tr (fun d => d <| data_path := false |>) s else s
  end.

Definition esp_spi_reset_work s : st :=
  let s := on_tr (fun d => d <| reset_work := false |>) s in
  let '((ret, pending), s) := reset_or_rescue s in
  let s := note_reset_result ret s in
  let s := on_tr (fun d => d <| spi_resetting := false |>) s in
  let s := finish_reset ret pending s in
  if spi_adapter (tr s) && negb (unloading_or_removing (ad s)) then mod_delayed_work m2j ESP_FW_RECOVERY_QUIET_MS s else s.
End SpiBoot.

(** ** The polling loop *)
Section Polling.
Context {H : Type} (B : spi_bus H) (m2j : Z -> Z).
Implicit Types (s : sys (spi H)) (h : H).

(** Polling changes the controller and the time only. *)
Definition polled s s' : Prop := exists h j, s' = on_tr (fun d => d <| bus := h |>) s <| jiffies := j |>.

Lemma polled_refl s : polled s s.
Proof. exists (bus (tr s)), (jiffies s). by destruct s as [? []]. Qed.
Lemma polled_trans s1 s2 s3 : polled s1 s2 -> polled s2 s3 -> polled s1 s3.
Proof. intros (h1 & j1 & ->) (h2 & j2 & ->). by exists h2, j2. Qed.
#[export] Instance polled_preorder : PreOrder polled.
Proof. split; [exact polled_refl|exact polled_trans]. Qed.

Lemma on_bus_polled {A} (f : H -> A * H) s : polled s (on_bus f s).2.
Proof. unfold on_bus. destruct (f (bus (tr s))) as [x h]. exists h, (jiffies s). by destruct s. Qed.

Lemma pass_time_polled n s : polled s (pass_time B n s) /\ bus (tr (pass_time B n s)) = (bus_late B (bus (tr s))).2.
Proof.
  unfold pass_time, on_bus. destruct (bus_late B (bus (tr s))) as [k h]. split; [|done].
  exists h, (u64 (jiffies s + n + Z.of_nat k)). done.
Qed.

Lemma gpio_polled gpio read s :
  polled s (esp_spi_gpio_asserted gpio read s).2 /\
  (bus (tr (esp_spi_gpio_asserted gpio read s).2) = bus (tr s) \/
   bus (tr (esp_spi_gpio_asserted gpio read s).2) = (read (bus (tr s))).2).
Proof.
  unfold esp_spi_gpio_asserted. destruct gpio; cbn [negb]; [|split; [done|by left]].
  pose proof (on_bus_polled read s) as Hp. unfold on_bus in *. destruct (read (bus (tr s))) as [v h].
  destruct (v <? 0); (split; [exact Hp|by right]).
Qed.

(** What a controller's steps keep, and what the loop's results tell. *)
Section Loop.
Context (allow : bool) (seq : Z) (I : bool -> H -> Prop) (P : Z -> option (list Z) -> H -> Prop).
Context (I_hs : forall sent h, I sent h -> I sent (get_handshake B h).2)
  (I_dr : forall sent h, I sent h -> I sent (get_data_ready B h).2)
  (I_late : forall sent h, I sent h -> I sent (bus_late B h).2)
  (I_xfer : forall sent n dr h, I sent h ->
     let '(tx, sent, _) := bootstrap_tx allow sent dr n seq in
     let '((ret, rx), h) := spi_sync_transfer B (SPI_BOOTSTRAP_CLK_MHZ * NUMBER_1M) tx h in
     I sent h /\
     (sent = false -> ret = 0 -> is_pending_boot rx = true -> P 1 (Some rx) (bus_alloc B h).2) /\
     (sent = true -> ret = 0 -> is_fresh_ack seq rx = true -> P (ack_status rx) None h)).

Lemma check_boot_loop_post fuel deadline sent n s :
  I sent (bus (tr s)) ->
  let '((ret, pending), s') := check_boot_loop B m2j fuel allow deadline seq sent n s in
  polled s s' /\ (ret = 0 \/ pending <> None -> P ret pending (bus (tr s'))).
Proof.
  revert sent n s. induction fuel as [|fuel IH]; intros sent n s HI; cbn [check_boot_loop].
  { split; [done|]. by destruct allow; intros []. }
  destruct (negb (time_before _ _)); [split; [done|]; by destruct allow; intros []|].
  pose proof (gpio_polled (handshake_gpio (tr s)) (get_handshake B) s) as [P1 B1]. fold (read_handshake B s) in P1, B1.
  destruct (read_handshake B s) as [[ret ready] s1]. cbn [snd] in P1, B1.
  assert (I1 : I sent (bus (tr s1))) by (destruct B1 as [-> | ->]; auto).
  destruct (Z.eqb_spec ret 0) as [->|Hr]; cbn [negb]; [|split; [done|]; by intros []].
  pose proof (gpio_polled (data_ready_gpio (tr s1)) (get_data_ready B) s1) as [P2 B2]. fold (read_data_ready B s1) in P2, B2.
  destruct (read_data_ready B s1) as [[ret dr] s2]. cbn [snd] in P2, B2.
  assert (I2 : I sent (bus (tr s2))) by (destruct B2 as [-> | ->]; auto). assert (P12 : polled s s2) by (by etrans).
  clear P1 P2 B1 B2 I1. destruct (Z.eqb_spec ret 0) as [->|Hr]; cbn [negb]; [|split; [done|]; by intros []].
  assert (Hsleep : forall ms sx, polled s sx -> polled s (msleep B m2j ms sx) /\
    bus (tr (msleep B m2j ms sx)) = (bus_late B (bus (tr sx))).2).
  { intros ms sx Hx. destruct (pass_time_polled (m2j ms + 1) sx) as [Hp Hb]. split; [by etrans|done]. }
  assert (Hagain : forall sent n sx ms, polled s sx -> I sent (bus (tr sx)) ->
    let '((ret, pending), s') := check_boot_loop B m2j fuel allow deadline seq sent n (msleep B m2j ms sx) in
    polled s s' /\ (ret = 0 \/ pending <> None -> P ret pending (bus (tr s')))).
  { intros sent' n' sx ms Hx Ix. destruct (Hsleep ms sx Hx) as [Hp Hb].
    specialize (IH sent' n' (msleep B m2j ms sx)). rewrite Hb in IH. specialize (IH (I_late _ _ Ix)).
    destruct (check_boot_loop _ _ _ _ _ _ _ _ _) as [[ret pending] s']. destruct IH as [H1 H2].
    split; [by etrans|done]. }
  destruct ready; cbn [negb]; [|by apply Hagain].
  pose proof (I_xfer sent n dr (bus (tr s2)) I2) as Hx.
  destruct (bootstrap_tx allow sent dr n seq) as [[tx sent'] n'].
  pose proof (on_bus_polled (spi_sync_transfer B (SPI_BOOTSTRAP_CLK_MHZ * NUMBER_1M) tx) s2) as P3.
  unfold on_bus at 1 in P3. unfold on_bus at 1.
  destruct (spi_sync_transfer _ _ _ _) as [[ret rx] h3]. destruct Hx as (I3 & HP1 & HP2).
  set (s3 := on_tr (fun d => d <| bus := h3 |>) s2) in *. assert (P13 : polled s s3) by (by etrans).
  destruct (Z.eqb_spec ret 0) as [->|Hr]; cbn [negb]; [|split; [done|]; by intros []].
  destruct (negb sent' && is_pending_boot rx) eqn:E1.
  - apply andb_true_iff in E1 as [Es Ep]. apply negb_true_iff in Es.
    pose proof (on_bus_polled (bus_alloc B) s3) as P4. unfold on_bus in P4 |- *.
    change (bus (tr s3)) with h3 in P4 |- *. specialize (HP1 Es eq_refl Ep).
    destruct (bus_alloc B h3) as [ok h4]. destruct ok; (split; [by etrans|]); [done|by intros []].
  - destruct (sent' && is_fresh_ack seq rx) eqn:E2; [|by apply Hagain].
    apply andb_true_iff in E2 as [Es Ea]. split; [done|]. intros _. by apply HP2.
Qed.
End Loop.

(** *** The deadline ends it *)
Context (late_ok : forall h, Z.of_nat (bus_late B h).1 < 2 ^ 62) (m2j_ok : forall ms, 0 <= m2j ms < 2 ^ 61).

Lemma check_boot_loop_fuel fuel extra allow deadline seq sent n s :
  u64 (deadline - jiffies s) < Z.of_nat fuel \/ time_after_eq (jiffies s) deadline = true ->
  check_boot_loop B m2j (fuel + extra) allow deadline seq sent n s =
  check_boot_loop B m2j fuel allow deadline seq sent n s.
Proof.
  revert sent n s. induction fuel as [|fuel IH]; intros sent n s Hl.
  { destruct Hl as [Hl|Hl].
    - pose proof (wrap_range 64 (deadline - jiffies s) ltac:(lia)). unfold in_width in *. lia.
    - destruct extra; [done|]. cbn [Nat.add check_boot_loop]. unfold time_before. by rewrite Hl. }
  cbn [Nat.add check_boot_loop]. unfold time_before. destruct (time_after_eq (jiffies s) deadline) eqn:Et; [done|].
  destruct Hl as [Hl|]; [|done]. cbn [negb].
  assert (Hsleep : forall ms sx, jiffies sx = jiffies s ->
    u64 (deadline - jiffies (msleep B m2j ms sx)) < Z.of_nat fuel \/
    time_after_eq (jiffies (msleep B m2j ms sx)) deadline = true).
  { intros ms sx Ej. unfold msleep, pass_time, on_bus. pose proof (late_ok (bus (tr sx))) as Hk.
    destruct (bus_late B (bus (tr sx))) as [k h]. cbn [fst] in Hk. cbn. rewrite Ej, <- Z.add_assoc.
    pose proof (m2j_ok ms). destruct (ticks_progress (m2j ms + 1 + Z.of_nat k) deadline (jiffies s)); [lia|by right|left; lia]. }
  assert (Hg : forall gpio (read : H -> Z * H) sx, jiffies (esp_spi_gpio_asserted gpio read sx).2 = jiffies sx).
  { intros gpio read sx. unfold esp_spi_gpio_asserted, on_bus. destruct gpio; [|done]. cbn [negb].
    destruct (read (bus (tr sx))) as [v h]. by destruct (v <? 0). }
  pose proof (Hg (handshake_gpio (tr s)) (get_handshake B) s) as J1. fold (read_handshake B s) in J1.
  destruct (read_handshake B s) as [[ret ready] s1]. cbn [snd] in J1. destruct (negb (ret =? 0)); [done|].
  pose proof (Hg (data_ready_gpio (tr s1)) (get_data_ready B) s1) as J2. fold (read_data_ready B s1) in J2.
  destruct (read_data_ready B s1) as [[ret' dr] s2]. cbn [snd] in J2. destruct (negb (ret' =? 0)); [done|].
  assert (J : jiffies s2 = jiffies s) by congruence.
  destruct (negb ready); [apply IH, Hsleep, J|].
  destruct (bootstrap_tx allow sent dr n seq) as [[tx sent'] n']. unfold on_bus.
  destruct (spi_sync_transfer _ _ _ _) as [[ret3 rx] h3]. destruct (negb (ret3 =? 0)); [done|].
  destruct (negb sent' && is_pending_boot rx); [done|]. destruct (sent' && is_fresh_ack seq rx); [done|].
  apply IH, Hsleep. exact J.
Qed.

(** The fuel is never what ends the polling. *)
Lemma boot_fuel_enough extra allow seq sent n s :
  let deadline := u64 (jiffies s + m2j (boot_timeout allow)) in
  check_boot_loop B m2j (boot_fuel m2j allow + extra) allow deadline seq sent n s =
  check_boot_loop B m2j (boot_fuel m2j allow) allow deadline seq sent n s.
Proof.
  intros deadline. apply check_boot_loop_fuel. left. unfold deadline, boot_fuel.
  pose proof (m2j_ok (boot_timeout allow)). unfold wrap. rewrite Zminus_mod_idemp_l.
  replace (jiffies s + m2j (boot_timeout allow) - jiffies s) with (m2j (boot_timeout allow)) by lia.
  rewrite Z.mod_small by lia. lia.
Qed.
End Polling.

(** ** The acknowledgement *)

(** The controller with the log of its exchanges: MOSI and MISO. *)
Section Logged.
Context {H : Type} (B : spi_bus H) (m2j : Z -> Z).
Notation H' := (H * list (list Z * list Z))%type.

Definition keep_log {A} (f : H -> A * H) (hl : H') : A * H' :=
  let '(x, h) := f hl.1 in (x, (h, hl.2)).
Definition logged : spi_bus H' :=
  mk_spi_bus (keep_log (get_handshake B)) (keep_log (get_data_ready B))
    (fun speed tx hl => let '((ret, rx), h) := spi_sync_transfer B speed tx hl.1 in ((ret, rx), (h, hl.2 ++ [(tx, rx)])))
    (keep_log (reset_direction_output B)) (fun v hl => (reset_set_value B v hl.1, hl.2))
    (keep_log (bus_late B)) (keep_log (bus_alloc B)).

(** The request left once; nothing else but empty frames did. *)
Definition silent (l : list (list Z * list Z)) : Prop := Forall (fun x => x.1 = no_frame) l.
Definition asked (seq : Z) (l : list (list Z * list Z)) : Prop :=
  exists before rx after, l = before ++ (reboot_request seq, rx) :: after /\ silent before /\ silent after.
Definition log_at (seq : Z) (sent : bool) (hl : H') : Prop := if sent then asked seq hl.2 else silent hl.2.

Lemma keep_log_snd {A} (f : H -> A * H) hl : (keep_log f hl).2.2 = hl.2.
Proof. unfold keep_log. by destruct (f hl.1). Qed.

Lemma log_exchange seq allow sent dr n l rx :
  log_at seq sent l -> let '(tx, sent', _) := bootstrap_tx allow sent dr n seq in log_at seq sent' (l.1, l.2 ++ [(tx, rx)]).
Proof.
  intros HI. unfold bootstrap_tx. destruct allow, sent; cbn [andb negb].
  2: destruct dr; cbn [negb]; [destruct (8 <=? n)|].
  all: unfold log_at in *; cbn [snd] in *.
  1, 5: destruct HI as (b & x & a & E & H1 & H2); exists b, x, (a ++ [(no_frame, rx)]);
    rewrite E, <- app_assoc; (split; [done|]; split; [done|]); apply Forall_app; by repeat constructor.
  2, 4: apply Forall_app; by repeat constructor.
  - exists l.2, rx, []. by repeat constructor.
  - exists l.2, rx, []. by repeat constructor.
Qed.

Definition acked (seq : Z) (ret : Z) (pending : option (list Z)) (hl : H') : Prop :=
  match pending with
  | None => asked seq hl.2 /\ exists tx rx l, hl.2 = l ++ [(tx, rx)] /\ is_fresh_ack seq rx = true /\ ret = ack_status rx
  | Some _ => ret = 1
  end.

Lemma check_boot_acked fuel deadline seq n (s : sys (spi H')) :
  silent (bus (tr s)).2 ->
  let '((ret, pending), s') := check_boot_loop logged m2j fuel true deadline seq false n s in
  polled s s' /\ (ret = 0 \/ pending <> None -> acked seq ret pending (bus (tr s'))).
Proof.
  intros Hs. apply (check_boot_loop_post logged m2j true seq (log_at seq) (acked seq)); [..|exact Hs].
  1-3: intros sent hl; unfold log_at; cbn [logged get_handshake get_data_ready bus_late]; by rewrite keep_log_snd.
  intros sent k dr hl HI. cbn [logged spi_sync_transfer].
  pose proof (fun rx => log_exchange seq true sent dr k hl rx HI) as Hx.
  destruct (bootstrap_tx true sent dr k seq) as [[tx sent'] k'].
  destruct (spi_sync_transfer B _ tx hl.1) as [[ret rx] h]. specialize (Hx rx). split; [exact Hx|].
  split; [done|]. intros -> -> Ha. cbn [snd] in *. split; [exact Hx|]. by exists tx, rx, hl.2.
Qed.

Lemma next_reboot_seq_spec (d : spi H') :
  let '(seq, d') := next_reboot_seq d in
  seq = u16 (spi_reboot_cmd_seq d') /\ 0 < seq < 2 ^ 16 /\ seq <> u16 (spi_reboot_cmd_seq d) /\ bus d' = bus d.
Proof.
  unfold next_reboot_seq. set (x := spi_reboot_cmd_seq d). cbn.
  assert (E : forall y, u16 (u32 y) = u16 y) by (intros y; unfold wrap; divlia).
  destruct (Z.eqb_spec (u16 (u32 (x + 1))) 0) as [E0|E0]; rewrite ?E in *; split_and!; try done; unfold wrap in *; divlia.
Qed.

(** C13: A reboot is taken for acknowledged only on a fresh, checksummed reply.
    When the bootstrap exchange without a reset GPIO returns success, the
    controller's log shows one reboot request, with a non-zero sequence number that
    is not the previous attempt's, otherwise empty frames; and its last exchange
    brought a frame whose checksum verifies and that is the successful response to
    [CMD_HOST_REBOOT] with that sequence number.  A stale response, one to another
    command or a corrupted one never ends the exchange with success. *)
Theorem spi_reboot_ack_fresh (s : sys (spi H')) pending s' :
  (bus (tr s)).2 = [] -> esp_spi_bootstrap_check_boot logged m2j true s = ((0, pending), s') ->
  exists seq before rx0 after tx rx l,
    0 < seq < 2 ^ 16 /\ seq <> u16 (spi_reboot_cmd_seq (tr s)) /\ seq = u16 (spi_reboot_cmd_seq (tr s')) /\
    (bus (tr s')).2 = before ++ (reboot_request seq, rx0) :: after /\ silent before /\ silent after /\
    (bus (tr s')).2 = l ++ [(tx, rx)] /\
    let cmd := zdrop (offset (decode_header rx)) rx in
    rx_checksum_ok false 0 rx = true /\ packet_type (decode_header rx) = pkt_code PACKET_TYPE_COMMAND_RESPONSE /\
    hdr_code cmd = cmd_num CMD_HOST_REBOOT /\ hdr_seq cmd = seq /\ hdr_status cmd = resp_num CMD_RESPONSE_SUCCESS.
Proof.
  intros Hl. unfold esp_spi_bootstrap_check_boot. destruct (_ || _); [done|].
  pose proof (next_reboot_seq_spec (tr s)) as Hs. destruct (next_reboot_seq (tr s)) as [seq d]. destruct Hs as (S1 & S2 & S3 & S4).
  set (s1 := on_tr (fun _ => d) s).
  assert (Ha : forall sx : sys (spi H'), (bus (tr (on_bus (bus_alloc logged) sx).2)).2 = (bus (tr sx)).2 /\
    spi_reboot_cmd_seq (tr (on_bus (bus_alloc logged) sx).2) = spi_reboot_cmd_seq (tr sx)).
  { intros sx. unfold on_bus. cbn [logged bus_alloc]. pose proof (keep_log_snd (bus_alloc B) (bus (tr sx))) as Hk.
    destruct (keep_log (bus_alloc B) (bus (tr sx))) as [x h]. done. }
  pose proof (Ha s1) as [A1 A1']. destruct (on_bus (bus_alloc logged) s1) as [tx s2]. cbn [snd] in A1, A1'.
  pose proof (Ha s2) as [A2 A2']. destruct (on_bus (bus_alloc logged) s2) as [rx s3]. cbn [snd] in A2, A2'.
  destruct (negb tx || negb rx); [done|]. cbv zeta. set (s4 := on_tr _ s3). intros E.
  pose proof (check_boot_acked (boot_fuel m2j true) (u64 (jiffies s4 + m2j (boot_timeout true))) seq 0 s4) as Hc.
  rewrite E in Hc. destruct Hc as [(h & j & Es) Hc].
  { change (silent (bus (tr s3)).2). rewrite A2, A1. change (bus (tr s1)) with (bus d). rewrite S4, Hl. constructor. }
  specialize (Hc (or_introl eq_refl)). destruct pending; [done|]. destruct Hc as [(before & rx0 & after & El & Hb & Haf) (tx1 & rx1 & l & El' & Hf & Hst)].
  exists seq, before, rx0, after, tx1, rx1, l.
  assert (Eseq : spi_reboot_cmd_seq (tr s') = spi_reboot_cmd_seq d).
  { rewrite Es. change (spi_reboot_cmd_seq (tr s3) = spi_reboot_cmd_seq d). by rewrite A2', A1'. }
  rewrite Eseq. cbv zeta. unfold is_fresh_ack in Hf. bool_hyps. unfold ack_status in Hst.
  assert (Hck : rx_checksum_ok false 0 rx1 = true).
  { match goal with Hd : bool_decide _ = true |- _ => apply bool_decide_eq_true in Hd; revert Hd end.
    unfold esp_spi_bootstrap_frame_valid. destruct (_ || _ || _ || _ || _); [done|]. cbv zeta iota.
    destruct (_ || _); [done|]. cbn [base.mbind option_bind needs_sum negb orb andb].
    by destruct (rx_checksum_ok false 0 rx1). }
  split_and!; try done; try lia. by destruct (hdr_status _ =? _) eqn:Eh in Hst; bool_hyps.
Qed.
End Logged.

(** ** The reset worker *)
Section ResetWorker.
Context {H : Type} (B : spi_bus H) (m2j : Z -> Z) (r : rcp).
Context (full_duplex : forall speed tx h, zlen (spi_sync_transfer B speed tx h).1.2 = SPI_BUF_SIZE).
Implicit Types (s : sys (spi H)).

(** What the worker's steps before its decision leave alone. *)
Definition gate_core s : _ := (ad s, data_path (tr s), rx_q (tr s), spi_adapter (tr s), reset_gpio (tr s), reset_work (tr s)).

Lemma polled_gate s s' : polled s s' -> gate_core s' = gate_core s.
Proof. by intros (h & j & ->). Qed.

Definition valid_pending (ret : Z) (pending : option (list Z)) : Prop :=
  match pending with
  | Some rx => ret = 1 /\ is_pending_boot rx = true /\ zlen rx = SPI_BUF_SIZE
  | None => True
  end.

Lemma check_boot_gate allow s :
  let '((ret, pending), s') := esp_spi_bootstrap_check_boot B m2j allow s in
  gate_core s' = gate_core s /\ valid_pending ret pending.
Proof.
  unfold esp_spi_bootstrap_check_boot. destruct (_ || _); [done|].
  set (p := if allow then _ else _). destruct p as [seq d] eqn:Ep.
  set (s1 := on_tr (fun _ => d) s). assert (G1 : gate_core s1 = gate_core s).
  { destruct allow; injection Ep as <- <-; done. }
  pose proof (polled_gate _ _ (on_bus_polled (bus_alloc B) s1)) as G2. destruct (on_bus (bus_alloc B) s1) as [tx s2].
  pose proof (polled_gate _ _ (on_bus_polled (bus_alloc B) s2)) as G3. destruct (on_bus (bus_alloc B) s2) as [rx s3].
  cbn [snd] in *. destruct (negb tx || negb rx); [split; [congruence|done]|]. cbv zeta. set (s4 := on_tr _ s3).
  assert (G4 : gate_core s4 = gate_core s) by (change (gate_core s4) with (gate_core s3); congruence).
  pose proof (check_boot_loop_post B m2j allow seq (fun _ _ => True) (fun ret pending _ => valid_pending ret pending)) as Hl.
  specialize (Hl (fun _ _ _ => Logic.I) (fun _ _ _ => Logic.I) (fun _ _ _ => Logic.I)).
  assert (Hx : forall sent n dr h, True -> let '(tx, sent0, _) := bootstrap_tx allow sent dr n seq in
    let '((ret, rx), h0) := spi_sync_transfer B (SPI_BOOTSTRAP_CLK_MHZ * NUMBER_1M) tx h in
    True /\ (sent0 = false -> ret = 0 -> is_pending_boot rx = true -> valid_pending 1 (Some rx)) /\
    (sent0 = true -> ret = 0 -> is_fresh_ack seq rx = true -> valid_pending (ack_status rx) None)).
  { intros sent n dr h _. destruct (bootstrap_tx allow sent dr n seq) as [[txb sent0] n0].
    pose proof (full_duplex (SPI_BOOTSTRAP_CLK_MHZ * NUMBER_1M) txb h) as Hlen.
    destruct (spi_sync_transfer _ _ txb h) as [[ret rxb] h0]. by split_and!. }
  specialize (Hl Hx (boot_fuel m2j allow) (u64 (jiffies s4 + m2j (boot_timeout allow))) false 0 s4 Logic.I).
  destruct (check_boot_loop _ _ _ _ _ _ _ _ s4) as [[ret pending] s5]. destruct Hl as [Hp Hv].
  split; [rewrite (polled_gate _ _ Hp); exact G4|]. destruct pending; [|done]. apply Hv. by right.
Qed.

Lemma hw_reset_gate s : gate_core (esp_spi_hw_reset B m2j s).2 = gate_core s.
Proof.
  unfold esp_spi_hw_reset. do 3 (case_match; [done|]).
  pose proof (polled_gate _ _ (on_bus_polled (reset_direction_output B) s)) as G1.
  destruct (on_bus _ s) as [ret s1]. cbn [snd] in G1. case_match; [done|]. cbn [snd].
  set (s2 := on_bus_ (reset_set_value B true) _). assert (G2 : gate_core s2 = gate_core s1) by done.
  pose proof (polled_gate _ _ (proj1 (pass_time_polled B 0 s2))) as G3.
  set (s3 := pass_time B 0 s2) in *. set (s4 := on_bus_ _ s3). assert (G4 : gate_core s4 = gate_core s3) by done.
  pose proof (polled_gate _ _ (proj1 (pass_time_polled B (m2j 500 + 1) s4))) as G5. fold (msleep B m2j 500 s4) in G5.
  set (s5 := msleep B m2j 500 s4) in *.
  assert (G6 : gate_core (on_tr esp_spi_restore_startup_clock s5) = gate_core s5).
  { unfold esp_spi_restore_startup_clock, gate_core. cbn. by repeat case_match. }
  congruence.
Qed.

Lemma reset_or_rescue_gate s :
  let '((ret, pending), s') := reset_or_rescue B m2j s in
  gate_core s' = gate_core s /\ (forall rx, pending = Some rx -> valid_pending ret pending).
Proof.
  unfold reset_or_rescue. destruct (reset_gpio (tr s)); cbn [esp_spi_claim_boot_rescue].
  2: { pose proof (check_boot_gate true s) as Hc. destruct (esp_spi_bootstrap_check_boot _ _ _ s) as [[ret pending] s'].
       destruct Hc. split; [done|]. by intros rx ->. }
  set (s1 := on_tr _ s). assert (G1 : gate_core s1 = gate_core s) by done.
  set (p := if spi_boot_rescue_pending _ then _ else _).
  assert (Hp : gate_core p.2 = gate_core s1 /\ valid_pending p.1.1 p.1.2).
  { subst p. destruct (spi_boot_rescue_pending _); [|done].
    pose proof (check_boot_gate false s1) as Hc. by destruct (esp_spi_bootstrap_check_boot _ _ _ s1) as [[ret pending] s'']. }
  destruct p as [[ret pending] s2]. cbn [fst snd] in Hp. destruct Hp as [G2 Hv].
  destruct (Z.eqb_spec ret 1) as [->|Hr]; [split; [congruence|]; by intros|].
  pose proof (hw_reset_gate s2) as G3. destruct (esp_spi_hw_reset B m2j s2) as [ret' s3]. cbn [snd] in G3.
  split; [congruence|]. intros rx ->. by destruct Hv.
Qed.

(** A valid boot frame passes the checks of the receive path. *)
Lemma process_pending_boot rx s :
  is_pending_boot rx = true -> zlen rx = SPI_BUF_SIZE -> data_path (tr s) = true ->
  exists intr b, process_rx_buf m2j r rx true s =
    (0, on_tr (fun d => d <| spi_boot_rescue_pending := false |> <| rx_q := q_push PrioQueue.PRIO_Q_HIGH b (rx_q d) |>
                          <| if_rx_work := intr |>) s) /\
    b = ztake (len (decode_header rx) + offset (decode_header rx)) rx.
Proof.
  unfold is_pending_boot. intros Hb Hlen Hd. bool_hyps.
  match goal with Hx : bool_decide _ = true |- _ => rename Hx into Hs end. apply bool_decide_eq_true in Hs as [n Hs].
  unfold esp_spi_bootstrap_frame_valid in *. set (h := decode_header rx) in *.
  destruct (_ || _ || _ || _ || _) eqn:Eg in Hs; [done|]. cbv zeta in Hs.
  destruct (negb (packet_type h =? _) || (len h <? offsetof_boot_data)) eqn:E1 in Hs; [done|].
  destruct (_ || _ || _) eqn:E2 in Hs; [done|]. clear Hs. bool_hyps.
  unfold SPI_BUF_SIZE, offsetof_boot_data in *.
  unfold process_rx_buf. fold h.
  assert (spi_is_dummy_rx rx = false) as ->.
  { unfold spi_is_dummy_rx. fold h. rewrite (proj2 (Z.eqb_neq (if_type h) 15)) by (cbn in *; lia). done. }
  assert (spi_is_unadvertised_idle_rx rx true = false) as -> by done. cbn [orb].
  rewrite (proj2 (Z.leb_gt _ _)) by (cbn in *; lia).
  rewrite (proj2 (Z.eqb_neq (len h) 0)) by lia. rewrite Hlen.
  assert (Hof : sizeof_header <= offset h <= ESP_MAX_OFFSET_SIZE) by (unfold ESP_OFFSET_VALID in *; bool_hyps; lia).
  unfold sizeof_header, ESP_MAX_OFFSET_SIZE, ESP_MAX_ALIGN_PADDING in Hof.
  assert (Ev : esp_host_wire_span_valid (len h) (offset h) 1600 = Some (offset h + len h)).
  { unfold esp_host_wire_span_valid. rewrite (proj2 (Z.eqb_neq (len h) 0)) by lia.
    match goal with Ho : ESP_OFFSET_VALID _ = true |- _ => rewrite Ho end. cbn [negb orb].
    by rewrite !(proj2 (Z.ltb_ge _ _)) by lia. }
  rewrite Ev, bool_decide_true by done. rewrite (proj2 (Z.ltb_ge _ _)) by (unfold SPI_BUF_SIZE; lia). cbn [negb orb].
  assert (is_boot_event rx = true) as ->.
  { unfold is_boot_event. fold h. unfold evt_event_code in *. rewrite !andb_true_iff. split_and!; lia. }
  change (data_path (tr (on_tr _ s))) with (data_path (tr s)). rewrite Hd. cbn [negb].
  rewrite wrap_id by (unfold in_width; lia).
  assert (if_prio (if_type h) = PrioQueue.PRIO_Q_HIGH) as -> by (unfold if_prio; by match goal with Hi : if_type h = _ |- _ => rewrite Hi end).
  unfold esp_process_new_packet_intr. change (ad (on_tr _ (on_tr _ s))) with (ad s).
  destruct (rx_stopped (ad s)); [exists (if_rx_work (tr s))|exists true]; eexists; (split; [|reflexivity]); [|done].
  by destruct s as [? []].
Qed.

(** A reset of the SPI target ends in a known state.  Started with the gate
    closed, as the request leaves it, the reset worker clears the in-flight flag
    and times the recovery worker unless the driver is going away; a failure other
    than a shutdown leaves the restart request set, a success clears it; and the
    gate is opened again exactly when the bootstrap exchange found a pending boot
    event - whole, of the internal interface, checksummed where the event asks for
    it - which is then at the back of the highest receive queue, so that the frame
    that cancels a reset is never lost.  After a reset or an acknowledged reboot
    the gate stays closed and nothing is queued. *)
Theorem spi_reset_work_outcome s :
  spi_adapter (tr s) = true -> data_path (tr s) = false ->
  let '((ret, pending), _) := reset_or_rescue B m2j (on_tr (fun d => d <| reset_work := false |>) s) in
  let s' := esp_spi_reset_work B m2j r s in
  spi_resetting (tr s') = false /\
  (unloading_or_removing (ad s) = false -> timer s' = Some (u64 (jiffies s' + m2j ESP_FW_RECOVERY_QUIET_MS))) /\
  (ret < 0 -> ret <> - ESHUTDOWN -> flag ESP_FW_RESTART_NEEDED (ad s') = true) /\
  (0 <= ret -> flag ESP_FW_RESTART_NEEDED (ad s') = false) /\
  match pending with
  | Some rx =>
      ret = 1 /\ is_pending_boot rx = true /\ data_path (tr s') = true /\ spi_boot_rescue_pending (tr s') = false /\
      rx_q (tr s') = q_push PrioQueue.PRIO_Q_HIGH (ztake (len (decode_header rx) + offset (decode_header rx)) rx) (rx_q (tr s))
  | None => data_path (tr s') = false /\ rx_q (tr s') = rx_q (tr s)
  end.
Proof.
  intros Had Hdp. unfold esp_spi_reset_work. set (s1 := on_tr _ s).
  pose proof (reset_or_rescue_gate s1) as Hg. destruct (reset_or_rescue B m2j s1) as [[ret pending] s2].
  destruct Hg as [G Hv]. injection G as Ga Gd Gq Gs Gr Gw.
  change (spi_adapter (tr s1)) with (spi_adapter (tr s)) in Gs. change (data_path (tr s1)) with (data_path (tr s)) in Gd.
  change (rx_q (tr s1)) with (rx_q (tr s)) in Gq. change (ad s1) with (ad s) in Ga. rewrite Had in Gs. rewrite Hdp in Gd.
  assert (Hn : exists a, note_reset_result ret s2 = on_ad (fun _ => a) s2 /\
    unloading_or_removing a = unloading_or_removing (ad s) /\
    (ret < 0 -> ret <> - ESHUTDOWN -> flag ESP_FW_RESTART_NEEDED a = true) /\
    (0 <= ret -> flag ESP_FW_RESTART_NEEDED a = false)).
  { unfold note_reset_result, mark_restart_needed. rewrite Gs. destruct (Z.ltb_spec ret 0) as [Hr|Hr].
    - destruct (Z.eqb_spec ret (- ESHUTDOWN)) as [->|Hne]; cbn [negb andb].
      + exists (ad s2). split; [by destruct s2|]. rewrite Ga. split; [done|]. split; [done|lia].
      + eexists. split; [reflexivity|]. rewrite Ga. unfold unloading_or_removing. rewrite !flag_set_flag.
        split; [done|]. split; [done|lia].
    - eexists. split; [reflexivity|]. rewrite Ga. unfold unloading_or_removing. rewrite !flag_clear_flag.
      split; [by rewrite !andb_true_r|]. split; [lia|]. by rewrite andb_false_r. }
  destruct Hn as (a & -> & Hu & Hneg & Hpos). cbv zeta.
  set (s3 := on_tr (fun d => d <| spi_resetting := false |>) (on_ad (fun _ => a) s2)).
  assert (Hf : exists d, finish_reset m2j r ret pending s3 = on_tr (fun _ => d) s3 /\ spi_resetting d = false /\
    spi_adapter d = true /\
    match pending with
    | Some rx => ret = 1 /\ is_pending_boot rx = true /\ data_path d = true /\ spi_boot_rescue_pending d = false /\
        rx_q d = q_push PrioQueue.PRIO_Q_HIGH (ztake (len (decode_header rx) + offset (decode_header rx)) rx) (rx_q (tr s))
    | None => data_path d = false /\ rx_q d = rx_q (tr s)
    end).
  { unfold finish_reset. destruct pending as [rx|].
    - destruct (Hv rx eq_refl) as (-> & Hpb & Hlen). cbn [Z.eqb Pos.eqb].
      set (s4 := on_tr (fun d => d <| data_path := true |>) s3).
      destruct (process_pending_boot rx s4 Hpb Hlen eq_refl) as (intr & b & -> & ->). cbn [Z.eqb negb].
      eexists. split; [reflexivity|]. cbn. rewrite Gs, Gq. done.
    - assert ((if ret =? 1 then None else None) = @None (list Z)) as -> by by destruct (ret =? 1).
      destruct (_ && _).
      + eexists. split; [reflexivity|]. cbn. by rewrite Gs, Gq.
      + exists (tr s3). split; [by destruct s3|]. cbn. by rewrite Gs, Gq, Gd. }
  destruct Hf as (d & -> & Hd1 & Hd2 & Hd3). change (ad (on_tr (fun _ => d) s3)) with a.
  change (tr (on_tr (fun _ => d) s3)) with d. rewrite Hd2, Hu. cbn [andb].
  destruct (unloading_or_removing (ad s)); cbn [negb]; split_and!; try done.
Qed.
End ResetWorker.

(** ** Against the firmware's boot event *)
Lemma bootstrap_tlvs_fuel fuel fuel' data b :
  (length data <= fuel)%nat -> (length data <= fuel')%nat -> bootstrap_tlvs fuel data b = bootstrap_tlvs fuel' data b.
Proof.
  revert fuel' data b. induction fuel as [|f IH]; intros [|f'] [|tag [|n body]] b H1 H2; cbn in H1, H2; try lia; try done.
  cbn. destruct (zlen body <? n); [done|]. destruct (bootstrap_tlv _ _ b) as [b'|]; [|done]. cbn.
  apply IH; unfold zdrop; rewrite length_drop; lia.
Qed.

Definition bootstrap_parse (data : list Z) (b : boot_seen) : option boot_seen := bootstrap_tlvs (length data) data b.

Lemma bootstrap_parse_tlv tag val rest b :
  bootstrap_parse (tlv tag val ++ rest) b = bootstrap_tlv tag val b ≫= bootstrap_parse rest.
Proof.
  unfold bootstrap_parse, tlv. cbn [app length bootstrap_tlvs].
  rewrite (proj2 (Z.ltb_ge _ _)) by zlia. rewrite ztake_app_exact, zdrop_app_exact by done.
  destruct (bootstrap_tlv tag val b) as [b'|]; [|done].
  apply (bootstrap_tlvs_fuel (S (length (val ++ rest))) (length rest)); rewrite ?length_app; lia.
Qed.

(** Metadata of an SPI target that the host's parser accepts. *)
Definition spi_boot_ok (e : spi_env) (fb : fw_boot) : Prop :=
  is_byte (chip_id fb) /\ chip_id fb <> ESP_FIRMWARE_CHIP_UNRECOGNIZED /\
  (forall c, spi_clk fb = Some c -> is_byte c /\ c <> 0) /\
  in_width 32 (cap fb) /\ has_cap (cap fb) ESP_WLAN_SPI_SUPPORT = true /\
  (has_cap (cap fb) ESP_CHECKSUM_ENABLED = true -> spi_checksum e = true) /\
  (forall mac, boot_mac fb = Some mac -> bytes_ok mac).

Lemma boot_event_bytes_ok e fb : spi_boot_ok e fb -> bytes_ok (boot_event_bytes fb).
Proof.
  intros (Hc & _ & Hs & _ & _ & _ & Hm).
  assert (Ht : forall tag val, is_byte tag -> bytes_ok val -> zlen val < 256 -> bytes_ok (tlv tag val)).
  { intros tag val H1 H2 H3. constructor; [done|]. constructor; [|done]. pose proof (zlen_nonneg val). unfold is_byte, in_width. lia. }
  assert (Hd : bytes_ok (boot_tlv_bytes fb)).
  { unfold boot_tlv_bytes, bytes_ok. rewrite !Forall_app. split_and!.
    - apply Ht; [done|by apply Forall_singleton|done].
    - destruct (spi_clk fb) as [c|]; [|constructor]. destruct (Hs c eq_refl) as [Hb _]. apply Ht; [done|by apply Forall_singleton|done].
    - apply Ht; [done|apply le_bytes_ok|done].
    - destruct (ext_cap fb =? 0); [constructor|]. apply Ht; [done|apply le_bytes_ok|done].
    - unfold esp_hosted_add_boot_mac_tlv. destruct (boot_mac fb) as [mac|]; [|constructor].
      destruct (Z.odd _ || _) eqn:Eo; [constructor|]. specialize (Hm mac eq_refl). apply Ht; [done| |].
      + apply Forall_app. split; [by apply Forall_ztake|]. apply orb_false_iff in Eo as [_ Eo]. apply Forall_singleton.
        destruct (Z.eqb_spec (mac_count fb) 1) as [->|]; [done|].
        destruct (Z.eqb_spec (mac_count fb) 2) as [->|]; [done|]. by destruct (Z.eqb_spec (mac_count fb) 4) as [->|].
      + rewrite zlen_app, zlen_ztake. change (zlen [mac_count fb]) with 1. unfold BootEvent.MAC_ADDR_LEN. lia.
    - apply Ht; [done|apply le_bytes_ok|done].
    - apply Ht; [done| |done]. unfold fw_data_bytes. apply Forall_app. split; [by repeat constructor|].
      apply Forall_app. split; [by repeat constructor|apply le_bytes_ok]. }
  unfold boot_event_bytes, bytes_ok. rewrite !Forall_app. split_and!; [by repeat constructor|apply le_bytes_ok| |done].
  repeat constructor; try done; unfold wrap, is_byte, in_width; divlia.
Qed.

Lemma boot_tlvs_bootstrap e fb b :
  spi_boot_ok e fb -> s_cap b = false -> s_chip b = false -> s_fw b = false -> s_clk b = false ->
  exists clk, bootstrap_parse (boot_tlv_bytes fb) b =
    Some (mk_seen true true true clk (needs_sum b || has_cap (cap fb) ESP_CHECKSUM_ENABLED)).
Proof.
  intros (Hc & Hun & Hs & Hw & Hcap & _ & _) B1 B2 B3 B4. unfold boot_tlv_bytes.
  rewrite bootstrap_parse_tlv.
  assert (bootstrap_tlv ESP_BOOTUP_FIRMWARE_CHIP_ID [chip_id fb] b = Some (b <| s_chip := true |>)) as ->.
  { change (bootstrap_tlv ESP_BOOTUP_FIRMWARE_CHIP_ID [chip_id fb] b) with
      (if s_chip b || false || (chip_id fb =? ESP_FIRMWARE_CHIP_UNRECOGNIZED) then None else Some (b <| s_chip := true |>)).
    by rewrite B2, (proj2 (Z.eqb_neq _ _) Hun). }
  cbn [base.mbind option_bind]. set (b1 := b <| s_chip := true |>).
  assert (Hclk : exists clk, forall rest, bootstrap_parse (match spi_clk fb with Some c => tlv ESP_BOOTUP_SPI_CLK_MHZ [c] | None => [] end ++ rest) b1
    = bootstrap_parse rest (b1 <| s_clk := clk |>)).
  { destruct (spi_clk fb) as [c|]; [|exists false; intros rest; cbn [app]; f_equal; unfold b1; destruct b; cbn in *; by subst].
    exists true. intros rest. rewrite bootstrap_parse_tlv. destruct (Hs c eq_refl) as [_ Hc0].
    change (bootstrap_tlv ESP_BOOTUP_SPI_CLK_MHZ [c] b1) with
      (if s_clk b || false || (c =? 0) then None else Some (b1 <| s_clk := true |>)).
    by rewrite B4, (proj2 (Z.eqb_neq _ _) Hc0). }
  destruct Hclk as [clk ->]. set (b2 := b1 <| s_clk := clk |>).
  rewrite bootstrap_parse_tlv.
  set (ck := has_cap (cap fb) ESP_CHECKSUM_ENABLED).
  assert (bootstrap_tlv ESP_BOOTUP_CAPABILITY (le_bytes 4 (cap fb)) b2 =
    Some (b2 <| needs_sum := needs_sum b2 || ck |> <| s_cap := true |>)) as ->.
  { change (bootstrap_tlv ESP_BOOTUP_CAPABILITY (le_bytes 4 (cap fb)) b2) with
      (if s_cap b || false then None else if negb (has_cap (le_val (le_bytes 4 (cap fb))) ESP_WLAN_SPI_SUPPORT) then None
       else Some (b2 <| needs_sum := needs_sum b2 || has_cap (le_val (le_bytes 4 (cap fb))) ESP_CHECKSUM_ENABLED |>
                     <| s_cap := true |>)).
    by rewrite le_val_4, Hcap, B1 by done. }
  cbn [base.mbind option_bind]. set (b3 := b2 <| needs_sum := _ |> <| s_cap := true |>).
  assert (Hskip : forall l rest, (l = [] \/ exists tag val, l = tlv tag val /\ bootstrap_tlv tag val b3 = Some b3) ->
    bootstrap_parse (l ++ rest) b3 = bootstrap_parse rest b3).
  { intros l rest [->|(tag & val & -> & Hb)]; [done|]. by rewrite bootstrap_parse_tlv, Hb. }
  rewrite Hskip.
  2: { destruct (ext_cap fb =? 0); [by left|right]. by do 2 eexists. }
  rewrite Hskip.
  2: { unfold esp_hosted_add_boot_mac_tlv. destruct (boot_mac fb) as [mac|]; [|by left].
       destruct (Z.odd _ || _); [by left|right]. by do 2 eexists. }
  rewrite Hskip by (right; by do 2 eexists).
  rewrite <- (app_nil_r (tlv ESP_BOOTUP_FW_DATA _)), bootstrap_parse_tlv.
  change (bootstrap_tlv ESP_BOOTUP_FW_DATA (fw_data_bytes (reset_reason fb)) b3) with
    (if s_fw b || false then None else Some (b3 <| s_fw := true |>)).
  rewrite B3. exists clk. done.
Qed.

(** The frame as the bootstrap code expects it: the packet type filled in. *)
Definition event_frame (e : spi_env) (fb : fw_boot) : list Z :=
  let evt := boot_event_bytes fb in
  let h := boot_header (zlen evt) <| packet_type := pkt_code PACKET_TYPE_EVENT |> in
  let frame := encode_header h ++ evt in
  if spi_checksum e then encode_header (h <| checksum := compute_checksum false 0 frame (zlen frame) |>) ++ evt
  else frame.

Lemma event_header_wf n c :
  in_width 16 n -> in_width 16 c -> header_wf (boot_header n <| packet_type := pkt_code PACKET_TYPE_EVENT |> <| checksum := c |>).
Proof. intros Hn Hc. unfold header_wf, boot_header, is_byte, in_width, sizeof_header in *. cbn. lia. Qed.

Lemma event_frame_spec e fb :
  zlen (spi_boot_frame e fb) <= ESP_BOOTUP_EVENT_BUF_SIZE ->
  let evt := boot_event_bytes fb in
  let h := boot_header (zlen evt) <| packet_type := pkt_code PACKET_TYPE_EVENT |> in
  exists c, header_wf (h <| checksum := c |>) /\ event_frame e fb = encode_header (h <| checksum := c |>) ++ evt /\
    8 <= zlen evt <= 244 /\ (spi_checksum e = false -> c = 0) /\
    (spi_checksum e = true -> c = compute_checksum false 0 (encode_header h ++ evt) (12 + zlen evt)).
Proof.
  intros Hl. destruct (spi_boot_frame_spec e fb Hl) as (_ & _ & _ & _ & Hlen). pose proof (boot_event_len fb) as Hmin.
  cbv zeta. unfold event_frame. set (evt := boot_event_bytes fb) in *. clearbody evt.
  unfold ESP_BOOTUP_EVENT_BUF_SIZE, sizeof_header in *.
  set (h := boot_header (zlen evt) <| packet_type := pkt_code PACKET_TYPE_EVENT |>).
  assert (Hw : forall c, in_width 16 c -> header_wf (h <| checksum := c |>))
    by (intros c Hc; apply event_header_wf; [unfold in_width; lia|done]).
  destruct (spi_checksum e).
  - exists (compute_checksum false 0 (encode_header h ++ evt) (12 + zlen evt)).
    split; [apply Hw, compute_checksum_range|]. split; [|split; [lia|split; [done|done]]].
    rewrite zlen_app, zlen_encode_header. done.
  - exists 0. split; [by apply Hw|]. split; [done|]. split; [lia|done].
Qed.

(** With the packet type, the same event is recognised. *)
Lemma event_frame_pending e fb :
  zlen (spi_boot_frame e fb) <= ESP_BOOTUP_EVENT_BUF_SIZE -> spi_boot_ok e fb ->
  is_pending_boot (pad_frame (event_frame e fb)) = true.
Proof.
  intros Hl Hok. destruct (event_frame_spec e fb Hl) as (c & Hwf & Ef & Hlen & Hc0 & Hc1).
  pose proof (boot_event_bytes_ok e fb Hok) as Hb. set (evt := boot_event_bytes fb) in *.
  set (h := boot_header (zlen evt) <| packet_type := pkt_code PACKET_TYPE_EVENT |>) in *.
  set (pad := replicate (Z.to_nat (SPI_BUF_SIZE - zlen (event_frame e fb))) 0).
  assert (Eb : pad_frame (event_frame e fb) = encode_header (h <| checksum := c |>) ++ evt ++ pad)
    by (unfold pad_frame; fold pad; by rewrite Ef, <- app_assoc).
  assert (Ed : decode_header (pad_frame (event_frame e fb)) = h <| checksum := c |>) by (rewrite Eb; by apply decode_encode_header).
  assert (Ez : zdrop 12 (pad_frame (event_frame e fb)) = evt ++ pad) by (rewrite Eb; by apply zdrop_app_exact).
  assert (Hck : spi_checksum e = true -> rx_checksum_ok false 0 (pad_frame (event_frame e fb)) = true).
  { intros Hs. rewrite Eb, (Hc1 Hs).
    replace (compute_checksum false 0 (encode_header h ++ evt) (12 + zlen evt))
      with (compute_checksum false 0 (encode_header h ++ evt ++ pad) (12 + zlen evt)).
    - apply checksummed_ok; [|done| |].
      + apply (event_header_wf (zlen evt) 0); unfold in_width; lia.
      + apply Forall_app. split; [done|]. by apply Forall_replicate.
      + change (zlen evt + 12 = 12 + zlen evt). lia.
    - rewrite app_assoc. apply compute_checksum_app; [|lia]. rewrite zlen_app, zlen_encode_header. unfold sizeof_header. lia. }
  unfold is_pending_boot. rewrite Ed. apply andb_true_iff. split; [done|]. apply bool_decide_eq_true.
  unfold esp_spi_bootstrap_frame_valid. rewrite Ed.
  change (offset (h <| checksum := c |>)) with 12. change (len (h <| checksum := c |>)) with (zlen evt).
  change (if_type (h <| checksum := c |>)) with 3. change (checksum (h <| checksum := c |>)) with c.
  change (packet_type (h <| checksum := c |>)) with (pkt_code PACKET_TYPE_EVENT). rewrite Ez.
  rewrite (proj2 (Z.eqb_neq (zlen evt) 0)) by lia.
  change (SPI_BUF_SIZE - 12) with 1588. rewrite (proj2 (Z.ltb_ge 1588 _)) by lia.
  change (negb (3 =? if_code ESP_INTERNAL_IF) || negb (ESP_OFFSET_VALID 12) || (SPI_BUF_SIZE <? 12) || false || false) with false.
  cbv zeta iota. rewrite (proj2 (Z.ltb_ge (zlen evt) _)) by (unfold offsetof_boot_data; lia).
  change (negb (pkt_code PACKET_TYPE_EVENT =? pkt_code PACKET_TYPE_EVENT) || false) with false. cbv iota.
  change (evt_event_code (evt ++ pad)) with ESP_INTERNAL_BOOTUP_EVENT. change (evt_status (evt ++ pad)) with 0.
  change (evt_len (evt ++ pad)) with (u8 (zlen (boot_tlv_bytes fb))).
  assert (Et : zlen evt = 8 + zlen (boot_tlv_bytes fb)).
  { unfold evt, boot_event_bytes. rewrite !zlen_app, zlen_le_bytes. change (zlen [_; _]) with 2. change (zlen [_; _; _; _]) with 4. lia. }
  rewrite wrap_id by (unfold in_width; pose proof (zlen_nonneg (boot_tlv_bytes fb)); lia).
  rewrite (proj2 (Z.ltb_ge (zlen evt - _) _)) by (unfold offsetof_boot_data; lia).
  change (negb (ESP_INTERNAL_BOOTUP_EVENT =? ESP_INTERNAL_BOOTUP_EVENT) || negb (0 =? 0) || false) with false. cbv iota.
  change (evt_data (evt ++ pad)) with (boot_tlv_bytes fb ++ pad). rewrite ztake_app_exact by done.
  destruct (boot_tlvs_bootstrap e fb (mk_seen false false false false (negb true || negb (c =? 0))) Hok eq_refl eq_refl eq_refl eq_refl)
    as [clk Ep]. unfold bootstrap_parse in Ep. rewrite Ep. cbn [base.mbind option_bind s_cap s_chip s_fw needs_sum negb orb andb].
  destruct (spi_checksum e) eqn:Es.
  - rewrite Hck by done. rewrite andb_false_r. by eexists.
  - rewrite Hc0 by done. destruct Hok as (_ & _ & _ & _ & _ & Hcs & _).
    destruct (has_cap (cap fb) ESP_CHECKSUM_ENABLED); [specialize (Hcs eq_refl); congruence|]. by eexists.
Qed.

(** Finding: the boot-first rescue never recognises the firmware.  The host's
    bootstrap exchange, the retirement of the rescue and so the branch that cancels
    a reset for a firmware already up all ask for a frame of type
    [PACKET_TYPE_EVENT]; [send_bootup_event_to_host] of the SPI slave leaves the
    packet type of its boot event zero, unlike the USB and SPI-HD firmware.  So its
    event is neither a pending boot event nor a boot event, and polling a firmware
    that offers it, and dummies, never finds one: the target is reset although it
    is up.  With the packet type filled in the same event would be recognised. *)
Theorem spi_boot_rescue_never_matches {H} (B : spi_bus H) m2j e fb s :
  zlen (spi_boot_frame e fb) <= ESP_BOOTUP_EVENT_BUF_SIZE ->
  (forall speed tx h, let rx := (spi_sync_transfer B speed tx h).1.2 in
     rx = pad_frame (spi_boot_frame e fb) \/ rx = dummy_tx) ->
  is_boot_event (pad_frame (spi_boot_frame e fb)) = false /\
  (esp_spi_bootstrap_check_boot B m2j false s).1.1 <> 0 /\ (esp_spi_bootstrap_check_boot B m2j false s).1.2 = None /\
  (spi_boot_ok e fb -> is_pending_boot (pad_frame (event_frame e fb)) = true).
Proof.
  intros Hl HB. destruct (spi_boot_frame_spec e fb Hl) as (c & Hc & Ef & Hwf & Hlen).
  assert (Ed : packet_type (decode_header (pad_frame (spi_boot_frame e fb))) = 0).
  { unfold pad_frame. rewrite Ef, <- app_assoc, decode_encode_header by done. done. }
  assert (Hp : is_pending_boot (pad_frame (spi_boot_frame e fb)) = false).
  { unfold is_pending_boot. rewrite Ed. by destruct (if_type _ =? _). }
  split; [unfold is_boot_event; rewrite Ed; by destruct (if_type _ =? _)|].
  assert (Hd : is_pending_boot dummy_tx = false) by done.
  enough (He : (esp_spi_bootstrap_check_boot B m2j false s).1.1 <> 0 /\ (esp_spi_bootstrap_check_boot B m2j false s).1.2 = None)
    by (destruct He; split; [done|]; split; [done|]; by apply event_frame_pending).
  unfold esp_spi_bootstrap_check_boot. destruct (_ || _); [done|].
  set (s1 := on_tr _ s). destruct (on_bus (bus_alloc B) s1) as [tx s2]. destruct (on_bus (bus_alloc B) s2) as [rx s3].
  destruct (negb tx || negb rx); [done|]. cbv zeta. set (s4 := on_tr _ s3).
  pose proof (check_boot_loop_post B m2j false 0 (fun sent _ => sent = false) (fun ret pending _ => False)) as Hloop.
  specialize (Hloop (fun _ _ Hs => Hs) (fun _ _ Hs => Hs) (fun _ _ Hs => Hs)).
  assert (Hx : forall sent n dr h, sent = false -> let '(tx, sent0, _) := bootstrap_tx false sent dr n 0 in
    let '((ret, rx), h0) := spi_sync_transfer B (SPI_BOOTSTRAP_CLK_MHZ * NUMBER_1M) tx h in
    sent0 = false /\ (sent0 = false -> ret = 0 -> is_pending_boot rx = true -> False) /\
    (sent0 = true -> ret = 0 -> is_fresh_ack 0 rx = true -> False)).
  { intros sent n dr h ->. cbn [bootstrap_tx andb negb].
    pose proof (HB (SPI_BOOTSTRAP_CLK_MHZ * NUMBER_1M) no_frame h) as Hrx.
    destruct (spi_sync_transfer _ _ no_frame h) as [[ret b] h0]. cbn in Hrx. split; [done|]. split; [|done].
    intros _ _ Hb. destruct Hrx as [-> | ->]; congruence. }
  specialize (Hloop Hx (boot_fuel m2j false) (u64 (jiffies s4 + m2j (boot_timeout false))) false 0 s4 eq_refl).
  destruct (check_boot_loop _ _ _ _ _ _ _ _ s4) as [[ret pending] s5]. destruct Hloop as [_ Hv]. cbn [fst snd].
  split; [intros ->; apply Hv; by left|]. destruct pending; [|done]. exfalso. apply Hv. by right.
Qed.

(** ** Examples: a firmware that answers every request *)
Definition demo_ack (seq : Z) : list Z :=
  let h := reboot_header <| packet_type := pkt_code PACKET_TYPE_COMMAND_RESPONSE |> in
  let body := [cmd_num CMD_HOST_REBOOT; resp_num CMD_RESPONSE_SUCCESS; 0; 0] ++ le_bytes 2 seq ++ [0; 0] in
  let frame := encode_header h ++ body in
  pad_frame (encode_header (h <| checksum := compute_checksum false 0 frame (zlen frame) |>) ++ body).
(** Always ready; the reply comes with the transaction after the request. *)
Definition demo_bus : spi_bus bool :=
  mk_spi_bus (fun h => (1, h)) (fun h => (0, h))
    (fun _ tx (h : bool) => ((0, if h then demo_ack 1 else dummy_tx), bool_decide (tx = reboot_request 1)))
    (fun h => (0, h)) (fun _ h => h) (fun h => (0%nat, h)) (fun h => (true, h)).
Definition demo_mute : spi_bus unit :=
  mk_spi_bus (fun h => (1, h)) (fun h => (1, h)) (fun _ _ h => ((0, dummy_tx), h))
    (fun h => (0, h)) (fun _ h => h) (fun h => (0%nat, h)) (fun h => (true, h)).

Lemma spi_reboot_ack_fresh_witness :
  exists pending s', esp_spi_bootstrap_check_boot (logged demo_bus) (fun n => n) true (demo_spi_sys (false, @nil (list Z * list Z))) = ((0, pending), s') /\
    exists rx, (bus (tr s')).2 = [(reboot_request 1, dummy_tx); (no_frame, rx)] /\ rx_checksum_ok false 0 rx = true.
Proof.
  set (p := esp_spi_bootstrap_check_boot (logged demo_bus) (fun n => n) true (demo_spi_sys (false, @nil (list Z * list Z)))).
  assert (E : p = ((0, None), p.2)) by by vm_compute.
  exists None, p.2. split; [exact E|].
  destruct (spi_reboot_ack_fresh demo_bus (fun n => n) (demo_spi_sys (false, @nil (list Z * list Z))) None p.2 eq_refl E)
    as (seq & before & rx0 & after & tx & rx & l & _ & _ & _ & _ & _ & _ & El & Hck & _).
  assert (Elog : (bus (tr p.2)).2 = [(reboot_request 1, dummy_tx); (no_frame, demo_ack 1)]) by by vm_compute.
  exists rx. split; [|exact Hck]. rewrite Elog in El |- *.
  change [(reboot_request 1, dummy_tx); (no_frame, demo_ack 1)] with ([(reboot_request 1, dummy_tx)] ++ [(no_frame, demo_ack 1)]) in El.
  apply app_inj_tail in El as [_ El]. by injection El as _ <-.
Defined.

Lemma spi_reset_work_outcome_witness :
  flag ESP_FW_RESTART_NEEDED (ad (esp_spi_reset_work demo_mute (fun n => n) rcp_zero
    (on_tr (fun d => d <| data_path := false |>) (demo_spi_sys tt)))) = true.
Proof.
  pose proof (spi_reset_work_outcome demo_mute (fun n => n) rcp_zero (fun _ _ _ => eq_refl)
    (on_tr (fun d => d <| data_path := false |>) (demo_spi_sys tt)) eq_refl eq_refl) as Ho.
  set (p := reset_or_rescue demo_mute (fun n => n) _) in Ho.
  assert (E : p.1 = (- ETIMEDOUT, None)) by by vm_compute.
  destruct p as [[ret pending] s1]. injection E as -> ->. by apply Ho.
Defined.

Lemma spi_boot_rescue_never_matches_witness :
  (esp_spi_bootstrap_check_boot demo_mute (fun n => n) false (demo_spi_sys tt)).1.2 = None.
Proof.
  apply (spi_boot_rescue_never_matches demo_mute (fun n => n)
    (mk_spi_env true 10 true (fun _ => true) (fun _ => 0) (fun _ => 0) (fun _ => true) true ESP_OK) demo_fw (demo_spi_sys tt)).
  - by vm_compute.
  - intros. by right.
Defined.
