(* ===== verification/SpiLink.v ===== *)
(** * SpiLink: the two ends of the SPI link together

    The host's driver ([SpiData]) with the firmware ([SpiFw]) on the other side of
    the controller: a transfer exchanges the armed slot's bytes with the host's,
    and the firmware's post-processing task runs afterwards, as a step of its own.
    The two GPIO lines are edges that kick the host's worker. *)
From S2P Require Import Prelude Wire Adapter Recovery BootEvent RcpHost CmdQueue PrioQueue SpiHost SpiData.
From S2P Require Import RcpFw FwPath SdioFw SpiFw.
Import PrioQueue.

(** The slave: the firmware, and what the host sent in completed transactions
    whose result the task has not fetched. *)
Record link := mk_link { lf : spi_fw; results : list (list Z) }.
#[export] Instance eta_link : Eta link := fun l => mk_link (lf l) (results l).

(** Frames sent and received on either side, in order. *)
Record logs := mk_logs {
  fw_sent : list (list Z);
  host_got : list (list Z);
  host_sent : list (list Z);
  fw_got : list (list Z)
}.
#[export] Instance eta_logs : Eta logs := fun g => mk_logs (fw_sent g) (host_got g) (host_sent g) (fw_got g).

Section Link.
Context (e : spi_env) (m2j : Z -> Z) (r : rcp).
Implicit Types (l : link) (s : sys (spi link)) (g : logs).

(** The next transaction is set up. *)
Definition link_handshake l : bool := handshake (lf l) && (length (results l) <? length (armed (lf l)))%nat.

Definition link_transfer (speed : Z) (tx : list Z) l : (Z * list Z) * link :=
  match armed (lf l) !! length (results l) ≫= fun i => s_slots (lf l) !! i with
  | Some slot => ((0, ztake RX_BUF_SIZE (dma_tx slot)), l <| results := results l ++ [tx] |>)
  | None => ((0, replicate (Z.to_nat RX_BUF_SIZE) 0), l)
  end.

Definition fw_bus : spi_bus link :=
  mk_spi_bus (fun l => (Z.b2z (link_handshake l), l)) (fun l => (Z.b2z (data_ready (lf l)), l)) link_transfer
    (fun l => (0, l)) (fun _ l => l) (fun l => (0%nat, l)) (fun l => (true, l)).

(** The firmware moves; a rising line interrupts the host. *)
Definition rises l l' : bool :=
  (link_handshake l' && negb (link_handshake l)) || (data_ready (lf l') && negb (data_ready (lf l))).
Definition fw_moves (move : link -> link) s : sys (spi link) :=
  let l := bus (tr s) in
  let s' := on_tr (fun d => d <| bus := move l |>) s in
  if rises l (move l) then esp_spi_kick s' else s'.

(** The post-processing task fetches one result. *)
Definition fw_post (others : spi_fw -> spi_fw) l : link :=
  match results l with
  | m :: rest => mk_link (spi_transaction_post_process e others true ESP_OK m (lf l)) rest
  | [] => l
  end.

(** A frame the host may send: whole, small enough for [write_packet], checksummed
    where the firmware verifies it. *)
Definition h2e_frame (fr : list Z) : Prop :=
  link_frame fr /\ zlen fr <= SPI_BUF_SIZE - sizeof_header /\
  (spi_checksum e = true -> forall rest, rx_checksum_ok false 0 (fr ++ rest) = true).

Inductive lstep : sys (spi link) * logs -> sys (spi link) * logs -> Prop :=
  | l_host_send s g x s' : h2e_frame (skb_data x) -> write_packet id x s = (0, s') ->
      lstep (s, g) (s', g <| host_sent := host_sent g ++ [skb_data x] |>)
  | l_host_read s g b s' : read_packet s = (Some b, s') ->
      lstep (s, g) (s', g <| host_got := host_got g ++ [b] |>)
  | l_work s g : spi_work (tr s) = true -> lstep (s, g) (esp_spi_work fw_bus m2j r id id s, g)
  | l_fw_send s g b off n f' : e2h_ok b -> bh_if_type b <> if_code ESP_TEST_IF -> is_reboot_reply b = false ->
      spi_write_offset e b = inr off -> esp_spi_write e true b (lf (bus (tr s))) = (n, f') ->
      lstep (s, g) (fw_moves (fun l => l <| lf := f' |>) s, g <| fw_sent := fw_sent g ++ [frame_of e b] |>)
  | l_fw_read s g b src f' : esp_spi_read (lf (bus (tr s))) = (Some (b, src), f') ->
      lstep (s, g) (fw_moves (fun l => l <| lf := f' |>) s, g <| fw_got := fw_got g ++ [b] |>)
  | l_fw_done s g src : lstep (s, g) (fw_moves (fun l => l <| lf := esp_spi_read_done e src (lf l) |>) s, g)
  | l_fw_post s g : lstep (s, g) (fw_moves (fw_post id) s, g).

(** The firmware has just queued its boot event; the host's gate is open. *)
Definition fw_booted (fb : fw_boot) (a : fw_app) : spi_fw := (send_bootup_event_to_host e id true fb (spi_fw_init e a)).2.

Definition host_ready s : Prop :=
  spi_accepting_work s = true /\ spi_workqueue (tr s) = true /\ handshake_gpio (tr s) = true /\
  data_ready_gpio (tr s) = true.

Record link_start (fb : fw_boot) (s : sys (spi link)) : Prop := mk_link_start {
  st_host : host_ready s;
  st_queues : tx_q (tr s) = q_empty /\ rx_q (tr s) = q_empty /\ spi_work (tr s) = true;
  st_boot : zlen (spi_boot_frame e fb) <= ESP_BOOTUP_EVENT_BUF_SIZE;
  st_fw : exists a, restarting a = false /\ bus (tr s) = mk_link (fw_booted fb a) []
}.

(** ** The invariant *)

(** The frames of one priority. *)
Definition at_p (p : prio) (fs : list (list Z)) : list (list Z) := List.filter (fun fr => bool_decide (frame_prio fr = p)) fs.
(** What the firmware keeps of a frame it verified. *)
Definition clr (fr : list Z) : list Z := if spi_checksum e then zero_checksum fr else fr.

Definition tx_item_ok (p : prio) (b : buf_handle) : Prop :=
  link_frame (bh_payload b) /\ frame_prio (bh_payload b) = p /\ bh_if_type b <> if_code ESP_TEST_IF /\
  is_reboot_ack b = false.

(** [cur]: the frame in the armed slot; [res]: what the host sent in a transaction
    that is done but not processed. *)
Record link_at g s (i : nat) (cur : option (list Z)) (res : option (option (list Z))) : Prop := mk_link_at {
  la_host : host_ready s;
  la_run : restarting (sa (lf (bus (tr s)))) = false;
  la_armed : armed (lf (bus (tr s))) = [i];
  la_slots : length (s_slots (lf (bus (tr s)))) = SPI_SLOT_NUM;
  la_slot : exists slot, s_slots (lf (bus (tr s))) !! i = Some slot /\ in_use slot = true /\ reboot_ack slot = false /\
    dma_tx slot = match cur with Some fr => pad_to RX_BUF_SIZE fr | None => dummy_tx end;
  la_idle : forall j x, j <> i -> s_slots (lf (bus (tr s))) !! j = Some x -> in_use x = false;
  la_cur : forall fr, cur = Some fr -> link_frame fr;
  la_results : results (bus (tr s)) = match res with None => [] | Some src => [pad_to RX_BUF_SIZE (default [] src)] end;
  la_src : forall fr, res = Some (Some fr) -> h2e_frame fr;
  la_e2h : forall p, at_p p (fw_sent g) = at_p p (host_got g) ++ q_at p (rx_q (tr s))
     ++ at_p p (match res with None => option_list cur | Some _ => [] end)
     ++ (bh_payload <$> q_at p (spi_tx_queue (lf (bus (tr s)))));
  la_h2e : forall p, clr <$> at_p p (host_sent g) = at_p p (fw_got g) ++ (fst <$> q_at p (spi_rx_queue (lf (bus (tr s)))))
     ++ (clr <$> at_p p (match res with Some (Some fr) => [fr] | _ => [] end))
     ++ ((clr ∘ skb_data) <$> q_at p (tx_q (tr s)));
  la_fwq : forall p, Forall (tx_item_ok p) (q_at p (spi_tx_queue (lf (bus (tr s)))));
  la_rxq : forall p, Forall (fun b => frame_prio b = p) (q_at p (rx_q (tr s)));
  la_fwrxq : forall p, Forall (fun x => frame_prio x.1 = p) (q_at p (spi_rx_queue (lf (bus (tr s)))));
  la_hostq : forall p, Forall (fun x => h2e_frame (skb_data x) /\ frame_prio (skb_data x) = p) (q_at p (tx_q (tr s)));
  la_ready : (spi_tx_queue (lf (bus (tr s))) <> q_empty \/ (res = None /\ cur <> None)) -> data_ready (lf (bus (tr s))) = true;
  la_low : res = None -> cur = None -> spi_tx_queue (lf (bus (tr s))) = q_empty -> data_ready (lf (bus (tr s))) = false;
  la_live : spi_work (tr s) = false -> res = None ->
    cur = None /\ spi_tx_queue (lf (bus (tr s))) = q_empty /\
    (above_rx_ready (ad s) = true -> tx_q (tr s) = q_empty)
}.

(** ** What the host's functions do to the parts the invariant speaks of *)
Definition host_core (d : spi link) :=
  (data_path d, spi_adapter d, spi_resetting d, spi_workqueue d, handshake_gpio d, data_ready_gpio d).

Lemma host_ready_same s s' :
  ad s' = ad s -> host_core (tr s') = host_core (tr s) -> host_ready s -> host_ready s'.
Proof.
  intros Ea [= E1 E2 E3 E4 E5 E6] (H1 & H2 & H3 & H4). unfold host_ready, spi_accepting_work in *.
  by rewrite Ea, E1, E2, E3, E4, E5, E6.
Qed.

Lemma host_ready_path s : host_ready s -> data_path (tr s) = true.
Proof. intros (Ha & _). unfold spi_accepting_work in Ha. by bool_hyps. Qed.

Lemma on_bus_id {A} (f : link -> A * link) x s : f (bus (tr s)) = (x, bus (tr s)) -> on_bus f s = (x, s).
Proof. unfold on_bus, on_tr. intros ->. by destruct s as [? []]. Qed.

Lemma read_handshake_spec s : host_ready s -> read_handshake fw_bus s = ((0, link_handshake (bus (tr s))), s).
Proof.
  intros (_ & _ & Hg & _). unfold read_handshake, esp_spi_gpio_asserted. rewrite Hg. cbn [negb].
  rewrite (on_bus_id (get_handshake fw_bus) (Z.b2z (link_handshake (bus (tr s))))) by reflexivity. by destruct (link_handshake _).
Qed.

Lemma read_data_ready_spec s : host_ready s -> read_data_ready fw_bus s = ((0, data_ready (lf (bus (tr s)))), s).
Proof.
  intros (_ & _ & _ & Hg). unfold read_data_ready, esp_spi_gpio_asserted. rewrite Hg. cbn [negb].
  rewrite (on_bus_id (get_data_ready fw_bus) (Z.b2z (data_ready (lf (bus (tr s)))))) by reflexivity. by destruct (data_ready _).
Qed.

Lemma ztake_pad fr : zlen fr <= RX_BUF_SIZE -> ztake RX_BUF_SIZE (pad_to RX_BUF_SIZE fr) = pad_to RX_BUF_SIZE fr.
Proof. intros Hl. apply ztake_ge. unfold pad_to. rewrite zlen_app, zlen_replicate. lia. Qed.

Lemma zlen_pad fr : zlen fr <= RX_BUF_SIZE -> zlen (pad_to RX_BUF_SIZE fr) = RX_BUF_SIZE.
Proof. intros Hl. unfold pad_to. rewrite zlen_app, zlen_replicate. lia. Qed.

Lemma zero_frame_len (fr : list Z) : forallb (Z.eqb 0) fr = true -> len (decode_header fr) = 0.
Proof.
  intros Hz. assert (E : fr = replicate (length fr) 0).
  { symmetry. apply replicate_as_Forall. split; [done|]. apply Forall_forall. intros x Hx.
    rewrite forallb_forall in Hz. specialize (Hz x (proj1 (list_elem_of_In _ _) Hx)). lia. }
  rewrite E. change (le_at 2 4 (replicate (length fr) 0) = 0).
  unfold le_at, ztake, zdrop. rewrite drop_replicate, take_replicate.
  generalize (Z.to_nat (Z.of_nat 2) `min` (length fr - Z.to_nat 4))%nat. intros n.
  induction n as [|n IH]; cbn; [done|]. by rewrite IH.
Qed.

(** A frame arrives as its header says, without the padding. *)
Lemma process_rx_frame fr rx s :
  link_frame fr -> data_path (tr s) = true ->
  exists resc intr, process_rx_buf m2j r (pad_to RX_BUF_SIZE fr) rx s =
    (0, on_tr (fun d => d <| spi_boot_rescue_pending := resc |> <| rx_q := q_push (frame_prio fr) fr (rx_q d) |>
                          <| if_rx_work := intr |>) s).
Proof.
  intros Hf Hd. destruct Hf as [Hl Ho Ht Hm Hi] eqn:Ef. pose proof (link_frame_min fr Hf) as Hmin. clear Ef.
  set (b := pad_to RX_BUF_SIZE fr).
  assert (Eh : decode_header b = decode_header fr) by (by apply link_frame_pad).
  assert (Eb : zlen b = RX_BUF_SIZE) by (by apply zlen_pad).
  assert (Et : ztake (zlen fr) b = fr) by (by apply ztake_app_exact).
  unfold process_rx_buf. rewrite Eh, Eb.
  assert (spi_is_dummy_rx b = false) as ->.
  { unfold spi_is_dummy_rx. rewrite Eh. rewrite (proj2 (Z.eqb_neq (len _) 0)) by lia. by rewrite !andb_false_r. }
  assert (spi_is_unadvertised_idle_rx b rx = false) as ->.
  { unfold spi_is_unadvertised_idle_rx. case_match; [done|]. destruct (forallb _ b) eqn:Ez; [|done].
    apply zero_frame_len in Ez. rewrite Eh in Ez. lia. }
  cbn [orb]. rewrite (proj2 (Z.leb_gt _ _)) by lia. rewrite (proj2 (Z.eqb_neq (len (decode_header fr)) 0)) by lia.
  assert (Ev : esp_host_wire_span_valid (len (decode_header fr)) (offset (decode_header fr)) RX_BUF_SIZE =
    Some (offset (decode_header fr) + len (decode_header fr))).
  { unfold esp_host_wire_span_valid. rewrite Ho, (proj2 (Z.eqb_neq _ _)) by lia. cbn [negb orb].
    unfold ESP_OFFSET_VALID in Ho. bool_hyps. by rewrite !(proj2 (Z.ltb_ge _ _)) by lia. }
  rewrite Ev, bool_decide_true by done. unfold ESP_OFFSET_VALID in Ho. bool_hyps.
  rewrite (proj2 (Z.ltb_ge _ _)) by (unfold RX_BUF_SIZE, SPI_BUF_SIZE, sizeof_header in *; lia). cbn [negb orb].
  rewrite wrap_id by (unfold in_width, RX_BUF_SIZE, sizeof_header in *; lia). rewrite <- Ht, Et.
  assert (Es : exists resc, (if is_boot_event b then on_tr esp_spi_retire_boot_rescue s else s) =
    on_tr (fun d => d <| spi_boot_rescue_pending := resc |>) s).
  { destruct (is_boot_event b); [by exists false|]. exists (spi_boot_rescue_pending (tr s)). by destruct s as [? []]. }
  destruct Es as [resc ->]. change (data_path (tr (on_tr _ s))) with (data_path (tr s)). rewrite Hd. cbn [negb].
  unfold esp_process_new_packet_intr. fold (frame_prio fr).
  change (ad (on_tr _ (on_tr _ s))) with (ad s). destruct (rx_stopped (ad s)).
  - exists resc, (if_rx_work (tr s)). by destruct s as [? []].
  - exists resc, true. done.
Qed.

Lemma process_rx_dummy rx s : process_rx_buf m2j r dummy_tx rx s = (- ENODATA, s).
Proof. done. Qed.

(** *** The worker *)
Notation work s := (esp_spi_work fw_bus m2j r id id s).
Notation off_queue s := (on_tr (fun d => d <| spi_work := false |>) s).

Lemma work_no_handshake s : host_ready s -> link_handshake (bus (tr s)) = false -> work s = off_queue s.
Proof.
  intros Hr Hh. unfold esp_spi_work.
  set (s1 := off_queue s). assert (Hr1 : host_ready s1) by (by apply (host_ready_same s)).
  destruct Hr1 as [Ha Hr1]. rewrite Ha. rewrite read_handshake_spec by (by split).
  change (bus (tr s1)) with (bus (tr s)). rewrite Hh. cbn [negb Z.eqb].
  by rewrite read_data_ready_spec by (by split).
Qed.

Lemma work_nothing s :
  host_ready s -> data_ready (lf (bus (tr s))) = false -> (above_rx_ready (ad s) = true -> tx_q (tr s) = q_empty) ->
  work s = off_queue s.
Proof.
  intros Hr Hd Hq. unfold esp_spi_work.
  set (s1 := off_queue s). assert (Hr1 : host_ready s1) by (by apply (host_ready_same s)).
  destruct Hr1 as [Ha Hr1]. rewrite Ha. rewrite read_handshake_spec by (by split). cbn [negb Z.eqb].
  rewrite read_data_ready_spec by (by split). change (bus (tr s1)) with (bus (tr s)).
  destruct (link_handshake _); [|done]. rewrite Hd. cbn [negb andb Z.eqb].
  assert (data_path (tr s1) && above_rx_ready (ad s1) && has_tx (tr s1) = false) as ->; [|done].
  change (ad s1) with (ad s). unfold has_tx. change (tx_q (tr s1)) with (tx_q (tr s)).
  destruct (above_rx_ready (ad s)); [|by rewrite andb_false_r]. rewrite Hq by done. by rewrite !andb_false_r.
Qed.

(** What a transaction did to the host. *)
Record moved_tx s s' (src : option tx_skb) (cur : option (list Z)) : Prop := mk_moved_tx {
  mt_ad : ad s' = ad s;
  mt_core : host_core (tr s') = host_core (tr s);
  mt_work : spi_work (tr s') = false;
  mt_rx : rx_q (tr s') = match cur with Some fr => q_push (frame_prio fr) fr (rx_q (tr s)) | None => rx_q (tr s) end;
  mt_tx : match src with
          | Some x => above_rx_ready (ad s) = true /\ q_pop (tx_q (tr s)) = Some (x, tx_q (tr s'))
          | None => tx_q (tr s') = tx_q (tr s) /\ (above_rx_ready (ad s) = true -> tx_q (tr s) = q_empty)
          end
}.

Lemma next_tx_spec s :
  host_ready s -> spi_work (tr s) = false ->
  let '(src, s1) := spi_next_tx s in moved_tx s s1 src None /\ bus (tr s1) = bus (tr s).
Proof.
  intros Hr Hw. unfold spi_next_tx. rewrite (host_ready_path _ Hr). cbn [andb].
  destruct (above_rx_ready (ad s)) eqn:Ea;
    [|split; [constructor; try done; split; [done|congruence]|done]].
  destruct (q_pop (tx_q (tr s))) as [[x q]|] eqn:Ep.
  2: { split; [|done]. constructor; try done. split; [done|]. intros _. by apply q_pop_none. }
  cbv zeta. set (s2 := if _ && _ then _ else _).
  assert (E2 : exists tp qp, s2 = on_tr (fun d => d <| tx_q := q |> <| tx_pending := tp |> <| queue_paused := qp |>) s).
  { subst s2. destruct (_ && _); unfold on_tr, tx_pending_dec; cbn; destruct (0 <? _); destruct s as [? []]; by do 2 eexists. }
  destruct E2 as (tp & qp & ->). done.
Qed.

Lemma process_cur rx cur s :
  (forall fr, cur = Some fr -> link_frame fr) -> data_path (tr s) = true -> spi_work (tr s) = false ->
  let s' := (process_rx_buf m2j r (ztake RX_BUF_SIZE
               (match cur with Some fr => pad_to RX_BUF_SIZE fr | None => dummy_tx end)) rx s).2 in
  ad s' = ad s /\ host_core (tr s') = host_core (tr s) /\ spi_work (tr s') = false /\ bus (tr s') = bus (tr s) /\
  tx_q (tr s') = tx_q (tr s) /\
  rx_q (tr s') = match cur with Some fr => q_push (frame_prio fr) fr (rx_q (tr s)) | None => rx_q (tr s) end.
Proof.
  intros Hc Hd Hw. cbv zeta. destruct cur as [fr|].
  - specialize (Hc fr eq_refl). rewrite ztake_pad by (apply Hc).
    destruct (process_rx_frame fr rx s Hc Hd) as (resc & intr & ->). by split_and!.
  - change (ztake RX_BUF_SIZE dummy_tx) with dummy_tx. by rewrite process_rx_dummy.
Qed.

Lemma work_moves s i slot cur :
  host_ready s -> restarting (sa (lf (bus (tr s)))) = false -> armed (lf (bus (tr s))) = [i] ->
  results (bus (tr s)) = [] -> s_slots (lf (bus (tr s))) !! i = Some slot ->
  dma_tx slot = match cur with Some fr => pad_to RX_BUF_SIZE fr | None => dummy_tx end ->
  (forall fr, cur = Some fr -> link_frame fr) ->
  data_ready (lf (bus (tr s))) = true \/ (above_rx_ready (ad s) = true /\ tx_q (tr s) <> q_empty) ->
  exists src, moved_tx s (work s) src cur /\ bus (tr (work s)) = bus (tr s) <| results := [tx_buf src] |>.
Proof.
  intros Hr Hrs Ha Hres Hs Hdma Hc Hgo. unfold esp_spi_work.
  set (s1 := off_queue s). assert (Hr1 : host_ready s1) by (by apply (host_ready_same s)).
  assert (Hh : link_handshake (bus (tr s1)) = true).
  { unfold link_handshake, handshake. change (bus (tr s1)) with (bus (tr s)). rewrite Hrs, Ha, Hres. done. }
  rewrite (proj1 Hr1), (read_handshake_spec _ Hr1), Hh. cbn [negb Z.eqb].
  rewrite (read_data_ready_spec _ Hr1). cbn [Z.eqb negb].
  change (bus (tr s1)) with (bus (tr s)). set (dr := data_ready (lf (bus (tr s)))) in *.
  assert (E1 : negb dr && negb (data_path (tr s1) && above_rx_ready (ad s1) && has_tx (tr s1)) = false).
  { destruct dr; [done|]. destruct Hgo as [|[Hab Hne]]; [done|].
    rewrite (host_ready_path _ Hr1). change (ad s1) with (ad s). rewrite Hab. unfold has_tx.
    change (tx_q (tr s1)) with (tx_q (tr s)). destruct (q_is_empty _) eqn:Eq; [|done]. by apply q_is_empty_iff in Eq. }
  rewrite E1. clear E1.
  rewrite !(on_bus_id (bus_alloc fw_bus) true) by reflexivity. cbn [negb].
  pose proof (next_tx_spec s1 Hr1 eq_refl) as Hn. destruct (spi_next_tx s1) as [src s2]. destruct Hn as [Hn Hb2].
  assert (E2 : negb dr && negb (bool_decide (is_Some src)) = false).
  { destruct dr; [done|]. destruct Hgo as [|[Hab Hne]]; [done|]. destruct src; [done|].
    destruct (mt_tx _ _ _ _ Hn) as [_ Ht]. by specialize (Ht Hab). }
  rewrite E2. clear E2. assert (Hr2 : host_ready s2) by (apply (host_ready_same s1); [apply Hn|apply Hn|done]).
  change (id s2) with s2. rewrite (proj1 Hr2). cbn [negb]. exists src.
  unfold spi_transfer. change (spi_sync_transfer fw_bus) with link_transfer. unfold on_bus, link_transfer.
  rewrite Hb2. change (bus (tr s1)) with (bus (tr s)). rewrite Ha, Hres.
  change ([i] !! length (@nil (list Z))) with (Some i). cbn [base.mbind option_bind]. rewrite Hs. cbn [Z.eqb negb]. rewrite Hdma. set (l3 := bus (tr s) <| results := _ |>).
  set (s3 := on_tr (fun d => d <| bus := l3 |>) s2). change (id s3) with s3.
  assert (Hr3 : host_ready s3) by (by apply (host_ready_same s2)).
  pose proof (process_cur dr cur s3 Hc (host_ready_path _ Hr3) (mt_work _ _ _ _ Hn)) as Hp. cbv zeta in Hp.
  set (s4 := (process_rx_buf _ _ _ _ s3).2) in *. destruct Hp as (P1 & P2 & P3 & P4 & P5 & P6).
  assert (Hr4 : host_ready s4) by (by apply (host_ready_same s3)).
  assert (Hq : esp_spi_requeue_if_pending fw_bus m2j s4 = s4).
  { unfold esp_spi_requeue_if_pending. rewrite (proj1 Hr4), (proj1 (proj2 Hr4)). cbn [negb orb].
    rewrite (read_handshake_spec _ Hr4). cbn [Z.eqb negb]. rewrite (read_data_ready_spec _ Hr4). cbn [Z.eqb negb].
    assert (link_handshake (bus (tr s4)) = false) as ->; [|done].
    rewrite P4. unfold link_handshake. change (bus (tr s3)) with l3. unfold l3. cbn. rewrite Ha. cbn.
    by rewrite andb_false_r. }
  rewrite Hq. split; [|by rewrite P4].
  destruct Hn as [N1 N2 N3 N4 N5]. constructor.
  - rewrite P1. exact N1.
  - rewrite P2. exact N2.
  - exact P3.
  - rewrite P6. change (rx_q (tr s3)) with (rx_q (tr s2)). by rewrite N4.
  - rewrite P5. exact N5.
Qed.

(** ** Each step keeps the invariant *)
Lemma at_p_app p fs1 fs2 : at_p p (fs1 ++ fs2) = at_p p fs1 ++ at_p p fs2.
Proof. apply List.filter_app. Qed.

Lemma at_p_one p fr : at_p p [fr] = if decide (p = frame_prio fr) then [fr] else [].
Proof. unfold at_p. cbn. destruct (decide (p = frame_prio fr)); [by rewrite bool_decide_true|by rewrite bool_decide_false]. Qed.

Lemma tx_buf_pad src : (forall x, src = Some x -> zlen (skb_data x) <= RX_BUF_SIZE) ->
  tx_buf src = pad_to RX_BUF_SIZE (default [] (skb_data <$> src)).
Proof.
  intros Hl. destruct src as [x|]; [|done]. specialize (Hl x eq_refl). unfold tx_buf, pad_to. cbn.
  change SPI_BUF_SIZE with RX_BUF_SIZE. by rewrite ztake_ge.
Qed.

(** The invariant speaks of these parts only. *)
Lemma link_at_same g s s' i cur res :
  link_at g s i cur res -> ad s' = ad s -> host_core (tr s') = host_core (tr s) -> bus (tr s') = bus (tr s) ->
  tx_q (tr s') = tx_q (tr s) -> rx_q (tr s') = rx_q (tr s) ->
  (spi_work (tr s') = false -> res = None -> data_ready (lf (bus (tr s))) = false /\
     (above_rx_ready (ad s) = true -> tx_q (tr s) = q_empty)) ->
  link_at g s' i cur res.
Proof.
  intros [] Ea Ec Eb Et Er Hl. constructor; rewrite ?Eb, ?Et, ?Er; try done.
  - by apply (host_ready_same s).
  - intros Hw Hn. destruct (Hl Hw Hn) as [Hd Hq]. split_and!.
    + destruct cur as [fr|]; [|done]. rewrite la_ready0 in Hd by (by right). done.
    + destruct (q_is_empty (spi_tx_queue (lf (bus (tr s))))) eqn:Eq; [by apply q_is_empty_iff|].
      rewrite la_ready0 in Hd; [done|]. left. intros E. apply q_is_empty_iff in E. congruence.
    + by rewrite Ea.
Qed.

(** What is left to move, in half turns. *)
Definition load s (cur : option (list Z)) : Z :=
  2 * zlen (q_all (spi_tx_queue (lf (bus (tr s))))) + zlen (option_list cur) + 2 * zlen (q_all (tx_q (tr s))).

(** A run of the worker stops at a silent link, or moves a frame if there is one. *)
Definition worked s cur (res : option (option (list Z))) s' : Prop :=
  match res with
  | None => spi_work (tr s') = false
  | Some _ =>
      load s' cur <= load s cur /\
      (cur = None -> spi_tx_queue (lf (bus (tr s'))) = q_empty -> load s' cur < load s cur)
  end.

Lemma work_load g s i cur s' src :
  link_at g s i cur None -> moved_tx s s' src cur -> bus (tr s') = bus (tr s) <| results := [tx_buf src] |> ->
  data_ready (lf (bus (tr s))) || (above_rx_ready (ad s) && negb (q_is_empty (tx_q (tr s)))) = true ->
  worked s cur (Some (skb_data <$> src)) s'.
Proof.
  intros Hi Hm Hb Hgo. unfold worked, load. rewrite Hb.
  change (lf (bus (tr s) <| results := _ |>)) with (lf (bus (tr s))).
  pose proof (mt_tx _ _ _ _ Hm) as Ht. destruct src as [x|].
  - destruct Ht as [_ Ht%q_pop_length]. lia.
  - destruct Ht as [-> Ht]. split; [lia|]. intros Hc Hq. exfalso.
    rewrite (la_low _ _ _ _ _ Hi eq_refl Hc Hq) in Hgo. cbn [orb] in Hgo. bool_hyps.
    rewrite Ht in * by done. done.
Qed.

Lemma step_work g s i cur res :
  link_at g s i cur res -> exists res', link_at g (work s) i cur res' /\ (res = None -> worked s cur res' (work s)).
Proof.
  intros Hi. pose proof (la_host _ _ _ _ _ Hi) as Hr. destruct res as [src0|].
  { exists (Some src0). split; [|done]. rewrite work_no_handshake; [by apply (link_at_same g s)|done|].
    unfold link_handshake. rewrite (la_armed _ _ _ _ _ Hi), (la_results _ _ _ _ _ Hi). cbn. by rewrite andb_false_r. }
  destruct (data_ready (lf (bus (tr s))) || (above_rx_ready (ad s) && negb (q_is_empty (tx_q (tr s))))) eqn:Hgo.
  2: { apply orb_false_iff in Hgo as [Hd Hq]. assert (Hq' : above_rx_ready (ad s) = true -> tx_q (tr s) = q_empty).
       { intros Ha. rewrite Ha in Hq. cbn in Hq. apply q_is_empty_iff. by destruct (q_is_empty _). }
       exists None. rewrite work_nothing by done. split; [by apply (link_at_same g s)|done]. }
  destruct (la_slot _ _ _ _ _ Hi) as (slot & Hs & _ & _ & Hdma).
  destruct (work_moves s i slot cur Hr (la_run _ _ _ _ _ Hi) (la_armed _ _ _ _ _ Hi)) as (src & Hm & Hb);
    [exact (la_results _ _ _ _ _ Hi)|done|done|exact (la_cur _ _ _ _ _ Hi)| |].
  { apply orb_true_iff in Hgo as [Hgo|Hgo]; [by left|right]. bool_hyps. split; [done|].
    intros E. apply q_is_empty_iff in E. rewrite E in *. done. }
  exists (Some (skb_data <$> src)). split.
  2: { intros _. by apply (work_load g s i cur _ src). }
  destruct Hi. destruct Hm as [N1 N2 N3 N4 N5].
  assert (Hsrc : forall x, src = Some x -> h2e_frame (skb_data x) /\
    forall p, q_at p (tx_q (tr s)) = (if decide (p = frame_prio (skb_data x)) then [x] else []) ++ q_at p (tx_q (tr (work s)))).
  { intros x ->. destruct N5 as [_ N5]. apply q_pop_some in N5 as (p0 & Hp0 & Hoth & _).
    pose proof (la_hostq0 p0) as Hq. rewrite Hp0 in Hq. inversion_clear Hq as [|? ? [Hx Hxp] _]. split; [done|].
    intros p. destruct (decide (p = frame_prio (skb_data x))) as [Ep|Ep]; [by rewrite Ep, Hxp|]. rewrite Hxp in Ep.
    by rewrite Hoth. }
  assert (Hsub : forall p, Forall (fun x => h2e_frame (skb_data x) /\ frame_prio (skb_data x) = p) (q_at p (tx_q (tr (work s))))).
  { intros p. destruct src as [x|]; [|destruct N5 as [-> _]; auto]. destruct (Hsrc x eq_refl) as [_ Hq].
    specialize (la_hostq0 p). rewrite Hq in la_hostq0. by apply Forall_app in la_hostq0 as [_ ?]. }
  constructor; rewrite ?Hb; try done.
  - by apply (host_ready_same s).
  - cbn. f_equal. apply tx_buf_pad. intros x Ex. destruct (Hsrc x Ex) as [[_ [Hz _]] _]. unfold SPI_BUF_SIZE, RX_BUF_SIZE, sizeof_header in *. lia.
  - intros fr [= Ex]. destruct src as [x|]; [|done]. cbn in Ex. injection Ex as <-. by apply Hsrc.
  - intros p. change (lf (bus (tr s) <| results := _ |>)) with (lf (bus (tr s))). rewrite (la_e2h0 p), N4.
    destruct cur as [fr|]; [|done]. cbv iota. change (option_list (Some fr)) with [fr]. change (at_p p []) with (@nil (list Z)). rewrite at_p_one, q_at_push, <- !app_assoc. done.
  - intros p. change (lf (bus (tr s) <| results := _ |>)) with (lf (bus (tr s))). rewrite (la_h2e0 p). f_equal. f_equal.
    destruct src as [x|]; [|by destruct N5 as [-> _]]. destruct (Hsrc x eq_refl) as [_ Hq]. change (skb_data <$> Some x) with (Some (skb_data x)). cbv iota.
    rewrite (Hq p), at_p_one, fmap_app. cbn [app fmap list_fmap]. by destruct (decide _).
  - intros p. rewrite N4. destruct cur as [fr|]; [|auto]. rewrite q_at_push. apply Forall_app. split; [auto|].
    destruct (decide _); [|done]. by repeat constructor.
  - intros [Hne|[]]; [|done]. apply la_ready0. by left.
Qed.

(** *** The firmware *)
Context (rx_malloc_ok : rx_malloc e = true) (queue_trans_ok : queue_trans e = ESP_OK).

Lemma get_next_spec f :
  (forall p, Forall (tx_item_ok p) (q_at p (spi_tx_queue f))) ->
  get_next_tx_buffer e (tx_queued f) f =
  match q_pop (spi_tx_queue f) with Some (b, q) => (Some b, f <| spi_tx_queue := q |>) | None => (None, f) end.
Proof.
  intros Hq. unfold tx_queued. destruct (q_pop (spi_tx_queue f)) as [[b q]|] eqn:Ep.
  - rewrite (q_pop_all _ _ _ Ep). cbn [length get_next_tx_buffer]. rewrite Ep.
    apply q_pop_some in Ep as (p & Hp & _). specialize (Hq p). rewrite Hp in Hq.
    inversion_clear Hq as [|? ? (_ & _ & Ht & _) _]. by rewrite (proj2 (Z.eqb_neq _ _) Ht).
  - destruct (length _); cbn [get_next_tx_buffer]; [done|]. by rewrite Ep.
Qed.

Lemma acquire_spec f : exists src rp eu, acquire_rx_buf e f = Some (src, f <| rx_pool := rp |> <| emergency_in_use := eu |>).
Proof.
  unfold acquire_rx_buf. rewrite rx_malloc_ok. destruct (0 <? rx_pool f).
  - exists RxPool, (rx_pool f - 1), (emergency_in_use f). by destruct f.
  - destruct (negb (emergency_in_use f)).
    + exists RxEmergency, (rx_pool f), true. by destruct f.
    + exists RxPool, (rx_pool f), (emergency_in_use f). by destruct f.
Qed.

Lemma list_find_idle (l : list spi_slot) :
  (exists j x, l !! j = Some x /\ in_use x = false) ->
  exists j x, list_find (fun x => in_use x = false) l = Some (j, x) /\ l !! j = Some x /\ in_use x = false.
Proof.
  intros (j & x & Hj & Hx).
  destruct (list_find_elem_of (fun x => in_use x = false) l x) as [[j' x'] E]; [by eapply list_elem_of_lookup_2|done|].
  exists j', x'. split; [done|]. by apply list_find_Some in E as (? & ? & _).
Qed.

(** Arming the next transaction: the next frame, or the dummy. *)
Lemma queue_next_spec f :
  restarting (sa f) = false -> armed f = [] ->
  (exists j x, s_slots f !! j = Some x /\ in_use x = false) ->
  (forall p, Forall (tx_item_ok p) (q_at p (spi_tx_queue f))) ->
  exists j x src f', queue_next_transaction e id f = f' /\
    s_slots f !! j = Some x /\ in_use x = false /\ restarting (sa f') = false /\ armed f' = [j] /\
    spi_rx_queue f' = spi_rx_queue f /\
    match q_pop (spi_tx_queue f) with
    | Some (b, q) =>
        s_slots f' = <[j := mk_slot true (pad_to RX_BUF_SIZE (bh_payload b)) false src]> (s_slots f) /\
        spi_tx_queue f' = q /\ data_ready f' = true
    | None =>
        s_slots f' = <[j := mk_slot true dummy_tx false src]> (s_slots f) /\
        spi_tx_queue f' = q_empty /\ data_ready f' = false
    end.
Proof.
  intros Hr Ha Hidle Hq. unfold queue_next_transaction.
  destruct (list_find_idle _ Hidle) as (j & x & -> & Hj & Hx).
  destruct (acquire_spec f) as (src & rp & eu & ->). rewrite get_next_spec by done.
  change (spi_tx_queue (f <| rx_pool := rp |> <| emergency_in_use := eu |>)) with (spi_tx_queue f).
  exists j, x, src. rewrite queue_trans_ok. cbn [Z.eqb negb].
  destruct (q_pop (spi_tx_queue f)) as [[b q]|] eqn:Ep.
  - eexists. split; [done|]. apply q_pop_some in Ep as (p & Hp & _). specialize (Hq p). rewrite Hp in Hq.
    inversion_clear Hq as [|? ? (_ & _ & _ & Hack) _]. rewrite Hack. split_and!; try done.
    cbn. by rewrite Ha.
  - pose proof (proj1 (q_pop_none _) Ep) as Hemp.
    eexists. split; [done|].
    change (spi_tx_queue (f <| rx_pool := rp |> <| emergency_in_use := eu |>)) with (spi_tx_queue f). rewrite Hemp.
    split_and!; try done. cbn. by rewrite Ha.
Qed.

Lemma clr_prio fr : link_frame fr -> frame_prio (clr fr) = frame_prio fr.
Proof.
  intros Hf. unfold clr. destruct (spi_checksum e); [|done]. pose proof (link_frame_min fr Hf) as Hm.
  destruct fr as [|b fr]; [done|]. done.
Qed.

(** A frame of the host arrives; an all-zero transaction is idle. *)
Lemma process_spi_rx_frame fr src f :
  h2e_frame fr ->
  process_spi_rx e true (pad_to RX_BUF_SIZE fr) src f =
  (0, f <| spi_rx_queue := q_push (frame_prio fr) (clr fr, src) (spi_rx_queue f) |>).
Proof.
  intros (Hf & _ & Hck). destruct Hf as [Hl Ho Ht Hm Hi] eqn:Ef. pose proof (link_frame_min fr Hf) as Hmin. clear Ef.
  assert (Eh : decode_header (pad_to RX_BUF_SIZE fr) = decode_header fr) by (by apply link_frame_pad).
  unfold process_spi_rx. rewrite Eh. unfold ESP_OFFSET_VALID in *. rewrite Ho.
  bool_hyps. unfold sizeof_header, RX_BUF_SIZE in *.
  rewrite (proj2 (Z.leb_gt _ _)) by done. rewrite (proj2 (Z.eqb_neq (len _) 0)) by lia.
  rewrite !(proj2 (Z.ltb_ge _ _)) by lia. cbn [negb orb].
  assert (spi_checksum e && negb (rx_checksum_ok false 0 (pad_to 1600 fr)) = false) as ->.
  { destruct (spi_checksum e); [|done]. unfold pad_to. by rewrite Hck. }
  rewrite andb_false_r. rewrite wrap_id by (unfold in_width; lia).
  assert (ztake (len (decode_header fr) + offset (decode_header fr))
    (if spi_checksum e then zero_checksum (pad_to 1600 fr) else pad_to 1600 fr) = clr fr) as ->; [|done].
  unfold clr, pad_to. rewrite <- Ht. destruct (spi_checksum e).
  - rewrite zero_checksum_app by lia. apply ztake_app_exact. rewrite zlen_zero_checksum; lia.
  - by apply ztake_app_exact.
Qed.

Lemma process_spi_rx_idle src f : process_spi_rx e true (pad_to RX_BUF_SIZE []) src f = (-1, f).
Proof. done. Qed.

Lemma recycle_frame src f :
  exists rp eu, recycle_spi_rx_buf e src f = f <| rx_pool := rp |> <| emergency_in_use := eu |>.
Proof.
  unfold recycle_spi_rx_buf. destruct src.
  - destruct (_ <? _).
    + exists (rx_pool f + 1), (emergency_in_use f). by destruct f.
    + exists (rx_pool f), (emergency_in_use f). by destruct f.
  - exists (rx_pool f), false. by destruct f.
Qed.

(** The end of a turn: what was received is queued or not, the slot is free. *)
Lemma post_rx_spec i src (fr : option (list Z)) f :
  (forall b, fr = Some b -> h2e_frame b) ->
  let '(rx, f1) := process_spi_rx e true (pad_to RX_BUF_SIZE (default [] fr)) src f in
  let f' := release_slot i (if rx =? 0 then f1 else recycle_spi_rx_buf e src f1) in
  sa f' = sa f /\ armed f' = armed f /\ spi_tx_queue f' = spi_tx_queue f /\ data_ready f' = data_ready f /\
  s_slots f' = alter (fun x => x <| reboot_ack := false |> <| in_use := false |>) i (s_slots f) /\
  spi_rx_queue f' = match fr with Some b => q_push (frame_prio b) (clr b, src) (spi_rx_queue f) | None => spi_rx_queue f end.
Proof.
  intros Hfr. destruct fr as [b|].
  - cbn [default from_option id]. rewrite process_spi_rx_frame by auto. by split_and!.
  - cbn [default from_option]. rewrite process_spi_rx_idle. cbn [Z.eqb].
    destruct (recycle_frame src f) as (rp & eu & ->). by split_and!.
Qed.

(** The lines only fall, or the worker is kicked. *)
Lemma fw_moves_spec move s :
  host_ready s ->
  let s' := fw_moves move s in
  ad s' = ad s /\ host_core (tr s') = host_core (tr s) /\ bus (tr s') = move (bus (tr s)) /\
  tx_q (tr s') = tx_q (tr s) /\ rx_q (tr s') = rx_q (tr s) /\
  spi_work (tr s') = (rises (bus (tr s)) (move (bus (tr s))) || spi_work (tr s)).
Proof.
  intros Hr. cbv zeta. unfold fw_moves. destruct (rises _ _); [|by split_and!].
  unfold esp_spi_kick. set (s1 := on_tr _ s). assert (Hr1 : host_ready s1) by (by apply (host_ready_same s)).
  rewrite (proj1 Hr1), (proj1 (proj2 Hr1)). by split_and!.
Qed.

Lemma idle_slot_left i (l : list spi_slot) :
  length l = SPI_SLOT_NUM -> (forall j x, j <> i -> l !! j = Some x -> in_use x = false) ->
  exists j x, l !! j = Some x /\ in_use x = false.
Proof.
  intros Hlen Hidle. set (j := if decide (i = 0%nat) then 1%nat else 0%nat).
  assert (Hj : j <> i) by (unfold j; case_decide; congruence).
  destruct (lookup_lt_is_Some_2 l j) as [x Hx]; [rewrite Hlen; unfold j, SPI_SLOT_NUM; case_decide; lia|].
  exists j, x. split; [done|]. by apply (Hidle j).
Qed.

(** Fetching a result: the next slot is armed, what the host sent is queued. *)
Lemma post_turn f i slot fr :
  restarting (sa f) = false -> armed f = [i] -> length (s_slots f) = SPI_SLOT_NUM -> s_slots f !! i = Some slot ->
  in_use slot = true -> reboot_ack slot = false ->
  (forall j x, j <> i -> s_slots f !! j = Some x -> in_use x = false) ->
  (forall p, Forall (tx_item_ok p) (q_at p (spi_tx_queue f))) -> (forall b, fr = Some b -> h2e_frame b) ->
  let f' := spi_transaction_post_process e id true ESP_OK (pad_to RX_BUF_SIZE (default [] fr)) f in
  exists j x, restarting (sa f') = false /\ armed f' = [j] /\ length (s_slots f') = SPI_SLOT_NUM /\
    s_slots f' !! j = Some x /\ in_use x = true /\ reboot_ack x = false /\
    (forall k y, k <> j -> s_slots f' !! k = Some y -> in_use y = false) /\
    spi_rx_queue f' = match fr with Some b => q_push (frame_prio b) (clr b, slot_rx slot) (spi_rx_queue f)
                      | None => spi_rx_queue f end /\
    match q_pop (spi_tx_queue f) with
    | Some (b, q) => dma_tx x = pad_to RX_BUF_SIZE (bh_payload b) /\ spi_tx_queue f' = q /\ data_ready f' = true
    | None => dma_tx x = dummy_tx /\ spi_tx_queue f' = q_empty /\ data_ready f' = false
    end.
Proof.
  intros Hr Ha Hlen Hs Hu Hack Hidle Hq Hfr f'. subst f'. unfold spi_transaction_post_process. rewrite Ha, Hs, Hack.
  set (f0 := f <| armed := [] |>). change (negb (ESP_OK =? ESP_OK) || negb false) with true. cbv iota.
  assert (Hfree : exists j x, s_slots f0 !! j = Some x /\ in_use x = false) by (by apply (idle_slot_left i)).
  destruct (queue_next_spec f0 Hr eq_refl Hfree Hq) as (j & x & src & f1 & -> & Hj & Hx & Hr1 & Ha1 & Hrx1 & Hn).
  rewrite Hr1. change (negb (ESP_OK =? ESP_OK)) with false. cbv iota.
  pose proof (post_rx_spec i (slot_rx slot) fr f1 Hfr) as Hp.
  destruct (process_spi_rx _ _ _ _ f1) as [rx f2]. cbv zeta in Hp.
  set (f3 := release_slot i _) in *. destruct Hp as (P1 & P2 & P3 & P4 & P5 & P6).
  change (s_slots f0) with (s_slots f) in *. change (spi_tx_queue f0) with (spi_tx_queue f) in *.
  assert (Hji : j <> i) by (intros ->; congruence).
  assert (Hslots : exists y, s_slots f1 = <[j := y]> (s_slots f) /\ in_use y = true /\ reboot_ack y = false /\
    match q_pop (spi_tx_queue f) with Some (b, _) => dma_tx y = pad_to RX_BUF_SIZE (bh_payload b) | None => dma_tx y = dummy_tx end).
  { destruct (q_pop _) as [[b q]|]; destruct Hn as (-> & _); by eexists. }
  destruct Hslots as (y & E1 & Y1 & Y2 & Y3). pose proof (lookup_lt_Some _ _ _ Hj) as Hlt.
  exists j, y. rewrite P1, P2, P3, P4, P5, P6, E1, length_alter, length_insert.
  split_and!; try done.
  - rewrite list_lookup_alter_ne by congruence. by rewrite list_lookup_insert_eq.
  - intros k z Hk Hz. destruct (decide (k = i)) as [->|Hki].
    + rewrite list_lookup_alter_eq in Hz. rewrite list_lookup_insert_ne, Hs in Hz by congruence. by injection Hz as <-.
    + rewrite list_lookup_alter_ne, list_lookup_insert_ne in Hz by congruence. by apply (Hidle k).
  - by rewrite Hrx1.
  - destruct (q_pop _) as [[b q]|]; destruct Hn as (_ & -> & ->); done.
Qed.

Lemma step_post g s i cur res :
  link_at g s i cur res ->
  exists i' cur', link_at g (fw_moves (fw_post id) s) i' cur' None /\
    (res <> None -> spi_tx_queue (lf (bus (tr s))) <> q_empty \/ cur <> None ->
       load (fw_moves (fw_post id) s) cur' < load s cur) /\
    (load (fw_moves (fw_post id) s) cur' <= load s cur).
Proof.
  intros Hi. pose proof (la_host _ _ _ _ _ Hi) as Hr.
  pose proof (fw_moves_spec (fw_post id) s Hr) as Hm. cbv zeta in Hm. destruct Hm as (M1 & M2 & M3 & M4 & M5 & M6).
  set (s' := fw_moves _ s) in *. clearbody s'. unfold fw_post in M3, M6.
  pose proof (la_results _ _ _ _ _ Hi) as Hres. destruct res as [src|]; rewrite Hres in M3, M6.
  2: { exists i, cur. split_and!; [|done|unfold load; rewrite M3, M4; lia]. apply (link_at_same g s); try done.
       intros Hw _. rewrite M6 in Hw. apply orb_false_iff in Hw as [_ Hw].
       destruct (la_live _ _ _ _ _ Hi Hw eq_refl) as (-> & Hq & Hh). split; [by apply (la_low _ _ _ _ _ Hi)|done]. }
  destruct Hi. destruct la_slot0 as (slot & Hs & Hu & Hack & Hdma).
  assert (Hsrc : forall b, src = Some b -> h2e_frame b) by (intros b ->; by apply la_src0).
  destruct (post_turn _ _ _ src la_run0 la_armed0 la_slots0 Hs Hu Hack la_idle0 la_fwq0 Hsrc) as
    (j & x & T1 & T2 & T3 & T4 & T5 & T6 & T7 & T8 & T9).
  set (f' := spi_transaction_post_process _ _ _ _ _ _) in *. clearbody f'.
  assert (Hrise : spi_work (tr s') = true).
  { rewrite M6. unfold rises, link_handshake, handshake. cbn. rewrite la_run0, la_armed0, Hres, T1, T2. done. }
  set (f := lf (bus (tr s))) in *. clear Hs Hu Hack Hdma la_idle0.
  assert (Hpop : exists cur', (dma_tx x = match cur' with Some fr => pad_to RX_BUF_SIZE fr | None => dummy_tx end) /\
    (forall fr, cur' = Some fr -> link_frame fr) /\
    (forall p, bh_payload <$> q_at p (spi_tx_queue f) =
       at_p p (option_list cur') ++ (bh_payload <$> q_at p (spi_tx_queue f'))) /\
    (forall p, Forall (tx_item_ok p) (q_at p (spi_tx_queue f'))) /\
    (spi_tx_queue f' <> q_empty \/ cur' <> None -> data_ready f' = true) /\
    (cur' = None -> spi_tx_queue f' = q_empty -> data_ready f' = false) /\
    2 * zlen (q_all (spi_tx_queue f')) + zlen (option_list cur') <= 2 * zlen (q_all (spi_tx_queue f)) /\
    (spi_tx_queue f <> q_empty ->
     2 * zlen (q_all (spi_tx_queue f')) + zlen (option_list cur') < 2 * zlen (q_all (spi_tx_queue f)))).
  { destruct (q_pop (spi_tx_queue f)) as [[b q]|] eqn:Ep; destruct T9 as (-> & -> & ->).
    - pose proof (q_pop_length _ _ _ Ep) as Hlen.
      apply q_pop_some in Ep as (p0 & Hp0 & Hoth & _). pose proof (la_fwq0 p0) as Hq. rewrite Hp0 in Hq.
      inversion_clear Hq as [|? ? (Hb & Hbp & _) Hq']. exists (Some (bh_payload b)).
      change (zlen (option_list (Some (bh_payload b)))) with 1. split_and!; try done; try lia.
      + by intros ? [= <-].
      + intros p. change (option_list (Some (bh_payload b))) with [bh_payload b]. rewrite at_p_one, Hbp.
        destruct (decide (p = p0)) as [->|Hne]; [by rewrite Hp0|]. by rewrite Hoth.
      + intros p. destruct (decide (p = p0)) as [->|Hne]; [done|]. by rewrite Hoth.
    - apply q_pop_none in Ep. exists None. split_and!; try done.
      + intros p. by rewrite Ep, q_at_empty.
      + intros p. by rewrite q_at_empty.
      + by intros [[]|[]].
      + change (zlen (option_list None)) with 0. change (zlen (q_all q_empty)) with 0.
        pose proof (zlen_nonneg (q_all (spi_tx_queue f))). lia. }
  destruct Hpop as (cur' & C1 & C2 & C3 & C4 & C5 & C6 & C7 & C8).
  exists j, cur'. pose proof (zlen_nonneg (option_list cur)) as Hcl. split_and!.
  2: { intros _ Hne. unfold load. rewrite M3, M4. cbn [lf]. fold f. destruct Hne as [Hne|Hne]; [specialize (C8 Hne); lia|].
       destruct cur as [fr|]; [|done]. change (zlen (option_list (Some fr))) with 1. lia. }
  2: { unfold load. rewrite M3, M4. cbn [lf]. fold f. lia. }
  constructor; rewrite ?M3, ?M4, ?M5; cbn [lf results]; try done.
  - by apply (host_ready_same s).
  - by exists x.
  - intros p. rewrite (la_e2h0 p). f_equal. f_equal. change (at_p p []) with (@nil (list Z)). cbn [app]. apply C3.
  - intros p. rewrite (la_h2e0 p), T8. f_equal. destruct src as [b|]; [|done].
    rewrite q_at_push, fmap_app, at_p_one, <- app_assoc. f_equal. by destruct (decide _).
  - intros p. rewrite T8. destruct src as [b|]; [|auto]. rewrite q_at_push. apply Forall_app. split; [auto|].
    destruct (decide _) as [->|]; [|done]. repeat constructor. apply clr_prio. by apply Hsrc.
  - intros [Hne|[_ Hne]]; apply C5; [by left|by right].
  - by rewrite Hrise.
Qed.

Lemma step_host_send g s i cur res x s' :
  link_at g s i cur res -> h2e_frame (skb_data x) -> write_packet id x s = (0, s') ->
  link_at (g <| host_sent := host_sent g ++ [skb_data x] |>) s' i cur res.
Proof.
  intros Hi Hx. unfold write_packet. cbv zeta. change (id s) with s.
  destruct (_ || _); [done|]. destruct (_ <? _); [done|]. destruct (tx_gate_closed s) eqn:Eg; [done|].
  destruct (_ && _ && _); [done|]. intros [= <-].
  set (s1 := on_tr _ s). pose proof (la_host _ _ _ _ _ Hi) as Hr.
  assert (Hr1 : host_ready s1) by (by apply (host_ready_same s)).
  assert (Ek : esp_spi_kick s1 = on_tr (fun d => d <| spi_work := true |>) s1).
  { unfold esp_spi_kick. by rewrite (proj1 Hr1), (proj1 (proj2 Hr1)). }
  rewrite Ek. destruct Hi. constructor; try done.
  - intros p. cbn [host_sent update]. change (host_sent (g <| host_sent := _ |>)) with (host_sent g ++ [skb_data x]).
    rewrite at_p_app, fmap_app. rewrite (la_h2e0 p), <- !app_assoc. do 3 f_equal. 
    change (tx_q (tr (on_tr _ s1))) with (q_push (if_prio (tx_if x)) x (tx_q (tr s))).
    rewrite q_at_push, fmap_app, at_p_one. change (frame_prio (skb_data x)) with (if_prio (tx_if x)). by destruct (decide _).
  - intros p. change (tx_q (tr (on_tr _ s1))) with (q_push (if_prio (tx_if x)) x (tx_q (tr s))).
    rewrite q_at_push. apply Forall_app. split; [auto|]. destruct (decide _) as [->|]; [|done]. constructor; [by split|constructor].
Qed.

Lemma step_host_read g s i cur res b s' :
  link_at g s i cur res -> read_packet s = (Some b, s') ->
  link_at (g <| host_got := host_got g ++ [b] |>) s' i cur res.
Proof.
  intros Hi. unfold read_packet. destruct (_ || _); [done|].
  destruct (q_pop (rx_q (tr s))) as [[b' q]|] eqn:Ep; [|done]. intros [= -> <-].
  apply q_pop_some in Ep as (p0 & Hp0 & Hoth & _). destruct Hi.
  pose proof (la_rxq0 p0) as Hq. rewrite Hp0 in Hq. inversion_clear Hq as [|? ? Hb Hq'].
  constructor; try done.
  - intros p. change (host_got (g <| host_got := _ |>)) with (host_got g ++ [b]).
    change (fw_sent (g <| host_got := _ |>)) with (fw_sent g).
    change (rx_q (tr (on_tr _ s))) with q. rewrite (la_e2h0 p), at_p_app, <- !app_assoc. f_equal.
    rewrite at_p_one, Hb. destruct (decide (p = p0)) as [->|Hne]; [by rewrite Hp0|]. by rewrite Hoth.
  - intros p. change (rx_q (tr (on_tr _ s))) with q.
    destruct (decide (p = p0)) as [->|Hne]; [done|]. by rewrite Hoth.
Qed.

(** A firmware step that neither arms nor queues a frame. *)
Lemma step_fw_quiet g g' s i cur res f' :
  let f := lf (bus (tr s)) in
  link_at g s i cur res -> sa f' = sa f -> armed f' = armed f -> s_slots f' = s_slots f ->
  spi_tx_queue f' = spi_tx_queue f -> data_ready f' = data_ready f ->
  fw_sent g' = fw_sent g -> host_got g' = host_got g -> host_sent g' = host_sent g ->
  (forall p, at_p p (fw_got g') ++ (fst <$> q_at p (spi_rx_queue f')) =
             at_p p (fw_got g) ++ (fst <$> q_at p (spi_rx_queue f))) ->
  (forall p, Forall (fun x => frame_prio x.1 = p) (q_at p (spi_rx_queue f'))) ->
  link_at g' (fw_moves (fun l => l <| lf := f' |>) s) i cur res.
Proof.
  cbv zeta. intros Hi E1 E2 E3 E4 E5 G1 G2 G3 Hq Hpq. pose proof (la_host _ _ _ _ _ Hi) as Hr.
  pose proof (fw_moves_spec (fun l => l <| lf := f' |>) s Hr) as Hm. cbv zeta in Hm. destruct Hm as (M1 & M2 & M3 & M4 & M5 & M6).
  set (s' := fw_moves _ s) in *. clearbody s'.
  assert (Hw : spi_work (tr s') = spi_work (tr s)).
  { rewrite M6. unfold rises, link_handshake, handshake. cbn. rewrite E1, E2, E5. by rewrite !andb_negb_r. }
  destruct Hi. constructor; rewrite ?M3, ?M4, ?M5, ?Hw; cbn [lf results]; rewrite ?G1, ?G2, ?G3, ?M1;
    change (lf (bus (tr s) <| lf := f' |>)) with f'; rewrite ?E1, ?E2, ?E3, ?E4, ?E5; try done.
  - by apply (host_ready_same s).
  - intros p. rewrite (la_h2e0 p), !app_assoc. do 2 f_equal. symmetry. apply Hq.
Qed.

Lemma step_fw_read g s i cur res b src f' :
  link_at g s i cur res -> esp_spi_read (lf (bus (tr s))) = (Some (b, src), f') ->
  link_at (g <| fw_got := fw_got g ++ [b] |>) (fw_moves (fun l => l <| lf := f' |>) s) i cur res.
Proof.
  intros Hi. unfold esp_spi_read. destruct (q_pop _) as [[x q]|] eqn:Ep; [|done]. intros [= -> <-].
  apply q_pop_some in Ep as (p0 & Hp0 & Hoth & _).
  pose proof (la_fwrxq _ _ _ _ _ Hi) as Hq. pose proof (Hq p0) as Hq0. rewrite Hp0 in Hq0.
  inversion_clear Hq0 as [|? ? Hb Hq']. apply (step_fw_quiet g); try done.
  - intros p. change (fw_got (g <| fw_got := _ |>)) with (fw_got g ++ [b]).
    rewrite at_p_app, <- app_assoc, at_p_one. f_equal. cbn in Hb. rewrite Hb. cbn [spi_rx_queue update].
    change (spi_rx_queue (_ <| spi_rx_queue := q |>)) with q.
    destruct (decide (p = p0)) as [->|Hne]; [by rewrite Hp0|]. by rewrite Hoth.
  - intros p. change (spi_rx_queue (_ <| spi_rx_queue := q |>)) with q.
    destruct (decide (p = p0)) as [->|Hne]; [done|]. by rewrite Hoth.
Qed.

Lemma step_fw_done g s i cur res src :
  link_at g s i cur res -> link_at g (fw_moves (fun l => l <| lf := esp_spi_read_done e src (lf l) |>) s) i cur res.
Proof.
  intros Hi. unfold esp_spi_read_done. destruct (recycle_frame src (lf (bus (tr s)))) as (rp & eu & E).
  assert (Em : fw_moves (fun l => l <| lf := recycle_spi_rx_buf e src (lf l) |>) s =
    fw_moves (fun l => l <| lf := lf (bus (tr s)) <| rx_pool := rp |> <| emergency_in_use := eu |> |>) s).
  { unfold fw_moves, on_tr. by rewrite E. }
  rewrite Em. apply (step_fw_quiet g); try done. apply (la_fwrxq _ _ _ _ _ Hi).
Qed.

Lemma write_offset_range b off :
  spi_write_offset e b = inr off -> sizeof_header <= off <= ESP_MAX_OFFSET_SIZE.
Proof.
  unfold spi_write_offset, ESP_HOSTED_RCP_TX_HEADROOM, SPI_DMA_ALIGNMENT_BYTES, ESP_MAX_OFFSET_SIZE, ESP_MAX_ALIGN_PADDING,
    sizeof_header.
  repeat case_match; intros [= <-]; try lia.
  pose proof (Z.mod_pos_bound (4 - payload_at e b mod 4) 4 ltac:(lia)). lia.
Qed.

(** Only the reply to [CMD_HOST_REBOOT] makes a slot restart the firmware. *)
Lemma not_reboot_ack b q fr :
  spi_carries e b fr -> e2h_ok b -> is_reboot_reply b = false ->
  bh_payload q = fr -> is_reboot_ack q = false.
Proof.
  intros (Hf & C1 & _ & C3 & C4 & _) (Hi & _) Hrep Eq. unfold is_reboot_ack. rewrite Eq. cbv zeta.
  destruct (if_type (decode_header fr) =? ESP_INTERNAL_IF) eqn:E1; [|by rewrite !andb_false_r].
  destruct (packet_type (decode_header fr) =? PACKET_TYPE_COMMAND_RESPONSE) eqn:E2; [|by rewrite !andb_false_r].
  destruct (sizeof_command_header <=? zlen fr - offset (decode_header fr)) eqn:E3; [|by rewrite !andb_false_r].
  destruct (hdr_code _ =? _) eqn:E4; [|by rewrite !andb_false_r]. exfalso.
  assert (Ez : zdrop (offset (decode_header fr)) fr = bh_payload b).
  { rewrite <- C4, ztake_ge; [done|]. rewrite zlen_zdrop. destruct Hf. unfold ESP_OFFSET_VALID in *. bool_hyps.
    pose proof (zlen_nonneg fr). unfold sizeof_header in *. lia. }
  rewrite Ez in E4. unfold is_reboot_reply in Hrep. rewrite C1 in E1. rewrite C3 in E2.
  rewrite wrap_id in Hrep by (unfold in_width; cbn in Hi; lia). rewrite E1, E2, E4 in Hrep.
  assert ((sizeof_command_header <=? zlen (bh_payload b)) = true) as Hz; [|by rewrite Hz in Hrep].
  rewrite <- Ez, zlen_zdrop. destruct Hf. unfold ESP_OFFSET_VALID in *. bool_hyps. pose proof (zlen_nonneg fr).
  apply Z.leb_le. unfold sizeof_header in *. lia.
Qed.

Lemma fw_write_spec b off f :
  e2h_ok b -> spi_write_offset e b = inr off ->
  exists q, bh_payload q = frame_of e b /\ bh_if_type q = bh_if_type b /\
    esp_spi_write e true b f =
    (zlen (bh_payload b), f <| spi_tx_queue := q_push (frame_prio (frame_of e b)) q (spi_tx_queue f) |> <| data_ready := true |>).
Proof.
  intros Hb Ho. pose proof (write_offset_range _ _ Ho) as Hr. pose proof (spi_frame_carries e b off Hb Hr) as Hc.
  unfold frame_of. rewrite Ho. unfold esp_spi_write. rewrite Ho. cbv zeta.
  destruct Hb as (Hi & _ & Hl & Hm). unfold ESP_MAX_OFFSET_SIZE, ESP_MAX_ALIGN_PADDING, sizeof_header in *.
  rewrite (proj2 (Z.eqb_neq (zlen _) 0)) by lia. destruct (align4_spec (zlen (bh_payload b) + 12) ltac:(lia)) as [Ha _].
  rewrite (proj2 (Z.ltb_ge _ _)) by lia. cbn [negb]. rewrite andb_false_r.
  destruct Hc as (_ & C1 & _). unfold frame_prio. rewrite C1.
  assert (if_type (e2h_header b off (raw_tp_seq e b)) = bh_if_type b) as ->.
  { destruct (e2h_header_fields b off (raw_tp_seq e b)) as (-> & _). apply wrap_id. unfold in_width. cbn in Hi. lia. }
  eexists. split; [|split; [|reflexivity]]; done.
Qed.

Lemma step_fw_send g s i cur res b off n f' :
  link_at g s i cur res -> e2h_ok b -> bh_if_type b <> if_code ESP_TEST_IF -> is_reboot_reply b = false ->
  spi_write_offset e b = inr off -> esp_spi_write e true b (lf (bus (tr s))) = (n, f') ->
  link_at (g <| fw_sent := fw_sent g ++ [frame_of e b] |>) (fw_moves (fun l => l <| lf := f' |>) s) i cur res.
Proof.
  intros Hi Hb Ht Hrb Ho Ew. pose proof (la_host _ _ _ _ _ Hi) as Hr.
  pose proof (spi_frame_carries e b off Hb (write_offset_range _ _ Ho)) as Hc.
  destruct (fw_write_spec b off (lf (bus (tr s))) Hb Ho) as (q & Eq & Ei & E). rewrite E in Ew. injection Ew as _ <-.
  assert (Ef : frame_of e b = spi_frame e b off (raw_tp_seq e b)) by (unfold frame_of; by rewrite Ho). rewrite <- Ef in Hc.
  set (fr := frame_of e b) in *. clearbody fr. set (f := lf (bus (tr s))) in *.
  set (f' := f <| spi_tx_queue := q_push (frame_prio fr) q (spi_tx_queue f) |> <| data_ready := true |>).
  pose proof (fw_moves_spec (fun l => l <| lf := f' |>) s Hr) as Hm. cbv zeta in Hm. destruct Hm as (M1 & M2 & M3 & M4 & M5 & M6).
  set (s' := fw_moves _ s) in *. clearbody s'.
  assert (Hw : spi_work (tr s') = negb (data_ready f) || spi_work (tr s)).
  { rewrite M6. unfold rises, link_handshake, handshake. change (lf (bus (tr s) <| lf := f' |>)) with f'.
    change (results (bus (tr s) <| lf := f' |>)) with (results (bus (tr s))). fold f.
    change (sa f') with (sa f). change (armed f') with (armed f). change (data_ready f') with true.
    by rewrite andb_negb_r. }
  assert (Hitem : tx_item_ok (frame_prio fr) q).
  { split; [rewrite Eq; apply Hc|]. split; [by rewrite Eq|]. split; [by rewrite Ei|].
    by apply (not_reboot_ack b q fr). }
  assert (Hne : spi_tx_queue f' <> q_empty).
  { change (q_push (frame_prio fr) q (spi_tx_queue f) <> q_empty). intros E0.
    assert (Hz : q_at (frame_prio fr) (q_push (frame_prio fr) q (spi_tx_queue f)) = []) by (rewrite E0; apply q_at_empty).
    rewrite q_at_push, decide_True in Hz by done. by destruct (q_at _ _). }
  pose proof Hi as Hi'. destruct Hi. constructor; rewrite ?M3, ?M4, ?M5; cbn [lf results]; rewrite ?M1;
    change (lf (bus (tr s) <| lf := f' |>)) with f'; try done.
  - by apply (host_ready_same s).
  - intros p. change (fw_sent (g <| fw_sent := _ |>)) with (fw_sent g ++ [fr]).
    change (host_got (g <| fw_sent := _ |>)) with (host_got g).
    change (spi_tx_queue f') with (q_push (frame_prio fr) q (spi_tx_queue f)).
    rewrite at_p_app, (la_e2h0 p), <- !app_assoc, q_at_push, fmap_app, at_p_one. do 3 f_equal.
    destruct (decide _); [|done]. cbn. by rewrite Eq.
  - intros p. change (spi_tx_queue f') with (q_push (frame_prio fr) q (spi_tx_queue f)).
    rewrite q_at_push. apply Forall_app. split; [auto|]. destruct (decide _) as [->|]; [|done].
    constructor; [done|constructor].
  - intros Hw0 Hn. exfalso. rewrite Hw in Hw0. apply orb_false_iff in Hw0 as [Hd Hw0].
    destruct (la_live0 Hw0 Hn) as (Hcur & Hq & _). pose proof (la_low0 Hn Hcur Hq) as Hl. fold f in Hl. by rewrite Hl in Hd.
Qed.

(** ** From the boot event on *)
Lemma link_at_start fb s :
  link_start fb s -> exists i, link_at (mk_logs [spi_boot_frame e fb] [] [] []) s i (Some (spi_boot_frame e fb)) None.
Proof.
  intros [Hr (Htx & Hrx & Hw) Hl (a & Ha & Hb)]. destruct (boot_link_frame e fb Hl) as [Hfr Hp].
  unfold fw_booted, send_bootup_event_to_host in Hb. rewrite (proj2 (Z.ltb_ge _ _) Hl) in Hb. cbn [negb] in Hb. cbv iota in Hb.
  set (fr := spi_boot_frame e fb) in *. clearbody fr.
  set (b := mk_bh 0 0 0 0 fr 0 None) in *.
  set (f := spi_fw_init e a <| spi_tx_queue := q_push PrioQueue.PRIO_Q_HIGH b (spi_tx_queue (spi_fw_init e a)) |> <| data_ready := true |>) in *.
  assert (Hq : forall p, Forall (tx_item_ok p) (q_at p (spi_tx_queue f))).
  { intros p. destruct p; [|done..]. repeat constructor; try done; apply Hfr. }
  destruct (queue_next_spec f Ha eq_refl ltac:(by exists 0%nat, idle_slot) Hq) as (j & x & src & f' & E & Hj & _ & Hr1 & Ha1 & Hrx1 & Hn).
  cbn [snd] in Hb. rewrite E in Hb. change (q_pop (spi_tx_queue f)) with (Some (b, @q_empty buf_handle)) in Hn.
  destruct Hn as (Hs & Ht & Hd). exists j.
  assert (Hjl : (j < 3)%nat) by (by apply lookup_lt_Some in Hj).
  constructor; rewrite ?Hb; cbn [lf results]; rewrite ?Hs, ?Ht, ?Htx, ?Hrx; try done.
  - by rewrite length_insert.
  - eexists. split; [by apply list_lookup_insert_eq|]. done.
  - intros k y Hk. rewrite list_lookup_insert_ne by done. intros Hy. change (s_slots f) with (replicate SPI_SLOT_NUM idle_slot) in Hy.
    apply lookup_replicate in Hy as [-> _]. done.
  - by intros ? [= <-].
  - intros p. rewrite !q_at_empty. symmetry. exact (app_nil_r _).
  - intros p. rewrite Hrx1. by destruct p.
  - intros p. by rewrite q_at_empty.
  - intros p. by rewrite q_at_empty.
  - intros p. rewrite Hrx1. by destruct p.
  - intros p. by rewrite q_at_empty.
  - by rewrite Hw.
Qed.

(** *** Runs of the link *)
Definition link_begin (fb : fw_boot) (s : sys (spi link)) : sys (spi link) * logs :=
  (s, mk_logs [spi_boot_frame e fb] [] [] []).

(** A frame the firmware sends: the boot event, or the frame of a packet. *)
Definition sends (fb : fw_boot) (fr : list Z) : Prop :=
  fr = spi_boot_frame e fb \/ exists b, e2h_ok b /\ spi_carries e b fr.

Lemma lstep_at fb s g s' g' i cur res :
  link_at g s i cur res -> Forall (sends fb) (fw_sent g) -> lstep (s, g) (s', g') ->
  (exists i' cur' res', link_at g' s' i' cur' res') /\ Forall (sends fb) (fw_sent g').
Proof.
  intros Hi Hs Hstep. inversion Hstep; subst.
  - split; [|done]. exists i, cur, res. by eapply step_host_send.
  - split; [|done]. exists i, cur, res. by eapply step_host_read.
  - split; [|done]. destruct (step_work _ _ _ _ _ Hi) as (res' & Hi' & _). by exists i, cur, res'.
  - split; [exists i, cur, res; by eapply step_fw_send|]. apply Forall_app. split; [done|]. apply Forall_singleton.
    right. exists b. split; [done|]. unfold frame_of.
    match goal with Ho : spi_write_offset e b = inr off |- _ => rewrite Ho; by apply spi_frame_carries, (write_offset_range b) end.
  - split; [|done]. exists i, cur, res. by eapply step_fw_read.
  - split; [|done]. exists i, cur, res. by apply step_fw_done.
  - split; [|done]. destruct (step_post _ _ _ _ _ Hi) as (i' & cur' & Hi' & _). by exists i', cur', None.
Qed.

Lemma link_reaches fb s0 s g :
  link_start fb s0 -> rtc lstep (link_begin fb s0) (s, g) ->
  (exists i cur res, link_at g s i cur res) /\ Forall (sends fb) (fw_sent g).
Proof.
  intros H0 Hrun.
  enough (Hg : forall a b, rtc lstep a b -> (exists i cur res, link_at a.2 a.1 i cur res) /\ Forall (sends fb) (fw_sent a.2) ->
    (exists i cur res, link_at b.2 b.1 i cur res) /\ Forall (sends fb) (fw_sent b.2)).
  { apply (Hg _ _ Hrun). destruct (link_at_start fb s0 H0) as (i & Hi). split; [by exists i, (Some (spi_boot_frame e fb)), None|].
    apply Forall_singleton. by left. }
  clear H0 Hrun s g. intros a b Hrun. induction Hrun as [|[s g] [s1 g1] c Hstep _ IH]; [done|].
  intros [(i & cur & res & Hi) Hs]. apply IH. by eapply lstep_at.
Qed.

(** A link at rest has delivered everything. *)
Definition at_rest s g : Prop :=
  spi_work (tr s) = false /\ results (bus (tr s)) = [] /\
  forall p, at_p p (fw_sent g) = at_p p (host_got g) ++ q_at p (rx_q (tr s)) /\
    (above_rx_ready (ad s) = true ->
     clr <$> at_p p (host_sent g) = at_p p (fw_got g) ++ (fst <$> q_at p (spi_rx_queue (lf (bus (tr s)))))).

Lemma link_at_rest g s i cur : link_at g s i cur None -> spi_work (tr s) = false -> at_rest s g.
Proof.
  intros Hi Hw. destruct (la_live _ _ _ _ _ Hi Hw eq_refl) as (-> & Hq & Hh).
  split; [done|]. split; [exact (la_results _ _ _ _ _ Hi)|]. intros p.
  rewrite (la_e2h _ _ _ _ _ Hi p), (la_h2e _ _ _ _ _ Hi p), Hq, q_at_empty. split; [by rewrite !app_nil_r|].
  intros Ha. rewrite (Hh Ha), q_at_empty. by rewrite !app_nil_r.
Qed.

Lemma link_drains n : forall g s i cur,
  load s cur < Z.of_nat n -> link_at g s i cur None -> exists s', rtc lstep (s, g) (s', g) /\ at_rest s' g.
Proof.
  induction n as [|n IH]; intros g s i cur Hn Hi.
  { exfalso. unfold load in Hn.
    pose proof (zlen_nonneg (option_list cur)). pose proof (zlen_nonneg (q_all (tx_q (tr s)))).
    pose proof (zlen_nonneg (q_all (spi_tx_queue (lf (bus (tr s)))))). lia. }
  destruct (spi_work (tr s)) eqn:Hw; [|exists s; split; [apply rtc_refl|by eapply link_at_rest]].
  destruct (step_work _ _ _ _ _ Hi) as (res' & Hi1 & Hd). specialize (Hd eq_refl). unfold worked in Hd.
  pose proof (l_work s g Hw) as Hs1. destruct res' as [src|].
  2: { exists (work s). split; [by apply rtc_once|by eapply link_at_rest]. }
  destruct (step_post _ _ _ _ _ Hi1) as (i' & cur' & Hi2 & Hp1 & Hp2).
  destruct (IH g (fw_moves (fw_post id) (work s)) i' cur') as (s' & Hr & Hrest); [|exact Hi2|].
  - destruct Hd as [Hd1 Hd2]. specialize (Hp1 ltac:(done)).
    destruct (decide (cur = None)) as [Ec|Ec].
    + destruct (q_is_empty (spi_tx_queue (lf (bus (tr (work s)))))) eqn:Eq.
      * apply q_is_empty_iff in Eq. specialize (Hd2 Ec Eq). lia.
      * specialize (Hp1 ltac:(left; intros E; apply q_is_empty_iff in E; congruence)). lia.
    + specialize (Hp1 ltac:(by right)). lia.
  - exists s'. split; [|done]. eapply rtc_l; [exact Hs1|]. eapply rtc_l; [apply l_fw_post|exact Hr].
Qed.

(** C11: The SPI link streams exactly what is sent.  However the host's worker, its
    threads, the firmware's tasks and the post-processing of transactions follow
    one another from the boot event on, for each priority the frames the firmware
    sent begin with the frames the host has read followed by those in its receive
    queue - none lost, none twice, none out of order, the padding removed - and
    the same holds of the frames the host sent, with the checksum field the
    firmware clears to verify it; and a frame the firmware sent is the boot event
    or carries its packet's interface, type and bytes under a header the host
    accepts, with a checksum that verifies where the build has one. *)
Theorem spi_link_streams_exact fb s0 s g :
  link_start fb s0 -> rtc lstep (link_begin fb s0) (s, g) ->
  (forall p, at_p p (host_got g) ++ q_at p (rx_q (tr s)) `prefix_of` at_p p (fw_sent g)) /\
  (forall p, at_p p (fw_got g) ++ (fst <$> q_at p (spi_rx_queue (lf (bus (tr s))))) `prefix_of` clr <$> at_p p (host_sent g)) /\
  Forall (sends fb) (fw_sent g).
Proof.
  intros H0 Hrun. destruct (link_reaches _ _ _ _ H0 Hrun) as [(i & cur & res & Hi) Hs].
  split_and!; [intros p..|done].
  - rewrite (la_e2h _ _ _ _ _ Hi p), app_assoc. by apply prefix_app_r.
  - rewrite (la_h2e _ _ _ _ _ Hi p), app_assoc. by apply prefix_app_r.
Qed.

(** C12: The SPI link never stalls.  From any state the link can reach, runs of the
    host's worker and of the firmware's task alone - each enabled by the edges of
    the two lines - bring it to rest with every frame the firmware sent delivered
    to the host, and, once the host's adapter is ready, every frame the host sent
    delivered to the firmware; and a link at rest is always so: no wake-up is lost
    while the turns do not overlap. *)
Theorem spi_link_drains fb s0 s g :
  link_start fb s0 -> rtc lstep (link_begin fb s0) (s, g) ->
  (exists s', rtc lstep (s, g) (s', g) /\ at_rest s' g) /\
  (spi_work (tr s) = false -> results (bus (tr s)) = [] -> at_rest s g).
Proof.
  intros H0 Hrun. destruct (link_reaches _ _ _ _ H0 Hrun) as [(i & cur & res & Hi) _]. split.
  - destruct (step_post _ _ _ _ _ Hi) as (i' & cur' & Hi' & _).
    destruct (link_drains (Z.to_nat (load (fw_moves (fw_post id) s) cur' + 1)) g (fw_moves (fw_post id) s) i' cur')
      as (s' & Hr & Hrest); [lia|done|].
    exists s'. split; [|done]. eapply rtc_l; [apply l_fw_post|exact Hr].
  - intros Hw He. pose proof (la_results _ _ _ _ _ Hi) as Hres. rewrite He in Hres. destruct res as [src|]; [done|].
    by eapply link_at_rest.
Qed.

(** *** A write inside the turn of the task *)
Lemma queue_next_overtaken f b off :
  restarting (sa f) = false -> armed f = [] ->
  (exists j x, s_slots f !! j = Some x /\ in_use x = false) ->
  spi_tx_queue f = q_empty -> e2h_ok b -> spi_write_offset e b = inr off ->
  let f' := queue_next_transaction e (fun f => (esp_spi_write e true b f).2) f in
  restarting (sa f') = false /\ (bh_payload <$> q_all (spi_tx_queue f')) = [frame_of e b] /\ data_ready f' = false /\
  exists j y, armed f' = [j] /\ s_slots f' = <[j := y]> (s_slots f) /\ dma_tx y = dummy_tx.
Proof.
  cbv zeta. intros Hr Ha Hidle Hq Hb Ho. unfold queue_next_transaction.
  destruct (list_find_idle _ Hidle) as (j & x & -> & Hj & Hx).
  destruct (acquire_spec f) as (src & rp & eu & ->).
  set (f1 := f <| rx_pool := rp |> <| emergency_in_use := eu |>).
  assert (Hq1 : spi_tx_queue f1 = q_empty) by done.
  rewrite get_next_spec by (intros p; rewrite Hq1, q_at_empty; done). rewrite Hq1. cbn [q_pop q_empty q_high q_mid q_low].
  rewrite Hq1. destruct (fw_write_spec b off f1 Hb Ho) as (q & Eq & _ & Ew). cbn [q_is_empty q_pop q_empty q_high q_mid q_low].
  unfold q_is_empty. cbn [q_pop q_empty q_high q_mid q_low]. rewrite Ew. cbn [snd]. rewrite queue_trans_ok.
  change (negb (ESP_OK =? ESP_OK)) with false. cbv iota.
  split_and!; try done.
  - change (spi_tx_queue (_ <| armed := _ |>)) with (q_push (frame_prio (frame_of e b)) q (spi_tx_queue f1)).
    rewrite Hq1. destruct (frame_prio _); cbn; by rewrite Eq.
  - exists j. eexists. split; [cbn; by rewrite Ha|]. split; [reflexivity|done].
Qed.

(** Finding: a frame written while the task arms the next transaction can stay
    behind.  [queue_next_transaction] tests that the three queues are empty and
    then lowers data_ready; [esp_spi_write] runs in other tasks, queues its frame
    and raises the line.  When the write falls between the test and the lowering,
    the frame is queued, a dummy is armed and the line is low: the host's worker
    runs for the handshake edge, finds nothing to do and is not queued again, so
    the frame waits for the next frame of either side.  The write one step earlier
    or later is delivered ([spi_link_drains]). *)
Theorem spi_wakeup_lost fb s0 s g b off :
  link_start fb s0 -> rtc lstep (link_begin fb s0) (s, g) ->
  results (bus (tr s)) <> [] -> spi_tx_queue (lf (bus (tr s))) = q_empty -> tx_q (tr s) = q_empty ->
  e2h_ok b -> spi_write_offset e b = inr off ->
  let s' := work (fw_moves (fw_post (fun f => (esp_spi_write e true b f).2)) s) in
  (bh_payload <$> q_all (spi_tx_queue (lf (bus (tr s'))))) = [frame_of e b] /\
  data_ready (lf (bus (tr s'))) = false /\ spi_work (tr s') = false /\ link_handshake (bus (tr s')) = true /\
  rx_q (tr s') = rx_q (tr s).
Proof.
  intros H0 Hrun Hres Hq Htx Hb Ho. cbv zeta. destruct (link_reaches _ _ _ _ H0 Hrun) as [(i & cur & res & Hi) _].
  pose proof (la_host _ _ _ _ _ Hi) as Hr. set (others := fun f => (esp_spi_write e true b f).2).
  pose proof (fw_moves_spec (fw_post others) s Hr) as Hm. cbv zeta in Hm. destruct Hm as (M1 & M2 & M3 & M4 & M5 & _).
  set (s1 := fw_moves _ s) in *. clearbody s1. pose proof (la_results _ _ _ _ _ Hi) as Er.
  destruct res as [src|]; [|by rewrite Er in Hres]. unfold fw_post in M3. rewrite Er in M3.
  destruct Hi. destruct la_slot0 as (slot & Hs & Hu & Hack & _). set (f := lf (bus (tr s))) in *.
  assert (Hfree : exists j x, s_slots f !! j = Some x /\ in_use x = false)
    by (apply (idle_slot_left i); [done|exact la_idle0]).
  set (f0 := f <| armed := [] |>).
  destruct (queue_next_overtaken f0 b off) as (Q1 & Q2 & Q3 & j & y & Q4 & Q5 & Q6); [done..|].
  fold others in Q1, Q2, Q3, Q4, Q5. unfold spi_transaction_post_process in M3. rewrite la_armed0, Hs, Hack in M3. fold f0 in M3.
  change (negb (ESP_OK =? ESP_OK) || negb false) with true in M3. cbv iota in M3.
  set (f1 := queue_next_transaction e others _) in *. rewrite Q1 in M3.
  change (negb (ESP_OK =? ESP_OK)) with false in M3. cbv iota in M3.
  assert (Hsrc : forall z, src = Some z -> h2e_frame z) by (intros z ->; by apply la_src0).
  pose proof (post_rx_spec i (slot_rx slot) src f1 Hsrc) as Hp.
  destruct (process_spi_rx _ _ _ _ f1) as [rx f2]. cbv zeta in Hp.
  set (f3 := release_slot i _) in *. destruct Hp as (P1 & P2 & P3 & P4 & _ & _).
  assert (Hr1 : host_ready s1) by (by apply (host_ready_same s)).
  assert (Hw : work s1 = off_queue s1).
  { apply work_nothing; [done| |by rewrite M4]. rewrite M3. cbn [lf]. by rewrite P4. }
  rewrite Hw. change (tr (off_queue s1)) with (tr s1 <| spi_work := false |>).
  change (bus (tr s1 <| spi_work := false |>)) with (bus (tr s1)). rewrite M3. cbn [lf].
  rewrite P3, P4. split_and!; try done.
  unfold link_handshake, handshake. cbn [lf results]. by rewrite P1, Q1, P2, Q4.
Qed.
End Link.

(** ** Example: a chip that has just booted *)
Definition demo_spi_env : spi_env :=
  mk_spi_env true 10 true (fun _ => true) (fun _ => 0) (fun _ => 0) (fun _ => true) true ESP_OK.
Definition demo_up : sys (spi link) :=
  on_tr (fun d => d <| spi_work := true |>) (demo_spi_sys (mk_link (fw_booted demo_spi_env demo_fw app_zero) [])).
Definition demo_event : buf_handle := mk_bh 3 0 0 (pkt_code PACKET_TYPE_EVENT) [5; 0; 2; 0; 9; 9] 0 None.

Notation demo_work s := (esp_spi_work (fw_bus) (fun n => n) rcp_zero id id s).

Lemma demo_up_start : link_start demo_spi_env demo_fw demo_up.
Proof. constructor; [by split_and!|by split_and!|by vm_compute|by exists app_zero]. Qed.

Lemma demo_turn :
  rtc (lstep demo_spi_env (fun n => n) rcp_zero) (link_begin demo_spi_env demo_fw demo_up)
    (demo_work demo_up, mk_logs [spi_boot_frame demo_spi_env demo_fw] [] [] []).
Proof. apply rtc_once. by apply l_work. Qed.

Lemma spi_link_streams_exact_witness :
  at_p PrioQueue.PRIO_Q_HIGH [] ++ [spi_boot_frame demo_spi_env demo_fw]
    `prefix_of` at_p PrioQueue.PRIO_Q_HIGH [spi_boot_frame demo_spi_env demo_fw].
Proof.
  destruct (spi_link_streams_exact demo_spi_env (fun n => n) rcp_zero eq_refl eq_refl demo_fw demo_up _ _
    demo_up_start demo_turn) as [Hp _]. exact (Hp PrioQueue.PRIO_Q_HIGH).
Defined.

Lemma spi_link_drains_witness :
  exists s', rtc (lstep demo_spi_env (fun n => n) rcp_zero) (link_begin demo_spi_env demo_fw demo_up)
      (s', mk_logs [spi_boot_frame demo_spi_env demo_fw] [] [] []) /\
    at_rest demo_spi_env s' (mk_logs [spi_boot_frame demo_spi_env demo_fw] [] [] []).
Proof.
  destruct (spi_link_drains demo_spi_env (fun n => n) rcp_zero eq_refl eq_refl demo_fw demo_up _ _
    demo_up_start (rtc_refl _ _)) as [Hd _]. exact Hd.
Defined.

Lemma spi_wakeup_lost_witness :
  data_ready (lf (bus (tr (demo_work (fw_moves (fw_post demo_spi_env (fun f => (esp_spi_write demo_spi_env true demo_event f).2))
    (demo_work demo_up)))))) = false.
Proof.
  destruct (spi_wakeup_lost demo_spi_env (fun n => n) rcp_zero eq_refl eq_refl demo_fw demo_up _ _ demo_event sizeof_header
    demo_up_start demo_turn) as (_ & Hd & _); [by vm_compute|by vm_compute|by vm_compute| |done|exact Hd].
  split; [by vm_compute|]. split; [repeat constructor|]; by vm_compute.
Defined.
