(* ===== verification/UsbHost.v ===== *)
(** * UsbHost: the host's USB transport

    [host/usb/esp_usb.c] around the deframer of [UsbStream.Host]: the transmit
    queue and its worker, the completion of OUT URBs, the flush of one
    interface's traffic, the persistent IN URBs, the two vendor requests, the
    escalation of an ambiguous stream to a firmware reset,
    [quiesce]/[reinit]/[recover_transport], and [probe], [disconnect] and their
    clean-up, down to the operation table [usb_ops].

    A function that takes [tx_state_lock] is split at the points where it does
    not hold it; [UsbTx] interleaves these parts.  The host controller and the
    allocator are the parameter [usb_hc]; a queued work item is a flag. *)
From S2P Require Import Prelude Wire UsbStream Adapter Recovery BootEvent RcpHost PrioQueue.

Definition ESP_USB_RX_URBS : nat := 8.
Definition ESP_USB_TX_URBS : Z := 4.
Definition ESP_USB_TX_QUEUE_MAX : Z := 256.
Definition ESP_USB_VENDOR_REQ_READY_REPLAY : Z := 160.
Definition ESP_USB_VENDOR_REQ_SOFT_RESET : Z := 161.
Definition ESP_USB_VENDOR_STATUS_OK : Z := 0.
Definition ECONNRESET : Z := 104.

#[local] Existing Instance Host.eta_usb_rx.

(** ** The host controller

    A submission takes the endpoint and the bytes of an OUT transfer; a vendor
    request takes the request and the interface number, and gives the result and
    the four bytes of the status word. *)
Record usb_hc (H : Type) := mk_usb_hc {
  usb_submit_urb : Z -> list Z -> H -> Z * H;
  usb_control_msg : Z -> Z -> H -> (Z * list Z) * H;
  hc_alloc : H -> bool * H
}.
Arguments mk_usb_hc {H}.
Arguments usb_submit_urb {H}.
Arguments usb_control_msg {H}.
Arguments hc_alloc {H}.

(** [struct usb_endpoint_descriptor], and the standard predicates on it. *)
Record usb_ep := mk_ep { bEndpointAddress : Z; bmAttributes : Z; wMaxPacketSize : Z }.
Definition ep_is_bulk (e : usb_ep) : bool := Z.land (bmAttributes e) 3 =? 2.
Definition ep_is_in (e : usb_ep) : bool := Z.testbit (bEndpointAddress e) 7.
Definition usb_endpoint_maxp (e : usb_ep) : Z := Z.land (wMaxPacketSize e) 2047.

(** ** State: [struct esp_usb_context] *)

(** [struct esp_usb_rx_slot]: what it owns, and whether its URB is submitted. *)
Record rx_slot := mk_slot { slot_urb : bool; slot_buf : bool; slot_armed : bool }.
#[export] Instance eta_slot : Eta rx_slot := fun x => mk_slot (slot_urb x) (slot_buf x) (slot_armed x).
Definition no_slot : rx_slot := mk_slot false false false.

(** [s_adapter], [intfdata] and [adapter_dev] are the static, the interface's
    driver data and [adapter->dev]; [altsetting] is the current alternate setting,
    its [bInterfaceNumber] and endpoints; [rx] is the deframer. *)
Record usb (H : Type) := mk_usb {
  hc : H;
  s_adapter : bool;
  intfdata : bool;
  adapter_dev : bool;
  altsetting : option (Z * list usb_ep);
  bulk_in_addr : Z;
  bulk_out_addr : Z;
  bulk_out_mps : Z;
  high_speed : bool;
  running : bool;
  tx_quiesced : bool;
  flush_in_progress : bool;
  flush_if_type : Z;
  rx_slots : list rx_slot;
  rx : Host.usb_rx;
  tx_queue : prioq (list Z);
  tx_wq : bool;
  tx_work : bool;                  (* queued *)
  stateful_fail_work : bool;       (* queued *)
  stateful_fail_force : bool;
  tx_inflight : Z;                 (* atomic_t *)
  rcp_tx_inflight : Z;             (* atomic_t *)
  hci_tx_inflight : Z;             (* atomic_t *)
  tx_anchor : list (list Z);       (* submitted OUT URBs *)
  if_rx_work : bool                (* [adapter->if_rx_work] is queued *)
}.
Arguments mk_usb {H}.
Arguments hc {H}.
Arguments s_adapter {H}.
Arguments intfdata {H}.
Arguments adapter_dev {H}.
Arguments altsetting {H}.
Arguments bulk_in_addr {H}.
Arguments bulk_out_addr {H}.
Arguments bulk_out_mps {H}.
Arguments high_speed {H}.
Arguments running {H}.
Arguments tx_quiesced {H}.
Arguments flush_in_progress {H}.
Arguments flush_if_type {H}.
Arguments rx_slots {H}.
Arguments rx {H}.
Arguments tx_queue {H}.
Arguments tx_wq {H}.
Arguments tx_work {H}.
Arguments stateful_fail_work {H}.
Arguments stateful_fail_force {H}.
Arguments tx_inflight {H}.
Arguments rcp_tx_inflight {H}.
Arguments hci_tx_inflight {H}.
Arguments tx_anchor {H}.
Arguments if_rx_work {H}.

#[export] Instance eta_usb {H} : Eta (usb H) := fun d =>
  mk_usb (hc d) (s_adapter d) (intfdata d) (adapter_dev d) (altsetting d) (bulk_in_addr d) (bulk_out_addr d)
    (bulk_out_mps d) (high_speed d) (running d) (tx_quiesced d) (flush_in_progress d) (flush_if_type d)
    (rx_slots d) (rx d) (tx_queue d) (tx_wq d) (tx_work d) (stateful_fail_work d) (stateful_fail_force d)
    (tx_inflight d) (rcp_tx_inflight d) (hci_tx_inflight d) (tx_anchor d) (if_rx_work d).

(** The context before [probe] and after its clean-up. *)
Definition no_usb_context {H} (d : usb H) : usb H :=
  mk_usb (hc d) (s_adapter d) (intfdata d) (adapter_dev d) None 0 0 0 false false false false 0 [] (rx d)
    q_empty false false false false 0 0 0 [] (if_rx_work d).

Section Usb.
Context {H : Type} (B : usb_hc H) (m2j : Z -> Z).
Implicit Types (s : sys (usb H)) (d : usb H) (a : esp_adapter) (b : list Z).

Notation st := (sys (usb H)).

Definition on_hc {A} (f : H -> A * H) s : A * st :=
  let '(x, h) := f (hc (tr s)) in (x, on_tr (fun d => d <| hc := h |>) s).

(** ** Vendor requests *)
Definition esp_usb_vendor_request (request : Z) s : Z * st :=
  match altsetting (tr s) with
  | None => (- ENODEV, s)
  | Some (ifnum, _) =>
      let '(ok, s) := on_hc (hc_alloc B) s in
      if negb ok then (- ENOMEM, s)
      else
        let '((ret, status), s) := on_hc (usb_control_msg B request ifnum) s in
        if ret <? 0 then (ret, s)
        else if negb (ret =? 4) then (- EIO, s)
        else ((if le_val status =? ESP_USB_VENDOR_STATUS_OK then 0 else - EIO), s)
  end.

Definition generate_slave_intr_usb (data : Z) s : Z * st :=
  if negb (if_context (ad s)) then (- ENODEV, s)
  else if Z.testbit data 1 then esp_usb_vendor_request ESP_USB_VENDOR_REQ_SOFT_RESET s
  else if Z.testbit data 0 then esp_usb_vendor_request ESP_USB_VENDOR_REQ_READY_REPLAY s
  else (0, s).

(** The table without [recover_transport]. *)
Definition usb_base_ops : esp_if_ops (usb H) := mk_if_ops None None None None None generate_slave_intr_usb.

Definition schedule_transport s : st := esp_schedule_transport_recovery usb_base_ops m2j s.
Definition schedule_fw_reset s : st := esp_schedule_fw_reset_recovery usb_base_ops m2j s.
Definition request_restart s : st := esp_request_firmware_restart usb_base_ops m2j s.

(** ** An ambiguous stream *)
Definition stateful_fail_blocked a : bool :=
  flag ESP_FW_RECOVERY_PENDING a || flag ESP_FW_RESET_EXPECTED a || flag ESP_CLEANUP_IN_PROGRESS a
  || flag ESP_TRANSPORT_REMOVING a.

Definition esp_usb_schedule_stateful_fail (force_reset : bool) s : st :=
  if negb (running (tr s)) || stateful_fail_blocked (ad s) then s
  else on_tr (fun d => (if force_reset then d <| stateful_fail_force := true |> else d)
                         <| stateful_fail_work := true |>) s.

(** [r] is the host's RCP bridge when the work runs. *)
Definition esp_usb_stateful_fail_work (r : rcp) s : st :=
  let force_reset := stateful_fail_force (tr s) in
  let s := on_tr (fun d => d <| stateful_fail_work := false |> <| stateful_fail_force := false |>) s in
  if negb (running (tr s)) || flag ESP_TRANSPORT_REMOVING (ad s) then s
  else if negb force_reset && negb (esp_rcp_fail_closed_required r) then schedule_transport s
  else request_restart (schedule_fw_reset s).

(** ** Receiving *)
Definition esp_process_new_packet_intr s : st :=
  if rx_stopped (ad s) then s else on_tr (fun d => d <| if_rx_work := true |>) s.

(** What [esp_usb_ingest_stream] does with the deframer's verdict. *)
Definition ingest_and_notify (data : list Z) s : st :=
  match data with
  | [] => s
  | _ =>
      let '(rx', queued, stream_loss) := Host.esp_usb_ingest_stream (rx (tr s)) data in
      let s := on_tr (fun d => d <| rx := rx' |>) s in
      let s := if stream_loss then esp_usb_schedule_stateful_fail true s else s in
      if queued then esp_process_new_packet_intr s else s
  end.

Definition slot_at (i : nat) s : rx_slot := default no_slot (rx_slots (tr s) !! i).
Definition on_slot (i : nat) (f : rx_slot -> rx_slot) s : st :=
  on_tr (fun d => d <| rx_slots := alter f i (rx_slots d) |>) s.

(** [usb_kill_urb] waits for a running completion. *)
Definition kill_slot s (i : nat) : st := on_slot i (fun x => x <| slot_armed := false |>) s.

Definition submit_rx (i : nat) s : Z * st :=
  let '(ret, s) := on_hc (usb_submit_urb B (bulk_in_addr (tr s)) []) s in
  (ret, if ret =? 0 then on_slot i (fun x => x <| slot_armed := true |>) s else s).

(** The completion of slot [i] with the bytes received. *)
Definition esp_usb_rx_complete (i : nat) (status : Z) (data : list Z) s : st :=
  let s := kill_slot s i in
  if negb (running (tr s)) || (status =? - ENOENT) || (status =? - ESHUTDOWN) || (status =? - ECONNRESET) then s
  else
    let s := if negb (status =? 0) then esp_usb_schedule_stateful_fail true s else ingest_and_notify data s in
    if negb (running (tr s)) then s
    else
      let '(ret, s) := submit_rx i s in
      if negb (ret =? 0) && negb (ret =? - ENODEV) && negb (ret =? - ESHUTDOWN)
      then esp_usb_schedule_stateful_fail true s else s.

(** [for (i = 0; i < ESP_USB_RX_URBS; i++)] with an early return. *)
Fixpoint for_slots (f : nat -> st -> Z * st) (ids : list nat) s : Z * st :=
  match ids with
  | [] => (0, s)
  | i :: ids => let '(ret, s) := f i s in if ret =? 0 then for_slots f ids s else (ret, s)
  end.
Definition rx_slot_ids : list nat := seq 0 ESP_USB_RX_URBS.

Definition start_rx_slot (i : nat) s : Z * st :=
  let '(ok, s) := on_hc (hc_alloc B) s in
  if negb ok then (- ENOMEM, s)
  else
    let s := on_slot i (fun x => x <| slot_urb := true |>) s in
    let '(ok, s) := on_hc (hc_alloc B) s in
    if negb ok then (- ENOMEM, s)
    else submit_rx i (on_slot i (fun x => x <| slot_buf := true |>) s).
Definition esp_usb_start_rx s : Z * st := for_slots start_rx_slot rx_slot_ids s.

Definition reset_rx_stream s : st := on_tr (fun d => d <| rx := Host.esp_usb_reset_rx_stream (rx d) |>) s.
Definition usb_purge_rx s : st := on_tr (fun d => d <| rx := rx d <| Host.rx_queue := [] |> |>) s.
Definition kill_slots (ids : list nat) s : st := foldl kill_slot s ids.

(** A failed submission kills the slots armed before it. *)
Definition rearm_slot (i : nat) s : Z * st :=
  let x := slot_at i s in
  if negb (slot_urb x) || negb (slot_buf x) then (- ENODEV, s)
  else
    let '(ret, s) := submit_rx i s in
    if negb (ret =? 0) then (ret, kill_slots (rev (seq 0 i)) s) else (0, s).

Definition esp_usb_rearm_rx s : Z * st :=
  if negb (running (tr s)) then (- ENODEV, s)
  else for_slots rearm_slot rx_slot_ids (reset_rx_stream (kill_slots rx_slot_ids s)).

Definition esp_usb_read s : option (list Z) * st :=
  if negb (if_context (ad s)) then (None, s)
  else
    match Host.rx_queue (rx (tr s)) with
    | [] => (None, s)
    | b :: q => (Some b, on_tr (fun d => d <| rx := rx d <| Host.rx_queue := q |> |>) s)
    end.

(** ** Sending *)
Definition esp_usb_skb_if_type b : Z :=
  if zlen b <? sizeof_header then ESP_MAX_IF
  else if if_type (decode_header b) <? ESP_MAX_IF then if_type (decode_header b) else ESP_MAX_IF.
Definition esp_usb_tx_priority b : prio := if_prio (esp_usb_skb_if_type b).
Definition esp_usb_tx_queue_len d : Z := zlen (q_all (tx_queue d)).
Definition is_rcp b : bool := esp_usb_skb_if_type b =? ESP_RCP_IF.
Definition is_hci b : bool := esp_usb_skb_if_type b =? ESP_HCI_IF.

Definition queue_tx_work d : usb H := if tx_wq d then d <| tx_work := true |> else d.
Definition tx_closed d : bool := negb (running d) || tx_quiesced d.

(** The locked part of [esp_usb_write]; [0] leaves the skb on its queue, every
    other result frees it. *)
Definition admit_tx b d : Z * usb H :=
  if tx_closed d then (- ENODEV, d)
  else if flush_in_progress d && (flush_if_type d =? esp_usb_skb_if_type b) then (- EBUSY, d)
  else if ESP_USB_TX_QUEUE_MAX <=? esp_usb_tx_queue_len d then (- EBUSY, d)
  else
    let d := d <| tx_queue := q_push (esp_usb_tx_priority b) b (tx_queue d) |> in
    (0, if negb (flush_in_progress d) then queue_tx_work d else d).

(** [nonlinear] is [skb_is_nonlinear]. *)
Definition esp_usb_write (nonlinear : bool) b s : Z * st :=
  if negb (if_context (ad s)) || (bulk_out_addr (tr s) =? 0) then (- ENODEV, s)
  else if ESP_USB_MAX_XFER <? zlen b then (- EMSGSIZE, s)
  else
    let '(ok, s) := if nonlinear then on_hc (hc_alloc B) s else (true, s) in
    if negb ok then (- ENOMEM, s)
    else let '(ret, d) := admit_tx b (tr s) in (ret, on_tr (fun _ => d) s).

(** Counting the frames of a stateful interface that left the queue. *)
Definition count_stateful (n : Z) b d : usb H :=
  if is_rcp b then d <| rcp_tx_inflight := rcp_tx_inflight d + n |>
  else if is_hci b then d <| hci_tx_inflight := hci_tx_inflight d + n |>
  else d.

(** One iteration of [esp_usb_tx_work]: the locked part, and the rest; the latter
    says whether the loop goes on. *)
Definition tx_work_take d : option (list Z * usb H) :=
  if tx_closed d || flush_in_progress d || (ESP_USB_TX_URBS <=? tx_inflight d) then None
  else
    match q_pop (tx_queue d) with
    | None => None
    | Some (b, q) => Some (b, count_stateful 1 b (d <| tx_queue := q |>))
    end.

Definition esp_usb_submit_tx b s : Z * st :=
  let '(ok, s) := on_hc (hc_alloc B) s in
  if negb ok then (- ENOMEM, s)
  else
    let '(ok, s) := on_hc (hc_alloc B) s in
    if negb ok then (- ENOMEM, s)
    else
      let s := on_tr (fun d => d <| tx_inflight := tx_inflight d + 1 |>) s in
      let '(ret, s) := on_hc (usb_submit_urb B (bulk_out_addr (tr s)) b) s in
      if negb (ret =? 0) then (ret, on_tr (fun d => d <| tx_inflight := tx_inflight d - 1 |>) s)
      else (0, on_tr (fun d => d <| tx_anchor := tx_anchor d ++ [b] |>) s).

Definition tx_work_send b s : bool * st :=
  let '(ret, s) := esp_usb_submit_tx b s in
  if negb (ret =? 0) then
    let s := on_tr (count_stateful (-1) b) s in
    (false, if negb (ret =? - ENODEV) && negb (ret =? - ESHUTDOWN) then schedule_transport s else s)
  else (true, s).

(** Every iteration that goes on raises [tx_inflight], so one more than
    [ESP_USB_TX_URBS] iterations are enough. *)
Fixpoint tx_work_loop (fuel : nat) s : st :=
  match fuel with
  | O => s
  | S fuel =>
      match tx_work_take (tr s) with
      | None => s
      | Some (b, d) =>
          let '(go_on, s) := tx_work_send b (on_tr (fun _ => d) s) in
          if go_on then tx_work_loop fuel s else s
      end
  end.
Definition esp_usb_tx_work s : st :=
  tx_work_loop (S (Z.to_nat ESP_USB_TX_URBS)) (on_tr (fun d => d <| tx_work := false |>) s).

(** The completion of the [i]th submitted OUT URB: the counters, and the locked
    decision to queue the worker again. *)
Definition tx_complete_count (i : nat) (status : Z) s : st :=
  match tx_anchor (tr s) !! i with
  | None => s
  | Some b =>
      let s := on_tr (fun d => d <| tx_anchor := delete i (tx_anchor d) |>) s in
      let s := if negb (status =? 0) && negb (tx_quiesced (tr s)) && (is_rcp b || is_hci b)
               then esp_usb_schedule_stateful_fail true s else s in
      on_tr (fun d => (count_stateful (-1) b d) <| tx_inflight := tx_inflight d - 1 |>) s
  end.
Definition tx_complete_requeue d : usb H :=
  if negb (tx_closed d) && negb (flush_in_progress d) then queue_tx_work d else d.
Definition esp_usb_tx_complete (i : nat) (status : Z) s : st :=
  on_tr tx_complete_requeue (tx_complete_count i status s).

(** ** Flushing one interface's traffic *)

Definition stateful_inflight (t : Z) d : bool :=
  if t =? ESP_RCP_IF then negb (rcp_tx_inflight d =? 0)
  else if t =? ESP_HCI_IF then negb (hci_tx_inflight d =? 0)
  else false.

(** The first locked part, which also reads whether a frame is outside the queue. *)
Definition flush_enter (t : Z) d : bool * usb H :=
  (stateful_inflight t d, d <| flush_in_progress := true |> <| flush_if_type := t |>).

Definition cancel_tx_work d : usb H := if tx_wq d then d <| tx_work := false |> else d.

(** One queue is emptied into [keep], less the frames of [t], and [keep] is queued
    again by priority. *)
Definition q_clear (p : prio) (q : prioq (list Z)) : prioq (list Z) :=
  match p with
  | PRIO_Q_HIGH => mk_prioq [] (q_mid q) (q_low q)
  | PRIO_Q_MID => mk_prioq (q_high q) [] (q_low q)
  | PRIO_Q_LOW => mk_prioq (q_high q) (q_mid q) []
  end.
Definition flush_prio (t : Z) (q : prioq (list Z)) (p : prio) : prioq (list Z) :=
  let keep := List.filter (fun b => negb (esp_usb_skb_if_type b =? t)) (q_at p q) in
  foldl (fun q b => q_push (esp_usb_tx_priority b) b q) (q_clear p q) keep.

(** The second locked part, after [cancel_work_sync]. *)
Definition flush_leave (t : Z) (inflight : bool) d : bool * usb H :=
  let d := d <| tx_queue := foldl (flush_prio t) (tx_queue d) [PRIO_Q_HIGH; PRIO_Q_MID; PRIO_Q_LOW] |> in
  (inflight || stateful_inflight t d,
   let d := d <| flush_if_type := ESP_MAX_IF |> <| flush_in_progress := false |> in
   if negb (tx_closed d) then queue_tx_work d else d).

Definition flush_report (inflight : bool) s : st := if inflight then esp_usb_schedule_stateful_fail true s else s.

Definition esp_usb_flush_if_traffic (t : Z) s : st :=
  if negb (if_context (ad s)) then s
  else
    let '(inflight, d) := flush_enter t (tr s) in
    let '(inflight, d) := flush_leave t inflight (cancel_tx_work d) in
    flush_report inflight (on_tr (fun _ => d) s).
Definition esp_usb_flush_bt_traffic s : st := esp_usb_flush_if_traffic ESP_HCI_IF s.
Definition esp_usb_flush_rcp_traffic s : st := esp_usb_flush_if_traffic ESP_RCP_IF s.

(** ** Firmware resets and recovery *)

(** [usb_kill_anchored_urbs]: every submitted OUT URB completes with [ENOENT]. *)
Fixpoint kill_anchored (n : nat) s : st :=
  match n with
  | O => s
  | S n => kill_anchored n (esp_usb_tx_complete 0 (- ENOENT) s)
  end.
Definition usb_kill_anchored_urbs s : st := kill_anchored (length (tx_anchor (tr s))) s.

Definition quiesce_tx d : usb H := d <| tx_quiesced := true |>.
Definition purge_tx d : usb H := d <| tx_queue := q_empty |>.
Definition zero_inflight d : usb H :=
  d <| tx_inflight := 0 |> <| rcp_tx_inflight := 0 |> <| hci_tx_inflight := 0 |>.

(** The receive half of [quiesce]. *)
Definition quiesce_rx s : st := usb_purge_rx (reset_rx_stream (kill_slots rx_slot_ids s)).

Definition esp_usb_quiesce_for_fw_reset s : Z * st :=
  if negb (if_context (ad s)) then (- ENODEV, s)
  else
    let s := on_tr (fun d => purge_tx (cancel_tx_work (quiesce_tx d))) s in
    let s := usb_kill_anchored_urbs s in
    (0, quiesce_rx (on_tr zero_inflight s)).

Definition reopen_tx d : usb H := queue_tx_work (d <| tx_quiesced := false |>).

Definition esp_usb_reinit_after_fw_reset s : Z * st :=
  if negb (if_context (ad s)) || negb (running (tr s)) then (- ENODEV, s)
  else
    let '(ret, s) := esp_usb_rearm_rx s in
    if negb (ret =? 0) then (ret, s) else (0, on_tr reopen_tx s).

Definition esp_usb_recover_transport s : Z * st :=
  if negb (if_context (ad s)) || negb (running (tr s)) then (- ENODEV, s)
  else
    let '(ret, s) := esp_usb_rearm_rx (usb_purge_rx s) in
    if negb (ret =? 0) then (ret, s) else esp_usb_vendor_request ESP_USB_VENDOR_REQ_READY_REPLAY s.

(** [esp_usb_if_ops], with the linked [generate_slave_intr]. *)
Definition usb_ops : esp_if_ops (usb H) :=
  mk_if_ops None (Some esp_usb_recover_transport) None None None generate_slave_intr_usb.

(** ** Binding *)
Definition find_endpoint d (e : usb_ep) : usb H :=
  if ep_is_bulk e && ep_is_in e && (bulk_in_addr d =? 0) then
    d <| bulk_in_addr := bEndpointAddress e |>
      <| rx := rx d <| Host.bulk_in_mps := usb_endpoint_maxp e |> |>
  else if ep_is_bulk e && negb (ep_is_in e) && (bulk_out_addr d =? 0) then
    d <| bulk_out_addr := bEndpointAddress e |> <| bulk_out_mps := usb_endpoint_maxp e |>
  else d.
Definition esp_usb_find_endpoints (eps : list usb_ep) d : Z * usb H :=
  let d := foldl find_endpoint d eps in
  ((if negb (bulk_in_addr d =? 0) && negb (bulk_out_addr d =? 0) then 0 else - ENODEV), d).

Definition esp_usb_free_rx_slots d : usb H := d <| rx_slots := (fun _ => no_slot) <$> rx_slots d |>.

Definition stop_tx d : usb H := d <| running := false |> <| tx_quiesced := true |>.
Definition cancel_stateful_fail d : usb H := d <| stateful_fail_work := false |>.

Definition esp_usb_cleanup_context s : st :=
  let s := on_tr (fun d => cancel_stateful_fail (cancel_tx_work (stop_tx d))) s in
  let s := usb_kill_anchored_urbs (kill_slots rx_slot_ids s) in
  on_tr no_usb_context (on_tr esp_usb_free_rx_slots (on_tr purge_tx (usb_purge_rx s))).

(** The zeroed context with its queues, before the endpoints are known. *)
Definition new_usb_context (alt : Z * list usb_ep) (fast : bool) d : usb H :=
  no_usb_context d <| altsetting := Some alt |> <| high_speed := fast |> <| flush_if_type := ESP_MAX_IF |>
    <| rx_slots := replicate ESP_USB_RX_URBS no_slot |>
    <| rx := Host.mk_rx 0 (ESP_USB_MAX_XFER * 2) [] false [] (Host.allocs (rx d)) |>.

Definition bind_adapter s : st :=
  let s := on_ad (fun a => a <| if_context := true |> <| if_transport := ESP_IF_TYPE_USB |>) s in
  let s := on_tr (fun d => d <| adapter_dev := true |>) s in
  let s := esp_reset_boot_recovery_for_binding true s in
  on_ad (fun a => clear_flag ESP_CLEANUP_IN_PROGRESS (clear_flag ESP_TRANSPORT_REMOVING a)
                    <| state := ESP_CONTEXT_RX_READY |>) s.
Definition unbind_adapter s : st :=
  on_ad (fun a => a <| if_context := false |> <| state := ESP_CONTEXT_DISABLED |>)
    (on_tr (fun d => d <| intfdata := false |> <| adapter_dev := false |>) s).

(** [probe] up to the endpoints, and from [adapter->if_context = ctx] to
    [esp_usb_start_rx]. *)
Definition probe_context (eps : list usb_ep) s : Z * st :=
  let '(ok, s) := on_hc (hc_alloc B) s in
  if negb ok then (- ENOMEM, s)
  else
    let '(ok, s) := on_hc (hc_alloc B) s in
    if negb ok then (- ENOMEM, s)
    else
      let s := on_tr (fun d => d <| tx_wq := true |>) s in
      let '(ret, d) := esp_usb_find_endpoints eps (tr s) in
      (ret, on_tr (fun _ => d) s).
Definition probe_start s : Z * st :=
  esp_usb_start_rx (on_tr (fun d => d <| running := true |> <| intfdata := true |>) (bind_adapter s)).

Definition esp_usb_probe (alt : Z * list usb_ep) (fast : bool) s : Z * st :=
  if negb (s_adapter (tr s)) then (- ENODEV, s)
  else if if_context (ad s) then (- EBUSY, s)
  else
    let '(ok, s) := on_hc (hc_alloc B) s in
    if negb ok then (- ENOMEM, s)
    else
      let '(ret, s) := probe_context alt.2 (on_tr (new_usb_context alt fast) s) in
      if negb (ret =? 0) then (ret, esp_usb_cleanup_context s)
      else
        let '(ret, s) := probe_start s in
        if negb (ret =? 0) then (ret, esp_usb_cleanup_context (unbind_adapter s))
        else
          let '(_, s) := esp_usb_vendor_request ESP_USB_VENDOR_REQ_READY_REPLAY s in
          (0, schedule_delayed_work m2j ESP_FW_RECOVERY_WATCHDOG_MS s).

(** [drop_events] cancels [events_work] and empties its queue; [remove_card] is
    [esp_remove_card (adapter, false)]. *)
Definition esp_usb_disconnect (drop_events remove_card : st -> st) s : st :=
  if negb (intfdata (tr s)) then s
  else
    let s := on_tr (fun d => d <| intfdata := false |>) s in
    let s := on_ad (fun a =>
      clear_flag ESP_INIT_DONE (set_flag ESP_CLEANUP_IN_PROGRESS (set_flag ESP_TRANSPORT_REMOVING a))
        <| state := ESP_CONTEXT_DISABLED |>) s in
    let s := s <| timer := None |> in
    let s := drop_events s in
    let s := on_tr (fun d => d <| if_rx_work := false |>) s in
    let s := remove_card s in
    let s := on_ad (fun a => a <| if_context := false |>) (on_tr (fun d => d <| adapter_dev := false |>) s) in
    esp_usb_cleanup_context s.

(** [registered] is the result of [usb_register]. *)
Definition esp_init_interface_layer_usb (registered : Z) s : Z * st :=
  let s := on_tr (fun d => d <| s_adapter := true |>) s in
  let s := on_ad (fun a => a <| if_transport := ESP_IF_TYPE_USB |>) s in
  (registered, if negb (registered =? 0) then on_tr (fun d => d <| s_adapter := false |>) s else s).

(** [usb_deregister] disconnects a bound interface first. *)
Definition esp_deinit_interface_layer_usb (drop_events remove_card : st -> st) s : st :=
  on_tr (fun d => d <| s_adapter := false |>) (esp_usb_disconnect drop_events remove_card s).
End Usb.

(** ** The contract with the recovery code *)
Section UsbLaws.
Context {H : Type} (B : usb_hc H) (m2j : Z -> Z).
Notation st := (sys (usb H)).
Implicit Types (s : st) (d : usb H).

Lemma on_hc_core {A} (f : H -> A * H) s : same_core s (on_hc f s).2.
Proof. unfold on_hc. destruct (f (hc (tr s))). apply on_tr_core. Qed.
#[local] Hint Resolve on_hc_core : recovery_core.

Lemma vendor_request_core q s : same_core s (esp_usb_vendor_request B q s).2.
Proof. unfold esp_usb_vendor_request. case_match; [|done]. destruct p. core_run. Qed.
#[local] Hint Resolve vendor_request_core : recovery_core.

Lemma usb_slave_intr_core data s : same_core s (generate_slave_intr_usb B data s).2.
Proof. unfold generate_slave_intr_usb. core_run. Qed.

Lemma on_slot_core i f s : same_core s (on_slot i f s).
Proof. apply on_tr_core. Qed.
#[local] Hint Resolve on_slot_core : recovery_core.

Lemma kill_slots_core ids s : same_core s (kill_slots ids s).
Proof.
  unfold kill_slots. revert s. induction ids as [|i ids IH]; intros s; [done|]. cbn.
  etrans; [|apply IH]. apply on_tr_core.
Qed.
#[local] Hint Resolve kill_slots_core : recovery_core.

Lemma submit_rx_core i s : same_core s (submit_rx B i s).2.
Proof. unfold submit_rx. core_run. Qed.
#[local] Hint Resolve submit_rx_core : recovery_core.

Lemma for_slots_core f ids s :
  (forall i s, same_core s (f i s).2) -> same_core s (for_slots f ids s).2.
Proof.
  intros Hf. revert s. induction ids as [|i ids IH]; intros s; [done|]. cbn.
  pose proof (Hf i s) as Hi. destruct (f i s) as [ret s1]. case_match; [|exact Hi]. etrans; [exact Hi|apply IH].
Qed.

Lemma rearm_slot_core i s : same_core s (rearm_slot B i s).2.
Proof. unfold rearm_slot. core_run. Qed.

Lemma rearm_rx_core s : same_core s (esp_usb_rearm_rx B s).2.
Proof.
  unfold esp_usb_rearm_rx. case_match; [done|].
  etrans; [|apply for_slots_core, rearm_slot_core]. unfold reset_rx_stream. core_back.
Qed.
#[local] Hint Resolve rearm_rx_core : recovery_core.

Lemma usb_recover_core s : same_core s (esp_usb_recover_transport B s).2.
Proof.
  unfold esp_usb_recover_transport, usb_purge_rx. core_run.
Qed.

#[export] Instance usb_base_laws : ResetLaws (usb_base_ops B).
Proof. split; [by intros ?|done|apply usb_slave_intr_core]. Qed.

#[export] Instance usb_if_ops_laws : IfOpsLaws (usb_ops B).
Proof.
  split; [split; [by intros ?|done|apply usb_slave_intr_core]|..]; try done.
  intros f s [= <-]. apply moved_core; [done|]. apply usb_recover_core.
Qed.
End UsbLaws.

(** ** Buffers

    [esp_usb_alloc_skb]: the size asked for, and the headroom reserved in front of
    the data for a buffer at [base]. *)
Definition INTERFACE_HEADER_PADDING : Z := SKB_DATA_ADDR_ALIGNMENT * 3.
Definition esp_usb_alloc_skb (len base : Z) : Z * Z :=
  let offset := Z.land (base + INTERFACE_HEADER_PADDING) (SKB_DATA_ADDR_ALIGNMENT - 1) in
  (u32 (len + INTERFACE_HEADER_PADDING + SKB_DATA_ADDR_ALIGNMENT),
   INTERFACE_HEADER_PADDING + if negb (offset =? 0) then SKB_DATA_ADDR_ALIGNMENT - offset else 0).

(** The data is aligned, has room for the header in front of it and for [len]
    bytes. *)
Theorem usb_alloc_skb_fits len base :
  0 <= len -> len + 16 < 2 ^ 32 ->
  let '(size, headroom) := esp_usb_alloc_skb len base in
  (base + headroom) mod SKB_DATA_ADDR_ALIGNMENT = 0 /\ INTERFACE_HEADER_PADDING <= headroom /\ headroom + len <= size.
Proof.
  intros Hl Hm. unfold esp_usb_alloc_skb, INTERFACE_HEADER_PADDING, SKB_DATA_ADDR_ALIGNMENT.
  rewrite wrap_id by (unfold in_width; lia). change (4 - 1) with (Z.ones 2). rewrite Z.land_ones by lia.
  change (2 ^ 2) with 4. destruct (_ =? 0) eqn:E; cbn [negb]; bool_hyps; divlia.
Qed.

(** ** A device that accepts everything *)
Definition demo_hc : usb_hc unit :=
  mk_usb_hc (fun _ _ h => (0, h)) (fun _ _ h => ((4, [0; 0; 0; 0]), h)) (fun h => (true, h)).
Definition demo_alt : Z * list usb_ep := (0, [mk_ep 129 2 512; mk_ep 1 2 512]).
Definition unbound_usb : usb unit :=
  mk_usb tt true false false None 0 0 0 false false false false 0 [] (Host.mk_rx 0 0 [] false [] []) q_empty
    false false false false 0 0 0 [] false.
Definition unbound_usb_sys : sys (usb unit) := mk_sys zero_adapter unbound_usb 1000 None None 0.
Definition demo_usb_sys : sys (usb unit) := (esp_usb_probe demo_hc id demo_alt true unbound_usb_sys).2.
