(* ===== verification/UsbRx.v ===== *)
(** * UsbRx: the USB host's receive URBs and its binding

    Theorems about [UsbHost]: what the completion of a receive URB, a recovery and
    a re-initialisation leave of the [ESP_USB_RX_URBS] slots, what [probe] leaves,
    and what an ambiguous stream leads to. *)
From S2P Require Import Prelude Wire UsbStream Adapter Recovery BootEvent RcpHost PrioQueue UsbHost.

#[local] Existing Instance Host.eta_usb_rx.

(** ** The persistent receive URBs *)
Section UsbRx.
Context {H : Type} (B : usb_hc H) (m2j : Z -> Z).
Notation st := (sys (usb H)).
Implicit Types (s : st) (d : usb H).

(** The slots as [esp_usb_start_rx] leaves them. *)
Definition slots_owned s : Prop :=
  length (rx_slots (tr s)) = ESP_USB_RX_URBS /\
  Forall (fun x => slot_urb x = true /\ slot_buf x = true) (rx_slots (tr s)).
Definition armed_upto (n : nat) s : Prop :=
  forall i x, rx_slots (tr s) !! i = Some x -> slot_armed x = bool_decide (i < n)%nat.
Definition all_armed s : Prop := armed_upto ESP_USB_RX_URBS s.
Definition none_armed s : Prop := armed_upto 0 s.

Lemma on_hc_tr {A} (f : H -> A * H) s :
  exists h, on_hc f s = ((f (hc (tr s))).1, on_tr (fun d => d <| hc := h |>) s).
Proof. unfold on_hc. destruct (f (hc (tr s))) as [x h]. by exists h. Qed.

Lemma vendor_request_tr q s : exists h, (esp_usb_vendor_request B q s).2 = on_tr (fun d => d <| hc := h |>) s.
Proof.
  unfold esp_usb_vendor_request. destruct (altsetting (tr s)) as [[ifn eps]|].
  2: { exists (hc (tr s)). by destruct s as [? []]. }
  destruct (on_hc_tr (hc_alloc B) s) as [h1 ->]. destruct (hc_alloc B _).1; cbn [negb]; [|by exists h1].
  set (s1 := on_tr _ s). destruct (on_hc_tr (usb_control_msg B q ifn) s1) as [h2 ->].
  destruct (usb_control_msg B _ _ _).1 as [r b]. exists h2. by repeat case_match.
Qed.

Lemma kill_slots_spec ids s :
  exists l, kill_slots ids s = on_tr (fun d => d <| rx_slots := l |>) s /\
    length l = length (rx_slots (tr s)) /\
    (forall i x, l !! i = Some x -> exists y, rx_slots (tr s) !! i = Some y /\
       slot_urb x = slot_urb y /\ slot_buf x = slot_buf y /\
       slot_armed x = slot_armed y && negb (bool_decide (i ∈ ids))).
Proof.
  unfold kill_slots. revert s. induction ids as [|j ids IH]; intros s; cbn.
  - exists (rx_slots (tr s)). split; [by destruct s as [? []]|]. split; [done|]. intros i x Hx. exists x.
    rewrite bool_decide_false by apply not_elem_of_nil. by rewrite andb_true_r.
  - destruct (IH (kill_slot s j)) as (l & -> & El & Hl). exists l. split; [done|]. cbn in El, Hl.
    rewrite length_alter in El. split; [done|]. intros i x Hx. destruct (Hl i x Hx) as (y & Hy & E1 & E2 & E3).
    destruct (decide (i = j)) as [->|Hne].
    + rewrite list_lookup_alter_eq in Hy. apply fmap_Some in Hy as (z & Hz & ->). exists z. cbn in *. split_and!; try done. rewrite E3, (bool_decide_true (j ∈ j :: ids)) by left.
      by rewrite andb_false_r.
    + rewrite list_lookup_alter_ne in Hy by done. exists y. split_and!; try done. rewrite E3. do 2 f_equal.
      apply bool_decide_ext. rewrite elem_of_cons. naive_solver.
Qed.

Lemma kill_slots_owned ids s : slots_owned s -> slots_owned (kill_slots ids s).
Proof.
  intros [Hl Ho]. destruct (kill_slots_spec ids s) as (l & -> & El & Hk). split; [cbn; by rewrite El|]. cbn.
  apply Forall_lookup. intros i x Hx. destruct (Hk i x Hx) as (y & Hy & -> & -> & _).
  exact (proj1 (Forall_lookup _ _) Ho i y Hy).
Qed.

(** One submission: the slot is armed exactly if it succeeds. *)
Lemma submit_rx_spec i s :
  exists h, (submit_rx B i s).2 =
    (if (submit_rx B i s).1 =? 0 then on_slot i (fun x => x <| slot_armed := true |>) else id)
      (on_tr (fun d => d <| hc := h |>) s).
Proof.
  unfold submit_rx. destruct (on_hc_tr (usb_submit_urb B (bulk_in_addr (tr s)) []) s) as [h ->]. exists h. cbn.
  by case_match.
Qed.

Lemma rearm_slot_step n s :
  slots_owned s -> armed_upto n s -> (n < ESP_USB_RX_URBS)%nat ->
  let '(ret, s') := rearm_slot B n s in
  slots_owned s' /\ running (tr s') = running (tr s) /\ rx (tr s') = rx (tr s) /\
  if ret =? 0 then armed_upto (S n) s' else none_armed s'.
Proof.
  intros [Hl Ho] Ha Hn. unfold rearm_slot, slot_at.
  destruct (lookup_lt_is_Some_2 (rx_slots (tr s)) n) as [x Hx]; [lia|]. rewrite Hx. cbn.
  destruct (proj1 (Forall_lookup _ _) Ho n x Hx) as [-> ->]. cbn.
  destruct (submit_rx_spec n s) as [h E]. destruct (submit_rx B n s) as [ret s1]. cbn [fst snd] in E. subst s1.
  destruct (ret =? 0) eqn:Er; cbn [negb].
  - split; [|split; [done|split; [done|]]].
    + split; cbn; [by rewrite length_alter|]. by apply Forall_alter.
    + intros i y Hy. cbn in Hy. destruct (decide (i = n)) as [->|Hne].
      * rewrite list_lookup_alter_eq, Hx in Hy. apply fmap_Some in Hy as (z & _ & ->). cbn. by rewrite bool_decide_true by lia.
      * rewrite list_lookup_alter_ne in Hy by done. rewrite (Ha i y Hy). apply bool_decide_ext. lia.
  - rewrite Er. unfold id. set (s1 := on_tr (fun d => d <| hc := h |>) s).
    assert (Ho1 : slots_owned (kill_slots (rev (seq 0 n)) s1)) by (apply kill_slots_owned; done).
    split; [done|]. destruct (kill_slots_spec (rev (seq 0 n)) s1) as (l & -> & _ & Hk). cbn. split; [done|]. split; [done|].
    intros i y Hy. destruct (Hk i y Hy) as (z & Hz & _ & _ & ->). rewrite (Ha i z Hz).
    destruct (decide (i < n)%nat).
    + rewrite (bool_decide_true (i ∈ _)); [by rewrite andb_false_r|]. rewrite list_elem_of_In, <- in_rev.
      apply in_seq. lia.
    + rewrite (bool_decide_false (i < n)%nat) by lia. symmetry. apply bool_decide_false. lia.
Qed.

Lemma rearm_slots_run k n s :
  (n + k = ESP_USB_RX_URBS)%nat -> slots_owned s -> armed_upto n s ->
  let '(ret, s') := for_slots (rearm_slot B) (seq n k) s in
  slots_owned s' /\ running (tr s') = running (tr s) /\ rx (tr s') = rx (tr s) /\
  if ret =? 0 then all_armed s' else none_armed s'.
Proof.
  revert n s. induction k as [|k IH]; intros n s Hn Ho Ha; cbn [seq for_slots].
  - cbn. replace n with ESP_USB_RX_URBS in Ha by lia. done.
  - pose proof (rearm_slot_step n s Ho Ha ltac:(lia)) as H1. destruct (rearm_slot B n s) as [ret s1].
    destruct H1 as (Ho1 & Er1 & Ex1 & H1). destruct (ret =? 0) eqn:Er; [|by rewrite Er].
    specialize (IH (S n) s1 ltac:(lia) Ho1 H1). destruct (for_slots _ _ s1) as [ret2 s2].
    destruct IH as (? & ? & ? & ?). split_and!; try done; congruence.
Qed.

(** All or nothing: a recovery arms every slot, or leaves none. *)
Lemma rearm_rx_spec s :
  slots_owned s -> running (tr s) = true ->
  let '(ret, s') := esp_usb_rearm_rx B s in
  slots_owned s' /\ running (tr s') = true /\ rx (tr s') = Host.esp_usb_reset_rx_stream (rx (tr s)) /\
  if ret =? 0 then all_armed s' else none_armed s'.
Proof.
  intros Ho Hr. unfold esp_usb_rearm_rx. rewrite Hr. cbn [negb].
  set (s1 := reset_rx_stream (kill_slots rx_slot_ids s)).
  assert (H1 : slots_owned s1 /\ none_armed s1 /\ running (tr s1) = true /\
    rx (tr s1) = Host.esp_usb_reset_rx_stream (rx (tr s))).
  { subst s1. pose proof (kill_slots_owned rx_slot_ids s Ho) as Hk.
    destruct (kill_slots_spec rx_slot_ids s) as (l & E & El & Hl). rewrite E in *. cbn.
    split; [exact Hk|]. split; [|done]. intros i x Hx. cbn in Hx. destruct (Hl i x Hx) as (y & Hy & _ & _ & ->).
    apply lookup_lt_Some in Hy. rewrite (proj1 Ho) in Hy.
    rewrite (bool_decide_true (i ∈ rx_slot_ids)); [by rewrite andb_false_r, bool_decide_false by lia|].
    unfold rx_slot_ids. rewrite list_elem_of_In. apply in_seq. lia. }
  clearbody s1. destruct H1 as (Ho1 & Hn1 & Hr1 & Hx1).
  pose proof (rearm_slots_run ESP_USB_RX_URBS 0 s1 eq_refl Ho1 Hn1) as H2. fold rx_slot_ids in H2.
  destruct (for_slots _ _ s1) as [ret s2]. destruct H2 as (? & ? & ? & ?). split_and!; try done; congruence.
Qed.
End UsbRx.

(** *** Completions, recovery and re-initialisation *)
Section UsbRxTheorems.
Context {H : Type} (B : usb_hc H) (m2j : Z -> Z).
Notation st := (sys (usb H)).
Implicit Types (s : st) (d : usb H).

(** The failure work is queued, or something else has taken over the device. *)
Definition escalated s : Prop :=
  (stateful_fail_work (tr s) = true /\ stateful_fail_force (tr s) = true) \/ stateful_fail_blocked (ad s) = true.

Lemma fail_escalates s :
  let s' := esp_usb_schedule_stateful_fail true s in
  (running (tr s) = true -> escalated s') /\ ad s' = ad s /\ running (tr s') = running (tr s) /\
  rx_slots (tr s') = rx_slots (tr s) /\ rx (tr s') = rx (tr s) /\ hc (tr s') = hc (tr s).
Proof.
  cbv zeta. unfold esp_usb_schedule_stateful_fail, escalated. destruct (running (tr s)) eqn:Er; cbn [negb orb].
  - destruct (stateful_fail_blocked (ad s)) eqn:Eb; [by split_and!; auto|]. split_and!; auto.
  - by split_and!; auto.
Qed.

(** A received buffer goes through the deframer, and a framing loss is escalated. *)
Lemma ingest_and_notify_spec data s :
  let s' := ingest_and_notify data s in
  let '(rx', _, loss) := Host.esp_usb_ingest_stream (rx (tr s)) data in
  ad s' = ad s /\ running (tr s') = running (tr s) /\ rx_slots (tr s') = rx_slots (tr s) /\ rx (tr s') = rx' /\
  (loss = true -> running (tr s) = true -> escalated s').
Proof.
  cbv zeta. unfold ingest_and_notify. destruct data as [|x data]; [by cbn|].
  destruct (Host.esp_usb_ingest_stream (rx (tr s)) (x :: data)) as [[rx' q] loss]. set (s1 := on_tr _ s).
  pose proof (fail_escalates s1) as (He & Ea & Er & Es & Ex & _). cbv zeta in *.
  assert (Hq : forall s2, ad s2 = ad s -> running (tr s2) = running (tr s) -> rx_slots (tr s2) = rx_slots (tr s) ->
    rx (tr s2) = rx' -> (loss = true -> running (tr s) = true -> escalated s2) ->
    let s3 := if q then esp_process_new_packet_intr s2 else s2 in
    ad s3 = ad s /\ running (tr s3) = running (tr s) /\ rx_slots (tr s3) = rx_slots (tr s) /\ rx (tr s3) = rx' /\
    (loss = true -> running (tr s) = true -> escalated s3)).
  { intros s2 ? ? ? ? Hl. cbv zeta. destruct q; [|done]. unfold esp_process_new_packet_intr. by case_match. }
  destruct loss; [|by apply Hq]. apply Hq; [exact Ea|exact Er|exact Es|exact Ex|]. intros _ Hr. by apply He.
Qed.

(** No receive URB of the USB host is lost silently.  When one of the
    [ESP_USB_RX_URBS] persistent URBs completes on a running context other than by
    being cancelled, its slot is submitted again, or the device is gone, or the
    failure is escalated (or a recovery is already under way); received bytes have
    gone through the deframer, and a framing loss is escalated too.  Every recovery
    of the transport then re-arms all slots or, failing, leaves none armed - never
    some -, with an empty accumulator; and re-initialisation opens the transmit path
    only with all of them armed. *)
Theorem usb_rx_slots_restored s i status data :
  slots_owned s -> running (tr s) = true -> (i < ESP_USB_RX_URBS)%nat -> if_context (ad s) = true ->
  status <> - ENOENT -> status <> - ESHUTDOWN -> status <> - ECONNRESET ->
  (let s' := esp_usb_rx_complete B i status data s in
   slots_owned s' /\
   (slot_armed (slot_at i s') = true \/ escalated s' \/
    (exists ret s1, submit_rx B i s1 = (ret, s') /\ (ret = - ENODEV \/ ret = - ESHUTDOWN))) /\
   (status = 0 -> rx (tr s') = (Host.esp_usb_ingest_stream (rx (tr s)) data).1.1)) /\
  (let '(ret, s') := esp_usb_recover_transport B s in
   (all_armed s' \/ none_armed s' /\ ret <> 0) /\ Host.rx_stream (rx (tr s')) = [] /\ Host.rx_queue (rx (tr s')) = []) /\
  (let '(ret, s') := esp_usb_reinit_after_fw_reset B s in
   if ret =? 0 then all_armed s' /\ tx_quiesced (tr s') = false else none_armed s').
Proof.
  intros Ho Hr Hi Hc N1 N2 N3. split; [|split].
  - cbv zeta. unfold esp_usb_rx_complete.
    set (s0 := kill_slot s i). assert (Ho0 : slots_owned s0) by exact (kill_slots_owned [i] s Ho).
    assert (Er0 : running (tr s0) = true) by done. rewrite Er0.
    rewrite (proj2 (Z.eqb_neq _ _) N1), (proj2 (Z.eqb_neq _ _) N2), (proj2 (Z.eqb_neq _ _) N3). cbn [negb orb].
    set (s1 := if negb (status =? 0) then _ else _).
    assert (H1 : running (tr s1) = true /\ slots_owned s1 /\
      (status = 0 -> rx (tr s1) = (Host.esp_usb_ingest_stream (rx (tr s)) data).1.1)).
    { subst s1. destruct (Z.eqb_spec status 0) as [E|E]; cbn [negb].
      - pose proof (ingest_and_notify_spec data s0) as Hx. cbv zeta in Hx.
        change (rx (tr s0)) with (rx (tr s)) in Hx.
        destruct (Host.esp_usb_ingest_stream (rx (tr s)) data) as [[rx' q] loss].
        destruct Hx as (_ & -> & Es & -> & _). split; [done|]. split; [|done]. unfold slots_owned. by rewrite Es.
      - destruct (fail_escalates s0) as (_ & _ & -> & Es & _). split; [done|]. split; [|done].
        unfold slots_owned. by rewrite Es. }
    clearbody s1. clear s0 Ho0 Er0. destruct H1 as (Hr1 & Ho1 & Hx1). rewrite Hr1. cbn [negb].
    destruct (submit_rx_spec B i s1) as [h E]. destruct (submit_rx B i s1) as [ret s2] eqn:Es2. cbn [fst snd] in E.
    assert (H2 : slots_owned s2 /\ rx (tr s2) = rx (tr s1) /\ running (tr s2) = true).
    { subst s2. destruct (ret =? 0); cbn; [|done]. split; [|done]. destruct Ho1 as [Hl Hf].
      split; cbn; [by rewrite length_alter|]. by apply Forall_alter. }
    destruct H2 as (Ho2 & Ex2 & Hr2). rewrite <- Ex2 in Hx1.
    destruct (ret =? 0) eqn:Er; cbn [negb andb].
    + split; [done|]. split; [|done]. left. rewrite E. unfold slot_at. cbn. rewrite list_lookup_alter_eq.
      destruct (lookup_lt_is_Some_2 (rx_slots (tr s1)) i) as [x ->]; [by rewrite (proj1 Ho1)|]. done.
    + destruct (Z.eqb_spec ret (- ENODEV)) as [E1|E1]; cbn [negb andb]; [split_and!; [apply Ho2..| |done]; right; right; by eexists ret, s1; auto|].
      destruct (Z.eqb_spec ret (- ESHUTDOWN)) as [E2|E2]; cbn [negb]; [split_and!; [apply Ho2..| |done]; right; right; by eexists ret, s1; auto|].
      destruct (fail_escalates s2) as (He & _ & _ & Es & Exs & _). split; [unfold slots_owned; by rewrite Es|].
      split; [right; left; by apply He|]. by rewrite Exs.
  - unfold esp_usb_recover_transport. rewrite Hc, Hr. cbn [negb orb].
    pose proof (rearm_rx_spec B (usb_purge_rx s) Ho Hr) as H1. destruct (esp_usb_rearm_rx B (usb_purge_rx s)) as [ret s1].
    destruct H1 as (_ & _ & Ex & H1). destruct (ret =? 0) eqn:Er; cbn [negb].
    + destruct (vendor_request_tr B ESP_USB_VENDOR_REQ_READY_REPLAY s1) as [h Ev].
      destruct (esp_usb_vendor_request B ESP_USB_VENDOR_REQ_READY_REPLAY s1) as [r2 s2]. cbn [snd] in Ev. subst s2.
      unfold all_armed, armed_upto in *. cbn. rewrite Ex. by split; [left|].
    + bool_hyps. rewrite Ex. by split; [right|].
  - unfold esp_usb_reinit_after_fw_reset. rewrite Hc, Hr. cbn [negb orb].
    pose proof (rearm_rx_spec B s Ho Hr) as H1. destruct (esp_usb_rearm_rx B s) as [ret s1].
    destruct H1 as (_ & _ & _ & H1). destruct (ret =? 0) eqn:Er; cbn [negb]; [|by rewrite Er].
    cbn. split; unfold reopen_tx, queue_tx_work; cbn; [|by case_match].
    unfold all_armed, armed_upto in *. cbn. by case_match.
Qed.
End UsbRxTheorems.

(** ** Binding *)
Section UsbBinding.
Context {H : Type} (B : usb_hc H) (m2j : Z -> Z).
Notation st := (sys (usb H)).
Implicit Types (s : st) (d : usb H).

(** The slots before the [n]th are complete and submitted. *)
Definition started (n : nat) s : Prop :=
  length (rx_slots (tr s)) = ESP_USB_RX_URBS /\
  forall i x, rx_slots (tr s) !! i = Some x -> (i < n)%nat -> x = mk_slot true true true.

(** Binding touches the controller and the slots only. *)
Record slots_only s s' : Prop := mk_slots_only {
  so_ad : ad s' = ad s;
  so_timer : timer s' = timer s;
  so_tr : exists h l, tr s' = tr s <| hc := h |> <| rx_slots := l |>
}.
#[export] Instance slots_only_preorder : PreOrder slots_only.
Proof.
  split.
  - intros s. constructor; [done|done|]. exists (hc (tr s)), (rx_slots (tr s)). by destruct (tr s).
  - intros s1 s2 s3 [E1 E2 (h1 & l1 & E3)] [F1 F2 (h2 & l2 & F3)]. constructor; try congruence.
    exists h2, l2. by rewrite F3, E3.
Qed.

Lemma so_on_hc {A} (f : H -> A * H) s : slots_only s (on_hc f s).2.
Proof.
  destruct (on_hc_tr f s) as [h ->]. constructor; try done. exists h, (rx_slots (tr s)). cbn. by destruct (tr s).
Qed.
Lemma so_on_slot i f s : slots_only s (on_slot i f s).
Proof. constructor; try done. exists (hc (tr s)), (alter f i (rx_slots (tr s))). cbn. by destruct (tr s). Qed.

Lemma start_slot_step n s :
  started n s -> (n < ESP_USB_RX_URBS)%nat ->
  let '(ret, s') := start_rx_slot B n s in slots_only s s' /\ (ret = 0 -> started (S n) s').
Proof.
  intros [Hl Hs] Hn. unfold start_rx_slot.
  pose proof (so_on_hc (hc_alloc B) s) as Hx. destruct (on_hc_tr (hc_alloc B) s) as [h1 E1]. rewrite E1 in *.
  cbn [snd] in Hx. destruct (hc_alloc B _).1; cbn [negb]; [|done].
  set (s1 := on_slot n _ _). assert (H1 : slots_only s s1) by (etrans; [exact Hx|apply so_on_slot]).
  pose proof (so_on_hc (hc_alloc B) s1) as Hy. destruct (on_hc_tr (hc_alloc B) s1) as [h2 E2]. rewrite E2 in *.
  cbn [snd] in Hy. apply (transitivity H1) in Hy. destruct (hc_alloc B _).1; cbn [negb]; [|done].
  set (s2 := on_slot n _ _). assert (H2 : slots_only s s2) by (etrans; [exact Hy|apply so_on_slot]).
  destruct (submit_rx_spec B n s2) as [h3 E3]. destruct (submit_rx B n s2) as [ret s3]. cbn [fst snd] in E3. subst s3.
  assert (H3 : slots_only s2 (on_tr (fun d => d <| hc := h3 |>) s2)).
  { constructor; try done. exists h3, (rx_slots (tr s2)). cbn. by destruct (tr s2). }
  apply (transitivity H2) in H3. split.
  - case_match; [|exact H3]. etrans; [exact H3|apply so_on_slot].
  - intros ->. cbn. split; [cbn; by rewrite !length_alter|]. intros i x Hi Hlt. cbn in Hi.
    destruct (decide (i = n)) as [->|Hne].
    + rewrite !list_lookup_alter_eq in Hi. apply fmap_Some in Hi as (y & Hy1 & ->).
      apply fmap_Some in Hy1 as (z & Hz & ->). by apply fmap_Some in Hz as (w & _ & ->).
    + rewrite !list_lookup_alter_ne in Hi by done. apply (Hs i x Hi). lia.
Qed.

Lemma start_slots_run k n s :
  (n + k = ESP_USB_RX_URBS)%nat -> started n s ->
  let '(ret, s') := for_slots (start_rx_slot B) (seq n k) s in
  slots_only s s' /\ (ret = 0 -> started ESP_USB_RX_URBS s').
Proof.
  revert n s. induction k as [|k IH]; intros n s Hn Hs; cbn [seq for_slots].
  - split; [done|]. intros _. by replace ESP_USB_RX_URBS with n by lia.
  - pose proof (start_slot_step n s Hs ltac:(lia)) as H1. destruct (start_rx_slot B n s) as [ret s1]. destruct H1 as [H1 H2].
    destruct (Z.eqb_spec ret 0) as [->|Hne]; [|done]. specialize (IH (S n) s1 ltac:(lia) (H2 eq_refl)).
    destruct (for_slots _ _ s1) as [r2 s2]. destruct IH as [IH1 IH2]. split; [by etrans|done].
Qed.

Lemma start_rx_spec s :
  rx_slots (tr s) = replicate ESP_USB_RX_URBS no_slot ->
  let '(ret, s') := esp_usb_start_rx B s in slots_only s s' /\ (ret = 0 -> started ESP_USB_RX_URBS s').
Proof.
  intros E. apply (start_slots_run ESP_USB_RX_URBS 0); [done|]. split; [by rewrite E|]. intros. lia.
Qed.

Lemma started_slots s : started ESP_USB_RX_URBS s -> slots_owned s /\ all_armed s.
Proof.
  intros [Hl Hs].
  assert (Hx : forall i x, rx_slots (tr s) !! i = Some x -> x = mk_slot true true true /\ (i < ESP_USB_RX_URBS)%nat).
  { intros i x Hi. pose proof (lookup_lt_Some _ _ _ Hi). split; [apply (Hs i x Hi)|]; lia. }
  split; [split; [done|]|].
  - apply Forall_lookup. intros i x Hi. by destruct (Hx i x Hi) as [-> _].
  - intros i x Hi. destruct (Hx i x Hi) as [-> Hlt]. by rewrite bool_decide_true.
Qed.

(** The clean-up leaves nothing of the context, and the adapter alone. *)
Lemma tx_complete_ad i status s : ad (esp_usb_tx_complete i status s) = ad s.
Proof.
  unfold esp_usb_tx_complete, tx_complete_count. cbn. case_match; [|done]. cbn. case_match; [|done].
  exact (proj1 (proj2 (fail_escalates _))).
Qed.
Lemma kill_anchored_ad n s : ad (kill_anchored n s) = ad s.
Proof. revert s. induction n as [|n IH]; intros s; [done|]. cbn [kill_anchored]. by rewrite IH, tx_complete_ad. Qed.
Lemma cleanup_ad s : ad (esp_usb_cleanup_context s) = ad s.
Proof.
  unfold esp_usb_cleanup_context, usb_kill_anchored_urbs. cbv zeta.
  set (s1 := on_tr _ s). destruct (kill_slots_spec rx_slot_ids s1) as (l & -> & _).
  set (s2 := on_tr _ s1). change (ad (kill_anchored (length (tx_anchor (tr s2))) s2) = ad s2). apply kill_anchored_ad.
Qed.

(** Nothing submitted, queued or allocated. *)
Definition released d : Prop :=
  running d = false /\ rx_slots d = [] /\ tx_anchor d = [] /\ q_all (tx_queue d) = [] /\ tx_work d = false /\
  stateful_fail_work d = false /\ tx_wq d = false.

Lemma cleanup_released s : released (tr (esp_usb_cleanup_context s)).
Proof. by split_and!. Qed.

Lemma binding_ad s :
  let s' := bind_adapter s in
  if_context (ad s') = true /\ state (ad s') = ESP_CONTEXT_RX_READY /\
  flag ESP_TRANSPORT_REMOVING (ad s') = false /\ flag ESP_CLEANUP_IN_PROGRESS (ad s') = false /\
  timer s' = timer s /\ tr s' = tr s <| adapter_dev := true |>.
Proof.
  cbv zeta. unfold bind_adapter. set (s1 := esp_reset_boot_recovery_for_binding _ _).
  assert (H1 : if_context (ad s1) = true /\ timer s1 = timer s /\ tr s1 = tr s <| adapter_dev := true |>).
  { subst s1. unfold esp_reset_boot_recovery_for_binding. by case_match. }
  clearbody s1. destruct H1 as (E1 & E2 & E3). split; [done|]. split; [done|].
  assert (Hf : forall f, flag f (ad (on_ad (fun a => clear_flag ESP_CLEANUP_IN_PROGRESS (clear_flag ESP_TRANSPORT_REMOVING a)
      <| state := ESP_CONTEXT_RX_READY |>) s1)) =
    flag f (ad s1) && negb (bool_decide (ESP_TRANSPORT_REMOVING = f)) && negb (bool_decide (ESP_CLEANUP_IN_PROGRESS = f))).
  { intros f. etrans; [by apply (flag_eq f _ (clear_flag ESP_CLEANUP_IN_PROGRESS (clear_flag ESP_TRANSPORT_REMOVING (ad s1))))|].
    by rewrite !flag_clear_flag. }
  rewrite !Hf. cbn. by rewrite ?andb_false_r.
Qed.

Lemma find_endpoints_spec eps d :
  let '(ret, d') := esp_usb_find_endpoints eps d in
  rx_slots d' = rx_slots d /\ tx_quiesced d' = tx_quiesced d /\ tx_queue d' = tx_queue d /\
  (ret = 0 -> bulk_in_addr d' <> 0 /\ bulk_out_addr d' <> 0).
Proof.
  unfold esp_usb_find_endpoints. cbv zeta.
  assert (Hk : rx_slots (foldl find_endpoint d eps) = rx_slots d /\ tx_quiesced (foldl find_endpoint d eps) = tx_quiesced d /\
    tx_queue (foldl find_endpoint d eps) = tx_queue d).
  { revert d. induction eps as [|e eps IH]; intros d; [done|]. cbn. destruct (IH (find_endpoint d e)) as (-> & -> & ->).
    unfold find_endpoint. by repeat case_match. }
  destruct Hk as (-> & -> & ->). split_and!; try done; destruct (_ && _) eqn:Eb; bool_hyps; try done; by intros _.
Qed.

Lemma probe_context_spec eps s :
  let '(ret, s') := probe_context B eps s in
  ad s' = ad s /\
  (ret = 0 -> rx_slots (tr s') = rx_slots (tr s) /\ tx_quiesced (tr s') = tx_quiesced (tr s) /\
     tx_queue (tr s') = tx_queue (tr s) /\ bulk_in_addr (tr s') <> 0 /\ bulk_out_addr (tr s') <> 0).
Proof.
  unfold probe_context.
  destruct (on_hc_tr (hc_alloc B) s) as [h1 ->]. destruct (hc_alloc B _).1; cbn [negb]; [|done].
  set (s1 := on_tr _ s). destruct (on_hc_tr (hc_alloc B) s1) as [h2 ->].
  destruct (hc_alloc B _).1; cbn [negb]; [|done].
  set (d2 := tr (on_tr (fun d => d <| tx_wq := true |>) _)).
  pose proof (find_endpoints_spec eps d2) as H4. destruct (esp_usb_find_endpoints eps d2) as [ret d].
  destruct H4 as (F1 & F2 & F3 & F4). split; [done|]. intros Hr. destruct (F4 Hr).
  cbn [tr on_tr update]. cbn. rewrite F1, F2, F3. by split_and!.
Qed.

Lemma watchdog_spec s :
  let s' := schedule_delayed_work m2j ESP_FW_RECOVERY_WATCHDOG_MS s in ad s' = ad s /\ tr s' = tr s /\ timer s' <> None.
Proof.
  cbv zeta. unfold schedule_delayed_work, mod_delayed_work. destruct (timer s) eqn:Et; [|done].
  split; [done|]. split; [done|]. by rewrite Et.
Qed.

Lemma probe_start_spec s :
  rx_slots (tr s) = replicate ESP_USB_RX_URBS no_slot ->
  let '(ret, s') := probe_start B s in
  if_context (ad s') = true /\ state (ad s') = ESP_CONTEXT_RX_READY /\ flag ESP_TRANSPORT_REMOVING (ad s') = false /\
  running (tr s') = true /\ tx_quiesced (tr s') = tx_quiesced (tr s) /\ bulk_in_addr (tr s') = bulk_in_addr (tr s) /\
  bulk_out_addr (tr s') = bulk_out_addr (tr s) /\ tx_queue (tr s') = tx_queue (tr s) /\
  (ret = 0 -> slots_owned s' /\ all_armed s').
Proof.
  intros E. unfold probe_start. pose proof (binding_ad s) as Hb. cbv zeta in Hb.
  destruct Hb as (B1 & B2 & B3 & _ & B5 & B6). set (s1 := on_tr _ (bind_adapter s)).
  assert (Et1 : tr s1 = tr (bind_adapter s) <| running := true |> <| intfdata := true |>) by done.
  assert (Ea1 : ad s1 = ad (bind_adapter s)) by done. rewrite B6 in Et1. rewrite <- Ea1 in *. clearbody s1.
  pose proof (start_rx_spec s1) as H1. destruct (esp_usb_start_rx B s1) as [r s2].
  destruct H1 as [[Ha _ (h & l & Et)] H1]; [by rewrite Et1|].
  rewrite Ha, Et, Et1. do 3 (split; [done|]). cbn. do 5 (split; [done|]). intros Hr. by apply started_slots, H1.
Qed.

(** Binding the USB device is all or nothing.  Whatever allocations, submissions
    and the device's endpoints do, a [probe] that returns 0 leaves the adapter bound
    and receiving, every receive URB submitted, both bulk endpoints known, the
    transmit path open and empty, and the recovery watchdog armed; one that fails
    leaves the adapter's binding as it was and every resource of the new context
    released - or, refused because a device is bound already, changes nothing. *)
Theorem usb_probe_all_or_nothing alt fast s ret s' :
  esp_usb_probe B m2j alt fast s = (ret, s') -> released (tr s) \/ if_context (ad s) = true ->
  if ret =? 0 then
    if_context (ad s) = false /\ if_context (ad s') = true /\ state (ad s') = ESP_CONTEXT_RX_READY /\
    flag ESP_TRANSPORT_REMOVING (ad s') = false /\ timer s' <> None /\
    running (tr s') = true /\ tx_quiesced (tr s') = false /\ slots_owned s' /\ all_armed s' /\
    bulk_in_addr (tr s') <> 0 /\ bulk_out_addr (tr s') <> 0 /\ q_all (tx_queue (tr s')) = []
  else if_context (ad s') = if_context (ad s) /\ (if_context (ad s) = true -> s' = s) /\
    (if_context (ad s) = false -> released (tr s')).
Proof.
  unfold esp_usb_probe. intros E Hrel. destruct (negb (s_adapter (tr s))).
  { injection E as <- <-. cbn. split; [done|]. split; [done|]. intros Hc. rewrite Hc in Hrel. by destruct Hrel. }
  destruct (if_context (ad s)) eqn:Ec; [injection E as <- <-; cbn; by rewrite Ec|]. destruct Hrel as [Hrel|]; [|done].
  destruct (on_hc_tr (hc_alloc B) s) as [h1 E1]. rewrite E1 in E. clear E1.
  destruct (hc_alloc B _).1; cbn [negb] in E; [|injection E as <- <-; by cbn].
  set (s1 := on_tr (new_usb_context alt fast) _) in E.
  assert (H1 : rx_slots (tr s1) = replicate ESP_USB_RX_URBS no_slot /\ tx_quiesced (tr s1) = false /\
    tx_queue (tr s1) = q_empty /\ ad s1 = ad s) by done.
  clearbody s1. destruct H1 as (Es1 & Eq1 & Ek1 & Ea1).
  pose proof (probe_context_spec alt.2 s1) as H2. destruct (probe_context B alt.2 s1) as [r s2]. destruct H2 as [Ea2 H2].
  destruct (Z.eqb_spec r 0) as [->|Hr]; cbn [negb] in E.
  2: { injection E as <- <-. rewrite (proj2 (Z.eqb_neq _ _) Hr), cleanup_ad, Ea2, Ea1. split; [done|]. split; [done|].
    intros _. apply cleanup_released. }
  destruct (H2 eq_refl) as (Es2 & Eq2 & Ek2 & Hin & Hout). clear H2.
  pose proof (probe_start_spec s2) as H3. destruct (probe_start B s2) as [r s3].
  destruct H3 as (C1 & C2 & C3 & C4 & C5 & C6 & C7 & C8 & C9); [congruence|].
  destruct (Z.eqb_spec r 0) as [->|Hr]; cbn [negb] in E.
  2: { injection E as <- <-. rewrite (proj2 (Z.eqb_neq _ _) Hr), cleanup_ad. split; [done|]. split; [done|].
    intros _. apply cleanup_released. }
  destruct (C9 eq_refl) as [Ho Harm].
  destruct (vendor_request_tr B ESP_USB_VENDOR_REQ_READY_REPLAY s3) as [h Ev].
  destruct (esp_usb_vendor_request B ESP_USB_VENDOR_REQ_READY_REPLAY s3) as [r4 s4]. cbn [snd] in Ev. subst s4.
  injection E as <- <-. cbn [Z.eqb].
  set (s4 := on_tr _ s3). destruct (watchdog_spec s4) as (A1 & A2 & A3). set (s5 := schedule_delayed_work _ _ s4) in *.
  rewrite A1. unfold all_armed, armed_upto, slots_owned. rewrite A2. subst s4. cbn -[q_all]. rewrite C5, C6, C7, C8, Eq2, Ek2, Eq1, Ek1.
  split_and!; try done; apply Ho.
Qed.
End UsbBinding.

(** *** Escalation

    The failure work always files a recovery request; a forced one, or one that
    finds an RCP session open, also asks for the firmware's restart. *)
Theorem stateful_fail_requests {H} (B : usb_hc H) m2j r (s : sys (usb H)) :
  running (tr s) = true -> unloading_or_removing (ad s) = false ->
  let s' := esp_usb_stateful_fail_work B m2j r s in
  flag ESP_FW_RECOVERY_PENDING (ad s') = true /\ timer s' <> None /\
  (stateful_fail_force (tr s) || esp_rcp_fail_closed_required r = true ->
   exists s1, flag ESP_FW_RECOVERY_PENDING (ad s1) = true /\ s' = request_restart B m2j s1).
Proof.
  intros Hr Hu. cbv zeta. unfold esp_usb_stateful_fail_work. set (s1 := on_tr _ s).
  assert (Hr1 : running (tr s1) = true) by done. assert (Hu1 : unloading_or_removing (ad s1) = false) by done.
  rewrite Hr1. pose proof Hu1 as Hu2. unfold unloading_or_removing in Hu2. bool_hyps.
  rewrite (proj2 (orb_false_iff _ _)) by done. rewrite <- negb_orb.
  destruct (stateful_fail_force (tr s) || _); cbn [negb].
  - pose proof (schedule_recovery_spec (ops := usb_base_ops B) m2j ESP_FW_RECOVERY_QUIET_MS false true s1 Hu1) as [].
    assert (Hp : flag ESP_FW_RECOVERY_PENDING (ad (schedule_fw_reset B m2j s1)) = true).
    { unfold schedule_fw_reset, esp_schedule_fw_reset_recovery. by rewrite sch_flags. }
    destruct (restart_request (ops := usb_base_ops B) m2j (schedule_fw_reset B m2j s1)) as [Hpend Htim].
    split; [by apply Hpend|]. split; [by apply Htim|]. intros _. by exists (schedule_fw_reset B m2j s1).
  - pose proof (schedule_recovery_spec (ops := usb_base_ops B) m2j ESP_FW_RECOVERY_QUIET_MS false false s1 Hu1) as [].
    unfold schedule_transport, esp_schedule_transport_recovery. split; [by rewrite sch_flags|]. by split.
Qed.

Lemma usb_probe_all_or_nothing_witness :
  (esp_usb_probe demo_hc id demo_alt true unbound_usb_sys).1 = 0 /\ all_armed demo_usb_sys.
Proof.
  split; [vm_compute; reflexivity|].
  assert (E : esp_usb_probe demo_hc id demo_alt true unbound_usb_sys = (0, demo_usb_sys)) by (vm_compute; reflexivity).
  assert (Hr : released (tr unbound_usb_sys)) by (vm_compute; repeat split).
  destruct (usb_probe_all_or_nothing demo_hc id demo_alt true unbound_usb_sys 0 demo_usb_sys E (or_introl Hr))
    as (_ & _ & _ & _ & _ & _ & _ & _ & Ha & _). exact Ha.
Defined.

Lemma usb_rx_slots_restored_witness :
  slot_armed (slot_at 3 (esp_usb_rx_complete demo_hc 3 (- EIO) [] demo_usb_sys)) = true /\
  all_armed (esp_usb_recover_transport demo_hc demo_usb_sys).2.
Proof.
  assert (Ho : slots_owned demo_usb_sys) by (split; [reflexivity|]; vm_compute; repeat constructor).
  destruct (usb_rx_slots_restored demo_hc demo_usb_sys 3 (- EIO) [] Ho ltac:(vm_compute; reflexivity)) as (_ & H2 & _);
    [vm_compute; lia|vm_compute; reflexivity|unfold EIO, ENOENT, ESHUTDOWN, ECONNRESET; lia..|].
  split; [vm_compute; reflexivity|]. clear Ho. destruct (esp_usb_recover_transport demo_hc demo_usb_sys) as [ret s'] eqn:E.
  destruct H2 as ([H2|[_ Hne]] & _); [exact H2|]. vm_compute in E. injection E as <- _. by destruct Hne.
Defined.
