(* ===== verification/UsbTx.v ===== *)
(** * UsbTx: the USB host's transmit path under interleaving

    The parts of the functions of [UsbHost] that hold [tx_state_lock], or that run
    between two such parts, as the steps of a transition system: writers, the
    ordered worker, completions of OUT URBs, one stateful flush ([tx_flush_lock]
    admits one), the recovery worker's [quiesce] and [reinit], the start of the
    clean-up, and everything else that leaves the transmit state alone. *)
From S2P Require Import Prelude Wire UsbStream Adapter Recovery BootEvent RcpHost PrioQueue UsbHost.

(** ** Where each thread is

    The worker may hold a dequeued frame; the flush and [quiesce] first wait for
    it ([cancel_work_sync]); [inflight] is what the flush has read. *)
Inductive worker_pc := W_idle | W_loop | W_send (b : list Z).
Inductive flush_pc := F_idle | F_cancel (t : Z) (inflight : bool) | F_purge (t : Z) (inflight : bool).
Inductive quiesce_pc := Q_idle | Q_cancel | Q_purge | Q_kill.

Section UsbTx.
Context {H : Type} (B : usb_hc H) (m2j : Z -> Z).
Notation st := (sys (usb H)).
Implicit Types (s : st) (d : usb H) (b : list Z).

(** [completing] counts completions between their two parts, [due] finished
    flushes that have still to report an ambiguous stream; [accepted] and
    [submitted] are histories no code reads. *)
Record cfg := mk_cfg {
  us : st;
  wk : worker_pc;
  completing : nat;
  fl : flush_pc;
  qu : quiesce_pc;
  due : nat;
  accepted : list (list Z);
  submitted : list (list Z)
}.
#[export] Instance eta_cfg : Eta cfg := fun c =>
  mk_cfg (us c) (wk c) (completing c) (fl c) (qu c) (due c) (accepted c) (submitted c).
Implicit Types c : cfg.

Notation ctx c := (tr (us c)).

Definition held c : list (list Z) := match wk c with W_send b => [b] | _ => [] end.

(** What the transmit path's threads share. *)
Record same_tx d d' : Prop := mk_same_tx {
  st_running : running d' = running d;
  st_quiesced : tx_quiesced d' = tx_quiesced d;
  st_flush : flush_in_progress d' = flush_in_progress d;
  st_flush_if : flush_if_type d' = flush_if_type d;
  st_queue : tx_queue d' = tx_queue d;
  st_wq : tx_wq d' = tx_wq d;
  st_work : tx_work d' = tx_work d;
  st_inflight : tx_inflight d' = tx_inflight d;
  st_rcp : rcp_tx_inflight d' = rcp_tx_inflight d;
  st_hci : hci_tx_inflight d' = hci_tx_inflight d;
  st_anchor : tx_anchor d' = tx_anchor d
}.

#[export] Instance same_tx_preorder : PreOrder same_tx.
Proof. split; [by constructor|]. intros d1 d2 d3 [] []. constructor; congruence. Qed.

Inductive uevent :=
  | U_write (ret : Z) (b : list Z) | U_start | U_break | U_take | U_send (ok : bool)
  | U_count | U_requeue | U_flush (t : Z) | U_flush_cancel | U_flush_leave | U_report
  | U_quiesce | U_quiesce_cancel | U_quiesce_purge | U_quiesce_done | U_reinit | U_stop | U_env.

Inductive ustep : cfg -> uevent -> cfg -> Prop :=
  | us_write c nonlinear b ret s' :
      esp_usb_write B nonlinear b (us c) = (ret, s') ->
      ustep c (U_write ret b)
        (c <| us := s' |> <| accepted := if ret =? 0 then accepted c ++ [b] else accepted c |>)
  | us_start c :
      wk c = W_idle -> tx_work (ctx c) = true ->
      ustep c U_start (c <| us := on_tr (fun d => d <| tx_work := false |>) (us c) |> <| wk := W_loop |>)
  | us_break c :
      wk c = W_loop -> tx_work_take (ctx c) = None -> ustep c U_break (c <| wk := W_idle |>)
  | us_take c b d :
      wk c = W_loop -> tx_work_take (ctx c) = Some (b, d) ->
      ustep c U_take (c <| us := on_tr (fun _ => d) (us c) |> <| wk := W_send b |>)
  | us_send c b ok s' :
      wk c = W_send b -> tx_work_send B m2j b (us c) = (ok, s') ->
      ustep c (U_send ok)
        (c <| us := s' |> <| wk := if ok then W_loop else W_idle |>
           <| submitted := if ok then submitted c ++ [b] else submitted c |>)
  | us_count c i status :
      (i < length (tx_anchor (ctx c)))%nat ->
      ustep c U_count (c <| us := tx_complete_count i status (us c) |> <| completing := S (completing c) |>)
  | us_requeue c n :
      completing c = S n ->
      ustep c U_requeue (c <| us := on_tr tx_complete_requeue (us c) |> <| completing := n |>)
  | us_flush c t :
      fl c = F_idle ->
      ustep c (U_flush t)
        (c <| us := on_tr (fun _ => (flush_enter t (ctx c)).2) (us c) |>
           <| fl := F_cancel t (flush_enter t (ctx c)).1 |>)
  | us_flush_cancel c t i :
      fl c = F_cancel t i -> wk c = W_idle ->
      ustep c U_flush_cancel (c <| us := on_tr cancel_tx_work (us c) |> <| fl := F_purge t i |>)
  | us_flush_leave c t i :
      fl c = F_purge t i ->
      ustep c U_flush_leave
        (c <| us := on_tr (fun _ => (flush_leave t i (ctx c)).2) (us c) |> <| fl := F_idle |>
           <| due := if (flush_leave t i (ctx c)).1 then S (due c) else due c |>)
  | us_report c n :
      due c = S n -> ustep c U_report (c <| us := flush_report true (us c) |> <| due := n |>)
  | us_quiesce c :
      qu c = Q_idle -> ustep c U_quiesce (c <| us := on_tr quiesce_tx (us c) |> <| qu := Q_cancel |>)
  | us_quiesce_cancel c :
      qu c = Q_cancel -> wk c = W_idle ->
      ustep c U_quiesce_cancel (c <| us := on_tr cancel_tx_work (us c) |> <| qu := Q_purge |>)
  | us_quiesce_purge c :
      qu c = Q_purge -> ustep c U_quiesce_purge (c <| us := on_tr purge_tx (us c) |> <| qu := Q_kill |>)
  | us_quiesce_done c :
      qu c = Q_kill -> tx_anchor (ctx c) = [] -> completing c = O ->
      ustep c U_quiesce_done (c <| us := quiesce_rx (on_tr zero_inflight (us c)) |> <| qu := Q_idle |>)
  | us_reinit c ret s' :
      qu c = Q_idle -> esp_usb_reinit_after_fw_reset B (us c) = (ret, s') -> ustep c U_reinit (c <| us := s' |>)
  | us_stop c : ustep c U_stop (c <| us := on_tr stop_tx (us c) |>)
  | us_env c s' : same_tx (ctx c) (tr s') -> ustep c U_env (c <| us := s' |>).

(** Events are listed newest first. *)
Inductive urun (c0 : cfg) : list uevent -> cfg -> Prop :=
  | urun_nil : urun c0 [] c0
  | urun_step es c e c' : urun c0 es c -> ustep c e c' -> urun c0 (e :: es) c'.

(** A context that has just been bound. *)
Definition uinit c : Prop :=
  let d := ctx c in
  wk c = W_idle /\ completing c = O /\ fl c = F_idle /\ qu c = Q_idle /\ due c = O /\
  accepted c = [] /\ submitted c = [] /\
  tx_wq d = true /\ flush_in_progress d = false /\ tx_queue d = q_empty /\ tx_anchor d = [] /\
  tx_inflight d = 0 /\ rcp_tx_inflight d = 0 /\ hci_tx_inflight d = 0.

(** ** What each part does to the shared state *)
Lemma on_hc_tx {A} (f : H -> A * H) s : same_tx (tr s) (tr (on_hc f s).2).
Proof. unfold on_hc. by destruct (f (hc (tr s))). Qed.

Lemma schedule_recovery_tr ops delay restart reset s :
  note_fw_reset ops = None -> tr (esp_schedule_recovery ops m2j delay restart reset s) = tr s.
Proof.
  intros Hn. unfold esp_schedule_recovery, schedule_delayed_work, mod_delayed_work, call_void. rewrite Hn.
  case_match; [done|]. cbv zeta. by repeat case_match.
Qed.

Lemma stateful_fail_tx force s : same_tx (tr s) (tr (esp_usb_schedule_stateful_fail force s)).
Proof. unfold esp_usb_schedule_stateful_fail. case_match; [done|]. by destruct force. Qed.

(** The work is queued unless something has taken over already. *)
Lemma report_sets s :
  running (tr s) = true -> stateful_fail_blocked (ad s) = false ->
  let d := tr (flush_report true s) in stateful_fail_work d = true /\ stateful_fail_force d = true.
Proof. cbv zeta. unfold flush_report, esp_usb_schedule_stateful_fail. by intros -> ->. Qed.

Lemma new_packet_tx s : same_tx (tr s) (tr (esp_process_new_packet_intr s)).
Proof. unfold esp_process_new_packet_intr. by case_match. Qed.

(** A frame admitted to the queue. *)
Definition admitted b d : usb H :=
  let d := d <| tx_queue := q_push (esp_usb_tx_priority b) b (tx_queue d) |> in
  if negb (flush_in_progress d) then queue_tx_work d else d.

Record may_admit b d : Prop := mk_may_admit {
  ma_open : tx_closed d = false;
  ma_flush : flush_in_progress d = true -> flush_if_type d <> esp_usb_skb_if_type b;
  ma_room : zlen (q_all (tx_queue d)) < ESP_USB_TX_QUEUE_MAX
}.

Lemma admit_tx_cases b d :
  (admit_tx b d = (0, admitted b d) /\ may_admit b d) \/ exists ret, ret < 0 /\ admit_tx b d = (ret, d).
Proof.
  unfold admit_tx. destruct (tx_closed d) eqn:Ec; [right; by exists (- ENODEV)|].
  destruct (flush_in_progress d && _) eqn:Ef; [right; by exists (- EBUSY)|].
  destruct (ESP_USB_TX_QUEUE_MAX <=? _) eqn:El; [right; by exists (- EBUSY)|]. left. split; [done|]. bool_hyps.
  constructor; [done| |done]. intros Hf. rewrite Hf in Ef. cbn in Ef. by bool_hyps.
Qed.

Lemma usb_write_cases nonlinear b s ret s' :
  esp_usb_write B nonlinear b s = (ret, s') ->
  (ret = 0 /\ zlen b <= ESP_USB_MAX_XFER /\
   exists d, same_tx (tr s) d /\ may_admit b d /\ tr s' = admitted b d) \/
  (ret < 0 /\ same_tx (tr s) (tr s')).
Proof.
  unfold esp_usb_write. case_match; [intros [= <- <-]; by right|]. destruct (_ <? zlen b) eqn:El; [intros [= <- <-]; by right|].
  set (p := if nonlinear then _ else _).
  assert (Hp : same_tx (tr s) (tr p.2)) by (subst p; destruct nonlinear; [apply on_hc_tx|done]).
  destruct p as [ok s1]; cbn [snd] in Hp. destruct ok; cbn [negb]; [|intros [= <- <-]; by right].
  bool_hyps. destruct (admit_tx_cases b (tr s1)) as [[-> Hm]|(ret1 & Hneg & ->)]; intros [= <- <-].
  - left. split; [done|]. split; [done|]. by exists (tr s1).
  - right. by split.
Qed.

(** A frame that became an URB. *)
Definition sent b d : usb H := d <| tx_inflight := tx_inflight d + 1 |> <| tx_anchor := tx_anchor d ++ [b] |>.

Lemma tx_work_send_cases b s ok s' :
  tx_work_send B m2j b s = (ok, s') ->
  if ok then same_tx (sent b (tr s)) (tr s') else same_tx (count_stateful (-1) b (tr s)) (tr s').
Proof.
  unfold tx_work_send, esp_usb_submit_tx.
  assert (Hfail : forall s1 ret, same_tx (tr s) (tr s1) ->
    same_tx (count_stateful (-1) b (tr s))
      (tr (if negb (ret =? - ENODEV) && negb (ret =? - ESHUTDOWN)
           then schedule_transport B m2j (on_tr (count_stateful (-1) b) s1)
           else on_tr (count_stateful (-1) b) s1))).
  { intros s1 ret []. assert (Hc : same_tx (count_stateful (-1) b (tr s)) (count_stateful (-1) b (tr s1))).
    { unfold count_stateful. destruct (is_rcp b), (is_hci b); constructor; cbn; congruence. }
    case_match; [|done]. unfold schedule_transport, esp_schedule_transport_recovery.
    by rewrite schedule_recovery_tr. }
  pose proof (on_hc_tx (hc_alloc B) s) as H1. destruct (on_hc (hc_alloc B) s) as [ok1 s1]; cbn [snd] in H1.
  destruct ok1; cbn [negb]; [|intros [= <- <-]; by apply (Hfail s1 (- ENOMEM))].
  pose proof (on_hc_tx (hc_alloc B) s1) as H2. destruct (on_hc (hc_alloc B) s1) as [ok2 s2]; cbn [snd] in H2.
  apply (transitivity H1) in H2. clear H1. destruct ok2; cbn [negb]; [|intros [= <- <-]; by apply (Hfail s2 (- ENOMEM))].
  cbv zeta. set (s3 := on_tr _ s2). set (f := usb_submit_urb B _ b).
  pose proof (on_hc_tx f s3) as H3. destruct (on_hc f s3) as [ret s4]; cbn [snd] in H3.
  destruct (ret =? 0) eqn:Er; cbn [negb].
  - cbn. intros [= <- <-]. destruct H2, H3. subst s3. cbn in *. constructor; cbn; congruence.
  - rewrite Er. cbn [negb]. intros [= <- <-]. apply (Hfail _ ret). destruct H2, H3. subst s3. cbn in *.
    constructor; cbn; try congruence. lia.
Qed.

(** The counters give an URB back. *)
Definition completed (i : nat) b d : usb H :=
  count_stateful (-1) b (d <| tx_anchor := delete i (tx_anchor d) |> <| tx_inflight := tx_inflight d - 1 |>).

Lemma tx_complete_cases i status s :
  (i < length (tx_anchor (tr s)))%nat ->
  exists b, tx_anchor (tr s) !! i = Some b /\ same_tx (completed i b (tr s)) (tr (tx_complete_count i status s)).
Proof.
  intros [b Hb]%lookup_lt_is_Some_2. exists b. split; [done|]. unfold tx_complete_count. rewrite Hb. cbv zeta.
  set (s1 := on_tr _ s). set (s2 := if negb (status =? 0) && _ && _ then _ else _).
  assert (H2 : same_tx (tr s1) (tr s2)) by (subst s2; case_match; [apply stateful_fail_tx|done]).
  clearbody s2. destruct H2. subst s1. cbn in *. unfold completed, count_stateful.
  destruct (is_rcp b), (is_hci b); constructor; cbn; congruence.
Qed.

Lemma rearm_rx_tx s : same_tx (tr s) (tr (esp_usb_rearm_rx B s).2).
Proof.
  unfold esp_usb_rearm_rx. case_match; [done|].
  assert (Hk : forall ids s, same_tx (tr s) (tr (kill_slots ids s))).
  { induction ids as [|i ids IH]; intros s1; [done|]. cbn. etrans; [|apply IH]. done. }
  assert (Hf : forall ids s, same_tx (tr s) (tr (for_slots (rearm_slot B) ids s).2)).
  { induction ids as [|i ids IH]; intros s1; [done|]. cbn.
    assert (Hi : same_tx (tr s1) (tr (rearm_slot B i s1).2)).
    { unfold rearm_slot, submit_rx. case_match; [done|].
      pose proof (on_hc_tx (usb_submit_urb B (bulk_in_addr (tr s1)) []) s1) as Ho.
      destruct (on_hc _ s1) as [ret s2]; cbn [snd] in Ho. destruct (ret =? 0); cbn [negb snd].
      - etrans; [exact Ho|]. done.
      - etrans; [exact Ho|apply Hk]. }
    destruct (rearm_slot B i s1) as [ret s2]; cbn [snd] in Hi. case_match; [|done]. etrans; [exact Hi|apply IH]. }
  etrans; [|apply Hf]. etrans; [apply (Hk rx_slot_ids)|]. generalize (kill_slots rx_slot_ids s). intros s1. by constructor.
Qed.

Lemma reinit_cases s ret s' :
  esp_usb_reinit_after_fw_reset B s = (ret, s') ->
  (same_tx (tr s) (tr s') /\ ret <> 0) \/
  (ret = 0 /\ running (tr s) = true /\ exists d, same_tx (tr s) d /\ tr s' = reopen_tx d).
Proof.
  unfold esp_usb_reinit_after_fw_reset. destruct (_ || _) eqn:Eg; [intros [= <- <-]; by left|]. bool_hyps.
  pose proof (rearm_rx_tx s) as Hr. destruct (esp_usb_rearm_rx B s) as [ret1 s1]; cbn [snd] in Hr.
  destruct (ret1 =? 0) eqn:Er; cbn [negb]; bool_hyps; intros [= <- <-]; [right|by left].
  split; [done|]. split; [done|]. by exists (tr s1).
Qed.

Lemma quiesce_rx_tx s : same_tx (tr s) (tr (quiesce_rx s)).
Proof.
  unfold quiesce_rx, usb_purge_rx, reset_rx_stream, kill_slots.
  generalize rx_slot_ids. intros ids. revert s. induction ids as [|i ids IH]; intros s; [done|]. cbn in *.
  etrans; [|apply IH]. done.
Qed.

(** ** The accounting invariant *)

(** Frames of a list selected by [f]. *)
Definition nsel (f : list Z -> bool) (l : list (list Z)) : Z := zlen (List.filter f l).

Lemma nsel_app f l k : nsel f (l ++ k) = nsel f l + nsel f k.
Proof. unfold nsel. by rewrite List.filter_app, zlen_app. Qed.
Lemma nsel_one f b : nsel f [b] = if f b then 1 else 0.
Proof. unfold nsel. cbn. by destruct (f b). Qed.
Lemma nsel_delete f l i b : l !! i = Some b -> nsel f (delete i l) = nsel f l - if f b then 1 else 0.
Proof.
  intros Hi. rewrite <- (take_drop_middle l i b Hi) at 2. rewrite delete_take_drop.
  change (b :: drop (S i) l) with ([b] ++ drop (S i) l). rewrite !nsel_app, nsel_one. lia.
Qed.
Lemma zlen_delete {A} (l : list A) i x : l !! i = Some x -> zlen (delete i l) = zlen l - 1.
Proof.
  intros Hi. unfold zlen. rewrite length_delete by (by eexists).
  apply lookup_lt_Some in Hi. lia.
Qed.

Lemma count_stateful_eq n b d :
  count_stateful n b d = d <| rcp_tx_inflight := rcp_tx_inflight d + n * (if is_rcp b then 1 else 0) |>
                           <| hci_tx_inflight := hci_tx_inflight d + n * (if is_hci b then 1 else 0) |>.
Proof.
  unfold count_stateful. destruct d. cbn. destruct (is_rcp b) eqn:Er, (is_hci b) eqn:Eh;
    rewrite ?Z.mul_1_r, ?Z.mul_0_r, ?Z.add_0_r; try done.
  unfold is_rcp, is_hci in *. bool_hyps. by rewrite Er in Eh.
Qed.

(** The parts that only move the work flag, as record updates. *)
Lemma queue_work_eq d : queue_tx_work d = d <| tx_work := tx_work d || tx_wq d |>.
Proof. unfold queue_tx_work. destruct d. cbn. case_match; by rewrite ?orb_true_r, ?orb_false_r. Qed.
Lemma cancel_work_eq d : cancel_tx_work d = d <| tx_work := tx_work d && negb (tx_wq d) |>.
Proof. unfold cancel_tx_work. destruct d. cbn. case_match; by rewrite ?andb_true_r, ?andb_false_r. Qed.
Lemma requeue_eq d :
  tx_complete_requeue d =
    d <| tx_work := tx_work d || (negb (tx_closed d) && negb (flush_in_progress d) && tx_wq d) |>.
Proof.
  unfold tx_complete_requeue. rewrite queue_work_eq. destruct (negb (tx_closed d) && _); [done|].
  rewrite orb_false_r. by destruct d.
Qed.
Lemma admitted_eq b d :
  admitted b d = d <| tx_queue := q_push (esp_usb_tx_priority b) b (tx_queue d) |>
                   <| tx_work := tx_work d || (negb (flush_in_progress d) && tx_wq d) |>.
Proof.
  unfold admitted. cbv zeta. rewrite queue_work_eq. cbn [flush_in_progress update]. cbn.
  destruct (flush_in_progress d); [|done]. cbn. by rewrite orb_false_r.
Qed.
Lemma flush_leave_eq t i d :
  (flush_leave t i d).2 =
    d <| tx_queue := foldl (flush_prio t) (tx_queue d) [PRIO_Q_HIGH; PRIO_Q_MID; PRIO_Q_LOW] |>
      <| flush_if_type := ESP_MAX_IF |> <| flush_in_progress := false |>
      <| tx_work := tx_work d || (negb (tx_closed d) && tx_wq d) |>.
Proof.
  unfold flush_leave. cbv zeta. cbn [snd]. rewrite queue_work_eq. unfold tx_closed. cbn.
  destruct (negb (running d) || tx_quiesced d); [|done]. cbn. by rewrite orb_false_r.
Qed.

Lemma flush_leave_inflight t i d : (flush_leave t i d).1 = i || stateful_inflight t d.
Proof. done. Qed.

(** Of the context, with the frame [h] the worker holds. *)
Record core d (h : list (list Z)) : Prop := mk_core {
  co_wq : tx_wq d = true;
  co_count : tx_inflight d = zlen (tx_anchor d);
  co_rcp : rcp_tx_inflight d = nsel is_rcp (tx_anchor d ++ h);
  co_hci : hci_tx_inflight d = nsel is_hci (tx_anchor d ++ h);
  co_bound : zlen (tx_anchor d) + zlen h <= ESP_USB_TX_URBS;
  co_room : zlen (q_all (tx_queue d)) <= ESP_USB_TX_QUEUE_MAX;
  co_prio p : Forall (fun b => esp_usb_tx_priority b = p) (q_at p (tx_queue d))
}.

Lemma core_same d d' h : same_tx d d' -> core d h -> core d' h.
Proof. intros [] []. constructor; try congruence. intros p. rewrite st_queue0. done. Qed.

Lemma core_work d w h : core d h -> core (d <| tx_work := w |>) h.
Proof. intros []. by constructor. Qed.

Lemma core_admitted b d h : core d h -> may_admit b d -> core (admitted b d) h.
Proof.
  intros [] [_ _ Hr]. rewrite admitted_eq. constructor; try done; cbn.
  - rewrite q_push_length. lia.
  - intros p. rewrite q_at_push. apply Forall_app. split; [apply co_prio0|]. case_decide; by repeat constructor.
Qed.

Lemma tx_work_take_some d b d' :
  tx_work_take d = Some (b, d') ->
  tx_closed d = false /\ flush_in_progress d = false /\ tx_inflight d < ESP_USB_TX_URBS /\
  exists q, q_pop (tx_queue d) = Some (b, q) /\ d' = count_stateful 1 b (d <| tx_queue := q |>).
Proof.
  unfold tx_work_take. destruct (_ || _) eqn:E; [done|]. bool_hyps.
  destruct (q_pop _) as [[x q]|] eqn:Eq; [|done]. intros [= -> <-]. split_and!; try done. by exists q.
Qed.

Lemma core_take d b d' : core d [] -> tx_work_take d = Some (b, d') -> core d' [b].
Proof.
  intros [] (_ & _ & Hlt & q & Hq & ->)%tx_work_take_some. rewrite count_stateful_eq.
  pose proof (q_pop_length _ _ _ Hq) as Hl. pose proof (q_pop_some _ _ _ Hq) as (p & Hp & Ho & _).
  rewrite !app_nil_r in *. constructor; cbn; rewrite ?nsel_app, ?nsel_one; try done; try lia.
  - rewrite zlen_cons, zlen_nil. lia.
  - intros p'. specialize (co_prio0 p'). destruct (decide (p' = p)) as [->|Hne]; [|by rewrite Ho].
    rewrite Hp in co_prio0. by inversion co_prio0.
Qed.

Lemma core_sent d b : core d [b] -> core (sent b d) [].
Proof.
  intros []. rewrite zlen_cons, zlen_nil in *. constructor; cbn; rewrite ?app_nil_r; try done; rewrite ?zlen_app, ?zlen_cons, ?zlen_nil; lia.
Qed.

Lemma core_unsent d b : core d [b] -> core (count_stateful (-1) b d) [].
Proof.
  intros []. rewrite count_stateful_eq. rewrite nsel_app, nsel_one in *. rewrite zlen_cons, zlen_nil in *.
  constructor; cbn; rewrite ?app_nil_r; try done; rewrite ?zlen_nil; lia.
Qed.

Lemma core_completed i b d h : tx_anchor d !! i = Some b -> core d h -> core (completed i b d) h.
Proof.
  intros Hi []. unfold completed. rewrite count_stateful_eq. rewrite nsel_app in *.
  constructor; cbn; rewrite ?nsel_app, ?(nsel_delete _ _ _ _ Hi), ?(zlen_delete _ _ _ Hi); try done; lia.
Qed.

(** A frame re-queued by its priority goes back where it was. *)
Lemma flush_prio_filter t q p :
  Forall (fun b => esp_usb_tx_priority b = p) (q_at p q) ->
  flush_prio t q p =
    foldl (fun q b => q_push p b q) (q_clear p q) (List.filter (fun b => negb (esp_usb_skb_if_type b =? t)) (q_at p q)).
Proof.
  intros Hp. unfold flush_prio. generalize (q_clear p q) as q0. induction Hp as [|b l Hb Hl IH]; intros q0; [done|].
  cbn. case_match; [|done]. cbn. by rewrite Hb, IH.
Qed.
Lemma foldl_push_at p (l : list (list Z)) q :
  foldl (fun q b => q_push p b q) q l =
    match p with
    | PRIO_Q_HIGH => mk_prioq (q_high q ++ l) (q_mid q) (q_low q)
    | PRIO_Q_MID => mk_prioq (q_high q) (q_mid q ++ l) (q_low q)
    | PRIO_Q_LOW => mk_prioq (q_high q) (q_mid q) (q_low q ++ l)
    end.
Proof.
  revert q. induction l as [|b l IH]; intros q; [by destruct p, q; cbn; rewrite ?app_nil_r|].
  cbn. rewrite IH. by destruct p; cbn; rewrite <- app_assoc.
Qed.

Lemma flush_queue_filter t q :
  (forall p, Forall (fun b => esp_usb_tx_priority b = p) (q_at p q)) ->
  foldl (flush_prio t) q [PRIO_Q_HIGH; PRIO_Q_MID; PRIO_Q_LOW] =
    q_filter (fun b => negb (esp_usb_skb_if_type b =? t)) q.
Proof.
  intros Hp. destruct q as [h m l]. cbn [foldl].
  rewrite (flush_prio_filter t _ PRIO_Q_HIGH (Hp PRIO_Q_HIGH)), foldl_push_at. cbn [q_at q_clear q_high q_mid q_low app].
  rewrite (flush_prio_filter t (mk_prioq (List.filter _ h) m l) PRIO_Q_MID (Hp PRIO_Q_MID)), foldl_push_at.
  cbn [q_at q_clear q_high q_mid q_low app].
  by rewrite (flush_prio_filter t (mk_prioq (List.filter _ h) (List.filter _ m) l) PRIO_Q_LOW (Hp PRIO_Q_LOW)), foldl_push_at.
Qed.

Lemma core_left t i d h : core d h -> core (flush_leave t i d).2 h.
Proof.
  intros []. rewrite flush_leave_eq, flush_queue_filter by done. constructor; try done; cbn -[q_filter q_all].
  - rewrite q_all_filter. unfold zlen in *.
    pose proof (List.filter_length_le (fun b => negb (esp_usb_skb_if_type b =? t)) (q_all (tx_queue d))). lia.
  - intros p. specialize (co_prio0 p). destruct p; cbn in *; rewrite List.Forall_forall in *;
      intros x Hx%List.filter_In; by apply co_prio0, Hx.
Qed.

Lemma core_flags d h r q f t :
  core d h ->
  core (d <| running := r |> <| tx_quiesced := q |> <| flush_in_progress := f |> <| flush_if_type := t |>) h.
Proof. intros []. by constructor. Qed.

Lemma core_purge d h : core d h -> core (purge_tx d) h.
Proof. intros []. constructor; try done; cbn. by intros []. Qed.

Lemma core_zero d : tx_anchor d = [] -> core d [] -> core (zero_inflight d) [].
Proof. intros E []. constructor; cbn; rewrite ?E in *; done. Qed.

(** ... and of the threads: a flush and [quiesce] have waited for the worker. *)
Record tx_inv c : Prop := mk_tx_inv {
  iv_core : core (ctx c) (held c);
  iv_flush : match fl c with
             | F_idle => flush_in_progress (ctx c) = false
             | F_cancel t _ => flush_in_progress (ctx c) = true /\ flush_if_type (ctx c) = t
             | F_purge t _ => flush_in_progress (ctx c) = true /\ flush_if_type (ctx c) = t /\ held c = []
             end;
  iv_quiesce : match qu c with
               | Q_idle => True
               | Q_cancel => tx_quiesced (ctx c) = true
               | Q_purge => tx_quiesced (ctx c) = true /\ held c = []
               | Q_kill => tx_quiesced (ctx c) = true /\ held c = [] /\ tx_queue (ctx c) = q_empty
               end
}.

(** A step that keeps the flush's mark, gives the worker no frame and fills no
    queue that is closed. *)
Lemma inv_frame c c' :
  tx_inv c -> core (ctx c') (held c') -> fl c' = fl c -> qu c' = qu c ->
  flush_in_progress (ctx c') = flush_in_progress (ctx c) -> flush_if_type (ctx c') = flush_if_type (ctx c) ->
  (tx_quiesced (ctx c) = true -> tx_quiesced (ctx c') = true) -> (held c = [] -> held c' = []) ->
  (tx_quiesced (ctx c) = true -> tx_queue (ctx c) = q_empty -> tx_queue (ctx c') = q_empty) -> tx_inv c'.
Proof.
  intros [_ Hf Hq] Hc Ef Eq E1 E2 Hqq Hh Hk. constructor; [done|..].
  - rewrite Ef, E1, E2. destruct (fl c); intuition.
  - rewrite Eq. destruct (qu c); intuition.
Qed.

Lemma inv_take c b d :
  tx_inv c -> wk c = W_loop -> tx_work_take (ctx c) = Some (b, d) ->
  tx_inv (c <| us := on_tr (fun _ => d) (us c) |> <| wk := W_send b |>).
Proof.
  intros [Hc Hf Hq] Hw Ht. pose proof (tx_work_take_some _ _ _ Ht) as (Hcl & Hfl & _ & q & Hp & Ed).
  assert (Eh : held c = []) by (unfold held; by rewrite Hw). rewrite Eh in Hc.
  apply orb_false_iff in Hcl as [Hr Hqs]. rewrite count_stateful_eq in Ed.
  constructor; [by apply (core_take (ctx c))|..]; cbn.
  - destruct (fl c); [by rewrite Ed|by rewrite (proj1 Hf) in Hfl..].
  - destruct (qu c); [done|rewrite Hqs in Hq; naive_solver..].
Qed.

Ltac inv_case Hi := apply (inv_frame _ _ Hi); cbn; try done.

Lemma tx_inv_step c e c' : tx_inv c -> ustep c e c' -> tx_inv c'.
Proof.
  intros Hi Hs. pose proof Hi as [Hc Hf Hq].
  destruct Hs as [c nl b ret s' E|c Hw Ht|c Hw Ht|c b d Hw Ht|c b ok s' Hw E|c i status Hl|c n En|c t Ef
    |c t i Ef Hw|c t i Ef|c n En|c Eq|c Eq Hw|c Eq|c Eq Ea En|c ret s' Eq E|c|c s' Hs].
  - destruct (usb_write_cases _ _ _ _ _ E) as [(-> & _ & d & Hd & Hm & Ed)|[_ Hd]].
    + assert (Ha : core (admitted b d) (held c)) by (apply core_admitted; [by apply (core_same (ctx c))|done]).
      destruct Hm as [Ho _ _]. apply orb_false_iff in Ho as [_ Ho].
      destruct Hd. inv_case Hi; rewrite Ed; try done; rewrite admitted_eq; cbn; congruence.
    + destruct (Hd). inv_case Hi; try congruence. by apply (core_same (ctx c)).
  - inv_case Hi. unfold held in *. cbn. rewrite Hw in Hc. by apply core_work.
  - inv_case Hi. unfold held in *. cbn. by rewrite Hw in Hc.
  - by apply inv_take.
  - unfold held in Hc. rewrite Hw in Hc. apply tx_work_send_cases in E.
    destruct ok; inv_case Hi; destruct (E); rewrite ?count_stateful_eq in *; cbn in *; try congruence.
    + apply (core_same (sent b (ctx c))); [done|by apply core_sent].
    + apply (core_same (count_stateful (-1) b (ctx c))); [by rewrite count_stateful_eq|by apply core_unsent].
  - destruct (tx_complete_cases i status (us c) Hl) as (b & Hb & Hd).
    assert (Hc' : core (completed i b (ctx c)) (held c)) by by apply core_completed.
    unfold completed in Hd. rewrite count_stateful_eq in Hd. destruct (Hd). cbn in *.
    inv_case Hi; try congruence. unfold completed in Hc'. rewrite count_stateful_eq in Hc'. by eapply core_same.
  - inv_case Hi; rewrite requeue_eq; try done. by apply core_work.
  - rewrite Ef in Hf. constructor; cbn; [|done|done].
    by apply (core_flags _ _ (running (ctx c)) (tx_quiesced (ctx c)) true t) in Hc.
  - rewrite Ef in Hf. assert (Eh : held c = []) by (unfold held; by rewrite Hw).
    constructor; cbn; rewrite cancel_work_eq; [by apply core_work|intuition|done].
  - rewrite Ef in Hf. constructor; cbn -[flush_leave]; [by apply (core_left t i)|by rewrite flush_leave_eq|].
    rewrite flush_leave_eq, flush_queue_filter by apply (co_prio _ _ Hc). cbn.
    destruct (qu c); try done. destruct Hq as (? & ? & Ek). by rewrite Ek.
  - pose proof (stateful_fail_tx true (us c)) as Hd. destruct (Hd).
    inv_case Hi; try congruence. by apply (core_same (ctx c)).
  - constructor; cbn; [|by destruct (fl c)|done].
    by apply (core_flags _ _ (running (ctx c)) true (flush_in_progress (ctx c)) (flush_if_type (ctx c))) in Hc.
  - rewrite Eq in Hq. assert (Eh : held c = []) by (unfold held; by rewrite Hw).
    constructor; cbn; rewrite cancel_work_eq; [by apply core_work|by destruct (fl c)|done].
  - rewrite Eq in Hq. constructor; cbn; [by apply core_purge|by destruct (fl c)|intuition].
  - rewrite Eq in Hq. destruct Hq as (Hqq & Eh & Ek). rewrite Eh in Hc.
    pose proof (quiesce_rx_tx (on_tr zero_inflight (us c))) as Hd. destruct (Hd). cbn -[quiesce_rx] in *.
    constructor; cbn -[quiesce_rx]; [|rewrite st_flush0, st_flush_if0; by destruct (fl c)|done].
    change (held _) with (held c). rewrite Eh. eapply core_same; [exact Hd|]. by apply core_zero.
  - rewrite Eq in Hq.
    destruct (reinit_cases _ _ _ E) as [[Hd _]|(_ & _ & d & Hd & Ed)].
    + destruct (Hd). inv_case Hi; try congruence. by apply (core_same (ctx c)).
    + assert (Hc' : core (reopen_tx d) (held c)).
      { unfold reopen_tx. rewrite queue_work_eq. apply core_work. apply (core_same _ _ _ Hd) in Hc.
        by apply (core_flags _ _ (running d) false (flush_in_progress d) (flush_if_type d)) in Hc. }
      destruct Hd. constructor; cbn; rewrite ?Ed; [done| |by rewrite Eq].
      unfold reopen_tx. rewrite queue_work_eq. cbn. by rewrite st_flush0, st_flush_if0.
  - inv_case Hi. by apply (core_flags _ _ false true (flush_in_progress (ctx c)) (flush_if_type (ctx c))) in Hc.
  - destruct (Hs). inv_case Hi; try congruence. by apply (core_same (ctx c)).
Qed.

Lemma tx_inv_init c : uinit c -> tx_inv c.
Proof.
  intros (E1 & _ & E3 & E4 & _ & _ & _ & E8 & E9 & E10 & E11 & E12 & E13 & E14).
  assert (Eh : held c = []) by (unfold held; by rewrite E1).
  constructor; rewrite ?E3, ?E4, ?Eh; [|done|done].
  constructor; rewrite ?E10, ?E11, ?E12, ?E13, ?E14; try done. by intros [].
Qed.

Lemma tx_inv_run c0 es c : uinit c0 -> urun c0 es c -> tx_inv c.
Proof. intros H0. induction 1; [by apply tx_inv_init|by eapply tx_inv_step]. Qed.

(** ** Order

    The frames of one priority on their way: submitted, held by the worker,
    queued. *)
Definition on_prio (p : prio) (l : list (list Z)) : list (list Z) :=
  List.filter (fun b => bool_decide (esp_usb_tx_priority b = p)) l.
Definition pipeline (p : prio) c : list (list Z) :=
  on_prio p (submitted c ++ held c) ++ q_at p (tx_queue (ctx c)).

(** The events that free frames unsent. *)
Definition drops (e : uevent) : bool :=
  match e with U_send ok => negb ok | U_flush_leave | U_quiesce_purge => true | _ => false end.

Lemma on_prio_app p l k : on_prio p (l ++ k) = on_prio p l ++ on_prio p k.
Proof. apply List.filter_app. Qed.

(** Steps that leave the queue, the worker's frame and the histories alone. *)
Lemma pipeline_same p c c' :
  submitted c' = submitted c -> held c' = held c -> tx_queue (ctx c') = tx_queue (ctx c) ->
  pipeline p c' = pipeline p c ++ on_prio p [].
Proof. intros E1 E2 E3. unfold pipeline. by rewrite E1, E2, E3, app_nil_r. Qed.

Lemma pipeline_take p c b q :
  held c = [] -> q_pop (tx_queue (ctx c)) = Some (b, q) ->
  (forall p, Forall (fun b => esp_usb_tx_priority b = p) (q_at p (tx_queue (ctx c)))) ->
  on_prio p (submitted c ++ [b]) ++ q_at p q = pipeline p c.
Proof.
  intros Eh Hq Hp. unfold pipeline. rewrite Eh, app_nil_r, on_prio_app, <- app_assoc. f_equal.
  pose proof (q_pop_some _ _ _ Hq) as (p' & Hp' & Ho & _). specialize (Hp p'). rewrite Hp' in Hp.
  apply Forall_cons in Hp as [Hb _]. unfold on_prio. cbn. rewrite Hb.
  destruct (decide (p = p')) as [->|Hne]; [by rewrite bool_decide_true, Hp'|].
  rewrite bool_decide_false by congruence. by rewrite Ho.
Qed.

(** What one step does to the pipeline: newly accepted frames enter at its end,
    and only a dropping step takes any out other than to the device. *)
Definition flow p c (e : uevent) c' : Prop :=
  exists x, accepted c' = accepted c ++ x /\ sublist (pipeline p c') (pipeline p c ++ on_prio p x) /\
    (drops e = false -> pipeline p c' = pipeline p c ++ on_prio p x).

Lemma flow_keep p c e c' : accepted c' = accepted c -> pipeline p c' = pipeline p c ++ on_prio p [] -> flow p c e c'.
Proof. intros Ha E. exists []. by rewrite app_nil_r, E. Qed.
Lemma flow_same p c e c' :
  accepted c' = accepted c -> submitted c' = submitted c -> held c' = held c ->
  tx_queue (ctx c') = tx_queue (ctx c) -> flow p c e c'.
Proof. intros. apply flow_keep; [done|by apply pipeline_same]. Qed.
Lemma flow_drop p c e c' :
  drops e = true -> accepted c' = accepted c -> sublist (pipeline p c') (pipeline p c) -> flow p c e c'.
Proof. intros Hd Ha Hs. exists []. rewrite !app_nil_r. split_and!; [done|done|by rewrite Hd]. Qed.

Lemma flow_step p c e c' : tx_inv c -> ustep c e c' -> flow p c e c'.
Proof.
  intros [Hc _ _] Hs. pose proof (co_prio _ _ Hc) as Hp.
  destruct Hs as [c nl b ret s' E|c Hw Ht|c Hw Ht|c b d Hw Ht|c b ok s' Hw E|c i status Hl|c n En|c t Ef
    |c t i Ef Hw|c t i Ef|c n En|c Eq|c Eq Hw|c Eq|c Eq Ea En|c ret s' Eq E|c|c s' Hs].
  - destruct (usb_write_cases _ _ _ _ _ E) as [(-> & _ & d & [] & _ & Ed)|[Hr []]].
    + exists [b]. split; [done|].
      assert (Hx : pipeline p (c <| us := s' |> <| accepted := accepted c ++ [b] |>) = pipeline p c ++ on_prio p [b]).
      { unfold pipeline. cbn [us submitted update]. cbn -[on_prio]. rewrite Ed, admitted_eq. cbn -[on_prio].
        rewrite q_at_push, st_queue0, app_assoc. f_equal. unfold on_prio. cbn.
        destruct (decide (p = esp_usb_tx_priority b)) as [->|Hne]; [by rewrite bool_decide_true|].
        by rewrite bool_decide_false by congruence. }
      cbn [Z.eqb]. rewrite Hx. done.
    + apply flow_same; try done. cbn. by destruct (Z.eqb_spec ret 0); [lia|].
  - apply flow_same; unfold held; cbn; by rewrite ?Hw.
  - apply flow_same; unfold held; cbn; by rewrite ?Hw.
  - apply flow_keep; [done|]. pose proof (tx_work_take_some _ _ _ Ht) as (_ & _ & _ & q & Hq & Ed).
    rewrite app_nil_r, <- (pipeline_take p c b q); [|by unfold held; rewrite Hw|done|done].
    unfold pipeline. cbn -[on_prio]. by rewrite Ed, count_stateful_eq.
  - apply tx_work_send_cases in E. destruct ok; destruct E; rewrite ?count_stateful_eq in *; cbn in *.
    + apply flow_keep; [done|]. unfold pipeline, held. cbn -[on_prio]. by rewrite Hw, !app_nil_r, st_queue0.
    + apply flow_drop; [done|done|]. unfold pipeline, held. cbn -[on_prio]. rewrite Hw, st_queue0, app_nil_r, on_prio_app.
      apply sublist_app; [|done]. by apply sublist_inserts_r.
  - destruct (tx_complete_cases i status (us c) Hl) as (b & _ & Hd). unfold completed in Hd.
    rewrite count_stateful_eq in Hd. destruct Hd. by apply flow_same.
  - apply flow_same; try done. cbn. by rewrite requeue_eq.
  - by apply flow_same.
  - apply flow_same; try done. cbn. by rewrite cancel_work_eq.
  - apply flow_drop; [done|done|]. unfold pipeline. cbn -[on_prio flush_leave]. rewrite flush_leave_eq, flush_queue_filter by done.
    apply sublist_app; [done|]. cbn -[q_filter]. rewrite q_at_filter. apply filter_sublist.
  - apply flow_same; try done. by destruct (stateful_fail_tx true (us c)).
  - by apply flow_same.
  - apply flow_same; try done. cbn. by rewrite cancel_work_eq.
  - apply flow_drop; [done|done|]. unfold pipeline. cbn -[on_prio]. apply sublist_app; [done|].
    destruct p; apply sublist_nil_l.
  - by apply flow_same.
  - apply flow_same; try done.
    destruct (reinit_cases _ _ _ E) as [[[] _]|(_ & _ & d & [] & Ed)]; [done|]. cbn. rewrite Ed.
    unfold reopen_tx. by rewrite queue_work_eq.
  - by apply flow_same.
  - destruct Hs. by apply flow_same.
Qed.

(** ** The window of a flush *)
Definition of_if (t : Z) b : bool := esp_usb_skb_if_type b =? t.
Definition stateful_if (t : Z) : Prop := t = ESP_RCP_IF \/ t = ESP_HCI_IF.

(** Frames of [t] that are neither queued nor completed. *)
Definition outside (t : Z) c : Z := nsel (of_if t) (tx_anchor (ctx c) ++ held c).

Lemma nsel_nonneg f l : 0 <= nsel f l.
Proof. apply zlen_nonneg. Qed.
Lemma nsel_nil f : nsel f [] = 0.
Proof. done. Qed.
Lemma filter_last_out (f : list Z -> bool) l b : f b = false -> List.filter f (l ++ [b]) = List.filter f l.
Proof. intros E. rewrite List.filter_app. cbn. by rewrite E, app_nil_r. Qed.

Lemma stateful_inflight_outside t c :
  stateful_if t -> core (ctx c) (held c) -> stateful_inflight t (ctx c) = negb (outside t c =? 0).
Proof.
  intros Ht []. unfold stateful_inflight, outside. destruct Ht as [-> | ->]; cbn [Z.eqb].
  - by rewrite co_rcp0.
  - by rewrite co_hci0.
Qed.

(** While a flush of [t] is under way, no frame of [t] is admitted, and with none
    outside the queue none gets there. *)
Record window (t : Z) (i : bool) c c' : Prop := mk_window {
  wi_fl : fl c' = F_cancel t i \/ fl c' = F_purge t i;
  wi_accepted : List.filter (of_if t) (accepted c') = List.filter (of_if t) (accepted c);
  wi_none : outside t c = 0 ->
    outside t c' = 0 /\ List.filter (of_if t) (submitted c') = List.filter (of_if t) (submitted c)
}.

Lemma window_same t i c c1 c2 :
  window t i c c1 -> (fl c2 = F_cancel t i \/ fl c2 = F_purge t i) -> accepted c2 = accepted c1 ->
  submitted c2 = submitted c1 -> held c2 = held c1 -> tx_anchor (ctx c2) = tx_anchor (ctx c1) -> window t i c c2.
Proof.
  intros [Hf Ha Hn] Hf2 E1 E2 E3 E4. constructor; [done|congruence|].
  unfold outside in *. by rewrite E2, E3, E4.
Qed.

Lemma window_flush t i c c1 :
  window t i c c1 -> tx_inv c1 -> flush_in_progress (ctx c1) = true /\ flush_if_type (ctx c1) = t.
Proof. intros [[E|E] _ _] [_ Hf _]; rewrite E in Hf; naive_solver. Qed.

Lemma window_step t i c c1 e c2 :
  window t i c c1 -> tx_inv c1 -> ustep c1 e c2 -> e <> U_flush_leave -> window t i c c2.
Proof.
  intros Hw Hi Hs Hne. pose proof (window_flush _ _ _ _ Hw Hi) as [Hfl Hft]. pose proof Hw as [Hf Ha Hn].
  destruct Hs as [c1 nl b ret s' E|c1 Hk Ht|c1 Hk Ht|c1 b d Hk Ht|c1 b ok s' Hk E|c1 j status Hl|c1 n En|c1 t1 Ef
    |c1 t1 j Ef Hk|c1 t1 j Ef|c1 n En|c1 Eq|c1 Eq Hk|c1 Eq|c1 Eq Ea En|c1 ret s' Eq E|c1|c1 s' Hs].
  - destruct (usb_write_cases _ _ _ _ _ E) as [(-> & _ & d & [] & [_ Hx _] & Ed)|[Hr []]].
    + constructor; [done| |]; cbn.
      * rewrite filter_last_out; [done|]. apply Z.eqb_neq. rewrite <- Hft, <- st_flush_if0. apply not_eq_sym, Hx. congruence.
      * intros H0. specialize (Hn H0). unfold outside, held in *. cbn. rewrite Ed, admitted_eq. cbn. by rewrite st_anchor0.
    + apply (window_same _ _ _ _ _ Hw); try done. cbn. by destruct (Z.eqb_spec ret 0); [lia|].
  - apply (window_same _ _ _ _ _ Hw); unfold held; cbn; by rewrite ?Hk.
  - apply (window_same _ _ _ _ _ Hw); unfold held; cbn; by rewrite ?Hk.
  - apply tx_work_take_some in Ht as (_ & Hx & _). congruence.
  - apply tx_work_send_cases in E. constructor; [done|done|]. intros H0. specialize (Hn H0) as [Ho Hn].
    unfold outside, held in *. rewrite Hk, nsel_app, nsel_one in Ho. pose proof (nsel_nonneg (of_if t) (tx_anchor (ctx c1))).
    destruct (of_if t b) eqn:Eb; [lia|].
    destruct ok; destruct E; rewrite ?count_stateful_eq in *; cbn in *; rewrite st_anchor0, app_nil_r.
    + split; [by rewrite nsel_app, nsel_one, Eb|]. by rewrite filter_last_out.
    + split; [lia|done].
  - destruct (tx_complete_cases j status (us c1) Hl) as (b & Hb & Hd). unfold completed in Hd.
    rewrite count_stateful_eq in Hd. destruct Hd. constructor; [done|done|]. intros H0. specialize (Hn H0) as [Ho Hn].
    split; [|done]. unfold outside in *. cbn in *. change (held _) with (held c1). rewrite st_anchor0.
    rewrite nsel_app, (nsel_delete _ _ _ _ Hb) in *.
    pose proof (nsel_nonneg (of_if t) (delete j (tx_anchor (ctx c1)))) as Hp. rewrite (nsel_delete _ _ _ _ Hb) in Hp.
    pose proof (nsel_nonneg (of_if t) (held c1)). destruct (of_if t b); lia.
  - apply (window_same _ _ _ _ _ Hw); try done. cbn. by rewrite requeue_eq.
  - rewrite Ef in Hf. by destruct Hf.
  - apply (window_same _ _ _ _ _ Hw); try done; cbn; [|by rewrite cancel_work_eq].
    destruct Hf as [Hf|Hf]; rewrite Ef in Hf; [|done]. right. congruence.
  - done.
  - apply (window_same _ _ _ _ _ Hw); try done. by destruct (stateful_fail_tx true (us c1)).
  - by apply (window_same _ _ _ _ _ Hw).
  - apply (window_same _ _ _ _ _ Hw); try done. cbn. by rewrite cancel_work_eq.
  - by apply (window_same _ _ _ _ _ Hw).
  - by apply (window_same _ _ _ _ _ Hw).
  - apply (window_same _ _ _ _ _ Hw); try done.
    destruct (reinit_cases _ _ _ E) as [[[] _]|(_ & _ & d & [] & Ed)]; [done|]. cbn. rewrite Ed.
    unfold reopen_tx. by rewrite queue_work_eq.
  - by apply (window_same _ _ _ _ _ Hw).
  - destruct Hs. by apply (window_same _ _ _ _ _ Hw).
Qed.

Lemma window_run t i c es c' :
  tx_inv c -> fl c = F_cancel t i -> urun c es c' -> Forall (fun e => e <> U_flush_leave) es ->
  window t i c c' /\ tx_inv c'.
Proof.
  intros Hi Ef. induction 1 as [|es c1 e c2 Hr IH Hs]; intros He.
  - split; [|done]. constructor; auto.
  - apply Forall_cons in He as [He1 He]. specialize (IH He) as [IH1 IH2].
    split; [by eapply window_step|by eapply tx_inv_step].
Qed.

(** ** The worker and the completions drain the queue *)
Definition drain_event (e : uevent) : bool :=
  match e with U_start | U_break | U_take | U_send true | U_count | U_requeue => true | _ => false end.

(** Submissions succeed. *)
Definition hc_submits : Prop :=
  (forall h, (hc_alloc B h).1 = true) /\ (forall ep b h, (usb_submit_urb B ep b h).1 = 0).

Definition open_tx c : Prop := tx_closed (ctx c) = false /\ flush_in_progress (ctx c) = false.

(** Frames wait only if somebody will look at the queue. *)
Definition live c : Prop :=
  open_tx c -> tx_queue (ctx c) <> q_empty ->
  tx_work (ctx c) = true \/ wk c <> W_idle \/ tx_anchor (ctx c) <> [] \/ completing c <> O.

Lemma live_same c c' :
  live c -> (open_tx c' -> open_tx c) -> tx_queue (ctx c') = tx_queue (ctx c) ->
  (tx_work (ctx c) = true -> tx_work (ctx c') = true) -> (wk c <> W_idle -> wk c' <> W_idle) ->
  tx_anchor (ctx c') = tx_anchor (ctx c) -> completing c' = completing c -> live c'.
Proof. intros Hl Ho Eq Hw Hk Ea Ec Ho' Hq. rewrite Eq in Hq. rewrite Ea, Ec. destruct (Hl (Ho Ho') Hq); intuition. Qed.

Lemma live_work c : tx_work (ctx c) = true -> live c.
Proof. by left. Qed.
Lemma live_closed c : tx_closed (ctx c) = true -> live c.
Proof. intros Hc [Ho _]. congruence. Qed.
Lemma live_flush c : flush_in_progress (ctx c) = true -> live c.
Proof. intros Hc [_ Ho]. congruence. Qed.

Lemma live_step c e c' : tx_inv c -> live c -> ustep c e c' -> e <> U_send false -> live c'.
Proof.
  intros [Hc Hf Hq] Hl Hs Hne. pose proof (co_wq _ _ Hc) as Hwq.
  destruct Hs as [c nl b ret s' E|c Hw Ht|c Hw Ht|c b d Hw Ht|c b ok s' Hw E|c i status Hi|c n En|c t Ef
    |c t i Ef Hw|c t i Ef|c n En|c Eq|c Eq Hw|c Eq|c Eq Ea En|c ret s' Eq E|c|c s' Hs].
  - destruct (usb_write_cases _ _ _ _ _ E) as [(-> & _ & d & [] & _ & Ed)|[_ []]].
    + destruct (flush_in_progress d) eqn:Efl; [apply live_flush|apply live_work]; cbn; rewrite Ed, admitted_eq; cbn.
      * done.
      * rewrite Efl, st_wq0, Hwq. by rewrite orb_true_r.
    + apply (live_same c); try done; unfold open_tx, tx_closed; cbn; intuition congruence.
  - by intros _ _; right; left.
  - intros [Ho Hfl] Hk. right; right; left. cbn in *. unfold tx_work_take in Ht. rewrite Ho, Hfl in Ht. cbn in Ht.
    destruct (_ <=? _) eqn:El.
    + bool_hyps. rewrite (co_count _ _ Hc) in El. intros Ea. by rewrite Ea in El.
    + destruct (q_pop _) as [[x q]|] eqn:Ep; [done|]. by apply q_pop_none in Ep.
  - by intros _ _; right; left.
  - destruct ok; [|done]. by intros _ _; right; left.
  - by intros _ _; right; right; right.
  - destruct (tx_closed (ctx c)) eqn:Ecl; [apply live_closed|destruct (flush_in_progress (ctx c)) eqn:Efl;
      [apply live_flush|apply live_work]]; cbn; rewrite requeue_eq; cbn; try done.
    by rewrite Ecl, Efl, Hwq, orb_true_r.
  - by apply live_flush.
  - rewrite Ef in Hf. apply live_flush. cbn. rewrite cancel_work_eq. by destruct Hf.
  - destruct (tx_closed (ctx c)) eqn:Ecl; [apply live_closed|apply live_work]; cbn -[flush_leave]; rewrite flush_leave_eq; [done|].
    cbn. by rewrite Ecl, Hwq, orb_true_r.
  - pose proof (stateful_fail_tx true (us c)) as []. apply (live_same c); try done; unfold open_tx, tx_closed; cbn;
      intuition congruence.
  - apply live_closed. unfold tx_closed. cbn. by rewrite orb_true_r.
  - rewrite Eq in Hq. apply live_closed. unfold tx_closed. cbn. rewrite cancel_work_eq. cbn. by rewrite Hq, orb_true_r.
  - rewrite Eq in Hq. apply live_closed. unfold tx_closed. cbn. by rewrite (proj1 Hq), orb_true_r.
  - rewrite Eq in Hq. apply live_closed. unfold tx_closed. pose proof (quiesce_rx_tx (on_tr zero_inflight (us c))) as [].
    cbn -[quiesce_rx] in *. by rewrite st_quiesced0, (proj1 Hq), orb_true_r.
  - destruct (reinit_cases _ _ _ E) as [[[] _]|(_ & _ & d & [] & Ed)].
    + apply (live_same c); try done; unfold open_tx, tx_closed; cbn; intuition congruence.
    + apply live_work. cbn. rewrite Ed. unfold reopen_tx. rewrite queue_work_eq. cbn. by rewrite st_wq0, Hwq, orb_true_r.
  - by apply live_closed.
  - destruct Hs. apply (live_same c); try done; unfold open_tx, tx_closed; cbn; intuition congruence.
Qed.

Lemma live_run c0 es c : uinit c0 -> urun c0 es c -> Forall (fun e => e <> U_send false) es -> live c.
Proof.
  intros H0. induction 1 as [|es c e c' Hr IH Hs]; intros He.
  - destruct H0 as (_ & _ & _ & _ & _ & _ & _ & _ & _ & Eq & _). by intros _ Hk.
  - apply Forall_cons in He as [He1 He]. apply (live_step c e); [by eapply tx_inv_run|by apply IH|done|done].
Qed.

(** The work left: what each frame and each pending run of the worker still costs. *)
Definition measure c : Z :=
  6 * zlen (q_all (tx_queue (ctx c)) ++ held c) + 4 * zlen (tx_anchor (ctx c)) + 3 * Z.of_nat (completing c)
  + 2 * Z.b2z (tx_work (ctx c)) + match wk c with W_loop => 1 | _ => 0 end.

(** Everything accepted and not dropped, in the order it is handed over. *)
Definition outgoing c : list (list Z) := submitted c ++ held c ++ q_all (tx_queue (ctx c)).

Lemma measure_nonneg c : 0 <= measure c.
Proof. unfold measure. case_match; destruct (tx_work (ctx c)); cbn; zlia. Qed.

Lemma submits_send b s : hc_submits -> (tx_work_send B m2j b s).1 = true.
Proof.
  intros [Ha Hu]. unfold tx_work_send, esp_usb_submit_tx, on_hc.
  pose proof (Ha (hc (tr s))) as H1. destruct (hc_alloc B (hc (tr s))) as [ok1 h1]; cbn in H1 |- *. subst ok1. cbn.
  pose proof (Ha h1) as H2. destruct (hc_alloc B h1) as [ok2 h2]; cbn in H2 |- *. subst ok2. cbn.
  pose proof (Hu (bulk_out_addr (tr s)) b h2) as H3. destruct (usb_submit_urb B _ b h2) as [ret h3]; cbn in H3 |- *.
  by subst ret.
Qed.

Lemma drain_step c e c' :
  tx_inv c -> open_tx c -> ustep c e c' -> drain_event e = true ->
  open_tx c' /\ measure c' < measure c /\ outgoing c' = outgoing c.
Proof.
  intros [Hc _ _] [Ho Hfl] Hs Hd. pose proof (co_wq _ _ Hc) as Hwq. unfold open_tx, measure, outgoing.
  destruct Hs as [| c Hw Ht|c Hw Ht|c b d Hw Ht|c b ok s' Hw E|c i status Hi|c n En| | | | | | | | | | |]; try done.
  - unfold held. cbn. rewrite Hw, Ht, app_nil_r. cbn. split_and!; [done|done|lia|done].
  - unfold held. cbn. rewrite Hw, app_nil_r. split_and!; [done|done|lia|done].
  - apply tx_work_take_some in Ht as (_ & _ & _ & q & Hq & ->). unfold held. cbn. rewrite count_stateful_eq, Hw. cbn.
    rewrite (q_pop_all _ _ _ Hq), !app_nil_r. split_and!; [done|done|zlia|done].
  - destruct ok; [|done]. apply tx_work_send_cases in E. destruct E. unfold held, tx_closed in *. cbn in *.
    rewrite st_running0, st_quiesced0, st_flush0, st_queue0, st_work0, st_anchor0, Hw.
    split_and!; [done|done|zlia|]. by rewrite <- app_assoc.
  - destruct (tx_complete_cases i status (us c) Hi) as (b & Hb & Hx). unfold completed in Hx.
    rewrite count_stateful_eq in Hx. destruct Hx. unfold tx_closed in *. cbn in *. change (held _) with (held c).
    rewrite st_running0, st_quiesced0, st_flush0, st_queue0, st_work0, st_anchor0, (zlen_delete _ _ _ Hb).
    split_and!; [done|done|lia|done].
  - cbn. change (held _) with (held c). rewrite requeue_eq, En. cbn. split_and!; [done|done| |done].
    destruct (tx_work (ctx c)), (negb (tx_closed (ctx c)) && _ && _); cbn; lia.
Qed.

Lemma drain_run c es c' :
  tx_inv c -> open_tx c -> urun c es c' -> Forall (fun e => drain_event e = true) es ->
  tx_inv c' /\ open_tx c' /\ zlen es + measure c' <= measure c /\ outgoing c' = outgoing c.
Proof.
  intros Hi Ho. induction 1 as [|es c1 e c2 Hr IH Hs]; intros He.
  - rewrite zlen_nil. split; [done|]. split; [done|]. split; [lia|done].
  - apply Forall_cons in He as [He1 He]. destruct (IH He) as (Hi1 & Ho1 & Hm & Eo).
    destruct (drain_step _ _ _ Hi1 Ho1 Hs He1) as (Ho2 & Hm2 & Eo2).
    rewrite zlen_cons. split; [by eapply tx_inv_step|]. split; [done|]. split; [lia|congruence].
Qed.

(** With nothing left to run, nothing is left to send. *)
Lemma drained c :
  hc_submits -> live c -> open_tx c ->
  (forall e c', drain_event e = true -> ~ ustep c e c') ->
  tx_queue (ctx c) = q_empty /\ held c = [] /\ tx_anchor (ctx c) = [].
Proof.
  intros Hh Hl Ho Hn.
  assert (Ew : wk c = W_idle).
  { destruct (wk c) as [| |b] eqn:Ew; [done|..]; exfalso.
    - destruct (tx_work_take (ctx c)) as [[b d]|] eqn:Et; [by eapply Hn, us_take|by eapply Hn, us_break].
    - pose proof (submits_send b (us c) Hh) as Hs. destruct (tx_work_send B m2j b (us c)) as [ok s'] eqn:E. cbn in Hs.
      subst ok. by eapply (Hn (U_send true)), us_send. }
  assert (Ea : tx_anchor (ctx c) = []).
  { destruct (tx_anchor (ctx c)) as [|b l] eqn:Ea; [done|]. exfalso. eapply (Hn U_count), (us_count c 0 0); [done|].
    rewrite Ea. cbn. lia. }
  assert (Ec : completing c = O).
  { destruct (completing c) as [|n] eqn:Ec; [done|]. exfalso. by eapply (Hn U_requeue), us_requeue. }
  assert (Et : tx_work (ctx c) = false).
  { destruct (tx_work (ctx c)) eqn:Et; [|done]. exfalso. by eapply (Hn U_start), us_start. }
  split_and!; [|unfold held; by rewrite Ew|done].
  destruct (q_is_empty (tx_queue (ctx c))) eqn:Eq; [by apply q_is_empty_iff|]. exfalso.
  destruct (Hl Ho) as [?|[?|[?|?]]]; try congruence. intros Hk%q_is_empty_iff. congruence.
Qed.

(** ** Theorems *)

(** The counters of the USB transmit path are exact.  In any interleaving of
    writers, the worker, completions, flushes, [quiesce], [reinit] and the clean-up,
    [tx_inflight] is the number of submitted URBs and never exceeds
    [ESP_USB_TX_URBS]; the RCP and HCI counters count the frames of their interface
    that are submitted or held by the worker; at most [ESP_USB_TX_QUEUE_MAX] frames
    are queued, each in the queue of its priority; and when [quiesce] zeroes the
    counters, its URBs being gone, they are zero already. *)
Theorem usb_tx_accounting c0 es c :
  uinit c0 -> urun c0 es c ->
  let d := ctx c in
  tx_inflight d = zlen (tx_anchor d) /\ zlen (tx_anchor d) <= ESP_USB_TX_URBS /\
  rcp_tx_inflight d = outside ESP_RCP_IF c /\ hci_tx_inflight d = outside ESP_HCI_IF c /\
  zlen (q_all (tx_queue d)) <= ESP_USB_TX_QUEUE_MAX /\
  (forall p, Forall (fun b => esp_usb_tx_priority b = p) (q_at p (tx_queue d))) /\
  (qu c = Q_kill -> tx_anchor d = [] -> zero_inflight d = d).
Proof.
  intros H0 Hr d. destruct (tx_inv_run _ _ _ H0 Hr) as [[] _ Hq]. subst d.
  split; [done|]. split; [pose proof (zlen_nonneg (held c)); lia|]. do 4 (split; [done|]).
  intros Eq Ea. rewrite Eq in Hq. destruct Hq as (_ & Eh & _). unfold zero_inflight.
  rewrite Ea, Eh in *. cbn in *. destruct (tr (us c)). cbn in *. by subst.
Qed.

(** Frames leave the USB host in the order they were accepted.  In any
    interleaving, what has been submitted, what the worker holds and what is queued
    of one priority is, in this order, a subsequence of the frames accepted at that
    priority - none is sent twice, invented or overtaken -; and it is all of them
    when no flush, [quiesce] or failed submission has freed one. *)
Theorem usb_tx_fifo c0 es c p :
  uinit c0 -> urun c0 es c ->
  sublist (pipeline p c) (on_prio p (accepted c)) /\
  (Forall (fun e => drops e = false) es -> pipeline p c = on_prio p (accepted c)).
Proof.
  intros H0 Hr. induction Hr as [|es c e c' Hr [IH1 IH2] Hs].
  - destruct H0 as (E1 & _ & _ & _ & _ & E6 & E7 & _ & _ & E10 & _). unfold pipeline, held.
    rewrite E1, E6, E7, E10. by destruct p.
  - destruct (flow_step p _ _ _ (tx_inv_run _ _ _ H0 Hr) Hs) as (x & Ea & Hsub & Heq).
    rewrite Ea, on_prio_app. split.
    + etrans; [exact Hsub|]. by apply sublist_app.
    + intros [Hd He]%Forall_cons. by rewrite Heq, IH2.
Qed.

(** C14: A flush is a boundary for its interface.  Let a flush of RCP or HCI traffic
    run from its first locked part to its second, anything else happening in between.
    No frame of the interface is admitted meanwhile; afterwards none of its frames is
    queued, and the others keep their order; and either the flush reports an
    ambiguous stream - which queues the work that resets the firmware, unless the
    device is going away or a recovery has been asked for already -, or no frame of
    the interface is outside the queue at either end and none was submitted since the
    beginning. *)
Theorem usb_flush_boundary c0 es0 c1 t c2 es c3 c4 :
  uinit c0 -> urun c0 es0 c1 -> stateful_if t -> ustep c1 (U_flush t) c2 -> urun c2 es c3 ->
  Forall (fun e => e <> U_flush_leave) es -> ustep c3 U_flush_leave c4 ->
  List.filter (of_if t) (accepted c4) = List.filter (of_if t) (accepted c1) /\
  (forall p, q_at p (tx_queue (ctx c4)) =
     List.filter (fun b => negb (of_if t b)) (q_at p (tx_queue (ctx c3)))) /\
  ((due c4 = S (due c3) /\
    (forall c5, ustep c4 U_report c5 -> running (ctx c4) = true -> stateful_fail_blocked (ad (us c4)) = false ->
       stateful_fail_work (ctx c5) = true /\ stateful_fail_force (ctx c5) = true)) \/
   (due c4 = due c3 /\ outside t c1 = 0 /\ outside t c4 = 0 /\
    List.filter (of_if t) (submitted c4) = List.filter (of_if t) (submitted c1))).
Proof.
  intros H0 Hr0 Ht Hs1 Hr He Hs2. pose proof (tx_inv_run _ _ _ H0 Hr0) as Hi1.
  pose proof (tx_inv_step _ _ _ Hi1 Hs1) as Hi2. inversion Hs1 as [| | | | | | |c t' Ef E1 E2 E3| | | | | | | | | |]; subst.
  set (i := (flush_enter t (ctx c1)).1) in *. set (c2 := c1 <| us := _ |> <| fl := _ |>) in *.
  destruct (window_run t i _ _ _ Hi2 eq_refl Hr He) as [[Hfl Ha Hn] Hi3].
  inversion Hs2 as [| | | | | | | | |c t' i' Ef3 E1 E2 E3| | | | | | | |]; subst.
  assert (t' = t /\ i' = i) as [-> ->] by (destruct Hfl as [Hfl|Hfl]; rewrite Ef3 in Hfl; naive_solver).
  assert (Ei : i = negb (outside t c1 =? 0)) by (apply stateful_inflight_outside; [done|apply Hi1]).
  assert (Eo : outside t c2 = outside t c1) by done.
  pose proof (stateful_inflight_outside t c3 Ht (iv_core _ Hi3)) as Ex.
  set (c4 := c3 <| us := _ |> <| fl := _ |> <| due := _ |>).
  assert (Ed : due c4 = if i || negb (outside t c3 =? 0) then S (due c3) else due c3) by (subst c4; cbn -[flush_leave]; by rewrite flush_leave_inflight, Ex).
  assert (E4 : outside t c4 = outside t c3) by (subst c4; unfold outside; cbn -[flush_leave]; by rewrite flush_leave_eq).
  split; [exact Ha|]. split.
  - intros p. subst c4. cbn -[flush_leave]. rewrite flush_leave_eq, flush_queue_filter by apply Hi3.
    cbn -[q_filter]. by rewrite q_at_filter.
  - rewrite E4, Ed, Ei. rewrite Eo in Hn. destruct (Z.eqb_spec (outside t c1) 0) as [E0|E0]; cbn [negb orb].
    + right. destruct (Hn E0) as [E5 E6]. split; [by rewrite E5|]. split; [done|]. split; [exact E5|exact E6].
    + left. split; [done|]. intros c5 Hs5 Hrun Hb.
      inversion Hs5 as [| | | | | | | | | |c n En E7 E8| | | | | | |]; subst. by apply (report_sets (us c4)).
Qed.

(** C15: The USB transmit queue drains.  Take any interleaving in which no submission
    failed, and let the path be open with no flush under way.  From there the worker
    and the completions of URBs make finitely many steps, at most [measure] in all;
    and when none of them can move, the queue is empty, no URB is outstanding, and
    the frames waiting at the beginning have all been submitted, first the one the
    worker held and then those queued, by priority and first come first served. *)
Theorem usb_tx_drains c0 es0 c es c' :
  hc_submits -> uinit c0 -> urun c0 es0 c -> Forall (fun e => e <> U_send false) es0 -> open_tx c ->
  urun c es c' -> Forall (fun e => drain_event e = true) es ->
  zlen es <= measure c /\
  ((forall e c'', drain_event e = true -> ~ ustep c' e c'') ->
   tx_queue (ctx c') = q_empty /\ tx_anchor (ctx c') = [] /\ submitted c' = submitted c ++ held c ++ q_all (tx_queue (ctx c))).
Proof.
  intros Hh H0 Hr0 He0 Ho Hr He. pose proof (tx_inv_run _ _ _ H0 Hr0) as Hi.
  destruct (drain_run _ _ _ Hi Ho Hr He) as (_ & Ho' & Hm & Eo). pose proof (measure_nonneg c') as Hp.
  split; [lia|]. intros Hn.
  assert (Hl : live c').
  { clear Hm Eo Hn Hp Ho'. induction Hr as [|es c1 e c2 Hr IH Hs]; [by eapply live_run|].
    apply Forall_cons in He as [He1 He]. destruct (drain_run _ _ _ Hi Ho Hr He) as (Hi1 & _).
    apply (live_step c1 e); [done|by apply IH|done|]. by intros ->. }
  destruct (drained c' Hh Hl Ho' Hn) as (Eq & Eh & Ea). split_and!; [done|done|].
  unfold outgoing in Eo. rewrite Eq, Eh in Eo. cbn in Eo. by rewrite app_nil_r in Eo.
Qed.
End UsbTx.

(** ** A run on a device that accepts everything *)
Definition demo_rcp_frame : list Z := 5 :: replicate 19 0.
Definition demo_sta_frame : list Z := replicate 20 0.

Notation demo_step := (ustep demo_hc id).

Definition demo_cfg : cfg (H := unit) := mk_cfg demo_usb_sys W_idle 0 F_idle Q_idle 0 [] [].
Definition demo_write b (c : cfg (H := unit)) : cfg :=
  c <| us := (esp_usb_write demo_hc false b (us c)).2 |> <| accepted := accepted c ++ [b] |>.
Definition demo_start (c : cfg (H := unit)) : cfg :=
  c <| us := on_tr (fun d => d <| tx_work := false |>) (us c) |> <| wk := W_loop |>.
Definition demo_take b (c : cfg (H := unit)) : cfg :=
  c <| us := on_tr (fun d => match tx_work_take d with Some (_, d') => d' | None => d end) (us c) |> <| wk := W_send b |>.
Definition demo_send b (c : cfg (H := unit)) : cfg :=
  c <| us := (tx_work_send demo_hc id b (us c)).2 |> <| wk := W_loop |> <| submitted := submitted c ++ [b] |>.

Definition demo_queued : cfg := demo_write demo_sta_frame (demo_write demo_rcp_frame demo_cfg).
Definition demo_held : cfg := demo_take demo_rcp_frame (demo_start demo_queued).

Lemma demo_uinit : uinit demo_cfg.
Proof. unfold uinit. split_and!; vm_compute; reflexivity. Qed.

Lemma demo_write_step b c :
  (esp_usb_write demo_hc false b (us c)).1 = 0 -> demo_step c (U_write 0 b) (demo_write b c).
Proof.
  intros E. unfold demo_write. pose proof (us_write demo_hc id c false b) as Hw.
  destruct (esp_usb_write demo_hc false b (us c)) as [ret s']. cbn in E. subst ret. exact (Hw 0 s' eq_refl).
Qed.
Lemma demo_start_step c : wk c = W_idle -> tx_work (tr (us c)) = true -> demo_step c U_start (demo_start c).
Proof. apply us_start. Qed.
Lemma demo_take_step b c :
  wk c = W_loop -> option_map fst (tx_work_take (tr (us c))) = Some b -> demo_step c U_take (demo_take b c).
Proof.
  intros Hw Ht. unfold demo_take. pose proof (us_take demo_hc id c b) as Hs. cbn in Hs.
  destruct (tx_work_take (tr (us c))) as [[x d]|] eqn:E; [|done]. injection Ht as ->. specialize (Hs d Hw eq_refl).
  unfold on_tr in *. cbn. rewrite E. exact Hs.
Qed.
Lemma demo_send_step b c :
  wk c = W_send b -> (tx_work_send demo_hc id b (us c)).1 = true -> demo_step c (U_send true) (demo_send b c).
Proof.
  intros Hw E. unfold demo_send. pose proof (us_send demo_hc id c b) as Hs.
  destruct (tx_work_send demo_hc id b (us c)) as [ok s']. cbn in E. subst ok. exact (Hs true s' Hw eq_refl).
Qed.

Lemma demo_queued_run : urun demo_hc id demo_cfg [U_write 0 demo_sta_frame; U_write 0 demo_rcp_frame] demo_queued.
Proof.
  eapply urun_step; [eapply urun_step; [apply urun_nil|]|]; apply demo_write_step; vm_compute; reflexivity.
Qed.
Lemma demo_held_run c0 :
  urun demo_hc id c0 [] demo_queued -> urun demo_hc id c0 [U_take; U_start] demo_held.
Proof.
  intros Hr. eapply urun_step; [eapply urun_step; [exact Hr|]|].
  - apply demo_start_step; vm_compute; reflexivity.
  - apply demo_take_step; vm_compute; reflexivity.
Qed.
Lemma urun_app {H} (B : usb_hc H) m2j c0 es1 c1 es2 c2 :
  urun B m2j c0 es1 c1 -> urun B m2j c1 es2 c2 -> urun B m2j c0 (es2 ++ es1) c2.
Proof. intros H1. induction 1; [done|]. cbn. by eapply urun_step. Qed.

Definition demo_events : list uevent := [U_take; U_start] ++ [U_write 0 demo_sta_frame; U_write 0 demo_rcp_frame].
Lemma demo_full_run : urun demo_hc id demo_cfg demo_events demo_held.
Proof. eapply urun_app; [exact demo_queued_run|]. apply demo_held_run, urun_nil. Qed.

Lemma usb_tx_accounting_witness :
  rcp_tx_inflight (tr (us demo_held)) = 1 /\ tx_inflight (tr (us demo_held)) = 0 /\
  rcp_tx_inflight (tr (us demo_held)) = outside ESP_RCP_IF demo_held.
Proof.
  destruct (usb_tx_accounting demo_hc id demo_cfg demo_events demo_held demo_uinit demo_full_run)
    as (_ & _ & Hr & _).
  split; [vm_compute; reflexivity|]. split; [vm_compute; reflexivity|exact Hr].
Defined.

Lemma usb_tx_fifo_witness :
  pipeline PRIO_Q_MID demo_held = [demo_rcp_frame] /\ pipeline PRIO_Q_LOW demo_held = on_prio PRIO_Q_LOW (accepted demo_held).
Proof.
  split; [vm_compute; reflexivity|].
  apply (usb_tx_fifo demo_hc id demo_cfg demo_events demo_held PRIO_Q_LOW demo_uinit demo_full_run).
  repeat constructor.
Defined.

(** The RCP frame is submitted and the worker goes idle again; then RCP is flushed. *)
Definition demo_sent : cfg := demo_send demo_rcp_frame demo_held.
Definition demo_sent2 : cfg := demo_send demo_sta_frame (demo_take demo_sta_frame demo_sent).
Definition demo_idle : cfg := demo_sent2 <| wk := W_idle |>.
Definition demo_flush1 : cfg :=
  demo_idle <| us := on_tr (fun _ => (flush_enter ESP_RCP_IF (tr (us demo_idle))).2) (us demo_idle) |>
            <| fl := F_cancel ESP_RCP_IF (flush_enter ESP_RCP_IF (tr (us demo_idle))).1 |>.
Definition demo_flush2 : cfg :=
  demo_flush1 <| us := on_tr cancel_tx_work (us demo_flush1) |> <| fl := F_purge ESP_RCP_IF true |>.
Definition demo_flush3 : cfg :=
  demo_flush2 <| us := on_tr (fun _ => (flush_leave ESP_RCP_IF true (tr (us demo_flush2))).2) (us demo_flush2) |>
              <| fl := F_idle |>
              <| due := if (flush_leave ESP_RCP_IF true (tr (us demo_flush2))).1 then S (due demo_flush2) else due demo_flush2 |>.

Lemma demo_idle_run :
  urun demo_hc id demo_cfg ([U_break; U_send true; U_take; U_send true] ++ demo_events) demo_idle.
Proof.
  eapply urun_app; [exact demo_full_run|].
  eapply urun_step; [eapply urun_step; [eapply urun_step; [eapply urun_step; [apply urun_nil|]|]|]|].
  - apply demo_send_step; vm_compute; reflexivity.
  - apply demo_take_step; vm_compute; reflexivity.
  - apply demo_send_step; vm_compute; reflexivity.
  - apply us_break; vm_compute; reflexivity.
Qed.

Lemma usb_flush_boundary_witness :
  q_at PRIO_Q_MID (tx_queue (tr (us demo_flush3))) = [] /\ due demo_flush3 = 1%nat /\
  List.filter (of_if ESP_RCP_IF) (accepted demo_flush3) = [demo_rcp_frame].
Proof.
  assert (Hs1 : demo_step demo_idle (U_flush ESP_RCP_IF) demo_flush1) by exact (us_flush demo_hc id demo_idle ESP_RCP_IF eq_refl).
  assert (Hr : urun demo_hc id demo_flush1 [U_flush_cancel] demo_flush2).
  { eapply urun_step; [apply urun_nil|]. apply (us_flush_cancel demo_hc id demo_flush1 ESP_RCP_IF true); vm_compute; reflexivity. }
  assert (Hs2 : demo_step demo_flush2 U_flush_leave demo_flush3) 
    by exact (us_flush_leave demo_hc id demo_flush2 ESP_RCP_IF true eq_refl).
  destruct (usb_flush_boundary demo_hc id demo_cfg _ demo_idle ESP_RCP_IF demo_flush1 [U_flush_cancel] demo_flush2 demo_flush3
    demo_uinit demo_idle_run (or_introl eq_refl) Hs1 Hr ltac:(repeat constructor; discriminate) Hs2) as (Ha & Hq & _).
  split; [rewrite Hq; vm_compute; reflexivity|]. split; [vm_compute; reflexivity|].
  rewrite Ha. vm_compute. reflexivity.
Defined.

Lemma usb_tx_drains_witness :
  zlen [U_take; U_start] <= measure demo_queued /\ measure demo_queued = 14.
Proof.
  assert (Hh : hc_submits demo_hc) by (split; reflexivity).
  assert (Ho : open_tx demo_queued) by (split; vm_compute; reflexivity).
  destruct (usb_tx_drains demo_hc id demo_cfg [U_write 0 demo_sta_frame; U_write 0 demo_rcp_frame] demo_queued
    [U_take; U_start] demo_held Hh demo_uinit demo_queued_run ltac:(repeat constructor; discriminate) Ho
    (demo_held_run _ (urun_nil _ _ _)) ltac:(repeat constructor)) as [Hm _].
  split; [exact Hm|vm_compute; reflexivity].
Defined.
