(* ===== verification/RawTp.v ===== *)
(** * RawTp: the raw throughput test, on both sides

    [main/stats.c] and [host/esp_stats.c].  The benchmark's frames carry a sequence
    number, the number of the run and a pattern that depends on both; the receiver
    checks the pattern and classifies the sequence number with a window of 63 bits.
    Both sides have the same classifier ([rx_seq]); the pattern is generated byte by
    byte on the host and word by word in the firmware.

    The producer task of the firmware is started and stopped by the command task:
    [process_raw_tp] is a function on the state [raw_tp], and [rstep] interleaves the
    commands with the producer's turns. *)
From S2P Require Import Prelude Wire CmdQueue RcpFw.

Definition TEST_RAW_TP__BUF_SIZE : Z := 1460.
Definition sizeof_raw_tp_packet : Z := 8.
Definition RAW_TP_WINDOW : Z := 63.

(** ** The pattern *)

Definition raw_tp_pattern_next (state : Z) : Z :=
  let state := Z.lxor state (u32 (Z.shiftl state 13)) in
  let state := Z.lxor state (Z.shiftr state 17) in
  Z.lxor state (u32 (Z.shiftl state 5)).

(** The state both loops start from. *)
Definition raw_tp_pattern_seed (seq run_id : Z) : Z :=
  Z.lxor (Z.lxor seq (u32 (run_id * 0x9e3779b9))) 0x6d2b79f5.

(** The bytes the firmware writes, [n] of them left from a multiple of 4 on: whole
    words, then the bytes of one more state. *)
Fixpoint fw_pattern (n : nat) (state : Z) : list Z :=
  match n with
  | S (S (S (S n))) => let state := raw_tp_pattern_next state in le_bytes 4 state ++ fw_pattern n state
  | O => []
  | _ => let state := raw_tp_pattern_next state in
         map (fun i => u8 (Z.shiftr state (Z.of_nat i * 8))) (seq 0 n)
  end.

(** The firmware's check of the bytes [data], the same way. *)
Fixpoint fw_pattern_valid (data : list Z) (state : Z) : bool :=
  match data with
  | a :: b :: c :: d :: data =>
      let state := raw_tp_pattern_next state in
      (le_val [a; b; c; d] =? state) && fw_pattern_valid data state
  | [] => true
  | _ => let state := raw_tp_pattern_next state in
         forallb (fun x => x.1 =? u8 (Z.shiftr state (Z.of_nat x.2 * 8))) (zip data (seq 0 (length data)))
  end.

(** The host's loops, at index [i]. *)
Definition host_state (i state : Z) : Z := if Z.land i 3 =? 0 then raw_tp_pattern_next state else state.
Fixpoint host_pattern (n : nat) (i state : Z) : list Z :=
  match n with
  | O => []
  | S n => let state := host_state i state in
           u8 (Z.shiftr state (Z.land i 3 * 8)) :: host_pattern n (i + 1) state
  end.
Fixpoint host_pattern_valid (data : list Z) (i state : Z) : bool :=
  match data with
  | [] => true
  | x :: data => let state := host_state i state in
                 (x =? u8 (Z.shiftr state (Z.land i 3 * 8))) && host_pattern_valid data (i + 1) state
  end.

(** [raw_tp_pattern_fill] and [_valid]: the first eight bytes are the packet's
    sequence number and run. *)
Definition pattern_fill (pattern : nat -> Z -> list Z) (data : list Z) (seq run_id : Z) : list Z :=
  ztake sizeof_raw_tp_packet data
  ++ pattern (Z.to_nat (zlen data - sizeof_raw_tp_packet)) (raw_tp_pattern_seed seq run_id).
Definition fw_pattern_fill : list Z -> Z -> Z -> list Z := pattern_fill fw_pattern.
Definition host_pattern_fill : list Z -> Z -> Z -> list Z :=
  pattern_fill (fun n => host_pattern n sizeof_raw_tp_packet).

Definition fw_raw_tp_pattern_valid (data : list Z) (seq run_id : Z) : bool :=
  (sizeof_raw_tp_packet <=? zlen data)
  && fw_pattern_valid (zdrop sizeof_raw_tp_packet data) (raw_tp_pattern_seed seq run_id).
Definition host_raw_tp_pattern_valid (data : list Z) (seq run_id : Z) : bool :=
  (sizeof_raw_tp_packet <=? zlen data)
  && host_pattern_valid (zdrop sizeof_raw_tp_packet data) sizeof_raw_tp_packet (raw_tp_pattern_seed seq run_id).

(** A frame as the producers build it: the packet's header, then the pattern. *)
Definition raw_frame (fill : list Z -> Z -> Z -> list Z) (seq run_id : Z) : list Z :=
  fill (le_bytes 4 seq ++ le_bytes 4 run_id
        ++ replicate (Z.to_nat (TEST_RAW_TP__BUF_SIZE - sizeof_raw_tp_packet)) 0) seq run_id.

(** The sequence number in the four spare bytes of the header. *)
Definition raw_tp_set_seq (seq : Z) : list Z :=
  [Z.land seq 0xff; Z.land (Z.shiftr seq 8) 0xff; Z.land (Z.shiftr seq 16) 0xff; Z.land (Z.shiftr seq 24) 0xff].
Definition raw_tp_get_seq (b : list Z) : Z :=
  Z.lor (Z.lor (Z.lor (byte_at 0 b) (Z.shiftl (byte_at 1 b) 8)) (Z.shiftl (byte_at 2 b) 16)) (Z.shiftl (byte_at 3 b) 24).

(** ** The receiver's counters *)

Record rx_stats := mk_rx { expected_seq : Z; rx_window : Z; rx_total : Z; rx_lost : Z; rx_dup : Z; rx_reorder : Z;
  rx_bad_payload : Z; rx_len : Z }.
#[export] Instance eta_rx_stats : Eta rx_stats := fun s =>
  mk_rx (expected_seq s) (rx_window s) (rx_total s) (rx_lost s) (rx_dup s) (rx_reorder s) (rx_bad_payload s) (rx_len s).
Definition rx_zero : rx_stats := mk_rx 0 0 0 0 0 0 0 0.

Definition s32 (z : Z) : Z := let z := u32 z in if z <? 2 ^ 31 then z else z - 2 ^ 32.

(** [raw_tp_rx_expected_seq++], and the window moved on. *)
Definition next_seq (s : rx_stats) : rx_stats := s <| expected_seq := u32 (expected_seq s + 1) |>.
Definition shift_window (s : rx_stats) : rx_stats := s <| rx_window := Z.shiftr (rx_window s) 1 |>.

(** [while (window & 1)]; the window has 64 bits. *)
Fixpoint slide (fuel : nat) (s : rx_stats) : rx_stats :=
  match fuel with
  | O => s
  | S fuel => if Z.land (rx_window s) 1 =? 0 then s else slide fuel (shift_window (next_seq s))
  end.
Definition SLIDE_FUEL : nat := 64.

(** The expected number has come, or is given up. *)
Definition pass_expected (s : rx_stats) : rx_stats := shift_window (slide SLIDE_FUEL (next_seq s)).
Definition lose (n : Z) (s : rx_stats) : rx_stats := s <| rx_lost := u64 (rx_lost s + n) |>.

(** The 63 turns over the window when the gap is wide. *)
Fixpoint flush_window (n : nat) (s : rx_stats) : rx_stats :=
  match n with
  | O => s
  | S n => flush_window n (shift_window (next_seq (if Z.land (rx_window s) 1 =? 0 then lose 1 s else s)))
  end.

(** [raw_tp_rx_window = 0] and the rest of the branch. *)
Definition skip_gap (seq : Z) (s : rx_stats) : rx_stats :=
  let s := s <| rx_window := 0 |> in
  let skip := u32 (u32 (seq - expected_seq s) - 63) in
  if 0 <? skip then lose skip s <| expected_seq := u32 (expected_seq s + skip) |> else s.
Definition wide_gap (seq : Z) (s : rx_stats) : rx_stats :=
  skip_gap seq (flush_window 63 (next_seq (lose 1 s))).

(** [while ((s32)(seq - expected) >= 64)]; [fuel] bounds the turns. *)
Fixpoint catch_up (fuel : nat) (seq : Z) (s : rx_stats) : rx_stats :=
  match fuel with
  | O => s
  | S fuel => if 64 <=? s32 (seq - expected_seq s) then catch_up fuel seq (pass_expected (lose 1 s)) else s
  end.
Definition CATCH_UP_FUEL : nat := 128.

(** One accepted frame of [len] bytes, under the lock: counted; when it is ahead the
    expected number advances until the window reaches it; then it is placed. *)
Definition counted (len : Z) (s : rx_stats) : rx_stats :=
  s <| rx_total := u64 (rx_total s + 1) |> <| rx_len := u64 (rx_len s + len) |>.
Definition advance (seq : Z) (s : rx_stats) : rx_stats :=
  catch_up CATCH_UP_FUEL seq (if 128 <? s32 (seq - expected_seq s) then wide_gap seq s else s).
Definition place (seq : Z) (s : rx_stats) : rx_stats :=
  let diff := s32 (seq - expected_seq s) in
  if diff =? 0 then pass_expected s
  else if negb (Z.land (rx_window s) (Z.shiftl 1 (diff - 1)) =? 0) then s <| rx_dup := u64 (rx_dup s + 1) |>
  else s <| rx_window := Z.lor (rx_window s) (u64 (Z.shiftl 1 (diff - 1))) |> <| rx_reorder := u64 (rx_reorder s + 1) |>.
Definition rx_seq (len seq : Z) (s : rx_stats) : rx_stats :=
  let diff := s32 (seq - expected_seq s) in
  let s := counted len s in
  if diff =? 0 then pass_expected s
  else if 0 <? diff then place seq (advance seq s)
  else s <| rx_dup := u64 (rx_dup s + 1) |>.

#[global] Arguments pass_expected : simpl never.
#[global] Arguments advance : simpl never.
#[global] Arguments place : simpl never.

(** ** The two patterns are one *)

Lemma lxor_range a b : in_width 32 a -> in_width 32 b -> in_width 32 (Z.lxor a b).
Proof.
  intros [Ha1 Ha2] [Hb1 Hb2]. split; [by apply Z.lxor_nonneg|].
  assert (Hn : 0 <= Z.lxor a b) by by apply Z.lxor_nonneg.
  assert (Hlog : forall z, 0 <= z < 2 ^ 32 -> Z.log2 z < 32).
  { intros z Hz. destruct (decide (z = 0)) as [->|]; [done|]. apply Z.log2_lt_pow2; lia. }
  destruct (decide (Z.lxor a b = 0)) as [->|Hne]; [lia|].
  apply Z.log2_lt_pow2; [lia|].
  pose proof (Z.log2_lxor a b Ha1 Hb1). pose proof (Hlog a). pose proof (Hlog b). lia.
Qed.

Lemma raw_tp_pattern_next_range st : in_width 32 st -> in_width 32 (raw_tp_pattern_next st).
Proof.
  intros Hst. unfold raw_tp_pattern_next.
  assert (H1 : in_width 32 (Z.lxor st (u32 (Z.shiftl st 13)))) by (apply lxor_range; [done|by apply wrap_range]).
  set (a := Z.lxor st _) in *. clearbody a.
  apply lxor_range; [apply lxor_range; [done|]|by apply wrap_range].
  unfold in_width in *. rewrite Z.shiftr_div_pow2 by lia. split; [apply Z.div_pos; lia|].
  apply Z.div_lt_upper_bound; lia.
Qed.

Lemma raw_tp_pattern_seed_range s r : in_width 32 s -> in_width 32 (raw_tp_pattern_seed s r).
Proof.
  intros. unfold raw_tp_pattern_seed.
  apply lxor_range; [apply lxor_range; [done|by apply wrap_range]|]. unfold in_width. lia.
Qed.

(** The bytes of a word, as both loops compute them. *)
Lemma le_bytes_shiftr n z : le_bytes n z = map (fun i => u8 (Z.shiftr z (Z.of_nat i * 8))) (seq 0 n).
Proof.
  revert z. induction n as [|n IH]; intros z; simpl; [done|]. f_equal.
  rewrite IH, <- seq_shift, map_map. apply map_ext. intros i. f_equal.
  change 256 with (2 ^ 8). rewrite <- Z.shiftr_div_pow2, Z.shiftr_shiftr by lia. f_equal. lia.
Qed.

Lemma land3 k j : 0 <= j < 4 -> Z.land (4 * k + j) 3 = j.
Proof. intros. change 3 with (Z.ones 2). rewrite Z.land_ones by lia. simpl. divlia. Qed.

(** From a multiple of 4 on, four turns of the host's loop are a word. *)
Lemma host_pattern_tail k st n : (n < 4)%nat ->
  host_pattern n (4 * k) st = map (fun i => u8 (Z.shiftr (raw_tp_pattern_next st) (Z.of_nat i * 8))) (seq 0 n).
Proof.
  intros Hn. replace (4 * k) with (4 * k + 0) by lia.
  destruct n as [|[|[|[|n]]]]; [..|lia]; cbn [host_pattern seq map]; unfold host_state;
    rewrite <- ?Z.add_assoc, ?land3 by lia; reflexivity.
Qed.
Lemma host_pattern_word k st n :
  host_pattern (4 + n) (4 * k) st
  = le_bytes 4 (raw_tp_pattern_next st) ++ host_pattern n (4 * (k + 1)) (raw_tp_pattern_next st).
Proof.
  rewrite le_bytes_shiftr. replace (4 * k) with (4 * k + 0) by lia.
  cbn [Nat.add host_pattern seq map app]. unfold host_state.
  rewrite <- ?Z.add_assoc, ?land3 by lia.
  replace (4 * (k + 1)) with (4 * k + 4) by lia. reflexivity.
Qed.

Lemma pattern_equal n k st : host_pattern n (4 * k) st = fw_pattern n st.
Proof.
  revert k st. induction (lt_wf n) as [n _ IH]; intros k st.
  destruct (decide (n < 4)%nat) as [Hn|Hn].
  - rewrite host_pattern_tail by done. destruct n as [|[|[|[|n]]]]; [reflexivity..|lia].
  - destruct n as [|[|[|[|n]]]]; [lia..|].
    change (S (S (S (S n)))) with (4 + n)%nat. rewrite host_pattern_word, IH by lia. reflexivity.
Qed.

(** A check accepts what the generator of the same side writes, and only that. *)
Lemma host_valid_iff data i st :
  host_pattern_valid data i st = true <-> data = host_pattern (length data) i st.
Proof.
  revert i st. induction data as [|x data IH]; intros i st; simpl; [done|].
  rewrite andb_true_iff, Z.eqb_eq, IH. split; [by intros [-> <-]|]. intros [= -> <-]. done.
Qed.

Lemma le_val_eq_iff l z : bytes_ok l -> in_width (8 * zlen l) z -> le_val l = z <-> l = le_bytes (length l) z.
Proof.
  intros Hl Hz. split; [intros <-; symmetry; by apply le_bytes_le_val|].
  intros ->. rewrite le_val_le_bytes. unfold zlen in Hz. by rewrite wrap_id.
Qed.

Lemma fw_tail_valid_iff data z : forallb (fun x => x.1 =? u8 (Z.shiftr z (Z.of_nat x.2 * 8))) (zip data (seq 0 (length data))) = true
  <-> data = map (fun i => u8 (Z.shiftr z (Z.of_nat i * 8))) (seq 0 (length data)).
Proof.
  generalize 0%nat. induction data as [|x data IH]; intros n; simpl; [done|].
  rewrite andb_true_iff, Z.eqb_eq, IH. split; [by intros [-> <-]|]. intros [= -> <-]. done.
Qed.

Lemma fw_valid_iff n data st : (length data <= n)%nat -> bytes_ok data -> in_width 32 st ->
  fw_pattern_valid data st = true <-> data = fw_pattern (length data) st.
Proof.
  revert data st. induction n as [|n IH]; intros data st Hn Hb Hst; [by destruct data; [|simpl in Hn; lia]|].
  destruct data as [|a [|b [|c [|d data]]]]; [done|apply fw_tail_valid_iff..|].
  cbn [fw_pattern_valid fw_pattern length]. pose proof (raw_tp_pattern_next_range st Hst) as Hr.
  simpl in Hn. rewrite andb_true_iff, Z.eqb_eq.
  assert (Hb' : bytes_ok [a; b; c; d] /\ bytes_ok data).
  { unfold bytes_ok in *. apply Forall_app. done. }
  rewrite (le_val_eq_iff [a; b; c; d]) by (first [apply Hb'|exact Hr]).
  rewrite IH by (first [apply Hb'|exact Hr|lia]). cbn [length].
  split.
  - intros [H1 H2]. rewrite <- H2. change (a :: b :: c :: d :: data) with ([a; b; c; d] ++ data). by rewrite <- H1.
  - intros H. change (a :: b :: c :: d :: data) with ([a; b; c; d] ++ data) in H.
    apply app_inj_1 in H; [done|]. by rewrite length_le_bytes.
Qed.

(** ** Properties: the pattern *)

(** The host's byte loop and the firmware's word loop write the same frame. *)
Theorem raw_patterns_equal data seq run_id : host_pattern_fill data seq run_id = fw_pattern_fill data seq run_id.
Proof. unfold host_pattern_fill, fw_pattern_fill, pattern_fill. f_equal. apply (pattern_equal _ 2). Qed.

(** Either side's check accepts a frame of bytes exactly when it is what the
    generator writes over it: any byte after the packet's header that differs, on
    either side, is found. *)
Theorem raw_check_exact data seq run_id :
  bytes_ok data -> in_width 32 seq ->
  (fw_raw_tp_pattern_valid data seq run_id = true
     <-> sizeof_raw_tp_packet <= zlen data /\ host_pattern_fill data seq run_id = data)
  /\ host_raw_tp_pattern_valid data seq run_id = fw_raw_tp_pattern_valid data seq run_id.
Proof.
  intros Hb Hs. pose proof (raw_tp_pattern_seed_range seq run_id Hs) as Hr.
  unfold host_raw_tp_pattern_valid, fw_raw_tp_pattern_valid, host_pattern_fill, pattern_fill.
  set (st := raw_tp_pattern_seed seq run_id) in *. set (tl := zdrop sizeof_raw_tp_packet data).
  assert (Hv : host_pattern_valid tl sizeof_raw_tp_packet st = fw_pattern_valid tl st).
  { apply eq_true_iff_eq. rewrite host_valid_iff, (fw_valid_iff (length tl)) by (first [done|apply Forall_zdrop, Hb]).
    by rewrite (pattern_equal _ 2). }
  rewrite Hv. split; [|done].
  rewrite andb_true_iff, Z.leb_le, <- Hv, host_valid_iff.
  assert (Hlen : sizeof_raw_tp_packet <= zlen data -> Z.to_nat (zlen data - sizeof_raw_tp_packet) = length tl).
  { unfold tl, zdrop, zlen, sizeof_raw_tp_packet. intros. rewrite length_drop. lia. }
  pose proof (ztake_zdrop sizeof_raw_tp_packet data) as Hsplit. fold tl in Hsplit.
  split; intros [Hl He]; (split; [done|]); rewrite Hlen in * by done.
  - rewrite <- Hsplit at 2. by rewrite He at 2.
  - rewrite <- Hsplit in He at 2. apply app_inj_1 in He; naive_solver.
Qed.

(** ** What the counters mean

    The specification numbers frames without wrap-around: [sp_next] is the first
    number that is neither received nor given up, [sp_got] the numbers received on
    time, [sp_frames] the frames seen. *)
Record rx_spec := mk_spec { sp_next : Z; sp_got : gset Z; sp_frames : Z; sp_reorder : Z }.
Definition spec_zero : rx_spec := mk_spec 0 ∅ 0 0.

(** The first number from [x] on that is not in [R]. *)
Fixpoint hole_from (fuel : nat) (x : Z) (R : gset Z) : Z :=
  match fuel with
  | O => x
  | S fuel => if decide (x ∈ R) then hole_from fuel (x + 1) R else x
  end.
Definition first_hole (x : Z) (R : gset Z) : Z := hole_from (S (size R)) x R.

(** The window reaches 63 numbers past the next expected one: what lies further back
    than that is given up. *)
Definition spec_step (q : Z) (sp : rx_spec) : rx_spec :=
  let R := sp_got sp in let n := sp_frames sp + 1 in
  if decide (q < sp_next sp \/ (q ∈ R)) then mk_spec (sp_next sp) R n (sp_reorder sp)
  else
    let e := first_hole (Z.max (sp_next sp) (q - RAW_TP_WINDOW)) R in
    if decide (q = e) then mk_spec (first_hole (q + 1) R) ({[q]} ∪ R) n (sp_reorder sp)
    else mk_spec e ({[q]} ∪ R) n (sp_reorder sp + 1).

(** Of the numbers below [x], those in [R]. *)
Definition below (R : gset Z) (x : Z) : Z := Z.of_nat (size (filter (fun k => k < x) R)).

Definition is_hole (x h : Z) (R : gset Z) : Prop := x <= h /\ (h ∉ R) /\ (forall k, x <= k < h -> k ∈ R).

Lemma is_hole_unique x h h' R : is_hole x h R -> is_hole x h' R -> h = h'.
Proof.
  intros (H1 & H2 & H3) (H1' & H2' & H3').
  destruct (Z.lt_trichotomy h h') as [|[|]]; [|done|]; exfalso; [apply H2, H3'|apply H2', H3]; lia.
Qed.

Lemma consecutive_size x n (R : gset Z) : 0 <= n -> (forall k, x <= k < x + n -> k ∈ R) -> n <= Z.of_nat (size R).
Proof.
  intros Hn Hk. assert (Hsub : (list_to_set (seqZ x n) : gset Z) ⊆ R).
  { intros k Hin. apply elem_of_list_to_set, elem_of_seqZ in Hin. apply Hk. lia. }
  apply subseteq_size in Hsub. rewrite size_list_to_set, length_seqZ in Hsub by apply NoDup_seqZ. lia.
Qed.

Lemma first_hole_spec x R : is_hole x (first_hole x R) R.
Proof.
  unfold first_hole.
  assert (H : forall fuel y, x <= y -> (forall k, x <= k < y -> k ∈ R) -> Z.of_nat (size R) < y - x + Z.of_nat fuel ->
    is_hole x (hole_from fuel y R) R).
  { induction fuel as [|fuel IH]; intros y Hy Hk Hs.
    - exfalso. pose proof (consecutive_size x (y - x) R) as Hc. rewrite Zplus_minus in Hc. specialize (Hc ltac:(lia) Hk). lia.
    - simpl. destruct (decide (y ∈ R)) as [Hin|Hin]; [|done]. apply IH; [lia| |lia].
      intros k Hkk. destruct (decide (k = y)) as [->|]; [done|apply Hk; lia]. }
  apply H; [lia|lia|lia].
Qed.

Lemma first_hole_is x h R : is_hole x h R -> first_hole x R = h.
Proof. apply is_hole_unique, first_hole_spec. Qed.

Lemma below_succ R x : below R (x + 1) = below R x + (if decide (x ∈ R) then 1 else 0).
Proof.
  unfold below. destruct (decide (x ∈ R)) as [Hin|Hin].
  - replace (filter (fun k => k < x + 1) R) with ({[x]} ∪ filter (fun k => k < x) R).
    + rewrite size_union, size_singleton by set_solver by lia. lia.
    + apply set_eq. intros k. rewrite elem_of_union, elem_of_singleton, !elem_of_filter.
      split; [intros [->|[? ?]]; split; try lia; done|]. intros [? ?]. destruct (decide (k = x)); [by left|right; split; [lia|done]].
  - rewrite Z.add_0_r. do 2 f_equal. apply set_eq. intros k. rewrite !elem_of_filter.
    split; intros [? ?]; split; try done; [|lia]. assert (k <> x) by congruence. lia.
Qed.

Lemma below_add R x n : 0 <= n ->
  (forall k, x <= k < x + n -> k ∈ R) -> below R (x + n) = below R x + n.
Proof.
  intros Hn. revert n Hn. apply (natlike_ind (fun n => (forall k, x <= k < x + n -> k ∈ R) -> _)).
  - intros _. rewrite !Z.add_0_r. done.
  - intros n Hn IH Hk. unfold Z.succ. rewrite Z.add_assoc, below_succ, IH by (intros; apply Hk; lia).
    rewrite decide_True by (apply Hk; lia). lia.
Qed.

Lemma below_hole R x h : is_hole x h R -> h - below R h = x - below R x.
Proof.
  intros (H1 & _ & H3). replace h with (x + (h - x)) by lia.
  rewrite below_add; [lia|lia|intros; apply H3; lia].
Qed.

Lemma below_skip R x y : x <= y -> (forall k, x <= k < y -> k ∉ R) -> below R y = below R x.
Proof.
  intros Hxy. replace y with (x + (y - x)) by lia. assert (Hn : 0 <= y - x) by lia.
  generalize dependent (y - x). clear Hxy. apply (natlike_ind (fun n => (forall k, x <= k < x + n -> k ∉ R) -> _)).
  - intros _. by rewrite Z.add_0_r.
  - intros n Hn IH Hk. unfold Z.succ. rewrite Z.add_assoc, below_succ, IH by (intros; apply Hk; lia).
    rewrite decide_False by (apply Hk; lia). lia.
Qed.

Lemma below_insert R q x : x <= q -> below ({[q]} ∪ R) x = below R x.
Proof.
  intros. unfold below. do 2 f_equal. apply set_eq. intros k.
  rewrite !elem_of_filter, elem_of_union, elem_of_singleton. split; [intros [? [->|?]]; [lia|done]|]. intros [? ?]. tauto.
Qed.

(** Bit [i] of the window says whether [x + i] is in [R]. *)
Definition aligned (x w : Z) (R : gset Z) : Prop := forall i, 0 <= i -> Z.testbit w i = bool_decide (x + i ∈ R).

Lemma aligned_shift x w R : aligned x w R -> aligned (x + 1) (Z.shiftr w 1) R.
Proof. intros Ha i Hi. rewrite Z.shiftr_spec, Ha by lia. by replace (x + (i + 1)) with (x + 1 + i) by lia. Qed.

Lemma land1_testbit w : (Z.land w 1 =? 0) = negb (Z.testbit w 0).
Proof.
  change 1 with (Z.ones 1). rewrite Z.land_ones by lia. rewrite Z.bit0_odd, Zmod_odd. by destruct (Z.odd w).
Qed.

Lemma aligned_land1 x w R : aligned x w R -> (Z.land w 1 =? 0) = negb (bool_decide (x ∈ R)).
Proof. intros Ha. rewrite land1_testbit, Ha by lia. by rewrite Z.add_0_r. Qed.

Lemma u32_succ x : u32 (u32 x + 1) = u32 (x + 1).
Proof. apply wrap_add_l. Qed.

Lemma slide_spec fuel x R s :
  expected_seq s = u32 x -> aligned x (rx_window s) R -> (forall k, k ∈ R -> k < x + Z.of_nat fuel) ->
  exists w, slide fuel s = s <| expected_seq := u32 (first_hole x R) |> <| rx_window := w |>
            /\ aligned (first_hole x R) w R.
Proof.
  revert x s. induction fuel as [|fuel IH]; intros x s He Ha Hk.
  - rewrite (first_hole_is x x R) by (split_and!; [lia| |lia]; intros Hin; specialize (Hk x Hin); lia).
    exists (rx_window s). split; [|done]. rewrite <- He. by destruct s.
  - simpl slide. rewrite (aligned_land1 x _ R) by done. destruct (bool_decide_reflect (x ∈ R)) as [Hin|Hin]; simpl negb; cbv iota.
    + destruct (IH (x + 1) (shift_window (next_seq s))) as (w & Hs & Hw).
      * simpl. by rewrite He, u32_succ.
      * by apply aligned_shift.
      * intros k Hkk. specialize (Hk k Hkk). lia.
      * rewrite (first_hole_is x (first_hole (x + 1) R) R).
        { exists w. by rewrite Hs. }
        destruct (first_hole_spec (x + 1) R) as (H1 & H2 & H3). split_and!; [lia|done|].
        intros k Hkk. destruct (decide (k = x)) as [->|]; [done|apply H3; lia].
    + rewrite (first_hole_is x x R) by (split_and!; [lia|done|lia]).
      exists (rx_window s). split; [|done]. rewrite <- He. by destruct s.
Qed.

Lemma pass_expected_spec e R s :
  expected_seq s = u32 e -> aligned (e + 1) (rx_window s) R -> (forall k, k ∈ R -> k <= e + 63) ->
  exists w, pass_expected s = s <| expected_seq := u32 (first_hole (e + 1) R) |> <| rx_window := w |>
            /\ aligned (first_hole (e + 1) R + 1) w R.
Proof.
  intros He Ha Hk. destruct (slide_spec SLIDE_FUEL (e + 1) R (next_seq s)) as (w & Hs & Hw).
  - simpl. by rewrite He, u32_succ.
  - done.
  - intros k Hkk. specialize (Hk k Hkk). unfold SLIDE_FUEL. lia.
  - exists (Z.shiftr w 1). unfold pass_expected. rewrite Hs. split; [done|by apply aligned_shift].
Qed.

Lemma u32_sub a b : u32 (u32 a - u32 b) = u32 (a - b).
Proof. unfold wrap. by rewrite <- Zminus_mod. Qed.
Lemma s32_diff q e : - 2 ^ 31 <= q - e < 2 ^ 31 -> s32 (u32 q - u32 e) = q - e.
Proof.
  intros H. unfold s32. rewrite u32_sub. unfold wrap. cbv zeta.
  destruct (decide (0 <= q - e)).
  - rewrite Z.mod_small by lia. destruct (Z.ltb_spec (q - e) (2 ^ 31)); lia.
  - assert (Hm : (q - e) mod 2 ^ 32 = q - e + 2 ^ 32) by (symmetry; apply (Z.mod_unique_pos _ _ (-1)); lia).
    rewrite Hm. destruct (Z.ltb_spec (q - e + 2 ^ 32) (2 ^ 31)); lia.
Qed.
Lemma u64_add a b : u64 (u64 a + b) = u64 (a + b).
Proof. apply wrap_add_l. Qed.

(** A state of the receiver against the numbers received: [e] is expected. *)
Definition tracks (e : Z) (R : gset Z) (s : rx_stats) : Prop :=
  expected_seq s = u32 e /\ (e ∉ R) /\ (forall k, k ∈ R -> k <= e + RAW_TP_WINDOW)
  /\ aligned (e + 1) (rx_window s) R /\ rx_lost s = u64 (e - below R e).

(** [s'] is [s] but for the three fields that follow the expected number. *)
Definition same_counts (s s' : rx_stats) : Prop :=
  rx_total s' = rx_total s /\ rx_dup s' = rx_dup s /\ rx_reorder s' = rx_reorder s
  /\ rx_bad_payload s' = rx_bad_payload s /\ rx_len s' = rx_len s.

Lemma same_counts_trans s1 s2 s3 : same_counts s1 s2 -> same_counts s2 s3 -> same_counts s1 s3.
Proof. intros (?&?&?&?&?) (?&?&?&?&?). split_and!; congruence. Qed.

(** Giving up the expected number. *)
Lemma lose_expected e R s : tracks e R s ->
  tracks (first_hole (e + 1) R) R (pass_expected (lose 1 s)) /\ same_counts s (pass_expected (lose 1 s)).
Proof.
  intros (He & Hn & Hk & Ha & Hl). unfold RAW_TP_WINDOW in Hk.
  destruct (pass_expected_spec e R (lose 1 s)) as (w & -> & Hw); [done..|].
  pose proof (first_hole_spec (e + 1) R) as Hh. pose proof (below_hole _ _ _ Hh) as Hb.
  destruct Hh as (H1 & H2 & H3). split; [|done]. split_and!; [done|done| |done|].
  - intros k Hkk. specialize (Hk k Hkk). unfold RAW_TP_WINDOW. lia.
  - simpl. rewrite Hl, u64_add. f_equal. rewrite below_succ, decide_False in Hb by done. lia.
Qed.

Lemma catch_up_spec fuel q e R s :
  tracks e R s -> e <= q -> q - e < 2 ^ 31 -> q - e - RAW_TP_WINDOW <= Z.of_nat fuel ->
  let h := first_hole (Z.max e (q - RAW_TP_WINDOW)) R in
  tracks h R (catch_up fuel (u32 q) s) /\ same_counts s (catch_up fuel (u32 q) s).
Proof.
  unfold RAW_TP_WINDOW. revert e s. induction fuel as [|fuel IH]; intros e s Ht He Hq Hf; cbv zeta.
  all: assert (Hstop : q - e <= 63 -> first_hole (Z.max e (q - 63)) R = e)
         by (intros; apply first_hole_is; rewrite Z.max_l by lia; split_and!; [lia|apply Ht|lia]).
  { simpl. by rewrite Hstop by lia. }
  simpl catch_up. rewrite (proj1 Ht), s32_diff by lia. destruct (Z.leb_spec 64 (q - e)) as [Hge|Hlt].
  2: { by rewrite Hstop by lia. }
  destruct (lose_expected e R s Ht) as [Ht1 Hc1].
  pose proof (first_hole_spec (e + 1) R) as (H1 & H2 & H3).
  destruct Ht as (_ & _ & Hk & _). set (h1 := first_hole (e + 1) R) in *.
  assert (Hh1 : h1 <= e + 64).
  { destruct (decide (h1 = e + 1)); [lia|]. specialize (Hk (h1 - 1) ltac:(apply H3; lia)). unfold RAW_TP_WINDOW in Hk. lia. }
  destruct (IH h1 _ Ht1) as [Ht2 Hc2]; [lia..|].
  rewrite (first_hole_is (Z.max e (q - 63)) (first_hole (Z.max h1 (q - 63)) R) R).
  - split; [done|]. by apply (same_counts_trans _ _ _ Hc1).
  - destruct (first_hole_spec (Z.max h1 (q - 63)) R) as (G1 & G2 & G3). split_and!; [lia|done|].
    intros k Hkk. destruct (decide (k < h1)); [apply H3; lia|apply G3; lia].
Qed.

(** ** A gap of more than 128 *)
Lemma flush_window_spec n x R s :
  expected_seq s = u32 x -> aligned x (rx_window s) R -> rx_lost s = u64 (x - below R x) ->
  let s' := flush_window n s in
  expected_seq s' = u32 (x + Z.of_nat n) /\ rx_lost s' = u64 (x + Z.of_nat n - below R (x + Z.of_nat n))
  /\ same_counts s s'.
Proof.
  revert x s. induction n as [|n IH]; intros x s He Ha Hl; cbv zeta.
  - simpl. rewrite Z.add_0_r. done.
  - simpl flush_window.
    destruct (IH (x + 1) (shift_window (next_seq (if Z.land (rx_window s) 1 =? 0 then lose 1 s else s)))) as (H1 & H2 & H3).
    + destruct (_ =? 0); simpl; by rewrite He, u32_succ.
    + destruct (_ =? 0); by apply aligned_shift.
    + rewrite (aligned_land1 x _ R) by done. rewrite below_succ. destruct (bool_decide_reflect (x ∈ R)) as [Hin|Hin]; simpl.
      * rewrite decide_True, Hl by done. f_equal. lia.
      * rewrite decide_False, Hl, u64_add by done. f_equal. lia.
    + replace (x + Z.of_nat (S n)) with (x + 1 + Z.of_nat n) by lia. split_and!; [done..|].
      refine (same_counts_trans _ _ _ _ H3). by destruct (_ =? 0).
Qed.

Lemma same_counts_next s : same_counts s (next_seq (lose 1 s)).
Proof. done. Qed.

Lemma skip_gap_spec q e R s :
  expected_seq s = u32 (e + 64) -> rx_lost s = u64 (e + 64 - below R (e + 64)) ->
  (forall k, k ∈ R -> k < e + 64) -> 128 < q - e < 2 ^ 31 ->
  tracks (q - RAW_TP_WINDOW) R (skip_gap (u32 q) s) /\ same_counts s (skip_gap (u32 q) s).
Proof.
  intros H1 H2 Hno Hq. unfold skip_gap, tracks, RAW_TP_WINDOW. simpl expected_seq.
  assert (Hskip : u32 (u32 (u32 q - expected_seq s) - 63) = q - e - 127).
  { rewrite H1, u32_sub. unfold wrap. rewrite Zminus_mod_idemp_l. rewrite Z.mod_small; lia. }
  rewrite Hskip. destruct (Z.ltb_spec 0 (q - e - 127)); [|lia].
  split; [split_and!|done].
  - simpl. rewrite H1, wrap_add_l. f_equal. lia.
  - intros Hin. specialize (Hno _ Hin). lia.
  - intros k Hkk. specialize (Hno _ Hkk). lia.
  - intros i Hi. simpl. rewrite Z.testbit_0_l, bool_decide_eq_false_2; [done|]. intros Hin. specialize (Hno _ Hin). lia.
  - simpl. rewrite H2, u64_add. f_equal. rewrite (below_skip R (e + 64) (q - 63)); [lia|lia|].
    intros k Hkk Hin. specialize (Hno _ Hin). lia.
Qed.

Lemma wide_gap_spec q e R s :
  tracks e R s -> 128 < q - e < 2 ^ 31 ->
  tracks (q - RAW_TP_WINDOW) R (wide_gap (u32 q) s) /\ same_counts s (wide_gap (u32 q) s).
Proof.
  intros (He & Hn & Hk & Ha & Hl) Hq. unfold RAW_TP_WINDOW in Hk.
  destruct (flush_window_spec 63 (e + 1) R (next_seq (lose 1 s))) as (H1 & H2 & H3).
  { simpl. by rewrite He, u32_succ. } { done. }
  { simpl. rewrite Hl, u64_add, below_succ, decide_False by done. f_equal. lia. }
  replace (e + 1 + Z.of_nat 63) with (e + 64) in H1, H2 by lia.
  destruct (skip_gap_spec q e R _ H1 H2) as [Ht Hc]; [|done|].
  { intros k Hkk. specialize (Hk k Hkk). lia. }
  unfold wide_gap. split; [exact Ht|].
  exact (same_counts_trans _ _ _ (same_counts_trans _ _ _ (same_counts_next s) H3) Hc).
Qed.

(** ** One frame *)

(** The counters are those of the specification, modulo their width. *)
Definition rx_refines (sp : rx_spec) (s : rx_stats) : Prop :=
  tracks (sp_next sp) (sp_got sp) s /\ rx_total s = u64 (sp_frames sp)
  /\ rx_dup s = u64 (sp_frames sp - Z.of_nat (size (sp_got sp))) /\ rx_reorder s = u64 (sp_reorder sp).

Lemma land_bit w i : 0 <= i -> (Z.land w (Z.shiftl 1 i) =? 0) = negb (Z.testbit w i).
Proof.
  intros Hi.
  assert (Hb : Z.land w (Z.shiftl 1 i) = if Z.testbit w i then Z.shiftl 1 i else 0).
  { apply Z.bits_inj'. intros j Hj. rewrite Z.land_spec, Z.shiftl_1_l, Z.pow2_bits_eqb by lia.
    destruct (Z.eqb_spec i j) as [<-|Hne].
    - rewrite andb_true_r. destruct (Z.testbit _ _); [by rewrite Z.pow2_bits_true by lia|by rewrite Z.testbit_0_l].
    - rewrite andb_false_r. destruct (Z.testbit _ i); [by rewrite Z.pow2_bits_false by lia|by rewrite Z.testbit_0_l]. }
  rewrite Hb. destruct (Z.testbit _ _); simpl; [|done].
  rewrite Z.shiftl_1_l. apply Z.eqb_neq. pose proof (Z.pow_pos_nonneg 2 i). lia.
Qed.

Lemma tracks_window q e R s : tracks e R s -> e < q ->
  (Z.land (rx_window s) (Z.shiftl 1 (q - e - 1)) =? 0) = negb (bool_decide (q ∈ R)).
Proof.
  intros (_ & _ & _ & Ha & _) Hq. rewrite land_bit, Ha by lia.
  by replace (e + 1 + (q - e - 1)) with q by lia.
Qed.

(** A number ahead of the expected one is recorded in the window. *)
Lemma tracks_ahead q e R s : tracks e R s -> e < q <= e + RAW_TP_WINDOW ->
  tracks e ({[q]} ∪ R) (s <| rx_window := Z.lor (rx_window s) (u64 (Z.shiftl 1 (q - e - 1))) |>).
Proof.
  intros (He & Hn & Hk & Ha & Hl) Hq. unfold RAW_TP_WINDOW in *. split_and!; [done| | | |].
  - rewrite elem_of_union, elem_of_singleton. intros [?|?]; [lia|done].
  - intros k. rewrite elem_of_union, elem_of_singleton. unfold RAW_TP_WINDOW. intros [->|Hin]; [lia|by apply Hk].
  - intros i Hi. simpl. rewrite Z.lor_spec, Ha, Z.shiftl_1_l by lia.
    rewrite wrap_id by (split; [lia|apply Z.pow_lt_mono_r; lia]). rewrite Z.pow2_bits_eqb by lia.
    destruct (Z.eqb_spec (q - e - 1) i) as [Heq|Hne].
    + rewrite orb_true_r, bool_decide_eq_true_2; [done|]. replace (e + 1 + i) with q by lia. set_solver.
    + rewrite orb_false_r. apply bool_decide_ext. rewrite elem_of_union, elem_of_singleton.
      split; [by right|]. intros [?|?]; [lia|done].
  - simpl. by rewrite below_insert by lia.
Qed.

(** The expected number comes. *)
Lemma tracks_expected e R s : tracks e R s ->
  tracks (first_hole (e + 1) R) ({[e]} ∪ R) (pass_expected s) /\ same_counts s (pass_expected s).
Proof.
  intros (He & Hn & Hk & Ha & Hl). unfold RAW_TP_WINDOW in Hk.
  assert (Ha' : aligned (e + 1) (rx_window s) ({[e]} ∪ R)).
  { intros i Hi. rewrite Ha by done. apply bool_decide_ext. rewrite elem_of_union, elem_of_singleton.
    split; [by right|]. intros [?|?]; [lia|done]. }
  destruct (pass_expected_spec e ({[e]} ∪ R) s) as (w & -> & Hw); [done..| |].
  { intros k. rewrite elem_of_union, elem_of_singleton. intros [->|Hin]; [lia|by apply Hk]. }
  pose proof (first_hole_spec (e + 1) R) as Hh.
  assert (Hh' : is_hole (e + 1) (first_hole (e + 1) R) ({[e]} ∪ R)).
  { destruct Hh as (H1 & H2 & H3). split_and!; [done| |].
    - rewrite elem_of_union, elem_of_singleton. intros [?|?]; [lia|done].
    - intros k Hkk. apply elem_of_union_r, H3, Hkk. }
  rewrite (first_hole_is _ _ _ Hh') in *. pose proof (below_hole _ _ _ Hh') as Hb.
  destruct Hh' as (H1 & H2 & H3). split; [|done]. split_and!; [done|done| |done|].
  - intros k. rewrite elem_of_union, elem_of_singleton. unfold RAW_TP_WINDOW. intros [->|Hin]; [lia|]. specialize (Hk k Hin). lia.
  - simpl. rewrite Hl. f_equal. rewrite below_succ, decide_True in Hb by (apply elem_of_union_l; by apply elem_of_singleton).
    rewrite (below_insert R e e) in Hb by lia. lia.
Qed.

Lemma advance_spec q e R s : tracks e R s -> e <= q -> q - e < 2 ^ 31 ->
  let h := first_hole (Z.max e (q - RAW_TP_WINDOW)) R in
  tracks h R (advance (u32 q) s) /\ same_counts s (advance (u32 q) s).
Proof.
  intros Ht He Hq h. unfold advance. pose proof Ht as (Hx & Hn & Hk & _). rewrite Hx, s32_diff by lia.
  unfold RAW_TP_WINDOW in *.
  destruct (Z.ltb_spec 128 (q - e)) as [Hw|Hw].
  - destruct (wide_gap_spec q e R s) as [Ht1 Hc1]; [done|lia|]. unfold RAW_TP_WINDOW in *.
    destruct (catch_up_spec CATCH_UP_FUEL q (q - 63) R _ Ht1) as [Ht2 Hc2]; unfold RAW_TP_WINDOW, CATCH_UP_FUEL in *; [lia..|].
    unfold h. replace (Z.max e (q - 63)) with (Z.max (q - 63) (q - 63)) by lia.
    split; [exact Ht2|]. exact (same_counts_trans _ _ _ Hc1 Hc2).
  - apply catch_up_spec; unfold RAW_TP_WINDOW, CATCH_UP_FUEL; [done|lia..].
Qed.

Lemma tracks_counted e R len s : tracks e R s -> tracks e R (counted len s).
Proof. done. Qed.

(** The frame placed, given where the expected number has advanced to. *)
Lemma place_spec q e R s : tracks e R s -> q ∉ R -> e <= q <= e + RAW_TP_WINDOW ->
  let s' := place (u32 q) s in
  tracks (if decide (q = e) then first_hole (q + 1) R else e) ({[q]} ∪ R) s'
  /\ rx_total s' = rx_total s /\ rx_dup s' = rx_dup s
  /\ rx_reorder s' = if decide (q = e) then rx_reorder s else u64 (rx_reorder s + 1).
Proof.
  intros Ht Hq He. cbv zeta. unfold place, RAW_TP_WINDOW in *. rewrite (proj1 Ht), s32_diff by lia.
  destruct (decide (q = e)) as [->|Hne].
  - rewrite Z.sub_diag. destruct (tracks_expected e R s Ht) as (Ht1 & C1 & C2 & C3 & _). done.
  - destruct (Z.eqb_spec (q - e) 0); [lia|]. rewrite (tracks_window q e R) by (done || lia).
    rewrite bool_decide_eq_false_2 by done. simpl negb. cbv iota.
    split; [|done]. apply (tracks_ahead q e R s Ht). unfold RAW_TP_WINDOW. lia.
Qed.

Lemma catch_up_stop fuel q s : s32 (q - expected_seq s) < 64 -> catch_up fuel q s = s.
Proof. intros. destruct fuel; simpl; [done|]. by destruct (Z.leb_spec 64 (s32 (q - expected_seq s))); [lia|]. Qed.

(** A number received before. *)
Lemma place_again q e R s : tracks e R s -> q ∈ R -> e < q <= e + RAW_TP_WINDOW -> q - e < 2 ^ 31 ->
  place (u32 q) (advance (u32 q) s) = s <| rx_dup := u64 (rx_dup s + 1) |>.
Proof.
  intros Ht Hin He _. unfold RAW_TP_WINDOW in He. unfold advance.
  rewrite (proj1 Ht), s32_diff by lia. destruct (Z.ltb_spec 128 (q - e)); [lia|].
  rewrite catch_up_stop by (rewrite (proj1 Ht), s32_diff; lia).
  unfold place. rewrite (proj1 Ht), s32_diff by lia. destruct (Z.eqb_spec (q - e) 0); [lia|].
  rewrite (tracks_window q e R) by (done || lia). by rewrite bool_decide_eq_true_2.
Qed.

Lemma size_insert q (R : gset Z) : q ∉ R -> Z.of_nat (size ({[q]} ∪ R)) = Z.of_nat (size R) + 1.
Proof. intros. rewrite size_union, size_singleton by set_solver. lia. Qed.

Lemma rx_seq_step len q sp s :
  rx_refines sp s -> - 2 ^ 31 <= q - sp_next sp < 2 ^ 31 -> rx_refines (spec_step q sp) (rx_seq len (u32 q) s).
Proof.
  intros (Ht & Hn & Hd & Hr) Hq. destruct sp as [e R n ro]. cbn [sp_next sp_got sp_frames sp_reorder] in *.
  unfold rx_seq, spec_step. cbn [sp_next sp_got sp_frames sp_reorder].
  pose proof Ht as (Hx & Hne & Hk & _). rewrite Hx, s32_diff by lia. apply (tracks_counted _ _ len) in Ht.
  assert (Hn' : rx_total (counted len s) = u64 (n + 1)) by (unfold counted; cbn; by rewrite Hn, u64_add).
  change (rx_dup s) with (rx_dup (counted len s)) in Hd. change (rx_reorder s) with (rx_reorder (counted len s)) in Hr.
  clear Hx Hn. generalize dependent (counted len s). clear s. intros s Ht Hd Hr Hn.
  assert (Hdup : rx_refines (mk_spec e R (n + 1) ro) (s <| rx_dup := u64 (rx_dup s + 1) |>)).
  { split_and!; [exact Ht|exact Hn| |exact Hr]. cbn. rewrite Hd, u64_add. f_equal. lia. }
  destruct (decide (q < e \/ q ∈ R)) as [Hold|Hnew].
  - destruct (Z.eqb_spec (q - e) 0); [exfalso; destruct Hold; [lia|]; by assert (q = e) as -> by lia|].
    destruct (Z.ltb_spec 0 (q - e)) as [Hlt|Hge]; [|exact Hdup].
    assert (Hin : q ∈ R) by (destruct Hold; [lia|done]). specialize (Hk q Hin).
    rewrite (place_again q e R s) by (done || unfold RAW_TP_WINDOW in *; lia). exact Hdup.
  - assert (Hq' : e <= q /\ q ∉ R) by (split; [|tauto]; destruct (Z.le_gt_cases e q); [done|tauto]). destruct Hq' as [Hq1 Hq2].
    destruct (Z.eqb_spec (q - e) 0) as [Heq|Hneq].
    + assert (q = e) as -> by lia.
      rewrite (first_hole_is (Z.max e (e - RAW_TP_WINDOW)) e) by (unfold RAW_TP_WINDOW; split_and!; [lia|done|lia]).
      rewrite decide_True by done. destruct (tracks_expected e R s Ht) as (Ht1 & C1 & C2 & C3 & _).
      split_and!; cbn [sp_next sp_got sp_frames sp_reorder]; [exact Ht1|congruence| |congruence].
      rewrite C2, Hd, size_insert by done. f_equal. lia.
    + destruct (Z.ltb_spec 0 (q - e)) as [Hlt|Hge]; [|lia].
      destruct (advance_spec q e R s Ht) as [Ht1 (C1 & C2 & C3 & _)]; [lia..|].
      destruct (first_hole_spec (Z.max e (q - RAW_TP_WINDOW)) R) as (H1 & H2 & H3).
      set (h := first_hole _ R) in *. unfold RAW_TP_WINDOW in *.
      assert (Hh : h <= q) by (destruct (Z.le_gt_cases h q); [done|]; exfalso; apply Hq2, H3; lia).
      destruct (place_spec q h R _ Ht1 Hq2) as (P1 & P2 & P3 & P4); [unfold RAW_TP_WINDOW; lia|].
      destruct (decide (q = h)); (split_and!; cbn [sp_next sp_got sp_frames sp_reorder];
        [exact P1|congruence|rewrite P3, C2, Hd, size_insert by done; f_equal; lia|]).
      * congruence.
      * by rewrite P4, C3, Hr, u64_add.
Qed.

(** ** Properties: the counters *)

(** Frames in the order they come, numbered without wrap-around. *)
Definition rx_run (len : Z) (qs : list Z) (s : rx_stats) : rx_stats := fold_left (fun s q => rx_seq len (u32 q) s) qs s.
Definition spec_run (qs : list Z) (sp : rx_spec) : rx_spec := fold_left (fun sp q => spec_step q sp) qs sp.

(** No number is half the range or more away from the expected one when it comes. *)
Fixpoint near (qs : list Z) (sp : rx_spec) : Prop :=
  match qs with
  | [] => True
  | q :: qs => - 2 ^ 31 <= q - sp_next sp < 2 ^ 31 /\ near qs (spec_step q sp)
  end.

Lemma rx_refines_run len qs sp s : rx_refines sp s -> near qs sp -> rx_refines (spec_run qs sp) (rx_run len qs s).
Proof.
  revert sp s. induction qs as [|q qs IH]; intros sp s Hr Hn; [done|].
  destruct Hn as [Hq Hn]. apply IH; [by apply rx_seq_step|done].
Qed.

Lemma rx_refines_zero : rx_refines spec_zero rx_zero.
Proof.
  unfold rx_refines, tracks. split_and!; try done.
  intros i Hi. simpl. rewrite Z.testbit_0_l. symmetry. apply bool_decide_eq_false_2. set_solver.
Qed.

Lemma spec_frames_run qs sp : sp_frames (spec_run qs sp) = sp_frames sp + zlen qs.
Proof.
  revert sp. induction qs as [|q qs IH]; intros sp; simpl; [rewrite zlen_nil; lia|].
  unfold spec_run in IH. rewrite IH, zlen_cons. unfold spec_step. repeat case_decide; simpl; lia.
Qed.

(** C36: whatever frames come, in whatever order (none more than half the range away),
    the receiver's counters are those of the set of numbers received: the expected
    number is the first neither received nor given up; [lost] is exactly how many
    numbers below it were not received on time; every other frame is a duplicate. *)
Theorem raw_counters_exact len qs : near qs spec_zero ->
  let sp := spec_run qs spec_zero in let s := rx_run len qs rx_zero in
  expected_seq s = u32 (sp_next sp) /\ (sp_next sp ∉ sp_got sp)
  /\ rx_lost s = u64 (sp_next sp - below (sp_got sp) (sp_next sp))
  /\ rx_total s = u64 (zlen qs) /\ rx_dup s = u64 (zlen qs - Z.of_nat (size (sp_got sp)))
  /\ rx_reorder s = u64 (sp_reorder sp).
Proof.
  intros Hn sp s. destruct (rx_refines_run len qs spec_zero rx_zero rx_refines_zero Hn) as ((H1 & H2 & _ & _ & H3) & H4 & H5 & H6).
  rewrite spec_frames_run in H4, H5. done.
Qed.

Lemma raw_counters_exact_witness :
  near [0; 2; 1; 1; 200; 5] spec_zero /\ rx_lost (rx_run 1460 [0; 2; 1; 1; 200; 5] rx_zero) = 134
  /\ u64 (sp_next (spec_run [0; 2; 1; 1; 200; 5] spec_zero)
          - below (sp_got (spec_run [0; 2; 1; 1; 200; 5] spec_zero)) (sp_next (spec_run [0; 2; 1; 1; 200; 5] spec_zero))) = 134.
Proof.
  assert (Hn : near [0; 2; 1; 1; 200; 5] spec_zero).
  { cbn [near]. repeat split; first [vm_compute; congruence|vm_compute; reflexivity|exact I]. }
  split; [exact Hn|]. destruct (raw_counters_exact 1460 [0; 2; 1; 1; 200; 5] Hn) as (_ & _ & Hl & _).
  assert (He : rx_lost (rx_run 1460 [0; 2; 1; 1; 200; 5] rx_zero) = 134) by (vm_compute; reflexivity).
  split; [exact He|]. rewrite <- Hl. exact He.
Defined.

(** Every number more than the window behind [q] came before [q]. *)
Definition in_window (qs : list Z) : Prop :=
  forall l1 q l2, qs = l1 ++ q :: l2 -> forall k, 0 <= k < q - RAW_TP_WINDOW -> k ∈ l1.

Lemma spec_run_snoc qs q sp : spec_run (qs ++ [q]) sp = spec_step q (spec_run qs sp).
Proof. unfold spec_run. by rewrite fold_left_app. Qed.

Lemma near_app l1 l2 sp : near (l1 ++ l2) sp <-> near l1 sp /\ near l2 (spec_run l1 sp).
Proof. revert sp. induction l1 as [|q l1 IH]; intros sp; simpl; [tauto|]. rewrite IH. tauto. Qed.

Lemma in_window_run qs : Forall (Z.le 0) qs -> NoDup qs -> in_window qs ->
  near qs spec_zero /\ let sp := spec_run qs spec_zero in sp_got sp = list_to_set qs /\ is_hole 0 (sp_next sp) (sp_got sp).
Proof.
  induction qs as [|q qs IH] using rev_ind; intros Hpos Hnd Hw.
  { split; [done|]. cbn. split; [done|]. split_and!; [lia|set_solver|lia]. }
  apply Forall_app in Hpos as [Hpos Hq]. apply Forall_inv in Hq.
  apply NoDup_app in Hnd as (Hnd & Hnin & _).
  assert (Hw' : in_window qs).
  { intros l1 q' l2 -> k Hk. apply (Hw l1 q' (l2 ++ [q])); [by rewrite <- app_assoc|done]. }
  destruct (IH Hpos Hnd Hw') as (Hn & Hg & Hh). clear IH.
  rewrite spec_run_snoc, near_app. destruct (spec_run qs spec_zero) as [e R n ro] eqn:E. cbn [sp_got sp_next] in *. subst R.
  assert (Hqn : q ∉ (list_to_set qs : gset Z)).
  { rewrite elem_of_list_to_set. intros Hin. apply (Hnin q Hin). by left. }
  assert (Hlow : forall k, 0 <= k < q - RAW_TP_WINDOW -> k ∈ (list_to_set qs : gset Z)).
  { intros k Hk. rewrite elem_of_list_to_set. by apply (Hw qs q []). }
  destruct Hh as (H1 & H2 & H3).
  assert (He1 : q - RAW_TP_WINDOW <= e).
  { destruct (Z.le_gt_cases (q - RAW_TP_WINDOW) e); [done|]. exfalso. apply H2, Hlow. lia. }
  assert (He2 : e <= q) by (destruct (Z.le_gt_cases e q); [done|]; exfalso; apply Hqn, H3; lia).
  unfold spec_step, RAW_TP_WINDOW in *. cbn [sp_got sp_next sp_frames sp_reorder].
  split; [split; [done|]; cbn; split; [lia|done]|].
  rewrite decide_False by (intros [?|?]; [lia|done]).
  rewrite (first_hole_is (Z.max e (q - 63)) e) by (split_and!; [lia|done|lia]).
  rewrite list_to_set_app_L. cbn [list_to_set]. rewrite union_empty_r_L, (union_comm_L (list_to_set qs)).
  destruct (decide (q = e)) as [->|Hne]; cbn [sp_got sp_next]; (split; [done|]).
  - destruct (first_hole_spec (e + 1) (list_to_set qs)) as (G1 & G2 & G3). split_and!; [lia| |].
    + rewrite elem_of_union, elem_of_singleton. intros [?|?]; [lia|done].
    + intros k Hk. destruct (decide (k = e)) as [->|]; [by apply elem_of_union_l, elem_of_singleton|].
      apply elem_of_union_r. destruct (decide (k < e)); [apply H3; lia|apply G3; lia].
  - split_and!; [done| |].
    + rewrite elem_of_union, elem_of_singleton. intros [?|?]; [lia|done].
    + intros k Hk. by apply elem_of_union_r, H3.
Qed.

(** The run's counters when the numbers below [n] have all come once, in the window. *)
Lemma rx_run_clean len qs n :
  Permutation qs (seqZ 0 n) -> in_window qs -> 0 <= n ->
  let s := rx_run len qs rx_zero in
  rx_lost s = 0 /\ rx_dup s = 0 /\ expected_seq s = u32 n /\ rx_total s = u64 n.
Proof.
  intros Hp Hw Hn0 s.
  assert (Hin : forall k, k ∈ qs <-> 0 <= k < n) by (intros k; rewrite Hp, elem_of_seqZ; lia).
  destruct (in_window_run qs) as (Hn & Hg & Hh); [| |done|].
  { apply Forall_forall. intros k Hk. apply Hin in Hk. lia. }
  { rewrite Hp. apply NoDup_seqZ. }
  destruct (rx_refines_run len qs spec_zero rx_zero rx_refines_zero Hn) as ((H1 & H2 & _ & _ & H3) & H4 & H5 & _).
  fold s in H1, H3, H4, H5. rewrite spec_frames_run in H4, H5. set (sp := spec_run qs spec_zero) in *. clearbody s sp. rewrite Hg in *.
  assert (Hnx : sp_next sp = n).
  { destruct Hh as (G1 & G2 & G3). rewrite elem_of_list_to_set, Hin in G2.
    destruct (Z.lt_trichotomy (sp_next sp) n) as [?|[?|?]]; [lia|done|].
    specialize (G3 n ltac:(lia)). rewrite elem_of_list_to_set, Hin in G3. lia. }
  pose proof (below_hole _ _ _ Hh) as Hb. rewrite Hnx in *.
  assert (Hz : below (list_to_set qs) 0 = 0).
  { unfold below. replace (filter _ _) with (∅ : gset Z); [done|]. apply set_eq. intros k.
    rewrite elem_of_filter, elem_of_list_to_set, Hin. split; [set_solver|lia]. }
  assert (Hl : zlen qs = n) by (unfold zlen; rewrite Hp, length_seqZ; lia).
  split_and!; [|rewrite H5|exact H1|rewrite H4; cbn; by rewrite Hl].
  - rewrite H3, Hb, Hz. done.
  - rewrite size_list_to_set by (rewrite Hp; apply NoDup_seqZ). unfold zlen. simpl. f_equal. by rewrite Z.sub_diag.
Qed.
