(* ===== verification/RawTpRun.v ===== *)
(** * RawTpRun: the runs of the raw throughput test

    The firmware's half of [main/stats.c] - the producer task, its start and stop by
    the command task, [process_raw_tp] - and the host's [host/esp_stats.c].
    [rdo] interleaves the command task with the producers' turns; [process_raw_tp] is
    the same pieces in a row, with the producer running when it is waited for. *)
From S2P Require Import Prelude Wire CmdQueue RcpFw RawTp.

(** ** The firmware *)

Inductive raw_task := RAW_TP_TASK_STOPPED | RAW_TP_TASK_STARTING | RAW_TP_TASK_RUNNING | RAW_TP_TASK_STOPPING.
#[export] Instance raw_task_eq_dec : EqDecision raw_task.
Proof. solve_decision. Defined.

Record raw_tp := mk_raw {
  raw_tp_active_type : Z;
  s_raw_tp_task_state : raw_task;
  s_raw_tp_task_should_stop : bool;
  s_raw_tp_task_gen : Z;
  s_raw_tp_stopped_gen : Z;
  raw_tp_task_handle : bool;
  s_raw_tp_done_sem : bool;
  raw_tp_timer : bool;
  s_raw_tp_timer_enabled : bool;
  s_raw_tp_run_id : Z;
  raw_tp_tx_seq : Z;
  raw_tp_tx_seq_local : Z;
  raw_tp_tx_failed_frames : Z;
  raw_rx : rx_stats;
  raw_tp_interval : Z
}.
#[export] Instance eta_raw_tp : Eta raw_tp := fun r =>
  mk_raw (raw_tp_active_type r) (s_raw_tp_task_state r) (s_raw_tp_task_should_stop r) (s_raw_tp_task_gen r)
    (s_raw_tp_stopped_gen r) (raw_tp_task_handle r) (s_raw_tp_done_sem r) (raw_tp_timer r) (s_raw_tp_timer_enabled r)
    (s_raw_tp_run_id r) (raw_tp_tx_seq r) (raw_tp_tx_seq_local r) (raw_tp_tx_failed_frames r) (raw_rx r)
    (raw_tp_interval r).
Definition raw_boot : raw_tp := mk_raw 0 RAW_TP_TASK_STOPPED false 0 0 false false false false 0 0 0 0 rx_zero 0.

(** What FreeRTOS and the timer service answer. *)
Record raw_env := mk_raw_env {
  re_malloc : bool;                    (* the response's buffer *)
  re_timer_create : Z;
  re_timer_active : bool;              (* when it is about to be started *)
  re_timer_start : Z;
  re_delete_fails : nat;               (* refusals before the timer is deleted *)
  re_sem : bool;
  re_task : bool;
  re_send : Z                          (* [pdTRUE] is 1 *)
}.

Definition e2h (code : Z) : bool := (code =? cmd_num CMD_RAW_TP_ESP_TO_HOST) || (code =? cmd_num CMD_RAW_TP_BIDIRECTIONAL).
Definition h2e (code : Z) : bool := (code =? cmd_num CMD_RAW_TP_HOST_TO_ESP) || (code =? cmd_num CMD_RAW_TP_BIDIRECTIONAL).

Definition raw_tp_reset_stats (r : raw_tp) : raw_tp :=
  r <| raw_rx := rx_zero |> <| raw_tp_tx_seq := 0 |> <| raw_tp_tx_seq_local := 0 |>
    <| raw_tp_tx_failed_frames := 0 |> <| raw_tp_interval := 0 |>.
Definition debug_raw_tp_tx_failed (n : Z) (r : raw_tp) : raw_tp :=
  r <| raw_tp_tx_failed_frames := u64 (raw_tp_tx_failed_frames r + n) |>.
Definition debug_raw_tp_tx_complete (n : Z) (r : raw_tp) : raw_tp :=
  r <| raw_tp_tx_seq := u32 (raw_tp_tx_seq r + n) |>
    <| raw_rx := raw_rx r <| rx_len := u64 (rx_len (raw_rx r) + n * TEST_RAW_TP__BUF_SIZE) |> |>.
Definition debug_raw_tp_is_e2h_active (r : raw_tp) : bool := e2h (raw_tp_active_type r).
Definition debug_raw_tp_is_run_active (run_id : Z) (r : raw_tp) : bool :=
  e2h (raw_tp_active_type r) && (run_id =? s_raw_tp_run_id r).

(** The number and the run of a frame: in its first eight bytes, or, for a short
    frame, the number in the header's spare bytes. *)
Definition frame_ids (spare payload : list Z) (own_run : Z) : Z * Z :=
  if sizeof_raw_tp_packet <=? zlen payload then (le_at 4 0 payload, le_at 4 4 payload)
  else (raw_tp_get_seq spare, own_run).
Definition bad_payload (s : rx_stats) : rx_stats := s <| rx_bad_payload := u64 (rx_bad_payload s + 1) |>.

Definition debug_update_raw_tp_rx_count (spare payload : list Z) (r : raw_tp) : raw_tp :=
  if negb (h2e (raw_tp_active_type r)) then r
  else
    let '(seq, run_id) := frame_ids spare payload (s_raw_tp_run_id r) in
    if negb (run_id =? s_raw_tp_run_id r) then r
    else if negb (zlen payload =? TEST_RAW_TP__BUF_SIZE) || negb (fw_raw_tp_pattern_valid payload seq run_id)
    then r <| raw_rx := bad_payload (raw_rx r) |>
    else r <| raw_rx := rx_seq (zlen payload) seq (raw_rx r) |>.

(** *** The producer task *)

(** The end of [raw_tp_tx_task] (and its early exit). *)
Definition producer_exit (gen : Z) (r : raw_tp) : raw_tp :=
  r <| s_raw_tp_stopped_gen := gen |> <| s_raw_tp_task_state := RAW_TP_TASK_STOPPED |> <| raw_tp_task_handle := false |>.

(** Where it is: created; at the head of its loop; with a number taken; with a frame
    (its number, run and bytes) to queue. *)
Inductive producer_pc :=
  | PStart
  | PLoop
  | PTaken (seq : Z)
  | PQueue (seq run_id : Z) (frame : list Z).

(** One turn; [ready]: a buffer was allocated, or the frame queued.  The frame that
    leaves and the next position, [None] when the task has ended. *)
Definition producer_turn (gen : Z) (ready : bool) (pc : producer_pc) (r : raw_tp)
  : option producer_pc * option (Z * Z * list Z) * raw_tp :=
  match pc with
  | PStart =>
      if s_raw_tp_task_should_stop r || bool_decide (s_raw_tp_task_state r = RAW_TP_TASK_STOPPING)
      then (None, None, producer_exit gen r)
      else (Some PLoop, None, r <| s_raw_tp_task_state := RAW_TP_TASK_RUNNING |>)
  | PLoop =>
      if s_raw_tp_task_should_stop r then (None, None, producer_exit gen r)
      else if ready && e2h (raw_tp_active_type r)
      then (Some (PTaken (raw_tp_tx_seq_local r)), None, r <| raw_tp_tx_seq_local := u32 (raw_tp_tx_seq_local r + 1) |>)
      else (Some PLoop, None, r)
  | PTaken seq =>
      let run_id := s_raw_tp_run_id r in
      (Some (PQueue seq run_id (raw_frame fw_pattern_fill seq run_id)), None, r)
  | PQueue seq run_id frame =>
      if s_raw_tp_task_should_stop r then (None, None, producer_exit gen r)
      else if ready then (Some PLoop, Some (seq, run_id, frame), r)
      else (Some pc, None, r)
  end.

(** *** The command task *)

(** [raw_tp_stop_task]: the request, what is waited for, and the end. *)
Definition raw_task_gone (r : raw_tp) : bool :=
  bool_decide (s_raw_tp_task_state r = RAW_TP_TASK_STOPPED) && negb (raw_tp_task_handle r).
Definition raw_stop_request (r : raw_tp) : raw_tp :=
  r <| s_raw_tp_task_should_stop := true |> <| s_raw_tp_task_state := RAW_TP_TASK_STOPPING |>.
Definition raw_stopped (r : raw_tp) : bool :=
  bool_decide (s_raw_tp_task_state r = RAW_TP_TASK_STOPPED) && (s_raw_tp_stopped_gen r =? s_raw_tp_task_gen r).
Definition raw_stop_finish (r : raw_tp) : raw_tp :=
  r <| raw_tp_task_handle := false |> <| s_raw_tp_task_should_stop := false |>.
Definition raw_tp_stop_task (r : raw_tp) : raw_tp :=
  if raw_task_gone r then r
  else raw_stop_finish (producer_exit (s_raw_tp_task_gen r) (raw_stop_request r)).

(** At most 50 tries to delete the timer. *)
Definition raw_tp_stop_timer (e : raw_env) (r : raw_tp) : raw_tp :=
  if negb (raw_tp_timer r) then r
  else
    let r := r <| s_raw_tp_timer_enabled := false |> in
    if (re_delete_fails e <? 50)%nat then r <| raw_tp_timer := false |> else r.

Definition start_timer_to_display_raw_tp (e : raw_env) (r : raw_tp) : Z * raw_tp :=
  let '(ret, r) := if raw_tp_timer r then (ESP_OK, r)
                   else if re_timer_create e =? ESP_OK then (ESP_OK, r <| raw_tp_timer := true |>)
                   else (re_timer_create e, r) in
  if negb (ret =? ESP_OK) then (ret, r)
  else
    let r := r <| s_raw_tp_timer_enabled := true |> in
    (if re_timer_active e then ESP_OK else re_timer_start e, r).

(** [init_raw_tp_test_task], once no stop is under way: the code, and whether a
    producer was created. *)
Definition init_raw_tp_test_task (e : raw_env) (r : raw_tp) : Z * bool * raw_tp :=
  if negb (raw_task_gone r) then (ESP_OK, false, r)
  else if negb (s_raw_tp_done_sem r) && negb (re_sem e) then (ESP_ERR_NO_MEM, false, r)
  else
    let gen := u32 (s_raw_tp_task_gen r + 1) in
    let r := r <| s_raw_tp_done_sem := true |> <| s_raw_tp_task_should_stop := false |>
               <| s_raw_tp_task_state := RAW_TP_TASK_STARTING |> <| s_raw_tp_task_gen := gen |> in
    if re_task e then (ESP_OK, true, r <| raw_tp_task_handle := true |>)
    else (ESP_ERR_NO_MEM, false, producer_exit gen r).

(** The timer, and the producer of a run towards the host. *)
Definition raw_setup (e : raw_env) (code : Z) (r : raw_tp) : Z * bool * raw_tp :=
  let r := raw_tp_stop_timer e r in
  let '(ret, r) := start_timer_to_display_raw_tp e r in
  if (ret =? ESP_OK) && e2h code then init_raw_tp_test_task e r else (ret, false, r).

(** The new run: its number from the command, or the next one; never 0. *)
Definition raw_new_run (p : list Z) (r : raw_tp) : raw_tp :=
  let id := if sizeof_command_header + 4 <=? zlen p then le_at 4 8 p else u32 (s_raw_tp_run_id r + 1) in
  raw_tp_reset_stats (r <| s_raw_tp_run_id := if id =? 0 then 1 else id |>).

Definition raw_quiet (r : raw_tp) : raw_tp := r <| raw_tp_active_type := 0 |>.
Definition raw_tp_stop_resources (e : raw_env) (stop_task : bool) (r : raw_tp) : raw_tp :=
  let r := raw_tp_stop_timer e (raw_quiet r) in
  if stop_task then raw_tp_stop_task r else r.

(** The code, the response if it was queued, and the state. *)
Definition process_raw_tp (e : raw_env) (p : list Z) (r : raw_tp) : Z * option (list Z) * raw_tp :=
  if zlen p <? sizeof_command_header then (ESP_ERR_INVALID_ARG, None, r)
  else
    let code := byte_at 0 p in
    if negb (e2h code) && negb (h2e code) then (ESP_ERR_INVALID_ARG, None, r)
    else if negb (re_malloc e) then (ESP_ERR_NO_MEM, None, r)
    else
      let r := raw_quiet r in
      let r := if e2h code then r else raw_tp_stop_task r in
      let '(ret, _, r) := raw_setup e code r in
      let status := if ret =? ESP_OK then CMD_RESPONSE_SUCCESS else CMD_RESPONSE_FAIL in
      let resp := [code; resp_num status; 0; 0] ++ ztake 2 (zdrop 4 p) ++ [0; 0] in
      let r := if ret =? ESP_OK then raw_new_run p r else r in
      if negb (re_send e =? 1) then (re_send e, None, raw_tp_stop_resources e true r)
      else if negb (ret =? ESP_OK) then (ret, Some resp, raw_tp_stop_resources e true r)
      else (ESP_OK, Some resp, r <| raw_tp_active_type := code |>).

(** ** The command task and the producers, interleaved *)

(** What the command task does next; [RStop] waits for the producer, then goes on
    with the command or, after a failure, is done. *)
Inductive rcmd :=
  | RIdle
  | RStop (next : option (list Z))
  | RSetup (p : list Z)
  | RCommit (p : list Z) (ret : Z)
  | RSend (p : list Z) (ret : Z).
Record rstate := mk_rs { rs_fw : raw_tp; rs_cmd : rcmd; rs_prods : list (Z * producer_pc); rs_sent : list (Z * Z * list Z) }.
Definition rs_boot : rstate := mk_rs raw_boot RIdle [] [].

Inductive revent :=
  | EBegin (p : list Z)                (* a valid command, its buffer allocated *)
  | EStopped
  | ESetup (e : raw_env)
  | ECommit
  | ESend (e : raw_env)
  | EProducer (i : nat) (ready : bool).

(** [raw_tp_stop_task] up to its wait. *)
Definition stop_begin (next : option (list Z)) (r : raw_tp) : raw_tp * rcmd :=
  if raw_task_gone r then (r, match next with Some p => RSetup p | None => RIdle end)
  else (raw_stop_request r, RStop next).

Definition rdo (ev : revent) (s : rstate) : option rstate :=
  let r := rs_fw s in
  match ev, rs_cmd s with
  | EBegin p, RIdle =>
      let r := raw_quiet r in
      let '(r, c) := if e2h (byte_at 0 p) then (r, RSetup p) else stop_begin (Some p) r in
      Some (mk_rs r c (rs_prods s) (rs_sent s))
  | EStopped, RStop next =>
      if raw_stopped r
      then Some (mk_rs (raw_stop_finish r) (match next with Some p => RSetup p | None => RIdle end) (rs_prods s) (rs_sent s))
      else None
  | ESetup e, RSetup p =>
      let '(ret, created, r) := raw_setup e (byte_at 0 p) r in
      Some (mk_rs r (RCommit p ret)
              (rs_prods s ++ if created then [(s_raw_tp_task_gen r, PStart)] else []) (rs_sent s))
  | ECommit, RCommit p ret =>
      Some (mk_rs (if ret =? ESP_OK then raw_new_run p r else r) (RSend p ret) (rs_prods s) (rs_sent s))
  | ESend e, RSend p ret =>
      if (re_send e =? 1) && (ret =? ESP_OK)
      then Some (mk_rs (r <| raw_tp_active_type := byte_at 0 p |>) RIdle (rs_prods s) (rs_sent s))
      else
        let '(r, c) := stop_begin None (raw_tp_stop_timer e (raw_quiet r)) in
        Some (mk_rs r c (rs_prods s) (rs_sent s))
  | EProducer i ready, c =>
      match rs_prods s !! i with
      | None => None
      | Some (gen, pc) =>
          let '(pc', out, r) := producer_turn gen ready pc r in
          let prods := match pc' with Some pc' => <[i := (gen, pc')]> (rs_prods s) | None => delete i (rs_prods s) end in
          Some (mk_rs r c prods (rs_sent s ++ match out with Some f => [f] | None => [] end))
      end
  | _, _ => None
  end.

Inductive rreach : rstate -> Prop :=
  | rreach_boot : rreach rs_boot
  | rreach_step ev s s' : rreach s -> rdo ev s = Some s' -> rreach s'.

Fixpoint rrun (evs : list revent) (s : rstate) : option rstate :=
  match evs with
  | [] => Some s
  | ev :: evs => match rdo ev s with Some s => rrun evs s | None => None end
  end.
Lemma rrun_reach evs s s' : rreach s -> rrun evs s = Some s' -> rreach s'.
Proof.
  revert s. induction evs as [|ev evs IH]; intros s Hr H; simpl in H; [by simplify_eq|].
  destruct (rdo ev s) as [s1|] eqn:E; [|done]. apply (IH s1); [by apply (rreach_step ev s)|done].
Qed.

(** No producer, and the state says so; or one, of the current generation. *)
Definition rinv (s : rstate) : Prop :=
  let r := rs_fw s in
  match rs_prods s with
  | [] => s_raw_tp_task_state r = RAW_TP_TASK_STOPPED /\ raw_tp_task_handle r = false
          /\ match rs_cmd s with RStop _ => s_raw_tp_stopped_gen r = s_raw_tp_task_gen r
                               | _ => s_raw_tp_task_should_stop r = false end
  | [(gen, pc)] =>
      gen = s_raw_tp_task_gen r /\ raw_tp_task_handle r = true
      /\ s_raw_tp_task_state r <> RAW_TP_TASK_STOPPED
      /\ match rs_cmd s with RStop _ => s_raw_tp_task_should_stop r = true
                           | _ => s_raw_tp_task_should_stop r = false /\ s_raw_tp_task_state r <> RAW_TP_TASK_STOPPING end
  | _ => False
  end.

Lemma raw_task_gone_prods s : rinv s -> raw_task_gone (rs_fw s) = bool_decide (rs_prods s = []).
Proof.
  unfold rinv, raw_task_gone. destruct (rs_prods s) as [|[gen pc] [|]]; [..|done].
  - intros (-> & -> & _). done.
  - intros (_ & -> & Hs & _). rewrite andb_false_r. symmetry. by apply bool_decide_eq_false_2.
Qed.

(** The fields the invariant reads are left alone by what concerns the timer, the
    counters and the type of the run. *)
Definition same_task (r r' : raw_tp) : Prop :=
  s_raw_tp_task_state r' = s_raw_tp_task_state r /\ s_raw_tp_task_should_stop r' = s_raw_tp_task_should_stop r
  /\ s_raw_tp_task_gen r' = s_raw_tp_task_gen r /\ s_raw_tp_stopped_gen r' = s_raw_tp_stopped_gen r
  /\ raw_tp_task_handle r' = raw_tp_task_handle r.
Lemma same_task_trans r1 r2 r3 : same_task r1 r2 -> same_task r2 r3 -> same_task r1 r3.
Proof. intros (?&?&?&?&?) (?&?&?&?&?). split_and!; congruence. Qed.
Lemma stop_timer_same e r : same_task r (raw_tp_stop_timer e r).
Proof. unfold raw_tp_stop_timer. by repeat case_match. Qed.
Lemma start_timer_same e r : same_task r (start_timer_to_display_raw_tp e r).2.
Proof. unfold start_timer_to_display_raw_tp. by repeat case_match; simplify_eq. Qed.

Definition working (c : rcmd) : bool := match c with RStop _ => false | _ => true end.
Lemma raw_rinv_same s r c : rinv s -> same_task (rs_fw s) r -> working (rs_cmd s) = true -> working c = true ->
  rinv (mk_rs r c (rs_prods s) (rs_sent s)).
Proof.
  unfold rinv, working. intros Hi (E1 & E2 & E3 & E4 & E5) H1 H2. cbn [rs_fw rs_cmd rs_prods].
  destruct (rs_prods s) as [|[gen pc] [|]]; [..|done]; rewrite E1, E3, ?E2, E5; destruct (rs_cmd s), c; done.
Qed.

Lemma rinv_stop_begin s r next : rinv s -> same_task (rs_fw s) r -> working (rs_cmd s) = true ->
  rinv (mk_rs (stop_begin next r).1 (stop_begin next r).2 (rs_prods s) (rs_sent s)).
Proof.
  intros Hi Hs Hw. pose proof (raw_rinv_same s r RIdle Hi Hs Hw eq_refl) as Hi1.
  pose proof (raw_task_gone_prods _ Hi1) as Hg. cbn [rs_fw rs_prods] in Hg. unfold stop_begin. rewrite Hg.
  destruct (bool_decide_reflect (rs_prods s = [])) as [Hp|Hp]; cbn [fst snd].
  - by apply (raw_rinv_same s); [..|by destruct next].
  - unfold rinv in *. cbn [rs_fw rs_cmd rs_prods] in *. destruct (rs_prods s) as [|[gen pc] [|]]; [done| |done].
    destruct Hi1 as (-> & Hh & _). done.
Qed.

Lemma rinv_setup s e p : rinv s -> working (rs_cmd s) = true ->
  let x := raw_setup e (byte_at 0 p) (rs_fw s) in
  rinv (mk_rs x.2 (RCommit p x.1.1) (rs_prods s ++ if x.1.2 then [(s_raw_tp_task_gen x.2, PStart)] else []) (rs_sent s)).
Proof.
  intros Hi Hw. cbv zeta. unfold raw_setup.
  pose proof (start_timer_same e (raw_tp_stop_timer e (rs_fw s))) as Hs.
  destruct (start_timer_to_display_raw_tp e _) as [ret r]. cbn [snd] in Hs.
  apply (same_task_trans _ _ _ (stop_timer_same e (rs_fw s))) in Hs.
  assert (Hsame : forall ret, rinv (mk_rs r (RCommit p ret) (rs_prods s) (rs_sent s))) by (intros; by apply raw_rinv_same).
  destruct (_ && _); cbn [fst snd]; [|by rewrite app_nil_r].
  unfold init_raw_tp_test_task. pose proof (raw_task_gone_prods _ (Hsame 0)) as Hg. cbn [rs_fw rs_prods] in Hg. rewrite Hg.
  destruct (bool_decide_reflect (rs_prods s = [])) as [Hp|Hp]; cbn [negb]; [|cbn [fst snd]; by rewrite app_nil_r].
  destruct (_ && _); cbn [fst snd]; [by rewrite app_nil_r|].
  rewrite Hp. destruct (re_task e); cbn [fst snd app]; unfold rinv; cbn; done.
Qed.

Lemma rinv_producer s i ready s' : rinv s -> rdo (EProducer i ready) s = Some s' -> rinv s'.
Proof.
  intros Hi H. unfold rdo in H. destruct (rs_prods s !! i) as [[gen pc]|] eqn:Hp; [|by destruct (rs_cmd s)].
  assert (Hone : i = 0%nat /\ rs_prods s = [(gen, pc)]).
  { unfold rinv in Hi. destruct (rs_prods s) as [|[g q] [|]]; [done| |done].
    destruct i as [|i]; cbn in Hp; [by simplify_eq|done]. }
  destruct Hone as [-> Hone]. unfold rinv in Hi. rewrite Hone in *. destruct Hi as (-> & Hh & Hst & Hc).
  assert (H' : exists pc' out r, producer_turn (s_raw_tp_task_gen (rs_fw s)) ready pc (rs_fw s) = (pc', out, r)
    /\ rs_fw s' = r /\ rs_cmd s' = rs_cmd s /\ rs_prods s' = match pc' with Some q => [(s_raw_tp_task_gen (rs_fw s), q)] | None => [] end).
  { destruct (producer_turn _ _ _ _) as [[pc' out] r] eqn:E. exists pc', out, r. split; [done|].
    destruct (rs_cmd s); simplify_eq; by destruct pc'. }
  destruct H' as (pc' & out & r & Ht & Hf & Hcm & Hps). unfold rinv. rewrite Hps, Hcm, Hf. clear H Hps Hf Hcm.
  unfold producer_turn in Ht.
  destruct pc; [destruct (s_raw_tp_task_should_stop (rs_fw s)) eqn:Es; [|destruct (bool_decide_reflect (s_raw_tp_task_state (rs_fw s) = RAW_TP_TASK_STOPPING)) as [?|?]]
    |destruct (s_raw_tp_task_should_stop (rs_fw s)) eqn:Es; [|destruct (ready && _)]|
    |destruct (s_raw_tp_task_should_stop (rs_fw s)) eqn:Es; [|destruct ready]];
    cbn in Ht; simplify_eq; cbn; destruct (rs_cmd s); naive_solver.
Qed.

Lemma rinv_step ev s s' : rinv s -> rdo ev s = Some s' -> rinv s'.
Proof.
  intros Hi H. destruct ev as [p| |e| |e|i ready]; [..|by apply (rinv_producer s i ready)]; unfold rdo in H;
    destruct (rs_cmd s) as [|next|q|q ret|q ret] eqn:Ec; try discriminate.
  - destruct (e2h _).
    + simplify_eq. apply raw_rinv_same; [done|done|by rewrite Ec|done].
    + pose proof (rinv_stop_begin s (raw_quiet (rs_fw s)) (Some p) Hi) as Hb. rewrite Ec in Hb.
      destruct (stop_begin _ _) as [r c]. simplify_eq. by apply Hb.
  - destruct (raw_stopped _) eqn:Es; [|done]. simplify_eq. unfold rinv, raw_stopped in *. rewrite Ec in Hi.
    apply andb_true_iff in Es as [Es _]. apply bool_decide_eq_true in Es.
    cbn. destruct (rs_prods s) as [|[g q] [|]]; [|by destruct Hi as (_ & _ & ? & _)|done].
    destruct Hi as (H1 & H2 & H3). by destruct next.
  - pose proof (rinv_setup s e q Hi) as Hb. rewrite Ec in Hb. destruct (raw_setup _ _ _) as [[ret created] r].
    simplify_eq. by apply Hb.
  - simplify_eq. apply raw_rinv_same; [done|by destruct (_ =? _)|by rewrite Ec|done].
  - destruct (_ && _).
    + simplify_eq. apply raw_rinv_same; [done|done|by rewrite Ec|done].
    + pose proof (rinv_stop_begin s (raw_tp_stop_timer e (raw_quiet (rs_fw s))) None Hi) as Hb. rewrite Ec in Hb.
      destruct (stop_begin _ _) as [r c]. simplify_eq. apply Hb; [|done].
      exact (same_task_trans _ _ _ (conj eq_refl (conj eq_refl (conj eq_refl (conj eq_refl eq_refl)))) (stop_timer_same e (raw_quiet (rs_fw s)))).
Qed.

Lemma rinv_reach s : rreach s -> rinv s.
Proof. induction 1 as [|ev s s' _ IH H]; [done|]. by apply (rinv_step ev s). Qed.

(** ** The host ([esp_stats.c]) *)

Record host_raw := mk_hr {
  host_raw_tp_run_id : Z;
  log_raw_tp_stats_timer_running : bool;
  test_raw_tp : bool;
  test_raw_tp__host_to_esp : bool;
  raw_tp_tx_thread : bool;
  raw_tp_queue_paused : bool;
  traffic_open_init_done : bool;
  hr_tx_seq : Z;
  hr_tx_seq_local : Z;
  hr_tx_failed : Z;
  hr_tx_enqueue_failed : Z;
  hr_timer_count : Z;
  hr_rx : rx_stats
}.
#[export] Instance eta_host_raw : Eta host_raw := fun h =>
  mk_hr (host_raw_tp_run_id h) (log_raw_tp_stats_timer_running h) (test_raw_tp h) (test_raw_tp__host_to_esp h)
    (raw_tp_tx_thread h) (raw_tp_queue_paused h) (traffic_open_init_done h) (hr_tx_seq h) (hr_tx_seq_local h)
    (hr_tx_failed h) (hr_tx_enqueue_failed h) (hr_timer_count h) (hr_rx h).

Definition ESP_TEST_RAW_TP_HOST_TO_ESP : Z := 1.
Definition ESP_TEST_RAW_TP_ESP_TO_HOST : Z := 2.

Definition host_raw_tp_reset_stats (h : host_raw) : host_raw :=
  h <| hr_rx := rx_zero |> <| hr_timer_count := 0 |> <| hr_tx_seq := 0 |> <| hr_tx_seq_local := 0 |>
    <| hr_tx_failed := 0 |> <| hr_tx_enqueue_failed := 0 |>.
Definition esp_raw_tp_alloc_run_id (h : host_raw) : Z * host_raw :=
  let id := u32 (host_raw_tp_run_id h + 1) in
  let id := if id =? 0 then 1 else id in (id, h <| host_raw_tp_run_id := id |>).
Definition esp_raw_tp_get_run_id (h : host_raw) : Z * host_raw :=
  let id := if host_raw_tp_run_id h =? 0 then 1 else host_raw_tp_run_id h in (id, h <| host_raw_tp_run_id := id |>).
Definition esp_raw_tp_tx_complete (run_id n : Z) (h : host_raw) : host_raw :=
  if negb (run_id =? 0) && negb (run_id =? host_raw_tp_run_id h) then h
  else h <| hr_tx_seq := u32 (hr_tx_seq h + n) |>
         <| hr_rx := hr_rx h <| rx_len := u64 (rx_len (hr_rx h) + n * TEST_RAW_TP__BUF_SIZE) |> |>.
Definition esp_raw_tp_queue_pause (h : host_raw) : host_raw :=
  if traffic_open_init_done h then h <| raw_tp_queue_paused := true |> else h.
Definition esp_raw_tp_queue_resume (h : host_raw) : host_raw :=
  if traffic_open_init_done h then h <| raw_tp_queue_paused := false |> else h.

(** The timer off, the thread stopped; the counters stay. *)
Definition test_raw_tp_cleanup (h : host_raw) : host_raw :=
  esp_raw_tp_queue_resume (h <| log_raw_tp_stats_timer_running := false |>) <| raw_tp_tx_thread := false |>.
Definition start_test_raw_tp (to_esp : bool) (h : host_raw) : host_raw :=
  h <| test_raw_tp := true |> <| test_raw_tp__host_to_esp := to_esp |>.
Definition stop_test_raw_tp (h : host_raw) : host_raw :=
  h <| test_raw_tp := false |> <| test_raw_tp__host_to_esp := false |>.

(** [thread]: [kthread_run] succeeds. *)
Definition process_raw_tp_flags (thread : bool) (h : host_raw) : host_raw :=
  let h := test_raw_tp_cleanup h in
  if negb (test_raw_tp h) then h
  else
    let h := h <| traffic_open_init_done := true |> <| raw_tp_queue_paused := false |>
               <| log_raw_tp_stats_timer_running := true |> in
    if test_raw_tp__host_to_esp h then h <| raw_tp_tx_thread := thread |> else h.
Definition process_test_capabilities (mode : Z) (thread : bool) (h : host_raw) : host_raw :=
  let h := test_raw_tp_cleanup (stop_test_raw_tp h) in
  let h := if host_raw_tp_run_id h =? 0 then h <| host_raw_tp_run_id := 1 |> else h in
  let h := host_raw_tp_reset_stats h in
  let h := if mode =? ESP_TEST_RAW_TP_ESP_TO_HOST then start_test_raw_tp false h
           else if mode =? ESP_TEST_RAW_TP_HOST_TO_ESP then start_test_raw_tp true h else h in
  process_raw_tp_flags thread h.

(** [thread]: what [kthread_run] returns, 0 for a thread. *)
Definition esp_raw_tp_enable_h2e_tx (thread : Z) (h : host_raw) : Z * host_raw :=
  if negb (test_raw_tp h) || negb (log_raw_tp_stats_timer_running h) then (- 22, h)
  else if test_raw_tp__host_to_esp h || raw_tp_tx_thread h then (- 16, h)
  else if thread =? 0 then (0, h <| test_raw_tp__host_to_esp := true |> <| raw_tp_tx_thread := true |>)
  else (thread, h <| test_raw_tp__host_to_esp := false |>).

(** One turn of [raw_tp_tx_process] with traffic open and a buffer: the frame it
    offers to the transport ([sent]: [esp_send_packet] took it). *)
Definition raw_tp_tx_turn (sent : bool) (h : host_raw) : option (list Z) * host_raw :=
  if raw_tp_queue_paused h || negb (test_raw_tp__host_to_esp h) then (None, h)
  else
    let frame := raw_frame host_pattern_fill (hr_tx_seq_local h) (host_raw_tp_run_id h) in
    if sent then (Some frame, h <| hr_tx_seq_local := u32 (hr_tx_seq_local h + 1) |>)
    else (None, h <| hr_tx_enqueue_failed := hr_tx_enqueue_failed h + 1 |>).

(** [late]: the timer stopped, or the run changed, before the lock was taken. *)
Definition update_test_raw_tp_rx_stats (raw_tp_mode : Z) (late : bool) (spare payload : list Z) (h : host_raw) : host_raw :=
  if negb (log_raw_tp_stats_timer_running h) || negb (test_bit 1 raw_tp_mode) then h
  else
    let '(seq, run_id) := frame_ids spare payload (host_raw_tp_run_id h) in
    if negb (run_id =? host_raw_tp_run_id h) || late then h
    else if negb (zlen payload =? TEST_RAW_TP__BUF_SIZE) || negb (host_raw_tp_pattern_valid payload seq run_id)
    then h <| hr_rx := bad_payload (hr_rx h) |>
    else h <| hr_rx := rx_seq (zlen payload) seq (hr_rx h) |>.

(** ** Frames across the link *)

Lemma zlen_fw_pattern n st : zlen (fw_pattern n st) = Z.of_nat n.
Proof.
  rewrite <- (pattern_equal n 2). generalize (4 * 2). revert st. induction n as [|n IH]; intros st i; [done|].
  cbn [host_pattern]. rewrite zlen_cons, IH. lia.
Qed.

Lemma raw_frame_fw seq run_id : raw_frame fw_pattern_fill seq run_id
  = (le_bytes 4 seq ++ le_bytes 4 run_id) ++ fw_pattern 1452 (raw_tp_pattern_seed seq run_id).
Proof.
  unfold raw_frame, fw_pattern_fill, pattern_fill, sizeof_raw_tp_packet, TEST_RAW_TP__BUF_SIZE.
  set (z := replicate _ 0). assert (Hz : zlen z = 1452) by (unfold z, zlen; by rewrite length_replicate).
  clearbody z. rewrite app_assoc, ztake_app_exact by (by rewrite zlen_app, !zlen_le_bytes). do 2 f_equal.
  rewrite !zlen_app, !zlen_le_bytes, Hz. done.
Qed.

Lemma raw_frame_host seq run_id : raw_frame host_pattern_fill seq run_id = raw_frame fw_pattern_fill seq run_id.
Proof. unfold raw_frame, host_pattern_fill, fw_pattern_fill, pattern_fill. f_equal. apply (pattern_equal _ 2). Qed.

Lemma host_pattern_bytes n i st : bytes_ok (host_pattern n i st).
Proof. revert i st. induction n as [|n IH]; intros i st; constructor; [|apply IH]. apply wrap_range. lia. Qed.

Lemma pattern_accepted n st : in_width 32 st ->
  true && fw_pattern_valid (fw_pattern n st) st = true
  /\ true && host_pattern_valid (fw_pattern n st) sizeof_raw_tp_packet st = true.
Proof.
  intros Hst. cbn [andb]. assert (Hlen : length (fw_pattern n st) = n) by (apply Nat2Z.inj, zlen_fw_pattern). split.
  - apply (fw_valid_iff n); [lia| |done|by rewrite Hlen].
    rewrite <- (pattern_equal n 2). apply host_pattern_bytes.
  - apply host_valid_iff. rewrite Hlen. symmetry. apply (pattern_equal n 2).
Qed.

Section frames.
Context (seq run_id : Z) (Hs : in_width 32 seq) (Hr : in_width 32 run_id).
Let f := raw_frame fw_pattern_fill seq run_id.

Lemma raw_frame_len : zlen f = TEST_RAW_TP__BUF_SIZE.
Proof. unfold f. by rewrite raw_frame_fw, !zlen_app, !zlen_le_bytes, zlen_fw_pattern. Qed.

Lemma raw_frame_ids spare own : frame_ids spare f own = (seq, run_id).
Proof.
  unfold frame_ids. rewrite raw_frame_len. change (sizeof_raw_tp_packet <=? TEST_RAW_TP__BUF_SIZE) with true. cbv iota.
  unfold f, le_at. rewrite raw_frame_fw.
  rewrite (zdrop_le0 0), <- !app_assoc, ztake_app_exact by (lia || by rewrite zlen_le_bytes).
  rewrite zdrop_app_exact by (by rewrite zlen_le_bytes). rewrite ztake_app_exact by (by rewrite zlen_le_bytes).
  rewrite !le_val_le_bytes, !wrap_id by done. done.
Qed.

Lemma raw_frame_valid : fw_raw_tp_pattern_valid f seq run_id = true /\ host_raw_tp_pattern_valid f seq run_id = true.
Proof.
  unfold fw_raw_tp_pattern_valid, host_raw_tp_pattern_valid. rewrite raw_frame_len.
  change (sizeof_raw_tp_packet <=? TEST_RAW_TP__BUF_SIZE) with true.
  unfold f. rewrite raw_frame_fw, zdrop_app_exact by (by rewrite zlen_app, !zlen_le_bytes).
  apply pattern_accepted. by apply raw_tp_pattern_seed_range.
Qed.
End frames.

(** A frame of the receiver's run is counted by its number. *)
Lemma host_takes_frame mode spare seq h :
  in_width 32 seq -> in_width 32 (host_raw_tp_run_id h) ->
  log_raw_tp_stats_timer_running h = true -> test_bit 1 mode = true ->
  update_test_raw_tp_rx_stats mode false spare (raw_frame fw_pattern_fill seq (host_raw_tp_run_id h)) h
  = h <| hr_rx := rx_seq TEST_RAW_TP__BUF_SIZE seq (hr_rx h) |>.
Proof.
  intros Hs Hr Ht Hm. unfold update_test_raw_tp_rx_stats. rewrite Ht, Hm, raw_frame_ids by done. cbn [negb orb].
  rewrite Z.eqb_refl, raw_frame_len, Z.eqb_refl, (proj2 (raw_frame_valid _ _ Hs)). done.
Qed.

Lemma fw_takes_frame spare seq r :
  in_width 32 seq -> in_width 32 (s_raw_tp_run_id r) -> h2e (raw_tp_active_type r) = true ->
  debug_update_raw_tp_rx_count spare (raw_frame host_pattern_fill seq (s_raw_tp_run_id r)) r
  = r <| raw_rx := rx_seq TEST_RAW_TP__BUF_SIZE seq (raw_rx r) |>.
Proof.
  intros Hs Hr Ha. unfold debug_update_raw_tp_rx_count. rewrite Ha, raw_frame_host, raw_frame_ids by done. cbn [negb orb].
  rewrite Z.eqb_refl, raw_frame_len, Z.eqb_refl, (proj1 (raw_frame_valid _ _ Hs)). done.
Qed.

Lemma rx_run_fields len qs s : rx_bad_payload (rx_run len qs s) = rx_bad_payload s.
Proof.
  revert s. induction qs as [|q qs IH]; intros s; [done|]. cbn. unfold rx_run in IH. rewrite IH.
  assert (Hp : forall s, rx_bad_payload (pass_expected s) = rx_bad_payload s).
  { intros s'. unfold pass_expected. generalize SLIDE_FUEL. intros k. change (rx_bad_payload s') with (rx_bad_payload (next_seq s')).
    generalize (next_seq s'). induction k as [|k IHk]; intros x; [done|]. cbn [slide]. destruct (_ =? 0); [done|].
    exact (IHk (shift_window (next_seq x))). }
  assert (Hf : forall n s, rx_bad_payload (flush_window n s) = rx_bad_payload s).
  { induction n as [|n IHn]; intros x; [done|]. cbn [flush_window].
    destruct (Z.land (rx_window x) 1 =? 0); exact (IHn _). }
  assert (Hg : forall q s, rx_bad_payload (wide_gap q s) = rx_bad_payload s).
  { intros y x. unfold wide_gap. transitivity (rx_bad_payload (next_seq (lose 1 x))); [|done]. rewrite <- (Hf 63%nat (next_seq (lose 1 x))).
    generalize (flush_window 63 (next_seq (lose 1 x))). intros z. unfold skip_gap. cbv zeta. by destruct (0 <? _). }
  assert (Hc : forall k q s, rx_bad_payload (catch_up k q s) = rx_bad_payload s).
  { induction k as [|k IHk]; intros y x; [done|]. cbn [catch_up]. destruct (_ <=? _); [|done]. by rewrite IHk, Hp. }
  unfold rx_seq. destruct (_ =? 0); [by rewrite Hp|]. destruct (0 <? _); [|done].
  unfold place. destruct (_ =? 0).
  - rewrite Hp. unfold advance. rewrite Hc. by destruct (_ <? _); [rewrite Hg|].
  - destruct (negb _); cbn; unfold advance; rewrite Hc; by destruct (_ <? _); [rewrite Hg|].
Qed.

(** ** Properties: runs *)


Definition demo_host : host_raw := process_test_capabilities ESP_TEST_RAW_TP_ESP_TO_HOST true
  (mk_hr 7 false false false false false false 0 0 0 0 0 rx_zero).
Definition demo_fw : raw_tp := raw_boot <| s_raw_tp_run_id := 7 |> <| raw_tp_active_type := 38 |>.



(** Two commands for runs towards the host, the second while the producer of the
    first has taken a number but not yet built its frame. *)
Definition env_ok : raw_env := mk_raw_env true ESP_OK false ESP_OK 0 true true 1.
Definition e2h_cmd (run : Z) : list Z := [19; 0; 4; 0; run; 0; 0; 0; run; 0; 0; 0].
Definition stale_trace : list revent :=
  [EBegin (e2h_cmd 1); ESetup env_ok; ECommit; ESend env_ok;
   EProducer 0 true; EProducer 0 true; EProducer 0 true; EProducer 0 true; EProducer 0 true;
   EBegin (e2h_cmd 2); ESetup env_ok; ECommit; EProducer 0 true; ESend env_ok; EProducer 0 true;
   EProducer 0 true; EProducer 0 true; EProducer 0 true; EProducer 0 true; EProducer 0 true; EProducer 0 true].

(** The producer takes its number and reads the run in two places, and
    [process_raw_tp] resets the numbers between runs without it: a frame numbered in
    the old run can go out as one of the new.  Over a perfect link the host then
    counts a duplicate. *)
Theorem raw_stale_number :
  exists s, rreach s /\ map fst (rs_sent s) = [(0, 1); (1, 2); (0, 2); (1, 2)]
  /\ rx_dup (rx_run TEST_RAW_TP__BUF_SIZE (map (fun f => f.1.1) (filter (fun f => f.1.2 = 2) (rs_sent s))) rx_zero) = 1.
Proof.
  assert (H : exists s, rrun stale_trace rs_boot = Some s /\ map fst (rs_sent s) = [(0, 1); (1, 2); (0, 2); (1, 2)]).
  { assert (H : option_map (fun s => map fst (rs_sent s)) (rrun stale_trace rs_boot) = Some [(0, 1); (1, 2); (0, 2); (1, 2)])
      by (vm_compute; reflexivity).
    destruct (rrun stale_trace rs_boot) as [s|]; [|discriminate H]. exists s. split; [reflexivity|]. by injection H. }
  destruct H as (s & Hrun & Hs). exists s. split; [apply (rrun_reach stale_trace rs_boot); [constructor|done]|]. split; [done|].
  assert (Hm : map (fun f : Z * Z * list Z => f.1.1) (filter (fun f => f.1.2 = 2) (rs_sent s)) = [1; 0; 1]).
  { assert (Hf : forall l : list (Z * Z * list Z), map (fun f => f.1.1) (filter (fun f => f.1.2 = 2) l)
      = map fst (filter (fun f : Z * Z => f.2 = 2) (map fst l))).
    { induction l as [|[[a b] f] l IH]; [done|]. cbn [map fst]. rewrite !filter_cons. cbn.
      destruct (decide (b = 2)); cbn; by rewrite IH. }
    rewrite Hf, Hs. reflexivity. }
  rewrite Hm. vm_compute. reflexivity.
Qed.
