(* ===== verification/MgmtTx.v ===== *)
(** * MgmtTx: management frames of the access point (firmware)

    The transmit path of management frames in [main/cmd.c]: the asynchronous
    transaction of a host that sets the marker ([s_hosted_mgmt], [hosted_mgmt_*],
    [process_mgmt_tx], [mgmt_txcb]) and the deferred response of an older host
    ([s_mgmt_tx_*], [mgmt_tx_*], [process_mgmt_tx_unmarked],
    [mgmt_txcb_unmarked]).

    Three tasks meet here: the command task, the Wi-Fi task that reports a frame
    as sent, and the timer task.  A function is cut at its critical sections and
    [mstep] interleaves the pieces.  The copy of the frame and the timer are
    heap objects: [frames] and [timers] are what is allocated, and freeing or
    using an object that is not allocated sets [fault].  The names of objects are
    never reused, so the name of the copy also names the transaction. *)
From S2P Require Import Prelude Wire RcpFw CmdQueue.

Definition ETH_ALEN : Z := 6.
Definition HOSTED_EVENT_MGMT_TX_STATUS : Z := 7.
Definition HOSTED_MGMT_HDR_LEN : Z := 24.
Definition HOSTED_MGMT_BODY_MATCH_LEN : Z := 16.
Definition sizeof_event_header : Z := 4.
Definition sizeof_mgmt_tx_status_event : Z := 20.
Definition sizeof_mgmt_tx_unmarked : Z := 20.
Definition WLAN_FC_STYPE_DISASSOC : Z := 10.
Definition WLAN_FC_STYPE_DEAUTH : Z := 12.
Definition WLAN_FC_STYPE_ACTION : Z := 13.

(** [memcmp(a + i, b + j, n) == 0]. *)
Definition same_bytes (i j n : Z) (a b : list Z) : bool :=
  bool_decide (ztake n (zdrop i a) = ztake n (zdrop j b)).

Definition broadcast_mac : list Z := replicate 6 0xFF.
Definition IS_BROADCAST_ADDR (a : list Z) : bool := same_bytes 0 0 ETH_ALEN a broadcast_mac.

(** [fixed_len] and [embedded_len] are [size_t]s. *)
Definition cmd_flex_len_valid (payload_len fixed_len embedded_len : Z) : bool :=
  (fixed_len <=? payload_len) && (embedded_len <=? payload_len - fixed_len).

(** ** Matching a frame the driver reports *)

Definition wlan_is_robust_mgmt_plain (frame : list Z) : bool :=
  if zlen frame <? HOSTED_MGMT_HDR_LEN then false
  else
    let stype := Z.land (Z.shiftr (byte_at 0 frame) 4) 0xf in
    if (stype =? WLAN_FC_STYPE_DEAUTH) || (stype =? WLAN_FC_STYPE_DISASSOC) then true
    else if negb (stype =? WLAN_FC_STYPE_ACTION) || (zlen frame <? HOSTED_MGMT_HDR_LEN + 1) then false
    else negb (bool_decide (byte_at HOSTED_MGMT_HDR_LEN frame ∈ [4; 7; 11; 15; 20; 21; 22; 127])).

(** [hosted_mgmt_frame_matches_locked], past the test of [pending]. *)
Definition hosted_mgmt_frame_matches (reference candidate : list Z) : bool :=
  if (zlen reference <? HOSTED_MGMT_HDR_LEN) || (zlen candidate <? HOSTED_MGMT_HDR_LEN) then false
  else if negb (byte_at 0 candidate =? byte_at 0 reference) || negb (same_bytes 4 4 18 candidate reference) then false
  else if test_bit 6 (byte_at 1 candidate) && wlan_is_robust_mgmt_plain reference then true
  else
    let body_len := Z.min (zlen reference - HOSTED_MGMT_HDR_LEN) HOSTED_MGMT_BODY_MATCH_LEN in
    if zlen candidate <? HOSTED_MGMT_HDR_LEN + body_len then false
    else same_bytes HOSTED_MGMT_HDR_LEN HOSTED_MGMT_HDR_LEN body_len candidate reference.

(** [data] as reported, or behind the 8-byte prefix of the newer chips. *)
Definition hosted_mgmt_data_matches (reference data : list Z) : bool :=
  hosted_mgmt_frame_matches reference data
  || ((8 <? zlen data) && hosted_mgmt_frame_matches reference (zdrop 8 data)).

(** ** State *)

(** [struct hosted_mgmt_status_state]. *)
Record mgmt_state := mk_mgmt {
  m_pending : bool;
  m_accepted : bool;
  m_completed : bool;
  m_ack : bool;
  m_report_status : bool;
  m_cookie : Z;
  m_frame : nat;
  m_frame_len : Z;
  m_timer : nat
}.
#[export] Instance eta_mgmt : Eta mgmt_state := fun h =>
  mk_mgmt (m_pending h) (m_accepted h) (m_completed h) (m_ack h) (m_report_status h) (m_cookie h)
    (m_frame h) (m_frame_len h) (m_timer h).
(** [memset(&s_hosted_mgmt, 0, sizeof(s_hosted_mgmt))]. *)
Definition mgmt_zero : mgmt_state := mk_mgmt false false false false false 0 0 0 0.

(** The unmarked transaction ([s_mgmt_tx_*]). *)
Record legacy_state := mk_legacy {
  l_pending : bool;
  l_seq : Z;
  l_da : list Z;
  l_token_valid : bool
}.
#[export] Instance eta_legacy : Eta legacy_state := fun l =>
  mk_legacy (l_pending l) (l_seq l) (l_da l) (l_token_valid l).

(** What a task owns once it has taken a transaction out of [s_hosted_mgmt]. *)
Record owned := mk_owned {
  o_cookie : Z;
  o_frame : nat;
  o_len : Z;
  o_ack : bool;
  o_report : bool;
  o_timer : nat
}.
#[export] Instance eta_owned : Eta owned := fun o =>
  mk_owned (o_cookie o) (o_frame o) (o_len o) (o_ack o) (o_report o) (o_timer o).

(** A status event queued for the host, and the transaction it is about
    ([None]: a frame that is not tracked). *)
Record mgmt_status := mk_status {
  st_tid : option nat;
  st_cookie : Z;
  st_ack : bool;
  st_frame : list Z
}.

Record mgmt_world := mk_world {
  hm : mgmt_state;
  draining : bool;
  cb_owned : bool;
  legacy : legacy_state;
  frames : gmap nat (list Z);        (* copies of frames, allocated *)
  timers : gmap nat bool;            (* timers, allocated; is it running? *)
  fresh : nat;
  fault : bool;
  restarted : bool;                  (* esp_restart has been called *)
  accepts : list (Z * Z);            (* marked responses queued: status, seq *)
  legacy_done : list (Z * list Z * Z);  (* unmarked responses queued: status, frame, seq *)
  statuses : list mgmt_status;
  air : list (list Z);               (* frames given to ieee80211_send_mgmt_internal *)
  reported : list (list Z * bool);   (* what the driver reported: data, success *)
  begun : gmap nat (Z * list Z);     (* every transaction: its cookie and frame *)
  promised : list nat                (* transactions accepted with success *)
}.
#[export] Instance eta_world : Eta mgmt_world := fun m =>
  mk_world (hm m) (draining m) (cb_owned m) (legacy m) (frames m) (timers m) (fresh m) (fault m)
    (restarted m) (accepts m) (legacy_done m) (statuses m) (air m) (reported m) (begun m) (promised m).

Definition world0 : mgmt_world :=
  mk_world mgmt_zero false false (mk_legacy false 0 (replicate 6 0) false) ∅ ∅ 1 false false [] [] [] [] [] ∅ [].

(** ** Heap and timers *)
Definition free_frame (f : nat) (m : mgmt_world) : mgmt_world :=
  match frames m !! f with
  | Some _ => m <| frames := delete f (frames m) |>
  | None => m <| fault := true |>
  end.

(** [xTimerStop] and [xTimerDelete] with no wait: each is a message to the timer
    task, lost when that task's queue is full. *)
Definition timer_stop (ok : bool) (t : nat) (m : mgmt_world) : mgmt_world :=
  match timers m !! t with
  | Some _ => if ok then m <| timers := <[t := false]> (timers m) |> else m
  | None => m <| fault := true |>
  end.
Definition timer_delete (ok : bool) (t : nat) (m : mgmt_world) : mgmt_world :=
  match timers m !! t with
  | Some _ => if ok then m <| timers := delete t (timers m) |> else m
  | None => m <| fault := true |>
  end.

(** ** Messages to the host *)

(** [hosted_send_mgmt_accept]: [ok] is whether the buffer was allocated and queued;
    the payload is the zeroed [struct cmd_mgmt_tx] below. *)
Definition mgmt_accept_bytes (status seq : Z) : list Z :=
  [cmd_num CMD_MGMT_TX; status; 0; 0] ++ le_bytes 2 seq ++ [HOSTED_MGMT_TX_ASYNC_STATUS_V1; 0]
  ++ replicate 20 0.
Definition hosted_send_mgmt_accept (alloc ok : bool) (status seq : Z) (m : mgmt_world) : Z * mgmt_world :=
  if negb alloc then (ESP_ERR_NO_MEM, m)
  else if negb ok then (ESP_FAIL, m)
  else (ESP_OK, m <| accepts := accepts m ++ [(status, seq)] |>).

Definition mgmt_status_bytes (ack : bool) (frame : list Z) (cookie : Z) : list Z :=
  [HOSTED_EVENT_MGMT_TX_STATUS; 0]
  ++ le_bytes 2 (u16 (sizeof_mgmt_tx_status_event + zlen frame) - sizeof_event_header)
  ++ le_bytes 8 cookie ++ le_bytes 4 (zlen frame) ++ [if ack then 1 else 0; 0; 0; 0] ++ frame.

(** [ok1], [ok2]: the event queued at the first attempt, or 10 ms later. *)
Record status_env := mk_status_env { sx_alloc : bool; sx_ok1 : bool; sx_ok2 : bool }.

Definition hosted_send_mgmt_status (e : status_env) (tid : option nat) (ack : bool) (frame : list Z)
    (frame_len cookie : Z) (m : mgmt_world) : Z * mgmt_world :=
  if (cookie =? 0) || (frame_len =? 0) || (65535 - sizeof_mgmt_tx_status_event <? frame_len)
  then (ESP_ERR_INVALID_ARG, m)
  else if negb (sx_alloc e) then (ESP_FAIL, m)
  else if sx_ok1 e || sx_ok2 e
  then (ESP_OK, m <| statuses := statuses m ++ [mk_status tid cookie ack (ztake frame_len frame)] |>)
  else (ESP_FAIL, m).

(** ** The marked transaction *)

Definition owned_of (h : mgmt_state) : owned :=
  mk_owned (m_cookie h) (m_frame h) (m_frame_len h) (m_ack h) (m_report_status h) (m_timer h).

Definition clear_mgmt (m : mgmt_world) : mgmt_world := m <| hm := mgmt_zero |>.

Definition hosted_mgmt_take (m : mgmt_world) : option owned * mgmt_world :=
  if m_pending (hm m) then (Some (owned_of (hm m)), clear_mgmt m) else (None, m).

Definition hosted_mgmt_take_timeout (m : mgmt_world) : option owned * mgmt_world :=
  if m_pending (hm m) then (Some (owned_of (hm m)), clear_mgmt (m <| draining := true |>)) else (None, m).

(** What [hosted_mgmt_finish_owned] meets: its two timer messages, the status. *)
Record finish_env := mk_finish_env { fx_stop : bool; fx_delete : bool; fx_status : status_env }.

(** The C function takes the outcome and whether to report it as arguments: here
    they are in [o].  Everything it touches belongs to the caller alone. *)
Definition hosted_mgmt_finish_owned (e : finish_env) (o : owned) (m : mgmt_world) : mgmt_world :=
  let m := timer_delete (fx_delete e) (o_timer o) (timer_stop (fx_stop e) (o_timer o) m) in
  let frame := default [] (frames m !! o_frame o) in
  let '(ret, m) :=
    if o_report o
    then hosted_send_mgmt_status (fx_status e) (Some (o_frame o)) (o_ack o) frame (o_len o) (o_cookie o) m
    else (ESP_OK, m) in
  let m := free_frame (o_frame o) m in
  if o_report o && negb (ret =? ESP_OK) then m <| restarted := true |> else m.

(** [copy_ok], [timer_ok]: its allocations; [del_ok]: its message to the timer task. *)
Definition hosted_mgmt_begin (copy_ok timer_ok del_ok : bool) (cookie : Z) (frame : list Z) (report : bool)
    (m : mgmt_world) : Z * mgmt_world :=
  if negb copy_ok then (ESP_ERR_NO_MEM, m)
  else if negb timer_ok then (ESP_ERR_NO_MEM, m)
  else
    let copy := fresh m in let timer := S (fresh m) in
    let m := m <| frames := <[copy := frame]> (frames m) |> <| timers := <[timer := false]> (timers m) |>
               <| fresh := S timer |> in
    if m_pending (hm m) || draining m then
      (ESP_ERR_INVALID_STATE, free_frame copy (timer_delete del_ok timer m))
    else
      (ESP_OK, m <| hm := mk_mgmt true false false false report cookie copy (zlen frame) timer |>
                 <| begun := <[copy := (cookie, frame)]> (begun m) |>).

(** ** The unmarked transaction *)

Definition mgmt_tx_hdr_matches (frame da : list Z) : bool :=
  (ETH_ALEN + 4 <=? zlen frame) && same_bytes 4 0 ETH_ALEN frame da.

Definition mgmt_tx_store_token (frame : list Z) (l : legacy_state) : legacy_state :=
  let l := l <| l_token_valid := false |> <| l_da := replicate 6 0 |> in
  if zlen frame <? ETH_ALEN + 4 then l
  else l <| l_da := ztake ETH_ALEN (zdrop 4 frame) |> <| l_token_valid := true |>.

Definition mgmt_tx_token_matches (data : list Z) (l : legacy_state) : bool :=
  l_token_valid l
  && (mgmt_tx_hdr_matches data (l_da l) || ((8 <? zlen data) && mgmt_tx_hdr_matches (zdrop 8 data) (l_da l))).

Definition mgmt_tx_inflight_begin (seq : Z) (frame : list Z) (l : legacy_state) : bool * legacy_state :=
  if l_pending l then (false, l)
  else (true, mgmt_tx_store_token frame (l <| l_pending := true |> <| l_seq := seq |>)).

Definition mgmt_tx_inflight_take (l : legacy_state) : option Z * legacy_state :=
  (if l_pending l then Some (l_seq l) else None, l <| l_pending := false |> <| l_token_valid := false |>).

Definition mgmt_tx_inflight_take_matching (data : list Z) (l : legacy_state) : option Z * legacy_state :=
  if l_pending l && mgmt_tx_token_matches data l
  then (Some (l_seq l), l <| l_pending := false |> <| l_token_valid := false |>)
  else (None, l).

(** [ok]: allocated and queued. *)
Definition send_mgmt_tx_done (ok : bool) (status : Z) (data : list Z) (seq : Z) (m : mgmt_world) : Z * mgmt_world :=
  if 65535 - sizeof_mgmt_tx <? zlen data then (ESP_ERR_INVALID_ARG, m)
  else if negb ok then (ESP_FAIL, m)
  else (ESP_OK, m <| legacy_done := legacy_done m ++ [(status, data, seq)] |>).

Definition mgmt_tx_fail_pending (ok : bool) (m : mgmt_world) : mgmt_world :=
  let '(seq, l) := mgmt_tx_inflight_take (legacy m) in
  let m := m <| legacy := l |> in
  match seq with
  | None => m
  | Some seq => (send_mgmt_tx_done ok (resp_num CMD_RESPONSE_FAIL) [] seq m).2
  end.

(** [prefix] is [TX_DONE_PREFIX]; [copy_ok], [ok1], [ok2]: the copy of the frame and
    the two attempts to answer. *)
Definition txcb_frame (prefix : Z) (data : list Z) (l : legacy_state) : option (list Z) :=
  if (ETH_ALEN + 4 <=? zlen data) && mgmt_tx_hdr_matches data (l_da l) then Some data
  else if (8 <? zlen data) && mgmt_tx_hdr_matches (zdrop 8 data) (l_da l) then Some (zdrop 8 data)
  else if prefix + ETH_ALEN + 4 <=? zlen data then Some (zdrop prefix data)
  else None.

Definition mgmt_txcb_unmarked (prefix : Z) (copy_ok ok1 ok2 : bool) (data : list Z) (success : bool)
    (m : mgmt_world) : mgmt_world :=
  let frame := default [] (txcb_frame prefix data (legacy m)) in
  if (ETH_ALEN + 4 <=? zlen frame) && IS_BROADCAST_ADDR (zdrop 4 frame) then m
  else
    let '(seq, l) := mgmt_tx_inflight_take_matching data (legacy m) in
    let m := m <| legacy := l |> in
    match seq with
    | None => m
    | Some seq =>
        if (ETH_ALEN + 4 <=? zlen frame) && copy_ok then
          let status := if success then CMD_RESPONSE_SUCCESS else CMD_RESPONSE_FAIL in
          let '(ret, m) := send_mgmt_tx_done ok1 (resp_num status) frame seq m in
          if negb (ret =? ESP_OK) then (send_mgmt_tx_done ok2 (resp_num CMD_RESPONSE_FAIL) [] seq m).2 else m
        else (send_mgmt_tx_done ok2 (resp_num CMD_RESPONSE_FAIL) [] seq m).2
    end.

(** ** The command task *)

(** [reg]: the code of [pp_register_tx_cb]. *)
Definition mgmt_tx_ensure_cb (reg : Z) (m : mgmt_world) : Z * mgmt_world :=
  if cb_owned m then (ESP_OK, m)
  else if negb (reg =? 0) then (reg, m <| cb_owned := false |>)
  else (ESP_OK, m <| cb_owned := true |>).

(** A management frame to send: its cookie, the frame, the command's sequence
    number, whether its completion is tracked, and then the name of its
    transaction. *)
Record mgmt_req := mk_req { q_cookie : Z; q_frame : list Z; q_seq : Z; q_track : bool; q_tid : nat }.
#[export] Instance eta_req : Eta mgmt_req := fun q =>
  mk_req (q_cookie q) (q_frame q) (q_seq q) (q_track q) (q_tid q).

Inductive mgmt_verdict :=
  | MReject (status seq : Z)
  | MUnmarked
  | MGo (q : mgmt_req).

(** The head of [process_mgmt_tx], to the end of its first critical section. *)
Definition process_mgmt_tx_check (softap_started : bool) (active_cmd_seq if_type : Z) (payload : list Z)
    (m : mgmt_world) : mgmt_verdict :=
  if zlen payload <? sizeof_mgmt_tx then MReject (resp_num CMD_RESPONSE_INVALID) active_cmd_seq
  else if negb (hdr_reserved1 payload =? HOSTED_MGMT_TX_ASYNC_STATUS_V1) then MUnmarked
  else
    let seq := hdr_seq payload in
    let frame_len := le_at 4 24 payload in
    let cookie := le_at 8 16 payload in
    let cookie := if cookie =? 0 then seq else cookie in
    if negb (cmd_flex_len_valid (zlen payload) sizeof_mgmt_tx frame_len) || (frame_len <? HOSTED_MGMT_HDR_LEN)
    then MReject (resp_num CMD_RESPONSE_INVALID) seq
    else if negb (if_type =? if_code ESP_AP_IF) || negb softap_started
    then MReject (resp_num CMD_RESPONSE_INVALID) seq
    else if draining m || m_pending (hm m) then MReject (resp_num CMD_RESPONSE_BUSY) seq
    else
      let buf := ztake frame_len (zdrop sizeof_mgmt_tx payload) in
      let broadcast := IS_BROADCAST_ADDR (zdrop 4 buf) in
      MGo (mk_req cookie buf seq (negb broadcast && (byte_at 15 payload =? 0)) 0).

(** The head of [process_mgmt_tx_unmarked]: answered, or begun. *)
Definition process_mgmt_tx_unmarked_begin (softap_started : bool) (active_cmd_seq if_type : Z)
    (payload : list Z) (reg : Z) (m : mgmt_world) : option (Z * Z) * option (Z * list Z) * mgmt_world :=
  if zlen payload <? sizeof_mgmt_tx_unmarked
  then (Some (resp_num CMD_RESPONSE_INVALID, active_cmd_seq), None, m)
  else
    let seq := hdr_seq payload in
    let frame_len := le_at 4 16 payload in
    if negb (cmd_flex_len_valid (zlen payload) sizeof_mgmt_tx_unmarked frame_len) || (frame_len <? 10)
    then (Some (resp_num CMD_RESPONSE_INVALID, seq), None, m)
    else if negb (if_type =? if_code ESP_AP_IF) || negb softap_started
    then (Some (resp_num CMD_RESPONSE_INVALID, seq), None, m)
    else
      let '(ret, m) := mgmt_tx_ensure_cb reg m in
      if negb (ret =? ESP_OK) then (Some (resp_num CMD_RESPONSE_FAIL, seq), None, m)
      else
        let buf := ztake frame_len (zdrop sizeof_mgmt_tx_unmarked payload) in
        let '(ok, l) := mgmt_tx_inflight_begin seq buf (legacy m) in
        if negb ok then (Some (resp_num CMD_RESPONSE_BUSY, seq), None, m)
        else (None, Some (seq, buf), m <| legacy := l |>).

(** The rest, with [ret] the code of [ieee80211_send_mgmt_internal]. *)
Definition process_mgmt_tx_unmarked_end (ret : Z) (ok : bool) (seq : Z) (buf : list Z) (m : mgmt_world)
    : mgmt_world :=
  let m := m <| air := air m ++ [buf] |> in
  let untracked status :=
    (send_mgmt_tx_done ok (resp_num status) [] seq
       (m <| legacy := (mgmt_tx_inflight_take (legacy m)).2 |>)).2 in
  if negb (ret =? 0) then untracked CMD_RESPONSE_INVALID
  else if IS_BROADCAST_ADDR (zdrop 4 buf) then untracked CMD_RESPONSE_SUCCESS
  else m.

(** Where the command task stands: between which critical sections of
    [process_mgmt_tx], [hosted_mgmt_mark_accepted], [hosted_mgmt_abort_pending] and
    [hosted_mgmt_fail_pending].  [answer] is the response still to send. *)
Inductive cmd_pc :=
  | CIdle
  | CChecked (q : mgmt_req)
  | CBegun (q : mgmt_req)
  | CSent (q : mgmt_req)
  | CAccepted (q : mgmt_req)
  | CStart (q : mgmt_req) (timer : nat)
  | CMarkFail
  | CArmed (q : mgmt_req)
  | CDrop (silent : bool) (answer : option (Z * Z))
  | CFinish (o : owned) (answer : option (Z * Z))
  | CLegacy (seq : Z) (buf : list Z).
Inductive cb_pc :=
  | BIdle
  | BLook (data : list Z) (success : bool)
  | BFinish (o : owned).
Inductive tm_pc :=
  | TIdle
  | TFinish (o : owned).

(** Whether the response's buffer is allocated and queued. *)
Record reply_env := mk_reply_env { rx_alloc : bool; rx_ok : bool }.
Definition answer_with (e : reply_env) (status : COMMAND_RESPONSE_TYPE) (seq : Z) (m : mgmt_world) : mgmt_world :=
  (hosted_send_mgmt_accept (rx_alloc e) (rx_ok e) (resp_num status) seq m).2.
Definition answer_opt (e : reply_env) (a : option (Z * Z)) (m : mgmt_world) : mgmt_world :=
  match a with
  | Some (status, seq) => (hosted_send_mgmt_accept (rx_alloc e) (rx_ok e) status seq m).2
  | None => m
  end.

Definition cmd_begin (reg : Z) (copy_ok timer_ok del_ok : bool) (e : reply_env) (q : mgmt_req)
    (m : mgmt_world) : cmd_pc * mgmt_world :=
  let '(ret, m) := mgmt_tx_ensure_cb reg m in
  if negb (ret =? 0) then (CIdle, answer_with e CMD_RESPONSE_BUSY (q_seq q) m)
  else if q_track q then
    let q := q <| q_tid := fresh m |> in
    let '(ret, m) := hosted_mgmt_begin copy_ok timer_ok del_ok (q_cookie q) (q_frame q) true m in
    if negb (ret =? 0) then (CIdle, answer_with e CMD_RESPONSE_BUSY (q_seq q) m) else (CBegun q, m)
  else (CBegun q, m).

(** [hosted_mgmt_abort_pending] and [hosted_mgmt_fail_pending], first section. *)
Definition start_drop (silent : bool) (answer : option (Z * Z)) (m : mgmt_world) : cmd_pc * mgmt_world :=
  (CDrop silent answer, m <| draining := false |>).

(** [ret] is the code of [ieee80211_send_mgmt_internal]. *)
Definition cmd_submit (ret : Z) (e : reply_env) (q : mgmt_req) (m : mgmt_world) : cmd_pc * mgmt_world :=
  let m := m <| air := air m ++ [q_frame q] |> in
  if negb (ret =? 0) then
    if q_track q then start_drop true (Some (resp_num CMD_RESPONSE_BUSY, q_seq q)) m
    else (CIdle, answer_with e CMD_RESPONSE_BUSY (q_seq q) m)
  else (CSent q, m).

Definition cmd_accept (e : reply_env) (sx : status_env) (q : mgmt_req) (m : mgmt_world) : cmd_pc * mgmt_world :=
  let '(ret, m) := hosted_send_mgmt_accept (rx_alloc e) (rx_ok e) (resp_num CMD_RESPONSE_SUCCESS) (q_seq q) m in
  if negb (ret =? ESP_OK) then
    if q_track q then start_drop true None m else (CIdle, m)
  else if q_track q then (CAccepted q, m <| promised := promised m ++ [q_tid q] |>)
  else (CIdle, (hosted_send_mgmt_status sx None false (q_frame q) (zlen (q_frame q)) (q_cookie q) m).2).

(** The three parts of [hosted_mgmt_mark_accepted], and its failure path. *)
Definition is_current (q : mgmt_req) (m : mgmt_world) : bool :=
  m_pending (hm m) && (m_cookie (hm m) =? q_cookie q).
Definition cmd_mark_lookup (q : mgmt_req) (m : mgmt_world) : cmd_pc * mgmt_world :=
  (if is_current q m then CStart q (m_timer (hm m)) else CMarkFail, m).
Definition cmd_mark_start (ok : bool) (q : mgmt_req) (t : nat) (m : mgmt_world) : cmd_pc * mgmt_world :=
  match timers m !! t with
  | None => (CMarkFail, m <| fault := true |>)
  | Some _ => if ok then (CArmed q, m <| timers := <[t := true]> (timers m) |>) else (CMarkFail, m)
  end.
Definition cmd_mark_fail (m : mgmt_world) : cmd_pc * mgmt_world :=
  match hosted_mgmt_take m with
  | (Some o, m) => (CFinish (o <| o_ack := false |>) None, m)
  | (None, m) => (CIdle, m)
  end.
Definition cmd_mark_accept (q : mgmt_req) (m : mgmt_world) : cmd_pc * mgmt_world :=
  if is_current q m then
    let m := m <| hm := hm m <| m_accepted := true |> |> in
    if m_completed (hm m) then (CFinish (owned_of (hm m)) None, clear_mgmt m) else (CIdle, m)
  else (CIdle, m).

Definition cmd_drop (silent : bool) (answer : option (Z * Z)) (e : reply_env) (m : mgmt_world) : cmd_pc * mgmt_world :=
  match hosted_mgmt_take m with
  | (Some o, m) => (CFinish (o <| o_ack := false |> <| o_report := if silent then false else o_report o |>) answer, m)
  | (None, m) => (CIdle, answer_opt e answer m)
  end.
Definition cmd_finish (fe : finish_env) (o : owned) (answer : option (Z * Z)) (e : reply_env) (m : mgmt_world)
    : cmd_pc * mgmt_world :=
  (CIdle, answer_opt e answer (hosted_mgmt_finish_owned fe o m)).

(** ** The Wi-Fi task: [mgmt_txcb] *)

(** What the unmarked callback meets. *)
Record txcb_env := mk_txcb_env { tx_prefix : Z; tx_copy : bool; tx_ok1 : bool; tx_ok2 : bool }.

Definition cb_report (e : txcb_env) (data : list Z) (success : bool) (m : mgmt_world) : cb_pc * mgmt_world :=
  let m := m <| reported := reported m ++ [(data, success)] |> in
  if draining m then (BIdle, m <| draining := false |>)
  else if negb (m_pending (hm m))
  then (BIdle, mgmt_txcb_unmarked (tx_prefix e) (tx_copy e) (tx_ok1 e) (tx_ok2 e) data success m)
  else (BLook data success, m).

Definition cb_look (data : list Z) (success : bool) (m : mgmt_world) : cb_pc * mgmt_world :=
  if negb (m_pending (hm m)) then (BIdle, m)
  else match frames m !! m_frame (hm m) with
  | None => (BIdle, m <| fault := true |>)
  | Some reference =>
      if hosted_mgmt_data_matches reference data then
        if negb (m_accepted (hm m))
        then (BIdle, m <| hm := hm m <| m_completed := true |> <| m_ack := success |> |>)
        else (BFinish (owned_of (hm m) <| o_ack := success |>), clear_mgmt m)
      else (BIdle, m)
  end.

(** ** The timer task: [hosted_mgmt_timeout_cb] *)

(** Timer [t] expires; the callback does not look at which timer it is. *)
Definition tm_fire (t : nat) (m : mgmt_world) : tm_pc * mgmt_world :=
  match hosted_mgmt_take_timeout (m <| timers := <[t := false]> (timers m) |>) with
  | (Some o, m) => (TFinish (o <| o_ack := false |>), m)
  | (None, m) => (TIdle, m)
  end.
Definition tm_finish (fe : finish_env) (o : owned) (m : mgmt_world) : tm_pc * mgmt_world :=
  (TIdle, hosted_mgmt_finish_owned fe o m <| restarted := true |>).

(** ** Interleaving *)
Record mgmt_cfg := mk_mcfg { wd : mgmt_world; cp : cmd_pc; bp : cb_pc; tp : tm_pc }.

(** Answers of generic requests, and the end of an unmarked request's head. *)
Definition cmd_unmarked (softap : bool) (active if_type : Z) (payload : list Z) (reg : Z) (ok : bool)
    (m : mgmt_world) : cmd_pc * mgmt_world :=
  match process_mgmt_tx_unmarked_begin softap active if_type payload reg m with
  | (Some (status, seq), _, m) => (CIdle, (send_mgmt_tx_done ok status [] seq m).2)
  | (None, Some (seq, buf), m) => (CLegacy seq buf, m)
  | (None, None, m) => (CIdle, m)
  end.

Definition cmd_request (softap : bool) (active if_type : Z) (payload : list Z) (reg : Z) (ok : bool)
    (e : reply_env) (m : mgmt_world) : cmd_pc * mgmt_world :=
  match process_mgmt_tx_check softap active if_type payload m with
  | MReject status seq => (CIdle, answer_opt e (Some (status, seq)) m)
  | MUnmarked => cmd_unmarked softap active if_type payload reg ok m
  | MGo q => (CChecked q, m)
  end.

(** ** The command task alone *)

(** What the turns of one request meet. *)
Record turn_env := mk_turn_env {
  te_reg : Z;
  te_copy : bool;
  te_timer : bool;
  te_del : bool;
  te_send : Z;
  te_reply : reply_env;
  te_sx : status_env;
  te_start : bool;
  te_fe : finish_env;
  te_done : bool
}.

(** The turn from each point; at [CIdle] a request is over. *)
Definition cmd_turn (e : turn_env) (c : cmd_pc) (m : mgmt_world) : cmd_pc * mgmt_world :=
  match c with
  | CIdle => (CIdle, m)
  | CChecked q => cmd_begin (te_reg e) (te_copy e) (te_timer e) (te_del e) (te_reply e) q m
  | CBegun q => cmd_submit (te_send e) (te_reply e) q m
  | CSent q => cmd_accept (te_reply e) (te_sx e) q m
  | CAccepted q => cmd_mark_lookup q m
  | CStart q t => cmd_mark_start (te_start e) q t m
  | CMarkFail => cmd_mark_fail m
  | CArmed q => cmd_mark_accept q m
  | CDrop s a => cmd_drop s a (te_reply e) m
  | CFinish o a => cmd_finish (te_fe e) o a (te_reply e) m
  | CLegacy seq buf => (CIdle, process_mgmt_tx_unmarked_end (te_send e) (te_done e) seq buf m)
  end.

Fixpoint cmd_run (n : nat) (e : turn_env) (c : cmd_pc) (m : mgmt_world) : cmd_pc * mgmt_world :=
  match n with
  | O => (c, m)
  | S n => let '(c, m) := cmd_turn e c m in cmd_run n e c m
  end.

(** [process_mgmt_tx] and [hosted_mgmt_fail_pending] from call to return. *)
Definition MGMT_TURNS : nat := 9.
Definition process_mgmt_tx (e : turn_env) (softap : bool) (active if_type : Z) (payload : list Z)
    (m : mgmt_world) : cmd_pc * mgmt_world :=
  let '(c, m) := cmd_request softap active if_type payload (te_reg e) (te_done e) (te_reply e) m in
  cmd_run MGMT_TURNS e c m.
Definition hosted_mgmt_fail_pending (e : turn_env) (m : mgmt_world) : cmd_pc * mgmt_world :=
  let '(c, m) := start_drop false None m in cmd_run MGMT_TURNS e c m.

(** A timer may expire while its stop message still waits for the timer task, or
    after that message was lost.  [stale] says whether such an expiry can meet a
    transaction that is not its own. *)
Section Steps.
Variable stale : bool.

Inductive mstep : mgmt_cfg -> mgmt_cfg -> Prop :=
  | ms_request softap active it payload reg ok e m b t c' m' :
      cmd_request softap active it payload reg ok e m = (c', m') ->
      mstep (mk_mcfg m CIdle b t) (mk_mcfg m' c' b t)
  | ms_wifi_stop ok m b t :
      mstep (mk_mcfg m CIdle b t) (mk_mcfg (mgmt_tx_fail_pending ok (m <| cb_owned := false |>)) CIdle b t)
  | ms_fail_pending m b t c' m' :
      start_drop false None m = (c', m') -> mstep (mk_mcfg m CIdle b t) (mk_mcfg m' c' b t)
  | ms_begin reg c_ok t_ok d_ok e q m b t c' m' :
      cmd_begin reg c_ok t_ok d_ok e q m = (c', m') -> mstep (mk_mcfg m (CChecked q) b t) (mk_mcfg m' c' b t)
  | ms_submit ret e q m b t c' m' :
      cmd_submit ret e q m = (c', m') -> mstep (mk_mcfg m (CBegun q) b t) (mk_mcfg m' c' b t)
  | ms_accept e sx q m b t c' m' :
      cmd_accept e sx q m = (c', m') -> mstep (mk_mcfg m (CSent q) b t) (mk_mcfg m' c' b t)
  | ms_lookup q m b t c' m' :
      cmd_mark_lookup q m = (c', m') -> mstep (mk_mcfg m (CAccepted q) b t) (mk_mcfg m' c' b t)
  | ms_start ok q tm m b t c' m' :
      cmd_mark_start ok q tm m = (c', m') -> mstep (mk_mcfg m (CStart q tm) b t) (mk_mcfg m' c' b t)
  | ms_mark_fail m b t c' m' :
      cmd_mark_fail m = (c', m') -> mstep (mk_mcfg m CMarkFail b t) (mk_mcfg m' c' b t)
  | ms_mark_accept q m b t c' m' :
      cmd_mark_accept q m = (c', m') -> mstep (mk_mcfg m (CArmed q) b t) (mk_mcfg m' c' b t)
  | ms_drop silent a e m b t c' m' :
      cmd_drop silent a e m = (c', m') -> mstep (mk_mcfg m (CDrop silent a) b t) (mk_mcfg m' c' b t)
  | ms_finish fe o a e m b t c' m' :
      cmd_finish fe o a e m = (c', m') -> mstep (mk_mcfg m (CFinish o a) b t) (mk_mcfg m' c' b t)
  | ms_legacy ret ok seq buf m b t :
      mstep (mk_mcfg m (CLegacy seq buf) b t) (mk_mcfg (process_mgmt_tx_unmarked_end ret ok seq buf m) CIdle b t)
  | ms_report e data success m c t b' m' :
      cb_report e data success m = (b', m') -> mstep (mk_mcfg m c BIdle t) (mk_mcfg m' c b' t)
  | ms_look data success m c t b' m' :
      cb_look data success m = (b', m') -> mstep (mk_mcfg m c (BLook data success) t) (mk_mcfg m' c b' t)
  | ms_cb_finish fe o m c t :
      mstep (mk_mcfg m c (BFinish o) t) (mk_mcfg (hosted_mgmt_finish_owned fe o m) c BIdle t)
  | ms_fire tm m c b t' m' :
      timers m !! tm = Some true ->
      stale = true \/ m_pending (hm m) = false \/ m_timer (hm m) = tm ->
      tm_fire tm m = (t', m') -> mstep (mk_mcfg m c b TIdle) (mk_mcfg m' c b t')
  | ms_tm_finish fe o m c b t' m' :
      tm_finish fe o m = (t', m') -> mstep (mk_mcfg m c b (TFinish o)) (mk_mcfg m' c b t').

(** Nothing runs once the firmware restarts. *)
Inductive mreach : mgmt_cfg -> Prop :=
  | mr_start : mreach (mk_mcfg world0 CIdle BIdle TIdle)
  | mr_step c c' : mreach c -> restarted (wd c) = false -> mstep c c' -> mreach c'.
End Steps.

(** ** Ownership *)

(** Every transaction is owned by [s_hosted_mgmt] or by one task. *)
Definition hm_held (h : mgmt_state) : list owned := if m_pending h then [owned_of h] else [].
Definition cmd_held (c : cmd_pc) : list owned := match c with CFinish o _ => [o] | _ => [] end.
Definition cb_held (b : cb_pc) : list owned := match b with BFinish o => [o] | _ => [] end.
Definition tm_held (t : tm_pc) : list owned := match t with TFinish o => [o] | _ => [] end.
Definition task_held (c : mgmt_cfg) : list owned := cmd_held (cp c) ++ cb_held (bp c) ++ tm_held (tp c).
Definition held (c : mgmt_cfg) : list owned := hm_held (hm (wd c)) ++ task_held c.

Definition tids (l : list mgmt_status) : list nat := omap st_tid l.
#[global] Arguments tids : simpl never.
Definition acked (m : mgmt_world) (frame : list Z) : Prop :=
  exists data, (data, true) ∈ reported m /\ hosted_mgmt_data_matches frame data = true.

Record minv (m : mgmt_world) (H : list owned) : Prop := mk_minv {
  v_fault : fault m = false;
  v_nodup : NoDup (o_frame <$> H);
  v_frames : forall f, is_Some (frames m !! f) <-> f ∈ o_frame <$> H;
  v_tnodup : NoDup (o_timer <$> H);
  v_timers : forall o, o ∈ H -> is_Some (timers m !! o_timer o);
  v_fresh_f : forall f, is_Some (begun m !! f) -> (f < fresh m)%nat;
  v_fresh_t : forall t, is_Some (timers m !! t) -> (t < fresh m)%nat;
  v_begun : forall o, o ∈ H -> (exists fr, frames m !! o_frame o = Some fr /\
    begun m !! o_frame o = Some (o_cookie o, fr) /\ o_len o = zlen fr /\ (o_ack o = true -> acked m fr));
  v_st_nodup : NoDup (tids (statuses m));
  v_st : forall s t, s ∈ statuses m -> st_tid s = Some t ->
    begun m !! t = Some (st_cookie s, st_frame s) /\ (t ∉ o_frame <$> H) /\
    (st_ack s = true -> acked m (st_frame s));
  v_promised : forall t, t ∈ promised m ->
    restarted m = true \/ t ∈ tids (statuses m) \/
    (exists o, o ∈ H /\ o_frame o = t /\ o_report o = true)
}.

(** The transaction [q] is the pending one, not accepted, its timer not started. *)
Definition own_pending (m : mgmt_world) (q : mgmt_req) : Prop :=
  m_pending (hm m) = true /\ m_accepted (hm m) = false /\ m_frame (hm m) = q_tid q /\
  m_cookie (hm m) = q_cookie q /\ timers m !! m_timer (hm m) = Some false /\ m_report_status (hm m) = true.

Definition cmd_ok (m : mgmt_world) (c : cmd_pc) : Prop :=
  match c with
  | CIdle | CLegacy _ _ =>
      m_pending (hm m) = true -> m_accepted (hm m) = true /\ timers m !! m_timer (hm m) = Some true
  | CChecked _ | CFinish _ _ => m_pending (hm m) = false
  | CBegun q | CSent q =>
      if q_track q then own_pending m q /\ q_tid q ∉ promised m else m_pending (hm m) = false
  | CAccepted q => own_pending m q
  | CStart q t => own_pending m q /\ t = m_timer (hm m)
  | CMarkFail => True
  | CArmed q => m_pending (hm m) = true -> m_accepted (hm m) = false /\ m_frame (hm m) = q_tid q /\
                                          m_cookie (hm m) = q_cookie q /\ timers m !! m_timer (hm m) = Some true
  | CDrop silent _ => silent = true -> exists q, own_pending m q /\ q_tid q ∉ promised m
  end.
Definition cb_ok (m : mgmt_world) (b : cb_pc) : Prop :=
  match b with BLook data success => (data, success) ∈ reported m | _ => True end.

Definition MInv (c : mgmt_cfg) : Prop :=
  minv (wd c) (held c) /\ cmd_ok (wd c) (cp c) /\ cb_ok (wd c) (bp c).

(** ** The invariant *)

Lemma acked_mono m m' fr : (forall x, x ∈ reported m -> x ∈ reported m') -> acked m fr -> acked m' fr.
Proof. intros H (d & Hd & Hm). exists d. auto. Qed.

(** What the invariant reads of the world. *)
Definition same_books (m m' : mgmt_world) : Prop :=
  fault m' = fault m /\ frames m' = frames m /\ timers m' = timers m /\ begun m' = begun m /\
  fresh m' = fresh m /\ statuses m' = statuses m /\ promised m' = promised m /\
  restarted m' = restarted m /\ (forall x, x ∈ reported m -> x ∈ reported m').

Lemma minv_same m m' H : same_books m m' -> minv m H -> minv m' H.
Proof.
  intros (E1 & E2 & E3 & E4 & E5 & E6 & E7 & E9 & E8) []. split; rewrite ?E1, ?E2, ?E3, ?E4, ?E5, ?E6, ?E7, ?E9; try done.
  - intros o Ho. destruct (v_begun0 o Ho) as (fr & A1 & A2 & A3 & A4). exists fr. split_and!; try done.
    intros Ha. by apply (acked_mono m), A4.
  - intros s t Hs Ht. destruct (v_st0 s t Hs Ht) as (A1 & A2 & A3). split_and!; try done.
    intros Ha. by apply (acked_mono m), A3.
Qed.

Lemma same_restarted m m' : same_books m m' -> restarted m' = restarted m.
Proof. by intros (_ & _ & _ & _ & _ & _ & _ & ? & _). Qed.

Lemma same_books_refl m : same_books m m.
Proof. by split_and!. Qed.

Lemma minv_perm m H H' : H ≡ₚ H' -> minv m H -> minv m H'.
Proof.
  intros P []. split; try done.
  - by rewrite <- P.
  - intros f. by rewrite <- P.
  - by rewrite <- P.
  - intros o Ho. apply v_timers0. by rewrite P.
  - intros o Ho. apply v_begun0. by rewrite P.
  - intros s t Hs Ht. rewrite <- P. by apply v_st0.
  - intros t Ht. destruct (v_promised0 t Ht) as [?|[?|(o & Ho & ?)]]; auto.
    right; right. exists o. by rewrite <- P.
Qed.

(** Handing a transaction over with another outcome. *)
Lemma minv_outcome m o o' H :
  o_frame o' = o_frame o -> o_cookie o' = o_cookie o -> o_len o' = o_len o -> o_timer o' = o_timer o ->
  (o_ack o' = true -> forall fr, frames m !! o_frame o = Some fr -> acked m fr) ->
  o_report o' = o_report o \/ o_frame o ∉ promised m ->
  minv m (o :: H) -> minv m (o' :: H).
Proof.
  intros Ef Ec El Et Ha Hr []. split; csimpl in *; rewrite ?Ef, ?Et; try done.
  - intros x [->|Hx]%elem_of_cons; [rewrite Et|]; apply v_timers0; set_solver.
  - intros x [->|Hx]%elem_of_cons; [|apply v_begun0; set_solver].
    rewrite Ef, Ec, El. destruct (v_begun0 o) as (fr & A1 & A2 & A3 & A4); [set_solver|].
    exists fr. split_and!; auto.
  - intros t Ht. destruct (v_promised0 t Ht) as [?|[?|(x & Hx & Ex & Ep)]]; auto.
    right; right. apply elem_of_cons in Hx as [->|Hx]; [|exists x; set_solver].
    exists o'. split_and!; [set_solver|congruence|]. destruct Hr as [->|Hr]; [done|]. by subst.
Qed.

Lemma tids_app l1 l2 : tids (l1 ++ l2) = tids l1 ++ tids l2.
Proof. apply omap_app. Qed.

Lemma tids_in t l : t ∈ tids l <-> exists s, s ∈ l /\ st_tid s = Some t.
Proof. unfold tids. rewrite list_elem_of_omap. done. Qed.

(** [hosted_mgmt_finish_owned] gives back both objects and settles the status. *)
Lemma finish_status e o fr m H :
  minv m (o :: H) -> frames m !! o_frame o = Some fr -> restarted m = false ->
  forall ret m1,
  (if o_report o
   then hosted_send_mgmt_status e (Some (o_frame o)) (o_ack o) fr (o_len o) (o_cookie o) m
   else (ESP_OK, m)) = (ret, m1) ->
  m1 = m /\ (o_report o = false \/ ret <> ESP_OK) \/
  ret = ESP_OK /\ o_report o = true /\
  m1 = m <| statuses := statuses m ++ [mk_status (Some (o_frame o)) (o_cookie o) (o_ack o) (ztake (o_len o) fr)] |>.
Proof.
  intros Hi Hf Hr ret m1. unfold hosted_send_mgmt_status.
  destruct (o_report o); [|intros [= <- <-]; left; auto].
  destruct (_ || _ || _); [intros [= <- <-]; left; auto|].
  destruct (sx_alloc e); cbn [negb]; [|intros [= <- <-]; left; auto].
  destruct (sx_ok1 e || sx_ok2 e); intros [= <- <-]; auto.
Qed.

Lemma timers_keep m e1 e2 o H : minv m (o :: H) ->
  exists ts, timer_delete e1 (o_timer o) (timer_stop e2 (o_timer o) m) = m <| timers := ts |> /\
  (forall t, t <> o_timer o -> ts !! t = timers m !! t) /\ (forall t, is_Some (ts !! t) -> is_Some (timers m !! t)).
Proof.
  intros Hi. destruct (v_timers _ _ Hi o) as [b Hb]; [set_solver|].
  exists (let ts := if e2 then <[o_timer o := false]> (timers m) else timers m in
     if e1 then delete (o_timer o) ts else ts).
  split; [|split].
  - unfold timer_stop, timer_delete. rewrite Hb.
    destruct e2, e1; cbn [timers update]; rewrite ?Hb, ?lookup_insert_eq; by destruct m.
  - intros t Ht. destruct e2, e1; cbn; by rewrite ?lookup_delete_ne, ?lookup_insert_ne.
  - intros t. destruct (decide (t = o_timer o)) as [->|]; [rewrite Hb; eauto|].
    destruct e2, e1; cbn; by rewrite ?lookup_delete_ne, ?lookup_insert_ne.
Qed.

(** What else the finish leaves alone. *)
Definition finish_keeps (o : owned) (m m' : mgmt_world) : Prop :=
  hm m' = hm m /\ reported m' = reported m /\ promised m' = promised m /\
  (forall t, t <> o_timer o -> timers m' !! t = timers m !! t).

(** Its books afterwards: the objects gone, the status added or the firmware doomed. *)
Definition finish_books (o : owned) (fr : list Z) (m m2 : mgmt_world) : Prop :=
  frames m2 = delete (o_frame o) (frames m) /\ begun m2 = begun m /\ fresh m2 = fresh m /\ fault m2 = false /\
  reported m2 = reported m /\ promised m2 = promised m /\
  (forall t, t <> o_timer o -> timers m2 !! t = timers m !! t) /\
  (forall t, is_Some (timers m2 !! t) -> is_Some (timers m !! t)) /\
  (statuses m2 = statuses m /\ (restarted m2 = true \/ o_report o = false) \/
   statuses m2 = statuses m ++ [mk_status (Some (o_frame o)) (o_cookie o) (o_ack o) fr]).

Lemma finish_books_st o fr m m2 H s t :
  minv m (o :: H) -> finish_books o fr m m2 -> begun m !! o_frame o = Some (o_cookie o, fr) ->
  (o_ack o = true -> acked m fr) -> s ∈ statuses m2 -> st_tid s = Some t ->
  begun m !! t = Some (st_cookie s, st_frame s) /\ (t ∉ o_frame <$> H) /\
  (st_ack s = true -> acked m (st_frame s)).
Proof.
  intros Hi (_ & _ & _ & _ & _ & _ & _ & _ & E) Hb Ha Hs Ht.
  assert (Hs' : s ∈ statuses m \/ s = mk_status (Some (o_frame o)) (o_cookie o) (o_ack o) fr).
  { destruct E as [[E _]| E]; rewrite E in Hs; [auto|]. rewrite elem_of_app, list_elem_of_singleton in Hs. tauto. }
  destruct Hs' as [Hs'| ->].
  - destruct (v_st _ _ Hi s t Hs' Ht) as (A1 & A2 & A3). csimpl in A2. split_and!; auto. set_solver.
  - injection Ht as <-. cbn. pose proof (v_nodup _ _ Hi) as Hn. csimpl in Hn. apply NoDup_cons in Hn as [Hn _].
    split_and!; auto.
Qed.

Lemma finish_books_inv o fr m m2 H :
  restarted m = false -> minv m (o :: H) -> finish_books o fr m m2 ->
  begun m !! o_frame o = Some (o_cookie o, fr) -> (o_ack o = true -> acked m fr) -> minv m2 H.
Proof.
  intros Hr Hi E Hb Ha. pose proof (fun s t => finish_books_st o fr m m2 H s t Hi E Hb Ha) as Hst.
  destruct E as (E1 & E2 & E3 & E4 & E5 & E6 & E7 & E8 & E9), Hi.
  csimpl in v_nodup0. apply NoDup_cons in v_nodup0 as [Hn1 Hn2].
  csimpl in v_tnodup0. apply NoDup_cons in v_tnodup0 as [Ht1 Ht2].
  assert (Hak : forall x, acked m x -> acked m2 x) by (intros x; apply acked_mono; by rewrite E5).
  split; rewrite ?E1, ?E2, ?E3; try done.
  - intros f. rewrite lookup_delete_is_Some, v_frames0. csimpl. rewrite elem_of_cons. split; [naive_solver|].
    intros Hf. split; [by intros <-|auto].
  - intros x Hx. rewrite E7; [apply v_timers0; set_solver|]. intros E. apply Ht1. rewrite <- E.
    by apply list_elem_of_fmap_2.
  - intros t Ht. apply v_fresh_t0, E8, Ht.
  - intros x Hx. destruct (v_begun0 x) as (fx & A1 & A2 & A3 & A4); [set_solver|]. exists fx.
    rewrite lookup_delete_ne; [by split_and!; auto|]. intros E. apply Hn1. rewrite E. by apply list_elem_of_fmap_2.
  - destruct E9 as [[-> _]| ->]; [done|]. rewrite tids_app. cbn. apply NoDup_app. split_and!; [done| |].
    + intros t (s & Hs & Et)%tids_in [->|[]%not_elem_of_nil]%elem_of_cons.
      destruct (v_st0 s _ Hs Et) as (_ & A & _). csimpl in A. set_solver.
    + apply NoDup_singleton.
  - intros s t Hs Ht. destruct (Hst s t Hs Ht) as (A1 & A2 & A3). split_and!; auto.
  - rewrite E6. intros t Ht. destruct (v_promised0 t Ht) as [?|[A|(x & Hx & Ex & Ep)]]; [congruence| |].
    + right; left. destruct E9 as [[-> _]| ->]; [done|]. rewrite tids_app. set_solver.
    + apply elem_of_cons in Hx as [->|Hx]; [|eauto 10].
      destruct E9 as [[_ [?|?]]| ->]; [auto|congruence|]. rewrite tids_app. right; left. cbn. set_solver.
Qed.

Lemma finish_inv e o m H :
  restarted m = false -> minv m (o :: H) ->
  minv (hosted_mgmt_finish_owned e o m) H /\ finish_keeps o m (hosted_mgmt_finish_owned e o m).
Proof.
  intros Hr Hi. unfold hosted_mgmt_finish_owned.
  destruct (timers_keep m (fx_delete e) (fx_stop e) o H Hi) as (ts & -> & Hts & Hin).
  destruct (v_begun _ _ Hi o) as (fr & Hfr & Hbg & Hlen & Hack); [set_solver|].
  change (frames (m <| timers := ts |>)) with (frames m). rewrite Hfr. change (default [] (Some fr)) with fr.
  assert (Hz : ztake (o_len o) fr = fr) by (rewrite Hlen; by apply ztake_ge).
  pose proof (v_fault _ _ Hi) as Hft.
  unfold hosted_send_mgmt_status. rewrite Hz.
  match goal with |- context [let '(_, _) := ?x in _] => set (r := x) end.
  assert (Hcase : (exists ret, r = (ret, m <| timers := ts |>) /\ (o_report o = false \/ ret <> ESP_OK)) \/
    o_report o = true /\ r = (ESP_OK, m <| timers := ts |>
      <| statuses := statuses m ++ [mk_status (Some (o_frame o)) (o_cookie o) (o_ack o) fr] |>)).
  { unfold r. destruct (o_report o); [|left; exists ESP_OK; auto].
    destruct (_ || _ || _); [left; exists ESP_ERR_INVALID_ARG; auto|].
    destruct (sx_alloc _); cbn [negb]; [|left; exists ESP_FAIL; auto].
    destruct (sx_ok1 _ || sx_ok2 _); [right; auto|left; exists ESP_FAIL; auto]. }
  assert (Hfree : forall x, frames x = frames m -> free_frame (o_frame o) x = x <| frames := delete (o_frame o) (frames m) |>).
  { intros x Hx. unfold free_frame. by rewrite Hx, Hfr. }
  destruct Hcase as [(ret & -> & Hret)|[Hrep ->]]; rewrite Hfree by done.
  - set (m2 := if _ && _ then _ else _).
    assert (Hb : finish_books o fr m m2 /\ finish_keeps o m m2).
    { unfold m2. destruct (o_report o && negb (ret =? ESP_OK)) eqn:Eb; (split; [|by split_and!]); split_and!; try done; left; split; auto.
      right. destruct Hret as [->|Hret]; [done|]. apply Z.eqb_neq in Hret. rewrite Hret, andb_true_r in Eb. done. }
    destruct Hb as [Hb Hk]. split; [by apply (finish_books_inv o fr m m2 H)|done].
  - rewrite Z.eqb_refl, andb_false_r. split; [|by split_and!]. apply (finish_books_inv o fr m _ H); auto.
    split_and!; try done. by right.
Qed.

(** What the command task relies on: the other tasks may set [completed] and [ack]. *)
Definition same_pending (m m' : mgmt_world) : Prop :=
  m_pending (hm m') = m_pending (hm m) /\ m_accepted (hm m') = m_accepted (hm m) /\
  m_frame (hm m') = m_frame (hm m) /\ m_cookie (hm m') = m_cookie (hm m) /\
  m_timer (hm m') = m_timer (hm m) /\ m_report_status (hm m') = m_report_status (hm m) /\
  promised m' = promised m /\
  (m_pending (hm m) = true -> timers m' !! m_timer (hm m) = timers m !! m_timer (hm m)).

Lemma own_pending_stable m m' q : same_pending m m' -> own_pending m q -> own_pending m' q.
Proof.
  intros (E1 & E2 & E3 & E4 & E5 & E6 & E7 & E8) (A1 & A2 & A3 & A4 & A5 & A6). unfold own_pending.
  rewrite E1, E2, E3, E4, E5, E6, E8 by done. by split_and!.
Qed.

Lemma cmd_ok_stable m m' c : same_pending m m' -> cmd_ok m c -> cmd_ok m' c.
Proof.
  intros Hs H. pose proof (own_pending_stable m m') as Ho.
  pose proof Hs as (E1 & E2 & E3 & E4 & E5 & E6 & E7 & E8).
  destruct c; cbn in *; rewrite ?E1, ?E2, ?E3, ?E4, ?E5, ?E7; try done.
  - intros Hp. rewrite E8 by done. auto.
  - destruct (q_track q); [destruct H; auto | done].
  - destruct (q_track q); [destruct H; auto | done].
  - auto.
  - destruct H. auto.
  - intros Hp. rewrite E8 by done. auto.
  - intros Hq. destruct (H Hq) as (q & ? & ?). exists q. auto.
  - intros Hp. rewrite E8 by done. auto.
Qed.

(** Another task may take the transaction once it is accepted or its timer runs. *)
Lemma cmd_ok_taken m m' c :
  hm m' = mgmt_zero -> m_pending (hm m) = true ->
  m_accepted (hm m) = true \/ timers m !! m_timer (hm m) = Some true -> cmd_ok m c -> cmd_ok m' c.
Proof.
  intros Hz Hp Ht H.
  assert (Hno : forall q, ~ own_pending m q) by (intros q (A1 & A2 & A3 & A4 & A5 & A6); destruct Ht; congruence).
  destruct c; cbn in *; rewrite ?Hz; cbn; try done.
  1,2: destruct (q_track q); [destruct H as [H _]; by apply Hno in H | done].
  - by apply Hno in H.
  - destruct H as [H _]. by apply Hno in H.
  - intros Hq. destruct (H Hq) as (q & H' & _). by apply Hno in H'.
Qed.

Lemma finish_same_pending o m m' H :
  minv m (o :: H) -> hm_held (hm m) ⊆ H -> finish_keeps o m m' -> same_pending m m'.
Proof.
  intros Hi Hsub (E1 & _ & E3 & E4). unfold same_pending. rewrite E1, E3. split_and!; try done.
  intros Hp. apply E4. intros E. pose proof (v_tnodup _ _ Hi) as Hn. csimpl in Hn.
  apply NoDup_cons in Hn as [Hn _]. apply Hn. rewrite <- E.
  change (m_timer (hm m)) with (o_timer (owned_of (hm m))). apply list_elem_of_fmap_2, Hsub.
  unfold hm_held. rewrite Hp. set_solver.
Qed.

Lemma minv_timer m H t b : is_Some (timers m !! t) -> minv m H -> minv (m <| timers := <[t := b]> (timers m) |>) H.
Proof.
  intros Ht []. split; cbn; try done.
  - intros o Ho. destruct (decide (t = o_timer o)) as [->|]; [rewrite lookup_insert_eq; eauto|].
    rewrite lookup_insert_ne by done. auto.
  - intros x Hx. destruct (decide (t = x)) as [->|]; [auto|]. rewrite lookup_insert_ne in Hx by done. auto.
Qed.

(** Steps that only send, or only touch the unmarked transaction. *)
Lemma send_done_books ok st d sq m : same_books m (send_mgmt_tx_done ok st d sq m).2 /\
  hm (send_mgmt_tx_done ok st d sq m).2 = hm m.
Proof. unfold send_mgmt_tx_done. by split_ifs; split_and!. Qed.

Lemma same_books_trans m1 m2 m3 : same_books m1 m2 -> same_books m2 m3 -> same_books m1 m3.
Proof.
  intros (A1 & A2 & A3 & A4 & A5 & A6 & A7 & A8 & A9) (B1 & B2 & B3 & B4 & B5 & B6 & B7 & B8 & B9).
  split_and!; [congruence..|]; auto.
Qed.

Definition quiet (m m' : mgmt_world) : Prop := same_books m m' /\ hm m' = hm m.

Lemma quiet_trans m1 m2 m3 : quiet m1 m2 -> quiet m2 m3 -> quiet m1 m3.
Proof. intros [A1 A2] [B1 B2]. split; [by eapply same_books_trans|congruence]. Qed.

Lemma quiet_done ok st d sq m : quiet m (send_mgmt_tx_done ok st d sq m).2.
Proof. apply send_done_books. Qed.

Lemma quiet_legacy l m : quiet m (m <| legacy := l |>).
Proof. by split_and!. Qed.

Lemma quiet_accept a ok st sq m : quiet m (hosted_send_mgmt_accept a ok st sq m).2.
Proof. unfold hosted_send_mgmt_accept. by split_ifs; split_and!. Qed.

Lemma quiet_answer e a m : quiet m (answer_opt e a m).
Proof. destruct a as [[st sq]|]; [apply quiet_accept|by split_and!]. Qed.

Lemma quiet_pending m m' : quiet m m' -> same_pending m m'.
Proof. intros [(A1 & A2 & A3 & A4 & A5 & A6 & A7 & A8 & A9) E]. unfold same_pending. rewrite E, A3, A7. by split_and!. Qed.

Lemma quiet_txcb p c o1 o2 d b m : quiet m (mgmt_txcb_unmarked p c o1 o2 d b m).
Proof.
  unfold mgmt_txcb_unmarked. destruct (_ && _); [by split_and!|].
  destruct (mgmt_tx_inflight_take_matching d (legacy m)) as [[sq|] l]; [|apply quiet_legacy].
  eapply quiet_trans; [apply quiet_legacy|]. destruct (_ && _); [|apply quiet_done].
  pose proof (quiet_done o1 (resp_num (if b then CMD_RESPONSE_SUCCESS else CMD_RESPONSE_FAIL))
    (default [] (txcb_frame p d (legacy m))) sq (m <| legacy := l |>)) as Q.
  destruct (send_mgmt_tx_done o1 _ _ _ _) as [ret m'] eqn:E. cbn in Q.
  destruct (negb _); [|done]. eapply quiet_trans; [exact Q|apply quiet_done].
Qed.

Lemma quiet_fail_pending ok m : quiet m (mgmt_tx_fail_pending ok m).
Proof.
  unfold mgmt_tx_fail_pending. destruct (mgmt_tx_inflight_take _) as [[sq|] l]; [|apply quiet_legacy].
  eapply quiet_trans; [apply quiet_legacy|apply quiet_done].
Qed.

Lemma quiet_unmarked_end ret ok sq buf m : quiet m (process_mgmt_tx_unmarked_end ret ok sq buf m).
Proof.
  unfold process_mgmt_tx_unmarked_end. apply (quiet_trans _ (m <| air := air m ++ [buf] |>)); [by split_and!|].
  split_ifs; try (by split_and!); (eapply quiet_trans; [apply quiet_legacy|apply quiet_done]).
Qed.

Lemma quiet_ensure reg m : quiet m (mgmt_tx_ensure_cb reg m).2.
Proof. unfold mgmt_tx_ensure_cb. by split_ifs; split_and!. Qed.

Lemma cb_ok_mono m m' b : (forall x, x ∈ reported m -> x ∈ reported m') -> cb_ok m b -> cb_ok m' b.
Proof. destruct b; cbn; auto. Qed.

Lemma MInv_quiet m m' c c' b t :
  quiet m m' -> cmd_held c' = cmd_held c -> cmd_ok m' c' -> MInv (mk_mcfg m c b t) -> MInv (mk_mcfg m' c' b t).
Proof.
  intros [Q E] Hh Hc (H1 & H2 & H3). split; [|split; [exact Hc|]].
  - unfold held, task_held in *. cbn in *. rewrite E, Hh. by apply (minv_same m).
  - cbn in *. eapply cb_ok_mono; [|exact H3]. apply Q.
Qed.

(** The command task is done: nothing is pending, or it was accepted before. *)
Lemma MInv_idle m m' c b t :
  MInv (mk_mcfg m c b t) -> quiet m m' -> cmd_held c = [] -> cmd_ok m CIdle -> MInv (mk_mcfg m' CIdle b t).
Proof.
  intros Hi Q Hc Hp. eapply MInv_quiet; [exact Q|by rewrite Hc| |exact Hi].
  eapply cmd_ok_stable; [by apply quiet_pending|done].
Qed.

(** The command task takes the pending transaction, with the outcome [f] of it. *)
Lemma MInv_cmd_take m c o' b t a :
  MInv (mk_mcfg m c b t) -> cmd_held c = [] -> m_pending (hm m) = true ->
  let o := owned_of (hm m) in
  o_frame o' = o_frame o -> o_cookie o' = o_cookie o -> o_len o' = o_len o -> o_timer o' = o_timer o ->
  (o_ack o' = true -> o_ack o = true) -> o_report o' = o_report o \/ m_frame (hm m) ∉ promised m ->
  MInv (mk_mcfg (clear_mgmt m) (CFinish o' a) b t).
Proof.
  intros (H1 & H2 & H3) Hc Hp o E1 E2 E3 E4 Ea Er. split; [|split; [done|exact H3]].
  unfold held, task_held, hm_held in *. cbn in *. rewrite Hp, Hc in H1. cbn in H1.
  apply (minv_same m); [by split_and!|]. apply (minv_outcome m o o'); try done.
  intros Ha fr Hf. destruct (v_begun _ _ H1 o) as (fr' & A1 & _ & _ & A4); [set_solver|].
  assert (fr' = fr) as -> by (cbn in *; congruence). auto.
Qed.

Lemma take_pending m : m_pending (hm m) = true -> hosted_mgmt_take m = (Some (owned_of (hm m)), clear_mgmt m).
Proof. unfold hosted_mgmt_take. by intros ->. Qed.
Lemma take_none m : m_pending (hm m) = false -> hosted_mgmt_take m = (None, m).
Proof. unfold hosted_mgmt_take. by intros ->. Qed.

Lemma check_go softap act it p m q : process_mgmt_tx_check softap act it p m = MGo q -> m_pending (hm m) = false.
Proof.
  unfold process_mgmt_tx_check. destruct (_ <? _); [done|]. destruct (negb _); [done|].
  cbv zeta. destruct (_ || _); [done|]. destruct (_ || _); [done|].
  destruct (draining m || m_pending (hm m)) eqn:E; [done|]. intros _. by bool_hyps.
Qed.

Lemma inv_request m b t softap act it p reg ok e c' m' :
  MInv (mk_mcfg m CIdle b t) -> cmd_request softap act it p reg ok e m = (c', m') -> MInv (mk_mcfg m' c' b t).
Proof.
  intros Hi. pose proof (proj1 (proj2 Hi)) as Hok. cbn in Hok.
  unfold cmd_request. destruct (process_mgmt_tx_check softap act it p m) as [st sq| |q] eqn:Ev.
  - intros [= <- <-]. eapply MInv_idle; [exact Hi|apply quiet_accept|done|done].
  - unfold cmd_unmarked, process_mgmt_tx_unmarked_begin.
    assert (Hq : forall m1, quiet m m1 -> forall ok st sq, MInv (mk_mcfg (send_mgmt_tx_done ok st [] sq m1).2 CIdle b t)).
    { intros m1 Q ok' st sq. eapply MInv_idle; [exact Hi| |done|done]. eapply quiet_trans; [exact Q|apply quiet_done]. }
    assert (Q0 : quiet m m) by by split_and!.
    destruct (_ <? _); [intros [= <- <-]; by apply Hq|].
    destruct (_ || _); [intros [= <- <-]; by apply Hq|].
    destruct (_ || _); [intros [= <- <-]; by apply Hq|].
    pose proof (quiet_ensure reg m) as Qe. destruct (mgmt_tx_ensure_cb reg m) as [ret m1]. cbn in Qe.
    destruct (negb _); [intros [= <- <-]; by apply Hq|].
    destruct (mgmt_tx_inflight_begin _ _ _) as [[] l]; cbn; [|intros [= <- <-]; by apply Hq].
    intros [= <- <-]. assert (Q' : quiet m (m1 <| legacy := l |>)) by (eapply quiet_trans; [exact Qe|apply quiet_legacy]).
    apply (MInv_quiet m _ CIdle); [exact Q'|done| |exact Hi].
    by apply (cmd_ok_stable m _ CIdle); [apply quiet_pending|].
  - intros [= <- <-]. apply (MInv_quiet m m CIdle); [by split_and!|done| |exact Hi]. by apply check_go in Ev.
Qed.

Lemma MInv_intro m c b t :
  minv m (hm_held (hm m) ++ cmd_held c ++ cb_held b ++ tm_held t) -> cmd_ok m c -> cb_ok m b -> MInv (mk_mcfg m c b t).
Proof. done. Qed.

Lemma promised_old m H t : restarted m = false -> minv m H -> t ∈ promised m -> (t < fresh m)%nat.
Proof.
  intros Hr Hi Ht. apply (v_fresh_f _ _ Hi).
  destruct (v_promised _ _ Hi t Ht) as [?|[(s & Hs & Es)%tids_in|(o & Ho & <- & _)]]; [congruence| |].
  - destruct (v_st _ _ Hi s t Hs Es) as (-> & _). eauto.
  - destruct (v_begun _ _ Hi o Ho) as (fr & _ & -> & _). eauto.
Qed.

Lemma frame_old m H o : minv m H -> o ∈ H -> (o_frame o < fresh m)%nat.
Proof. intros Hi Ho. apply (v_fresh_f _ _ Hi). destruct (v_begun _ _ Hi o Ho) as (fr & _ & -> & _). eauto. Qed.
Lemma timer_old m H o : minv m H -> o ∈ H -> (o_timer o < fresh m)%nat.
Proof. intros Hi Ho. by apply (v_fresh_t _ _ Hi), (v_timers _ _ Hi). Qed.

(** A transaction begins. *)
Lemma minv_begin m m' H cookie fr report :
  minv m H -> fault m' = false ->
  frames m' = <[fresh m := fr]> (frames m) -> timers m' = <[S (fresh m) := false]> (timers m) ->
  fresh m' = S (S (fresh m)) -> begun m' = <[fresh m := (cookie, fr)]> (begun m) ->
  statuses m' = statuses m -> promised m' = promised m -> reported m' = reported m -> restarted m' = restarted m ->
  minv m' (mk_owned cookie (fresh m) (zlen fr) false report (S (fresh m)) :: H).
Proof.
  intros Hi E0 E1 E2 E3 E4 E5 E6 E7 E8.
  assert (Hf := fun o => frame_old m H o Hi). assert (Ht := fun o => timer_old m H o Hi). destruct Hi.
  assert (Hak : forall x, acked m x -> acked m' x) by (intros x; apply acked_mono; by rewrite E7).
  split; rewrite ?E1, ?E2, ?E3, ?E4, ?E5, ?E6, ?E8; csimpl; try done.
  - apply NoDup_cons. split; [|done]. intros (o & E & Ho)%list_elem_of_fmap. specialize (Hf o Ho). lia.
  - intros f. rewrite elem_of_cons, lookup_insert_is_Some, v_frames0. destruct (decide (f = fresh m)); naive_solver.
  - apply NoDup_cons. split; [|done]. intros (o & E & Ho)%list_elem_of_fmap. specialize (Ht o Ho). lia.
  - intros o [->|Ho]%elem_of_cons; cbn; [rewrite lookup_insert_eq; eauto|].
    specialize (Ht o Ho). rewrite lookup_insert_ne by lia. auto.
  - intros f. destruct (decide (f = fresh m)) as [->|]; [lia|]. rewrite lookup_insert_ne by done.
    intros Hx. specialize (v_fresh_f0 _ Hx). lia.
  - intros t. destruct (decide (t = S (fresh m))) as [->|]; [lia|]. rewrite lookup_insert_ne by done.
    intros Hx. specialize (v_fresh_t0 _ Hx). lia.
  - intros o [->|Ho]%elem_of_cons; cbn; [exists fr; rewrite !lookup_insert_eq; by split_and!|].
    specialize (Hf o Ho). rewrite !lookup_insert_ne by lia.
    destruct (v_begun0 o Ho) as (x & A1 & A2 & A3 & A4). exists x. split_and!; auto.
  - intros s t Hs Es. destruct (v_st0 s t Hs Es) as (A1 & A2 & A3).
    assert (t < fresh m)%nat by (apply v_fresh_f0; eauto). rewrite lookup_insert_ne by lia. split_and!; auto.
    rewrite elem_of_cons. intros [?|?]; [lia|done].
  - intros t Hx. destruct (v_promised0 t Hx) as [?|[?|(o & Ho & ?)]]; auto. right; right. exists o. set_solver.
Qed.

(** An abandoned beginning leaves at most the timer behind. *)
Lemma minv_leak m H t ts : minv m H -> (forall x, x <> t -> ts !! x = timers m !! x) -> t = S (fresh m) ->
  minv (m <| timers := ts |> <| fresh := S t |>) H.
Proof.
  intros Hi Hts ->. assert (Ht := fun o => timer_old m H o Hi). destruct Hi. split; cbn; try done.
  - intros o Ho. specialize (Ht o Ho). rewrite Hts by lia. auto.
  - intros f Hf. specialize (v_fresh_f0 f Hf). lia.
  - intros x Hx. destruct (decide (x = S (fresh m))) as [->|]; [lia|]. rewrite Hts in Hx by done.
    specialize (v_fresh_t0 x Hx). lia.
Qed.

Definition begun_world (cookie : Z) (frame : list Z) (report : bool) (m : mgmt_world) : mgmt_world :=
  m <| frames := <[fresh m := frame]> (frames m) |> <| timers := <[S (fresh m) := false]> (timers m) |>
    <| fresh := S (S (fresh m)) |>
    <| hm := mk_mgmt true false false false report cookie (fresh m) (zlen frame) (S (fresh m)) |>
    <| begun := <[fresh m := (cookie, frame)]> (begun m) |>.

Lemma hosted_mgmt_begin_cases c_ok t_ok d_ok ck fr rep m :
  m_pending (hm m) = false -> frames m !! fresh m = None ->
  (exists ret ts, ret <> 0 /\ (forall x, x <> S (fresh m) -> ts !! x = timers m !! x) /\
     (hosted_mgmt_begin c_ok t_ok d_ok ck fr rep m = (ret, m) \/
      hosted_mgmt_begin c_ok t_ok d_ok ck fr rep m = (ret, m <| timers := ts |> <| fresh := S (S (fresh m)) |>))) \/
  hosted_mgmt_begin c_ok t_ok d_ok ck fr rep m = (0, begun_world ck fr rep m).
Proof.
  intros Hp Hf. unfold hosted_mgmt_begin.
  destruct c_ok; cbn [negb]; [|left; exists ESP_ERR_NO_MEM, (timers m); by auto].
  destruct t_ok; cbn [negb]; [|left; exists ESP_ERR_NO_MEM, (timers m); by auto].
  cbv zeta. match goal with |- context [m_pending (hm ?x)] => change (hm x) with (hm m); change (draining x) with (draining m) end.
  rewrite Hp. destruct (draining m); cbn [orb]; [|by right].
  left. exists ESP_ERR_INVALID_STATE, (let ts := <[S (fresh m) := false]> (timers m) in
    if d_ok then delete (S (fresh m)) ts else ts).
  split; [done|]. split.
  { intros x Hx. destruct d_ok; cbn; by rewrite ?lookup_delete_ne, ?lookup_insert_ne. }
  right. f_equal. unfold timer_delete, free_frame. cbn. rewrite !lookup_insert_eq.
  destruct d_ok; cbn; rewrite lookup_insert_eq, delete_insert_eq, delete_id by done; by destruct m.
Qed.

Lemma frames_fresh m H : minv m H -> frames m !! fresh m = None.
Proof.
  intros Hi. apply eq_None_not_Some. intros Hf. apply (v_frames _ _ Hi) in Hf as (o & E & Ho)%list_elem_of_fmap.
  pose proof (frame_old m H o Hi Ho). lia.
Qed.

Lemma inv_begin_tracked m b t c_ok t_ok d_ok e q c' m' :
  restarted m = false -> MInv (mk_mcfg m (CChecked q) b t) -> q_track q = true ->
  (let q := q <| q_tid := fresh m |> in
   let '(ret, m) := hosted_mgmt_begin c_ok t_ok d_ok (q_cookie q) (q_frame q) true m in
   if negb (ret =? 0) then (CIdle, answer_with e CMD_RESPONSE_BUSY (q_seq q) m) else (CBegun q, m)) = (c', m') ->
  MInv (mk_mcfg m' c' b t).
Proof.
  intros Hr Hi Eq. destruct Hi as (I1 & I2 & I3). cbn in I1, I2, I3.
  unfold held, task_held in I1. cbn in I1. unfold hm_held in I1. rewrite I2 in I1. cbn in I1. cbv zeta.
  cbn [q_cookie q_frame q_seq update].
  destruct (hosted_mgmt_begin_cases c_ok t_ok d_ok (q_cookie q) (q_frame q) true m I2 (frames_fresh _ _ I1))
    as [(ret & ts & Hret & Hts & [-> | ->])| ->].
  1,2: apply Z.eqb_neq in Hret; rewrite Hret; intros [= <- <-]; eapply (MInv_idle _ _ CIdle);
    [|apply quiet_accept|done|cbn; congruence].
  - apply MInv_intro; [unfold hm_held; rewrite I2; done|cbn; congruence|done].
  - apply MInv_intro; [cbn; unfold hm_held; rewrite I2; by eapply minv_leak|cbn; congruence|done].
  - intros [= <- <-]. apply MInv_intro; [|cbn; rewrite Eq; split; [by split_and!; cbn; rewrite ?lookup_insert_eq|]|done].
    + cbn. eapply minv_begin; try done. apply I1.
    + intros Hx. pose proof (promised_old m _ _ Hr I1 Hx). cbn in *. lia.
Qed.

Lemma inv_begin m b t reg c_ok t_ok d_ok e q c' m' :
  restarted m = false -> MInv (mk_mcfg m (CChecked q) b t) ->
  cmd_begin reg c_ok t_ok d_ok e q m = (c', m') -> MInv (mk_mcfg m' c' b t).
Proof.
  intros Hr Hi. unfold cmd_begin. pose proof (quiet_ensure reg m) as Qe.
  destruct (mgmt_tx_ensure_cb reg m) as [ret m1]. cbn in Qe.
  assert (Hp : m_pending (hm m) = false) by apply Hi.
  destruct (negb _).
  { intros [= <- <-]. eapply MInv_idle; [exact Hi| |done|congruence]. eapply quiet_trans; [exact Qe|apply quiet_accept]. }
  assert (Hi1 : MInv (mk_mcfg m1 (CChecked q) b t)).
  { eapply MInv_quiet; [exact Qe|done| |exact Hi]. cbn. by rewrite (proj2 Qe). }
  destruct (q_track q) eqn:Eq.
  - apply inv_begin_tracked; [by rewrite (same_restarted _ _ (proj1 Qe))|done|done].
  - intros [= <- <-]. apply (MInv_quiet m1 m1 (CChecked q)); [by split_and!|done| |done].
    cbn. rewrite Eq. apply Hi1.
Qed.

(** An unaccepted transaction is dropped; the host is told nothing of it. *)
Lemma inv_abort m c b t q a :
  MInv (mk_mcfg m c b t) -> cmd_held c = [] -> own_pending m q -> q_tid q ∉ promised m ->
  forall m', quiet m m' -> MInv (mk_mcfg m' (CDrop true a) b t).
Proof.
  intros Hi Hc Ho Hn m' Q. apply (MInv_quiet m m' c); [done|by rewrite Hc| |done].
  cbn. intros _. exists q. split; [by eapply own_pending_stable; [apply quiet_pending|]|].
  destruct Q as [(_ & _ & _ & _ & _ & _ & -> & _) _]. done.
Qed.

Lemma inv_submit m b t ret e q c' m' :
  MInv (mk_mcfg m (CBegun q) b t) -> cmd_submit ret e q m = (c', m') -> MInv (mk_mcfg m' c' b t).
Proof.
  intros Hi. pose proof (proj1 (proj2 Hi)) as Hok. cbn in Hok. unfold cmd_submit, start_drop, answer_with.
  assert (Q : quiet m (m <| air := air m ++ [q_frame q] |>)) by by split_and!.
  destruct (negb _), (q_track q) eqn:Eq; intros [= <- <-].
  - destruct Hok. eapply (inv_abort m); [exact Hi|done|done|done|]. by split_and!.
  - eapply MInv_idle; [exact Hi| |done|congruence]. eapply quiet_trans; [exact Q|apply quiet_accept].
  - apply (MInv_quiet m _ (CBegun q)); [done|done| |done]. cbn. rewrite Eq.
    destruct Hok as [Ho Hn]. split; [|done]. by eapply own_pending_stable; [by apply quiet_pending|].
  - apply (MInv_quiet m _ (CBegun q)); [done|done| |done]. cbn. by rewrite Eq.
Qed.

(** The acceptance is queued: from here the host is owed a status. *)
Lemma inv_promise m b t q :
  MInv (mk_mcfg m (CSent q) b t) -> own_pending m q ->
  MInv (mk_mcfg (m <| promised := promised m ++ [q_tid q] |>) (CAccepted q) b t).
Proof.
  intros (I1 & I2 & I3) Ho. apply MInv_intro; [|done|done].
  unfold held, task_held in I1. cbn in *. destruct Ho as (A1 & A2 & A3 & A4 & A5 & A6).
  destruct I1. split; cbn; try done. intros x [Hx|Hx]%elem_of_app; [auto|].
  apply list_elem_of_singleton in Hx as ->. right; right. exists (owned_of (hm m)).
  unfold hm_held. rewrite A1. cbn. split_and!; [set_solver|done|done].
Qed.

Lemma minv_untracked m H ck ack fr :
  minv m H -> minv (m <| statuses := statuses m ++ [mk_status None ck ack fr] |>) H.
Proof.
  intros []. assert (E : tids (statuses m ++ [mk_status None ck ack fr]) = tids (statuses m)).
  { rewrite tids_app. apply app_nil_r. }
  split; cbn; rewrite ?E; try done.
  intros s x [Hs|Hs]%elem_of_app Hx; [by apply v_st0|]. apply list_elem_of_singleton in Hs as ->. done.
Qed.

Lemma inv_accept m b t e sx q c' m' :
  MInv (mk_mcfg m (CSent q) b t) -> cmd_accept e sx q m = (c', m') -> MInv (mk_mcfg m' c' b t).
Proof.
  intros Hi. pose proof (proj1 (proj2 Hi)) as Hok. cbn in Hok. unfold cmd_accept, start_drop.
  pose proof (quiet_accept (rx_alloc e) (rx_ok e) (resp_num CMD_RESPONSE_SUCCESS) (q_seq q) m) as Q.
  destruct (hosted_send_mgmt_accept _ _ _ _ _) as [ret m1]. cbn in Q.
  assert (Hi1 : MInv (mk_mcfg m1 (CSent q) b t)).
  { eapply MInv_quiet; [exact Q|done| |exact Hi]. eapply cmd_ok_stable; [by apply quiet_pending|apply Hi]. }
  pose proof (proj1 (proj2 Hi1)) as Hok1. cbn in Hok1.
  destruct (negb _), (q_track q) eqn:Eq; intros [= <- <-].
  - destruct Hok1. eapply (inv_abort m1); [exact Hi1|done|done|done|]. by split_and!.
  - eapply MInv_idle; [exact Hi1|by split_and!|done|cbn; congruence].
  - apply inv_promise; [done|]. apply Hok1.
  - unfold hosted_send_mgmt_status. split_ifs; cbn;
      try (eapply MInv_idle; [exact Hi1|by split_and!|done|congruence]).
    destruct Hi1 as (I1 & I2 & I3). apply MInv_intro; [|cbn; congruence|done]. by apply minv_untracked.
Qed.

Lemma inv_lookup m b t q c' m' :
  MInv (mk_mcfg m (CAccepted q) b t) -> cmd_mark_lookup q m = (c', m') -> MInv (mk_mcfg m' c' b t).
Proof.
  intros Hi. unfold cmd_mark_lookup. intros [= <- <-]. pose proof (proj1 (proj2 Hi)) as Hok.
  apply (MInv_quiet m m (CAccepted q)); [by split_and!|by destruct (is_current q m)| |done].
  by destruct (is_current q m).
Qed.

Lemma inv_start m b t ok q tm c' m' :
  MInv (mk_mcfg m (CStart q tm) b t) -> cmd_mark_start ok q tm m = (c', m') -> MInv (mk_mcfg m' c' b t).
Proof.
  intros Hi. pose proof (proj1 (proj2 Hi)) as Hok. cbn in Hok.
  destruct Hok as [(A1 & A2 & A3 & A4 & A5 & A6) ->]. unfold cmd_mark_start. rewrite A5.
  destruct ok; intros [= <- <-].
  - apply MInv_intro; [|cbn; by rewrite lookup_insert_eq|apply Hi]. apply minv_timer; [eauto|]. apply Hi.
  - apply (MInv_quiet m m (CStart q (m_timer (hm m)))); [by split_and!|done|done|done].
Qed.

Lemma inv_mark_fail m b t c' m' :
  MInv (mk_mcfg m CMarkFail b t) -> cmd_mark_fail m = (c', m') -> MInv (mk_mcfg m' c' b t).
Proof.
  intros Hi. unfold cmd_mark_fail. destruct (m_pending (hm m)) eqn:Hp.
  - rewrite take_pending by done. intros [= <- <-]. by apply (MInv_cmd_take m CMarkFail); auto.
  - rewrite take_none by done. intros [= <- <-]. eapply (MInv_idle m m); [exact Hi|by split_and!|done|congruence].
Qed.

Lemma inv_mark_accept m b t q c' m' :
  MInv (mk_mcfg m (CArmed q) b t) -> cmd_mark_accept q m = (c', m') -> MInv (mk_mcfg m' c' b t).
Proof.
  intros Hi. pose proof (proj1 (proj2 Hi)) as Hok. cbn in Hok. unfold cmd_mark_accept, is_current.
  destruct (m_pending (hm m)) eqn:Hp; cbn [andb]; cycle 1.
  { intros [= <- <-]. eapply (MInv_idle m m); [exact Hi|by split_and!|done|congruence]. }
  destruct (Hok eq_refl) as (A1 & A2 & -> & A3). rewrite Z.eqb_refl.
  assert (Hi1 : MInv (mk_mcfg (m <| hm := hm m <| m_accepted := true |> |>) CIdle b t)).
  { destruct Hi as (I1 & I2 & I3). apply MInv_intro; [|done|done]. unfold held, task_held, hm_held in *. cbn in *.
    rewrite Hp in *. revert I1. apply minv_same. by split_and!. }
  cbv zeta. destruct (m_completed _); intros [= <- <-]; [|done].
  apply (MInv_cmd_take _ CIdle); auto.
Qed.

Lemma inv_drop m b t silent a e c' m' :
  MInv (mk_mcfg m (CDrop silent a) b t) -> cmd_drop silent a e m = (c', m') -> MInv (mk_mcfg m' c' b t).
Proof.
  intros Hi. unfold cmd_drop. destruct (m_pending (hm m)) eqn:Hp.
  - rewrite take_pending by done. intros [= <- <-]. apply (MInv_cmd_take m (CDrop silent a)); auto; [done|].
    destruct silent; [right|by left]. pose proof (proj1 (proj2 Hi) eq_refl) as (q & (_ & _ & E & _) & Hn).
    cbn in E, Hn. by rewrite E.
  - rewrite take_none by done. intros [= <- <-]. eapply (MInv_idle m); [exact Hi|apply quiet_answer|done|congruence].
Qed.

Lemma inv_finish m b t fe o a e c' m' :
  restarted m = false -> MInv (mk_mcfg m (CFinish o a) b t) -> cmd_finish fe o a e m = (c', m') ->
  MInv (mk_mcfg m' c' b t).
Proof.
  intros Hr (I1 & I2 & I3). unfold cmd_finish. intros [= <- <-]. cbn in I2.
  unfold held, task_held, hm_held in I1. cbn in I1. rewrite I2 in I1. cbn in I1.
  destruct (finish_inv fe o m _ Hr I1) as [J1 (J2 & J3 & _)].
  eapply (MInv_idle (hosted_mgmt_finish_owned fe o m) _ CIdle); [|apply quiet_answer|done|congruence].
  apply MInv_intro; [unfold hm_held; by rewrite J2, I2|cbn; congruence|].
  eapply cb_ok_mono; [|exact I3]. by rewrite J3.
Qed.

(** ** Steps of the Wi-Fi task and the timer task *)

Lemma inv_report m c t e d ok b' m' :
  MInv (mk_mcfg m c BIdle t) -> cb_report e d ok m = (b', m') -> MInv (mk_mcfg m' c b' t).
Proof.
  intros (I1 & I2 & I3). unfold cb_report.
  set (m0 := m <| reported := reported m ++ [(d, ok)] |>).
  assert (Q0 : quiet m m0) by (split; [split_and!; try done; intros x Hx; apply elem_of_app; by left|done]).
  assert (Hq : forall m1 b1, quiet m m1 -> cb_held b1 = [] -> cb_ok m1 b1 -> MInv (mk_mcfg m1 c b1 t)).
  { intros m1 b1 Q Hb Hok. apply MInv_intro; [|by eapply cmd_ok_stable; [apply quiet_pending|]|done].
    rewrite (proj2 Q), Hb. eapply minv_same; [apply Q|exact I1]. }
  destruct (draining m0); [intros [= <- <-]; apply Hq; [eapply (quiet_trans m m0); [exact Q0|by split_and!]|done|done]|].
  destruct (negb _); intros [= <- <-]; (apply Hq; [|done|]); try done.
  - eapply quiet_trans; [exact Q0|apply quiet_txcb].
  - cbn. set_solver.
Qed.

(** Another task takes the pending transaction. *)
Lemma minv_take m m' H o' :
  m_pending (hm m) = true -> minv m (hm_held (hm m) ++ H) -> same_books m m' ->
  o_frame o' = m_frame (hm m) -> o_cookie o' = m_cookie (hm m) -> o_len o' = m_frame_len (hm m) ->
  o_timer o' = m_timer (hm m) -> o_report o' = m_report_status (hm m) ->
  (o_ack o' = true -> forall fr, frames m !! m_frame (hm m) = Some fr -> acked m fr) ->
  minv m' (o' :: H).
Proof.
  intros Hp Hi Hs E1 E2 E3 E4 E5 Ha. unfold hm_held in Hi. rewrite Hp in Hi.
  apply (minv_same m); [done|]. apply (minv_outcome m (owned_of (hm m)) o'); auto.
Qed.

Lemma inv_look m c t d ok b' m' :
  MInv (mk_mcfg m c (BLook d ok) t) -> cb_look d ok m = (b', m') -> MInv (mk_mcfg m' c b' t).
Proof.
  intros (I1 & I2 & I3). unfold cb_look. cbn in I2, I3.
  unfold held, task_held in I1. cbn in I1.
  assert (Hid : MInv (mk_mcfg m c BIdle t)) by (apply MInv_intro; done).
  destruct (m_pending (hm m)) eqn:Hp; cbn [negb]; [|by intros [= <- <-]].
  destruct (v_begun _ _ I1 (owned_of (hm m))) as (fr & Hfr & Hbg & Hl & Ha).
  { unfold hm_held. rewrite Hp. set_solver. }
  cbn in Hfr. rewrite Hfr. destruct (hosted_mgmt_data_matches fr d) eqn:Em; [|by intros [= <- <-]].
  assert (Hack : ok = true -> acked m fr) by (intros ->; exists d; auto).
  destruct (m_accepted (hm m)) eqn:Hacc; cbn [negb]; intros [= <- <-].
  - apply MInv_intro; [|by eapply (cmd_ok_taken m); [| |left|]|done]. cbn.
    eapply minv_perm; [|apply (minv_take m _ (cmd_held c ++ tm_held t) (owned_of (hm m) <| o_ack := ok |>)); try done].
    { by rewrite <- Permutation_middle. }
    cbn. intros Hok x Hx. assert (x = fr) as -> by congruence. auto.
  - apply MInv_intro; [|eapply (cmd_ok_stable m); [by split_and!|done]|done]. cbn.
    set (h := hm m <| m_completed := true |> <| m_ack := ok |>).
    unfold hm_held in *. rewrite Hp in I1. cbn [m_pending h update]. change (m_pending h) with (m_pending (hm m)).
    rewrite Hp. apply (minv_same m); [by split_and!|].
    eapply (minv_outcome m (owned_of (hm m)) (owned_of h)); try done; [|by left].
    cbn. intros Hok x Hx. assert (x = fr) as -> by congruence. auto.
Qed.

Lemma inv_cb_finish m c t fe o :
  restarted m = false -> MInv (mk_mcfg m c (BFinish o) t) -> MInv (mk_mcfg (hosted_mgmt_finish_owned fe o m) c BIdle t).
Proof.
  intros Hr (I1 & I2 & I3). unfold held, task_held in I1. cbn in I1.
  assert (I1' : minv m (o :: hm_held (hm m) ++ cmd_held c ++ tm_held t)).
  { eapply minv_perm; [|exact I1]. rewrite !app_assoc. apply Permutation_sym, Permutation_middle. }
  destruct (finish_inv fe o m _ Hr I1') as [J1 J]. apply MInv_intro; [|eapply cmd_ok_stable; [|exact I2]|done].
  - by rewrite (proj1 J).
  - eapply finish_same_pending; [exact I1'| |exact J]. set_solver.
Qed.

Lemma inv_fire m c b tm t' m' :
  MInv (mk_mcfg m c b TIdle) -> timers m !! tm = Some true -> m_pending (hm m) = false \/ m_timer (hm m) = tm ->
  tm_fire tm m = (t', m') -> MInv (mk_mcfg m' c b t').
Proof.
  intros (I1 & I2 & I3) Htm Hst. unfold held, task_held in I1. cbn in I1, I2, I3. rewrite app_nil_r in I1.
  unfold tm_fire, hosted_mgmt_take_timeout. cbn [hm update].
  set (m1 := m <| timers := <[tm := false]> (timers m) |>).
  assert (J1 : minv m1 (hm_held (hm m1) ++ cmd_held c ++ cb_held b)) by (apply minv_timer; [eauto|done]).
  change (hm m1) with (hm m). destruct (m_pending (hm m)) eqn:Hp; intros [= <- <-].
  - destruct Hst as [Hst|Hst]; [congruence|]. subst tm.
    apply MInv_intro; [|by eapply (cmd_ok_taken m); [| |right|]|done]. cbn.
    eapply minv_perm; [|apply (minv_take m1 _ (cmd_held c ++ cb_held b) (owned_of (hm m) <| o_ack := false |>)); try done].
    rewrite (app_assoc _ _ [_]). apply Permutation_cons_append.
  - apply MInv_intro; [by cbn; rewrite app_nil_r|eapply cmd_ok_stable; [|exact I2]|done].
    split_and!; try done. congruence.
Qed.

Lemma inv_tm_finish m c b fe o t' m' :
  restarted m = false -> MInv (mk_mcfg m c b (TFinish o)) -> tm_finish fe o m = (t', m') -> MInv (mk_mcfg m' c b t').
Proof.
  intros Hr (I1 & I2 & I3). unfold held, task_held in I1. cbn in I1, I2, I3. intros [= <- <-].
  assert (I1' : minv m (o :: hm_held (hm m) ++ cmd_held c ++ cb_held b)).
  { eapply minv_perm; [|exact I1]. rewrite !app_assoc. apply Permutation_sym, Permutation_cons_append. }
  destruct (finish_inv fe o m _ Hr I1') as [J1 J]. set (m1 := hosted_mgmt_finish_owned fe o m) in *.
  apply MInv_intro.
  - cbn. rewrite app_nil_r, (proj1 J). destruct J1. split; auto.
  - eapply (cmd_ok_stable m1); [by split_and!|]. eapply cmd_ok_stable; [|exact I2].
    eapply finish_same_pending; [exact I1'| |exact J]. set_solver.
  - eapply cb_ok_mono; [|exact I3]. cbn. by rewrite (proj1 (proj2 J)).
Qed.

Lemma mstep_inv c c' : restarted (wd c) = false -> MInv c -> mstep false c c' -> MInv c'.
Proof.
  intros Hr Hi Hs. destruct Hs; cbn in Hr.
  - by eapply inv_request.
  - eapply (MInv_idle m); [exact Hi| |done|apply Hi].
    apply (quiet_trans _ (m <| cb_owned := false |>)); [by split_and!|apply quiet_fail_pending].
  - match goal with H : start_drop _ _ _ = _ |- _ => injection H as <- <- end. apply (MInv_quiet m _ CIdle); [by split_and!|done|done|done].
  - by eapply inv_begin.
  - by eapply inv_submit.
  - by eapply inv_accept.
  - by eapply inv_lookup.
  - by eapply inv_start.
  - by eapply inv_mark_fail.
  - by eapply inv_mark_accept.
  - by eapply inv_drop.
  - by eapply inv_finish.
  - eapply (MInv_idle m); [exact Hi|apply quiet_unmarked_end|done|apply Hi].
  - by eapply inv_report.
  - by eapply inv_look.
  - by eapply inv_cb_finish.
  - eapply inv_fire; try done. by match goal with H : _ \/ _ |- _ => destruct H as [?|?] end.
  - by eapply inv_tm_finish.
Qed.

Lemma mreach_inv c : mreach false c -> MInv c.
Proof.
  induction 1 as [|c c' Hc IH Hr Hs]; [|by eapply mstep_inv].
  apply MInv_intro; [|done|done]. cbn. split; cbn; try done; try set_solver.
  - apply NoDup_nil_2.
  - intros f. rewrite lookup_empty. split; [by intros []|set_solver].
  - apply NoDup_nil_2.
  - intros f. rewrite lookup_empty. by intros [].
  - intros f. rewrite lookup_empty. by intros [].
  - apply NoDup_nil_2.
Qed.

(** ** Theorems *)


(** Turns a request still takes at most. *)
Definition turns_left (c : cmd_pc) : nat :=
  match c with
  | CIdle => 0 | CFinish _ _ => 1 | CLegacy _ _ => 1 | CDrop _ _ => 2 | CMarkFail => 2 | CArmed _ => 2
  | CStart _ _ => 3 | CAccepted _ => 4 | CSent _ => 5 | CBegun _ => 6 | CChecked _ => 7
  end.

Lemma turns_decrease e c m : (turns_left (cmd_turn e c m).1 <= pred (turns_left c))%nat.
Proof.
  destruct c; cbn [cmd_turn turns_left pred].
  - done.
  - unfold cmd_begin. destruct (mgmt_tx_ensure_cb _ _). destruct (negb _); [cbn; lia|].
    destruct (q_track q); [|cbn; lia]. destruct (hosted_mgmt_begin _ _ _ _ _ _ _). destruct (negb _); cbn; lia.
  - unfold cmd_submit. destruct (negb _), (q_track q); cbn; lia.
  - unfold cmd_accept. destruct (hosted_send_mgmt_accept _ _ _ _ _). destruct (negb _), (q_track q); cbn; lia.
  - unfold cmd_mark_lookup. destruct (is_current q m); cbn; lia.
  - unfold cmd_mark_start. destruct (timers m !! timer); [|cbn; lia]. destruct (te_start e); cbn; lia.
  - unfold cmd_mark_fail. destruct (hosted_mgmt_take m) as [[o|] m1]; cbn; lia.
  - unfold cmd_mark_accept. destruct (is_current q m); [|cbn; lia]. cbv zeta. destruct (m_completed _); cbn; lia.
  - unfold cmd_drop. destruct (hosted_mgmt_take m) as [[o|] m1]; cbn; lia.
  - done.
  - done.
Qed.

Lemma cmd_run_idle n e c m : (turns_left c <= n)%nat -> (cmd_run n e c m).1 = CIdle.
Proof.
  revert c m. induction n as [|n IH]; intros c m Hn; cbn.
  - destruct c; cbn in Hn; try lia. done.
  - pose proof (turns_decrease e c m). destruct (cmd_turn e c m) as [c' m']. cbn in *. apply IH. lia.
Qed.

(** [MGMT_TURNS] turns end every request. *)
Lemma process_mgmt_tx_returns e softap active if_type payload m :
  (process_mgmt_tx e softap active if_type payload m).1 = CIdle.
Proof.
  unfold process_mgmt_tx. destruct (cmd_request _ _ _ _ _ _ _ _) as [c m'].
  apply cmd_run_idle. unfold MGMT_TURNS. destruct c; cbn; lia.
Qed.

(** ** Concrete runs *)

Definition demo_frame (body : list Z) : list Z :=
  [0xD0; 0; 0; 0] ++ [2; 0; 0; 0; 0; 7] ++ [2; 0; 0; 0; 0; 1] ++ [2; 0; 0; 0; 0; 1] ++ [0; 0] ++ body.
(** [struct cmd_mgmt_tx]: channel 6, cookie 9. *)
Definition demo_mgmt_request (cookie : Z) (frame : list Z) : list Z :=
  [25; 0; 0; 0; 5; 0; HOSTED_MGMT_TX_ASYNC_STATUS_V1; 0] ++ [6; 0; 0; 0; 0; 0; 0; 0]
  ++ le_bytes 8 cookie ++ le_bytes 4 (zlen frame) ++ frame.

Definition demo_ok : reply_env := mk_reply_env true true.
Definition demo_sx : status_env := mk_status_env true true true.
Definition demo_tx : txcb_env := mk_txcb_env 0 true true true.

Definition set_cmd (r : cmd_pc * mgmt_world) (c : mgmt_cfg) : mgmt_cfg := mk_mcfg r.2 r.1 (bp c) (tp c).
Definition set_cb (r : cb_pc * mgmt_world) (c : mgmt_cfg) : mgmt_cfg := mk_mcfg r.2 (cp c) r.1 (tp c).
Definition set_tm (r : tm_pc * mgmt_world) (c : mgmt_cfg) : mgmt_cfg := mk_mcfg r.2 (cp c) (bp c) r.1.

Definition demo_send (cookie : Z) (body : list Z) (c : mgmt_cfg) : mgmt_cfg :=
  set_cmd (cmd_request true 5 (if_code ESP_AP_IF) (demo_mgmt_request cookie (demo_frame body)) 0 true demo_ok (wd c)) c.
Definition demo_fe (ok : bool) : finish_env := mk_finish_env ok ok demo_sx.
Definition demo_te : turn_env := mk_turn_env 0 true true true 0 demo_ok demo_sx true (demo_fe true) true.
Definition turn (c : mgmt_cfg) : mgmt_cfg := set_cmd (cmd_turn demo_te (cp c) (wd c)) c.

Definition turning (c : cmd_pc) : Prop := match c with CIdle | CLegacy _ _ => False | _ => True end.

Lemma turn_step stale c : turning (cp c) -> mstep stale c (turn c).
Proof.
  destruct c as [m [] b t]; unfold turn, set_cmd, cmd_turn; cbn [cp wd bp tp]; intros Hl; try done.
  - eapply ms_begin, surjective_pairing.
  - eapply ms_submit, surjective_pairing.
  - eapply ms_accept, surjective_pairing.
  - eapply ms_lookup, surjective_pairing.
  - eapply ms_start, surjective_pairing.
  - eapply ms_mark_fail, surjective_pairing.
  - eapply ms_mark_accept, surjective_pairing.
  - eapply ms_drop, surjective_pairing.
  - eapply ms_finish, surjective_pairing.
Qed.

Lemma mgmt_demo_send_step stale ck body c : cp c = CIdle -> mstep stale c (demo_send ck body c).
Proof. destruct c as [m c b t]. cbn. intros ->. eapply ms_request, surjective_pairing. Qed.

(** A frame is sent, accepted, and reported by the driver: one status event. *)
Definition demo_m0 : mgmt_cfg := mk_mcfg world0 CIdle BIdle TIdle.
Definition demo_m1 : mgmt_cfg := Nat.iter 6 turn (demo_send 9 [1; 2] demo_m0).
Definition demo_m2 : mgmt_cfg := set_cb (cb_report demo_tx (demo_frame [1; 2]) true (wd demo_m1)) demo_m1.
Definition demo_m3 : mgmt_cfg := set_cb (cb_look (demo_frame [1; 2]) true (wd demo_m2)) demo_m2.
Definition demo_owned (c : mgmt_cfg) : owned :=
  match bp c with BFinish o => o | _ => mk_owned 0 0 0 false false 0 end.
Definition demo_m4 (ok : bool) : mgmt_cfg :=
  mk_mcfg (hosted_mgmt_finish_owned (demo_fe ok) (demo_owned demo_m3) (wd demo_m3)) (cp demo_m3) BIdle (tp demo_m3).

Lemma turn_reach stale c : mreach stale c -> restarted (wd c) = false -> turning (cp c) -> mreach stale (turn c).
Proof. intros Hc Hr Hl. eapply mr_step; [done|done|by apply turn_step]. Qed.
Ltac demo_turn := apply turn_reach; [|vm_compute; reflexivity|vm_compute; exact I].

Lemma demo_m1_reach stale : mreach stale demo_m1.
Proof.
  unfold demo_m1. cbn [Nat.iter]. do 6 demo_turn. eapply mr_step; [apply mr_start|done|by apply mgmt_demo_send_step].
Qed.

Lemma report_step stale d ok c : bp c = BIdle -> mstep stale c (set_cb (cb_report demo_tx d ok (wd c)) c).
Proof. destruct c as [m c b t]. cbn. intros ->. eapply ms_report, surjective_pairing. Qed.
Lemma look_step stale d ok c : bp c = BLook d ok -> mstep stale c (set_cb (cb_look d ok (wd c)) c).
Proof. destruct c as [m c b t]. cbn. intros ->. eapply ms_look, surjective_pairing. Qed.
Lemma cb_finish_step stale fe o c :
  bp c = BFinish o -> mstep stale c (mk_mcfg (hosted_mgmt_finish_owned fe o (wd c)) (cp c) BIdle (tp c)).
Proof. destruct c as [m c b t]. cbn. intros ->. apply ms_cb_finish. Qed.
Lemma fire_step t c :
  tp c = TIdle -> timers (wd c) !! t = Some true -> mstep true c (set_tm (tm_fire t (wd c)) c).
Proof. destruct c as [m c b t']. cbn. intros -> Ht. eapply ms_fire; [exact Ht|by left|apply surjective_pairing]. Qed.
Lemma tm_finish_step stale fe o c : tp c = TFinish o -> mstep stale c (set_tm (tm_finish fe o (wd c)) c).
Proof. destruct c as [m c b t]. cbn. intros ->. eapply ms_tm_finish, surjective_pairing. Qed.

Lemma demo_m4_reach stale ok : mreach stale (demo_m4 ok).
Proof.
  eapply mr_step; [eapply mr_step; [eapply mr_step; [apply demo_m1_reach| |]| |]| |].
  2: apply (report_step stale (demo_frame [1; 2]) true); vm_compute; reflexivity.
  3: apply (look_step stale (demo_frame [1; 2]) true demo_m2); vm_compute; reflexivity.
  1,2,3: vm_compute; reflexivity.
  apply (cb_finish_step stale (demo_fe ok) (demo_owned demo_m3) demo_m3). vm_compute. reflexivity.
Qed.


(** C40: a timer that outlives its transaction ends another one.  The callback
    [hosted_mgmt_timeout_cb] takes whatever is pending without comparing the timer
    it was called for; [xTimerStop] and [xTimerDelete] only queue a message, which
    [hosted_mgmt_finish_owned] sends without waiting and whose loss it ignores.  So
    there is a run in which the first frame was acknowledged and reported, the
    second one was never given to the driver nor accepted, its own timer was never
    started - and it is reported as failed and the firmware restarts. *)
Theorem stale_timer_restarts :
  exists c, mreach true c /\ restarted (wd c) = true /\
    statuses (wd c) = [mk_status (Some 1%nat) 9 true (demo_frame [1; 2]); mk_status (Some 3%nat) 10 false (demo_frame [7])] /\
    promised (wd c) = [1%nat] /\ air (wd c) = [demo_frame [1; 2]].
Proof.
  set (m5 := turn (demo_send 10 [7] (demo_m4 false))).
  assert (H5 : mreach true m5).
  { apply turn_reach; [|vm_compute; reflexivity|vm_compute; exact I].
    eapply mr_step; [apply (demo_m4_reach true false)|vm_compute; reflexivity|]. apply mgmt_demo_send_step. vm_compute. reflexivity. }
  set (m6 := set_tm (tm_fire 2 (wd m5)) m5).
  assert (H6 : mreach true m6).
  { eapply mr_step; [exact H5|vm_compute; reflexivity|].
    apply fire_step; vm_compute; reflexivity. }
  set (o := match tp m6 with TFinish o => o | TIdle => mk_owned 0 0 0 false false 0 end).
  exists (set_tm (tm_finish (demo_fe true) o (wd m6)) m6).
  split; [|vm_compute; by split_and!].
  eapply mr_step; [exact H6|vm_compute; reflexivity|].
  apply tm_finish_step. vm_compute. reflexivity.
Qed.
