(* ===== verification/FwCmd.v ===== *)
(** * FwCmd: the firmware's command task

    What the command handlers of [main/cmd.c] share: the task's state, the calls
    into the Wi-Fi library and the rest of the SDK, the response, the monitor
    configuration of [app_main.c], and stopping and starting Wi-Fi.

    A handler is a program in [FM]: it changes [fcmd], may read the payload with
    [rd], calls the SDK with [call], and ends with a return code, or with [Restart]
    when it calls [esp_restart], or with [Overread] when it reads past the payload
    it was given.  Every call is logged; what it returns is a function of the calls
    made so far ([sdk]), which is any behaviour the SDK may show. *)
From S2P Require Import Prelude Wire RcpFw FwPath CmdQueue RawTp RawTpRun MgmtTx.
#[global] Open Scope monad_scope.

Definition ESP_ERR_WIFI_NOT_INIT : Z := 0x3001.
Definition ESP_ERR_WIFI_NOT_STARTED : Z := 0x3002.
Definition WIFI_MODE_NULL : Z := 0.
Definition WIFI_MODE_STA : Z := 1.
Definition WIFI_MODE_AP : Z := 2.
Definition WIFI_MODE_APSTA : Z := 3.
Definition HOSTED_WIFI_STOP_BUDGET_MS : Z := 3000.
Definition HOSTED_WIFI_COMMAND_BUDGET_MS : Z := 3500.
Definition HOSTED_WIFI_EVENT_ACK_WARN_MS : Z := 750.
Definition HOSTED_WIFI_FENCE_POST_WAIT_MS : Z := 200.
Definition WIFI_PROMIS_FILTER_MASK : Z := 7.        (* MGMT | CTRL | DATA *)
Definition WIFI_PROMIS_CTRL_FILTER_MASK_ALL : Z := 0xFF800000.
Definition zero_mac : list Z := replicate 6 0.
Definition dummy_mac : list Z := [0x00; 0x11; 0x22; 0x33; 0x44; 0x55].
Definition dummy_mac2 : list Z := [0x00; 0x11; 0x22; 0x33; 0x44; 0x66].

(** ** The SDK *)

(** Enumerations of the SDK, by name. *)
Inductive auth_mode :=
  | WIFI_AUTH_OPEN | WIFI_AUTH_WEP | WIFI_AUTH_WPA_PSK | WIFI_AUTH_WPA2_PSK | WIFI_AUTH_WPA_WPA2_PSK
  | WIFI_AUTH_WPA2_ENTERPRISE | WIFI_AUTH_WPA3_PSK | WIFI_AUTH_WPA2_WPA3_PSK | WIFI_AUTH_OWE
  | WIFI_AUTH_WPA3_ENT_192 | WIFI_AUTH_WPA3_ENTERPRISE | WIFI_AUTH_WPA2_WPA3_ENTERPRISE
  | WIFI_AUTH_WPA_ENTERPRISE | WIFI_AUTH_OTHER.
Inductive appie :=
  | WIFI_APPIE_RAM_BEACON | WIFI_APPIE_RAM_BEACON_PROBE_HEAD | WIFI_APPIE_RAM_BEACON_PROBE_TAIL
  | WIFI_APPIE_RAM_PROBE_RSP | WIFI_APPIE_ASSOC_RESP | WIFI_APPIE_ASSOC_REQ | WIFI_APPIE_RAM_STA_AUTH.
#[export] Instance auth_mode_eq_dec : EqDecision auth_mode.
Proof. solve_decision. Defined.

(** The fields of [wifi_config_t] the handlers set. *)
Record sta_config := mk_sta { sc_ssid : list Z; sc_password : list Z; sc_authmode : auth_mode; sc_owe : bool;
  sc_bssid : list Z; sc_bssid_set : bool; sc_channel : Z }.
Record ap_config_t := mk_ap { ac_ssid : list Z; ac_ssid_len : Z; ac_password : list Z; ac_authmode : auth_mode;
  ac_channel : Z; ac_hidden : Z; ac_beacon : Z; ac_max : Z }.

(** Calls, with the arguments that matter; results come from [sdk]. *)
Inductive wcall :=
  | WTick
  | WSemTake (ticks : Z)
  | WEventPost (ticks : Z)
  | WRespond (bytes : Z)
  | WMalloc (bytes : Z)
  | WGetMode
  | WSetMode (mode : Z)
  | WSetMac (iface : Z) (mac : list Z)
  | WGetMac (iface : Z)
  | WReadMac
  | WGetConfig (iface : Z)
  | WSetStaConfig (c : sta_config)
  | WSetApConfig (c : ap_config_t)
  | WRestoreConfig (iface : Z)
  | WStart
  | WStop
  | WConnect
  | WDisconnect
  | WDeinit
  | WScanStart (cfg : option (option (list Z) * Z * option (list Z))) (block : bool)
  | WScanStop
  | WGetApRecords
  | WClearApList
  | WRegisterMgmt (mask : Z)
  | WSetAppie (type : appie) (ie : list Z)
  | WUnsetAppie (type : appie)
  | WSendAuth (bssid : list Z) (auth_type seq : Z)
  | WSendAssoc (subtype : Z)
  | WGetAssocBssid
  | WAuthDone
  | WDeauth (reason : Z)
  | WDeleteNode (mac : list Z)
  | WAddNode (mac : list Z) (aid : Z) (rates ht vht he : option (list Z)) (pmf : bool)
  | WPtkDone (mac : list Z)
  | WSetStaKey (algo : Z) (mac : list Z) (index set_tx : Z) (seq key : list Z) (pairwise : bool)
  | WSetApKey (algo : Z) (mac : list Z) (index : Z) (key : list Z)
  | WSetIgtk (iface : Z) (igtk pn keyid : list Z)
  | WGetMaxTxPower
  | WSetMaxTxPower (power : Z)
  | WGetApInfo
  | WGetChannel
  | WSetChannel (channel second : Z)
  | WSetCountry (code : list Z)
  | WGetCountry
  | WSetTime (sec usec : Z)
  | WGetInactive
  | WSetInactive (t : Z)
  | WRegisterApRx (on : bool)
  | WPpUnregister
  | WPpRegister
  | WSetPromisFilter (mask : Z)
  | WGetPromisFilter
  | WSetPromisCtrl (mask : Z)
  | WGetPromisCtrl
  | WSetPromisCb
  | WSetPromiscuous (on : bool)
  | WOtaNextPartition
  | WOtaBegin (partition : Z)
  | WOtaWrite (handle : Z) (image : list Z)
  | WOtaAbort (handle : Z)
  | WOtaEnd (handle : Z)
  | WOtaGetBoot
  | WOtaSetBoot (partition : Z)
  | WTimerCreate
  | WTimerStart
  | WTimerDelete
  | WRegisterWpa2
  | WUnregisterWpa2.

(** What the SDK answers after a history of calls: a return code, values written
    through pointers, the access points found (BSSID, authentication mode), and
    what the three subsystems modelled elsewhere meet. *)
Record sdk := mk_sdk {
  w_ret : list wcall -> wcall -> Z;
  w_out : list wcall -> wcall -> list Z;
  w_aps : list wcall -> list (list Z * auth_mode);
  w_turn : list wcall -> turn_env;
  w_radio : list wcall -> radio_env;
  w_raw : list wcall -> raw_env
}.

(** ** State: the file-scope variables of [cmd.c], and those of [app_main.c] its
    handlers use ([app], the monitor's). *)
Record wow_config := mk_wow { wow_any : Z; wow_disconnect : Z; wow_magic : Z; wow_4way : Z; wow_eap : Z }.

Record fcmd := mk_fcmd {
  active_cmd_code : Z;
  active_cmd_seq : Z;
  s_cmd_started_at : Z;
  s_cmd_in_progress : bool;
  app : fw_app;
  mw : mgmt_world;
  s_wifi_started : bool;
  s_wifi_stop_in_progress : bool;
  s_sta_stop_ack_pending : bool;
  s_wifi_stop_ack : bool;              (* the semaphore exists *)
  s_scan_in_progress : bool;
  s_scan_drain_pending : bool;
  s_auth_scan_in_progress : bool;
  sta_init_flag : bool;
  s_assoc_generation : Z;
  s_assoc_bssid : list Z;
  s_assoc_control_port : Z;
  s_assoc_is_reassoc : Z;
  s_auth_generation : Z;
  s_auth_bssid : list Z;
  s_conn_generation : Z;
  s_disconnect_generation : Z;
  s_disconnect_subtype : Z;
  ap_bssid : option (list Z);
  wpa2_cb : bool;
  dev_mac : list Z;
  ip_address : Z;
  mac_list : Z * list Z;
  wow : wow_config;
  ota_handle : Z;
  update_partition : Z;
  verify_ota : bool;
  s_monitor_enabled : bool;
  s_monitor_channel : Z;
  s_monitor_channel_explicit : bool;
  raw : raw_tp;
  calls : list wcall;
  resps : list (Z * list Z)            (* responses queued: interface, bytes *)
}.
#[export] Instance eta_fcmd : Eta fcmd := fun s =>
  mk_fcmd (active_cmd_code s) (active_cmd_seq s) (s_cmd_started_at s) (s_cmd_in_progress s) (app s) (mw s)
    (s_wifi_started s) (s_wifi_stop_in_progress s) (s_sta_stop_ack_pending s) (s_wifi_stop_ack s)
    (s_scan_in_progress s) (s_scan_drain_pending s) (s_auth_scan_in_progress s) (sta_init_flag s)
    (s_assoc_generation s) (s_assoc_bssid s) (s_assoc_control_port s) (s_assoc_is_reassoc s)
    (s_auth_generation s) (s_auth_bssid s) (s_conn_generation s) (s_disconnect_generation s)
    (s_disconnect_subtype s) (ap_bssid s) (wpa2_cb s) (dev_mac s) (ip_address s) (mac_list s) (wow s)
    (ota_handle s) (update_partition s) (verify_ota s) (s_monitor_enabled s) (s_monitor_channel s)
    (s_monitor_channel_explicit s) (raw s) (calls s) (resps s).

(** The initial values, once [initialise_wifi] has made the semaphore. *)
Definition fcmd_boot : fcmd :=
  mk_fcmd 0 0 0 false app_zero world0 false false false true false false false false 0 zero_mac 0 0 0 zero_mac 0 0 0
    None false zero_mac 0 (0, []) (mk_wow 0 1 1 1 1) 0 0 false false 0 false raw_boot [] [].

Inductive stop := Overread | Restart.
Definition FM (A : Type) : Type := M fcmd stop A.

Definition on_app (f : fw_app -> fw_app) (s : fcmd) : fcmd := s <| app := f (app s) |>.
Definition get {A} (f : fcmd -> A) : FM A := fun s => (inr (f s), s).
Definition set (f : fcmd -> fcmd) : FM unit := mmodify f.
Definition esp_restart {A} : FM A := mfail Restart.
Definition when (b : bool) (m : FM unit) : FM unit := if b then m else mret tt.

(** [n] bytes of the payload at [off]; a little-endian integer there. *)
Definition rd (off n : Z) (p : list Z) : FM (list Z) :=
  if (0 <=? off) && (0 <=? n) && (off + n <=? zlen p) then mret (ztake n (zdrop off p)) else mfail Overread.
Definition rdle (n : nat) (off : Z) (p : list Z) : FM Z :=
  let* b := rd off (Z.of_nat n) p in mret (le_val b).

(** [strnlen] of a fixed buffer is 0. *)
Definition empty_string (b : list Z) : bool := byte_at 0 b =? 0.

(** The part of [command_response] ... of [send_command_resp]: [len] is [data]'s. *)
Definition response_bytes (if_type code status seq : Z) (data : list Z) : list Z :=
  let n := if (if_type =? if_code ESP_INTERNAL_IF) && (code =? cmd_num CMD_HOST_REBOOT) then 0 else sizeof_header in
  [code; status] ++ le_bytes 2 (zlen data) ++ le_bytes 2 seq ++ [0; 0] ++ data ++ replicate (Z.to_nat n) 0.

Section Commands.
Variable cfg : fw_build.
Variable W : sdk.
Variable pdMS_TO_TICKS : Z -> Z.

Definition call (c : wcall) : FM Z := fun s =>
  (inr (w_ret W (calls s) c), s <| calls := calls s ++ [c] |>).
Definition call_out (c : wcall) : FM (Z * list Z) := fun s =>
  (inr (w_ret W (calls s) c, w_out W (calls s) c), s <| calls := calls s ++ [c] |>).
Definition out (c : wcall) : FM (list Z) := let* r := call_out c in mret r.2.
(** A value returned through a pointer to one integer. *)
Definition call_val (c : wcall) : FM (Z * Z) := let* r := call_out c in mret (r.1, byte_at 0 r.2).

(** The buffer, then the high-priority queue ([pdTRUE] is 1). *)
Definition send_command_resp (if_type code : Z) (status : COMMAND_RESPONSE_TYPE) (data : list Z) : FM Z :=
  let* seq := get active_cmd_seq in
  let bytes := response_bytes if_type code (resp_num status) seq data in
  let* m := call (WMalloc (zlen bytes)) in
  if m =? 0 then mret ESP_FAIL
  else
    let* r := call (WRespond (zlen bytes)) in
    if r =? 1 then set (fun s => s <| resps := resps s ++ [(if_type, bytes)] |>) ;;; mret ESP_OK
    else mret r.

(** ** Management frames, from call to return *)
Definition run_mgmt (f : turn_env -> mgmt_world -> cmd_pc * mgmt_world) : FM unit :=
  let* e := get (fun s => w_turn W (calls s)) in
  set (fun s => s <| mw := (f e (mw s)).2 |>) ;;;
  let* r := get (fun s => restarted (mw s)) in
  if r then esp_restart else mret tt.

Definition hosted_fail_pending : FM unit := run_mgmt hosted_mgmt_fail_pending.

Definition ensure_mgmt_cb : FM Z :=
  let* owned := get (fun s => cb_owned (mw s)) in
  if owned then mret ESP_OK
  else
    let* _ := call WPpUnregister in
    let* reg := call WPpRegister in
    set (fun s => s <| mw := (mgmt_tx_ensure_cb reg (mw s)).2 |>) ;;;
    mret reg.

(** ** The monitor interface ([app_main.c]) *)

Definition esp_hosted_wifi_channel_transition_active : FM bool :=
  get (fun s => association_ongoing (app s) || s_scan_in_progress s).

Definition esp_hosted_monitor_snapshot_channel : FM unit :=
  let* en := get s_monitor_enabled in let* ex := get s_monitor_channel_explicit in
  if negb en || ex then mret tt
  else
    let* m := call_val WGetMode in
    if negb (m.1 =? ESP_OK) then mret tt
    else
      let* info := if (m.2 =? WIFI_MODE_STA) || (m.2 =? WIFI_MODE_APSTA) then call WGetApInfo else mret ESP_FAIL in
      let* ap := get (fun s => softap_started (app s)) in
      if negb (info =? ESP_OK) && negb ((m.2 =? WIFI_MODE_AP) || ((m.2 =? WIFI_MODE_APSTA) && ap)) then mret tt
      else
        let* ch := call_val WGetChannel in
        when ((ch.1 =? ESP_OK) && negb (ch.2 =? 0)) (set (fun s => s <| s_monitor_channel := ch.2 |>)).

Definition esp_hosted_monitor_channel : FM Z :=
  let* en := get s_monitor_enabled in let* ex := get s_monitor_channel_explicit in let* own := get s_monitor_channel in
  if negb en || ex then mret own
  else
    let* m := call_val WGetMode in
    if negb (m.1 =? ESP_OK) then mret own
    else
      let* ok := if (m.2 =? WIFI_MODE_AP) || (m.2 =? WIFI_MODE_APSTA) then mret true
                 else if m.2 =? WIFI_MODE_STA then let* r := call WGetApInfo in mret (r =? ESP_OK)
                 else mret false in
      if negb ok then mret own
      else
        let* ch := call_val WGetChannel in
        mret (if (ch.1 =? ESP_OK) && negb (ch.2 =? 0) then ch.2 else own).

Definition esp_hosted_monitor_channel_allowed (requested : Z) (radio_transition : bool) : FM bool :=
  let* en := get s_monitor_enabled in let* ex := get s_monitor_channel_explicit in
  if negb en then mret true
  else if requested =? 0 then mret false
  else if negb ex && radio_transition then mret true
  else let* ch := esp_hosted_monitor_channel in mret (requested =? ch).

(** [!monitor_is_enabled() || channel_allowed()], as the handlers test it. *)
Definition monitor_blocks (requested : Z) (radio_transition : bool) : FM bool :=
  let* en := get s_monitor_enabled in
  if negb en then mret false
  else let* ok := esp_hosted_monitor_channel_allowed requested radio_transition in mret (negb ok).

(** [goto config_failed] of [esp_hosted_monitor_config]. *)
Definition monitor_rollback (ret : Z) (radio_owns was_enabled : bool) (previous second old_filter old_ctrl : Z) : FM Z :=
  let* failed1 :=
    if radio_owns then mret false
    else
      let* o := call_out WGetChannel in
      let same b := (byte_at 0 b =? previous) && (byte_at 1 b =? second) in
      if negb (o.1 =? ESP_OK) then mret true
      else if same o.2 then mret false
      else if previous =? 0 then mret true
      else
        let* r := call (WSetChannel previous second) in
        if negb (r =? ESP_OK) then mret true
        else
          let* o := call_out WGetChannel in
          mret (negb (o.1 =? ESP_OK) || negb (same o.2)) in
  let* failed2 :=
    if was_enabled then
      let* r1 := call (WSetPromisFilter old_filter) in
      let* r2 := call (WSetPromisCtrl old_ctrl) in
      let* r3 := call (WSetPromiscuous true) in
      mret (negb (r1 =? ESP_OK) || negb (r2 =? ESP_OK) || negb (r3 =? ESP_OK))
    else
      let* r := call (WSetPromiscuous false) in
      mret (negb (r =? ESP_OK) && negb (r =? ESP_ERR_WIFI_NOT_STARTED) && negb (r =? ESP_ERR_WIFI_NOT_INIT)) in
  if failed1 || failed2 then esp_restart else mret ret.

(** The filters, the callback and promiscuous mode, each verified: the first code
    that is not [ESP_OK]. *)
Definition monitor_apply : FM Z :=
  let* r := call (WSetPromisFilter WIFI_PROMIS_FILTER_MASK) in
  if negb (r =? ESP_OK) then mret r else
  let* r := call (WSetPromisCtrl WIFI_PROMIS_CTRL_FILTER_MASK_ALL) in
  if negb (r =? ESP_OK) then mret r else
  let* o := call_val WGetPromisCtrl in
  if negb (o.1 =? ESP_OK) then mret o.1 else
  if negb (o.2 =? WIFI_PROMIS_CTRL_FILTER_MASK_ALL) then mret ESP_FAIL else
  let* o := call_val WGetPromisFilter in
  if negb (o.1 =? ESP_OK) then mret o.1 else
  if negb (Z.land o.2 WIFI_PROMIS_FILTER_MASK =? WIFI_PROMIS_FILTER_MASK) then mret ESP_FAIL else
  let* r := call WSetPromisCb in
  if negb (r =? ESP_OK) then mret r else
  call (WSetPromiscuous true).

Definition monitor_disable : FM Z :=
  let* was := get s_monitor_enabled in
  set (fun s => s <| s_monitor_enabled := false |>) ;;;
  let* r := call (WSetPromiscuous false) in
  if negb (r =? ESP_OK) && negb (r =? ESP_ERR_WIFI_NOT_STARTED)
  then set (fun s => s <| s_monitor_enabled := was |>) ;;; mret r
  else mret ESP_OK.

(** From the choice of the channel on. *)
Definition monitor_commit (radio_owns was_enabled : bool) (channel effective : Z) : FM Z :=
  let* f := if was_enabled then call_val WGetPromisFilter else mret (ESP_OK, 0) in
  if negb (f.1 =? ESP_OK) then mret f.1 else
  let* c := if was_enabled then call_val WGetPromisCtrl else mret (ESP_OK, 0) in
  if negb (c.1 =? ESP_OK) then mret c.1 else
  let* prev := if radio_owns then mret (ESP_OK, []) else call_out WGetChannel in
  if negb (prev.1 =? ESP_OK) then mret prev.1 else
  let previous := byte_at 0 prev.2 in let second := byte_at 1 prev.2 in
  let* r := monitor_apply in
  let* r := if negb (r =? ESP_OK) then mret r
            else if negb radio_owns && (negb (effective =? previous) || negb (second =? 0))
            then call (WSetChannel effective 0) else mret ESP_OK in
  if negb (r =? ESP_OK) then monitor_rollback r radio_owns was_enabled previous second f.2 c.2
  else
    set (fun s => s <| s_monitor_channel := effective |> <| s_monitor_channel_explicit := negb (channel =? 0) |>
                    <| s_monitor_enabled := true |>) ;;;
    mret ESP_OK.

Definition esp_hosted_monitor_config (enable : bool) (channel : Z) : FM Z :=
  if negb enable then monitor_disable else
  let* was_enabled := get s_monitor_enabled in
  let* busy := esp_hosted_wifi_channel_transition_active in
  if busy then mret ESP_ERR_INVALID_STATE else
  let* m := call_val WGetMode in
  if negb (m.1 =? ESP_OK) then mret m.1 else
  let* sta := if (m.2 =? WIFI_MODE_STA) || (m.2 =? WIFI_MODE_APSTA)
              then let* r := call WGetApInfo in mret (r =? ESP_OK) else mret false in
  let radio_owns := sta || (m.2 =? WIFI_MODE_AP) || (m.2 =? WIFI_MODE_APSTA) in
  let* op := if radio_owns then call_val WGetChannel else mret (ESP_OK, channel) in
  if negb (op.1 =? ESP_OK) then mret op.1 else
  if radio_owns && (op.2 =? 0) then mret ESP_ERR_INVALID_STATE else
  if radio_owns && negb (channel =? 0) && negb (channel =? op.2) then mret ESP_ERR_INVALID_STATE else
  let* own := get s_monitor_channel in
  let effective := if negb (op.2 =? 0) then op.2 else if was_enabled && negb (own =? 0) then own else 1 in
  monitor_commit radio_owns was_enabled channel effective.

Definition esp_hosted_monitor_restore : FM Z :=
  let* en := get s_monitor_enabled in let* ch := get s_monitor_channel in let* ex := get s_monitor_channel_explicit in
  if negb en then mret ESP_OK
  else if ch =? 0 then mret ESP_ERR_INVALID_STATE
  else esp_hosted_monitor_config true (if ex then ch else 0).

(** ** Stopping and starting Wi-Fi *)

Definition now : FM Z := let* t := call WTick in mret (u32 t).

Definition hosted_wifi_stop_remaining (stop_started : Z) : FM Z :=
  let* t := now in
  let budget := pdMS_TO_TICKS HOSTED_WIFI_STOP_BUDGET_MS in
  let elapsed := u32 (t - stop_started) in
  let remaining := if budget <=? elapsed then 0 else budget - elapsed in
  let* busy := get s_cmd_in_progress in
  if busy then
    let* t := now in let* started := get s_cmd_started_at in
    let cmd_elapsed := u32 (t - started) in
    let cmd_budget := pdMS_TO_TICKS HOSTED_WIFI_COMMAND_BUDGET_MS in
    mret (Z.min remaining (if cmd_budget <=? cmd_elapsed then 0 else cmd_budget - cmd_elapsed))
  else mret remaining.

(** [xSemaphoreTake] returns [pdTRUE], 1. *)
Definition sem_take (ticks : Z) : FM bool := let* r := call (WSemTake ticks) in mret (r =? 1).

Definition hosted_wait_wifi_event_ack (stop_started : Z) : FM bool :=
  let* remaining := hosted_wifi_stop_remaining stop_started in
  let first := Z.min (pdMS_TO_TICKS HOSTED_WIFI_EVENT_ACK_WARN_MS) remaining in
  let* got := if negb (remaining =? 0) then sem_take first else mret false in
  if got then mret true
  else
    let* remaining := hosted_wifi_stop_remaining stop_started in
    if negb (remaining =? 0) then sem_take remaining else mret false.

(** The handler of the marker event gives the semaphore the wait below takes. *)
Definition hosted_scan_fence_handler (s : fcmd) : fcmd := s <| s_scan_drain_pending := false |>.

Definition hosted_scan_abort : FM unit :=
  let* had := get s_scan_in_progress in
  if had then
    set (fun s => s <| s_scan_in_progress := false |> <| s_scan_drain_pending := true |>) ;;;
    let* _ := call WScanStop in mret tt
  else mret tt.

(** What a stopped radio leaves behind. *)
Definition retire_roles (s : fcmd) : fcmd :=
  on_app (fun a => a <| association_ongoing := false |> <| station_connected := false |>
                     <| station_authorized := false |> <| softap_started := false |>)
    (s <| s_wifi_started := false |> <| sta_init_flag := false |> <| s_assoc_generation := 0 |>
       <| s_assoc_bssid := zero_mac |> <| s_assoc_control_port := 0 |> <| s_assoc_is_reassoc := 0 |>
       <| s_auth_generation := 0 |> <| s_conn_generation := 0 |> <| s_disconnect_generation := 0 |>).

(** [esp_event_post] of the marker, tried again if it was not queued. *)
Definition post_fence (stop_started : Z) : FM Z :=
  let post :=
    let* remaining := hosted_wifi_stop_remaining stop_started in
    if negb (remaining =? 0)
    then let* r := call (WEventPost (Z.min (pdMS_TO_TICKS HOSTED_WIFI_FENCE_POST_WAIT_MS) remaining)) in mret (Some r)
    else mret None in
  let* r := post in
  let r := default ESP_ERR_TIMEOUT r in
  if r =? ESP_OK then mret r
  else let* r2 := post in mret (default r r2).

Definition hosted_wifi_stop : FM Z :=
  let* stop_started := now in
  let* started := get s_wifi_started in
  let* expect :=
    if started then
      let* m := call_val WGetMode in
      mret ((m.1 =? ESP_OK) && ((m.2 =? WIFI_MODE_STA) || (m.2 =? WIFI_MODE_APSTA)))
    else mret false in
  let* have := get s_wifi_stop_ack in
  let* _ := if have then sem_take 0 else mret false in
  set (fun s => s <| s_sta_stop_ack_pending := expect |> <| s_wifi_stop_in_progress := true |>) ;;;
  esp_hosted_monitor_snapshot_channel ;;;
  hosted_scan_abort ;;;
  let* ret := call WStop in
  when ((ret =? ESP_OK) || (ret =? ESP_ERR_WIFI_NOT_STARTED) || (ret =? ESP_ERR_WIFI_NOT_INIT))
    (set (fun s => retire_roles s <| mw := mw s <| cb_owned := false |> |>) ;;;
     let* e := get (fun s => w_turn W (calls s)) in
     set (fun s => s <| mw := mgmt_tx_fail_pending (te_done e) (mw s) |>)) ;;;
  if negb have then esp_restart
  else
    let* acked := if expect && (ret =? ESP_OK) then hosted_wait_wifi_event_ack stop_started else mret true in
    if negb acked then esp_restart
    else
      set (fun s => s <| s_sta_stop_ack_pending := false |>) ;;;
      let* _ := sem_take 0 in
      let* fence := post_fence stop_started in
      let* fenced := if fence =? ESP_OK then hosted_wait_wifi_event_ack stop_started else mret false in
      if negb fenced then esp_restart
      else set (fun s => hosted_scan_fence_handler s <| s_wifi_stop_in_progress := false |>) ;;; mret ret.

Definition hosted_wifi_start : FM Z :=
  let* ret := call WStart in
  if negb (ret =? ESP_OK) then mret ret
  else
    set (fun s => s <| s_wifi_started := true |> <| mw := mw s <| cb_owned := false |> |>) ;;;
    let* ret := ensure_mgmt_cb in
    if negb (ret =? ESP_OK) then let* _ := hosted_wifi_stop in mret ret
    else
      let* ret := esp_hosted_monitor_restore in
      if negb (ret =? ESP_OK) then let* _ := hosted_wifi_stop in mret ret else mret ESP_OK.
End Commands.
