(* ===== verification/FwHandlers.v ===== *)
(** * FwHandlers: the firmware's command handlers

    One definition per handler of [main/cmd.c], and the dispatcher with its table.
    Offsets are those of the packed structures of [main/include/adapter.h].
    [goto send_resp] is the [send_command_resp] at the end of a branch. *)
From S2P Require Import Prelude Wire RcpFw FwPath CmdQueue RawTp RawTpRun MgmtTx FwCmd.

Definition MAX_MULTICAST_ADDR_COUNT : Z := 8.
Definition MAX_SSID_LEN : Z := 32.
Definition MAX_KEY_LEN : Z := 32.
Definition MAX_SEQ_LEN : Z := 10.
Definition DEFAULT_SCAN_LIST_SIZE : nat := 10.
Definition sizeof_scan_request : Z := 52.
Definition sizeof_config_mac_address : Z := 16.
Definition offsetof_ie : Z := 12.
Definition sizeof_ap_config : Z := 53.
Definition sizeof_ap_add_sta_config : Z := 124.
Definition offsetof_auth_data : Z := 80.
Definition offsetof_assoc_ie : Z := 12.
Definition sizeof_sta_set_authorized : Z := 16.
Definition offsetof_connect_ie : Z := 52.
Definition sizeof_disconnect : Z := 16.
Definition sizeof_set_ip_addr : Z := 12.
Definition sizeof_set_mcast : Z := 57.
Definition sizeof_key_operation : Z := 76.
Definition sizeof_wow_config : Z := 13.
Definition sizeof_reg_domain : Z := 12.
Definition sizeof_config_mode : Z := 12.
Definition sizeof_set_time : Z := 24.
Definition sizeof_monitor_config : Z := 12.
Definition offsetof_ota_binary : Z := 10.

(** The ESP-IDF image header: 24 bytes, its chip id at byte 12. *)
Definition sizeof_esp_image_header : Z := 24.
Definition ESP_ERR_OTA_VALIDATE_FAILED : Z := 0x1503.
Definition DUMMY_PASSPHRASE : list Z := [49; 50; 51; 52; 53; 54; 55; 56; 0].
Definition WLAN_AUTH_SAE : Z := 3.
Definition WIFI_REASON_AUTH_LEAVE : Z := 3.

(** [enum ESP_IE_TYPE]. *)
Definition IE_BEACON : Z := 0.
Definition IE_PROBE_RESP : Z := 1.
Definition IE_ASSOC_RESP : Z := 2.
Definition IE_BEACON_PROBE_HEAD : Z := 4.
Definition IE_BEACON_PROBE_TAIL : Z := 5.
Definition appie_of (ie_type : Z) : option appie :=
  if ie_type =? IE_BEACON then Some WIFI_APPIE_RAM_BEACON
  else if ie_type =? IE_BEACON_PROBE_HEAD then Some WIFI_APPIE_RAM_BEACON_PROBE_HEAD
  else if ie_type =? IE_BEACON_PROBE_TAIL then Some WIFI_APPIE_RAM_BEACON_PROBE_TAIL
  else if ie_type =? IE_PROBE_RESP then Some WIFI_APPIE_RAM_PROBE_RSP
  else if ie_type =? IE_ASSOC_RESP then Some WIFI_APPIE_ASSOC_RESP
  else None.

(** [enum wifi_wpa_alg]. *)
Definition WIFI_WPA_ALG_WEP40 : Z := 1.
Definition WIFI_WPA_ALG_TKIP : Z := 2.
Definition WIFI_WPA_ALG_WEP104 : Z := 5.
Definition WIFI_WPA_ALG_IGTK : Z := 7.

Definition mac_given (mac : list Z) : bool := negb (bool_decide (mac = zero_mac)) && negb (IS_BROADCAST_ADDR mac).
Definition sign8 (b : Z) : Z := let b := u8 b in if b <? 128 then b else b - 256.

Section Handlers.
Variable cfg : fw_build.
Variable W : sdk.
Variable pdMS_TO_TICKS : Z -> Z.
Variable chip_id : Z.                  (* [CONFIG_IDF_FIRMWARE_CHIP_ID] *)
Variable spi_transport : bool.         (* [CONFIG_ESP_SPI_HOST_INTERFACE] *)
Variables igtk_size pn_size : Z.       (* the fields of [wifi_wpa_igtk_t] *)

Notation call := (call W).
Notation call_out := (call_out W).
Notation call_val := (call_val W).
Notation reply := (send_command_resp W).
Notation stop_wifi := (hosted_wifi_stop W pdMS_TO_TICKS).
Notation start_wifi := (hosted_wifi_start W pdMS_TO_TICKS).

(** [ESP_GOTO_ON_ERROR] chains: the first code that is not [ESP_OK]. *)
Fixpoint first_error (l : list (FM Z)) : FM Z :=
  match l with
  | [] => mret ESP_OK
  | m :: l => let* r := m in if r =? ESP_OK then first_error l else mret r
  end.

Definition ok_or_fail (r : Z) : COMMAND_RESPONSE_TYPE := if r =? ESP_OK then CMD_RESPONSE_SUCCESS else CMD_RESPONSE_FAIL.

(** ** Scan *)

(** [malloc] of a copy; [None] when it fails. *)
Definition alloc_copy (b : list Z) : FM (option (list Z)) :=
  let* m := call (WMalloc (zlen b)) in mret (if m =? 0 then None else Some b).

(** From the test of the Wi-Fi state on: the status to answer. *)
Definition scan_submit (ssid bssid : option (list Z)) (channel : Z) : FM COMMAND_RESPONSE_TYPE :=
  let config := if bool_decide (ssid = None /\ bssid = None) && (channel =? 0) then None else Some (ssid, channel, bssid) in
  let* started := get s_wifi_started in let* stopping := get s_wifi_stop_in_progress in
  if negb started || stopping then mret CMD_RESPONSE_FAIL
  else
    let* m := call_val WGetMode in
    if negb (m.1 =? ESP_OK) || (m.2 =? WIFI_MODE_NULL) then mret CMD_RESPONSE_FAIL
    else
      let* _ := call (WRegisterMgmt 298) in    (* BEACON | PROBE_RESP | ASSOC_RESP | REASSOC_RESP *)
      let* busy := get (fun s => s_scan_in_progress s || s_scan_drain_pending s) in
      if busy then mret CMD_RESPONSE_BUSY
      else
        set (fun s => s <| s_scan_in_progress := true |>) ;;;
        let* r := call (WScanStart config false) in
        if r =? ESP_OK then mret CMD_RESPONSE_SUCCESS
        else
          set (fun s => s <| s_scan_in_progress := false |>) ;;;
          let* _ := call (WRegisterMgmt 0) in mret CMD_RESPONSE_FAIL.

Definition process_start_scan (if_type : Z) (p : list Z) : FM Z :=
  let answer st := reply if_type (cmd_num CMD_SCAN_REQUEST) st [] in
  if zlen p <? sizeof_scan_request then answer CMD_RESPONSE_INVALID
  else
    let* busy := get (fun s => s_scan_in_progress s || s_scan_drain_pending s) in
    if busy then answer CMD_RESPONSE_BUSY
    else
      let* channel := rdle 1 49 p in
      let* blocked := monitor_blocks W channel false in
      if blocked then answer CMD_RESPONSE_BUSY
      else
        let* ssid := rd 16 33 p in
        let* s := if empty_string ssid then mret (Some None)
                  else let* c := alloc_copy ssid in mret (match c with Some x => Some (Some x) | None => None end) in
        match s with
        | None => answer CMD_RESPONSE_FAIL
        | Some ssid =>
            let* bssid := rd 8 6 p in
            let* b := if mac_given bssid
                      then let* c := alloc_copy bssid in mret (match c with Some x => Some (Some x) | None => None end)
                      else mret (Some None) in
            match b with
            | None => answer CMD_RESPONSE_FAIL
            | Some bssid => let* st := scan_submit ssid bssid channel in answer st
            end
        end.

(** ** Small settings *)

Definition process_set_mcast_mac_list (if_type : Z) (p : list Z) : FM Z :=
  let* count := rdle 1 8 p in
  if MAX_MULTICAST_ADDR_COUNT <? count then reply if_type (cmd_num CMD_SET_MCAST_MAC_ADDR) CMD_RESPONSE_FAIL []
  else
    let* addrs := rd 9 48 p in
    set (fun s => s <| mac_list := (count, addrs) |>) ;;;
    reply if_type (cmd_num CMD_SET_MCAST_MAC_ADDR) CMD_RESPONSE_SUCCESS [].

(** The power as the [uint32_t] of its byte. *)
Definition power_bytes (power : Z) : list Z := le_bytes 4 (u8 power).

Definition process_get_tx_power (if_type : Z) (p : list Z) : FM Z :=
  let* o := call_val WGetMaxTxPower in
  if negb (o.1 =? ESP_OK) then reply if_type (cmd_num CMD_GET_TXPOWER) CMD_RESPONSE_FAIL []
  else reply if_type (cmd_num CMD_GET_TXPOWER) CMD_RESPONSE_SUCCESS (power_bytes o.2).

Definition process_set_tx_power (if_type : Z) (p : list Z) : FM Z :=
  let answer st d := reply if_type (cmd_num CMD_SET_TXPOWER) st d in
  if zlen p <? sizeof_set_get_val then answer CMD_RESPONSE_INVALID []
  else
    let* value := rdle 4 8 p in
    let* r := call (WSetMaxTxPower (sign8 value)) in
    if negb (r =? ESP_OK) then answer CMD_RESPONSE_FAIL []
    else
      let* o := call_val WGetMaxTxPower in
      if negb (o.1 =? ESP_OK) then answer CMD_RESPONSE_FAIL []
      else answer CMD_RESPONSE_SUCCESS (power_bytes o.2).

Definition process_rssi (if_type : Z) (p : list Z) : FM Z :=
  let* o := call_out WGetApInfo in
  if negb (o.1 =? ESP_OK) then reply if_type (cmd_num CMD_STA_RSSI) CMD_RESPONSE_FAIL []
  else reply if_type (cmd_num CMD_STA_RSSI) CMD_RESPONSE_SUCCESS [u8 (byte_at 0 o.2)].

Definition process_set_ip (if_type : Z) (p : list Z) : FM Z :=
  let* ip := rdle 4 8 p in
  set (fun s => s <| ip_address := ip |>) ;;;
  reply if_type (cmd_num CMD_SET_IP_ADDR) CMD_RESPONSE_SUCCESS [].

Definition process_wow_set (if_type : Z) (p : list Z) : FM Z :=
  let* any := rdle 1 8 p in let* disc := rdle 1 9 p in let* magic := rdle 1 10 p in
  let* four := rdle 1 11 p in let* eap := rdle 1 12 p in
  set (fun s => s <| wow := if any =? 0 then mk_wow any disc magic four eap else mk_wow any 1 1 1 1 |>) ;;;
  reply if_type (cmd_num CMD_SET_WOW_CONFIG) CMD_RESPONSE_SUCCESS [].

Definition process_radio_service (if_type : Z) (p : list Z) : FM Z :=
  if zlen p <? sizeof_command_header then mret ESP_ERR_INVALID_ARG
  else
    let* code := rdle 1 0 p in
    let answer ret requested active flags nonce :=
      let status := if ret =? ESP_ERR_NOT_SUPPORTED then CMD_RESPONSE_UNSUPPORTED
                    else if ret =? ESP_ERR_INVALID_ARG then CMD_RESPONSE_INVALID else ok_or_fail ret in
      reply if_type code status ([requested; active; flags; 0] ++ le_bytes 8 nonce) in
    if code =? cmd_num CMD_SET_RADIO_SERVICE then
      if zlen p <? sizeof_radio_service then reply if_type code CMD_RESPONSE_INVALID []
      else
        let* requested := rdle 1 8 p in
        let* e := get (fun s => w_radio W (calls s)) in
        let* r := get (fun s => esp_radio_service_apply cfg e requested (app s)) in
        let '(ret, flags, a) := r in
        set (fun s => s <| app := a |>) ;;;
        (* a request outside the mask leaves the outputs at their initial zeros *)
        let snap := if negb (Z.land requested (Z.lnot ESP_RADIO_SERVICE_MASK) =? 0) then (0, 0)
                    else esp_radio_service_snapshot cfg a in
        answer ret requested snap.1 flags snap.2
    else if code =? cmd_num CMD_GET_RADIO_SERVICE then
      let* a := get app in
      let snap := esp_radio_service_snapshot cfg a in
      answer ESP_OK snap.1 snap.1 0 snap.2
    else reply if_type code CMD_RESPONSE_UNSUPPORTED [].

Definition process_set_time (if_type : Z) (p : list Z) : FM Z :=
  let answer st := reply if_type (cmd_num CMD_SET_TIME) st [] in
  if zlen p <? sizeof_set_time then answer CMD_RESPONSE_INVALID
  else
    let* sec := rdle 8 8 p in let* usec := rdle 8 16 p in
    let* r := call (WSetTime sec usec) in
    answer (ok_or_fail r).

Definition process_reg_set (if_type : Z) (p : list Z) : FM Z :=
  if zlen p <? sizeof_reg_domain then reply if_type (cmd_num CMD_SET_REG_DOMAIN) CMD_RESPONSE_INVALID []
  else
    let* country := rd 8 4 p in
    let* r := call (WSetCountry country) in
    reply if_type (cmd_num CMD_SET_REG_DOMAIN) (ok_or_fail r) country.

Definition process_reg_get (if_type : Z) (p : list Z) : FM Z :=
  let* o := call_out WGetCountry in
  if negb (o.1 =? ESP_OK) then reply if_type (cmd_num CMD_GET_REG_DOMAIN) CMD_RESPONSE_FAIL []
  else reply if_type (cmd_num CMD_GET_REG_DOMAIN) CMD_RESPONSE_SUCCESS (ztake 4 (o.2 ++ replicate 4 0)).

(** ** Firmware update *)

Definition ota_forget : FM unit :=
  set (fun s => s <| ota_handle := 0 |> <| update_partition := 0 |> <| verify_ota := false |>).
Definition ota_abort : FM unit :=
  let* h := get ota_handle in
  if h =? 0 then mret tt
  else let* _ := call (WOtaAbort h) in set (fun s => s <| ota_handle := 0 |>).

Definition process_ota_start (if_type : Z) (p : list Z) : FM Z :=
  let answer st := reply if_type (cmd_num CMD_START_OTA_UPDATE) st [] in
  ota_abort ;;;
  set (fun s => s <| verify_ota := false |> <| update_partition := 0 |>) ;;;
  let* part := call WOtaNextPartition in
  set (fun s => s <| update_partition := part |>) ;;;
  if part =? 0 then answer CMD_RESPONSE_FAIL
  else
    let* o := call_val (WOtaBegin part) in
    if negb (o.1 =? ESP_OK)
    then set (fun s => s <| ota_handle := 0 |> <| update_partition := 0 |>) ;;; answer CMD_RESPONSE_FAIL
    else set (fun s => s <| ota_handle := o.2 |>) ;;; answer CMD_RESPONSE_SUCCESS.

(** [verify_ota_image_header], on the chunk. *)
Definition verify_ota_image_header (image : list Z) : FM Z :=
  let* id := rdle 2 12 image in
  if negb (id =? chip_id) then mret (-1) else set (fun s => s <| verify_ota := true |>) ;;; mret 0.

Definition process_ota_write (if_type : Z) (p : list Z) : FM Z :=
  let answer st := reply if_type (cmd_num CMD_START_OTA_WRITE) st [] in
  if zlen p <? offsetof_ota_binary then answer CMD_RESPONSE_INVALID
  else
    let* n := rdle 2 8 p in
    let* verified := get verify_ota in
    if (n =? 0) || negb (cmd_flex_len_valid (zlen p) offsetof_ota_binary n)
       || (negb verified && (n <? sizeof_esp_image_header))
    then answer CMD_RESPONSE_INVALID
    else
      let* image := rd offsetof_ota_binary n p in
      let* r := if verified then mret 0 else verify_ota_image_header image in
      let* r := if negb (r =? 0) then mret r else let* h := get ota_handle in call (WOtaWrite h image) in
      if r =? 0 then answer CMD_RESPONSE_SUCCESS
      else ota_abort ;;; set (fun s => s <| update_partition := 0 |> <| verify_ota := false |>) ;;; answer CMD_RESPONSE_FAIL.

(** The status to answer; [esp_restart] when the old partition cannot be restored. *)
Definition ota_commit : FM COMMAND_RESPONSE_TYPE :=
  let* h := get ota_handle in
  let* r := call (WOtaEnd h) in
  set (fun s => s <| ota_handle := 0 |>) ;;;
  if negb (r =? ESP_OK) then mret CMD_RESPONSE_FAIL
  else
    let* timer := call WTimerCreate in
    if timer =? 0 then mret CMD_RESPONSE_FAIL
    else
      let* old := call WOtaGetBoot in
      let* part := get update_partition in
      let* r := call (WOtaSetBoot part) in
      if negb (r =? ESP_OK) then let* _ := call WTimerDelete in mret CMD_RESPONSE_FAIL
      else
        let* started := call WTimerStart in
        if started =? 1 then mret CMD_RESPONSE_SUCCESS
        else
          let* r := if old =? 0 then mret ESP_OK else call (WOtaSetBoot old) in
          if negb (r =? ESP_OK) then esp_restart
          else let* _ := call WTimerDelete in mret CMD_RESPONSE_FAIL.

Definition process_ota_end (if_type : Z) (p : list Z) : FM Z :=
  let* st := ota_commit in
  ota_forget ;;;
  reply if_type (cmd_num CMD_START_OTA_END) st [].

(** ** Connection *)

Definition clear_assoc (s : fcmd) : fcmd :=
  s <| s_assoc_generation := 0 |> <| s_assoc_bssid := zero_mac |> <| s_assoc_control_port := 0 |>
    <| s_assoc_is_reassoc := 0 |>.

(** The subtypes [DISCONNECT_TYPE_DISASSOC] and [_LOCAL] are 1 and 2. *)
Definition process_disconnect (if_type : Z) (p : list Z) : FM Z :=
  let answer st := reply if_type (cmd_num CMD_DISCONNECT) st [] in
  if zlen p <? sizeof_disconnect then answer CMD_RESPONSE_INVALID
  else
    let* reason := rdle 2 8 p in
    let* had := get (fun s => station_connected (app s) || association_ongoing (app s)) in
    let* m := call_val WGetMode in
    if negb (m.1 =? ESP_OK) then answer CMD_RESPONSE_FAIL
    else if if_type =? if_code ESP_STA_IF then
      let* subtype := rdle 1 6 p in
      let* init := get sta_init_flag in
      if (subtype =? 2) || (subtype =? 1) then answer CMD_RESPONSE_UNSUPPORTED
      else if init && had && ((m.2 =? WIFI_MODE_STA) || (m.2 =? WIFI_MODE_APSTA)) then
        set (fun s => on_app (fun a => a <| association_ongoing := false |>)
          (clear_assoc (s <| s_disconnect_generation := active_cmd_seq s |> <| s_disconnect_subtype := subtype |>))) ;;;
        let* _ := call (WDeauth (u8 reason)) in
        answer CMD_RESPONSE_SUCCESS
      else answer CMD_RESPONSE_FAIL
    else if if_type =? if_code ESP_AP_IF then
      let* ap := get (fun s => softap_started (app s)) in
      if ap && ((m.2 =? WIFI_MODE_AP) || (m.2 =? WIFI_MODE_APSTA)) then
        let* mac := rd 10 6 p in
        let* r := call (WDeleteNode mac) in
        answer (ok_or_fail r)
      else answer CMD_RESPONSE_FAIL
    else answer CMD_RESPONSE_INVALID.

Definition cleanup_wpa2_cb : FM unit :=
  let* _ := call WUnregisterWpa2 in set (fun s => s <| wpa2_cb := false |>).

(** [WLAN_AUTH] continuations: SAE confirm, or a repeated SAE commit. *)
Definition auth_continue (bssid : list Z) (auth_type seq : Z) : FM COMMAND_RESPONSE_TYPE :=
  let* r := call (WSendAuth bssid auth_type seq) in
  if r =? ESP_OK then mret CMD_RESPONSE_SUCCESS
  else
    set (fun s => s <| s_auth_generation := 0 |>) ;;;
    let* _ := call (WUnsetAppie WIFI_APPIE_RAM_STA_AUTH) in mret CMD_RESPONSE_FAIL.

Definition is_enterprise (m : auth_mode) : bool :=
  bool_decide (m ∈ [WIFI_AUTH_WPA2_ENTERPRISE; WIFI_AUTH_WPA3_ENT_192; WIFI_AUTH_WPA3_ENTERPRISE;
                    WIFI_AUTH_WPA2_WPA3_ENTERPRISE; WIFI_AUTH_WPA_ENTERPRISE]).

Definition sta_config_for (m : auth_mode) (ssid key bssid : list Z) (channel : Z) : sta_config :=
  let '(password, mode, owe) :=
    match m with
    | WIFI_AUTH_WEP => (key, WIFI_AUTH_WEP, false)
    | WIFI_AUTH_OWE => ([], WIFI_AUTH_OPEN, true)
    | WIFI_AUTH_OPEN => ([], WIFI_AUTH_OPEN, false)
    | _ => (DUMMY_PASSPHRASE, WIFI_AUTH_WPA_PSK, false)
    end in
  mk_sta (ztake MAX_SSID_LEN ssid) password mode owe bssid true channel.

(** The lookup scan: the access point's authentication mode. *)
Definition auth_lookup (bssid : list Z) (channel : Z) : FM (COMMAND_RESPONSE_TYPE + auth_mode) :=
  let* busy := get (fun s => s_scan_in_progress s || s_scan_drain_pending s) in
  if busy then mret (inl CMD_RESPONSE_BUSY)
  else
    let* m := call (WMalloc 6) in
    if m =? 0 then mret (inl CMD_RESPONSE_FAIL)
    else
      set (fun s => s <| s_auth_scan_in_progress := true |>) ;;;
      let* r := call (WScanStart (Some (None, channel, Some bssid)) true) in
      let* aps := get (fun s => w_aps W (calls s)) in
      let* r2 := if r =? ESP_OK then call WGetApRecords else mret r in
      set (fun s => s <| s_auth_scan_in_progress := false |>) ;;;
      if negb (r2 =? ESP_OK) then let* _ := call WClearApList in mret (inl CMD_RESPONSE_FAIL)
      else
        let* _ := call (WRegisterMgmt 7178) in  (* ASSOC_RESP | REASSOC_RESP | AUTH | DEAUTH | DISASSOC *)
        match list_find (fun ap => ap.1 = bssid) (take DEFAULT_SCAN_LIST_SIZE aps) with
        | Some (_, ap) => mret (inr ap.2)
        | None => mret (inl CMD_RESPONSE_FAIL)
        end.

(** The callbacks of an enterprise network: the status, and whether they are new. *)
Definition auth_enterprise (m : auth_mode) : FM (COMMAND_RESPONSE_TYPE * bool) :=
  if negb (is_enterprise m) then mret (CMD_RESPONSE_SUCCESS, false)
  else
    cleanup_wpa2_cb ;;;
    let* a := call (WMalloc 16) in
    if a =? 0 then mret (CMD_RESPONSE_FAIL, false)
    else
      set (fun s => s <| wpa2_cb := true |>) ;;;
      let* r := call WRegisterWpa2 in
      if r =? 0 then mret (CMD_RESPONSE_SUCCESS, true)
      else set (fun s => s <| wpa2_cb := false |>) ;;; mret (CMD_RESPONSE_FAIL, false).

(** A new attempt: the status, and whether the callbacks were created. *)
Definition auth_connect (ssid key bssid : list Z) (channel : Z) : FM (COMMAND_RESPONSE_TYPE * bool) :=
  let* found := auth_lookup bssid channel in
  match found with
  | inl st => mret (st, false)
  | inr mode =>
      let* have := get ap_bssid in
      let* a := match have with Some _ => mret 1 | None => call (WMalloc 6) end in
      when (negb (a =? 0)) (set (fun s => s <| ap_bssid := Some bssid |>)) ;;;
      let* e := auth_enterprise mode in
      match e.1 with
      | CMD_RESPONSE_SUCCESS =>
          let* r := first_error [call (WSetStaConfig (sta_config_for mode ssid key bssid channel)); call WConnect] in
          mret (ok_or_fail r, e.2)
      | st => mret (st, e.2)
      end
  end.

(** A request while a connection is being made continues it only as an SAE confirm
    or as a repeated SAE commit to the same access point. *)
Definition auth_overlaps (msg_type auth_type : Z) (bssid : list Z) : FM bool :=
  let* ongoing := get (fun s => association_ongoing (app s)) in
  if ongoing && negb (msg_type =? 2) then
    if (msg_type =? 1) && (auth_type =? WLAN_AUTH_SAE) then
      let* o := call_out (WGetConfig WIFI_IF_STA) in
      mret (negb ((o.1 =? ESP_OK) && bool_decide (ztake 6 o.2 = bssid)))
    else mret true
  else mret false.

Definition process_auth_request (if_type : Z) (p : list Z) : FM Z :=
  let answer st := reply if_type (cmd_num CMD_STA_AUTH) st [] in
  if zlen p <? offsetof_auth_data then answer CMD_RESPONSE_INVALID
  else
    let* channel := rdle 1 14 p in
    let* blocked := monitor_blocks W channel true in
    if blocked then answer CMD_RESPONSE_BUSY
    else
      let* key_len := rdle 1 49 p in let* data_len := rdle 1 77 p in
      if (27 <? key_len) || negb (cmd_flex_len_valid (zlen p) offsetof_auth_data data_len)
         || (negb (data_len =? 0) && (data_len <? 4))
      then answer CMD_RESPONSE_INVALID
      else
        let* bssid := rd 8 6 p in let* auth_type := rdle 1 15 p in
        let* data := rd offsetof_auth_data data_len p in
        let msg_type := if data_len =? 0 then 0 else byte_at 0 data in
        let* overlaps := auth_overlaps msg_type auth_type bssid in
        if overlaps then answer CMD_RESPONSE_BUSY
        else
          set (fun s => s <| s_auth_generation := active_cmd_seq s |> <| s_auth_bssid := bssid |>
                          <| s_assoc_bssid := bssid |>) ;;;
          let* _ := call (WUnsetAppie WIFI_APPIE_RAM_STA_AUTH) in
          let* _ := if data_len =? 0 then mret 0 else call (WSetAppie WIFI_APPIE_RAM_STA_AUTH (zdrop 4 data)) in
          let* ongoing := get (fun s => association_ongoing (app s)) in
          let* ssid := rd 16 33 p in let* key := rd 50 27 p in
          let* r := if msg_type =? 2 then let* st := auth_continue bssid auth_type 2 in mret (st, false)
                    else if ongoing && (msg_type =? 1) then let* st := auth_continue bssid auth_type 1 in mret (st, false)
                    else auth_connect ssid key bssid channel in
          match r.1 with
          | CMD_RESPONSE_SUCCESS =>
              set (on_app (fun a => a <| association_ongoing := true |>)) ;;; answer CMD_RESPONSE_SUCCESS
          | st =>
              set (fun s => s <| s_auth_generation := 0 |> <| s_auth_bssid := zero_mac |>) ;;;
              when r.2 cleanup_wpa2_cb ;;;
              answer st
          end.

Definition process_assoc_request (if_type : Z) (p : list Z) : FM Z :=
  let answer st := reply if_type (cmd_num CMD_STA_ASSOC) st [] in
  if zlen p <? offsetof_assoc_ie then answer CMD_RESPONSE_INVALID
  else
    let* n := rdle 1 8 p in
    if negb (cmd_flex_len_valid (zlen p) offsetof_assoc_ie n) then answer CMD_RESPONSE_INVALID
    else
      let* gen := get s_assoc_generation in
      if negb (gen =? 0) then answer CMD_RESPONSE_BUSY
      else
        let* _ := call (WUnsetAppie WIFI_APPIE_ASSOC_REQ) in
        let* ie := rd offsetof_assoc_ie n p in
        let* r := if n =? 0 then mret 0 else call (WSetAppie WIFI_APPIE_ASSOC_REQ ie) in
        if negb (r =? 0) then answer CMD_RESPONSE_FAIL
        else
          let* re := rdle 1 9 p in let* port := rdle 1 10 p in
          set (fun s => on_app (fun a => a <| association_ongoing := true |>) (s <| s_assoc_generation := active_cmd_seq s |>)) ;;;
          let* o := call_out (WGetConfig WIFI_IF_STA) in
          when ((o.1 =? ESP_OK) && negb (byte_at 6 o.2 =? 0)) (set (fun s => s <| s_assoc_bssid := ztake 6 o.2 |>)) ;;;
          set (fun s => s <| s_assoc_control_port := if port =? 0 then 0 else 1 |>
                          <| s_assoc_is_reassoc := if re =? 0 then 0 else 1 |>) ;;;
          let* r := call (WSendAssoc (if re =? 0 then 0 else 2)) in
          if r =? 0 then answer CMD_RESPONSE_SUCCESS
          else
            set (fun s => on_app (fun a =>
                   let a := a <| association_ongoing := false |> in
                   if s_assoc_is_reassoc s =? 0 then a <| station_authorized := false |> else a) (clear_assoc s)) ;;;
            let* _ := call (WUnsetAppie WIFI_APPIE_ASSOC_REQ) in
            answer CMD_RESPONSE_FAIL.

Definition set_authorized (b : bool) : FM unit := set (on_app (fun a => a <| station_authorized := b |>)).

Definition process_sta_set_authorized (if_type : Z) (p : list Z) : FM Z :=
  let answer st := reply if_type (cmd_num CMD_STA_SET_AUTHORIZED) st [] in
  if negb (if_type =? if_code ESP_STA_IF) || (zlen p <? sizeof_sta_set_authorized) then answer CMD_RESPONSE_INVALID
  else
    let* authorized := rdle 1 14 p in
    if 1 <? authorized then answer CMD_RESPONSE_INVALID
    else
      let* connected := get (fun s => station_connected (app s)) in
      if (authorized =? 0) && negb connected then set_authorized false ;;; answer CMD_RESPONSE_SUCCESS
      else
        let* ap := get ap_bssid in
        let* peer := match ap with
                     | Some b => mret (Some b)
                     | None => let* o := call_out WGetAssocBssid in mret (if o.1 =? 0 then Some (ztake 6 o.2) else None)
                     end in
        match peer with
        | None => answer CMD_RESPONSE_BUSY
        | Some peer =>
            let* bssid := rd 8 6 p in
            if mac_given bssid && negb (bool_decide (peer = bssid)) then answer CMD_RESPONSE_FAIL
            else if negb (authorized =? 0) then
              let* r := call WAuthDone in      (* true is success *)
              if r =? 0 then answer CMD_RESPONSE_FAIL else set_authorized true ;;; answer CMD_RESPONSE_SUCCESS
            else set_authorized false ;;; answer CMD_RESPONSE_SUCCESS
        end.

Definition process_sta_connect (if_type : Z) (p : list Z) : FM Z :=
  let answer st := reply if_type (cmd_num CMD_STA_CONNECT) st [] in
  if zlen p <? offsetof_connect_ie then answer CMD_RESPONSE_INVALID
  else
    let* channel := rdle 1 49 p in
    let* blocked := monitor_blocks W channel true in
    if blocked then answer CMD_RESPONSE_BUSY
    else
      let* n := rdle 1 51 p in
      if negb (cmd_flex_len_valid (zlen p) offsetof_connect_ie n) then answer CMD_RESPONSE_INVALID
      else
        let* _ := call (WRegisterMgmt 2058) in   (* ASSOC_RESP | REASSOC_RESP | AUTH *)
        let* ssid := rd 16 32 p in let* open := rdle 1 50 p in let* bssid := rd 8 6 p in
        let* ie := rd offsetof_connect_ie n p in
        let* _ := if n =? 0 then mret 0
                  else let* _ := call (WUnsetAppie WIFI_APPIE_ASSOC_REQ) in call (WSetAppie WIFI_APPIE_ASSOC_REQ ie) in
        let c := mk_sta ssid (if open =? 0 then DUMMY_PASSPHRASE else []) WIFI_AUTH_OPEN false bssid false channel in
        let* r := first_error [call (WSetStaConfig c); start_wifi] in
        if negb (r =? ESP_OK) then answer CMD_RESPONSE_FAIL
        else
          set (fun s => on_app (fun a => a <| association_ongoing := true |>)
                 (s <| s_assoc_generation := active_cmd_seq s |> <| s_assoc_bssid := bssid |>)) ;;;
          let* r := call WConnect in
          if r =? ESP_OK then answer CMD_RESPONSE_SUCCESS
          else
            set (fun s => on_app (fun a => a <| association_ongoing := false |>) (clear_assoc s)) ;;;
            answer CMD_RESPONSE_FAIL.

(** ** Interfaces *)

(** A monitor alone on the radio: taking down the idle station must not stop it. *)
Definition monitor_sta_idle (if_type : Z) : FM bool :=
  let* pre := get (fun s => (if_type =? if_code ESP_STA_IF) && s_monitor_enabled s && s_wifi_started s
    && negb (s_wifi_stop_in_progress s) && negb (association_ongoing (app s)) && negb (s_scan_in_progress s)
    && negb (s_scan_drain_pending s) && negb (s_auth_scan_in_progress s)) in
  if negb pre then mret false
  else
    let* m := call_val WGetMode in
    if negb (m.1 =? ESP_OK) || negb (m.2 =? WIFI_MODE_STA) then mret false
    else let* r := call WGetApInfo in mret (negb (r =? ESP_OK)).

Definition stopped_enough (r : Z) : bool :=
  (r =? ESP_OK) || (r =? ESP_ERR_WIFI_NOT_INIT) || (r =? ESP_ERR_WIFI_NOT_STARTED).

Definition process_deinit_interface (if_type : Z) (p : list Z) : FM Z :=
  let answer st := reply if_type (cmd_num CMD_DEINIT_INTERFACE) st [] in
  hosted_fail_pending W ;;;
  let* idle := monitor_sta_idle if_type in
  esp_hosted_monitor_snapshot_channel W ;;;
  when (if_type =? if_code ESP_STA_IF)
    (let* init := get sta_init_flag in
     let* m := if init then call WGetMode else mret (-1) in
     let* _ := if init && (m =? 0) then call (WDeauth WIFI_REASON_AUTH_LEAVE) else mret 0 in
     let* _ := call WDisconnect in mret tt) ;;;
  set (fun s => on_app (fun a => a <| association_ongoing := false |> <| station_connected := false |>
                                   <| station_authorized := false |>)
    (clear_assoc s <| s_auth_generation := 0 |> <| s_conn_generation := 0 |> <| s_disconnect_generation := 0 |>)) ;;;
  let* monitor := get s_monitor_enabled in
  if negb monitor then
    let* r := stop_wifi in
    if stopped_enough r then answer CMD_RESPONSE_SUCCESS else esp_restart
  else if idle then answer CMD_RESPONSE_SUCCESS
  else
    let* r := stop_wifi in
    if negb (stopped_enough r) then esp_restart
    else
      let* mac := get dev_mac in
      let* r := first_error [call (WSetMac WIFI_IF_AP dummy_mac2); call (WSetMode WIFI_MODE_STA);
                             call (WSetMac WIFI_IF_STA mac); start_wifi] in
      if negb (r =? ESP_OK) then esp_restart else answer CMD_RESPONSE_SUCCESS.

Definition zero_sta_config : sta_config := mk_sta [] [] WIFI_AUTH_OPEN false zero_mac false 0.

(** The status of bringing the interface up. *)
Definition init_status (if_type : Z) : FM COMMAND_RESPONSE_TYPE :=
  let* m := call_val WGetMode in
  if negb (m.1 =? ESP_OK) then mret CMD_RESPONSE_FAIL
  else
    let* started := get s_wifi_started in
    if started && negb ((if_type =? if_code ESP_AP_IF) && negb (m.2 =? WIFI_MODE_AP) && negb (m.2 =? WIFI_MODE_APSTA))
    then mret CMD_RESPONSE_SUCCESS
    else
      let* mac := call_out WReadMac in
      set (fun s => s <| dev_mac := ztake 6 mac.2 |>) ;;;
      if if_type =? if_code ESP_AP_IF then
        let* _ := call WDisconnect in
        let* r := first_error [call (WSetMode WIFI_MODE_APSTA); call (WSetStaConfig zero_sta_config); start_wifi] in
        mret (ok_or_fail r)
      else if if_type =? if_code ESP_STA_IF then
        let* r := first_error [call (WSetMode WIFI_MODE_STA); start_wifi] in mret (ok_or_fail r)
      else mret CMD_RESPONSE_FAIL.

Definition process_init_interface (if_type : Z) (p : list Z) : FM Z :=
  let* st := init_status if_type in
  let* r := reply if_type (cmd_num CMD_INIT_INTERFACE) st [] in
  if r =? ESP_OK then mret r
  else let* _ := stop_wifi in let* _ := call WDeinit in mret r.   (* deinitialize_wifi *)

Definition process_get_mac (if_type : Z) (p : list Z) : FM Z :=
  let* mac := get dev_mac in reply if_type (cmd_num CMD_GET_MAC) CMD_RESPONSE_SUCCESS mac.

Definition process_set_mac (if_type : Z) (p : list Z) : FM Z :=
  let* mac := rd 8 6 p in
  let* r := call (WSetMac (if if_type =? if_code ESP_STA_IF then WIFI_IF_STA else WIFI_IF_AP) mac) in
  when (r =? 0) (set (fun s => s <| dev_mac := mac |>)) ;;;
  reply if_type (cmd_num CMD_SET_MAC) (ok_or_fail r) mac.

(** ** Keys *)

Definition process_set_default_key (if_type : Z) (p : list Z) : FM Z :=
  let answer st := reply if_type (cmd_num CMD_SET_DEFAULT_KEY) st [] in
  if zlen p <? sizeof_key_operation then answer CMD_RESPONSE_INVALID else answer CMD_RESPONSE_SUCCESS.

Definition process_del_key (if_type : Z) (p : list Z) : FM Z :=
  let answer st := reply if_type (cmd_num CMD_DEL_KEY) st [] in
  if zlen p <? sizeof_key_operation then answer CMD_RESPONSE_INVALID
  else let* del := rdle 1 72 p in answer (if del =? 0 then CMD_RESPONSE_FAIL else CMD_RESPONSE_SUCCESS).

(** [set_key_internal] on the copy of the command. *)
Definition set_key_internal (if_type : Z) (p : list Z) : FM Z :=
  let* algo := rdle 4 8 p in let* index := rdle 4 12 p in
  let* data := rd 16 32 p in let* key_len := rdle 4 48 p in
  let* mac := rd 52 6 p in let* seq := rd 58 10 p in let* seq_len := rdle 4 68 p in
  let ap := if_type =? if_code ESP_AP_IF in
  if (MAX_KEY_LEN <? key_len) || (MAX_SEQ_LEN <? seq_len) then mret ESP_ERR_INVALID_ARG
  else if (algo =? WIFI_WPA_ALG_WEP40) || (algo =? WIFI_WPA_ALG_WEP104) then mret ESP_OK
  else if negb (index =? 0) && (algo =? WIFI_WPA_ALG_IGTK) then
    if (igtk_size <? key_len) || (pn_size <? seq_len) then mret ESP_ERR_INVALID_ARG
    else call (WSetIgtk (if ap then WIFI_IF_AP else WIFI_IF_STA) (ztake key_len data) (ztake seq_len seq)
                 [u8 index; u8 (index / 256)])
  else if ap then call (WSetApKey algo mac index (ztake key_len data))
  else call (WSetStaKey algo mac index (if index =? 0 then 1 else 0) (ztake seq_len seq) (ztake key_len data) (index =? 0)).

Definition process_add_key (if_type : Z) (p : list Z) : FM Z :=
  let answer st := reply if_type (cmd_num CMD_ADD_KEY) st [] in
  if zlen p <? sizeof_key_operation then answer CMD_RESPONSE_INVALID
  else
    let* key_len := rdle 4 48 p in let* seq_len := rdle 4 68 p in
    if (MAX_KEY_LEN <? key_len) || (MAX_SEQ_LEN <? seq_len) then answer CMD_RESPONSE_INVALID
    else
      let* m := call (WMalloc sizeof_key_operation) in
      if m =? 0 then answer CMD_RESPONSE_FAIL
      else let* r := set_key_internal if_type p in answer (ok_or_fail r).

(** ** Modes: a change is committed or rolled back *)

(** All the steps, whatever the earlier ones return: did all succeed? *)
Fixpoint run_all (l : list (FM Z)) : FM bool :=
  match l with
  | [] => mret true
  | m :: l => let* r := m in let* ok := run_all l in mret ((r =? ESP_OK) && ok)
  end.

(** The callback the change took over is given back. *)
Definition drop_new_cb (was_owned : bool) : FM unit :=
  let* owned := get (fun s => cb_owned (mw s)) in
  if negb was_owned && owned
  then let* _ := call WPpUnregister in set (fun s => s <| mw := mw s <| cb_owned := false |> |>)
  else mret tt.

(** Started before or not: the same again; the code of the call made. *)
Definition restore_started (was_started : bool) : FM Z :=
  let* started := get s_wifi_started in
  if was_started && negb started then start_wifi
  else if negb was_started && started then stop_wifi
  else mret ESP_OK.

Definition restart_unless (ok : bool) : FM unit := if ok then mret tt else esp_restart.

Definition mode_change (req_mode : Z) : FM Z :=
  let* mac := get dev_mac in
  if req_mode =? WIFI_MODE_STA then
    first_error [call (WSetMac WIFI_IF_AP dummy_mac2); call (WSetMode WIFI_MODE_STA); call (WSetMac WIFI_IF_STA mac)]
  else
    first_error [call (WSetMac WIFI_IF_STA dummy_mac); call (WSetMode WIFI_MODE_APSTA); call (WSetMac WIFI_IF_AP mac);
                 call (WSetStaConfig zero_sta_config)].

(** What [process_set_mode] and [process_set_ap_config] remember before. *)
Record radio_snapshot := mk_snapshot { sn_mode : Z; sn_sta_cfg : bool; sn_ap_cfg : bool; sn_inactive : option Z;
  sn_sta_mac : list Z; sn_ap_mac : list Z; sn_cb : bool; sn_started : bool }.

Definition mode_snapshot (old_mode : Z) : FM radio_snapshot :=
  let* c1 := call (WGetConfig WIFI_IF_STA) in let* c2 := call (WGetConfig WIFI_IF_AP) in
  let* cb := get (fun s => cb_owned (mw s)) in
  let* m1 := call_out (WGetMac WIFI_IF_STA) in let* m2 := call_out (WGetMac WIFI_IF_AP) in
  let* st := get s_wifi_started in
  mret (mk_snapshot old_mode (c1 =? ESP_OK) (c2 =? ESP_OK) None (ztake 6 m1.2) (ztake 6 m2.2) cb st).

Definition mode_rollback (sn : radio_snapshot) : FM unit :=
  let* ok1 := run_all ([call (WSetMode (sn_mode sn)); call (WSetMac WIFI_IF_STA (sn_sta_mac sn));
                        call (WSetMac WIFI_IF_AP (sn_ap_mac sn))]
                       ++ (if sn_sta_cfg sn then [call (WRestoreConfig WIFI_IF_STA)] else [])
                       ++ (if sn_ap_cfg sn then [call (WRestoreConfig WIFI_IF_AP)] else [])) in
  drop_new_cb (sn_cb sn) ;;;
  let* r := restore_started (sn_started sn) in
  restart_unless (ok1 && (r =? ESP_OK)).

(** From the stop on: the change, and its rollback. *)
Definition set_mode_apply (req_mode old_mode : Z) (need_cb : bool) (sn : radio_snapshot) : FM COMMAND_RESPONSE_TYPE :=
  let* r := if old_mode =? req_mode then mret ESP_OK else stop_wifi in
  if negb (r =? ESP_OK) then mret CMD_RESPONSE_FAIL
  else
    let* r := if old_mode =? req_mode then mret ESP_OK else mode_change req_mode in
    let* r := if (r =? ESP_OK) && need_cb then ensure_mgmt_cb W else mret r in
    let* started := get s_wifi_started in
    let* r := if (r =? ESP_OK) && negb started then start_wifi else mret r in
    if r =? ESP_OK then hosted_fail_pending W ;;; mret CMD_RESPONSE_SUCCESS
    else mode_rollback sn ;;; mret CMD_RESPONSE_FAIL.

(** The status of a mode request that is valid. *)
Definition set_mode_status (req_mode : Z) : FM COMMAND_RESPONSE_TYPE :=
  let need_cb := (req_mode =? WIFI_MODE_AP) || (req_mode =? WIFI_MODE_APSTA) in
  let* m := call_val WGetMode in
  if negb (m.1 =? ESP_OK) then mret CMD_RESPONSE_FAIL
  else
    let* started := get s_wifi_started in let* owned := get (fun s => cb_owned (mw s)) in
    if (m.2 =? req_mode) && started && (negb need_cb || owned) then mret CMD_RESPONSE_SUCCESS
    else let* sn := mode_snapshot m.2 in set_mode_apply req_mode m.2 need_cb sn.

Definition process_set_mode (if_type : Z) (p : list Z) : FM Z :=
  let answer st d := reply if_type (cmd_num CMD_SET_MODE) st d in
  if zlen p <? sizeof_config_mode then answer CMD_RESPONSE_INVALID []
  else
    let* mode := rdle 2 8 p in
    if negb (mode =? WIFI_MODE_STA) && negb (mode =? WIFI_MODE_AP) && negb (mode =? WIFI_MODE_APSTA)
    then answer CMD_RESPONSE_INVALID []
    else let* st := set_mode_status mode in answer st (le_bytes 2 mode).

Definition process_set_ie (if_type : Z) (p : list Z) : FM Z :=
  let answer st := reply if_type (cmd_num CMD_SET_IE) st [] in
  if zlen p <? offsetof_ie then answer CMD_RESPONSE_INVALID
  else
    let* n := rdle 2 10 p in
    if negb (cmd_flex_len_valid (zlen p) offsetof_ie n) then answer CMD_RESPONSE_INVALID
    else if negb (if_type =? if_code ESP_AP_IF) then answer CMD_RESPONSE_INVALID
    else
      let* type := rdle 1 8 p in
      match appie_of type with
      | None => answer CMD_RESPONSE_INVALID
      | Some a =>
          let* ie := rd offsetof_ie n p in
          let* r := if n =? 0 then call (WUnsetAppie a) else call (WSetAppie a ie) in
          answer (if r =? 0 then CMD_RESPONSE_SUCCESS else CMD_RESPONSE_INVALID)
      end.

(** The rollback of [process_set_ap_config]. *)
Definition ap_rollback (sn : radio_snapshot) : FM unit :=
  let* ok1 := run_all ([call (WSetMode (sn_mode sn)); call (WRestoreConfig WIFI_IF_AP)]
                       ++ match sn_inactive sn with Some t => [call (WSetInactive t)] | None => [] end) in
  drop_new_cb (sn_cb sn) ;;;
  let* _ := if sn_started sn then mret 0 else call (WRegisterApRx false) in
  let* r := restore_started (sn_started sn) in
  restart_unless (ok1 && (r =? ESP_OK)).

Definition ap_apply (old_mode : Z) (c : ap_config_t) (inactivity : Z) : FM Z :=
  first_error ((if old_mode =? WIFI_MODE_APSTA then [] else [call (WSetMode WIFI_MODE_APSTA)])
    ++ [call (WSetApConfig c)] ++ (if inactivity =? 0 then [] else [call (WSetInactive inactivity)])
    ++ [ensure_mgmt_cb W; call (WRegisterApRx true); start_wifi]).

Definition ap_config_status (c : ap_config_t) (inactivity : Z) : FM COMMAND_RESPONSE_TYPE :=
  let* m := call_val WGetMode in
  if negb (m.1 =? ESP_OK) then mret CMD_RESPONSE_FAIL
  else
    let* t := call_val WGetInactive in
    let* cb := get (fun s => cb_owned (mw s)) in
    let* _ := call (WGetConfig WIFI_IF_AP) in
    let* st := get s_wifi_started in
    let sn := mk_snapshot m.2 false true (if t.1 =? ESP_OK then Some t.2 else None) [] [] cb st in
    let* r := stop_wifi in
    if negb (r =? ESP_OK) then mret CMD_RESPONSE_FAIL
    else
      let* r := ap_apply m.2 c inactivity in
      if r =? ESP_OK then hosted_fail_pending W ;;; mret CMD_RESPONSE_SUCCESS
      else ap_rollback sn ;;; mret CMD_RESPONSE_FAIL.

Definition process_set_ap_config (if_type : Z) (p : list Z) : FM Z :=
  let answer st := reply if_type (cmd_num CMD_AP_CONFIG) st [] in
  if negb (if_type =? if_code ESP_AP_IF) || (zlen p <? sizeof_ap_config) then answer CMD_RESPONSE_INVALID
  else
    let* channel := rdle 1 41 p in
    let* blocked := monitor_blocks W channel true in
    if blocked then answer CMD_RESPONSE_BUSY
    else
      let* ssid_len := rdle 1 40 p in
      if 32 <? ssid_len then answer CMD_RESPONSE_INVALID
      else
        let* beacon := rdle 2 48 p in let* inactivity := rdle 2 50 p in
        let* ssid := rd 8 ssid_len p in let* privacy := rdle 1 52 p in let* hidden := rdle 1 43 p in
        let c := mk_ap ssid ssid_len (if privacy =? 0 then [] else ztake 8 DUMMY_PASSPHRASE)
                   (if privacy =? 0 then WIFI_AUTH_OPEN else WIFI_AUTH_WPA2_WPA3_PSK) channel hidden beacon 8 in
        let* st := ap_config_status c inactivity in
        answer st.

(** ** Stations, monitor, reboot, raw throughput, management frames *)

(** [add_station_node_ap]; [AUTHORIZED] is bit 1 of the flags, [MFP] bit 4. *)
Definition add_station_node_ap (p : list Z) : FM Z :=
  let* cmd := rdle 2 14 p in let* mask := rdle 4 16 p in let* flags := rdle 4 20 p in
  let* aid := rdle 2 32 p in let* mac := rd 8 6 p in
  if cmd =? 1 then
    if test_bit 1 mask then
      if test_bit 1 flags then let* r := call (WPtkDone mac) in mret (if r =? 0 then ESP_FAIL else ESP_OK)
      else mret ESP_ERR_NOT_SUPPORTED
    else mret ESP_OK
  else if cmd =? 0 then
    let* rates := rd 40 12 p in let* ht := rd 52 28 p in let* vht := rd 80 14 p in let* he := rd 96 27 p in
    let given b := if byte_at 0 b =? 0 then None else Some b in
    call (WAddNode mac aid (given rates) (given ht) (given vht) (given he) (test_bit 4 flags))
  else mret ESP_ERR_INVALID_ARG.

Definition process_ap_station (if_type : Z) (p : list Z) : FM Z :=
  let answer st := reply if_type (cmd_num CMD_AP_STATION) st [] in
  if negb (if_type =? if_code ESP_AP_IF) || (zlen p <? sizeof_ap_add_sta_config) then answer CMD_RESPONSE_INVALID
  else let* r := add_station_node_ap p in answer (if r =? 0 then CMD_RESPONSE_SUCCESS else CMD_RESPONSE_FAIL).

Definition process_monitor_config (if_type : Z) (p : list Z) : FM Z :=
  let answer st := reply if_type (cmd_num CMD_MONITOR_CONFIG) st [] in
  if negb (if_type =? if_code ESP_MONITOR_IF) || (zlen p <? sizeof_monitor_config) then answer CMD_RESPONSE_INVALID
  else
    let* enable := rdle 1 8 p in
    if 1 <? enable then answer CMD_RESPONSE_INVALID
    else
      let* channel := rdle 1 9 p in
      let* r := esp_hosted_monitor_config W (negb (enable =? 0)) channel in
      answer (if r =? ESP_ERR_INVALID_ARG then CMD_RESPONSE_INVALID
              else if r =? ESP_ERR_INVALID_STATE then CMD_RESPONSE_BUSY else ok_or_fail r).

Definition process_host_reboot (if_type : Z) (p : list Z) : FM Z :=
  if negb (if_type =? if_code ESP_INTERNAL_IF) || (zlen p <? sizeof_command_header) then mret ESP_ERR_INVALID_ARG
  else reply if_type (cmd_num CMD_HOST_REBOOT)
         (if spi_transport then CMD_RESPONSE_SUCCESS else CMD_RESPONSE_UNSUPPORTED) [].

(** A management frame answers through [hosted_send_mgmt_accept] and the callback. *)
Definition process_mgmt_frame (if_type : Z) (p : list Z) : FM Z :=
  let* ap := get (fun s => softap_started (app s)) in
  let* seq := get active_cmd_seq in
  run_mgmt W (fun e => process_mgmt_tx e ap seq if_type p) ;;;
  mret ESP_OK.

(** [process_raw_tp] of [stats.c]. *)
Definition process_raw_tp_cmd (if_type : Z) (p : list Z) : FM Z :=
  let* e := get (fun s => w_raw W (calls s)) in
  let* x := get (fun s => process_raw_tp e p (raw s)) in
  let '(ret, resp, r) := x in
  set (fun s => s <| raw := r |> <| resps := resps s ++ match resp with Some b => [(if_type, b)] | None => [] end |>) ;;;
  mret ret.

(** ** Dispatch *)

Definition s_cmd_table : list (COMMAND_CODE * Z * (Z -> list Z -> FM Z)) := [
  (CMD_INIT_INTERFACE, 0, process_init_interface);
  (CMD_SET_MAC, sizeof_config_mac_address, process_set_mac);
  (CMD_GET_MAC, 0, process_get_mac);
  (CMD_SCAN_REQUEST, sizeof_scan_request, process_start_scan);
  (CMD_STA_CONNECT, 0, process_sta_connect);
  (CMD_DISCONNECT, sizeof_disconnect, process_disconnect);
  (CMD_DEINIT_INTERFACE, 0, process_deinit_interface);
  (CMD_ADD_KEY, 0, process_add_key);
  (CMD_DEL_KEY, 0, process_del_key);
  (CMD_SET_DEFAULT_KEY, 0, process_set_default_key);
  (CMD_STA_AUTH, 0, process_auth_request);
  (CMD_STA_ASSOC, 0, process_assoc_request);
  (CMD_SET_IP_ADDR, sizeof_set_ip_addr, process_set_ip);
  (CMD_SET_MCAST_MAC_ADDR, sizeof_set_mcast, process_set_mcast_mac_list);
  (CMD_GET_TXPOWER, 0, process_get_tx_power);
  (CMD_SET_TXPOWER, sizeof_set_get_val, process_set_tx_power);
  (CMD_GET_REG_DOMAIN, 0, process_reg_get);
  (CMD_SET_REG_DOMAIN, sizeof_reg_domain, process_reg_set);
  (CMD_RAW_TP_ESP_TO_HOST, 0, process_raw_tp_cmd);
  (CMD_RAW_TP_HOST_TO_ESP, 0, process_raw_tp_cmd);
  (CMD_RAW_TP_BIDIRECTIONAL, 0, process_raw_tp_cmd);
  (CMD_SET_WOW_CONFIG, sizeof_wow_config, process_wow_set);
  (CMD_SET_MODE, 0, process_set_mode);
  (CMD_SET_IE, 0, process_set_ie);
  (CMD_AP_CONFIG, 0, process_set_ap_config);
  (CMD_MGMT_TX, 0, process_mgmt_frame);
  (CMD_AP_STATION, sizeof_ap_add_sta_config, process_ap_station);
  (CMD_STA_RSSI, 0, process_rssi);
  (CMD_SET_TIME, sizeof_set_time, process_set_time);
  (CMD_START_OTA_UPDATE, 0, process_ota_start);
  (CMD_START_OTA_WRITE, 0, process_ota_write);
  (CMD_START_OTA_END, 0, process_ota_end);
  (CMD_STA_SET_AUTHORIZED, sizeof_sta_set_authorized, process_sta_set_authorized);
  (CMD_SET_RADIO_SERVICE, sizeof_radio_service, process_radio_service);
  (CMD_GET_RADIO_SERVICE, sizeof_command_header, process_radio_service);
  (CMD_HOST_REBOOT, sizeof_command_header, process_host_reboot);
  (CMD_MONITOR_CONFIG, sizeof_monitor_config, process_monitor_config)].

Definition find_entry (code : Z) : option (COMMAND_CODE * Z * (Z -> list Z -> FM Z)) :=
  snd <$> list_find (fun x => cmd_num x.1.1 = code) s_cmd_table.

(** [NULL] payloads do not occur: the caller has a received frame. *)
Definition esp_cmd_dispatch (if_type : Z) (p : list Z) : FM Z :=
  if zlen p <? sizeof_command_header then mret ESP_ERR_INVALID_ARG
  else
    let* code := rdle 1 0 p in let* seq := rdle 2 4 p in
    set (fun s => s <| active_cmd_code := code |> <| active_cmd_seq := seq |>) ;;;
    match find_entry code with
    | None => let* _ := reply if_type code CMD_RESPONSE_UNSUPPORTED [] in mret ESP_ERR_NOT_SUPPORTED
    | Some (_, min_payload_len, handler) =>
        if zlen p <? min_payload_len
        then let* _ := reply if_type code CMD_RESPONSE_FAIL [] in mret ESP_ERR_INVALID_ARG
        else
          let* t := now W in
          set (fun s => s <| s_cmd_started_at := t |> <| s_cmd_in_progress := true |>) ;;;
          let* result := handler if_type p in
          let* _ := now W in
          set (fun s => s <| s_cmd_in_progress := false |>) ;;;
          mret result
    end.
End Handlers.
