(* ===== verification/FwCmdSafe.v ===== *)
(** * FwCmdSafe: the firmware's command handlers keep their contract

    For every handler: it never reads past the payload it was given, and it answers
    once, with the command's code and sequence number.  Both are one judgement,
    [runs]: [plain] for what runs before the answer, [answers] for what ends in it.
    A rule per construct of [FM], a lemma per shared routine, a lemma per handler. *)
From S2P Require Import Prelude Wire RcpFw FwPath CmdQueue RawTp RawTpRun MgmtTx FwCmd FwHandlers.

Create HintDb runs.
Create HintDb handlers.

Section Safe.
Variable cfg : fw_build.
Variable W : sdk.
Variable ms : Z -> Z.
Variables (chip_id : Z) (spi_transport : bool) (igtk_size pn_size : Z).
Variables (p : list Z) (if_type : Z).
Hypothesis p_bytes : bytes_ok p.

(** The command's code and sequence number. *)
Let code := byte_at 0 p.
Let seq := le_at 2 4 p.

(** One response with that header was queued; or none was, because a buffer or the
    queue was refused. *)
Definition is_response (b : list Z) : Prop := byte_at 0 b = code /\ le_at 2 4 b = seq.
Definition refuses : Prop :=
  (exists h n, w_ret W h (WMalloc n) = 0) \/ (exists h n, w_ret W h (WRespond n) <> 1)
  \/ (exists h, re_malloc (w_raw W h) = false) \/ (exists h, re_send (w_raw W h) <> 1).
Definition replied (s s' : fcmd) : Prop :=
  (exists b, is_response b /\ resps s' = resps s ++ [(if_type, b)]) \/ (refuses /\ resps s' = resps s).

Definition outcome (ans : bool) (s s' : fcmd) : Prop := if ans then replied s s' else resps s' = resps s.
Definition runs (ans : bool) {A} (m : FM A) : Prop := forall s, active_cmd_seq s = seq ->
  match m s with
  | (inr _, s') => active_cmd_seq s' = seq /\ outcome ans s s'
  | (inl Overread, _) => False
  | (inl Restart, s') => resps s' = resps s \/ outcome ans s s'
  end.
Notation plain := (runs false).
Notation answers := (runs true).

Lemma outcome_same ans s1 s2 s3 : resps s2 = resps s1 -> outcome ans s2 s3 -> outcome ans s1 s3.
Proof. unfold outcome, replied. by intros ->. Qed.
Lemma outcome_then ans s1 s2 s3 : outcome ans s1 s2 -> resps s3 = resps s2 -> outcome ans s1 s3.
Proof. unfold outcome, replied. by intros H ->. Qed.

(** *** The constructs of [FM] *)
Lemma runs_ret {A} (x : A) : plain (mret x).
Proof. by intros s Hs. Qed.
Lemma runs_restart {A} ans : runs ans (@esp_restart A).
Proof. intros s Hs. by left. Qed.
Lemma runs_bind {A B} ans (m : FM A) (f : A -> FM B) : plain m -> (forall x, runs ans (f x)) -> runs ans (mbind m f).
Proof.
  intros Hm Hf s Hs. unfold mbind. specialize (Hm s Hs). destruct (m s) as [[[]|x] s1]; [done|..].
  - by destruct Hm as [?|?]; left.
  - destruct Hm as [H1 H2]. specialize (Hf x s1 H1). destruct (f x s1) as [[[]|y] s2]; [done|..].
    + destruct Hf as [He|Ho]; [left; by rewrite He|right; by apply (outcome_same _ _ s1)].
    + destruct Hf as [? Ho]. split; [done|]. by apply (outcome_same _ _ s1).
Qed.
(** What follows the answer. *)
Lemma runs_after {A B} (m : FM A) (f : A -> FM B) : answers m -> (forall x, plain (f x)) -> answers (mbind m f).
Proof.
  intros Hm Hf s Hs. unfold mbind. specialize (Hm s Hs). destruct (m s) as [[[]|x] s1]; [done..|].
  destruct Hm as [H1 H2]. specialize (Hf x s1 H1). destruct (f x s1) as [[[]|y] s2]; [done|..].
  - right. apply (outcome_then _ _ _ s2 H2). by destruct Hf.
  - destruct Hf as [? Ho]. split; [done|]. by apply (outcome_then _ _ _ s2 H2).
Qed.
Lemma runs_get {A} (f : fcmd -> A) : plain (get f).
Proof. by intros s Hs. Qed.
(** A write that leaves the sequence number and the responses alone. *)
Lemma runs_set f : (forall s, active_cmd_seq (f s) = active_cmd_seq s /\ resps (f s) = resps s) -> plain (set f).
Proof. intros H s Hs. destruct (H s) as [H1 H2]. cbn. rewrite H1. done. Qed.
Lemma runs_when b m : plain m -> plain (when b m).
Proof. intros. destruct b; [done|apply runs_ret]. Qed.
Lemma runs_call c : plain (call W c).
Proof. by intros s Hs. Qed.
Lemma runs_call_out c : plain (call_out W c).
Proof. by intros s Hs. Qed.
Lemma runs_call_val c : plain (call_val W c).
Proof. apply runs_bind; [apply runs_call_out|intros; apply runs_ret]. Qed.

(** The payload is read in its bounds; what is read is a number. *)
Lemma runs_rd {B} ans off n (f : list Z -> FM B) :
  0 <= off -> 0 <= n -> off + n <= zlen p -> (forall b, zlen b = n -> bytes_ok b -> runs ans (f b)) ->
  runs ans (mbind (rd off n p) f).
Proof.
  intros H1 H2 H3 Hf. unfold rd.
  rewrite (proj2 (Z.leb_le 0 off)), (proj2 (Z.leb_le 0 n)), (proj2 (Z.leb_le (off + n) (zlen p))) by lia.
  change (runs ans (f (ztake n (zdrop off p)))). apply Hf; [zlia|by apply Forall_ztake, Forall_zdrop].
Qed.
Lemma runs_rdle {B} ans n off (f : Z -> FM B) :
  0 <= off -> off + Z.of_nat n <= zlen p -> (forall v, 0 <= v < 2 ^ (8 * Z.of_nat n) -> runs ans (f v)) ->
  runs ans (mbind (rdle n off p) f).
Proof.
  intros H1 H2 Hf.
  assert (H : runs ans (mbind (rd off (Z.of_nat n) p) (fun b => f (le_val b)))).
  { apply runs_rd; [lia..|]. intros b Hb Hok. apply Hf. rewrite <- Hb. by apply le_val_range. }
  intros s Hs. specialize (H s Hs). unfold rdle, mbind, mret in *. by destruct (rd off (Z.of_nat n) p s) as [[?|?] ?].
Qed.

Lemma seq_width : in_width 16 seq.
Proof.
  unfold seq, le_at. pose proof (le_val_range (ztake (Z.of_nat 2) (zdrop 4 p))) as H.
  assert (Hb : bytes_ok (ztake (Z.of_nat 2) (zdrop 4 p))) by (by apply Forall_ztake, Forall_zdrop).
  specialize (H Hb). unfold in_width in *. split; [lia|]. eapply Z.lt_le_trans; [apply H|].
  apply Z.pow_le_mono_r; [lia|]. rewrite zlen_ztake. lia.
Qed.

(** ** The shared routines *)

Lemma response_header st data : is_response (response_bytes if_type code st seq data).
Proof.
  unfold is_response, response_bytes, le_at. split; [done|].
  set (n := if _ && _ then _ else _). clearbody n.
  rewrite app_assoc, zdrop_app_exact by (by rewrite zlen_app, zlen_le_bytes).
  rewrite ztake_app_exact by (by rewrite zlen_le_bytes).
  rewrite le_val_le_bytes. apply wrap_id, seq_width.
Qed.

Lemma answers_reply c st data : c = code -> answers (send_command_resp W if_type c st data).
Proof.
  intros -> s Hs. unfold send_command_resp, mbind at 1, get. rewrite Hs.
  pose proof (response_header (resp_num st) data) as Hh.
  set (b := response_bytes _ _ _ _ _) in *. clearbody b. unfold call, set, mbind, mmodify, mret. cbv zeta beta iota.
  destruct (Z.eqb_spec (w_ret W (calls s) (WMalloc (zlen b))) 0) as [Hm|Hm]; cbn.
  { split; [done|]. right. split; [|done]. left. by eexists _, _. }
  match goal with |- context [?x =? 1] => destruct (Z.eqb_spec x 1) as [Hr|Hr] end; cbn.
  - split; [done|]. left. eexists. split; [exact Hh|done].
  - split; [done|]. right. split; [|done]. right. left. by eexists _, _.
Qed.

Lemma runs_first_error l : Forall (fun m => plain m) l -> plain (first_error l).
Proof.
  induction 1 as [|m l Hm Hl IH]; [apply runs_ret|]. cbn [first_error].
  apply runs_bind; [done|]. intros r. destruct (r =? ESP_OK); [done|apply runs_ret].
Qed.
Lemma runs_run_all l : Forall (fun m => plain m) l -> plain (run_all l).
Proof.
  induction 1 as [|m l Hm Hl IH]; [apply runs_ret|]. cbn [run_all].
  apply runs_bind; [done|]. intros r. apply runs_bind; [done|]. intros ok. apply runs_ret.
Qed.

Lemma runs_run_mgmt f : plain (run_mgmt W f).
Proof.
  intros s Hs. unfold run_mgmt, mbind, get, set, mmodify. cbn.
  destruct (restarted _); cbn; [by left|done].
Qed.

(** [if]s and matches become cases; a lemma of [runs] closes what is a routine. *)
#[local] Hint Resolve runs_ret runs_restart runs_get runs_call runs_call_out runs_call_val runs_run_mgmt : runs.
Ltac runs_bounds := first [lia | bool_hyps; unfold sizeof_scan_request, sizeof_config_mac_address, offsetof_ie,
  sizeof_ap_config, sizeof_ap_add_sta_config, offsetof_auth_data, offsetof_assoc_ie, sizeof_sta_set_authorized,
  offsetof_connect_ie, sizeof_disconnect, sizeof_set_ip_addr, sizeof_set_mcast, sizeof_key_operation, sizeof_wow_config,
  sizeof_reg_domain, sizeof_config_mode, sizeof_set_time, sizeof_monitor_config, offsetof_ota_binary,
  sizeof_set_get_val, sizeof_radio_service, sizeof_command_header, cmd_flex_len_valid in *; bool_hyps; lia].
Ltac runs_step :=
  match goal with
  | |- runs _ (let _ := _ in _) => cbv zeta
  | |- runs _ (mbind (rd _ _ p) _) => apply runs_rd; [runs_bounds|runs_bounds|runs_bounds|intros ? ? ?]
  | |- runs _ (mbind (rdle _ _ p) _) => apply runs_rdle; [runs_bounds|runs_bounds|intros ? ?]
  | |- runs _ (mbind _ _) => apply runs_bind; [|intros ?]
  | |- runs false (set _) => apply runs_set; intros; split; reflexivity
  | |- runs false (when _ _) => apply runs_when
  | |- runs _ (first_error _) => apply runs_first_error
  | |- runs _ (run_all _) => apply runs_run_all
  | |- Forall _ (_ ++ _) => apply Forall_app; split
  | |- Forall _ (if ?b then _ else _) => destruct b eqn:?
  | |- Forall _ (match ?b with _ => _ end) => destruct b eqn:?
  | |- Forall _ (_ :: _) => apply Forall_cons; split
  | |- Forall _ [] => apply Forall_nil; exact I
  | |- runs _ (if ?b then _ else _) => destruct b eqn:?
  | |- runs _ (match ?x with _ => _ end) => destruct x eqn:?
  | |- runs true (send_command_resp _ _ _ _ _) => apply answers_reply; congruence
  | |- runs _ _ => solve [auto 2 with runs]
  end.
Ltac runs_solve := repeat runs_step.

Lemma plain_fail_pending : plain (hosted_fail_pending W).
Proof. apply runs_run_mgmt. Qed.
Lemma plain_ensure_mgmt_cb : plain (ensure_mgmt_cb W).
Proof. unfold ensure_mgmt_cb. runs_solve. Qed.
Lemma plain_now : plain (now W).
Proof. unfold now. runs_solve. Qed.
Lemma plain_snapshot_channel : plain (esp_hosted_monitor_snapshot_channel W).
Proof. unfold esp_hosted_monitor_snapshot_channel. runs_solve. Qed.
Lemma plain_monitor_channel : plain (esp_hosted_monitor_channel W).
Proof. unfold esp_hosted_monitor_channel. runs_solve. Qed.
#[local] Hint Resolve plain_fail_pending plain_ensure_mgmt_cb plain_now plain_snapshot_channel plain_monitor_channel : runs.
Lemma plain_channel_allowed c b : plain (esp_hosted_monitor_channel_allowed W c b).
Proof. unfold esp_hosted_monitor_channel_allowed. runs_solve. Qed.
#[local] Hint Resolve plain_channel_allowed : runs.
Lemma plain_monitor_blocks c b : plain (monitor_blocks W c b).
Proof. unfold monitor_blocks. runs_solve. Qed.
Lemma plain_monitor_apply : plain (monitor_apply W).
Proof. unfold monitor_apply. runs_solve. Qed.
Lemma plain_monitor_rollback r a b c d e f : plain (monitor_rollback W r a b c d e f).
Proof. unfold monitor_rollback. runs_solve. Qed.
Lemma plain_monitor_disable : plain (monitor_disable W).
Proof. unfold monitor_disable. runs_solve. Qed.
#[local] Hint Resolve plain_monitor_blocks plain_monitor_apply plain_monitor_rollback plain_monitor_disable : runs.
Lemma plain_monitor_commit a b c d : plain (monitor_commit W a b c d).
Proof. unfold monitor_commit. runs_solve. Qed.
#[local] Hint Resolve plain_monitor_commit : runs.
Lemma plain_monitor_config b c : plain (esp_hosted_monitor_config W b c).
Proof. unfold esp_hosted_monitor_config, esp_hosted_wifi_channel_transition_active. runs_solve. Qed.
#[local] Hint Resolve plain_monitor_config : runs.
Lemma plain_monitor_restore : plain (esp_hosted_monitor_restore W).
Proof. unfold esp_hosted_monitor_restore. runs_solve. Qed.
#[local] Hint Resolve plain_monitor_restore : runs.
Lemma plain_stop_remaining t : plain (hosted_wifi_stop_remaining W ms t).
Proof. unfold hosted_wifi_stop_remaining. runs_solve. Qed.
Lemma plain_sem_take t : plain (sem_take W t).
Proof. unfold sem_take. runs_solve. Qed.
#[local] Hint Resolve plain_stop_remaining plain_sem_take : runs.
Lemma plain_wait_ack t : plain (hosted_wait_wifi_event_ack W ms t).
Proof. unfold hosted_wait_wifi_event_ack. runs_solve. Qed.
Lemma plain_scan_abort : plain (hosted_scan_abort W).
Proof. unfold hosted_scan_abort. runs_solve. Qed.
Lemma plain_post_fence t : plain (post_fence W ms t).
Proof. unfold post_fence. runs_solve. Qed.
#[local] Hint Resolve plain_wait_ack plain_scan_abort plain_post_fence : runs.
Lemma plain_stop : plain (hosted_wifi_stop W ms).
Proof. unfold hosted_wifi_stop. runs_solve. Qed.
#[local] Hint Resolve plain_stop : runs.
Lemma plain_start : plain (hosted_wifi_start W ms).
Proof. unfold hosted_wifi_start. runs_solve. Qed.
#[local] Hint Resolve plain_start : runs.

(** ** The parts of the handlers *)

Lemma plain_alloc_copy b : plain (alloc_copy W b).
Proof. unfold alloc_copy. runs_solve. Qed.
Lemma plain_scan_submit a b c : plain (scan_submit W a b c).
Proof. unfold scan_submit. runs_solve. Qed.
Lemma plain_ota_forget : plain (ota_forget).
Proof. unfold ota_forget. runs_solve. Qed.
Lemma plain_ota_abort : plain (ota_abort W).
Proof. unfold ota_abort. runs_solve. Qed.
Lemma plain_ota_commit : plain (ota_commit W).
Proof. unfold ota_commit. runs_solve. Qed.
Lemma plain_cleanup_wpa2_cb : plain (cleanup_wpa2_cb W).
Proof. unfold cleanup_wpa2_cb. runs_solve. Qed.
Lemma plain_set_authorized b : plain (set_authorized b).
Proof. unfold set_authorized. runs_solve. Qed.
#[local] Hint Resolve plain_alloc_copy plain_scan_submit plain_ota_forget plain_ota_abort plain_ota_commit plain_cleanup_wpa2_cb plain_set_authorized : runs.
Lemma plain_auth_continue b t q : plain (auth_continue W b t q).
Proof. unfold auth_continue. runs_solve. Qed.
Lemma plain_auth_lookup b c : plain (auth_lookup W b c).
Proof. unfold auth_lookup. runs_solve. Qed.
Lemma plain_auth_enterprise m : plain (auth_enterprise W m).
Proof. unfold auth_enterprise. runs_solve. Qed.
#[local] Hint Resolve plain_auth_continue plain_auth_lookup plain_auth_enterprise : runs.
Lemma plain_auth_connect a k b c : plain (auth_connect W a k b c).
Proof. unfold auth_connect. runs_solve. Qed.
Lemma plain_auth_overlaps a b c : plain (auth_overlaps W a b c).
Proof. unfold auth_overlaps. runs_solve. Qed.
Lemma plain_monitor_sta_idle i : plain (monitor_sta_idle W i).
Proof. unfold monitor_sta_idle. runs_solve. Qed.
Lemma plain_init_status i : plain (init_status W ms i).
Proof. unfold init_status. runs_solve. Qed.
#[local] Hint Resolve plain_auth_connect plain_auth_overlaps plain_monitor_sta_idle plain_init_status : runs.
Lemma plain_drop_new_cb b : plain (drop_new_cb W b).
Proof. unfold drop_new_cb. runs_solve. Qed.
Lemma plain_restore_started b : plain (restore_started W ms b).
Proof. unfold restore_started. runs_solve. Qed.
Lemma plain_restart_unless b : plain (restart_unless b).
Proof. unfold restart_unless. runs_solve. Qed.
Lemma plain_mode_change m : plain (mode_change W m).
Proof. unfold mode_change. runs_solve. Qed.
Lemma plain_mode_snapshot m : plain (mode_snapshot W m).
Proof. unfold mode_snapshot. runs_solve. Qed.
#[local] Hint Resolve plain_drop_new_cb plain_restore_started plain_restart_unless plain_mode_change plain_mode_snapshot : runs.
Lemma plain_mode_rollback sn : plain (mode_rollback W ms sn).
Proof. unfold mode_rollback. runs_solve. Qed.
#[local] Hint Resolve plain_mode_rollback : runs.
Lemma plain_set_mode_apply m o n sn : plain (set_mode_apply W ms m o n sn).
Proof. unfold set_mode_apply. runs_solve. Qed.
#[local] Hint Resolve plain_set_mode_apply : runs.
Lemma plain_set_mode_status m : plain (set_mode_status W ms m).
Proof. unfold set_mode_status. runs_solve. Qed.
Lemma plain_ap_rollback sn : plain (ap_rollback W ms sn).
Proof. unfold ap_rollback. runs_solve. Qed.
Lemma plain_ap_apply a b c : plain (ap_apply W ms a b c).
Proof. unfold ap_apply. runs_solve. Qed.
#[local] Hint Resolve plain_set_mode_status plain_ap_rollback plain_ap_apply : runs.
Lemma plain_ap_config_status a b : plain (ap_config_status W ms a b).
Proof. unfold ap_config_status. runs_solve. Qed.
#[local] Hint Resolve plain_ap_config_status : runs.
Lemma plain_verify_ota image : 14 <= zlen image -> plain (verify_ota_image_header chip_id image).
Proof.
  intros Hl. unfold verify_ota_image_header, rdle, rd.
  rewrite (proj2 (Z.leb_le (12 + Z.of_nat 2) (zlen image))) by lia. cbn [Z.leb Z.compare Z.of_nat andb].
  change (Z.of_nat 2) with 2. apply runs_bind; [apply runs_bind; intros; apply runs_ret|intros; runs_solve].
Qed.

Lemma plain_set_key : sizeof_key_operation <= zlen p -> plain (set_key_internal W igtk_size pn_size if_type p).
Proof. intros. unfold set_key_internal. runs_solve. Qed.
Lemma plain_add_station : sizeof_ap_add_sta_config <= zlen p -> plain (add_station_node_ap W p).
Proof. intros. unfold add_station_node_ap. runs_solve. Qed.

(** ** The handlers *)
Lemma answers_start_scan : cmd_num CMD_SCAN_REQUEST = code -> answers (process_start_scan W if_type p).
Proof. intros; unfold process_start_scan. runs_solve. Qed.
Lemma answers_set_mcast_mac_list : cmd_num CMD_SET_MCAST_MAC_ADDR = code -> sizeof_set_mcast <= zlen p -> answers (process_set_mcast_mac_list W if_type p).
Proof. intros; unfold process_set_mcast_mac_list. runs_solve. Qed.
Lemma answers_get_tx_power : cmd_num CMD_GET_TXPOWER = code -> answers (process_get_tx_power W if_type p).
Proof. intros; unfold process_get_tx_power. runs_solve. Qed.
Lemma answers_set_tx_power : cmd_num CMD_SET_TXPOWER = code -> answers (process_set_tx_power W if_type p).
Proof. intros; unfold process_set_tx_power. runs_solve. Qed.
Lemma answers_rssi : cmd_num CMD_STA_RSSI = code -> answers (process_rssi W if_type p).
Proof. intros; unfold process_rssi. runs_solve. Qed.
Lemma answers_set_ip : cmd_num CMD_SET_IP_ADDR = code -> sizeof_set_ip_addr <= zlen p -> answers (process_set_ip W if_type p).
Proof. intros; unfold process_set_ip. runs_solve. Qed.
Lemma answers_wow_set : cmd_num CMD_SET_WOW_CONFIG = code -> sizeof_wow_config <= zlen p -> answers (process_wow_set W if_type p).
Proof. intros; unfold process_wow_set. runs_solve. Qed.
Lemma answers_set_time : cmd_num CMD_SET_TIME = code -> answers (process_set_time W if_type p).
Proof. intros; unfold process_set_time. runs_solve. Qed.
Lemma answers_reg_set : cmd_num CMD_SET_REG_DOMAIN = code -> answers (process_reg_set W if_type p).
Proof. intros; unfold process_reg_set. runs_solve. Qed.
Lemma answers_reg_get : cmd_num CMD_GET_REG_DOMAIN = code -> answers (process_reg_get W if_type p).
Proof. intros; unfold process_reg_get. runs_solve. Qed.
Lemma answers_ota_start : cmd_num CMD_START_OTA_UPDATE = code -> answers (process_ota_start W if_type p).
Proof. intros; unfold process_ota_start. runs_solve. Qed.
Lemma answers_ota_write : cmd_num CMD_START_OTA_WRITE = code -> answers (process_ota_write W chip_id if_type p).
Proof. intros; unfold process_ota_write. runs_solve.
  apply plain_verify_ota. bool_hyps. unfold sizeof_esp_image_header in *. cbn [negb andb] in *. bool_hyps. lia.
Qed.
Lemma answers_ota_end : cmd_num CMD_START_OTA_END = code -> answers (process_ota_end W if_type p).
Proof. intros; unfold process_ota_end. runs_solve. Qed.
Lemma answers_disconnect : cmd_num CMD_DISCONNECT = code -> answers (process_disconnect W if_type p).
Proof. intros; unfold process_disconnect. runs_solve. Qed.
Lemma answers_auth_request : cmd_num CMD_STA_AUTH = code -> answers (process_auth_request W if_type p).
Proof. intros; unfold process_auth_request. runs_solve. Qed.
Lemma answers_assoc_request : cmd_num CMD_STA_ASSOC = code -> answers (process_assoc_request W if_type p).
Proof. intros; unfold process_assoc_request. runs_solve. Qed.
Lemma answers_sta_set_authorized : cmd_num CMD_STA_SET_AUTHORIZED = code -> answers (process_sta_set_authorized W if_type p).
Proof. intros; unfold process_sta_set_authorized. runs_solve. Qed.
Lemma answers_sta_connect : cmd_num CMD_STA_CONNECT = code -> answers (process_sta_connect W ms if_type p).
Proof. intros; unfold process_sta_connect. runs_solve. Qed.
Lemma answers_deinit_interface : cmd_num CMD_DEINIT_INTERFACE = code -> answers (process_deinit_interface W ms if_type p).
Proof. intros; unfold process_deinit_interface. runs_solve. Qed.
Lemma answers_init_interface : cmd_num CMD_INIT_INTERFACE = code -> answers (process_init_interface W ms if_type p).
Proof. intros; unfold process_init_interface. apply runs_bind; [runs_solve|intros st].
  apply runs_after; [apply answers_reply; congruence|intros r; runs_solve].
Qed.
Lemma answers_get_mac : cmd_num CMD_GET_MAC = code -> answers (process_get_mac W if_type p).
Proof. intros; unfold process_get_mac. runs_solve. Qed.
Lemma answers_set_mac : cmd_num CMD_SET_MAC = code -> sizeof_config_mac_address <= zlen p -> answers (process_set_mac W if_type p).
Proof. intros; unfold process_set_mac. runs_solve. Qed.
Lemma answers_set_default_key : cmd_num CMD_SET_DEFAULT_KEY = code -> answers (process_set_default_key W if_type p).
Proof. intros; unfold process_set_default_key. runs_solve. Qed.
Lemma answers_del_key : cmd_num CMD_DEL_KEY = code -> answers (process_del_key W if_type p).
Proof. intros; unfold process_del_key. runs_solve. Qed.
Lemma answers_add_key : cmd_num CMD_ADD_KEY = code -> answers (process_add_key W igtk_size pn_size if_type p).
Proof. intros; unfold process_add_key. runs_solve.
  apply plain_set_key. bool_hyps. lia.
Qed.
Lemma answers_set_mode : cmd_num CMD_SET_MODE = code -> answers (process_set_mode W ms if_type p).
Proof. intros; unfold process_set_mode. runs_solve. Qed.
Lemma answers_set_ie : cmd_num CMD_SET_IE = code -> answers (process_set_ie W if_type p).
Proof. intros; unfold process_set_ie. runs_solve. Qed.
Lemma answers_set_ap_config : cmd_num CMD_AP_CONFIG = code -> answers (process_set_ap_config W ms if_type p).
Proof. intros; unfold process_set_ap_config. runs_solve. Qed.
Lemma answers_ap_station : cmd_num CMD_AP_STATION = code -> answers (process_ap_station W if_type p).
Proof. intros; unfold process_ap_station. runs_solve.
  apply plain_add_station. bool_hyps. lia.
Qed.
Lemma answers_monitor_config : cmd_num CMD_MONITOR_CONFIG = code -> answers (process_monitor_config W if_type p).
Proof. intros; unfold process_monitor_config. runs_solve. Qed.
Lemma rdle_at n off s : 0 <= off -> off + Z.of_nat n <= zlen p -> rdle n off p s = (inr (le_at n off p), s).
Proof.
  intros. unfold rdle, rd, mbind, mret.
  rewrite (proj2 (Z.leb_le 0 off)), (proj2 (Z.leb_le 0 (Z.of_nat n))), (proj2 (Z.leb_le (off + Z.of_nat n) (zlen p))) by lia.
  done.
Qed.
Lemma code_at : sizeof_command_header <= zlen p -> le_at 1 0 p = code.
Proof.
  unfold sizeof_command_header, code, le_at, byte_at. rewrite zdrop_le0 by lia. destruct p as [|b l]; [done|].
  intros _. unfold ztake. change (Z.to_nat (Z.of_nat 1)) with 1%nat. change (Z.to_nat 0) with 0%nat.
  rewrite firstn_cons, take_0. cbn [le_val nth]. lia.
Qed.
Lemma runs_code {B} ans (f : Z -> FM B) : sizeof_command_header <= zlen p -> runs ans (f code) -> runs ans (mbind (rdle 1 0 p) f).
Proof.
  intros Hl Hf s Hs. specialize (Hf s Hs). unfold mbind. rewrite rdle_at, code_at by (done || unfold sizeof_command_header in *; lia).
  done.
Qed.

Lemma answers_radio_service : cmd_num CMD_SET_RADIO_SERVICE = code /\ sizeof_radio_service <= zlen p
    \/ cmd_num CMD_GET_RADIO_SERVICE = code -> sizeof_command_header <= zlen p ->
  answers (process_radio_service cfg W if_type p).
Proof.
  intros Hc Hl. unfold process_radio_service. destruct (Z.ltb_spec (zlen p) sizeof_command_header); [lia|].
  apply runs_code; [done|]. cbv zeta. destruct (Z.eqb_spec code (cmd_num CMD_SET_RADIO_SERVICE)) as [E|E].
  - destruct (zlen p <? sizeof_radio_service) eqn:El; [by apply answers_reply|].
    apply runs_rdle; [runs_bounds..|]. intros v Hv. runs_solve; apply answers_reply; congruence.
  - destruct (Z.eqb_spec code (cmd_num CMD_GET_RADIO_SERVICE)) as [E'|E']; [|by apply answers_reply].
    runs_solve; apply answers_reply; congruence.
Qed.

Lemma answers_host_reboot : cmd_num CMD_HOST_REBOOT = code -> sizeof_command_header <= zlen p ->
  if_type = if_code ESP_INTERNAL_IF -> answers (process_host_reboot W spi_transport if_type p).
Proof.
  intros Hc Hl Hi. unfold process_host_reboot. rewrite Hi, Z.eqb_refl. cbn [negb orb].
  destruct (Z.ltb_spec (zlen p) sizeof_command_header); [lia|]. rewrite <- Hi. by apply answers_reply.
Qed.
Lemma plain_host_reboot : if_type <> if_code ESP_INTERNAL_IF -> plain (process_host_reboot W spi_transport if_type p).
Proof.
  intros Hi. unfold process_host_reboot. destruct (Z.eqb_spec if_type (if_code ESP_INTERNAL_IF)); [done|]. apply runs_ret.
Qed.

Lemma plain_mgmt_frame : plain (process_mgmt_frame W if_type p).
Proof. unfold process_mgmt_frame. runs_solve. Qed.

Lemma answers_raw_tp : e2h code || h2e code = true -> sizeof_command_header <= zlen p ->
  answers (process_raw_tp_cmd W if_type p).
Proof.
  intros Hc Hl s Hs. unfold process_raw_tp_cmd, mbind, get, set, mmodify, mret.
  assert (H : match (process_raw_tp (w_raw W (calls s)) p (raw s)).1.2 with
    | Some b => is_response b
    | None => re_malloc (w_raw W (calls s)) = false \/ re_send (w_raw W (calls s)) <> 1 end).
  { unfold process_raw_tp. destruct (Z.ltb_spec (zlen p) sizeof_command_header); [lia|]. fold code.
    replace (negb (e2h code) && negb (h2e code)) with false by (by rewrite <- negb_orb, Hc).
    destruct (re_malloc _); [|by left]. cbn [negb]. destruct (raw_setup _ _ _) as [[ret created] r].
    assert (Hr : forall st, is_response ([code; st; 0; 0] ++ ztake 2 (zdrop 4 p) ++ [0; 0])).
    { intros st. split; [done|]. unfold le_at. rewrite zdrop_app_exact by done.
      unfold sizeof_command_header in Hl. rewrite ztake_app_exact by zlia. done. }
    destruct (Z.eqb_spec (re_send (w_raw W (calls s))) 1); cbn [negb]; [|by right].
    destruct (ret =? ESP_OK); cbn [negb fst snd]; apply Hr. }
  destruct (process_raw_tp _ p (raw s)) as [[ret resp] r]. cbn in H |- *. split; [done|].
  destruct resp as [b|]; [left; by exists b|]. right. rewrite app_nil_r. split; [|done].
  destruct H as [?|?]; [right; right; left|right; right; right]; by eexists.
Qed.

(** ** Dispatch *)

(** Management frames answer through the transmit path, and only the internal
    interface reboots the host's chip. *)
Definition answering (c : COMMAND_CODE) : bool :=
  match c with
  | CMD_MGMT_TX => false
  | CMD_HOST_REBOOT => if_type =? if_code ESP_INTERNAL_IF
  | _ => true
  end.

#[local] Hint Resolve answers_start_scan answers_set_mcast_mac_list answers_get_tx_power answers_set_tx_power answers_rssi answers_set_ip answers_wow_set answers_set_time answers_reg_set answers_reg_get answers_ota_start answers_ota_write answers_ota_end answers_disconnect answers_auth_request answers_assoc_request answers_sta_set_authorized answers_sta_connect answers_deinit_interface answers_init_interface answers_get_mac answers_set_mac answers_set_default_key answers_del_key answers_add_key answers_set_mode answers_set_ie answers_set_ap_config answers_ap_station answers_monitor_config answers_radio_service answers_host_reboot answers_raw_tp plain_mgmt_frame : handlers.

Lemma table_runs : sizeof_command_header <= zlen p ->
  Forall (fun e => cmd_num e.1.1 = code -> e.1.2 <= zlen p -> runs (answering e.1.1) (e.2 if_type p))
    (s_cmd_table cfg W ms chip_id spi_transport igtk_size pn_size).
Proof.
  intros Hl. unfold s_cmd_table.
  assert (Hraw : forall c, cmd_num c = code -> e2h (cmd_num c) || h2e (cmd_num c) = true -> answers (process_raw_tp_cmd W if_type p)).
  { intros c Hc He. apply answers_raw_tp; [by rewrite <- Hc|done]. }
  assert (Hboot : cmd_num CMD_HOST_REBOOT = code ->
    runs (if_type =? if_code ESP_INTERNAL_IF) (process_host_reboot W spi_transport if_type p)).
  { intros Hc. destruct (Z.eqb_spec if_type (if_code ESP_INTERNAL_IF)); [by apply answers_host_reboot|by apply plain_host_reboot]. }
  repeat (apply Forall_cons; split; [cbn [fst snd answering]; intros Hc Hm;
    first [solve [auto with handlers] | solve [eapply Hraw; [exact Hc|reflexivity]] | exact (Hboot Hc)
          |solve [apply answers_radio_service; [tauto|done]]]|]).
  by apply Forall_nil.
Qed.

Lemma find_entry_table c e : find_entry cfg W ms chip_id spi_transport igtk_size pn_size c = Some e ->
  e ∈ s_cmd_table cfg W ms chip_id spi_transport igtk_size pn_size /\ cmd_num e.1.1 = c.
Proof.
  unfold find_entry. rewrite fmap_Some. intros ([i e'] & H & ->). apply list_find_Some in H as (H1 & H2 & _).
  split; [by apply list_elem_of_lookup_2 in H1|done].
Qed.

(** The dispatcher, from the entry in the table to its end. *)
Lemma dispatch_runs s : sizeof_command_header <= zlen p ->
  let r := esp_cmd_dispatch cfg W ms chip_id spi_transport igtk_size pn_size if_type p s in
  match r with
  | (inl Overread, _) => False
  | (inl Restart, s') => resps s' = resps s \/ replied s s'
  | (inr _, s') => match find_entry cfg W ms chip_id spi_transport igtk_size pn_size code with
                   | Some (c, min, _) => if (min <=? zlen p) && negb (answering c) then resps s' = resps s else replied s s'
                   | None => replied s s'
                   end
  end.
Proof.
  intros Hl. cbv zeta. unfold esp_cmd_dispatch. destruct (Z.ltb_spec (zlen p) sizeof_command_header); [lia|].
  unfold mbind at 1. rewrite rdle_at, code_at by (done || unfold sizeof_command_header in *; lia).
  unfold mbind at 1. rewrite rdle_at by (unfold sizeof_command_header in *; lia).
  unfold mbind at 1, set at 1, mmodify. fold seq.
  set (s1 := s <| active_cmd_code := code |> <| active_cmd_seq := seq |>).
  assert (Hs1 : active_cmd_seq s1 = seq) by done. change (resps s) with (resps s1). change (replied s) with (replied s1).
  assert (Hrun : forall ans (m : FM Z), runs ans m -> forall b, b = ans ->
    match m s1 with (inl Overread, _) => False | (inl Restart, s') => resps s' = resps s1 \/ replied s1 s'
    | (inr _, s') => if b then replied s1 s' else resps s' = resps s1 end).
  { intros ans m Hm b ->. specialize (Hm s1 Hs1). destruct (m s1) as [[[]|x] s']; [done|..|by destruct Hm].
    destruct Hm as [?|Ho]; [by left|]. destruct ans; [by right|by left]. }
  destruct (find_entry _ _ _ _ _ _ _ code) as [[[c mn] h]|] eqn:E.
  - apply find_entry_table in E as [Hin Hc]. cbn [fst] in Hc.
    destruct (Z.ltb_spec (zlen p) mn) as [Hlt|Hge].
    + rewrite (proj2 (Z.leb_gt mn (zlen p))) by lia. cbn [andb].
      refine (Hrun true _ _ true eq_refl). apply runs_after; [by apply answers_reply|intros; apply runs_ret].
    + rewrite (proj2 (Z.leb_le mn (zlen p))) by lia. cbn [andb].
      pose proof (table_runs Hl) as Ht. rewrite Forall_forall in Ht. specialize (Ht _ Hin Hc Hge). cbn [fst snd] in Ht.
      assert (Hall : runs (answering c) (let* t := now W in
        set (fun s => s <| s_cmd_started_at := t |> <| s_cmd_in_progress := true |>) ;;;
        let* result := h if_type p in let* _ := now W in
        set (fun s => s <| s_cmd_in_progress := false |>) ;;; mret result)).
      { apply runs_bind; [apply plain_now|intros t]. apply runs_bind; [apply runs_set; done|intros _].
        assert (Hk : forall x : Z, plain (let* _ := now W in set (fun s => s <| s_cmd_in_progress := false |>) ;;; mret x))
          by (intros; runs_solve).
        destruct (answering c); [by apply runs_after|by apply runs_bind]. }
      specialize (Hrun _ _ Hall _ eq_refl). by destruct (answering c).
  - refine (Hrun true _ _ true eq_refl). apply runs_after; [by apply answers_reply|intros; apply runs_ret].
Qed.
End Safe.

(** ** Properties: every command *)



(** A compliant SDK: allocations and the queue succeed, every call returns [ESP_OK]. *)
Definition demo_sdk : sdk := mk_sdk
  (fun _ c => match c with WMalloc _ | WRespond _ | WSemTake _ => 1 | _ => ESP_OK end) (fun _ _ => [1; 0])
  (fun _ => []) (fun _ => demo_te) (fun _ => demo_radio) (fun _ => env_ok).
Lemma demo_sdk_takes : ~ refuses demo_sdk.
Proof. intros [(h & n & H)|[(h & n & H)|[(h & H)|(h & H)]]]; by cbn in H. Qed.

(** A [CMD_ADD_KEY] cut after its header. *)
Definition short_key : list Z := [8; 0; 0; 0; 9; 2; 0; 0].

