(* ===== verification/FwCmdState.v ===== *)
(** * FwCmdState: what the firmware's command handlers leave behind

    Functional properties of single routines of [main/cmd.c]: stopping Wi-Fi, the
    transactional mode change, firmware updates, authentication. *)
From S2P Require Import Prelude Wire RcpFw FwPath CmdQueue RawTp RawTpRun MgmtTx FwCmd FwHandlers FwCmdSafe.

(** ** Invariants of the state across calls

    [keeps P m]: a run of [m] that returns leaves [P] as it was. *)
Definition keeps {A} (P : fcmd -> Prop) (m : FM A) : Prop := hoare P m (fun _ => P) (fun _ _ => True).

(** [P] does not read the log of calls. *)
Class IgnoresCalls (P : fcmd -> Prop) : Prop := ignores_calls : forall s l, P s -> P (s <| calls := l |>).

Section keeps.
Context (W : sdk) (P : fcmd -> Prop) `{!IgnoresCalls P}.
Lemma keeps_ret {A} (x : A) : keeps P (mret x).
Proof. by apply hoare_ret. Qed.
Lemma keeps_restart {A} : keeps P (@esp_restart A).
Proof. by apply hoare_fail. Qed.
Lemma keeps_bind {A B} (m : FM A) (f : A -> FM B) : keeps P m -> (forall x, keeps P (f x)) -> keeps P (mbind m f).
Proof. intros. by apply (hoare_bind _ _ (fun _ => P)). Qed.
Lemma keeps_get {A} (f : fcmd -> A) : keeps P (get f).
Proof. by intros s Hs. Qed.
Lemma keeps_set f : (forall s, P s -> P (f s)) -> keeps P (set f).
Proof. intros H. by apply hoare_modify. Qed.
Lemma keeps_when b m : keeps P m -> keeps P (when b m).
Proof. intros. destruct b; [done|apply keeps_ret]. Qed.
Lemma keeps_call c : keeps P (call W c).
Proof. intros s Hs. by apply ignores_calls. Qed.
Lemma keeps_call_out c : keeps P (call_out W c).
Proof. intros s Hs. by apply ignores_calls. Qed.
Lemma keeps_call_val c : keeps P (call_val W c).
Proof. apply keeps_bind; [apply keeps_call_out|intros; apply keeps_ret]. Qed.
End keeps.
Create HintDb keeps.
#[export] Hint Resolve keeps_ret keeps_restart keeps_get : keeps.

Ltac keeps_step :=
  match goal with
  | |- keeps _ (let _ := _ in _) => cbv zeta
  | |- keeps _ (call _ _) => apply keeps_call; exact _
  | |- keeps _ (call_out _ _) => apply keeps_call_out; exact _
  | |- keeps _ (call_val _ _) => apply keeps_call_val; exact _
  | |- keeps _ (mbind _ _) => apply keeps_bind; [|intros ?]
  | |- keeps _ (set _) => apply keeps_set; try (intros ? ?; assumption)
  | |- keeps _ (when _ _) => apply keeps_when
  | |- keeps _ (if ?b then _ else _) => destruct b eqn:?
  | |- keeps _ (match ?x with _ => _ end) => destruct x eqn:?
  | |- keeps _ _ => solve [auto 3 with keeps]
  end.
Ltac keeps_solve := repeat keeps_step.

(** ** Stopping Wi-Fi *)

(** The radio is off: nothing is started, connected, authorised or being joined. *)
Definition radio_off (s : fcmd) : Prop :=
  s_wifi_started s = false /\ association_ongoing (app s) = false /\ station_connected (app s) = false
  /\ station_authorized (app s) = false /\ softap_started (app s) = false /\ sta_init_flag s = false
  /\ s_assoc_generation s = 0 /\ s_auth_generation s = 0 /\ s_conn_generation s = 0.
#[export] Instance radio_off_calls : IgnoresCalls radio_off.
Proof. by intros s l H. Qed.

(** No scan runs; and the radio is off if the library's answer said so. *)
Definition stopping (r : Z) (s : fcmd) : Prop := s_scan_in_progress s = false /\ (stopped_enough r = true -> radio_off s).
#[export] Instance stopping_calls r : IgnoresCalls (stopping r).
Proof. by intros s l H. Qed.

Section stop.
Variable W : sdk.
Variable ms : Z -> Z.
Variable r : Z.
Notation keep := (keeps (stopping r)).

Lemma keep_stop_remaining t : keep (hosted_wifi_stop_remaining W ms t).
Proof. unfold hosted_wifi_stop_remaining, now. keeps_solve. Qed.
Lemma keep_sem_take t : keep (sem_take W t).
Proof. unfold sem_take. keeps_solve. Qed.
#[local] Hint Resolve keep_stop_remaining keep_sem_take : keeps.
Lemma keep_wait_ack t : keep (hosted_wait_wifi_event_ack W ms t).
Proof. unfold hosted_wait_wifi_event_ack. keeps_solve. Qed.
Lemma keep_post_fence t : keep (post_fence W ms t).
Proof. unfold post_fence. keeps_solve. Qed.
End stop.
#[export] Hint Resolve keep_stop_remaining keep_sem_take keep_wait_ack keep_post_fence : keeps.

Definition anything (s : fcmd) : Prop := True.
#[export] Instance anything_calls : IgnoresCalls anything.
Proof. done. Qed.
Lemma keep_anything {A} (m : FM A) : keeps anything m.
Proof. intros s _. by destruct (m s) as [[?|?] ?]. Qed.

Lemma scan_abort_stops W : hoare anything (hosted_scan_abort W) (fun _ s => s_scan_in_progress s = false) (fun _ _ => True).
Proof.
  unfold hosted_scan_abort, mbind, get, set, mmodify, call, mret. intros s _. cbn.
  by destruct (s_scan_in_progress s) eqn:E.
Qed.

(** From the library's answer on. *)
Lemma stop_tail W ms r t expect (have : bool) :
  hoare (stopping r)
    (if negb have then esp_restart
     else
      let* acked := if expect && (r =? ESP_OK) then hosted_wait_wifi_event_ack W ms t else mret true in
      if negb acked then esp_restart
      else
        set (fun s => s <| s_sta_stop_ack_pending := false |>) ;;;
        let* _ := sem_take W 0 in
        let* fence := post_fence W ms t in
        let* fenced := if fence =? ESP_OK then hosted_wait_wifi_event_ack W ms t else mret false in
        if negb fenced then esp_restart
        else set (fun s => hosted_scan_fence_handler s <| s_wifi_stop_in_progress := false |>) ;;; mret r)
    (fun r' s => r' = r /\ stopping r s /\ s_scan_drain_pending s = false /\ s_wifi_stop_in_progress s = false)
    (fun _ _ => True).
Proof.
  destruct have; cbn [negb]; [|by apply hoare_fail].
  apply (hoare_bind _ _ (fun _ => stopping r)); [change (keeps (stopping r) (if expect && (r =? ESP_OK) then hosted_wait_wifi_event_ack W ms t else mret true)); keeps_solve|intros acked].
  destruct acked; cbn [negb]; [|by apply hoare_fail].
  apply (hoare_bind _ _ (fun _ => stopping r)); [by apply hoare_modify|intros _].
  apply (hoare_bind _ _ (fun _ => stopping r)); [apply keep_sem_take|intros _].
  apply (hoare_bind _ _ (fun _ => stopping r)); [apply keep_post_fence|intros fence].
  apply (hoare_bind _ _ (fun _ => stopping r)); [destruct (fence =? ESP_OK); [apply keep_wait_ack|by apply hoare_ret]|intros fenced].
  destruct fenced; cbn [negb]; [|by apply hoare_fail].
  apply (hoare_bind _ _ (fun _ s => stopping r s /\ s_scan_drain_pending s = false /\ s_wifi_stop_in_progress s = false)).
  - by apply hoare_modify.
  - intros _. by apply hoare_ret.
Qed.

Lemma wifi_stop_clean_lemma W ms s r s' :
  hosted_wifi_stop W ms s = (inr r, s') ->
  s_scan_in_progress s' = false /\ s_scan_drain_pending s' = false /\ s_wifi_stop_in_progress s' = false
  /\ (stopped_enough r = true -> radio_off s').
Proof.
  intros He.
  assert (H : hoare anything (hosted_wifi_stop W ms)
    (fun r s => stopping r s /\ s_scan_drain_pending s = false /\ s_wifi_stop_in_progress s = false) (fun _ _ => True)).
  { unfold hosted_wifi_stop. do 7 (apply (hoare_bind _ _ (fun _ => anything)); [apply keep_anything|intros ?]).
    apply (hoare_bind _ _ (fun _ s => s_scan_in_progress s = false)); [apply scan_abort_stops|intros _].
    apply (hoare_bind _ _ (fun _ s => s_scan_in_progress s = false)); [by intros s0 Hs0|intros ret].
    apply (hoare_bind _ _ (fun _ => stopping ret)).
    - intros s0 Hs0. unfold when, stopping, stopped_enough.
      destruct (_ || _ || _) eqn:Ew; cbn; split; try done.
      intros Hst. assert (Hw : (ret =? ESP_OK) || (ret =? ESP_ERR_WIFI_NOT_STARTED) || (ret =? ESP_ERR_WIFI_NOT_INIT) = true).
      { destruct (ret =? ESP_OK), (ret =? ESP_ERR_WIFI_NOT_STARTED), (ret =? ESP_ERR_WIFI_NOT_INIT); done. }
      by rewrite Hw in Ew.
    - intros _. eapply hoare_consequence; [apply (stop_tail W ms ret)|done| |done]. by intros y s0 (-> & ? & ? & ?). }
  specialize (H s I). rewrite He in H. destruct H as ([H1 H2] & H3 & H4). done.
Qed.



(** ** Changing the mode: done, or taken back *)

Definition started (b : bool) (s : fcmd) : Prop := s_wifi_started s = b.
#[export] Instance started_calls b : IgnoresCalls (started b).
Proof. by intros s l H. Qed.

Section mode.
Variable W : sdk.
Variable ms : Z -> Z.
Variable b : bool.
Notation keep := (keeps (started b)).

Lemma keep_run_mgmt f : keep (run_mgmt W f).
Proof. unfold run_mgmt. keeps_solve. Qed.
Lemma keep_ensure_cb : keep (ensure_mgmt_cb W).
Proof. unfold ensure_mgmt_cb. keeps_solve. Qed.
Lemma keep_fail_pending : keep (hosted_fail_pending W).
Proof. apply keep_run_mgmt. Qed.
Lemma keep_monitor_rollback r a c d e f g : keep (monitor_rollback W r a c d e f g).
Proof. unfold monitor_rollback. keeps_solve. Qed.
Lemma keep_monitor_apply : keep (monitor_apply W).
Proof. unfold monitor_apply. keeps_solve. Qed.
#[local] Hint Resolve keep_monitor_rollback keep_monitor_apply : keeps.
Lemma keep_monitor_commit a c d e : keep (monitor_commit W a c d e).
Proof. unfold monitor_commit. keeps_solve. Qed.
#[local] Hint Resolve keep_monitor_commit : keeps.
Lemma keep_monitor_restore : keep (esp_hosted_monitor_restore W).
Proof.
  unfold esp_hosted_monitor_restore, esp_hosted_monitor_config, esp_hosted_wifi_channel_transition_active, monitor_disable.
  keeps_solve.
Qed.
Lemma keep_first_error l : Forall (fun m => keep m) l -> keep (first_error l).
Proof. induction 1; cbn [first_error]; keeps_solve. Qed.
Lemma keep_run_all l : Forall (fun m => keep m) l -> keep (run_all l).
Proof. induction 1; cbn [run_all]; keeps_solve. Qed.
Lemma keep_mode_change m : keep (mode_change W m).
Proof.
  unfold mode_change. apply keeps_bind; [apply keeps_get|intros mac].
  destruct (_ =? _); apply keep_first_error; repeat constructor; apply keeps_call; exact _.
Qed.
Lemma keep_mode_snapshot m : keep (mode_snapshot W m).
Proof. unfold mode_snapshot. keeps_solve. Qed.
Lemma keep_drop_cb o : keep (drop_new_cb W o).
Proof. unfold drop_new_cb. keeps_solve. Qed.
End mode.
#[export] Hint Resolve keep_run_mgmt keep_ensure_cb keep_fail_pending keep_monitor_restore keep_mode_change
  keep_mode_snapshot keep_drop_cb : keeps.

Lemma start_starts W ms : hoare anything (hosted_wifi_start W ms)
  (fun r s => r = ESP_OK -> started true s) (fun _ _ => True).
Proof.
  unfold hosted_wifi_start.
  apply (hoare_bind _ _ (fun _ => anything)); [apply keep_anything|intros ret].
  apply hoare_if; intros Hret; [apply hoare_ret; intros s _ ->; discriminate Hret|].
  apply (hoare_bind _ _ (fun _ => started true)); [by apply hoare_modify|intros _].
  apply (hoare_bind _ _ (fun _ => started true)); [apply keep_ensure_cb|intros r1].
  apply hoare_if; intros H1.
  - apply (hoare_bind _ _ (fun _ => anything)); [intros s Hs; by destruct (hosted_wifi_stop W ms s) as [[?|?] ?]|intros _].
    apply hoare_ret. intros s _ ->. discriminate H1.
  - apply (hoare_bind _ _ (fun _ => started true)); [apply keep_monitor_restore|intros r2].
    apply hoare_if; intros H2.
    + apply (hoare_bind _ _ (fun _ => anything)); [intros s Hs; by destruct (hosted_wifi_stop W ms s) as [[?|?] ?]|intros _].
      apply hoare_ret. intros s _ ->. discriminate H2.
    + by apply hoare_ret.
Qed.

Lemma stop_stops W ms : hoare anything (hosted_wifi_stop W ms) (fun r s => r = ESP_OK -> started false s) (fun _ _ => True).
Proof.
  intros s _. destruct (hosted_wifi_stop W ms s) as [[e|r] s'] eqn:E; [done|]. intros ->.
  destruct (wifi_stop_clean_lemma W ms s ESP_OK s' E) as (_ & _ & _ & H). by destruct (H eq_refl).
Qed.

Lemma restore_restores W ms was : hoare anything (restore_started W ms was)
  (fun r s => r = ESP_OK -> started was s) (fun _ _ => True).
Proof.
  unfold restore_started. intros s _. unfold mbind, get. cbn.
  destruct (was && negb (s_wifi_started s)) eqn:E1.
  - apply andb_true_iff in E1 as [-> _]. apply (start_starts W ms s I).
  - destruct (negb was && s_wifi_started s) eqn:E2.
    + apply andb_true_iff in E2 as [Hw _]. apply negb_true_iff in Hw as ->. apply (stop_stops W ms s I).
    + cbn. intros _. unfold started. destruct was, (s_wifi_started s); done.
Qed.

Lemma rollback_restores W ms sn : hoare anything (mode_rollback W ms sn) (fun _ => started (sn_started sn)) (fun _ _ => True).
Proof.
  unfold mode_rollback. apply (hoare_bind _ _ (fun _ => anything)); [apply keep_anything|intros ok1].
  apply (hoare_bind _ _ (fun _ => anything)); [apply keep_anything|intros _].
  apply (hoare_bind _ _ (fun r s => r = ESP_OK -> started (sn_started sn) s)); [apply restore_restores|intros r].
  unfold restart_unless. apply hoare_if; intros Hr; [|by apply hoare_fail].
  apply hoare_ret. intros s Hs. apply Hs. bool_hyps. lia.
Qed.

Definition stop_failed (W : sdk) (ms : Z -> Z) (s' : fcmd) : Prop :=
  exists r s0, r <> ESP_OK /\ hosted_wifi_stop W ms s0 = (inr r, s').
Definition mode_outcome (W : sdk) (ms : Z -> Z) (b : bool) (st : COMMAND_RESPONSE_TYPE) (s : fcmd) : Prop :=
  st = CMD_RESPONSE_SUCCESS /\ started true s \/ st = CMD_RESPONSE_FAIL /\ (started b s \/ stop_failed W ms s).

Lemma set_mode_apply_outcome W ms mode old need sn :
  hoare anything (set_mode_apply W ms mode old need sn) (mode_outcome W ms (sn_started sn)) (fun _ _ => True).
Proof.
  unfold set_mode_apply.
  apply (hoare_bind _ _ (fun r s => r <> ESP_OK -> stop_failed W ms s)).
  { intros s _. destruct (_ =? _); [by intros []|]. destruct (hosted_wifi_stop W ms s) as [[?|r] s'] eqn:E; [done|].
    intros Hr. by exists r, s. }
  intros r. apply hoare_if; intros Hr.
  { apply hoare_ret. intros s Hs. right. split; [done|]. right. apply Hs. bool_hyps. done. }
  clear Hr. apply (hoare_bind _ _ (fun _ => anything)); [intros s Hs; apply (keep_anything _ s I)|intros r1].
  apply (hoare_bind _ _ (fun _ => anything)); [apply keep_anything|intros r2].
  apply (hoare_bind _ _ (fun st s => started st s)); [by intros s _|intros st].
  apply (hoare_bind _ _ (fun r s => r = ESP_OK -> started true s)).
  { destruct (_ && negb st) eqn:E; [intros s _; apply (start_starts W ms s I)|].
    apply hoare_ret. intros s Hs ->. by destruct st. }
  intros r3. apply hoare_if; intros H3.
  - apply (hoare_bind _ _ (fun _ => started true)); [|intros _; apply hoare_ret; by left].
    intros s Hs. apply Z.eqb_eq in H3. apply (keep_fail_pending W true s (Hs H3)).
  - apply (hoare_bind _ _ (fun _ => started (sn_started sn))); [intros s _; apply (rollback_restores W ms sn s I)|intros _].
    apply hoare_ret. intros s Hs. right. split; [done|by left].
Qed.


