(* ===== verification/HostCmd.v ===== *)
(** * HostCmd: the requests of [host/esp_cmd.c]

    One definition per [cmd_*] function: its checks and early returns in their
    order, then the request it builds.  A request is what the function writes behind
    [prepare_command_request]: the body after the command header, and [reserved1] of
    that header where it is used.  [submit_request] hands it to the queue of
    [CmdQueue].  [esp_start_ota] of [host/main.c] is the one sequence of requests.

    [NULL] arguments of the functions do not occur.  The bookkeeping of cfg80211
    objects (references, staged MLME events) is not part of a request. *)
From S2P Require Import Prelude Wire Adapter Recovery RcpFw FwPath CmdQueue RawTp RawTpRun MgmtTx FwCmd FwHandlers.

(** ** Byte strings in structures *)

(** A field of [n] bytes of a zeroed structure, [b] copied into it. *)
Definition field (n : Z) (b : list Z) : list Z := ztake n (b ++ replicate (Z.to_nat n) 0).

(** An integer stored without conversion by a host of byte order [be]. *)
Definition native_bytes (be : bool) (n : nat) (v : Z) : list Z := if be then rev (le_bytes n v) else le_bytes n v.

(** What is sent: code, [header.reserved1], body, whether it goes in front; or, after
    a node was taken for it, the code to give it back with. *)
Record request := mk_request { rq_code : COMMAND_CODE; rq_reserved1 : Z; rq_body : list Z; rq_high : bool;
  rq_abort : option Z }.

(** The code to return at once, or the request to send. *)
Definition build : Type := Z + request.
Definition plain_request (c : COMMAND_CODE) (body : list Z) : build := inr (mk_request c 0 body false None).

(** The request as the firmware receives it, behind the payload header. *)
Definition wire (seq : Z) (r : request) : list Z :=
  [cmd_num (rq_code r); 0; 0; 0] ++ le_bytes 2 seq ++ [rq_reserved1 r; 0] ++ rq_body r.

Definition OTA_CHUNK_SIZE : Z := 1016.
Definition U8_MAX : Z := 255.
Definition U16_MAX : Z := 65535.
Definition ESP_RADIO_SERVICE_MAX : Z := ESP_RADIO_SERVICE_MASK + 1.
Definition bc_mac : list Z := replicate 6 0xff.
Definition is_multicast_ether_addr (mac : list Z) : bool := negb (Z.land (byte_at 0 mac) 1 =? 0).

(** The cipher suites of cfg80211 that [wpa_cipher_to_alg] knows. *)
Inductive cipher_suite :=
  | WLAN_CIPHER_SUITE_CCMP | WLAN_CIPHER_SUITE_GCMP_256 | WLAN_CIPHER_SUITE_GCMP | WLAN_CIPHER_SUITE_TKIP
  | WLAN_CIPHER_SUITE_WEP104 | WLAN_CIPHER_SUITE_WEP40 | WLAN_CIPHER_SUITE_AES_CMAC
  | WLAN_CIPHER_SUITE_BIP_GMAC_128 | WLAN_CIPHER_SUITE_BIP_GMAC_256 | WLAN_CIPHER_SUITE_OTHER.
Definition WIFI_WPA_ALG_NONE : Z := 0.
Definition WIFI_WPA_ALG_CCMP : Z := 3.
Definition WIFI_WPA_ALG_GCMP : Z := 9.
Definition wpa_cipher_to_alg (c : cipher_suite) : Z :=
  match c with
  | WLAN_CIPHER_SUITE_CCMP => WIFI_WPA_ALG_CCMP
  | WLAN_CIPHER_SUITE_GCMP_256 | WLAN_CIPHER_SUITE_GCMP => WIFI_WPA_ALG_GCMP
  | WLAN_CIPHER_SUITE_TKIP => WIFI_WPA_ALG_TKIP
  | WLAN_CIPHER_SUITE_WEP104 => WIFI_WPA_ALG_WEP104
  | WLAN_CIPHER_SUITE_WEP40 => WIFI_WPA_ALG_WEP40
  | WLAN_CIPHER_SUITE_AES_CMAC | WLAN_CIPHER_SUITE_BIP_GMAC_128 | WLAN_CIPHER_SUITE_BIP_GMAC_256 => WIFI_WPA_ALG_IGTK
  | WLAN_CIPHER_SUITE_OTHER => WIFI_WPA_ALG_NONE
  end.

Section Requests.
Variable be : bool.              (* the host's byte order *)
Variable a : esp_adapter.
Variable dev_if : Z.             (* [priv->if_type] *)

Notation cleanup := (flag ESP_CLEANUP_IN_PROGRESS a).
Notation is_sta := (dev_if =? if_code ESP_STA_IF).
Notation is_ap := (dev_if =? if_code ESP_AP_IF).

(** ** Interfaces and small settings *)

Definition cmd_set_mcast_mac_list (count : Z) (addrs : list Z) : build :=
  if cleanup then inl 0 else plain_request CMD_SET_MCAST_MAC_ADDR ([count] ++ field 48 addrs).

(** [ip] is the byte sequence of the [__be32]. *)
Definition cmd_set_ip_address (ip : list Z) : build :=
  if cleanup then inl 0 else plain_request CMD_SET_IP_ADDR (field 4 ip).

Definition cmd_update_fw_time (sec usec : Z) : build :=
  if cleanup then inl 0 else plain_request CMD_SET_TIME (le_bytes 8 sec ++ le_bytes 8 usec).

Definition cmd_init_interface : build := plain_request CMD_INIT_INTERFACE [].

Definition cmd_deinit_interface : build :=
  if cleanup && negb (flag ESP_ALLOW_DEINIT a) then inl 0 else plain_request CMD_DEINIT_INTERFACE [].

(** Sent to [ESP_MONITOR_IF]. *)
Definition cmd_monitor_config (enable : bool) (channel : Z) : build :=
  plain_request CMD_MONITOR_CONFIG [(if enable then 1 else 0); channel; 0; 0].

Definition cmd_get_rssi : build := if negb is_sta then inl (- EINVAL) else plain_request CMD_STA_RSSI (field 4 []).
Definition cmd_get_mac : build := plain_request CMD_GET_MAC [].
Definition cmd_set_mac (mac : list Z) : build := plain_request CMD_SET_MAC (field 6 mac ++ [0; 0]).
Definition cmd_set_mode (mode : Z) : build :=
  if cleanup then inl 0 else plain_request CMD_SET_MODE (le_bytes 2 mode ++ [0; 0]).
Definition cmd_stop_ap : build := if negb is_ap then inl (- EINVAL) else cmd_set_mode 1.
Definition cmd_set_tx_power (power : Z) : build :=
  if cleanup then inl 0 else plain_request CMD_SET_TXPOWER (le_bytes 4 power).
Definition cmd_get_tx_power : build := plain_request CMD_GET_TXPOWER (field 4 []).
Definition cmd_get_reg_domain : build := plain_request CMD_GET_REG_DOMAIN (field 4 []).
Definition cmd_set_reg_domain (c0 c1 : Z) : build :=
  if (c0 =? 0) || (c1 =? 0) then inl (- EINVAL) else plain_request CMD_SET_REG_DOMAIN [c0; c1; 0; 0].
Definition cmd_set_wow_config (any disconnect magic four_way eap : bool) : build :=
  plain_request CMD_SET_WOW_CONFIG (map (fun b : bool => if b then 1 else 0) [any; disconnect; magic; four_way; eap]).
Definition cmd_set_radio_service (service : Z) : build :=
  if ESP_RADIO_SERVICE_MAX <=? service then inl (- EINVAL)
  else inr (mk_request CMD_SET_RADIO_SERVICE 0 (field 12 [service]) true None).
Definition cmd_get_radio_service : build := inr (mk_request CMD_GET_RADIO_SERVICE 0 [] true None).

(** [raw_tp_mode] and the run it allocates. *)
Definition cmd_init_raw_tp_task_timer (mode : Z) (h : host_raw) : build * host_raw :=
  let '(run_id, h) := esp_raw_tp_alloc_run_id h in
  let body := le_bytes 4 run_id in
  (if mode =? ESP_TEST_RAW_TP_ESP_TO_HOST then plain_request CMD_RAW_TP_ESP_TO_HOST body
   else if mode =? ESP_TEST_RAW_TP_HOST_TO_ESP then plain_request CMD_RAW_TP_HOST_TO_ESP body
   else if mode =? ESP_TEST_RAW_TP_ESP_TO_HOST + ESP_TEST_RAW_TP_HOST_TO_ESP
   then plain_request CMD_RAW_TP_BIDIRECTIONAL body
   else inl (- EINVAL), h).

(** ** Scanning *)

(** [ssids]: those of the request; [eligible]: the channels of the device that are
    enabled, 0 without a wiphy; the first channel is [channel]. *)
Definition cmd_scan_request (ssids : list (list Z)) (ie_len n_channels eligible channel : Z) (bssid : list Z)
    (duration : Z) (busy : bool) : build :=
  if 1 <? zlen ssids then inl (- EOPNOTSUPP)
  else if negb (ie_len =? 0) then inl (- EOPNOTSUPP)
  else if (1 <? n_channels) && (0 <? eligible) && (n_channels <? eligible) then inl (- EOPNOTSUPP)
  else if cleanup then inl (- EBUSY)
  else if busy then inl (- EBUSY)
  else
    let ssid := match ssids with s :: _ => s | [] => [] end in
    plain_request CMD_SCAN_REQUEST
      (field 6 bssid ++ native_bytes be 2 duration ++ field 33 (ztake 32 ssid)
       ++ [(if n_channels =? 1 then channel else 0)] ++ [0; 0]).

Definition internal_scan_request (ssid : list Z) (channel : Z) (busy : bool) : build :=
  if busy then inl (- EBUSY)
  else if cleanup then inl (- EBUSY)
  else plain_request CMD_SCAN_REQUEST (replicate 8 0 ++ field 33 (ztake 32 ssid) ++ [channel; 0; 0]).

(** ** Connection *)

(** [mac]: the station's, for an access point the one to drop. *)
Definition cmd_disconnect_request (reason : Z) (mac : option (list Z)) (subtype : Z) : build :=
  if cleanup then inl 0
  else inr (mk_request CMD_DISCONNECT subtype (le_bytes 2 reason ++ field 6 (default [] mac)) false
              (if is_ap && bool_decide (mac = None) then Some (- EOPNOTSUPP) else None)).

(** [pending]: an association is under way. *)
Definition cmd_assoc_request (ie : list Z) (reassoc control_port pending : bool) : build :=
  if negb is_sta then inl (- EINVAL)
  else if cleanup then inl (- EFAULT)
  else if U8_MAX <? zlen ie then inl (- EINVAL)
  else inr (mk_request CMD_STA_ASSOC 0
              ([zlen ie; (if reassoc then 1 else 0); (if control_port then 1 else 0); 0] ++ ie) false
              (if pending then Some (- EBUSY) else None)).

Definition cmd_sta_set_authorized (bssid : list Z) (authorized : bool) : build :=
  if negb is_sta then inl (- EINVAL)
  else if cleanup then inl (- ESHUTDOWN)
  else plain_request CMD_STA_SET_AUTHORIZED (field 6 bssid ++ [(if authorized then 1 else 0); 0]).

(** [enum nl80211_auth_type] to the 802.11 algorithm. *)
Definition NL80211_AUTHTYPE_OPEN_SYSTEM : Z := 0.
Definition NL80211_AUTHTYPE_FT : Z := 2.
Definition NL80211_AUTHTYPE_SAE : Z := 4.
Definition WLAN_AUTH_OPEN : Z := 0.
Definition WLAN_AUTH_FT : Z := 2.
Definition auth_alg (t : Z) : Z :=
  if t =? NL80211_AUTHTYPE_FT then WLAN_AUTH_FT
  else if t =? NL80211_AUTHTYPE_SAE then WLAN_AUTH_SAE
  else if t =? NL80211_AUTHTYPE_OPEN_SYSTEM then WLAN_AUTH_OPEN
  else t.

(** The length of [auth_data]: what the request has, or four zeros, before the IEs. *)
Definition auth_data_len (auth_data ie : list Z) : Z :=
  if zlen ie =? 0 then zlen auth_data else (if zlen auth_data =? 0 then 4 else zlen auth_data) + zlen ie.
Definition auth_data_bytes (auth_data ie : list Z) : list Z :=
  if zlen auth_data =? 0 then (if zlen ie =? 0 then [] else replicate 4 0 ++ ie) else auth_data ++ ie.

(** [ssid]: of the BSS's information elements, if there is one. *)
Definition cmd_auth_request (ssid : option (list Z)) (bssid : list Z) (channel auth_type : Z)
    (auth_data ie key : list Z) (pending : bool) : build :=
  if negb is_sta then inl (- EINVAL)
  else if cleanup then inl (- EFAULT)
  else
    match ssid with
    | None => inl (- EINVAL)
    | Some ssid =>
        if MAX_SSID_LEN <? zlen ssid then inl (- EINVAL)
        else if U8_MAX <? auth_data_len auth_data ie then inl (- EINVAL)
        else if 27 <? zlen key then inl (- EINVAL)
        else inr (mk_request CMD_STA_AUTH 0
               (field 6 bssid ++ [channel; auth_alg auth_type] ++ field 33 ssid ++ [zlen key] ++ field 27 key
                ++ [auth_data_len auth_data ie; 0; 0] ++ auth_data_bytes auth_data ie) false
               (if pending then Some (- EBUSY) else None))
    end.

(** ** Management frames: one at a time *)
Record mgmt_pend := mk_pend { pending_mgmt_active : bool; mgmt_tx_id : Z; pending_mgmt_sent_at : Z }.

(** The reservation; [stale]: seven seconds have passed since [sent_at]. *)
Definition mgmt_reserve (stale : bool) (jiffies : Z) (p : mgmt_pend) : option mgmt_pend :=
  if pending_mgmt_active p && negb stale then None
  else
    let id := u64 (mgmt_tx_id p + 1) in
    Some (mk_pend true (if id =? 0 then 1 else id) jiffies).

Definition cmd_mgmt_request (stale : bool) (jiffies : Z) (frame : list Z) (channel wait : Z)
    (offchan no_cck dont_wait : bool) (p : mgmt_pend) : build * mgmt_pend :=
  let flag_byte (b : bool) := if b then 1 else 0 in
  if zlen frame =? 0 then (inl (- EINVAL), p)
  else if U16_MAX <? sizeof_mgmt_tx + zlen frame then (inl (- EMSGSIZE), p)
  else
    match mgmt_reserve stale jiffies p with
    | None => (inl (- EBUSY), p)
    | Some p =>
        (inr (mk_request CMD_MGMT_TX HOSTED_MGMT_TX_ASYNC_STATUS_V1
                ([channel; flag_byte offchan] ++ le_bytes 4 wait ++ [flag_byte no_cck; flag_byte dont_wait]
                 ++ le_bytes 8 (mgmt_tx_id p) ++ le_bytes 4 (zlen frame) ++ frame) false None), p)
    end.

(** The end: [ret] of the preparation or of the wait; [id] is the reservation's. *)
Definition mgmt_settle (ret id : Z) (p : mgmt_pend) : mgmt_pend :=
  if negb (ret =? 0) && (mgmt_tx_id p =? id)
  then mk_pend false (mgmt_tx_id p) (pending_mgmt_sent_at p) else p.

(** ** Keys: [struct wifi_sec_key] *)

Definition sec_key (algo : list Z) (index : Z) (data : list Z) (len : Z) (mac seq : list Z) (seq_len del set_cur : Z)
    : list Z :=
  algo ++ le_bytes 4 index ++ field 32 data ++ le_bytes 4 len ++ field 6 mac ++ field 10 seq
  ++ le_bytes 4 seq_len ++ [del; set_cur; 0; 0].

(** The address of the key: none is copied for a group. *)
Definition key_mac (pairwise : bool) (mac : option (list Z)) : list Z :=
  match (if pairwise then mac else Some bc_mac) with
  | Some m => if is_multicast_ether_addr m then [] else m
  | None => []
  end.

Definition cmd_set_default_key (index : Z) : build :=
  if cleanup then inl 0
  else plain_request CMD_SET_DEFAULT_KEY (sec_key (le_bytes 4 0) index [] 0 [] [] 0 0 1).

Definition cmd_del_key (index : Z) (pairwise : bool) (mac : option (list Z)) : build :=
  if cleanup then inl 0
  else plain_request CMD_DEL_KEY (sec_key (le_bytes 4 0) index [] 0 (key_mac pairwise mac) [] 0 1 0).

(** The two MIC keys of TKIP change places, in the 32 bytes of [data]. *)
Definition swap_mic (data : list Z) : list Z :=
  ztake 16 data ++ ztake 8 (zdrop 24 data) ++ ztake 8 (zdrop 16 data).

(** [key->algo == WIFI_WPA_ALG_TKIP] reads the stored word as the host does. *)
Definition cmd_add_key (index : Z) (pairwise : bool) (mac : option (list Z)) (cipher : cipher_suite) (key seq : list Z)
    : build :=
  if zlen key =? 0 then inl (- EINVAL)
  else if MAX_KEY_LEN <? zlen key then inl (- EINVAL)
  else if MAX_SEQ_LEN <? zlen seq then inl (- EINVAL)
  else if cleanup then inl (- EFAULT)
  else
    let algo := le_bytes 4 (wpa_cipher_to_alg cipher) in
    let data := field 32 key in
    let data := if native32 be 0 algo =? WIFI_WPA_ALG_TKIP then swap_mic data else data in
    plain_request CMD_ADD_KEY (sec_key algo index data (zlen key) (key_mac pairwise mac) seq (zlen seq) 0 0).

(** ** Access point *)

Definition cmd_set_ie (type : Z) (ie : list Z) : build :=
  if cleanup then inl 0
  else if U16_MAX <? zlen ie then inl (- EINVAL)
  else plain_request CMD_SET_IE ([type; 0] ++ le_bytes 2 (zlen ie) ++ ie).

(** [struct esp_ap_config]. *)
Record esp_ap_config := mk_ap_config { apc_ssid : list Z; apc_ssid_len : Z; apc_channel : Z; apc_authmode : Z;
  apc_hidden : Z; apc_max : Z; apc_cipher : Z; apc_pmf : Z; apc_h2e : Z; apc_beacon : Z; apc_inactivity : Z;
  apc_privacy : Z }.
Definition cmd_set_ap_config (c : esp_ap_config) : build :=
  if negb is_ap then inl (- EINVAL)
  else if cleanup then inl 0
  else plain_request CMD_AP_CONFIG
         (field 32 (apc_ssid c) ++ [apc_ssid_len c; apc_channel c; apc_authmode c; apc_hidden c; apc_max c; apc_cipher c;
            apc_pmf c; apc_h2e c] ++ le_bytes 2 (apc_beacon c) ++ le_bytes 2 (apc_inactivity c) ++ [apc_privacy c]).

(** The parameters of a station; an absent element is [None]. *)
Record sta_params := mk_sta_params { st_mask : Z; st_set : Z; st_modify : Z; st_listen : Z; st_aid : Z;
  st_ext_capab : list Z; st_rates : list Z; st_ht : option (list Z); st_vht : option (list Z); st_he : option (list Z) }.
Definition WLAN_EID_SUPP_RATES : Z := 1.
Definition WLAN_EID_HT_CAPABILITY : Z := 45.
Definition WLAN_EID_VHT_CAPABILITY : Z := 191.
Definition WLAN_EID_EXTENSION : Z := 255.
Definition WLAN_EID_EXT_HE_CAPABILITY : Z := 35.

Definition rates_field (r : list Z) : list Z :=
  if zlen r =? 0 then field 12 [] else field 12 ([WLAN_EID_SUPP_RATES; Z.min (zlen r) 10] ++ ztake 10 r).
Definition he_field (he : option (list Z)) : list Z :=
  match he with
  | Some h => if zlen h =? 0 then field 27 []
              else field 27 ([WLAN_EID_EXTENSION; Z.min (zlen h) 24 + 1; WLAN_EID_EXT_HE_CAPABILITY] ++ ztake 24 h)
  | None => field 27 []
  end.
Definition caps_field (n eid : Z) (c : option (list Z)) : list Z :=
  match c with Some h => field (n + 2) ([eid; n] ++ field n h) | None => field (n + 2) [] end.
Definition cmd_add_station (mac : list Z) (sta : sta_params) (is_changed : bool) : build :=
  if negb is_ap then inl (- EINVAL)
  else if cleanup then inl 0
  else plain_request CMD_AP_STATION
         (field 6 mac ++ le_bytes 2 (if is_changed then 1 else 0) ++ le_bytes 4 (st_mask sta) ++ le_bytes 4 (st_set sta)
          ++ le_bytes 4 (st_modify sta) ++ le_bytes 4 (st_listen sta) ++ le_bytes 2 (st_aid sta)
          ++ field 6 (ztake 4 (st_ext_capab sta)) ++ rates_field (st_rates sta)
          ++ caps_field 26 WLAN_EID_HT_CAPABILITY (st_ht sta) ++ caps_field 12 WLAN_EID_VHT_CAPABILITY (st_vht sta)
          ++ [0; 0] ++ he_field (st_he sta) ++ [0]).

(** ** Firmware update *)

Definition cmd_process_ota_start : build := plain_request CMD_START_OTA_UPDATE [].
Definition cmd_process_ota_write (chunk : list Z) : build :=
  if OTA_CHUNK_SIZE <? zlen chunk then inl (- EINVAL)
  else plain_request CMD_START_OTA_WRITE (le_bytes 2 (zlen chunk) ++ chunk).
Definition cmd_process_ota_end : build := plain_request CMD_START_OTA_END [].
End Requests.

(** ** Into the queue *)

(** The body and [reserved1], written behind the headers of [command_request]. *)
Definition write_body (r : request) (skb : list Z) : list Z :=
  ztake (sizeof_header + 6) skb ++ [rq_reserved1 r; 0] ++ rq_body r.

(** A node with the request, queued, or the error.  Only [cmd_monitor_config] looks at
    what [queue_cmd_node] returns; a node refused there is completed with the error
    that the wait then finds. *)
Definition submit_request (if_type : Z) (r : request) (alloc : option Z) (jiffies : Z) (a : esp_adapter) (q : cmdq)
    : (Z + nat) * cmdq :=
  match prepare_command_request_for_if if_type (cmd_num (rq_code r)) (sizeof_command_header + zlen (rq_body r)) alloc a q with
  | (NodePtr i, q) =>
      match rq_abort r with
      | Some e => (inl e, recycle_cmd_node i q)
      | None =>
          let q := on_node i (fun n => n <| cmd_skb := option_map (write_body r) (cmd_skb n) |>) q in
          let '(ret, q) := queue_cmd_node i (rq_high r) jiffies a q in
          if negb (ret =? 0) && (cmd_num (rq_code r) =? cmd_num CMD_MONITOR_CONFIG)
          then (inl ret, recycle_cmd_node i q) else (inr i, q)
      end
  | (NodeErr e, q) => (inl e, q)
  | (NodeNull, q) => (inl (- ENOMEM), q)
  end.

(** ** [esp_start_ota] ([host/main.c]) *)
Section Ota.
Context {T L : Type} (ops : esp_if_ops T) (msecs_to_jiffies : Z -> Z).
(** A request over the link: not prepared, or the outcome of wait and decoder; what
    [kernel_read] returns at a position of [file]. *)
Variable exchange : request -> L -> (Z + Z) * L.
Variable kread : Z -> Z.
Variable file : list Z.

Definition esp_ota_finish_or_recover (ret : Z) (s : sys T) : sys T :=
  if ret =? 0 then s
  else if flag ESP_DRIVER_UNLOADING (ad s) || flag ESP_TRANSPORT_REMOVING (ad s) then s
  else if flag ESP_FW_RESET_EXPECTED (ad s) then s
  else restart_firmware ops msecs_to_jiffies s.

(** One stage of the update; the first one does not recover when no node was free. *)
Definition ota_stage (first : bool) (b : build) (w : sys T * L) : Z * (sys T * L) :=
  let '(r, l) := match b with inl e => (inl e, w.2) | inr r => exchange r w.2 end in
  match r with
  | inl e => (e, (if first then w.1 else esp_ota_finish_or_recover e w.1, l))
  | inr ret => (ret, (esp_ota_finish_or_recover ret w.1, l))
  end.

(** The loop from [pos]: a failed write's code, or the last [nread]. *)
Fixpoint ota_writes (fuel : nat) (pos : Z) (w : sys T * L) : (Z + Z) * (sys T * L) :=
  match fuel with
  | O => (inr 0, w)
  | S fuel =>
      let nread := kread pos in
      if nread <=? 0 then (inr nread, w)
      else
        let '(ret, w) := ota_stage false (cmd_process_ota_write (ztake nread (zdrop pos file))) w in
        if negb (ret =? 0) then (inl ret, w)
        else if nread <? OTA_CHUNK_SIZE then (inr nread, w)
        else ota_writes fuel (pos + nread) w
  end.

(** Each turn but the last moves [pos] by a whole chunk. *)
Definition ota_fuel : nat := S (length file).

Definition esp_start_ota (w : sys T * L) : Z * (sys T * L) :=
  let on_host f (w : sys T * L) := (f w.1, w.2) in
  let w := on_host (on_ad (set_flag ESP_OTA_IN_PROGRESS)) w in
  let '(ret, w) := ota_stage true cmd_process_ota_start w in
  let '(ret, w) :=
    if negb (ret =? 0) then (ret, w)
    else
      match ota_writes ota_fuel 0 w with
      | (inl ret, w) => (ret, w)
      | (inr nread, w) =>
          if nread <? 0 then (nread, on_host (esp_ota_finish_or_recover nread) w)
          else ota_stage false cmd_process_ota_end w
      end in
  (ret, on_host (on_ad (clear_flag ESP_OTA_IN_PROGRESS)) w).
End Ota.

(** *** What waits in the queue *)

Lemma node_on_node i f q : is_Some (cmd_pool q !! i) -> node i (on_node i f q) = f (node i q).
Proof. intros [n Hn]. unfold node. by rewrite pool_on_node, decide_True, Hn. Qed.
Lemma on_node_in i f q : is_Some (cmd_pool q !! i) -> is_Some (cmd_pool (on_node i f q) !! i).
Proof. intros [n Hn]. rewrite pool_on_node, decide_True, Hn by done. by exists (f n). Qed.

(** The payload header of a request. *)
Definition request_header (if_type : Z) (r : request) : esp_payload_header :=
  mk_header if_type 0 0 (pkt_code PACKET_TYPE_COMMAND_REQUEST) 0 (u16 (sizeof_command_header + zlen (rq_body r)))
    sizeof_header 0 0 0.

Lemma written_request if_type seq r :
  write_body r (command_request if_type (cmd_num (rq_code r)) seq (sizeof_command_header + zlen (rq_body r) + sizeof_header))
    = encode_header (request_header if_type r) ++ wire seq r.
Proof.
  pose proof (zlen_nonneg (rq_body r)). unfold write_body, command_request, request_header.
  replace (sizeof_command_header + zlen (rq_body r) + sizeof_header - sizeof_header)
    with (sizeof_command_header + zlen (rq_body r)) by lia.
  set (h := encode_header _). assert (Hh : zlen h = sizeof_header) by apply zlen_encode_header. clearbody h.
  set (zs := replicate _ 0). assert (Hz : sizeof_command_header <= zlen zs)
    by (unfold zs, zlen; rewrite length_replicate; unfold sizeof_command_header in *; lia). clearbody zs.
  unfold sizeof_command_header, sizeof_header in *.
  rewrite ztake_add, (ztake_app_exact 12), (zdrop_app_exact 12), ztake_ztake_le by lia. by rewrite <- app_assoc.
Qed.

Lemma prepared_request if_type code len alloc a q i q' :
  prepare_command_request_for_if if_type code len alloc a q = (NodePtr i, q') ->
  0 <= len -> Forall (fun j => is_Some (cmd_pool q !! j)) (cmd_free_queue q) ->
  is_Some (cmd_pool q' !! i) /\ cmd_pending_queue q' = cmd_pending_queue q /\ completed (node i q') = false /\ cmd_code (node i q') = code
  /\ cmd_skb (node i q') = Some (command_request if_type code (cmd_seq (node i q')) (len + sizeof_header)).
Proof.
  intros H Hl Hf. unfold prepare_command_request_for_if, get_free_cmd_node in H.
  destruct (_ || _) in H; [done|]. destruct (flag ESP_CMD_INIT_DONE a) in H; [|done].
  destruct (esp_cmd_is_admitted a code) in H; [|done]. destruct (_ && _) in H; [done|]. cbn [negb] in H.
  destruct (cmd_free_queue q) as [|j rest]; [done|]. apply Forall_cons in Hf as [Hj _].
  destruct alloc as [room|]; [|done].
  set (q1 := on_node j (fun n => n <| cmd_skb := Some [] |>) _) in H.
  assert (H1 : is_Some (cmd_pool q1 !! j)) by by repeat apply on_node_in. assert (Hp1 : cmd_pending_queue q1 = cmd_pending_queue q) by done. clearbody q1. clear Hj.
  set (q2 := on_node j _ _) in H.
  assert (H2 : is_Some (cmd_pool q2 !! j)) by by apply on_node_in.
  assert (Hn : cmd_code (node j q2) = code /\ cmd_seq (node j q2) = CmdQueue.next_seq (next_cmd_seq q1)
    /\ completed (node j q2) = false)
    by (unfold q2; by rewrite node_on_node).
  assert (Hp2 : cmd_pending_queue q2 = cmd_pending_queue q1) by done. clearbody q2. destruct Hn as (Hc & Hs & Hd).
  destruct (Z.ltb_spec (u64 (len + sizeof_header)) len); [done|].
  destruct (_ || _) eqn:Es in H; [done|]. apply orb_false_iff in Es as [Es _].
  assert (Hlen : u64 (len + sizeof_header) = len + sizeof_header).
  { apply (wrap_id 64). unfold in_width, u64, wrap, ESP_SIZE_OF_CMD_NODE, sizeof_header in *. bool_hyps.
    split; [lia|]. destruct (Z.lt_ge_cases len (2 ^ 64 - 12)); [lia|]. lia. }
  injection H as <- <-. rewrite Hlen, <- Hs. split; [by apply on_node_in|].
  split; [cbn; congruence|]. rewrite node_on_node by done. by split.
Qed.

Lemma queued_node i high jiffies a q r q' : is_Some (cmd_pool q !! i) -> queue_cmd_node i high jiffies a q = (r, q') ->
  cmd_code (node i q') = cmd_code (node i q) /\ cmd_seq (node i q') = cmd_seq (node i q)
  /\ cmd_skb (node i q') = cmd_skb (node i q)
  /\ (completed (node i q') = false ->
        cmd_pending_queue q' = if high then i :: cmd_pending_queue q else cmd_pending_queue q ++ [i]).
Proof.
  intros [n Hn] H. unfold queue_cmd_node in H. destruct (negb _) in H; apply (f_equal snd) in H; cbn [snd] in H; subst q'.
  - rewrite node_on_node by by exists n. done.
  - unfold queue_cmd_work. destruct (cmd_wq _); unfold node, on_node; cbn;
      rewrite !list_lookup_alter, Hn; cbn; rewrite !decide_True by done; done.
Qed.

(** C30: when a request built by a [cmd_*] function is accepted into the queue, the
    frame that waits there, in front or at the end, is its payload header and exactly
    the bytes the firmware's handler then reads: code, sequence number of the node,
    [reserved1] and body. *)
Theorem request_on_wire if_type r alloc jiffies a q i q' :
  Forall (fun j => is_Some (cmd_pool q !! j)) (cmd_free_queue q) ->
  submit_request if_type r alloc jiffies a q = (inr i, q') ->
  cmd_code (node i q') = cmd_num (rq_code r)
  /\ cmd_skb (node i q') = Some (encode_header (request_header if_type r) ++ wire (cmd_seq (node i q')) r)
  /\ (completed (node i q') = false ->
        cmd_pending_queue q' = if rq_high r then i :: cmd_pending_queue q else cmd_pending_queue q ++ [i]).
Proof.
  intros Hf H. unfold submit_request in H.
  destruct (prepare_command_request_for_if _ _ _ _ _ _) as [[e| |j] q1] eqn:E; [done..|].
  pose proof (zlen_nonneg (rq_body r)).
  apply prepared_request in E as (Hj & Hp & Hd & Hcode & Hskb); [|unfold sizeof_command_header; lia|done].
  destruct (rq_abort r); [done|].
  set (q2 := on_node j _ q1) in H.
  assert (H2 : is_Some (cmd_pool q2 !! j)) by by apply on_node_in.
  assert (Hn : cmd_code (node j q2) = cmd_num (rq_code r) /\ cmd_skb (node j q2)
    = Some (encode_header (request_header if_type r) ++ wire (cmd_seq (node j q2)) r)).
  { unfold q2. rewrite node_on_node by done. cbn. rewrite Hskb, Hcode. cbn. split; [done|]. f_equal. apply written_request. }
  assert (Hp2 : cmd_pending_queue q2 = cmd_pending_queue q) by done. clearbody q2. destruct Hn as [Hc Hw].
  destruct (queue_cmd_node j _ _ _ q2) as [ret q3] eqn:Eq.
  apply queued_node in Eq as (E1 & E2 & E3 & E4); [|done].
  destruct (_ && _) in H; [done|]. injection H as <- <-.
  rewrite E1, E2, E3, Hc, Hw. split; [done|]. split; [done|]. by rewrite <- Hp2.
Qed.

Definition demo_queue : cmdq := cmdq_zero <| cmd_pool := [node_zero; node_zero] |> <| cmd_free_queue := [1%nat; 0%nat] |>
  <| cmd_pending_queue := [0%nat] |> <| cmd_wq := true |>.
Definition demo_ready : esp_adapter := set_flag ESP_CMD_INIT_DONE zero_adapter.
Lemma request_on_wire_witness :
  match cmd_set_radio_service 1 with
  | inr r =>
      exists q', submit_request 2 r (Some 2048) 77 demo_ready demo_queue = (inr 1%nat, q')
      /\ cmd_skb (node 1 q') = Some (encode_header (request_header 2 r) ++ wire 1 r) /\ cmd_pending_queue q' = [1%nat; 0%nat]
  | inl _ => False
  end.
Proof.
  destruct (cmd_set_radio_service 1) as [e|r] eqn:E; [vm_compute in E; discriminate E|].
  assert (Hf : Forall (fun j => is_Some (cmd_pool demo_queue !! j)) (cmd_free_queue demo_queue))
    by (repeat constructor; by eexists).
  destruct (submit_request 2 r (Some 2048) 77 demo_ready demo_queue) as [x q'] eqn:Es.
  assert (x = inr 1%nat /\ cmd_seq (node 1 q') = 1 /\ completed (node 1 q') = false /\ rq_high r = true) as (-> & Hs & Hd & Hh)
    by (apply (f_equal (fun b => match b with inr r => r | inl _ => r end)) in E; vm_compute in E; subst r; vm_compute in Es;
        injection Es as <- <-; done).
  destruct (request_on_wire 2 r (Some 2048) 77 demo_ready demo_queue 1 q' Hf Es) as (_ & Hw & Hp).
  exists q'. rewrite Hs in Hw. specialize (Hp Hd). rewrite Hh in Hp. split; [reflexivity|]. split; [exact Hw|exact Hp].
Defined.
