(* ===== verification/CmdLink.v ===== *)
(** * CmdLink: a host request and the firmware's handler together

    [exchange] sends a request of [HostCmd] through the firmware's dispatcher
    ([FwHandlers]) and the response through the host's matching and decoding
    ([CmdQueue]).  What a host function asked for, and was told succeeded, is what
    reached the SDK: keys, information elements, and the firmware image. *)
From S2P Require Import Prelude Wire Adapter Recovery RcpFw FwPath CmdQueue RawTp RawTpRun MgmtTx FwCmd FwHandlers FwCmdSafe HostCmd.

(** ** Slices of structures *)

Lemma slice_here {A} n (l r : list A) : zlen l = n -> ztake n (zdrop 0 (l ++ r)) = l.
Proof. intros. rewrite zdrop_le0 by done. by apply ztake_app_exact. Qed.
Lemma slice_end {A} n (l : list A) : zlen l <= n -> ztake n (zdrop 0 l) = l.
Proof. intros. rewrite zdrop_le0 by done. by apply ztake_ge. Qed.
Lemma slice_skip {A} n off (l r : list A) : zlen l <= off ->
  ztake n (zdrop off (l ++ r)) = ztake n (zdrop (off - zlen l) r).
Proof.
  intros H. pose proof (zlen_nonneg l). f_equal.
  rewrite <- (zdrop_app_exact (zlen l) l r) at 2 by done.
  rewrite zdrop_zdrop by lia. f_equal. lia.
Qed.
Lemma zlen_field n b : 0 <= n -> zlen (field n b) = n.
Proof. intros. unfold field. rewrite zlen_ztake, zlen_app. unfold zlen at 2. rewrite length_replicate. pose proof (zlen_nonneg b). lia. Qed.
Lemma field_prefix n b : zlen b <= n -> ztake (zlen b) (field n b) = b.
Proof. intros. unfold field. rewrite ztake_ztake_le by done. by apply ztake_app_exact. Qed.
Lemma slice_at {A} n off (l r : list A) : off = 0 -> zlen l = n -> ztake n (zdrop off (l ++ r)) = l.
Proof. intros ->. apply slice_here. Qed.

Ltac zlen_fields := rewrite ?zlen_le_bytes, ?zlen_field by lia; unfold zlen; cbn; lia.
Ltac slice_field :=
  unfold le_at, wire, sec_key; cbn [rq_body rq_code rq_reserved1]; rewrite <- ?app_assoc;
  repeat rewrite slice_skip by zlen_fields; rewrite slice_at by zlen_fields.

(** ** The exchange *)
Section Link.
Variable be : bool.
Variable a : esp_adapter.
Variable cfg : fw_build.
Variable W : sdk.
Variable ms : Z -> Z.
Variables (chip_id : Z) (spi_transport : bool) (igtk_size pn_size : Z).
Variable if_type : Z.

Notation dispatch := (esp_cmd_dispatch cfg W ms chip_id spi_transport igtk_size pn_size if_type).
Notation entry := (find_entry cfg W ms chip_id spi_transport igtk_size pn_size).
Notation reply := (send_command_resp W).

(** The response [b] meets the node of the command in flight: [process_cmd_resp],
    then the common decoder. *)
Definition host_decode (code seq : Z) (b : list Z) : Z :=
  let n := node_zero <| cmd_code := code |> <| cmd_seq := seq |> in
  let '(r, q) := process_cmd_resp be b a (cmdq_zero <| cmd_pool := [n] |> <| cur_cmd := Some 0%nat |>) in
  if r =? 0 then decode_common_resp (node 0 q) else - ETIMEDOUT.

Record link := mk_link { lk_fw : fcmd; lk_seq : Z }.

(** Without a response the wait times out. *)
Definition exchange (r : request) (l : link) : (Z + Z) * link :=
  match rq_abort r with
  | Some e => (inl e, l)
  | None =>
      let seq := CmdQueue.next_seq (lk_seq l) in
      let '(res, s) := dispatch (wire seq r) (lk_fw l) in
      (inr (match res, drop (length (resps (lk_fw l))) (resps s) with
            | inr _, (_, b) :: _ => host_decode (cmd_num (rq_code r)) seq b
            | _, _ => - ETIMEDOUT
            end), mk_link s seq)
  end.

(** ** What a successful exchange did

    [sel] picks the calls that matter; [trip] is the state of the update. *)
Variable sel : wcall -> bool.
Hypothesis sel_tick : sel WTick = false.
Hypothesis sel_malloc : forall n, sel (WMalloc n) = false.
Hypothesis sel_respond : forall n, sel (WRespond n) = false.

Definition log (s : fcmd) : list wcall := filter (fun c => sel c = true) (calls s).
Definition trip (s : fcmd) : Z * Z * bool := (ota_handle s, update_partition s, verify_ota s).
Definition view (L : list wcall) (t : Z * Z * bool) (R : list (Z * list Z)) (s : fcmd) : Prop :=
  log s = L /\ trip s = t /\ resps s = R.
(** If a response was added that says success, [D] holds of the log and the update. *)
Definition wins (R : list (Z * list Z)) (D : list wcall -> Z * Z * bool -> Prop) (s : fcmd) : Prop :=
  forall i b tl, drop (length R) (resps s) = (i, b) :: tl -> byte_at 1 b = resp_num CMD_RESPONSE_SUCCESS ->
  D (log s) (trip s).
Definition does {A} (P : fcmd -> Prop) (m : FM A) (Q : A -> fcmd -> Prop) : Prop := hoare P m Q (fun _ _ => True).

Lemma log_call s c : log (s <| calls := calls s ++ [c] |>) = log s ++ (if sel c then [c] else []).
Proof. unfold log. cbn. rewrite filter_app. f_equal. rewrite filter_cons, filter_nil. by destruct (sel c). Qed.

Lemma does_bind {A B} P (m : FM A) (R : A -> fcmd -> Prop) (f : A -> FM B) Q :
  does P m R -> (forall x, does (R x) (f x) Q) -> does P (mbind m f) Q.
Proof. apply hoare_bind. Qed.
Lemma does_call L t R c : does (view L t R) (call W c) (fun _ => view (L ++ (if sel c then [c] else [])) t R).
Proof. intros s (H1 & H2 & H3). cbn. split; [|done]. rewrite <- H1. apply log_call. Qed.
Lemma does_call_val L t R c : does (view L t R) (call_val W c) (fun _ => view (L ++ (if sel c then [c] else [])) t R).
Proof. intros s (H1 & H2 & H3). cbn. split; [|done]. rewrite <- H1. apply log_call. Qed.
Lemma does_quiet L t R c : sel c = false -> does (view L t R) (call W c) (fun _ => view L t R).
Proof. intros Hc. generalize (does_call L t R c). by rewrite Hc, app_nil_r. Qed.

(** The rest of a computation when the payload is long enough. *)
Lemma rd_in_bounds off n (p : list Z) : 0 <= off -> 0 <= n -> off + n <= zlen p -> rd off n p = mret (ztake n (zdrop off p)).
Proof.
  intros. unfold rd. by rewrite (proj2 (Z.leb_le 0 off)), (proj2 (Z.leb_le 0 n)), (proj2 (Z.leb_le (off + n) (zlen p))) by done.
Qed.
Lemma does_rd {B} P off n p (f : list Z -> FM B) Q :
  does P (f (ztake n (zdrop off p))) Q -> does P (mbind (rd off n p) f) Q.
Proof. intros H s Hs. unfold rd, mbind. destruct (_ && _); [exact (H s Hs)|exact I]. Qed.
Lemma does_rdle {B} P n off p (f : Z -> FM B) Q :
  does P (f (le_at n off p)) Q -> does P (mbind (rdle n off p) f) Q.
Proof. intros H s Hs. unfold rdle, rd, mbind. destruct (_ && _); [exact (H s Hs)|exact I]. Qed.

(** The answer: with another status than success nothing is claimed. *)
Lemma does_reply L t R i c st d (D : list wcall -> Z * Z * bool -> Prop) :
  (st = CMD_RESPONSE_SUCCESS -> D L t) -> does (view L t R) (reply i c st d) (fun _ => wins R D).
Proof.
  intros HD s (HL & Ht & HR). unfold send_command_resp, mbind at 1, get.
  set (b := response_bytes _ _ _ _ _).
  assert (Hb : byte_at 1 b = resp_num st) by done. clearbody b.
  unfold mbind, call, set, mmodify, mret. cbv beta iota.
  assert (Hnone : forall s', resps s' = R -> wins R D s').
  { intros s' Hs' ? ? ? Hd. rewrite Hs', drop_all in Hd. done. }
  destruct (_ =? 0); [by apply Hnone|]. destruct (_ =? 1); [|by apply Hnone].
  intros j b' tl Hd Hst.
  assert (Hr : drop (length R) (R ++ [(i, b)]) = (j, b') :: tl) by (rewrite <- HR; rewrite <- HR in Hd; exact Hd).
  rewrite drop_app_length in Hr. injection Hr as -> <- <-.
  assert (Hs : st = CMD_RESPONSE_SUCCESS) by (rewrite Hb in Hst; by destruct st).
  match goal with |- D (log ?s2) _ => change (log s2) with (log (s <| calls := (calls s ++ [WMalloc (zlen b)]) ++ [WRespond (zlen b)] |>)) end.
  assert (Hl : log (s <| calls := (calls s ++ [WMalloc (zlen b)]) ++ [WRespond (zlen b)] |>) = L).
  { unfold log in *. cbn. rewrite !filter_app, !filter_cons, !filter_nil, sel_malloc, sel_respond. cbn.
    by rewrite !app_nil_r. }
  rewrite Hl. change (D L (trip s)). rewrite Ht. by apply HD.
Qed.

(** *** The dispatcher *)
Lemma ret_bind {A B} (x : A) (f : A -> FM B) : mbind (mret x) f = f x.
Proof. done. Qed.
Lemma zlen_wire seq r : zlen (wire seq r) = sizeof_command_header + zlen (rq_body r).
Proof. unfold wire. rewrite !zlen_app, zlen_le_bytes. unfold sizeof_command_header, zlen. cbn. lia. Qed.
Lemma wire_code seq r : rdle 1 0 (wire seq r) = mret (cmd_num (rq_code r)).
Proof.
  unfold rdle. rewrite rd_in_bounds by (rewrite ?zlen_wire; unfold sizeof_command_header; pose proof (zlen_nonneg (rq_body r)); lia).
  rewrite ret_bind. f_equal. unfold wire. rewrite zdrop_le0 by done.
  change (cmd_num (rq_code r) + 256 * 0 = cmd_num (rq_code r)). lia.
Qed.
Lemma wire_seq seq r : exists v, rdle 2 4 (wire seq r) = mret v.
Proof.
  unfold rdle. rewrite rd_in_bounds by (rewrite ?zlen_wire; unfold sizeof_command_header; pose proof (zlen_nonneg (rq_body r)); lia).
  by eexists.
Qed.

Lemma does_now L t R : does (view L t R) (now W) (fun _ => view L t R).
Proof. eapply does_bind; [by apply does_quiet|]. intros x. by apply hoare_ret. Qed.
Lemma does_set P (Q : fcmd -> Prop) f : (forall s, P s -> Q (f s)) -> does P (set f) (fun _ => Q).
Proof. intros H. by apply hoare_modify. Qed.
Lemma wins_now R D : does (wins R D) (now W) (fun _ => wins R D).
Proof.
  intros s Hs. change (wins R D (s <| calls := calls s ++ [WTick] |>)). intros i b tl Hd Hb.
  rewrite log_call, sel_tick, app_nil_r. exact (Hs i b tl Hd Hb).
Qed.

Lemma dispatch_wins r seq c mn h L t R D :
  entry (cmd_num (rq_code r)) = Some (c, mn, h) ->
  does (view L t R) (h if_type (wire seq r)) (fun _ => wins R D) ->
  does (view L t R) (dispatch (wire seq r)) (fun _ => wins R D).
Proof.
  intros He Hh. unfold esp_cmd_dispatch.
  rewrite (proj2 (Z.ltb_ge (zlen (wire seq r)) sizeof_command_header))
    by (rewrite zlen_wire; pose proof (zlen_nonneg (rq_body r)); lia).
  rewrite wire_code, ret_bind. destruct (wire_seq seq r) as [v ->]. rewrite ret_bind.
  eapply does_bind; [apply (does_set _ (view L t R)); by intros s Hs|intros ?; cbv beta].
  rewrite He. destruct (zlen (wire seq r) <? mn).
  { eapply does_bind; [by apply (does_reply L t R _ _ _ _ D)|]. intros ?. by apply hoare_ret. }
  eapply does_bind; [apply does_now|intros ?; cbv beta].
  eapply does_bind; [apply (does_set _ (view L t R)); by intros s Hs|intros ?; cbv beta].
  eapply does_bind; [exact Hh|intros ?; cbv beta].
  eapply does_bind; [apply wins_now|intros ?; cbv beta].
  eapply does_bind; [apply (does_set _ (wins R D)); by intros s Hs|intros ?; cbv beta]. by apply hoare_ret.
Qed.

(** *** The response *)
Lemma cpu32_status off l : 2 <= off -> off + 4 <= zlen l ->
  byte_at 1 (cpu32_at be off l) = byte_at 1 l /\ zlen (cpu32_at be off l) = zlen l.
Proof.
  intros Ho Hl. unfold cpu32_at. destruct be; [|done]. split.
  - rewrite byte_at_app by (rewrite zlen_ztake; lia).
    rewrite <- (ztake_zdrop off l) at 2. rewrite byte_at_app; [done|rewrite zlen_ztake; lia].
  - rewrite !zlen_app. unfold zlen at 2. rewrite length_rev. fold (zlen (ztake 4 (zdrop off l))).
    rewrite !zlen_ztake, !zlen_zdrop. lia.
Qed.
Lemma normalise_status b : byte_at 1 (normalise_resp be b) = byte_at 1 b.
Proof.
  unfold normalise_resp. unfold sizeof_set_get_val, sizeof_mgmt_tx.
  destruct (_ && _ && _) eqn:E1; bool_hyps.
  - destruct (cpu32_status 8 b ltac:(done) ltac:(lia)) as [Hb Hn]. rewrite <- Hb.
    destruct (_ && _) eqn:E2; [|done]. bool_hyps. apply cpu32_status; lia.
  - clear E1. destruct (_ && _) eqn:E2; [|reflexivity]. bool_hyps. apply cpu32_status; lia.
Qed.
Lemma host_decode_success code seq b : host_decode code seq b = 0 -> byte_at 1 b = resp_num CMD_RESPONSE_SUCCESS.
Proof.
  unfold host_decode, process_cmd_resp. rewrite <- (normalise_status b).
  generalize (normalise_resp be b). intros b1. cbn [cur_cmd].
  destruct (negb _); [done|]. destruct (zlen b <? _); [done|]. destruct (_ <? _); [done|]. cbn. destruct (negb _ || negb _); [done|].
  destruct (_ && _); cbn; destruct (zlen b1 <? sizeof_command_header); [done| |done|];
    unfold common_status, hdr_status; change (resp_num CMD_RESPONSE_SUCCESS) with 2; by destruct (Z.eqb_spec (byte_at 1 b1) 2).
Qed.

Lemma exchange_wins r l l' c mn h D :
  entry (cmd_num (rq_code r)) = Some (c, mn, h) ->
  (forall seq L t R, does (view L t R) (h if_type (wire seq r)) (fun _ => wins R (D L t))) ->
  exchange r l = (inr 0, l') ->
  D (log (lk_fw l)) (trip (lk_fw l)) (log (lk_fw l')) (trip (lk_fw l')).
Proof.
  intros He Hh Hx. unfold exchange in Hx. destruct (rq_abort r); [done|].
  set (seq := CmdQueue.next_seq (lk_seq l)) in Hx.
  pose proof (dispatch_wins r seq c mn h _ _ (resps (lk_fw l)) _ He (Hh seq (log (lk_fw l)) (trip (lk_fw l)) (resps (lk_fw l)))
                (lk_fw l) (conj eq_refl (conj eq_refl eq_refl))) as Hd.
  destruct (dispatch (wire seq r) (lk_fw l)) as [[e|x] s]; injection Hx as Hr <-; [done|].
  destruct (drop _ (resps s)) as [|[i b] tl] eqn:Er; [done|].
  apply (Hd i b tl Er). by apply (host_decode_success (cmd_num (rq_code r)) seq).
Qed.

(** *** Keys *)
Section AddKey.
Variables (seq algo index len seq_len : Z) (data mac sq : list Z).
Hypothesis Hrange : in_width 32 algo /\ in_width 32 index /\ in_width 32 len /\ in_width 32 seq_len.
Definition key_request : request :=
  mk_request CMD_ADD_KEY 0 (sec_key (le_bytes 4 algo) index data len mac sq seq_len 0 0) false None.
Notation p := (wire seq key_request).

Lemma key_fields : le_at 4 8 p = algo /\ le_at 4 12 p = index /\ ztake 32 (zdrop 16 p) = field 32 data /\ le_at 4 48 p = len
  /\ ztake 6 (zdrop 52 p) = field 6 mac /\ ztake 10 (zdrop 58 p) = field 10 sq /\ le_at 4 68 p = seq_len.
Proof.
  destruct Hrange as (? & ? & ? & ?). unfold key_request.
  repeat split; slice_field; rewrite ?le_val_le_bytes; by try apply wrap_id.
Qed.
End AddKey.
End Link.

(** ** Keys *)
Section Keys.
Variables (be : bool) (a : esp_adapter) (cfg : fw_build) (W : sdk) (ms : Z -> Z) (chip_id : Z) (spi_transport : bool).
Variables igtk_size pn_size if_type : Z.
Variables (index : Z) (pairwise : bool) (mac : option (list Z)) (cipher : cipher_suite) (key sq : list Z).

Definition is_key (c : wcall) : bool :=
  match c with WSetStaKey _ _ _ _ _ _ _ | WSetApKey _ _ _ _ | WSetIgtk _ _ _ _ => true | _ => false end.

(** What a key added on the host is for the SDK. *)
Definition installed_key : list wcall :=
  let algo := wpa_cipher_to_alg cipher in
  let data := if algo =? WIFI_WPA_ALG_TKIP then ztake (zlen key) (swap_mic (field 32 key)) else key in
  let mac := field 6 (key_mac pairwise mac) in
  let ap := if_type =? if_code ESP_AP_IF in
  if (algo =? WIFI_WPA_ALG_WEP40) || (algo =? WIFI_WPA_ALG_WEP104) then []
  else if negb (index =? 0) && (algo =? WIFI_WPA_ALG_IGTK)
  then [WSetIgtk (if ap then WIFI_IF_AP else WIFI_IF_STA) key sq [index; 0]]
  else if ap then [WSetApKey algo mac index data]
  else [WSetStaKey algo mac index (if index =? 0 then 1 else 0) sq data (index =? 0)].

Notation algo := (wpa_cipher_to_alg cipher).
Notation data := (if algo =? WIFI_WPA_ALG_TKIP then swap_mic (field 32 key) else field 32 key).
Hypothesis Hindex : in_width 8 index.
Hypothesis Hkey : zlen key <= MAX_KEY_LEN.
Hypothesis Hseq : zlen sq <= MAX_SEQ_LEN.

Lemma zlen_swap_mic d : zlen d = 32 -> zlen (swap_mic d) = 32.
Proof. intros. unfold swap_mic. rewrite !zlen_app, !zlen_ztake, !zlen_zdrop. lia. Qed.
Lemma sent_key : ztake (zlen key) (field 32 data) = (if algo =? WIFI_WPA_ALG_TKIP then ztake (zlen key) (swap_mic (field 32 key)) else key).
Proof.
  assert (Hf : forall d, zlen d = 32 -> field 32 d = d) by (intros; by apply ztake_app_exact).
  destruct (_ =? _).
  - by rewrite Hf by (apply zlen_swap_mic, zlen_field; done).
  - rewrite Hf by by apply zlen_field. by apply field_prefix.
Qed.

Notation r := (key_request algo index (zlen key) (zlen sq) data (key_mac pairwise mac) sq).

Lemma set_key_installs seq L t R :
  does (view is_key L t R) (set_key_internal W igtk_size pn_size if_type (wire seq r))
    (fun x s => exists L2, view is_key L2 t R s /\ (x = ESP_OK -> L2 = L ++ installed_key)).
Proof.
  assert (Ha : in_width 32 algo) by by destruct cipher.
  pose proof (zlen_nonneg key). pose proof (zlen_nonneg sq). unfold MAX_KEY_LEN, MAX_SEQ_LEN in *.
  destruct (key_fields seq algo index (zlen key) (zlen sq) data (key_mac pairwise mac) sq) as (F1 & F2 & F3 & F4 & F5 & F6 & F7).
  { unfold in_width in *. repeat split; lia. }
  assert (Hno : forall x, x <> ESP_OK -> does (view is_key L t R) (mret x)
    (fun x s => exists L2, view is_key L2 t R s /\ (x = ESP_OK -> L2 = L ++ installed_key))).
  { intros x Hx. apply hoare_ret. intros s Hs. exists L. split; [done|]. by intros ->. }
  assert (Hc : forall c, is_key c = true -> installed_key = [c] -> does (view is_key L t R) (call W c)
    (fun x s => exists L2, view is_key L2 t R s /\ (x = ESP_OK -> L2 = L ++ installed_key))).
  { intros c Hc E s Hs. pose proof (does_call W is_key L t R c s Hs) as Hs2. rewrite Hc in Hs2.
    unfold call in *. exists (L ++ [c]). rewrite E. by split. }
  unfold set_key_internal.
  apply does_rdle; rewrite F1. apply does_rdle; rewrite F2. apply does_rd; rewrite F3.
  apply does_rdle; rewrite F4. apply does_rd; rewrite F5. apply does_rd; rewrite F6. apply does_rdle; rewrite F7.
  rewrite sent_key, field_prefix by done.
  destruct (_ || _); [by apply Hno|]. unfold installed_key in *.
  destruct (_ || _); [intros s Hs; exists L; by rewrite app_nil_r|].
  destruct (_ && _) eqn:Ei.
  { destruct (_ || _); [by apply Hno|]. apply Hc; [done|]. bool_hyps.
    replace algo with WIFI_WPA_ALG_IGTK by done.
    rewrite (wrap_id 8 index) by done.
    replace (index / 256) with 0 by (rewrite Z.div_small; unfold in_width in *; lia). done. }
  destruct (if_type =? _); [by apply Hc|]. by apply Hc.
Qed.

Lemma add_key_wins seq L t R :
  does (view is_key L t R) (process_add_key W igtk_size pn_size if_type (wire seq r))
    (fun _ => wins is_key R (fun L' _ => L' = L ++ installed_key)).
Proof.
  assert (Hno : forall st, st <> CMD_RESPONSE_SUCCESS -> does (view is_key L t R)
    (send_command_resp W if_type (cmd_num CMD_ADD_KEY) st []) (fun _ => wins is_key R (fun L' _ => L' = L ++ installed_key))).
  { intros st Hst. by apply does_reply. }
  unfold process_add_key. destruct (_ <? _); [by apply Hno|]. do 2 apply does_rdle.
  destruct (_ || _); [by apply Hno|].
  eapply does_bind; [by apply does_quiet|intros m; cbv beta]. destruct (m =? 0); [by apply Hno|].
  eapply does_bind; [apply set_key_installs|intros x s (L2 & Hv & Hx)].
  refine (does_reply W is_key _ _ L2 t R _ _ _ _ _ _ s Hv); [done..|].
  unfold ok_or_fail. destruct (Z.eqb_spec x ESP_OK); [auto|done].
Qed.
End Keys.


Definition link_adapter : esp_adapter := set_flag ESP_CMD_INIT_DONE zero_adapter.
Definition demo_exchange (if_type : Z) : request -> link -> (Z + Z) * link :=
  exchange false link_adapter demo_build_bt demo_sdk id 13 false 16 6 if_type.
Definition demo_link : link := mk_link fcmd_boot 0.
Definition demo_tkip : list Z := replicate 16 1 ++ replicate 8 2 ++ replicate 8 3.


(** A big-endian host compares the converted cipher, so the halves stay as they are. *)
Example tkip_not_swapped : forall r,
  cmd_add_key true link_adapter 0 true None WLAN_CIPHER_SUITE_TKIP demo_tkip [] = inr r ->
  ztake 32 (zdrop 8 (rq_body r)) = demo_tkip /\ swap_mic demo_tkip <> demo_tkip.
Proof. intros r H. vm_compute in H. injection H as <-. split; [reflexivity|vm_compute; congruence]. Qed.

(** ** Firmware update *)
Section Update.
Variables (be : bool) (a : esp_adapter) (cfg : fw_build) (W : sdk) (ms : Z -> Z) (chip_id : Z) (spi_transport : bool).
Variables igtk_size pn_size if_type : Z.

Definition is_ota (c : wcall) : bool :=
  match c with
  | WOtaNextPartition | WOtaBegin _ | WOtaWrite _ _ | WOtaAbort _ | WOtaEnd _ | WOtaGetBoot | WOtaSetBoot _ => true
  | _ => false
  end.
(** An update that was left open is aborted first. *)
Definition aborts (h : Z) : list wcall := if h =? 0 then [] else [WOtaAbort h].

Notation view := (view is_ota).
Notation wins := (wins is_ota).
Notation exchange := (exchange be a cfg W ms chip_id spi_transport igtk_size pn_size if_type).

Lemma view_set L t t' R f : (forall s, log is_ota (f s) = log is_ota s /\ resps (f s) = resps s) ->
  (forall s, trip s = t -> trip (f s) = t') -> does (view L t R) (set f) (fun _ => view L t' R).
Proof.
  intros Hf Ht. apply does_set. intros s (H1 & H2 & H3). destruct (Hf s) as [E1 E2]. repeat split; [congruence|auto|congruence].
Qed.

Ltac trip_eq := intros ? [= ? ? ?]; unfold trip; cbn; congruence.
Lemma does_get {A B} (f : fcmd -> A) x P (m : A -> FM B) Q :
  (forall s, P s -> f s = x) -> does P (m x) Q -> does P (mbind (get f) m) Q.
Proof. intros H Hm s Hs. unfold mbind, get. rewrite (H s Hs). exact (Hm s Hs). Qed.
Lemma view_trip L h p v R s : view L (h, p, v) R s -> ota_handle s = h /\ update_partition s = p /\ verify_ota s = v.
Proof. intros (_ & Ht & _). by injection Ht. Qed.
Lemma does_no {A} P (m : FM A) (Q : A -> fcmd -> Prop) : (forall s, ~ P s) -> does P m Q.
Proof. intros H s Hs. by destruct (H s). Qed.

Lemma abort_ota L h p v R :
  does (view L (h, p, v) R) (ota_abort W) (fun _ => view (L ++ aborts h) (0, p, v) R).
Proof.
  unfold ota_abort, aborts. apply (does_get _ h); [intros s Hs; by apply view_trip in Hs as [? _]|].
  destruct (Z.eqb_spec h 0) as [->|]; [apply hoare_ret; by rewrite app_nil_r|].
  eapply does_bind; [apply does_call|intros ?; cbv beta].
  apply view_set; [done|]. trip_eq.
Qed.

Definition started (L L' : list wcall) (t t' : Z * Z * bool) : Prop :=
  exists part hnd, part <> 0 /\ t' = (hnd, part, false)
    /\ L' = L ++ aborts t.1.1 ++ [WOtaNextPartition; WOtaBegin part].
Lemma start_wins seq r L t R :
  does (view L t R) (process_ota_start W if_type (wire seq r)) (fun _ => wins R (fun L' t' => started L L' t t')).
Proof.
  destruct t as [[h p] v]. unfold process_ota_start.
  eapply does_bind; [apply abort_ota|intros ?; cbv beta].
  eapply does_bind; [apply (view_set _ _ (0, 0, false)); [done|trip_eq]|intros ?; cbv beta].
  eapply does_bind; [apply does_call|intros part; cbv beta].
  eapply does_bind; [apply (view_set _ _ (0, part, false)); [done|trip_eq]|intros ?; cbv beta].
  destruct (Z.eqb_spec part 0); [by apply does_reply|].
  eapply does_bind; [apply does_call_val|intros [o hnd]; cbv beta].
  destruct (negb _).
  { eapply does_bind; [apply (view_set _ _ (0, 0, false)); [done|trip_eq]|intros ?; cbv beta]. by apply does_reply. }
  eapply does_bind; [apply (view_set _ _ (hnd, part, false)); [done|trip_eq]|intros ?; cbv beta].
  apply does_reply; [done..|]. intros _. exists part, hnd. split; [done|]. split; [done|]. cbn. by rewrite <- !app_assoc.
Qed.

Definition write_request (chunk : list Z) : request :=
  mk_request CMD_START_OTA_WRITE 0 (le_bytes 2 (zlen chunk) ++ chunk) false None.
Definition written (chunk : list Z) (L L' : list wcall) (t t' : Z * Z * bool) : Prop :=
  L' = L ++ [WOtaWrite t.1.1 chunk] /\ t' = (t.1, true)
  /\ (t.2 = false -> le_at 2 12 chunk = chip_id /\ sizeof_esp_image_header <= zlen chunk).

Lemma write_fields seq chunk : zlen chunk <= OTA_CHUNK_SIZE ->
  le_at 2 8 (wire seq (write_request chunk)) = zlen chunk
  /\ ztake (zlen chunk) (zdrop offsetof_ota_binary (wire seq (write_request chunk))) = chunk.
Proof.
  intros H. pose proof (zlen_nonneg chunk). unfold OTA_CHUNK_SIZE, offsetof_ota_binary in *.
  split; unfold le_at, wire, write_request; cbn [rq_body rq_code rq_reserved1]; rewrite <- ?app_assoc;
    repeat rewrite slice_skip by (rewrite ?zlen_le_bytes; unfold zlen; cbn; lia).
  - rewrite slice_at by (rewrite ?zlen_le_bytes; unfold zlen; cbn; lia).
    rewrite le_val_le_bytes. apply wrap_id. unfold in_width. lia.
  - rewrite zdrop_le0 by (rewrite ?zlen_le_bytes; unfold zlen; cbn; lia). by apply ztake_ge.
Qed.

Lemma verify_wins image L h p R :
  does (view L (h, p, false) R) (verify_ota_image_header chip_id image)
    (fun r s => (r = 0 -> le_at 2 12 image = chip_id) /\ view L (h, p, bool_decide (r = 0)) R s).
Proof.
  unfold verify_ota_image_header. apply does_rdle. destruct (Z.eqb_spec (le_at 2 12 image) chip_id) as [E|]; cbn [negb].
  - eapply does_bind; [apply (view_set _ _ (h, p, true)); [done|trip_eq]|intros ?; cbv beta].
    by apply hoare_ret.
  - by apply hoare_ret.
Qed.

Lemma write_fails L t R i c D :
  does (view L t R) (ota_abort W ;;; set (fun s => s <| update_partition := 0 |> <| verify_ota := false |>) ;;;
    send_command_resp W i c CMD_RESPONSE_FAIL []) (fun _ => wins R D).
Proof.
  destruct t as [[h p] v]. eapply does_bind; [apply abort_ota|intros ?; cbv beta].
  eapply does_bind; [apply (view_set _ _ (0, 0, false)); [done|trip_eq]|intros ?; cbv beta]. by apply does_reply.
Qed.
Lemma write_wins seq chunk L t R : zlen chunk <= OTA_CHUNK_SIZE ->
  does (view L t R) (process_ota_write W chip_id if_type (wire seq (write_request chunk)))
    (fun _ => wins R (fun L' t' => written chunk L L' t t')).
Proof.
  intros Hn. destruct (write_fields seq chunk Hn) as [F1 F2]. destruct t as [[h p] v]. unfold process_ota_write.
  destruct (_ <? _); [by apply does_reply|]. apply does_rdle. rewrite F1.
  apply (does_get _ v); [intros s Hs; by apply view_trip in Hs as (_ & _ & ?)|].
  destruct (_ || _) eqn:Eg; [by apply does_reply|]. apply orb_false_iff in Eg as [_ Eg].
  apply does_rd. rewrite F2.
  apply (does_bind _ _ (fun r s => (r = 0 -> v = false -> le_at 2 12 chunk = chip_id)
    /\ exists v', (r = 0 -> v' = true) /\ view L (h, p, v') R s)).
  { destruct v; [apply hoare_ret; intros s Hs; split; [done|]; by exists true|].
    intros s Hs. pose proof (verify_wins chunk L h p R s Hs) as Hv.
    destruct (verify_ota_image_header _ _ s) as [[e|r] s']; [done|]. destruct Hv as [H1 H2]. split; [auto|].
    exists (bool_decide (r = 0)). split; [apply bool_decide_eq_true_2|done]. }
  intros r. destruct (Z.eqb_spec r 0) as [->|Hr]; cbn [negb].
  - intros s (Hid & v' & Hv' & Hs). rewrite (Hv' eq_refl) in Hs. revert s Hs.
    eapply does_bind; [apply (does_get _ h); [intros s Hs; by apply view_trip in Hs as [? _]|apply does_call]|intros r; cbv beta].
    destruct (r =? 0); [|apply write_fails]. apply does_reply; [done..|]. intros _.
    split; [done|]. split; [done|]. cbn. intros ->. split; [auto|]. cbn in Eg. lia.
  - intros s (_ & v' & _ & Hs). rewrite ret_bind. destruct (Z.eqb_spec r 0); [done|]. by apply (write_fails L (h, p, v')).
Qed.

(** *** The end *)
Definition committed (L L' : list wcall) (t : Z * Z * bool) : Prop :=
  L' = L ++ [WOtaEnd t.1.1; WOtaGetBoot; WOtaSetBoot t.1.2].
Lemma commit_wins L t R :
  does (view L t R) (ota_commit W) (fun st s => exists L2 t2, view L2 t2 R s /\ (st = CMD_RESPONSE_SUCCESS -> committed L L2 t)).
Proof.
  destruct t as [[h p] v]. unfold ota_commit.
  assert (Hno : forall L2 t2, does (view L2 t2 R) (mret CMD_RESPONSE_FAIL)
    (fun st s => exists L2 t2, view L2 t2 R s /\ (st = CMD_RESPONSE_SUCCESS -> committed L L2 (h, p, v)))).
  { intros. apply hoare_ret. intros s Hs. by exists L2, t2. }
  apply (does_get _ h); [intros s Hs; by apply view_trip in Hs as [? _]|].
  eapply does_bind; [apply does_call|intros r; cbv beta].
  eapply does_bind; [apply (view_set _ _ (0, p, v)); [done|trip_eq]|intros ?; cbv beta].
  destruct (negb _); [apply Hno|].
  eapply does_bind; [by apply does_quiet|intros timer; cbv beta]. destruct (timer =? 0); [apply Hno|].
  eapply does_bind; [apply does_call|intros old; cbv beta].
  apply (does_get _ p); [intros s Hs; by apply view_trip in Hs as (_ & ? & _)|].
  eapply does_bind; [apply does_call|intros r2; cbv beta].
  destruct (negb _); [eapply does_bind; [by apply does_quiet|intros ?; apply Hno]|].
  eapply does_bind; [by apply does_quiet|intros go; cbv beta].
  destruct (go =? 1).
  - apply hoare_ret. intros s Hs. eexists _, _. split; [exact Hs|]. intros _. unfold committed. cbn. by rewrite <- !app_assoc.
  - intros s Hs. destruct (old =? 0); [rewrite ret_bind|]; revert s Hs.
    + eapply does_bind; [by apply does_quiet|intros ?; apply Hno].
    + eapply does_bind; [apply does_call|intros r3; cbv beta]. destruct (negb _); [by intros s Hs|].
      eapply does_bind; [by apply does_quiet|intros ?; apply Hno].
Qed.
Lemma end_wins seq r L t R :
  does (view L t R) (process_ota_end W if_type (wire seq r)) (fun _ => wins R (fun L' _ => committed L L' t)).
Proof.
  unfold process_ota_end. eapply does_bind; [apply commit_wins|intros st s (L2 & [[h p] v] & Hs & Hc)]. revert s Hs.
  eapply does_bind; [apply (view_set _ _ (0, 0, false)); [done|trip_eq]|intros ?; cbv beta].
  apply does_reply; [done..|exact Hc].
Qed.

(** *** The whole update *)
Lemma start_exchange r l l' : cmd_process_ota_start = inr r -> exchange r l = (inr 0, l') ->
  started (log is_ota (lk_fw l)) (log is_ota (lk_fw l')) (trip (lk_fw l)) (trip (lk_fw l')).
Proof.
  intros [= <-]. eapply (exchange_wins _ _ _ _ _ _ _ _ _ _ is_ota eq_refl (fun _ => eq_refl) (fun _ => eq_refl) _ _ _
    CMD_START_OTA_UPDATE 0 (process_ota_start W) (fun L t L' t' => started L L' t t')); [done|].
  intros. apply start_wins.
Qed.
Lemma write_exchange chunk l l' : zlen chunk <= OTA_CHUNK_SIZE -> exchange (write_request chunk) l = (inr 0, l') ->
  written chunk (log is_ota (lk_fw l)) (log is_ota (lk_fw l')) (trip (lk_fw l)) (trip (lk_fw l')).
Proof.
  intros Hn. eapply (exchange_wins _ _ _ _ _ _ _ _ _ _ is_ota eq_refl (fun _ => eq_refl) (fun _ => eq_refl) _ _ _
    CMD_START_OTA_WRITE 0 (process_ota_write W chip_id) (fun L t L' t' => written chunk L L' t t')); [done|].
  intros. by apply write_wins.
Qed.
Lemma end_exchange r l l' : cmd_process_ota_end = inr r -> exchange r l = (inr 0, l') ->
  committed (log is_ota (lk_fw l)) (log is_ota (lk_fw l')) (trip (lk_fw l)).
Proof.
  intros [= <-]. eapply (exchange_wins _ _ _ _ _ _ _ _ _ _ is_ota eq_refl (fun _ => eq_refl) (fun _ => eq_refl) _ _ _
    CMD_START_OTA_END 0 (process_ota_end W) (fun L t L' _ => committed L L' t)); [done|].
  intros. apply end_wins.
Qed.

Context {T : Type} (ops : esp_if_ops T) (m2j : Z -> Z).
Variables (kread : Z -> Z) (file : list Z).
Notation stage := (ota_stage ops m2j exchange).
Hypothesis regular : forall pos, 0 <= pos -> kread pos = Z.max 0 (Z.min OTA_CHUNK_SIZE (zlen file - pos)).

Lemma stage_ok first r w w' : rq_abort r = None -> stage first (inr r) w = (0, w') -> exchange r w.2 = (inr 0, w'.2).
Proof.
  intros Hr. unfold ota_stage. destruct (exchange r w.2) as [[e|ret] l] eqn:E.
  - unfold CmdLink.exchange in E. rewrite Hr in E. by destruct (esp_cmd_dispatch _ _ _ _ _ _ _ _ _ _).
  - by intros [= -> <-].
Qed.

Lemma writes_ok fuel : forall pos w n w', 0 <= pos <= zlen file -> zlen file - pos < Z.of_nat fuel ->
  ota_writes ops m2j exchange kread file fuel pos w = (inr n, w') ->
  0 <= n /\ exists chunks, concat chunks = zdrop pos file
    /\ log is_ota (lk_fw w'.2) = log is_ota (lk_fw w.2) ++ map (WOtaWrite (trip (lk_fw w.2)).1.1) chunks
    /\ (trip (lk_fw w'.2)).1 = (trip (lk_fw w.2)).1
    /\ ((trip (lk_fw w.2)).2 = false -> chunks <> [] -> le_at 2 12 (zdrop pos file) = chip_id).
Proof.
  induction fuel as [|fuel IH]; intros pos w n w' Hp Hf; [lia|]. cbn [ota_writes]. rewrite regular by lia.
  pose proof (zlen_zdrop pos file) as Hz. unfold OTA_CHUNK_SIZE in *.
  destruct (Z.leb_spec (Z.max 0 (Z.min 1016 (zlen file - pos))) 0).
  { intros [= <- <-]. split; [lia|]. exists []. rewrite app_nil_r. rewrite (zlen_0_nil (zdrop pos file)) by lia. done. }
  set (nr := Z.max 0 (Z.min 1016 (zlen file - pos))) in *. set (c := ztake nr (zdrop pos file)).
  assert (Hc : zlen c = nr) by (unfold c; rewrite zlen_ztake; lia).
  unfold cmd_process_ota_write, OTA_CHUNK_SIZE. rewrite (proj2 (Z.ltb_ge 1016 (zlen c))) by lia.
  destruct (stage _ _ w) as [ret w1] eqn:Es. destruct (Z.eqb_spec ret 0) as [->|]; [|done]. cbn [negb].
  apply (stage_ok false (write_request c)) in Es; [|done]. apply write_exchange in Es as (HL & Ht & Hid); [|unfold OTA_CHUNK_SIZE; lia].
  assert (Hfile : c ++ zdrop (pos + nr) file = zdrop pos file).
  { rewrite <- (ztake_zdrop nr (zdrop pos file)), zdrop_zdrop by lia. done. }
  assert (Hhead : (trip (lk_fw w.2)).2 = false -> le_at 2 12 (zdrop pos file) = chip_id).
  { intros Hv. destruct (Hid Hv) as [Hi Hl]. unfold sizeof_esp_image_header in Hl. rewrite <- Hfile, le_at_app by lia. done. }
  destruct (Z.ltb_spec nr 1016).
  - intros [= <- <-]. split; [lia|]. exists [c]. rewrite HL, Ht. split; [|auto]. cbn. rewrite app_nil_r.
    unfold c. apply ztake_ge. lia.
  - intros Hw. apply IH in Hw as (Hn & cs & Hcs & HL' & Ht' & _); [|lia..]. split; [done|]. exists (c :: cs).
    rewrite Ht in HL', Ht'. cbn [concat map]. rewrite Hcs, HL', HL, Ht', <- app_assoc. auto.
Qed.

Lemma writes_err fuel : forall pos w e w', ota_writes ops m2j exchange kread file fuel pos w = (inl e, w') -> e <> 0.
Proof.
  induction fuel as [|fuel IH]; intros pos w e w'; cbn [ota_writes]; [done|].
  destruct (_ <=? _); [done|]. destruct (stage _ _ _) as [ret w1]. destruct (Z.eqb_spec ret 0); cbn [negb].
  - destruct (_ <? _); [done|]. apply IH.
  - by intros [= <- _].
Qed.

Definition update_calls (old part hnd : Z) (chunks : list (list Z)) : list wcall :=
  aborts old ++ [WOtaNextPartition; WOtaBegin part] ++ map (WOtaWrite hnd) chunks
  ++ [WOtaEnd hnd; WOtaGetBoot; WOtaSetBoot part].
Definition update_done (l l' : link) : Prop :=
  exists part hnd chunks, part <> 0 /\ concat chunks = file /\ (file <> [] -> le_at 2 12 file = chip_id)
    /\ log is_ota (lk_fw l') = log is_ota (lk_fw l) ++ update_calls (ota_handle (lk_fw l)) part hnd chunks.

Lemma update_ok w w' : esp_start_ota ops m2j exchange kread file w = (0, w') -> update_done w.2 w'.2.
Proof.
  unfold esp_start_ota. set (w0 := (_, w.2)). destruct (stage true _ w0) as [ret w1] eqn:E1.
  destruct (Z.eqb_spec ret 0) as [->|]; cbn [negb]; [|by intros [= ? _]].
  apply (stage_ok true _ w0 w1) in E1; [|done]. apply start_exchange in E1 as (part & hnd & Hp & Ht1 & HL1); [|done].
  destruct (ota_writes _ _ _ _ _ _ 0 w1) as [[ret|n] w2] eqn:E2.
  { apply writes_err in E2. by intros [= ? _]. }
  apply writes_ok in E2 as (Hn & chunks & Hc & HL2 & Ht2 & Hid); [|unfold ota_fuel, zlen; lia..].
  rewrite (proj2 (Z.ltb_ge n 0)) by done. destruct (stage false _ w2) as [ret w3] eqn:E3. intros [= -> <-].
  apply (stage_ok false _ w2 w3) in E3; [|done]. apply end_exchange in E3 as HL3; [|done].
  exists part, hnd, chunks.
  change (lk_fw w0.2) with (lk_fw w.2) in HL1. unfold committed in HL3. rewrite Ht2, HL2, HL1, Ht1 in HL3. cbn in HL3.
  split; [done|]. split; [done|]. split.
  - intros Hf. apply Hid; [by rewrite Ht1|]. intros ->. by destruct Hf.
  - unfold update_calls. cbn. rewrite HL3, <- !app_assoc. done.
Qed.
End Update.

(** C27: when [esp_start_ota] returns success for a regular file, the firmware aborted an
    update left open, opened the next partition, wrote to it chunks that are together
    exactly the file, in order and each once, closed it and made it the boot partition,
    with no other OTA call in between; and the chip id in the file is the device's. *)
Theorem ota_image_installed {T} be a cfg W ms chip_id spi_transport igtk_size pn_size if_type (ops : esp_if_ops T) m2j kread file s l s' l' :
  (forall pos, 0 <= pos -> kread pos = Z.max 0 (Z.min OTA_CHUNK_SIZE (zlen file - pos))) ->
  esp_start_ota ops m2j (exchange be a cfg W ms chip_id spi_transport igtk_size pn_size if_type) kread file (s, l)
    = (0, (s', l')) ->
  exists part hnd chunks, part <> 0 /\ concat chunks = file /\ (file <> [] -> le_at 2 12 file = chip_id)
    /\ log is_ota (lk_fw l') = log is_ota (lk_fw l) ++ update_calls (ota_handle (lk_fw l)) part hnd chunks.
Proof.
  intros Hk H. apply (update_ok be a cfg W ms chip_id spi_transport igtk_size pn_size if_type ops m2j kread file Hk (s, l) (s', l') H).
Qed.

Definition ota_sdk : sdk := mk_sdk
  (fun _ c => match c with WMalloc _ | WRespond _ | WTimerCreate | WTimerStart => 1 | WOtaNextPartition => 3 | _ => ESP_OK end)
  (fun _ _ => [7]) (fun _ => []) (fun _ => demo_te) (fun _ => demo_radio) (fun _ => env_ok).
Definition demo_image : list Z := replicate 12 5 ++ [13; 0] ++ replicate 1500 6.
Definition demo_kread (pos : Z) : Z := Z.max 0 (Z.min OTA_CHUNK_SIZE (zlen demo_image - pos)).
Definition link_ops : esp_if_ops unit := mk_if_ops None None None None None (fun _ s => (0, s)).
Definition demo_update : Z * (sys unit * link) :=
  esp_start_ota link_ops id (exchange false link_adapter demo_build_bt ota_sdk id 13 false 16 6 2) demo_kread demo_image
    (mk_sys link_adapter tt 1000 None None 0, demo_link).

Lemma ota_image_installed_witness : exists part hnd chunks, part <> 0 /\ concat chunks = demo_image
  /\ log is_ota (lk_fw demo_update.2.2) = update_calls 0 part hnd chunks.
Proof.
  unfold demo_update. destruct (esp_start_ota _ _ _ _ _ _) as [r [s' l']] eqn:E.
  assert (r = 0) as -> by (apply (f_equal fst) in E; vm_compute in E; congruence).
  destruct (ota_image_installed false link_adapter demo_build_bt ota_sdk id 13 false 16 6 2 link_ops id demo_kread demo_image
    (mk_sys link_adapter tt 1000 None None 0) demo_link s' l' (fun _ _ => eq_refl) E) as (part & hnd & chunks & H1 & H2 & _ & H3).
  exists part, hnd, chunks. auto.
Defined.
Example demo_update_chunks : map (fun c => match c with WOtaWrite _ b => zlen b | _ => 0 end) (log is_ota (lk_fw demo_update.2.2))
  = [0; 0; 1016; 498; 0; 0; 0].
Proof. vm_compute. reflexivity. Qed.

(** ** Every request fits the firmware's handler *)
Section Issued.
Variables (be : bool) (a : esp_adapter) (dev_if : Z).

(** The requests of the [cmd_*] functions. *)
Inductive issued (r : request) : Prop :=
  | is_mcast n l : cmd_set_mcast_mac_list a n l = inr r -> issued r
  | is_ip ip : cmd_set_ip_address a ip = inr r -> issued r
  | is_time sec usec : cmd_update_fw_time a sec usec = inr r -> issued r
  | is_init : cmd_init_interface = inr r -> issued r
  | is_deinit : cmd_deinit_interface a = inr r -> issued r
  | is_monitor on ch : cmd_monitor_config on ch = inr r -> issued r
  | is_rssi : cmd_get_rssi dev_if = inr r -> issued r
  | is_get_mac : cmd_get_mac = inr r -> issued r
  | is_set_mac mac : cmd_set_mac mac = inr r -> issued r
  | is_mode m : cmd_set_mode a m = inr r -> issued r
  | is_stop_ap : cmd_stop_ap a dev_if = inr r -> issued r
  | is_set_power p : cmd_set_tx_power a p = inr r -> issued r
  | is_get_power : cmd_get_tx_power = inr r -> issued r
  | is_get_reg : cmd_get_reg_domain = inr r -> issued r
  | is_set_reg c0 c1 : cmd_set_reg_domain c0 c1 = inr r -> issued r
  | is_wow b1 b2 b3 b4 b5 : cmd_set_wow_config b1 b2 b3 b4 b5 = inr r -> issued r
  | is_set_radio s : cmd_set_radio_service s = inr r -> issued r
  | is_get_radio : cmd_get_radio_service = inr r -> issued r
  | is_raw mode h : (cmd_init_raw_tp_task_timer mode h).1 = inr r -> issued r
  | is_scan ssids il n el ch bssid d b : cmd_scan_request be a ssids il n el ch bssid d b = inr r -> issued r
  | is_internal_scan ssid ch b : internal_scan_request a ssid ch b = inr r -> issued r
  | is_disconnect reason mac st : cmd_disconnect_request a dev_if reason mac st = inr r -> issued r
  | is_assoc ie re cp p : cmd_assoc_request a dev_if ie re cp p = inr r -> issued r
  | is_authorized bssid on : cmd_sta_set_authorized a dev_if bssid on = inr r -> issued r
  | is_auth ssid bssid ch t ad ie key p : cmd_auth_request a dev_if ssid bssid ch t ad ie key p = inr r -> issued r
  | is_mgmt st j f ch w o n d p : (cmd_mgmt_request st j f ch w o n d p).1 = inr r -> issued r
  | is_default_key i : cmd_set_default_key a i = inr r -> issued r
  | is_del_key i pw mac : cmd_del_key a i pw mac = inr r -> issued r
  | is_add_key i pw mac c key sq : cmd_add_key be a i pw mac c key sq = inr r -> issued r
  | is_ie t ie : cmd_set_ie a t ie = inr r -> issued r
  | is_ap_config c : cmd_set_ap_config a dev_if c = inr r -> issued r
  | is_station mac sta ch : cmd_add_station a dev_if mac sta ch = inr r -> issued r
  | is_ota_start : cmd_process_ota_start = inr r -> issued r
  | is_ota_write c : cmd_process_ota_write c = inr r -> issued r
  | is_ota_end : cmd_process_ota_end = inr r -> issued r.

(** For the requests with a tail: the width and place of the tail's length, and where
    the tail begins. *)
Definition flexible (c : COMMAND_CODE) : option (nat * Z * Z) :=
  match c with
  | CMD_STA_ASSOC => Some (1%nat, 8, offsetof_assoc_ie)
  | CMD_STA_AUTH => Some (1%nat, 77, offsetof_auth_data)
  | CMD_SET_IE => Some (2%nat, 10, offsetof_ie)
  | CMD_START_OTA_WRITE => Some (2%nat, 8, offsetof_ota_binary)
  | CMD_MGMT_TX => Some (4%nat, 24, sizeof_mgmt_tx)
  | _ => None
  end.
(** The sizes the handlers check themselves. *)
Definition fixed_size (c : COMMAND_CODE) : Z :=
  match c with
  | CMD_ADD_KEY | CMD_DEL_KEY | CMD_SET_DEFAULT_KEY => sizeof_key_operation
  | CMD_SET_MODE => sizeof_config_mode
  | CMD_AP_CONFIG => sizeof_ap_config
  | CMD_RAW_TP_ESP_TO_HOST | CMD_RAW_TP_HOST_TO_ESP | CMD_RAW_TP_BIDIRECTIONAL => sizeof_command_header + 4
  | _ => sizeof_command_header
  end.

Definition fits (r : request) : Prop :=
  let total := sizeof_command_header + zlen (rq_body r) in
  (forall cfg W ms chip_id spi igtk pn, exists c mn h,
     find_entry cfg W ms chip_id spi igtk pn (cmd_num (rq_code r)) = Some (c, mn, h) /\ mn <= total)
  /\ fixed_size (rq_code r) <= total
  /\ (forall seq n off data, flexible (rq_code r) = Some (n, off, data) -> le_at n off (wire seq r) = total - data).

Lemma zlen_sec_key algo index data len mac seq seq_len del cur : zlen algo = 4 ->
  zlen (sec_key algo index data len mac seq seq_len del cur) = 68.
Proof. intros H. unfold sec_key. rewrite !zlen_app, !zlen_le_bytes, !zlen_field, H by lia. done. Qed.
Lemma zlen_native n v : zlen (native_bytes be n v) = Z.of_nat n.
Proof. unfold native_bytes. destruct be; [|apply zlen_le_bytes]. unfold zlen. by rewrite length_rev, length_le_bytes. Qed.

Lemma zlen_rates l : zlen (rates_field l) = 12.
Proof. unfold rates_field. destruct (_ =? _); by rewrite zlen_field. Qed.
Lemma zlen_caps n eid c : 0 <= n -> zlen (caps_field n eid c) = n + 2.
Proof. intros. unfold caps_field. destruct c; rewrite zlen_field; lia. Qed.
Lemma zlen_he he : zlen (he_field he) = 27.
Proof. unfold he_field. destruct he as [h|]; [destruct (_ =? _)|]; by rewrite zlen_field. Qed.
Lemma zlen_auth_data ad ie : zlen (auth_data_bytes ad ie) = auth_data_len ad ie.
Proof.
  unfold auth_data_bytes, auth_data_len. destruct (Z.eqb_spec (zlen ad) 0) as [E|], (Z.eqb_spec (zlen ie) 0) as [E2|];
    rewrite ?zlen_app; unfold zlen in *; cbn; lia.
Qed.

(** The part that does not depend on the tail. *)
Lemma fits_fixed c r1 body high ab mn :
  (forall cfg W ms chip_id spi igtk pn, exists h,
     find_entry cfg W ms chip_id spi igtk pn (cmd_num c) = Some (c, mn, h)) ->
  mn <= sizeof_command_header + zlen body -> fixed_size c <= sizeof_command_header + zlen body ->
  flexible c = None -> fits (mk_request c r1 body high ab).
Proof.
  intros He Hm Hs Hf. split; [|split; [done|by cbn [rq_code]; rewrite Hf]]. intros cfg W ms chip_id spi igtk pn.
  destruct (He cfg W ms chip_id spi igtk pn) as [h Hh]. by exists c, mn, h.
Qed.
Ltac body_size :=
  cbn [rq_body]; rewrite ?zlen_app, ?zlen_le_bytes, ?zlen_native, ?zlen_sec_key, ?zlen_rates, ?zlen_he by done;
  rewrite ?zlen_caps, ?zlen_field by lia; vm_compute; discriminate.
Ltac fixed_request :=
  eapply fits_fixed; [intros; eexists; reflexivity|body_size|body_size|reflexivity].

(** The checks of a builder, then what it sends. *)
Lemma fits_sent x r : (inr x : build) = inr r -> fits x -> fits r.
Proof. by intros [= <-]. Qed.
Ltac past_checks H :=
  cbv zeta in H; repeat match type of H with
  | context [if ?c then inl _ else _] => destruct c eqn:?; [discriminate H|]
  | context [if ?c then plain_request _ _ else _] => destruct c eqn:?
  end; try discriminate H; apply (fits_sent _ _ H); clear H.


(** Those with a tail. *)
Lemma fits_tail c r1 body high ab mn n off data :
  (forall cfg W ms chip_id spi igtk pn, exists h,
     find_entry cfg W ms chip_id spi igtk pn (cmd_num c) = Some (c, mn, h)) ->
  mn <= sizeof_command_header + zlen body -> fixed_size c <= sizeof_command_header + zlen body ->
  flexible c = Some (n, off, data) ->
  (forall seq, le_at n off (wire seq (mk_request c r1 body high ab)) = sizeof_command_header + zlen body - data) ->
  fits (mk_request c r1 body high ab).
Proof.
  intros He Hm Hs Hf Hl. split; [|split; [done|]].
  - intros cfg W ms chip_id spi igtk pn. destruct (He cfg W ms chip_id spi igtk pn) as [h Hh]. by exists c, mn, h.
  - cbn [rq_code rq_body]. rewrite Hf. by intros seq ? ? ? [= <- <- <-].
Qed.
Ltac tail_size := cbn [rq_body fixed_size]; rewrite ?zlen_app, ?zlen_le_bytes, ?zlen_field by lia;
  unfold sizeof_command_header, offsetof_assoc_ie, offsetof_auth_data, offsetof_ie, offsetof_ota_binary, sizeof_mgmt_tx, zlen in *;
  cbn in *; lia.
Ltac tail_request := eapply fits_tail; [intros; eexists; reflexivity|tail_size|tail_size|reflexivity|intros seq].
Ltac to_field :=
  unfold le_at, wire; cbn [rq_body rq_code rq_reserved1]; rewrite <- ?app_assoc; repeat rewrite slice_skip by zlen_fields.
Lemma one_byte n x l l2 : n = 0 -> le_val (ztake (Z.of_nat 1) (zdrop n ((x :: l) ++ l2))) = x.
Proof. intros ->. change (x + 256 * 0 = x). lia. Qed.

Lemma assoc_fits ie re cp p r : cmd_assoc_request a dev_if ie re cp p = inr r -> fits r.
Proof.
  intros H. unfold cmd_assoc_request in H. past_checks H. pose proof (zlen_nonneg ie). tail_request.
  to_field. rewrite one_byte by zlen_fields. tail_size.
Qed.
Lemma auth_fits ssid bssid ch t ad ie key p r : cmd_auth_request a dev_if ssid bssid ch t ad ie key p = inr r -> fits r.
Proof.
  intros H. unfold cmd_auth_request in H. destruct ssid as [ssid|]; past_checks H.
  pose proof (zlen_auth_data ad ie) as Ha. pose proof (zlen_nonneg (auth_data_bytes ad ie)). tail_request.
  to_field. rewrite one_byte by zlen_fields. tail_size.
Qed.
Lemma ie_fits t ie r : cmd_set_ie a t ie = inr r -> fits r.
Proof.
  intros H. unfold cmd_set_ie in H. past_checks H. unfold U16_MAX in *. bool_hyps. pose proof (zlen_nonneg ie). tail_request.
  to_field. rewrite slice_at by zlen_fields. rewrite le_val_le_bytes, wrap_id by (unfold in_width; lia). tail_size.
Qed.
Lemma ota_write_fits c r : cmd_process_ota_write c = inr r -> fits r.
Proof.
  intros H. unfold cmd_process_ota_write in H. past_checks H. unfold OTA_CHUNK_SIZE in *. bool_hyps. pose proof (zlen_nonneg c).
  tail_request. to_field. rewrite slice_at by zlen_fields. rewrite le_val_le_bytes, wrap_id by (unfold in_width; lia). tail_size.
Qed.
Lemma mgmt_fits st j f ch w o n d p r : (cmd_mgmt_request st j f ch w o n d p).1 = inr r -> fits r.
Proof.
  intros H. unfold cmd_mgmt_request in H. destruct (_ =? _); [done|]. destruct (U16_MAX <? _) eqn:E; [done|].
  destruct (mgmt_reserve _ _ _); [|done]. cbn [fst] in H. apply (fits_sent _ _ H).
  unfold U16_MAX in *. bool_hyps. pose proof (zlen_nonneg f). unfold sizeof_mgmt_tx in *. tail_request.
  to_field. rewrite slice_at by zlen_fields. rewrite le_val_le_bytes, wrap_id by (unfold in_width; lia). tail_size.
Qed.

End Issued.

